(* ===== verification/_CoqProject ===== *)
-Q . S2P
Prelude.v
Constants.v
GoText.v
GoNumber.v
Json.v
Stats.v
DateBucket.v
Alerting.v
Store.v
Frame.v
RunContract.v
RunState.v
RunRepository.v
SiteFence.v
TaskScope.v
TaskClaim.v
TaskCommit.v
RunFrames.v
RunInvariant.v
TaskRecovery.v
Materialize.v
QueueClaim.v
QueueSteps.v
QueueRecovery.v
QueueCreate.v
QueueMaterialize.v
QueueSafety.v
UsageFrames.v
QueueBehaviour.v
CommitBehaviour.v
RecoveryBehaviour.v
MaterializeBehaviour.v
FenceBehaviour.v
CreateBehaviour.v
RunStateBehaviour.v
UsageFacts.v
UsageAggregation.v
LocalRebuild.v
RollupLemmas.v
RollupRebuild.v
UsageFactsBehaviour.v
BucketKeys.v
UsageWindowBehaviour.v
UsageRecordBehaviour.v
StatisticsExact.v
AggregationBehaviour.v
LocalRebuildBehaviour.v
AggregationCommit.v
UsageReconcile.v
UsageReconcileBehaviour.v
UsageCollection.v
UsageCollectionBehaviour.v
WorkerErrors.v
Jobs.v
Queues.v
Executor.v
Worker.v
ExecutorBehaviour.v
WorkerSafety.v
WorkerAdmission.v
FastDispatch.v
FastDispatchBehaviour.v
Scheduler.v
SchedulerBehaviour.v
ValidationBehaviour.v
StatisticsPause.v
AccountLifecycle.v
CustomerLifecycle.v
PauseBehaviour.v
LifecycleBehaviour.v
LifecycleSafety.v
AlertMessages.v
AlertDelivery.v
AlertRules.v
AlertEvaluation.v
AlertDeliveryBehaviour.v
AlertEvaluationBehaviour.v
AlertMachine.v
Governor.v
GovernorBehaviour.v
