(* ===== verification/Prelude.v ===== *)
(** * New API Pilot: a verification library for its core

    New API Pilot polls many "new-api" sites, stores what they report hour by
    hour, shows statistics over it and raises alerts.  The library covers the
    parts whose mistakes would corrupt data or lose an alarm: the persistent
    queue of collection runs and the worker that empties it, the facts of an
    hour, the statistics derived from them, the lifecycle of accounts and
    customers that suspends those statistics, the governor that paces the
    requests to an upstream, and the alerts with the outbox of their messages.

    ** Parts of the program and their files

    Shared.
    - [Prelude]: errors, the result type, the transaction monad [ST], sorting by
      keys, 64-bit bounds.
    - [Constants], [GoText]: the vocabulary of [constant/], Go's strings.
    - [Store]: the tables of the queue and of the usage ([model/*.go]) as finite
      maps from ids to records, [gorm]'s calls on them; [Tx] is a transaction:
      an [Err] discards its writes.  [Stats]: the tables of the statistics.
    - [Frame], [RunFrames]: which tables an operation leaves alone.

    The queue ([model/site_run.go], [model/site_run_state.go],
    [model/site_fence.go], [model/collection_task.go]).
    - [RunContract]: runs, scopes, active keys, ranges and expected hours.
    - [RunState]: recalculation of a run from its windows.
    - [SiteFence]: creating runs, the fence of a site, monitoring pauses.
    - [RunRepository]: enqueueing, window runs over the gaps of a range.
    - [TaskScope], [TaskClaim], [TaskCommit], [TaskRecovery], [Materialize]: a
      task's sites and locks, claiming, committing, releasing and recovering,
      inserting the windows of a run.
    - [RunInvariant], [QueueClaim], [QueueSteps], [QueueRecovery],
      [QueueCreate], [QueueMaterialize], [QueueSafety]: the invariant
      [queue_inv], that each operation keeps it, and the step relation
      [queue_step] of all transactions of the queue in any order.
    - [QueueBehaviour], [CommitBehaviour], [RecoveryBehaviour],
      [MaterializeBehaviour], [FenceBehaviour], [CreateBehaviour],
      [RunStateBehaviour]: what each operation does, errors included.

    The usage of an hour ([service/usage_collection.go], [model/usage_fact.go],
    [model/usage_cursor.go]).
    - [UsageReconcile]: comparing the two reports of an hour.
    - [UsageFacts]: canonical facts, their hash, the mutations of a collected and
      of a failed hour, the cursor.
    - [UsageCollection]: [CollectHour], from the claimed window to the handler
      that commits it; expiring a refused authorization.
    - [UsageReconcileBehaviour], [UsageFactsBehaviour], [UsageWindowBehaviour],
      [UsageRecordBehaviour], [UsageCollectionBehaviour]: their theorems.

    The statistics ([model/usage_aggregation.go], [model/local_rebuild.go]).
    - [DateBucket]: the civil day of an hour.
    - [UsageAggregation]: coverage, the six roll-ups hourly and daily, the daily
      facts, bucket locks, the commit of an hour; [LocalRebuild]: the rebuild of
      a paused account or customer.
    - [RollupLemmas], [RollupRebuild], [BucketKeys], [StatisticsExact],
      [AggregationBehaviour], [LocalRebuildBehaviour], [AggregationCommit].

    The worker ([worker/executor.go], [worker/queues.go], [worker/leases.go],
    [worker/jobs_*.go], [service/local_rebuild.go], [model/collector_setting.go]).
    - [Json]: the objects the code marshals.  [WorkerErrors]: attempts, delays
      and what an error means for the retry.  [Jobs]: the handlers of the task
      types.  [Queues]: queues, limiter, settings, request ids.
    - [Executor]: the goroutines of one claim as a step relation
      [execution_step]; [Worker]: the dispatcher with all the executions it has
      started and the database, [worker_step].
    - [ExecutorBehaviour], [UsageFrames], [WorkerSafety], [WorkerAdmission].

    The loops beside it ([worker/scheduler.go], [worker/scheduler_fast.go],
    [worker/reaper.go], [worker/materializer.go]).
    - [FastDispatch]: the dispatcher of the fast tasks.  [Scheduler]: a tick of
      the scheduler, a turn of the reaper and of the materializer, the start of
      the runtime.
    - [FastDispatchBehaviour], [SchedulerBehaviour], [ValidationBehaviour].

    Accounts and customers ([model/statistics_pause.go], [model/account.go],
    [model/customer.go], [service/account.go], [service/customer.go]).
    - [StatisticsPause]: removing an account's statistics from an hour on and
      recomputing what contains them.
    - [AccountLifecycle], [CustomerLifecycle]: observing the remote user,
      archiving, restoring, disabling and enabling, creating and refreshing, in
      the repositories and in the services.
    - [PauseBehaviour], [LifecycleBehaviour], [LifecycleSafety].

    The alerts ([service/alert.go], [model/alert.go], [model/alert_delivery.go],
    [service/dingtalk.go], [dto/alert.go], [dto/message.go],
    [constant/message.go]).
    - [Alerting]: the tables.  [GoNumber]: decimal texts.  [AlertMessages]: what
      a message must say, the contract and the target of each rule.
    - [AlertRules]: overrides, the rules in effect, the three edits and what they
      keep.
    - [AlertEvaluation]: [Evaluate], one transaction per sample.
    - [AlertDelivery]: the outbox and the worker that empties it.
    - [AlertDeliveryBehaviour], [AlertEvaluationBehaviour] (the small machine and
      the invariant) and [AlertMachine] (the refinement, every transaction of the
      alerts, transitions and messages).

    The governor ([service/upstream_governor.go]).
    - [Governor], [GovernorBehaviour]: the goroutine of an origin as a transition
      function [turn], and a system of callers around it.

    ** How the parts interact

    [ClaimNext] hands a run and some of its windows to a worker; the worker
    collects an hour and calls [CompleteClaimedWindow] with the handler
    [CollectHour] returned, a [CollectionTaskWindowMutation]: the window, the
    facts of the hour, its statistics and the run change in one transaction.
    The queue's theorems are proved for every handler that satisfies [lawful]
    (it leaves the tables of the queue alone); the mutations of the usage and
    of the statistics are shown to be lawful, so that one transaction keeps
    both [queue_inv] and [statistics_exact].  The class [OutsideQueue] and the
    class [HourMutation] state what one side promises to the other.

    The worker composes them: [worker_step] interleaves the steps of the
    dispatcher, of every execution, of its heartbeats and of the rest of the
    program, each transaction a step.  What a job may commit is no assumption
    there: the handlers of [Jobs] are shown to return nothing else
    ([WorkerSafety]).  The loops of the scheduler, the reaper and the
    materializer are functions from the database to the database, shown to be
    sequences of such steps ([SchedulerBehaviour]).

    Archiving an account, disabling its customer or finding another remote user
    behind its id pauses its statistics.  Restoring and enabling do not resume
    them: they enqueue a local rebuild, and the queue's completion of that run
    ([finalizeLocalRebuildLifecycle] in [TaskCommit]) does.

    [Evaluate] takes a sample of a rule's metric for a target.  It moves the
    cursor and the one active event of the (rule, target) pair and, when a
    transition is to be announced, queues the message with [Enqueue] in the same
    transaction.  The notifier claims a message under a lease, sends it between
    two transactions and reports the outcome with [Complete].

    ** What is shown

    - Safety of the queue ([QueueSafety]): at most one task of a type runs on a
      site, and counters and statuses agree with the windows, in every state
      reachable by any interleaving of claims, commits, completions, releases,
      heartbeats, recoveries, materialisations, creations and fences.
    - Exactness of the statistics ([statistics_always_exact]): after any history
      of collected, failed and rebuilt hours each row of sites, models, channels
      and of all sites counts the facts it stands for, and so do the daily facts;
      the tables agree with one another ([statistics_agree]).
    - The worker ([WorkerAdmission]): the two results above hold after any history
      of the whole runtime ([worker_keeps_exact]); the limiter counts exactly
      what runs; an execution commits each window at most once and ends.
    - The scheduler: a closed hour is decided once for each site, validations
      cover the pending hours exactly and within their bound, ids of tasks are
      valid and unique, no fast task is lost or run twice.
    - Functional theorems for each operation on every branch: what a claim, a
      commit, a recovery, a materialisation, a fence, a creation, a collected
      hour, a failed hour, a cursor, a reconciliation, a local rebuild do.
    - Round trips and equivalences: canonical facts do not depend on the order of
      the rows, the hashed bytes determine the facts, materialisation can be
      interrupted and resumed, cursor paging visits the queue in order, the two
      recalculations of a run agree and where they do not.
    - Accounts and customers: statistics are paused exactly while the account is
      archived or mismatched or its customer disabled, whatever happens and
      whichever rebuilds end; they resume only after a rebuild that covers the
      pause; a pause leaves the statistics recounted.
    - The alerts: [Evaluate] refines a machine of three states per pair (nothing,
      pending with a count, firing); an alert fires at the sample that makes
      [for_times] in a row; a repeated sample changes nothing; what happens to a
      late one; a key has one active event and a transition one message, stored
      with it; a lease belongs to one worker and no delivery is stuck; which
      edits of the rules keep the thresholds ordered.
    - The governor: no slot leaks, the rate is bounded, a waiting request is
      granted in a bounded number of grants.

    ** Conventions, bounds and fuel

    Integers are [Z]; a bigint column or an int64 that can leave its range is
    checked where the code checks it ([checkedAddInt64], [stat_fits]), and a
    statement the database would refuse returns [ErrOutOfRange].  Time is given
    to each operation as an argument.  Loops are folds over lists; pages of
    [ClaimNext] take as fuel the number of rows of the table, one more than the
    pages it can have, and chunks take the length of the list they cut, both
    shown to be enough.  A decimal of the alerts is its numerator over 10^10, and a
    DECIMAL column the text written to it.  Transactions run one at a time: MySQL's row locks
    and the order in which the code takes them serialise those that conflict;
    a [SKIP LOCKED] read is a [LockView] argument that may hide any row.

    ** What is not modelled, and why

    - Parameters: SHA-256 with its hexadecimal form, the cipher, the HTTP clients
      and what they report, random tokens, [http.ParseTime], the order in which
      Go ranges over a map.
    - Ids of rows nobody reads, the index hints of queries, deadlocks, and the
      write of generated ids into the slice passed to [CreateInBatches].
    - Collations are taken to be exact, except for the case of request ids;
      trailing spaces, which [utf8mb4_bin] ignores, are kept apart.
    - Decoding of the upstream's JSON, logs, metrics and what the worker tells
      other goroutines after a commit: they do not feed back into the tables.  A
      reading of the clock is an unbounded integer.  Tickers, shutdown and what
      a fast task does when it runs are left out; the services of the tasks of a
      site are parameters that keep off the tables of the queue and of the usage.
    - Of accounts and customers the listings and deletions; of the alerts the
      scanner, which turns SQL snapshots of other tables into samples, the
      listings, the text of a message and the exchange that sends it.
    - Queries of the interface (statistics, dashboard, exports): they only read
      the tables modelled here, by joins and groupings of the server.  Retention, settings, the administration of sites, catalogs,
      schema, controllers and tools: forms, DDL and wiring around the parts
      above. *)

From stdpp Require Export base gmap sets list strings sorting.
From Stdlib Require Export ZArith Lia.
#[global] Open Scope string_scope.
#[global] Open Scope list_scope.
#[global] Open Scope Z_scope.

Declare Scope pilot_scope.
Delimit Scope pilot_scope with pilot.
#[global] Open Scope pilot_scope.

(** ** Errors: the sentinel values the code compares with [errors.Is] *)
Inductive error :=
  | ErrCollectionRunContract
  | ErrSiteRunConfigChanged
  | ErrSiteRunManagementInactive
  | ErrSiteRunAuthorizationNeeded
  | ErrSiteRunStatisticsEnded
  | ErrSiteRunExportDisabled
  | ErrSiteRunCapabilitiesPending
  | ErrSiteWindowRunOverlap
  | ErrCollectionTaskUnavailable
  | ErrCollectionTaskClaimLost
  | ErrLocalRebuildDependencyPending
  | ErrRebuildRunNotReady
  | ErrCustomerDisabled
  | ErrAccountRestoreContract
  | ErrCustomerLifecycleContract
  | ErrCustomerEnableNotReady
  | ErrAccountObservationInvalid
  | ErrAccountObservationCAS
  | ErrAccountOperationScopeChanged
  | ErrAccountIdentityMismatch
  | ErrCustomerOperationScopeChanged
  | ErrSiteExportDisabled
  | ErrSiteInvalidState
  | ErrSiteCapabilitiesPending
  | ErrAccountInvalidState
  | ErrCustomerInvalidState
  | ErrEntityBackfillRunning
  | ErrAlertRecordNotFound
  | ErrAlertRuleNotFound
  | ErrAlertRuleConflict
  | ErrAlertSampleConflict
  | ErrAlertDeliveryUnavailable
  | ErrAlertDeliveryLeaseLost
  | ErrDingTalkSettingInvalid
  | ErrAlertValidation (fields : gmap string string)   (* *AlertValidationError *)
  | ErrRecordNotFound            (* gorm.ErrRecordNotFound *)
  | ErrDuplicatedKey             (* a unique key of the schema is violated *)
  | ErrOutOfRange                (* a bigint column would leave its range *)
  | ErrInvalidFenceTarget        (* fmt.Errorf("invalid site fence target") *)
  | ErrUpstream (code : string)  (* *UpstreamRequestError *)
  | ErrOther (what : string).

#[global] Instance error_eq_dec : EqDecision error.
Proof. solve_decision. Defined.

(** ** Results of fallible functions *)
Inductive result (A : Type) :=
  | Ok (a : A)
  | Err (e : error).
Arguments Ok {A} _.
Arguments Err {A} _.

#[global] Instance result_ret : MRet result := fun A a => Ok a.
#[global] Instance result_bind : MBind result := fun A B k m =>
  match m with Ok a => k a | Err e => Err e end.
#[global] Instance result_fmap : FMap result := fun A B f m =>
  match m with Ok a => Ok (f a) | Err e => Err e end.
#[global] Instance result_eq_dec {A} `{EqDecision A} : EqDecision (result A).
Proof. solve_decision. Defined.

Definition is_ok {A} (m : result A) : bool :=
  match m with Ok _ => true | Err _ => false end.

(** ** Transactions: state passing with errors.  An error discards the state,
    which is what a rolled back transaction does. *)
Definition ST (S A : Type) : Type := S -> result (A * S).

#[global] Instance st_ret S : MRet (ST S) := fun A a s => Ok (a, s).
#[global] Instance st_bind S : MBind (ST S) := fun A B k m s =>
  match m s with Ok (a, s') => k a s' | Err e => Err e end.

Definition st_fail {S A} (e : error) : ST S A := fun _ => Err e.
Definition st_lift {S A} (m : result A) : ST S A := fun s =>
  match m with Ok a => Ok (a, s) | Err e => Err e end.
(** [st_require b e]: the guard [if !b { return e }]. *)
Definition st_require {S} (b : bool) (e : error) : ST S unit := fun s =>
  if b then Ok (tt, s) else Err e.
Definition st_gets {S A} (f : S -> A) : ST S A := fun s => Ok (f s, s).
Definition st_modify {S} (f : S -> S) : ST S unit := fun s => Ok (tt, f s).

(** A loop over a slice that threads the state and an accumulator. *)
Fixpoint st_fold {S A B} (f : A -> B -> ST S B) (l : list A) (b : B) : ST S B :=
  match l with
  | [] => mret b
  | a :: l' => b' ← f a b; st_fold f l' b'
  end.

Lemma st_bind_ok {S A B} (m : ST S A) (k : A -> ST S B) s r :
  mbind k m s = Ok r <-> exists a s', m s = Ok (a, s') /\ k a s' = Ok r.
Proof.
  unfold mbind, st_bind. destruct (m s) as [[a s']|e]; split.
  - intros H. eauto.
  - intros (?&?&[= <- <-]&?). done.
  - intros [=].
  - intros (?&?&[=]&?).
Qed.

Lemma st_ret_ok {S A} (a : A) (s : S) r : mret (M := ST S) a s = Ok r <-> r = (a, s).
Proof. unfold mret, st_ret. split; congruence. Qed.

Lemma st_ret_pair {S A} (a x : A) (s s' : S) :
  mret (M := ST S) a s = Ok (x, s') <-> x = a /\ s' = s.
Proof. unfold mret, st_ret. split; [by intros [= -> ->]|by intros [-> ->]]. Qed.

Lemma st_lift_ok {S A} (m : result A) (s : S) r :
  st_lift m s = Ok r <-> exists a, m = Ok a /\ r = (a, s).
Proof. unfold st_lift. destruct m; split; intros H; [injection H as <-|destruct H as (?&[= ->]&->)|discriminate H|destruct H as (?&[=]&?)]; eauto. Qed.

Lemma st_require_ok {S} b e (s : S) r :
  st_require b e s = Ok r <-> b = true /\ r = (tt, s).
Proof. unfold st_require. destruct b; split; intros H; [injection H as <-|destruct H as [_ ->]|discriminate H|destruct H as [[=] _]]; eauto. Qed.

Lemma st_gets_ok {S A} (f : S -> A) s r : st_gets f s = Ok r <-> r = (f s, s).
Proof. unfold st_gets. split; congruence. Qed.

Lemma st_modify_ok {S} (f : S -> S) s r : st_modify f s = Ok r <-> r = (tt, f s).
Proof. unfold st_modify. split; congruence. Qed.

Lemma st_fail_ok {S A} e (s : S) (r : A * S) : st_fail e s = Ok r <-> False.
Proof. unfold st_fail. split; [discriminate|done]. Qed.

Lemma st_fold_nil {S A B} (f : A -> B -> ST S B) b s r :
  st_fold f [] b s = Ok r <-> r = (b, s).
Proof. apply st_ret_ok. Qed.

Lemma st_fold_cons {S A B} (f : A -> B -> ST S B) a l b s r :
  st_fold f (a :: l) b s = Ok r <->
  exists b' s', f a b s = Ok (b', s') /\ st_fold f l b' s' = Ok r.
Proof. simpl. apply st_bind_ok. Qed.

(** [inv_ok] decomposes hypotheses saying that a monadic program returned. *)
Ltac inv_ok_step :=
  match goal with
  | H : mbind _ _ _ = Ok _ |- _ =>
      apply st_bind_ok in H; destruct H as (?&?&?&H)
  | H : mret _ _ = Ok _ |- _ => apply st_ret_ok in H; simplify_eq H
  | H : mret _ _ = Ok _ |- _ => apply st_ret_ok in H
  | H : st_lift _ _ = Ok _ |- _ => apply st_lift_ok in H; destruct H as (?&?&H)
  | H : st_require _ _ _ = Ok _ |- _ => apply st_require_ok in H; destruct H as (?&H)
  | H : st_gets _ _ = Ok _ |- _ => apply st_gets_ok in H
  | H : st_modify _ _ = Ok _ |- _ => apply st_modify_ok in H
  | H : st_fail _ _ = Ok _ |- _ => apply st_fail_ok in H; destruct H
  | H : Err _ = Ok _ |- _ => discriminate H
  | H : Ok _ = Ok _ |- _ => injection H; clear H; intros
  | H : (_, _) = (_, _) |- _ => injection H; clear H; intros
  | H : ?x = (_, _) |- _ => is_var x; subst x
  | H : (_, _) = ?x |- _ => is_var x; subst x
  | x : (_ * _)%type |- _ => destruct x
  | x : unit |- _ => destruct x
  end.
Ltac inv_ok := repeat (inv_ok_step; simpl in *); simplify_eq.

(** ** Records with functional update of one field *)
Class RecordEta (R : Type) := record_eta : R -> R.
Class FieldUpdate {R T : Type} (field : R -> T) := update_field : (T -> T) -> R -> R.
Arguments update_field {R T} field {_} _ _.

Ltac build_field_update :=
  lazymatch goal with
  | |- @FieldUpdate ?R ?T ?field =>
      let g := fresh "g" in
      let r := fresh "r" in
      intros g r;
      let whole := eval hnf in (record_eta r) in
      let body := eval pattern (field r) in whole in
      lazymatch body with
      | ?context_of _ =>
          let term := eval cbv beta in (context_of (g (field r))) in exact term
      end
  end.
#[export] Hint Extern 1 (FieldUpdate _) => build_field_update : typeclass_instances.

Notation "r <| f := v |>" := (update_field f (fun _ => v) r)
  (at level 12, left associativity, f at level 9, v at level 200,
   format "r  <| f  :=  v |>") : pilot_scope.

(** ** Booleans used as decisions *)
Notation "x == y" := (bool_decide (x = y)) (at level 70, no associativity) : pilot_scope.
Notation "x != y" := (negb (bool_decide (x = y))) (at level 70, no associativity) : pilot_scope.

Lemma negb_bool_decide (P : Prop) `{Decision P} : negb (bool_decide P) = true <-> ~ P.
Proof. rewrite negb_true_iff, bool_decide_eq_false. done. Qed.

Create Rewrite HintDb to_prop.
(** Turns boolean hypotheses and goals into propositions. *)
#[export] Hint Rewrite andb_true_iff orb_true_iff andb_false_iff orb_false_iff negb_true_iff
  negb_false_iff bool_decide_eq_true bool_decide_eq_false Z.ltb_lt Z.leb_le Z.eqb_eq Z.ltb_ge
  Z.leb_gt Z.eqb_neq : to_prop.
Ltac to_prop := autorewrite with to_prop in *.

(** Case analysis on the outermost guard of an [if ... then Err e else ...]
    that the goal says returned; only the surviving branch remains. *)
Ltac past_guard H :=
  cbv zeta;
  match goal with
  | |- (if ?c then _ else _) = _ -> _ => destruct c eqn:H; [intros; discriminate|]
  | |- (if ?c then _ else _) _ = _ -> _ => destruct c eqn:H; [intros; discriminate|]
  end.

(** ** Optional integers: Go's [*int64] *)
Definition equalInt64Pointers (first second : option Z) : bool :=
  match first, second with
  | None, _ | _, None => match first, second with None, None => true | _, _ => false end
  | Some a, Some b => a =? b
  end.

Lemma equalInt64Pointers_spec a b : equalInt64Pointers a b = true <-> a = b.
Proof.
  destruct a, b; simpl; rewrite ?Z.eqb_eq; split; congruence.
Qed.

Definition is_nil {A} (o : option A) : bool :=
  match o with None => true | Some _ => false end.
Definition not_nil {A} (o : option A) : bool := negb (is_nil o).
Definition deref (o : option Z) : Z := default 0 o.

(** ** Sort keys: ORDER BY columns and [sort.Slice] comparison chains

    A row is ordered by a list of atoms compared from the left; a descending
    integer column is written as its opposite, as the claim query does. *)
Inductive atom :=
  | AInt (z : Z)
  | AStr (s : string).

#[global] Instance atom_eq_dec : EqDecision atom.
Proof. solve_decision. Defined.

Definition atom_le (a b : atom) : Prop :=
  match a, b with
  | AInt x, AInt y => x <= y
  | AInt _, AStr _ => True
  | AStr _, AInt _ => False
  | AStr s, AStr t => String.le s t
  end.

#[global] Instance atom_le_dec a b : Decision (atom_le a b).
Proof. destruct a, b; simpl; apply _. Defined.

Lemma atom_le_refl a : atom_le a a.
Proof. destruct a; simpl; [lia|reflexivity]. Qed.

Lemma atom_le_trans a b c : atom_le a b -> atom_le b c -> atom_le a c.
Proof. destruct a, b, c; simpl; try tauto; [lia|apply transitivity]. Qed.

Lemma atom_le_antisym a b : atom_le a b -> atom_le b a -> a = b.
Proof.
  destruct a, b; simpl; try tauto; intros H1 H2; f_equal; [lia|].
  by apply (anti_symm String.le).
Qed.

Lemma atom_le_total a b : atom_le a b \/ atom_le b a.
Proof. destruct a, b; simpl; auto; [lia|apply (total String.le)]. Qed.

Definition sort_key := list atom.

Fixpoint key_le (k1 k2 : sort_key) : Prop :=
  match k1, k2 with
  | [], _ => True
  | _ :: _, [] => False
  | a :: k1', b :: k2' => (a <> b /\ atom_le a b) \/ (a = b /\ key_le k1' k2')
  end.

#[global] Instance key_le_dec : forall k1 k2, Decision (key_le k1 k2).
Proof. induction k1 as [|a k1 IH]; intros [|b k2]; simpl; apply _. Defined.

#[global] Instance key_le_refl : Reflexive key_le.
Proof. intros k. induction k; simpl; auto. Qed.

#[global] Instance key_le_trans : Transitive key_le.
Proof.
  intros k1. induction k1 as [|a k1 IH]; intros [|b k2] [|c k3]; simpl; try tauto.
  intros [[Hab Hle]|[-> Hk]] [[Hbc Hle']|[-> Hk']].
  - left. split; [|eauto using atom_le_trans].
    intros ->. apply Hab. eauto using atom_le_antisym.
  - left. done.
  - left. done.
  - right. eauto.
Qed.

#[global] Instance key_le_total : Total key_le.
Proof.
  intros k1. induction k1 as [|a k1 IH]; intros [|b k2]; simpl; auto.
  destruct (decide (a = b)) as [->|Hne].
  - destruct (IH k2); auto.
  - destruct (atom_le_total a b); auto.
Qed.

#[global] Instance key_le_antisym : AntiSymm (=) key_le.
Proof.
  intros k1. induction k1 as [|a k1 IH]; intros [|b k2]; simpl; try tauto.
  intros [[Hab Hle]|[-> Hk]] [[Hba Hle']|[Heq Hk']]; try congruence.
  - destruct Hab. eauto using atom_le_antisym.
  - f_equal. eauto.
Qed.

Definition key_lt (k1 k2 : sort_key) : Prop := k1 <> k2 /\ key_le k1 k2.

(** The relation under which rows are sorted, and the sort. *)
Definition by_key {A} (key : A -> sort_key) (x y : A) : Prop := key_le (key x) (key y).
#[global] Instance by_key_dec {A} (key : A -> sort_key) x y : Decision (by_key key x y).
Proof. unfold by_key. apply _. Defined.
#[global] Instance by_key_trans {A} (key : A -> sort_key) : Transitive (by_key key).
Proof. intros x y z. unfold by_key. apply transitivity. Qed.
#[global] Instance by_key_total {A} (key : A -> sort_key) : Total (by_key key).
Proof. intros x y. unfold by_key. apply key_le_total. Qed.

Definition sort_by {A} (key : A -> sort_key) (l : list A) : list A := merge_sort (by_key key) l.

Lemma sort_by_perm {A} (key : A -> sort_key) l : sort_by key l ≡ₚ l.
Proof. apply merge_sort_Permutation. Qed.

Lemma sort_by_sorted {A} (key : A -> sort_key) l : StronglySorted (by_key key) (sort_by key l).
Proof. apply StronglySorted_merge_sort; apply _. Qed.

Lemma elem_of_sort_by {A} (key : A -> sort_key) l x : x ∈ sort_by key l <-> x ∈ l.
Proof. by rewrite sort_by_perm. Qed.

Lemma length_sort_by {A} (key : A -> sort_key) l : length (sort_by key l) = length l.
Proof. by rewrite sort_by_perm. Qed.

(** The order of the input does not matter when no two rows share a key. *)
Lemma sort_by_unique {A} (key : A -> sort_key) l1 l2 :
  l1 ≡ₚ l2 -> NoDup (key <$> l1) -> sort_by key l1 = sort_by key l2.
Proof.
  intros Hp Hnd. apply (StronglySorted_unique_strong (by_key key)).
  - intros x y Hx Hy Hxy Hyx. rewrite elem_of_sort_by in Hx.
    rewrite elem_of_sort_by, <- Hp in Hy.
    assert (Hk : key x = key y) by (by apply (anti_symm key_le)).
    clear -Hnd Hx Hy Hk. induction l1 as [|z l IH]; [set_solver|].
    rewrite fmap_cons, NoDup_cons in Hnd. destruct Hnd as [Hz Hnd].
    apply elem_of_cons in Hx as [->|Hx]; apply elem_of_cons in Hy as [->|Hy]; auto.
    + destruct Hz. rewrite Hk. apply list_elem_of_fmap. eauto.
    + destruct Hz. rewrite <- Hk. apply list_elem_of_fmap. eauto.
  - apply sort_by_sorted.
  - apply sort_by_sorted.
  - by rewrite !sort_by_perm.
Qed.

(** A sorted list with distinct keys is its own sort. *)
Lemma sort_by_id {A} (key : A -> sort_key) l :
  StronglySorted (by_key key) l -> NoDup (key <$> l) -> sort_by key l = l.
Proof.
  intros Hs Hnd. apply (StronglySorted_unique_strong (by_key key)); [|apply sort_by_sorted|done|apply sort_by_perm].
  intros x y Hx Hy Hxy Hyx. rewrite elem_of_sort_by in Hx.
  assert (Hk : key x = key y) by (by apply (anti_symm key_le)).
  clear -Hnd Hx Hy Hk. induction l as [|z l IH]; [set_solver|].
  rewrite fmap_cons, NoDup_cons in Hnd. destruct Hnd as [Hz Hnd].
  apply elem_of_cons in Hx as [->|Hx]; apply elem_of_cons in Hy as [->|Hy]; auto.
  - destruct Hz. rewrite Hk. apply list_elem_of_fmap. eauto.
  - destruct Hz. rewrite <- Hk. apply list_elem_of_fmap. eauto.
Qed.

(** ** Counting rows *)
Definition count {A} (P : A -> bool) (l : list A) : Z :=
  Z.of_nat (length (base.filter (fun x => P x = true) l)).

Lemma count_nil {A} (P : A -> bool) : count P [] = 0.
Proof. done. Qed.

Lemma count_cons {A} (P : A -> bool) x l :
  count P (x :: l) = (if P x then 1 else 0) + count P l.
Proof. unfold count. rewrite filter_cons. destruct (P x); simpl; lia. Qed.

Lemma count_nonneg {A} (P : A -> bool) l : 0 <= count P l.
Proof. unfold count. lia. Qed.

#[global] Instance count_perm {A} (P : A -> bool) : Proper (Permutation ==> eq) (count P).
Proof. intros l1 l2 H. unfold count. by rewrite H. Qed.

Lemma count_app {A} (P : A -> bool) l1 l2 : count P (l1 ++ l2) = count P l1 + count P l2.
Proof. unfold count. rewrite filter_app, length_app. lia. Qed.

Lemma count_pos {A} (P : A -> bool) l : 0 < count P l <-> exists x, x ∈ l /\ P x = true.
Proof.
  induction l as [|y l IH]; [rewrite count_nil; split; [lia|set_solver]|].
  rewrite count_cons. pose proof (count_nonneg P l). split.
  - destruct (P y) eqn:Hy; intros Hc; [exists y; set_solver|].
    destruct (proj1 IH) as (x&?&?); [lia|]. exists x. set_solver.
  - intros (x&[->|Hx]%elem_of_cons&HP); [rewrite HP; lia|].
    assert (0 < count P l) by (apply IH; eauto). destruct (P y); lia.
Qed.

Lemma count_zero {A} (P : A -> bool) l : count P l = 0 <-> forall x, x ∈ l -> P x = false.
Proof.
  pose proof (count_nonneg P l). pose proof (count_pos P l) as Hp. split.
  - intros H0 x Hx. destruct (P x) eqn:HP; [|done].
    assert (0 < count P l) by (apply Hp; eauto). lia.
  - intros Hall. destruct (decide (0 < count P l)) as [Hc|]; [|lia].
    apply Hp in Hc as (x&Hx&HP). rewrite Hall in HP; done.
Qed.

Lemma count_all {A} (P : A -> bool) l :
  count P l = Z.of_nat (length l) <-> forall x, x ∈ l -> P x = true.
Proof.
  induction l as [|y l IH]; [split; [set_solver|done]|].
  rewrite count_cons. simpl length.
  assert (count P l <= Z.of_nat (length l)).
  { unfold count. pose proof (length_filter (fun x => P x = true) l). lia. }
  split.
  - intros Hc x Hx. destruct (P y) eqn:Hy; [|lia].
    apply elem_of_cons in Hx as [->|Hx]; [done|]. apply IH; [lia|done].
  - intros Hall. rewrite Hall by set_solver.
    assert (count P l = Z.of_nat (length l)) by (apply IH; set_solver). lia.
Qed.

(** A filtered sorted list is sorted. *)
Lemma StronglySorted_filter {A} (R : relation A) (f : A -> bool) l :
  StronglySorted R l -> StronglySorted R (List.filter f l).
Proof.
  induction 1 as [|x l Hs IH Hall]; simpl; [constructor|]. destruct (f x); [|done].
  constructor; [done|]. apply List.Forall_forall. intros y [Hy _]%filter_In.
  by apply (proj1 (List.Forall_forall _ _) Hall).
Qed.

(** A filter that keeps nothing, or everything. *)
Lemma filter_nothing {A} (q : A -> bool) (l : list A) : (forall x, x ∈ l -> q x = false) -> base.filter (fun x => q x = true) l = [].
Proof.
  induction l as [|x l IH]; intros H; [done|]. rewrite filter_cons, decide_False; [apply IH; set_solver|].
  by rewrite H by set_solver.
Qed.

Lemma filter_everything {A} (q : A -> bool) (l : list A) : (forall x, x ∈ l -> q x = true) -> base.filter (fun x => q x = true) l = l.
Proof.
  induction l as [|x l IH]; intros H; [done|]. rewrite filter_cons, decide_True by (apply H; set_solver).
  f_equal. apply IH. set_solver.
Qed.

(** ** Sums *)

(** SUM(column) *)
Definition sum_of {A} (column : A -> Z) (l : list A) : Z := foldr (fun a n => column a + n) 0 l.
#[global] Arguments sum_of : simpl never.

Lemma sum_of_nil {A} (column : A -> Z) : sum_of column [] = 0.
Proof. done. Qed.

Lemma sum_of_cons {A} (column : A -> Z) a l : sum_of column (a :: l) = column a + sum_of column l.
Proof. done. Qed.

#[export] Instance sum_of_perm {A} (column : A -> Z) : Proper (Permutation ==> eq) (sum_of column).
Proof. intros l1 l2 H. induction H; rewrite ?sum_of_cons; [done|by rewrite IHPermutation|lia|congruence]. Qed.

Lemma sum_of_app {A} (column : A -> Z) l1 l2 : sum_of column (l1 ++ l2) = sum_of column l1 + sum_of column l2.
Proof. induction l1 as [|a l1 IH]; [done|]. rewrite <- app_comm_cons, !sum_of_cons, IH. lia. Qed.

Lemma sum_of_fmap {A B} (column : B -> Z) (g : A -> B) l : sum_of column (g <$> l) = sum_of (fun a => column (g a)) l.
Proof. induction l as [|a l IH]; [done|]. by rewrite fmap_cons, !sum_of_cons, IH. Qed.

Lemma sum_of_ext {A} (c1 c2 : A -> Z) l : (forall a, a ∈ l -> c1 a = c2 a) -> sum_of c1 l = sum_of c2 l.
Proof.
  induction l as [|a l IH]; intros H; [done|]. rewrite !sum_of_cons, (H a) by set_solver. rewrite IH; [done|].
  intros x Hx. apply H. set_solver.
Qed.

Lemma sum_of_zero {A} (column : A -> Z) l : (forall a, a ∈ l -> column a = 0) -> sum_of column l = 0.
Proof.
  intros H. rewrite (sum_of_ext column (fun _ => 0)) by done. clear H.
  induction l as [|a l IH]; [done|]. by rewrite sum_of_cons, IH.
Qed.

(** The sum over a list is the sum over the groups of its elements: each key
    listed once, every element's key listed. *)
Lemma sum_of_groups {A N} `{!EqDecision N} (key : A -> N) (column : A -> Z) (names : list N) l :
  NoDup names -> (forall a, a ∈ l -> key a ∈ names) ->
  sum_of (fun n => sum_of column (base.filter (fun a => key a = n) l)) names = sum_of column l.
Proof.
  intros Hn. induction l as [|a l IH]; intros Hin.
  { by apply sum_of_zero. }
  rewrite sum_of_cons, <- IH by set_solver. clear IH. specialize (Hin a ltac:(set_solver)).
  induction names as [|n names IHn]; [set_solver|]. apply NoDup_cons in Hn as [Hnot Hn]. rewrite !sum_of_cons.
  rewrite filter_cons. destruct (decide (key a = n)) as [E|E].
  - rewrite sum_of_cons.
    rewrite (sum_of_ext (fun n0 => sum_of column (base.filter (fun a0 => key a0 = n0) (a :: l)))
                        (fun n0 => sum_of column (base.filter (fun a0 => key a0 = n0) l))); [lia|].
    intros x Hx. rewrite filter_cons. destruct (decide (key a = x)) as [<-|]; [|done]. congruence.
  - rewrite IHn; [lia|done|]. set_solver.
Qed.

(** ** int64 *)
Definition max_int64 : Z := 9223372036854775807.
Definition min_int64 : Z := -9223372036854775808.
Definition int64 (z : Z) : Prop := min_int64 <= z <= max_int64.
Definition wrap64 (z : Z) : Z := (z + 9223372036854775808) mod 18446744073709551616 - 9223372036854775808.

Lemma wrap64_int64 z : int64 (wrap64 z).
Proof.
  unfold int64, wrap64, min_int64, max_int64.
  pose proof (Z.mod_pos_bound (z + 9223372036854775808) 18446744073709551616). lia.
Qed.

Lemma wrap64_id z : int64 z -> wrap64 z = z.
Proof.
  unfold int64, wrap64, min_int64, max_int64. intros. rewrite Z.mod_small; lia.
Qed.
