(* ===== verification/Constants.v ===== *)
(** * Constants of the collection core

    The string and integer constants of [constant/site.go] and its
    classification functions, with the facts every other file uses: families
    partition the task types, targets agree with families, and the priority
    tables determine the task type. *)

From S2P Require Import Prelude.

Definition SiteManagementActive : string := "active".
Definition SiteManagementDisabled : string := "disabled".
Definition SiteOnlineUnknown : string := "unknown".
Definition SiteOnlineOnline : string := "online".
Definition SiteOnlineOffline : string := "offline".
Definition SiteAuthUnauthorized : string := "unauthorized".
Definition SiteAuthAuthorized : string := "authorized".
Definition SiteAuthExpired : string := "expired".
Definition SiteStatisticsPendingConfig : string := "pending_config".
Definition SiteStatisticsBackfilling : string := "backfilling".
Definition SiteStatisticsReady : string := "ready".
Definition SiteStatisticsPartial : string := "partial".
Definition SiteStatisticsError : string := "error".
Definition SiteStatisticsPaused : string := "paused".
Definition SiteHealthOK : string := "ok".
Definition SiteHealthWarning : string := "warning".
Definition SiteHealthCritical : string := "critical".
Definition SiteHealthUnavailable : string := "unavailable".
Definition CapabilityStatusContract : string := "status_contract".
Definition CapabilitySelfIdentity : string := "self_identity".
Definition CapabilityRootIdentity : string := "root_identity".
Definition CapabilityFirstUserProof : string := "first_user_proof".
Definition CapabilityUserPagination : string := "user_pagination".
Definition CapabilityChannelPagination : string := "channel_pagination".
Definition CapabilityDataExportEnabled : string := "data_export_enabled".
Definition CapabilityFlowContract : string := "flow_contract".
Definition CapabilityDataContract : string := "data_contract".
Definition CapabilityFlowDataConsistency : string := "flow_data_consistency".
Definition CapabilityInstanceContract : string := "instance_contract".
Definition CapabilityRealtimeContract : string := "realtime_contract".
Definition CapabilityStatusPassed : string := "passed".
Definition CapabilityStatusFailed : string := "failed".
Definition CapabilityStatusSkipped : string := "skipped".
Definition TaskTypeSiteProbe : string := "site_probe".
Definition TaskTypeRealtimeStat : string := "realtime_stat".
Definition TaskTypeResourceSnapshot : string := "resource_snapshot".
Definition TaskTypeUserSync : string := "user_sync".
Definition TaskTypeChannelSync : string := "channel_sync".
Definition TaskTypePerformanceSync : string := "performance_sync".
Definition TaskTypeTopupSync : string := "topup_sync".
Definition TaskTypeRedemptionSync : string := "redemption_sync".
Definition TaskTypeUpstreamTaskSync : string := "upstream_task_sync".
Definition TaskTypeModelMetaSync : string := "model_meta_sync".
Definition TaskTypePlanSync : string := "plan_sync".
Definition TaskTypePricingSync : string := "pricing_group_sync".
Definition TaskTypeSystemTaskSync : string := "system_task_sync".
Definition TaskTypeLogSync : string := "log_sync".
Definition TaskTypeUsageHour : string := "usage_hour".
Definition TaskTypeUsageBackfill : string := "usage_backfill".
Definition TaskTypeUsageValidation : string := "usage_validation".
Definition TaskTypeAccountRebuild : string := "account_rebuild".
Definition TaskTypeCustomerRebuild : string := "customer_rebuild".
Definition CollectionFamilyProbe : string := "probe".
Definition CollectionFamilyRealtime : string := "realtime".
Definition CollectionFamilyResource : string := "resource".
Definition CollectionFamilyMetadata : string := "metadata".
Definition CollectionFamilyUsage : string := "usage".
Definition CollectionFamilyLocalRebuild : string := "local_rebuild".
Definition CollectionTriggerSchedule : string := "schedule".
Definition CollectionTriggerManual : string := "manual".
Definition CollectionTriggerRecovery : string := "recovery".
Definition CollectionTriggerDependency : string := "dependency".
Definition CollectionPriorityUsageRealtime : Z := 100.
Definition CollectionPrioritySiteRecovery : Z := 90.
Definition CollectionPriorityManualBackfill : Z := 80.
Definition CollectionPriorityDailyValidation : Z := 70.
Definition CollectionPriorityWeeklyValidation : Z := 60.
Definition CollectionPriorityInitialBackfill : Z := 50.
Definition CollectionPriorityLocalRebuild : Z := 40.
Definition CodeBaseURLPreflightRequired : string := "BASE_URL_PREFLIGHT_REQUIRED".
Definition CodeSiteExportDisabled : string := "SITE_EXPORT_DISABLED".
Definition CodeSiteIncompatible : string := "SITE_INCOMPATIBLE".
Definition CodeUpstreamLoginRejected : string := "UPSTREAM_LOGIN_REJECTED".
Definition CodeTokenRotationResultUnknown : string := "TOKEN_ROTATION_RESULT_UNKNOWN".
Definition CodeBackfillRunning : string := "BACKFILL_RUNNING".
Definition CodeTaskOverlap : string := "TASK_OVERLAP".

(** [SiteCapabilityKeys] *)
Definition SiteCapabilityKeys : list string :=
  [CapabilityStatusContract; CapabilitySelfIdentity;
   CapabilityRootIdentity; CapabilityFirstUserProof; CapabilityUserPagination;
   CapabilityChannelPagination; CapabilityDataExportEnabled; CapabilityFlowContract;
   CapabilityDataContract; CapabilityFlowDataConsistency; CapabilityInstanceContract;
   CapabilityRealtimeContract].

(** [case a, b, c:] of a switch on a string. *)
Definition is_one_of (s : string) (cases : list string) : bool :=
  existsb (String.eqb s) cases.

(** [CollectionTaskFamily]; [None] is the [("", false)] result. *)
Definition CollectionTaskFamily (taskType : string) : option string :=
  if is_one_of taskType [TaskTypeSiteProbe] then Some CollectionFamilyProbe
  else if is_one_of taskType [TaskTypeRealtimeStat] then Some CollectionFamilyRealtime
  else if is_one_of taskType [TaskTypeResourceSnapshot] then Some CollectionFamilyResource
  else if is_one_of taskType
    [TaskTypeUserSync; TaskTypeChannelSync; TaskTypePerformanceSync; TaskTypeTopupSync;
     TaskTypeRedemptionSync; TaskTypeUpstreamTaskSync; TaskTypeModelMetaSync; TaskTypePlanSync;
     TaskTypePricingSync; TaskTypeSystemTaskSync; TaskTypeLogSync] then Some CollectionFamilyMetadata
  else if is_one_of taskType [TaskTypeUsageHour; TaskTypeUsageBackfill; TaskTypeUsageValidation]
  then Some CollectionFamilyUsage
  else if is_one_of taskType [TaskTypeAccountRebuild; TaskTypeCustomerRebuild]
  then Some CollectionFamilyLocalRebuild
  else None.

(** [CollectionTaskTarget]; [None] is the [("", false)] result. *)
Definition CollectionTaskTarget (taskType : string) : option string :=
  if is_one_of taskType
    [TaskTypeSiteProbe; TaskTypeRealtimeStat; TaskTypeResourceSnapshot; TaskTypeUserSync;
     TaskTypePerformanceSync; TaskTypeTopupSync; TaskTypeRedemptionSync; TaskTypeUpstreamTaskSync;
     TaskTypeModelMetaSync; TaskTypePlanSync; TaskTypePricingSync; TaskTypeSystemTaskSync;
     TaskTypeChannelSync; TaskTypeLogSync; TaskTypeUsageHour; TaskTypeUsageBackfill;
     TaskTypeUsageValidation] then Some "site"
  else if is_one_of taskType [TaskTypeAccountRebuild] then Some "account"
  else if is_one_of taskType [TaskTypeCustomerRebuild] then Some "customer"
  else None.

(** [CollectionTaskTypesForFamily]; the nil slice is the empty list. *)
Definition CollectionTaskTypesForFamily (family : string) : list string :=
  if is_one_of family [CollectionFamilyProbe] then [TaskTypeSiteProbe]
  else if is_one_of family [CollectionFamilyRealtime] then [TaskTypeRealtimeStat]
  else if is_one_of family [CollectionFamilyResource] then [TaskTypeResourceSnapshot]
  else if is_one_of family [CollectionFamilyMetadata] then
    [TaskTypeUserSync; TaskTypeChannelSync; TaskTypePerformanceSync; TaskTypeTopupSync;
     TaskTypeRedemptionSync; TaskTypeUpstreamTaskSync; TaskTypeModelMetaSync; TaskTypePlanSync;
     TaskTypePricingSync; TaskTypeSystemTaskSync; TaskTypeLogSync]
  else if is_one_of family [CollectionFamilyUsage] then
    [TaskTypeUsageHour; TaskTypeUsageBackfill; TaskTypeUsageValidation]
  else if is_one_of family [CollectionFamilyLocalRebuild] then
    [TaskTypeAccountRebuild; TaskTypeCustomerRebuild]
  else [].

(** [CollectionTaskWindowed] *)
Definition CollectionTaskWindowed (taskType : string) : bool :=
  is_one_of taskType
    [TaskTypeUsageHour; TaskTypeUsageBackfill; TaskTypeUsageValidation;
     TaskTypeAccountRebuild; TaskTypeCustomerRebuild].

(** [ValidCollectionTaskType] *)
Definition ValidCollectionTaskType (taskType : string) : bool :=
  match CollectionTaskFamily taskType with Some _ => true | None => false end.

(** [ValidCollectionTriggerType] *)
Definition ValidCollectionTriggerType (triggerType : string) : bool :=
  is_one_of triggerType
    [CollectionTriggerSchedule; CollectionTriggerManual; CollectionTriggerRecovery;
     CollectionTriggerDependency].

(** [ValidCollectionPriority] *)
Definition ValidCollectionPriority (taskType : string) (priority : Z) : bool :=
  if is_one_of taskType [TaskTypeUsageHour] then priority =? CollectionPriorityUsageRealtime
  else if is_one_of taskType [TaskTypeUsageBackfill] then
    (priority =? CollectionPrioritySiteRecovery) || (priority =? CollectionPriorityManualBackfill)
    || (priority =? CollectionPriorityInitialBackfill)
  else if is_one_of taskType [TaskTypeUsageValidation] then
    (priority =? CollectionPriorityDailyValidation)
    || (priority =? CollectionPriorityWeeklyValidation)
  else if is_one_of taskType [TaskTypeAccountRebuild; TaskTypeCustomerRebuild] then
    priority =? CollectionPriorityLocalRebuild
  else priority =? 0.

(** [ValidCollectionTaskPriority] *)
Definition ValidCollectionTaskPriority (taskType triggerType : string) (priority : Z) : bool :=
  if negb (ValidCollectionPriority taskType priority) then false
  else if is_one_of taskType [TaskTypeUsageHour] then
    String.eqb triggerType CollectionTriggerSchedule && (priority =? CollectionPriorityUsageRealtime)
  else if is_one_of taskType [TaskTypeUsageBackfill] then
    if is_one_of triggerType [CollectionTriggerManual] then
      priority =? CollectionPriorityManualBackfill
    else if is_one_of triggerType [CollectionTriggerRecovery] then
      (priority =? CollectionPrioritySiteRecovery) || (priority =? CollectionPriorityInitialBackfill)
    else if is_one_of triggerType [CollectionTriggerDependency] then
      priority =? CollectionPrioritySiteRecovery
    else false
  else if is_one_of taskType [TaskTypeUsageValidation] then
    String.eqb triggerType CollectionTriggerSchedule
    && ((priority =? CollectionPriorityDailyValidation)
        || (priority =? CollectionPriorityWeeklyValidation))
  else if is_one_of taskType [TaskTypeAccountRebuild; TaskTypeCustomerRebuild] then
    priority =? CollectionPriorityLocalRebuild
  else priority =? 0.

(** Proofs use the tables through their lemmas. *)
#[global] Arguments is_one_of : simpl never.
#[global] Arguments CollectionTaskFamily : simpl never.
#[global] Arguments CollectionTaskTarget : simpl never.
#[global] Arguments CollectionTaskWindowed : simpl never.
#[global] Arguments ValidCollectionTaskType : simpl never.
#[global] Arguments ValidCollectionTriggerType : simpl never.
#[global] Arguments ValidCollectionPriority : simpl never.
#[global] Arguments ValidCollectionTaskPriority : simpl never.

(** ** Facts about the tables *)

Lemma is_one_of_In s l : is_one_of s l = true <-> In s l.
Proof.
  unfold is_one_of. rewrite existsb_exists. split.
  - intros (x&Hx&->%String.eqb_eq). done.
  - intros H. exists s. split; [done|]. by apply String.eqb_eq.
Qed.

(** All task types, in the order of the source. *)
Definition all_task_types : list string :=
  [TaskTypeSiteProbe; TaskTypeRealtimeStat; TaskTypeResourceSnapshot; TaskTypeUserSync;
   TaskTypeChannelSync; TaskTypePerformanceSync; TaskTypeTopupSync; TaskTypeRedemptionSync;
   TaskTypeUpstreamTaskSync; TaskTypeModelMetaSync; TaskTypePlanSync; TaskTypePricingSync;
   TaskTypeSystemTaskSync; TaskTypeLogSync; TaskTypeUsageHour; TaskTypeUsageBackfill;
   TaskTypeUsageValidation; TaskTypeAccountRebuild; TaskTypeCustomerRebuild].

(** Splits a hypothesis that a string is one of a list of constants. *)
Ltac case_one_of H :=
  simpl in H; repeat (destruct H as [<-|H]; [try solve [vm_compute; repeat split; auto; congruence]|]);
  try contradiction.

Lemma windowed_In t : CollectionTaskWindowed t = true <->
  In t [TaskTypeUsageHour; TaskTypeUsageBackfill; TaskTypeUsageValidation;
        TaskTypeAccountRebuild; TaskTypeCustomerRebuild].
Proof. apply is_one_of_In. Qed.

Ltac split_case t :=
  match goal with |- context [is_one_of t ?l] =>
    let Hb := fresh "Hb" in
    destruct (is_one_of t l) eqn:Hb; [apply is_one_of_In in Hb; intros _; simpl in *; tauto|]
  end.

(** A task type is valid exactly when it has a target. *)
Lemma target_In t target : CollectionTaskTarget t = Some target -> In t all_task_types.
Proof.
  unfold CollectionTaskTarget, all_task_types.
  do 8 first [split_case t|idtac].
  intros [=].
Qed.

Lemma family_In t family : CollectionTaskFamily t = Some family -> In t all_task_types.
Proof.
  unfold CollectionTaskFamily, all_task_types.
  do 8 first [split_case t|idtac].
  intros [=].
Qed.

Lemma task_type_targets t : In t all_task_types ->
  exists target family, CollectionTaskTarget t = Some target /\ CollectionTaskFamily t = Some family
    /\ In t (CollectionTaskTypesForFamily family)
    /\ In target ["site"; "account"; "customer"]
    /\ (target <> "site" -> CollectionTaskWindowed t = true).
Proof.
  intros H. unfold all_task_types in H. simpl in H.
  repeat (destruct H as [<-|H]; [do 2 eexists; vm_compute; repeat split; auto 20; congruence|]).
  contradiction.
Qed.
