(* ===== verification/GoText.v ===== *)
(** * Text functions of the Go standard library the core uses

    Go strings and byte slices are [string], one [ascii] per byte.  The file
    models [strconv.FormatInt], [bytes.TrimSpace], [utf8.ValidString] and
    [utf8.RuneCountInString], ASCII letter folding, and the part of
    [encoding/json] behind [common.DecodeJSON] that a run scope can reach. *)

From Stdlib Require Import Ascii String.
From stdpp Require Import pretty.
From S2P Require Import Prelude.

Definition bytes (s : string) : list ascii := list_ascii_of_string s.
Definition code (c : ascii) : Z := Z.of_N (N_of_ascii c).
Definition len (s : string) : Z := Z.of_nat (String.length s).

(** ** strconv.FormatInt(value, 10) *)
Definition FormatInt (value : Z) : string := pretty value.

Lemma FormatInt_inj z1 z2 : FormatInt z1 = FormatInt z2 -> z1 = z2.
Proof. apply (inj pretty). Qed.

Fixpoint lacks (c : ascii) (s : string) : bool :=
  match s with
  | EmptyString => true
  | String d s' => negb (Ascii.eqb c d) && lacks c s'
  end.

Lemma lacks_app c s t : lacks c (s +:+ t) = lacks c s && lacks c t.
Proof. induction s as [|d s IH]; simpl; [done|]. rewrite IH. by rewrite andb_assoc. Qed.

Lemma lacks_pretty_N_go x s : lacks ":" s = true -> lacks ":" (pretty_N_go x s) = true.
Proof.
  revert s. induction (N.lt_wf_0 x) as [x _ IH]. intros s Hs.
  destruct (decide (x = 0%N)) as [->|Hx]; [by rewrite pretty_N_go_0|].
  rewrite pretty_N_go_step by lia. apply IH; [apply N.div_lt; lia|].
  simpl. rewrite Hs, andb_true_r. unfold pretty_N_char.
  destruct (x mod 10)%N as [|p]; [reflexivity|]. do 4 (destruct p as [p|p|]; try reflexivity).
Qed.

Lemma lacks_FormatInt z : lacks ":" (FormatInt z) = true.
Proof.
  unfold FormatInt, pretty, pretty_Z.
  assert (forall n, lacks ":" (@pretty N _ n) = true) as HN.
  { intros n. unfold pretty, pretty_N. case_decide; [done|]. by apply lacks_pretty_N_go. }
  destruct z; try apply HN; done.
Qed.

Lemma pretty_N_go_not_empty x s : s <> "" -> pretty_N_go x s <> "".
Proof.
  revert s. induction (N.lt_wf_0 x) as [x _ IH]. intros s Hs.
  destruct (decide (x = 0%N)) as [->|Hx]; [by rewrite pretty_N_go_0|].
  rewrite pretty_N_go_step by lia. apply IH; [apply N.div_lt; lia|done].
Qed.

Lemma FormatInt_not_empty z : FormatInt z <> "".
Proof.
  assert (forall n, @pretty N _ n <> "") as HN.
  { intros n. unfold pretty, pretty_N. case_decide; [done|].
    rewrite pretty_N_go_step by lia. by apply pretty_N_go_not_empty. }
  destruct z; [done|apply HN|done].
Qed.

(** Splitting at the first separator is unambiguous. *)
Lemma separator_inj c s1 s2 t1 t2 :
  lacks c s1 = true -> lacks c s2 = true ->
  s1 +:+ String c t1 = s2 +:+ String c t2 -> s1 = s2 /\ t1 = t2.
Proof.
  revert s2. induction s1 as [|d s1 IH]; intros [|d' s2]; simpl; intros H1 H2 Heq.
  - by simplify_eq.
  - apply andb_true_iff in H2 as [H2 _]. simplify_eq.
    by rewrite Ascii.eqb_refl in H2.
  - apply andb_true_iff in H1 as [H1 _]. simplify_eq.
    by rewrite Ascii.eqb_refl in H1.
  - apply andb_true_iff in H1 as [_ H1]. apply andb_true_iff in H2 as [_ H2].
    injection Heq as -> Heq. destruct (IH s2) as [-> ->]; done.
Qed.

(** ** Text comparison of a case-insensitive column (utf8mb4_unicode_ci) on
    the ASCII texts the code stores there *)
Definition lower_ascii (c : ascii) : ascii :=
  let n := N_of_ascii c in
  if ((65 <=? n) && (n <=? 90))%N then ascii_of_N (n + 32) else c.
Fixpoint lower (s : string) : string :=
  match s with
  | EmptyString => EmptyString
  | String c s' => String (lower_ascii c) (lower s')
  end.
Definition sql_text_eq (a b : string) : bool := String.eqb (lower a) (lower b).

Lemma sql_text_eq_refl a : sql_text_eq a a = true.
Proof. apply String.eqb_refl. Qed.

(** ** bytes.TrimSpace: ASCII space and the Unicode space characters *)
Definition is_ascii_space (n : Z) : bool :=
  (n =? 9) || (n =? 10) || (n =? 11) || (n =? 12) || (n =? 13) || (n =? 32).
Definition is_space2 (a b : Z) : bool := (a =? 194) && ((b =? 133) || (b =? 160)).
Definition is_space3 (a b c : Z) : bool :=
  ((a =? 225) && (b =? 154) && (c =? 128))
  || ((a =? 226) && (b =? 128) && (((128 <=? c) && (c <=? 138)) || (c =? 168) || (c =? 169) || (c =? 175)))
  || ((a =? 226) && (b =? 129) && (c =? 159))
  || ((a =? 227) && (b =? 128) && (c =? 128)).

Fixpoint trim_left (l : list ascii) : list ascii :=
  match l with
  | a :: l1 =>
      if is_ascii_space (code a) then trim_left l1
      else match l1 with
      | b :: l2 =>
          if is_space2 (code a) (code b) then trim_left l2
          else match l2 with
          | c :: l3 => if is_space3 (code a) (code b) (code c) then trim_left l3 else l
          | [] => l
          end
      | [] => l
      end
  | [] => []
  end.

(** The same on a reversed slice: the last rune comes first, bytes reversed. *)
Fixpoint trim_right_rev (l : list ascii) : list ascii :=
  match l with
  | a :: l1 =>
      if is_ascii_space (code a) then trim_right_rev l1
      else match l1 with
      | b :: l2 =>
          if is_space2 (code b) (code a) then trim_right_rev l2
          else match l2 with
          | c :: l3 => if is_space3 (code c) (code b) (code a) then trim_right_rev l3 else l
          | [] => l
          end
      | [] => l
      end
  | [] => []
  end.

Definition TrimSpace (l : list ascii) : list ascii := rev (trim_right_rev (rev (trim_left l))).

(** ** unicode/utf8 *)
Definition cont (c : ascii) : bool := (128 <=? code c) && (code c <=? 191).

(** The number of bytes of the rune a slice starts with; [None] is an invalid
    encoding (which Go counts as one rune of one byte). *)
Definition rune_width (l : list ascii) : option nat :=
  match l with
  | [] => None
  | a :: l1 =>
      let x := code a in
      if x <=? 127 then Some 1%nat
      else match l1 with
      | [] => None
      | b :: l2 =>
          let y := code b in
          if (194 <=? x) && (x <=? 223) then if cont b then Some 2%nat else None
          else match l2 with
          | [] => None
          | c :: l3 =>
              if (224 <=? x) && (x <=? 239) then
                if ((if x =? 224 then 160 else 128) <=? y)
                   && (y <=? (if x =? 237 then 159 else 191)) && cont c
                then Some 3%nat else None
              else match l3 with
              | [] => None
              | d :: _ =>
                  if (240 <=? x) && (x <=? 244)
                     && ((if x =? 240 then 144 else 128) <=? y)
                     && (y <=? (if x =? 244 then 143 else 191)) && cont c && cont d
                  then Some 4%nat else None
              end
          end
      end
  end.

(** One pass over at most [fuel] runes: whether all are valid, and how many. *)
Fixpoint scan_runes (fuel : nat) (l : list ascii) : bool * Z :=
  match fuel with
  | O => (true, 0)
  | S fuel' =>
      match l with
      | [] => (true, 0)
      | _ :: _ =>
          match rune_width l with
          | Some n => let '(ok, k) := scan_runes fuel' (drop n l) in (ok, k + 1)
          | None => let '(_, k) := scan_runes fuel' (drop 1 l) in (false, k + 1)
          end
      end
  end.

Definition ValidString (s : string) : bool := fst (scan_runes (String.length s) (bytes s)).
Definition RuneCountInString (s : string) : Z := snd (scan_runes (String.length s) (bytes s)).

(** Every rune takes at least one byte, so the fuel always suffices. *)
Lemma scan_runes_fuel f1 f2 l :
  (length l <= f1)%nat -> (length l <= f2)%nat -> scan_runes f1 l = scan_runes f2 l.
Proof.
  revert f2 l. induction f1 as [|f1 IH]; intros f2 [|a l] H1 H2; cbn [length] in *; try lia.
  - destruct f2; done.
  - destruct f2; done.
  - destruct f2 as [|f2]; [lia|]. cbn [scan_runes].
    assert (Hw : forall n, rune_width (a :: l) = Some n -> (1 <= n)%nat).
    { intros n. unfold rune_width. repeat case_match; intros; simplify_eq; lia. }
    destruct (rune_width (a :: l)) as [n|] eqn:Hn.
    + specialize (Hw n eq_refl).
      rewrite (IH f2 (drop n (a :: l))); [done| |]; rewrite length_drop; simpl; lia.
    + rewrite (IH f2 (drop 1 (a :: l))); [done| |]; simpl; rewrite ?drop_0; lia.
Qed.
