(* ===== verification/GoNumber.v ===== *)
(** * Numbers as text: [strconv.ParseInt] and the decimals of the alerts

    A sample's value and a rule's threshold are decimal texts with at most ten
    fractional digits, which [service/alert.go] reads into a [big.Rat].  Here
    such a rational is its numerator over 10^10: comparing two of them is
    comparing the numerators, and [big.Rat.FloatString] is integer division
    rounded to nearest, halves away from zero. *)

From Stdlib Require Import Ascii String.
From stdpp Require Import pretty.
From S2P Require Import Prelude GoText.

(** ** Digits *)
Definition is_digit (c : ascii) : bool := (48 <=? code c) && (code c <=? 57).
Definition digit_value (c : ascii) : Z := code c - 48.
Definition digit_char (n : Z) : ascii := Ascii.ascii_of_nat (Z.to_nat (48 + n)).
Definition digits (l : list ascii) : bool := forallb is_digit l.
Definition number (l : list ascii) : Z := foldl (fun n c => 10 * n + digit_value c) 0 l.
Definition trim (s : string) : string := string_of_list_ascii (TrimSpace (bytes s)).

(** ** strconv.ParseInt(s, 10, 64) *)
Definition in_int64 (n : Z) : option Z :=
  if (min_int64 <=? n) && (n <=? max_int64) then Some n else None.
Definition ParseInt (s : string) : option Z :=
  let unsigned l := if bool_decide (l = []) || negb (digits l) then None else Some (number l) in
  match bytes s with
  | "-"%char :: l => n ← unsigned l; in_int64 (- n)
  | "+"%char :: l => n ← unsigned l; in_int64 n
  | l => n ← unsigned l; in_int64 n
  end.

(** The helper [canonicalID] of [canonicalAlertTargetKey]. *)
Definition canonicalID (value : string) : option Z :=
  match ParseInt value with
  | Some parsed => if (0 <? parsed) && (FormatInt parsed == value) then Some parsed else None
  | None => None
  end.

(** ** Decimals *)
Definition Rat : Type := Z.
Definition rat_scale : Z := 10000000000.

(** The text before and after the first point. *)
Fixpoint split_point (l : list ascii) : list ascii * option (list ascii) :=
  match l with
  | [] => ([], None)
  | c :: r => if bool_decide (c = "."%char) then ([], Some r)
              else let '(whole, fraction) := split_point r in (c :: whole, fraction)
  end.
Definition split_sign (l : list ascii) : bool * list ascii :=
  match l with "-"%char :: r => (true, r) | _ => (false, l) end.

(** 0|[1-9][0-9]* *)
Definition natural_text (l : list ascii) : bool :=
  match l with
  | [] => false
  | c :: r => is_digit c && digits r && (bool_decide (r = []) || (c != "0"%char))
  end.
(** [alertDecimalPattern] for ten places, [alertThresholdPattern] for two:
    ^-?(0|[1-9][0-9]* )(\.[0-9]{1,places})?$ *)
Definition decimal_pattern (places : nat) (raw : string) : bool :=
  let '(whole, fraction) := split_point (split_sign (bytes raw)).2 in
  natural_text whole &&
  match fraction with
  | None => true
  | Some f => digits f && (1 <=? length f)%nat && (length f <=? places)%nat
  end.

(** TrimRight(f, "0") *)
Fixpoint trim_zeros (l : list ascii) : list ascii :=
  match l with
  | [] => []
  | c :: r => match trim_zeros r with
              | [] => if bool_decide (c = "0"%char) then [] else [c]
              | t => c :: t
              end
  end.

(** The rational a decimal text denotes, and its canonical text. *)
Definition decimal_value (raw : string) : Rat :=
  let '(negative, magnitude) := split_sign (bytes raw) in
  let '(whole, fraction) := split_point magnitude in
  let f := default [] fraction in
  let n := number whole * rat_scale + number f * 10 ^ (10 - Z.of_nat (length f)) in
  if negative then - n else n.
Definition decimal_canonical (raw : string) : string :=
  if decimal_value raw =? 0 then "0"
  else match split_point (bytes raw) with
       | (_, None) => raw
       | (whole, Some f) =>
           let t := trim_zeros f in
           string_of_list_ascii (if bool_decide (t = []) then whole else whole ++ "."%char :: t)
       end.

Definition parseAlertDecimal (raw : string) (allowNegative : bool) : option (Rat * string) :=
  let whole := (split_point (split_sign (bytes raw)).2).1 in
  if negb ((raw == trim raw) && decimal_pattern 10 raw) then None
  else if (20 <? length whole)%nat then None
  else let value := decimal_value raw in
       if negb allowNegative && (value <? 0) then None
       else Some (value, decimal_canonical raw).

Definition parseAlertThreshold (raw : string) (allowNegative : bool) : option (Rat * string) :=
  if negb ((raw == trim raw) && decimal_pattern 2 raw) then None
  else parseAlertDecimal raw allowNegative.

(** big.Rat.FloatString(places) *)
Fixpoint padded (places : nat) (n : Z) : list ascii :=
  match places with
  | O => []
  | S places => padded places (n / 10) ++ [digit_char (n mod 10)]
  end.
Definition FloatString (places : nat) (value : Rat) : string :=
  let unit := 10 ^ (10 - Z.of_nat places) in
  let n := (Z.abs value + unit / 2) / unit in
  (if value <? 0 then "-" else "") +:+ FormatInt (n / 10 ^ Z.of_nat places) +:+
  match places with
  | O => ""
  | S _ => "." +:+ string_of_list_ascii (padded places (n mod 10 ^ Z.of_nat places))
  end.

Example FloatString_84_5 : FloatString 10 845000000000 = "84.5000000000" /\ FloatString 2 845000000000 = "84.50".
Proof. split; vm_compute; reflexivity. Qed.
Example parse_84_50 : parseAlertThreshold "84.50" false = Some (845000000000, "84.5").
Proof. vm_compute. reflexivity. Qed.
Example parse_leading_zero : parseAlertDecimal "084" true = None /\ parseAlertDecimal "-0.0" true = Some (0, "0").
Proof. split; vm_compute; reflexivity. Qed.

(** ** What a number's text reads as *)
Lemma bytes_concat s t : bytes (s +:+ t) = bytes s ++ bytes t.
Proof. unfold bytes. induction s as [|c s IH]; simpl; [done|]. by rewrite IH. Qed.
Lemma bytes_of l : bytes (string_of_list_ascii l) = l.
Proof. apply list_ascii_of_string_of_list_ascii. Qed.

Lemma number_snoc l c : number (l ++ [c]) = 10 * number l + digit_value c.
Proof. unfold number. by rewrite foldl_app. Qed.
Lemma digits_app l k : digits (l ++ k) = digits l && digits k.
Proof. apply forallb_app. Qed.

(** Checking the ten digits one by one. *)
Lemma each_digit (P : Z -> Prop) n : Forall P (seqZ 0 10) -> 0 <= n < 10 -> P n.
Proof. rewrite Forall_forall. intros H Hn. apply H, elem_of_seqZ. lia. Qed.

Lemma digit_char_code n : 0 <= n < 10 -> code (digit_char n) = 48 + n.
Proof. apply (each_digit (fun n => code (digit_char n) = 48 + n)). repeat constructor. Qed.
Lemma digit_char_digit n : 0 <= n < 10 -> is_digit (digit_char n) = true.
Proof. intros Hn. unfold is_digit. rewrite digit_char_code by done. apply andb_true_iff. split; apply Z.leb_le; lia. Qed.
Lemma digit_char_value n : 0 <= n < 10 -> digit_value (digit_char n) = n.
Proof. intros Hn. unfold digit_value. rewrite digit_char_code by done. lia. Qed.

Lemma length_padded places n : length (padded places n) = places.
Proof. revert n. induction places as [|k IH]; intros n; simpl; [done|]. rewrite length_app, IH. simpl. lia. Qed.
Lemma digits_padded places n : digits (padded places n) = true.
Proof.
  revert n. induction places as [|k IH]; intros n; simpl; [done|].
  rewrite digits_app, IH. simpl. rewrite digit_char_digit by (apply Z.mod_pos_bound; lia). done.
Qed.
Lemma number_padded places n : 0 <= n < 10 ^ Z.of_nat places -> number (padded places n) = n.
Proof.
  revert n. induction places as [|k IH]; intros n Hn; simpl padded.
  - simpl in Hn. unfold number. simpl. lia.
  - rewrite number_snoc, digit_char_value by (apply Z.mod_pos_bound; lia).
    rewrite Nat2Z.inj_succ, Z.pow_succ_r in Hn by lia.
    rewrite IH by (split; [apply Z.div_pos; lia|apply Z.div_lt_upper_bound; lia]).
    symmetry. apply Z.div_mod. lia.
Qed.

Lemma pretty_char n : (n < 10)%N -> pretty_N_char n = digit_char (Z.of_N n).
Proof.
  intros Hn. rewrite <- (N2Z.id n) at 1.
  apply (each_digit (fun z => pretty_N_char (Z.to_N z) = digit_char z)); [repeat constructor|lia].
Qed.

Lemma pretty_digits n s : (0 < n)%N -> exists c l,
  bytes (pretty_N_go n s) = (c :: l) ++ bytes s /\ digits (c :: l) = true
  /\ number (c :: l) = Z.of_N n /\ c <> "0"%char.
Proof.
  revert s. induction (N.lt_wf_0 n) as [n _ IH]. intros s Hn.
  rewrite pretty_N_go_step by lia.
  assert (n mod 10 < 10)%N as Hm by (apply N.mod_lt; lia).
  rewrite pretty_char by done.
  assert (0 <= Z.of_N (n mod 10) < 10) as Hz by (clear -Hm; revert Hm; generalize (n mod 10)%N; lia).
  destruct (decide (n / 10 = 0)%N) as [H0|H0].
  - rewrite H0, pretty_N_go_0. exists (digit_char (Z.of_N (n mod 10))), [].
    assert (n mod 10 = n)%N as Hmod by (apply N.mod_small, N.div_small_iff; lia).
    repeat split.
    + simpl. by rewrite digit_char_digit.
    + unfold number. cbn [foldl]. rewrite digit_char_value by done. rewrite Hmod. lia.
    + intros Heq. apply (f_equal code) in Heq. rewrite digit_char_code in Heq by lia.
      change (code "0") with 48 in Heq. rewrite Hmod in Heq. lia.
  - destruct (IH (n / 10)%N) with (s := String (digit_char (Z.of_N (n mod 10))) s) as (c&l&Hb&Hd&Hv&Hc);
      [apply N.div_lt; lia|by apply N.neq_0_lt_0|].
    exists c, (l ++ [digit_char (Z.of_N (n mod 10))]). repeat split.
    + rewrite Hb. simpl. by rewrite <- app_assoc.
    + rewrite app_comm_cons, digits_app, Hd. simpl. by rewrite digit_char_digit.
    + rewrite app_comm_cons, number_snoc, Hv, digit_char_value by done.
      rewrite N2Z.inj_mod, N2Z.inj_div. change (Z.of_N 10) with 10.
      symmetry. apply Z.div_mod. lia.
    + done.
Qed.

Lemma FormatInt_digits n : 0 <= n ->
  natural_text (bytes (FormatInt n)) = true /\ digits (bytes (FormatInt n)) = true
  /\ number (bytes (FormatInt n)) = n.
Proof.
  intros Hn. destruct (decide (n = 0)) as [->|H0]; [done|].
  destruct n as [|p|p]; [done| |lia]. unfold FormatInt, pretty, pretty_Z, pretty, pretty_positive, pretty, pretty_N.
  case_decide as Hp; [done|].
  destruct (pretty_digits (N.pos p) "") as (c&l&Hb&Hd&Hv&Hc); [lia|].
  rewrite Hb, app_nil_r. repeat split; [|done..].
  simpl in Hd |- *. rewrite Hd. apply orb_true_iff. right.
  by rewrite bool_decide_eq_false_2 by done.
Qed.

Lemma number_cons c l : number (c :: l) = digit_value c * 10 ^ Z.of_nat (length l) + number l.
Proof.
  induction l as [|d l IH] using rev_ind; [unfold number; cbn; lia|].
  rewrite app_comm_cons, !number_snoc, IH, length_app. simpl length.
  rewrite Nat2Z.inj_add, Z.pow_add_r by lia. change (10 ^ Z.of_nat 1) with 10. lia.
Qed.
Lemma is_digit_value c : is_digit c = true -> 0 <= digit_value c < 10.
Proof. unfold is_digit, digit_value. to_prop. lia. Qed.
Lemma number_bound l : digits l = true -> 0 <= number l < 10 ^ Z.of_nat (length l).
Proof.
  induction l as [|c l IH]; [done|]. cbn [digits forallb]. intros [Hc Hl]%andb_true_iff. rewrite number_cons.
  apply is_digit_value in Hc. specialize (IH Hl). simpl length. rewrite Nat2Z.inj_succ, Z.pow_succ_r by lia. nia.
Qed.

Lemma number_lower l : natural_text l = true -> (2 <= length l)%nat -> 10 ^ (Z.of_nat (length l) - 1) <= number l.
Proof.
  destruct l as [|c r]; [done|]. simpl. rewrite !andb_true_iff, orb_true_iff. intros [[Hc Hr] Hz] Hlen.
  rewrite number_cons. apply number_bound in Hr. apply is_digit_value in Hc as Hv.
  assert (digit_value c <> 0) as Hn.
  { destruct Hz as [Hz|Hz]; [apply bool_decide_eq_true in Hz; subst; simpl in Hlen; lia|].
    apply negb_bool_decide in Hz. intros H0. apply Hz. unfold digit_value, code in H0.
    rewrite <- (ascii_N_embedding c). by replace (N_of_ascii c) with 48%N by lia. }
  replace (Z.of_nat (S (length r)) - 1) with (Z.of_nat (length r)) by lia.
  pose proof (Z.pow_pos_nonneg 10 (Z.of_nat (length r))). nia.
Qed.

Lemma natural_length l k : natural_text l = true -> (1 <= k)%nat -> number l < 10 ^ Z.of_nat k -> (length l <= k)%nat.
Proof.
  intros Hn Hk Hlt. destruct (decide (length l <= k)%nat) as [|Hgt]; [done|exfalso].
  pose proof (number_lower l Hn ltac:(lia)) as Hlow.
  assert (10 ^ Z.of_nat k <= 10 ^ (Z.of_nat (length l) - 1)) by (apply Z.pow_le_mono_r; lia). lia.
Qed.

(** ** Trimming leaves alone what starts and ends with a visible character *)
Definition visible (c : ascii) : bool := (33 <=? code c) && (code c <=? 127).

Lemma visible_tests c : visible c = true -> forall a b,
  is_ascii_space (code c) = false /\ is_space2 (code c) a = false /\ is_space3 (code c) a b = false
  /\ is_space2 a (code c) = false /\ is_space3 a b (code c) = false.
Proof.
  unfold visible, is_ascii_space, is_space2, is_space3. intros [H1%Z.leb_le H2%Z.leb_le]%andb_true_iff a b.
  repeat match goal with |- context [code c =? ?n] => rewrite (proj2 (Z.eqb_neq (code c) n)) by lia end.
  repeat match goal with |- context [?n <=? code c] => rewrite (proj2 (Z.leb_gt n (code c))) by lia end.
  by rewrite !andb_false_r.
Qed.

Lemma trim_left_visible a l : visible a = true -> trim_left (a :: l) = a :: l.
Proof.
  intros Ha. simpl. rewrite (proj1 (visible_tests a Ha 0 0)).
  destruct l as [|b l]; [done|]. rewrite (proj1 (proj2 (visible_tests a Ha (code b) 0))).
  destruct l as [|c l]; [done|]. by rewrite (proj1 (proj2 (proj2 (visible_tests a Ha (code b) (code c))))).
Qed.

Lemma trim_right_visible a l : visible a = true -> trim_right_rev (a :: l) = a :: l.
Proof.
  intros Ha. simpl. rewrite (proj1 (visible_tests a Ha 0 0)).
  destruct l as [|b l]; [done|].
  destruct (visible_tests a Ha (code b) 0) as (_&_&_&->&_).
  destruct l as [|c l]; [done|]. by destruct (visible_tests a Ha (code c) (code b)) as (_&_&_&_&->).
Qed.

Lemma trim_visible a l z : visible a = true -> visible z = true ->
  TrimSpace (a :: l ++ [z]) = a :: l ++ [z].
Proof.
  intros Ha Hz. unfold TrimSpace. rewrite trim_left_visible by done.
  rewrite app_comm_cons, rev_app_distr. change (rev [z] ++ rev (a :: l)) with (z :: rev (a :: l)).
  rewrite trim_right_visible by done. change (z :: rev (a :: l)) with (rev [z] ++ rev (a :: l)).
  by rewrite <- rev_app_distr, rev_involutive.
Qed.

Lemma digit_visible c : is_digit c = true -> visible c = true.
Proof. unfold is_digit, visible. to_prop. lia. Qed.

(** ** A rational written with [FloatString] reads as itself *)
Lemma split_sign_natural l k : natural_text l = true -> split_sign (l ++ k) = (false, l ++ k).
Proof.
  destruct l as [|c r]; [done|]. simpl. intros [[Hc _]%andb_true_iff _]%andb_true_iff.
  destruct c as [[] [] [] [] [] [] [] []]; try done.
Qed.

Lemma split_point_digits w f : digits w = true -> split_point (w ++ "."%char :: f) = (w, Some f).
Proof.
  induction w as [|c w IH]; simpl; [done|]. intros [Hc Hw]%andb_true_iff. rewrite IH by done.
  rewrite bool_decide_eq_false_2; [done|]. intros ->. done.
Qed.

Lemma natural_digits l : natural_text l = true -> digits l = true /\ l <> [].
Proof. destruct l as [|c r]; [done|]. simpl. rewrite !andb_true_iff. intros [[-> ->] _]. done. Qed.

Section FloatText.
Context (places : nat) (v : Rat).
Hypothesis places_bound : (1 <= places <= 10)%nat.
Hypothesis v_scaled : (10 ^ (10 - Z.of_nat places) | v).

Let unit := 10 ^ (10 - Z.of_nat places).
Let scaled := Z.abs v / unit.
Let whole := bytes (FormatInt (scaled / 10 ^ Z.of_nat places)).
Let fraction := padded places (scaled mod 10 ^ Z.of_nat places).

Lemma float_unit : 0 < unit /\ Z.abs v = scaled * unit /\ 0 <= scaled.
Proof using places_bound v_scaled.
  assert (0 < unit) as Hu by (apply Z.pow_pos_nonneg; lia).
  assert (unit | Z.abs v) as [q Hq] by (by apply Z.divide_abs_r).
  assert (scaled = q) as Hs by (unfold scaled; rewrite Hq; apply Z.div_mul; lia).
  rewrite Hs. repeat split; [done..|]. apply Z.mul_nonneg_cancel_r with unit; lia.
Qed.

Lemma FloatString_bytes : bytes (FloatString places v) =
  (if v <? 0 then ["-"%char] else []) ++ whole ++ "."%char :: fraction.
Proof using places_bound v_scaled.
  destruct float_unit as (Hu&Hv&Hs). unfold FloatString. fold unit.
  replace ((Z.abs v + unit / 2) / unit) with scaled.
  - destruct places as [|k]; [lia|]. rewrite !bytes_concat, bytes_of. by destruct (v <? 0).
  - unfold scaled. rewrite Hv at 2. rewrite Z.div_add_l by lia. rewrite (Z.div_small (unit / 2)); [unfold scaled; lia|].
    split; [apply Z.div_pos; lia|]. apply Z.div_lt_upper_bound; lia.
Qed.

Lemma float_whole : natural_text whole = true /\ digits whole = true
  /\ number whole = scaled / 10 ^ Z.of_nat places.
Proof using places_bound v_scaled.
  destruct float_unit as (_&_&Hs). apply FormatInt_digits. apply Z.div_pos; [done|]. apply Z.pow_pos_nonneg; lia.
Qed.
Lemma float_fraction : digits fraction = true /\ length fraction = places
  /\ number fraction = scaled mod 10 ^ Z.of_nat places.
Proof using places_bound v_scaled.
  split; [apply digits_padded|]. split; [apply length_padded|]. apply number_padded.
  apply Z.mod_pos_bound, Z.pow_pos_nonneg; lia.
Qed.

Lemma FloatString_split : split_sign (bytes (FloatString places v)) = (v <? 0, whole ++ "."%char :: fraction).
Proof using places_bound v_scaled.
  rewrite FloatString_bytes. destruct (v <? 0) eqn:Hv; [done|]. simpl. apply split_sign_natural, float_whole.
Qed.

Lemma FloatString_value : decimal_value (FloatString places v) = v.
Proof using places_bound v_scaled.
  unfold decimal_value. rewrite FloatString_split.
  destruct float_whole as (_&Hd&Hw). destruct float_fraction as (_&Hl&Hf). destruct float_unit as (Hu&Hv&Hs).
  rewrite split_point_digits by done. simpl. rewrite Hw, Hf, Hl. fold unit.
  assert (rat_scale = 10 ^ Z.of_nat places * unit) as ->.
  { unfold unit. rewrite <- Z.pow_add_r by lia. by replace (Z.of_nat places + (10 - Z.of_nat places)) with 10 by lia. }
  pose proof (Z.div_mod scaled (10 ^ Z.of_nat places) ltac:(apply Z.pow_nonzero; lia)) as Hdm.
  set (P := 10 ^ Z.of_nat places) in *. set (q := scaled / P) in *. set (m := scaled mod P) in *.
  replace (q * (P * unit) + m * unit) with (Z.abs v) by (rewrite Hv, Hdm at 1; ring).
  destruct (Z.ltb_spec v 0); lia.
Qed.

Lemma FloatString_trim : trim (FloatString places v) = FloatString places v.
Proof using places_bound v_scaled.
  destruct float_whole as (Hn&Hd&_). destruct float_fraction as (Hf&Hl&_).
  assert (exists a l z, bytes (FloatString places v) = a :: l ++ [z] /\ visible a = true /\ visible z = true) as (a&l&z&Hb&Ha&Hz).
  { rewrite FloatString_bytes. destruct (exists_last (l := fraction)) as (f&z&Hz); [intros H0; rewrite H0 in Hl; simpl in Hl; lia|].
    rewrite Hz in *. rewrite digits_app in Hf. apply andb_true_iff in Hf as [_ Hfz]. simpl in Hfz. rewrite andb_true_r in Hfz.
    destruct whole as [|a w]; [done|]. simpl in Hd. apply andb_true_iff in Hd as [Hda _].
    destruct (v <? 0).
    - exists "-"%char, ((a :: w) ++ "."%char :: f), z. split; [by rewrite <- app_assoc|]. split; [done|by apply digit_visible].
    - exists a, (w ++ "."%char :: f), z. split; [by rewrite <- app_assoc|]. by split; apply digit_visible. }
  unfold trim. rewrite Hb, trim_visible by done. rewrite <- Hb. unfold bytes. apply string_of_list_ascii_of_string.
Qed.

Lemma FloatString_pattern k : (places <= k)%nat -> decimal_pattern k (FloatString places v) = true.
Proof using places_bound v_scaled.
  intros Hk. unfold decimal_pattern. rewrite FloatString_split. cbn [snd].
  destruct float_whole as (Hn&Hd&_). destruct float_fraction as (Hf&Hl&_).
  rewrite split_point_digits by done. rewrite Hn, Hf, Hl. rewrite !andb_true_iff, !Nat.leb_le. split; [done|lia].
Qed.

Lemma FloatString_short : Z.abs v < 10 ^ 30 ->
  (length (split_point (split_sign (bytes (FloatString places v))).2).1 <= 20)%nat.
Proof using places_bound v_scaled.
  intros Hb. rewrite FloatString_split. cbn [snd]. destruct float_whole as (Hn&Hd&Hw). rewrite split_point_digits by done. cbn [fst].
  apply natural_length; [done|lia|]. rewrite Hw. destruct float_unit as (Hu&Hv&Hs).
  apply Z.div_lt_upper_bound; [apply Z.pow_pos_nonneg; lia|].
  apply Z.mul_lt_mono_pos_r with unit; [done|]. rewrite <- Hv.
  replace (10 ^ Z.of_nat places * 10 ^ Z.of_nat 20 * unit) with (10 ^ 30); [done|].
  unfold unit. rewrite <- !Z.pow_add_r by lia. f_equal. lia.
Qed.

(** Written with [places] digits and read back with at most [k]. *)
Lemma parse_FloatString : Z.abs v < 10 ^ 30 ->
  parseAlertDecimal (FloatString places v) true = Some (v, decimal_canonical (FloatString places v)).
Proof using places_bound v_scaled.
  intros Hb. unfold parseAlertDecimal. rewrite FloatString_trim, bool_decide_eq_true_2 by done.
  rewrite FloatString_pattern by lia. simpl negb. cbv iota.
  rewrite (proj2 (Nat.ltb_ge _ _)) by (by apply FloatString_short).
  by rewrite FloatString_value.
Qed.
End FloatText.

Lemma parse_current v : Z.abs v < 10 ^ 30 ->
  parseAlertDecimal (FloatString 10 v) true = Some (v, decimal_canonical (FloatString 10 v)).
Proof. apply parse_FloatString; [lia|]. exists v. simpl. lia. Qed.

(** What is read is in range: twenty digits before the point, ten after. *)
Lemma parseAlertDecimal_range raw allowed v canonical :
  parseAlertDecimal raw allowed = Some (v, canonical) -> Z.abs v < 10 ^ 30.
Proof.
  unfold parseAlertDecimal, decimal_pattern, decimal_value.
  destruct (split_sign (bytes raw)) as [negative magnitude]. cbn [snd].
  destruct (split_point magnitude) as [w f]. cbn [fst].
  destruct (_ == _); [|done]. simpl andb. destruct (natural_text w && _) eqn:Hp; [|done]. simpl negb. cbv iota.
  destruct (Nat.ltb_spec 20 (length w)) as [|Hlen]; [done|].
  apply andb_true_iff in Hp as [Hn Hf].
  assert (0 <= number w < 10 ^ 20) as Hw.
  { pose proof (number_bound w (proj1 (natural_digits w Hn))).
    assert (10 ^ Z.of_nat (length w) <= 10 ^ 20) by (apply Z.pow_le_mono_r; lia). lia. }
  assert (0 <= number (default [] f) * 10 ^ (10 - Z.of_nat (length (default [] f))) < rat_scale) as Hq.
  { destruct f as [f|]; [|done]. simpl default. rewrite !andb_true_iff, !Nat.leb_le in Hf. destruct Hf as [[Hd _] Hl].
    apply number_bound in Hd. change rat_scale with (10 ^ 10).
    replace (10 ^ 10) with (10 ^ Z.of_nat (length f) * 10 ^ (10 - Z.of_nat (length f)))
      by (rewrite <- Z.pow_add_r by lia; f_equal; lia).
    pose proof (Z.pow_pos_nonneg 10 (10 - Z.of_nat (length f))). nia. }
  destruct (negb _ && _); [done|]. intros [= <- _]. unfold rat_scale in *.
  destruct negative; lia.
Qed.
