(* ===== verification/Json.v ===== *)
(** * Flat JSON objects ([common.Marshal], [encoding/json])

    The parameters of an error are objects whose members are strings and
    integers.  [Marshal] writes the members in the order of their names and
    escapes what [encoding/json] escapes: quotes, backslashes, control
    characters, [<], [>] and [&], the line separators U+2028 and U+2029, and
    bytes that are no UTF-8.

    A number that is read back as a float64 and written again is the same for
    integers up to 2^53 in absolute value, which instants, sizes and status
    codes do not exceed. *)

From Stdlib Require Import Ascii String.
From S2P Require Import Prelude GoText.

Inductive json_value := JsonText (s : string) | JsonNumber (z : Z).
Abbreviation json_object := (gmap string json_value).

Definition dquote : ascii := Ascii.ascii_of_nat 34.
Definition backslash : ascii := Ascii.ascii_of_nat 92.
Definition hex_lower (n : Z) : ascii := Ascii.ascii_of_nat (Z.to_nat (if n <? 10 then 48 + n else 87 + n)).

(** One ASCII character. *)
Definition json_escape (c : ascii) : list ascii :=
  let n := code c in
  if (n =? 34) || (n =? 92) then [backslash; c]
  else if n =? 8 then [backslash; "b"%char] else if n =? 12 then [backslash; "f"%char]
  else if n =? 10 then [backslash; "n"%char] else if n =? 13 then [backslash; "r"%char]
  else if n =? 9 then [backslash; "t"%char]
  else if (n <? 32) || (n =? 60) || (n =? 62) || (n =? 38)
  then [backslash; "u"%char; "0"%char; "0"%char; hex_lower (n / 16); hex_lower (n mod 16)]
  else [c].

(** U+2028 and U+2029 in UTF-8: e2 80 a8, e2 80 a9. *)
Definition line_separator (rune : list ascii) : option ascii :=
  match (fun c => code c) <$> rune with
  | [226; 128; 168] => Some "8"%char
  | [226; 128; 169] => Some "9"%char
  | _ => None
  end.

(** At most [fuel] runes; each takes at least a byte. *)
Fixpoint json_runes (fuel : nat) (l : list ascii) : list ascii :=
  match fuel, l with
  | S fuel, c :: _ =>
      match rune_width l with
      | None => backslash :: bytes "ufffd" ++ json_runes fuel (drop 1 l)
      | Some 1%nat => json_escape c ++ json_runes fuel (drop 1 l)
      | Some n =>
          match line_separator (take n l) with
          | Some digit => backslash :: bytes "u202" ++ digit :: json_runes fuel (drop n l)
          | None => take n l ++ json_runes fuel (drop n l)
          end
      end
  | _, _ => []
  end.

Definition json_quoted (s : string) : string :=
  String dquote (string_of_list_ascii (json_runes (String.length s) (bytes s)) +:+ String dquote "").

Definition json_render (v : json_value) : string :=
  match v with JsonText s => json_quoted s | JsonNumber z => FormatInt z end.

Definition json_sorted (m : json_object) : list (string * json_value) :=
  sort_by (fun e => [AStr e.1]) (map_to_list m).

Definition Marshal (m : json_object) : string :=
  "{" +:+ String.concat "," ((fun '(key, v) => json_quoted key +:+ ":" +:+ json_render v) <$> json_sorted m) +:+ "}".

Example marshal_sorted : Marshal (<["site_id" := JsonText "7"]> (<["end_timestamp" := JsonNumber 97200]> ∅))
  = "{" +:+ json_quoted "end_timestamp" +:+ ":97200," +:+ json_quoted "site_id" +:+ ":" +:+ json_quoted "7" +:+ "}".
Proof. vm_compute. reflexivity. Qed.
