(* ===== verification/Stats.v ===== *)
(** * The tables of the usage statistics ([model/usage_aggregation.go])

    The daily facts, the hourly and daily roll-ups and the locks of their
    buckets.  A table is a finite map from its unique key to its row: the
    AUTO_INCREMENT ids are never read and are left out.  The six hourly tables
    differ from the six daily ones in the bucket of their key (an hour, or a
    date as yyyymmdd) and in the column [is_final], which an hourly row keeps
    [false]; an account has no [active_users], which its rows keep 0.

    SUM over a bigint column is exact (DECIMAL); a sum that does not fit the
    bigint column it is inserted into is refused.  The collations of the keys
    are taken to be exact. *)

From S2P Require Import Prelude.

(** ** Rows *)

(** The composite key of a fact within an hour or a day. *)
Definition fact_key_of : Type := Z * string * Z * string * Z * string.

(** [usageMetricAggregate]: the columns request_count, quota, token_used and
    active_users of a row. *)
Module Metrics.
Record usageMetricAggregate := mk { RequestCount : Z; Quota : Z; TokenUsed : Z; ActiveUsers : Z }.
#[export] Instance metrics_eq_dec : EqDecision usageMetricAggregate.
Proof. solve_decision. Defined.
End Metrics.
Export (hints) Metrics.
Abbreviation usageMetricAggregate := Metrics.usageMetricAggregate.

Definition no_usage : usageMetricAggregate := Metrics.mk 0 0 0 0.

(** [AccountStatHourly], [AccountStatDaily], ..., [ChannelStatDaily] *)
Module Stat.
Record StatRow := mk {
  metrics : usageMetricAggregate; DataStatus : string; IsFinal : bool; LastCalculatedAt : Z; CreatedAt : Z;
  UpdatedAt : Z }.
#[export] Instance StatRow_eta : RecordEta StatRow := fun r =>
  mk (metrics r) (DataStatus r) (IsFinal r) (LastCalculatedAt r) (CreatedAt r) (UpdatedAt r).
#[export] Instance StatRow_eq_dec : EqDecision StatRow.
Proof. solve_decision. Defined.
End Stat.
Export (hints) Stat.
Abbreviation StatRow := Stat.StatRow.

(** [UsageFactDaily], without its key. *)
Module DailyFact.
Record UsageFactDaily := mk {
  UsernameSnapshot : string; TokenName : string; RequestCount : Z; Quota : Z; TokenUsed : Z; IsFinal : bool;
  LastCalculatedAt : Z; CreatedAt : Z; UpdatedAt : Z }.
#[export] Instance UsageFactDaily_eta : RecordEta UsageFactDaily := fun r =>
  mk (UsernameSnapshot r) (TokenName r) (RequestCount r) (Quota r) (TokenUsed r) (IsFinal r)
     (LastCalculatedAt r) (CreatedAt r) (UpdatedAt r).
#[export] Instance UsageFactDaily_eq_dec : EqDecision UsageFactDaily.
Proof. solve_decision. Defined.
End DailyFact.
Export (hints) DailyFact.
Abbreviation UsageFactDaily := DailyFact.UsageFactDaily.

(** ** Tables

    The keys: (account, bucket), (customer, site, bucket), (site, bucket),
    bucket, (site, model, bucket), (site, channel, bucket). *)
Module Rollup.
Record Rollup := mk {
  account_stat : gmap (Z * Z) StatRow; customer_stat : gmap (Z * Z * Z) StatRow;
  site_stat : gmap (Z * Z) StatRow; global_stat : gmap Z StatRow;
  model_stat : gmap (Z * string * Z) StatRow; channel_stat : gmap (Z * Z * Z) StatRow }.
#[export] Instance Rollup_eta : RecordEta Rollup := fun r =>
  mk (account_stat r) (customer_stat r) (site_stat r) (global_stat r) (model_stat r) (channel_stat r).
End Rollup.
Export (hints) Rollup.
Abbreviation Rollup := Rollup.Rollup.

(** The key of a daily fact: site, key of the fact, date. *)
Definition daily_key : Type := Z * fact_key_of * Z.

Module Statistics.
Record Statistics := mk {
  aggregation_bucket_lock : gmap string Z;
  usage_fact_daily : gmap daily_key UsageFactDaily;
  hourly : Rollup; daily : Rollup }.
#[export] Instance Statistics_eta : RecordEta Statistics := fun s =>
  mk (aggregation_bucket_lock s) (usage_fact_daily s) (hourly s) (daily s).
End Statistics.
Export (hints) Statistics.
Abbreviation Statistics := Statistics.Statistics.

Definition empty_rollup : Rollup := Rollup.mk ∅ ∅ ∅ ∅ ∅ ∅.
Definition no_statistics : Statistics := Statistics.mk ∅ ∅ empty_rollup empty_rollup.

(** ** Statements on one table *)
Section Statements.
Context {K R : Type} `{!EqDecision K, !Countable K}.
Implicit Types (t : gmap K R).

(** DELETE ... WHERE p(key) *)
Definition delete_keys (p : K -> bool) (t : gmap K R) : gmap K R := base.filter (fun '(k, _) => p k = false) t.
Definition deleted (p : K -> bool) (t : gmap K R) : Z := count (fun '(k, _) => p k) (map_to_list t).

(** INSERT INTO ... SELECT: the rows of a query, all or none. *)
Definition insert_select (fits : R -> bool) (new t : gmap K R) : result (Z * gmap K R) :=
  if negb (forallb (fun '(_, r) => fits r) (map_to_list new)) then Err ErrOutOfRange
  else if existsb (fun '(k, _) => not_nil (t !! k)) (map_to_list new) then Err ErrDuplicatedKey
  else Ok (Z.of_nat (size new), new ∪ t).

(** INSERT ... ON CONFLICT DO NOTHING *)
Definition insert_ignore (k : K) (r : R) (t : gmap K R) : Z * gmap K R :=
  match t !! k with Some _ => (0, t) | None => (1, <[k := r]> t) end.

(** UPDATE ... SET f WHERE key = k *)
Definition update_key (k : K) (f : R -> R) (t : gmap K R) : gmap K R := alter f k t.

(** UPDATE ... SET f WHERE p(row); the rows matched all change. *)
Definition update_rows (p : K -> R -> bool) (f : R -> R) (t : gmap K R) : gmap K R :=
  map_imap (fun k r => Some (if p k r then f r else r)) t.
Definition updated (p : K -> R -> bool) (t : gmap K R) : Z := count (fun '(k, r) => p k r) (map_to_list t).

Lemma lookup_delete_keys p t k : delete_keys p t !! k = if p k then None else t !! k.
Proof.
  unfold delete_keys. destruct (p k) eqn:E.
  - apply map_lookup_filter_None_2. right. intros x _. congruence.
  - destruct (t !! k) as [r|] eqn:Ht.
    + by apply map_lookup_filter_Some_2.
    + apply map_lookup_filter_None_2. by left.
Qed.

Lemma lookup_update_rows p f t k :
  update_rows p f t !! k = (fun r => if p k r then f r else r) <$> (t !! k).
Proof. unfold update_rows. rewrite map_lookup_imap. by destruct (t !! k). Qed.

Lemma insert_select_ok fits new t n t' : insert_select fits new t = Ok (n, t') <->
  (forall k r, new !! k = Some r -> fits r = true /\ t !! k = None) /\ n = Z.of_nat (size new) /\ t' = new ∪ t.
Proof.
  unfold insert_select.
  destruct (forallb _ _) eqn:E1; simpl.
  - rewrite forallb_forall in E1. destruct (existsb _ _) eqn:E2.
    + split; [done|]. intros (H&_). apply existsb_exists in E2 as ([k r]&Hin%list_elem_of_In&Hk).
      apply elem_of_map_to_list in Hin. destruct (H k r Hin) as [_ Hn]. by rewrite Hn in Hk.
    + split; [|by intros (_&->&->)]. intros [= <- <-]. split; [|done]. intros k r Hk.
      split; [apply (E1 (k, r)), list_elem_of_In; by apply elem_of_map_to_list|].
      destruct (t !! k) eqn:Ht; [|done]. rewrite <- not_true_iff_false in E2. destruct E2.
      apply existsb_exists. exists (k, r). split; [apply list_elem_of_In; by apply elem_of_map_to_list|]. by rewrite Ht.
  - split; [done|]. intros (H&_). rewrite <- not_true_iff_false in E1. destruct E1. apply forallb_forall.
    intros [k r] Hin%list_elem_of_In. apply elem_of_map_to_list in Hin. by apply (H k r).
Qed.
End Statements.

(** ** GROUP BY *)
Section Group.
Context {K R : Type} `{!EqDecision K, !Countable K}.

Definition grouped (rows : list (K * R)) : gmap K (list R) :=
  foldr (fun '(k, r) m => <[k := r :: default [] (m !! k)]> m) ∅ rows.

(** The rows of one group. *)
Definition group_of (k : K) (rows : list (K * R)) : list R := (base.filter (fun e => e.1 = k) rows).*2.

Lemma lookup_grouped rows k :
  grouped rows !! k = match group_of k rows with [] => None | l => Some l end.
Proof.
  unfold group_of. induction rows as [|[j r] rows IH]; [done|]. cbn [grouped foldr]. fold (grouped rows).
  rewrite filter_cons. simpl. destruct (decide (j = k)) as [->|Hne].
  - rewrite lookup_insert_eq, IH. simpl. by destruct (base.filter _ rows).
  - by rewrite lookup_insert_ne, IH by done.
Qed.

Lemma elem_of_group k r rows : r ∈ group_of k rows <-> (k, r) ∈ rows.
Proof.
  unfold group_of. rewrite list_elem_of_fmap. split.
  - by intros ([j x]&->&[<- H]%list_elem_of_filter).
  - intros H. exists (k, r). split; [done|]. by apply list_elem_of_filter.
Qed.

#[export] Instance group_perm k : Proper (Permutation ==> Permutation) (group_of k).
Proof. intros l1 l2 H. unfold group_of. by rewrite H. Qed.
End Group.
