(* ===== verification/DateBucket.v ===== *)
(** * The civil date of an hour ([UsageDateBucket], [model/usage_aggregation.go])

    Statistics are kept per hour and per calendar day of [Asia/Shanghai], a
    fixed zone eight hours ahead of UTC without daylight saving.  The file
    models the part of package [time] behind [time.Unix(...).In(zone)] and
    [time.Date]: the proleptic Gregorian date of a day number.  Instants are
    seconds since the epoch; the model does not wrap at the ends of int64,
    which [time] reaches some 292 billion years away. *)

From S2P Require Import Prelude.

(** ** The proleptic Gregorian calendar *)
Module Civil.
Record Date := mk { Year : Z; Month : Z; Day : Z }.
#[export] Instance date_eq_dec : EqDecision Date.
Proof. solve_decision. Defined.
End Civil.
Export (hints) Civil.
Abbreviation Date := Civil.Date.

(** Day [doy] of a year that starts on the first of March; March is month 0 of
    such a year, and January and February belong to the next civil year. *)
Definition march_month (doy : Z) : Z := (5 * doy + 2) / 153.
Definition march_date (year doy : Z) : Date :=
  let mp := march_month doy in
  let month := if mp <? 10 then mp + 3 else mp - 9 in
  Civil.mk (year + (if mp <? 10 then 0 else 1)) month (doy - (153 * mp + 2) / 5 + 1).

(** The date of the day [doe] of an era of 400 years that starts on the first
    of March of a year divisible by 400: full centuries, full cycles of four
    years and full years are cut off; the last century and the last year of a
    cycle may be one day longer, hence the subtraction of a fourth. *)
Definition civil_of_era_day (doe : Z) : Date :=
  let century := doe / 36524 - doe / 36524 / 4 in
  let doc := doe - 36524 * century in
  let cycle := doc / 1461 in
  let dcy := doc - 1461 * cycle in
  let year := dcy / 365 - dcy / 365 / 4 in
  march_date (100 * century + 4 * cycle + year) (dcy - 365 * year).

Definition shift_years (n : Z) (c : Date) : Date :=
  Civil.mk (c.(Civil.Year) + n) c.(Civil.Month) c.(Civil.Day).

(** The date of a day, counted from 1970-01-01. *)
Definition civil_of_days (days : Z) : Date :=
  let z := days + 719468 in
  shift_years (400 * (z / 146097)) (civil_of_era_day (z mod 146097)).

Definition date_key (c : Date) : Z := c.(Civil.Year) * 10000 + c.(Civil.Month) * 100 + c.(Civil.Day).

(** ** [UsageDateBucket] *)
Definition usageAggregationOffset : Z := 8 * 60 * 60.

(** The day of Asia/Shanghai an instant falls on, and the instant it starts. *)
Definition local_day (unix : Z) : Z := (unix + usageAggregationOffset) / 86400.
Definition day_start (day : Z) : Z := day * 86400 - usageAggregationOffset.

Definition UsageDateBucket (hourTS : Z) : result (Z * Z * Z) :=
  if (hourTS <=? 0) || negb (Z.rem hourTS 3600 =? 0) then Err ErrCollectionRunContract
  else
    let day := local_day hourTS in
    let start := day_start day in
    Ok (date_key (civil_of_days day), start, start + 24 * 3600).

(** ** The calendar as a reference: the day after a date *)
Definition leap (y : Z) : bool := (y mod 4 =? 0) && (negb (y mod 100 =? 0) || (y mod 400 =? 0)).
Definition month_days (y m : Z) : Z :=
  if m =? 2 then (if leap y then 29 else 28)
  else if (m =? 4) || (m =? 6) || (m =? 9) || (m =? 11) then 30 else 31.
Definition next_day (c : Date) : Date :=
  let '(Civil.mk y m d) := c in
  if d <? month_days y m then Civil.mk y m (d + 1)
  else if m <? 12 then Civil.mk y (m + 1) 1 else Civil.mk (y + 1) 1 1.
Definition valid_date (c : Date) : bool :=
  let '(Civil.mk y m d) := c in (1 <=? m) && (m <=? 12) && (1 <=? d) && (d <=? month_days y m).

Lemma month_days_bounds y m : 28 <= month_days y m <= 31.
Proof. unfold month_days. repeat case_match; lia. Qed.

Lemma leap_shift k y : leap (y + 400 * k) = leap y.
Proof.
  unfold leap.
  replace (y + 400 * k) with (y + 4 * k * 100) at 2 by ring.
  replace (y + 400 * k) with (y + 100 * k * 4) at 1 by ring.
  replace (y + 400 * k) with (y + k * 400) by ring.
  by rewrite !Z_mod_plus_full.
Qed.

Lemma next_day_shift k c : next_day (shift_years (400 * k) c) = shift_years (400 * k) (next_day c).
Proof.
  destruct c as [y m d]. unfold shift_years. cbn [Civil.Year Civil.Month Civil.Day next_day].
  assert (E : month_days (y + 400 * k) m = month_days y m) by (unfold month_days; by rewrite leap_shift).
  rewrite E. repeat case_match; cbn [Civil.Year Civil.Month Civil.Day]; f_equal; ring.
Qed.

Lemma valid_shift k c : valid_date (shift_years (400 * k) c) = valid_date c.
Proof.
  destruct c as [y m d]. unfold shift_years, valid_date. cbn [Civil.Year Civil.Month Civil.Day].
  assert (E : month_days (y + 400 * k) m = month_days y m) by (unfold month_days; by rewrite leap_shift).
  by rewrite E.
Qed.

(** ** Each day is followed by the next date *)

(** The days of a year but its last, by month and day only. *)
Definition year_step (lp : bool) (doy : Z) : bool :=
  let here := march_date 0 doy in
  let days := if here.(Civil.Month) =? 2 then (if lp then 29 else 28) else month_days 0 here.(Civil.Month) in
  (1 <=? here.(Civil.Month)) && (here.(Civil.Month) <=? 12) && (1 <=? here.(Civil.Day)) && (here.(Civil.Day) <=? days)
  && bool_decide (march_date 0 (doy + 1)
       = if here.(Civil.Day) <? days then Civil.mk here.(Civil.Year) here.(Civil.Month) (here.(Civil.Day) + 1)
         else if here.(Civil.Month) <? 12 then Civil.mk here.(Civil.Year) (here.(Civil.Month) + 1) 1
         else Civil.mk (here.(Civil.Year) + 1) 1 1).

Lemma year_steps n (lp : bool) : 0 <= n < 364 + (if lp then 1 else 0) -> year_step lp n = true.
Proof.
  intros Hn. assert (H : forallb (year_step lp) (Z.of_nat <$> seq 0 (if lp then 365 else 364)) = true)
    by (destruct lp; vm_compute; reflexivity).
  rewrite forallb_forall in H. apply H, list_elem_of_In, list_elem_of_fmap.
  exists (Z.to_nat n). split; [lia|]. apply elem_of_seq. destruct lp; lia.
Qed.

Lemma march_date_shift y doy : march_date y doy = shift_years y (march_date 0 doy).
Proof. unfold march_date, shift_years. cbn [Civil.Year Civil.Month Civil.Day]. f_equal. lia. Qed.

Lemma march_next y doy : 0 <= doy < 364 + (if leap (y + 1) then 1 else 0) ->
  valid_date (march_date y doy) = true /\ next_day (march_date y doy) = march_date y (doy + 1).
Proof.
  intros Hd. assert (Hm : 0 <= march_month doy) by (unfold march_month; apply Z.div_pos; lia).
  apply year_steps in Hd. unfold year_step in Hd. rewrite !(march_date_shift y).
  assert (Hfeb : forall c, march_date 0 doy = c -> c.(Civil.Month) = 2 -> c.(Civil.Year) = 1).
  { intros c <-. unfold march_date. cbv zeta. cbn [Civil.Year Civil.Month].
    destruct (Z.ltb_spec (march_month doy) 10); lia. }
  destruct (march_date 0 doy) as [y0 m d] eqn:E. specialize (Hfeb _ eq_refl).
  cbn [Civil.Year Civil.Month Civil.Day] in *.
  apply andb_true_iff in Hd as [Hv He]. apply bool_decide_eq_true in He. rewrite He.
  unfold shift_years, valid_date, next_day, month_days in *. cbn [Civil.Year Civil.Month Civil.Day] in *.
  destruct (m =? 2) eqn:Em.
  - rewrite Z.eqb_eq in Em. rewrite (Hfeb Em) in *. rewrite (Z.add_comm 1 y).
    split; [exact Hv|]. destruct (leap (y + 1)); repeat case_match; cbn [Civil.Year Civil.Month Civil.Day]; f_equal; lia.
  - split; [exact Hv|]. repeat case_match; cbn [Civil.Year Civil.Month Civil.Day]; f_equal; lia.
Qed.

Lemma march_last y doy : doy = 364 + (if leap (y + 1) then 1 else 0) ->
  valid_date (march_date y doy) = true /\ next_day (march_date y doy) = march_date (y + 1) 0.
Proof.
  intros ->. assert (E : march_date y (364 + (if leap (y + 1) then 1 else 0))
    = Civil.mk (y + 1) 2 (28 + (if leap (y + 1) then 1 else 0))) by (by destruct (leap (y + 1))).
  rewrite E. unfold valid_date, next_day, month_days. cbn [Z.eqb Pos.eqb].
  assert (E0 : march_date (y + 1) 0 = Civil.mk (y + 1 + 0) 3 1) by done. rewrite E0, Z.add_0_r.
  by destruct (leap (y + 1)).
Qed.

(** The position of a day in its era. *)
Record era_parts (doe century cycle year doy : Z) : Prop := {
  parts_sum : doe = 36524 * century + 1461 * cycle + 365 * year + doy;
  parts_century : 0 <= century <= 3;
  parts_cycle : 0 <= cycle <= 24;
  parts_year : 0 <= year <= 3;
  parts_doy : 0 <= doy <= 364 + (if (year =? 3) && (negb (cycle =? 24) || (century =? 3)) then 1 else 0)
}.

Lemma era_split doe : 0 <= doe < 146097 -> exists century cycle year doy, era_parts doe century cycle year doy.
Proof.
  intros Hd. set (c := doe / 36524 - doe / 36524 / 4). set (doc := doe - 36524 * c).
  set (q := doc / 1461). set (dcy := doc - 1461 * q). set (y := dcy / 365 - dcy / 365 / 4).
  assert (Hc : 0 <= c <= 3 /\ 0 <= doc <= 36523 + (if c =? 3 then 1 else 0)).
  { subst doc c. destruct (_ =? 3) eqn:E; to_prop; Z.to_euclidean_division_equations; lia. }
  assert (Hq : 0 <= q <= 24 /\ 0 <= dcy <= 1459 + (if negb (q =? 24) || (c =? 3) then 1 else 0)).
  { subst dcy q. clearbody doc c. destruct (_ || _) eqn:E, (c =? 3) eqn:E2; to_prop;
      Z.to_euclidean_division_equations; lia. }
  assert (Hy : 0 <= y <= 3 /\ 0 <= dcy - 365 * y <= 364 + (if y =? 3 then dcy / 1460 else 0)).
  { subst y. clearbody dcy q c. destruct (_ || _), (_ =? 3) eqn:E in |- *; to_prop; Z.to_euclidean_division_equations; lia. }
  exists c, q, y, (dcy - 365 * y). split; try lia. clearbody y. split; [lia|].
  destruct (y =? 3) eqn:E; simpl; [|lia].
  destruct (_ || _); Z.to_euclidean_division_equations; lia.
Qed.

Lemma era_date doe c q y doy : era_parts doe c q y doy ->
  civil_of_era_day doe = march_date (100 * c + 4 * q + y) doy.
Proof.
  intros [Hs Hc Hq Hy Hd]. unfold civil_of_era_day.
  assert (E1 : doe / 36524 - doe / 36524 / 4 = c).
  { destruct (_ && _) eqn:E; to_prop; Z.to_euclidean_division_equations; lia. }
  rewrite E1. assert (E2 : (doe - 36524 * c) / 1461 = q).
  { destruct (_ && _) eqn:E; to_prop; symmetry; apply Z.div_unique with (365 * y + doy); lia. }
  rewrite E2. replace (doe - 36524 * c - 1461 * q) with (365 * y + doy) by lia.
  assert (E3 : (365 * y + doy) / 365 - (365 * y + doy) / 365 / 4 = y).
  { destruct (_ && _) eqn:E; to_prop; Z.to_euclidean_division_equations; lia. }
  rewrite E3. f_equal. lia.
Qed.

Lemma leap_of_parts c q y : 0 <= c <= 3 -> 0 <= q <= 24 -> 0 <= y <= 3 ->
  leap (100 * c + 4 * q + y + 1) = (y =? 3) && (negb (q =? 24) || (c =? 3)).
Proof.
  intros Hc Hq Hy. unfold leap. apply eq_true_iff_eq. rewrite !andb_true_iff, !orb_true_iff, !negb_true_iff.
  rewrite !Z.eqb_eq, !Z.eqb_neq. Z.to_euclidean_division_equations. lia.
Qed.

Lemma era_parts_intro doe c q y doy : doe = 36524 * c + 1461 * q + 365 * y + doy ->
  0 <= c <= 3 -> 0 <= q <= 24 -> 0 <= y <= 3 -> 0 <= doy <= 364 -> era_parts doe c q y doy.
Proof. intros. split; try done. case_match; lia. Qed.

Lemma era_next doe : 0 <= doe < 146097 -> valid_date (civil_of_era_day doe) = true /\
  next_day (civil_of_era_day doe) =
    (if doe =? 146096 then shift_years 400 (civil_of_era_day 0) else civil_of_era_day (doe + 1)).
Proof.
  intros Hd. destruct (era_split doe Hd) as (c&q&y&doy&Hp). rewrite (era_date _ _ _ _ _ Hp).
  destruct Hp as [Hs Hc Hq Hy Hdoy]. rewrite <- leap_of_parts in Hdoy by done.
  destruct (decide (doy = 364 + (if leap (100 * c + 4 * q + y + 1) then 1 else 0))) as [Hlast|Hlast].
  - destruct (march_last _ _ Hlast) as [Hv ->]. split; [done|].
    rewrite leap_of_parts in Hlast by done.
    destruct (doe =? 146096) eqn:E; to_prop.
    + assert (c = 3 /\ q = 24 /\ y = 3) as (->&->&->) by (destruct (_ && _); lia). reflexivity.
    + destruct (decide (y = 3)) as [->|]; [destruct (decide (q = 24)) as [->|]|].
      * destruct (c =? 3) eqn:E3; simpl in Hlast; to_prop; [lia|].
        rewrite (era_date (doe + 1) (c + 1) 0 0 0); [f_equal; lia|apply era_parts_intro; lia].
      * destruct (q =? 24) eqn:E24; simpl in Hlast; to_prop; [lia|].
        rewrite (era_date (doe + 1) c (q + 1) 0 0); [f_equal; lia|apply era_parts_intro; lia].
      * destruct (y =? 3) eqn:E3; simpl in Hlast; to_prop; [lia|].
        rewrite (era_date (doe + 1) c q (y + 1) 0); [f_equal; lia|apply era_parts_intro; lia].
  - destruct (march_next (100 * c + 4 * q + y) doy) as [Hv ->]; [lia|]. split; [done|].
    rewrite leap_of_parts in Hdoy, Hlast by done.
    assert (Hn : era_parts (doe + 1) c q y (doy + 1)) by (split; lia).
    rewrite (era_date _ _ _ _ _ Hn). destruct (doe =? 146096) eqn:E; [|done]. to_prop.
    exfalso. destruct (_ && _) eqn:E1; to_prop; lia.
Qed.

Lemma civil_next n : valid_date (civil_of_days n) = true /\ civil_of_days (n + 1) = next_day (civil_of_days n).
Proof.
  unfold civil_of_days. cbv zeta. set (z := n + 719468). replace (n + 1 + 719468) with (z + 1) by lia.
  pose proof (Z.mod_pos_bound z 146097 ltac:(lia)) as Hb. destruct (era_next _ Hb) as [Hv Hn].
  rewrite valid_shift, next_day_shift, Hn. split; [done|].
  destruct (_ =? _) eqn:E; to_prop.
  - assert (E1 : (z + 1) / 146097 = z / 146097 + 1) by (Z.to_euclidean_division_equations; lia).
    assert (E2 : (z + 1) mod 146097 = 0) by (Z.to_euclidean_division_equations; lia).
    rewrite E1, E2. unfold shift_years. cbn [Civil.Year Civil.Month Civil.Day]. f_equal. ring.
  - assert (E1 : (z + 1) / 146097 = z / 146097) by (Z.to_euclidean_division_equations; lia).
    assert (E2 : (z + 1) mod 146097 = z mod 146097 + 1) by (Z.to_euclidean_division_equations; lia).
    by rewrite E1, E2.
Qed.

(** A later date has a larger key. *)
Lemma date_key_next c : valid_date c = true -> date_key c < date_key (next_day c).
Proof.
  destruct c as [y m d]. unfold valid_date, next_day, date_key. pose proof (month_days_bounds y m). intros Hv.
  to_prop. repeat case_match; simpl; to_prop; lia.
Qed.

Lemma date_key_lt n k : 0 < k -> date_key (civil_of_days n) < date_key (civil_of_days (n + k)).
Proof.
  intros Hk. assert (Hz : 0 <= k - 1) by lia. replace k with (k - 1 + 1) by ring.
  revert Hz. generalize (k - 1) as j. clear k Hk. apply natlike_ind.
  - rewrite Z.add_0_l. destruct (civil_next n) as [Hv ->]. by apply date_key_next.
  - intros j Hj IH. replace (n + (Z.succ j + 1)) with (n + (j + 1) + 1) by lia.
    destruct (civil_next (n + (j + 1))) as [Hv ->]. pose proof (date_key_next _ Hv). lia.
Qed.

Lemma date_key_inj n k : date_key (civil_of_days n) = date_key (civil_of_days k) -> n = k.
Proof.
  intros E. destruct (Z.lt_trichotomy n k) as [H|[H|H]]; [|done|].
  - pose proof (date_key_lt n (k - n) ltac:(lia)) as H1. replace (n + (k - n)) with k in H1 by ring. lia.
  - pose proof (date_key_lt k (n - k) ltac:(lia)) as H1. replace (k + (n - k)) with n in H1 by ring. lia.
Qed.

Lemma date_key_pos n : 0 <= n -> 19700101 <= date_key (civil_of_days n).
Proof.
  intros Hn. destruct (decide (n = 0)) as [->|]; [done|].
  pose proof (date_key_lt 0 n ltac:(lia)) as H. rewrite Z.add_0_l in H.
  assert (date_key (civil_of_days 0) = 19700101) by done. lia.
Qed.

(** ** The bucket of an hour *)
Lemma UsageDateBucket_ok hourTS key start end_ : UsageDateBucket hourTS = Ok (key, start, end_) <->
  0 < hourTS /\ Z.rem hourTS 3600 = 0 /\ key = date_key (civil_of_days (local_day hourTS)) /\
  start = day_start (local_day hourTS) /\ end_ = start + 24 * 3600.
Proof.
  unfold UsageDateBucket. destruct (_ || _) eqn:E; to_prop.
  - split; [done|]. intros (?&?&_). destruct E; lia.
  - split; [intros [= <- <- <-]; lia|]. by intros (_&_&->&->&->).
Qed.

Lemma local_day_start h : day_start (local_day h) <= h < day_start (local_day h) + 24 * 3600.
Proof. unfold day_start, local_day. Z.to_euclidean_division_equations. lia. Qed.

Lemma local_day_unique h day : day_start day <= h < day_start day + 24 * 3600 -> local_day h = day.
Proof. unfold day_start, local_day. intros. Z.to_euclidean_division_equations. lia. Qed.

Lemma day_start_aligned day : Z.rem (day_start day) 3600 = 0 \/ day_start day < 0.
Proof.
  unfold day_start, usageAggregationOffset. destruct (Z.lt_decidable (day * 86400 - 8 * 60 * 60) 0); [by right|left].
  replace (day * 86400 - 8 * 60 * 60) with ((day * 24 - 8) * 3600) by ring. apply Z.rem_mul. lia.
Qed.

Lemma bucket_of h key start end_ : UsageDateBucket h = Ok (key, start, end_) ->
  start <= h < end_ /\ end_ = start + 24 * 3600 /\ 0 < key /\
  forall h', start <= h' < end_ -> date_key (civil_of_days (local_day h')) = key.
Proof.
  intros (Hp&_&->&->&->)%UsageDateBucket_ok. pose proof (local_day_start h) as Hb. split; [lia|]. split; [done|].
  split.
  - assert (0 <= local_day h) as Hd by (unfold local_day, usageAggregationOffset; apply Z.div_pos; lia).
    pose proof (date_key_pos _ Hd). lia.
  - intros h' Hh. by rewrite (local_day_unique h' (local_day h)).
Qed.

(** The bucket of an hour is the civil day of Asia/Shanghai it falls on: it
    is 24 hours long and contains the hour; the day after it has the key of the
    next date of the Gregorian calendar; and two hours share a key exactly when
    one falls into the bucket of the other, the earlier bucket having the
    smaller key. *)
Theorem UsageDateBucket_civil h h' key start end_ key' start' end' :
  UsageDateBucket h = Ok (key, start, end_) -> UsageDateBucket h' = Ok (key', start', end') ->
  start <= h < end_ /\ end_ = start + 24 * 3600 /\ Z.rem (start + 8 * 3600) 86400 = 0 /\
  (exists date, valid_date date = true /\ key = date_key date /\ date = civil_of_days (local_day h) /\
     (start' = end_ -> key' = date_key (next_day date))) /\
  (key = key' <-> start <= h' < end_) /\ (key < key' <-> end_ <= h').
Proof.
  intros H H'. pose proof (bucket_of _ _ _ _ H) as (Hin&Hend&_&Hsame).
  pose proof (bucket_of _ _ _ _ H') as (Hin'&Hend'&_&_).
  apply UsageDateBucket_ok in H as (_&_&->&->&_), H' as (_&_&->&->&_).
  destruct (civil_next (local_day h)) as [Hv Hn].
  assert (Hday : local_day h' = local_day h <-> day_start (local_day h) <= h' < end_).
  { split; [intros E; rewrite E in Hin', Hend'; lia|]. intros Hi. by rewrite (local_day_unique h' (local_day h)) by lia. }
  split; [done|]. split; [done|]. split.
  { unfold day_start, usageAggregationOffset. replace (_ + 8 * 3600) with (local_day h * 86400) by ring. by apply Z.rem_mul. }
  split; [|split].
  - exists (civil_of_days (local_day h)). repeat (split; [done|]). intros E. rewrite <- Hn. do 2 f_equal.
    unfold day_start in *. lia.
  - rewrite <- Hday. split; [by intros ->%date_key_inj|by intros ->].
  - destruct (Z.lt_trichotomy (local_day h) (local_day h')) as [Hlt|[E|Hlt]].
    + pose proof (date_key_lt (local_day h) (local_day h' - local_day h) ltac:(lia)) as H1.
      replace (local_day h + (local_day h' - local_day h)) with (local_day h') in H1 by ring.
      split; [|done]. intros _. unfold day_start in *. lia.
    + pose proof (proj1 Hday (eq_sym E)) as Hi. rewrite E. lia.
    + pose proof (date_key_lt (local_day h') (local_day h - local_day h') ltac:(lia)) as H1.
      replace (local_day h' + (local_day h - local_day h')) with (local_day h) in H1 by ring.
      split; [lia|]. unfold day_start in *. lia.
Qed.

Lemma UsageDateBucket_civil_witness :
  UsageDateBucket 1709132400 = Ok (20240228, 1709049600, 1709136000) /\
  UsageDateBucket 1709136000 = Ok (20240229, 1709136000, 1709222400) /\ 20240228 < 20240229.
Proof.
  split; [reflexivity|]. split; [reflexivity|].
  apply (UsageDateBucket_civil 1709132400 1709136000 20240228 1709049600 1709136000 20240229 1709136000 1709222400
           eq_refl eq_refl). lia.
Defined.
