(* ===== verification/Alerting.v ===== *)
(** * The tables of the alerts ([model/alert.go], [model/alert_delivery.go])

    Rules, events and deliveries have a numeric primary key and are read with
    the operations of [Store]; an evaluation cursor is keyed by the active key
    it watches and a setting by its name (a unique key).  DECIMAL columns are
    the text written to them ([big.Rat.FloatString] already pads an event's
    value to the column's scale; a rule's threshold keeps the digits it was
    given), and [message_params] is the JSON object the column holds. *)

From S2P Require Import Prelude GoText Json.

Definition AlertDeliveryEventFiring : string := "firing".
Definition AlertDeliveryEventResolved : string := "resolved".
Definition AlertDeliveryEventTest : string := "test".
Definition AlertDeliveryChannel : string := "dingtalk".
Definition AlertDeliveryStatusPending : string := "pending".
Definition AlertDeliveryStatusSuccess : string := "success".
Definition AlertDeliveryStatusFailed : string := "failed".
Definition AlertDeliveryMaxAttempts : Z := 5.

Definition AlertScopeGlobal : string := "global".
Definition AlertScopeSite : string := "site".
Definition AlertLevelInfo : string := "info".
Definition AlertLevelWarning : string := "warning".
Definition AlertLevelCritical : string := "critical".
Definition AlertStatusPending : string := "pending".
Definition AlertStatusFiring : string := "firing".
Definition AlertStatusResolved : string := "resolved".

#[export] Instance json_value_eq_dec : EqDecision json_value.
Proof. solve_decision. Defined.

(** [model/alert.go], [AlertRule] *)
Module MRule.
Record AlertRule := mk {
  ID : Z; RuleKey : string; Name : string; Enabled : bool; Level : string; Metric : string;
  CompareOperator : string; ThresholdValue : option string; ForTimes : Z; ScopeType : string;
  ScopeID : Z; CreatedAt : Z; UpdatedAt : Z
}.
#[export] Instance AlertRule_eta : RecordEta AlertRule :=
  fun r => mk (ID r) (RuleKey r) (Name r) (Enabled r) (Level r) (Metric r) (CompareOperator r)
    (ThresholdValue r) (ForTimes r) (ScopeType r) (ScopeID r) (CreatedAt r) (UpdatedAt r).
#[export] Instance AlertRule_eq_dec : EqDecision AlertRule.
Proof. solve_decision. Defined.
End MRule.
Export (hints) MRule.
Abbreviation AlertRule := MRule.AlertRule.

(** [model/alert.go], [AlertEvent] *)
Module MEvent.
Record AlertEvent := mk {
  ID : Z; RuleID : Z; RuleKey : string; SiteID : option Z; TargetType : string;
  TargetKey : string; ActiveKey : option string; Level : string; Status : string;
  ConsecutiveCount : Z; CurrentValue : option string; ThresholdValue : option string;
  MessageCode : string; MessageParams : option json_object; Message : string;
  FirstObservedAt : Z; FirstFiredAt : option Z; LastFiredAt : option Z; ResolvedAt : option Z;
  ResolutionReason : option string; CreatedAt : Z; UpdatedAt : Z
}.
#[export] Instance AlertEvent_eta : RecordEta AlertEvent :=
  fun r => mk (ID r) (RuleID r) (RuleKey r) (SiteID r) (TargetType r) (TargetKey r) (ActiveKey r)
    (Level r) (Status r) (ConsecutiveCount r) (CurrentValue r) (ThresholdValue r) (MessageCode r)
    (MessageParams r) (Message r) (FirstObservedAt r) (FirstFiredAt r) (LastFiredAt r)
    (ResolvedAt r) (ResolutionReason r) (CreatedAt r) (UpdatedAt r).
#[export] Instance AlertEvent_eq_dec : EqDecision AlertEvent.
Proof. solve_decision. Defined.
End MEvent.
Export (hints) MEvent.
Abbreviation AlertEvent := MEvent.AlertEvent.

(** [model/alert.go], [AlertDelivery] *)
Module MDelivery.
Record AlertDelivery := mk {
  ID : Z; AlertEventID : option Z; EventType : string; Channel : string; Status : string;
  AttemptCount : Z; ClaimToken : option string; LeaseExpiresAt : option Z;
  PayloadSnapshot : string; ErrorCode : string; ResponseCode : option Z;
  ResponseMessage : option string; NextRetryAt : option Z; SentAt : option Z; CreatedAt : Z;
  UpdatedAt : Z
}.
#[export] Instance AlertDelivery_eta : RecordEta AlertDelivery :=
  fun r => mk (ID r) (AlertEventID r) (EventType r) (Channel r) (Status r) (AttemptCount r)
    (ClaimToken r) (LeaseExpiresAt r) (PayloadSnapshot r) (ErrorCode r) (ResponseCode r)
    (ResponseMessage r) (NextRetryAt r) (SentAt r) (CreatedAt r) (UpdatedAt r).
#[export] Instance AlertDelivery_eq_dec : EqDecision AlertDelivery.
Proof. solve_decision. Defined.
End MDelivery.
Export (hints) MDelivery.
Abbreviation AlertDelivery := MDelivery.AlertDelivery.

(** [model/alert.go], [AlertEvaluationCursor] *)
Module MSample.
Record AlertEvaluationCursor := mk {
  ActiveKey : string; LastSampleAt : Z; LastSampleKey : string; CreatedAt : Z; UpdatedAt : Z
}.
#[export] Instance AlertEvaluationCursor_eta : RecordEta AlertEvaluationCursor :=
  fun r => mk (ActiveKey r) (LastSampleAt r) (LastSampleKey r) (CreatedAt r) (UpdatedAt r).
#[export] Instance AlertEvaluationCursor_eq_dec : EqDecision AlertEvaluationCursor.
Proof. solve_decision. Defined.
End MSample.
Export (hints) MSample.
Abbreviation AlertEvaluationCursor := MSample.AlertEvaluationCursor.

(** A row of [platform_setting] *)
Module MSetting.
Record settingRow := mk { Value : string; Type_ : string; Secret : bool }.
#[export] Instance settingRow_eq_dec : EqDecision settingRow.
Proof. solve_decision. Defined.
End MSetting.
Export (hints) MSetting.
Abbreviation settingRow := MSetting.settingRow.

Module Alerting.
Record Alerting := mk {
  alert_rule : gmap Z AlertRule; alert_event : gmap Z AlertEvent;
  alert_delivery : gmap Z AlertDelivery;
  alert_evaluation_cursor : gmap string AlertEvaluationCursor;
  platform_setting : gmap string settingRow }.
#[export] Instance Alerting_eta : RecordEta Alerting := fun a =>
  mk (alert_rule a) (alert_event a) (alert_delivery a) (alert_evaluation_cursor a)
     (platform_setting a).
End Alerting.
Export (hints) Alerting.
Abbreviation Alerting := Alerting.Alerting.

Definition no_alerts : Alerting := Alerting.mk ∅ ∅ ∅ ∅ ∅.
