(* ===== verification/Store.v ===== *)
(** * The database as the repositories see it

    One record per table row, with the columns of the gorm structs; a table is
    a finite map from primary keys to rows; the database is a record of
    tables; a repository method is a transaction over it ([Tx]).

    Conventions: [int64] and [int] columns are [Z]; a pointer or nullable
    column is an [option]; a JSON column is its bytes, [""] standing for both
    the nil slice and SQL NULL (the code never stores an empty JSON text and
    only tests the length).  [RowsAffected] counts rows whose contents change,
    as the MySQL driver reports without clientFoundRows.  [gorm_now] is the
    wall clock gorm writes into [updated_at] when an update does not set it.
    The tables of the statistics are in [Stats], under the field [statistics],
    and those of the alerts in [Alerting], under the field [alerting].
    Foreign keys and column lengths are not modelled. *)

From S2P Require Import Prelude Stats Alerting.

(** [model/site.go], [Site] *)
Module MSite.
Record Site := mk {
  ID : Z; Name : string; BaseURL : string; ConfigVersion : Z; Remark : string;
  ManagementStatus : string; OnlineStatus : string; AuthStatus : string;
  StatisticsStatus : string; HealthStatus : string; RootUserID : option Z;
  RootCreatedAt : option Z; AccessTokenEncrypted : option string; Version : string;
  SystemName : string; QuotaPerUnit : option string; USDExchangeRate : option string;
  LastRateAt : option Z; DataExportEnabled : bool; CurrentRPM : Z; CurrentTPM : Z;
  LastRealtimeStatAt : option Z; ProbeFailCount : Z; LastProbeAt : option Z;
  LastProbeSuccessAt : option Z; StatisticsStartAt : option Z;
  StatisticsStartSource : option string; StatisticsEndAt : option Z; DisabledAt : option Z;
  MonitoringStartAt : option Z; CreatedAt : Z; UpdatedAt : Z
}.
#[export] Instance Site_eta : RecordEta Site :=
  fun r => mk (ID r) (Name r) (BaseURL r) (ConfigVersion r) (Remark r) (ManagementStatus r)
    (OnlineStatus r) (AuthStatus r) (StatisticsStatus r) (HealthStatus r) (RootUserID r)
    (RootCreatedAt r) (AccessTokenEncrypted r) (Version r) (SystemName r) (QuotaPerUnit r)
    (USDExchangeRate r) (LastRateAt r) (DataExportEnabled r) (CurrentRPM r) (CurrentTPM r)
    (LastRealtimeStatAt r) (ProbeFailCount r) (LastProbeAt r) (LastProbeSuccessAt r)
    (StatisticsStartAt r) (StatisticsStartSource r) (StatisticsEndAt r) (DisabledAt r)
    (MonitoringStartAt r) (CreatedAt r) (UpdatedAt r).
#[export] Instance Site_eq_dec : EqDecision Site.
Proof. solve_decision. Defined.
End MSite.
Export (hints) MSite.
Abbreviation Site := MSite.Site.

(** [model/site_snapshot.go], [SiteCapability] *)
Module MCapability.
Record SiteCapability := mk {
  ID : Z; SiteID : Z; CapabilityKey : string; Status : string; MessageCode : string;
  MessageParams : string; CheckedAt : Z
}.
#[export] Instance SiteCapability_eta : RecordEta SiteCapability :=
  fun r => mk (ID r) (SiteID r) (CapabilityKey r) (Status r) (MessageCode r) (MessageParams r)
    (CheckedAt r).
#[export] Instance SiteCapability_eq_dec : EqDecision SiteCapability.
Proof. solve_decision. Defined.
End MCapability.
Export (hints) MCapability.
Abbreviation SiteCapability := MCapability.SiteCapability.

(** [model/customer.go], [Customer] *)
Module MCustomer.
Record Customer := mk {
  ID : Z; Name : string; Contact : string; Remark : string; ContractAmount : string;
  PaymentAmount : string; Status : string; StatisticsPausedAt : option Z;
  StatisticsBackfillStatus : string; CreatedAt : Z; UpdatedAt : Z
}.
#[export] Instance Customer_eta : RecordEta Customer :=
  fun r => mk (ID r) (Name r) (Contact r) (Remark r) (ContractAmount r) (PaymentAmount r)
    (Status r) (StatisticsPausedAt r) (StatisticsBackfillStatus r) (CreatedAt r) (UpdatedAt r).
#[export] Instance Customer_eq_dec : EqDecision Customer.
Proof. solve_decision. Defined.
End MCustomer.
Export (hints) MCustomer.
Abbreviation Customer := MCustomer.Customer.

(** [model/account.go], [Account] *)
Module MAccount.
Record Account := mk {
  ID : Z; SiteID : Z; CustomerID : Z; RemoteUserID : Z; RemoteCreatedAt : Z; Username : string;
  DisplayName : string; RemoteGroup : string; RemoteStatus : Z; RemoteState : string;
  RemoteMissingCount : Z; LastRemoteSeenAt : option Z; Quota : Z; UsedQuota : Z;
  RequestCount : Z; ManagedStatus : string; StatisticsPausedAt : option Z;
  StatisticsBackfillStatus : string; LastSyncedAt : option Z; Remark : string; CreatedAt : Z;
  UpdatedAt : Z
}.
#[export] Instance Account_eta : RecordEta Account :=
  fun r => mk (ID r) (SiteID r) (CustomerID r) (RemoteUserID r) (RemoteCreatedAt r) (Username r)
    (DisplayName r) (RemoteGroup r) (RemoteStatus r) (RemoteState r) (RemoteMissingCount r)
    (LastRemoteSeenAt r) (Quota r) (UsedQuota r) (RequestCount r) (ManagedStatus r)
    (StatisticsPausedAt r) (StatisticsBackfillStatus r) (LastSyncedAt r) (Remark r) (CreatedAt r)
    (UpdatedAt r).
#[export] Instance Account_eq_dec : EqDecision Account.
Proof. solve_decision. Defined.
End MAccount.
Export (hints) MAccount.
Abbreviation Account := MAccount.Account.

(** [model/site_fence.go], [CollectionRun] *)
Module Run.
Record CollectionRun := mk {
  ID : Z; SiteID : option Z; SiteConfigVersion : Z; TaskType : string; TargetType : string;
  TargetID : Z; TriggerType : string; StartTimestamp : option Z; EndTimestamp : option Z;
  Scope : string; ActiveKey : option string; Status : string; FetchedRows : Z; WrittenRows : Z;
  RetryCount : Z; Priority : Z; NextAttemptAt : Z; HeartbeatAt : option Z;
  WindowsInitializedAt : option Z; TotalWindows : Z; CompletedWindows : Z; FailedWindows : Z;
  UnavailableWindows : Z; CreatedRequestID : string; LastRequestID : string; ErrorCode : string;
  ErrorParams : string; ErrorMessage : option string; StartedAt : option Z;
  FinishedAt : option Z; CreatedAt : Z; UpdatedAt : Z
}.
#[export] Instance CollectionRun_eta : RecordEta CollectionRun :=
  fun r => mk (ID r) (SiteID r) (SiteConfigVersion r) (TaskType r) (TargetType r) (TargetID r)
    (TriggerType r) (StartTimestamp r) (EndTimestamp r) (Scope r) (ActiveKey r) (Status r)
    (FetchedRows r) (WrittenRows r) (RetryCount r) (Priority r) (NextAttemptAt r) (HeartbeatAt r)
    (WindowsInitializedAt r) (TotalWindows r) (CompletedWindows r) (FailedWindows r)
    (UnavailableWindows r) (CreatedRequestID r) (LastRequestID r) (ErrorCode r) (ErrorParams r)
    (ErrorMessage r) (StartedAt r) (FinishedAt r) (CreatedAt r) (UpdatedAt r).
#[export] Instance CollectionRun_eq_dec : EqDecision CollectionRun.
Proof. solve_decision. Defined.
End Run.
Export (hints) Run.
Abbreviation CollectionRun := Run.CollectionRun.

(** [model/site_fence.go], [CollectionRunWindow] *)
Module RunWindow.
Record CollectionRunWindow := mk {
  ID : Z; RunID : Z; SiteID : Z; HourTS : Z; Status : string; AttemptCount : Z;
  NextRetryAt : option Z; FetchedRows : Z; WrittenRows : Z; ErrorCode : string;
  ErrorParams : string; ErrorMessage : option string; StartedAt : option Z;
  FinishedAt : option Z; UpdatedAt : Z
}.
#[export] Instance CollectionRunWindow_eta : RecordEta CollectionRunWindow :=
  fun r => mk (ID r) (RunID r) (SiteID r) (HourTS r) (Status r) (AttemptCount r) (NextRetryAt r)
    (FetchedRows r) (WrittenRows r) (ErrorCode r) (ErrorParams r) (ErrorMessage r) (StartedAt r)
    (FinishedAt r) (UpdatedAt r).
#[export] Instance CollectionRunWindow_eq_dec : EqDecision CollectionRunWindow.
Proof. solve_decision. Defined.
End RunWindow.
Export (hints) RunWindow.
Abbreviation CollectionRunWindow := RunWindow.CollectionRunWindow.

(** [model/usage_fact.go], [CollectionWindow] *)
Module Window.
Record CollectionWindow := mk {
  ID : Z; SiteID : Z; HourTS : Z; Status : string; AttributionStatus : string; FetchedRows : Z;
  FactRows : Z; SourceHash : string; LastFactRunID : option Z; VerifiedAt : option Z;
  LastErrorCode : string; LastErrorParams : string; LastErrorMessage : option string;
  UpdatedAt : Z
}.
#[export] Instance CollectionWindow_eta : RecordEta CollectionWindow :=
  fun r => mk (ID r) (SiteID r) (HourTS r) (Status r) (AttributionStatus r) (FetchedRows r)
    (FactRows r) (SourceHash r) (LastFactRunID r) (VerifiedAt r) (LastErrorCode r)
    (LastErrorParams r) (LastErrorMessage r) (UpdatedAt r).
#[export] Instance CollectionWindow_eq_dec : EqDecision CollectionWindow.
Proof. solve_decision. Defined.
End Window.
Export (hints) Window.
Abbreviation CollectionWindow := Window.CollectionWindow.

(** [model/usage_fact.go], [UsageFactHourly] *)
Module Fact.
Record UsageFactHourly := mk {
  ID : Z; SiteID : Z; RemoteUserID : Z; UsernameSnapshot : string; ModelName : string;
  ChannelID : Z; UseGroup : string; TokenID : Z; TokenName : string; NodeName : string;
  HourTS : Z; RequestCount : Z; Quota : Z; TokenUsed : Z; CollectedAt : Z
}.
#[export] Instance UsageFactHourly_eta : RecordEta UsageFactHourly :=
  fun r => mk (ID r) (SiteID r) (RemoteUserID r) (UsernameSnapshot r) (ModelName r) (ChannelID r)
    (UseGroup r) (TokenID r) (TokenName r) (NodeName r) (HourTS r) (RequestCount r) (Quota r)
    (TokenUsed r) (CollectedAt r).
#[export] Instance UsageFactHourly_eq_dec : EqDecision UsageFactHourly.
Proof. solve_decision. Defined.
End Fact.
Export (hints) Fact.
Abbreviation UsageFactHourly := Fact.UsageFactHourly.

(** [model/usage_cursor.go], [CollectionCursor] *)
Module Cursor.
Record CollectionCursor := mk {
  ID : Z; SiteID : Z; CursorKey : string; LastCompleteHour : option Z; UpdatedAt : Z
}.
#[export] Instance CollectionCursor_eta : RecordEta CollectionCursor :=
  fun r => mk (ID r) (SiteID r) (CursorKey r) (LastCompleteHour r) (UpdatedAt r).
#[export] Instance CollectionCursor_eq_dec : EqDecision CollectionCursor.
Proof. solve_decision. Defined.
End Cursor.
Export (hints) Cursor.
Abbreviation CollectionCursor := Cursor.CollectionCursor.

(** [model/site_fence.go], [SiteMonitoringPause] *)
Module Pause.
Record SiteMonitoringPause := mk {
  ID : Z; SiteID : Z; StartMinuteTS : Z; EndMinuteTS : option Z; Reason : string; CreatedAt : Z
}.
#[export] Instance SiteMonitoringPause_eta : RecordEta SiteMonitoringPause :=
  fun r => mk (ID r) (SiteID r) (StartMinuteTS r) (EndMinuteTS r) (Reason r) (CreatedAt r).
#[export] Instance SiteMonitoringPause_eq_dec : EqDecision SiteMonitoringPause.
Proof. solve_decision. Defined.
End Pause.
Export (hints) Pause.
Abbreviation SiteMonitoringPause := Pause.SiteMonitoringPause.

(** ** Tables *)
Module Tables.
Record Db := mk {
  site : gmap Z Site; site_capability : gmap Z SiteCapability;
  customer : gmap Z Customer; account : gmap Z Account;
  collection_run : gmap Z CollectionRun; collection_run_window : gmap Z CollectionRunWindow;
  collection_window : gmap Z CollectionWindow; usage_fact_hourly : gmap Z UsageFactHourly;
  collection_cursor : gmap Z CollectionCursor; site_monitoring_pause : gmap Z SiteMonitoringPause;
  statistics : Statistics; alerting : Alerting; auto_run : Z; auto_run_window : Z; auto_other : Z; gorm_now : Z
}.
#[export] Instance Db_eta : RecordEta Db := fun d =>
  mk (site d) (site_capability d) (customer d) (account d) (collection_run d)
     (collection_run_window d) (collection_window d) (usage_fact_hourly d)
     (collection_cursor d) (site_monitoring_pause d) (statistics d) (alerting d)
     (auto_run d) (auto_run_window d) (auto_other d)
     (gorm_now d).
End Tables.
Export (hints) Tables.
Abbreviation Db := Tables.Db.
Abbreviation Tx := (ST Db).

(** What the generic operations need of a table: where it is in the database,
    which column is its primary key and its AUTO_INCREMENT counter (the queue's
    two tables have their own, the other tables share one: only freshness
    matters). *)
Class Table (R : Type) := {
  table : Db -> gmap Z R;
  set_table : gmap Z R -> Db -> Db;
  row_id : R -> Z;
  set_row_id : Z -> R -> R;
  auto_increment : Db -> Z;
  set_auto_increment : Z -> Db -> Db;
  row_dec :: EqDecision R
}.

#[export] Instance site_table : Table Site :=
  {| table := Tables.site; set_table t d := d <| Tables.site := t |>;
     row_id := MSite.ID; set_row_id i r := r <| MSite.ID := i |>;
     auto_increment := Tables.auto_other; set_auto_increment n d := d <| Tables.auto_other := n |> |}.
#[export] Instance capability_table : Table SiteCapability :=
  {| table := Tables.site_capability; set_table t d := d <| Tables.site_capability := t |>;
     row_id := MCapability.ID; set_row_id i r := r <| MCapability.ID := i |>;
     auto_increment := Tables.auto_other; set_auto_increment n d := d <| Tables.auto_other := n |> |}.
#[export] Instance customer_table : Table Customer :=
  {| table := Tables.customer; set_table t d := d <| Tables.customer := t |>;
     row_id := MCustomer.ID; set_row_id i r := r <| MCustomer.ID := i |>;
     auto_increment := Tables.auto_other; set_auto_increment n d := d <| Tables.auto_other := n |> |}.
#[export] Instance account_table : Table Account :=
  {| table := Tables.account; set_table t d := d <| Tables.account := t |>;
     row_id := MAccount.ID; set_row_id i r := r <| MAccount.ID := i |>;
     auto_increment := Tables.auto_other; set_auto_increment n d := d <| Tables.auto_other := n |> |}.
#[export] Instance run_table : Table CollectionRun :=
  {| table := Tables.collection_run; set_table t d := d <| Tables.collection_run := t |>;
     row_id := Run.ID; set_row_id i r := r <| Run.ID := i |>;
     auto_increment := Tables.auto_run; set_auto_increment n d := d <| Tables.auto_run := n |> |}.
#[export] Instance run_window_table : Table CollectionRunWindow :=
  {| table := Tables.collection_run_window;
     set_table t d := d <| Tables.collection_run_window := t |>;
     row_id := RunWindow.ID; set_row_id i r := r <| RunWindow.ID := i |>;
     auto_increment := Tables.auto_run_window; set_auto_increment n d := d <| Tables.auto_run_window := n |> |}.
#[export] Instance window_table : Table CollectionWindow :=
  {| table := Tables.collection_window; set_table t d := d <| Tables.collection_window := t |>;
     row_id := Window.ID; set_row_id i r := r <| Window.ID := i |>;
     auto_increment := Tables.auto_other; set_auto_increment n d := d <| Tables.auto_other := n |> |}.
#[export] Instance fact_table : Table UsageFactHourly :=
  {| table := Tables.usage_fact_hourly; set_table t d := d <| Tables.usage_fact_hourly := t |>;
     row_id := Fact.ID; set_row_id i r := r <| Fact.ID := i |>;
     auto_increment := Tables.auto_other; set_auto_increment n d := d <| Tables.auto_other := n |> |}.
#[export] Instance cursor_table : Table CollectionCursor :=
  {| table := Tables.collection_cursor; set_table t d := d <| Tables.collection_cursor := t |>;
     row_id := Cursor.ID; set_row_id i r := r <| Cursor.ID := i |>;
     auto_increment := Tables.auto_other; set_auto_increment n d := d <| Tables.auto_other := n |> |}.
#[export] Instance pause_table : Table SiteMonitoringPause :=
  {| table := Tables.site_monitoring_pause;
     set_table t d := d <| Tables.site_monitoring_pause := t |>;
     row_id := Pause.ID; set_row_id i r := r <| Pause.ID := i |>;
     auto_increment := Tables.auto_other; set_auto_increment n d := d <| Tables.auto_other := n |> |}.

#[export] Instance alert_rule_table : Table AlertRule :=
  {| table d := (Tables.alerting d).(Alerting.alert_rule);
     set_table t d := d <| Tables.alerting := (Tables.alerting d) <| Alerting.alert_rule := t |> |>;
     row_id := MRule.ID; set_row_id i r := r <| MRule.ID := i |>;
     auto_increment := Tables.auto_other; set_auto_increment n d := d <| Tables.auto_other := n |> |}.
#[export] Instance alert_event_table : Table AlertEvent :=
  {| table d := (Tables.alerting d).(Alerting.alert_event);
     set_table t d := d <| Tables.alerting := (Tables.alerting d) <| Alerting.alert_event := t |> |>;
     row_id := MEvent.ID; set_row_id i r := r <| MEvent.ID := i |>;
     auto_increment := Tables.auto_other; set_auto_increment n d := d <| Tables.auto_other := n |> |}.
#[export] Instance alert_delivery_table : Table AlertDelivery :=
  {| table d := (Tables.alerting d).(Alerting.alert_delivery);
     set_table t d := d <| Tables.alerting := (Tables.alerting d) <| Alerting.alert_delivery := t |> |>;
     row_id := MDelivery.ID; set_row_id i r := r <| MDelivery.ID := i |>;
     auto_increment := Tables.auto_other; set_auto_increment n d := d <| Tables.auto_other := n |> |}.

Section Operations.
Context {R : Type} `{!Table R}.

Definition rows (t : gmap Z R) : list R := (map_to_list t).*2.
Definition table_rows (d : Db) : list R := rows (table d).

(** SELECT ... WHERE p ORDER BY key *)
Definition select (p : R -> bool) (key : R -> sort_key) (d : Db) : list R :=
  sort_by key (base.filter (fun r => p r = true) (table_rows d)).
Definition db_select (p : R -> bool) (key : R -> sort_key) : Tx (list R) :=
  st_gets (select p key).

(** SELECT ... WHERE id = ? LIMIT 1 *)
Definition db_first (id : Z) : Tx R := fun d =>
  match table d !! id with Some r => Ok (r, d) | None => Err ErrRecordNotFound end.

(** SELECT ... WHERE p ORDER BY key LIMIT 1 *)
Definition db_first_where (p : R -> bool) (key : R -> sort_key) : Tx R := fun d =>
  match select p key d with r :: _ => Ok (r, d) | [] => Err ErrRecordNotFound end.

(** UPDATE ... WHERE p; returns the rows affected. *)
Definition upd (p : R -> bool) (f : R -> R) (r : R) : R := if p r then f r else r.
Definition update_where (p : R -> bool) (f : R -> R) (t : gmap Z R) : gmap Z R := upd p f <$> t.
Definition affected (p : R -> bool) (f : R -> R) (t : gmap Z R) : Z :=
  count (fun r => p r && negb (bool_decide (f r = r))) (rows t).
Definition db_update (p : R -> bool) (f : R -> R) : Tx Z := fun d =>
  Ok (affected p f (table d), set_table (update_where p f (table d)) d).

(** DELETE ... WHERE p *)
Definition db_delete (p : R -> bool) : Tx unit :=
  st_modify (fun d => set_table (base.filter (fun '(_, r) => p r = false) (table d)) d).

(** INSERT: the row gets the next AUTO_INCREMENT value. *)
Definition db_create (r : R) : Tx R := fun d =>
  let id := auto_increment d in
  let r' := set_row_id id r in
  Ok (r', set_table (<[id := r']> (table d)) (set_auto_increment (id + 1) d)).
End Operations.

(** SELECT COUNT( * ) ... WHERE p *)
Definition db_count {R} `{!Table R} (p : R -> bool) : Tx Z :=
  st_gets (fun d => count p (table_rows (R := R) d)).

(** Keys of ORDER BY id ASC and of rows without an ORDER BY (primary key). *)
Definition by_id {R} `{!Table R} (r : R) : sort_key := [AInt (row_id r)].

(** ** Laws of the operations *)
Section Laws.
Context {R : Type} `{!Table R}.
Implicit Types (t : gmap Z R) (p : R -> bool) (f : R -> R).

Definition table_wf t : Prop := forall k r, t !! k = Some r -> row_id r = k.

Lemma elem_of_rows t r : r ∈ rows t <-> exists k, t !! k = Some r.
Proof.
  unfold rows. rewrite list_elem_of_fmap. split.
  - intros ([k r']&->&H%elem_of_map_to_list). eauto.
  - intros (k&H). exists (k, r). by rewrite elem_of_map_to_list.
Qed.

Lemma rows_update p f t : rows (update_where p f t) ≡ₚ upd p f <$> rows t.
Proof.
  unfold rows, update_where. rewrite map_to_list_fmap, <- !list_fmap_compose. done.
Qed.

Lemma rows_insert_new t k r : t !! k = None -> rows (<[k := r]> t) ≡ₚ r :: rows t.
Proof. intros H. unfold rows. by rewrite map_to_list_insert. Qed.

Lemma rows_NoDup t : table_wf t -> NoDup (row_id <$> rows t).
Proof.
  intros Hwf. unfold rows. rewrite <- list_fmap_compose.
  replace (row_id ∘ snd <$> map_to_list t) with ((map_to_list t).*1).
  - apply NoDup_fst_map_to_list.
  - apply list_fmap_ext. intros i [k r] H%list_elem_of_lookup_2.
    apply elem_of_map_to_list in H. simpl. symmetry. by apply Hwf.
Qed.

Lemma lookup_update_where p f t k : update_where p f t !! k = upd p f <$> t !! k.
Proof. unfold update_where. by rewrite lookup_fmap. Qed.

Lemma table_wf_update p f t :
  (forall r, row_id (f r) = row_id r) -> table_wf t -> table_wf (update_where p f t).
Proof.
  intros Hf Hwf k r. rewrite lookup_update_where. intros (r'&H&->)%fmap_Some_1.
  unfold upd. specialize (Hwf k r' H). case_match; by rewrite ?Hf.
Qed.

Lemma elem_of_select p key d r :
  r ∈ select p key d <-> p r = true /\ exists k, table d !! k = Some r.
Proof.
  unfold select. rewrite elem_of_sort_by, list_elem_of_filter. unfold table_rows.
  by rewrite elem_of_rows.
Qed.

Lemma select_perm p key d : select p key d ≡ₚ base.filter (fun r => p r = true) (table_rows d).
Proof. apply sort_by_perm. Qed.

Lemma select_sorted p key d : StronglySorted (by_key key) (select p key d).
Proof. apply sort_by_sorted. Qed.

Lemma select_NoDup p key d : table_wf (table d) -> NoDup (row_id <$> select p key d).
Proof.
  intros Hwf. rewrite select_perm. pose proof (rows_NoDup _ Hwf) as H. unfold table_rows.
  revert H. generalize (rows (table d)) as l. induction l as [|r l IH]; simpl; [done|].
  rewrite NoDup_cons. intros [Hr Hl]. rewrite filter_cons. case_decide; [|auto].
  rewrite fmap_cons, NoDup_cons. split; [|auto].
  intros (r'&Heq&Hr')%list_elem_of_fmap. apply Hr. rewrite Heq.
  apply list_elem_of_filter in Hr' as [_ Hr']. apply list_elem_of_fmap. eauto.
Qed.

Lemma select_nil p key d : select p key d = [] <-> forall k r, table d !! k = Some r -> p r = false.
Proof.
  split.
  - intros Hs k r Hk. destruct (p r) eqn:Hp; [|done].
    assert (r ∈ select p key d) as Hr by (apply elem_of_select; eauto).
    rewrite Hs in Hr. set_solver.
  - intros H. destruct (select p key d) as [|r l] eqn:Hs; [done|].
    assert (r ∈ select p key d) as Hr by (rewrite Hs; set_solver).
    apply elem_of_select in Hr as (Hp&k&Hk). apply H in Hk. congruence.
Qed.

Lemma count_select p q key d :
  count q (select p key d) = count (fun r => p r && q r) (table_rows d).
Proof.
  rewrite select_perm. generalize (table_rows d). induction l as [|r l IH]; [done|].
  rewrite filter_cons, count_cons. case_decide as Hp.
  - rewrite count_cons, IH, Hp. done.
  - destruct (p r); [done|]. simpl. by rewrite IH.
Qed.

Lemma db_first_ok id d r d' : db_first id d = Ok (r, d') <-> table d !! id = Some r /\ d' = d.
Proof. unfold db_first. case_match; naive_solver. Qed.

Lemma db_first_where_ok p key d r d' :
  db_first_where p key d = Ok (r, d') <-> d' = d /\ exists l, select p key d = r :: l.
Proof. unfold db_first_where. case_match; naive_solver. Qed.

Lemma db_first_where_elem p key d r d' :
  db_first_where p key d = Ok (r, d') -> d' = d /\ p r = true /\ exists k, table d !! k = Some r.
Proof.
  intros (->&l&Hs)%db_first_where_ok. split; [done|].
  apply (elem_of_select p key). rewrite Hs. set_solver.
Qed.

Lemma db_select_ok p key d l d' :
  db_select p key d = Ok (l, d') <-> l = select p key d /\ d' = d.
Proof. unfold db_select. rewrite st_gets_ok. split; [by intros [= -> ->]|by intros [-> ->]]. Qed.

Lemma db_update_ok p f d n d' :
  db_update p f d = Ok (n, d') <->
  n = affected p f (table d) /\ d' = set_table (update_where p f (table d)) d.
Proof. unfold db_update. naive_solver. Qed.

(** A statement that matches one row by its primary key. *)
Lemma update_where_one p f t i r :
  table_wf t -> t !! i = Some r -> p r = true -> (forall x, p x = true -> row_id x = i) ->
  update_where p f t = <[i := f r]> t.
Proof.
  intros Hwf Hr Hp Hid. apply map_eq. intros k. rewrite lookup_update_where.
  destruct (decide (k = i)) as [-> |Hk].
  - rewrite Hr, lookup_insert_eq. simpl. unfold upd. by rewrite Hp.
  - rewrite lookup_insert_ne by done. destruct (t !! k) as [x|] eqn:Hx; [|done]. simpl. f_equal.
    unfold upd. destruct (p x) eqn:Hpx; [|done]. apply Hid in Hpx. apply Hwf in Hx. congruence.
Qed.

(** No row is affected: the statement changed nothing. *)
Lemma affected_zero p f t : affected p f t = 0 -> update_where p f t = t.
Proof.
  unfold affected. rewrite count_zero. intros H. apply map_eq. intros k.
  rewrite lookup_update_where. destruct (t !! k) as [r|] eqn:Hk; [|done]. simpl. f_equal.
  unfold upd. destruct (p r) eqn:Hp; [|done].
  specialize (H r ltac:(apply elem_of_rows; eauto)). rewrite Hp in H. simpl in H.
  by rewrite negb_false_iff, bool_decide_eq_true in H.
Qed.
End Laws.

Create HintDb store.
#[export] Hint Resolve table_wf_update : store.

(** Steps of [inv_ok] for the statements. *)
Ltac inv_db_step :=
  match goal with
  | H : db_first _ _ = Ok _ |- _ => apply db_first_ok in H; destruct H as [H ?]
  | H : db_first_where _ _ _ = Ok _ |- _ => apply db_first_where_elem in H; destruct H as (?&?&?&?)
  | H : db_select _ _ _ = Ok _ |- _ => apply db_select_ok in H; destruct H as [? ?]
  | H : db_update _ _ _ = Ok _ |- _ => apply db_update_ok in H; destruct H as [? ?]
  | H : db_count _ _ = Ok _ |- _ => unfold db_count in H
  | H : ?x = Ok _ |- _ => progress (unfold db_delete in H)
  end.

(** ** A small concrete database for the witnesses of the theorems *)
Module Sample.
Definition site7 : Site :=
  MSite.mk 7 "site" "https://up.example" 3 "" "active" "online" "authorized" "ready" "ok"
    (Some 1) (Some 1) (Some "token") "v1" "sys" None None None true 0 0 None 0 None None
    (Some 3600) None None None (Some 3600) 1 1.
Definition capability (id : Z) (key : string) : SiteCapability :=
  MCapability.mk id 7 key "passed" "" "" 1.
Definition capability_keys : list string :=
  ["status_contract"; "self_identity"; "root_identity"; "first_user_proof"; "user_pagination";
   "channel_pagination"; "data_export_enabled"; "flow_contract"; "data_contract";
   "flow_data_consistency"; "instance_contract"; "realtime_contract"].
Definition capabilities : list SiteCapability :=
  zip_with (fun id key => capability (Z.of_nat id) key) (seq 1 12) capability_keys.
Definition window (id hour : Z) (status : string) : CollectionWindow :=
  Window.mk id 7 hour status "attributed" 0 0 "" None None "" "" None 1.
Definition run (id : Z) (start end_ : Z) (status : string) : CollectionRun :=
  Run.mk id (Some 7) 3 "usage_hour" "site" 7 "schedule" (Some start) (Some end_) "{}"
    (Some "key") status 0 0 0 100 1 None (Some 1) 2 0 0 0 "req-1" "req-1" "" "" None None None 1 1.
Definition run_window (id run_id hour : Z) (status : string) (attempts : Z) : CollectionRunWindow :=
  RunWindow.mk id run_id 7 hour status attempts None 0 0 "" "" None None None 1.
Definition by_ids {R} `{!Table R} (l : list R) : gmap Z R := list_to_map ((fun r => (row_id r, r)) <$> l).
Definition db (runs : list CollectionRun) (run_windows : list CollectionRunWindow)
    (windows : list CollectionWindow) : Db :=
  Tables.mk (by_ids [site7]) (by_ids capabilities) ∅ ∅ (by_ids runs) (by_ids run_windows)
    (by_ids windows) ∅ ∅ ∅ no_statistics no_alerts 100 100 100 50.
End Sample.
