(* ===== verification/Frame.v ===== *)
(** * Frames: what a transaction leaves alone

    [Preserves proj m] says that whenever [m] returns, the part [proj] of the
    database is as before.  The class resolves the combinators, so the frame
    of a handler is proved by unfolding it once. *)

From S2P Require Import Prelude Store.

Class Preserves {X A : Type} (proj : Db -> X) (m : Tx A) : Prop :=
  preserves : forall d a d', m d = Ok (a, d') -> proj d' = proj d.

(** Nothing at all changes: the transaction only reads. *)
Abbreviation ReadsOnly := (Preserves (fun d : Db => d)).

(** The two tables of the task queue, with their counters. *)
Definition run_state (d : Db) :=
  (Tables.collection_run d, Tables.collection_run_window d, Tables.auto_run d, Tables.auto_run_window d).

Section Combinators.
Context {X : Type} (proj : Db -> X).

#[export] Instance preserves_ret {A} (a : A) : Preserves proj (mret (M := ST Db) a).
Proof. intros d x d' H. apply st_ret_ok in H. by injection H as -> ->. Qed.

#[export] Instance preserves_fail {A} e : Preserves proj (st_fail (A := A) e).
Proof. intros d x d' H. by apply st_fail_ok in H. Qed.

#[export] Instance preserves_lift {A} (m : result A) : Preserves proj (st_lift m).
Proof. intros d x d' H. apply st_lift_ok in H as (?&_&H). by injection H as -> ->. Qed.

#[export] Instance preserves_require b e : Preserves proj (st_require b e).
Proof. intros d x d' H. apply st_require_ok in H as (_&H). by injection H as -> ->. Qed.

#[export] Instance preserves_gets {A} (f : Db -> A) : Preserves proj (st_gets f).
Proof. intros d x d' H. apply st_gets_ok in H. by injection H as -> ->. Qed.

#[export] Instance preserves_bind {A B} (m : Tx A) (k : A -> Tx B) :
  Preserves proj m -> (forall a, Preserves proj (k a)) -> Preserves proj (m ≫= k).
Proof. intros Hm Hk d x d' (a&d1&H1&H2)%st_bind_ok. rewrite (Hk a d1 x d' H2). eauto. Qed.

#[export] Instance preserves_fold {A B} (f : A -> B -> Tx B) l : forall b,
  (forall a b, Preserves proj (f a b)) -> Preserves proj (st_fold f l b).
Proof. induction l as [|a l IH]; intros b Hf; simpl; apply _. Qed.

#[export] Instance preserves_select {R} `{!Table R} p key : Preserves proj (db_select (R := R) p key).
Proof. apply preserves_gets. Qed.

#[export] Instance preserves_count {R} `{!Table R} p : Preserves proj (db_count (R := R) p).
Proof. apply preserves_gets. Qed.

#[export] Instance preserves_first {R} `{!Table R} id : Preserves proj (db_first (R := R) id).
Proof. intros d x d' H. by apply db_first_ok in H as [_ ->]. Qed.

#[export] Instance preserves_first_where {R} `{!Table R} p key :
  Preserves proj (db_first_where (R := R) p key).
Proof. intros d x d' H. by apply db_first_where_elem in H as (->&_). Qed.

Lemma preserves_update {R} `{!Table R} p f :
  (forall t d, proj (set_table (R := R) t d) = proj d) -> Preserves proj (db_update (R := R) p f).
Proof. intros Hset d x d' H. apply db_update_ok in H as [_ ->]. apply Hset. Qed.

Lemma preserves_create {R} `{!Table R} r :
  (forall t n d, proj (set_table (R := R) t (set_auto_increment (R := R) n d)) = proj d) ->
  Preserves proj (db_create (R := R) r).
Proof. intros Hset d x d' H. unfold db_create in H. injection H as _ <-. apply Hset. Qed.

Lemma preserves_delete {R} `{!Table R} p :
  (forall t d, proj (set_table (R := R) t d) = proj d) -> Preserves proj (db_delete (R := R) p).
Proof. intros Hset d x d' H. apply st_modify_ok in H. injection H as _ ->. apply Hset. Qed.

Lemma preserves_if {A} (b : bool) (m1 m2 : Tx A) :
  Preserves proj m1 -> Preserves proj m2 -> Preserves proj (if b then m1 else m2).
Proof. by destruct b. Qed.
End Combinators.

(** A statement on another table leaves the queue alone. *)
#[export] Hint Extern 2 (Preserves run_state (db_update _ _)) =>
  (apply preserves_update; reflexivity) : typeclass_instances.
#[export] Hint Extern 2 (Preserves run_state (db_create _)) =>
  (apply preserves_create; reflexivity) : typeclass_instances.
#[export] Hint Extern 2 (Preserves run_state (db_delete _)) =>
  (apply preserves_delete; reflexivity) : typeclass_instances.

(** Case analysis on the conditionals of a handler, then the combinators. *)
Ltac frame_step :=
  match goal with
  | |- Preserves _ (let _ := _ in _) => cbv zeta
  | |- Preserves _ (if ?b then _ else _) => apply preserves_if
  | |- Preserves _ (match ?x with _ => _ end) => destruct x
  | |- Preserves _ (match ?x with _ => _ end _) => destruct x; cbv beta
  | |- Preserves _ (mbind _ _) => apply preserves_bind; [|intros]
  | |- Preserves _ (st_fold _ _ _) => apply preserves_fold; intros
  | |- Preserves _ _ => solve [apply _]
  end.
Ltac solve_frame := cbv zeta; repeat frame_step.
