(* ===== verification/RunContract.v ===== *)
(** * Collection run contracts ([model/site_run.go], [common/json.go])

    Which sites may run which tasks, how a run is built and validated, its
    active key, the canonical form of its scope, and the ranges of hours an
    active set of runs leaves uncovered. *)

From Stdlib Require Import Ascii String.
From S2P Require Import Prelude Constants GoText Store.

(** ** Runnable site snapshots *)
Module RunnableSiteSnapshot.
Record RunnableSiteSnapshot := mk { site : Site; Capabilities : list SiteCapability }.
End RunnableSiteSnapshot.
Abbreviation RunnableSiteSnapshot := RunnableSiteSnapshot.RunnableSiteSnapshot.

(** The [statuses] map of the loop; a duplicate capability key is an error. *)
Fixpoint capability_statuses (capabilities : list SiteCapability) (statuses : gmap string string)
  : option (gmap string string) :=
  match capabilities with
  | [] => Some statuses
  | capability :: rest =>
      match statuses !! capability.(MCapability.CapabilityKey) with
      | Some _ => None
      | None => capability_statuses rest
          (<[capability.(MCapability.CapabilityKey) := capability.(MCapability.Status)]> statuses)
      end
  end.

(** The refusal condition of one capability in the second loop. *)
Definition capability_refused (statuses : gmap string string) (key : string) : bool :=
  match statuses !! key with
  | None => true
  | Some status =>
      (status == CapabilityStatusFailed)
      || ((status == CapabilityStatusSkipped) && (key != CapabilityFlowDataConsistency))
      || ((status != CapabilityStatusPassed) && (status != CapabilityStatusSkipped))
  end.

(** [validateRunnableSiteSnapshot]; [excluded] is the set of skipped keys. *)
Definition validateRunnableSiteSnapshot (snapshot : RunnableSiteSnapshot)
    (expectedConfigVersion : Z) (excluded : list string) : result unit :=
  let site := snapshot.(RunnableSiteSnapshot.site) in
  if (site.(MSite.ID) <=? 0) || (expectedConfigVersion <=? 0)
     || (site.(MSite.ConfigVersion) != expectedConfigVersion) then Err ErrSiteRunConfigChanged
  else if site.(MSite.ManagementStatus) != SiteManagementActive then Err ErrSiteRunManagementInactive
  else if site.(MSite.AuthStatus) != SiteAuthAuthorized then Err ErrSiteRunAuthorizationNeeded
  else if not_nil site.(MSite.StatisticsEndAt) then Err ErrSiteRunStatisticsEnded
  else if negb site.(MSite.DataExportEnabled) then Err ErrSiteRunExportDisabled
  else match capability_statuses snapshot.(RunnableSiteSnapshot.Capabilities) ∅ with
  | None => Err ErrSiteRunCapabilitiesPending
  | Some statuses =>
      let keys := SiteCapabilityKeys in
      let known := List.filter (fun key => negb (is_one_of key excluded)
                     && (match statuses !! key with Some _ => true | None => false end)) keys in
      if Z.of_nat (List.length known) != Z.of_nat (List.length keys) - Z.of_nat (List.length excluded)
      then Err ErrSiteRunCapabilitiesPending
      else if existsb (fun key => negb (is_one_of key excluded) && capability_refused statuses key) keys
      then Err ErrSiteRunCapabilitiesPending
      else Ok tt
  end.

Definition ValidateRunnableSiteSnapshot (snapshot : RunnableSiteSnapshot)
    (expectedConfigVersion : Z) : result unit :=
  validateRunnableSiteSnapshot snapshot expectedConfigVersion [].

Definition ValidateRunnableSiteSnapshotForTask (snapshot : RunnableSiteSnapshot)
    (expectedConfigVersion : Z) (taskType : string) : result unit :=
  validateRunnableSiteSnapshot snapshot expectedConfigVersion
    (if taskType == TaskTypeUsageBackfill then [CapabilityRealtimeContract] else []).

(** [FindByIDForUpdate] and [LockRunnableSiteSnapshot] *)
Definition FindByIDForUpdate (id : Z) : Tx Site := db_first id.

Definition by_capability_key (c : SiteCapability) : sort_key :=
  [AStr c.(MCapability.CapabilityKey); AInt c.(MCapability.ID)].

Definition LockRunnableSiteSnapshot (siteID expectedConfigVersion : Z) : Tx RunnableSiteSnapshot :=
  site ← FindByIDForUpdate siteID;
  capabilities ← db_select (fun c => c.(MCapability.SiteID) == siteID) by_capability_key;
  let snapshot := RunnableSiteSnapshot.mk site capabilities in
  _ ← st_lift (ValidateRunnableSiteSnapshot snapshot expectedConfigVersion);
  mret snapshot.

(** ** Request identifiers *)
Definition request_id_char (c : ascii) : bool :=
  let n := code c in
  ((65 <=? n) && (n <=? 90)) || ((97 <=? n) && (n <=? 122)) || ((48 <=? n) && (n <=? 57))
  || (n =? 46) || (n =? 95) || (n =? 45).

(** Every rune outside the accepted ASCII set, and every invalid byte, is
    refused, so ranging over runes is ranging over bytes. *)
Definition validCollectionRequestID (value : string) : bool :=
  (1 <=? len value) && (len value <=? 64) && forallb request_id_char (bytes value).

(** ** Scopes: strict JSON decoding of an object whose only possible field is
    [only_missing]

    [common.DecodeJSON] rejects duplicate keys, unknown fields and trailing
    data.  Both decode targets are structs whose fields are [*bool] or absent,
    so a decode succeeds only on an object whose keys all name
    [only_missing] (up to the Unicode case folding encoding/json applies) and
    whose values are [true], [false] or [null]. *)
Definition json_space (c : ascii) : bool :=
  let n := code c in (n =? 32) || (n =? 9) || (n =? 10) || (n =? 13).

Fixpoint skip_space (l : list ascii) : list ascii :=
  match l with
  | c :: l' => if json_space c then skip_space l' else l
  | [] => []
  end.

Definition hex_digit (c : ascii) : option Z :=
  let n := code c in
  if (48 <=? n) && (n <=? 57) then Some (n - 48)
  else if (97 <=? n) && (n <=? 102) then Some (n - 87)
  else if (65 <=? n) && (n <=? 70) then Some (n - 55)
  else None.

(** The body of a JSON string as code points.  Code points that no accepted
    key contains (other escapes, other non-ASCII runes) end the parse. *)
Fixpoint json_string (l : list ascii) : option (list Z * list ascii) :=
  match l with
  | [] => None
  | c :: l1 =>
      if code c =? 34 then Some ([], l1)
      else if code c =? 92 then
        match l1 with
        | u :: a :: b :: d :: e :: l2 =>
            if code u =? 117 then
              x1 ← hex_digit a; x2 ← hex_digit b; x3 ← hex_digit d; x4 ← hex_digit e;
              '(k, l3) ← json_string l2;
              Some (4096 * x1 + 256 * x2 + 16 * x3 + x4 :: k, l3)
            else None
        | _ => None
        end
      else if (32 <=? code c) && (code c <=? 127) then
        '(k, l2) ← json_string l1; Some (code c :: k, l2)
      else match l1 with
      | b :: l2 =>
          if (code c =? 197) && (code b =? 191) then
            '(k, l3) ← json_string l2; Some (383 :: k, l3)
          else None
      | [] => None
      end
  end.

(** encoding/json's key folding on the code points that matter. *)
Definition fold_rune (n : Z) : Z :=
  if (97 <=? n) && (n <=? 122) then n - 32 else if n =? 383 then 83 else n.
Definition only_missing_runes : list Z := [111; 110; 108; 121; 95; 109; 105; 115; 115; 105; 110; 103].
Definition names_only_missing (key : list Z) : bool :=
  (fold_rune <$> key) == (fold_rune <$> only_missing_runes).

(** [true], [false] or [null], as the value a [*bool] receives. *)
Definition json_literal (l : list ascii) : option (option bool * list ascii) :=
  match l with
  | "t"%char :: "r"%char :: "u"%char :: "e"%char :: l' => Some (Some true, l')
  | "f"%char :: "a"%char :: "l"%char :: "s"%char :: "e"%char :: l' => Some (Some false, l')
  | "n"%char :: "u"%char :: "l"%char :: "l"%char :: l' => Some (None, l')
  | _ => None
  end.

(** The members of an object after its opening brace or a comma; [seen] holds
    the keys read so far and [value] the current content of the field. *)
Fixpoint json_members (fuel : nat) (l : list ascii) (seen : list (list Z)) (value : option bool)
  : option (option bool * list ascii) :=
  match fuel with
  | O => None
  | S fuel' =>
      match skip_space l with
      | c :: l1 =>
          if code c =? 34 then
            '(key, l2) ← json_string l1;
            if existsb (fun k => bool_decide (k = key)) seen || negb (names_only_missing key) then None
            else match skip_space l2 with
            | c2 :: l3 =>
                if code c2 =? 58 then
                  '(v, l4) ← json_literal (skip_space l3);
                  match skip_space l4 with
                  | c3 :: l5 =>
                      if code c3 =? 44 then json_members fuel' l5 (key :: seen) v
                      else if code c3 =? 125 then Some (v, l5)
                      else None
                  | [] => None
                  end
                else None
            | [] => None
            end
          else None
      | [] => None
      end
  end.

(** [DecodeJSON] into [usageBackfillScope]: [Some v] is success with
    [OnlyMissing = v]. *)
Definition decode_usage_backfill_scope (l : list ascii) : option (option bool) :=
  match skip_space l with
  | c :: l1 =>
      if code c =? 123 then
        match skip_space l1 with
        | d :: l2 =>
            if code d =? 125 then match skip_space l2 with [] => Some None | _ :: _ => None end
            else '(v, l3) ← json_members (List.length l1) l1 [] None;
                 match skip_space l3 with [] => Some v | _ :: _ => None end
        | [] => None
        end
      else None
  | [] => None
  end.

(** [DecodeJSON] into [struct{}]: only an empty object decodes. *)
Definition decode_empty_scope (l : list ascii) : bool :=
  match skip_space l with
  | c :: l1 =>
      (code c =? 123) &&
      match skip_space l1 with
      | d :: l2 => (code d =? 125) && match skip_space l2 with [] => true | _ :: _ => false end
      | [] => false
      end
  | [] => false
  end.

(** [NewUsageBackfillRunScope]: json.Marshal of the canonical struct. *)
Definition quote : string := String (ascii_of_N 34) EmptyString.
Definition NewUsageBackfillRunScope (onlyMissing : bool) : string :=
  "{" +:+ quote +:+ "only_missing" +:+ quote +:+ ":" +:+ (if onlyMissing then "true" else "false") +:+ "}".

Definition braced (l : list ascii) : bool :=
  match l, List.rev l with
  | a :: _ :: _, b :: _ => (code a =? 123) && (code b =? 125)
  | _, _ => false
  end.

Definition CanonicalCollectionRunScope (taskType scope : string) : result string :=
  if negb (ValidCollectionTaskType taskType) || (4096 <? len scope) then Err ErrCollectionRunContract
  else
    let trimmed := TrimSpace (bytes scope) in
    if (0 <? Z.of_nat (List.length trimmed)) && negb (braced trimmed) then Err ErrCollectionRunContract
    else if taskType == TaskTypeUsageBackfill then
      match trimmed with
      | [] => Ok (NewUsageBackfillRunScope true)
      | _ :: _ =>
          match decode_usage_backfill_scope trimmed with
          | Some (Some onlyMissing) => Ok (NewUsageBackfillRunScope onlyMissing)
          | _ => Err ErrCollectionRunContract
          end
      end
    else match trimmed with
    | [] => Ok "{}"
    | _ :: _ => if decode_empty_scope trimmed then Ok "{}" else Err ErrCollectionRunContract
    end.

(** [UsageBackfillOnlyMissing] *)
Definition UsageBackfillOnlyMissing (scope : string) : result bool :=
  canonical ← CanonicalCollectionRunScope TaskTypeUsageBackfill scope;
  match decode_usage_backfill_scope (bytes canonical) with
  | Some (Some onlyMissing) => Ok onlyMissing
  | _ => Err ErrCollectionRunContract
  end.

(** ** Active keys *)
Definition CollectionRunActiveKey (taskType targetType : string) (targetID : Z)
    (start end_ : option Z) : result string :=
  if negb (bool_decide (CollectionTaskTarget taskType = Some targetType)) || (targetID <=? 0)
     || negb (Bool.eqb (is_nil start) (is_nil end_)) then Err ErrCollectionRunContract
  else
    let key startValue endValue :=
      taskType +:+ ":" +:+ targetType +:+ ":" +:+ FormatInt targetID +:+ ":"
      +:+ startValue +:+ ":" +:+ endValue in
    match start, end_ with
    | Some s, Some e =>
        if (s <=? 0) || (e <=? 0) then Err ErrCollectionRunContract
        else Ok (key (FormatInt s) (FormatInt e))
    | _, _ => Ok (key "" "")
    end.

(** ** Building and validating runs *)
Module SiteRunSpec.
Record SiteRunSpec := mk {
  TaskType : string; TriggerType : string; StartTimestamp : option Z; EndTimestamp : option Z;
  Scope : string; Priority : Z; RequestID : string; Now : Z
}.
End SiteRunSpec.
Abbreviation SiteRunSpec := SiteRunSpec.SiteRunSpec.

(** The zero value of [CollectionRun]. *)
Definition zero_run : CollectionRun :=
  Run.mk 0 None 0 "" "" 0 "" None None "" None "" 0 0 0 0 0 None None 0 0 0 0 "" "" "" "" None
    None None 0 0.

Definition hour_aligned (z : Z) : bool := Z.rem z 3600 =? 0.

Definition NewSiteCollectionRun (site : Site) (spec : SiteRunSpec) : result CollectionRun :=
  let taskType := spec.(SiteRunSpec.TaskType) in
  let triggerType := spec.(SiteRunSpec.TriggerType) in
  if (site.(MSite.ID) <=? 0) || (site.(MSite.ConfigVersion) <=? 0)
     || negb (bool_decide (CollectionTaskTarget taskType = Some "site"))
     || negb (ValidCollectionTriggerType triggerType)
     || negb (ValidCollectionTaskPriority taskType triggerType spec.(SiteRunSpec.Priority))
     || negb (validCollectionRequestID spec.(SiteRunSpec.RequestID)) || (spec.(SiteRunSpec.Now) <=? 0)
  then Err ErrCollectionRunContract
  else
    let windowed := CollectionTaskWindowed taskType in
    let start := spec.(SiteRunSpec.StartTimestamp) in
    let end_ := spec.(SiteRunSpec.EndTimestamp) in
    let range_ok :=
      if windowed then
        match start, end_ with
        | Some s, Some e => (0 <? s) && (0 <? e) && hour_aligned s && hour_aligned e && (s <=? e)
        | _, _ => false
        end
      else is_nil start && is_nil end_ in
    if negb range_ok then Err ErrCollectionRunContract
    else
      scope ← CanonicalCollectionRunScope taskType spec.(SiteRunSpec.Scope);
      activeKey ← CollectionRunActiveKey taskType "site" site.(MSite.ID) start end_;
      let run := zero_run
        <| Run.SiteID := Some site.(MSite.ID) |>
        <| Run.SiteConfigVersion := site.(MSite.ConfigVersion) |>
        <| Run.TaskType := taskType |> <| Run.TargetType := "site" |>
        <| Run.TargetID := site.(MSite.ID) |> <| Run.TriggerType := triggerType |>
        <| Run.StartTimestamp := start |> <| Run.EndTimestamp := end_ |>
        <| Run.Scope := scope |> <| Run.ActiveKey := Some activeKey |> <| Run.Status := "pending" |>
        <| Run.Priority := spec.(SiteRunSpec.Priority) |>
        <| Run.NextAttemptAt := spec.(SiteRunSpec.Now) |>
        <| Run.CreatedRequestID := spec.(SiteRunSpec.RequestID) |>
        <| Run.LastRequestID := spec.(SiteRunSpec.RequestID) |>
        <| Run.CreatedAt := spec.(SiteRunSpec.Now) |> <| Run.UpdatedAt := spec.(SiteRunSpec.Now) |> in
      Ok (if windowed then run
          else run <| Run.WindowsInitializedAt := Some spec.(SiteRunSpec.Now) |>).

(** [ValidateCollectionRunForCreate]: [true] is the nil error; every failure
    is [ErrCollectionRunContract]. *)
Definition ValidateCollectionRunForCreate (run : CollectionRun) : bool :=
  let taskType := run.(Run.TaskType) in
  let windowed := CollectionTaskWindowed taskType in
  bool_decide (CollectionTaskTarget taskType = Some run.(Run.TargetType))
  && (0 <? run.(Run.TargetID))
  && ValidCollectionTriggerType run.(Run.TriggerType)
  && ValidCollectionTaskPriority taskType run.(Run.TriggerType) run.(Run.Priority)
  && validCollectionRequestID run.(Run.CreatedRequestID)
  && (run.(Run.LastRequestID) == run.(Run.CreatedRequestID))
  && (0 <? run.(Run.CreatedAt)) && (run.(Run.UpdatedAt) =? run.(Run.CreatedAt))
  && (0 <? run.(Run.NextAttemptAt)) && (run.(Run.TotalWindows) =? 0)
  && (run.(Run.CompletedWindows) =? 0) && (run.(Run.FailedWindows) =? 0)
  && (run.(Run.RetryCount) =? 0)
  && (if run.(Run.TargetType) == "site" then
        bool_decide (run.(Run.SiteID) = Some run.(Run.TargetID)) && (0 <? run.(Run.SiteConfigVersion))
      else is_nil run.(Run.SiteID) && (run.(Run.SiteConfigVersion) =? 0))
  && bool_decide (CanonicalCollectionRunScope taskType run.(Run.Scope) = Ok run.(Run.Scope))
  && (if windowed then
        match run.(Run.StartTimestamp), run.(Run.EndTimestamp) with
        | Some s, Some e => (0 <? s) && (s <=? e) && hour_aligned s && hour_aligned e
        | _, _ => false
        end
      else is_nil run.(Run.StartTimestamp) && is_nil run.(Run.EndTimestamp)
           && not_nil run.(Run.WindowsInitializedAt))
  && (run.(Run.Status) == "pending")
  && not_nil run.(Run.ActiveKey)
  && negb (windowed && not_nil run.(Run.WindowsInitializedAt))
  && is_nil run.(Run.FinishedAt)
  && match run.(Run.ActiveKey),
           CollectionRunActiveKey taskType run.(Run.TargetType) run.(Run.TargetID)
             run.(Run.StartTimestamp) run.(Run.EndTimestamp) with
     | Some k, Ok expectedKey => k == expectedKey
     | _, _ => false
     end.

(** ** Ranges of hours *)

(** The range before a run that starts at [s]: nothing when the cursor has
    reached [s]. *)
Definition gap_before (end_ cursor s : Z) : list (Z * Z) :=
  if cursor <? s then
    let gapEnd := if end_ <? s then end_ else s in
    if cursor <? gapEnd then [(cursor, gapEnd)] else []
  else [].

(** [uncoveredSiteWindowRanges]: the loop over the active runs with its cursor,
    which returns as soon as the cursor reaches [end_]. *)
Fixpoint uncovered_loop (end_ cursor : Z) (active : list CollectionRun) : list (Z * Z) :=
  match active with
  | [] => if cursor <? end_ then [(cursor, end_)] else []
  | run :: rest =>
      match run.(Run.StartTimestamp), run.(Run.EndTimestamp) with
      | Some s, Some e =>
          if e <=? cursor then uncovered_loop end_ cursor rest
          else
            (* here [cursor < e], so the cursor always moves to [e] *)
            if end_ <=? e then gap_before end_ cursor s
            else gap_before end_ cursor s ++ uncovered_loop end_ e rest
      | _, _ => uncovered_loop end_ cursor rest
      end
  end.

Definition uncoveredSiteWindowRanges (start end_ : Z) (active : list CollectionRun) : list (Z * Z) :=
  if end_ <=? start then [(start, end_)] else uncovered_loop end_ start active.

(** The loop of [collectableUsageBackfillRanges] over the settled windows. *)
Fixpoint collectable_loop (end_ cursor : Z) (settled : list CollectionWindow)
  : result (list (Z * Z)) :=
  match settled with
  | [] => Ok (if cursor <? end_ then [(cursor, end_)] else [])
  | window :: rest =>
      let hour := window.(Window.HourTS) in
      if negb (hour_aligned hour) || (hour <? cursor) || (end_ <=? hour)
      then Err ErrCollectionRunContract
      else
        ranges ← collectable_loop end_ (hour + 3600) rest;
        Ok ((if cursor <? hour then [(cursor, hour)] else []) ++ ranges)
  end.

Definition CollectionWindowStatusPending : string := "pending".
Definition CollectionWindowStatusComplete : string := "complete".
Definition CollectionWindowStatusMissing : string := "missing".
Definition CollectionWindowStatusUnavailable : string := "unavailable".

Definition by_hour (w : CollectionWindow) : sort_key := [AInt w.(Window.HourTS); AInt w.(Window.ID)].

Definition collectableUsageBackfillRanges (siteID start end_ : Z) : Tx (list (Z * Z)) :=
  settled ← db_select (fun w => (w.(Window.SiteID) =? siteID) && (start <=? w.(Window.HourTS))
                        && (w.(Window.HourTS) <? end_)
                        && is_one_of w.(Window.Status)
                             [CollectionWindowStatusComplete; CollectionWindowStatusUnavailable])
                     by_hour;
  st_lift (collectable_loop end_ start settled).

(** ** The hours a run materialises *)

(** [validateSiteRunWindowHours] *)
Fixpoint hours_valid (start end_ previous : Z) (hours : list Z) : bool :=
  match hours with
  | [] => true
  | hour :: rest =>
      hour_aligned hour && (start <=? hour) && (hour <? end_) && (previous <? hour)
      && hours_valid start end_ hour rest
  end.

Definition validateSiteRunWindowHours (run : CollectionRun) (hours : list Z) : result unit :=
  match run.(Run.SiteID), run.(Run.StartTimestamp), run.(Run.EndTimestamp) with
  | Some site, Some start, Some end_ =>
      if (0 <? run.(Run.ID)) && (0 <? site) && (0 <? run.(Run.SiteConfigVersion)) && (0 <? start)
         && (start <=? end_) && hour_aligned start && hour_aligned end_
         && hours_valid start end_ (-1) hours
      then Ok tt else Err ErrCollectionRunContract
  | _, _, _ => Err ErrCollectionRunContract
  end.

(** The [excluded] set of [expectedSiteRunWindowHours], with its checks on the
    fact windows read. *)
Fixpoint excluded_hours (start end_ previous : Z) (facts : list CollectionWindow)
  : result (list Z) :=
  match facts with
  | [] => Ok []
  | fact :: rest =>
      let hour := fact.(Window.HourTS) in
      if negb (hour_aligned hour) || (hour <? start) || (end_ <=? hour) || (hour =? previous)
      then Err ErrCollectionRunContract
      else if is_one_of fact.(Window.Status) ["complete"; "unavailable"] then
        excluded ← excluded_hours start end_ hour rest; Ok (hour :: excluded)
      else if is_one_of fact.(Window.Status) ["pending"; "missing"] then
        excluded_hours start end_ hour rest
      else Err ErrCollectionRunContract
  end.

(** The hours of [start, end_), one every 3600 seconds. *)
Fixpoint hours_from (fuel : nat) (hour end_ : Z) : list Z :=
  match fuel with
  | O => []
  | S fuel' => if hour <? end_ then hour :: hours_from fuel' (hour + 3600) end_ else []
  end.
Definition hours_between (start end_ : Z) : list Z :=
  hours_from (Z.to_nat ((end_ - start) / 3600 + 1)) start end_.

(** [expectedSiteRunWindowHours] *)
Definition expectedSiteRunWindowHours (run : CollectionRun) : Tx (list Z) :=
  match run.(Run.SiteID), run.(Run.StartTimestamp), run.(Run.EndTimestamp) with
  | Some site, Some start, Some end_ =>
      onlyMissing ← (if run.(Run.TaskType) == TaskTypeUsageBackfill
                     then st_lift (UsageBackfillOnlyMissing run.(Run.Scope)) else mret false);
      excluded ← (if (onlyMissing : bool) then
          facts ← db_select (fun w => (w.(Window.SiteID) =? site) && (start <=? w.(Window.HourTS))
                              && (w.(Window.HourTS) <? end_)) by_hour;
          st_lift (excluded_hours start end_ (-1) facts)
        else mret []);
      mret (List.filter (fun hour => negb (existsb (Z.eqb hour) excluded)) (hours_between start end_))
  | _, _, _ => st_fail ErrCollectionRunContract
  end.

#[global] Arguments validCollectionRequestID : simpl never.
#[global] Arguments CanonicalCollectionRunScope : simpl never.
#[global] Arguments CollectionRunActiveKey : simpl never.
#[global] Arguments hour_aligned : simpl never.

(** ** Properties *)

(** Membership of an instant in a list of half-open ranges. *)
Definition in_range (t : Z) (r : Z * Z) : Prop := fst r <= t < snd r.
Definition in_ranges (t : Z) (l : list (Z * Z)) : Prop := exists r, r ∈ l /\ in_range t r.

(** The instants an active run covers. *)
Definition run_covers (run : CollectionRun) (t : Z) : Prop :=
  exists s e, run.(Run.StartTimestamp) = Some s /\ run.(Run.EndTimestamp) = Some e /\ s <= t < e.
Definition covered (active : list CollectionRun) (t : Z) : Prop :=
  exists run, run ∈ active /\ run_covers run t.

(** Ranges in increasing order, none empty, none overlapping. *)
Inductive ranges_ordered : Z -> list (Z * Z) -> Prop :=
  | ranges_ordered_nil lo : ranges_ordered lo []
  | ranges_ordered_cons lo s e l : lo <= s -> s < e -> ranges_ordered e l ->
      ranges_ordered lo ((s, e) :: l).

Lemma ranges_ordered_weaken lo lo' l : lo' <= lo -> ranges_ordered lo l -> ranges_ordered lo' l.
Proof. intros Hle H. inversion H; subst; constructor; auto; lia. Qed.

Lemma in_ranges_nil t : in_ranges t [] <-> False.
Proof. unfold in_ranges. set_solver. Qed.

Lemma in_ranges_cons t r l : in_ranges t (r :: l) <-> in_range t r \/ in_ranges t l.
Proof. unfold in_ranges. set_solver. Qed.

Lemma in_ranges_app t l1 l2 : in_ranges t (l1 ++ l2) <-> in_ranges t l1 \/ in_ranges t l2.
Proof. unfold in_ranges. set_solver. Qed.

Lemma covered_nil t : covered [] t <-> False.
Proof. unfold covered. set_solver. Qed.

Lemma covered_cons run l t : covered (run :: l) t <-> run_covers run t \/ covered l t.
Proof. unfold covered. set_solver. Qed.

Lemma run_covers_Some run s e t :
  run.(Run.StartTimestamp) = Some s -> run.(Run.EndTimestamp) = Some e ->
  run_covers run t <-> s <= t < e.
Proof. unfold run_covers. naive_solver. Qed.

(** The runs start no earlier than [lo], each after the previous one, and none
    ends before it starts. *)
Fixpoint starts_from (lo : Z) (active : list CollectionRun) : Prop :=
  match active with
  | [] => True
  | run :: rest =>
      match run.(Run.StartTimestamp), run.(Run.EndTimestamp) with
      | Some s, Some e => lo <= s <= e /\ starts_from s rest
      | _, _ => starts_from lo rest
      end
  end.

Lemma starts_from_covered lo active t : starts_from lo active -> covered active t -> lo <= t.
Proof.
  revert lo. induction active as [|run rest IH]; simpl; intros lo Hs Hc.
  - by apply covered_nil in Hc.
  - apply covered_cons in Hc as [(s&e&Hs'&He'&Ht)|Hc].
    + rewrite Hs', He' in Hs. lia.
    + destruct (Run.StartTimestamp run) as [s|], (Run.EndTimestamp run) as [e|]; eauto.
      destruct Hs as [Hlo Hs]. specialize (IH _ Hs Hc). lia.
Qed.

Lemma gap_before_spec end_ cursor s : cursor < end_ ->
  (forall t, in_ranges t (gap_before end_ cursor s) <-> cursor <= t < Z.min s end_) /\
  ranges_ordered cursor (gap_before end_ cursor s) /\
  (forall l, ranges_ordered (Z.max cursor (Z.min s end_)) l ->
             ranges_ordered cursor (gap_before end_ cursor s ++ l)).
Proof.
  intros Hlt. unfold gap_before. destruct (cursor <? s) eqn:Hcs; to_prop; simpl.
  - assert (Hmin : (if end_ <? s then end_ else s) = Z.min s end_)
      by (destruct (end_ <? s) eqn:?; to_prop; lia).
    rewrite Hmin, (proj2 (Z.ltb_lt cursor (Z.min s end_))) by lia.
    split; [|split].
    + intros t. rewrite in_ranges_cons, in_ranges_nil. unfold in_range. simpl. tauto.
    + constructor; [lia|lia|constructor].
    + intros l Hl. constructor; [lia|lia|]. eapply ranges_ordered_weaken; [|done]. lia.
  - split; [|split].
    + intros t. rewrite in_ranges_nil. lia.
    + constructor.
    + intros l Hl. eapply ranges_ordered_weaken; [|done]. lia.
Qed.

Lemma uncovered_loop_spec active : forall lo end_ cursor,
  starts_from lo active -> cursor < end_ ->
  ranges_ordered cursor (uncovered_loop end_ cursor active) /\
  (forall t, in_ranges t (uncovered_loop end_ cursor active) <->
             cursor <= t < end_ /\ ~ covered active t).
Proof.
  induction active as [|run rest IH]; intros lo end_ cursor Hstarts Hlt; simpl.
  { rewrite (proj2 (Z.ltb_lt _ _) Hlt). split; [repeat constructor; lia|].
    intros t. rewrite in_ranges_cons, in_ranges_nil, covered_nil. unfold in_range. simpl. tauto. }
  simpl in Hstarts.
  destruct (Run.StartTimestamp run) as [s|] eqn:Hs; destruct (Run.EndTimestamp run) as [e|] eqn:He.
  2-4: destruct (IH _ end_ cursor ltac:(first [apply Hstarts|exact Hstarts]) Hlt) as [Ho Hin];
       split; [done|]; intros t; rewrite Hin, covered_cons; unfold run_covers; naive_solver.
  destruct Hstarts as [Hlo Hstarts].
  destruct (e <=? cursor) eqn:Hec; to_prop.
  { destruct (IH _ end_ cursor Hstarts Hlt) as [Ho Hin]. split; [done|].
    intros t. rewrite Hin, covered_cons, (run_covers_Some _ _ _ _ Hs He).
    split; [|tauto]. intros [Ht Hn]. split; [done|]. intros [?|?]; [lia|done]. }
  pose proof (starts_from_covered s rest) as Hafter.
  destruct (gap_before_spec end_ cursor s Hlt) as (Hgin&Hgo&Hgapp).
  destruct (end_ <=? e) eqn:Hee; to_prop.
  - split; [done|]. intros t. rewrite Hgin, covered_cons, (run_covers_Some _ _ _ _ Hs He).
    split; [|intros [? ?]; lia].
    intros Ht. split; [lia|]. intros [?|Hc]; [lia|]. apply Hafter in Hc; [lia|done].
  - destruct (IH _ end_ e Hstarts ltac:(lia)) as [Ho Hin]. split.
    + apply Hgapp. eapply ranges_ordered_weaken; [|done]. lia.
    + intros t. rewrite in_ranges_app, Hgin, Hin, covered_cons, (run_covers_Some _ _ _ _ Hs He).
      split.
      * intros [Ht|[Ht Hn]]; (split; [lia|]); (intros [?|Hc]; [lia|]); [|done].
        apply Hafter in Hc; [lia|done].
      * intros [Ht Hn]. destruct (decide (t < Z.min s end_)); [left; lia|right].
        split; [|tauto]. destruct (decide (t < e)); [|lia]. exfalso. apply Hn. left. lia.
Qed.

(** ORDER BY start_timestamp, end_timestamp, id *)
Definition by_start (r : CollectionRun) : sort_key :=
  [AInt (deref r.(Run.StartTimestamp)); AInt (deref r.(Run.EndTimestamp)); AInt r.(Run.ID)].

Definition well_ranged (run : CollectionRun) : Prop :=
  exists s e, run.(Run.StartTimestamp) = Some s /\ run.(Run.EndTimestamp) = Some e /\ s <= e.

Lemma key_le_head a b k1 k2 : key_le (AInt a :: k1) (AInt b :: k2) -> a <= b.
Proof. simpl. intros [[_ ?]|[[= ->] _]]; lia. Qed.

Lemma sorted_starts_from active lo :
  StronglySorted (by_key by_start) active ->
  (forall run, run ∈ active -> well_ranged run) ->
  (forall run, run ∈ active -> lo <= deref run.(Run.StartTimestamp)) ->
  starts_from lo active.
Proof.
  intros Hs. revert lo. induction Hs as [|run rest Hs IH Hall]; intros lo Hwr Hlo; simpl; [done|].
  destruct (Hwr run ltac:(set_solver)) as (s&e&Hs1&He1&Hle).
  specialize (Hlo run ltac:(set_solver)) as Hlo1. rewrite Hs1, He1. rewrite Hs1 in Hlo1. simpl in Hlo1.
  split; [lia|]. apply IH; [set_solver|].
  intros run' Hrun'. rewrite List.Forall_forall in Hall.
  apply list_elem_of_In, Hall in Hrun'. unfold by_key, by_start in Hrun'.
  apply key_le_head in Hrun'. by rewrite Hs1 in Hrun'.
Qed.

(** For runs in the order of the overlap query, whose ranges are not
    reversed, [uncoveredSiteWindowRanges] returns the exact complement of the
    active runs inside the requested range: the ranges it returns are not
    empty, increasing and disjoint, and an instant lies in one of them exactly
    when it is requested and no active run covers it. *)
Theorem uncovered_ranges_exact start end_ active :
  start < end_ ->
  StronglySorted (by_key by_start) active ->
  (forall run, run ∈ active -> well_ranged run) ->
  ranges_ordered start (uncoveredSiteWindowRanges start end_ active) /\
  (forall t, in_ranges t (uncoveredSiteWindowRanges start end_ active) <->
             start <= t < end_ /\ ~ covered active t).
Proof.
  intros Hlt Hs Hwr. unfold uncoveredSiteWindowRanges.
  rewrite (proj2 (Z.leb_gt end_ start)) by done.
  assert (exists lo, forall run, run ∈ active -> lo <= deref run.(Run.StartTimestamp)) as [lo Hlo].
  { clear. induction active as [|run rest [lo IH]]; [exists 0; set_solver|].
    exists (Z.min lo (deref run.(Run.StartTimestamp))).
    intros run' [->|H]%elem_of_cons; [lia|]. apply IH in H. lia. }
  apply (uncovered_loop_spec active lo); [|done]. by apply sorted_starts_from.
Qed.

(** A settled window occupies its hour. *)
Definition settled_at (settled : list CollectionWindow) (t : Z) : Prop :=
  exists w, w ∈ settled /\ w.(Window.HourTS) <= t < w.(Window.HourTS) + 3600.

Lemma settled_cons w l t : settled_at (w :: l) t <->
  w.(Window.HourTS) <= t < w.(Window.HourTS) + 3600 \/ settled_at l t.
Proof. unfold settled_at. set_solver. Qed.

Lemma collectable_loop_after settled : forall end_ cursor ranges t,
  collectable_loop end_ cursor settled = Ok ranges -> settled_at settled t -> cursor <= t.
Proof.
  induction settled as [|w rest IH]; simpl; intros end_ cursor ranges t Hok Hset.
  { destruct Hset as (?&?&?). set_solver. }
  destruct (_ || _) eqn:Hc; [done|]. to_prop.
  destruct (collectable_loop end_ (Window.HourTS w + 3600) rest) as [ranges'|] eqn:Hr; [|done].
  apply settled_cons in Hset as [?|Hset]; [lia|]. apply (IH _ _ _ _ Hr) in Hset. lia.
Qed.

Lemma collectable_loop_spec settled : forall end_ cursor ranges,
  collectable_loop end_ cursor settled = Ok ranges ->
  ranges_ordered cursor ranges /\
  (forall t, in_ranges t ranges <-> cursor <= t < end_ /\ ~ settled_at settled t).
Proof.
  induction settled as [|w rest IH]; simpl; intros end_ cursor ranges Hok.
  - injection Hok as <-. destruct (cursor <? end_) eqn:Hlt; to_prop.
    + split; [repeat constructor; lia|]. intros t. rewrite in_ranges_cons, in_ranges_nil.
      unfold in_range, settled_at. simpl. set_solver.
    + split; [constructor|]. intros t. rewrite in_ranges_nil. lia.
  - destruct (_ || _) eqn:Hc; [done|]. to_prop. destruct Hc as [[Hal Hcur] Hend].
    destruct (collectable_loop end_ (Window.HourTS w + 3600) rest) as [ranges'|] eqn:Hr; [|done].
    simpl in Hok. injection Hok as <-. pose proof (fun t => collectable_loop_after _ _ _ _ t Hr) as Hafter.
    destruct (IH _ _ _ Hr) as [Ho Hin].
    split.
    + destruct (cursor <? Window.HourTS w) eqn:Hlt; to_prop; simpl.
      * constructor; [lia|done|]. eapply ranges_ordered_weaken; [|done]. lia.
      * eapply ranges_ordered_weaken; [|done]. lia.
    + intros t. rewrite in_ranges_app, Hin, settled_cons.
      assert (Hg : in_ranges t (if cursor <? Window.HourTS w then [(cursor, Window.HourTS w)] else [])
                   <-> cursor <= t < Window.HourTS w).
      { destruct (cursor <? Window.HourTS w) eqn:Hlt; to_prop;
        rewrite ?in_ranges_cons, in_ranges_nil; unfold in_range; simpl; lia. }
      rewrite Hg. split.
      * intros [Ht|[Ht Hn]]; (split; [lia|]); (intros [?|Hs]; [lia|]); [|done].
        specialize (Hafter _ Hs). lia.
      * intros [Ht Hn]. destruct (decide (t < Window.HourTS w)); [left; lia|right].
        split; [|tauto]. destruct (decide (t < Window.HourTS w + 3600)); [|lia]. exfalso. apply Hn. left. lia.
Qed.

(** *** Active keys *)
Lemma target_values t target : CollectionTaskTarget t = Some target ->
  lacks ":" t = true /\ lacks ":" target = true.
Proof.
  intros H. pose proof (target_In _ _ H) as Hin.
  destruct (task_type_targets t Hin) as (target'&family&H'&_&_&Ht&_).
  rewrite H in H'. injection H' as <-. split.
  - clear -Hin. unfold all_task_types in Hin. simpl in Hin.
    repeat (destruct Hin as [<-|Hin]; [reflexivity|]). done.
  - clear -Ht. simpl in Ht. repeat (destruct Ht as [<-|Ht]; [reflexivity|]). done.
Qed.

Lemma activeKey_ok taskType targetType targetID start end_ k :
  CollectionRunActiveKey taskType targetType targetID start end_ = Ok k ->
  CollectionTaskTarget taskType = Some targetType /\ 0 < targetID /\
  exists sv ev,
    k = taskType +:+ ":" +:+ targetType +:+ ":" +:+ FormatInt targetID +:+ ":" +:+ sv +:+ ":" +:+ ev /\
    ((start = None /\ end_ = None /\ sv = "" /\ ev = "") \/
     exists s e, start = Some s /\ end_ = Some e /\ 0 < s /\ 0 < e /\ sv = FormatInt s /\ ev = FormatInt e).
Proof.
  unfold CollectionRunActiveKey. destruct (_ || _) eqn:Hc; [done|]. to_prop.
  destruct Hc as [[Ht Hid] Hnil]. intros Hk. split; [done|]. split; [done|].
  destruct start as [s|], end_ as [e|]; simpl in Hnil; try discriminate.
  - destruct (_ || _) eqn:Hpos; [done|]. to_prop. injection Hk as <-.
    eexists _, _. split; [reflexivity|]. right. exists s, e. intuition.
  - injection Hk as <-. exists "", "". split; [reflexivity|]. left. done.
Qed.

(** The active key determines the task type, the target and the range of a
    run, so two runs share a key only when they are the same logical task. *)
Theorem CollectionRunActiveKey_injective t1 g1 id1 s1 e1 t2 g2 id2 s2 e2 k :
  CollectionRunActiveKey t1 g1 id1 s1 e1 = Ok k ->
  CollectionRunActiveKey t2 g2 id2 s2 e2 = Ok k ->
  t1 = t2 /\ g1 = g2 /\ id1 = id2 /\ s1 = s2 /\ e1 = e2.
Proof.
  intros (Ht1&Hp1&sv1&ev1&->&Hr1)%activeKey_ok (Ht2&Hp2&sv2&ev2&Hk&Hr2)%activeKey_ok.
  destruct (target_values _ _ Ht1), (target_values _ _ Ht2).
  apply separator_inj in Hk as [-> Hk]; [|done..].
  apply separator_inj in Hk as [-> Hk]; [|done..].
  apply separator_inj in Hk as [Hid Hk]; [|apply lacks_FormatInt..].
  assert (lacks ":" sv1 = true /\ lacks ":" sv2 = true) as [Hl1 Hl2].
  { split; [destruct Hr1 as [(?&?&->&?)|(?&?&?&?&?&?&->&?)]
           |destruct Hr2 as [(?&?&->&?)|(?&?&?&?&?&?&->&?)]]; auto using lacks_FormatInt. }
  apply separator_inj in Hk as [-> ->]; [|done..].
  apply FormatInt_inj in Hid as ->. repeat split; auto.
  - destruct Hr1 as [(->&->&?&?)|(?&?&->&->&?&?&Ha&?)], Hr2 as [(->&->&?&?)|(?&?&->&->&?&?&Hb&?)];
      subst; auto; try (by exfalso; eapply FormatInt_not_empty; eauto).
    f_equal. apply FormatInt_inj. congruence.
  - destruct Hr1 as [(->&->&?&?)|(?&?&->&->&?&?&Ha&?)], Hr2 as [(->&->&?&?)|(?&?&->&->&?&?&Hb&?)];
      subst; auto; try (by exfalso; eapply FormatInt_not_empty; eauto).
    f_equal. apply FormatInt_inj. congruence.
Qed.

(** *** Scopes *)
Lemma canonical_scope_cases taskType scope c :
  CanonicalCollectionRunScope taskType scope = Ok c ->
  ValidCollectionTaskType taskType = true /\
  ((taskType = TaskTypeUsageBackfill /\ exists b, c = NewUsageBackfillRunScope b) \/
   (taskType <> TaskTypeUsageBackfill /\ c = "{}")).
Proof.
  unfold CanonicalCollectionRunScope. destruct (_ || _) eqn:Hc; [done|].
  apply orb_false_iff in Hc as [Hc _]. apply negb_false_iff in Hc.
  destruct (_ && _); [done|]. destruct (taskType == TaskTypeUsageBackfill) eqn:Ht; intros H; (split; [done|]).
  - left. to_prop. split; [done|]. destruct (TrimSpace _); [injection H as <-; eauto|].
    destruct (decode_usage_backfill_scope _) as [[b|]|]; [|done|done]. injection H as <-. eauto.
  - right. to_prop. split; [done|]. destruct (TrimSpace _); [by injection H|].
    destruct (decode_empty_scope _); [by injection H|done].
Qed.

Lemma canonical_scope_fixed taskType scope c :
  CanonicalCollectionRunScope taskType scope = Ok c -> CanonicalCollectionRunScope taskType c = Ok c.
Proof.
  intros H. destruct (canonical_scope_cases _ _ _ H) as [Hv [[-> [b ->]]|[Hne ->]]].
  - by destruct b.
  - unfold CanonicalCollectionRunScope. rewrite Hv.
    change (negb true || (4096 <? len "{}")) with false. cbv iota zeta.
    change (TrimSpace (bytes "{}")) with (bytes "{}").
    change ((0 <? Z.of_nat (List.length (bytes "{}"))) && negb (braced (bytes "{}"))) with false.
    cbv iota. rewrite bool_decide_eq_false_2 by done. reflexivity.
Qed.

(** Canonical scopes are fixed points: canonicalising a scope a second time
    returns it unchanged, and the [only_missing] flag read back from a
    canonical backfill scope is the flag it was built with. *)
Theorem canonical_scope_stable :
  (forall taskType scope c, CanonicalCollectionRunScope taskType scope = Ok c ->
     CanonicalCollectionRunScope taskType c = Ok c) /\
  (forall b, UsageBackfillOnlyMissing (NewUsageBackfillRunScope b) = Ok b).
Proof.
  split; [exact canonical_scope_fixed|by intros []].
Qed.

(** *** Building runs *)

Lemma new_run_valid site spec run :
  NewSiteCollectionRun site spec = Ok run ->
  ValidateCollectionRunForCreate run = true /\ run.(Run.Status) = "pending" /\
  run.(Run.TargetType) = "site" /\ run.(Run.TargetID) = site.(MSite.ID) /\
  run.(Run.SiteConfigVersion) = site.(MSite.ConfigVersion) /\
  (run.(Run.WindowsInitializedAt) = None <-> CollectionTaskWindowed run.(Run.TaskType) = true).
Proof.
  unfold NewSiteCollectionRun. past_guard Hc. past_guard Hrange. apply negb_false_iff in Hrange.
  destruct (CanonicalCollectionRunScope _ _) as [scope|] eqn:Hscope; [|done].
  destruct (CollectionRunActiveKey _ _ _ _ _) as [k|] eqn:Hk; [|done].
  cbn [mbind result_bind]. intros H. injection H as <-.
  apply canonical_scope_fixed in Hscope.
  repeat (apply orb_false_iff in Hc as [Hc ?]).
  repeat match goal with H : negb _ = false |- _ => apply negb_false_iff in H end.
  to_prop. destruct (CollectionTaskWindowed (SiteRunSpec.TaskType spec)) eqn:Hw.
  - destruct (SiteRunSpec.StartTimestamp spec) as [s|] eqn:Hs; [|done].
    destruct (SiteRunSpec.EndTimestamp spec) as [e|] eqn:He; [|done].
    split; [|by repeat split; cbn; rewrite ?Hw]. unfold ValidateCollectionRunForCreate. cbn.
    rewrite Hw, Hk, Hscope. to_prop. intuition; try lia; try done.
    rewrite bool_decide_eq_true_2 by done. to_prop. split; [done|lia].
  - apply andb_true_iff in Hrange as [Hs He].
    destruct (SiteRunSpec.StartTimestamp spec) as [s|] eqn:Hs'; [done|].
    destruct (SiteRunSpec.EndTimestamp spec) as [e|] eqn:He'; [done|].
    split; [|by repeat split; cbn; rewrite ?Hw]. unfold ValidateCollectionRunForCreate. cbn.
    rewrite Hw, Hk, Hscope. to_prop. intuition; try lia; try done.
    rewrite bool_decide_eq_true_2 by done. to_prop. split; [done|lia].
Qed.

Lemma new_run_task site spec run :
  NewSiteCollectionRun site spec = Ok run -> run.(Run.TaskType) = spec.(SiteRunSpec.TaskType).
Proof.
  unfold NewSiteCollectionRun. past_guard Hc. past_guard Hrange.
  destruct (CanonicalCollectionRunScope _ _) as [scope|]; [|done].
  destruct (CollectionRunActiveKey _ _ _ _ _) as [k|]; [|done].
  cbn [mbind result_bind]. intros H. injection H as <-. by destruct (CollectionTaskWindowed _).
Qed.

(** Every run [NewSiteCollectionRun] builds passes the validation of
    [CreateOrGetRun], is pending, carries the active key of its task, target
    and range, and is initialised exactly when its task has no windows. *)
Theorem NewSiteCollectionRun_valid site spec run :
  NewSiteCollectionRun site spec = Ok run ->
  ValidateCollectionRunForCreate run = true /\ run.(Run.Status) = "pending" /\
  run.(Run.TargetType) = "site" /\ run.(Run.TargetID) = site.(MSite.ID) /\
  run.(Run.SiteConfigVersion) = site.(MSite.ConfigVersion) /\
  (run.(Run.WindowsInitializedAt) = None <-> CollectionTaskWindowed run.(Run.TaskType) = true).
Proof. apply new_run_valid. Qed.

(** *** Runnable snapshots *)
Lemma capability_statuses_spec capabilities : forall statuses statuses',
  capability_statuses capabilities statuses = Some statuses' <->
  (NoDup (MCapability.CapabilityKey <$> capabilities) /\
   (forall c, c ∈ capabilities -> statuses !! c.(MCapability.CapabilityKey) = None) /\
   statuses' = foldl (fun m c => <[c.(MCapability.CapabilityKey) := c.(MCapability.Status)]> m)
                 statuses capabilities).
Proof.
  induction capabilities as [|c rest IH]; intros statuses statuses'; cbn [capability_statuses].
  { simpl. split; [intros [= <-]|intros (_&_&->)]; [|done]. repeat split; [constructor|set_solver]. }
  rewrite fmap_cons, NoDup_cons. simpl foldl.
  destruct (statuses !! MCapability.CapabilityKey c) eqn:Hc.
  { split; [done|]. intros (_&Hnone&_). rewrite Hnone in Hc by set_solver. done. }
  rewrite IH. split.
  - intros (Hnd&Hnone&->). split; [|split; [|done]].
    + split; [|done]. intros (c'&Heq&Hc')%list_elem_of_fmap.
      apply Hnone in Hc'. by rewrite <- Heq, lookup_insert_eq in Hc'.
    + intros c' [->|Hc']%elem_of_cons; [done|].
      apply Hnone, lookup_insert_None in Hc'. tauto.
  - intros ((Hnin&Hnd)&Hnone&->). split; [done|]. split; [|done].
    intros c' Hc'. rewrite lookup_insert_ne; [apply Hnone; set_solver|].
    intros Heq. apply Hnin. rewrite Heq. by apply list_elem_of_fmap_2.
Qed.

Lemma fold_statuses_lookup capabilities : forall (m : gmap string string) key,
  NoDup (MCapability.CapabilityKey <$> capabilities) ->
  forall status,
  foldl (fun m c => <[c.(MCapability.CapabilityKey) := c.(MCapability.Status)]> m) m capabilities !! key
    = Some status <->
  (exists c, c ∈ capabilities /\ c.(MCapability.CapabilityKey) = key /\ c.(MCapability.Status) = status)
  \/ (key ∉ (MCapability.CapabilityKey <$> capabilities) /\ m !! key = Some status).
Proof.
  induction capabilities as [|c rest IH]; intros m key Hnd status; simpl foldl.
  { split; [|intros [(?&?&_)|[_ ?]]; [set_solver|done]]. intros H. right. split; [set_solver|done]. }
  rewrite fmap_cons, NoDup_cons in Hnd. destruct Hnd as [Hnin Hnd]. rewrite IH by done. split.
  - intros [(c'&?&?&?)|[Hk Hm]]; [left; exists c'; set_solver|].
    apply lookup_insert_Some in Hm as [[<- <-]|[Hne Hm]]; [left; exists c; set_solver|].
    right. rewrite fmap_cons. set_solver.
  - intros [(c'&[->|Hc']%elem_of_cons&Hk&Hs)|[Hk Hm]].
    + right. subst. by rewrite lookup_insert_eq.
    + left. eauto.
    + right. rewrite fmap_cons, not_elem_of_cons in Hk. destruct Hk as [Hne Hk].
      split; [done|]. by rewrite lookup_insert_ne.
Qed.

Definition capability_accepted (capabilities : list SiteCapability) (key : string) : Prop :=
  exists c, c ∈ capabilities /\ c.(MCapability.CapabilityKey) = key /\
    (c.(MCapability.Status) = CapabilityStatusPassed \/
     (c.(MCapability.Status) = CapabilityStatusSkipped /\ key = CapabilityFlowDataConsistency)).

Lemma capability_refused_spec capabilities key :
  NoDup (MCapability.CapabilityKey <$> capabilities) ->
  capability_refused (foldl (fun m c => <[c.(MCapability.CapabilityKey) := c.(MCapability.Status)]> m)
    ∅ capabilities) key = false <-> capability_accepted capabilities key.
Proof.
  intros Hnd. unfold capability_refused.
  pose proof (fold_statuses_lookup capabilities ∅ key Hnd) as Hl.
  destruct (foldl _ _ _ !! key) as [status|] eqn:Hs.
  - destruct (proj1 (Hl status) eq_refl) as [(c&Hc&Hk&Hst)|[_ ?]]; [|done].
    to_prop. split.
    + intros [[Hf Hsk] Hp]. exists c. split; [done|]. split; [done|]. rewrite Hst.
      destruct (decide (status = CapabilityStatusPassed)); [by left|].
      destruct (decide (status = CapabilityStatusSkipped)); [|tauto]. right. split; [done|].
      by destruct Hsk.
    + intros (c'&Hc'&Hk'&Hcase).
      assert (Some status = Some c'.(MCapability.Status)) as [= ->] by (apply Hl; left; eauto).
      destruct Hcase as [-> | [-> ->]]; vm_compute; intuition congruence.
  - split; [done|]. intros (c&Hc&Hk&_). exfalso.
    assert (None = Some c.(MCapability.Status)) as [=]. apply Hl. left. eauto.
Qed.

Definition excluded_for (taskType : string) : list string :=
  if taskType == TaskTypeUsageBackfill then [CapabilityRealtimeContract] else [].

Lemma existsb_false {A} (f : A -> bool) l x : existsb f l = false -> x ∈ l -> f x = false.
Proof.
  intros Hf Hx. destruct (f x) eqn:Hfx; [|done]. rewrite <- Hf. symmetry.
  apply existsb_exists. exists x. by rewrite <- list_elem_of_In.
Qed.

(** When every capability outside the excluded ones is present, the count of
    known capabilities is the one expected. *)
Lemma known_count (statuses : gmap string string) excluded :
  (forall key, key ∈ SiteCapabilityKeys -> negb (is_one_of key excluded) = true ->
     (match statuses !! key with Some _ => true | None => false end) = true) ->
  excluded = [CapabilityRealtimeContract] \/ excluded = [] ->
  (Z.of_nat (List.length (List.filter (fun key => negb (is_one_of key excluded)
     && (match statuses !! key with Some _ => true | None => false end)) SiteCapabilityKeys))
   != Z.of_nat (List.length SiteCapabilityKeys) - Z.of_nat (List.length excluded)) = false.
Proof.
  intros Hall Hex.
  rewrite (filter_ext_in _ (fun key => negb (is_one_of key excluded))).
  - destruct Hex as [-> | ->]; reflexivity.
  - intros key Hk. destruct (negb (is_one_of key excluded)) eqn:Hb; [|done].
    apply Hall; [|done]. by apply list_elem_of_In.
Qed.

(** A site snapshot is runnable for a task exactly when the site is at the
    expected configuration version, active, authorised, not ended and exports
    data, no capability is reported twice, and every capability except the one
    a usage backfill does not need is present and passed, the flow/data
    consistency check alone being allowed to be skipped. *)
Theorem runnable_snapshot_spec site capabilities version taskType :
  ValidateRunnableSiteSnapshotForTask (RunnableSiteSnapshot.mk site capabilities) version taskType
    = Ok tt <->
  (0 < site.(MSite.ID) /\ 0 < version /\ site.(MSite.ConfigVersion) = version /\
   site.(MSite.ManagementStatus) = SiteManagementActive /\
   site.(MSite.AuthStatus) = SiteAuthAuthorized /\ site.(MSite.StatisticsEndAt) = None /\
   site.(MSite.DataExportEnabled) = true /\
   NoDup (MCapability.CapabilityKey <$> capabilities) /\
   forall key, key ∈ SiteCapabilityKeys -> key ∉ excluded_for taskType ->
               capability_accepted capabilities key).
Proof.
  unfold ValidateRunnableSiteSnapshotForTask, validateRunnableSiteSnapshot.
  fold (excluded_for taskType). cbn [RunnableSiteSnapshot.site RunnableSiteSnapshot.Capabilities].
  split.
  - past_guard H1. past_guard H2. past_guard H3. past_guard H4. past_guard H5.
    destruct (capability_statuses capabilities ∅) as [statuses|] eqn:Hst; [|done].
    past_guard H6. past_guard H7. intros _.
    apply capability_statuses_spec in Hst as (Hnd&_&->). to_prop.
    unfold not_nil in H4. destruct (MSite.StatisticsEndAt site); [done|].
    repeat match goal with |- _ /\ _ => split end; try lia; try done; try tauto.
    intros key Hk Hex. apply capability_refused_spec; [done|].
    apply existsb_false with (x := key) in H7; [|done].
    apply andb_false_iff in H7 as [H7|H7]; [|done]. apply negb_false_iff, is_one_of_In in H7.
    by apply list_elem_of_In in H7.
  - intros (Hid&Hv&Hver&Hman&Hauth&Hend&Hexp&Hnd&Hall).
    rewrite Hver, Hman, Hauth, Hend, Hexp.
    rewrite (proj2 (Z.leb_gt (MSite.ID site) 0)), (proj2 (Z.leb_gt version 0)) by done.
    rewrite !bool_decide_eq_true_2 by done. cbn [negb orb not_nil is_nil].
    rewrite (proj2 (capability_statuses_spec capabilities ∅ _)) by (repeat split; done).
    assert (Href : forall key, key ∈ SiteCapabilityKeys ->
      negb (is_one_of key (excluded_for taskType)) = true ->
      capability_refused (foldl (fun m c => <[c.(MCapability.CapabilityKey) := c.(MCapability.Status)]> m)
         ∅ capabilities) key = false).
    { intros key Hk Hex. apply capability_refused_spec; [done|]. apply Hall; [done|].
      intros Hin. apply list_elem_of_In, is_one_of_In in Hin. by rewrite Hin in Hex. }
    set (statuses := foldl _ _ _) in *.
    rewrite (known_count statuses (excluded_for taskType)).
    + destruct (existsb _ SiteCapabilityKeys) eqn:Hex; [|done]. exfalso.
      apply existsb_exists in Hex as (key&Hk&Hb). apply andb_true_iff in Hb as [Hb1 Hb2].
      rewrite Href in Hb2; [done|by apply list_elem_of_In|done].
    + intros key Hk Hex. specialize (Href key Hk Hex). unfold capability_refused in Href.
      by destruct (statuses !! key).
    + unfold excluded_for. case_match; auto.
Qed.

(** *** The hours a run materialises *)
Lemma hours_from_elem fuel : forall hour end_ h,
  (end_ - hour) / 3600 < Z.of_nat fuel ->
  h ∈ hours_from fuel hour end_ <-> exists k, 0 <= k /\ h = hour + 3600 * k /\ h < end_.
Proof.
  induction fuel as [|fuel IH]; intros hour end_ h Hf; simpl hours_from.
  - split; [set_solver|]. intros (k&?&->&?). exfalso.
    assert (0 <= (end_ - hour) / 3600) by (apply Z.div_pos; lia). lia.
  - destruct (hour <? end_) eqn:Hlt; to_prop.
    + rewrite elem_of_cons, IH.
      * split.
        -- intros [->|(k&?&->&?)]; [exists 0; lia|exists (k + 1); lia].
        -- intros (k&?&->&?). destruct (decide (k = 0)) as [->|]; [left; lia|].
           right. exists (k - 1). lia.
      * replace (end_ - (hour + 3600)) with (end_ - hour + (-1) * 3600) by lia.
        rewrite Z.div_add by lia. lia.
    + split; [set_solver|]. intros (k&?&->&?). lia.
Qed.

Lemma elem_of_hours_between start end_ h :
  h ∈ hours_between start end_ <-> exists k, 0 <= k /\ h = start + 3600 * k /\ h < end_.
Proof.
  unfold hours_between. destruct (decide (start <= end_)).
  - apply hours_from_elem. assert (0 <= (end_ - start) / 3600) by (apply Z.div_pos; lia). lia.
  - assert ((end_ - start) / 3600 < 0) by (apply Z.div_lt_upper_bound; lia).
    replace (Z.to_nat _) with O by lia. split; [set_solver|]. intros (k&?&->&?). lia.
Qed.

Lemma hours_from_sorted fuel : forall hour end_,
  StronglySorted Z.lt (hours_from fuel hour end_) /\ forall h, h ∈ hours_from fuel hour end_ -> hour <= h.
Proof.
  induction fuel as [|fuel IH]; intros hour end_; simpl; [split; [constructor|set_solver]|].
  destruct (hour <? end_); [|split; [constructor|set_solver]].
  destruct (IH (hour + 3600) end_) as [Hs Hle]. split.
  - constructor; [done|]. apply List.Forall_forall. intros h Hh%list_elem_of_In%Hle. lia.
  - intros h [->|Hh%Hle]%elem_of_cons; lia.
Qed.

Lemma excluded_hours_spec facts : forall start end_ previous excluded h,
  excluded_hours start end_ previous facts = Ok excluded ->
  h ∈ excluded <-> exists w, w ∈ facts /\ w.(Window.HourTS) = h /\
    In w.(Window.Status) ["complete"; "unavailable"].
Proof.
  induction facts as [|w rest IH]; intros start end_ previous excluded h; cbn [excluded_hours].
  { intros [= <-]. set_solver. }
  past_guard Hg. destruct (is_one_of _ ["complete"; "unavailable"]) eqn:Hst.
  - apply is_one_of_In in Hst.
    destruct (excluded_hours _ _ _ rest) as [ex|] eqn:Hr; [|done]. intros [= <-].
    rewrite elem_of_cons, (IH _ _ _ _ h Hr). set_solver.
  - destruct (is_one_of _ ["pending"; "missing"]) eqn:Hst'; [|done]. intros Hr.
    rewrite (IH _ _ _ _ h Hr). split; [set_solver|].
    intros (w'&[->|Hw']%elem_of_cons&Hh&Hin); [|eauto].
    apply is_one_of_In in Hin. by rewrite Hin in Hst.
Qed.

(** Whether a run collects only hours that are not settled yet. *)
Definition run_only_missing (run : CollectionRun) : result bool :=
  if run.(Run.TaskType) == TaskTypeUsageBackfill then UsageBackfillOnlyMissing run.(Run.Scope)
  else Ok false.

(** The hour has a complete or unavailable window in the database. *)
Definition hour_settled (d : Db) (site hour : Z) : Prop :=
  exists k w, Tables.collection_window d !! k = Some w /\ w.(Window.SiteID) = site /\
    w.(Window.HourTS) = hour /\ In w.(Window.Status) ["complete"; "unavailable"].

Lemma expected_hours_run d run hours d' :
  expectedSiteRunWindowHours run d = Ok (hours, d') ->
  d' = d /\ exists site start end_ only excluded,
    run.(Run.SiteID) = Some site /\ run.(Run.StartTimestamp) = Some start /\
    run.(Run.EndTimestamp) = Some end_ /\ run_only_missing run = Ok only /\
    hours = List.filter (fun hour => negb (existsb (Z.eqb hour) excluded)) (hours_between start end_) /\
    (forall h, start <= h < end_ -> h ∈ excluded <-> (only = true /\ hour_settled d site h)).
Proof.
  unfold expectedSiteRunWindowHours.
  destruct (Run.SiteID run) as [site|], (Run.StartTimestamp run) as [start|],
    (Run.EndTimestamp run) as [end_|]; try done.
  intros (only&d1&Honly&H)%st_bind_ok.
  assert (run_only_missing run = Ok only /\ d1 = d) as [Hrun ->].
  { unfold run_only_missing. destruct (_ == _); inv_ok; done. }
  apply st_bind_ok in H as (excluded&d2&Hex&H). apply st_ret_ok in H as [= -> ->].
  destruct only.
  - apply st_bind_ok in Hex as (facts&d3&Hf&Hex). apply db_select_ok in Hf as [-> ->].
    apply st_lift_ok in Hex as (ex&Hex&[= -> ->]). split; [done|].
    exists site, start, end_, true, ex.
    repeat match goal with |- _ /\ _ => split; [done|] end. intros h Hr. split.
    + intros Hh%(excluded_hours_spec _ _ _ _ _ _ Hex). split; [done|].
      destruct Hh as (w&Hw&Hhour&Hin). apply elem_of_select in Hw as (Hp&k&Hk).
      exists k, w. to_prop. intuition lia.
    + intros (_&k&w&Hk&Hsite&Hhour&Hin). apply (excluded_hours_spec _ _ _ _ _ _ Hex).
      exists w. split; [|done]. apply elem_of_select. split; [|by exists k]. to_prop. lia.
  - apply st_ret_ok in Hex as [= -> ->]. split; [done|].
    exists site, start, end_, false, [].
    repeat match goal with |- _ /\ _ => split; [done|] end. intros h _.
    split; [set_solver|by intros [[=] _]].
Qed.

(** The hours a run expects are strictly increasing and are exactly the
    hours of its range, one every 3600 seconds from its start, less the hours
    already settled when the run collects only missing hours; computing them
    changes nothing. *)
Theorem expected_hours_exact d run hours d' :
  expectedSiteRunWindowHours run d = Ok (hours, d') ->
  d' = d /\ StronglySorted Z.lt hours /\
  exists site start end_ only,
    run.(Run.SiteID) = Some site /\ run.(Run.StartTimestamp) = Some start /\
    run.(Run.EndTimestamp) = Some end_ /\ run_only_missing run = Ok only /\
    forall h, h ∈ hours <-> (exists k, 0 <= k /\ h = start + 3600 * k /\ h < end_) /\
                           ~ (only = true /\ hour_settled d site h).
Proof.
  intros (->&site&start&end_&only&excluded&Hs&Hst&He&Honly&->&Hex)%expected_hours_run.
  split; [done|]. split; [apply StronglySorted_filter, hours_from_sorted|].
  exists site, start, end_, only. repeat match goal with |- _ /\ _ => split; [done|] end.
  intros h. rewrite list_elem_of_In, filter_In, <- list_elem_of_In, elem_of_hours_between.
  assert (Hiff : negb (existsb (Z.eqb h) excluded) = true <-> h ∉ excluded).
  { rewrite negb_true_iff, <- not_true_iff_false, existsb_exists. split; intros Hn.
    - intros Hin. apply Hn. exists h. rewrite <- list_elem_of_In, Z.eqb_eq. done.
    - intros (x&Hx%list_elem_of_In&->%Z.eqb_eq). done. }
  rewrite Hiff. split; intros [(k&Hk&->&Hlt) Hn]; (split; [by exists k|]).
  - intros Hc. apply Hn, Hex; [lia|done].
  - intros Hc. apply Hn. apply Hex in Hc; [done|lia].
Qed.

(** ** Witnesses *)
Lemma uncovered_ranges_exact_witness :
  uncoveredSiteWindowRanges 3600 36000 [Sample.run 1 7200 10800 "pending"; Sample.run 2 14400 18000 "running"]
    = [(3600, 7200); (10800, 14400); (18000, 36000)] /\
  ranges_ordered 3600
    (uncoveredSiteWindowRanges 3600 36000 [Sample.run 1 7200 10800 "pending"; Sample.run 2 14400 18000 "running"]).
Proof.
  split; [reflexivity|]. apply uncovered_ranges_exact; [lia| |].
  - repeat constructor; unfold by_key; apply (bool_decide_unpack _); vm_compute; exact I.
  - intros run [-> |[-> |H]%elem_of_cons]%elem_of_cons; [| |by apply elem_of_nil in H];
      do 2 eexists; (split; [reflexivity|]); (split; [reflexivity|lia]).
Defined.

Lemma CollectionRunActiveKey_injective_witness :
  exists k, CollectionRunActiveKey "usage_hour" "site" 7 (Some 3600) (Some 7200) = Ok k /\ 7 = 7 /\
    Some 3600 = Some (1800 + 1800).
Proof.
  eexists. split; [vm_compute; reflexivity|].
  edestruct (CollectionRunActiveKey_injective "usage_hour" "site" 7 (Some 3600) (Some 7200)
    "usage_hour" "site" 7 (Some (1800 + 1800)) (Some 7200)) as (_&_&Hid&Hs&_);
    [vm_compute; reflexivity|vm_compute; reflexivity|]. split; assumption.
Defined.

Definition sample_spec : SiteRunSpec :=
  SiteRunSpec.mk "usage_backfill" "manual" (Some 3600) (Some 7200) "" 80 "req-1" 9000.

Lemma NewSiteCollectionRun_valid_witness :
  exists run, NewSiteCollectionRun Sample.site7 sample_spec = Ok run /\
    ValidateCollectionRunForCreate run = true.
Proof.
  eexists. split; [vm_compute; reflexivity|].
  refine (proj1 (NewSiteCollectionRun_valid Sample.site7 sample_spec _ _)). vm_compute. reflexivity.
Defined.

Definition sample_hours_db : Db := Sample.db [] [] [Sample.window 1 7200 "complete"].
Definition sample_backfill : CollectionRun :=
  (Sample.run 1 3600 14400 "pending") <| Run.TaskType := "usage_backfill" |> <| Run.Scope := "" |>.

Lemma expected_hours_exact_witness :
  expectedSiteRunWindowHours sample_backfill sample_hours_db = Ok ([3600; 10800], sample_hours_db) /\
  StronglySorted Z.lt [3600; 10800].
Proof.
  assert (H : expectedSiteRunWindowHours sample_backfill sample_hours_db
              = Ok ([3600; 10800], sample_hours_db)) by (vm_compute; reflexivity).
  split; [exact H|]. exact (proj1 (proj2 (expected_hours_exact _ _ _ _ H))).
Defined.

Lemma canonical_scope_stable_witness :
  CanonicalCollectionRunScope "usage_hour" " { } " = Ok "{}" /\
  CanonicalCollectionRunScope "usage_hour" "{}" = Ok "{}".
Proof.
  assert (H : CanonicalCollectionRunScope "usage_hour" " { } " = Ok "{}") by (vm_compute; reflexivity).
  split; [exact H|]. exact (proj1 canonical_scope_stable _ _ _ H).
Defined.
