(* ===== verification/RunState.v ===== *)
(** * The state of one run and its windows ([model/site_run_state.go])

    [RecalculateLockedCollectionRun] derives the status, the counters, the next
    attempt and the terminal columns of a run from its windows;
    [FailLockedCollectionRun] fails a run with everything still open in it;
    [CompleteSiteRunWindowMaterialization] opens a materialised run.  The file
    also holds the pre-image of the hash that names a set of windows. *)

From S2P Require Import Prelude Constants GoText Store RunContract.

Definition CollectionTaskStatusPending : string := "pending".
Definition CollectionTaskStatusRunning : string := "running".
Definition CollectionTaskStatusSuccess : string := "success".
Definition CollectionTaskStatusFailed : string := "failed".
Definition CollectionTaskStatusUnavailable : string := "unavailable".

Module RunFailure.
Record CollectionRunFailure := mk { Code : string; Params : string }.
End RunFailure.
Abbreviation CollectionRunFailure := RunFailure.CollectionRunFailure.

(** ** What the loop over the windows accumulates *)
Module Tally.
Record Tally := mk {
  completed : Z; failed : Z; unavailable : Z; pending : Z; running : Z;
  nextAttempt : option Z; childFailure : option CollectionRunFailure
}.
#[export] Instance Tally_eta : RecordEta Tally := fun t =>
  mk (completed t) (failed t) (unavailable t) (pending t) (running t) (nextAttempt t) (childFailure t).
End Tally.
Export (hints) Tally.
Abbreviation Tally := Tally.Tally.

Definition empty_tally : Tally := Tally.mk 0 0 0 0 0 None None.

(** The instant at which a pending window may be claimed again. *)
Definition window_candidate (now : Z) (window : CollectionRunWindow) : Z :=
  match window.(RunWindow.NextRetryAt) with
  | Some next => if now <? next then next else now
  | None => now
  end.

Definition earlier (next : option Z) (candidate : Z) : option Z :=
  match next with
  | None => Some candidate
  | Some current => if candidate <? current then Some candidate else Some current
  end.

(** One iteration of the switch on [window.Status]. *)
Definition tally_window (now : Z) (t : Tally) (window : CollectionRunWindow) : result Tally :=
  if window.(RunWindow.Status) == "success" then
    Ok (t <| Tally.completed := t.(Tally.completed) + 1 |>)
  else if window.(RunWindow.Status) == "failed" then
    let t := t <| Tally.failed := t.(Tally.failed) + 1 |> in
    Ok (if window.(RunWindow.ErrorCode) != "" then
          t <| Tally.childFailure :=
                 Some (RunFailure.mk window.(RunWindow.ErrorCode) window.(RunWindow.ErrorParams)) |>
        else t)
  else if window.(RunWindow.Status) == "unavailable" then
    Ok (t <| Tally.unavailable := t.(Tally.unavailable) + 1 |>)
  else if window.(RunWindow.Status) == "pending" then
    Ok (t <| Tally.pending := t.(Tally.pending) + 1 |>
          <| Tally.nextAttempt := earlier t.(Tally.nextAttempt) (window_candidate now window) |>)
  else if window.(RunWindow.Status) == "running" then
    Ok (t <| Tally.running := t.(Tally.running) + 1 |>)
  else Err ErrCollectionRunContract.

Fixpoint tally_windows (now : Z) (t : Tally) (windows : list CollectionRunWindow) : result Tally :=
  match windows with
  | [] => Ok t
  | window :: rest => t' ← tally_window now t window; tally_windows now t' rest
  end.

(** The switch that derives the status when no failure is forced: the status,
    whether it is terminal, and the failure recorded with it. *)
Definition derive_status (total : Z) (t : Tally)
  : result (string * bool * option CollectionRunFailure) :=
  let terminalCount := t.(Tally.completed) + t.(Tally.failed) + t.(Tally.unavailable) in
  if terminalCount =? total then
    if 0 <? t.(Tally.failed) then Ok ("failed", true, t.(Tally.childFailure))
    else Ok ("success", true, None)
  else if 0 <? t.(Tally.running) then Ok ("running", false, None)
  else if 0 <? t.(Tally.pending) then Ok ("pending", false, None)
  else Err ErrCollectionRunContract.

(** The columns the final UPDATE sets; the code makes the same assignments to
    the run it holds in memory. *)
Definition recalculated (status : string) (terminal : bool) (failure : option CollectionRunFailure)
    (t : Tally) (now : Z) (run : CollectionRun) : CollectionRun :=
  let run := run <| Run.Status := status |> <| Run.CompletedWindows := t.(Tally.completed) |>
                 <| Run.FailedWindows := t.(Tally.failed) |> <| Run.UpdatedAt := now |> in
  if terminal then
    let run := run <| Run.ActiveKey := None |> <| Run.FinishedAt := Some now |>
                   <| Run.HeartbeatAt := None |> in
    if status == "success" then
      run <| Run.ErrorCode := "" |> <| Run.ErrorParams := "" |> <| Run.ErrorMessage := None |>
    else match failure with
    | Some f => run <| Run.ErrorCode := f.(RunFailure.Code) |>
                    <| Run.ErrorParams := f.(RunFailure.Params) |> <| Run.ErrorMessage := None |>
    | None => run
    end
  else match t.(Tally.nextAttempt) with
  | Some next => run <| Run.NextAttemptAt := next |>
  | None => run
  end.

(** UPDATE collection_run ... WHERE id = ? *)
Definition run_has_id (id : Z) (r : CollectionRun) : bool := r.(Run.ID) =? id.

(** [RecalculateLockedCollectionRun]: returns the run as the caller's pointer
    holds it afterwards. *)
Definition RecalculateLockedCollectionRun (run : CollectionRun) (windows : list CollectionRunWindow)
    (now : Z) (forceFailure : option CollectionRunFailure) : Tx CollectionRun :=
  if (run.(Run.ID) <=? 0) || (now <=? 0) then st_fail ErrCollectionRunContract
  else if is_nil forceFailure
          && ((run.(Run.Status) == "failed") || (run.(Run.Status) == "success")) then mret run
  else
    t ← st_lift (tally_windows now empty_tally windows);
    _ ← st_require (negb (not_nil run.(Run.WindowsInitializedAt)
                      && negb (run.(Run.TotalWindows) =? Z.of_nat (List.length windows))))
                   ErrCollectionRunContract;
    '(status, terminal, failure) ← st_lift (
      match forceFailure with
      | Some f =>
          if f.(RunFailure.Code) == "" then Err ErrCollectionRunContract
          else Ok ("failed", true, Some f)
      | None =>
          if is_nil run.(Run.WindowsInitializedAt) then Err ErrCollectionRunContract
          else derive_status run.(Run.TotalWindows) t
      end);
    _ ← db_update (run_has_id run.(Run.ID)) (recalculated status terminal failure t now);
    mret (recalculated status terminal failure t now run
            <| Run.UnavailableWindows := t.(Tally.unavailable) |>).

(** ** Failing a run *)
Definition open_status (status : string) : bool := is_one_of status ["pending"; "running"].

Definition fail_window (failure : CollectionRunFailure) (now : Z) (w : CollectionRunWindow)
  : CollectionRunWindow :=
  w <| RunWindow.Status := "failed" |> <| RunWindow.ErrorCode := failure.(RunFailure.Code) |>
    <| RunWindow.ErrorParams := failure.(RunFailure.Params) |> <| RunWindow.ErrorMessage := None |>
    <| RunWindow.FinishedAt := Some now |> <| RunWindow.UpdatedAt := now |>.

(** The windows of one run. *)
Definition of_run (run_id : Z) (w : CollectionRunWindow) : bool := w.(RunWindow.RunID) =? run_id.

Definition FailLockedCollectionRun (run : CollectionRun) (windows : list CollectionRunWindow)
    (failure : CollectionRunFailure) (now : Z) : Tx CollectionRun :=
  if (run.(Run.ID) <=? 0) || (failure.(RunFailure.Code) == "") || (now <=? 0)
  then st_fail ErrCollectionRunContract
  else
    _ ← db_update (fun w => of_run run.(Run.ID) w && open_status w.(RunWindow.Status))
                  (fail_window failure now);
    let windows := (fun w => if open_status w.(RunWindow.Status) then fail_window failure now w else w)
                     <$> windows in
    RecalculateLockedCollectionRun run windows now (Some failure).

(** ** Locking a run with its windows *)
Module LockedSiteRun.
Record LockedSiteRun := mk {
  site : Site; run : CollectionRun; Windows : list CollectionRunWindow }.
End LockedSiteRun.
Abbreviation LockedSiteRun := LockedSiteRun.LockedSiteRun.

(** ORDER BY hour_ts ASC, id ASC *)
Definition by_hour_id (w : CollectionRunWindow) : sort_key :=
  [AInt w.(RunWindow.HourTS); AInt w.(RunWindow.ID)].

Definition site_is (siteID : Z) (r : CollectionRun) : bool := r.(Run.SiteID) == Some siteID.

Definition LockSiteRunForUpdate (siteID runID : Z) : Tx LockedSiteRun :=
  if (siteID <=? 0) || (runID <=? 0) then st_fail ErrCollectionRunContract
  else
    site ← FindByIDForUpdate siteID;
    run ← db_first_where (fun r => run_has_id runID r && site_is siteID r) by_id;
    windows ← db_select (of_run run.(Run.ID)) by_hour_id;
    mret (LockedSiteRun.mk site run windows).

Definition RecalculateSiteCollectionRun (siteID runID now : Z) : Tx CollectionRun :=
  locked ← LockSiteRunForUpdate siteID runID;
  RecalculateLockedCollectionRun locked.(LockedSiteRun.run) locked.(LockedSiteRun.Windows) now None.

(** ** The hash of a window set

    SHA-256 and its hexadecimal form are the parameter [sha256_hex]; the bytes
    hashed are built here. *)

(** [writeHashInt64]: eight bytes, big endian, of the two's complement. *)
Definition int64_bytes (value : Z) : list Z :=
  (fun i => (value / 2 ^ (8 * i)) mod 256) <$> [7; 6; 5; 4; 3; 2; 1; 0].

Definition text_bytes (s : string) : list Z := code <$> bytes s.

Definition site_run_window_set_tag : list Z := text_bytes "site-run-window-set:v1" ++ [0].

Definition site_run_window_set_preimage (run : CollectionRun) (hours : list Z) : list Z :=
  site_run_window_set_tag
  ++ int64_bytes (deref run.(Run.SiteID)) ++ int64_bytes run.(Run.ID)
  ++ int64_bytes run.(Run.SiteConfigVersion)
  ++ int64_bytes (deref run.(Run.StartTimestamp)) ++ int64_bytes (deref run.(Run.EndTimestamp))
  ++ int64_bytes (len run.(Run.TaskType)) ++ text_bytes run.(Run.TaskType)
  ++ int64_bytes (Z.of_nat (List.length hours)) ++ (hours ≫= int64_bytes).

Section WindowSetHash.
(** crypto/sha256 followed by encoding/hex. *)
Context (sha256_hex : list Z -> string).

Definition siteRunWindowSetHash (run : CollectionRun) (hours : list Z) : result string :=
  _ ← validateSiteRunWindowHours run hours;
  Ok (sha256_hex (site_run_window_set_preimage run hours)).

Record SiteRunWindowMaterializationExpectation := mkExpectation {
  Hours : list Z; SetHash : string }.

Definition NewSiteRunWindowMaterializationExpectation (run : CollectionRun) (hours : list Z)
  : result SiteRunWindowMaterializationExpectation :=
  _ ← validateSiteRunWindowHours run hours;
  hash ← siteRunWindowSetHash run hours;
  Ok (mkExpectation hours hash).

(** The loop that compares the stored windows with the expected hours. *)
Fixpoint windows_match (siteID : Z) (windows : list CollectionRunWindow) (hours : list Z) : bool :=
  match windows, hours with
  | [], [] => true
  | w :: windows', hour :: hours' =>
      (w.(RunWindow.SiteID) =? siteID) && (w.(RunWindow.Status) == "pending")
      && (w.(RunWindow.HourTS) =? hour) && windows_match siteID windows' hours'
  | _, _ => false
  end.

(** [CompleteSiteRunWindowMaterialization] *)
Definition CompleteSiteRunWindowMaterialization (siteID runID expectedConfigVersion : Z)
    (expectation : SiteRunWindowMaterializationExpectation) (now : Z) : Tx CollectionRun :=
  if (siteID <=? 0) || (runID <=? 0) || (expectedConfigVersion <=? 0) || (now <=? 0)
     || negb (len expectation.(SetHash) =? 64) then st_fail ErrCollectionRunContract
  else
    _ ← LockRunnableSiteSnapshot siteID expectedConfigVersion;
    run ← db_first_where (fun r => run_has_id runID r && site_is siteID r) by_id;
    _ ← st_require ((run.(Run.SiteConfigVersion) =? expectedConfigVersion)
                    && CollectionTaskWindowed run.(Run.TaskType)
                    && (run.(Run.Status) == "pending") && is_nil run.(Run.WindowsInitializedAt))
                   ErrCollectionRunContract;
    _ ← st_lift (validateSiteRunWindowHours run expectation.(Hours));
    expectedHash ← st_lift (siteRunWindowSetHash run expectation.(Hours));
    _ ← st_require (expectedHash == expectation.(SetHash)) ErrCollectionRunContract;
    windows ← db_select (of_run run.(Run.ID)) by_hour_id;
    _ ← st_require (windows_match siteID windows expectation.(Hours)) ErrCollectionRunContract;
    authoritativeHours ← expectedSiteRunWindowHours run;
    _ ← st_require (authoritativeHours == expectation.(Hours)) ErrCollectionRunContract;
    authoritativeHash ← st_lift (siteRunWindowSetHash run authoritativeHours);
    _ ← st_require (authoritativeHash == expectation.(SetHash)) ErrCollectionRunContract;
    let expectedWindowCount := Z.of_nat (List.length expectation.(Hours)) in
    let initialized r := r <| Run.TotalWindows := expectedWindowCount |>
          <| Run.WindowsInitializedAt := Some now |> <| Run.UpdatedAt := now |> in
    affectedRows ← db_update (fun r => run_has_id run.(Run.ID) r && site_is siteID r
                        && (r.(Run.Status) == "pending") && is_nil r.(Run.WindowsInitializedAt))
                     initialized;
    _ ← st_require (affectedRows =? 1) ErrCollectionRunContract;
    RecalculateLockedCollectionRun (initialized run) windows now None.
End WindowSetHash.

#[global] Arguments recalculated : simpl never.
#[global] Arguments fail_window : simpl never.
#[global] Arguments RecalculateLockedCollectionRun : simpl never.
#[global] Arguments FailLockedCollectionRun : simpl never.
