(* ===== verification/RunRepository.v ===== *)
(** * Creating runs ([model/site_fence.go], [model/site_run.go],
    [model/collection_task.go])

    [CreateOrGetRun] inserts a run or returns the active run with the same
    key; [CreateSiteWindowRun] covers a range of hours in one of three modes;
    [EnqueueSiteTask] is the entry point the scheduler and the API use. *)

From S2P Require Import Prelude Constants GoText Store RunContract RunState.

(** ** CreateOrGetRun *)
Definition has_active_key (k : string) (r : CollectionRun) : bool :=
  match r.(Run.ActiveKey) with Some k' => sql_text_eq k' k | None => false end.

Definition active_status (r : CollectionRun) : bool := open_status r.(Run.Status).

Definition sameActiveCollectionRun (existing requested : CollectionRun) : bool :=
  match existing.(Run.ActiveKey), requested.(Run.ActiveKey) with
  | Some k, Some k' =>
      (k == k') && active_status existing
      && (existing.(Run.TaskType) == requested.(Run.TaskType))
      && (existing.(Run.TargetType) == requested.(Run.TargetType))
      && (existing.(Run.TargetID) =? requested.(Run.TargetID))
      && (existing.(Run.SiteConfigVersion) =? requested.(Run.SiteConfigVersion))
      && equalInt64Pointers existing.(Run.SiteID) requested.(Run.SiteID)
      && equalInt64Pointers existing.(Run.StartTimestamp) requested.(Run.StartTimestamp)
      && equalInt64Pointers existing.(Run.EndTimestamp) requested.(Run.EndTimestamp)
      && bool_decide (CollectionRunActiveKey existing.(Run.TaskType) existing.(Run.TargetType)
           existing.(Run.TargetID) existing.(Run.StartTimestamp) existing.(Run.EndTimestamp) = Ok k)
  | _, _ => false
  end.

(** INSERT ... ON DUPLICATE KEY UPDATE id = id: [None] when the unique key
    [active_key] is taken, and nothing is inserted. *)
Definition insert_run_ignore (run : CollectionRun) : Tx (option CollectionRun) :=
  taken ← st_gets (fun d => match run.(Run.ActiveKey) with
                            | Some k => existsb (has_active_key k) (table_rows d)
                            | None => false
                            end);
  if (taken : bool) then mret None else created ← db_create run; mret (Some created).

Definition CreateOrGetRun (run : CollectionRun) : Tx (CollectionRun * bool) :=
  if negb (ValidateCollectionRunForCreate run) then st_fail ErrCollectionRunContract
  else
    inserted ← insert_run_ignore run;
    match inserted with
    | Some created => mret (created, false)
    | None =>
        match run.(Run.ActiveKey) with
        | None => st_fail ErrCollectionRunContract
        | Some k =>
            existing ← db_first_where (has_active_key k) by_id;
            _ ← st_require (sameActiveCollectionRun existing run) ErrCollectionRunContract;
            mret (existing, true)
        end
    end.

(** ** CreateSiteWindowRun *)
Inductive SiteWindowRunCreateMode := SiteWindowRunStrict | SiteWindowRunSchedule | SiteWindowRunGaps.
#[export] Instance mode_eq_dec : EqDecision SiteWindowRunCreateMode.
Proof. solve_decision. Defined.

Module WindowRequest.
(** [Mode = None] is a string that names no mode. *)
Record SiteWindowRunCreateRequest := mk {
  SiteID : Z; ExpectedConfigVersion : Z; TaskType : string; TriggerType : string;
  StartTimestamp : Z; EndTimestamp : Z; Scope : string; Priority : Z; RequestID : string;
  Now : Z; Mode : option SiteWindowRunCreateMode
}.
End WindowRequest.
Abbreviation SiteWindowRunCreateRequest := WindowRequest.SiteWindowRunCreateRequest.

(** [SiteWindowRunResult]: the run and whether it existed. *)
Abbreviation SiteWindowRunResult := (CollectionRun * bool)%type.

Definition createSiteWindowGap (site : Site) (request : SiteWindowRunCreateRequest) (start end_ : Z)
  : Tx SiteWindowRunResult :=
  run ← st_lift (NewSiteCollectionRun site
    (SiteRunSpec.mk request.(WindowRequest.TaskType) request.(WindowRequest.TriggerType)
       (Some start) (Some end_) request.(WindowRequest.Scope) request.(WindowRequest.Priority)
       request.(WindowRequest.RequestID) request.(WindowRequest.Now)));
  CreateOrGetRun run.

(** The WHERE clause of the overlap query. *)
Definition overlapping (siteID : Z) (familyTypes : list string) (start end_ : Z) (r : CollectionRun)
  : bool :=
  site_is siteID r && is_one_of r.(Run.TaskType) familyTypes && active_status r
  && match r.(Run.StartTimestamp), r.(Run.EndTimestamp) with
     | Some s, Some e => (s <? end_) && (start <? e)
     | _, _ => false
     end.

(** The validation loop over the overlapping runs. *)
Definition active_run_ok (configVersion : Z) (existing : CollectionRun) : bool :=
  (existing.(Run.SiteConfigVersion) =? configVersion)
  && match existing.(Run.ActiveKey) with
     | Some k =>
         not_nil existing.(Run.StartTimestamp) && not_nil existing.(Run.EndTimestamp)
         && bool_decide (CollectionRunActiveKey existing.(Run.TaskType) existing.(Run.TargetType)
              existing.(Run.TargetID) existing.(Run.StartTimestamp) existing.(Run.EndTimestamp) = Ok k)
     | None => false
     end
  && is_ok (CanonicalCollectionRunScope existing.(Run.TaskType) existing.(Run.Scope)).

Definition same_range (request : SiteWindowRunCreateRequest) (existing : CollectionRun) : bool :=
  (existing.(Run.TaskType) == request.(WindowRequest.TaskType))
  && bool_decide (existing.(Run.StartTimestamp) = Some request.(WindowRequest.StartTimestamp))
  && bool_decide (existing.(Run.EndTimestamp) = Some request.(WindowRequest.EndTimestamp)).

Definition window_request_valid (request : SiteWindowRunCreateRequest) : bool :=
  (0 <? request.(WindowRequest.SiteID)) && (0 <? request.(WindowRequest.ExpectedConfigVersion))
  && bool_decide (CollectionTaskTarget request.(WindowRequest.TaskType) = Some "site")
  && CollectionTaskWindowed request.(WindowRequest.TaskType)
  && (0 <? request.(WindowRequest.StartTimestamp))
  && (request.(WindowRequest.StartTimestamp) <=? request.(WindowRequest.EndTimestamp))
  && hour_aligned request.(WindowRequest.StartTimestamp)
  && hour_aligned request.(WindowRequest.EndTimestamp)
  && not_nil request.(WindowRequest.Mode)
  && negb (bool_decide (request.(WindowRequest.Mode) = Some SiteWindowRunSchedule)
           && (request.(WindowRequest.TriggerType) != CollectionTriggerSchedule))
  && negb (bool_decide (request.(WindowRequest.Mode) = Some SiteWindowRunGaps)
           && (request.(WindowRequest.TriggerType) != CollectionTriggerRecovery)).

(** Creates one run per range, in order. *)
Definition create_gaps (site : Site) (request : SiteWindowRunCreateRequest) (ranges : list (Z * Z))
    (acc : list SiteWindowRunResult) : Tx (list SiteWindowRunResult) :=
  st_fold (fun '(s, e) acc => r ← createSiteWindowGap site request s e; mret (acc ++ [r])) ranges acc.

Definition CreateSiteWindowRun (request : SiteWindowRunCreateRequest)
  : Tx (list SiteWindowRunResult) :=
  if negb (window_request_valid request) then st_fail ErrCollectionRunContract
  else
    let siteID := request.(WindowRequest.SiteID) in
    let start := request.(WindowRequest.StartTimestamp) in
    let end_ := request.(WindowRequest.EndTimestamp) in
    snapshot ← LockRunnableSiteSnapshot siteID request.(WindowRequest.ExpectedConfigVersion);
    let site := snapshot.(RunnableSiteSnapshot.site) in
    family ← st_lift (match CollectionTaskFamily request.(WindowRequest.TaskType) with
                      | Some family => Ok family
                      | None => Err ErrCollectionRunContract
                      end);
    let familyTypes := CollectionTaskTypesForFamily family in
    active ← (if start <? end_
              then db_select (overlapping siteID familyTypes start end_) by_start
              else mret []);
    _ ← st_require (forallb (active_run_ok site.(MSite.ConfigVersion)) active)
                   ErrCollectionRunContract;
    if bool_decide (request.(WindowRequest.Mode) = Some SiteWindowRunStrict) then
      match List.find (same_range request) active with
      | Some existing => mret [(existing, true)]
      | None =>
          _ ← st_require (active == []) ErrSiteWindowRunOverlap;
          r ← createSiteWindowGap site request start end_;
          mret [r]
      end
    else
      st_fold (fun '(s, e) acc =>
          candidates ← (if request.(WindowRequest.TaskType) == TaskTypeUsageBackfill
                        then collectableUsageBackfillRanges siteID s e
                        else mret [(s, e)]);
          create_gaps site request candidates acc)
        (uncoveredSiteWindowRanges start end_ active) [].

(** ** Enqueueing ([model/collection_task.go]) *)
Definition siteAllowsTask (site : Site) (taskType : string) : bool :=
  if site.(MSite.ConfigVersion) <=? 0 then false
  else if taskType == TaskTypeSiteProbe then
    (site.(MSite.ManagementStatus) == SiteManagementActive) && is_nil site.(MSite.StatisticsEndAt)
  else if (site.(MSite.ManagementStatus) != SiteManagementActive)
          || (site.(MSite.AuthStatus) != SiteAuthAuthorized) || not_nil site.(MSite.StatisticsEndAt)
  then false
  else if CollectionTaskWindowed taskType && negb site.(MSite.DataExportEnabled) then false
  else true.

Module EnqueueRequest.
(** [Mode = None] is the empty string, [Some None] a string that names no mode. *)
Record SiteTaskEnqueueRequest := mk {
  SiteID : Z; ExpectedConfigVersion : Z; TaskType : string; TriggerType : string;
  StartTimestamp : option Z; EndTimestamp : option Z; Scope : string; Priority : Z;
  RequestID : string; Now : Z; Mode : option (option SiteWindowRunCreateMode)
}.
End EnqueueRequest.
Abbreviation SiteTaskEnqueueRequest := EnqueueRequest.SiteTaskEnqueueRequest.

(** ORDER BY id DESC *)
Definition by_id_desc (r : CollectionRun) : sort_key := [AInt (- r.(Run.ID))].

Definition logical_site_task (request : SiteTaskEnqueueRequest) (r : CollectionRun) : bool :=
  site_is request.(EnqueueRequest.SiteID) r
  && (r.(Run.SiteConfigVersion) =? request.(EnqueueRequest.ExpectedConfigVersion))
  && (r.(Run.TaskType) == request.(EnqueueRequest.TaskType))
  && (r.(Run.TargetType) == "site") && (r.(Run.TargetID) =? request.(EnqueueRequest.SiteID))
  && (r.(Run.TriggerType) == request.(EnqueueRequest.TriggerType))
  && sql_text_eq r.(Run.CreatedRequestID) request.(EnqueueRequest.RequestID).

Definition findLogicalSiteTask (request : SiteTaskEnqueueRequest) : Tx (option CollectionRun) :=
  range ← st_lift (
    match request.(EnqueueRequest.StartTimestamp), request.(EnqueueRequest.EndTimestamp) with
    | None, _ => Ok (fun r : CollectionRun =>
                       is_nil r.(Run.StartTimestamp) && is_nil r.(Run.EndTimestamp))
    | Some s, Some e => Ok (fun r : CollectionRun =>
                       bool_decide (r.(Run.StartTimestamp) = Some s)
                       && bool_decide (r.(Run.EndTimestamp) = Some e))
    | Some _, None => Err ErrCollectionRunContract
    end);
  found ← db_select (fun r => logical_site_task request r && range r) by_id_desc;
  mret (head found).

(** The mode handed to [CreateSiteWindowRun]: the empty string is schedule. *)
Definition enqueue_mode (mode : option (option SiteWindowRunCreateMode))
  : option SiteWindowRunCreateMode :=
  match mode with None => Some SiteWindowRunSchedule | Some m => m end.

Definition to_window_request (request : SiteTaskEnqueueRequest) (start end_ : Z)
    (mode : option SiteWindowRunCreateMode) : SiteWindowRunCreateRequest :=
  WindowRequest.mk request.(EnqueueRequest.SiteID) request.(EnqueueRequest.ExpectedConfigVersion)
    request.(EnqueueRequest.TaskType) request.(EnqueueRequest.TriggerType) start end_
    request.(EnqueueRequest.Scope) request.(EnqueueRequest.Priority)
    request.(EnqueueRequest.RequestID) request.(EnqueueRequest.Now) mode.

Definition EnqueueSiteTask (request : SiteTaskEnqueueRequest) : Tx (CollectionRun * bool) :=
  if (request.(EnqueueRequest.SiteID) <=? 0) || (request.(EnqueueRequest.ExpectedConfigVersion) <=? 0)
     || (request.(EnqueueRequest.Now) <=? 0)
     || negb (ValidCollectionTaskType request.(EnqueueRequest.TaskType))
  then st_fail ErrCollectionRunContract
  else
    found ← findLogicalSiteTask request;
    match found with
    | Some existing => mret (existing, true)
    | None =>
        if CollectionTaskWindowed request.(EnqueueRequest.TaskType) then
          match request.(EnqueueRequest.StartTimestamp), request.(EnqueueRequest.EndTimestamp) with
          | Some s, Some e =>
              runs ← CreateSiteWindowRun
                       (to_window_request request s e (enqueue_mode request.(EnqueueRequest.Mode)));
              match runs with
              | [r] => mret r
              | _ => st_fail ErrCollectionRunContract
              end
          | _, _ => st_fail ErrCollectionRunContract
          end
        else
          site ← FindByIDForUpdate request.(EnqueueRequest.SiteID);
          _ ← st_require ((site.(MSite.ConfigVersion) =? request.(EnqueueRequest.ExpectedConfigVersion))
                          && siteAllowsTask site request.(EnqueueRequest.TaskType))
                         ErrSiteRunConfigChanged;
          created ← st_lift (NewSiteCollectionRun site
            (SiteRunSpec.mk request.(EnqueueRequest.TaskType) request.(EnqueueRequest.TriggerType)
               None None request.(EnqueueRequest.Scope) request.(EnqueueRequest.Priority)
               request.(EnqueueRequest.RequestID) request.(EnqueueRequest.Now)));
          CreateOrGetRun created
    end.

Definition EnqueueScheduledSiteWindowTask (request : SiteTaskEnqueueRequest)
  : Tx (list CollectionRun) :=
  match request.(EnqueueRequest.StartTimestamp), request.(EnqueueRequest.EndTimestamp) with
  | Some s, Some e =>
      if (request.(EnqueueRequest.SiteID) <=? 0)
         || (request.(EnqueueRequest.ExpectedConfigVersion) <=? 0)
         || (request.(EnqueueRequest.Now) <=? 0)
         || negb (bool_decide (request.(EnqueueRequest.Mode) = Some (Some SiteWindowRunSchedule)))
         || (request.(EnqueueRequest.TriggerType) != CollectionTriggerSchedule)
         || negb (CollectionTaskWindowed request.(EnqueueRequest.TaskType))
      then st_fail ErrCollectionRunContract
      else
        runs ← CreateSiteWindowRun (to_window_request request s e (Some SiteWindowRunSchedule));
        mret (runs.*1)
  | _, _ => st_fail ErrCollectionRunContract
  end.

(** ** Diagnostics of in-memory scheduled tasks *)
Module DiagnosticRequest.
Record ScheduledSiteTaskDiagnosticRequest := mk {
  SiteID : Z; TaskType : string; RequestID : string; ErrorCode : string; Now : Z }.
End DiagnosticRequest.
Abbreviation ScheduledSiteTaskDiagnosticRequest :=
  DiagnosticRequest.ScheduledSiteTaskDiagnosticRequest.

Definition RecordScheduledSiteTaskDiagnostic (request : ScheduledSiteTaskDiagnosticRequest)
  : Tx (CollectionRun * bool) :=
  let siteID := request.(DiagnosticRequest.SiteID) in
  let taskType := request.(DiagnosticRequest.TaskType) in
  let now := request.(DiagnosticRequest.Now) in
  if (siteID <=? 0) || (now <=? 0) || (request.(DiagnosticRequest.ErrorCode) == "")
     || negb (validCollectionRequestID request.(DiagnosticRequest.RequestID))
     || negb (is_one_of taskType [TaskTypeSiteProbe; TaskTypeRealtimeStat; TaskTypeResourceSnapshot])
  then st_fail ErrCollectionRunContract
  else
    site ← FindByIDForUpdate siteID;
    found ← db_select (fun r => site_is siteID r && (r.(Run.TaskType) == taskType)
                        && (r.(Run.TriggerType) == CollectionTriggerSchedule)
                        && sql_text_eq r.(Run.CreatedRequestID) request.(DiagnosticRequest.RequestID))
                      by_id_desc;
    match found with
    | existing :: _ => mret (existing, true)
    | [] =>
        run ← st_lift (NewSiteCollectionRun site
          (SiteRunSpec.mk taskType CollectionTriggerSchedule None None "" 0
             request.(DiagnosticRequest.RequestID) now));
        created ← db_create (run <| Run.Status := CollectionTaskStatusFailed |>
          <| Run.ActiveKey := None |> <| Run.ErrorCode := request.(DiagnosticRequest.ErrorCode) |>
          <| Run.FinishedAt := Some now |>);
        mret (created, false)
    end.
