(* ===== verification/SiteFence.v ===== *)
(** * The site configuration fence and backfill statuses ([model/site_fence.go])

    [BumpSiteFence] moves a site to its next configuration version and fails
    every active run that depends on the site; account and customer backfill
    statuses are recomputed from their latest rebuild runs. *)

From S2P Require Import Prelude Constants GoText Store RunContract RunState RunRepository.

(** ** Ordered sets of ids *)

(** [appendUniqueSortedID]: the scan for the position, then the insertion. *)
Fixpoint insert_sorted_id (ids : list Z) (id : Z) : list Z :=
  match ids with
  | [] => [id]
  | x :: rest =>
      if x <? id then x :: insert_sorted_id rest id
      else if x =? id then ids else id :: ids
  end.
Definition appendUniqueSortedID (ids : list Z) (id : Z) : list Z :=
  if id <=? 0 then ids else insert_sorted_id ids id.

(** ** Account references and fence plans *)
Module AccountRef.
Record siteFenceAccountRef := mk { ID : Z; SiteID : Z; CustomerID : Z }.
#[export] Instance ref_eq_dec : EqDecision siteFenceAccountRef.
Proof. solve_decision. Defined.
End AccountRef.
Export (hints) AccountRef.
Abbreviation siteFenceAccountRef := AccountRef.siteFenceAccountRef.

(** SELECT id, site_id, customer_id *)
Definition account_ref (a : Account) : siteFenceAccountRef :=
  AccountRef.mk a.(MAccount.ID) a.(MAccount.SiteID) a.(MAccount.CustomerID).

Module FencePlan.
Record siteFencePlan := mk {
  Runs : list CollectionRun; AccountRefs : list siteFenceAccountRef; CustomerIDs : list Z }.
End FencePlan.
Abbreviation siteFencePlan := FencePlan.siteFencePlan.

Definition runIDs (plan : siteFencePlan) : list Z := Run.ID <$> plan.(FencePlan.Runs).
Definition accountIDs (plan : siteFencePlan) : list Z := AccountRef.ID <$> plan.(FencePlan.AccountRefs).

Definition one_of_ids (ids : list Z) (id : Z) : bool := existsb (Z.eqb id) ids.

(** The UNION of the three candidate queries: runs of the site, account
    rebuilds of its accounts, customer rebuilds of customers with an account
    on it. *)
Definition fence_candidate (siteID : Z) (d : Db) (r : CollectionRun) : bool :=
  active_status r
  && (site_is siteID r
      || ((r.(Run.TargetType) == "site") && (r.(Run.TargetID) =? siteID))
      || existsb (fun w => of_run r.(Run.ID) w && (w.(RunWindow.SiteID) =? siteID)) (table_rows d)
      || ((r.(Run.TaskType) == TaskTypeAccountRebuild) && (r.(Run.TargetType) == "account")
          && existsb (fun a => (a.(MAccount.ID) =? r.(Run.TargetID))
                               && (a.(MAccount.SiteID) =? siteID)) (table_rows d))
      || ((r.(Run.TaskType) == TaskTypeCustomerRebuild) && (r.(Run.TargetType) == "customer")
          && existsb (fun a => (a.(MAccount.CustomerID) =? r.(Run.TargetID))
                               && (a.(MAccount.SiteID) =? siteID)) (table_rows d))).

(** The switch over the runs of the plan: the account targets, the customer
    targets and the customer ids collected so far. *)
Fixpoint classify_fence_runs (siteID : Z) (runs : list CollectionRun)
    (accountTargetIDs customerRunIDs customerIDs : list Z) : result (list Z * list Z * list Z) :=
  match runs with
  | [] => Ok (accountTargetIDs, customerRunIDs, customerIDs)
  | run :: rest =>
      let target := run.(Run.TargetID) in
      if run.(Run.TargetType) == "site" then
        if target =? siteID
        then classify_fence_runs siteID rest accountTargetIDs customerRunIDs customerIDs
        else Err ErrCollectionRunContract
      else if run.(Run.TargetType) == "account" then
        if run.(Run.TaskType) == TaskTypeAccountRebuild
        then classify_fence_runs siteID rest (appendUniqueSortedID accountTargetIDs target)
               customerRunIDs customerIDs
        else Err ErrCollectionRunContract
      else if run.(Run.TargetType) == "customer" then
        if run.(Run.TaskType) == TaskTypeCustomerRebuild
        then classify_fence_runs siteID rest accountTargetIDs
               (appendUniqueSortedID customerRunIDs target) (appendUniqueSortedID customerIDs target)
        else Err ErrCollectionRunContract
      else Err ErrCollectionRunContract
  end.

(** The loop over the account references: every one is on the site, and their
    customers join the plan. *)
Fixpoint fence_customers (siteID : Z) (refs : list siteFenceAccountRef) (customerIDs : list Z)
  : result (list Z) :=
  match refs with
  | [] => Ok customerIDs
  | account :: rest =>
      if account.(AccountRef.SiteID) =? siteID
      then fence_customers siteID rest (appendUniqueSortedID customerIDs account.(AccountRef.CustomerID))
      else Err ErrCollectionRunContract
  end.

Definition buildSiteFencePlan (siteID : Z) : Tx siteFencePlan :=
  if siteID <=? 0 then st_fail ErrCollectionRunContract
  else
    runs ← st_gets (fun d => select (fence_candidate siteID d) by_id d);
    if bool_decide (runs = []) then mret (FencePlan.mk [] [] [])
    else
      '(accountTargetIDs, customerRunIDs, customerIDs) ←
        st_lift (classify_fence_runs siteID runs [] [] []);
      if bool_decide (accountTargetIDs = []) && bool_decide (customerRunIDs = [])
      then mret (FencePlan.mk runs [] customerIDs)
      else
        accounts ← db_select (fun a => one_of_ids accountTargetIDs a.(MAccount.ID)
                      || (one_of_ids customerRunIDs a.(MAccount.CustomerID)
                          && (a.(MAccount.SiteID) =? siteID))) by_id;
        let refs := account_ref <$> accounts in
        customerIDs ← st_lift (fence_customers siteID refs customerIDs);
        _ ← st_require (forallb (one_of_ids (AccountRef.ID <$> refs)) accountTargetIDs)
                       ErrCollectionRunContract;
        mret (FencePlan.mk runs refs customerIDs).

Definition siteFenceAccountRefs (ids : list Z) : Tx (list siteFenceAccountRef) :=
  if bool_decide (ids = []) then mret []
  else accounts ← db_select (fun a => one_of_ids ids a.(MAccount.ID)) by_id; mret (account_ref <$> accounts).

Definition lockSiteFenceCustomers (customerIDs : list Z) : Tx unit :=
  if bool_decide (customerIDs = []) then mret tt
  else
    locked ← db_select (fun c => one_of_ids customerIDs c.(MCustomer.ID)) by_id;
    st_require ((MCustomer.ID <$> locked) == customerIDs) ErrCollectionRunContract.

Definition lockSiteFenceRuns (ids : list Z) : Tx (list CollectionRun) :=
  if bool_decide (ids = []) then mret []
  else db_select (fun r => one_of_ids ids r.(Run.ID) && active_status r) by_id.

Definition equalCollectionRunIDs (first second : list CollectionRun) : bool :=
  (Run.ID <$> first) == (Run.ID <$> second).
Definition equalSiteFenceAccountRefs (first second : list siteFenceAccountRef) : bool := first == second.
Definition equalSiteFencePlans (first second : siteFencePlan) : bool :=
  equalCollectionRunIDs first.(FencePlan.Runs) second.(FencePlan.Runs)
  && equalSiteFenceAccountRefs first.(FencePlan.AccountRefs) second.(FencePlan.AccountRefs)
  && (first.(FencePlan.CustomerIDs) == second.(FencePlan.CustomerIDs)).

(** ** Backfill statuses of accounts and customers *)

(** CASE r.status WHEN 'running' THEN 3 ... ELSE -1 END *)
Definition run_status_priority (status : string) : Z :=
  if status == "running" then 3 else if status == "pending" then 2
  else if status == "failed" then 1 else if status == "success" then 0 else -1.
Definition backfill_status_priority (status : string) : Z :=
  if status == "running" then 3 else if status == "pending" then 2
  else if status == "failed" then 1 else if status == "none" then 0 else -1.

(** COALESCE((SELECT CASE ... ORDER BY r.id DESC LIMIT 1), 0) *)
Definition latest_run_priority (targetType taskType : string) (d : Db) (targetID : Z) : Z :=
  match select (fun r => (r.(Run.TargetType) == targetType) && (r.(Run.TargetID) =? targetID)
                         && (r.(Run.TaskType) == taskType)) by_id_desc d with
  | r :: _ => run_status_priority r.(Run.Status)
  | [] => 0
  end.

(** COALESCE((SELECT MAX(CASE ...) FROM account WHERE customer_id = c.id), 0) *)
Definition max_account_priority (d : Db) (customerID : Z) : Z :=
  match select (fun a => a.(MAccount.CustomerID) =? customerID) by_id d with
  | [] => 0
  | a :: rest =>
      foldl (fun m a => Z.max m (backfill_status_priority a.(MAccount.StatisticsBackfillStatus)))
        (backfill_status_priority a.(MAccount.StatisticsBackfillStatus)) rest
  end.

Definition backfill_statuses : list (Z * string) :=
  [(0, "none"); (1, "failed"); (2, "pending"); (3, "running")].

(** [batchUpdateSiteFenceStatuses] on the table whose status and timestamp
    columns [set] writes. *)
Definition batchUpdateSiteFenceStatuses {R} `{!Table R} (set : string -> Z -> R -> R)
    (rows : list (Z * Z)) (now : Z) : Tx unit :=
  if negb (forallb (fun '(_, priority) => (0 <=? priority) && (priority <=? 3)) rows)
  then st_fail ErrCollectionRunContract
  else st_fold (fun '(priority, status) _ =>
         let group := (List.filter (fun row => snd row =? priority) rows).*1 in
         if bool_decide (group = []) then mret tt
         else _ ← db_update (fun r => one_of_ids group (row_id r)) (set status now); mret tt)
       backfill_statuses tt.

Definition set_account_status (status : string) (now : Z) (a : Account) : Account :=
  a <| MAccount.StatisticsBackfillStatus := status |> <| MAccount.UpdatedAt := now |>.
Definition set_customer_status (status : string) (now : Z) (c : Customer) : Customer :=
  c <| MCustomer.StatisticsBackfillStatus := status |> <| MCustomer.UpdatedAt := now |>.

Definition recalculateSiteFenceBackfillStatuses (plan : siteFencePlan) (now : Z) : Tx unit :=
  _ ← (if bool_decide (plan.(FencePlan.AccountRefs) = []) then mret tt
       else
         accountRows ← st_gets (fun d =>
           (fun a => (a.(MAccount.ID), latest_run_priority "account" TaskTypeAccountRebuild d a.(MAccount.ID)))
             <$> select (fun a => one_of_ids (accountIDs plan) a.(MAccount.ID)) by_id d);
         _ ← st_require (Nat.eqb (List.length accountRows) (List.length plan.(FencePlan.AccountRefs)))
                        ErrSiteRunConfigChanged;
         batchUpdateSiteFenceStatuses set_account_status accountRows now);
  if bool_decide (plan.(FencePlan.CustomerIDs) = []) then mret tt
  else
    customerRows ← st_gets (fun d =>
      (fun c => (c.(MCustomer.ID),
                 Z.max (latest_run_priority "customer" TaskTypeCustomerRebuild d c.(MCustomer.ID))
                       (max_account_priority d c.(MCustomer.ID))))
        <$> select (fun c => one_of_ids plan.(FencePlan.CustomerIDs) c.(MCustomer.ID)) by_id d);
    _ ← st_require (Nat.eqb (List.length customerRows) (List.length plan.(FencePlan.CustomerIDs)))
                   ErrSiteRunConfigChanged;
    batchUpdateSiteFenceStatuses set_customer_status customerRows now.

(** ** BumpSiteFence *)
Definition CodeSiteConfigChanged : string := "SITE_CONFIG_CHANGED".

(** json.Marshal of the error parameters: keys in sorted order. *)
Definition fence_params (siteID oldVersion newVersion : Z) : string :=
  "{" +:+ quote +:+ "actual_config_version" +:+ quote +:+ ":" +:+ FormatInt newVersion
  +:+ "," +:+ quote +:+ "expected_config_version" +:+ quote +:+ ":" +:+ FormatInt oldVersion
  +:+ "," +:+ quote +:+ "site_id" +:+ quote +:+ ":" +:+ quote +:+ FormatInt siteID +:+ quote +:+ "}".

(** The failing loop over the locked runs, each with its windows. *)
Definition fail_fenced_runs (siteID newVersion now : Z) (windows : list CollectionRunWindow)
    (runs : list CollectionRun) : Tx unit :=
  st_fold (fun run _ =>
      _ ← FailLockedCollectionRun run (List.filter (of_run run.(Run.ID)) windows)
            (RunFailure.mk CodeSiteConfigChanged
               (fence_params siteID run.(Run.SiteConfigVersion) newVersion)) now;
      mret tt) runs tt.

(** ORDER BY run_id ASC, hour_ts ASC, id ASC *)
Definition by_run_hour (w : CollectionRunWindow) : sort_key :=
  [AInt w.(RunWindow.RunID); AInt w.(RunWindow.HourTS); AInt w.(RunWindow.ID)].

(** Returns the site as the caller's pointer holds it afterwards. *)
Definition BumpSiteFence (site : Site) (now : Z) : Tx Site :=
  let siteID := site.(MSite.ID) in
  if (siteID <=? 0) || (site.(MSite.ConfigVersion) <=? 0) || (now <=? 0)
  then st_fail ErrInvalidFenceTarget
  else
    plan ← buildSiteFencePlan siteID;
    lockedSite ← FindByIDForUpdate siteID;
    _ ← st_require (lockedSite.(MSite.ConfigVersion) =? site.(MSite.ConfigVersion)) ErrSiteRunConfigChanged;
    let newVersion := site.(MSite.ConfigVersion) + 1 in
    _ ← lockSiteFenceCustomers plan.(FencePlan.CustomerIDs);
    _ ← (if bool_decide (plan.(FencePlan.AccountRefs) = []) then mret tt
         else
           lockedAccounts ← siteFenceAccountRefs (accountIDs plan);
           st_require (equalSiteFenceAccountRefs plan.(FencePlan.AccountRefs) lockedAccounts)
                      ErrSiteRunConfigChanged);
    verifiedPlan ← buildSiteFencePlan siteID;
    _ ← st_require (equalSiteFencePlans plan verifiedPlan) ErrSiteRunConfigChanged;
    runs ← lockSiteFenceRuns (runIDs plan);
    _ ← st_require (equalCollectionRunIDs plan.(FencePlan.Runs) runs) ErrSiteRunConfigChanged;
    windows ← (if bool_decide (runIDs plan = []) then mret []
               else db_select (fun w => one_of_ids (runIDs plan) w.(RunWindow.RunID)) by_run_hour);
    _ ← fail_fenced_runs siteID newVersion now windows runs;
    _ ← recalculateSiteFenceBackfillStatuses plan now;
    let bump s := s <| MSite.ConfigVersion := newVersion |> <| MSite.UpdatedAt := now |> in
    _ ← db_update (fun s => s.(MSite.ID) =? siteID) bump;
    mret (bump site).

(** ** Monitoring pauses *)

(** INSERT ... ON DUPLICATE KEY UPDATE on (site_id, start_minute_ts) *)
Definition OpenMonitoringPause (siteID startMinute now : Z) : Tx unit :=
  let same p := (p.(Pause.SiteID) =? siteID) && (p.(Pause.StartMinuteTS) =? startMinute) in
  n ← db_count same;
  if 0 <? n then
    _ ← db_update same (fun p => p <| Pause.EndMinuteTS := None |>
          <| Pause.Reason := "management_disabled" |> <| Pause.CreatedAt := now |>);
    mret tt
  else _ ← db_create (Pause.mk 0 siteID startMinute None "management_disabled" now); mret tt.

Definition CloseMonitoringPause (siteID endMinute : Z) : Tx unit :=
  _ ← db_update (fun p => (p.(Pause.SiteID) =? siteID) && is_nil p.(Pause.EndMinuteTS))
        (fun p => p <| Pause.EndMinuteTS := Some endMinute |>);
  mret tt.
