(* ===== verification/TaskScope.v ===== *)
(** * The scope of a task: what it locks and what it may touch
    ([model/collection_task.go], [model/usage_cursor.go], [model/local_rebuild.go])

    A site task touches its site; an account or customer rebuild touches the
    accounts, customers and sites behind its target.  The file also holds what
    a finished run writes beyond itself: the backfill statuses and, for local
    rebuilds, the lifecycle of the account or customer. *)

From S2P Require Import Prelude Constants GoText Store RunContract RunState RunRepository SiteFence.

(** Rows other transactions hold locked; a SKIP LOCKED read does not see them. *)
Module LockView.
Record LockView := mk {
  site : Z -> bool; customer : Z -> bool; account : Z -> bool; run : Z -> bool; window : Z -> bool }.
End LockView.
Abbreviation LockView := LockView.LockView.

Definition no_locks : LockView :=
  LockView.mk (fun _ => false) (fun _ => false) (fun _ => false) (fun _ => false) (fun _ => false).

Module TaskScope.
Record collectionTaskScope := mk {
  SiteIDs : list Z; CustomerIDs : list Z; Accounts : list siteFenceAccountRef }.
End TaskScope.
Abbreviation collectionTaskScope := TaskScope.collectionTaskScope.

Definition resolveTaskScope (run : CollectionRun) : Tx collectionTaskScope :=
  if run.(Run.TargetType) == "site" then
    match run.(Run.SiteID) with
    | Some site =>
        if (site <=? 0) || negb (site =? run.(Run.TargetID)) then st_fail ErrCollectionRunContract
        else mret (TaskScope.mk [site] [] [])
    | None => st_fail ErrCollectionRunContract
    end
  else if run.(Run.TargetType) == "account" then
    account ← db_first_where (fun a => a.(MAccount.ID) =? run.(Run.TargetID)) by_id;
    mret (TaskScope.mk [account.(MAccount.SiteID)] [account.(MAccount.CustomerID)] [account_ref account])
  else if run.(Run.TargetType) == "customer" then
    accounts ← db_select (fun a => a.(MAccount.CustomerID) =? run.(Run.TargetID)) by_id;
    mret (TaskScope.mk (foldl (fun ids a => appendUniqueSortedID ids a.(MAccount.SiteID)) [] accounts)
            [run.(Run.TargetID)] (account_ref <$> accounts))
  else st_fail ErrCollectionRunContract.

(** [skipLocked] carries the lock view of a SKIP LOCKED read; a plain FOR
    UPDATE read waits for the locks and sees every row. *)
Definition visible (skipLocked : option LockView) (locked : LockView -> Z -> bool) (id : Z) : bool :=
  match skipLocked with Some view => negb (locked view id) | None => true end.

Definition lockTaskScope (scope : collectionTaskScope) (skipLocked : option LockView) : Tx unit :=
  let missing := match skipLocked with Some _ => ErrCollectionTaskUnavailable
                                     | None => ErrCollectionRunContract end in
  _ ← (if bool_decide (scope.(TaskScope.SiteIDs) = []) then mret tt
       else
         sites ← db_select (fun s => one_of_ids scope.(TaskScope.SiteIDs) s.(MSite.ID)
                              && visible skipLocked LockView.site s.(MSite.ID)) by_id;
         st_require (Nat.eqb (List.length sites) (List.length scope.(TaskScope.SiteIDs))) missing);
  _ ← (if bool_decide (scope.(TaskScope.CustomerIDs) = []) then mret tt
       else
         customers ← db_select (fun c => one_of_ids scope.(TaskScope.CustomerIDs) c.(MCustomer.ID)
                              && visible skipLocked LockView.customer c.(MCustomer.ID)) by_id;
         st_require (Nat.eqb (List.length customers) (List.length scope.(TaskScope.CustomerIDs))) missing);
  if bool_decide (scope.(TaskScope.Accounts) = []) then mret tt
  else
    let ids := AccountRef.ID <$> scope.(TaskScope.Accounts) in
    accounts ← db_select (fun a => one_of_ids ids a.(MAccount.ID)
                         && visible skipLocked LockView.account a.(MAccount.ID)) by_id;
    _ ← st_require (Nat.eqb (List.length accounts) (List.length scope.(TaskScope.Accounts))) missing;
    st_require ((account_ref <$> accounts) == scope.(TaskScope.Accounts)) ErrCollectionRunContract.

Definition verifyTaskScopeLocked (run : CollectionRun) (scope : collectionTaskScope) : Tx unit :=
  if run.(Run.TargetType) == "site" then
    site ← db_first run.(Run.TargetID);
    _ ← st_require (bool_decide (run.(Run.SiteID) = Some site.(MSite.ID))
                    && (run.(Run.SiteConfigVersion) =? site.(MSite.ConfigVersion))
                    && siteAllowsTask site run.(Run.TaskType)) ErrSiteRunConfigChanged;
    if CollectionTaskWindowed run.(Run.TaskType) then
      capabilities ← db_select (fun c => c.(MCapability.SiteID) == site.(MSite.ID)) by_capability_key;
      st_lift (ValidateRunnableSiteSnapshotForTask (RunnableSiteSnapshot.mk site capabilities)
                 run.(Run.SiteConfigVersion) run.(Run.TaskType))
    else mret tt
  else if not_nil run.(Run.SiteID) || negb (run.(Run.SiteConfigVersion) =? 0)
  then st_fail ErrCollectionRunContract
  else if run.(Run.TargetType) == "account" then
    st_require (match scope.(TaskScope.Accounts) with
                | [a] => a.(AccountRef.ID) =? run.(Run.TargetID)
                | _ => false
                end) ErrCollectionRunContract
  else if run.(Run.TargetType) == "customer" then
    st_require (match scope.(TaskScope.CustomerIDs) with
                | [c] => c =? run.(Run.TargetID)
                | _ => false
                end) ErrCollectionRunContract
  else mret tt.

(** The LEFT JOIN of the rebuild query: the customer behind a run's account. *)
Definition run_account_customer (d : Db) (r : CollectionRun) (customerID : Z) : bool :=
  (r.(Run.TargetType) == "account")
  && match table (R := Account) d !! r.(Run.TargetID) with
     | Some a => a.(MAccount.CustomerID) =? customerID
     | None => false
     end.

Definition scopeHasRunningTask (run : CollectionRun) (scope : collectionTaskScope) : Tx bool :=
  if run.(Run.TargetType) == "site" then
    match scope.(TaskScope.SiteIDs) with
    | site :: _ =>
        n ← db_count (fun r => site_is site r && (r.(Run.TaskType) == run.(Run.TaskType))
                       && (r.(Run.Status) == "running") && negb (run_has_id run.(Run.ID) r));
        mret (0 <? n)
    | [] => st_fail (ErrOther "index out of range")
    end
  else match scope.(TaskScope.CustomerIDs) with
  | [customer] =>
      n ← st_gets (fun d => count (fun r => (r.(Run.Status) == "running")
            && negb (run_has_id run.(Run.ID) r) && (r.(Run.TaskType) == run.(Run.TaskType))
            && (((r.(Run.TargetType) == "customer") && (r.(Run.TargetID) =? customer))
                || run_account_customer d r customer)) (table_rows d));
      mret (0 <? n)
  | _ => st_fail ErrCollectionRunContract
  end.

Definition collectionTaskScopeContainsSite (scope : collectionTaskScope) (siteID : Z) : bool :=
  existsb (fun candidate => candidate =? siteID) scope.(TaskScope.SiteIDs).

(** ** The statistics status of a site ([model/usage_cursor.go]) *)
Definition backfill_run_of (siteID configVersion : Z) (r : CollectionRun) : bool :=
  site_is siteID r && (r.(Run.SiteConfigVersion) =? configVersion)
  && (r.(Run.TaskType) == TaskTypeUsageBackfill) && (r.(Run.TargetType) == "site")
  && (r.(Run.TargetID) =? siteID).

(** The window has no complete collection window behind it. *)
Definition unresolved (d : Db) (w : CollectionRunWindow) : bool :=
  negb (existsb (fun cw => (cw.(Window.SiteID) =? w.(RunWindow.SiteID))
          && (cw.(Window.HourTS) =? w.(RunWindow.HourTS))
          && (cw.(Window.Status) == CollectionWindowStatusComplete)) (table_rows d)).

Definition UsageBackfillStatisticsStatus (siteID configVersion : Z) : Tx string :=
  if (siteID <=? 0) || (configVersion <=? 0) then st_fail ErrCollectionRunContract
  else
    site ← db_first_where (fun s => (s.(MSite.ID) =? siteID)
                            && (s.(MSite.ConfigVersion) =? configVersion)) by_id;
    activeCount ← db_count (fun r => backfill_run_of siteID configVersion r && active_status r);
    if 0 <? activeCount then mret SiteStatisticsBackfilling
    else
      let statisticsStart := deref site.(MSite.StatisticsStartAt) in
      unresolvedTargets ← st_gets (fun d => existsb (fun w =>
          (w.(RunWindow.SiteID) =? siteID) && (statisticsStart <=? w.(RunWindow.HourTS))
          && existsb (fun r => run_has_id w.(RunWindow.RunID) r && backfill_run_of siteID configVersion r)
               (table_rows d)
          && unresolved d w) (table_rows d));
      if (unresolvedTargets : bool) then mret SiteStatisticsPartial
      else
        explicitIncomplete ← db_count (fun w => (w.(Window.SiteID) =? siteID)
            && (statisticsStart <=? w.(Window.HourTS))
            && is_one_of w.(Window.Status)
                 [CollectionWindowStatusMissing; CollectionWindowStatusUnavailable]);
        if 0 <? explicitIncomplete then mret SiteStatisticsPartial
        else mret SiteStatisticsReady.

(** ** What a transition of a run writes to its scope *)
Definition recalculateTaskBackfillStatuses (run : CollectionRun) (now : Z) : Tx unit :=
  if run.(Run.TargetType) == "site" then
    if (run.(Run.TaskType) != TaskTypeUsageBackfill)
       || negb (bool_decide (run.(Run.SiteID) = Some run.(Run.TargetID)))
       || ((run.(Run.Status) != CollectionTaskStatusSuccess)
           && (run.(Run.Status) != CollectionTaskStatusFailed))
    then mret tt
    else
      status ← UsageBackfillStatisticsStatus run.(Run.TargetID) run.(Run.SiteConfigVersion);
      let status := if (run.(Run.Status) == CollectionTaskStatusFailed)
                       && (status == SiteStatisticsReady)
                    then SiteStatisticsPartial else status in
      _ ← db_update (fun s => (s.(MSite.ID) =? run.(Run.TargetID))
             && (s.(MSite.ConfigVersion) =? run.(Run.SiteConfigVersion))
             && (s.(MSite.StatisticsStatus) == SiteStatisticsBackfilling))
           (fun s => s <| MSite.StatisticsStatus := status |> <| MSite.UpdatedAt := now |>);
      mret tt
  else if (run.(Run.TargetType) != "account") && (run.(Run.TargetType) != "customer") then mret tt
  else
    plan ← (if run.(Run.TargetType) == "account" then
              account ← db_first_where (fun a => a.(MAccount.ID) =? run.(Run.TargetID)) by_id;
              mret (FencePlan.mk [run] [account_ref account] [account.(MAccount.CustomerID)])
            else
              accounts ← db_select (fun a => a.(MAccount.CustomerID) =? run.(Run.TargetID)) by_id;
              mret (FencePlan.mk [run] (account_ref <$> accounts) [run.(Run.TargetID)]));
    recalculateSiteFenceBackfillStatuses plan now.

(** ** The end of a local rebuild ([model/local_rebuild.go]) *)
Definition AccountRemoteStateIdentityMismatch : string := "identity_mismatch".
Definition AccountManagedStatusActive : string := "active".
Definition AccountManagedStatusArchived : string := "archived".

Definition localRebuildRunCoversPause (run : CollectionRun) (pause : option Z) : bool :=
  match pause, run.(Run.StartTimestamp), run.(Run.EndTimestamp) with
  | Some p, Some s, Some e => (s <=? p) && (p <=? e)
  | _, _, _ => false
  end.

Definition resume_account (now : Z) (a : Account) : Account :=
  a <| MAccount.StatisticsPausedAt := None |> <| MAccount.StatisticsBackfillStatus := "none" |>
    <| MAccount.UpdatedAt := now |>.

Definition finalizeAccountRebuildLifecycle (run : CollectionRun) (now : Z) : Tx unit :=
  account ← db_first (R := Account) run.(Run.TargetID);
  if (account.(MAccount.ManagedStatus) == AccountManagedStatusActive)
     && is_nil account.(MAccount.StatisticsPausedAt) then mret tt
  else
    customer ← db_first (R := Customer) account.(MAccount.CustomerID);
    if customer.(MCustomer.Status) == "disabled" then st_fail ErrCustomerDisabled
    else if (account.(MAccount.RemoteState) == AccountRemoteStateIdentityMismatch)
            || (account.(MAccount.ManagedStatus) != AccountManagedStatusArchived)
            || is_nil account.(MAccount.StatisticsPausedAt)
            || negb (localRebuildRunCoversPause run account.(MAccount.StatisticsPausedAt))
    then st_fail ErrAccountRestoreContract
    else
      _ ← db_update (fun a => a.(MAccount.ID) =? account.(MAccount.ID))
            (fun a => resume_account now a <| MAccount.ManagedStatus := AccountManagedStatusActive |>);
      mret tt.

(** The loop over the accounts of the customer. *)
Definition resume_customer_accounts (run : CollectionRun) (now : Z) (accounts : list Account) : Tx unit :=
  st_fold (fun account _ =>
      if (account.(MAccount.ManagedStatus) == AccountManagedStatusArchived)
         || (account.(MAccount.RemoteState) == AccountRemoteStateIdentityMismatch) then mret tt
      else if not_nil account.(MAccount.StatisticsPausedAt)
              && negb (localRebuildRunCoversPause run account.(MAccount.StatisticsPausedAt))
      then st_fail ErrCustomerEnableNotReady
      else _ ← db_update (fun a => a.(MAccount.ID) =? account.(MAccount.ID)) (resume_account now); mret tt)
    accounts tt.

Definition finalizeCustomerRebuildLifecycle (run : CollectionRun) (now : Z) : Tx unit :=
  customer ← db_first (R := Customer) run.(Run.TargetID);
  if (customer.(MCustomer.Status) == "using") && is_nil customer.(MCustomer.StatisticsPausedAt) then mret tt
  else if (customer.(MCustomer.Status) != "disabled") || is_nil customer.(MCustomer.StatisticsPausedAt)
          || negb (localRebuildRunCoversPause run customer.(MCustomer.StatisticsPausedAt))
  then st_fail ErrCustomerLifecycleContract
  else
    accounts ← db_select (fun a => a.(MAccount.CustomerID) =? customer.(MCustomer.ID)) by_id;
    _ ← resume_customer_accounts run now accounts;
    _ ← db_update (fun c => c.(MCustomer.ID) =? customer.(MCustomer.ID))
          (fun c => c <| MCustomer.Status := "using" |> <| MCustomer.StatisticsPausedAt := None |>
                      <| MCustomer.StatisticsBackfillStatus := "none" |> <| MCustomer.UpdatedAt := now |>);
    mret tt.

Definition finalizeLocalRebuildLifecycle (run : CollectionRun) (now : Z) : Tx unit :=
  if (run.(Run.Status) != CollectionTaskStatusSuccess)
     || ((run.(Run.TaskType) != TaskTypeAccountRebuild)
         && (run.(Run.TaskType) != TaskTypeCustomerRebuild)) then mret tt
  else
    latest ← db_first_where (fun r => (r.(Run.TargetType) == run.(Run.TargetType))
               && (r.(Run.TargetID) =? run.(Run.TargetID))
               && (r.(Run.TaskType) == run.(Run.TaskType))) by_id_desc;
    _ ← st_require ((latest.(Run.ID) =? run.(Run.ID))
                    && (latest.(Run.Status) == CollectionTaskStatusSuccess)
                    && not_nil latest.(Run.StartTimestamp) && not_nil latest.(Run.EndTimestamp))
                   ErrRebuildRunNotReady;
    if run.(Run.TaskType) == TaskTypeAccountRebuild
    then finalizeAccountRebuildLifecycle latest now
    else finalizeCustomerRebuildLifecycle latest now.
