(* ===== verification/TaskClaim.v ===== *)
(** * Claiming a task ([model/collection_task.go])

    [ClaimNext] walks the eligible runs in queue order, a page at a time, and
    [claimCandidate] tries to take one of them: it locks the scope, re-reads
    the run, checks that nothing of the same kind runs in the scope, and moves
    the run and a bounded number of due windows to running. *)

From S2P Require Import Prelude Constants GoText Store RunContract RunState RunRepository SiteFence TaskScope.

Module ClaimOptions.
Record CollectionTaskClaimOptions := mk {
  TaskTypes : list string; Priority : option Z; ExcludePriority : option Z; Now : Z;
  RequestID : string; MaxWindow : Z; ScanLimit : Z }.
#[export] Instance options_eta : RecordEta CollectionTaskClaimOptions := fun o =>
  mk (TaskTypes o) (Priority o) (ExcludePriority o) (Now o) (RequestID o) (MaxWindow o) (ScanLimit o).
End ClaimOptions.
Export (hints) ClaimOptions.
Abbreviation CollectionTaskClaimOptions := ClaimOptions.CollectionTaskClaimOptions.

Module Claim.
Record CollectionTaskClaim := mk {
  run : CollectionRun; Windows : list CollectionRunWindow; RequestID : string }.
End Claim.
Abbreviation CollectionTaskClaim := Claim.CollectionTaskClaim.

(** ** One candidate *)

(** hour_ts DESC, id DESC *)
Definition by_hour_desc (w : CollectionRunWindow) : sort_key :=
  [AInt (- w.(RunWindow.HourTS)); AInt (- w.(RunWindow.ID))].

Definition pending_of (run_id : Z) (w : CollectionRunWindow) : bool :=
  of_run run_id w && (w.(RunWindow.Status) == "pending").

(** COALESCE(next_retry_at, 0) <= now *)
Definition due (now : Z) (w : CollectionRunWindow) : bool := deref w.(RunWindow.NextRetryAt) <=? now.

Definition claimed_window (now : Z) (w : CollectionRunWindow) : CollectionRunWindow :=
  w <| RunWindow.Status := CollectionTaskStatusRunning |>
    <| RunWindow.AttemptCount := w.(RunWindow.AttemptCount) + 1 |>
    <| RunWindow.NextRetryAt := None |> <| RunWindow.StartedAt := Some now |>
    <| RunWindow.FinishedAt := None |> <| RunWindow.UpdatedAt := now |>.

(** MIN(next_retry_at): NULLs are skipped. *)
Definition min_next_retry (windows : list CollectionRunWindow) : option Z :=
  foldl (fun m w => match w.(RunWindow.NextRetryAt) with
                    | Some next => earlier m next
                    | None => m end) None windows.

(** The claimable windows of the run, or the attempt to postpone it.  The
    postponement is written and then the transaction fails, so the rollback
    discards it. *)
Definition claim_windows (run : CollectionRun) (options : CollectionTaskClaimOptions) (view : LockView)
  : Tx (list CollectionRunWindow) :=
  if run.(Run.TotalWindows) <=? 0 then st_fail ErrCollectionTaskUnavailable
  else
    let now := options.(ClaimOptions.Now) in
    found ← db_select (fun w => pending_of run.(Run.ID) w && due now w
                        && negb (LockView.window view w.(RunWindow.ID))) by_hour_desc;
    let windows := take (Z.to_nat options.(ClaimOptions.MaxWindow)) found in
    if bool_decide (windows = []) then
      next ← st_gets (fun d => min_next_retry (select (pending_of run.(Run.ID)) by_id d));
      clock ← st_gets Tables.gorm_now;
      _ ← match next with
          | Some next => db_update (fun r => run_has_id run.(Run.ID) r && (r.(Run.Status) == "pending"))
                           (fun r => r <| Run.NextAttemptAt := next |> <| Run.UpdatedAt := clock |>)
          | None => mret 0
          end;
      st_fail ErrCollectionTaskUnavailable
    else
      let ids := RunWindow.ID <$> windows in
      affectedRows ← db_update (fun w => one_of_ids ids w.(RunWindow.ID) && (w.(RunWindow.Status) == "pending"))
                       (claimed_window now);
      _ ← st_require (affectedRows =? Z.of_nat (List.length ids)) ErrCollectionTaskClaimLost;
      db_select (fun w => one_of_ids ids w.(RunWindow.ID)) by_hour_desc.

(** The run's columns after a claim. *)
Definition claimed_run (options : CollectionTaskClaimOptions) (r : CollectionRun) : CollectionRun :=
  let now := options.(ClaimOptions.Now) in
  let r' := r <| Run.Status := CollectionTaskStatusRunning |> <| Run.HeartbeatAt := Some now |>
     <| Run.StartedAt := Some (default now r.(Run.StartedAt)) |>
     <| Run.LastRequestID := options.(ClaimOptions.RequestID) |> <| Run.UpdatedAt := now |> in
  if CollectionTaskWindowed r.(Run.TaskType) then r'
  else r' <| Run.RetryCount := r.(Run.RetryCount) + 1 |>.

(** Whether the row read under lock is still the candidate and claimable. *)
Definition still_claimable (candidate run : CollectionRun) (options : CollectionTaskClaimOptions) : bool :=
  (run.(Run.Status) == CollectionTaskStatusPending) && not_nil run.(Run.WindowsInitializedAt)
  && (run.(Run.NextAttemptAt) <=? options.(ClaimOptions.Now))
  && (run.(Run.TaskType) == candidate.(Run.TaskType))
  && (run.(Run.TargetType) == candidate.(Run.TargetType))
  && (run.(Run.TargetID) =? candidate.(Run.TargetID))
  && (run.(Run.LastRequestID) != options.(ClaimOptions.RequestID)).

(** FOR UPDATE SKIP LOCKED on one run. *)
Definition lock_run_skip (id : Z) (view : LockView) : Tx CollectionRun := fun d =>
  match table (R := CollectionRun) d !! id with
  | Some run => if LockView.run view id then Err ErrCollectionTaskUnavailable else Ok (run, d)
  | None => Err ErrCollectionTaskUnavailable
  end.

Definition claimCandidate (candidate : CollectionRun) (options : CollectionTaskClaimOptions)
    (view : LockView) : Tx CollectionTaskClaim :=
  scope ← resolveTaskScope candidate;
  _ ← lockTaskScope scope (Some view);
  run ← lock_run_skip candidate.(Run.ID) view;
  _ ← st_require (still_claimable candidate run options) ErrCollectionTaskClaimLost;
  _ ← verifyTaskScopeLocked run scope;
  busy ← scopeHasRunningTask run scope;
  _ ← st_require (negb busy) ErrCollectionTaskUnavailable;
  windows ← (if CollectionTaskWindowed run.(Run.TaskType)
             then claim_windows run options view else mret []);
  affectedRows ← db_update (fun r => run_has_id run.(Run.ID) r && (r.(Run.Status) == "pending")
                     && sql_text_eq r.(Run.LastRequestID) run.(Run.LastRequestID))
                   (claimed_run options);
  _ ← st_require (affectedRows =? 1) ErrCollectionTaskClaimLost;
  let run' := claimed_run options run in
  _ ← recalculateTaskBackfillStatuses run' options.(ClaimOptions.Now);
  mret (Claim.mk run' windows options.(ClaimOptions.RequestID)).

(** ** The queue order *)
Module ClaimCursor.
Record collectionTaskClaimCursor := mk {
  Priority : Z; InitialStart : Z; End_ : Z; CreatedWithoutStart : Z; NextAttemptAt : Z;
  CreatedAt : Z; ID : Z }.
End ClaimCursor.
Abbreviation collectionTaskClaimCursor := ClaimCursor.collectionTaskClaimCursor.

(** [collectionTaskClaimOrder]: the ORDER BY expressions of the query. *)
Definition collectionTaskClaimOrder (r : CollectionRun) : sort_key :=
  [AInt (0 - r.(Run.Priority));
   AInt (match r.(Run.StartTimestamp) with
         | Some s => if r.(Run.Priority) =? 50 then s else -1
         | None => -1 end);
   AInt (match r.(Run.EndTimestamp) with
         | Some e => if r.(Run.Priority) =? 50 then max_int64 else 0 - e
         | None => max_int64 end);
   AInt (match r.(Run.StartTimestamp) with None => r.(Run.CreatedAt) | Some _ => -1 end);
   AInt r.(Run.NextAttemptAt); AInt r.(Run.CreatedAt); AInt r.(Run.ID)].

(** [newCollectionTaskClaimCursor]: the same keys computed by the program;
    [int64(^uint64(0) >> 1)] is the largest int64. *)
Definition newCollectionTaskClaimCursor (run : CollectionRun) : collectionTaskClaimCursor :=
  ClaimCursor.mk (wrap64 (- run.(Run.Priority)))
    (if run.(Run.Priority) =? CollectionPriorityInitialBackfill
     then default (-1) run.(Run.StartTimestamp) else -1)
    (if run.(Run.Priority) =? CollectionPriorityInitialBackfill then max_int64
     else match run.(Run.EndTimestamp) with Some e => wrap64 (- e) | None => max_int64 end)
    (match run.(Run.StartTimestamp) with None => run.(Run.CreatedAt) | Some _ => -1 end)
    run.(Run.NextAttemptAt) run.(Run.CreatedAt) run.(Run.ID).

(** The tuple of [collectionTaskClaimAfterCursor]. *)
Definition cursor_key (c : collectionTaskClaimCursor) : sort_key :=
  [AInt c.(ClaimCursor.Priority); AInt c.(ClaimCursor.InitialStart); AInt c.(ClaimCursor.End_);
   AInt c.(ClaimCursor.CreatedWithoutStart); AInt c.(ClaimCursor.NextAttemptAt);
   AInt c.(ClaimCursor.CreatedAt); AInt c.(ClaimCursor.ID)].

(** The WHERE clause of the queue query, without the cursor. *)
Definition claim_eligible (options : CollectionTaskClaimOptions) (r : CollectionRun) : bool :=
  (r.(Run.Status) == "pending") && not_nil r.(Run.WindowsInitializedAt)
  && (r.(Run.NextAttemptAt) <=? options.(ClaimOptions.Now))
  && is_one_of r.(Run.TaskType) options.(ClaimOptions.TaskTypes)
  && match options.(ClaimOptions.Priority) with Some p => r.(Run.Priority) =? p | None => true end
  && match options.(ClaimOptions.ExcludePriority) with
     | Some p => negb (r.(Run.Priority) =? p) | None => true end.

Definition after_cursor (cursor : option collectionTaskClaimCursor) (r : CollectionRun) : bool :=
  match cursor with
  | Some c => bool_decide (key_lt (cursor_key c) (collectionTaskClaimOrder r))
  | None => true
  end.

(** The errors after which the loop tries the next candidate. *)
Definition skip_error (e : error) : bool :=
  (e == ErrCollectionTaskUnavailable) || (e == ErrCollectionTaskClaimLost).

(** Tries the candidates in order; [None]: none of them could be claimed. *)
Fixpoint claim_first (candidates : list CollectionRun) (options : CollectionTaskClaimOptions)
    (view : LockView) : Tx (option CollectionTaskClaim) := fun d =>
  match candidates with
  | [] => Ok (None, d)
  | candidate :: rest =>
      match claimCandidate candidate options view d with
      | Ok (claim, d') => Ok (Some claim, d')
      | Err e => if skip_error e then claim_first rest options view d else Err e
      end
  end.

(** The paging loop; [fuel] bounds the number of pages. *)
Fixpoint claim_pages (fuel : nat) (cursor : option collectionTaskClaimCursor)
    (options : CollectionTaskClaimOptions) (view : LockView) : Tx CollectionTaskClaim :=
  match fuel with
  | O => st_fail (ErrOther "fuel")
  | S fuel' =>
      found ← db_select (fun r => claim_eligible options r && after_cursor cursor r)
                collectionTaskClaimOrder;
      let limit := Z.to_nat options.(ClaimOptions.ScanLimit) in
      let candidates := take limit found in
      claimed ← claim_first candidates options view;
      match claimed with
      | Some claim => mret claim
      | None =>
          if Nat.ltb (List.length candidates) limit then st_fail ErrCollectionTaskUnavailable
          else match last candidates with
          | Some r => claim_pages fuel' (Some (newCollectionTaskClaimCursor r)) options view
          | None => st_fail (ErrOther "index out of range")
          end
      end
  end.

(** The clamping of [MaxWindow] and [ScanLimit]. *)
Definition normalize_claim_options (options : CollectionTaskClaimOptions) : CollectionTaskClaimOptions :=
  let maxWindow := if bool_decide (options.(ClaimOptions.Priority) = Some CollectionPriorityInitialBackfill)
                   then 2048 else 24 in
  let options := if (options.(ClaimOptions.MaxWindow) <=? 0)
                    || (maxWindow <? options.(ClaimOptions.MaxWindow))
                 then options <| ClaimOptions.MaxWindow := maxWindow |> else options in
  if (options.(ClaimOptions.ScanLimit) <=? 0) || (256 <? options.(ClaimOptions.ScanLimit))
  then options <| ClaimOptions.ScanLimit := 64 |> else options.

Definition claim_options_valid (options : CollectionTaskClaimOptions) : bool :=
  (0 <? options.(ClaimOptions.Now)) && validCollectionRequestID options.(ClaimOptions.RequestID)
  && negb (bool_decide (options.(ClaimOptions.TaskTypes) = []))
  && forallb ValidCollectionTaskType options.(ClaimOptions.TaskTypes).

(** Every full page moves the cursor past at least one run, so one page more
    than there are runs is enough fuel ([ClaimNext_in_queue_order]). *)
Definition ClaimNext (options : CollectionTaskClaimOptions) (view : LockView) : Tx CollectionTaskClaim :=
  fun d =>
  if negb (claim_options_valid options) then Err ErrCollectionRunContract
  else claim_pages (S (S (List.length (table_rows (R := CollectionRun) d)))) None
         (normalize_claim_options options) view d.
