(* ===== verification/TaskCommit.v ===== *)
(** * Committing a claimed task ([model/collection_task.go])

    [CommitClaim] records the outcome of claimed work, [CompleteClaimedWindow]
    records one window together with the database writes of its handler, and
    [ReleaseClaim] gives work back.  All of them act only for the owner of the
    claim: the run must be running under the caller's request id. *)

From S2P Require Import Prelude Constants GoText Store RunContract RunState RunRepository SiteFence TaskScope TaskClaim.

Module WindowResult.
Record CollectionTaskWindowResult := mk {
  WindowID : Z; AttemptCount : Z; Status : string; NextRetryAt : option Z; FetchedRows : Z;
  WrittenRows : Z; ErrorCode : string; ErrorParams : string }.
#[export] Instance result_eta : RecordEta CollectionTaskWindowResult := fun r =>
  mk (WindowID r) (AttemptCount r) (Status r) (NextRetryAt r) (FetchedRows r) (WrittenRows r)
     (ErrorCode r) (ErrorParams r).
End WindowResult.
Export (hints) WindowResult.
Abbreviation CollectionTaskWindowResult := WindowResult.CollectionTaskWindowResult.

Module CommitRequest.
Record CollectionTaskCommitRequest := mk {
  RunID : Z; RequestID : string; Now : Z; RunStatus : string; NextAttemptAt : option Z;
  FetchedRows : Z; WrittenRows : Z; ErrorCode : string; ErrorParams : string;
  Windows : list CollectionTaskWindowResult }.
End CommitRequest.
Abbreviation CollectionTaskCommitRequest := CommitRequest.CollectionTaskCommitRequest.

(** ** Window outcomes *)
Definition terminal_window_status (status : string) : bool :=
  is_one_of status [CollectionTaskStatusSuccess; CollectionTaskStatusFailed; CollectionTaskStatusUnavailable].

(** The checks of one outcome, in the switch on its status. *)
Definition outcome_valid (outcome : CollectionTaskWindowResult) : bool :=
  (0 <? outcome.(WindowResult.WindowID)) && (0 <? outcome.(WindowResult.AttemptCount))
  && (0 <=? outcome.(WindowResult.FetchedRows)) && (0 <=? outcome.(WindowResult.WrittenRows))
  && (if outcome.(WindowResult.Status) == CollectionTaskStatusPending then
        match outcome.(WindowResult.NextRetryAt) with Some next => 0 <? next | None => false end
      else if is_one_of outcome.(WindowResult.Status)
                [CollectionTaskStatusSuccess; CollectionTaskStatusUnavailable] then true
      else if outcome.(WindowResult.Status) == CollectionTaskStatusFailed then
        outcome.(WindowResult.ErrorCode) != ""
      else false).

(** No outcome is given twice. *)
Fixpoint distinct_ids (ids : list Z) : bool :=
  match ids with
  | [] => true
  | id :: rest => negb (one_of_ids rest id) && distinct_ids rest
  end.

Definition outcome_of (outcomes : list CollectionTaskWindowResult) (id : Z)
  : option CollectionTaskWindowResult :=
  List.find (fun o => o.(WindowResult.WindowID) =? id) outcomes.

(** The columns a committed window gets. *)
Definition committed_window (outcome : CollectionTaskWindowResult) (now : Z) (w : CollectionRunWindow)
  : CollectionRunWindow :=
  w <| RunWindow.Status := outcome.(WindowResult.Status) |>
    <| RunWindow.NextRetryAt := outcome.(WindowResult.NextRetryAt) |>
    <| RunWindow.FetchedRows := outcome.(WindowResult.FetchedRows) |>
    <| RunWindow.WrittenRows := outcome.(WindowResult.WrittenRows) |>
    <| RunWindow.ErrorCode := outcome.(WindowResult.ErrorCode) |>
    <| RunWindow.ErrorParams := outcome.(WindowResult.ErrorParams) |>
    <| RunWindow.ErrorMessage := None |>
    <| RunWindow.FinishedAt := if terminal_window_status outcome.(WindowResult.Status)
                               then Some now else None |>
    <| RunWindow.UpdatedAt := now |>.

(** WHERE id = ? AND run_id = ? AND status = 'running' AND attempt_count = ? *)
Definition claimed_row (id run_id attempt : Z) (w : CollectionRunWindow) : bool :=
  (w.(RunWindow.ID) =? id) && of_run run_id w && (w.(RunWindow.Status) == "running")
  && (w.(RunWindow.AttemptCount) =? attempt).

(** The loop over the claimed windows, accumulating the rows fetched and
    written. *)
Definition commit_windows (run_id now : Z) (outcomes : list CollectionTaskWindowResult)
    (claimed : list CollectionRunWindow) : Tx (Z * Z) :=
  st_fold (fun window '(fetched, written) =>
      outcome ← st_lift (match outcome_of outcomes window.(RunWindow.ID) with
                         | Some o => Ok o | None => Err ErrCollectionTaskClaimLost end);
      _ ← st_require ((window.(RunWindow.Status) == CollectionTaskStatusRunning)
                      && (window.(RunWindow.AttemptCount) =? outcome.(WindowResult.AttemptCount)))
                     ErrCollectionTaskClaimLost;
      affectedRows ← db_update (claimed_row window.(RunWindow.ID) run_id outcome.(WindowResult.AttemptCount))
                       (committed_window outcome now);
      _ ← st_require (affectedRows =? 1) ErrCollectionTaskClaimLost;
      mret (wrap64 (fetched + outcome.(WindowResult.FetchedRows)),
            wrap64 (written + outcome.(WindowResult.WrittenRows))))
    claimed (0, 0).

(** ** The run after its windows *)

(** WHERE id = ? AND status = ? AND last_request_id = ? *)
Definition owned_row (id : Z) (status requestID : string) (r : CollectionRun) : bool :=
  run_has_id id r && (r.(Run.Status) == status) && sql_text_eq r.(Run.LastRequestID) requestID.

Definition in_int64 (z : Z) : bool := (min_int64 <=? z) && (z <=? max_int64).

(** [fetched_rows + ?] and [written_rows + ?]: MySQL refuses a sum outside
    bigint. *)
Definition add_rows (where_ : CollectionRun -> bool) (set : CollectionRun -> CollectionRun)
    (fetched written : Z) : Tx Z :=
  fits ← st_gets (fun d => forallb (fun r => negb (where_ r)
           || (in_int64 (r.(Run.FetchedRows) + fetched) && in_int64 (r.(Run.WrittenRows) + written)))
           (table_rows d));
  _ ← st_require fits ErrOutOfRange;
  db_update where_ (fun r => set (r <| Run.FetchedRows := r.(Run.FetchedRows) + fetched |>
                                    <| Run.WrittenRows := r.(Run.WrittenRows) + written |>)).

Definition status_count (status : string) (windows : list CollectionRunWindow) : Z :=
  count (fun w => w.(RunWindow.Status) == status) windows.

Definition known_window_status (status : string) : bool :=
  is_one_of status [CollectionTaskStatusSuccess; CollectionTaskStatusFailed;
                    CollectionTaskStatusUnavailable; CollectionTaskStatusPending;
                    CollectionTaskStatusRunning].

(** The columns [recalculateInitialBackfillRun] sets, in the row and in the run
    held in memory. *)
Definition initial_recalculated (status : string) (terminal : bool) (t : Tally) (now : Z)
    (r : CollectionRun) : CollectionRun :=
  let r := r <| Run.Status := status |> <| Run.CompletedWindows := t.(Tally.completed) |>
             <| Run.FailedWindows := t.(Tally.failed) |> <| Run.UpdatedAt := now |> in
  let r := match t.(Tally.nextAttempt) with
           | Some next => r <| Run.NextAttemptAt := next |> | None => r end in
  if terminal then
    let r := r <| Run.ActiveKey := None |> <| Run.HeartbeatAt := None |> <| Run.FinishedAt := Some now |> in
    if status == CollectionTaskStatusSuccess
    then r <| Run.ErrorCode := "" |> <| Run.ErrorParams := "" |> <| Run.ErrorMessage := None |>
    else r
  else r.

(** The GROUP BY query and MIN(next_retry_at) of the pending windows. *)
Definition initial_tally (now : Z) (windows : list CollectionRunWindow) : Tally :=
  let pending := List.filter (fun w => w.(RunWindow.Status) == CollectionTaskStatusPending) windows in
  Tally.mk (status_count CollectionTaskStatusSuccess windows)
    (status_count CollectionTaskStatusFailed windows)
    (status_count CollectionTaskStatusUnavailable windows)
    (status_count CollectionTaskStatusPending windows)
    (status_count CollectionTaskStatusRunning windows)
    (if 0 <? status_count CollectionTaskStatusPending windows then
       Some (match min_next_retry pending with
             | Some next => if now <? next then next else now
             | None => now end)
     else None) None.

Definition initial_status (total : Z) (t : Tally) : string * bool :=
  let terminal := t.(Tally.completed) + t.(Tally.failed) + t.(Tally.unavailable) =? total in
  (if terminal then if 0 <? t.(Tally.failed) then CollectionTaskStatusFailed else CollectionTaskStatusSuccess
   else if (t.(Tally.running) =? 0) && (0 <? t.(Tally.pending)) then CollectionTaskStatusPending
   else CollectionTaskStatusRunning, terminal).

Definition recalculateInitialBackfillRun (run : CollectionRun) (now : Z) : Tx CollectionRun :=
  if (run.(Run.ID) <=? 0) || (now <=? 0) then st_fail ErrCollectionRunContract
  else
    windows ← db_select (of_run run.(Run.ID)) by_id;
    _ ← st_require (forallb (fun w => known_window_status w.(RunWindow.Status)) windows)
                   ErrCollectionRunContract;
    let t := initial_tally now windows in
    let '(status, terminal) := initial_status run.(Run.TotalWindows) t in
    _ ← db_update (owned_row run.(Run.ID) "running" run.(Run.LastRequestID))
          (initial_recalculated status terminal t now);
    mret (initial_recalculated status terminal t now run
            <| Run.UnavailableWindows := t.(Tally.unavailable) |>).

(** ** commitWindowResults *)
Definition commitWindowResults (run : CollectionRun) (request : CollectionTaskCommitRequest)
  : Tx CollectionRun :=
  let outcomes := request.(CommitRequest.Windows) in
  let ids := WindowResult.WindowID <$> outcomes in
  let now := request.(CommitRequest.Now) in
  let requestID := request.(CommitRequest.RequestID) in
  if negb (forallb outcome_valid outcomes && distinct_ids ids) then st_fail ErrCollectionRunContract
  else
    claimed ← db_select (fun w => of_run run.(Run.ID) w && one_of_ids ids w.(RunWindow.ID)) by_hour_id;
    _ ← st_require (Nat.eqb (List.length claimed) (List.length ids)) ErrCollectionTaskClaimLost;
    '(fetched, written) ← commit_windows run.(Run.ID) now outcomes claimed;
    clock ← st_gets Tables.gorm_now;
    affectedRows ← add_rows (owned_row run.(Run.ID) "running" requestID)
      (fun r => r <| Run.LastRequestID := requestID |> <| Run.UpdatedAt := clock |>) fetched written;
    _ ← st_require (affectedRows =? 1) ErrCollectionTaskClaimLost;
    let run := run <| Run.FetchedRows := wrap64 (run.(Run.FetchedRows) + fetched) |>
                   <| Run.WrittenRows := wrap64 (run.(Run.WrittenRows) + written) |> in
    run ← (if run.(Run.Priority) =? CollectionPriorityInitialBackfill
           then recalculateInitialBackfillRun run now
           else allWindows ← db_select (of_run run.(Run.ID)) by_hour_id;
                RecalculateLockedCollectionRun run allWindows now None);
    if run.(Run.Status) == CollectionTaskStatusPending then
      affectedRows ← db_update (owned_row run.(Run.ID) "pending" requestID)
        (fun r => r <| Run.HeartbeatAt := None |> <| Run.UpdatedAt := clock |>);
      _ ← st_require (affectedRows =? 1) ErrCollectionTaskClaimLost;
      mret (run <| Run.HeartbeatAt := None |>)
    else mret run.

(** ** commitNonWindowResult *)

(** The columns of the three outcomes, apart from the row counters. *)
Definition non_window_columns (request : CollectionTaskCommitRequest) : result (CollectionRun -> CollectionRun) :=
  let now := request.(CommitRequest.Now) in
  let common r := r <| Run.LastRequestID := request.(CommitRequest.RequestID) |> <| Run.UpdatedAt := now |> in
  let closed status r := common r <| Run.Status := status |> <| Run.ActiveKey := None |>
                           <| Run.HeartbeatAt := None |> <| Run.FinishedAt := Some now |> in
  if request.(CommitRequest.RunStatus) == CollectionTaskStatusSuccess then
    Ok (fun r => closed CollectionTaskStatusSuccess r <| Run.ErrorCode := "" |> <| Run.ErrorParams := "" |>)
  else if request.(CommitRequest.RunStatus) == CollectionTaskStatusPending then
    match request.(CommitRequest.NextAttemptAt) with
    | Some next =>
        if next <=? 0 then Err ErrCollectionRunContract
        else Ok (fun r => common r <| Run.Status := CollectionTaskStatusPending |>
               <| Run.HeartbeatAt := None |> <| Run.NextAttemptAt := next |>
               <| Run.ErrorCode := request.(CommitRequest.ErrorCode) |>
               <| Run.ErrorParams := request.(CommitRequest.ErrorParams) |>)
    | None => Err ErrCollectionRunContract
    end
  else if request.(CommitRequest.RunStatus) == CollectionTaskStatusFailed then
    if request.(CommitRequest.ErrorCode) == "" then Err ErrCollectionRunContract
    else Ok (fun r => closed CollectionTaskStatusFailed r
               <| Run.ErrorCode := request.(CommitRequest.ErrorCode) |>
               <| Run.ErrorParams := request.(CommitRequest.ErrorParams) |>)
  else Err ErrCollectionRunContract.

Definition commitNonWindowResult (run : CollectionRun) (request : CollectionTaskCommitRequest)
  : Tx CollectionRun :=
  let fetched := request.(CommitRequest.FetchedRows) in
  let written := request.(CommitRequest.WrittenRows) in
  let now := request.(CommitRequest.Now) in
  if (fetched <? 0) || (written <? 0) then st_fail ErrCollectionRunContract
  else
    columns ← st_lift (non_window_columns request);
    affectedRows ← add_rows (owned_row run.(Run.ID) "running" request.(CommitRequest.RequestID))
                     columns fetched written;
    _ ← st_require (affectedRows =? 1) ErrCollectionTaskClaimLost;
    let run := run <| Run.FetchedRows := wrap64 (run.(Run.FetchedRows) + fetched) |>
                   <| Run.WrittenRows := wrap64 (run.(Run.WrittenRows) + written) |>
                   <| Run.Status := request.(CommitRequest.RunStatus) |> <| Run.UpdatedAt := now |> in
    mret (if request.(CommitRequest.RunStatus) == CollectionTaskStatusPending
          then run <| Run.NextAttemptAt := deref request.(CommitRequest.NextAttemptAt) |>
                   <| Run.HeartbeatAt := None |>
          else run <| Run.ActiveKey := None |> <| Run.HeartbeatAt := None |>
                   <| Run.FinishedAt := Some now |>).

(** ** CommitClaim *)

(** The steps every owner operation starts with: read the run, lock its scope,
    re-read it under lock. *)
Definition lock_run_with_scope (runID : Z) : Tx (CollectionRun * collectionTaskScope) :=
  base ← db_first (R := CollectionRun) runID;
  scope ← resolveTaskScope base;
  _ ← lockTaskScope scope None;
  run ← db_first (R := CollectionRun) runID;
  mret (run, scope).

Definition owned (run : CollectionRun) (requestID : string) : bool :=
  (run.(Run.Status) == CollectionTaskStatusRunning) && (run.(Run.LastRequestID) == requestID).

Definition CommitClaim (request : CollectionTaskCommitRequest) : Tx CollectionRun :=
  let runID := request.(CommitRequest.RunID) in
  let now := request.(CommitRequest.Now) in
  if (runID <=? 0) || (now <=? 0) || negb (validCollectionRequestID request.(CommitRequest.RequestID))
  then st_fail ErrCollectionRunContract
  else
    '(run, scope) ← lock_run_with_scope runID;
    _ ← st_require (owned run request.(CommitRequest.RequestID)) ErrCollectionTaskClaimLost;
    _ ← verifyTaskScopeLocked run scope;
    run ← (if CollectionTaskWindowed run.(Run.TaskType) then
             if (request.(CommitRequest.RunStatus) != "") || bool_decide (request.(CommitRequest.Windows) = [])
             then st_fail ErrCollectionRunContract
             else
               run ← commitWindowResults run request;
               _ ← finalizeLocalRebuildLifecycle run now;
               mret run
           else if bool_decide (request.(CommitRequest.Windows) = [])
           then commitNonWindowResult run request
           else st_fail ErrCollectionRunContract);
    _ ← recalculateTaskBackfillStatuses run now;
    mret run.

(** ** CompleteClaimedWindow *)
Module MutationScope.
Record CollectionTaskWindowMutationScope := mk {
  site : Site; run : CollectionRun; window : CollectionRunWindow }.
End MutationScope.
Abbreviation CollectionTaskWindowMutationScope := MutationScope.CollectionTaskWindowMutationScope.

(** [CollectionTaskWindowMutation]: the deferred writes of a window handler,
    run inside the completion transaction; the result is the rows fetched and
    written. *)
Definition CollectionTaskWindowMutation := CollectionTaskWindowMutationScope -> Tx (Z * Z).

Module CompleteRequest.
Record CompleteClaimedWindowRequest := mk {
  RunID : Z; RequestID : string; Now : Z; Window : CollectionTaskWindowResult;
  Mutation : option CollectionTaskWindowMutation }.
End CompleteRequest.
Abbreviation CompleteClaimedWindowRequest := CompleteRequest.CompleteClaimedWindowRequest.

Definition first_window (id run_id : Z) : Tx CollectionRunWindow := fun d =>
  match select (fun w => (w.(RunWindow.ID) =? id) && of_run run_id w) by_id d with
  | w :: _ => Ok (w, d)
  | [] => Err ErrCollectionTaskClaimLost
  end.

Definition CompleteClaimedWindow (request : CompleteClaimedWindowRequest) : Tx CollectionRun :=
  let runID := request.(CompleteRequest.RunID) in
  let now := request.(CompleteRequest.Now) in
  let outcome := request.(CompleteRequest.Window) in
  let requestID := request.(CompleteRequest.RequestID) in
  if (runID <=? 0) || (now <=? 0) || negb (validCollectionRequestID requestID)
     || (outcome.(WindowResult.WindowID) <=? 0) then st_fail ErrCollectionRunContract
  else
    '(run, scope) ← lock_run_with_scope runID;
    _ ← st_require (owned run requestID && CollectionTaskWindowed run.(Run.TaskType))
                   ErrCollectionTaskClaimLost;
    _ ← verifyTaskScopeLocked run scope;
    window ← first_window outcome.(WindowResult.WindowID) run.(Run.ID);
    _ ← st_require ((window.(RunWindow.Status) == CollectionTaskStatusRunning)
                    && (window.(RunWindow.AttemptCount) =? outcome.(WindowResult.AttemptCount)))
                   ErrCollectionTaskClaimLost;
    outcome ← match request.(CompleteRequest.Mutation) with
              | None => mret outcome
              | Some mutation =>
                  _ ← st_require ((0 <? window.(RunWindow.SiteID))
                        && collectionTaskScopeContainsSite scope window.(RunWindow.SiteID))
                        ErrCollectionRunContract;
                  site ← db_first (R := Site) window.(RunWindow.SiteID);
                  '(fetched, written) ← mutation (MutationScope.mk site run window);
                  mret (outcome <| WindowResult.FetchedRows := fetched |>
                                <| WindowResult.WrittenRows := written |>)
              end;
    run ← commitWindowResults run
            (CommitRequest.mk runID requestID now "" None 0 0 "" "" [outcome]);
    _ ← finalizeLocalRebuildLifecycle run now;
    _ ← recalculateTaskBackfillStatuses run now;
    mret run.

(** ** ReleaseClaim *)
Definition release_outcome (now : Z) (w : CollectionRunWindow) : CollectionTaskWindowResult :=
  WindowResult.mk w.(RunWindow.ID) w.(RunWindow.AttemptCount) CollectionTaskStatusPending (Some now)
    0 0 "" "".

Definition ReleaseClaim (claim : CollectionTaskClaim) (now : Z) : Tx CollectionRun :=
  let id := claim.(Claim.run).(Run.ID) in
  if CollectionTaskWindowed claim.(Claim.run).(Run.TaskType) then
    let outcomes := release_outcome now <$> claim.(Claim.Windows) in
    if bool_decide (outcomes = []) then st_fail ErrCollectionRunContract
    else CommitClaim (CommitRequest.mk id claim.(Claim.RequestID) now "" None 0 0 "" "" outcomes)
  else CommitClaim (CommitRequest.mk id claim.(Claim.RequestID) now CollectionTaskStatusPending
                      (Some now) 0 0 "" "" []).
