(* ===== verification/RunFrames.v ===== *)
(** * Frames of the scope operations and of the hours of a site

    Locking and checking a scope only reads; the statuses a transition writes
    to sites, accounts and customers leave the task queue alone.  Closing a
    claimed window writes the queue and the statuses that depend on it; the
    collection windows of the hours and their facts are written by the handler
    of the window only. *)

From S2P Require Import Prelude Constants GoText Store Frame RunContract RunState RunRepository SiteFence TaskScope TaskClaim TaskCommit.

#[export] Instance resolveTaskScope_reads run : ReadsOnly (resolveTaskScope run).
Proof. unfold resolveTaskScope. solve_frame. Qed.

#[export] Instance lockTaskScope_reads scope skip : ReadsOnly (lockTaskScope scope skip).
Proof. unfold lockTaskScope. solve_frame. Qed.

#[export] Instance verifyTaskScopeLocked_reads run scope : ReadsOnly (verifyTaskScopeLocked run scope).
Proof. unfold verifyTaskScopeLocked. solve_frame. Qed.

#[export] Instance scopeHasRunningTask_reads run scope : ReadsOnly (scopeHasRunningTask run scope).
Proof. unfold scopeHasRunningTask. solve_frame. Qed.

#[export] Instance LockRunnableSiteSnapshot_reads site version :
  ReadsOnly (LockRunnableSiteSnapshot site version).
Proof. unfold LockRunnableSiteSnapshot, FindByIDForUpdate. solve_frame. Qed.

#[export] Instance expectedSiteRunWindowHours_reads run : ReadsOnly (expectedSiteRunWindowHours run).
Proof. unfold expectedSiteRunWindowHours. solve_frame. Qed.

#[export] Instance buildSiteFencePlan_reads site : ReadsOnly (buildSiteFencePlan site).
Proof. unfold buildSiteFencePlan. solve_frame. Qed.

#[export] Instance UsageBackfillStatisticsStatus_reads site version :
  ReadsOnly (UsageBackfillStatisticsStatus site version).
Proof. unfold UsageBackfillStatisticsStatus. solve_frame. Qed.

(** Reading is a special case of leaving any part alone. *)
Lemma reads_preserves {X A} (proj : Db -> X) (m : Tx A) : ReadsOnly m -> Preserves proj m.
Proof. intros Hm d a d' H. by rewrite (Hm d a d' H). Qed.

#[export] Instance UsageBackfillStatisticsStatus_frame site version :
  Preserves run_state (UsageBackfillStatisticsStatus site version).
Proof. apply reads_preserves, _. Qed.

#[export] Instance batch_accounts_frame rows now :
  Preserves run_state (batchUpdateSiteFenceStatuses set_account_status rows now).
Proof. unfold batchUpdateSiteFenceStatuses. solve_frame. Qed.

#[export] Instance batch_customers_frame rows now :
  Preserves run_state (batchUpdateSiteFenceStatuses set_customer_status rows now).
Proof. unfold batchUpdateSiteFenceStatuses. solve_frame. Qed.

#[export] Instance recalculateSiteFenceBackfillStatuses_frame plan now :
  Preserves run_state (recalculateSiteFenceBackfillStatuses plan now).
Proof. unfold recalculateSiteFenceBackfillStatuses. solve_frame. Qed.

#[export] Instance recalculateTaskBackfillStatuses_frame run now :
  Preserves run_state (recalculateTaskBackfillStatuses run now).
Proof. unfold recalculateTaskBackfillStatuses. solve_frame. Qed.

#[export] Instance finalizeLocalRebuildLifecycle_frame run now :
  Preserves run_state (finalizeLocalRebuildLifecycle run now).
Proof.
  unfold finalizeLocalRebuildLifecycle, finalizeAccountRebuildLifecycle,
    finalizeCustomerRebuildLifecycle, resume_customer_accounts. solve_frame.
Qed.

(** What the outcome of a collected hour writes. *)
Definition hour_state (d : Db) := (Tables.collection_window d, Tables.usage_fact_hourly d).
(** The hours a site expects, and the statistics. *)
Definition usage_range (s : Site) := (s.(MSite.ID), s.(MSite.StatisticsStartAt), s.(MSite.StatisticsEndAt)).
Definition statistics_state (d : Db) := (Tables.statistics d, usage_range <$> Tables.site d, Tables.auto_other d).

(** A part of the database outside the queue and the statuses that depend on it. *)
Class OutsideQueue {X : Type} (proj : Db -> X) : Prop := {
  outside_runs (p : CollectionRun -> bool) f : Preserves proj (db_update p f);
  outside_run_windows (p : CollectionRunWindow -> bool) f : Preserves proj (db_update p f);
  outside_accounts (p : Account -> bool) f : Preserves proj (db_update p f);
  outside_customers (p : Customer -> bool) f : Preserves proj (db_update p f);
  outside_sites (p : Site -> bool) f : (forall s, usage_range (f s) = usage_range s) -> Preserves proj (db_update p f)
}.
#[export] Existing Instances outside_runs outside_run_windows outside_accounts outside_customers.
#[export] Hint Extern 2 (Preserves _ (db_update (R := Site) _ _)) =>
  (apply outside_sites; reflexivity) : typeclass_instances.

#[export] Instance hour_state_outside : OutsideQueue hour_state.
Proof. split; intros; apply preserves_update; reflexivity. Qed.

#[export] Instance statistics_state_outside : OutsideQueue statistics_state.
Proof.
  split; intros; try (apply preserves_update; reflexivity).
  intros d n d' Hu. apply db_update_ok in Hu as [_ ->]. unfold statistics_state. simpl. do 2 f_equal.
  apply map_eq. intros k. rewrite !lookup_fmap, lookup_update_where.
  destruct (Tables.site d !! k) as [s|]; [|done]. simpl. unfold upd. destruct (p s); [by rewrite H|done].
Qed.

(** Everything outside the queue is the same. *)
Definition same_outside (d d' : Db) : Prop := forall X (proj : Db -> X), OutsideQueue proj -> proj d' = proj d.

Section Queue.
Context {X : Type} (proj : Db -> X) `{!OutsideQueue proj}.

#[export] Instance UsageBackfillStatisticsStatus_hours site version :
  Preserves proj (UsageBackfillStatisticsStatus site version).
Proof. apply reads_preserves, _. Qed.

#[export] Instance batch_accounts_hours rows now :
  Preserves proj (batchUpdateSiteFenceStatuses set_account_status rows now).
Proof. unfold batchUpdateSiteFenceStatuses. solve_frame. Qed.

#[export] Instance batch_customers_hours rows now :
  Preserves proj (batchUpdateSiteFenceStatuses set_customer_status rows now).
Proof. unfold batchUpdateSiteFenceStatuses. solve_frame. Qed.

#[export] Instance recalculateSiteFenceBackfillStatuses_hours plan now :
  Preserves proj (recalculateSiteFenceBackfillStatuses plan now).
Proof. unfold recalculateSiteFenceBackfillStatuses. solve_frame. Qed.

#[export] Instance buildSiteFencePlan_hours site : Preserves proj (buildSiteFencePlan site).
Proof. apply reads_preserves, _. Qed.

#[export] Instance recalculateTaskBackfillStatuses_hours run now :
  Preserves proj (recalculateTaskBackfillStatuses run now).
Proof. unfold recalculateTaskBackfillStatuses. solve_frame. Qed.

#[export] Instance finalizeLocalRebuildLifecycle_hours run now :
  Preserves proj (finalizeLocalRebuildLifecycle run now).
Proof.
  unfold finalizeLocalRebuildLifecycle, finalizeAccountRebuildLifecycle,
    finalizeCustomerRebuildLifecycle, resume_customer_accounts. solve_frame.
Qed.

#[export] Instance RecalculateLockedCollectionRun_hours run windows now failure :
  Preserves proj (RecalculateLockedCollectionRun run windows now failure).
Proof. unfold RecalculateLockedCollectionRun. solve_frame. Qed.

#[export] Instance recalculateInitialBackfillRun_hours run now :
  Preserves proj (recalculateInitialBackfillRun run now).
Proof. unfold recalculateInitialBackfillRun. solve_frame. Qed.

(** A commit of window outcomes writes the queue only. *)
#[export] Instance commitWindowResults_hours run request :
  Preserves proj (commitWindowResults run request).
Proof. unfold commitWindowResults, commit_windows, add_rows. solve_frame. Qed.
End Queue.
