(* ===== verification/RunInvariant.v ===== *)
(** * The invariant of the task queue

    Every run's status, active key and counters agree with its windows, rows
    are found under their ids, and at most one site task of a type runs per
    site.  The file states the invariant and the lemmas by which a handler
    that touches one run preserves it. *)

From S2P Require Import Prelude Constants GoText Store Frame RunContract RunState RunRepository SiteFence TaskScope RunFrames TaskClaim TaskCommit.

(** ** Statement *)
Definition windows_of (d : Db) (run_id : Z) : list CollectionRunWindow :=
  base.filter (fun w => of_run run_id w = true) (table_rows d).

Definition terminal (r : CollectionRun) : Prop :=
  r.(Run.Status) = "success" \/ r.(Run.Status) = "failed".

(** The counters and the status of an initialised windowed run. *)
Record settled_counts (r : CollectionRun) (W : list CollectionRunWindow) : Prop := {
  counts_known : forall w, w ∈ W -> known_window_status w.(RunWindow.Status) = true;
  counts_total : r.(Run.TotalWindows) = Z.of_nat (length W);
  counts_completed : r.(Run.CompletedWindows) = status_count "success" W;
  counts_failed : r.(Run.FailedWindows) = status_count "failed" W;
  counts_running : r.(Run.Status) = "running" <-> 0 < status_count "running" W;
  counts_pending : r.(Run.Status) = "pending" -> 0 < status_count "pending" W;
  counts_closed : terminal r -> status_count "pending" W = 0;
  counts_success : r.(Run.Status) = "success" -> status_count "failed" W = 0
}.

Record run_inv (r : CollectionRun) (W : list CollectionRunWindow) : Prop := {
  inv_status : In r.(Run.Status) ["pending"; "running"; "success"; "failed"];
  inv_key : r.(Run.ActiveKey) = None <-> terminal r;
  inv_windowed : CollectionTaskWindowed r.(Run.TaskType) = true ->
    match r.(Run.WindowsInitializedAt) with
    | Some _ => settled_counts r W
    | None => (r.(Run.Status) = "pending" /\ forall w, w ∈ W -> w.(RunWindow.Status) = "pending")
              \/ (r.(Run.Status) = "failed" /\ forall w, w ∈ W -> w.(RunWindow.Status) = "failed")
    end;
  inv_plain : CollectionTaskWindowed r.(Run.TaskType) = false ->
    r.(Run.WindowsInitializedAt) <> None /\ W = []
}.

(** A site task that is running, with the site and type it occupies. *)
Definition running_site_task (r : CollectionRun) (site : Z) (taskType : string) : Prop :=
  r.(Run.Status) = "running" /\ r.(Run.TargetType) = "site" /\ r.(Run.SiteID) = Some site /\
  r.(Run.TaskType) = taskType.

(** A site task belongs to the site it targets. *)
Definition site_target (r : CollectionRun) : Prop :=
  r.(Run.TargetType) = "site" -> r.(Run.SiteID) = Some r.(Run.TargetID).

Record queue_inv (d : Db) : Prop := {
  queue_runs_wf : table_wf (Tables.collection_run d);
  queue_windows_wf : table_wf (Tables.collection_run_window d);
  queue_run_inv : forall k r, Tables.collection_run d !! k = Some r -> run_inv r (windows_of d k);
  queue_run_ids : forall k r, Tables.collection_run d !! k = Some r -> 0 < k < Tables.auto_run d;
  queue_window_ids : forall k w, Tables.collection_run_window d !! k = Some w ->
    k < Tables.auto_run_window d /\ w.(RunWindow.RunID) < Tables.auto_run d;
  queue_auto : 0 < Tables.auto_run d;
  queue_target : forall k r, Tables.collection_run d !! k = Some r -> site_target r;
  queue_exclusive : forall k1 r1 k2 r2 site taskType,
    Tables.collection_run d !! k1 = Some r1 -> Tables.collection_run d !! k2 = Some r2 ->
    running_site_task r1 site taskType -> running_site_task r2 site taskType -> k1 = k2
}.

(** ** Permutations do not matter *)
#[export] Instance status_count_perm s : Proper (Permutation ==> eq) (status_count s).
Proof. intros W W' H. unfold status_count. by rewrite H. Qed.

Lemma settled_counts_perm r W W' : W ≡ₚ W' -> settled_counts r W -> settled_counts r W'.
Proof.
  intros HW [Hk Ht Hc Hf Hr Hp Hcl Hs]. split; rewrite <- ?HW; auto.
  intros w Hw. apply Hk. by rewrite HW.
Qed.

#[export] Instance run_inv_perm : Proper (eq ==> Permutation ==> iff) run_inv.
Proof.
  assert (forall r W W', W ≡ₚ W' -> run_inv r W -> run_inv r W') as Hone.
  { intros r W W' HW [Hst Hkey Hw Hp]. split; auto.
    - intros Hwin. specialize (Hw Hwin). case_match; [by eapply settled_counts_perm|].
      destruct Hw as [[? Ha]|[? Ha]]; [left|right]; (split; [done|]); intros w; rewrite <- HW; auto.
    - intros Hwin. destruct (Hp Hwin) as [? ->]. split; [done|].
      by apply Permutation_nil_l in HW. }
  intros r _ <- W W' HW. split; apply Hone; [done|by symmetry].
Qed.

(** ** The windows of a run under an update *)
Lemma filter_fmap_upd {R} (q p : R -> bool) (f : R -> R) (l : list R) :
  (forall r, q (f r) = q r) ->
  base.filter (fun r => q r = true) (upd p f <$> l) = upd p f <$> base.filter (fun r => q r = true) l.
Proof.
  intros Hq. induction l as [|x l IH]; [done|]. rewrite fmap_cons, !filter_cons.
  assert (q (upd p f x) = q x) as -> by (unfold upd; by case_match).
  case_decide; rewrite ?fmap_cons; by rewrite IH.
Qed.

Lemma windows_of_update d p f k :
  (forall w, (f w).(RunWindow.RunID) = w.(RunWindow.RunID)) ->
  windows_of (set_table (update_where p f (table d)) d) k ≡ₚ upd p f <$> windows_of d k.
Proof.
  intros Hf. unfold windows_of, table_rows.
  change (table (set_table ?t d)) with t. rewrite rows_update.
  rewrite filter_fmap_upd; [done|]. intros w. unfold of_run. by rewrite Hf.
Qed.

Lemma upd_id_on {R} (p : R -> bool) (f : R -> R) (l : list R) : (forall x, x ∈ l -> p x = false) -> upd p f <$> l = l.
Proof.
  intros H. induction l as [|x l IH]; [done|]. rewrite fmap_cons.
  rewrite IH by set_solver. unfold upd. by rewrite H by set_solver.
Qed.

Lemma elem_of_windows_of d k w :
  w ∈ windows_of d k <-> of_run k w = true /\ exists id, Tables.collection_run_window d !! id = Some w.
Proof. unfold windows_of, table_rows. rewrite list_elem_of_filter, elem_of_rows. done. Qed.

(** A statement that only matches windows of another run. *)
Lemma windows_of_update_other d p f k k' :
  (forall w, (f w).(RunWindow.RunID) = w.(RunWindow.RunID)) ->
  (forall id w, Tables.collection_run_window d !! id = Some w -> p w = true -> of_run k w = true) ->
  k' <> k ->
  windows_of (set_table (update_where p f (table d)) d) k' ≡ₚ windows_of d k'.
Proof.
  intros Hf Hp Hne. rewrite windows_of_update by done. rewrite upd_id_on; [done|].
  intros w (Hof&id&Hid)%elem_of_windows_of. destruct (p w) eqn:Hpw; [|done].
  specialize (Hp id w Hid Hpw). unfold of_run in *. to_prop. congruence.
Qed.

Lemma windows_of_run_update d p (f : CollectionRun -> CollectionRun) k :
  windows_of (set_table (update_where p f (table d)) d) k = windows_of d k.
Proof. done. Qed.

(** ** Counting *)
Lemma status_count_cons s w W :
  status_count s (w :: W) = (if w.(RunWindow.Status) == s then 1 else 0) + status_count s W.
Proof. unfold status_count. by rewrite count_cons. Qed.

Lemma status_count_nonneg s W : 0 <= status_count s W.
Proof. apply count_nonneg. Qed.

Lemma status_count_pos s W : 0 < status_count s W <-> exists w, w ∈ W /\ w.(RunWindow.Status) = s.
Proof.
  unfold status_count. rewrite count_pos. split; intros (w&Hw&Hs); exists w; to_prop; done.
Qed.

Lemma status_count_zero s W : status_count s W = 0 <-> forall w, w ∈ W -> w.(RunWindow.Status) <> s.
Proof.
  unfold status_count. rewrite count_zero. split; intros H w Hw; specialize (H w Hw); to_prop; done.
Qed.

(** Counts depend on the statuses alone. *)
Lemma status_count_statuses s W W' :
  (RunWindow.Status <$> W) ≡ₚ (RunWindow.Status <$> W') -> status_count s W = status_count s W'.
Proof.
  intros H. assert (forall l, status_count s l = count (fun x => x == s) (RunWindow.Status <$> l)) as Hc.
  { induction l as [|w l IH]; [done|]. rewrite status_count_cons, fmap_cons, count_cons. by rewrite IH. }
  by rewrite !Hc, H.
Qed.

Lemma known_window_status_spec s : known_window_status s = true <->
  s = "success" \/ s = "failed" \/ s = "unavailable" \/ s = "pending" \/ s = "running".
Proof.
  unfold known_window_status. rewrite is_one_of_In.
  unfold CollectionTaskStatusSuccess, CollectionTaskStatusFailed, CollectionTaskStatusUnavailable,
    CollectionTaskStatusPending, CollectionTaskStatusRunning. simpl. intuition.
Qed.

Lemma known_statuses_perm W W' :
  (RunWindow.Status <$> W) ≡ₚ (RunWindow.Status <$> W') ->
  (forall w, w ∈ W -> known_window_status w.(RunWindow.Status) = true) ->
  forall w, w ∈ W' -> known_window_status w.(RunWindow.Status) = true.
Proof.
  intros Hp Hk w Hw. assert (w.(RunWindow.Status) ∈ RunWindow.Status <$> W) as Hin.
  { rewrite Hp. by apply list_elem_of_fmap_2. }
  apply list_elem_of_fmap in Hin as (w'&->&Hw'). by apply Hk.
Qed.

(** Windows with known statuses are counted exactly once. *)
Lemma status_count_total W :
  (forall w, w ∈ W -> known_window_status w.(RunWindow.Status) = true) ->
  status_count "success" W + status_count "failed" W + status_count "unavailable" W
  + status_count "pending" W + status_count "running" W = Z.of_nat (length W).
Proof.
  induction W as [|w W IH]; intros Hk; [done|]. rewrite !status_count_cons.
  specialize (IH ltac:(set_solver)). specialize (Hk w ltac:(set_solver)).
  apply known_window_status_spec in Hk. cbn [length].
  destruct Hk as [-> |[-> |[-> |[-> | ->]]]]; rewrite !bool_decide_decide; simpl; lia.
Qed.

(** ** What the loop over the windows computes *)
Definition tally_counts (t : Tally) (W : list CollectionRunWindow) (t' : Tally) : Prop :=
  t'.(Tally.completed) = t.(Tally.completed) + status_count "success" W /\
  t'.(Tally.failed) = t.(Tally.failed) + status_count "failed" W /\
  t'.(Tally.unavailable) = t.(Tally.unavailable) + status_count "unavailable" W /\
  t'.(Tally.pending) = t.(Tally.pending) + status_count "pending" W /\
  t'.(Tally.running) = t.(Tally.running) + status_count "running" W.

(** The next attempt is the earliest candidate of the pending windows. *)
Fixpoint earliest (now : Z) (next : option Z) (W : list CollectionRunWindow) : option Z :=
  match W with
  | [] => next
  | w :: rest => earliest now (if w.(RunWindow.Status) == "pending"
                               then earlier next (window_candidate now w) else next) rest
  end.

Lemma tally_windows_spec now W : forall t t',
  tally_windows now t W = Ok t' ->
  tally_counts t W t' /\ t'.(Tally.nextAttempt) = earliest now t.(Tally.nextAttempt) W /\
  (forall w, w ∈ W -> known_window_status w.(RunWindow.Status) = true).
Proof.
  unfold tally_counts.
  induction W as [|w W IH]; intros t t'; cbn [tally_windows earliest].
  { intros [= ->]. unfold status_count. rewrite !count_nil. repeat split; try lia. set_solver. }
  unfold tally_window, mbind, result_bind. rewrite !status_count_cons.
  repeat match goal with
  | |- match (if ?c then _ else _) with _ => _ end = _ -> _ =>
      destruct c eqn:?Hc; to_prop
  end; try done; intros Ht; apply IH in Ht as ((H1&H2&H3&H4&H5)&Hn&Hk); simpl in *;
  match goal with H : w.(RunWindow.Status) = _ |- _ => rewrite H in * end;
  rewrite ?bool_decide_decide; simpl; repeat split; try lia; try done;
  try (intros w' [-> |Hw']%elem_of_cons; [|by apply Hk]);
  try (apply known_window_status_spec; tauto);
  destruct (RunWindow.ErrorCode w != ""); simpl in *; try lia; try done.
Qed.

(** ** The recalculated run satisfies the invariant *)

(** Columns no handler of the queue changes after creation. *)
Definition run_identity (r : CollectionRun) :=
  (r.(Run.ID), r.(Run.SiteID), r.(Run.SiteConfigVersion), r.(Run.TaskType), r.(Run.TargetType),
   r.(Run.TargetID)).

Lemma recalculated_identity status term failure t now r :
  run_identity (recalculated status term failure t now r) = run_identity r.
Proof. unfold recalculated, run_identity. by repeat case_match. Qed.

Lemma recalculated_fields status term failure t now r :
  let r' := recalculated status term failure t now r in
  r'.(Run.Status) = status /\ r'.(Run.CompletedWindows) = t.(Tally.completed) /\
  r'.(Run.FailedWindows) = t.(Tally.failed) /\ r'.(Run.TotalWindows) = r.(Run.TotalWindows) /\
  r'.(Run.WindowsInitializedAt) = r.(Run.WindowsInitializedAt) /\
  r'.(Run.TaskType) = r.(Run.TaskType) /\
  r'.(Run.ActiveKey) = (if term then None else r.(Run.ActiveKey)).
Proof. unfold recalculated. by repeat case_match. Qed.

Lemma derive_status_spec total t status term failure :
  derive_status total t = Ok (status, term, failure) ->
  let closed := t.(Tally.completed) + t.(Tally.failed) + t.(Tally.unavailable) = total in
  (term = true /\ closed /\ status = (if 0 <? t.(Tally.failed) then "failed" else "success")) \/
  (term = false /\ ~ closed /\
   ((status = "running" /\ 0 < t.(Tally.running)) \/
    (status = "pending" /\ t.(Tally.running) <= 0 /\ 0 < t.(Tally.pending)))).
Proof.
  unfold derive_status. intros H. cbv zeta.
  destruct (_ =? total) eqn:Hc; to_prop.
  - left. destruct (0 <? Tally.failed t) eqn:?; by injection H as <- <- <-.
  - right. destruct (0 <? Tally.running t) eqn:?; to_prop.
    + injection H as <- <- <-. tauto.
    + destruct (0 <? Tally.pending t) eqn:?; to_prop; [|done]. injection H as <- <- <-. tauto.
Qed.

(** The status derived from the counts of the windows satisfies the
    invariant, whatever function writes the columns. *)
Lemma derived_run_inv r' W t status term failure :
  tally_counts empty_tally W t ->
  (forall w, w ∈ W -> known_window_status w.(RunWindow.Status) = true) ->
  derive_status (Z.of_nat (length W)) t = Ok (status, term, failure) ->
  r'.(Run.Status) = status -> r'.(Run.CompletedWindows) = t.(Tally.completed) ->
  r'.(Run.FailedWindows) = t.(Tally.failed) -> r'.(Run.TotalWindows) = Z.of_nat (length W) ->
  r'.(Run.WindowsInitializedAt) <> None -> CollectionTaskWindowed r'.(Run.TaskType) = true ->
  (r'.(Run.ActiveKey) = None <-> term = true) ->
  run_inv r' W.
Proof.
  intros (Hc&Hf&Hu&Hp&Hr) Hk Hd Hst Hcomp Hfail Htot Hinit Hwin Hkey.
  pose proof (status_count_total W Hk) as Hsum.
  pose proof (status_count_nonneg "pending" W). pose proof (status_count_nonneg "running" W).
  pose proof (status_count_nonneg "failed" W).
  simpl in Hc, Hf, Hu, Hp, Hr.
  apply derive_status_spec in Hd as [(->&Hcl&Hs)|(->&Hncl&Hs)].
  - assert (terminal r') as Hterm.
    { unfold terminal. rewrite Hst, Hs. destruct (0 <? _); auto. }
    split; [rewrite Hst, Hs; destruct (0 <? _); simpl; auto|tauto| |by rewrite Hwin].
    intros _. destruct (Run.WindowsInitializedAt r'); [|done].
    split; [done|done|lia|lia| | |intros _; lia|].
    + split; intros Hr'; [|lia]. destruct Hterm; congruence.
    + intros Hpe. destruct Hterm; congruence.
    + intros Hsu. rewrite Hst, Hs in Hsu. destruct (0 <? Tally.failed t) eqn:?; to_prop; [done|lia].
  - assert (~ terminal r') as Hterm.
    { unfold terminal. rewrite Hst. destruct Hs as [[-> _]|[-> _]]; intros [?|?]; done. }
    assert (r'.(Run.ActiveKey) = None <-> terminal r') as Hkey'.
    { split; [intros Hn; by apply Hkey in Hn|done]. }
    split; [rewrite Hst; destruct Hs as [[-> _]|[-> _]]; simpl; auto|done| |by rewrite Hwin].
    intros _. destruct (Run.WindowsInitializedAt r'); [|done].
    split; [done|done|lia|lia| | |done|].
    + rewrite Hst. destruct Hs as [[-> ?]|(->&?&?)]; split; intros; try lia; done.
    + rewrite Hst. destruct Hs as [[-> ?]|(->&?&?)]; intros; try lia; done.
    + intros Hsu. destruct Hterm. by left.
Qed.

(** A forced failure closes the run once no window is open. *)
Lemma forced_run_inv r' W t :
  tally_counts empty_tally W t ->
  (forall w, w ∈ W -> known_window_status w.(RunWindow.Status) = true) ->
  (forall w, w ∈ W -> open_status w.(RunWindow.Status) = false) ->
  r'.(Run.Status) = "failed" -> r'.(Run.ActiveKey) = None ->
  r'.(Run.CompletedWindows) = t.(Tally.completed) -> r'.(Run.FailedWindows) = t.(Tally.failed) ->
  (r'.(Run.WindowsInitializedAt) <> None -> r'.(Run.TotalWindows) = Z.of_nat (length W)) ->
  (CollectionTaskWindowed r'.(Run.TaskType) = true -> r'.(Run.WindowsInitializedAt) = None ->
     forall w, w ∈ W -> w.(RunWindow.Status) = "failed") ->
  (CollectionTaskWindowed r'.(Run.TaskType) = false -> r'.(Run.WindowsInitializedAt) <> None /\ W = []) ->
  run_inv r' W.
Proof.
  intros (Hc&Hf&Hu&Hp&Hr) Hk Hopen Hst Hkey Hcomp Hfail Htot Hnone Hplain.
  simpl in Hc, Hf, Hu, Hp, Hr.
  assert (Hzero : forall s, open_status s = true -> status_count s W = 0).
  { intros s Hs. apply status_count_zero. intros w Hw <-. by rewrite Hopen in Hs. }
  assert (terminal r') as Hterm by by right.
  split; [rewrite Hst; simpl; auto|tauto| |done].
  intros Hwin. destruct (Run.WindowsInitializedAt r') eqn:Hi; [|right; auto].
  split; [done|by apply Htot|lia|lia| | |intros _; by apply Hzero|].
  - rewrite (Hzero "running") by done. rewrite Hst. split; [done|lia].
  - by rewrite Hst.
  - by rewrite Hst.
Qed.

(** ** Transactions that touch a single run *)
Record touches (i : Z) (d d' : Db) : Prop := {
  touch_runs_wf : table_wf (Tables.collection_run d) -> table_wf (Tables.collection_run d');
  touch_windows_wf :
    table_wf (Tables.collection_run_window d) -> table_wf (Tables.collection_run_window d');
  touch_other_runs : forall k, k <> i -> Tables.collection_run d' !! k = Tables.collection_run d !! k;
  touch_same_run : forall r', Tables.collection_run d' !! i = Some r' ->
    exists r, Tables.collection_run d !! i = Some r /\ run_identity r' = run_identity r;
  touch_other_windows : forall k, k <> i -> windows_of d' k ≡ₚ windows_of d k;
  touch_length : length (windows_of d' i) = length (windows_of d i);
  touch_window_rows : forall k w', Tables.collection_run_window d' !! k = Some w' ->
    exists w, Tables.collection_run_window d !! k = Some w /\ w'.(RunWindow.RunID) = w.(RunWindow.RunID);
  touch_auto_run : Tables.auto_run d' = Tables.auto_run d;
  touch_auto_window : Tables.auto_run_window d' = Tables.auto_run_window d
}.

#[export] Instance touches_refl i : Reflexive (touches i).
Proof. intros d. split; eauto. Qed.

#[export] Instance touches_trans i : Transitive (touches i).
Proof.
  intros d1 d2 d3 [A1 A2 A3 A4 A5 A6 A7 A8 A9] [B1 B2 B3 B4 B5 B6 B7 B8 B9]. split.
  - auto.
  - auto.
  - intros k Hk. rewrite B3, A3 by done. done.
  - intros r3 H3. apply B4 in H3 as (r2&H2&E2). apply A4 in H2 as (r1&H1&E1).
    exists r1. split; [done|congruence].
  - intros k Hk. rewrite B5, A5 by done. done.
  - congruence.
  - intros k w3 H3. apply B7 in H3 as (w2&H2&E2). apply A7 in H2 as (w1&H1&E1).
    exists w1. split; [done|congruence].
  - congruence.
  - congruence.
Qed.

Lemma touches_frame i d d' : run_state d' = run_state d -> touches i d d'.
Proof.
  unfold run_state. intros [= Hr Hw Ha Haw]. split; rewrite ?Hr, ?Hw, ?Ha, ?Haw; auto; try by eauto.
  - intros k _. unfold windows_of, table_rows. simpl. by rewrite Hw.
  - unfold windows_of, table_rows. simpl. by rewrite Hw.
Qed.

(** An UPDATE on runs that matches only the run [i]. *)
Lemma touches_run_update i d p f :
  (forall r, p r = true -> r.(Run.ID) = i) -> (forall r, run_identity (f r) = run_identity r) ->
  table_wf (Tables.collection_run d) ->
  touches i d (set_table (R := CollectionRun) (update_where p f (table d)) d).
Proof.
  intros Hp Hf Hwf. split; simpl; auto.
  - intros _. apply table_wf_update; [|done]. intros r. simpl. specialize (Hf r).
    unfold run_identity in Hf. congruence.
  - intros k Hk. rewrite lookup_update_where.
    destruct (Tables.collection_run d !! k) as [r|] eqn:Hr; [|done]. simpl. f_equal.
    unfold upd. destruct (p r) eqn:Hpr; [|done]. apply Hp in Hpr. apply Hwf in Hr. simpl in Hr. congruence.
  - intros r'. rewrite lookup_update_where. intros (r&Hr&->)%fmap_Some_1. exists r. split; [done|].
    unfold upd. case_match; [apply Hf|done].
  - intros k w' Hk. eauto.
Qed.

(** An UPDATE on windows that matches only windows of the run [i]. *)
Lemma touches_window_update i d p f :
  (forall k w, Tables.collection_run_window d !! k = Some w -> p w = true -> of_run i w = true) ->
  (forall w, (f w).(RunWindow.ID) = w.(RunWindow.ID) /\ (f w).(RunWindow.RunID) = w.(RunWindow.RunID)) ->
  touches i d (set_table (R := CollectionRunWindow) (update_where p f (table d)) d).
Proof.
  intros Hp Hf. split; try done.
  - intros Hwf. apply table_wf_update; [|done]. intros w. apply Hf.
  - intros r' Hr'. by exists r'.
  - intros k Hk. eapply windows_of_update_other; [apply Hf|exact Hp|done].
  - rewrite windows_of_update by apply Hf. by rewrite length_fmap.
  - intros k w'. simpl. rewrite lookup_update_where. intros (w&Hw&->)%fmap_Some_1. exists w.
    split; [done|]. unfold upd. case_match; [apply Hf|done].
Qed.

(** A run newly running must not share its site and type with another. *)
Definition newly_exclusive (d : Db) (i : Z) (r' : CollectionRun) : Prop :=
  forall k r site taskType, k <> i -> Tables.collection_run d !! k = Some r ->
    running_site_task r site taskType -> ~ running_site_task r' site taskType.

Lemma running_site_task_identity r r' site taskType :
  run_identity r' = run_identity r -> r.(Run.Status) = "running" ->
  running_site_task r' site taskType -> running_site_task r site taskType.
Proof. unfold run_identity, running_site_task. intros [= ? ? ? ? ? ?] ? (?&?&?&?). repeat split; congruence. Qed.

(** The invariant survives a transaction that touches one run and leaves that
    run well formed. *)
Lemma queue_inv_touch i d d' :
  queue_inv d -> touches i d d' ->
  (forall r', Tables.collection_run d' !! i = Some r' ->
     run_inv r' (windows_of d' i) /\
     (r'.(Run.Status) = "running" ->
        (exists r, Tables.collection_run d !! i = Some r /\ r.(Run.Status) = "running") \/
        newly_exclusive d i r')) ->
  queue_inv d'.
Proof.
  intros Hinv Ht Hi. destruct Hinv as [Hrwf Hwwf Hrun Hid Hwid Hauto Htarget Hex].
  destruct Ht as [Trw Tww Tro Tsr Tow Tl Twr Ta Taw].
  assert (Hexi : forall k r r' site taskType, k <> i -> Tables.collection_run d !! k = Some r ->
      Tables.collection_run d' !! i = Some r' ->
      running_site_task r site taskType -> running_site_task r' site taskType -> False).
  { intros k r r' site taskType Hk Hr Hr' Hrun1 Hrun2.
    destruct (Hi r' Hr') as [_ [(r0&Hr0&Hst0)|Hne]]; [by destruct Hrun2| |by eapply Hne].
    destruct (Tsr r' Hr') as (r1&Hr1&Hident). rewrite Hr0 in Hr1. injection Hr1 as <-.
    apply Hk. eapply (Hex k r i r0); eauto using running_site_task_identity. }
  split; auto.
  - intros k r' Hk. destruct (decide (k = i)) as [-> |Hne]; [by apply Hi|].
    rewrite Tro in Hk by done. rewrite Tow by done. auto.
  - intros k r' Hk. rewrite Ta. destruct (decide (k = i)) as [-> |Hne].
    + destruct (Tsr r' Hk) as (r&Hr&_). eauto.
    + rewrite Tro in Hk by done. eauto.
  - intros k w' Hk. rewrite Ta, Taw. apply Twr in Hk as (w&Hw&->). eauto.
  - by rewrite Ta.
  - intros k r' Hk. destruct (decide (k = i)) as [-> |Hne].
    + destruct (Tsr r' Hk) as (r&Hr&Hident). specialize (Htarget i r Hr).
      unfold site_target, run_identity in *. injection Hident as E1 E2 E3 E4 E5 E6.
      intros Hsite. rewrite E5 in Hsite. specialize (Htarget Hsite). congruence.
    + rewrite Tro in Hk by done. eauto.
  - intros k1 r1 k2 r2 site taskType H1 H2 R1 R2.
    destruct (decide (k1 = i)) as [-> |Hn1]; destruct (decide (k2 = i)) as [-> |Hn2]; [done| | |].
    + rewrite Tro in H2 by done. exfalso. by eapply (Hexi k2).
    + rewrite Tro in H1 by done. exfalso. by eapply (Hexi k1).
    + rewrite Tro in H1, H2 by done. eauto.
Qed.

Lemma queue_inv_frame d d' : queue_inv d -> run_state d' = run_state d -> queue_inv d'.
Proof.
  intros Hinv Hf. apply (queue_inv_touch 0 d d' Hinv (touches_frame 0 d d' Hf)).
  unfold run_state in Hf. injection Hf as Hr Hw Ha Haw. intros r' Hr'. rewrite Hr in Hr'.
  destruct (queue_run_ids d Hinv 0 r' Hr'). lia.
Qed.

(** ** The recalculation as a transaction *)
Lemma recalculate_ok run Wm now d run' d' :
  RecalculateLockedCollectionRun run Wm now None d = Ok (run', d') ->
  ~ terminal run ->
  exists t status term failure,
    tally_windows now empty_tally Wm = Ok t /\ run.(Run.WindowsInitializedAt) <> None /\
    run.(Run.TotalWindows) = Z.of_nat (length Wm) /\
    derive_status run.(Run.TotalWindows) t = Ok (status, term, failure) /\
    d' = set_table (update_where (run_has_id run.(Run.ID)) (recalculated status term failure t now)
                      (table d)) d /\
    run' = recalculated status term failure t now run
             <| Run.UnavailableWindows := t.(Tally.unavailable) |>.
Proof.
  unfold RecalculateLockedCollectionRun. past_guard Hg.
  destruct (is_nil None && _) eqn:Hterm.
  { intros _ Hn. destruct Hn. cbn in Hterm. to_prop. unfold terminal. tauto. }
  clear Hterm. intros H _.
  apply st_bind_ok in H as (t&d1&Ht&H). apply st_lift_ok in Ht as (t'&Ht&[= -> ->]).
  apply st_bind_ok in H as ([]&d2&Hreq&H). apply st_require_ok in Hreq as (Hreq&[= ->]).
  apply st_bind_ok in H as ([[status term] failure]&d3&Hder&H).
  apply st_lift_ok in Hder as (x&Hder&[= <- ->]).
  destruct (Run.WindowsInitializedAt run) as [init|] eqn:Hinit; [|done]. cbn in Hder, Hreq.
  apply st_bind_ok in H as (n&d4&Hupd&H). apply db_update_ok in Hupd as [-> ->].
  apply st_ret_ok in H as [= -> ->].
  exists t', status, term, failure. split; [done|]. split; [done|]. split; [|done].
  by rewrite negb_true_iff, negb_false_iff, Z.eqb_eq in Hreq.
Qed.

Lemma set_table_runs_lookup d p f k :
  Tables.collection_run (set_table (R := CollectionRun) (update_where p f (table d)) d) !! k
  = upd p f <$> Tables.collection_run d !! k.
Proof. apply (lookup_update_where (R := CollectionRun)). Qed.

(** A run under its own id. *)
Lemma upd_own (d : Db) i r f :
  table_wf (Tables.collection_run d) -> Tables.collection_run d !! i = Some r ->
  upd (run_has_id i) f r = f r.
Proof.
  intros Hwf Hr. unfold upd, run_has_id. apply Hwf in Hr. simpl in Hr. by rewrite Hr, Z.eqb_refl.
Qed.

Lemma recalculate_inv d i row run Wm now run' d' :
  Tables.collection_run d !! i = Some row -> table_wf (Tables.collection_run d) ->
  run.(Run.ID) = i -> ~ terminal run -> run.(Run.TotalWindows) = row.(Run.TotalWindows) ->
  run.(Run.WindowsInitializedAt) = row.(Run.WindowsInitializedAt) ->
  CollectionTaskWindowed row.(Run.TaskType) = true -> row.(Run.ActiveKey) <> None ->
  (RunWindow.Status <$> Wm) ≡ₚ (RunWindow.Status <$> windows_of d i) ->
  RecalculateLockedCollectionRun run Wm now None d = Ok (run', d') ->
  touches i d d' /\
  exists row', Tables.collection_run d' !! i = Some row' /\ run_inv row' (windows_of d' i) /\
    run'.(Run.Status) = row'.(Run.Status) /\ run_identity row' = run_identity row.
Proof.
  intros Hrow Hwf Hid Hnt Htot Hinit Hwin Hkey Hstat Hrec.
  apply recalculate_ok in Hrec as (t&status&term&failure&Ht&Hi&Hlen&Hder&->&->); [|done].
  rewrite Hid. split.
  { apply touches_run_update; [|intros; apply recalculated_identity|done].
    intros r Hr. unfold run_has_id in Hr. by to_prop. }
  rewrite set_table_runs_lookup, Hrow. simpl. rewrite (upd_own d i row) by done.
  eexists. split; [reflexivity|].
  pose proof (recalculated_fields status term failure t now row) as (F1&F2&F3&F4&F5&F6&F7).
  pose proof (recalculated_fields status term failure t now run) as (G1&_).
  split; [|split; [exact (eq_trans G1 (eq_sym F1))|apply recalculated_identity]].
  apply tally_windows_spec in Ht as ((C1&C2&C3&C4&C5)&_&Hk).
  assert (Hlen' : length Wm = length (windows_of d i)).
  { apply Permutation_length in Hstat. by rewrite !length_fmap in Hstat. }
  apply (derived_run_inv _ (windows_of d i) t status term failure).
  - unfold tally_counts. rewrite C1, C2, C3, C4, C5.
    repeat split; f_equal; by apply status_count_statuses.
  - by eapply known_statuses_perm.
  - by rewrite <- Hlen', <- Hlen.
  - done.
  - done.
  - done.
  - rewrite F4, <- Htot, Hlen. by rewrite Hlen'.
  - rewrite F5, <- Hinit. done.
  - by rewrite F6.
  - rewrite F7. destruct term; [done|]. by split.
Qed.

Lemma initial_recalculated_fields status term t now r :
  let r' := initial_recalculated status term t now r in
  r'.(Run.Status) = status /\ r'.(Run.CompletedWindows) = t.(Tally.completed) /\
  r'.(Run.FailedWindows) = t.(Tally.failed) /\ r'.(Run.TotalWindows) = r.(Run.TotalWindows) /\
  r'.(Run.WindowsInitializedAt) = r.(Run.WindowsInitializedAt) /\
  r'.(Run.TaskType) = r.(Run.TaskType) /\
  r'.(Run.ActiveKey) = (if term then None else r.(Run.ActiveKey)) /\
  run_identity r' = run_identity r.
Proof.
  unfold initial_recalculated, run_identity.
  destruct (Tally.nextAttempt t), term; try destruct (status == _); done.
Qed.

(** The derived status of the initial backfill agrees with [derive_status]
    when the run counts all its windows. *)
Lemma initial_status_derives W t :
  (forall w, w ∈ W -> known_window_status w.(RunWindow.Status) = true) ->
  tally_counts empty_tally W t ->
  exists failure, derive_status (Z.of_nat (length W)) t
    = Ok (fst (initial_status (Z.of_nat (length W)) t), snd (initial_status (Z.of_nat (length W)) t), failure).
Proof.
  intros Hk (Hc&Hf&Hu&Hp&Hr). pose proof (status_count_total W Hk) as Hsum.
  pose proof (status_count_nonneg "pending" W). pose proof (status_count_nonneg "running" W).
  simpl in Hc, Hf, Hu, Hp, Hr. unfold derive_status, initial_status.
  destruct (_ =? Z.of_nat (length W)) eqn:Hcl.
  - destruct (0 <? Tally.failed t); simpl; eauto.
  - to_prop. cbn [fst snd].
    destruct (0 <? Tally.running t) eqn:Hrun; to_prop.
    + rewrite (proj2 (Z.eqb_neq (Tally.running t) 0)) by lia. simpl. eauto.
    + rewrite (proj2 (Z.eqb_eq (Tally.running t) 0)) by lia.
      rewrite (proj2 (Z.ltb_lt 0 (Tally.pending t))) by lia. simpl. eauto.
Qed.

Lemma initial_tally_counts now W : tally_counts empty_tally W (initial_tally now W).
Proof. unfold tally_counts. simpl. repeat split; lia. Qed.

Lemma recalculate_initial_inv d i row run now run' d' :
  Tables.collection_run d !! i = Some row -> table_wf (Tables.collection_run d) ->
  run.(Run.ID) = i -> run.(Run.TotalWindows) = row.(Run.TotalWindows) ->
  row.(Run.Status) = "running" -> row.(Run.LastRequestID) = run.(Run.LastRequestID) ->
  row.(Run.WindowsInitializedAt) <> None -> row.(Run.TotalWindows) = Z.of_nat (length (windows_of d i)) ->
  CollectionTaskWindowed row.(Run.TaskType) = true -> row.(Run.ActiveKey) <> None ->
  recalculateInitialBackfillRun run now d = Ok (run', d') ->
  touches i d d' /\
  exists row', Tables.collection_run d' !! i = Some row' /\ run_inv row' (windows_of d' i) /\
    run'.(Run.Status) = row'.(Run.Status) /\ run_identity row' = run_identity row.
Proof.
  intros Hrow Hwf Hid Htot Hst Hreq Hinit Hlen Hwin Hkey.
  unfold recalculateInitialBackfillRun. past_guard Hg. intros H.
  apply st_bind_ok in H as (W&d1&Hsel&H). apply db_select_ok in Hsel as [-> ->].
  apply st_bind_ok in H as ([]&d2&Hk&H). apply st_require_ok in Hk as (Hk&[= ->]).
  rewrite Hid in *. set (W := select (of_run i) by_id d) in *.
  assert (HW : W ≡ₚ windows_of d i) by apply select_perm.
  assert (Hknown : forall w, w ∈ W -> known_window_status (RunWindow.Status w) = true).
  { intros w Hw. apply (proj1 (forallb_forall _ W) Hk). by apply list_elem_of_In. }
  destruct (initial_status (Run.TotalWindows run) (initial_tally now W)) as [status term] eqn:Hs.
  apply st_bind_ok in H as (n&d3&Hupd&H). apply db_update_ok in Hupd as [-> ->].
  apply st_ret_pair in H as [-> ->]. split.
  { apply touches_run_update; [|intros; by apply initial_recalculated_fields|done].
    intros r Hr. unfold owned_row, run_has_id in Hr. to_prop. tauto. }
  rewrite set_table_runs_lookup, Hrow. simpl.
  assert (upd (owned_row i "running" (Run.LastRequestID run)) (initial_recalculated status term (initial_tally now W) now) row
          = initial_recalculated status term (initial_tally now W) now row) as ->.
  { unfold upd, owned_row, run_has_id. apply Hwf in Hrow. simpl in Hrow.
    rewrite Hrow, Z.eqb_refl, Hst, Hreq, sql_text_eq_refl. done. }
  eexists. split; [reflexivity|].
  pose proof (initial_recalculated_fields status term (initial_tally now W) now row)
    as (F1&F2&F3&F4&F5&F6&F7&F8).
  pose proof (initial_recalculated_fields status term (initial_tally now W) now run) as (G1&_).
  split; [|split; [exact (eq_trans G1 (eq_sym F1))|exact F8]].
  assert (HlenW : Run.TotalWindows run = Z.of_nat (length W)) by (rewrite HW; congruence).
  destruct (initial_status_derives W (initial_tally now W) Hknown (initial_tally_counts now W))
    as [failure Hder].
  rewrite <- HlenW, Hs in Hder. simpl in Hder.
  change (windows_of _ i) with (windows_of d i). rewrite <- HW.
  apply (derived_run_inv _ W (initial_tally now W) status term failure); try done.
  - by rewrite <- HlenW.
  - rewrite F4. congruence.
  - by rewrite F5.
  - by rewrite F6.
  - rewrite F7. destruct term; [done|]. by split.
Qed.

(** ** A fenced run *)
Lemma fail_window_fields failure now w :
  let w' := fail_window failure now w in
  w'.(RunWindow.Status) = "failed" /\ w'.(RunWindow.ID) = w.(RunWindow.ID) /\
  w'.(RunWindow.RunID) = w.(RunWindow.RunID).
Proof. done. Qed.

Lemma open_status_spec s : open_status s = true <-> s = "pending" \/ s = "running".
Proof. unfold open_status. rewrite is_one_of_In. simpl. intuition. Qed.

Lemma forced_recalculate_ok run Wm now f d run' d' :
  RecalculateLockedCollectionRun run Wm now (Some f) d = Ok (run', d') ->
  exists t, tally_windows now empty_tally Wm = Ok t /\
    (run.(Run.WindowsInitializedAt) <> None -> run.(Run.TotalWindows) = Z.of_nat (length Wm)) /\
    d' = set_table (update_where (run_has_id run.(Run.ID)) (recalculated "failed" true (Some f) t now)
                      (table d)) d /\
    run' = recalculated "failed" true (Some f) t now run
             <| Run.UnavailableWindows := t.(Tally.unavailable) |>.
Proof.
  unfold RecalculateLockedCollectionRun. past_guard Hg. simpl is_nil. cbn [andb]. intros H.
  apply st_bind_ok in H as (t&d1&Ht&H). apply st_lift_ok in Ht as (t'&Ht&[= -> ->]).
  apply st_bind_ok in H as ([]&d2&Hreq&H). apply st_require_ok in Hreq as (Hreq&[= ->]).
  apply st_bind_ok in H as ([[status term] failure]&d3&Hder&H).
  apply st_lift_ok in Hder as (x&Hder&[= <- ->]).
  destruct (RunFailure.Code f == ""); [done|]. injection Hder as <- <- <-.
  apply st_bind_ok in H as (n&d4&Hupd&H). apply db_update_ok in Hupd as [-> ->].
  apply st_ret_ok in H as [= -> ->]. exists t'. split; [done|]. split; [|done].
  intros Hi. destruct (Run.WindowsInitializedAt run); [|done]. cbn in Hreq.
  by rewrite negb_true_iff, negb_false_iff, Z.eqb_eq in Hreq.
Qed.

(** The windows a fence finds in a run are the run's windows. *)
Lemma fail_locked_inv d i row Wm failure now run' d' :
  queue_inv d -> Tables.collection_run d !! i = Some row -> Wm ≡ₚ windows_of d i ->
  ~ terminal row ->
  FailLockedCollectionRun row Wm failure now d = Ok (run', d') ->
  touches i d d' /\
  exists row', Tables.collection_run d' !! i = Some row' /\ run_inv row' (windows_of d' i) /\
    row'.(Run.Status) = "failed" /\ row'.(Run.ActiveKey) = None.
Proof.
  intros Hinv Hrow HWm Hnt. pose proof (queue_runs_wf d Hinv) as Hwf.
  assert (Hid : row.(Run.ID) = i) by (by apply Hwf in Hrow).
  pose proof (queue_run_inv d Hinv i row Hrow) as [Ist Ikey Iwin Iplain].
  unfold FailLockedCollectionRun. past_guard Hg. intros H.
  apply st_bind_ok in H as (n&d1&Hupd&H). apply db_update_ok in Hupd as [-> ->].
  apply forced_recalculate_ok in H as (t&Ht&Htot&->&->). rewrite Hid in *.
  set (p := fun w => of_run i w && open_status (RunWindow.Status w)) in *.
  set (d1 := set_table (update_where p (fail_window failure now) (table d)) d) in *.
  assert (Ht1 : touches i d d1).
  { apply touches_window_update; [|done]. intros k w _ Hp. unfold p in Hp. to_prop. tauto. }
  split.
  { etransitivity; [exact Ht1|]. apply touches_run_update; [|intros; apply recalculated_identity|done].
    intros r Hr. unfold run_has_id in Hr. by to_prop. }
  rewrite set_table_runs_lookup. change (Tables.collection_run d1) with (Tables.collection_run d).
  rewrite Hrow. simpl. rewrite (upd_own d i row) by done. eexists. split; [reflexivity|].
  pose proof (recalculated_fields "failed" true (Some failure) t now row) as (F1&F2&F3&F4&F5&F6&F7).
  split; [|done].
  set (W' := (fun w => if open_status (RunWindow.Status w) then fail_window failure now w else w) <$> Wm) in *.
  assert (HW' : W' ≡ₚ windows_of d1 i).
  { unfold d1. rewrite windows_of_update by done. unfold W'. rewrite HWm.
    apply Permutation_refl', list_fmap_ext. intros j w Hw%list_elem_of_lookup_2.
    apply elem_of_windows_of in Hw as [Hof _]. unfold upd, p. by rewrite Hof. }
  apply tally_windows_spec in Ht as (Hc&_&Hk).
  change (windows_of (set_table (update_where (run_has_id i) _ (table d1)) d1) i) with (windows_of d1 i).
  rewrite <- HW'. apply (forced_run_inv _ W' t); try done.
  - intros w (w0&->&_)%list_elem_of_fmap. destruct (open_status (RunWindow.Status w0)) eqn:Ho; [done|done].
  - rewrite F5, F6. intros Hw Hnone w (w0&->&Hw0)%list_elem_of_fmap.
    specialize (Iwin Hw). rewrite Hnone in Iwin. rewrite HWm in Hw0.
    destruct Iwin as [[_ Ha]|[Hf _]]; [|by destruct Hnt; right].
    rewrite (proj2 (open_status_spec _)); [done|]. left. by apply Ha.
  - rewrite F5, F6. intros Hw. destruct (Iplain Hw) as [? Hnil]. split; [done|].
    rewrite Hnil in HWm. apply Permutation_nil_r in HWm. unfold W'. by rewrite HWm.
Qed.
