(* ===== verification/TaskRecovery.v ===== *)
(** * Leases, release and recovery ([model/collection_task.go])

    [Heartbeat] keeps a claim alive; [ReleaseOwnedRunning] returns an owner's
    unfinished windows to the queue or fails the exhausted ones;
    [RecoverRunning] does the same for runs whose lease is stale, and for
    every running run after a restart. *)

From S2P Require Import Prelude Constants GoText Store RunContract RunState RunRepository SiteFence TaskScope TaskClaim TaskCommit.

Definition CollectionTaskLeaseLostCode : string := "WORKER_LEASE_LOST".
Definition CollectionTaskExecutionFailedCode : string := "WORKER_EXECUTION_FAILED".

(** ** The attempt budget *)
Module AttemptPolicy.
Record CollectionTaskAttemptPolicy := mk {
  DefaultMaxAttempts : Z; MaxAttempts : gmap string Z }.
End AttemptPolicy.
Abbreviation CollectionTaskAttemptPolicy := AttemptPolicy.CollectionTaskAttemptPolicy.

(** A missing map entry reads as zero. *)
Definition maxAttempts (policy : CollectionTaskAttemptPolicy) (taskType : string) : Z :=
  let value := default 0 (policy.(AttemptPolicy.MaxAttempts) !! taskType) in
  if 0 <? value then value
  else if 0 <? policy.(AttemptPolicy.DefaultMaxAttempts) then policy.(AttemptPolicy.DefaultMaxAttempts)
  else 3.

(** The columns a running window gets: back to the queue while attempts are
    left, failed otherwise. *)
Definition requeue_window (now : Z) (w : CollectionRunWindow) : CollectionRunWindow :=
  w <| RunWindow.Status := CollectionTaskStatusPending |> <| RunWindow.NextRetryAt := Some now |>
    <| RunWindow.FinishedAt := None |> <| RunWindow.UpdatedAt := now |>.
Definition exhaust_window (code : string) (now : Z) (w : CollectionRunWindow) : CollectionRunWindow :=
  w <| RunWindow.Status := CollectionTaskStatusFailed |> <| RunWindow.NextRetryAt := None |>
    <| RunWindow.FinishedAt := Some now |> <| RunWindow.ErrorCode := code |>
    <| RunWindow.ErrorParams := "" |> <| RunWindow.UpdatedAt := now |>.
Definition settle_window (code : string) (now limit : Z) (w : CollectionRunWindow) : CollectionRunWindow :=
  if w.(RunWindow.AttemptCount) <? limit then requeue_window now w else exhaust_window code now w.

(** The fields the code changes in the slice it holds: the row keeps its other
    columns there, and the recalculation reads only these. *)
Definition settle_in_memory (code : string) (now limit : Z) (w : CollectionRunWindow) : CollectionRunWindow :=
  if w.(RunWindow.Status) == CollectionTaskStatusRunning then
    if w.(RunWindow.AttemptCount) <? limit
    then w <| RunWindow.Status := CollectionTaskStatusPending |> <| RunWindow.NextRetryAt := Some now |>
    else w <| RunWindow.Status := CollectionTaskStatusFailed |> <| RunWindow.ErrorCode := code |>
           <| RunWindow.FinishedAt := Some now |>
  else w.

(** ** ReleaseOwnedRunning *)

(** ORDER BY site_id ASC, hour_ts ASC, id ASC *)
Definition by_site_hour (w : CollectionRunWindow) : sort_key :=
  [AInt w.(RunWindow.SiteID); AInt w.(RunWindow.HourTS); AInt w.(RunWindow.ID)].

(** The loop over the windows: running windows are settled, one statement
    each, and counted. *)
Definition release_windows (runID now limit : Z) (windows : list CollectionRunWindow) : Tx Z :=
  st_fold (fun window released =>
      if window.(RunWindow.Status) != CollectionTaskStatusRunning then mret released
      else
        affectedRows ← db_update (claimed_row window.(RunWindow.ID) runID window.(RunWindow.AttemptCount))
          (settle_window CollectionTaskExecutionFailedCode now limit);
        _ ← st_require (affectedRows =? 1) ErrCollectionTaskClaimLost;
        mret (released + 1)) windows 0.

Definition ReleaseOwnedRunning (runID : Z) (requestID : string) (now : Z)
    (policy : CollectionTaskAttemptPolicy) : Tx Z :=
  if (runID <=? 0) || negb (validCollectionRequestID requestID) || (now <=? 0)
  then st_fail ErrCollectionRunContract
  else
    '(run, _) ← lock_run_with_scope runID;
    if negb (owned run requestID) then mret 0
    else if negb (CollectionTaskWindowed run.(Run.TaskType)) then
      db_update (owned_row runID "running" requestID)
        (fun r => r <| Run.Status := CollectionTaskStatusPending |> <| Run.HeartbeatAt := None |>
                    <| Run.NextAttemptAt := now |> <| Run.UpdatedAt := now |>)
    else
      windows ← db_select (of_run runID) by_site_hour;
      let limit := maxAttempts policy run.(Run.TaskType) in
      released ← release_windows runID now limit windows;
      if released =? 0 then mret 0
      else
        let idle r := r <| Run.HeartbeatAt := None |> <| Run.UpdatedAt := now |> in
        affectedRows ← db_update (owned_row runID "running" requestID) idle;
        _ ← st_require (affectedRows =? 1) ErrCollectionTaskClaimLost;
        let windows := settle_in_memory CollectionTaskExecutionFailedCode now limit <$> windows in
        run ← (if run.(Run.Priority) =? CollectionPriorityInitialBackfill
               then recalculateInitialBackfillRun (idle run) now
               else RecalculateLockedCollectionRun (idle run) windows now None);
        _ ← recalculateTaskBackfillStatuses run now;
        mret released.

(** ** Heartbeat *)
Definition Heartbeat (runID : Z) (requestID : string) (now : Z) : Tx unit :=
  if (runID <=? 0) || negb (validCollectionRequestID requestID) || (now <=? 0)
  then st_fail ErrCollectionRunContract
  else
    run ← db_first (R := CollectionRun) runID;
    scope ← resolveTaskScope run;
    _ ← lockTaskScope scope None;
    affectedRows ← db_update (owned_row runID "running" requestID)
      (fun r => r <| Run.HeartbeatAt := Some now |> <| Run.UpdatedAt := now |>);
    st_require (affectedRows =? 1) ErrCollectionTaskClaimLost.

(** ** RecoverRunning *)

(** Whether the lease may be taken over: always after a restart, otherwise when
    the heartbeat is missing or older than [staleBefore]. *)
Definition lease_stale (staleBefore : option Z) (run : CollectionRun) : bool :=
  match staleBefore, run.(Run.HeartbeatAt) with
  | Some limit, Some heartbeat => heartbeat <? limit
  | _, _ => true
  end.

(** The loop over the windows of a recovered run. *)
Definition recover_windows (now limit : Z) (windows : list CollectionRunWindow) : Tx unit :=
  st_fold (fun window _ =>
      if window.(RunWindow.Status) != CollectionTaskStatusRunning then mret tt
      else
        _ ← db_update (fun w => (w.(RunWindow.ID) =? window.(RunWindow.ID))
                         && (w.(RunWindow.Status) == "running"))
              (if window.(RunWindow.AttemptCount) <? limit then requeue_window now
               else exhaust_window CollectionTaskLeaseLostCode now);
        mret tt) windows tt.

(** The columns of a run without windows whose lease is lost. *)
Definition recovered_run (now limit : Z) (attempt : Z) (r : CollectionRun) : CollectionRun :=
  let r := r <| Run.HeartbeatAt := None |> <| Run.UpdatedAt := now |>
             <| Run.ErrorCode := CollectionTaskLeaseLostCode |> in
  if attempt <? limit
  then r <| Run.Status := CollectionTaskStatusPending |> <| Run.NextAttemptAt := now |>
  else r <| Run.Status := CollectionTaskStatusFailed |> <| Run.ActiveKey := None |>
         <| Run.FinishedAt := Some now |>.

(** The part of [recoverRun] after the lease check. *)
Definition recover_locked_run (run : CollectionRun) (now : Z) (policy : CollectionTaskAttemptPolicy)
  : Tx bool :=
  let limit := maxAttempts policy run.(Run.TaskType) in
  run ← (if CollectionTaskWindowed run.(Run.TaskType) then
           windows ← db_select (of_run run.(Run.ID)) by_hour_id;
           _ ← recover_windows now limit windows;
           run ← RecalculateLockedCollectionRun run
                   (settle_in_memory CollectionTaskLeaseLostCode now limit <$> windows) now None;
           if run.(Run.Status) == CollectionTaskStatusPending then
             clock ← st_gets Tables.gorm_now;
             _ ← db_update (run_has_id run.(Run.ID))
                   (fun r => r <| Run.HeartbeatAt := None |> <| Run.UpdatedAt := clock |>);
             mret (run <| Run.HeartbeatAt := None |>)
           else mret run
         else
           _ ← db_update (fun r => run_has_id run.(Run.ID) r && (r.(Run.Status) == "running"))
                 (recovered_run now limit run.(Run.RetryCount));
           (* the code keeps the run's other fields; only the status, the key and the
              timestamps below change in memory *)
           mret (let run' := recovered_run now limit run.(Run.RetryCount) run in
                 run' <| Run.UpdatedAt := run.(Run.UpdatedAt) |>
                      <| Run.ErrorCode := run.(Run.ErrorCode) |>));
  _ ← recalculateTaskBackfillStatuses run now;
  mret true.

Definition recoverRun (runID now : Z) (staleBefore : option Z) (policy : CollectionTaskAttemptPolicy)
  : Tx bool := fun d =>
  match table (R := CollectionRun) d !! runID with
  | None => Ok (false, d)
  | Some _ =>
      ('(run, _) ← lock_run_with_scope runID;
       if (run.(Run.Status) != CollectionTaskStatusRunning) || negb (lease_stale staleBefore run)
       then mret false
       else recover_locked_run run now policy) d
  end.

(** The outer loop runs one transaction per run and stops at the first error,
    keeping what earlier transactions committed: the database, the number of
    runs recovered and the error. *)
Fixpoint recover_all (ids : list Z) (now : Z) (staleBefore : option Z)
    (policy : CollectionTaskAttemptPolicy) (recovered : Z) (d : Db) : Z * option error * Db :=
  match ids with
  | [] => (recovered, None, d)
  | id :: rest =>
      match recoverRun id now staleBefore policy d with
      | Ok (changed, d') =>
          recover_all rest now staleBefore policy (if (changed : bool) then recovered + 1 else recovered) d'
      | Err e => (recovered, Some e, d)
      end
  end.

Definition RecoverRunning (now : Z) (staleBefore : option Z) (policy : CollectionTaskAttemptPolicy)
    (d : Db) : Z * option error * Db :=
  if now <=? 0 then (0, Some ErrCollectionRunContract, d)
  else recover_all
    (Run.ID <$> select (fun r => (r.(Run.Status) == "running")
        && match staleBefore with
           | Some limit => match r.(Run.HeartbeatAt) with Some h => h <? limit | None => true end
           | None => true end) by_id d)
    now staleBefore policy 0 d.
