(* ===== verification/Materialize.v ===== *)
(** * Materialising the windows of a run ([model/collection_task.go])

    A windowed run is created without windows.  [MaterializeRunWindows] inserts
    them in batches, each in its own transaction, and opens the run in a last
    one; every transaction recomputes the expected windows under lock. *)

From S2P Require Import Prelude Constants GoText Store RunContract RunState RunRepository SiteFence TaskScope TaskRecovery.

Module WindowKey.
Record CollectionTaskWindowKey := mk { SiteID : Z; HourTS : Z }.
#[export] Instance key_eq_dec : EqDecision CollectionTaskWindowKey.
Proof. solve_decision. Defined.
End WindowKey.
Export (hints) WindowKey.
Abbreviation CollectionTaskWindowKey := WindowKey.CollectionTaskWindowKey.

Definition window_key (w : CollectionRunWindow) : CollectionTaskWindowKey :=
  WindowKey.mk w.(RunWindow.SiteID) w.(RunWindow.HourTS).

(** ORDER BY priority DESC, created_at ASC, id ASC *)
Definition by_materialization (r : CollectionRun) : sort_key :=
  [AInt (- r.(Run.Priority)); AInt r.(Run.CreatedAt); AInt r.(Run.ID)].

Definition PendingMaterializationRunIDs (limit : Z) : Tx (list Z) :=
  let limit := if (limit <=? 0) || (1000 <? limit) then 100 else limit in
  runs ← db_select (fun r => (r.(Run.Status) == "pending") && is_nil r.(Run.WindowsInitializedAt))
           by_materialization;
  mret (Run.ID <$> take (Z.to_nat limit) runs).

(** [expectedTaskWindowKeys] *)
Definition expectedTaskWindowKeys (run : CollectionRun) (scope : collectionTaskScope)
  : Tx (list CollectionTaskWindowKey) :=
  if negb (CollectionTaskWindowed run.(Run.TaskType)) then st_fail ErrCollectionRunContract
  else match run.(Run.StartTimestamp), run.(Run.EndTimestamp) with
  | Some start, Some end_ =>
      if run.(Run.TargetType) == "site" then
        hours ← expectedSiteRunWindowHours run;
        mret (WindowKey.mk (deref run.(Run.SiteID)) <$> hours)
      else if (run.(Run.TargetType) == "account") || (run.(Run.TargetType) == "customer") then
        mret (scope.(TaskScope.SiteIDs) ≫= fun siteID => WindowKey.mk siteID <$> hours_between start end_)
      else st_fail ErrCollectionRunContract
  | _, _ => st_fail ErrCollectionRunContract
  end.

Definition same_materialization (base run : CollectionRun) : bool :=
  (run.(Run.Status) == CollectionTaskStatusPending) && is_nil run.(Run.WindowsInitializedAt)
  && (run.(Run.TaskType) == base.(Run.TaskType)) && (run.(Run.TargetType) == base.(Run.TargetType))
  && (run.(Run.TargetID) =? base.(Run.TargetID))
  && equalInt64Pointers run.(Run.SiteID) base.(Run.SiteID)
  && equalInt64Pointers run.(Run.StartTimestamp) base.(Run.StartTimestamp)
  && equalInt64Pointers run.(Run.EndTimestamp) base.(Run.EndTimestamp).

Definition lockMaterializationExpectation (base : CollectionRun)
  : Tx (CollectionRun * list CollectionTaskWindowKey) :=
  scope ← resolveTaskScope base;
  _ ← lockTaskScope scope None;
  run ← db_first (R := CollectionRun) base.(Run.ID);
  _ ← st_require (same_materialization base run) ErrCollectionTaskClaimLost;
  _ ← verifyTaskScopeLocked run scope;
  expected ← expectedTaskWindowKeys run scope;
  mret (run, expected).

Definition loadMaterializationExpectation (runID : Z)
  : Tx (list CollectionTaskWindowKey * CollectionRun) :=
  run ← db_first (R := CollectionRun) runID;
  '(locked, expected) ← lockMaterializationExpectation run;
  mret (expected, locked).

(** A pending window as the batch inserts it; the other columns are zero. *)
Definition pending_window (run_id now : Z) (key : CollectionTaskWindowKey) : CollectionRunWindow :=
  RunWindow.mk 0 run_id key.(WindowKey.SiteID) key.(WindowKey.HourTS) CollectionTaskStatusPending
    0 None 0 0 "" "" None None None now.

Definition same_window_row (a b : CollectionRunWindow) : bool :=
  (a.(RunWindow.RunID) =? b.(RunWindow.RunID)) && (a.(RunWindow.SiteID) =? b.(RunWindow.SiteID))
  && (a.(RunWindow.HourTS) =? b.(RunWindow.HourTS)).

(** INSERT ... ON DUPLICATE KEY UPDATE id = id on (run_id, site_id, hour_ts) *)
Definition insert_window_ignore (w : CollectionRunWindow) : Tx unit :=
  n ← db_count (same_window_row w);
  if 0 <? n then mret tt else _ ← db_create w; mret tt.

(** One batch: the expectation is recomputed under lock, then the chunk is
    inserted. *)
Definition materialize_chunk (base : CollectionRun) (expected chunk : list CollectionTaskWindowKey)
    (now : Z) : Tx unit :=
  '(lockedRun, lockedExpected) ← lockMaterializationExpectation base;
  _ ← st_require (expected == lockedExpected) ErrCollectionRunContract;
  st_fold (fun key _ => insert_window_ignore (pending_window lockedRun.(Run.ID) now key)) chunk tt.

(** The last transaction. *)
Definition open_materialized (base : CollectionRun) (expected : list CollectionTaskWindowKey) (now : Z)
  : Tx CollectionRun :=
  '(lockedRun, lockedExpected) ← lockMaterializationExpectation base;
  _ ← st_require (expected == lockedExpected) ErrCollectionRunContract;
  windows ← db_select (of_run lockedRun.(Run.ID)) by_site_hour;
  _ ← st_require (((window_key <$> windows) == expected)
                  && forallb (fun w => w.(RunWindow.Status) == CollectionTaskStatusPending) windows)
                 ErrCollectionRunContract;
  let initialized r := r <| Run.TotalWindows := Z.of_nat (List.length expected) |>
        <| Run.WindowsInitializedAt := Some now |> <| Run.UpdatedAt := now |> in
  affectedRows ← db_update (fun r => run_has_id lockedRun.(Run.ID) r && (r.(Run.Status) == "pending")
                     && is_nil r.(Run.WindowsInitializedAt)) initialized;
  _ ← st_require (affectedRows =? 1) ErrCollectionTaskClaimLost;
  run ← RecalculateLockedCollectionRun (initialized lockedRun) windows now None;
  _ ← finalizeLocalRebuildLifecycle run now;
  _ ← recalculateTaskBackfillStatuses run now;
  mret run.

(** The expected windows in chunks of [batchSize]. *)
Fixpoint chunks_of {A} (fuel : nat) (size : nat) (l : list A) : list (list A) :=
  match fuel, l with
  | _, [] => []
  | O, _ => []
  | S fuel', _ => take size l :: chunks_of fuel' size (drop size l)
  end.

(** The batches run one transaction each: an error keeps the batches already
    committed. *)
Fixpoint materialize_chunks (base : CollectionRun) (expected : list CollectionTaskWindowKey)
    (chunks : list (list CollectionTaskWindowKey)) (now : Z) (d : Db) : option error * Db :=
  match chunks with
  | [] => (None, d)
  | chunk :: rest =>
      match materialize_chunk base expected chunk now d with
      | Ok (_, d') => materialize_chunks base expected rest now d'
      | Err e => (Some e, d)
      end
  end.

Definition normalize_batch_size (batchSize : Z) : Z :=
  if (batchSize <=? 0) || (1000 <? batchSize) then 1000 else batchSize.

Definition MaterializeRunWindows (runID now batchSize : Z) (d : Db) : result CollectionRun * Db :=
  if (runID <=? 0) || (now <=? 0) then (Err ErrCollectionRunContract, d)
  else match loadMaterializationExpectation runID d with
  | Err e => (Err e, d)
  | Ok ((expected, base), d1) =>
      let size := Z.to_nat (normalize_batch_size batchSize) in
      match materialize_chunks base expected (chunks_of (List.length expected) size expected) now d1 with
      | (Some e, d2) => (Err e, d2)
      | (None, d2) =>
          match open_materialized base expected now d2 with
          | Ok (run, d3) => (Ok run, d3)
          | Err e => (Err e, d2)
          end
      end
  end.

(** The chunks are the list again. *)
Lemma chunks_of_concat {A} size fuel : forall l : list A,
  (0 < size)%nat -> (length l <= fuel)%nat -> concat (chunks_of fuel size l) = l.
Proof.
  induction fuel as [|fuel IH]; intros l Hs Hl; destruct l as [|x l]; try done; simpl in Hl; [lia|].
  cbn [chunks_of concat]. rewrite IH; [apply take_drop|done|]. rewrite length_drop. simpl. lia.
Qed.
