(* ===== verification/QueueClaim.v ===== *)
(** * What a claim does

    The functional behaviour of [claimCandidate], the exclusivity it
    establishes, and the equivalence of the paged [ClaimNext] with a scan of
    the whole queue in order. *)

From S2P Require Import Prelude Constants GoText Store Frame RunContract RunState RunRepository SiteFence TaskScope RunFrames TaskClaim TaskCommit RunInvariant.

Lemma one_of_ids_spec ids id : one_of_ids ids id = true <-> id ∈ ids.
Proof.
  unfold one_of_ids. rewrite existsb_exists. split.
  - intros (x&Hx&->%Z.eqb_eq). by apply list_elem_of_In.
  - intros H. exists id. split; [by apply list_elem_of_In|apply Z.eqb_refl].
Qed.

(** The windows a claim takes: the first [MaxWindow] due ones, latest hour
    first. *)
Definition claimable_windows (run_id : Z) (options : CollectionTaskClaimOptions) (view : LockView) (d : Db)
  : list CollectionRunWindow :=
  take (Z.to_nat options.(ClaimOptions.MaxWindow))
    (select (fun w => pending_of run_id w && due options.(ClaimOptions.Now) w
                      && negb (LockView.window view w.(RunWindow.ID))) by_hour_desc d).

Definition claims_row (windows : list CollectionRunWindow) (w : CollectionRunWindow) : bool :=
  one_of_ids (RunWindow.ID <$> windows) w.(RunWindow.ID) && (w.(RunWindow.Status) == "pending").

(** The database after the windows are claimed. *)
Definition claim_rows (now : Z) (windows : list CollectionRunWindow) (d : Db) : Db :=
  set_table (update_where (claims_row windows) (claimed_window now) (table d)) d.

Lemma elem_of_take_elem {A} n (l : list A) x : x ∈ take n l -> x ∈ l.
Proof. intros H. rewrite <- (take_drop n l). apply elem_of_app. by left. Qed.

Lemma StronglySorted_take_prefix {A} (R : relation A) n l :
  StronglySorted R l -> StronglySorted R (take n l).
Proof. intros H. rewrite <- (take_drop n l) in H. by apply StronglySorted_app in H as (_&H&_). Qed.

Lemma claimable_elem run_id options view d w :
  w ∈ claimable_windows run_id options view d ->
  pending_of run_id w = true /\ due options.(ClaimOptions.Now) w = true /\
  LockView.window view w.(RunWindow.ID) = false /\
  exists k, Tables.collection_run_window d !! k = Some w.
Proof.
  intros Hw%elem_of_take_elem. apply elem_of_select in Hw as [Hp Hk]. to_prop. intuition.
Qed.

(** Under unique ids, the UPDATE by id matches exactly the windows read. *)
Lemma claims_row_spec d windows k w :
  table_wf (Tables.collection_run_window d) ->
  (forall x, x ∈ windows -> x.(RunWindow.Status) = "pending" /\
     exists k, Tables.collection_run_window d !! k = Some x) ->
  Tables.collection_run_window d !! k = Some w ->
  claims_row windows w = true <-> w ∈ windows.
Proof.
  intros Hwf Hall Hk. unfold claims_row. rewrite andb_true_iff, one_of_ids_spec, bool_decide_eq_true. split.
  - intros [(x&Hid&Hx)%list_elem_of_fmap _]. destruct (Hall x Hx) as (_&k'&Hk').
    apply Hwf in Hk as Hk1. apply Hwf in Hk' as Hk2. simpl in Hk1, Hk2.
    assert (k = k') as <- by congruence. rewrite Hk in Hk'. by injection Hk' as ->.
  - intros Hw. split; [by apply list_elem_of_fmap_2|]. by apply Hall.
Qed.

Lemma claim_windows_ok run options view d windows d' :
  claim_windows run options view d = Ok (windows, d') ->
  let found := claimable_windows run.(Run.ID) options view d in
  found <> [] /\ 0 < run.(Run.TotalWindows) /\ d' = claim_rows options.(ClaimOptions.Now) found d /\
  windows = select (fun w => one_of_ids (RunWindow.ID <$> found) w.(RunWindow.ID)) by_hour_desc d'.
Proof.
  unfold claim_windows. past_guard Htot. intros H.
  apply st_bind_ok in H as (found0&d1&Hsel&H). apply db_select_ok in Hsel as [-> ->].
  fold (claimable_windows (Run.ID run) options view d) in H.
  set (found := claimable_windows (Run.ID run) options view d) in *.
  destruct (bool_decide (found = [])) eqn:Hnil.
  { repeat (apply st_bind_ok in H as (?&?&_&H)). by apply st_fail_ok in H. }
  apply st_bind_ok in H as (n&d2&Hupd&H). apply db_update_ok in Hupd as [-> ->].
  apply st_bind_ok in H as ([]&d3&Hreq&H). apply st_require_ok in Hreq as (_&[= ->]).
  apply db_select_ok in H as [-> ->]. to_prop. split; [done|]. split; [done|]. split; done.
Qed.

(** The rows after the claim: the windows found, and nothing else, are now
    running with one more attempt. *)
Lemma claim_rows_lookup run_id options view d k :
  table_wf (Tables.collection_run_window d) ->
  let found := claimable_windows run_id options view d in
  Tables.collection_run_window (claim_rows options.(ClaimOptions.Now) found d) !! k =
  (fun w => if bool_decide (w ∈ found) then claimed_window options.(ClaimOptions.Now) w else w)
    <$> Tables.collection_run_window d !! k.
Proof.
  intros Hwf found. unfold claim_rows. simpl. rewrite lookup_update_where.
  destruct (Tables.collection_run_window d !! k) as [w|] eqn:Hk; [|done]. simpl. f_equal. unfold upd.
  assert (claims_row found w = bool_decide (w ∈ found)) as ->; [|done].
  apply eq_true_iff_eq. rewrite bool_decide_eq_true. apply (claims_row_spec d found k w Hwf); [|done].
  intros x Hx. apply claimable_elem in Hx as (Hp&_&_&Hk'). unfold pending_of in Hp. to_prop. tauto.
Qed.

Lemma NoDup_hour_desc run_id options view d :
  table_wf (Tables.collection_run_window d) ->
  NoDup (by_hour_desc <$> claimable_windows run_id options view d).
Proof.
  intros Hwf. set (l := claimable_windows _ _ _ _).
  assert (Hids : NoDup (RunWindow.ID <$> l)).
  { unfold l, claimable_windows. set (q := fun w => _ && _).
    pose proof (select_NoDup q by_hour_desc d Hwf) as Hnd. simpl in Hnd.
    rewrite <- (take_drop (Z.to_nat (ClaimOptions.MaxWindow options)) (select q by_hour_desc d)) in Hnd.
    rewrite fmap_app in Hnd. by apply NoDup_app in Hnd as [Hnd _]. }
  clear -Hids. induction l as [|w l IH]; [constructor|].
  rewrite !fmap_cons, !NoDup_cons in *. destruct Hids as [Hw Hids]. split; [|auto].
  intros (w'&Heq&Hw')%list_elem_of_fmap. apply Hw. injection Heq as _ Heq.
  apply list_elem_of_fmap. exists w'. split; [lia|done].
Qed.

(** The windows handed to the worker: the claimed rows, in the same order. *)
Lemma claimed_windows_listed run_id options view d :
  table_wf (Tables.collection_run_window d) ->
  let now := options.(ClaimOptions.Now) in
  let found := claimable_windows run_id options view d in
  select (fun w => one_of_ids (RunWindow.ID <$> found) w.(RunWindow.ID)) by_hour_desc
    (claim_rows now found d) = claimed_window now <$> found.
Proof.
  intros Hwf now found. unfold select.
  assert (Hkeys : NoDup (by_hour_desc <$> (claimed_window now <$> found))).
  { rewrite <- list_fmap_compose. by apply (NoDup_hour_desc run_id options view d). }
  assert (Hperm : base.filter (fun w => one_of_ids (RunWindow.ID <$> found) (RunWindow.ID w) = true)
            (table_rows (claim_rows now found d)) ≡ₚ claimed_window now <$> found).
  { apply NoDup_Permutation.
    - apply (NoDup_fmap_1 RunWindow.ID).
      assert (Hwf' : table_wf (Tables.collection_run_window (claim_rows now found d))).
      { apply table_wf_update; done. }
      pose proof (select_NoDup (fun w => one_of_ids (RunWindow.ID <$> found) (RunWindow.ID w)) by_id
                    (claim_rows now found d) Hwf') as Hnd.
      by rewrite select_perm in Hnd.
    - by apply (NoDup_fmap_1 by_hour_desc).
    - intros w. rewrite list_elem_of_filter, list_elem_of_fmap. unfold table_rows. rewrite elem_of_rows. split.
      + intros [Hid (k&Hk)]. change (Tables.collection_run_window (claim_rows now found d) !! k = Some w) in Hk.
        unfold found, now in Hk. rewrite (claim_rows_lookup run_id options view d k Hwf) in Hk.
        apply fmap_Some_1 in Hk as (w0&Hw0&->). exists w0.
        assert (w0 ∈ found) as Hin.
        { apply one_of_ids_spec in Hid. apply list_elem_of_fmap in Hid as (x&Hx&Hxin).
          pose proof (claimable_elem _ _ _ _ _ Hxin) as (_&_&_&k'&Hk').
          apply Hwf in Hk' as E1. apply Hwf in Hw0 as E2. simpl in E1, E2.
          assert (k' = k) as -> by (case_bool_decide; simpl in Hx; congruence).
          rewrite Hk' in Hw0. by injection Hw0 as <-. }
        rewrite bool_decide_eq_true_2 by done. done.
      + intros (w0&->&Hin). split.
        * apply one_of_ids_spec, list_elem_of_fmap. by exists w0.
        * pose proof (claimable_elem _ _ _ _ _ Hin) as (_&_&_&k&Hk). exists k.
          change (Tables.collection_run_window (claim_rows now found d) !! k = Some (claimed_window now w0)).
          unfold found, now. rewrite (claim_rows_lookup run_id options view d k Hwf), Hk. simpl.
          by rewrite bool_decide_eq_true_2. }
  rewrite (sort_by_unique _ _ _ Hperm).
  - apply sort_by_id; [|done].
    apply StronglySorted_fmap with (R1 := by_key by_hour_desc); [done|].
    unfold found, claimable_windows. apply StronglySorted_take_prefix, select_sorted.
  - by rewrite Hperm.
Qed.

(** ** One candidate *)

(** What the transaction reads and decides before it writes. *)
Record claim_steps (candidate : CollectionRun) (options : CollectionTaskClaimOptions) (view : LockView)
    (d : Db) (run : CollectionRun) (scope : collectionTaskScope) : Prop := {
  step_scope : resolveTaskScope candidate d = Ok (scope, d);
  step_row : Tables.collection_run d !! candidate.(Run.ID) = Some run;
  step_unlocked : LockView.run view candidate.(Run.ID) = false;
  step_claimable : still_claimable candidate run options = true;
  step_verified : verifyTaskScopeLocked run scope d = Ok (tt, d);
  step_idle : scopeHasRunningTask run scope d = Ok (false, d)
}.

Lemma claimed_run_fields options r :
  let r' := claimed_run options r in
  r'.(Run.Status) = "running" /\ r'.(Run.LastRequestID) = options.(ClaimOptions.RequestID) /\
  r'.(Run.TotalWindows) = r.(Run.TotalWindows) /\ r'.(Run.CompletedWindows) = r.(Run.CompletedWindows) /\
  r'.(Run.FailedWindows) = r.(Run.FailedWindows) /\ r'.(Run.ActiveKey) = r.(Run.ActiveKey) /\
  r'.(Run.WindowsInitializedAt) = r.(Run.WindowsInitializedAt) /\ run_identity r' = run_identity r.
Proof. unfold claimed_run, run_identity. by destruct (CollectionTaskWindowed (Run.TaskType r)). Qed.

Lemma claimCandidate_ok candidate options view d claim d' :
  table_wf (Tables.collection_run d) ->
  claimCandidate candidate options view d = Ok (claim, d') ->
  exists run scope windows d2,
    claim_steps candidate options view d run scope /\
    (if CollectionTaskWindowed run.(Run.TaskType)
     then claim_windows run options view d = Ok (windows, d2) else windows = [] /\ d2 = d) /\
    claim = Claim.mk (claimed_run options run) windows options.(ClaimOptions.RequestID) /\
    Tables.collection_run d2 = Tables.collection_run d /\
    run_state d' = run_state
      (set_table (R := CollectionRun) (<[candidate.(Run.ID) := claimed_run options run]> (table d2)) d2).
Proof.
  intros Hwf H. unfold claimCandidate in H.
  apply st_bind_ok in H as (scope&d1&Hscope&H).
  pose proof (resolveTaskScope_reads candidate _ _ _ Hscope) as E. simpl in E. subst d1.
  apply st_bind_ok in H as ([]&d1&Hlock&H).
  pose proof (lockTaskScope_reads scope (Some view) _ _ _ Hlock) as E. simpl in E. subst d1.
  apply st_bind_ok in H as (run&d1&Hrow&H).
  assert (Tables.collection_run d !! candidate.(Run.ID) = Some run /\ LockView.run view candidate.(Run.ID) = false
          /\ d1 = d) as (Hrow'&Hview&->).
  { unfold lock_run_skip in Hrow. simpl in Hrow.
    destruct (Tables.collection_run d !! _); [|done]. destruct (LockView.run _ _); [done|].
    by injection Hrow as -> ->. }
  apply st_bind_ok in H as ([]&d1&Hcl&H). apply st_require_ok in Hcl as (Hcl&[= ->]).
  apply st_bind_ok in H as ([]&d1&Hver&H).
  pose proof (verifyTaskScopeLocked_reads run scope _ _ _ Hver) as E. simpl in E. subst d1.
  apply st_bind_ok in H as (busy&d1&Hbusy&H).
  pose proof (scopeHasRunningTask_reads run scope _ _ _ Hbusy) as E. simpl in E. subst d1.
  apply st_bind_ok in H as ([]&d1&Hidle&H). apply st_require_ok in Hidle as (Hidle&[= ->]).
  apply negb_true_iff in Hidle as ->.
  apply st_bind_ok in H as (windows&d2&Hwin&H).
  assert (Hrows : Tables.collection_run d2 = Tables.collection_run d /\
    (if CollectionTaskWindowed (Run.TaskType run) then claim_windows run options view d = Ok (windows, d2)
     else windows = [] /\ d2 = d)).
  { destruct (CollectionTaskWindowed (Run.TaskType run)).
    - split; [|done]. apply claim_windows_ok in Hwin as (_&_&->&_). done.
    - by apply st_ret_pair in Hwin as [-> ->]. }
  destruct Hrows as [Hrows Hcase].
  apply st_bind_ok in H as (n&d3&Hupd&H). apply db_update_ok in Hupd as [-> ->].
  apply st_bind_ok in H as ([]&d4&Haff&H). apply st_require_ok in Haff as (_&[= ->]).
  apply st_bind_ok in H as ([]&d5&Hrec&H). apply st_ret_pair in H as [-> ->].
  exists run, scope, windows, d2. split; [by split|]. split; [done|]. split; [done|]. split; [done|].
  apply (recalculateTaskBackfillStatuses_frame _ _) in Hrec. rewrite Hrec. f_equal.
  unfold still_claimable in Hcl. to_prop.
  assert (Hid : run.(Run.ID) = candidate.(Run.ID)) by (by apply Hwf in Hrow').
  rewrite (update_where_one _ _ _ candidate.(Run.ID) run); [done|by rewrite Hrows|by rewrite Hrows| |].
  - unfold run_has_id. rewrite Z.eqb_refl, sql_text_eq_refl, bool_decide_eq_true_2; [done|].
    destruct Hcl as ((((((?&?)&?)&?)&?)&?)&?). done.
  - intros x Hx. unfold run_has_id in Hx. to_prop. simpl. destruct Hx as ((?&_)&_). congruence.
Qed.

(** The check for a busy scope, as the run's site sees it. *)
Lemma idle_site_task candidate run scope d :
  resolveTaskScope candidate d = Ok (scope, d) ->
  run.(Run.TargetType) = candidate.(Run.TargetType) -> run.(Run.TargetID) = candidate.(Run.TargetID) ->
  site_target run -> table_wf (Tables.collection_run d) ->
  scopeHasRunningTask run scope d = Ok (false, d) ->
  forall k r site taskType, k <> run.(Run.ID) -> Tables.collection_run d !! k = Some r ->
    running_site_task r site taskType ->
    ~ (run.(Run.TargetType) = "site" /\ run.(Run.SiteID) = Some site /\ run.(Run.TaskType) = taskType).
Proof.
  intros Hres Htt Hti Hst Hwf H k r site taskType Hk Hr (Hrun&_&Hrs&Hty) (Htarget&Hsite&<-).
  assert (Hsites : scope.(TaskScope.SiteIDs) = [site]).
  { unfold resolveTaskScope in Hres. rewrite <- Htt, bool_decide_eq_true_2 in Hres by done.
    destruct (Run.SiteID candidate) as [cs|]; [|done]. revert Hres. past_guard Hg.
    intros [-> _]%st_ret_pair. to_prop. destruct Hg as [_ Hg]. specialize (Hst Htarget). simpl. congruence. }
  unfold scopeHasRunningTask in H. rewrite bool_decide_eq_true_2 in H by done.
  rewrite Hsites in H. simpl in H.
  apply st_bind_ok in H as (n&d1&Hn&H). apply st_gets_ok in Hn as [= -> ->].
  apply st_ret_pair in H as [H _]. symmetry in H. apply Z.ltb_ge in H.
  match type of H with count ?P ?l <= 0 => assert (0 < count P l) as Hpos; [|lia] end.
  apply count_pos. exists r. split; [apply elem_of_rows; by exists k|].
  unfold site_is, run_has_id. apply Hwf in Hr. simpl in Hr. to_prop. rewrite Hr. repeat split; auto.
Qed.

(** ** What a claim does *)

(** The effect of a claim on the two queue tables and what it returns. *)
Definition claim_effect (run : CollectionRun) (options : CollectionTaskClaimOptions) (view : LockView)
    (d : Db) (claim : CollectionTaskClaim) (d' : Db) : Prop :=
  let now := options.(ClaimOptions.Now) in
  let found := claimable_windows run.(Run.ID) options view d in
  claim.(Claim.run) = claimed_run options run /\
  claim.(Claim.RequestID) = options.(ClaimOptions.RequestID) /\
  Tables.collection_run d' = <[run.(Run.ID) := claimed_run options run]> (Tables.collection_run d) /\
  if CollectionTaskWindowed run.(Run.TaskType) then
    found <> [] /\ claim.(Claim.Windows) = claimed_window now <$> found /\
    forall k, Tables.collection_run_window d' !! k =
      (fun w => if bool_decide (w ∈ found) then claimed_window now w else w)
        <$> Tables.collection_run_window d !! k
  else claim.(Claim.Windows) = [] /\
    Tables.collection_run_window d' = Tables.collection_run_window d.
