(* ===== verification/QueueSteps.v ===== *)
(** * The handlers of the queue keep its invariant

    Commits, releases and recoveries visit the windows of one run and write
    each in its own statement.  The first half gives the joint effect of such a
    loop and shows that it touches only that run. *)

From S2P Require Import Prelude Constants GoText Store Frame RunContract RunState RunRepository SiteFence TaskScope RunFrames TaskClaim TaskCommit RunInvariant TaskRecovery Materialize QueueClaim.

(** ** Changing a table row by row *)
Section RowMap.
Context {R : Type} `{!Table R}.

Lemma set_table_update_one (d : Db) p (f : R -> R) w :
  table_wf (table d) -> table d !! row_id w = Some w -> p w = true ->
  (forall x, p x = true -> row_id x = row_id w) ->
  set_table (update_where p f (table d)) d = set_table (<[row_id w := f w]> (table d)) d.
Proof.
  intros Hwf Hw Hpw Hp. f_equal. apply update_where_one; [done..|]. intros x Hx. by apply Hp.
Qed.
End RowMap.

(** The windows table with some of its rows rewritten by [h]. *)
Definition map_windows (h : CollectionRunWindow -> CollectionRunWindow) (d : Db) : Db :=
  set_table (R := CollectionRunWindow) (h <$> Tables.collection_run_window d) d.

Lemma windows_of_map h d k :
  (forall w, (h w).(RunWindow.RunID) = w.(RunWindow.RunID)) ->
  windows_of (map_windows h d) k ≡ₚ h <$> windows_of d k.
Proof.
  intros Hh. pose proof (windows_of_update d (fun _ => true) h k Hh) as H.
  unfold map_windows. unfold update_where, upd in H. exact H.
Qed.

(** Rewriting windows of the run [i] touches only that run. *)
Lemma touches_map i h d :
  (forall w, (h w).(RunWindow.ID) = w.(RunWindow.ID) /\ (h w).(RunWindow.RunID) = w.(RunWindow.RunID)) ->
  (forall k w, Tables.collection_run_window d !! k = Some w -> h w = w \/ of_run i w = true) ->
  touches i d (map_windows h d).
Proof.
  intros Hid Hi.
  assert (Hsame : map_windows h d = set_table (R := CollectionRunWindow)
            (update_where (of_run i) h (table d)) d).
  { unfold map_windows, update_where. f_equal. apply map_fmap_ext. intros k w Hw.
    unfold upd. destruct (of_run i w) eqn:Ho; [done|]. destruct (Hi k w Hw); congruence. }
  rewrite Hsame. apply touches_window_update; [|done]. done.
Qed.

(** ** A loop that writes each row it visits *)
Lemma st_fold_rows {S} (Q : CollectionRunWindow -> Prop) (body : CollectionRunWindow -> S -> Tx S)
    (g : CollectionRunWindow -> CollectionRunWindow) :
  (forall w, (g w).(RunWindow.ID) = w.(RunWindow.ID)) ->
  (forall w s d s' d', table_wf (Tables.collection_run_window d) -> Q w ->
     Tables.collection_run_window d !! w.(RunWindow.ID) = Some w -> body w s d = Ok (s', d') ->
     d' = set_table (R := CollectionRunWindow)
            (<[w.(RunWindow.ID) := g w]> (Tables.collection_run_window d)) d) ->
  forall ws s d s' d', table_wf (Tables.collection_run_window d) -> NoDup (RunWindow.ID <$> ws) ->
    (forall w, w ∈ ws -> Q w /\ Tables.collection_run_window d !! w.(RunWindow.ID) = Some w) ->
    st_fold body ws s d = Ok (s', d') ->
    d' = map_windows (fun x => if bool_decide (x ∈ ws) then g x else x) d.
Proof.
  intros Hg Hbody. induction ws as [|w ws IH]; intros s d s' d' Hwf Hnd Hin H.
  - apply st_fold_nil in H as [= -> ->]. unfold map_windows.
    rewrite (map_fmap_ext _ id) by done. rewrite map_fmap_id. by destruct d.
  - apply st_fold_cons in H as (s1&d1&H1&H). apply Hbody in H1 as ->; [|done|apply Hin; set_solver..].
    rewrite fmap_cons, NoDup_cons in Hnd. destruct Hnd as [Hw Hnd].
    assert (Hwf1 : table_wf (<[RunWindow.ID w := g w]> (Tables.collection_run_window d))).
    { intros k x. rewrite lookup_insert_Some. intros [[<- <-]|[_ Hx]]; [apply Hg|by apply Hwf]. }
    assert (Hother : forall x, x ∈ ws -> x.(RunWindow.ID) <> w.(RunWindow.ID)).
    { intros x Hx Heq. apply Hw. rewrite <- Heq. by apply list_elem_of_fmap_2. }
    apply IH in H; [|exact Hwf1|done|].
    2:{ intros x Hx. simpl. rewrite lookup_insert_ne by (by apply not_eq_sym, Hother).
        apply Hin. set_solver. }
    rewrite H. unfold map_windows.
    change (set_table ?t (set_table _ d)) with (set_table t d). f_equal. simpl.
    apply map_eq. intros k.
    rewrite !lookup_fmap. destruct (decide (k = w.(RunWindow.ID))) as [-> |Hk].
    + rewrite lookup_insert_eq, (proj2 (Hin w ltac:(set_solver))). simpl. f_equal.
      rewrite (bool_decide_eq_true_2 (w ∈ w :: ws)) by set_solver.
      rewrite bool_decide_eq_false_2; [done|]. intros Hx. apply Hother in Hx. by rewrite Hg in Hx.
    + rewrite lookup_insert_ne by done.
      destruct (Tables.collection_run_window d !! k) as [x|] eqn:Hx; [|done]. simpl. f_equal.
      apply Hwf in Hx. simpl in Hx.
      assert (bool_decide (x ∈ ws) = bool_decide (x ∈ w :: ws)) as ->; [|done].
      apply bool_decide_ext. rewrite elem_of_cons. split; [by right|]. intros [-> |]; [done|done].
Qed.

(** The rows a query returns are found under their ids, once each. *)
Lemma select_windows_listed p key d :
  table_wf (Tables.collection_run_window d) ->
  NoDup (RunWindow.ID <$> select p key d) /\
  (forall w, w ∈ select p key d -> p w = true /\
     Tables.collection_run_window d !! w.(RunWindow.ID) = Some w).
Proof.
  intros Hwf. split.
  { pose proof (select_NoDup p key d Hwf) as H. exact H. }
  intros w (Hp&k&Hk)%elem_of_select. split; [done|]. apply Hwf in Hk as Hid. simpl in Hid. by rewrite Hid.
Qed.

Lemma fmap_listed (g : CollectionRunWindow -> CollectionRunWindow) (ws W : list CollectionRunWindow) :
  ws ≡ₚ W -> (fun x => if bool_decide (x ∈ ws) then g x else x) <$> W ≡ₚ g <$> ws.
Proof.
  intros HP. rewrite HP. apply Permutation_refl', list_fmap_ext. intros j x Hx%list_elem_of_lookup_2.
  rewrite bool_decide_eq_true_2; [done|]. by rewrite HP.
Qed.

(** ** Shared facts *)
Lemma run_inv_fields r r' W :
  r'.(Run.Status) = r.(Run.Status) -> r'.(Run.ActiveKey) = r.(Run.ActiveKey) ->
  r'.(Run.TotalWindows) = r.(Run.TotalWindows) -> r'.(Run.CompletedWindows) = r.(Run.CompletedWindows) ->
  r'.(Run.FailedWindows) = r.(Run.FailedWindows) ->
  r'.(Run.WindowsInitializedAt) = r.(Run.WindowsInitializedAt) -> r'.(Run.TaskType) = r.(Run.TaskType) ->
  run_inv r W -> run_inv r' W.
Proof.
  intros E1 E2 E3 E4 E5 E6 E7 [A B C D].
  assert (Hterm : terminal r' <-> terminal r) by (unfold terminal; by rewrite E1).
  split.
  - by rewrite E1.
  - by rewrite E2, Hterm.
  - rewrite E7, E6, E1. intros Hw. specialize (C Hw). destruct (Run.WindowsInitializedAt r); [|done].
    destruct C. split; rewrite ?E1, ?E3, ?E4, ?E5, ?Hterm; auto.
  - rewrite E7, E6. done.
Qed.

Record running_facts (d : Db) (i : Z) (r : CollectionRun) : Prop := {
  running_id : r.(Run.ID) = i;
  running_open : ~ terminal r;
  running_key : r.(Run.ActiveKey) <> None;
  running_windows : CollectionTaskWindowed r.(Run.TaskType) = true ->
    r.(Run.WindowsInitializedAt) <> None /\ r.(Run.TotalWindows) = Z.of_nat (length (windows_of d i))
}.

Lemma open_run_facts d i r :
  queue_inv d -> Tables.collection_run d !! i = Some r -> ~ terminal r ->
  (r.(Run.WindowsInitializedAt) <> None \/ r.(Run.Status) = "running") -> running_facts d i r.
Proof.
  intros Hinv Hr Hnt Hopen. pose proof (queue_run_inv d Hinv i r Hr) as [_ Hkey Hwin _].
  split; [by apply (queue_runs_wf d Hinv) in Hr|done|by rewrite Hkey|].
  intros Hw. specialize (Hwin Hw). destruct (Run.WindowsInitializedAt r); [by destruct Hwin|].
  destruct Hopen as [?|Hs]; [done|]. destruct Hwin as [[? _]|[? _]]; congruence.
Qed.

Lemma running_run_facts d i r :
  queue_inv d -> Tables.collection_run d !! i = Some r -> r.(Run.Status) = "running" ->
  running_facts d i r.
Proof.
  intros Hinv Hr Hs. apply open_run_facts; auto. intros [?|?]; congruence.
Qed.

(** A transaction on a run its owner holds. *)
Lemma owner_touch d d' i r :
  queue_inv d -> Tables.collection_run d !! i = Some r -> r.(Run.Status) = "running" ->
  touches i d d' ->
  (exists row', Tables.collection_run d' !! i = Some row' /\ run_inv row' (windows_of d' i)) ->
  queue_inv d'.
Proof.
  intros Hinv Hr Hs Ht (row'&Hrow'&Hri). apply (queue_inv_touch i d d' Hinv Ht).
  intros r' Hr'. rewrite Hrow' in Hr'. injection Hr' as <-. split; [done|]. intros _. left. eauto.
Qed.

(** An UPDATE of columns the invariant does not read. *)
Definition harmless (f : CollectionRun -> CollectionRun) : Prop := forall r,
  run_identity (f r) = run_identity r /\
  (f r).(Run.Status) = r.(Run.Status) /\ (f r).(Run.ActiveKey) = r.(Run.ActiveKey) /\
  (f r).(Run.TotalWindows) = r.(Run.TotalWindows) /\ (f r).(Run.CompletedWindows) = r.(Run.CompletedWindows) /\
  (f r).(Run.FailedWindows) = r.(Run.FailedWindows) /\
  (f r).(Run.WindowsInitializedAt) = r.(Run.WindowsInitializedAt).

Lemma harmless_inv f r W : harmless f -> run_inv r W -> run_inv (f r) W.
Proof.
  intros Hf Hr. destruct (Hf r) as (H0&H1&H2&H3&H4&H5&H6).
  unfold run_identity in H0. injection H0 as _ _ _ H7 _ _. by apply (run_inv_fields r).
Qed.

Lemma harmless_update d p f i row :
  (forall r, p r = true -> r.(Run.ID) = i) -> harmless f -> table_wf (Tables.collection_run d) ->
  Tables.collection_run d !! i = Some row -> run_inv row (windows_of d i) ->
  let d' := set_table (R := CollectionRun) (update_where p f (table d)) d in
  touches i d d' /\
  exists row', Tables.collection_run d' !! i = Some row' /\ run_inv row' (windows_of d' i).
Proof.
  intros Hp Hf Hwf Hrow Hri. split; [by apply touches_run_update; [|intros r; apply Hf|]|].
  rewrite set_table_runs_lookup, Hrow. simpl. eexists. split; [done|]. unfold upd.
  case_match; [by apply harmless_inv|done].
Qed.

Lemma owned_row_id i status requestID r : owned_row i status requestID r = true -> r.(Run.ID) = i.
Proof. unfold owned_row, run_has_id. intros. to_prop. tauto. Qed.

Lemma owned_row_own r status requestID :
  r.(Run.Status) = status -> r.(Run.LastRequestID) = requestID ->
  owned_row r.(Run.ID) status requestID r = true.
Proof.
  intros <- <-. unfold owned_row, run_has_id. rewrite Z.eqb_refl, sql_text_eq_refl.
  by rewrite bool_decide_eq_true_2.
Qed.

Lemma run_has_id_eq i r : run_has_id i r = true -> r.(Run.ID) = i.
Proof. unfold run_has_id. intros. by to_prop. Qed.

Lemma add_rows_ok p set fetched written d n d' :
  add_rows p set fetched written d = Ok (n, d') ->
  let f r := set (r <| Run.FetchedRows := r.(Run.FetchedRows) + fetched |>
                    <| Run.WrittenRows := r.(Run.WrittenRows) + written |>) in
  n = affected p f (table d) /\ d' = set_table (R := CollectionRun) (update_where p f (table d)) d.
Proof.
  unfold add_rows. intros H. apply st_bind_ok in H as (fits&d1&Hg&H). apply st_gets_ok in Hg as [= -> ->].
  apply st_bind_ok in H as ([]&d2&Hreq&H). apply st_require_ok in Hreq as (_&[= ->]).
  by apply db_update_ok in H as [-> ->].
Qed.

(** A row that one owned UPDATE changed. *)
Lemma affected_one {R} `{!Table R} (p : R -> bool) f (t : gmap Z R) :
  affected p f t = 1 -> exists k r, t !! k = Some r /\ p r = true.
Proof.
  unfold affected. intros H. assert (0 < count (fun r => p r && negb (bool_decide (f r = r))) (rows t)) as Hc by lia.
  apply count_pos in Hc as (r&Hr&Hp). apply elem_of_rows in Hr as (k&Hk). exists k, r. to_prop. tauto.
Qed.

(** ** Claiming *)
Lemma status_count_fmap s h (W : list CollectionRunWindow) :
  (forall w, w ∈ W -> ((h w).(RunWindow.Status) = s <-> w.(RunWindow.Status) = s)) ->
  status_count s (h <$> W) = status_count s W.
Proof.
  induction W as [|w W IH]; intros H; [done|]. rewrite fmap_cons, !status_count_cons, IH by set_solver.
  f_equal. destruct (H w ltac:(set_solver)) as [H1 H2].
  destruct (decide (RunWindow.Status w = s)) as [E|E].
  - rewrite !bool_decide_eq_true_2; auto.
  - rewrite !bool_decide_eq_false_2; auto.
Qed.

Lemma claimed_settled run r' W now found :
  settled_counts run W -> run.(Run.Status) = "pending" ->
  found <> [] -> (forall w, w ∈ found -> w ∈ W /\ w.(RunWindow.Status) = "pending") ->
  r'.(Run.Status) = "running" -> r'.(Run.TotalWindows) = run.(Run.TotalWindows) ->
  r'.(Run.CompletedWindows) = run.(Run.CompletedWindows) -> r'.(Run.FailedWindows) = run.(Run.FailedWindows) ->
  settled_counts r' ((fun w => if bool_decide (w ∈ found) then claimed_window now w else w) <$> W).
Proof.
  set (h := fun w => _). intros [Hk Ht Hc Hf Hr Hp Hcl Hs] Hpend Hne Hfound Hs' Ht' Hc' Hf'.
  assert (Hother : forall s, s <> "pending" -> s <> "running" -> status_count s (h <$> W) = status_count s W).
  { intros s H1 H2. apply status_count_fmap. intros w _. unfold h. case_bool_decide as Hw; [|done].
    destruct (Hfound w Hw) as [_ ->]. split; [intros <-|intros <-]; done. }
  assert (Hnt : ~ terminal r') by (intros [?|?]; congruence).
  split; try done.
  - intros w' (w&->&Hw)%list_elem_of_fmap. unfold h. case_bool_decide; [done|by apply Hk].
  - by rewrite Ht', Ht, length_fmap.
  - rewrite Hother by done. congruence.
  - rewrite Hother by done. congruence.
  - split; [intros _|done]. apply status_count_pos. destruct found as [|w found]; [done|].
    exists (claimed_window now w). split; [|done]. apply list_elem_of_fmap. exists w.
    unfold h. rewrite bool_decide_eq_true_2 by set_solver. split; [done|]. apply Hfound. set_solver.
  - intros Hx. by rewrite Hs' in Hx.
  - intros Hx. by rewrite Hs' in Hx.
Qed.

Lemma touches_run_insert i r r' d :
  Tables.collection_run d !! i = Some r -> run_identity r' = run_identity r ->
  table_wf (Tables.collection_run d) ->
  touches i d (set_table (R := CollectionRun) (<[i := r']> (table d)) d).
Proof.
  intros Hr Hident Hwf. assert (Hid : r'.(Run.ID) = i).
  { apply Hwf in Hr. unfold run_identity in Hident. simpl in Hr. injection Hident as E _ _ _ _ _. by rewrite E. }
  split; simpl; auto.
  - intros _ k x. rewrite lookup_insert_Some. intros [[<- <-]|[_ Hx]]; [done|by apply Hwf].
  - intros k Hk. by rewrite lookup_insert_ne.
  - intros x. rewrite lookup_insert_eq. intros [= <-]. eauto.
  - intros k w' Hk. eauto.
Qed.

(** The claim of a candidate keeps the invariant of the queue. *)
Lemma claimCandidate_keeps candidate options view d claim d' :
  queue_inv d -> claimCandidate candidate options view d = Ok (claim, d') -> queue_inv d'.
Proof.
  intros Hinv H. pose proof (queue_runs_wf d Hinv) as Hwf. pose proof (queue_windows_wf d Hinv) as Hwwf.
  apply claimCandidate_ok in H as (run&scope&windows&d2&[Hscope Hrow Hview Hcl Hver Hidle]&Hcase&->&Hruns&Hstate);
    [|done].
  assert (Hid : run.(Run.ID) = candidate.(Run.ID)) by (by apply Hwf in Hrow).
  unfold still_claimable in Hcl. to_prop.
  destruct Hcl as ((((((Hpend&Hinit)&Hdue)&Hty)&Htt)&Hti)&Hreq).
  destruct (claimed_run_fields options run) as (F1&F2&F3&F4&F5&F6&F7&F8).
  set (i := candidate.(Run.ID)) in *. set (r' := claimed_run options run) in *.
  assert (Ht2 : touches i d d2 /\ (CollectionTaskWindowed (Run.TaskType run) = true ->
     let found := claimable_windows i options view d in found <> [] /\
     windows_of d2 i ≡ₚ (fun w => if bool_decide (w ∈ found) then claimed_window (ClaimOptions.Now options) w else w)
                          <$> windows_of d i)).
  { destruct (CollectionTaskWindowed (Run.TaskType run)); [|destruct Hcase as [_ ->]; by split].
    apply claim_windows_ok in Hcase as (Hne&_&->&_). rewrite Hid in *.
    set (found := claimable_windows i options view d) in *.
    set (h := fun w => if bool_decide (w ∈ found) then claimed_window (ClaimOptions.Now options) w else w).
    assert (Heq : claim_rows (ClaimOptions.Now options) found d = map_windows h d).
    { unfold map_windows, claim_rows. f_equal. simpl. apply map_eq. intros k.
      pose proof (claim_rows_lookup i options view d k Hwwf) as Hl. rewrite lookup_fmap. exact Hl. }
    assert (Hh : forall w, RunWindow.ID (h w) = RunWindow.ID w /\ RunWindow.RunID (h w) = RunWindow.RunID w).
    { intros w. unfold h. by case_bool_decide. }
    rewrite Heq. split.
    - apply touches_map; [done|]. intros k w Hk. unfold h. case_bool_decide as Hin; [right|by left].
      apply claimable_elem in Hin as (Hp&_). unfold pending_of in Hp. to_prop. tauto.
    - intros _. split; [done|]. apply windows_of_map. apply Hh. }
  destruct Ht2 as [Ht2 Hwin2].
  set (d3 := set_table (R := CollectionRun) (<[i := r']> (table d2)) d2) in *.
  apply (queue_inv_frame d3); [|done].
  assert (Hrow2 : Tables.collection_run d2 !! i = Some run) by (by rewrite Hruns).
  apply (queue_inv_touch i d); [done| |].
  { etransitivity; [exact Ht2|]. apply (touches_run_insert i run); [done|done|].
    by apply (touch_runs_wf _ _ _ Ht2). }
  intros x Hx. unfold d3 in Hx. simpl in Hx. rewrite lookup_insert_eq in Hx. injection Hx as <-.
  pose proof (queue_run_inv d Hinv i run Hrow) as [Ist Ikey Iwin Iplain].
  assert (Hnt : ~ terminal run) by (intros [E|E]; rewrite Hpend in E; done). split.
  - assert (Hnt' : ~ terminal r') by (intros [E|E]; rewrite F1 in E; done).
    assert (Hty' : Run.TaskType r' = Run.TaskType run).
    { unfold run_identity in F8. by injection F8. }
    split.
    + rewrite F1. simpl. auto.
    + rewrite F6. tauto.
    + rewrite Hty', F7. intros Hw. specialize (Iwin Hw). destruct (Hwin2 Hw) as [Hne Hperm].
      destruct (Run.WindowsInitializedAt run) eqn:Hi; [|done].
      change (windows_of d3 i) with (windows_of d2 i).
      apply (settled_counts_perm _ ((fun w => if bool_decide (w ∈ claimable_windows i options view d)
               then claimed_window (ClaimOptions.Now options) w else w) <$> windows_of d i)); [by symmetry|].
      apply (claimed_settled run); try done. intros w Hw'. apply claimable_elem in Hw' as (Hp&_&_&k&Hk).
      unfold pending_of in Hp. to_prop. destruct Hp as [Hof Hst]. split; [|done].
      apply elem_of_windows_of. eauto.
    + rewrite Hty', F7. intros Hw. rewrite Hw in Hcase. destruct Hcase as [_ ->]. by apply Iplain.
  - intros _. right. intros k r site taskType Hk Hr Hrun Hclaim.
    eapply (idle_site_task candidate run scope d); eauto.
    + by eapply (queue_target d Hinv).
    + congruence.
    + destruct Hclaim as (_&Ht&Hs&Hty'). unfold run_identity in F8.
      injection F8 as _ G1 _ G2 G3 _. repeat split; congruence.
Qed.

(** ** Committing *)

(** The window a commit writes. *)
Definition committed (outcomes : list CollectionTaskWindowResult) (now : Z) (w : CollectionRunWindow)
  : CollectionRunWindow :=
  match outcome_of outcomes w.(RunWindow.ID) with
  | Some outcome => committed_window outcome now w
  | None => w
  end.

Lemma committed_id outcomes now w :
  (committed outcomes now w).(RunWindow.ID) = w.(RunWindow.ID) /\
  (committed outcomes now w).(RunWindow.RunID) = w.(RunWindow.RunID).
Proof. unfold committed. by case_match. Qed.

Lemma commit_windows_ok run_id now outcomes ws d s d' :
  table_wf (Tables.collection_run_window d) -> NoDup (RunWindow.ID <$> ws) ->
  (forall w, w ∈ ws -> of_run run_id w = true /\
     Tables.collection_run_window d !! w.(RunWindow.ID) = Some w) ->
  commit_windows run_id now outcomes ws d = Ok (s, d') ->
  d' = map_windows (fun x => if bool_decide (x ∈ ws) then committed outcomes now x else x) d.
Proof.
  unfold commit_windows. intros Hwf Hnd Hin H.
  eapply (st_fold_rows (fun w => of_run run_id w = true)); try exact H; try done.
  { intros w. apply committed_id. }
  clear. intros w [fetched written] d s' d' Hwf Hof Hw H. cbv beta iota in H.
  apply st_bind_ok in H as (o&d1&Ho&H). apply st_lift_ok in Ho as (o'&Ho&[= -> ->]).
  destruct (outcome_of outcomes (RunWindow.ID w)) as [o|] eqn:Hout; [|done]. injection Ho as <-.
  apply st_bind_ok in H as ([]&d1&Hreq&H). apply st_require_ok in Hreq as (Hreq&[= ->]).
  apply st_bind_ok in H as (n&d2&Hupd&H). apply db_update_ok in Hupd as [-> ->].
  apply st_bind_ok in H as ([]&d3&Haff&H). apply st_require_ok in Haff as (_&[= ->]).
  apply st_ret_pair in H as [_ ->]. unfold committed. rewrite Hout. to_prop.
  refine (set_table_update_one d _ (committed_window o now) w _ _ _ _); [done|done| |].
  - unfold claimed_row. to_prop. tauto.
  - intros x Hx. unfold claimed_row in Hx. to_prop. simpl. tauto.
Qed.

Lemma initial_recalculation_identity run now d run' d' :
  recalculateInitialBackfillRun run now d = Ok (run', d') -> run_identity run' = run_identity run.
Proof.
  unfold recalculateInitialBackfillRun. past_guard Hg. intros H.
  apply st_bind_ok in H as (W&d1&_&H). apply st_bind_ok in H as ([]&d2&_&H).
  destruct (initial_status _ _) as [status term]. apply st_bind_ok in H as (n&d3&_&H).
  apply st_ret_pair in H as [-> _].
  destruct (initial_recalculated_fields status term (initial_tally now W) now run) as (_&_&_&_&_&_&_&F).
  exact F.
Qed.

Lemma recalculation_identity run W now d run' d' :
  ~ terminal run -> RecalculateLockedCollectionRun run W now None d = Ok (run', d') ->
  run_identity run' = run_identity run.
Proof.
  intros Hnt H. apply recalculate_ok in H as (t&status&term&failure&_&_&_&_&_&->); [|done].
  exact (recalculated_identity status term failure t now run).
Qed.

(** A recalculation of an open run leaves it well formed, whichever of the
    two functions does it. *)
Lemma recalculation_touches d i row run Wm now run' d' :
  Tables.collection_run d !! i = Some row -> table_wf (Tables.collection_run d) ->
  run.(Run.ID) = i -> row.(Run.Status) = "running" -> run.(Run.Status) = "running" ->
  run.(Run.TotalWindows) = row.(Run.TotalWindows) ->
  run.(Run.WindowsInitializedAt) = row.(Run.WindowsInitializedAt) ->
  row.(Run.LastRequestID) = run.(Run.LastRequestID) ->
  row.(Run.WindowsInitializedAt) <> None -> row.(Run.TotalWindows) = Z.of_nat (length (windows_of d i)) ->
  CollectionTaskWindowed row.(Run.TaskType) = true -> row.(Run.ActiveKey) <> None ->
  (RunWindow.Status <$> Wm) ≡ₚ (RunWindow.Status <$> windows_of d i) ->
  (if run.(Run.Priority) =? CollectionPriorityInitialBackfill then recalculateInitialBackfillRun run now
   else RecalculateLockedCollectionRun run Wm now None) d = Ok (run', d') ->
  touches i d d' /\
  exists row', Tables.collection_run d' !! i = Some row' /\ run_inv row' (windows_of d' i) /\
    run'.(Run.Status) = row'.(Run.Status) /\ run'.(Run.ID) = i.
Proof.
  intros Hrow Hwf Hid Hs Hs' Htot Hinit Hreq Hin Hlen Hw Hkey Hstat H.
  assert (Hnt : ~ terminal run) by (intros [E|E]; congruence).
  assert (Hid' : run'.(Run.ID) = i).
  { assert (run_identity run' = run_identity run) as E.
    { destruct (_ =? _); [by eapply initial_recalculation_identity|by eapply recalculation_identity]. }
    unfold run_identity in E. injection E as E _ _ _ _ _. congruence. }
  destruct (_ =? _).
  - eapply (recalculate_initial_inv d i row) in H as (Ht&row'&?&?&?&_); eauto 10.
  - eapply (recalculate_inv d i row) in H as (Ht&row'&?&?&?&_); eauto 10.
Qed.

Lemma commitWindowResults_touches d run request run' d' :
  queue_inv d -> Tables.collection_run d !! run.(Run.ID) = Some run -> run.(Run.Status) = "running" ->
  run.(Run.LastRequestID) = request.(CommitRequest.RequestID) ->
  CollectionTaskWindowed run.(Run.TaskType) = true ->
  commitWindowResults run request d = Ok (run', d') ->
  touches run.(Run.ID) d d' /\
  exists row', Tables.collection_run d' !! run.(Run.ID) = Some row' /\
    run_inv row' (windows_of d' run.(Run.ID)).
Proof.
  intros Hinv Hrow Hs Hreq Hw. pose proof (queue_windows_wf d Hinv) as Hwwf.
  pose proof (running_run_facts d _ run Hinv Hrow Hs) as [_ Hnt Hkey Hwin].
  destruct (Hwin Hw) as [Hinit Hlen]. clear Hwin. set (i := run.(Run.ID)) in *.
  unfold commitWindowResults. past_guard Hg. intros H.
  apply st_bind_ok in H as (claimed&d1&Hsel&H). apply db_select_ok in Hsel as [-> ->].
  apply st_bind_ok in H as ([]&d1&Hl&H). apply st_require_ok in Hl as (_&[= ->]).
  apply st_bind_ok in H as ([fetched written]&d1&Hloop&H).
  fold i in Hloop, H.
  set (p := fun w => of_run i w && _) in *.
  destruct (select_windows_listed p by_hour_id d Hwwf) as [Hnd Hlisted].
  set (claimed := select p by_hour_id d) in *.
  apply commit_windows_ok in Hloop as ->; [|done|done|].
  2:{ intros w Hw'. destruct (Hlisted w Hw') as [Hp ?]. unfold p in Hp. to_prop. tauto. }
  set (h := fun x => if bool_decide (x ∈ claimed) then _ else x) in *.
  set (d1 := map_windows h d) in *.
  assert (Ht1 : touches i d d1).
  { apply touches_map.
    - intros w. unfold h. case_bool_decide; [apply committed_id|done].
    - intros k w _. unfold h. case_bool_decide as Hin; [right|by left].
      destruct (Hlisted w Hin) as [Hp _]. unfold p in Hp. to_prop. tauto. }
  apply st_bind_ok in H as (clock&d2&Hclock&H). apply st_gets_ok in Hclock as [= -> ->].
  apply st_bind_ok in H as (n&d2&Hadd&H). apply add_rows_ok in Hadd as [-> ->].
  apply st_bind_ok in H as ([]&d3&Haff&H). apply st_require_ok in Haff as (Haff&[= ->]).
  match type of Haff with context [affected _ ?g _] => set (f := g) in * end.
  clear Haff.
  set (d2 := set_table (R := CollectionRun)
    (update_where (owned_row i "running" (CommitRequest.RequestID request)) f (table d1)) d1) in *.
  assert (Hwf1 : table_wf (Tables.collection_run d1)) by apply (queue_runs_wf d Hinv).
  assert (Ht2 : touches i d1 d2).
  { apply touches_run_update; [intros r; apply owned_row_id|done|done]. }
  assert (Hrow2 : Tables.collection_run d2 !! i = Some (f run)).
  { unfold d2. rewrite set_table_runs_lookup. change (Tables.collection_run d1) with (Tables.collection_run d).
    rewrite Hrow. simpl. unfold upd, owned_row, run_has_id. fold i.
    rewrite Z.eqb_refl, Hs, Hreq, sql_text_eq_refl. done. }
  assert (Hlen2 : length (windows_of d2 i) = length (windows_of d i)).
  { pose proof (transitivity Ht1 Ht2) as Ht. apply (touch_length _ _ _ Ht). }
  apply st_bind_ok in H as (r1&d3&Hrec&H).
  set (run1 := run <| Run.FetchedRows := wrap64 (Run.FetchedRows run + fetched) |>
                   <| Run.WrittenRows := wrap64 (Run.WrittenRows run + written) |>) in *.
  assert (Hrec' : exists Wm, (RunWindow.Status <$> Wm) ≡ₚ (RunWindow.Status <$> windows_of d2 i) /\
    (if Run.Priority run1 =? CollectionPriorityInitialBackfill
     then recalculateInitialBackfillRun run1 (CommitRequest.Now request)
     else RecalculateLockedCollectionRun run1 Wm (CommitRequest.Now request) None) d2 = Ok (r1, d3)).
  { exists (select (of_run i) by_hour_id d2). split; [by rewrite select_perm|].
    change (Run.Priority run1) with (Run.Priority run) in *.
    destruct (Run.Priority run =? _); [exact Hrec|]. apply st_bind_ok in Hrec as (W&d4&Hsel&Hrec).
    by apply db_select_ok in Hsel as [-> ->]. }
  destruct Hrec' as (Wm&HWm&Hrec').
  eapply (recalculation_touches d2 i (f run)) in Hrec' as (Ht3&row3&Hrow3&Hinv3&Hst3&Hid1); try done.
  2:{ apply (touch_runs_wf _ _ _ Ht2), Hwf1. }
  2:{ by rewrite Hlen2. }
  assert (Ht13 : touches i d d3) by (by do 2 (etransitivity; [eassumption|])).
  destruct (Run.Status r1 == CollectionTaskStatusPending).
  - apply st_bind_ok in H as (n&d4&Hupd&H). apply db_update_ok in Hupd as [-> ->].
    apply st_bind_ok in H as ([]&d5&Ha&H). apply st_require_ok in Ha as (_&[= ->]).
    apply st_ret_pair in H as [_ ->].
    rewrite Hid1.
    destruct (harmless_update d3 (owned_row i "pending" (CommitRequest.RequestID request))
      (fun r => r <| Run.HeartbeatAt := None |> <| Run.UpdatedAt := Tables.gorm_now d1 |>) i row3) as [Ht4 ?];
      [intros r; apply owned_row_id|done|by apply (touch_runs_wf _ _ _ Ht13), (queue_runs_wf d Hinv)|done|done|].
    split; [by etransitivity|done].
  - apply st_ret_pair in H as [_ ->]. split; [done|]. eauto.
Qed.

(** ** Owner operations *)
Lemma lock_run_with_scope_ok i d run scope d' :
  lock_run_with_scope i d = Ok ((run, scope), d') ->
  d' = d /\ Tables.collection_run d !! i = Some run /\
  exists base, Tables.collection_run d !! i = Some base /\ resolveTaskScope base d = Ok (scope, d).
Proof.
  unfold lock_run_with_scope. intros H. apply st_bind_ok in H as (base&d1&Hb&H).
  apply db_first_ok in Hb as [Hb ->]. apply st_bind_ok in H as (sc&d1&Hs&H).
  pose proof (resolveTaskScope_reads base _ _ _ Hs) as E. simpl in E. subst d1.
  apply st_bind_ok in H as ([]&d1&Hl&H). pose proof (lockTaskScope_reads sc None _ _ _ Hl) as E.
  simpl in E. subst d1. apply st_bind_ok in H as (r&d1&Hr&H). apply db_first_ok in Hr as [Hr ->].
  apply st_ret_pair in H as [[= -> ->] ->]. eauto.
Qed.

Lemma owned_spec r requestID : owned r requestID = true <->
  r.(Run.Status) = "running" /\ r.(Run.LastRequestID) = requestID.
Proof. unfold owned. by rewrite andb_true_iff, !bool_decide_eq_true. Qed.

(** The three outcomes of a task without windows. *)
Lemma non_window_columns_ok request f : non_window_columns request = Ok f -> forall r,
  run_identity (f r) = run_identity r /\
  (f r).(Run.WindowsInitializedAt) = r.(Run.WindowsInitializedAt) /\
  In (f r).(Run.Status) ["pending"; "success"; "failed"] /\
  (f r).(Run.ActiveKey) = (if (f r).(Run.Status) == "pending" then r.(Run.ActiveKey) else None).
Proof.
  unfold non_window_columns. intros H r.
  destruct (_ == CollectionTaskStatusSuccess); [injection H as <-; simpl; tauto|].
  destruct (_ == CollectionTaskStatusPending).
  - destruct (CommitRequest.NextAttemptAt request); [|done]. destruct (_ <=? 0); [done|].
    injection H as <-. simpl. tauto.
  - destruct (_ == CollectionTaskStatusFailed); [|done]. destruct (_ == ""); [done|].
    injection H as <-. simpl. tauto.
Qed.

Lemma commitNonWindowResult_touches d run request run' d' :
  queue_inv d -> Tables.collection_run d !! run.(Run.ID) = Some run -> run.(Run.Status) = "running" ->
  run.(Run.LastRequestID) = request.(CommitRequest.RequestID) ->
  CollectionTaskWindowed run.(Run.TaskType) = false ->
  commitNonWindowResult run request d = Ok (run', d') ->
  touches run.(Run.ID) d d' /\
  exists row', Tables.collection_run d' !! run.(Run.ID) = Some row' /\
    run_inv row' (windows_of d' run.(Run.ID)).
Proof.
  intros Hinv Hrow Hs Hreq Hw. pose proof (queue_runs_wf d Hinv) as Hwf.
  pose proof (running_run_facts d _ run Hinv Hrow Hs) as [_ Hnt Hkey _].
  unfold commitNonWindowResult. past_guard Hg. intros H.
  apply st_bind_ok in H as (f&d1&Hcol&H). apply st_lift_ok in Hcol as (f'&Hcol&[= -> ->]).
  apply st_bind_ok in H as (n&d1&Hadd&H). apply add_rows_ok in Hadd as [-> ->].
  apply st_bind_ok in H as ([]&d2&Haff&H). apply st_require_ok in Haff as (_&[= ->]).
  apply st_ret_pair in H as [_ ->]. pose proof (non_window_columns_ok request f' Hcol) as Hf. split.
  - apply touches_run_update; [intros r; apply owned_row_id| |done].
    intros r. destruct (Hf (r <| Run.FetchedRows := r.(Run.FetchedRows) + CommitRequest.FetchedRows request |>
      <| Run.WrittenRows := r.(Run.WrittenRows) + CommitRequest.WrittenRows request |>)) as (E&_). exact E.
  - simpl. rewrite (lookup_update_where (R := CollectionRun)), Hrow. eexists. split; [reflexivity|].
    unfold upd. rewrite owned_row_own by done.
    set (r0 := run <| Run.FetchedRows := _ |> <| Run.WrittenRows := _ |>).
    destruct (Hf r0) as (E&Hi&Hst&Hk). unfold run_identity in E. injection E as _ _ _ Ety _ _.
    change (Run.TaskType r0) with (Run.TaskType run) in Ety.
    pose proof (queue_run_inv d Hinv _ run Hrow) as [_ _ _ Hplain].
    split.
    + simpl in Hst |- *. intuition.
    + rewrite Hk. unfold terminal. change (Run.ActiveKey r0) with (Run.ActiveKey run).
      simpl in Hst. destruct Hst as [<-|[<-|[<-|[]]]]; cbn; split; intros; try tauto; try done;
      destruct H as [?|?]; done.
    + rewrite Ety, Hw. done.
    + rewrite Ety, Hi. by apply Hplain.
Qed.

Lemma CommitClaim_keeps request d run' d' :
  queue_inv d -> CommitClaim request d = Ok (run', d') -> queue_inv d'.
Proof.
  intros Hinv. unfold CommitClaim. past_guard Hg. intros H.
  apply st_bind_ok in H as ([run scope]&d1&Hlock&H).
  apply lock_run_with_scope_ok in Hlock as (->&Hrow&_). cbv beta iota in H.
  apply st_bind_ok in H as ([]&d1&Hown&H). apply st_require_ok in Hown as (Hown&[= ->]).
  apply owned_spec in Hown as [Hs Hreq].
  apply st_bind_ok in H as ([]&d1&Hver&H).
  pose proof (verifyTaskScopeLocked_reads run scope _ _ _ Hver) as E. simpl in E. subst d1.
  pose proof (queue_runs_wf d Hinv _ _ Hrow) as Hid. simpl in Hid. rewrite <- Hid in Hrow.
  apply st_bind_ok in H as (r1&d1&Hbody&H). apply st_bind_ok in H as ([]&d2&Hrec&H).
  apply st_ret_pair in H as [_ ->].
  apply (queue_inv_frame d1); [|by apply (recalculateTaskBackfillStatuses_frame _ _ _ _ _ Hrec)].
  assert (exists d0, run_state d1 = run_state d0 /\ touches (Run.ID run) d d0 /\
    exists row', Tables.collection_run d0 !! Run.ID run = Some row' /\ run_inv row' (windows_of d0 (Run.ID run)))
    as (d0&Hfr&Ht&Hrow').
  { destruct (CollectionTaskWindowed (Run.TaskType run)) eqn:Hw.
    - destruct ((CommitRequest.RunStatus request != "") || _); [by apply st_fail_ok in Hbody|].
      apply st_bind_ok in Hbody as (r2&d0&Hcommit&Hbody). apply st_bind_ok in Hbody as ([]&d3&Hfin&Hbody).
      apply st_ret_pair in Hbody as [_ ->]. exists d0.
      split; [by apply (finalizeLocalRebuildLifecycle_frame _ _ _ _ _ Hfin)|].
      eapply commitWindowResults_touches; eauto.
    - destruct (bool_decide _); [|by apply st_fail_ok in Hbody]. exists d1. split; [done|].
      eapply commitNonWindowResult_touches; eauto. }
  apply (queue_inv_frame d0); [|done]. by eapply owner_touch.
Qed.

Lemma ReleaseClaim_keeps claim now d run' d' :
  queue_inv d -> ReleaseClaim claim now d = Ok (run', d') -> queue_inv d'.
Proof.
  intros Hinv. unfold ReleaseClaim. destruct (CollectionTaskWindowed _).
  - cbv zeta. destruct (bool_decide _); [by intros ?%st_fail_ok|]. by apply CommitClaim_keeps.
  - by apply CommitClaim_keeps.
Qed.

(** A handler's deferred writes leave the queue alone. *)
Definition lawful (mutation : option CollectionTaskWindowMutation) : Prop :=
  match mutation with Some m => forall scope, Preserves run_state (m scope) | None => True end.

Lemma CompleteClaimedWindow_keeps request d run' d' :
  queue_inv d -> lawful request.(CompleteRequest.Mutation) ->
  CompleteClaimedWindow request d = Ok (run', d') -> queue_inv d'.
Proof.
  intros Hinv Hlaw. unfold CompleteClaimedWindow. past_guard Hg. intros H.
  apply st_bind_ok in H as ([run scope]&d1&Hlock&H).
  apply lock_run_with_scope_ok in Hlock as (->&Hrow&_). cbv beta iota in H.
  apply st_bind_ok in H as ([]&d1&Hown&H). apply st_require_ok in Hown as (Hown&[= ->]).
  apply andb_true_iff in Hown as [Hown Hw]. apply owned_spec in Hown as [Hs Hreq].
  apply st_bind_ok in H as ([]&d1&Hver&H).
  pose proof (verifyTaskScopeLocked_reads run scope _ _ _ Hver) as E. simpl in E. subst d1.
  pose proof (queue_runs_wf d Hinv _ _ Hrow) as Hid. simpl in Hid. rewrite <- Hid in Hrow.
  apply st_bind_ok in H as (w&d1&Hfirst&H).
  assert (d1 = d) as -> by (unfold first_window in Hfirst; destruct (select _ _ _); [done|by injection Hfirst]).
  apply st_bind_ok in H as ([]&d1&Hwin&H). apply st_require_ok in Hwin as (_&[= ->]).
  apply st_bind_ok in H as (outcome&d1&Hmut&H).
  assert (Hfr : run_state d1 = run_state d).
  { destruct (CompleteRequest.Mutation request) as [m|]; [|by apply st_ret_pair in Hmut as [_ ->]].
    apply st_bind_ok in Hmut as ([]&d2&Hr&Hmut). apply st_require_ok in Hr as (_&[= ->]).
    apply st_bind_ok in Hmut as (site&d2&Hsite&Hmut). apply db_first_ok in Hsite as [_ ->].
    apply st_bind_ok in Hmut as ([fetched written]&d2&Hm&Hmut). apply st_ret_pair in Hmut as [_ ->].
    by apply (Hlaw _ _ _ _ Hm). }
  assert (Hinv1 : queue_inv d1) by (by apply (queue_inv_frame d)).
  assert (Hrow1 : Tables.collection_run d1 !! Run.ID run = Some run).
  { unfold run_state in Hfr. injection Hfr as -> _ _ _. done. }
  apply st_bind_ok in H as (r1&d2&Hcommit&H). apply st_bind_ok in H as ([]&d3&Hfin&H).
  apply st_bind_ok in H as ([]&d4&Hrec&H). apply st_ret_pair in H as [_ ->].
  apply (queue_inv_frame d3); [|by apply (recalculateTaskBackfillStatuses_frame _ _ _ _ _ Hrec)].
  apply (queue_inv_frame d2); [|by apply (finalizeLocalRebuildLifecycle_frame _ _ _ _ _ Hfin)].
  apply commitWindowResults_touches in Hcommit as [Ht Hrow']; try done. by eapply owner_touch.
Qed.
