(* ===== verification/QueueRecovery.v ===== *)
(** * Release, heartbeat and recovery keep the invariant *)

From S2P Require Import Prelude Constants GoText Store Frame RunContract RunState RunRepository SiteFence TaskScope RunFrames TaskClaim TaskCommit RunInvariant QueueClaim TaskRecovery Materialize QueueSteps.

(** The row of a window after a release or a recovery. *)
Definition settled (code : string) (now limit : Z) (w : CollectionRunWindow) : CollectionRunWindow :=
  if w.(RunWindow.Status) == "running" then settle_window code now limit w else w.

Lemma settled_id code now limit w :
  (settled code now limit w).(RunWindow.ID) = w.(RunWindow.ID) /\
  (settled code now limit w).(RunWindow.RunID) = w.(RunWindow.RunID).
Proof. unfold settled, settle_window, requeue_window, exhaust_window. by repeat case_match. Qed.

(** The slice in memory and the rows agree on the statuses. *)
Lemma settled_statuses code now limit (W : list CollectionRunWindow) :
  RunWindow.Status <$> (settle_in_memory code now limit <$> W) =
  RunWindow.Status <$> (settled code now limit <$> W).
Proof.
  rewrite <- !list_fmap_compose. apply list_fmap_ext. intros j w _. unfold compose, settled,
    settle_in_memory, settle_window, requeue_window, exhaust_window, CollectionTaskStatusRunning.
  by repeat case_match.
Qed.

Lemma set_table_same (d : Db) (w : CollectionRunWindow) :
  Tables.collection_run_window d !! w.(RunWindow.ID) = Some w ->
  d = set_table (R := CollectionRunWindow)
        (<[w.(RunWindow.ID) := w]> (Tables.collection_run_window d)) d.
Proof. intros Hw. rewrite insert_id by done. by destruct d. Qed.

Lemma release_windows_ok run_id now limit ws d n d' :
  table_wf (Tables.collection_run_window d) -> NoDup (RunWindow.ID <$> ws) ->
  (forall w, w ∈ ws -> of_run run_id w = true /\
     Tables.collection_run_window d !! w.(RunWindow.ID) = Some w) ->
  release_windows run_id now limit ws d = Ok (n, d') ->
  d' = map_windows (fun x => if bool_decide (x ∈ ws)
         then settled CollectionTaskExecutionFailedCode now limit x else x) d.
Proof.
  unfold release_windows. intros Hwf Hnd Hin H.
  eapply (st_fold_rows (fun w => of_run run_id w = true)); try exact H; try done.
  { intros w. apply settled_id. }
  clear. intros w n d s' d' Hwf Hof Hw H. cbv beta in H. unfold settled.
  change CollectionTaskStatusRunning with "running" in H.
  destruct (RunWindow.Status w == "running") eqn:Hs; cbn [negb] in H.
  - apply st_bind_ok in H as (k&d2&Hupd&H). apply db_update_ok in Hupd as [-> ->].
    apply st_bind_ok in H as ([]&d3&Haff&H). apply st_require_ok in Haff as (_&[= ->]).
    apply st_ret_pair in H as [_ ->]. to_prop.
    refine (set_table_update_one d _ (settle_window CollectionTaskExecutionFailedCode now limit) w _ _ _ _);
      [done|done| |].
    + unfold claimed_row. to_prop. tauto.
    + intros x Hx. unfold claimed_row in Hx. to_prop. simpl. tauto.
  - apply st_ret_pair in H as [_ ->]. by apply set_table_same.
Qed.

(** Nothing released means nothing written. *)
Lemma release_windows_zero run_id now limit ws : forall n d n' d',
  st_fold (fun window released =>
      if window.(RunWindow.Status) != CollectionTaskStatusRunning then mret released
      else
        affectedRows ← db_update (claimed_row window.(RunWindow.ID) run_id window.(RunWindow.AttemptCount))
          (settle_window CollectionTaskExecutionFailedCode now limit);
        _ ← st_require (affectedRows =? 1) ErrCollectionTaskClaimLost;
        mret (released + 1)) ws n d = Ok (n', d') ->
  n <= n' /\ (n' = n -> d' = d).
Proof.
  induction ws as [|w ws IH]; intros n d n' d' H.
  - apply st_fold_nil in H as [= -> ->]. split; [lia|done].
  - apply st_fold_cons in H as (n1&d1&H1&H). apply IH in H as [Hle Heq].
    destruct (_ != _) in H1.
    + apply st_ret_pair in H1 as [-> ->]. done.
    + apply st_bind_ok in H1 as (k&d2&_&H1). apply st_bind_ok in H1 as ([]&d3&_&H1).
      apply st_ret_pair in H1 as [-> _]. split; [lia|]. intros ->. lia.
Qed.

(** The windows of a run after a loop over all of them. *)
Lemma settled_loop code now limit i key d :
  table_wf (Tables.collection_run_window d) ->
  let ws := select (of_run i) key d in
  let d' := map_windows (fun x => if bool_decide (x ∈ ws) then settled code now limit x else x) d in
  touches i d d' /\
  RunWindow.Status <$> (settle_in_memory code now limit <$> ws) ≡ₚ RunWindow.Status <$> windows_of d' i.
Proof.
  intros Hwf ws d'. destruct (select_windows_listed (of_run i) key d Hwf) as [Hnd Hin]. fold ws in Hnd, Hin.
  assert (Hh : forall x, RunWindow.RunID (if bool_decide (x ∈ ws) then settled code now limit x else x)
            = RunWindow.RunID x) by (intros x; case_bool_decide; [apply settled_id|done]).
  split.
  - apply touches_map.
    + intros w. split; [|apply Hh]. case_bool_decide; [apply settled_id|done].
    + intros k w _. case_bool_decide as Hw; [right; by apply Hin|by left].
  - rewrite settled_statuses. unfold d'. rewrite windows_of_map by done.
    rewrite (fmap_listed (settled code now limit) ws); [done|]. apply select_perm.
Qed.

Lemma idle_harmless now : harmless (fun r => r <| Run.HeartbeatAt := None |> <| Run.UpdatedAt := now |>).
Proof. done. Qed.

Lemma ReleaseOwnedRunning_keeps i requestID now policy d n d' :
  queue_inv d -> ReleaseOwnedRunning i requestID now policy d = Ok (n, d') -> queue_inv d'.
Proof.
  intros Hinv. pose proof (queue_windows_wf d Hinv) as Hwwf. pose proof (queue_runs_wf d Hinv) as Hwf.
  unfold ReleaseOwnedRunning. past_guard Hg. intros H.
  apply st_bind_ok in H as ([run scope]&d1&Hlock&H).
  apply lock_run_with_scope_ok in Hlock as (->&Hrow&_). cbv beta iota in H.
  destruct (owned run requestID) eqn:Hown; cbn [negb] in H; [|by apply st_ret_pair in H as [_ ->]].
  apply owned_spec in Hown as [Hs Hreq].
  pose proof (running_run_facts d i run Hinv Hrow Hs) as [Hid Hnt Hkey Hwin].
  destruct (CollectionTaskWindowed (Run.TaskType run)) eqn:Hw; cbn [negb] in H.
  - destruct (Hwin eq_refl) as [Hinit Hlen].
    apply st_bind_ok in H as (ws&d1&Hsel&H). apply db_select_ok in Hsel as [-> ->].
    set (limit := maxAttempts policy (Run.TaskType run)) in *. cbv zeta in H.
    apply st_bind_ok in H as (released&d1&Hrel&H).
    destruct (released =? 0) eqn:Hz.
    { apply st_ret_pair in H as [_ ->]. apply Z.eqb_eq in Hz as ->.
      apply release_windows_zero in Hrel as [_ ->]; done. }
    clear Hz. destruct (select_windows_listed (of_run i) by_site_hour d Hwwf) as [Hnd Hin].
    apply release_windows_ok in Hrel as ->; [|done..].
    destruct (settled_loop CollectionTaskExecutionFailedCode now limit i by_site_hour d Hwwf) as [Ht1 Hstat].
    set (ws := select (of_run i) by_site_hour d) in *. set (d1 := map_windows _ d) in *.
    apply st_bind_ok in H as (k&d2&Hupd&H). apply db_update_ok in Hupd as [-> ->].
    apply st_bind_ok in H as ([]&d3&Haff&H). apply st_require_ok in Haff as (_&[= ->]).
    set (idle := fun r => r <| Run.HeartbeatAt := None |> <| Run.UpdatedAt := now |>) in *.
    set (d2 := set_table (R := CollectionRun) (update_where (owned_row i "running" requestID) idle (table d1)) d1).
    assert (Hwf1 : table_wf (Tables.collection_run d1)) by exact Hwf.
    assert (Ht2 : touches i d1 d2) by (apply touches_run_update; [intros r; apply owned_row_id|done|done]).
    assert (Hrow2 : Tables.collection_run d2 !! i = Some (idle run)).
    { unfold d2. rewrite set_table_runs_lookup. change (Tables.collection_run d1) with (Tables.collection_run d).
      rewrite Hrow. simpl. unfold upd. rewrite <- Hid, owned_row_own by done. done. }
    apply st_bind_ok in H as (r1&d3&Hrec&H). apply st_bind_ok in H as ([]&d4&Hst&H).
    apply st_ret_pair in H as [_ ->].
    apply (queue_inv_frame d3); [|by apply (recalculateTaskBackfillStatuses_frame _ _ _ _ _ Hst)].
    change (Run.Priority run) with (Run.Priority (idle run)) in Hrec.
    pose proof (transitivity Ht1 Ht2) as Ht12.
    eapply (recalculation_touches d2 i (idle run)) in Hrec as (Ht3&row3&Hrow3&Hinv3&_); try done.
    + eapply (owner_touch d d3 i run); eauto. by etransitivity.
    + by apply (touch_runs_wf _ _ _ Ht2).
    + rewrite (touch_length _ _ _ Ht12). exact Hlen.
  - apply db_update_ok in H as [_ ->].
    eapply (owner_touch d _ i run); eauto.
    + apply touches_run_update; [intros r; apply owned_row_id|done|done].
    + rewrite set_table_runs_lookup, Hrow. eexists. split; [reflexivity|]. unfold upd.
      rewrite <- Hid, owned_row_own by done.
      pose proof (queue_run_inv d Hinv i run Hrow) as [_ Ik _ Ip]. rewrite Hid. split.
      * simpl. auto.
      * simpl. split; [done|]. intros [E|E]; done.
      * simpl. by rewrite Hw.
      * simpl. intros _. by apply Ip.
Qed.

Lemma Heartbeat_keeps i requestID now d u d' :
  queue_inv d -> Heartbeat i requestID now d = Ok (u, d') -> queue_inv d'.
Proof.
  intros Hinv. unfold Heartbeat. past_guard Hg. intros H.
  apply st_bind_ok in H as (run&d1&Hrow&H). apply db_first_ok in Hrow as [Hrow ->].
  change (Tables.collection_run d !! i = Some run) in Hrow.
  apply st_bind_ok in H as (scope&d1&Hs&H). pose proof (resolveTaskScope_reads run _ _ _ Hs) as E.
  simpl in E. subst d1. apply st_bind_ok in H as ([]&d1&Hl&H).
  pose proof (lockTaskScope_reads scope None _ _ _ Hl) as E. simpl in E. subst d1.
  apply st_bind_ok in H as (n&d1&Hupd&H). apply db_update_ok in Hupd as [-> ->].
  apply st_require_ok in H as (_&H). injection H as _ ->.
  destruct (harmless_update d (owned_row i "running" requestID)
    (fun r => r <| Run.HeartbeatAt := Some now |> <| Run.UpdatedAt := now |>) i run) as [Ht (row'&Hrow'&Hi)];
    [intros r; apply owned_row_id|done|apply Hinv|done|by apply (queue_run_inv d Hinv)|].
  apply (queue_inv_touch i d _ Hinv Ht). intros r' Hr'.
  assert (row' = r') as -> by congruence. split; [done|].
  intros Hst. left. exists run. split; [done|]. rewrite set_table_runs_lookup, Hrow in Hr'.
  injection Hr' as <-. unfold upd in Hst. by destruct (owned_row i "running" requestID run).
Qed.

(** ** Recovery *)
Lemma recover_windows_ok i now limit ws d u d' :
  table_wf (Tables.collection_run_window d) -> NoDup (RunWindow.ID <$> ws) ->
  (forall w, w ∈ ws -> of_run i w = true /\
     Tables.collection_run_window d !! w.(RunWindow.ID) = Some w) ->
  recover_windows now limit ws d = Ok (u, d') ->
  d' = map_windows (fun x => if bool_decide (x ∈ ws)
         then settled CollectionTaskLeaseLostCode now limit x else x) d.
Proof.
  unfold recover_windows. intros Hwf Hnd Hin H.
  eapply (st_fold_rows (fun w => of_run i w = true)); try exact H; try done.
  { intros w. apply settled_id. }
  clear. intros w [] d s' d' Hwf _ Hw H. cbv beta in H. unfold settled.
  change CollectionTaskStatusRunning with "running" in H.
  destruct (RunWindow.Status w == "running") eqn:Hs; cbn [negb] in H.
  - apply st_bind_ok in H as (k&d2&Hupd&H). apply db_update_ok in Hupd as [-> ->].
    apply st_ret_pair in H as [_ ->]. to_prop.
    assert (settle_window CollectionTaskLeaseLostCode now limit w =
      (if RunWindow.AttemptCount w <? limit then requeue_window now
       else exhaust_window CollectionTaskLeaseLostCode now) w) as ->.
    { unfold settle_window. by destruct (_ <? _). }
    refine (set_table_update_one d _ _ w _ _ _ _); [done|done| |].
    + to_prop. done.
    + intros x Hx. to_prop. simpl. tauto.
  - apply st_ret_pair in H as [_ ->]. by apply set_table_same.
Qed.

Lemma recovered_run_fields now limit attempt r :
  let r' := recovered_run now limit attempt r in
  run_identity r' = run_identity r /\ r'.(Run.WindowsInitializedAt) = r.(Run.WindowsInitializedAt) /\
  (if attempt <? limit then r'.(Run.Status) = "pending" /\ r'.(Run.ActiveKey) = r.(Run.ActiveKey)
   else r'.(Run.Status) = "failed" /\ r'.(Run.ActiveKey) = None).
Proof. unfold recovered_run, run_identity. by destruct (attempt <? limit). Qed.

(** The windowed branch of a recovery, before the statuses. *)
Lemma recover_windowed_touches run now limit d run' d' :
  queue_inv d -> Tables.collection_run d !! run.(Run.ID) = Some run -> run.(Run.Status) = "running" ->
  CollectionTaskWindowed run.(Run.TaskType) = true ->
  (windows ← db_select (of_run run.(Run.ID)) by_hour_id;
   _ ← recover_windows now limit windows;
   run ← RecalculateLockedCollectionRun run
           (settle_in_memory CollectionTaskLeaseLostCode now limit <$> windows) now None;
   if run.(Run.Status) == CollectionTaskStatusPending then
     clock ← st_gets Tables.gorm_now;
     _ ← db_update (run_has_id run.(Run.ID))
           (fun r => r <| Run.HeartbeatAt := None |> <| Run.UpdatedAt := clock |>);
     mret (run <| Run.HeartbeatAt := None |>)
   else mret run) d = Ok (run', d') ->
  touches run.(Run.ID) d d' /\
  exists row', Tables.collection_run d' !! run.(Run.ID) = Some row' /\
    run_inv row' (windows_of d' run.(Run.ID)).
Proof.
  intros Hinv Hrow Hs Hw H. pose proof (queue_windows_wf d Hinv) as Hwwf.
  pose proof (queue_runs_wf d Hinv) as Hwf.
  pose proof (running_run_facts d _ run Hinv Hrow Hs) as [_ Hnt Hkey Hwin].
  set (i := Run.ID run) in *.
  apply st_bind_ok in H as (ws&d1&Hsel&H). apply db_select_ok in Hsel as [-> ->].
  destruct (select_windows_listed (of_run i) by_hour_id d Hwwf) as [Hnd Hin].
  apply st_bind_ok in H as ([]&d1&Hloop&H).
  apply (recover_windows_ok i) in Hloop as ->; [|done..].
  destruct (settled_loop CollectionTaskLeaseLostCode now limit i by_hour_id d Hwwf) as [Ht1 Hstat].
  set (ws := select (of_run i) by_hour_id d) in *. set (d1 := map_windows _ d) in *.
  apply st_bind_ok in H as (r1&d2&Hrec&H).
  destruct (Hwin Hw) as [Hinit Hlen].
  assert (Hid1 : Run.ID r1 = i).
  { apply recalculation_identity in Hrec; [|done]. unfold run_identity in Hrec.
    by injection Hrec as E _ _ _ _ _. }
  eapply (recalculate_inv d1 i run) in Hrec as (Ht2&row2&Hrow2&Hinv2&_); try done.
  assert (Ht12 : touches i d d2) by (by etransitivity).
  destruct (Run.Status r1 == CollectionTaskStatusPending).
  - apply st_bind_ok in H as (clock&d3&Hclock&H). apply st_gets_ok in Hclock as [= -> ->].
    apply st_bind_ok in H as (n&d3&Hupd&H). apply db_update_ok in Hupd as [-> ->].
    apply st_ret_pair in H as [_ ->]. rewrite Hid1.
    destruct (harmless_update d2 (run_has_id i)
      (fun r => r <| Run.HeartbeatAt := None |> <| Run.UpdatedAt := Tables.gorm_now d2 |>) i row2) as [Ht3 ?];
      [intros r; apply run_has_id_eq|done|by apply (touch_runs_wf _ _ _ Ht12)|done|done|].
    split; [by etransitivity|done].
  - apply st_ret_pair in H as [_ ->]. eauto.
Qed.

(** What [recover_locked_run] does to the queue. *)
Lemma recover_locked_run_keeps run now policy d b d' :
  queue_inv d -> Tables.collection_run d !! run.(Run.ID) = Some run -> run.(Run.Status) = "running" ->
  recover_locked_run run now policy d = Ok (b, d') -> queue_inv d'.
Proof.
  intros Hinv Hrow Hs. pose proof (queue_runs_wf d Hinv) as Hwf.
  pose proof (running_run_facts d _ run Hinv Hrow Hs) as [_ Hnt Hkey Hwin].
  unfold recover_locked_run. set (limit := maxAttempts policy (Run.TaskType run)). cbv zeta. intros H.
  apply st_bind_ok in H as (r1&d1&Hbody&H). apply st_bind_ok in H as ([]&d2&Hst&H).
  apply st_ret_pair in H as [_ ->].
  apply (queue_inv_frame d1); [|by apply (recalculateTaskBackfillStatuses_frame _ _ _ _ _ Hst)].
  assert (touches (Run.ID run) d d1 /\ exists row', Tables.collection_run d1 !! Run.ID run = Some row' /\
    run_inv row' (windows_of d1 (Run.ID run))) as [Ht Hrow']; [|by eapply owner_touch].
  destruct (CollectionTaskWindowed (Run.TaskType run)) eqn:Hw.
  { by eapply recover_windowed_touches. }
  apply st_bind_ok in Hbody as (n&d3&Hupd&Hbody). apply db_update_ok in Hupd as [-> ->].
  apply st_ret_pair in Hbody as [_ ->]. split.
  - apply touches_run_update; [intros r Hr; to_prop; destruct Hr as [Hr _]; exact (run_has_id_eq _ _ Hr)| |done].
    intros r. apply recovered_run_fields.
  - rewrite set_table_runs_lookup, Hrow. eexists. split; [reflexivity|]. unfold upd, run_has_id.
    rewrite Z.eqb_refl, bool_decide_eq_true_2 by done.
    destruct (recovered_run_fields now limit (Run.RetryCount run) run) as (E&Ei&Hc).
    unfold run_identity in E. injection E as _ _ _ Ety _ _.
    pose proof (queue_run_inv d Hinv _ run Hrow) as [_ _ _ Hplain]. cbn [andb]. split.
    + destruct (_ <? _); destruct Hc as [-> _]; simpl; auto.
    + unfold terminal. destruct (_ <? _); destruct Hc as [-> ->]; split; intros HH; try done; [by destruct HH|by right].
    + by rewrite Ety, Hw.
    + rewrite Ety, Ei. by apply Hplain.
Qed.

Lemma recoverRun_keeps i now stale policy d b d' :
  queue_inv d -> recoverRun i now stale policy d = Ok (b, d') -> queue_inv d'.
Proof.
  intros Hinv. unfold recoverRun. destruct (table d !! i); [|by intros [= _ <-]]. intros H.
  apply st_bind_ok in H as ([run scope]&d1&Hlock&H).
  apply lock_run_with_scope_ok in Hlock as (->&Hrow&_). cbv beta iota in H.
  destruct (_ || _) eqn:Hc; [by apply st_ret_pair in H as [_ ->]|]. to_prop. destruct Hc as [Hs _].
  pose proof (queue_runs_wf d Hinv _ _ Hrow) as Hid. simpl in Hid. rewrite <- Hid in Hrow.
  exact (recover_locked_run_keeps run now policy d b d' Hinv Hrow Hs H).
Qed.
