(* ===== verification/QueueCreate.v ===== *)
(** * Creating runs keeps the invariant of the queue *)

From S2P Require Import Prelude Constants GoText Store Frame RunContract RunState RunRepository SiteFence TaskScope RunFrames TaskClaim TaskCommit RunInvariant QueueClaim TaskRecovery Materialize QueueSteps.

(** ** Inserting a run *)

(** What an inserted run must satisfy: it has no windows yet, and it does not
    run. *)
Record insertable (run : CollectionRun) : Prop := {
  insertable_inv : run_inv run [];
  insertable_target : site_target run;
  insertable_idle : run.(Run.Status) <> "running"
}.

Lemma set_run_id_inv run i W : run_inv run W -> run_inv (set_row_id i run) W.
Proof. by apply run_inv_fields. Qed.

Lemma windows_of_fresh d : queue_inv d -> windows_of d (Tables.auto_run d) = [].
Proof.
  intros Hinv. destruct (windows_of d (Tables.auto_run d)) as [|w l] eqn:Hw; [done|].
  assert (Hin : w ∈ windows_of d (Tables.auto_run d)) by (rewrite Hw; set_solver).
  apply elem_of_windows_of in Hin as (Hof&k&Hk). apply (queue_window_ids d Hinv) in Hk.
  unfold of_run in Hof. to_prop. lia.
Qed.

Lemma create_keeps run d created d' :
  queue_inv d -> insertable run -> db_create run d = Ok (created, d') ->
  queue_inv d' /\ created = set_row_id (Tables.auto_run d) run.
Proof.
  intros Hinv [Hri Htg Hidle] H. unfold db_create in H. injection H as <- <-. split; [|done].
  set (i := Tables.auto_run d). set (new := set_row_id i run).
  assert (Hfresh : Tables.collection_run d !! i = None).
  { destruct (Tables.collection_run d !! i) eqn:E; [|done]. apply (queue_run_ids d Hinv) in E. lia. }
  assert (Hlook : forall k r, <[i := new]> (Tables.collection_run d) !! k = Some r ->
     (k = i /\ r = new) \/ (k <> i /\ Tables.collection_run d !! k = Some r)).
  { intros k r. rewrite lookup_insert_Some. intros [[<- <-]|[? ?]]; auto. }
  assert (Hnil : windows_of d i = []) by exact (windows_of_fresh d Hinv).
  destruct Hinv as [Hrwf Hwwf Hrun Hid Hwid Hauto Htarget Hex].
  split; simpl.
  - intros k r [[-> ->]|[_ Hr]]%Hlook; [done|by apply Hrwf].
  - exact Hwwf.
  - intros k r [[-> ->]|[_ Hr]]%Hlook; [|by apply Hrun].
    refine (eq_ind_r (run_inv new) _ (Hnil : windows_of _ i = [])). by apply set_run_id_inv.
  - intros k r [[-> ->]|[_ Hr]]%Hlook; [unfold i; lia|]. apply Hid in Hr. lia.
  - intros k w Hk. apply Hwid in Hk. lia.
  - lia.
  - intros k r [[-> ->]|[_ Hr]]%Hlook; [exact Htg|by eapply Htarget].
  - intros k1 r1 k2 r2 site ty [[-> ->]|[_ H1]]%Hlook [[-> ->]|[_ H2]]%Hlook R1 R2; [done| | |by eapply Hex].
    + by destruct R1 as [? _].
    + by destruct R2 as [? _].
Qed.

(** A run that passed [ValidateCollectionRunForCreate]. *)
Lemma valid_insertable run : ValidateCollectionRunForCreate run = true -> insertable run.
Proof.
  unfold ValidateCollectionRunForCreate. intros H. to_prop.
  repeat match goal with H : _ /\ _ |- _ => destruct H end.
  split; [|intros Hs|congruence].
  - split.
    + match goal with H : Run.Status run = _ |- _ => rewrite H end. simpl. auto.
    + match goal with H : Run.Status run = _ |- _ => unfold terminal; rewrite H end.
      split; [|by intros [?|?]]. intros E. match goal with H : not_nil (Run.ActiveKey run) = true |- _ => by rewrite E in H end.
    + intros Hw. destruct (Run.WindowsInitializedAt run) eqn:Hi; [|left; split; [done|set_solver]].
      match goal with H : _ = false \/ not_nil _ = false |- _ => destruct H as [E|E]; [congruence|done] end.
    + intros Hw. split; [|done]. match goal with H : (if CollectionTaskWindowed _ then _ else _) = true |- _ => rewrite Hw in H end.
      to_prop. intros E.
      match goal with H : _ /\ not_nil _ = true |- _ => destruct H as [_ H]; by rewrite E in H end.
  - match goal with H : (if _ == "site" then _ else _) = true |- _ =>
      rewrite bool_decide_eq_true_2 in H by done; to_prop; tauto end.
Qed.

Lemma CreateOrGetRun_keeps run d r d' :
  queue_inv d -> CreateOrGetRun run d = Ok (r, d') -> queue_inv d'.
Proof.
  intros Hinv. unfold CreateOrGetRun. past_guard Hv. apply negb_false_iff in Hv. intros H.
  apply st_bind_ok in H as (ins&d1&Hins&H).
  unfold insert_run_ignore in Hins. apply st_bind_ok in Hins as (taken&d2&Ht&Hins).
  apply st_gets_ok in Ht as [= -> ->].
  match type of Hins with (if ?b then _ else _) _ = _ => destruct b end.
  - apply st_ret_pair in Hins as [-> ->]. destruct (Run.ActiveKey run); [|by apply st_fail_ok in H].
    apply st_bind_ok in H as (ex&d1&Hf&H). apply db_first_where_elem in Hf as (->&_).
    apply st_bind_ok in H as ([]&d1&Hr&H). apply st_require_ok in Hr as (_&[= ->]).
    by apply st_ret_pair in H as [_ ->].
  - apply st_bind_ok in Hins as (created&d2&Hc&Hins). apply st_ret_pair in Hins as [-> ->].
    apply st_ret_pair in H as [_ ->]. by eapply create_keeps in Hc as [? _]; [| |apply valid_insertable].
Qed.

(** ** Covering a range *)
Lemma createSiteWindowGap_keeps site request s e d r d' :
  queue_inv d -> createSiteWindowGap site request s e d = Ok (r, d') -> queue_inv d'.
Proof.
  intros Hinv. unfold createSiteWindowGap. intros H.
  apply st_bind_ok in H as (run&d1&Hn&H). apply st_lift_ok in Hn as (x&_&[= -> ->]).
  by eapply CreateOrGetRun_keeps.
Qed.

Lemma fold_keeps {A B} (f : A -> B -> Tx B) l :
  (forall a b d b' d', queue_inv d -> f a b d = Ok (b', d') -> queue_inv d') ->
  forall b d b' d', queue_inv d -> st_fold f l b d = Ok (b', d') -> queue_inv d'.
Proof.
  intros Hf. induction l as [|a l IH]; intros b d b' d' Hinv H.
  - by apply st_fold_nil in H as [= -> ->].
  - apply st_fold_cons in H as (b1&d1&H1&H). eauto.
Qed.

Lemma create_gaps_keeps site request ranges acc d r d' :
  queue_inv d -> create_gaps site request ranges acc d = Ok (r, d') -> queue_inv d'.
Proof.
  apply fold_keeps. intros [s e] acc' d0 b' d1 Hinv H. cbv beta iota in H.
  apply st_bind_ok in H as (x&d2&Hc&H). apply st_ret_pair in H as [_ ->].
  by eapply createSiteWindowGap_keeps.
Qed.

#[export] Instance collectableUsageBackfillRanges_reads site s e :
  ReadsOnly (collectableUsageBackfillRanges site s e).
Proof. unfold collectableUsageBackfillRanges. solve_frame. Qed.

Lemma CreateSiteWindowRun_keeps request d runs d' :
  queue_inv d -> CreateSiteWindowRun request d = Ok (runs, d') -> queue_inv d'.
Proof.
  intros Hinv. unfold CreateSiteWindowRun. past_guard Hv. intros H.
  apply st_bind_ok in H as (snapshot&d1&Hs&H).
  pose proof (LockRunnableSiteSnapshot_reads _ _ _ _ _ Hs) as E. simpl in E. subst d1.
  apply st_bind_ok in H as (family&d1&Hf&H). apply st_lift_ok in Hf as (?&_&[= _ ->]).
  apply st_bind_ok in H as (active&d1&Ha&H).
  assert (d1 = d) as ->.
  { destruct (_ <? _); [by apply db_select_ok in Ha as [_ ->]|by apply st_ret_pair in Ha as [_ ->]]. }
  apply st_bind_ok in H as ([]&d1&Hr&H). apply st_require_ok in Hr as (_&[= ->]).
  destruct (bool_decide _).
  - destruct (List.find _ _); [by apply st_ret_pair in H as [_ ->]|].
    apply st_bind_ok in H as ([]&d1&Hr&H). apply st_require_ok in Hr as (_&[= ->]).
    apply st_bind_ok in H as (r&d1&Hc&H). apply st_ret_pair in H as [_ ->].
    by eapply createSiteWindowGap_keeps.
  - revert H. apply fold_keeps; [|done]. intros [s e] acc d0 b' d1 Hinv0 H. cbv beta iota in H.
    apply st_bind_ok in H as (cands&d2&Hc&H).
    assert (d2 = d0) as ->.
    { destruct (_ == _); [|by apply st_ret_pair in Hc as [_ ->]].
      by apply (collectableUsageBackfillRanges_reads _ _ _ _ _ _ Hc). }
    by eapply create_gaps_keeps.
Qed.

(** ** Enqueueing *)
Lemma EnqueueSiteTask_keeps request d r d' :
  queue_inv d -> EnqueueSiteTask request d = Ok (r, d') -> queue_inv d'.
Proof.
  intros Hinv. unfold EnqueueSiteTask. past_guard Hg. intros H.
  apply st_bind_ok in H as (found&d1&Hf&H).
  assert (d1 = d) as ->.
  { unfold findLogicalSiteTask in Hf. apply st_bind_ok in Hf as (range&d2&Hl&Hf).
    apply st_lift_ok in Hl as (?&_&[= -> ->]). apply st_bind_ok in Hf as (l&d2&Hsel&Hf).
    apply db_select_ok in Hsel as [_ ->]. by apply st_ret_pair in Hf as [_ ->]. }
  destruct found; [by apply st_ret_pair in H as [_ ->]|]. destruct (CollectionTaskWindowed _).
  - destruct (EnqueueRequest.StartTimestamp request), (EnqueueRequest.EndTimestamp request);
      try by apply st_fail_ok in H.
    apply st_bind_ok in H as (runs&d1&Hc&H). apply CreateSiteWindowRun_keeps in Hc; [|done].
    destruct runs as [|? [|? ?]]; [by apply st_fail_ok in H|by apply st_ret_pair in H as [_ ->]|by apply st_fail_ok in H].
  - apply st_bind_ok in H as (site&d1&Hs&H). unfold FindByIDForUpdate in Hs.
    apply db_first_ok in Hs as [_ ->]. apply st_bind_ok in H as ([]&d1&Hr&H).
    apply st_require_ok in Hr as (_&[= ->]). apply st_bind_ok in H as (run&d1&Hn&H).
    apply st_lift_ok in Hn as (?&_&[= -> ->]). by eapply CreateOrGetRun_keeps.
Qed.

Lemma EnqueueScheduledSiteWindowTask_keeps request d r d' :
  queue_inv d -> EnqueueScheduledSiteWindowTask request d = Ok (r, d') -> queue_inv d'.
Proof.
  intros Hinv. unfold EnqueueScheduledSiteWindowTask.
  destruct (EnqueueRequest.StartTimestamp request), (EnqueueRequest.EndTimestamp request);
    try by intros ?%st_fail_ok.
  past_guard Hg. intros H. apply st_bind_ok in H as (runs&d1&Hc&H). apply st_ret_pair in H as [_ ->].
  by eapply CreateSiteWindowRun_keeps.
Qed.

Lemma RecordScheduledSiteTaskDiagnostic_keeps request d r d' :
  queue_inv d -> RecordScheduledSiteTaskDiagnostic request d = Ok (r, d') -> queue_inv d'.
Proof.
  intros Hinv. unfold RecordScheduledSiteTaskDiagnostic. past_guard Hg. intros H.
  apply st_bind_ok in H as (site&d1&Hs&H). unfold FindByIDForUpdate in Hs.
  apply db_first_ok in Hs as [_ ->]. apply st_bind_ok in H as (found&d1&Hsel&H).
  apply db_select_ok in Hsel as [_ ->]. destruct found; [|by apply st_ret_pair in H as [_ ->]].
  apply st_bind_ok in H as (run&d1&Hn&H). apply st_lift_ok in Hn as (x&Hn&[= -> ->]).
  apply st_bind_ok in H as (created&d1&Hc&H). apply st_ret_pair in H as [_ ->].
  pose proof (new_run_valid _ _ _ Hn) as (Hv&Hst&Htt&Hti&_&Hinit).
  apply valid_insertable in Hv as [[_ _ Hwin Hplain] Htg _].
  assert (Hty : CollectionTaskWindowed (Run.TaskType x) = false).
  { rewrite (new_run_task _ _ _ Hn). simpl. to_prop. destruct Hg as [_ Hty].
    apply is_one_of_In in Hty. by destruct Hty as [<-|[<-|[<-|[]]]]. }
  eapply create_keeps in Hc as [? _]; [done|done|]. split; [|exact Htg|done]. split; simpl.
  - auto.
  - split; [by right|done].
  - by rewrite Hty.
  - intros Hw. by apply Hplain.
Qed.
