(* ===== verification/QueueMaterialize.v ===== *)
(** * Materialisation and the fence keep the invariant of the queue *)

From S2P Require Import Prelude Constants GoText Store Frame RunContract RunState RunRepository SiteFence TaskScope RunFrames TaskClaim TaskCommit RunInvariant QueueClaim TaskRecovery Materialize QueueSteps QueueCreate.

(** ** Inserting windows *)

(** A run whose windows are being inserted. *)
Definition unopened (d : Db) (i : Z) : Prop := exists run,
  Tables.collection_run d !! i = Some run /\ run.(Run.Status) = "pending" /\
  run.(Run.WindowsInitializedAt) = None.

Lemma unopened_inv r W w :
  run_inv r W -> r.(Run.Status) = "pending" -> r.(Run.WindowsInitializedAt) = None ->
  w.(RunWindow.Status) = "pending" -> run_inv r (w :: W).
Proof.
  intros [A B C D] Hs Hi Hw. assert (Hwin : CollectionTaskWindowed r.(Run.TaskType) = true).
  { destruct (CollectionTaskWindowed _) eqn:E; [done|]. by destruct (D eq_refl). }
  specialize (C Hwin). rewrite Hi in C. split; [done|done| |by rewrite Hwin].
  intros _. rewrite Hi. left. split; [done|]. destruct C as [[_ C]|[C _]]; [|congruence].
  intros w' [-> |Hw']%elem_of_cons; auto.
Qed.

Lemma insert_window_keeps d w w' d' :
  queue_inv d -> unopened d w.(RunWindow.RunID) -> w.(RunWindow.Status) = "pending" ->
  db_create w d = Ok (w', d') ->
  queue_inv d' /\ Tables.collection_run d' = Tables.collection_run d.
Proof.
  intros Hinv (run&Hrow&Hpend&Hinit) Hw H. unfold db_create in H. injection H as _ <-. split; [|done].
  set (i := Tables.auto_run_window d). set (new := set_row_id i w).
  assert (Hfresh : Tables.collection_run_window d !! i = None).
  { destruct (Tables.collection_run_window d !! i) eqn:E; [|done]. apply (queue_window_ids d Hinv) in E. lia. }
  pose proof (queue_run_ids d Hinv _ run Hrow) as Hidr.
  set (d' := set_table (R := CollectionRunWindow) (<[i := new]> (table d))
               (set_auto_increment (R := CollectionRunWindow) (i + 1) d)).
  change (queue_inv d').
  assert (Hof : forall k, windows_of d' k ≡ₚ
            (if of_run k new then new :: windows_of d k else windows_of d k)).
  { intros k. unfold windows_of, table_rows, d'. simpl. rewrite rows_insert_new by done.
    rewrite filter_cons. case_decide as E; [by rewrite E|]. by destruct (of_run k new). }
  destruct Hinv as [Hrwf Hwwf Hrun Hid Hwid Hauto Htarget Hex]. split; try done.
  - intros k x. simpl. rewrite lookup_insert_Some. intros [[<- <-]|[_ Hx]]; [done|by apply Hwwf].
  - intros k r Hk. rewrite Hof. unfold of_run. change (RunWindow.RunID new) with (RunWindow.RunID w).
    destruct (_ =? k) eqn:E; [|by apply Hrun]. apply Z.eqb_eq in E as <-.
    change (Tables.collection_run d !! RunWindow.RunID w = Some r) in Hk. rewrite Hrow in Hk.
    injection Hk as <-. apply unopened_inv; try done. by apply Hrun.
  - intros k x. simpl. rewrite lookup_insert_Some. intros [[<- <-]|[_ Hx]].
    + change (RunWindow.RunID new) with (RunWindow.RunID w). fold i. lia.
    + apply Hwid in Hx. fold i. lia.
Qed.

#[export] Instance expectedTaskWindowKeys_reads run scope : ReadsOnly (expectedTaskWindowKeys run scope).
Proof. unfold expectedTaskWindowKeys. solve_frame. Qed.

#[export] Instance lockMaterializationExpectation_reads base :
  ReadsOnly (lockMaterializationExpectation base).
Proof. unfold lockMaterializationExpectation. solve_frame. Qed.

Lemma lockMaterializationExpectation_ok base d run keys d' :
  lockMaterializationExpectation base d = Ok ((run, keys), d') ->
  d' = d /\ Tables.collection_run d !! base.(Run.ID) = Some run /\
  run.(Run.Status) = "pending" /\ run.(Run.WindowsInitializedAt) = None.
Proof.
  intros H. pose proof (lockMaterializationExpectation_reads base _ _ _ H) as E. simpl in E. subst d'.
  split; [done|]. unfold lockMaterializationExpectation in H.
  apply st_bind_ok in H as (scope&d1&Hs&H). pose proof (resolveTaskScope_reads _ _ _ _ Hs) as E.
  simpl in E. subst d1. apply st_bind_ok in H as ([]&d1&Hl&H).
  pose proof (lockTaskScope_reads _ _ _ _ _ Hl) as E. simpl in E. subst d1.
  apply st_bind_ok in H as (r&d1&Hr&H). apply db_first_ok in Hr as [Hr ->].
  apply st_bind_ok in H as ([]&d1&Hm&H). apply st_require_ok in Hm as (Hm&[= ->]).
  apply st_bind_ok in H as ([]&d1&_&H). apply st_bind_ok in H as (ks&d2&_&H).
  apply st_ret_pair in H as [[= -> _] _]. split; [done|].
  unfold same_materialization in Hm. to_prop. split; [tauto|].
  assert (Hn : is_nil (Run.WindowsInitializedAt r) = true) by tauto. by destruct (Run.WindowsInitializedAt r).
Qed.

Lemma materialize_chunk_keeps base expected chunk now d u d' :
  queue_inv d -> materialize_chunk base expected chunk now d = Ok (u, d') -> queue_inv d'.
Proof.
  intros Hinv. unfold materialize_chunk. intros H.
  apply st_bind_ok in H as ([run keys]&d1&Hlock&H).
  apply lockMaterializationExpectation_ok in Hlock as (->&Hrow&Hp&Hi). cbv beta iota in H.
  apply st_bind_ok in H as ([]&d1&Hr&H). apply st_require_ok in Hr as (_&[= ->]).
  pose proof (queue_runs_wf d Hinv _ _ Hrow) as Hid. simpl in Hid. rewrite <- Hid in Hrow.
  assert (Hun : unopened d (Run.ID run)) by (exists run; done). clear Hrow Hp Hi Hid keys.
  revert d Hinv Hun H. generalize tt at 1 as b. induction chunk as [|key chunk IH]; intros b d Hinv Hun H.
  - by apply st_fold_nil in H as [= _ ->].
  - apply st_fold_cons in H as (b1&d1&H1&H). unfold insert_window_ignore in H1.
    apply st_bind_ok in H1 as (n&d2&Hn&H1). apply st_gets_ok in Hn as [= -> ->].
    destruct (0 <? _).
    + apply st_ret_pair in H1 as [_ ->]. by eapply IH.
    + apply st_bind_ok in H1 as (w'&d2&Hc&H1). apply st_ret_pair in H1 as [_ ->].
      apply insert_window_keeps in Hc as [Hinv' Hsame]; [|done..].
      eapply IH; [done| |done]. unfold unopened. by rewrite Hsame.
Qed.

(** ** Opening a run *)
Lemma open_run_keeps d i run Wm total now p run' d' :
  queue_inv d -> Tables.collection_run d !! i = Some run ->
  run.(Run.Status) = "pending" -> run.(Run.WindowsInitializedAt) = None ->
  Wm ≡ₚ windows_of d i -> (forall w, w ∈ Wm -> w.(RunWindow.Status) = "pending") ->
  (forall r, p r = true -> r.(Run.ID) = i) -> p run = true ->
  let initialized r := r <| Run.TotalWindows := total |> <| Run.WindowsInitializedAt := Some now |>
                         <| Run.UpdatedAt := now |> in
  RecalculateLockedCollectionRun (initialized run) Wm now None
    (set_table (R := CollectionRun) (update_where p initialized (table d)) d) = Ok (run', d') ->
  queue_inv d'.
Proof.
  intros Hinv Hrow Hs Hi HWm Hall Hp Hprun initialized Hrec.
  pose proof (queue_runs_wf d Hinv) as Hwf.
  assert (Hid : run.(Run.ID) = i) by (by apply Hwf in Hrow).
  pose proof (queue_run_inv d Hinv i run Hrow) as [_ Hkey Hwin Hplain].
  assert (Hnt : ~ terminal run) by (intros [E|E]; congruence).
  assert (Hw : CollectionTaskWindowed run.(Run.TaskType) = true).
  { destruct (CollectionTaskWindowed _) eqn:E; [done|]. by destruct (Hplain eq_refl). }
  set (d1 := set_table (R := CollectionRun) (update_where p initialized (table d)) d) in *.
  assert (Ht1 : touches i d d1) by (apply touches_run_update; done).
  assert (Hrow1 : Tables.collection_run d1 !! i = Some (initialized run)).
  { unfold d1. rewrite set_table_runs_lookup, Hrow. simpl. unfold upd. by rewrite Hprun. }
  assert (Hwf1 : table_wf (Tables.collection_run d1)) by (by apply (touch_runs_wf _ _ _ Ht1)).
  change (windows_of d i) with (windows_of d1 i) in HWm.
  assert (Hkey' : Run.ActiveKey run <> None) by (by rewrite Hkey).
  assert (Hsame : windows_of d' i = windows_of d i).
  { apply recalculate_ok in Hrec as (t&st&te&fa&_&_&_&_&->&_); [done|exact Hnt]. }
  eapply (recalculate_inv d1 i (initialized run)) in Hrec as (Ht2&row&Hrow2&Hinv2&_&Hident);
    [|done|done|done|done|done|done|done|done|by rewrite HWm].
  apply (queue_inv_touch i d d'); [done|by etransitivity|]. intros r' Hr'.
  rewrite Hrow2 in Hr'. injection Hr' as <-. split; [done|]. intros Hrunning. exfalso.
  destruct Hinv2 as [_ _ Hwin2 _]. unfold run_identity in Hident. injection Hident as _ _ _ Ety _ _.
  change (Run.TaskType (initialized run)) with (Run.TaskType run) in Ety.
  rewrite Ety in Hwin2. specialize (Hwin2 Hw).
  destruct (Run.WindowsInitializedAt row); [|destruct Hwin2 as [[? _]|[? _]]; congruence].
  apply (counts_running _ _ Hwin2) in Hrunning. apply status_count_pos in Hrunning as (w&Hin&Hrw).
  assert (Hpend : w.(RunWindow.Status) = "pending"); [|congruence].
  apply Hall. rewrite HWm. by rewrite Hsame in Hin.
Qed.

Lemma open_materialized_keeps base expected now d r d' :
  queue_inv d -> open_materialized base expected now d = Ok (r, d') -> queue_inv d'.
Proof.
  intros Hinv. unfold open_materialized. intros H.
  apply st_bind_ok in H as ([run keys]&d1&Hlock&H).
  apply lockMaterializationExpectation_ok in Hlock as (->&Hrow&Hp&Hi). cbv beta iota in H.
  apply st_bind_ok in H as ([]&d1&Hr&H). apply st_require_ok in Hr as (_&[= ->]).
  apply st_bind_ok in H as (W&d1&Hsel&H). apply db_select_ok in Hsel as [-> ->].
  apply st_bind_ok in H as ([]&d1&Hr&H). apply st_require_ok in Hr as (Hall&[= ->]). cbv zeta in H.
  apply st_bind_ok in H as (n&d1&Hupd&H). apply db_update_ok in Hupd as [-> ->].
  apply st_bind_ok in H as ([]&d2&Hr&H). apply st_require_ok in Hr as (_&E). injection E as ->.
  apply st_bind_ok in H as (r1&d2&Hrec&H). apply st_bind_ok in H as ([]&d3&Hfin&H).
  apply st_bind_ok in H as ([]&d4&Hst&H). apply st_ret_pair in H as [_ ->].
  apply (queue_inv_frame d3); [|by apply (recalculateTaskBackfillStatuses_frame _ _ _ _ _ Hst)].
  apply (queue_inv_frame d2); [|by apply (finalizeLocalRebuildLifecycle_frame _ _ _ _ _ Hfin)].
  pose proof (queue_runs_wf d Hinv _ _ Hrow) as Hid. simpl in Hid.
  eapply (open_run_keeps d (Run.ID run) run) in Hrec; try done.
  - by rewrite Hid.
  - apply select_perm.
  - intros w Hw. apply andb_true_iff in Hall as [_ Hall]. rewrite forallb_forall in Hall.
    apply list_elem_of_In, Hall in Hw. by to_prop.
  - intros x Hx. to_prop. destruct Hx as [[Hx _] _]. exact (run_has_id_eq _ _ Hx).
  - unfold run_has_id. by rewrite Z.eqb_refl, Hp, Hi.
Qed.

Lemma windows_match_pending site W : forall hours, windows_match site W hours = true ->
  forall w, w ∈ W -> w.(RunWindow.Status) = "pending".
Proof.
  induction W as [|w W IH]; intros [|h hours] H; try done; [set_solver|].
  cbn [windows_match] in H. to_prop. intros w' [-> |Hw']%elem_of_cons; [tauto|].
  eapply IH; [|done]. apply H.
Qed.

Lemma CompleteSiteRunWindowMaterialization_keeps sha site i version expectation now d r d' :
  queue_inv d ->
  CompleteSiteRunWindowMaterialization sha site i version expectation now d = Ok (r, d') -> queue_inv d'.
Proof.
  intros Hinv. unfold CompleteSiteRunWindowMaterialization. past_guard Hg. intros H.
  apply st_bind_ok in H as (snapshot&d1&Hs&H).
  pose proof (LockRunnableSiteSnapshot_reads _ _ _ _ _ Hs) as E. simpl in E. subst d1.
  apply st_bind_ok in H as (run&d1&Hf&H). apply db_first_where_elem in Hf as (->&Hp&k&Hrow).
  apply st_bind_ok in H as ([]&d1&Hr&H). apply st_require_ok in Hr as (Hst&[= ->]).
  apply st_bind_ok in H as ([]&d1&Hr&H). apply st_lift_ok in Hr as (?&_&[= _ ->]).
  apply st_bind_ok in H as (hash&d1&Hr&H). apply st_lift_ok in Hr as (?&_&[= _ ->]).
  apply st_bind_ok in H as ([]&d1&Hr&H). apply st_require_ok in Hr as (_&[= ->]).
  apply st_bind_ok in H as (W&d1&Hsel&H). apply db_select_ok in Hsel as [-> ->].
  apply st_bind_ok in H as ([]&d1&Hr&H). apply st_require_ok in Hr as (Hall&[= ->]).
  apply st_bind_ok in H as (hours&d1&Hr&H).
  pose proof (expectedSiteRunWindowHours_reads _ _ _ _ Hr) as E. simpl in E. subst d1. clear Hr.
  apply st_bind_ok in H as ([]&d1&Hr&H). apply st_require_ok in Hr as (_&[= ->]).
  apply st_bind_ok in H as (hash2&d1&Hr&H). apply st_lift_ok in Hr as (?&_&[= _ ->]).
  apply st_bind_ok in H as ([]&d1&Hr&H). apply st_require_ok in Hr as (_&[= ->]). cbv zeta in H.
  apply st_bind_ok in H as (n&d1&Hupd&H). apply db_update_ok in Hupd as [-> ->].
  apply st_bind_ok in H as ([]&d2&Hr&H). apply st_require_ok in Hr as (_&E). injection E as ->.
  apply (queue_runs_wf d Hinv) in Hrow as Hid. simpl in Hid. subst k.
  to_prop. destruct Hst as [[_ Hpend] Hinit], Hp as [Hp Hsite].
  assert (Hi : Run.WindowsInitializedAt run = None) by (by destruct (Run.WindowsInitializedAt run)).
  eapply (open_run_keeps d (Run.ID run) run) in H; try done.
  - apply select_perm.
  - by eapply windows_match_pending.
  - intros y Hy. to_prop. destruct Hy as [[[Hy _] _] _]. exact (run_has_id_eq _ _ Hy).
  - rewrite Hsite, Hpend, Hi. unfold run_has_id. by rewrite Z.eqb_refl.
Qed.

(** ** The fence *)
Lemma filter_filter_within {A} (p q : A -> bool) (l : list A) :
  (forall x, x ∈ l -> q x = true -> p x = true) ->
  base.filter (fun x => q x = true) (base.filter (fun x => p x = true) l)
  = base.filter (fun x => q x = true) l.
Proof.
  induction l as [|x l IH]; intros H; [done|].
  assert (Hl : forall y, y ∈ l -> q y = true -> p y = true) by (intros y Hy; apply H; by apply elem_of_cons; right).
  specialize (IH Hl). rewrite (filter_cons _ x). case_decide as Hp.
  - rewrite !filter_cons. case_decide; by rewrite IH.
  - rewrite (filter_cons _ x). rewrite decide_False; [done|].
    intros Hq. apply Hp, H; [by apply elem_of_cons; left|done].
Qed.

Lemma filter_of_run d p key i :
  (forall k w, Tables.collection_run_window d !! k = Some w -> of_run i w = true -> p w = true) ->
  List.filter (of_run i) (select p key d) ≡ₚ windows_of d i.
Proof.
  intros Hp.
  assert (HF : forall (l : list CollectionRunWindow),
            List.filter (of_run i) l = base.filter (fun w => of_run i w = true) l).
  { induction l as [|w l IH]; [done|]. simpl. rewrite filter_cons, IH. case_decide as E; [by rewrite E|].
    by destruct (of_run i w). }
  rewrite HF, select_perm. apply Permutation_refl'. unfold windows_of.
  assert (Hin : forall w, w ∈ table_rows d -> of_run i w = true -> p w = true).
  { intros w (k&Hk)%elem_of_rows. by apply (Hp k). }
  by apply filter_filter_within.
Qed.

(** The failing loop: each run of the list is still as it was read. *)
Lemma fail_fenced_runs_keeps siteID version now W (runs : list CollectionRun) : forall (d : Db) u d',
  queue_inv d -> NoDup (Run.ID <$> runs) ->
  (forall r, r ∈ runs -> Tables.collection_run d !! r.(Run.ID) = Some r /\ ~ terminal r /\
     List.filter (of_run r.(Run.ID)) W ≡ₚ windows_of d r.(Run.ID)) ->
  fail_fenced_runs siteID version now W runs d = Ok (u, d') -> queue_inv d'.
Proof.
  unfold fail_fenced_runs. induction runs as [|r runs IH]; intros d u d' Hinv Hnd Hall H.
  - by apply st_fold_nil in H as [= _ ->].
  - apply st_fold_cons in H as ([]&d1&H1&H). apply st_bind_ok in H1 as (r1&d2&Hfail&H1).
    apply st_ret_pair in H1 as [_ ->]. rewrite fmap_cons, NoDup_cons in Hnd. destruct Hnd as [Hr Hnd].
    destruct (Hall r ltac:(set_solver)) as (Hrow&Hnt&HW).
    apply (fail_locked_inv d (Run.ID r) r) in Hfail as (Ht&row'&Hrow'&Hri&Hst&_); [|done..].
    apply IH in H; [done| |done|].
    + apply (queue_inv_touch (Run.ID r) d); [done|done|]. intros x Hx. rewrite Hrow' in Hx.
      injection Hx as <-. split; [done|]. congruence.
    + intros x Hx. destruct (Hall x ltac:(set_solver)) as (Hxr&Hxt&HxW).
      assert (Hne : Run.ID x <> Run.ID r).
      { intros E. apply Hr. rewrite <- E. by apply list_elem_of_fmap_2. }
      rewrite (touch_other_runs _ _ _ Ht) by done. rewrite (touch_other_windows _ _ _ Ht) by done. done.
Qed.

Lemma fence_runs_listed d ids : queue_inv d ->
  let runs := select (fun r => one_of_ids ids r.(Run.ID) && active_status r) by_id d in
  NoDup (Run.ID <$> runs) /\ forall r, r ∈ runs ->
    Tables.collection_run d !! r.(Run.ID) = Some r /\ ~ terminal r /\ r.(Run.ID) ∈ ids.
Proof.
  intros Hinv runs. split.
  { pose proof (select_NoDup (fun r => one_of_ids ids (Run.ID r) && active_status r) by_id d
      (queue_runs_wf d Hinv)) as H. exact H. }
  intros r (Hp&k&Hk)%elem_of_select. apply (queue_runs_wf d Hinv) in Hk as Hid. simpl in Hid.
  to_prop. destruct Hp as [Hin Hact]. rewrite Hid. apply one_of_ids_spec in Hin. split; [done|].
  split; [|by rewrite Hid in Hin]. unfold active_status in Hact. apply open_status_spec in Hact.
  intros [E|E]; destruct Hact; congruence.
Qed.

Lemma lockSiteFenceCustomers_reads ids d u d' : lockSiteFenceCustomers ids d = Ok (u, d') -> d' = d.
Proof.
  unfold lockSiteFenceCustomers. destruct (bool_decide _); intros H; [by apply st_ret_pair in H as [_ ->]|].
  apply st_bind_ok in H as (l&d2&Hs&H). apply db_select_ok in Hs as [_ ->].
  by apply st_require_ok in H as (_&[= ->]).
Qed.

Lemma siteFenceAccountRefs_reads ids d u d' : siteFenceAccountRefs ids d = Ok (u, d') -> d' = d.
Proof.
  unfold siteFenceAccountRefs. destruct (bool_decide _); intros H; [by apply st_ret_pair in H as [_ ->]|].
  apply st_bind_ok in H as (l&d2&Hs&H). apply db_select_ok in Hs as [_ ->].
  by apply st_ret_pair in H as [_ ->].
Qed.

(** Selecting by an empty list of ids finds nothing. *)
Lemma lockSiteFenceRuns_ok ids d runs d' : lockSiteFenceRuns ids d = Ok (runs, d') ->
  d' = d /\ runs = select (fun r => one_of_ids ids r.(Run.ID) && active_status r) by_id d.
Proof.
  unfold lockSiteFenceRuns. destruct (bool_decide (ids = [])) eqn:E; to_prop; intros H.
  - apply st_ret_pair in H as [-> ->]. split; [done|]. subst ids. symmetry. by apply select_nil.
  - by apply db_select_ok in H as [-> ->].
Qed.

(** The windows read under the plan. *)
Definition fence_windows (plan : siteFencePlan) (d : Db) : list CollectionRunWindow :=
  select (fun w => one_of_ids (runIDs plan) w.(RunWindow.RunID)) by_run_hour d.
Definition fence_runs (plan : siteFencePlan) (d : Db) : list CollectionRun :=
  select (fun r => one_of_ids (runIDs plan) r.(Run.ID) && active_status r) by_id d.

Lemma BumpSiteFence_ok site now d s d' :
  BumpSiteFence site now d = Ok (s, d') ->
  let id := site.(MSite.ID) in let version := site.(MSite.ConfigVersion) + 1 in
  let bump x := x <| MSite.ConfigVersion := version |> <| MSite.UpdatedAt := now |> in
  exists plan row d1 d2,
    0 < id /\ Tables.site d !! id = Some row /\ row.(MSite.ConfigVersion) = site.(MSite.ConfigVersion) /\
    buildSiteFencePlan id d = Ok (plan, d) /\
    fail_fenced_runs id version now (fence_windows plan d) (fence_runs plan d) d = Ok (tt, d1) /\
    recalculateSiteFenceBackfillStatuses plan now d1 = Ok (tt, d2) /\
    d' = set_table (update_where (fun x => x.(MSite.ID) =? id) bump (table d2)) d2 /\ s = bump site.
Proof.
  unfold BumpSiteFence. past_guard Hg. intros H. to_prop. destruct Hg as [[Hid _] _].
  apply st_bind_ok in H as (plan&d1&Hp&H). pose proof (buildSiteFencePlan_reads _ _ _ _ Hp) as E.
  simpl in E. subst d1. apply st_bind_ok in H as (row&d1&Hl&H). unfold FindByIDForUpdate in Hl.
  apply db_first_ok in Hl as [Hrow ->]. apply st_bind_ok in H as ([]&d1&Hr&H).
  apply st_require_ok in Hr as (Hv&[= ->]). cbv zeta in H. to_prop.
  apply st_bind_ok in H as ([]&d1&Hc&H). apply lockSiteFenceCustomers_reads in Hc as ->.
  apply st_bind_ok in H as ([]&d1&Ha&H).
  assert (d1 = d) as ->.
  { destruct (bool_decide _); [by apply st_ret_pair in Ha as [_ ->]|].
    apply st_bind_ok in Ha as (l&d2&Hs&Ha). apply siteFenceAccountRefs_reads in Hs as ->.
    by apply st_require_ok in Ha as (_&[= ->]). }
  apply st_bind_ok in H as (plan2&d1&Hp2&H). pose proof (buildSiteFencePlan_reads _ _ _ _ Hp2) as E.
  simpl in E. subst d1. apply st_bind_ok in H as ([]&d1&Hr&H). apply st_require_ok in Hr as (_&[= ->]).
  apply st_bind_ok in H as (runs&d1&Hruns&H). apply lockSiteFenceRuns_ok in Hruns as [-> ->].
  apply st_bind_ok in H as ([]&d1&Hr&H). apply st_require_ok in Hr as (_&[= ->]).
  apply st_bind_ok in H as (W&d1&HW&H).
  assert (d1 = d /\ W = fence_windows plan d) as [-> ->].
  { unfold fence_windows. destruct (bool_decide (runIDs plan = [])) eqn:E; to_prop.
    - apply st_ret_pair in HW as [-> ->]. split; [done|]. rewrite E. symmetry. by apply select_nil.
    - by apply db_select_ok in HW as [-> ->]. }
  apply st_bind_ok in H as ([]&d1&Hfail&H). apply st_bind_ok in H as ([]&d2&Hst&H).
  apply st_bind_ok in H as (n&d3&Hupd&H). apply db_update_ok in Hupd as [_ ->].
  apply st_ret_pair in H as [-> ->]. exists plan, row, d1, d2. repeat split; done.
Qed.

(** The runs under the plan are the stored ones and come with their windows. *)
Lemma fence_runs_ready plan d : queue_inv d -> forall r, r ∈ fence_runs plan d ->
  Tables.collection_run d !! r.(Run.ID) = Some r /\ ~ terminal r /\
  List.filter (of_run r.(Run.ID)) (fence_windows plan d) ≡ₚ windows_of d r.(Run.ID).
Proof.
  intros Hinv r Hr. destruct (fence_runs_listed d (runIDs plan) Hinv) as [_ Hall].
  destruct (Hall r Hr) as (Hrow&Hnt&Hin). split; [done|]. split; [done|].
  apply filter_of_run. intros k w _ Hof. apply one_of_ids_spec. unfold of_run in Hof.
  to_prop. by rewrite Hof.
Qed.

Lemma BumpSiteFence_keeps site now d s d' :
  queue_inv d -> BumpSiteFence site now d = Ok (s, d') -> queue_inv d'.
Proof.
  intros Hinv H. apply BumpSiteFence_ok in H as (plan&row&d1&d2&_&_&_&_&Hfail&Hst&->&_).
  apply (queue_inv_frame d2); [|done].
  apply (queue_inv_frame d1); [|by apply (recalculateSiteFenceBackfillStatuses_frame _ _ _ _ _ Hst)].
  eapply fail_fenced_runs_keeps; [exact Hinv| | |exact Hfail].
  - apply (fence_runs_listed d (runIDs plan) Hinv).
  - by apply fence_runs_ready.
Qed.
