(* ===== verification/QueueSafety.v ===== *)
(** * Every history of the task queue

    The transactions of the schedulers, the workers, the recovery and the
    configuration fence as one step relation; the invariant of the queue holds
    in every state a history reaches. *)

From S2P Require Import Prelude Constants GoText Store Frame RunContract RunState RunRepository SiteFence TaskScope RunFrames TaskClaim TaskCommit RunInvariant QueueClaim TaskRecovery Materialize QueueSteps QueueRecovery QueueCreate QueueMaterialize.

(** ** ClaimNext *)
Lemma claim_first_keeps candidates options view : forall d c d',
  queue_inv d -> claim_first candidates options view d = Ok (c, d') -> queue_inv d'.
Proof.
  induction candidates as [|candidate rest IH]; intros d c d' Hinv H; cbn [claim_first] in H.
  - by injection H as _ <-.
  - destruct (claimCandidate candidate options view d) as [[claim d1]|e] eqn:Hc.
    + injection H as _ <-. by eapply claimCandidate_keeps.
    + destruct (skip_error e); [by eapply IH|done].
Qed.

Lemma claim_pages_keeps options view fuel : forall cursor d c d',
  queue_inv d -> claim_pages fuel cursor options view d = Ok (c, d') -> queue_inv d'.
Proof.
  induction fuel as [|fuel IH]; intros cursor d c d' Hinv H; cbn [claim_pages] in H.
  - by apply st_fail_ok in H.
  - apply st_bind_ok in H as (found&d1&Hs&H). apply db_select_ok in Hs as [-> ->]. cbv zeta in H.
    apply st_bind_ok in H as (claimed&d1&Hc&H). apply claim_first_keeps in Hc; [|done].
    destruct claimed; [by apply st_ret_pair in H as [_ ->]|].
    destruct (Nat.ltb _ _); [by apply st_fail_ok in H|].
    destruct (last _); [by eapply IH|by apply st_fail_ok in H].
Qed.

Lemma ClaimNext_keeps options view d c d' :
  queue_inv d -> ClaimNext options view d = Ok (c, d') -> queue_inv d'.
Proof.
  intros Hinv. unfold ClaimNext. destruct (negb _); [done|]. by apply claim_pages_keeps.
Qed.

(** ** Histories *)

(** One committed transaction.  [step_elsewhere] is any transaction of the
    rest of the program, which does not write the two tables of the queue; a
    transaction that fails is rolled back and is no step. *)
Inductive queue_step (d d' : Db) : Prop :=
| step_enqueue request r : EnqueueSiteTask request d = Ok (r, d') -> queue_step d d'
| step_schedule request r : EnqueueScheduledSiteWindowTask request d = Ok (r, d') -> queue_step d d'
| step_window_run request r : CreateSiteWindowRun request d = Ok (r, d') -> queue_step d d'
| step_create run r : CreateOrGetRun run d = Ok (r, d') -> queue_step d d'
| step_diagnostic request r : RecordScheduledSiteTaskDiagnostic request d = Ok (r, d') -> queue_step d d'
| step_materialize base expected chunk now :
    materialize_chunk base expected chunk now d = Ok (tt, d') -> queue_step d d'
| step_open base expected now r : open_materialized base expected now d = Ok (r, d') -> queue_step d d'
| step_complete_materialization sha256_hex siteID runID version expectation now r :
    CompleteSiteRunWindowMaterialization sha256_hex siteID runID version expectation now d = Ok (r, d') ->
    queue_step d d'
| step_claim options view claim : ClaimNext options view d = Ok (claim, d') -> queue_step d d'
| step_commit request r : CommitClaim request d = Ok (r, d') -> queue_step d d'
| step_complete request r : lawful request.(CompleteRequest.Mutation) ->
    CompleteClaimedWindow request d = Ok (r, d') -> queue_step d d'
| step_release claim now r : ReleaseClaim claim now d = Ok (r, d') -> queue_step d d'
| step_release_owned runID requestID now policy n :
    ReleaseOwnedRunning runID requestID now policy d = Ok (n, d') -> queue_step d d'
| step_heartbeat runID requestID now : Heartbeat runID requestID now d = Ok (tt, d') -> queue_step d d'
| step_recover runID now staleBefore policy b :
    recoverRun runID now staleBefore policy d = Ok (b, d') -> queue_step d d'
| step_fence site now s : BumpSiteFence site now d = Ok (s, d') -> queue_step d d'
| step_elsewhere : run_state d' = run_state d -> queue_step d d'.

(** A database before the first task. *)
Definition empty_queue (d : Db) : Prop :=
  Tables.collection_run d = ∅ /\ Tables.collection_run_window d = ∅ /\ 0 < Tables.auto_run d.

Definition reachable (d : Db) : Prop := exists d0, empty_queue d0 /\ rtc queue_step d0 d.

Lemma empty_queue_inv d : empty_queue d -> queue_inv d.
Proof.
  intros (Hr&Hw&Ha). split; rewrite ?Hr, ?Hw; try done.
Qed.

Lemma queue_step_keeps d d' : queue_inv d -> queue_step d d' -> queue_inv d'.
Proof.
  intros Hinv [].
  - by eapply EnqueueSiteTask_keeps.
  - by eapply EnqueueScheduledSiteWindowTask_keeps.
  - by eapply CreateSiteWindowRun_keeps.
  - by eapply CreateOrGetRun_keeps.
  - by eapply RecordScheduledSiteTaskDiagnostic_keeps.
  - by eapply materialize_chunk_keeps.
  - by eapply open_materialized_keeps.
  - by eapply CompleteSiteRunWindowMaterialization_keeps.
  - by eapply ClaimNext_keeps.
  - by eapply CommitClaim_keeps.
  - by eapply CompleteClaimedWindow_keeps.
  - by eapply ReleaseClaim_keeps.
  - by eapply ReleaseOwnedRunning_keeps.
  - by eapply Heartbeat_keeps.
  - by eapply recoverRun_keeps.
  - by eapply BumpSiteFence_keeps.
  - by eapply queue_inv_frame.
Qed.

Lemma reachable_inv d : reachable d -> queue_inv d.
Proof.
  intros (d0&H0%empty_queue_inv&Hsteps). induction Hsteps as [|x y z Hxy _ IH]; [done|].
  apply IH. by eapply queue_step_keeps.
Qed.

(** C1: whatever the schedulers, workers, recoveries and fences do, and in
    whatever order their transactions commit, at most one run of a task type
    is running on a site. *)
Theorem one_running_task_per_site d k1 k2 r1 r2 site taskType :
  reachable d ->
  Tables.collection_run d !! k1 = Some r1 -> Tables.collection_run d !! k2 = Some r2 ->
  running_site_task r1 site taskType -> running_site_task r2 site taskType ->
  k1 = k2 /\ r1 = r2.
Proof.
  intros Hd H1 H2 R1 R2. assert (k1 = k2) as ->; [|split; congruence].
  eapply (queue_exclusive d (reachable_inv d Hd)); eauto.
Qed.

(** C7: in every reachable state each initialised windowed run tells the truth
    about its windows: their number, how many succeeded and failed, that it is
    running exactly when one of them is, that a closed run has no open window
    and a successful one no failed window; and a run holds its active key
    exactly while it is not closed. *)
Theorem runs_reflect_windows d k r :
  reachable d -> Tables.collection_run d !! k = Some r ->
  CollectionTaskWindowed r.(Run.TaskType) = true -> r.(Run.WindowsInitializedAt) <> None ->
  settled_counts r (windows_of d k) /\ (r.(Run.ActiveKey) = None <-> terminal r) /\
  (terminal r -> forall w, w ∈ windows_of d k -> open_status w.(RunWindow.Status) = false).
Proof.
  intros Hd Hr Hw Hi. destruct (queue_run_inv d (reachable_inv d Hd) k r Hr) as [_ Hkey Hwin _].
  specialize (Hwin Hw). destruct (Run.WindowsInitializedAt r); [|done]. split; [done|]. split; [done|].
  intros Ht w Hin. destruct Hwin as [_ _ _ _ Hrun _ Hcl _].
  destruct (open_status _) eqn:Ho; [|done]. apply open_status_spec in Ho as [Ho|Ho].
  - specialize (Hcl Ht). assert (0 < status_count "pending" (windows_of d k)); [|lia].
    apply status_count_pos. eauto.
  - assert (Hst : r.(Run.Status) = "running") by (apply Hrun, status_count_pos; eauto).
    destruct Ht; congruence.
Qed.

(** ** A concrete history *)
Module History.
Definition after {A} (m : Tx A) (d : Db) : Db := match m d with Ok (_, d') => d' | Err _ => d end.

Lemma after_ok {A} (m : Tx A) d : is_ok (m d) = true -> exists a, m d = Ok (a, after m d).
Proof. unfold after. destruct (m d) as [[a d']|e]; [eauto|done]. Qed.

Definition start : Db := Sample.db [] [] [].
Definition request : SiteTaskEnqueueRequest :=
  EnqueueRequest.mk 7 3 "usage_hour" "schedule" (Some 3600) (Some 10800) "" 100 "req-1" 20000 None.
Definition enqueued : Db := after (EnqueueSiteTask request) start.
Definition keys : list CollectionTaskWindowKey := [WindowKey.mk 7 3600; WindowKey.mk 7 7200].
Definition base : CollectionRun :=
  match Tables.collection_run enqueued !! 100 with Some r => r | None => Sample.run 100 0 0 "" end.
Definition filled : Db := after (materialize_chunk base keys keys 20000) enqueued.
Definition opened : Db := after (open_materialized base keys 20001) filled.
Definition options : CollectionTaskClaimOptions :=
  ClaimOptions.mk ["usage_hour"] None None 20002 "worker-1" 1 0.
Definition claimed : Db := after (ClaimNext options no_locks) opened.
Definition outcome : CollectionTaskWindowResult :=
  WindowResult.mk 101 1 "success" None 5 4 "" "".
Definition commit : CollectionTaskCommitRequest :=
  CommitRequest.mk 100 "worker-1" 20010 "" None 0 0 "" "" [outcome].
Definition committed : Db := after (CommitClaim commit) claimed.

Lemma opened_reachable : reachable opened.
Proof.
  exists start. split; [repeat split|].
  apply (rtc_l _ start enqueued); [|apply (rtc_l _ enqueued filled); [|apply (rtc_l _ filled opened);
    [|reflexivity]]].
  - destruct (after_ok (EnqueueSiteTask request) start) as [a Ha]; [vm_compute; reflexivity|].
    by eapply step_enqueue.
  - destruct (after_ok (materialize_chunk base keys keys 20000) enqueued) as [[] Ha]; [vm_compute; reflexivity|].
    by eapply step_materialize.
  - destruct (after_ok (open_materialized base keys 20001) filled) as [a Ha]; [vm_compute; reflexivity|].
    by eapply step_open.
Qed.

Lemma claimed_reachable : reachable claimed.
Proof.
  destruct opened_reachable as (d0&H0&Hs). exists d0. split; [done|]. eapply rtc_r; [exact Hs|].
  destruct (after_ok (ClaimNext options no_locks) opened) as [a Ha]; [vm_compute; reflexivity|].
  by eapply step_claim.
Qed.

Lemma committed_reachable : reachable committed.
Proof.
  destruct claimed_reachable as (d0&H0&Hs). exists d0. split; [done|]. eapply rtc_r; [exact Hs|].
  destruct (after_ok (CommitClaim commit) claimed) as [a Ha]; [vm_compute; reflexivity|].
  by eapply step_commit.
Qed.

Definition the_run (d : Db) : CollectionRun :=
  match Tables.collection_run d !! 100 with Some r => r | None => Sample.run 100 0 0 "" end.

Lemma the_run_found d : is_Some (Tables.collection_run d !! 100) -> Tables.collection_run d !! 100 = Some (the_run d).
Proof. unfold the_run. by intros [r ->]. Qed.
End History.

Lemma one_running_task_per_site_witness :
  reachable History.claimed /\ running_site_task (History.the_run History.claimed) 7 "usage_hour" /\ 100 = 100.
Proof.
  assert (Hr : Tables.collection_run History.claimed !! 100 = Some (History.the_run History.claimed)).
  { apply History.the_run_found. eexists. vm_compute. reflexivity. }
  assert (Hrun : running_site_task (History.the_run History.claimed) 7 "usage_hour").
  { vm_compute. repeat split. }
  split; [exact History.claimed_reachable|]. split; [exact Hrun|].
  exact (proj1 (one_running_task_per_site _ 100 100 _ _ 7 "usage_hour" History.claimed_reachable Hr Hr Hrun Hrun)).
Defined.

Lemma runs_reflect_windows_witness :
  (History.the_run History.committed).(Run.CompletedWindows) = 1 /\
  settled_counts (History.the_run History.committed) (windows_of History.committed 100).
Proof.
  split; [vm_compute; reflexivity|].
  refine (proj1 (runs_reflect_windows _ 100 _ History.committed_reachable _ _ _)).
  - apply History.the_run_found. eexists. vm_compute. reflexivity.
  - vm_compute. reflexivity.
  - vm_compute. discriminate.
Defined.
