(* ===== verification/UsageFrames.v ===== *)
(** * Frames of the queue on the usage

    No transaction of the queue writes the hours of a site, their facts, the
    statistics or the range of the statistics of a site; only the handler of a
    completed window does. *)

From S2P Require Import Prelude Constants GoText Stats DateBucket Store Frame RunContract RunState RunRepository SiteFence TaskScope RunFrames TaskClaim TaskCommit RunInvariant TaskRecovery Materialize QueueClaim QueueSteps QueueRecovery QueueCreate QueueMaterialize QueueSafety.

(** What the commits of the usage are about. *)
Definition usage_view (d : Db) := (hour_state d, statistics_state d).

#[export] Instance usage_view_outside : OutsideQueue usage_view.
Proof.
  split; intros; try (apply preserves_update; reflexivity).
  intros d n d' Hu. unfold usage_view. f_equal; [by apply (outside_sites p f H d n d')|].
  by apply (outside_sites (OutsideQueue := statistics_state_outside) p f H d n d').
Qed.

#[export] Instance create_run_usage (r : CollectionRun) : Preserves usage_view (db_create r).
Proof. by apply preserves_create. Qed.
#[export] Instance create_window_usage (w : CollectionRunWindow) : Preserves usage_view (db_create w).
Proof. by apply preserves_create. Qed.

(** Reading never writes. *)
#[export] Hint Extern 3 (Preserves usage_view (resolveTaskScope _)) => (apply reads_preserves, _) : typeclass_instances.
#[export] Hint Extern 3 (Preserves usage_view (lockTaskScope _ _)) => (apply reads_preserves, _) : typeclass_instances.
#[export] Hint Extern 3 (Preserves usage_view (verifyTaskScopeLocked _ _)) => (apply reads_preserves, _) : typeclass_instances.
#[export] Hint Extern 3 (Preserves usage_view (scopeHasRunningTask _ _)) => (apply reads_preserves, _) : typeclass_instances.
#[export] Hint Extern 3 (Preserves usage_view (LockRunnableSiteSnapshot _ _)) => (apply reads_preserves, _) : typeclass_instances.
#[export] Hint Extern 3 (Preserves usage_view (expectedSiteRunWindowHours _)) => (apply reads_preserves, _) : typeclass_instances.

#[export] Instance FailLockedCollectionRun_usage run windows failure now :
  Preserves usage_view (FailLockedCollectionRun run windows failure now).
Proof. unfold FailLockedCollectionRun. solve_frame. Qed.

#[export] Instance BumpSiteFence_usage site now : Preserves usage_view (BumpSiteFence site now).
Proof.
  unfold BumpSiteFence, fail_fenced_runs, lockSiteFenceCustomers, siteFenceAccountRefs, lockSiteFenceRuns, FindByIDForUpdate.
  solve_frame.
Qed.

#[export] Instance CreateOrGetRun_usage run : Preserves usage_view (CreateOrGetRun run).
Proof. unfold CreateOrGetRun, insert_run_ignore. solve_frame. Qed.

#[export] Instance createSiteWindowGap_usage site request s e : Preserves usage_view (createSiteWindowGap site request s e).
Proof. unfold createSiteWindowGap. solve_frame. Qed.

#[export] Instance CreateSiteWindowRun_usage request : Preserves usage_view (CreateSiteWindowRun request).
Proof. unfold CreateSiteWindowRun, create_gaps, collectableUsageBackfillRanges. solve_frame. Qed.

#[export] Instance EnqueueSiteTask_usage request : Preserves usage_view (EnqueueSiteTask request).
Proof. unfold EnqueueSiteTask, findLogicalSiteTask, FindByIDForUpdate. solve_frame. Qed.

#[export] Instance EnqueueScheduled_usage request : Preserves usage_view (EnqueueScheduledSiteWindowTask request).
Proof. unfold EnqueueScheduledSiteWindowTask. solve_frame. Qed.

#[export] Instance Diagnostic_usage request : Preserves usage_view (RecordScheduledSiteTaskDiagnostic request).
Proof. unfold RecordScheduledSiteTaskDiagnostic, FindByIDForUpdate. solve_frame. Qed.

#[export] Instance lockMaterialization_usage run : Preserves usage_view (lockMaterializationExpectation run).
Proof. unfold lockMaterializationExpectation, expectedTaskWindowKeys. solve_frame. Qed.

#[export] Instance materialize_chunk_usage base expected chunk now :
  Preserves usage_view (materialize_chunk base expected chunk now).
Proof. unfold materialize_chunk, insert_window_ignore. solve_frame. Qed.

#[export] Instance open_materialized_usage base expected now : Preserves usage_view (open_materialized base expected now).
Proof. unfold open_materialized. solve_frame. Qed.

#[export] Instance CompleteMaterialization_usage sha siteID runID version expectation now :
  Preserves usage_view (CompleteSiteRunWindowMaterialization sha siteID runID version expectation now).
Proof. unfold CompleteSiteRunWindowMaterialization, LockSiteRunForUpdate. solve_frame. Qed.

#[export] Instance lock_run_skip_usage runID view : Preserves usage_view (lock_run_skip runID view).
Proof.
  intros d run d'. unfold lock_run_skip. destruct (table d !! runID); [|done]. by destruct (LockView.run _ _); [|intros [= _ <-]].
Qed.

#[export] Instance claimCandidate_usage candidate options view : Preserves usage_view (claimCandidate candidate options view).
Proof. unfold claimCandidate, claim_windows. solve_frame. Qed.

Lemma ClaimNext_usage options view d claim d' : ClaimNext options view d = Ok (claim, d') -> usage_view d' = usage_view d.
Proof.
  unfold ClaimNext. destruct (negb _); [done|]. generalize (S (S (length (table_rows (R := CollectionRun) d)))).
  generalize (@None collectionTaskClaimCursor). intros cursor fuel. revert cursor d.
  induction fuel as [|fuel IH]; intros cursor d H; cbn [claim_pages] in H; [by apply st_fail_ok in H|].
  apply st_bind_ok in H as (found&d1&Hs&H). apply db_select_ok in Hs as [-> ->]. cbv zeta in H.
  apply st_bind_ok in H as (claimed&d1&Hc&H).
  assert (Hfirst : usage_view d1 = usage_view d).
  { revert Hc. generalize (take (Z.to_nat (ClaimOptions.ScanLimit (normalize_claim_options options)))
      (select (R := CollectionRun) (fun r => claim_eligible (normalize_claim_options options) r && after_cursor cursor r)
         collectionTaskClaimOrder d)). clear.
    intros l. induction l as [|candidate rest IH]; cbn [claim_first]; [by intros [= _ <-]|].
    destruct (claimCandidate _ _ _ _) as [[c d2]|e] eqn:E; [|by destruct (skip_error e)].
    intros [= _ <-]. exact (claimCandidate_usage _ _ _ _ _ _ E). }
  destruct claimed; [by apply st_ret_pair in H as [_ ->]|].
  destruct (Nat.ltb _ _); [by apply st_fail_ok in H|].
  destruct (last _); [|by apply st_fail_ok in H]. rewrite <- Hfirst. by eapply IH.
Qed.

#[export] Instance CommitClaim_usage request : Preserves usage_view (CommitClaim request).
Proof. unfold CommitClaim, lock_run_with_scope, commitNonWindowResult. solve_frame. Qed.

#[export] Instance ReleaseClaim_usage claim now : Preserves usage_view (ReleaseClaim claim now).
Proof. unfold ReleaseClaim. solve_frame. Qed.

#[export] Instance release_windows_usage runID now limit windows : Preserves usage_view (release_windows runID now limit windows).
Proof. unfold release_windows. solve_frame. Qed.

#[export] Instance ReleaseOwnedRunning_usage runID requestID now policy :
  Preserves usage_view (ReleaseOwnedRunning runID requestID now policy).
Proof. unfold ReleaseOwnedRunning, lock_run_with_scope. solve_frame. Qed.

#[export] Instance Heartbeat_usage runID requestID now : Preserves usage_view (Heartbeat runID requestID now).
Proof. unfold Heartbeat. solve_frame. Qed.

#[export] Instance recover_locked_run_usage run now policy : Preserves usage_view (recover_locked_run run now policy).
Proof. unfold recover_locked_run, recover_windows. solve_frame. Qed.

#[export] Instance recoverRun_usage runID now staleBefore policy : Preserves usage_view (recoverRun runID now staleBefore policy).
Proof.
  assert (H : Preserves usage_view ('(run, _) ← lock_run_with_scope runID;
    if (run.(Run.Status) != CollectionTaskStatusRunning) || negb (lease_stale staleBefore run)
    then mret false else recover_locked_run run now policy)) by (unfold lock_run_with_scope; solve_frame).
  intros d b d'. unfold recoverRun. destruct (table d !! runID); [apply H|by intros [= _ <-]].
Qed.

(** ** What the usage relies on *)

(** A transaction of the queue that completes no window. *)
Lemma queue_step_usage d d' : queue_step d d' ->
  usage_view d' = usage_view d \/ run_state d' = run_state d \/
  exists request r, lawful request.(CompleteRequest.Mutation) /\ CompleteClaimedWindow request d = Ok (r, d').
Proof.
  intros [].
  - left. by eapply (EnqueueSiteTask_usage _ d).
  - left. by eapply (EnqueueScheduled_usage _ d).
  - left. by eapply (CreateSiteWindowRun_usage _ d).
  - left. by eapply (CreateOrGetRun_usage _ d).
  - left. by eapply (Diagnostic_usage _ d).
  - left. by eapply (materialize_chunk_usage _ _ _ _ d).
  - left. by eapply (open_materialized_usage _ _ _ d).
  - left. by eapply (CompleteMaterialization_usage _ _ _ _ _ _ d).
  - left. by eapply ClaimNext_usage.
  - left. by eapply (CommitClaim_usage _ d).
  - right. right. by eauto.
  - left. by eapply (ReleaseClaim_usage _ _ d).
  - left. by eapply (ReleaseOwnedRunning_usage _ _ _ _ d).
  - left. by eapply (Heartbeat_usage _ _ _ d).
  - left. by eapply (recoverRun_usage _ _ _ _ d).
  - left. by eapply (BumpSiteFence_usage _ _ d).
  - right. by left.
Qed.
