(* ===== verification/QueueBehaviour.v ===== *)
(** * What the queue hands out

    The functional behaviour of a claim and the equivalence of the paged
    [ClaimNext] with one scan of the whole queue in its order. *)

From S2P Require Import Prelude Constants GoText Store Frame RunContract RunState RunRepository SiteFence TaskScope RunFrames TaskClaim TaskCommit RunInvariant QueueClaim TaskRecovery Materialize QueueSteps QueueRecovery QueueCreate QueueMaterialize QueueSafety.

(** C8: a successful claim took a run that was pending, initialised, due, not
    locked by anyone else and not already claimed under this request id; it
    moves exactly that run to running under the new owner, moves exactly the
    first [MaxWindow] due windows (latest hour first) to running with one more
    attempt, returns them in that order, and, for a site task, no other run of
    the same type was running on the site. *)
Theorem claimCandidate_spec candidate options view d claim d' :
  queue_inv d ->
  claimCandidate candidate options view d = Ok (claim, d') ->
  exists run,
    Tables.collection_run d !! candidate.(Run.ID) = Some run /\
    LockView.run view candidate.(Run.ID) = false /\
    still_claimable candidate run options = true /\
    claim_effect run options view d claim d' /\
    (forall k r site taskType, k <> candidate.(Run.ID) -> Tables.collection_run d' !! k = Some r ->
       running_site_task r site taskType -> ~ running_site_task claim.(Claim.run) site taskType).
Proof.
  intros Hinv H. pose proof (queue_runs_wf d Hinv) as Hwf.
  apply claimCandidate_ok in H as (run&scope&windows&d2&Hsteps&Hcase&->&Hruns&Hstate); [|done].
  destruct Hsteps as [Hscope Hrow Hview Hcl Hver Hidle].
  assert (Hid : run.(Run.ID) = candidate.(Run.ID)) by (by apply Hwf in Hrow).
  unfold run_state in Hstate. injection Hstate as Hr' Hw' _ _. simpl in Hr', Hw'. rewrite Hruns in Hr'.
  exists run. split; [done|]. split; [done|]. split; [done|].
  pose proof (queue_target d Hinv _ _ Hrow) as Htarget.
  unfold still_claimable in Hcl. to_prop. split.
  - unfold claim_effect. rewrite Hid. split; [done|]. split; [done|]. split; [done|].
    destruct (CollectionTaskWindowed (Run.TaskType run)).
    + apply claim_windows_ok in Hcase as (Hne&_&->&->). rewrite Hid in *. split; [done|].
      split; [by apply claimed_windows_listed; apply Hinv|].
      intros k. rewrite Hw'. by apply claim_rows_lookup, Hinv.
    + destruct Hcase as [-> ->]. done.
  - intros k r site taskType Hk Hr Hrun Hclaim.
    rewrite Hr', lookup_insert_ne in Hr by done.
    destruct (claimed_run_fields options run) as (_&_&_&_&_&_&_&Hident).
    eapply (idle_site_task candidate run scope d); eauto; try tauto; [congruence|].
    destruct Hclaim as (_&Ht&Hs&Hty). simpl in Ht, Hs, Hty. unfold run_identity in Hident.
    injection Hident as _ Hs' _ Hty' Ht' _. repeat split; congruence.
Qed.

Lemma claimCandidate_spec_witness : exists claim d',
  claimCandidate (History.the_run History.opened) History.options no_locks History.opened = Ok (claim, d') /\
  exists run, Tables.collection_run History.opened !! 100 = Some run /\
    claim_effect run History.options no_locks History.opened claim d'.
Proof.
  destruct (claimCandidate (History.the_run History.opened) History.options no_locks History.opened)
    as [[claim d']|e] eqn:H; [|vm_compute in H; discriminate H].
  exists claim, d'. split; [reflexivity|].
  destruct (claimCandidate_spec _ _ _ _ _ _ (reachable_inv _ History.opened_reachable) H)
    as (run&Hr&_&_&He&_).
  exists run. split; [exact Hr|exact He].
Defined.

(** ** Paging *)

(** The fields of a run that enter the queue order are int64 values whose
    negation is one too. *)
Definition claim_key_bounds (r : CollectionRun) : Prop :=
  (- max_int64 <= r.(Run.Priority) <= max_int64) /\
  (forall e, r.(Run.EndTimestamp) = Some e -> - max_int64 <= e <= max_int64).

(** The cursor the program computes is the key the database sorts by. *)
Lemma cursor_key_spec r : claim_key_bounds r ->
  cursor_key (newCollectionTaskClaimCursor r) = collectionTaskClaimOrder r.
Proof.
  intros [Hp He]. unfold cursor_key, newCollectionTaskClaimCursor, collectionTaskClaimOrder,
    CollectionPriorityInitialBackfill. simpl.
  rewrite wrap64_id by (unfold int64, min_int64, max_int64 in *; lia).
  change (0 - Run.Priority r) with (- Run.Priority r).
  destruct (Run.EndTimestamp r) as [e|], (Run.StartTimestamp r), (Run.Priority r =? 50); try done;
    specialize (He e eq_refl);
    rewrite wrap64_id by (unfold int64, min_int64, max_int64 in *; lia); done.
Qed.

(** A filtered query returns the filtered rows in the same order. *)
Lemma filter_and {A} (p q : A -> bool) (l : list A) :
  base.filter (fun x => p x && q x = true) l
  = base.filter (fun x => q x = true) (base.filter (fun x => p x = true) l).
Proof.
  induction l as [|x l IH]; [done|]. rewrite (filter_cons (fun x => p x = true)).
  rewrite (filter_cons (fun x => p x && q x = true)).
  destruct (p x); cbn [andb].
  - rewrite (decide_True (P := true = true)) by done. rewrite filter_cons. by rewrite IH.
  - rewrite !(decide_False (P := false = true)) by done. exact IH.
Qed.

Lemma filter_none {A} (q : A -> bool) (l : list A) :
  (forall x, x ∈ l -> q x = false) -> base.filter (fun x => q x = true) l = [].
Proof.
  induction l as [|x l IH]; intros H; [done|]. rewrite filter_cons, IH.
  - rewrite decide_False; [done|]. by rewrite H by (apply elem_of_cons; by left).
  - intros y Hy. apply H. apply elem_of_cons. by right.
Qed.

Lemma filter_every {A} (q : A -> bool) (l : list A) :
  (forall x, x ∈ l -> q x = true) -> base.filter (fun x => q x = true) l = l.
Proof.
  induction l as [|x l IH]; intros H; [done|]. rewrite filter_cons, IH.
  - rewrite decide_True; [done|]. apply H, elem_of_cons. by left.
  - intros y Hy. apply H. apply elem_of_cons. by right.
Qed.

Lemma claim_order_NoDup (l : list CollectionRun) :
  NoDup (Run.ID <$> l) -> NoDup (collectionTaskClaimOrder <$> l).
Proof.
  induction l as [|r l IH]; [intros; constructor|]. rewrite !fmap_cons, !NoDup_cons. intros [Hr Hl].
  split; [|auto]. intros (r'&Heq&Hr')%list_elem_of_fmap. apply Hr. apply list_elem_of_fmap.
  exists r'. split; [|done]. unfold collectionTaskClaimOrder in Heq. by injection Heq.
Qed.

(** The rows after a cursor are the rest of the queue. *)
Lemma after_cursor_suffix d options A r B :
  table_wf (Tables.collection_run d) -> claim_key_bounds r ->
  select (claim_eligible options) collectionTaskClaimOrder d = A ++ r :: B ->
  select (fun x => claim_eligible options x && after_cursor (Some (newCollectionTaskClaimCursor r)) x)
    collectionTaskClaimOrder d = B.
Proof.
  intros Hwf Hb Hsel. set (p := claim_eligible options).
  set (q := after_cursor (Some (newCollectionTaskClaimCursor r))).
  assert (Hq : forall x, q x = bool_decide (key_lt (collectionTaskClaimOrder r) (collectionTaskClaimOrder x))).
  { intros x. unfold q, after_cursor. by rewrite cursor_key_spec. }
  assert (Hnd : NoDup (collectionTaskClaimOrder <$> (A ++ r :: B))).
  { rewrite <- Hsel. apply claim_order_NoDup. exact (select_NoDup _ _ d Hwf). }
  pose proof (select_sorted p collectionTaskClaimOrder d) as Hs. unfold p in Hs. rewrite Hsel in Hs.
  apply StronglySorted_app in Hs as (HAr&_&HB). apply StronglySorted_inv in HB as [HB HrB].
  assert (Hperm : base.filter (fun x => p x = true) (table_rows d) ≡ₚ A ++ r :: B).
  { rewrite <- Hsel. symmetry. apply select_perm. }
  assert (Hf : base.filter (fun x => q x = true) (A ++ r :: B) = B).
  { rewrite filter_app, filter_cons, (filter_none q A), Hq.
    - rewrite decide_False; [|rewrite bool_decide_eq_true; by intros [? _]]. simpl.
      apply filter_every. intros x Hx. rewrite Hq. apply bool_decide_eq_true_2. split.
      + intros E. rewrite fmap_app, fmap_cons in Hnd. apply NoDup_app in Hnd as (_&_&Hnd).
        apply NoDup_cons in Hnd as [Hr _]. apply Hr. rewrite E. by apply list_elem_of_fmap_2.
      + rewrite Forall_forall in HrB. by apply HrB.
    - intros x Hx. rewrite Hq. apply bool_decide_eq_false_2. intros [Hne Hle]. apply Hne.
      apply (anti_symm key_le); [done|]. apply (HAr x r); [done|]. apply elem_of_cons. by left. }
  unfold select. rewrite filter_and.
  rewrite (sort_by_unique _ _ B).
  - apply sort_by_id; [done|]. rewrite fmap_app, fmap_cons in Hnd.
    apply NoDup_app in Hnd as (_&_&Hnd). by apply NoDup_cons in Hnd as [_ Hnd].
  - fold p. by rewrite Hperm, Hf.
  - fold p. rewrite Hperm, Hf. rewrite fmap_app, fmap_cons in Hnd.
    apply NoDup_app in Hnd as (_&_&Hnd). by apply NoDup_cons in Hnd as [_ Hnd].
Qed.

(** A scan that claims nothing writes nothing. *)
Lemma claim_first_none l options view : forall d d',
  claim_first l options view d = Ok (None, d') -> d' = d.
Proof.
  induction l as [|c l IH]; intros d d' H; cbn [claim_first] in H; [by injection H|].
  destruct (claimCandidate c options view d) as [[? ?]|e]; [done|]. destruct (skip_error e); [eauto|done].
Qed.

Lemma claim_first_app l1 l2 options view d :
  claim_first (l1 ++ l2) options view d =
  match claim_first l1 options view d with
  | Ok (None, d') => claim_first l2 options view d'
  | result => result
  end.
Proof.
  induction l1 as [|c l1 IH]; cbn [claim_first app]; [done|].
  destruct (claimCandidate c options view d) as [[? ?]|e]; [done|]. by destruct (skip_error e).
Qed.

(** The claim of a scan, as the caller of [ClaimNext] sees it. *)
Definition scan_result (r : result (option CollectionTaskClaim * Db)) : result (CollectionTaskClaim * Db) :=
  match r with
  | Ok (Some claim, d') => Ok (claim, d')
  | Ok (None, _) => Err ErrCollectionTaskUnavailable
  | Err e => Err e
  end.

(** A page that was scanned without a claim, and what follows it. *)
Lemma take_drop_last {A} n (l : list A) r :
  last (take n l) = Some r -> exists front, take n l = front ++ [r] /\ l = front ++ r :: drop n l.
Proof.
  intros (front&H)%last_Some. exists front. split; [done|].
  rewrite <- (take_drop n l) at 1. by rewrite H, <- app_assoc.
Qed.

Lemma claim_pages_scan options view fuel : forall cursor done_ rest d,
  table_wf (Tables.collection_run d) ->
  (forall k r, Tables.collection_run d !! k = Some r -> claim_key_bounds r) ->
  (0 < Z.to_nat options.(ClaimOptions.ScanLimit))%nat ->
  select (claim_eligible options) collectionTaskClaimOrder d = done_ ++ rest ->
  select (fun r => claim_eligible options r && after_cursor cursor r) collectionTaskClaimOrder d = rest ->
  (length rest < fuel)%nat ->
  claim_pages fuel cursor options view d = scan_result (claim_first rest options view d).
Proof.
  induction fuel as [|fuel IH]; intros cursor done_ rest d Hwf Hb Hlim Hall Hrest Hfuel; [lia|].
  cbn [claim_pages]. unfold mbind, st_bind, db_select, st_gets. cbv zeta. rewrite Hrest.
  set (limit := Z.to_nat (ClaimOptions.ScanLimit options)) in *.
  transitivity (scan_result (claim_first (take limit rest ++ drop limit rest) options view d));
    [|by rewrite take_drop].
  rewrite claim_first_app.
  destruct (claim_first (take limit rest) options view d) as [[[claim|] d']|e] eqn:Hpage; [done| |done].
  apply claim_first_none in Hpage as ->.
  destruct (Nat.ltb (length (take limit rest)) limit) eqn:Hshort.
  - apply Nat.ltb_lt in Hshort. rewrite length_take in Hshort.
    rewrite (drop_ge rest limit) by lia. done.
  - apply Nat.ltb_ge in Hshort. rewrite length_take in Hshort.
    destruct (last (take limit rest)) as [r|] eqn:Hlast.
    + destruct (take_drop_last _ _ _ Hlast) as (front&Hfront&Hsplit).
      assert (Hr : r ∈ rest) by (rewrite Hsplit; apply elem_of_app; right; apply elem_of_cons; by left).
      assert (Hb' : claim_key_bounds r).
      { rewrite <- Hrest in Hr. apply elem_of_select in Hr as (_&k&Hk). eauto. }
      apply (IH _ ((done_ ++ front) ++ [r])); try done.
      * rewrite Hall, Hsplit at 1. by rewrite <- !app_assoc.
      * apply (after_cursor_suffix d options (done_ ++ front)); [done|done|].
        rewrite Hall, Hsplit at 1. by rewrite <- app_assoc.
      * rewrite length_drop. lia.
    + apply last_None in Hlast. apply (f_equal length) in Hlast.
      rewrite length_take in Hlast. simpl in Hlast. lia.
Qed.

Lemma normalize_scan_limit options :
  (0 < Z.to_nat (normalize_claim_options options).(ClaimOptions.ScanLimit))%nat.
Proof.
  unfold normalize_claim_options. cbv zeta.
  match goal with |- context [if (ClaimOptions.ScanLimit ?o <=? 0) || ?b then _ else _] =>
    destruct ((ClaimOptions.ScanLimit o <=? 0) || b) eqn:H end; [simpl; lia|].
  apply orb_false_iff in H as [H _]. apply Z.leb_gt in H. lia.
Qed.

(** C28: [ClaimNext] with valid options is one scan of all eligible runs in queue
    order: however the pages fall, it returns the claim of the first run that
    can be claimed, reports that none is available exactly when every eligible
    run was refused, and stops at the first other error; the pages always end. *)
Theorem ClaimNext_in_queue_order options view d :
  queue_inv d -> (forall k r, Tables.collection_run d !! k = Some r -> claim_key_bounds r) ->
  claim_options_valid options = true ->
  ClaimNext options view d = scan_result (claim_first
    (select (claim_eligible (normalize_claim_options options)) collectionTaskClaimOrder d)
    (normalize_claim_options options) view d).
Proof.
  intros Hinv Hb Hv. unfold ClaimNext. rewrite Hv. cbn [negb].
  set (o := normalize_claim_options options).
  assert (Hlen : (length (select (claim_eligible o) collectionTaskClaimOrder d)
                  <= length (table_rows (R := CollectionRun) d))%nat).
  { rewrite select_perm. apply length_filter. }
  apply (claim_pages_scan o view _ None []); try done.
  - apply Hinv.
  - apply normalize_scan_limit.
  - unfold select. do 2 f_equal. apply list_filter_iff. intros r. by rewrite andb_true_r.
  - lia.
Qed.

Definition bounds_hold (r : CollectionRun) : bool :=
  (- max_int64 <=? r.(Run.Priority)) && (r.(Run.Priority) <=? max_int64)
  && match r.(Run.EndTimestamp) with Some e => (- max_int64 <=? e) && (e <=? max_int64) | None => true end.
Lemma bounds_hold_in (d : Db) k r : forallb bounds_hold (table_rows (R := CollectionRun) d) = true ->
  Tables.collection_run d !! k = Some r -> claim_key_bounds r.
Proof.
  intros Hall H. rewrite forallb_forall in Hall. specialize (Hall r). unfold bounds_hold in Hall.
  assert (Hin : In r (table_rows (R := CollectionRun) d)).
  { apply list_elem_of_In, elem_of_rows. by exists k. }
  specialize (Hall Hin). to_prop. split; [lia|]. intros e E. rewrite E in Hall. to_prop. lia.
Qed.

Lemma opened_bounds k r : Tables.collection_run History.opened !! k = Some r -> claim_key_bounds r.
Proof. apply bounds_hold_in. vm_compute. reflexivity. Qed.

Lemma ClaimNext_in_queue_order_witness : exists claim d',
  ClaimNext History.options no_locks History.opened = Ok (claim, d') /\
  scan_result (claim_first
    (select (claim_eligible (normalize_claim_options History.options)) collectionTaskClaimOrder History.opened)
    (normalize_claim_options History.options) no_locks History.opened) = Ok (claim, d').
Proof.
  destruct (ClaimNext History.options no_locks History.opened) as [[claim d']|e] eqn:H;
    [|vm_compute in H; discriminate H].
  exists claim, d'. split; [reflexivity|]. rewrite <- H. symmetry.
  exact (ClaimNext_in_queue_order History.options no_locks History.opened
    (reachable_inv _ History.opened_reachable) opened_bounds eq_refl).
Defined.
