(* ===== verification/CommitBehaviour.v ===== *)
(** * What a commit writes, and for whom

    The accounting of [CommitClaim] and [CompleteClaimedWindow], and the fence
    that keeps a worker whose claim was lost from writing anything. *)

From S2P Require Import Prelude Constants GoText Store Frame RunContract RunState RunRepository SiteFence TaskScope RunFrames TaskClaim TaskCommit RunInvariant QueueClaim TaskRecovery Materialize QueueSteps QueueRecovery QueueCreate QueueMaterialize QueueSafety.

(** ** Sums with wrap-around *)
Lemma wrap64_add a b : wrap64 (wrap64 a + b) = wrap64 (a + b).
Proof.
  unfold wrap64. f_equal.
  replace ((a + 9223372036854775808) mod 18446744073709551616 - 9223372036854775808 + b + 9223372036854775808)
    with ((a + 9223372036854775808) mod 18446744073709551616 + b) by lia.
  replace (a + b + 9223372036854775808) with (a + 9223372036854775808 + b) by lia.
  by rewrite Zplus_mod_idemp_l.
Qed.

(** ** Outcomes and windows *)
Lemma distinct_ids_NoDup ids : distinct_ids ids = true -> NoDup ids.
Proof.
  induction ids as [|i ids IH]; simpl; [constructor|]. intros H. to_prop. destruct H as [H1 H2].
  constructor; [|auto]. intros Hi%one_of_ids_spec. congruence.
Qed.

Lemma outcome_of_spec (outcomes : list CollectionTaskWindowResult) o :
  NoDup (WindowResult.WindowID <$> outcomes) -> o ∈ outcomes ->
  outcome_of outcomes o.(WindowResult.WindowID) = Some o.
Proof.
  unfold outcome_of. induction outcomes as [|x l IH]; [set_solver|].
  rewrite fmap_cons, NoDup_cons. intros [Hx Hl] [-> |Ho]%elem_of_cons; simpl.
  - by rewrite Z.eqb_refl.
  - destruct (Z.eqb_spec (WindowResult.WindowID x) (WindowResult.WindowID o)) as [E|E]; [|auto].
    destruct Hx. rewrite E. by apply list_elem_of_fmap_2.
Qed.

Lemma outcome_of_Some outcomes i o :
  outcome_of outcomes i = Some o -> o ∈ outcomes /\ o.(WindowResult.WindowID) = i.
Proof.
  intros H. apply find_some in H as [Hin Hid]. apply list_elem_of_In in Hin. by apply Z.eqb_eq in Hid.
Qed.

(** The windows read are those of the outcomes, one each. *)
Lemma claimed_outcomes (claimed : list CollectionRunWindow) (outcomes : list CollectionTaskWindowResult) :
  NoDup (RunWindow.ID <$> claimed) -> NoDup (WindowResult.WindowID <$> outcomes) ->
  (forall w, w ∈ claimed -> w.(RunWindow.ID) ∈ WindowResult.WindowID <$> outcomes) ->
  length claimed = length outcomes ->
  RunWindow.ID <$> claimed ≡ₚ WindowResult.WindowID <$> outcomes.
Proof.
  intros H1 H2 H3 H4. apply submseteq_length_Permutation.
  - apply NoDup_submseteq; [done|]. intros i (w&->&Hw)%list_elem_of_fmap. auto.
  - rewrite !length_fmap. lia.
Qed.

Definition rows_of (field : CollectionTaskWindowResult -> Z) (outcomes : list CollectionTaskWindowResult)
    (i : Z) : Z := match outcome_of outcomes i with Some o => field o | None => 0 end.

Lemma sum_rows_of field outcomes (claimed : list CollectionRunWindow) :
  NoDup (WindowResult.WindowID <$> outcomes) ->
  RunWindow.ID <$> claimed ≡ₚ WindowResult.WindowID <$> outcomes ->
  sum_of (fun w => rows_of field outcomes w.(RunWindow.ID)) claimed = sum_of field outcomes.
Proof.
  intros Hnd Hp. rewrite <- (sum_of_fmap _ RunWindow.ID). rewrite Hp, sum_of_fmap.
  assert (Hin : forall o, o ∈ outcomes -> rows_of field outcomes o.(WindowResult.WindowID) = field o).
  { intros o Ho. unfold rows_of. by rewrite outcome_of_spec. }
  by apply sum_of_ext.
Qed.

(** The loop over the claimed windows. *)
Lemma commit_windows_sums run_id now outcomes ws : forall d fetched written s d',
  st_fold (fun window '(fetched, written) =>
      outcome ← st_lift (match outcome_of outcomes window.(RunWindow.ID) with
                         | Some o => Ok o | None => Err ErrCollectionTaskClaimLost end);
      _ ← st_require ((window.(RunWindow.Status) == CollectionTaskStatusRunning)
                      && (window.(RunWindow.AttemptCount) =? outcome.(WindowResult.AttemptCount)))
                     ErrCollectionTaskClaimLost;
      affectedRows ← db_update (claimed_row window.(RunWindow.ID) run_id outcome.(WindowResult.AttemptCount))
                       (committed_window outcome now);
      _ ← st_require (affectedRows =? 1) ErrCollectionTaskClaimLost;
      mret (wrap64 (fetched + outcome.(WindowResult.FetchedRows)),
            wrap64 (written + outcome.(WindowResult.WrittenRows)))) ws (wrap64 fetched, wrap64 written) d
    = Ok (s, d') ->
  s = (wrap64 (fetched + sum_of (fun w => rows_of WindowResult.FetchedRows outcomes w.(RunWindow.ID)) ws),
       wrap64 (written + sum_of (fun w => rows_of WindowResult.WrittenRows outcomes w.(RunWindow.ID)) ws)) /\
  forall w, w ∈ ws -> exists o, outcome_of outcomes w.(RunWindow.ID) = Some o /\
    w.(RunWindow.Status) = "running" /\ w.(RunWindow.AttemptCount) = o.(WindowResult.AttemptCount).
Proof.
  induction ws as [|w ws IH]; intros d fetched written s d' H.
  - apply st_fold_nil in H as [= -> ->]. rewrite !sum_of_nil. split; [by rewrite !Z.add_0_r|set_solver].
  - apply st_fold_cons in H as (s1&d1&H1&H).
    apply st_bind_ok in H1 as (o&d2&Ho&H1). apply st_lift_ok in Ho as (o'&Ho&[= -> ->]).
    destruct (outcome_of outcomes (RunWindow.ID w)) as [o|] eqn:Hout; [|done]. injection Ho as <-.
    apply st_bind_ok in H1 as ([]&d2&Hr&H1). apply st_require_ok in Hr as (Hr&[= ->]).
    apply st_bind_ok in H1 as (n&d3&_&H1). apply st_bind_ok in H1 as ([]&d4&_&H1).
    apply st_ret_pair in H1 as [-> ->]. rewrite !wrap64_add in H. apply IH in H as [-> Hall]. split.
    + assert (E : forall field, rows_of field outcomes (RunWindow.ID w) = field o).
      { intros field. unfold rows_of. by rewrite Hout. }
      by rewrite !sum_of_cons, !E, !Z.add_assoc.
    + intros x [-> |Hx]%elem_of_cons; [|by apply Hall]. exists o. to_prop. tauto.
Qed.

(** ** The effect of a commit *)

(** Only the runs changed, and not their row counters. *)
Definition keeps_counts (d d' : Db) : Prop :=
  Tables.collection_run_window d' = Tables.collection_run_window d /\
  forall k, (fun r => (r.(Run.FetchedRows), r.(Run.WrittenRows))) <$> Tables.collection_run d' !! k
          = (fun r => (r.(Run.FetchedRows), r.(Run.WrittenRows))) <$> Tables.collection_run d !! k.

#[export] Instance keeps_counts_refl : Reflexive keeps_counts.
Proof. done. Qed.
#[export] Instance keeps_counts_trans : Transitive keeps_counts.
Proof. intros x y z [A1 A2] [B1 B2]. split; [congruence|]. intros k. by rewrite B2, A2. Qed.

Lemma keeps_counts_frame d d' : run_state d' = run_state d -> keeps_counts d d'.
Proof. intros [= Hr Hw _ _]. split; [done|]. intros k. by rewrite Hr. Qed.

Lemma keeps_counts_update d p (f : CollectionRun -> CollectionRun) :
  (forall r, (f r).(Run.FetchedRows) = r.(Run.FetchedRows) /\ (f r).(Run.WrittenRows) = r.(Run.WrittenRows)) ->
  keeps_counts d (set_table (R := CollectionRun) (update_where p f (table d)) d).
Proof.
  intros Hf. split; [done|]. intros k. rewrite set_table_runs_lookup.
  destruct (Tables.collection_run d !! k) as [r|]; [|done]. simpl. f_equal. unfold upd.
  case_match; [|done]. by destruct (Hf r) as [-> ->].
Qed.

Lemma recalculate_keeps_counts run W now d run' d' :
  ~ terminal run -> RecalculateLockedCollectionRun run W now None d = Ok (run', d') -> keeps_counts d d'.
Proof.
  intros Hnt H. apply recalculate_ok in H as (t&st&te&fa&_&_&_&_&->&_); [|done].
  apply keeps_counts_update. intros r. unfold recalculated. by repeat case_match.
Qed.

Lemma initial_keeps_counts run now d run' d' :
  recalculateInitialBackfillRun run now d = Ok (run', d') -> keeps_counts d d'.
Proof.
  unfold recalculateInitialBackfillRun. past_guard Hg. intros H.
  apply st_bind_ok in H as (W&d1&Hs&H). apply db_select_ok in Hs as [-> ->].
  apply st_bind_ok in H as ([]&d2&Hr&H). apply st_require_ok in Hr as (_&[= ->]).
  destruct (initial_status _ _) as [status term]. apply st_bind_ok in H as (n&d3&Hu&H).
  apply db_update_ok in Hu as [_ ->]. apply st_ret_pair in H as [_ ->].
  apply keeps_counts_update. intros r. unfold initial_recalculated.
  by destruct (Tally.nextAttempt _), term; try destruct (status == _).
Qed.

(** What a commit of window outcomes by the owner does to the queue. *)
Record commit_effect (d d' : Db) (run_id now : Z) (outcomes : list CollectionTaskWindowResult)
    (run : CollectionRun) : Prop := {
  committed_rows : forall o, o ∈ outcomes -> exists w,
    Tables.collection_run_window d !! o.(WindowResult.WindowID) = Some w /\
    w.(RunWindow.RunID) = run_id /\ w.(RunWindow.Status) = "running" /\
    w.(RunWindow.AttemptCount) = o.(WindowResult.AttemptCount) /\
    Tables.collection_run_window d' !! o.(WindowResult.WindowID) = Some (committed_window o now w);
  untouched_rows : forall k, (forall o, o ∈ outcomes -> o.(WindowResult.WindowID) <> k) ->
    Tables.collection_run_window d' !! k = Tables.collection_run_window d !! k;
  counted_rows : exists run', Tables.collection_run d' !! run_id = Some run' /\
    run'.(Run.FetchedRows) = run.(Run.FetchedRows) + wrap64 (sum_of WindowResult.FetchedRows outcomes) /\
    run'.(Run.WrittenRows) = run.(Run.WrittenRows) + wrap64 (sum_of WindowResult.WrittenRows outcomes)
}.

Lemma commit_effect_trans d d1 d' i now outcomes run :
  commit_effect d d1 i now outcomes run -> keeps_counts d1 d' -> commit_effect d d' i now outcomes run.
Proof.
  intros [A B (r1&C1&C2&C3)] [Hw Hr]. split; rewrite ?Hw; auto. specialize (Hr i).
  rewrite C1 in Hr. simpl in Hr. apply fmap_Some_1 in Hr as (r'&Hr'&[= E1 E2]).
  exists r'. split; [done|]. lia.
Qed.

(** The windows and the row counters, before the recalculation. *)
Lemma commit_windows_effect d run request claimed fetched written d1 f :
  queue_inv d -> Tables.collection_run d !! run.(Run.ID) = Some run -> run.(Run.Status) = "running" ->
  run.(Run.LastRequestID) = request.(CommitRequest.RequestID) ->
  let ids := WindowResult.WindowID <$> request.(CommitRequest.Windows) in
  distinct_ids ids = true ->
  claimed = select (fun w => of_run run.(Run.ID) w && one_of_ids ids w.(RunWindow.ID)) by_hour_id d ->
  length claimed = length ids ->
  commit_windows run.(Run.ID) request.(CommitRequest.Now) request.(CommitRequest.Windows) claimed d
    = Ok ((fetched, written), d1) ->
  (forall r, (f r).(Run.FetchedRows) = r.(Run.FetchedRows) + fetched /\
             (f r).(Run.WrittenRows) = r.(Run.WrittenRows) + written) ->
  commit_effect d (set_table (R := CollectionRun)
    (update_where (owned_row run.(Run.ID) "running" request.(CommitRequest.RequestID)) f (table d1)) d1)
    run.(Run.ID) request.(CommitRequest.Now) request.(CommitRequest.Windows) run.
Proof.
  intros Hinv Hrow Hs Hreq ids Hids Hclaimed Hlen Hloop Hf.
  pose proof (queue_windows_wf d Hinv) as Hwwf. set (i := Run.ID run) in *.
  set (outcomes := CommitRequest.Windows request) in *.
  set (p := fun w => of_run i w && one_of_ids ids w.(RunWindow.ID)) in *.
  apply distinct_ids_NoDup in Hids.
  destruct (select_windows_listed p by_hour_id d Hwwf) as [Hnd Hlisted]. rewrite <- Hclaimed in Hnd, Hlisted.
  assert (Hp : forall w, w ∈ claimed -> of_run i w = true /\ w.(RunWindow.ID) ∈ ids /\
            Tables.collection_run_window d !! w.(RunWindow.ID) = Some w).
  { intros w Hw. destruct (Hlisted w Hw) as [Hpw Hl]. unfold p in Hpw. to_prop.
    destruct Hpw as [Ho Hi]. by apply one_of_ids_spec in Hi. }
  assert (Hperm : RunWindow.ID <$> claimed ≡ₚ ids).
  { apply claimed_outcomes; [done|done|apply Hp|]. unfold ids in Hlen. by rewrite length_fmap in Hlen. }
  pose proof Hloop as Hsums. unfold commit_windows in Hsums.
  change (0, 0) with (wrap64 0, wrap64 0) in Hsums.
  apply commit_windows_sums in Hsums as [[= -> ->] Hmatch]. rewrite !sum_rows_of in Hf by done.
  apply commit_windows_ok in Hloop as ->; [|done|done|].
  2:{ intros w Hw. destruct (Hp w Hw) as (?&_&?). done. }
  assert (Hrows : forall k, Tables.collection_run_window
      (map_windows (fun x => if bool_decide (x ∈ claimed) then committed outcomes (CommitRequest.Now request) x else x) d) !! k
      = (fun x => if bool_decide (x ∈ claimed) then committed outcomes (CommitRequest.Now request) x else x)
          <$> Tables.collection_run_window d !! k) by (intros k; apply lookup_fmap).
  split.
  - intros o Ho. assert (Hin : o.(WindowResult.WindowID) ∈ RunWindow.ID <$> claimed).
    { rewrite Hperm. by apply list_elem_of_fmap_2. }
    apply list_elem_of_fmap in Hin as (w&Hid&Hw). destruct (Hp w Hw) as (Hof&_&Hl).
    destruct (Hmatch w Hw) as (o'&Ho'&Hst&Hat). rewrite <- Hid, outcome_of_spec in Ho' by done.
    injection Ho' as <-. exists w. rewrite Hid. unfold of_run in Hof. apply Z.eqb_eq in Hof.
    split; [done|]. split; [done|]. split; [done|]. split; [done|].
    simpl. etransitivity; [apply Hrows|]. rewrite Hl. simpl. rewrite bool_decide_eq_true_2 by done.
    unfold committed. by rewrite <- Hid, outcome_of_spec.
  - intros k Hk. simpl. etransitivity; [apply Hrows|].
    destruct (Tables.collection_run_window d !! k) as [w|] eqn:Hl; [|done]. simpl. f_equal.
    rewrite bool_decide_eq_false_2; [done|]. intros Hw. apply Hwwf in Hl as Hid. simpl in Hid.
    destruct (Hp w Hw) as (_&Hi&_). apply list_elem_of_fmap in Hi as (o&Ho&Hin). apply (Hk o Hin). congruence.
  - exists (f run). split.
    + rewrite set_table_runs_lookup. etransitivity; [apply f_equal, Hrow|]. simpl. unfold upd, i.
      by rewrite owned_row_own.
    + destruct (Hf run) as [-> ->]. by rewrite !Z.add_0_l.
Qed.

Lemma commitWindowResults_effect d run request run' d' :
  queue_inv d -> Tables.collection_run d !! run.(Run.ID) = Some run -> run.(Run.Status) = "running" ->
  run.(Run.LastRequestID) = request.(CommitRequest.RequestID) ->
  commitWindowResults run request d = Ok (run', d') ->
  commit_effect d d' run.(Run.ID) request.(CommitRequest.Now) request.(CommitRequest.Windows) run.
Proof.
  intros Hinv Hrow Hs Hreq. unfold commitWindowResults. past_guard Hg. intros H.
  apply negb_false_iff, andb_true_iff in Hg as [_ Hids].
  apply st_bind_ok in H as (claimed&d1&Hsel&H). apply db_select_ok in Hsel as [Hsel ->].
  apply st_bind_ok in H as ([]&d1&Hl&H). apply st_require_ok in Hl as (Hl&[= ->]).
  apply st_bind_ok in H as ([fetched written]&d1&Hloop&H). cbv beta iota in H.
  apply st_bind_ok in H as (clock&d2&Hclock&H). apply st_gets_ok in Hclock as [= -> ->].
  apply st_bind_ok in H as (n&d2&Hadd&H). apply add_rows_ok in Hadd as [_ ->].
  apply st_bind_ok in H as ([]&d3&Haff&H). apply st_require_ok in Haff as (_&E). injection E as ->.
  match type of H with _ ?s = _ => apply (commit_effect_trans d s) end.
  { refine (commit_windows_effect d run request claimed fetched written d1 _ Hinv Hrow Hs Hreq Hids Hsel
      _ Hloop _); [by apply Nat.eqb_eq in Hl|intros r; done]. }
  apply st_bind_ok in H as (r1&d3&Hrec&H). etransitivity.
  { match type of Hrec with (if ?b then _ else _) _ = _ => destruct b end.
    - by eapply initial_keeps_counts.
    - apply st_bind_ok in Hrec as (W&d4&Hs4&Hrec). apply db_select_ok in Hs4 as [_ ->].
      eapply recalculate_keeps_counts; [|exact Hrec]. intros [E|E]; simpl in E; congruence. }
  destruct (_ == _).
  - apply st_bind_ok in H as (k&d4&Hupd&H). apply db_update_ok in Hupd as [_ ->].
    apply st_bind_ok in H as ([]&d5&Ha&H). apply st_require_ok in Ha as (_&E). injection E as ->.
    apply st_ret_pair in H as [_ ->]. by apply keeps_counts_update.
  - by apply st_ret_pair in H as [_ ->].
Qed.

(** C9: a commit of window outcomes returns only for the owner of a running
    run, and only when every outcome names a window of the run that is running
    under the attempt the outcome reports; it gives exactly those windows their
    outcomes, leaves every other window alone, and adds the rows of the
    outcomes to the counters of the run. *)
Theorem CommitClaim_accounting d request run run' d' :
  queue_inv d -> Tables.collection_run d !! request.(CommitRequest.RunID) = Some run ->
  CollectionTaskWindowed run.(Run.TaskType) = true ->
  CommitClaim request d = Ok (run', d') ->
  owned run request.(CommitRequest.RequestID) = true /\ request.(CommitRequest.Windows) <> [] /\
  commit_effect d d' request.(CommitRequest.RunID) request.(CommitRequest.Now)
    request.(CommitRequest.Windows) run.
Proof.
  intros Hinv Hrow0 Hw. unfold CommitClaim. past_guard Hg. intros H.
  apply st_bind_ok in H as ([r scope]&d1&Hlock&H).
  apply lock_run_with_scope_ok in Hlock as (->&Hrow&_). cbv beta iota in H.
  assert (r = run) as -> by congruence.
  apply st_bind_ok in H as ([]&d1&Hown&H). apply st_require_ok in Hown as (Hown&[= ->]).
  split; [done|]. apply owned_spec in Hown as [Hs Hreq].
  apply st_bind_ok in H as ([]&d1&Hver&H).
  pose proof (verifyTaskScopeLocked_reads run scope _ _ _ Hver) as E. simpl in E. subst d1.
  pose proof (queue_runs_wf d Hinv _ _ Hrow) as Hid. simpl in Hid. rewrite <- Hid in Hrow.
  apply st_bind_ok in H as (r1&d1&Hbody&H). apply st_bind_ok in H as ([]&d2&Hrec&H).
  apply st_ret_pair in H as [_ ->]. rewrite Hw in Hbody.
  destruct ((_ != "") || bool_decide (CommitRequest.Windows request = [])) eqn:Hne;
    [by apply st_fail_ok in Hbody|].
  split; [to_prop; tauto|].
  apply st_bind_ok in Hbody as (r2&d0&Hcommit&Hbody). apply st_bind_ok in Hbody as ([]&d3&Hfin&Hbody).
  apply st_ret_pair in Hbody as [_ ->]. rewrite <- Hid.
  eapply commit_effect_trans; [by eapply commitWindowResults_effect|].
  etransitivity; apply keeps_counts_frame.
  - exact (finalizeLocalRebuildLifecycle_frame _ _ _ _ _ Hfin).
  - exact (recalculateTaskBackfillStatuses_frame _ _ _ _ _ Hrec).
Qed.

Lemma CommitClaim_accounting_witness :
  (History.the_run History.committed).(Run.FetchedRows) = 5 /\
  exists run', CommitClaim History.commit History.claimed = Ok (run', History.committed) /\
  commit_effect History.claimed History.committed 100 20010 [History.outcome] (History.the_run History.claimed).
Proof.
  split; [vm_compute; reflexivity|].
  destruct (History.after_ok (CommitClaim History.commit) History.claimed) as [run' H]; [vm_compute; reflexivity|].
  exists run'. split; [exact H|].
  refine (proj2 (proj2 (CommitClaim_accounting _ _ _ _ _ (reachable_inv _ History.claimed_reachable) _ _ H))).
  - apply History.the_run_found. eexists. vm_compute. reflexivity.
  - vm_compute. reflexivity.
Defined.

(** ** Completing one window *)

(** Locating the window a completion names. *)
Lemma first_window_ok d id run_id w d' : table_wf (Tables.collection_run_window d) ->
  first_window id run_id d = Ok (w, d') ->
  d' = d /\ w.(RunWindow.ID) = id /\ w.(RunWindow.RunID) = run_id /\
  Tables.collection_run_window d !! w.(RunWindow.ID) = Some w.
Proof.
  intros Hwf Hfirst. unfold first_window in Hfirst. destruct (select _ _ _) as [|x l] eqn:Hsel; [done|].
  injection Hfirst as E1 E2. subst x d'.
  assert (Hin : w ∈ w :: l) by (apply elem_of_cons; by left). rewrite <- Hsel in Hin.
  apply elem_of_select in Hin as (Hp&k&Hk). apply Hwf in Hk as Hwk. simpl in Hwk.
  apply andb_true_iff in Hp as [Hp Ho]. apply Z.eqb_eq in Hp. unfold of_run in Ho. apply Z.eqb_eq in Ho.
  split; [done|]. split; [done|]. split; [done|]. by rewrite Hwk.
Qed.

(** The tail of a completion: the commit of the outcome and the statuses that
    depend on the run. *)
Lemma completion_tail d run request_id now outcome r1 d1 d2 d3 d4 u1 u2 :
  queue_inv d -> run_state d1 = run_state d -> Tables.collection_run d !! run.(Run.ID) = Some run ->
  run.(Run.Status) = "running" -> run.(Run.LastRequestID) = request_id ->
  commitWindowResults run (CommitRequest.mk run.(Run.ID) request_id now "" None 0 0 "" "" [outcome]) d1 = Ok (r1, d2) ->
  finalizeLocalRebuildLifecycle r1 now d2 = Ok (u1, d3) ->
  recalculateTaskBackfillStatuses r1 now d3 = Ok (u2, d4) ->
  commit_effect d1 d4 run.(Run.ID) now [outcome] run /\ same_outside d1 d4.
Proof.
  intros Hinv Hfr Hrow Hs Hreq Hcommit Hfin Hrec.
  assert (Hk : keeps_counts d2 d4).
  { etransitivity; apply keeps_counts_frame.
    - exact (finalizeLocalRebuildLifecycle_frame _ _ _ _ _ Hfin).
    - exact (recalculateTaskBackfillStatuses_frame _ _ _ _ _ Hrec). }
  split.
  - eapply commit_effect_trans; [|exact Hk].
    assert (Hrow1 : Tables.collection_run d1 !! Run.ID run = Some run).
    { unfold run_state in Hfr. by injection Hfr as -> _ _ _. }
    assert (Hinv1 : queue_inv d1) by (by apply (queue_inv_frame d)).
    refine (commitWindowResults_effect d1 run _ _ _ Hinv1 Hrow1 Hs _ Hcommit). exact Hreq.
  - intros X proj Hout.
    rewrite (recalculateTaskBackfillStatuses_hours proj _ _ _ _ _ Hrec), (finalizeLocalRebuildLifecycle_hours proj _ _ _ _ _ Hfin).
    exact (commitWindowResults_hours proj _ _ _ _ _ Hcommit).
Qed.

(** The whole completion, with what it leaves of the hours. *)
Lemma complete_claimed_effect d request run' d' :
  queue_inv d -> lawful request.(CompleteRequest.Mutation) ->
  CompleteClaimedWindow request d = Ok (run', d') ->
  let outcome := request.(CompleteRequest.Window) in
  let id := outcome.(WindowResult.WindowID) in
  exists run window,
    Tables.collection_run d !! request.(CompleteRequest.RunID) = Some run /\
    owned run request.(CompleteRequest.RequestID) = true /\
    Tables.collection_run_window d !! id = Some window /\
    window.(RunWindow.RunID) = request.(CompleteRequest.RunID) /\
    window.(RunWindow.Status) = "running" /\
    window.(RunWindow.AttemptCount) = outcome.(WindowResult.AttemptCount) /\
    match request.(CompleteRequest.Mutation) with
    | None => commit_effect d d' request.(CompleteRequest.RunID) request.(CompleteRequest.Now) [outcome] run /\
              same_outside d d'
    | Some mutation => exists site fetched written d1,
        Tables.site d !! window.(RunWindow.SiteID) = Some site /\
        mutation (MutationScope.mk site run window) d = Ok ((fetched, written), d1) /\
        commit_effect d1 d' request.(CompleteRequest.RunID) request.(CompleteRequest.Now)
          [outcome <| WindowResult.FetchedRows := fetched |> <| WindowResult.WrittenRows := written |>] run /\
        same_outside d1 d'
    end.
Proof.
  intros Hinv Hlaw. unfold CompleteClaimedWindow. past_guard Hg. intros H.
  apply st_bind_ok in H as ([run scope]&d1&Hlock&H).
  apply lock_run_with_scope_ok in Hlock as (->&Hrow&_). cbv beta iota in H.
  apply st_bind_ok in H as ([]&d1&Hown&H). apply st_require_ok in Hown as (Hown&[= ->]).
  apply andb_true_iff in Hown as [Hown Hw]. pose proof Hown as Hown'. apply owned_spec in Hown as [Hs Hreq].
  apply st_bind_ok in H as ([]&d1&Hver&H).
  pose proof (verifyTaskScopeLocked_reads run scope _ _ _ Hver) as E. simpl in E. subst d1.
  pose proof (queue_runs_wf d Hinv _ _ Hrow) as Hid. simpl in Hid.
  apply st_bind_ok in H as (w&d1&Hfirst&H).
  apply first_window_ok in Hfirst as (->&Hwid&Hof&Hl); [|apply Hinv].
  apply st_bind_ok in H as ([]&d1&Hwin&H). apply st_require_ok in Hwin as (Hwin&[= ->]). to_prop.
  apply st_bind_ok in H as (outcome&d1&Hmut&H).
  apply st_bind_ok in H as (r1&d2&Hcommit&H). apply st_bind_ok in H as ([]&d3&Hfin&H).
  apply st_bind_ok in H as ([]&d4&Hrec&H). apply st_ret_pair in H as [_ ->].
  rewrite <- Hid in *.
  assert (Htail : run_state d1 = run_state d -> _) by
    (intros Hfr; exact (completion_tail d run _ _ outcome r1 d1 d2 d3 d4 _ _ Hinv Hfr Hrow Hs Hreq Hcommit Hfin Hrec)).
  exists run, w. rewrite <- Hwid. repeat (split; [tauto|]).
  destruct (CompleteRequest.Mutation request) as [m|].
  - apply st_bind_ok in Hmut as ([]&d5&Hr&Hmut). apply st_require_ok in Hr as (_&[= ->]).
    apply st_bind_ok in Hmut as (site&d5&Hsite&Hmut). apply db_first_ok in Hsite as [Hsite ->].
    apply st_bind_ok in Hmut as ([fetched written]&d5&Hm&Hmut). cbv beta iota in Hmut.
    apply st_ret_pair in Hmut as [-> ->]. exists site, fetched, written, d5.
    split; [exact Hsite|]. split; [exact Hm|]. apply Htail. exact (Hlaw _ _ _ _ Hm).
  - apply st_ret_pair in Hmut as [-> ->]. by apply Htail.
Qed.

(** [CompleteClaimedWindow] commits the window and the writes of its
    handler together: it returns only for the owner of the running run, for a
    window of that run that is running under the reported attempt; the handler
    ran exactly once, on the database in which that was checked, and the window
    gets the outcome with the rows the handler reported. *)
Theorem CompleteClaimedWindow_atomic d request run' d' :
  queue_inv d -> lawful request.(CompleteRequest.Mutation) ->
  CompleteClaimedWindow request d = Ok (run', d') ->
  let outcome := request.(CompleteRequest.Window) in
  let id := outcome.(WindowResult.WindowID) in
  exists run window,
    Tables.collection_run d !! request.(CompleteRequest.RunID) = Some run /\
    owned run request.(CompleteRequest.RequestID) = true /\
    Tables.collection_run_window d !! id = Some window /\
    window.(RunWindow.RunID) = request.(CompleteRequest.RunID) /\
    window.(RunWindow.Status) = "running" /\
    window.(RunWindow.AttemptCount) = outcome.(WindowResult.AttemptCount) /\
    match request.(CompleteRequest.Mutation) with
    | None => commit_effect d d' request.(CompleteRequest.RunID) request.(CompleteRequest.Now) [outcome] run
    | Some mutation => exists site fetched written d1,
        Tables.site d !! window.(RunWindow.SiteID) = Some site /\
        mutation (MutationScope.mk site run window) d = Ok ((fetched, written), d1) /\
        commit_effect d1 d' request.(CompleteRequest.RunID) request.(CompleteRequest.Now)
          [outcome <| WindowResult.FetchedRows := fetched |> <| WindowResult.WrittenRows := written |>] run
    end.
Proof.
  intros Hinv Hlaw H. cbv zeta.
  destruct (complete_claimed_effect d request run' d' Hinv Hlaw H) as (run&w&?&?&?&?&?&?&Hm).
  exists run, w. repeat (split; [done|]).
  destruct (CompleteRequest.Mutation request) as [m|]; [|apply Hm].
  destruct Hm as (site&fetched&written&d1&?&?&?&_). by exists site, fetched, written, d1.
Qed.

(** ** Lost claims *)



(** The completion of the claimed window by a handler that stores a fact. *)
Definition sample_mutation : CollectionTaskWindowMutation := fun scope =>
  _ ← db_create (Fact.mk 0 scope.(MutationScope.site).(MSite.ID) 1 "u" "m" 1 "" 0 "" "" 7200 1 2 3 20010);
  mret (5, 4).
Definition sample_completion : CompleteClaimedWindowRequest :=
  CompleteRequest.mk 100 "worker-1" 20010 History.outcome (Some sample_mutation).

Lemma CompleteClaimedWindow_atomic_witness : exists run' d',
  CompleteClaimedWindow sample_completion History.claimed = Ok (run', d') /\
  exists run, owned run "worker-1" = true.
Proof.
  destruct (CompleteClaimedWindow sample_completion History.claimed) as [[run' d']|e] eqn:H;
    [|vm_compute in H; discriminate H].
  exists run', d'. split; [reflexivity|].
  assert (Hlaw : lawful (Some sample_mutation)).
  { intros scope. unfold sample_mutation. solve_frame. }
  destruct (CompleteClaimedWindow_atomic _ sample_completion _ _ (reachable_inv _ History.claimed_reachable) Hlaw H)
    as (run&w&_&Hown&_).
  exists run. exact Hown.
Defined.
