(* ===== verification/RecoveryBehaviour.v ===== *)
(** * What a recovery does

    One recovered run, window by window, and the recovery of every running run
    after a restart. *)

From S2P Require Import Prelude Constants GoText Store Frame RunContract RunState RunRepository SiteFence TaskScope RunFrames TaskClaim TaskCommit RunInvariant QueueClaim TaskRecovery Materialize QueueSteps QueueRecovery QueueCreate QueueMaterialize QueueSafety CommitBehaviour.

(** ** The windows of a recovered run *)
Lemma settled_not_running code now limit w : (settled code now limit w).(RunWindow.Status) <> "running".
Proof.
  unfold settled, settle_window. destruct (RunWindow.Status w == "running") eqn:H; to_prop; [|done].
  by destruct (_ <? _).
Qed.

Lemma idle_run r W :
  run_inv r W -> CollectionTaskWindowed r.(Run.TaskType) = true ->
  (forall w, w ∈ W -> w.(RunWindow.Status) <> "running") -> r.(Run.Status) <> "running".
Proof.
  intros [_ _ Hwin _] Hw Hnr Hs. specialize (Hwin Hw).
  destruct (Run.WindowsInitializedAt r).
  - apply (counts_running _ _ Hwin), status_count_pos in Hs as (w&Hin&Hst). by apply (Hnr w).
  - destruct Hwin as [[? _]|[? _]]; congruence.
Qed.

(** The windows table after the loop of a recovery. *)
Definition recovered_windows (d : Db) (i now limit : Z) (d' : Db) : Prop :=
  forall k, Tables.collection_run_window d' !! k =
    (fun w => if of_run i w then settled CollectionTaskLeaseLostCode now limit w else w)
      <$> Tables.collection_run_window d !! k.

Lemma recovered_windows_of d i now limit d' :
  recovered_windows d i now limit d' -> forall w, w ∈ windows_of d' i -> w.(RunWindow.Status) <> "running".
Proof.
  intros Hrec w (Hof&k&Hk)%elem_of_windows_of. rewrite Hrec in Hk.
  apply fmap_Some_1 in Hk as (x&_&->). destruct (of_run i x) eqn:E; [apply settled_not_running|].
  congruence.
Qed.

Lemma recover_windowed_windows run now limit d run' d' :
  queue_inv d -> Tables.collection_run d !! run.(Run.ID) = Some run -> run.(Run.Status) = "running" ->
  (windows ← db_select (of_run run.(Run.ID)) by_hour_id;
   _ ← recover_windows now limit windows;
   run ← RecalculateLockedCollectionRun run
           (settle_in_memory CollectionTaskLeaseLostCode now limit <$> windows) now None;
   if run.(Run.Status) == CollectionTaskStatusPending then
     clock ← st_gets Tables.gorm_now;
     _ ← db_update (run_has_id run.(Run.ID))
           (fun r => r <| Run.HeartbeatAt := None |> <| Run.UpdatedAt := clock |>);
     mret (run <| Run.HeartbeatAt := None |>)
   else mret run) d = Ok (run', d') ->
  recovered_windows d run.(Run.ID) now limit d'.
Proof.
  intros Hinv Hrow Hs H. pose proof (queue_windows_wf d Hinv) as Hwwf.
  assert (Hnt : ~ terminal run) by (intros [?|?]; congruence). set (i := Run.ID run) in *.
  apply st_bind_ok in H as (ws&d1&Hsel&H). apply db_select_ok in Hsel as [-> ->].
  destruct (select_windows_listed (of_run i) by_hour_id d Hwwf) as [Hnd Hin].
  apply st_bind_ok in H as ([]&d1&Hloop&H).
  apply (recover_windows_ok i) in Hloop as ->; [|done..].
  apply st_bind_ok in H as (r1&d2&Hrec&H). apply recalculate_keeps_counts in Hrec as [Hw _]; [|done].
  assert (Hw' : Tables.collection_run_window d' = Tables.collection_run_window d2).
  { destruct (_ == _); [|by apply st_ret_pair in H as [_ ->]].
    apply st_bind_ok in H as (clock&d3&Hclock&H). apply st_gets_ok in Hclock as [= -> ->].
    apply st_bind_ok in H as (n&d3&Hupd&H). apply db_update_ok in Hupd as [-> ->].
    by apply st_ret_pair in H as [_ ->]. }
  intros k. rewrite Hw', Hw. etransitivity; [apply lookup_fmap|].
  destruct (Tables.collection_run_window d !! k) as [w|] eqn:Hk; [|done]. simpl. f_equal.
  assert (bool_decide (w ∈ select (of_run i) by_hour_id d) = of_run i w) as ->; [|done].
  apply eq_true_iff_eq. rewrite bool_decide_eq_true, elem_of_select. split; [tauto|eauto].
Qed.

(** One recovery, with the frame of what it touches. *)
Lemma recoverRun_effect d i now staleBefore policy run b d' :
  queue_inv d -> Tables.collection_run d !! i = Some run ->
  recoverRun i now staleBefore policy d = Ok (b, d') ->
  let limit := maxAttempts policy run.(Run.TaskType) in
  if (run.(Run.Status) == "running") && lease_stale staleBefore run then
    b = true /\ touches i d d' /\ recovered_windows d i now limit d' /\
    exists run', Tables.collection_run d' !! i = Some run' /\ run'.(Run.Status) <> "running" /\
      (CollectionTaskWindowed run.(Run.TaskType) = false ->
         run'.(Run.Status) = (if run.(Run.RetryCount) <? limit then "pending" else "failed"))
  else b = false /\ d' = d.
Proof.
  intros Hinv Hrow. unfold recoverRun. change (table d !! i) with (Tables.collection_run d !! i).
  rewrite Hrow. intros H. cbv zeta. set (limit := maxAttempts policy (Run.TaskType run)).
  apply st_bind_ok in H as ([r scope]&d1&Hlock&H). apply lock_run_with_scope_ok in Hlock as (->&Hr&_).
  assert (r = run) as -> by congruence. cbv beta iota in H. clear Hr.
  assert (Hguard : (Run.Status run != CollectionTaskStatusRunning) || negb (lease_stale staleBefore run)
          = negb ((Run.Status run == "running") && lease_stale staleBefore run)).
  { by rewrite negb_andb. }
  rewrite Hguard in H. clear Hguard.
  destruct ((Run.Status run == "running") && lease_stale staleBefore run) eqn:Hc; cbn [negb] in H;
    [|by apply st_ret_pair in H as [-> ->]].
  to_prop. destruct Hc as [Hs _].
  pose proof (queue_runs_wf d Hinv _ _ Hrow) as Hid. simpl in Hid. rewrite <- Hid in *.
  unfold recover_locked_run in H. fold limit in H. cbv zeta in H.
  apply st_bind_ok in H as (r1&d1&Hbody&H). apply st_bind_ok in H as ([]&d2&Hst&H).
  apply st_ret_pair in H as [-> ->]. split; [done|].
  pose proof (recalculateTaskBackfillStatuses_frame _ _ _ _ _ Hst) as Hfr. pose proof Hfr as Hfr0. unfold run_state in Hfr.
  injection Hfr as Hfr Hfw _ _.
  destruct (CollectionTaskWindowed (Run.TaskType run)) eqn:Hw.
  - pose proof (recover_windowed_touches run now limit d r1 d1 Hinv Hrow Hs Hw Hbody) as [Ht (row'&Hrow'&Hri)].
    pose proof (recover_windowed_windows run now limit d r1 d1 Hinv Hrow Hs Hbody) as Hwin.
    split; [etransitivity; [exact Ht|]; apply touches_frame; exact Hfr0|].
    split; [intros k; by rewrite Hfw|]. exists row'. rewrite Hfr. split; [done|]. split; [|done].
    destruct (touch_same_run _ _ _ Ht row' Hrow') as (r0&Hr0&Hident).
    assert (r0 = run) as -> by congruence. unfold run_identity in Hident. injection Hident as _ _ _ Ety _ _.
    apply (idle_run row' (windows_of d1 (Run.ID run))); [done|congruence|].
    by eapply recovered_windows_of.
  - apply st_bind_ok in Hbody as (n&d3&Hupd&Hbody). apply db_update_ok in Hupd as [-> ->].
    apply st_ret_pair in Hbody as [_ ->].
    destruct (queue_run_inv d Hinv _ run Hrow) as [_ _ _ Hplain]. destruct (Hplain Hw) as [_ Hnil].
    split.
    { etransitivity; [|apply touches_frame; exact Hfr0].
      apply touches_run_update; [|intros r; apply recovered_run_fields|apply (queue_runs_wf d Hinv)].
      intros r Hr. to_prop. destruct Hr as [Hr _]. exact (run_has_id_eq _ _ Hr). }
    split.
    + intros k. rewrite Hfw. simpl.
      destruct (Tables.collection_run_window d !! k) as [w|] eqn:Hk; [|done]. simpl. f_equal.
      destruct (of_run (Run.ID run) w) eqn:Hof; [|done].
      assert (Hin : w ∈ windows_of d (Run.ID run)) by (apply elem_of_windows_of; eauto).
      rewrite Hnil in Hin. set_solver.
    + rewrite Hfr. rewrite set_table_runs_lookup, Hrow. eexists. split; [reflexivity|].
      unfold upd, run_has_id. rewrite Z.eqb_refl, bool_decide_eq_true_2 by done. cbn [andb].
      destruct (recovered_run_fields now limit (Run.RetryCount run) run) as (_&_&Hc).
      destruct (_ <? _); destruct Hc as [-> _]; done.
Qed.

(** C26: recovering a run takes it over exactly when it is running and its
    lease is stale; every running window with attempts left is then queued
    again at the recovery time, every exhausted one fails with the lease-lost
    code, the other windows of the table are untouched, a task without windows
    is queued again or failed by its own attempt count, and the run is no longer
    running.  Otherwise nothing changes. *)
Theorem recoverRun_spec d i now staleBefore policy run b d' :
  queue_inv d -> Tables.collection_run d !! i = Some run ->
  recoverRun i now staleBefore policy d = Ok (b, d') ->
  let limit := maxAttempts policy run.(Run.TaskType) in
  if (run.(Run.Status) == "running") && lease_stale staleBefore run then
    b = true /\ recovered_windows d i now limit d' /\
    exists run', Tables.collection_run d' !! i = Some run' /\ run'.(Run.Status) <> "running" /\
      (CollectionTaskWindowed run.(Run.TaskType) = false ->
         run'.(Run.Status) = (if run.(Run.RetryCount) <? limit then "pending" else "failed"))
  else b = false /\ d' = d.
Proof.
  intros Hinv Hrow H limit. pose proof (recoverRun_effect d i now staleBefore policy run b d' Hinv Hrow H) as He.
  cbv zeta in He. fold limit in He. by destruct (_ && _); [destruct He as (?&_&?)|].
Qed.

(** ** After a restart *)

(** A run whose status is running. *)
Definition is_running (r : CollectionRun) : bool := r.(Run.Status) == "running".

Lemma recover_all_clears policy now ids : forall n d n' d',
  queue_inv d -> NoDup ids -> recover_all ids now None policy n d = (n', None, d') ->
  (forall k, k ∈ ids <-> exists r, Tables.collection_run d !! k = Some r /\ is_running r = true) ->
  n' = n + Z.of_nat (length ids) /\ queue_inv d' /\
  forall k r, Tables.collection_run d' !! k = Some r -> is_running r = false.
Proof.
  induction ids as [|i ids IH]; intros n d n' d' Hinv Hnd H Hids; cbn [recover_all] in H.
  - injection H as <- <-. split; [simpl; lia|]. split; [done|]. intros k r Hr.
    destruct (is_running r) eqn:E; [|done]. assert (Hk : k ∈ @nil Z) by (apply Hids; eauto). set_solver.
  - destruct (recoverRun i now None policy d) as [[b d1]|e] eqn:Hrec; [|done].
    destruct (proj1 (Hids i) ltac:(set_solver)) as (run&Hrow&Hrun).
    pose proof (recoverRun_keeps _ _ _ _ _ _ _ Hinv Hrec) as Hinv1.
    apply (recoverRun_effect d i now None policy run) in Hrec; [|done..]. cbv zeta in Hrec.
    unfold is_running in Hrun. rewrite Hrun in Hrec. cbn in Hrec.
    destruct Hrec as (->&Ht&_&run'&Hrow'&Hst&_).
    apply NoDup_cons in Hnd as [Hi Hnd].
    apply IH in H as (->&?&?); [split; [cbn [length]; lia|done]|done|done|].
    intros k. destruct (decide (k = i)) as [-> |Hne].
    + split; [done|]. intros (r&Hr&Hrr). assert (r = run') as -> by congruence.
      unfold is_running in Hrr. to_prop. done.
    + rewrite (touch_other_runs _ _ _ Ht) by done. rewrite <- Hids, elem_of_cons. tauto.
Qed.

(** When the recovery after a restart returns without an error, it has
    recovered every run that was running, and no run is left running. *)
Theorem RecoverRunning_restart d now policy n d' :
  queue_inv d -> RecoverRunning now None policy d = (n, None, d') ->
  n = count is_running (table_rows (R := CollectionRun) d) /\
  forall k r, Tables.collection_run d' !! k = Some r -> r.(Run.Status) <> "running".
Proof.
  intros Hinv. unfold RecoverRunning. destruct (now <=? 0); [done|]. intros H.
  set (p := fun r => (Run.Status r == "running") && true) in *.
  apply recover_all_clears in H as (->&_&Hclear); [|done| |].
  - split.
    + rewrite length_fmap, select_perm. unfold count. rewrite Z.add_0_l. do 2 f_equal.
      apply list_filter_iff. intros r. unfold p. by rewrite andb_true_r.
    + intros k r Hr. specialize (Hclear k r Hr). unfold is_running in Hclear. by to_prop.
  - pose proof (select_NoDup p by_id d (queue_runs_wf d Hinv)) as Hnd. exact Hnd.
  - intros k. rewrite list_elem_of_fmap. split.
    + intros (r&->&(Hp&j&Hj)%elem_of_select). unfold p in Hp. rewrite andb_true_r in Hp.
      apply (queue_runs_wf d Hinv) in Hj as Hid. simpl in Hid. exists r. by rewrite Hid.
    + intros (r&Hr&Hrun). exists r. apply (queue_runs_wf d Hinv) in Hr as Hid. simpl in Hid.
      split; [done|]. apply elem_of_select. unfold p. rewrite andb_true_r. eauto.
Qed.

Definition sample_policy : CollectionTaskAttemptPolicy := AttemptPolicy.mk 3 ∅.

Lemma recoverRun_spec_witness : exists d',
  recoverRun 100 30000 None sample_policy History.claimed = Ok (true, d') /\
  recovered_windows History.claimed 100 30000 3 d'.
Proof.
  destruct (recoverRun 100 30000 None sample_policy History.claimed) as [[b d']|e] eqn:H;
    [|vm_compute in H; discriminate H].
  assert (Hr : Tables.collection_run History.claimed !! 100 = Some (History.the_run History.claimed)).
  { apply History.the_run_found. eexists. vm_compute. reflexivity. }
  pose proof (recoverRun_spec _ _ _ _ _ _ _ _ (reachable_inv _ History.claimed_reachable) Hr H) as Hs.
  assert (Hg : (Run.Status (History.the_run History.claimed) == "running")
               && lease_stale None (History.the_run History.claimed) = true) by (vm_compute; reflexivity).
  cbv zeta in Hs. rewrite Hg in Hs. destruct Hs as (->&Hw&_). exists d'. split; [reflexivity|].
  assert (Hl : maxAttempts sample_policy (Run.TaskType (History.the_run History.claimed)) = 3) by (vm_compute; reflexivity).
  rewrite Hl in Hw. exact Hw.
Defined.

Lemma RecoverRunning_restart_witness : exists d',
  RecoverRunning 30000 None sample_policy History.claimed = (1, None, d') /\
  1 = count is_running (table_rows (R := CollectionRun) History.claimed).
Proof.
  destruct (RecoverRunning 30000 None sample_policy History.claimed) as [[n e] d'] eqn:H.
  assert (Hn : fst (RecoverRunning 30000 None sample_policy History.claimed) = (1, None)) by (vm_compute; reflexivity).
  rewrite H in Hn. simpl in Hn. injection Hn as -> ->. exists d'. split; [reflexivity|].
  exact (proj1 (RecoverRunning_restart _ _ _ _ _ (reachable_inv _ History.claimed_reachable) H)).
Defined.

(** ** The release *)

(** The recalculation of a run writes runs only. *)
#[export] Hint Extern 2 (Preserves Tables.collection_run_window (db_update (R := CollectionRun) _ _)) =>
  (apply preserves_update; reflexivity) : typeclass_instances.

Lemma recalculation_windows run Wm now d run' d' :
  (if run.(Run.Priority) =? CollectionPriorityInitialBackfill then recalculateInitialBackfillRun run now
   else RecalculateLockedCollectionRun run Wm now None) d = Ok (run', d') ->
  Tables.collection_run_window d' = Tables.collection_run_window d.
Proof.
  assert (H1 : Preserves Tables.collection_run_window (recalculateInitialBackfillRun run now))
    by (unfold recalculateInitialBackfillRun; solve_frame).
  assert (H2 : Preserves Tables.collection_run_window (RecalculateLockedCollectionRun run Wm now None))
    by (unfold RecalculateLockedCollectionRun; solve_frame).
  destruct (_ =? _); [apply H1|apply H2].
Qed.

(** The types of the runs. *)
Definition run_types (d : Db) := Run.TaskType <$> Tables.collection_run d.

Lemma preserves_types (p : CollectionRun -> bool) f : (forall r, (f r).(Run.TaskType) = r.(Run.TaskType)) ->
  Preserves run_types (db_update p f).
Proof.
  intros Hf d n d' Hu. apply db_update_ok in Hu as [_ ->]. unfold run_types. simpl. apply map_eq. intros k.
  rewrite !lookup_fmap, lookup_update_where. destruct (Tables.collection_run d !! k) as [r|]; [|done]. simpl. unfold upd.
  destruct (p r); [by rewrite Hf|done].
Qed.
#[export] Hint Extern 2 (Preserves run_types (db_update (R := CollectionRun) _ _)) =>
  (apply preserves_types; intros ?; unfold initial_recalculated, recalculated; repeat case_match; reflexivity) : typeclass_instances.
#[export] Hint Extern 3 (Preserves run_types (db_update (R := CollectionRunWindow) _ _)) =>
  (apply preserves_update; reflexivity) : typeclass_instances.

#[export] Instance ReleaseOwnedRunning_types runID requestID now policy :
  Preserves run_types (ReleaseOwnedRunning runID requestID now policy).
Proof.
  assert (H : forall run, Preserves run_types (recalculateTaskBackfillStatuses run now)).
  { intros run d u d' H. apply (recalculateTaskBackfillStatuses_frame _ _) in H. unfold run_state in H. unfold run_types.
    by injection H as -> _ _ _. }
  unfold ReleaseOwnedRunning, release_windows, recalculateInitialBackfillRun, RecalculateLockedCollectionRun, lock_run_with_scope.
  solve_frame; apply reads_preserves, _.
Qed.

Lemma released_type runID requestID now policy d n d' x run : ReleaseOwnedRunning runID requestID now policy d = Ok (n, d') ->
  Tables.collection_run d !! runID = Some x -> Tables.collection_run d' !! runID = Some run ->
  run.(Run.TaskType) = x.(Run.TaskType).
Proof.
  intros H Hx Hrun. apply (ReleaseOwnedRunning_types runID requestID now policy) in H. unfold run_types in H.
  assert (E : (Run.TaskType <$> Tables.collection_run d') !! runID = (Run.TaskType <$> Tables.collection_run d) !! runID) by (by rewrite H).
  rewrite !lookup_fmap, Hx, Hrun in E. by injection E.
Qed.

(** The windows of a released run. *)
Lemma released_windows run_id requestID now policy d n d' run :
  queue_inv d -> Tables.collection_run d !! run_id = Some run -> owned run requestID = true ->
  CollectionTaskWindowed run.(Run.TaskType) = true ->
  ReleaseOwnedRunning run_id requestID now policy d = Ok (n, d') ->
  forall w, w ∈ windows_of d' run_id -> w.(RunWindow.Status) <> "running".
Proof.
  intros Hinv Hrow Hown Hw. pose proof (queue_windows_wf d Hinv) as Hwwf. unfold ReleaseOwnedRunning. past_guard Hg. intros H.
  apply st_bind_ok in H as ([x scope]&d1&Hlock&H). apply lock_run_with_scope_ok in Hlock as (->&Hx&_). cbv beta iota in H.
  rewrite Hrow in Hx. injection Hx as <-. rewrite Hown, Hw in H. cbn [negb] in H.
  apply st_bind_ok in H as (ws&d1&Hsel&H). apply db_select_ok in Hsel as [-> ->].
  set (limit := maxAttempts policy (Run.TaskType run)) in *. cbv zeta in H.
  apply st_bind_ok in H as (released&d1&Hrel&H).
  destruct (select_windows_listed (of_run run_id) by_site_hour d Hwwf) as [Hnd Hin].
  apply release_windows_ok in Hrel as ->; [|done..].
  set (ws := select (of_run run_id) by_site_hour d) in *. set (d1 := map_windows _ d) in *.
  assert (Hrows : Tables.collection_run_window d' = Tables.collection_run_window d1).
  { destruct (released =? 0); [by apply st_ret_pair in H as [_ ->]|].
    apply st_bind_ok in H as (k&d2&Hupd&H). apply db_update_ok in Hupd as [-> ->].
    apply st_bind_ok in H as ([]&d3&Haff&H). apply st_require_ok in Haff as (_&[= ->]).
    apply st_bind_ok in H as (r1&d3&Hrec&H). apply st_bind_ok in H as ([]&d4&Hst&H). apply st_ret_pair in H as [_ ->].
    apply (recalculateTaskBackfillStatuses_frame _ _) in Hst. unfold run_state in Hst. injection Hst as _ -> _ _.
    change (Run.Priority run) with (Run.Priority (run <| Run.HeartbeatAt := None |> <| Run.UpdatedAt := now |>)) in Hrec.
    by apply recalculation_windows in Hrec. }
  intros w (Hof&k&Hk)%elem_of_windows_of. rewrite Hrows in Hk. unfold d1, map_windows in Hk. simpl in Hk.
  rewrite lookup_fmap in Hk. apply fmap_Some_1 in Hk as (x&Hxk&->). case_bool_decide as Hb; [apply settled_not_running|].
  exfalso. apply Hb, elem_of_select. split; [done|by exists k].
Qed.

(** A release that commits ends the ownership: whatever the claim was, its
    run is not running under its request id any more, so that a queue whose
    invariant holds can hand it out again or has closed it. *)
Theorem released_not_owned run_id requestID now policy d n d' run :
  queue_inv d -> ReleaseOwnedRunning run_id requestID now policy d = Ok (n, d') ->
  Tables.collection_run d' !! run_id = Some run -> owned run requestID = false.
Proof.
  intros Hinv H Hrun. destruct (owned run requestID) eqn:Hown; [exfalso|done]. pose proof Hown as Hown'. apply owned_spec in Hown as [Hs Hreq].
  pose proof (ReleaseOwnedRunning_keeps _ _ _ _ _ _ _ Hinv H) as Hinv'. pose proof H as H0.
  unfold ReleaseOwnedRunning in H. revert H. past_guard Hg. intros H.
  apply st_bind_ok in H as ([x scope]&d1&Hlock&H). apply lock_run_with_scope_ok in Hlock as (->&Hx&_). cbv beta iota in H.
  destruct (owned x requestID) eqn:Hox; cbn [negb] in H.
  2:{ apply st_ret_pair in H as [_ ->]. rewrite Hx in Hrun. injection Hrun as <-. congruence. }
  destruct (CollectionTaskWindowed (Run.TaskType x)) eqn:Hw; cbn [negb] in H.
  - pose proof (released_windows _ _ _ _ _ _ _ _ Hinv Hx Hox Hw H0) as Hnone.
    pose proof (released_type _ _ _ _ _ _ _ _ _ H0 Hx Hrun) as Hty.
    pose proof (inv_windowed _ _ (queue_run_inv d' Hinv' _ _ Hrun)) as Hwin. rewrite Hty in Hwin. specialize (Hwin Hw).
    destruct (Run.WindowsInitializedAt run); [|destruct Hwin as [[? _]|[? _]]; congruence].
    pose proof (proj1 (counts_running _ _ Hwin) Hs) as Hpos. apply status_count_pos in Hpos as (w&Hin&Hr). by apply (Hnone w).
  - apply db_update_ok in H as [_ ->]. rewrite set_table_runs_lookup, Hx in Hrun. simpl in Hrun. injection Hrun as <-.
    apply owned_spec in Hox as [Hsx Hrx]. pose proof (queue_runs_wf d Hinv _ _ Hx) as Hid. simpl in Hid.
    unfold upd in Hs. rewrite <- Hid in Hs at 1. by rewrite owned_row_own in Hs.
Qed.

Lemma released_not_owned_witness :
  owned (History.the_run History.claimed) "worker-1" = true /\
  owned (History.the_run (History.after (ReleaseOwnedRunning 100 "worker-1" 20010 sample_policy) History.claimed)) "worker-1" = false.
Proof.
  split; [vm_compute; reflexivity|].
  destruct (History.after_ok (ReleaseOwnedRunning 100 "worker-1" 20010 sample_policy) History.claimed) as [n Hn]; [vm_compute; reflexivity|].
  apply (released_not_owned 100 "worker-1" 20010 sample_policy History.claimed n
    (History.after (ReleaseOwnedRunning 100 "worker-1" 20010 sample_policy) History.claimed)
    _ (reachable_inv _ History.claimed_reachable) Hn).
  apply History.the_run_found. vm_compute. eexists. reflexivity.
Defined.
