(* ===== verification/MaterializeBehaviour.v ===== *)
(** * Materialisation survives a crash

    The expected windows of a run do not depend on the windows already
    inserted, so a materialisation that stopped between two batches is finished
    by starting it again, without duplicates. *)

From S2P Require Import Prelude Constants GoText Store Frame RunContract RunState RunRepository SiteFence TaskScope RunFrames TaskClaim TaskCommit RunInvariant QueueClaim TaskRecovery Materialize QueueSteps QueueRecovery QueueCreate QueueMaterialize QueueSafety.

(** ** Transactions that do not look at the run windows *)
Definition with_windows (t : gmap Z CollectionRunWindow) (n : Z) (d : Db) : Db :=
  d <| Tables.collection_run_window := t |> <| Tables.auto_run_window := n |>.

(** The result of [m] is the same whatever the run windows are. *)
Class Blind {A} (m : Tx A) : Prop := blind : forall d d1 a t n,
  m d = Ok (a, d1) -> m (with_windows t n d) = Ok (a, with_windows t n d1).

Section Combinators.
#[local] Ltac start_blind := let x := fresh "x" in intros d d1 x t n H.

#[export] Instance blind_ret {A} (a : A) : Blind (mret (M := ST Db) a).
Proof. start_blind. by apply st_ret_pair in H as [-> ->]. Qed.
#[export] Instance blind_fail {A} e : Blind (st_fail (A := A) e).
Proof. start_blind. by apply st_fail_ok in H. Qed.
#[export] Instance blind_lift {A} (m : result A) : Blind (st_lift m).
Proof. start_blind. apply st_lift_ok in H as (y&->&[= -> ->]). done. Qed.
#[export] Instance blind_require b e : Blind (st_require b e).
Proof. start_blind. apply st_require_ok in H as (->&[= -> ->]). done. Qed.
#[export] Instance blind_bind {A B} (m : Tx A) (k : A -> Tx B) :
  Blind m -> (forall a, Blind (k a)) -> Blind (m ≫= k).
Proof.
  intros Hm Hk. start_blind. apply st_bind_ok in H as (y&d2&H1&H2).
  apply st_bind_ok. eexists y, _. split; [by apply Hm|by apply Hk].
Qed.
Lemma blind_if {A} (b : bool) (m1 m2 : Tx A) : Blind m1 -> Blind m2 -> Blind (if b then m1 else m2).
Proof. by destruct b. Qed.
Lemma blind_select {R} `{!Table R} p key :
  (forall d t n, table (R := R) (with_windows t n d) = table d) -> Blind (db_select (R := R) p key).
Proof.
  intros Ht. start_blind. apply db_select_ok in H as [-> ->]. unfold db_select, st_gets, select, table_rows.
  by rewrite Ht.
Qed.
Lemma blind_first {R} `{!Table R} id :
  (forall d t n, table (R := R) (with_windows t n d) = table d) -> Blind (db_first (R := R) id).
Proof. intros Ht. start_blind. apply db_first_ok in H as [H ->]. apply db_first_ok. by rewrite Ht. Qed.
Lemma blind_first_where {R} `{!Table R} p key :
  (forall d t n, table (R := R) (with_windows t n d) = table d) -> Blind (db_first_where (R := R) p key).
Proof.
  intros Ht. start_blind. apply db_first_where_ok in H as (->&l&H). apply db_first_where_ok.
  split; [done|]. exists l. unfold select, table_rows in *. by rewrite Ht.
Qed.
End Combinators.

#[export] Hint Extern 2 (Blind (db_select _ _)) => (apply blind_select; reflexivity) : typeclass_instances.
#[export] Hint Extern 2 (Blind (db_first _)) => (apply blind_first; reflexivity) : typeclass_instances.
#[export] Hint Extern 2 (Blind (db_first_where _ _)) =>
  (apply blind_first_where; reflexivity) : typeclass_instances.

Ltac blind_step :=
  match goal with
  | |- Blind (if ?b then _ else _) => apply blind_if
  | |- Blind (match ?x with _ => _ end) => destruct x
  | |- Blind (mbind _ _) => apply blind_bind; [|intros]
  | |- Blind _ => solve [apply _]
  end.
Ltac solve_blind := cbv zeta; repeat blind_step.

#[export] Instance resolveTaskScope_blind run : Blind (resolveTaskScope run).
Proof. unfold resolveTaskScope. solve_blind. Qed.
#[export] Instance lockTaskScope_blind scope skip : Blind (lockTaskScope scope skip).
Proof. unfold lockTaskScope. solve_blind. Qed.
#[export] Instance verifyTaskScopeLocked_blind run scope : Blind (verifyTaskScopeLocked run scope).
Proof. unfold verifyTaskScopeLocked. solve_blind. Qed.
#[export] Instance expectedSiteRunWindowHours_blind run : Blind (expectedSiteRunWindowHours run).
Proof. unfold expectedSiteRunWindowHours. solve_blind. Qed.
#[export] Instance lockMaterializationExpectation_blind base : Blind (lockMaterializationExpectation base).
Proof. unfold lockMaterializationExpectation, expectedTaskWindowKeys. solve_blind. Qed.

(** ** A run whose windows are partly inserted *)
Definition key_order (k : CollectionTaskWindowKey) : sort_key :=
  [AInt k.(WindowKey.SiteID); AInt k.(WindowKey.HourTS)].

Record partly_filled (d : Db) (base : CollectionRun) (expected : list CollectionTaskWindowKey) : Prop := {
  filling_expectation : lockMaterializationExpectation base d = Ok ((base, expected), d);
  filling_pending : forall w, w ∈ windows_of d base.(Run.ID) -> w.(RunWindow.Status) = "pending";
  filling_expected : forall w, w ∈ windows_of d base.(Run.ID) -> window_key w ∈ expected;
  filling_once : NoDup (window_key <$> windows_of d base.(Run.ID));
  filling_wf : table_wf (Tables.collection_run_window d);
  filling_fresh : forall k w, Tables.collection_run_window d !! k = Some w -> k < Tables.auto_run_window d
}.

(** Inserting one expected window. *)
Lemma insert_filling d base expected key now d' u :
  partly_filled d base expected -> key ∈ expected ->
  insert_window_ignore (pending_window base.(Run.ID) now key) d = Ok (u, d') ->
  partly_filled d' base expected /\
  (forall k, k ∈ window_key <$> windows_of d' base.(Run.ID) <->
     k = key \/ k ∈ window_key <$> windows_of d base.(Run.ID)).
Proof.
  intros [Hlock Hp He Ho Hwf Hf] Hkey H. set (i := Run.ID base) in *.
  set (new := pending_window i now key) in *.
  assert (Hsame : forall w, same_window_row new w = true <-> of_run i w = true /\ window_key w = key).
  { intros w. unfold same_window_row, of_run, window_key. destruct key as [s h]. to_prop. simpl. split.
    - intros [[-> ->] ->]. done.
    - intros [-> [= -> ->]]. done. }
  unfold insert_window_ignore in H. apply st_bind_ok in H as (n&d1&Hn&H). apply st_gets_ok in Hn as [= -> ->].
  destruct (0 <? _) eqn:Hc.
  - apply st_ret_pair in H as [_ ->]. split; [split; eauto|].
    apply Z.ltb_lt, count_pos in Hc as (w&Hw&Hsw). apply Hsame in Hsw as [Hof <-].
    intros k. split; [by right|]. intros [-> |Hk]; [|done]. apply list_elem_of_fmap_2.
    apply elem_of_windows_of. split; [done|]. by apply elem_of_rows in Hw.
  - apply Z.ltb_ge in Hc. apply st_bind_ok in H as (w'&d1&Hcr&H). apply st_ret_pair in H as [_ ->].
    unfold db_create in Hcr. injection Hcr as _ <-.
    set (j := Tables.auto_run_window d). set (row := set_row_id j new).
    assert (Hfresh : Tables.collection_run_window d !! j = None).
    { destruct (_ !! j) eqn:E; [|done]. apply Hf in E. unfold j in E. lia. }
    set (d' := set_table (R := CollectionRunWindow) (<[j := row]> (table d))
                 (set_auto_increment (R := CollectionRunWindow) (j + 1) d)).
    assert (Hof : of_run i row = true) by (unfold of_run; apply Z.eqb_refl).
    assert (HW : windows_of d' i ≡ₚ row :: windows_of d i).
    { unfold windows_of, table_rows, d'. simpl. rewrite rows_insert_new by done.
      rewrite filter_cons. by rewrite decide_True. }
    assert (Hkrow : window_key row = key) by (by destruct key).
    assert (Hnew : key ∉ window_key <$> windows_of d i).
    { intros (w&Hk&Hw)%list_elem_of_fmap. apply elem_of_windows_of in Hw as [Hw (k&Hlk)].
      assert (0 < count (same_window_row new) (table_rows (R := CollectionRunWindow) d)); [|lia].
      apply count_pos. exists w. split; [apply elem_of_rows; eauto|by apply Hsame]. }
    change (partly_filled d' base expected /\
      (forall k, k ∈ window_key <$> windows_of d' i <-> k = key \/ k ∈ window_key <$> windows_of d i)).
    split; [split|].
    + exact (lockMaterializationExpectation_blind base d d _ (<[j := row]> (table d)) (j + 1) Hlock).
    + intros w Hw. fold i in Hw. rewrite HW in Hw. apply elem_of_cons in Hw as [-> |Hw]; auto.
    + intros w Hw. fold i in Hw. rewrite HW in Hw. apply elem_of_cons in Hw as [-> |Hw]; [by rewrite Hkrow|auto].
    + fold i. rewrite HW, fmap_cons, Hkrow. by constructor.
    + intros k w. simpl. rewrite lookup_insert_Some. intros [[<- <-]|[_ Hw]]; [done|by apply Hwf].
    + intros k w. simpl. rewrite lookup_insert_Some. intros [[<- <-]|[_ Hw]]; [lia|].
      apply Hf in Hw. fold j in Hw. lia.
    + intros k. rewrite HW, fmap_cons, elem_of_cons, Hkrow. done.
Qed.

(** One batch, and all of them. *)
Lemma chunk_filling base expected chunk now : forall d,
  partly_filled d base expected -> (forall k, k ∈ chunk -> k ∈ expected) ->
  exists d', materialize_chunk base expected chunk now d = Ok (tt, d') /\
    partly_filled d' base expected /\
    (forall k, k ∈ window_key <$> windows_of d' base.(Run.ID) <->
       k ∈ chunk \/ k ∈ window_key <$> windows_of d base.(Run.ID)).
Proof.
  intros d Hd Hin.
  assert (Hfold : forall d, partly_filled d base expected -> exists d',
    st_fold (fun key _ => insert_window_ignore (pending_window base.(Run.ID) now key)) chunk tt d = Ok (tt, d') /\
    partly_filled d' base expected /\
    (forall k, k ∈ window_key <$> windows_of d' base.(Run.ID) <->
       k ∈ chunk \/ k ∈ window_key <$> windows_of d base.(Run.ID))).
  { clear d Hd. induction chunk as [|key chunk IH]; intros d Hd.
    - exists d. split; [done|]. split; [done|]. intros k. set_solver.
    - destruct (insert_window_ignore (pending_window (Run.ID base) now key) d) as [[[] d1]|e] eqn:H1.
      2:{ unfold insert_window_ignore, mbind, st_bind, db_count, st_gets, db_create in H1. by destruct (0 <? _). }
      destruct (insert_filling d base expected key now d1 tt) as [Hd1 Hk1]; [done|set_solver|done|].
      destruct (IH ltac:(set_solver) d1 Hd1) as (d'&H2&Hd'&Hk'). exists d'. split.
      { apply st_fold_cons. eauto. }
      split; [done|]. intros k. rewrite Hk', Hk1, elem_of_cons. tauto. }
  destruct (Hfold d Hd) as (d'&H&Hd'&Hk). exists d'. split; [|done].
  unfold materialize_chunk. apply st_bind_ok. eexists _, d. split; [exact (filling_expectation _ _ _ Hd)|].
  cbv beta iota. apply st_bind_ok. exists tt, d. split; [|exact H].
  apply st_require_ok. split; [by apply bool_decide_eq_true_2|done].
Qed.

Lemma chunks_filling base expected now chunks : forall d,
  partly_filled d base expected -> (forall k, k ∈ concat chunks -> k ∈ expected) ->
  exists d', materialize_chunks base expected chunks now d = (None, d') /\
    partly_filled d' base expected /\
    (forall k, k ∈ window_key <$> windows_of d' base.(Run.ID) <->
       k ∈ concat chunks \/ k ∈ window_key <$> windows_of d base.(Run.ID)).
Proof.
  induction chunks as [|chunk chunks IH]; intros d Hd Hin.
  - exists d. split; [done|]. split; [done|]. intros k. set_solver.
  - simpl in Hin. destruct (chunk_filling base expected chunk now d Hd) as (d1&H1&Hd1&Hk1).
    { intros k Hk. apply Hin, elem_of_app. by left. }
    destruct (IH d1 Hd1) as (d'&H2&Hd'&Hk').
    { intros k Hk. apply Hin, elem_of_app. by right. }
    exists d'. cbn [materialize_chunks]. rewrite H1. split; [done|]. split; [done|].
    intros k. simpl. rewrite Hk', Hk1, elem_of_app. tauto.
Qed.

(** ** The order of the expected windows *)
Definition strictly_ordered (keys : list CollectionTaskWindowKey) : Prop :=
  StronglySorted (by_key key_order) keys /\ NoDup keys.

Lemma insert_sorted_id_sorted id ids : StronglySorted Z.lt ids -> StronglySorted Z.lt (insert_sorted_id ids id).
Proof.
  assert (Hin : forall l x, x ∈ insert_sorted_id l id -> x = id \/ x ∈ l).
  { induction l as [|y l IH]; intros x; simpl; [set_solver|]. destruct (y <? id); [set_solver|].
    destruct (y =? id); set_solver. }
  induction ids as [|y ids IH]; intros Hs; [repeat constructor|]. simpl.
  apply StronglySorted_inv in Hs as [Hs Hy].
  destruct (Z.ltb_spec y id) as [Hlt|Hge].
  - constructor; [auto|]. rewrite Forall_forall in *. intros x [-> |Hx]%Hin; [done|auto].
  - destruct (Z.eqb_spec y id) as [->|Hne]; [by constructor|].
    constructor; [by constructor|]. constructor; [lia|]. eapply Forall_impl; [exact Hy|].
    intros x Hx. simpl in Hx. lia.
Qed.

Lemma appendUniqueSortedID_sorted ids id :
  StronglySorted Z.lt ids -> StronglySorted Z.lt (appendUniqueSortedID ids id).
Proof. unfold appendUniqueSortedID. destruct (id <=? 0); [done|apply insert_sorted_id_sorted]. Qed.

Lemma resolveTaskScope_sorted run d scope d' :
  resolveTaskScope run d = Ok (scope, d') -> StronglySorted Z.lt scope.(TaskScope.SiteIDs).
Proof.
  unfold resolveTaskScope. destruct (_ == "site").
  { destruct (Run.SiteID run); [|by intros ?%st_fail_ok]. past_guard Hg.
    intros [-> _]%st_ret_pair. repeat constructor. }
  destruct (_ == "account").
  { intros (a&d1&_&H)%st_bind_ok. apply st_ret_pair in H as [-> _]. repeat constructor. }
  destruct (_ == "customer"); [|by intros ?%st_fail_ok].
  intros (l&d1&_&H)%st_bind_ok. apply st_ret_pair in H as [-> _]. simpl.
  assert (Hgen : forall acc, StronglySorted Z.lt acc ->
    StronglySorted Z.lt (foldl (fun ids a => appendUniqueSortedID ids (MAccount.SiteID a)) acc l)).
  { induction l as [|a l IH]; intros acc Hacc; simpl; [done|]. by apply IH, appendUniqueSortedID_sorted. }
  apply Hgen. constructor.
Qed.

(** The keys of one site, hour by hour. *)
Lemma site_keys_ordered site hours :
  StronglySorted Z.lt hours -> strictly_ordered (WindowKey.mk site <$> hours).
Proof.
  intros Hs. split.
  - apply StronglySorted_fmap with (R1 := Z.lt); [|done]. intros h h' Hlt. unfold by_key, key_order. simpl.
    right. split; [done|]. left. split; [intros [= ->]; lia|lia].
  - apply NoDup_fmap_2; [by intros ? ? [=]|]. induction Hs as [|h l Hs IH Hh]; constructor; [|done].
    rewrite Forall_forall in Hh. intros Hin. specialize (Hh h Hin). lia.
Qed.

Lemma sites_keys_ordered sites hours :
  StronglySorted Z.lt sites -> StronglySorted Z.lt hours ->
  strictly_ordered (sites ≫= fun site => WindowKey.mk site <$> hours).
Proof.
  intros Hs Hh. induction Hs as [|s sites Hs IH Hlt]; [repeat constructor|].
  destruct (site_keys_ordered s hours Hh) as [A1 A2]. destruct IH as [B1 B2].
  rewrite Forall_forall in Hlt. rewrite bind_cons. 
  assert (Hb : forall k, k ∈ (sites ≫= fun site => WindowKey.mk site <$> hours) -> s < k.(WindowKey.SiteID)).
  { intros k (site&Hk&Hin)%list_elem_of_bind. apply list_elem_of_fmap in Hk as (h&->&_). by apply Hlt. }
  split.
  - apply StronglySorted_app. split; [|done]. intros k k' (h&->&_)%list_elem_of_fmap Hk'%Hb.
    unfold by_key, key_order. simpl. left. split; [intros [= E]; lia|lia].
  - apply NoDup_app. split; [done|]. split; [|done]. intros k (h&->&_)%list_elem_of_fmap Hk'%Hb.
    simpl in Hk'. lia.
Qed.

Lemma expected_keys_ordered run scope d keys d' :
  StronglySorted Z.lt scope.(TaskScope.SiteIDs) ->
  expectedTaskWindowKeys run scope d = Ok (keys, d') -> strictly_ordered keys.
Proof.
  intros Hs. unfold expectedTaskWindowKeys. past_guard Hg.
  destruct (Run.StartTimestamp run) as [s|], (Run.EndTimestamp run) as [e|]; try by intros ?%st_fail_ok.
  destruct (_ == "site").
  - intros (hours&d1&Hh&H)%st_bind_ok. apply st_ret_pair in H as [-> _].
    apply expected_hours_run in Hh as (_&site&s'&e'&only&excluded&_&_&_&_&->&_).
    apply site_keys_ordered, StronglySorted_filter, hours_from_sorted.
  - destruct (_ || _); [|by intros ?%st_fail_ok]. intros [-> _]%st_ret_pair.
    apply sites_keys_ordered; [done|apply hours_from_sorted].
Qed.

Lemma lock_expectation_ordered base d run keys d' :
  lockMaterializationExpectation base d = Ok ((run, keys), d') -> strictly_ordered keys.
Proof.
  unfold lockMaterializationExpectation. intros (scope&d1&Hs&H)%st_bind_ok.
  apply resolveTaskScope_sorted in Hs. apply st_bind_ok in H as ([]&d2&_&H).
  apply st_bind_ok in H as (r&d3&_&H). apply st_bind_ok in H as ([]&d4&_&H).
  apply st_bind_ok in H as ([]&d5&_&H). apply st_bind_ok in H as (ks&d6&Hk&H).
  apply st_ret_pair in H as [[= _ ->] _]. by eapply expected_keys_ordered.
Qed.

(** The windows of a filled run, read in the order of the last transaction. *)
Lemma filled_windows d base expected :
  partly_filled d base expected ->
  (forall k, k ∈ expected -> k ∈ window_key <$> windows_of d base.(Run.ID)) ->
  window_key <$> select (of_run base.(Run.ID)) by_site_hour d = expected.
Proof.
  intros [Hlock _ He Ho _ _] Hall. apply lock_expectation_ordered in Hlock as [Hs Hnd].
  set (W := select (of_run (Run.ID base)) by_site_hour d).
  assert (HW : W ≡ₚ windows_of d (Run.ID base)) by apply select_perm.
  apply (StronglySorted_unique_strong (by_key key_order)).
  - intros [s h] [s' h'] _ _ Hle Hge. assert (key_order (WindowKey.mk s h) = key_order (WindowKey.mk s' h')) as E.
    { by apply (anti_symm key_le). }
    unfold key_order in E. simpl in E. by injection E as -> ->.
  - apply StronglySorted_fmap with (R1 := by_key by_site_hour); [|apply select_sorted].
    intros w w'. unfold by_key, by_site_hour, key_order, window_key. simpl. tauto.
  - done.
  - apply NoDup_Permutation; [by rewrite HW|done|]. intros k. rewrite HW. split; [|auto].
    intros (w&->&Hw)%list_elem_of_fmap. auto.
Qed.

(** C27: a materialisation may stop after any number of batches: the windows
    inserted so far are then still expected, pending and without duplicates, and
    running the remaining or all batches again, in any size, inserts exactly the
    windows that are missing, so that the run ends with each expected window
    once, in order. *)
Theorem materialization_resumes base expected now size d :
  partly_filled d base expected -> (0 < size)%nat ->
  let chunks := chunks_of (length expected) size expected in
  (forall n, exists dn, materialize_chunks base expected (take n chunks) now d = (None, dn) /\
     partly_filled dn base expected) /\
  exists d', materialize_chunks base expected chunks now d = (None, d') /\
    partly_filled d' base expected /\
    window_key <$> select (of_run base.(Run.ID)) by_site_hour d' = expected.
Proof.
  intros Hd Hsize chunks. assert (Hc : concat chunks = expected) by (by apply chunks_of_concat). split.
  - intros n. destruct (chunks_filling base expected now (take n chunks) d Hd) as (dn&H&Hdn&_); [|eauto].
    intros k Hk. rewrite <- Hc. rewrite <- (take_drop n chunks) at 1.
    rewrite concat_app. apply elem_of_app. by left.
  - destruct (chunks_filling base expected now chunks d Hd) as (d'&H&Hd'&Hk); [by rewrite Hc|].
    exists d'. split; [done|]. split; [done|]. apply filled_windows; [done|].
    intros k Hin. apply Hk. left. by rewrite Hc.
Qed.

Lemma open_materialized_effect base expected now d run d' :
  partly_filled d base expected -> open_materialized base expected now d = Ok (run, d') ->
  exists row, Tables.collection_run d' !! base.(Run.ID) = Some row /\
    row.(Run.WindowsInitializedAt) = Some now /\ row.(Run.TotalWindows) = Z.of_nat (length expected) /\
    Tables.collection_run_window d' = Tables.collection_run_window d.
Proof.
  intros Hd H. pose proof (filling_expectation _ _ _ Hd) as Hlock.
  destruct (lockMaterializationExpectation_ok _ _ _ _ _ Hlock) as (_&Hrow&Hp&Hi).
  unfold open_materialized in H. apply st_bind_ok in H as ([r keys]&d1&Hl&H).
  rewrite Hlock in Hl. injection Hl as <- <- <-. cbv beta iota in H.
  apply st_bind_ok in H as ([]&d1&Hr&H). apply st_require_ok in Hr as (_&[= ->]).
  apply st_bind_ok in H as (W&d1&Hsel&H). apply db_select_ok in Hsel as [-> ->].
  apply st_bind_ok in H as ([]&d1&Hr&H). apply st_require_ok in Hr as (_&[= ->]). cbv zeta in H.
  apply st_bind_ok in H as (n&d1&Hupd&H). apply db_update_ok in Hupd as [-> ->].
  apply st_bind_ok in H as ([]&d2&Hr&H). apply st_require_ok in Hr as (_&E). injection E as ->.
  apply st_bind_ok in H as (r1&d2&Hrec&H). apply st_bind_ok in H as ([]&d3&Hfin&H).
  apply st_bind_ok in H as ([]&d4&Hst&H). apply st_ret_pair in H as [_ ->].
  pose proof (recalculateTaskBackfillStatuses_frame _ _ _ _ _ Hst) as F1.
  pose proof (finalizeLocalRebuildLifecycle_frame _ _ _ _ _ Hfin) as F2.
  unfold run_state in F1, F2. injection F1 as F1r F1w _ _. injection F2 as F2r F2w _ _.
  rewrite F1r, F2r, F1w, F2w.
  apply recalculate_ok in Hrec as (t&st&te&fa&_&_&_&_&->&_).
  2:{ intros [E|E]; simpl in E; congruence. }
  simpl. rewrite !(lookup_update_where (R := CollectionRun)).
  rewrite Hrow. simpl. eexists. split; [reflexivity|].
  assert (Hrun : upd (fun r => run_has_id (Run.ID base) r && (r.(Run.Status) == "pending") && is_nil r.(Run.WindowsInitializedAt))
    (fun r => r <| Run.TotalWindows := Z.of_nat (length expected) |> <| Run.WindowsInitializedAt := Some now |>
                <| Run.UpdatedAt := now |>) base
    = base <| Run.TotalWindows := Z.of_nat (length expected) |> <| Run.WindowsInitializedAt := Some now |>
           <| Run.UpdatedAt := now |>).
  { unfold upd, run_has_id. by rewrite Z.eqb_refl, Hp, Hi. }
  rewrite Hrun. set (base' := base <| Run.TotalWindows := _ |> <| Run.WindowsInitializedAt := _ |> <| Run.UpdatedAt := _ |>).
  destruct (recalculated_fields st te fa t now base') as (_&_&_&Ft&Fi&_).
  unfold upd. destruct (run_has_id _ _); [|done].
  rewrite Ft, Fi. done.
Qed.

(** [MaterializeRunWindows] on a run that is empty or partly filled: when
    it returns, the run is initialised, counts exactly the expected windows and
    has each of them once; when it fails after the batches, only the opening of
    the run failed, and the run can be opened by trying again. *)
Theorem MaterializeRunWindows_complete base expected now size d :
  partly_filled d base expected -> 0 < base.(Run.ID) -> 0 < now ->
  match MaterializeRunWindows base.(Run.ID) now size d with
  | (Ok _, d') => exists row, Tables.collection_run d' !! base.(Run.ID) = Some row /\
      row.(Run.WindowsInitializedAt) = Some now /\
      row.(Run.TotalWindows) = Z.of_nat (length expected) /\
      window_key <$> select (of_run base.(Run.ID)) by_site_hour d' = expected
  | (Err _, d') => partly_filled d' base expected /\
      window_key <$> select (of_run base.(Run.ID)) by_site_hour d' = expected
  end.
Proof.
  intros Hd Hid Hnow. unfold MaterializeRunWindows.
  rewrite (proj2 (Z.leb_gt _ _) Hid), (proj2 (Z.leb_gt _ _) Hnow). cbn [orb].
  pose proof (filling_expectation _ _ _ Hd) as Hlock.
  apply lockMaterializationExpectation_ok in Hlock as Hrow. destruct Hrow as (_&Hrow&_).
  assert (Hload : loadMaterializationExpectation (Run.ID base) d = Ok ((expected, base), d)).
  { unfold loadMaterializationExpectation. apply st_bind_ok. exists base, d.
    split; [by apply db_first_ok|]. apply st_bind_ok. eexists _, d. split; [exact Hlock|done]. }
  rewrite Hload. set (n := Z.to_nat (normalize_batch_size size)).
  assert (Hn : (0 < n)%nat).
  { unfold n, normalize_batch_size. destruct ((size <=? 0) || _) eqn:E; [lia|]. to_prop. lia. }
  assert (Hc : concat (chunks_of (length expected) n expected) = expected) by (by apply chunks_of_concat).
  destruct (chunks_filling base expected now (chunks_of (length expected) n expected) d Hd)
    as (d2&H2&Hd2&Hk); [by rewrite Hc|].
  rewrite H2. assert (Hwin : window_key <$> select (of_run (Run.ID base)) by_site_hour d2 = expected).
  { apply filled_windows; [done|]. intros k Hin. apply Hk. left. by rewrite Hc. }
  destruct (open_materialized base expected now d2) as [[run d3]|e] eqn:Hopen; [|done].
  destruct (open_materialized_effect base expected now d2 run d3 Hd2 Hopen) as (row&Hr&Hi&Ht&Hw).
  exists row. split; [done|]. split; [done|]. split; [done|].
  unfold select, table_rows in *. simpl in *. by rewrite Hw.
Qed.

(** ** A concrete run *)
Lemma enqueued_filling : partly_filled History.enqueued History.base History.keys.
Proof.
  split.
  - vm_compute. reflexivity.
  - intros w Hw. apply elem_of_windows_of in Hw as (_&k&Hk). vm_compute in Hk. discriminate Hk.
  - intros w Hw. apply elem_of_windows_of in Hw as (_&k&Hk). vm_compute in Hk. discriminate Hk.
  - assert (windows_of History.enqueued (Run.ID History.base) = []) as -> by (vm_compute; reflexivity).
    constructor.
  - intros k w Hk. vm_compute in Hk. discriminate Hk.
  - intros k w Hk. vm_compute in Hk. discriminate Hk.
Qed.

Lemma materialization_resumes_witness : exists d',
  materialize_chunks History.base History.keys (chunks_of 2 1 History.keys) 20000 History.enqueued = (None, d') /\
  window_key <$> select (of_run 100) by_site_hour d' = History.keys.
Proof.
  destruct (proj2 (materialization_resumes History.base History.keys 20000 1 History.enqueued enqueued_filling
    ltac:(lia))) as (d'&H&_&Hk).
  exists d'. split; [exact H|]. exact Hk.
Defined.

Lemma MaterializeRunWindows_complete_witness : exists run' d' row,
  MaterializeRunWindows 100 20000 1 History.enqueued = (Ok run', d') /\
  Tables.collection_run d' !! 100 = Some row /\ row.(Run.TotalWindows) = 2.
Proof.
  pose proof (MaterializeRunWindows_complete History.base History.keys 20000 1 History.enqueued
    enqueued_filling ltac:(vm_compute; reflexivity) ltac:(lia)) as H.
  change (Run.ID History.base) with 100 in H.
  destruct (MaterializeRunWindows 100 20000 1 History.enqueued) as [[run'|e] d'] eqn:E.
  - destruct H as (row&Hr&_&Ht&_). exists run', d', row. split; [reflexivity|]. split; [exact Hr|exact Ht].
  - assert (Hok : is_ok (fst (MaterializeRunWindows 100 20000 1 History.enqueued)) = true) by (vm_compute; reflexivity).
    rewrite E in Hok. discriminate Hok.
Defined.
