(* ===== verification/FenceBehaviour.v ===== *)
(** * What a configuration fence does

    [BumpSiteFence] moves the site to its next version and closes every active
    run that depends on it; afterwards no such run is left. *)

From S2P Require Import Prelude Constants GoText Store Frame RunContract RunState RunRepository SiteFence TaskScope RunFrames TaskClaim TaskCommit RunInvariant QueueClaim TaskRecovery Materialize QueueSteps QueueRecovery QueueCreate QueueMaterialize QueueSafety.

(** ** One failed run *)
Definition fence_failure (siteID version : Z) (r : CollectionRun) : CollectionRunFailure :=
  RunFailure.mk CodeSiteConfigChanged (fence_params siteID r.(Run.SiteConfigVersion) version).

(** The run is closed with the failure and its open windows fail with it. *)
Record fenced (failure : CollectionRunFailure) (now : Z) (d d' : Db) (r : CollectionRun) : Prop := {
  fenced_row : exists r', Tables.collection_run d' !! r.(Run.ID) = Some r' /\
    run_identity r' = run_identity r /\ r'.(Run.Status) = "failed" /\ r'.(Run.ActiveKey) = None /\
    r'.(Run.FinishedAt) = Some now /\ r'.(Run.ErrorCode) = failure.(RunFailure.Code) /\
    r'.(Run.ErrorParams) = failure.(RunFailure.Params);
  fenced_windows : windows_of d' r.(Run.ID) ≡ₚ
    (fun w => if open_status w.(RunWindow.Status) then fail_window failure now w else w)
      <$> windows_of d r.(Run.ID)
}.

Lemma fail_locked_effect d row Wm failure now run' d' :
  table_wf (Tables.collection_run d) -> Tables.collection_run d !! row.(Run.ID) = Some row ->
  FailLockedCollectionRun row Wm failure now d = Ok (run', d') -> fenced failure now d d' row.
Proof.
  intros Hwf Hrow. unfold FailLockedCollectionRun. past_guard Hg. intros H.
  apply st_bind_ok in H as (n&d1&Hupd&H). apply db_update_ok in Hupd as [_ ->].
  apply forced_recalculate_ok in H as (t&_&_&->&_). split.
  - rewrite set_table_runs_lookup.
    change (Tables.collection_run _) with (Tables.collection_run d). rewrite Hrow. simpl.
    rewrite (upd_own d (Run.ID row) row) by done. eexists. split; [reflexivity|].
    split; [apply recalculated_identity|]. unfold recalculated. simpl. done.
  - change (windows_of (set_table (update_where (run_has_id (Run.ID row)) _ _) ?x) (Run.ID row))
      with (windows_of x (Run.ID row)).
    rewrite windows_of_update by done. apply Permutation_refl', list_fmap_ext.
    intros j w Hw%list_elem_of_lookup_2. apply elem_of_windows_of in Hw as [Hof _].
    unfold upd. by rewrite Hof.
Qed.

(** What a later state still says about a run another transaction closed. *)
Lemma fenced_later failure now d d1 d2 r :
  Tables.collection_run d2 !! r.(Run.ID) = Tables.collection_run d1 !! r.(Run.ID) ->
  windows_of d2 r.(Run.ID) ≡ₚ windows_of d1 r.(Run.ID) ->
  fenced failure now d d1 r -> fenced failure now d d2 r.
Proof. intros Hr Hw [A B]. split; [by rewrite Hr|by rewrite Hw]. Qed.

Lemma fenced_earlier failure now d d1 d2 r :
  windows_of d1 r.(Run.ID) ≡ₚ windows_of d r.(Run.ID) ->
  fenced failure now d1 d2 r -> fenced failure now d d2 r.
Proof. intros Hw [A B]. split; [done|]. by rewrite B, Hw. Qed.

(** ** The loop over the runs *)
Lemma fail_fenced_runs_effect siteID version now W (runs : list CollectionRun) : forall (d : Db) u d',
  queue_inv d -> NoDup (Run.ID <$> runs) ->
  (forall r, r ∈ runs -> Tables.collection_run d !! r.(Run.ID) = Some r /\ ~ terminal r /\
     List.filter (of_run r.(Run.ID)) W ≡ₚ windows_of d r.(Run.ID)) ->
  fail_fenced_runs siteID version now W runs d = Ok (u, d') ->
  (forall r, r ∈ runs -> fenced (fence_failure siteID version r) now d d' r) /\
  (forall k, k ∉ Run.ID <$> runs ->
     Tables.collection_run d' !! k = Tables.collection_run d !! k /\ windows_of d' k ≡ₚ windows_of d k).
Proof.
  unfold fail_fenced_runs. induction runs as [|r runs IH]; intros d u d' Hinv Hnd Hall H.
  - apply st_fold_nil in H as [= _ ->]. split; [set_solver|done].
  - apply st_fold_cons in H as ([]&d1&H1&H). apply st_bind_ok in H1 as (r1&d2&Hfail&H1).
    apply st_ret_pair in H1 as [_ ->]. rewrite fmap_cons, NoDup_cons in Hnd. destruct Hnd as [Hr Hnd].
    destruct (Hall r ltac:(set_solver)) as (Hrow&Hnt&HW).
    pose proof (fail_locked_effect _ _ _ _ _ _ _ (queue_runs_wf d Hinv) Hrow Hfail) as Hf.
    apply (fail_locked_inv d (Run.ID r) r) in Hfail as (Ht&row'&Hrow'&Hri&Hst&_); [|done..].
    assert (Hother : forall x, x ∈ runs -> Run.ID x <> Run.ID r).
    { intros x Hx E. apply Hr. rewrite <- E. by apply list_elem_of_fmap_2. }
    apply IH in H as [Hin Hout]; [|apply (queue_inv_touch (Run.ID r) d); [done|done|]|done|].
    + split.
      * intros x [-> |Hx]%elem_of_cons.
        -- apply (fenced_later _ _ _ d2); [by apply Hout|by apply Hout|done].
        -- eapply fenced_earlier; [|by apply Hin]. by apply (touch_other_windows _ _ _ Ht), Hother.
      * intros k Hk. rewrite fmap_cons, not_elem_of_cons in Hk. destruct Hk as [Hne Hk].
        destruct (Hout k Hk) as [-> ->]. split; [by apply (touch_other_runs _ _ _ Ht)|].
        by apply (touch_other_windows _ _ _ Ht).
    + intros x Hx. rewrite Hrow' in Hx. injection Hx as <-. split; [done|]. congruence.
    + intros x Hx. destruct (Hall x ltac:(set_solver)) as (Hxr&Hxt&HxW). specialize (Hother x Hx).
      rewrite (touch_other_runs _ _ _ Ht) by done. rewrite (touch_other_windows _ _ _ Ht) by done. done.
Qed.

(** ** Which runs a fence is about *)
Lemma buildSiteFencePlan_runs siteID d plan d' :
  buildSiteFencePlan siteID d = Ok (plan, d') ->
  plan.(FencePlan.Runs) = select (fence_candidate siteID d) by_id d.
Proof.
  unfold buildSiteFencePlan. past_guard Hg. intros H.
  apply st_bind_ok in H as (runs&d1&Hr&H). apply st_gets_ok in Hr as [= -> ->].
  destruct (bool_decide (select _ _ _ = [])) eqn:E; to_prop; [by apply st_ret_pair in H as [-> ->]|].
  apply st_bind_ok in H as ([[a c] ids]&d2&Hl&H). apply st_lift_ok in Hl as (?&_&[= <- ->]).
  destruct (_ && _); [by apply st_ret_pair in H as [-> ->]|].
  apply st_bind_ok in H as (accounts&d2&Hs&H). apply db_select_ok in Hs as [_ ->].
  apply st_bind_ok in H as (ids2&d2&Hl&H). apply st_lift_ok in Hl as (?&_&[= _ ->]).
  apply st_bind_ok in H as ([]&d2&Hq&H). apply st_require_ok in Hq as (_&[= ->]).
  by apply st_ret_pair in H as [-> ->].
Qed.

Lemma elem_of_fence_runs siteID plan d d1 r : queue_inv d ->
  buildSiteFencePlan siteID d = Ok (plan, d1) ->
  r ∈ fence_runs plan d <->
  Tables.collection_run d !! r.(Run.ID) = Some r /\ fence_candidate siteID d r = true.
Proof.
  intros Hinv Hp%buildSiteFencePlan_runs. pose proof (queue_runs_wf d Hinv) as Hwf.
  unfold fence_runs, runIDs. rewrite elem_of_select, Hp, andb_true_iff, one_of_ids_spec. split.
  - intros ((Hin&_)&k&Hk). apply Hwf in Hk as Hid. simpl in Hid. subst k. split; [done|].
    apply list_elem_of_fmap in Hin as (x&Ex&(Hx&j&Hj)%elem_of_select).
    apply Hwf in Hj as Hid. simpl in Hj, Hid, Hk. subst j. rewrite Ex in Hk. congruence.
  - intros [Hr Hc]. split; [|by exists (Run.ID r)]. split.
    + apply list_elem_of_fmap_2, elem_of_select. split; [done|]. by exists (Run.ID r).
    + unfold fence_candidate in Hc. by apply andb_true_iff in Hc as [? _].
Qed.

(** ** What the candidates depend on *)
Definition account_refs (d : Db) : gmap Z siteFenceAccountRef := account_ref <$> Tables.account d.

Lemma account_refs_update p now status d :
  account_refs (set_table (update_where p (set_account_status status now) (table d)) d) = account_refs d.
Proof.
  unfold account_refs, update_where. simpl. apply map_eq. intros k. rewrite !lookup_fmap.
  destruct (Tables.account d !! k) as [a|]; [|done]. simpl. unfold upd. by destruct (p a).
Qed.

#[export] Instance update_accounts_refs p status now :
  Preserves account_refs (db_update p (set_account_status status now)).
Proof. intros d n d' [_ ->]%db_update_ok. apply account_refs_update. Qed.

#[export] Instance update_customers_refs p status now :
  Preserves account_refs (db_update p (set_customer_status status now)).
Proof. apply preserves_update. reflexivity. Qed.

Lemma recalculateSiteFenceBackfillStatuses_refs plan now :
  Preserves account_refs (recalculateSiteFenceBackfillStatuses plan now).
Proof. unfold recalculateSiteFenceBackfillStatuses, batchUpdateSiteFenceStatuses. solve_frame. Qed.

#[export] Instance recalculateSiteFenceBackfillStatuses_sites plan now :
  Preserves Tables.site (recalculateSiteFenceBackfillStatuses plan now).
Proof.
  unfold recalculateSiteFenceBackfillStatuses, batchUpdateSiteFenceStatuses. solve_frame;
    apply preserves_update; reflexivity.
Qed.

Lemma existsb_accounts (q : siteFenceAccountRef -> bool) d :
  existsb (fun a => q (account_ref a)) (table_rows (R := Account) d) = true <->
  exists k x, account_refs d !! k = Some x /\ q x = true.
Proof.
  rewrite existsb_exists. split.
  - intros (a&Ha&Hq). apply list_elem_of_In, elem_of_rows in Ha as (k&Hk).
    exists k, (account_ref a). split; [|done]. unfold account_refs. rewrite lookup_fmap.
    change (Tables.account d) with (table (R := Account) d). by rewrite Hk.
  - intros (k&x&Hk&Hq). unfold account_refs in Hk. rewrite lookup_fmap in Hk.
    apply fmap_Some_1 in Hk as (a&Ha&->). exists a. split; [|done].
    apply list_elem_of_In, elem_of_rows. by exists k.
Qed.

Lemma existsb_windows (k : Z) (q : CollectionRunWindow -> bool) d :
  existsb (fun w => of_run k w && q w) (table_rows d) = existsb q (windows_of d k).
Proof.
  unfold windows_of. induction (table_rows d) as [|w l IH]; [done|].
  rewrite filter_cons. simpl. rewrite IH. case_decide as E; [by rewrite E|].
  by destruct (of_run k w).
Qed.

Lemma existsb_perm {A} (q : A -> bool) l1 l2 : l1 ≡ₚ l2 -> existsb q l1 = existsb q l2.
Proof.
  intros HP. apply eq_iff_eq_true. rewrite !existsb_exists.
  split; intros (x&Hx&Hq); exists x; (split; [|done]); apply list_elem_of_In; apply list_elem_of_In in Hx;
    [by rewrite <- HP|by rewrite HP].
Qed.

(** Whether a run is a candidate depends on the run, its windows and the
    account references. *)
Lemma fence_candidate_same siteID d d' r :
  windows_of d' r.(Run.ID) ≡ₚ windows_of d r.(Run.ID) -> account_refs d' = account_refs d ->
  fence_candidate siteID d' r = fence_candidate siteID d r.
Proof.
  intros Hw Ha. unfold fence_candidate. rewrite !existsb_windows, (existsb_perm _ _ _ Hw).
  assert (Hq : forall q, existsb (fun a => q (account_ref a)) (table_rows (R := Account) d')
                       = existsb (fun a => q (account_ref a)) (table_rows (R := Account) d)).
  { intros q. apply eq_iff_eq_true. by rewrite !existsb_accounts, Ha. }
  pose proof (Hq (fun x => (x.(AccountRef.ID) =? r.(Run.TargetID)) && (x.(AccountRef.SiteID) =? siteID))) as E1.
  pose proof (Hq (fun x => (x.(AccountRef.CustomerID) =? r.(Run.TargetID)) && (x.(AccountRef.SiteID) =? siteID))) as E2.
  simpl in E1, E2. by rewrite E1, E2.
Qed.

(** A step of the fence that leaves the queue alone. *)
Lemma queue_same d d' : run_state d' = run_state d ->
  (forall k, Tables.collection_run d' !! k = Tables.collection_run d !! k) /\
  (forall k, windows_of d' k = windows_of d k).
Proof.
  unfold run_state. intros [= Hr Hw _ _]. split; [by rewrite Hr|].
  intros k. unfold windows_of, table_rows. simpl. by rewrite Hw.
Qed.

Lemma fail_fenced_runs_refs siteID version now W runs :
  Preserves account_refs (fail_fenced_runs siteID version now W runs).
Proof.
  unfold fail_fenced_runs, FailLockedCollectionRun, RecalculateLockedCollectionRun. solve_frame;
    apply preserves_update; reflexivity.
Qed.

Lemma fail_fenced_runs_sites siteID version now W runs :
  Preserves Tables.site (fail_fenced_runs siteID version now W runs).
Proof.
  unfold fail_fenced_runs, FailLockedCollectionRun, RecalculateLockedCollectionRun. solve_frame;
    apply preserves_update; reflexivity.
Qed.

(** What the fence leaves of the queue, of the accounts and of the sites. *)
Lemma BumpSiteFence_effect site now d s d' :
  queue_inv d -> BumpSiteFence site now d = Ok (s, d') ->
  let id := site.(MSite.ID) in let version := site.(MSite.ConfigVersion) + 1 in
  account_refs d' = account_refs d /\
  (forall k, Tables.site d' !! k = (upd (fun x => x.(MSite.ID) =? id)
      (fun x => x <| MSite.ConfigVersion := version |> <| MSite.UpdatedAt := now |>)) <$> Tables.site d !! k) /\
  (forall r, Tables.collection_run d !! r.(Run.ID) = Some r -> fence_candidate id d r = true ->
     fenced (fence_failure id version r) now d d' r) /\
  (forall k, (forall r, Tables.collection_run d !! k = Some r -> fence_candidate id d r = false) ->
     Tables.collection_run d' !! k = Tables.collection_run d !! k /\ windows_of d' k ≡ₚ windows_of d k).
Proof.
  intros Hinv H id version. apply BumpSiteFence_ok in H as (plan&row&d1&d2&_&_&_&Hp&Hfail&Hst&->&_).
  pose proof (fail_fenced_runs_refs _ _ _ _ _ _ _ _ Hfail) as R1.
  pose proof (fail_fenced_runs_sites _ _ _ _ _ _ _ _ Hfail) as S1.
  pose proof (recalculateSiteFenceBackfillStatuses_refs _ _ _ _ _ Hst) as R2.
  pose proof (recalculateSiteFenceBackfillStatuses_sites _ _ _ _ _ Hst) as S2.
  destruct (queue_same _ _ (recalculateSiteFenceBackfillStatuses_frame _ _ _ _ _ Hst)) as [Q1 Q2].
  apply fail_fenced_runs_effect in Hfail as [Hin Hout];
    [|done|apply (fence_runs_listed d (runIDs plan) Hinv)|by apply fence_runs_ready].
  split; [by change (account_refs d2 = account_refs d); rewrite R2|]. split.
  { intros k. simpl. rewrite lookup_update_where, S2, S1. done. }
  split.
  - intros r Hr Hc. assert (r ∈ fence_runs plan d) as Hm by (by apply (elem_of_fence_runs id plan d d)).
    apply (fenced_later _ _ _ d1); [exact (Q1 _)|by rewrite <- Q2|by apply Hin].
  - intros k Hc. assert (k ∉ Run.ID <$> fence_runs plan d) as Hm.
    { intros (x&->&Hx)%list_elem_of_fmap. apply (elem_of_fence_runs id plan d d) in Hx as [Hx Hxc]; [|done..].
      rewrite (Hc x Hx) in Hxc. done. }
    destruct (Hout k Hm) as [A B]. split.
    + etransitivity; [exact (Q1 k)|]. by rewrite A.
    + change (windows_of d2 k ≡ₚ windows_of d k). by rewrite Q2, B.
Qed.

(** C32: a fence that returns found the site at the version its caller read and
    left it at the next one; it closed every active run that depends on the
    site as failed by the configuration change, with the run's open windows,
    left every other run and its windows alone, and after it no active run
    depends on the site. *)
Theorem BumpSiteFence_closes_dependents site now d s d' :
  queue_inv d -> table_wf (Tables.site d) -> BumpSiteFence site now d = Ok (s, d') ->
  let id := site.(MSite.ID) in let version := site.(MSite.ConfigVersion) + 1 in
  (exists row, Tables.site d !! id = Some row /\
     row.(MSite.ConfigVersion) = site.(MSite.ConfigVersion) /\
     Tables.site d' = <[id := row <| MSite.ConfigVersion := version |> <| MSite.UpdatedAt := now |>]> (Tables.site d)) /\
  (forall k r, Tables.collection_run d !! k = Some r ->
     if fence_candidate id d r then fenced (fence_failure id version r) now d d' r
     else Tables.collection_run d' !! k = Some r /\ windows_of d' k ≡ₚ windows_of d k) /\
  (forall k r, Tables.collection_run d' !! k = Some r -> fence_candidate id d' r = false).
Proof.
  intros Hinv Hwf H id version.
  assert (exists row, Tables.site d !! id = Some row /\ row.(MSite.ConfigVersion) = site.(MSite.ConfigVersion))
    as (row&Hrow&Hv).
  { apply BumpSiteFence_ok in H as (_&row&_&_&_&?&?&_). eauto. }
  destruct (BumpSiteFence_keeps _ _ _ _ _ Hinv H) as [Hwf' _ _ _ _ _ _ _].
  pose proof (queue_runs_wf d Hinv) as Hrwf.
  apply BumpSiteFence_effect in H as (Ha&Hs&Hin&Hout); [|done].
  assert (Hcase : forall k r, Tables.collection_run d !! k = Some r ->
     if fence_candidate id d r then fenced (fence_failure id version r) now d d' r
     else Tables.collection_run d' !! k = Some r /\ windows_of d' k ≡ₚ windows_of d k).
  { intros k r Hr. destruct (fence_candidate id d r) eqn:Hc.
    - apply Hin; [|done]. apply Hrwf in Hr as Hk. simpl in Hk. by subst k.
    - destruct (Hout k) as [-> HW]; [|done]. intros x Hx. rewrite Hr in Hx. injection Hx as <-. exact Hc. }
  split; [|split; [exact Hcase|]].
  - exists row. split; [done|]. split; [done|]. apply map_eq. intros k. rewrite Hs.
    change (MSite.ID site) with id. destruct (decide (k = id)) as [-> |Hk].
    + rewrite Hrow, lookup_insert_eq. simpl. unfold upd. apply Hwf in Hrow. simpl in Hrow.
      by rewrite Hrow, Z.eqb_refl.
    + rewrite lookup_insert_ne by done. destruct (Tables.site d !! k) as [x|] eqn:Hx; [|done].
      simpl. unfold upd. apply Hwf in Hx. simpl in Hx. rewrite Hx.
      by rewrite (proj2 (Z.eqb_neq k id)).
  - intros k r' Hr'. destruct (Tables.collection_run d !! k) as [r|] eqn:Hr.
    2: { destruct (Hout k) as [E _]; [intros x Hx; congruence|]. congruence. }
    apply Hrwf in Hr as Hk. simpl in Hk. specialize (Hcase k r Hr).
    destruct (fence_candidate id d r) eqn:Hc.
    + destruct Hcase as [(x&Hx&_&Hst&_) _]. rewrite Hk, Hr' in Hx. injection Hx as ->.
      unfold fence_candidate, active_status. by rewrite Hst.
    + destruct Hcase as [Hr2 HW]. rewrite Hr' in Hr2. injection Hr2 as ->.
      rewrite (fence_candidate_same id d d' r); [done|by rewrite Hk|done].
Qed.

(** The fence on the site of a claimed run. *)
Lemma BumpSiteFence_closes_dependents_witness :
  let d := History.claimed in let d' := History.after (BumpSiteFence Sample.site7 30000) d in
  fence_candidate 7 d (History.the_run d) = true /\
  (History.the_run d').(Run.ErrorCode) = "SITE_CONFIG_CHANGED" /\
  fence_candidate 7 d' (History.the_run d') = false.
Proof.
  split; [vm_compute; reflexivity|]. split; [vm_compute; reflexivity|].
  destruct (History.after_ok (BumpSiteFence Sample.site7 30000) History.claimed) as [s Hs]; [vm_compute; reflexivity|].
  assert (Hw : table_wf (Tables.site History.claimed)).
  { intros k x Hx. change (Tables.site History.claimed) with ({[7 := Sample.site7]} : gmap Z Site) in Hx.
    apply lookup_singleton_Some in Hx as [<- <-]. reflexivity. }
  refine (proj2 (proj2 (BumpSiteFence_closes_dependents _ _ _ _ _
    (reachable_inv _ History.claimed_reachable) Hw Hs)) 100 _ _).
  apply History.the_run_found. eexists. vm_compute. reflexivity.
Defined.
