(* ===== verification/CreateBehaviour.v ===== *)
(** * What creating runs does

    One run per active key, and the runs by which a request covers the part of
    its range that is not collected yet. *)

From S2P Require Import Prelude Constants GoText Store Frame RunContract RunState RunRepository SiteFence TaskScope RunFrames TaskClaim TaskCommit RunInvariant QueueClaim TaskRecovery Materialize QueueSteps QueueRecovery QueueCreate QueueMaterialize QueueSafety.

(** ** CreateOrGetRun *)
Lemma valid_active_key run : ValidateCollectionRunForCreate run = true ->
  exists k, run.(Run.ActiveKey) = Some k /\
    CollectionRunActiveKey run.(Run.TaskType) run.(Run.TargetType) run.(Run.TargetID)
      run.(Run.StartTimestamp) run.(Run.EndTimestamp) = Ok k /\ run.(Run.Status) = "pending".
Proof.
  unfold ValidateCollectionRunForCreate. intros H. apply andb_true_iff in H as [H Hkey].
  destruct (Run.ActiveKey run) as [k|]; [|done].
  destruct (CollectionRunActiveKey _ _ _ _ _) as [k'|]; [|done]. to_prop.
  exists k. split; [done|]. split; [congruence|]. tauto.
Qed.

Lemma CreateOrGetRun_cases run d r existed d' :
  CreateOrGetRun run d = Ok ((r, existed), d') ->
  ValidateCollectionRunForCreate run = true /\ exists k, run.(Run.ActiveKey) = Some k /\
  ((existed = false /\ db_create run d = Ok (r, d') /\
    forall j x, Tables.collection_run d !! j = Some x -> has_active_key k x = false) \/
   (existed = true /\ d' = d /\ (exists l, select (has_active_key k) by_id d = r :: l) /\
    sameActiveCollectionRun r run = true)).
Proof.
  unfold CreateOrGetRun. past_guard Hv. apply negb_false_iff in Hv. intros H. split; [done|].
  destruct (valid_active_key run Hv) as (k&Hk&_). exists k. split; [done|].
  apply st_bind_ok in H as (ins&d1&Hins&H). unfold insert_run_ignore in Hins.
  apply st_bind_ok in Hins as (taken&d2&Ht&Hins). apply st_gets_ok in Ht as [= -> ->].
  rewrite Hk in *. destruct (existsb (has_active_key k) (table_rows d)) eqn:Hex.
  - right. apply st_ret_pair in Hins as [-> ->].
    apply st_bind_ok in H as (ex&d1&Hf&H). apply db_first_where_ok in Hf as [-> Hl].
    apply st_bind_ok in H as ([]&d1&Hr&H). apply st_require_ok in Hr as (Hsame&[= ->]).
    apply st_ret_pair in H as [[= -> ->] ->]. done.
  - left. apply st_bind_ok in Hins as (created&d2&Hc&Hins). apply st_ret_pair in Hins as [-> ->].
    apply st_ret_pair in H as [[= -> ->] ->]. split; [done|]. split; [done|].
    intros j x Hx. destruct (has_active_key k x) eqn:Hhas; [|done].
    rewrite <- Hex. symmetry. apply existsb_exists. exists x. split; [|done].
    apply list_elem_of_In, elem_of_rows. by exists j.
Qed.

(** The stored run answers the same request again. *)
Lemma created_same i run : ValidateCollectionRunForCreate run = true ->
  sameActiveCollectionRun (set_row_id i run) run = true.
Proof.
  intros (k&Hk&Hkey&Hst)%valid_active_key. unfold sameActiveCollectionRun, active_status. simpl.
  rewrite Hk, Hkey, Hst. to_prop. rewrite !equalInt64Pointers_spec. to_prop. repeat split; done.
Qed.

Lemma select_only {R} `{!Table R} p key d r :
  (exists k, table d !! k = Some r) -> p r = true ->
  (forall k x, table d !! k = Some x -> p x = true -> x = r) -> table_wf (table d) ->
  select p key d = [r].
Proof.
  intros Hr Hp Hu Hwf. assert (Hnd := select_NoDup p key d Hwf).
  assert (Hall : forall x, x ∈ select p key d -> x = r).
  { intros x (Hx&k&Hk)%elem_of_select. eauto. }
  assert (r ∈ select p key d) as Hin by (by apply elem_of_select).
  destruct (select p key d) as [|x [|y l]]; [set_solver| |].
  - f_equal. apply Hall. set_solver.
  - exfalso. assert (x = r) as -> by (apply Hall; set_solver). assert (y = r) as -> by (apply Hall; set_solver).
    rewrite !fmap_cons, NoDup_cons in Hnd. destruct Hnd as [Hn _]. set_solver.
Qed.

Lemma CreateOrGetRun_found run k r l d :
  ValidateCollectionRunForCreate run = true -> run.(Run.ActiveKey) = Some k ->
  select (has_active_key k) by_id d = r :: l -> sameActiveCollectionRun r run = true ->
  CreateOrGetRun run d = Ok ((r, true), d).
Proof.
  intros Hv Hk Hl Hsame. unfold CreateOrGetRun, insert_run_ignore. rewrite Hv, Hk. simpl.
  assert (existsb (has_active_key k) (table_rows d) = true) as Hex.
  { assert (r ∈ select (has_active_key k) by_id d) as (Hp&j&Hj)%elem_of_select by (rewrite Hl; set_solver).
    apply existsb_exists. exists r. split; [|done]. apply list_elem_of_In, elem_of_rows. by exists j. }
  unfold mbind, st_bind, st_gets. rewrite Hex. simpl. unfold db_first_where. rewrite Hl. simpl.
  unfold st_require. by rewrite Hsame.
Qed.

(** [CreateOrGetRun] creates a run only when no run holds its active key,
    gives it the next id and stores it as validated; otherwise it changes
    nothing and returns the active run with the same key, task, target, range
    and configuration version.  Asking again returns the same run and changes
    nothing, so that a request can be repeated. *)
Theorem CreateOrGetRun_once run d r existed d' :
  queue_inv d -> CreateOrGetRun run d = Ok ((r, existed), d') ->
  CreateOrGetRun run d' = Ok ((r, true), d') /\
  (if existed then d' = d /\ sameActiveCollectionRun r run = true
   else r = run <| Run.ID := Tables.auto_run d |> /\
        Tables.collection_run d' = <[r.(Run.ID) := r]> (Tables.collection_run d) /\
        forall k x, run.(Run.ActiveKey) = Some k -> Tables.collection_run d !! x.(Run.ID) = Some x ->
          has_active_key k x = false).
Proof.
  intros Hinv H. apply CreateOrGetRun_cases in H as (Hv&k&Hk&[(->&Hc&Hnone)|(->&->&(l&Hl)&Hsame)]).
  - pose proof (create_keeps _ _ _ _ Hinv (valid_insertable _ Hv) Hc) as [Hinv' Hr].
    unfold db_create in Hc. injection Hc as _ <-. split.
    + apply (CreateOrGetRun_found run k r []); [done|done| |by rewrite Hr; apply created_same].
      apply select_only; [exists (Tables.auto_run d); by rewrite Hr; apply lookup_insert_eq| | |apply Hinv'].
      * unfold has_active_key. rewrite Hr. simpl. by rewrite Hk, sql_text_eq_refl.
      * intros j x. simpl. rewrite lookup_insert_Some. intros [[_ <-]|[_ Hx]] Hp; [done|].
        by rewrite (Hnone j x Hx) in Hp.
    + subst r. split; [done|]. split; [done|]. intros k' x Hk'. rewrite Hk in Hk'. injection Hk' as <-.
      apply Hnone.
  - split; [by apply (CreateOrGetRun_found run k r l)|done].
Qed.

Lemma CreateOrGetRun_once_witness :
  exists run r d', NewSiteCollectionRun Sample.site7 (SiteRunSpec.mk "usage_hour" "schedule" (Some 3600)
      (Some 10800) "" 100 "req-1" 20000) = Ok run /\
    CreateOrGetRun run History.start = Ok ((r, false), d') /\
    CreateOrGetRun run d' = Ok ((r, true), d').
Proof.
  assert (Hinv : queue_inv History.start) by (apply empty_queue_inv; repeat split).
  destruct (NewSiteCollectionRun Sample.site7 (SiteRunSpec.mk "usage_hour" "schedule" (Some 3600)
      (Some 10800) "" 100 "req-1" 20000)) as [run|e] eqn:Hn; [|vm_compute in Hn; discriminate Hn].
  assert (Hok : match CreateOrGetRun run History.start with Ok ((_, b), _) => b = false | Err _ => False end).
  { vm_compute in Hn. injection Hn as <-. vm_compute. reflexivity. }
  destruct (CreateOrGetRun run History.start) as [[[r b] d']|e] eqn:H; [|destruct Hok]. subst b.
  exists run, r, d'. split; [reflexivity|]. split; [exact H|].
  exact (proj1 (CreateOrGetRun_once _ _ _ _ _ Hinv H)).
Defined.

(** ** The gaps of a range *)
Definition run_range (r : CollectionRun) : Z * Z := (deref r.(Run.StartTimestamp), deref r.(Run.EndTimestamp)).

Lemma new_run_fields site spec run :
  NewSiteCollectionRun site spec = Ok run ->
  run.(Run.StartTimestamp) = spec.(SiteRunSpec.StartTimestamp) /\
  run.(Run.EndTimestamp) = spec.(SiteRunSpec.EndTimestamp) /\
  run.(Run.SiteID) = Some site.(MSite.ID).
Proof.
  unfold NewSiteCollectionRun. past_guard Hc. past_guard Hrange.
  destruct (CanonicalCollectionRunScope _ _) as [scope|]; [|done].
  destruct (CollectionRunActiveKey _ _ _ _ _) as [k|]; [|done].
  cbn [mbind result_bind]. intros H. injection H as <-. by destruct (CollectionTaskWindowed _).
Qed.

Lemma family_member t family : CollectionTaskFamily t = Some family ->
  is_one_of t (CollectionTaskTypesForFamily family) = true.
Proof.
  intros H. destruct (task_type_targets t (family_In _ _ H)) as (_&f&_&Hf&Hin&_).
  rewrite H in Hf. injection Hf as <-. by apply is_one_of_In.
Qed.

(** The hour is settled for the site: its facts are complete or will never be. *)
Definition settled_hour (d : Db) (siteID t : Z) : Prop :=
  exists k w, Tables.collection_window d !! k = Some w /\ w.(Window.SiteID) = siteID /\
    w.(Window.HourTS) = t /\
    is_one_of w.(Window.Status) [CollectionWindowStatusComplete; CollectionWindowStatusUnavailable] = true.

Lemma collectable_loop_aligned settled : forall end_ cursor ranges,
  collectable_loop end_ cursor settled = Ok ranges ->
  forall w, w ∈ settled -> hour_aligned w.(Window.HourTS) = true.
Proof.
  induction settled as [|w rest IH]; simpl; intros end_ cursor ranges H x; [set_solver|].
  destruct (_ || _) eqn:Hc; [done|]. to_prop. destruct Hc as [[Hal _] _].
  destruct (collectable_loop end_ (Window.HourTS w + 3600) rest) as [l|] eqn:Hr; [|done].
  intros [-> |Hx]%elem_of_cons; [done|by eapply IH].
Qed.

Lemma aligned_hour h t : hour_aligned h = true -> hour_aligned t = true ->
  h <= t < h + 3600 -> h = t.
Proof.
  unfold hour_aligned. intros Hh Ht Hle. to_prop. apply Z.rem_divide in Hh, Ht; [|lia..].
  destruct Hh as [a ->], Ht as [b ->]. lia.
Qed.

Lemma collectable_ranges_spec siteID s e d ranges d' :
  collectableUsageBackfillRanges siteID s e d = Ok (ranges, d') ->
  d' = d /\ ranges_ordered s ranges /\ (forall t, in_ranges t ranges -> s <= t < e) /\
  (forall t, hour_aligned t = true ->
     (in_ranges t ranges <-> s <= t < e /\ ~ settled_hour d siteID t)).
Proof.
  unfold collectableUsageBackfillRanges. intros H.
  apply st_bind_ok in H as (settled&d1&Hs&H). apply db_select_ok in Hs as [Hs ->].
  apply st_lift_ok in H as (x&Hl&[= <- ->]). split; [done|].
  pose proof (collectable_loop_aligned _ _ _ _ Hl) as Hal.
  apply collectable_loop_spec in Hl as [Ho Hin]. split; [done|]. split; [intros t Ht; apply Hin in Ht; tauto|].
  intros t Ht. rewrite Hin. split; intros [Hr Hn]; (split; [done|]); intros Hset; apply Hn; clear Hn.
  - destruct Hset as (k&w&Hk&Hsite&Hhour&Hst). exists w. split; [|lia]. rewrite Hs.
    apply elem_of_select. split; [|by exists k]. rewrite Hst, andb_true_r. to_prop. lia.
  - destruct Hset as (w&Hw&Hle). pose proof (Hal w Hw) as Haw. rewrite Hs in Hw.
    apply elem_of_select in Hw as (Hp&k&Hk). apply andb_true_iff in Hp as [Hp Hst]. to_prop.
    exists k, w. split; [done|]. split; [tauto|]. split; [|done]. by apply aligned_hour.
Qed.

Section Gaps.
(** The request, the state it is answered in and the family it collects. *)
Context (request : SiteWindowRunCreateRequest) (site : Site) (family : string) (d : Db).
Context (Hsite : site.(MSite.ID) = request.(WindowRequest.SiteID)).
Context (Hfamily : CollectionTaskFamily request.(WindowRequest.TaskType) = Some family).

Definition overlaps (r : CollectionRun) : bool :=
  overlapping request.(WindowRequest.SiteID) (CollectionTaskTypesForFamily family)
    request.(WindowRequest.StartTimestamp) request.(WindowRequest.EndTimestamp) r.
Definition active_runs : list CollectionRun := select overlaps by_start d.

(** A created run is stored, is new and is the pending run of its range. *)
Record created_run (dn : Db) (p : CollectionRun * bool) : Prop := {
  created_new : snd p = false;
  created_stored : Tables.collection_run dn !! (fst p).(Run.ID) = Some (fst p);
  created_fresh : Tables.collection_run d !! (fst p).(Run.ID) = None;
  created_site : (fst p).(Run.SiteID) = Some request.(WindowRequest.SiteID);
  created_task : (fst p).(Run.TaskType) = request.(WindowRequest.TaskType);
  created_pending : (fst p).(Run.Status) = "pending"
}.

(** After some gaps: what was stored still is, and what is new ends by [lo]. *)
Record created_upto (dn : Db) (lo : Z) (acc : list (CollectionRun * bool)) : Prop := {
  upto_inv : queue_inv dn;
  upto_windows : Tables.collection_window dn = Tables.collection_window d;
  upto_kept : forall k r, Tables.collection_run d !! k = Some r -> Tables.collection_run dn !! k = Some r;
  upto_stored : forall k r, Tables.collection_run dn !! k = Some r ->
    Tables.collection_run d !! k = Some r \/ (exists e, r.(Run.EndTimestamp) = Some e /\ e <= lo);
  upto_runs : forall p, p ∈ acc -> created_run dn p
}.

Lemma created_upto_weaken dn lo lo' acc : lo <= lo' -> created_upto dn lo acc -> created_upto dn lo' acc.
Proof.
  intros Hle [A B C D E]. split; auto. intros k r Hr.
  destruct (D k r Hr) as [?|(e&He&?)]; [by left|right]. exists e. split; [done|lia].
Qed.

Lemma gap_created s e dn lo acc r b dn' :
  created_upto dn lo acc -> lo <= s -> s < e ->
  request.(WindowRequest.StartTimestamp) <= s -> e <= request.(WindowRequest.EndTimestamp) ->
  ~ covered active_runs s ->
  createSiteWindowGap site request s e dn = Ok ((r, b), dn') ->
  created_upto dn' e (acc ++ [(r, b)]) /\ run_range r = (s, e).
Proof.
  intros [Hinv Hwin Hkept Hstored Hruns] Hlo Hlt Hs He Hcov. unfold createSiteWindowGap. intros H.
  apply st_bind_ok in H as (run&d1&Hn&H). apply st_lift_ok in Hn as (x&Hn&[= -> ->]).
  destruct (new_run_fields _ _ _ Hn) as (Hrs&Hre&Hrsite). pose proof (new_run_task _ _ _ Hn) as Hrt.
  pose proof (new_run_valid _ _ _ Hn) as (_&Hst&_). cbn in Hrs, Hre, Hrt. rewrite Hsite in Hrsite.
  apply CreateOrGetRun_cases in H as (Hv&k&Hk&[(->&Hc&_)|(->&->&(l&Hl)&Hsame)]).
  - pose proof (create_keeps _ _ _ _ Hinv (valid_insertable _ Hv) Hc) as [Hinv' Hr].
    unfold db_create in Hc. injection Hc as _ <-.
    assert (Hnone : Tables.collection_run dn !! Tables.auto_run dn = None).
    { destruct (Tables.collection_run dn !! Tables.auto_run dn) eqn:E; [|done].
      apply (queue_run_ids dn Hinv) in E. lia. }
    assert (Hrec : forall j y, Tables.collection_run dn !! j = Some y ->
      <[Tables.auto_run dn := set_row_id (Tables.auto_run dn) x]> (Tables.collection_run dn) !! j = Some y).
    { intros j y Hy. rewrite lookup_insert_ne; [done|]. intros <-. congruence. }
    split; [split|subst r; unfold run_range; simpl; by rewrite Hrs, Hre].
    + exact Hinv'.
    + exact Hwin.
    + intros j y Hy. apply Hrec. auto.
    + intros j y. simpl. rewrite lookup_insert_Some. intros [[_ <-]|[_ Hy]].
      * right. exists e. split; [done|lia].
      * destruct (Hstored j y Hy) as [?|(e'&?&?)]; [by left|right]. exists e'. split; [done|lia].
    + intros p [Hp|Hp%list_elem_of_singleton]%elem_of_app.
      * destruct (Hruns p Hp) as [? ? ? ? ? ?]. split; auto.
      * subst p r. split; simpl; try done; [by apply lookup_insert_eq|].
        destruct (Tables.collection_run d !! Tables.auto_run dn) eqn:E; [|done].
        apply Hkept in E. congruence.
  - exfalso. assert (r ∈ select (has_active_key k) by_id dn) as (_&j&Hj)%elem_of_select by (rewrite Hl; set_solver).
    unfold sameActiveCollectionRun in Hsame. destruct (Run.ActiveKey r); [|done].
    rewrite Hk in Hsame. to_prop.
    destruct Hsame as [[[[[[[[[_ Hact] Htt] _] _] _] Hsi] Hss] Hee] _].
    apply equalInt64Pointers_spec in Hsi, Hss, Hee. rewrite Hrs in Hss. rewrite Hre in Hee.
    destruct (Hstored j r Hj) as [Hd|(e'&He'&?)]; [|rewrite He' in Hee; injection Hee as ->; lia].
    apply Hcov. exists r. split; [|exists s, e; repeat split; [done|done|lia|lia]].
    apply elem_of_select. split; [|by exists j]. unfold overlaps, overlapping, site_is.
    rewrite Hsi, Hss, Hee, Hact, Htt, Hrt, (family_member _ _ Hfamily), Hrsite.
    rewrite bool_decide_eq_true_2 by done. simpl. to_prop. lia.
Qed.

Definition hour_wanted (t : Z) : Prop :=
  request.(WindowRequest.TaskType) = TaskTypeUsageBackfill ->
  ~ settled_hour d request.(WindowRequest.SiteID) t.

Lemma gaps_created ranges : forall lo hi dn acc acc' dn',
  created_upto dn lo acc -> ranges_ordered lo ranges -> lo <= hi ->
  request.(WindowRequest.StartTimestamp) <= lo -> hi <= request.(WindowRequest.EndTimestamp) ->
  (forall p, p ∈ ranges -> snd p <= hi /\ ~ covered active_runs (fst p)) ->
  create_gaps site request ranges acc dn = Ok (acc', dn') ->
  exists new, acc' = acc ++ new /\ created_upto dn' hi acc' /\ run_range <$> new.*1 = ranges.
Proof.
  unfold create_gaps. induction ranges as [|[s e] ranges IH]; intros lo hi dn acc acc' dn' Hup Ho Hlo Hs He Hp H.
  - apply st_fold_nil in H as [= -> ->]. exists []. rewrite app_nil_r. split; [done|]. split; [|done].
    by eapply created_upto_weaken.
  - apply st_fold_cons in H as (acc1&d1&H1&H). cbv beta iota in H1.
    apply st_bind_ok in H1 as ([r b]&d2&Hc&H1). apply st_ret_pair in H1 as [-> ->].
    inversion Ho as [|? ? ? ? Hle Hlt Hrest]; subst. destruct (Hp (s, e) ltac:(set_solver)) as [Hhi Hcov].
    simpl in Hhi, Hcov. apply (gap_created _ _ _ lo acc) in Hc as [Hup1 Hr]; [|done|lia..|done].
    apply (IH e hi) in H as (new&->&Hup2&Hnew); [|done|done|lia|lia|done|intros p ?; apply Hp; set_solver].
    exists ((r, b) :: new). rewrite <- app_assoc. split; [done|]. rewrite <- app_assoc in Hup2.
    split; [done|]. rewrite !fmap_cons, Hnew. simpl. by rewrite Hr.
Qed.

Lemma ranges_ordered_app lo l1 : forall mid l2,
  ranges_ordered lo l1 -> ranges_ordered mid l2 -> lo <= mid -> (forall p, p ∈ l1 -> snd p <= mid) ->
  ranges_ordered lo (l1 ++ l2).
Proof.
  intros mid l2 H. induction H as [lo|lo s e l Hle Hlt Hl IH]; intros H2 Hmid Hp; simpl.
  - by eapply ranges_ordered_weaken.
  - constructor; [done|done|]. apply IH; [done| |intros p ?; apply Hp; set_solver].
    apply (Hp (s, e)). set_solver.
Qed.

Lemma ranges_ordered_in lo l : ranges_ordered lo l -> forall p, p ∈ l -> lo <= fst p < snd p.
Proof.
  induction 1 as [lo|lo s e l Hle Hlt Hl IH]; intros p; [set_solver|].
  intros [-> |Hp]%elem_of_cons; [simpl; lia|]. specialize (IH p Hp). lia.
Qed.

(** One uncovered range: the candidates inside it. *)
Definition candidates_of (s e : Z) : Tx (list (Z * Z)) :=
  if request.(WindowRequest.TaskType) == TaskTypeUsageBackfill
  then collectableUsageBackfillRanges request.(WindowRequest.SiteID) s e else mret [(s, e)].

Lemma candidates_spec s e dn cands d1 :
  Tables.collection_window dn = Tables.collection_window d -> s < e ->
  candidates_of s e dn = Ok (cands, d1) ->
  d1 = dn /\ ranges_ordered s cands /\ (forall t, in_ranges t cands -> s <= t < e) /\
  (forall t, hour_aligned t = true -> (in_ranges t cands <-> s <= t < e /\ hour_wanted t)).
Proof.
  intros Hw Hlt. unfold candidates_of, hour_wanted.
  destruct (_ == TaskTypeUsageBackfill) eqn:Hty; to_prop; intros H.
  - apply collectable_ranges_spec in H as (->&Ho&Hin&Hal). split; [done|]. split; [done|].
    split; [done|]. intros t Ht. rewrite (Hal t Ht). unfold settled_hour. rewrite Hw. tauto.
  - apply st_ret_pair in H as [-> ->]. split; [done|].
    assert (Hone : forall t, in_ranges t [(s, e)] <-> s <= t < e).
    { intros t. rewrite in_ranges_cons, in_ranges_nil. unfold in_range. simpl. tauto. }
    split; [repeat constructor; lia|]. split; intros t; rewrite Hone; tauto.
Qed.

Lemma all_gaps_created ranges : forall lo dn acc acc' dn',
  created_upto dn lo acc -> ranges_ordered lo ranges ->
  request.(WindowRequest.StartTimestamp) <= lo -> lo <= request.(WindowRequest.EndTimestamp) ->
  (forall t, in_ranges t ranges -> t < request.(WindowRequest.EndTimestamp) /\ ~ covered active_runs t) ->
  st_fold (fun '(s, e) acc => cands ← candidates_of s e; create_gaps site request cands acc)
    ranges acc dn = Ok (acc', dn') ->
  exists new, acc' = acc ++ new /\ created_upto dn' request.(WindowRequest.EndTimestamp) acc' /\
    ranges_ordered lo (run_range <$> new.*1) /\
    (forall t, hour_aligned t = true ->
       (in_ranges t (run_range <$> new.*1) <-> in_ranges t ranges /\ hour_wanted t)).
Proof.
  induction ranges as [|[s e] ranges IH]; intros lo dn acc acc' dn' Hup Ho Hs He Hin H.
  - apply st_fold_nil in H as [= -> ->]. exists []. rewrite app_nil_r. split; [done|].
    split; [by eapply created_upto_weaken|]. split; [constructor|]. intros t _. simpl. rewrite in_ranges_nil. tauto.
  - apply st_fold_cons in H as (acc1&d1&H1&H). cbv beta iota in H1.
    apply st_bind_ok in H1 as (cands&d2&Hc&H1).
    inversion Ho as [|? ? ? ? Hle Hlt Hrest]; subst.
    assert (Hse : forall t, s <= t < e -> t < WindowRequest.EndTimestamp request /\ ~ covered active_runs t).
    { intros t Ht. apply Hin, in_ranges_cons. by left. }
    assert (He' : e <= WindowRequest.EndTimestamp request) by (destruct (Hse (e - 1)); lia).
    apply candidates_spec in Hc as (->&Hco&Hci&Hca); [|apply Hup|done].
    assert (Hcp : forall p, p ∈ cands -> snd p <= e /\ ~ covered active_runs (fst p)).
    { intros p Hp. pose proof (ranges_ordered_in _ _ Hco p Hp) as Hpl.
      assert (s <= fst p < e) by (apply Hci; exists p; split; [done|unfold in_range; lia]).
      assert (s <= snd p - 1 < e) by (apply Hci; exists p; split; [done|unfold in_range; lia]).
      split; [lia|]. by apply Hse. }
    apply (gaps_created cands s e) in H1 as (new1&->&Hup1&Hn1);
      [|by eapply created_upto_weaken|done|lia|lia|done|done].
    apply (IH e) in H as (new2&->&Hup2&Ho2&Hn2); [|done|done|lia|done|].
    2: { intros t Ht. apply Hin, in_ranges_cons. by right. }
    exists (new1 ++ new2). rewrite <- app_assoc in *. split; [done|]. split; [done|].
    rewrite !fmap_app, Hn1. split.
    + apply (ranges_ordered_app lo cands e); [by eapply ranges_ordered_weaken|done|lia|intros p Hp; by apply Hcp].
    + intros t Ht. rewrite in_ranges_app, in_ranges_cons, (Hca t Ht), (Hn2 t Ht). unfold in_range. simpl. tauto.
Qed.
End Gaps.

(** The overlapping runs, as the query returns them, can be cut out of the
    range. *)
Lemma active_uncovered request family d :
  (forall k r s e, Tables.collection_run d !! k = Some r ->
     r.(Run.StartTimestamp) = Some s -> r.(Run.EndTimestamp) = Some e -> s <= e) ->
  request.(WindowRequest.StartTimestamp) < request.(WindowRequest.EndTimestamp) ->
  let start := request.(WindowRequest.StartTimestamp) in let end_ := request.(WindowRequest.EndTimestamp) in
  let active := active_runs request family d in
  ranges_ordered start (uncoveredSiteWindowRanges start end_ active) /\
  (forall t, in_ranges t (uncoveredSiteWindowRanges start end_ active) <->
             start <= t < end_ /\ ~ covered active t).
Proof.
  intros Hord Hlt start end_ active. unfold uncoveredSiteWindowRanges.
  rewrite (proj2 (Z.leb_gt end_ start)) by done.
  assert (Hwr : forall run, run ∈ active -> well_ranged run).
  { intros r (Hp&k&Hk)%elem_of_select. unfold overlaps, overlapping in Hp.
    apply andb_true_iff in Hp as [_ Hp].
    destruct (Run.StartTimestamp r) as [s|] eqn:Hs, (Run.EndTimestamp r) as [e|] eqn:He; try done.
    exists s, e. split; [done|]. split; [done|]. by eapply Hord. }
  assert (exists lo, forall run, run ∈ active -> lo <= deref run.(Run.StartTimestamp)) as [lo Hlo].
  { clear. induction active as [|run rest [lo IH]]; [exists 0; set_solver|].
    exists (Z.min lo (deref run.(Run.StartTimestamp))).
    intros run' [->|H]%elem_of_cons; [lia|]. apply IH in H. lia. }
  apply (uncovered_loop_spec active lo); [|done]. apply sorted_starts_from; [apply select_sorted|done|done].
Qed.

(** Outside strict mode [CreateSiteWindowRun] creates new pending runs of
    the task on the site, and nothing else changes: their ranges are ordered,
    not empty and disjoint, and an hour lies in one of them exactly when it is
    in the requested range, no active run of the family covers it and, for a
    backfill, the hour is not settled yet. *)
Theorem CreateSiteWindowRun_fills_gaps request d results d' :
  queue_inv d -> table_wf (Tables.site d) ->
  (forall k r s e, Tables.collection_run d !! k = Some r ->
     r.(Run.StartTimestamp) = Some s -> r.(Run.EndTimestamp) = Some e -> s <= e) ->
  request.(WindowRequest.Mode) <> Some SiteWindowRunStrict ->
  request.(WindowRequest.StartTimestamp) < request.(WindowRequest.EndTimestamp) ->
  CreateSiteWindowRun request d = Ok (results, d') ->
  exists family, CollectionTaskFamily request.(WindowRequest.TaskType) = Some family /\
    (forall p, p ∈ results -> created_run request d d' p) /\
    (forall k r, Tables.collection_run d !! k = Some r -> Tables.collection_run d' !! k = Some r) /\
    ranges_ordered request.(WindowRequest.StartTimestamp) (run_range <$> results.*1) /\
    (forall t, hour_aligned t = true ->
       (in_ranges t (run_range <$> results.*1) <->
        request.(WindowRequest.StartTimestamp) <= t < request.(WindowRequest.EndTimestamp) /\
        ~ covered (active_runs request family d) t /\ hour_wanted request d t)).
Proof.
  intros Hinv Hwf Hord Hmode Hlt. unfold CreateSiteWindowRun. past_guard Hv. intros H.
  apply st_bind_ok in H as (snapshot&d1&Hs&H).
  pose proof (LockRunnableSiteSnapshot_reads _ _ _ _ _ Hs) as E. simpl in E. subst d1.
  assert (Hsite : MSite.ID (RunnableSiteSnapshot.site snapshot) = WindowRequest.SiteID request).
  { unfold LockRunnableSiteSnapshot, FindByIDForUpdate in Hs.
    apply st_bind_ok in Hs as (site&d1&Hf&Hs). apply db_first_ok in Hf as [Hf ->].
    apply st_bind_ok in Hs as (caps&d1&Hc&Hs). apply db_select_ok in Hc as [_ ->].
    apply st_bind_ok in Hs as (u&d1&Hl&Hs). apply st_lift_ok in Hl as (?&_&[= _ ->]).
    apply st_ret_pair in Hs as [-> _]. by apply Hwf in Hf. }
  apply st_bind_ok in H as (family&d1&Hf&H). apply st_lift_ok in Hf as (f&Hf&[= -> ->]).
  destruct (CollectionTaskFamily _) as [f'|] eqn:Hfam; [|done]. injection Hf as ->.
  rewrite (proj2 (Z.ltb_lt _ _) Hlt) in H.
  apply st_bind_ok in H as (active&d1&Ha&H). apply db_select_ok in Ha as [-> ->].
  apply st_bind_ok in H as ([]&d1&Hr&H). apply st_require_ok in Hr as (_&[= ->]).
  rewrite bool_decide_eq_false_2 in H by done. exists f. split; [done|].
  destruct (active_uncovered request f d Hord Hlt) as [Ho Hin].
  eapply (all_gaps_created request (RunnableSiteSnapshot.site snapshot) f d Hsite Hfam) in H
    as (new&->&Hup&Hno&Hnin); [| |exact Ho|lia|lia|intros t Ht; apply Hin in Ht; split; [lia|tauto]].
  - split; [apply Hup|]. split; [apply Hup|]. split; [done|]. simpl.
    intros t Ht. rewrite (Hnin t Ht), Hin. tauto.
  - split; [done|done|done|by left|set_solver].
Qed.

(** A schedule over an active run: only the hours after it are created. *)
Lemma CreateSiteWindowRun_fills_gaps_witness :
  exists results d',
    CreateSiteWindowRun (WindowRequest.mk 7 3 "usage_hour" "schedule" 3600 18000 "" 100 "req-2" 30000
      (Some SiteWindowRunSchedule)) History.opened = Ok (results, d') /\
    run_range <$> results.*1 = [(10800, 18000)] /\
    forall p, p ∈ results -> created_run (WindowRequest.mk 7 3 "usage_hour" "schedule" 3600 18000 "" 100
      "req-2" 30000 (Some SiteWindowRunSchedule)) History.opened d' p.
Proof.
  set (request := WindowRequest.mk _ _ _ _ _ _ _ _ _ _ _).
  destruct (History.after_ok (CreateSiteWindowRun request) History.opened) as [results Hok]; [vm_compute; reflexivity|].
  exists results, (History.after (CreateSiteWindowRun request) History.opened). split; [exact Hok|]. split.
  - assert (E : match CreateSiteWindowRun request History.opened with
                | Ok (l, _) => run_range <$> l.*1 = [(10800, 18000)] | Err _ => False end)
      by (vm_compute; reflexivity).
    rewrite Hok in E. exact E.
  - destruct (CreateSiteWindowRun_fills_gaps request History.opened results
      (History.after (CreateSiteWindowRun request) History.opened)
      (reachable_inv _ History.opened_reachable)) as (f&_&Hc&_); [| | |reflexivity|exact Hok|exact Hc].
    + intros k x Hx. change (Tables.site History.opened) with ({[7 := Sample.site7]} : gmap Z Site) in Hx.
      apply lookup_singleton_Some in Hx as [<- <-]. reflexivity.
    + intros k r s e Hr Hs He.
      assert (Hall : forall p, p ∈ map_to_list (Tables.collection_run History.opened) ->
        snd p = History.the_run History.opened).
      { assert (El : map_to_list (Tables.collection_run History.opened) = [(100, History.the_run History.opened)])
          by (vm_compute; reflexivity).
        rewrite El. intros p Hp%list_elem_of_singleton. by subst p. }
      apply elem_of_map_to_list, Hall in Hr. simpl in Hr. subst r.
      assert (Es : (History.the_run History.opened).(Run.StartTimestamp) = Some 3600) by (vm_compute; reflexivity).
      assert (Ee : (History.the_run History.opened).(Run.EndTimestamp) = Some 10800) by (vm_compute; reflexivity).
      rewrite Es in Hs. rewrite Ee in He. injection Hs as <-. injection He as <-. lia.
    + discriminate.
Defined.
