(* ===== verification/RunStateBehaviour.v ===== *)
(** * What recalculating a run computes

    The status a run gets from its windows, the agreement of the two
    recalculations the code has, and the pre-image of the hash of a window
    set. *)

From S2P Require Import Prelude Constants GoText Store Frame RunContract RunState RunRepository SiteFence TaskScope RunFrames TaskClaim TaskCommit RunInvariant.

(** ** The status of a set of windows *)
Definition closed_windows (W : list CollectionRunWindow) : bool :=
  forallb (fun w => negb (open_status w.(RunWindow.Status))) W.
Definition some_status (s : string) (W : list CollectionRunWindow) : bool :=
  existsb (fun w => w.(RunWindow.Status) == s) W.
Definition windows_status (W : list CollectionRunWindow) : string :=
  if closed_windows W then if some_status "failed" W then "failed" else "success"
  else if some_status "running" W then "running" else "pending".

Lemma some_status_count s W : some_status s W = (0 <? status_count s W).
Proof.
  apply eq_iff_eq_true. unfold some_status. rewrite existsb_exists, Z.ltb_lt, status_count_pos.
  split; intros (w&Hw&Hs); exists w; (split; [by apply list_elem_of_In|]); by to_prop.
Qed.

Lemma closed_windows_count W :
  closed_windows W = (status_count "pending" W + status_count "running" W =? 0).
Proof.
  pose proof (status_count_nonneg "pending" W). pose proof (status_count_nonneg "running" W).
  apply eq_iff_eq_true. unfold closed_windows. rewrite forallb_forall, Z.eqb_eq. split.
  - intros Hall. assert (Hz : forall s, open_status s = true -> status_count s W = 0).
    { intros s Hs. apply status_count_zero. intros w Hw <-. apply list_elem_of_In, Hall in Hw.
      by rewrite Hs in Hw. }
    by rewrite !Hz.
  - intros Hz w Hw. apply list_elem_of_In in Hw. destruct (open_status (RunWindow.Status w)) eqn:Ho; [|done].
    apply open_status_spec in Ho as [Ho|Ho].
    + assert (0 < status_count "pending" W) by (apply status_count_pos; eauto). lia.
    + assert (0 < status_count "running" W) by (apply status_count_pos; eauto). lia.
Qed.

(** The loop over known windows returns, and so does the derivation. *)
Lemma tally_windows_total now W : forall t,
  (forall w, w ∈ W -> known_window_status w.(RunWindow.Status) = true) ->
  exists t', tally_windows now t W = Ok t'.
Proof.
  induction W as [|w W IH]; intros t Hk; cbn [tally_windows]; [eauto|].
  assert (exists t1, tally_window now t w = Ok t1) as [t1 Ht1].
  { specialize (Hk w ltac:(set_solver)). apply known_window_status_spec in Hk. unfold tally_window.
    destruct Hk as [-> |[-> |[-> |[-> | ->]]]]; rewrite !bool_decide_decide; simpl; eauto. }
  rewrite Ht1. unfold mbind, result_bind. apply IH. set_solver.
Qed.

Lemma derive_windows_status W t :
  (forall w, w ∈ W -> known_window_status w.(RunWindow.Status) = true) ->
  tally_counts empty_tally W t ->
  exists failure, derive_status (Z.of_nat (length W)) t = Ok (windows_status W, closed_windows W, failure).
Proof.
  intros Hk (Hc&Hf&Hu&Hp&Hr). pose proof (status_count_total W Hk) as Hsum. simpl in Hc, Hf, Hu, Hp, Hr.
  pose proof (status_count_nonneg "pending" W). pose proof (status_count_nonneg "running" W).
  unfold derive_status, windows_status. rewrite closed_windows_count, !some_status_count.
  rewrite Hc, Hf, Hu, Hp, Hr. cbv zeta.
  destruct (_ =? Z.of_nat (length W)) eqn:E1; destruct (_ =? 0) eqn:E2; to_prop; try lia.
  - rewrite !Z.add_0_l. destruct (0 <? status_count "failed" W); eauto.
  - rewrite !Z.add_0_l. destruct (0 <? status_count "running" W) eqn:E3; to_prop; [eauto|].
    rewrite (proj2 (Z.ltb_lt 0 _)) by lia. eauto.
Qed.

(** ** The next attempt *)
Definition pending_windows (W : list CollectionRunWindow) : list CollectionRunWindow :=
  base.filter (fun w => w.(RunWindow.Status) = "pending") W.

(** The least candidate of the pending windows, when there is one. *)
Definition least_candidate (now : Z) (W : list CollectionRunWindow) (next : Z) : Prop :=
  (exists w, w ∈ pending_windows W /\ window_candidate now w = next) /\
  forall w, w ∈ pending_windows W -> next <= window_candidate now w.

Lemma earliest_spec now W : forall next,
  match earliest now next W with
  | None => next = None /\ pending_windows W = []
  | Some v => (next = Some v \/ exists w, w ∈ pending_windows W /\ window_candidate now w = v) /\
              (forall n, next = Some n -> v <= n) /\
              (forall w, w ∈ pending_windows W -> v <= window_candidate now w)
  end.
Proof.
  unfold pending_windows. induction W as [|w W IH]; intros next; cbn [earliest].
  - rewrite filter_nil. destruct next as [n|]; [|done]. split; [by left|]. split; [intros ? [= <-]; lia|set_solver].
  - rewrite filter_cons. specialize (IH (if RunWindow.Status w == "pending"
        then earlier next (window_candidate now w) else next)).
    case_decide as Hp; [rewrite bool_decide_eq_true_2 in IH |- * by done|by rewrite bool_decide_eq_false_2 in IH |- * by done].
    destruct (earliest _ _ W) as [v|]; [|destruct IH as [E _]; unfold earlier in E; by repeat case_match].
    destruct IH as (Hex&Hle&Hall).
    assert (Hv : exists m, earlier next (window_candidate now w) = Some m /\ m <= window_candidate now w /\
              (forall n, next = Some n -> m <= n) /\ (next = Some m \/ m = window_candidate now w)).
    { unfold earlier. destruct next as [n|]; [destruct (_ <? n) eqn:E; to_prop|]; eexists; (split; [reflexivity|]);
        (split; [lia|]); (split; [intros ? [=]; subst; lia|]); auto. }
    destruct Hv as (m&Hm&Hmw&Hmn&Hor). specialize (Hle m Hm). rewrite Hm in Hex. split; [|split].
    + destruct Hex as [[= <-]|(x&Hx&Ex)]; [|right; exists x; set_solver].
      destruct Hor as [?|E]; [by left|right; exists w; split; [set_solver|done]].
    + intros n Hn. specialize (Hmn n Hn). lia.
    + intros x [-> |Hx]%elem_of_cons; [lia|by apply Hall].
Qed.

(** What the recalculation writes into a run. *)
Record reflects (W : list CollectionRunWindow) (now : Z) (r r' : CollectionRun) : Prop := {
  reflects_status : r'.(Run.Status) = windows_status W;
  reflects_completed : r'.(Run.CompletedWindows) = status_count "success" W;
  reflects_failed : r'.(Run.FailedWindows) = status_count "failed" W;
  reflects_key : r'.(Run.ActiveKey) = if closed_windows W then None else r.(Run.ActiveKey);
  reflects_finished : r'.(Run.FinishedAt) = if closed_windows W then Some now else r.(Run.FinishedAt);
  reflects_next : if closed_windows W || bool_decide (pending_windows W = [])
                  then r'.(Run.NextAttemptAt) = r.(Run.NextAttemptAt)
                  else least_candidate now W r'.(Run.NextAttemptAt)
}.

Lemma recalculated_reflects now W t failure r :
  tally_windows now empty_tally W = Ok t ->
  reflects W now r (recalculated (windows_status W) (closed_windows W) failure t now r).
Proof.
  intros ((Hc&Hf&_)&Hn&_)%tally_windows_spec. simpl in Hc, Hf, Hn.
  destruct (recalculated_fields (windows_status W) (closed_windows W) failure t now r)
    as (F1&F2&F3&_&_&_&F7).
  pose proof (earliest_spec now W None) as He. rewrite <- Hn in He.
  split; [done|rewrite F2; lia|rewrite F3; lia|done| |].
  - unfold recalculated. destruct (closed_windows W); [|by destruct (Tally.nextAttempt t)].
    destruct (windows_status W == "success"); [done|by destruct failure].
  - unfold recalculated. destruct (closed_windows W); simpl.
    { destruct (windows_status W == "success"); [done|by destruct failure]. }
    destruct (Tally.nextAttempt t) as [v|].
    + destruct He as ([?|(w&Hw&Hv)]&_&Hall); [done|]. rewrite bool_decide_eq_false_2; [|intros E; rewrite E in Hw; by apply elem_of_nil in Hw].
      split; [eauto|done].
    + destruct He as [_ He]. by rewrite bool_decide_eq_true_2.
Qed.

(** Recalculating an initialised run that is not closed always returns when
    it was given all its windows, each in a known status: the run is failed or
    successful when every window is closed, running when one is, pending
    otherwise; its counters are the counts, a closed run loses its active key,
    and a pending one is next attempted at the earliest instant at which one of
    its pending windows may be.  The stored row gets the same columns, other
    runs and all windows stay. *)
Theorem RecalculateLockedCollectionRun_spec run W now d :
  0 < run.(Run.ID) -> 0 < now -> ~ terminal run -> run.(Run.WindowsInitializedAt) <> None ->
  run.(Run.TotalWindows) = Z.of_nat (length W) ->
  (forall w, w ∈ W -> known_window_status w.(RunWindow.Status) = true) ->
  exists run' d', RecalculateLockedCollectionRun run W now None d = Ok (run', d') /\
    reflects W now run run' /\ run'.(Run.UnavailableWindows) = status_count "unavailable" W /\
    Tables.collection_run_window d' = Tables.collection_run_window d /\
    forall k r, Tables.collection_run d !! k = Some r ->
      exists r', Tables.collection_run d' !! k = Some r' /\
        if r.(Run.ID) =? run.(Run.ID) then reflects W now r r' else r' = r.
Proof.
  intros Hid Hnow Hnt Hinit Htot Hk. destruct (tally_windows_total now W empty_tally Hk) as [t Ht].
  pose proof (tally_windows_spec _ _ _ _ Ht) as (Hcounts&_&_).
  destruct (derive_windows_status W t Hk Hcounts) as [failure Hd].
  unfold RecalculateLockedCollectionRun.
  rewrite (proj2 (Z.leb_gt _ _)) by lia. rewrite (proj2 (Z.leb_gt now 0)) by lia.
  rewrite (bool_decide_eq_false_2 (_ = "failed")) by (intros E; apply Hnt; by right).
  rewrite (bool_decide_eq_false_2 (_ = "success")) by (intros E; apply Hnt; by left).
  cbn [orb andb is_nil]. unfold mbind, st_bind, st_lift, st_require. rewrite Ht.
  destruct (Run.WindowsInitializedAt run) as [i|] eqn:Hi; [|done]. cbn [is_nil not_nil negb andb].
  rewrite Htot, Z.eqb_refl. cbn [negb]. rewrite Hd. do 2 eexists. split; [reflexivity|].
  pose proof (recalculated_reflects now W t failure run Ht) as [R1 R2 R3 R4 R5 R6].
  split; [split; assumption|]. split; [by destruct Hcounts as (_&_&Hu&_)|]. split; [reflexivity|].
  intros k r Hr. rewrite set_table_runs_lookup, Hr. simpl. eexists. split; [reflexivity|].
  unfold upd, run_has_id. destruct (Run.ID r =? Run.ID run); [by apply recalculated_reflects|done].
Qed.

Lemma RecalculateLockedCollectionRun_spec_witness :
  let W := [Sample.run_window 1 1 3600 "success" 1; Sample.run_window 2 1 7200 "pending" 0] in
  exists run' d', RecalculateLockedCollectionRun (Sample.run 1 3600 10800 "running") W 500 None
      (Sample.db [Sample.run 1 3600 10800 "running"] W []) = Ok (run', d') /\
    run'.(Run.Status) = "pending" /\ run'.(Run.CompletedWindows) = 1.
Proof.
  intros W. destruct (RecalculateLockedCollectionRun_spec (Sample.run 1 3600 10800 "running") W 500
    (Sample.db [Sample.run 1 3600 10800 "running"] W [])) as (run'&d'&H&[Hs Hc _ _ _ _]&_).
  - vm_compute. reflexivity.
  - vm_compute. reflexivity.
  - intros [E|E]; discriminate E.
  - discriminate.
  - reflexivity.
  - intros w Hw. unfold W in Hw. rewrite !elem_of_cons in Hw.
    destruct Hw as [-> |[-> |Hw]]; [reflexivity|reflexivity|by apply elem_of_nil in Hw].
  - exists run', d'. split; [exact H|]. split; [rewrite Hs; vm_compute; reflexivity|rewrite Hc; vm_compute; reflexivity].
Defined.

(** ** The two recalculations *)
Lemma min_next_retry_spec W : forall m,
  match foldl (fun m w => match w.(RunWindow.NextRetryAt) with
                          | Some next => earlier m next | None => m end) m W with
  | None => m = None /\ forall w, w ∈ W -> w.(RunWindow.NextRetryAt) = None
  | Some v => (m = Some v \/ exists w, w ∈ W /\ w.(RunWindow.NextRetryAt) = Some v) /\
      (forall n, m = Some n -> v <= n) /\
      (forall w n, w ∈ W -> w.(RunWindow.NextRetryAt) = Some n -> v <= n)
  end.
Proof.
  induction W as [|w W IH]; intros m; simpl.
  { destruct m; [|set_solver]. split; [by left|]. split; [intros ? [= <-]; lia|set_solver]. }
  destruct (RunWindow.NextRetryAt w) as [n|] eqn:Hn.
  - specialize (IH (earlier m n)).
    assert (exists x, earlier m n = Some x /\ x <= n /\ (forall y, m = Some y -> x <= y) /\
              (m = Some x \/ x = n)) as (x&Hx&Hxn&Hxm&Hor).
    { unfold earlier. destruct m as [y|]; [destruct (n <? y) eqn:E; to_prop|]; eexists; (split; [reflexivity|]);
        (split; [lia|]); (split; [intros ? [=]; subst; lia|]); auto. }
    rewrite Hx in IH |- *. destruct (foldl _ _ W) as [v|]; [|by destruct IH as [? _]].
    destruct IH as (Hex&Hle&Hall). specialize (Hle x eq_refl). split; [|split].
    + destruct Hex as [[= <-]|(z&Hz&Ez)]; [|right; exists z; set_solver].
      destruct Hor as [?|E]; [by left|]. right. exists w. rewrite E. split; [set_solver|done].
    + intros y Hy. specialize (Hxm y Hy). lia.
    + intros z y [-> |Hz]%elem_of_cons Hy; [|by eapply Hall].
      rewrite Hn in Hy. injection Hy as <-. lia.
  - specialize (IH m). destruct (foldl _ _ W) as [v|].
    + destruct IH as (Hex&Hle&Hall). split; [|split; [done|]].
      * destruct Hex as [?|(z&Hz&Ez)]; [by left|right; exists z; set_solver].
      * intros z y [-> |Hz]%elem_of_cons Hy; [congruence|by eapply Hall].
    + destruct IH as [-> Hall]. split; [done|]. intros x [-> |Hx]%elem_of_cons; auto.
Qed.

Lemma list_filter_status s W :
  List.filter (fun w => w.(RunWindow.Status) == s) W = base.filter (fun w => w.(RunWindow.Status) = s) W.
Proof.
  induction W as [|w W IH]; [done|]. simpl. rewrite filter_cons, IH.
  case_decide as E; [by rewrite bool_decide_eq_true_2|by rewrite bool_decide_eq_false_2].
Qed.



(** ** The pre-image of the hash of a window set *)
Lemma length_int64_bytes z : length (int64_bytes z) = 8%nat.
Proof. reflexivity. Qed.

(** Equal bytes below a place, and at it, are equal residues above it. *)
Lemma residue_step x y k : 0 <= k -> x mod 2 ^ k = y mod 2 ^ k ->
  (x / 2 ^ k) mod 256 = (y / 2 ^ k) mod 256 -> x mod 2 ^ (k + 8) = y mod 2 ^ (k + 8).
Proof.
  intros Hk H1 H2. rewrite Z.pow_add_r by lia. change (2 ^ 8) with 256.
  rewrite !Z.rem_mul_r by (first [apply Z.pow_nonzero; lia|lia]). by rewrite H1, H2.
Qed.

Lemma int64_bytes_inj x y : int64 x -> int64 y -> int64_bytes x = int64_bytes y -> x = y.
Proof.
  intros Hx Hy H. unfold int64_bytes in H. rewrite !fmap_cons, !fmap_nil in H.
  injection H as H7 H6 H5 H4 H3 H2 H1 H0.
  assert (R : x mod 2 ^ 64 = y mod 2 ^ 64).
  { apply (residue_step x y 56); [lia| |done]. apply (residue_step x y 48); [lia| |done].
    apply (residue_step x y 40); [lia| |done]. apply (residue_step x y 32); [lia| |done].
    apply (residue_step x y 24); [lia| |done]. apply (residue_step x y 16); [lia| |done].
    apply (residue_step x y 8); [lia| |done]. apply (residue_step x y 0); [lia| |done].
    by rewrite !Z.mod_1_r. }
  change (2 ^ 64) with 18446744073709551616 in R. clear -Hx Hy R. unfold int64, min_int64, max_int64 in Hx, Hy. pose proof (Z.div_mod x 18446744073709551616 ltac:(lia)). pose proof (Z.div_mod y 18446744073709551616 ltac:(lia)). lia.
Qed.

Lemma text_bytes_inj s t : text_bytes s = text_bytes t -> s = t.
Proof.
  unfold text_bytes, bytes. intros H. apply list_fmap_eq_inj in H.
  - by rewrite <- (String.string_of_list_ascii_of_string s), H, String.string_of_list_ascii_of_string.
  - intros a b Hab. unfold code in Hab.
    rewrite <- (Ascii.ascii_N_embedding a), <- (Ascii.ascii_N_embedding b). f_equal. lia.
Qed.

Lemma length_text_bytes s : Z.of_nat (length (text_bytes s)) = len s.
Proof.
  unfold text_bytes, bytes, len. rewrite length_fmap. f_equal. by induction s; simpl; f_equal.
Qed.

Lemma hours_bytes_inj l1 : forall l2, (forall h, h ∈ l1 -> int64 h) -> (forall h, h ∈ l2 -> int64 h) ->
  length l1 = length l2 -> l1 ≫= int64_bytes = l2 ≫= int64_bytes -> l1 = l2.
Proof.
  induction l1 as [|h1 l1 IH]; intros [|h2 l2] H1 H2 Hlen H; try done.
  rewrite !bind_cons in H. apply app_inj_1 in H as [Hh Ht]; [|by rewrite !length_int64_bytes].
  f_equal; [apply int64_bytes_inj; [apply H1|apply H2|done]; set_solver|].
  apply IH; [set_solver|set_solver|by injection Hlen|done].
Qed.

(** The columns the hash names, within their width. *)
Record hashed_int64 (run : CollectionRun) (hours : list Z) : Prop := {
  hashed_site : int64 (deref run.(Run.SiteID)); hashed_id : int64 run.(Run.ID);
  hashed_version : int64 run.(Run.SiteConfigVersion); hashed_start : int64 (deref run.(Run.StartTimestamp));
  hashed_end : int64 (deref run.(Run.EndTimestamp)); hashed_type : int64 (len run.(Run.TaskType));
  hashed_count : int64 (Z.of_nat (length hours)); hashed_hours : forall h, h ∈ hours -> int64 h
}.

(** The bytes hashed for a window set determine it: two runs with hours
    that give the same bytes have the same site, id, configuration version,
    range and task type, and the same hours in the same order. *)
Theorem site_run_window_set_preimage_injective run1 hours1 run2 hours2 :
  hashed_int64 run1 hours1 -> hashed_int64 run2 hours2 ->
  site_run_window_set_preimage run1 hours1 = site_run_window_set_preimage run2 hours2 ->
  deref run1.(Run.SiteID) = deref run2.(Run.SiteID) /\ run1.(Run.ID) = run2.(Run.ID) /\
  run1.(Run.SiteConfigVersion) = run2.(Run.SiteConfigVersion) /\
  deref run1.(Run.StartTimestamp) = deref run2.(Run.StartTimestamp) /\
  deref run1.(Run.EndTimestamp) = deref run2.(Run.EndTimestamp) /\
  run1.(Run.TaskType) = run2.(Run.TaskType) /\ hours1 = hours2.
Proof.
  intros [A1 A2 A3 A4 A5 A6 A7 A8] [B1 B2 B3 B4 B5 B6 B7 B8]. unfold site_run_window_set_preimage. intros H.
  apply app_inv_head in H.
  do 5 (apply app_inj_1 in H as [Hb H]; [|reflexivity]; apply int64_bytes_inj in Hb; [|assumption..]; revert Hb). intros.
  apply app_inj_1 in H as [Hlen H]; [|reflexivity]. apply int64_bytes_inj in Hlen; [|assumption..].
  apply app_inj_1 in H as [Ht H].
  2: { apply Nat2Z.inj. by rewrite !length_text_bytes. }
  apply app_inj_1 in H as [Hn H]; [|reflexivity]. apply int64_bytes_inj in Hn; [|assumption..].
  apply hours_bytes_inj in H; [|assumption|assumption|by apply Nat2Z.inj].
  apply text_bytes_inj in Ht. tauto.
Qed.

Lemma site_run_window_set_preimage_injective_witness :
  let run := Sample.run 1 3600 10800 "pending" in
  length (site_run_window_set_preimage run [3600; 7200]) = 105%nat /\ [3600; 7200] = [3600; 3600 + 3600].
Proof.
  intros run. split; [vm_compute; reflexivity|].
  assert (H : forall l, l = [3600; 7200] -> hashed_int64 run l).
  { intros l ->. split; [vm_compute; split; discriminate..|].
    intros h Hh. rewrite !elem_of_cons in Hh. destruct Hh as [-> |[-> |Hh]];
      [vm_compute; split; discriminate|vm_compute; split; discriminate|by apply elem_of_nil in Hh]. }
  apply (site_run_window_set_preimage_injective run _ run _ (H _ eq_refl) (H [3600; 3600 + 3600] eq_refl)).
  vm_compute. reflexivity.
Defined.
