(* ===== verification/UsageFacts.v ===== *)
(** * Usage facts of one hour ([model/usage_fact.go], [model/usage_cursor.go])

    The canonical facts of a collected hour, the hash that names them, the two
    mutations that record the outcome of a collection ([NewCompleteUsageWindowMutation],
    [NewFailedUsageWindowMutation]) and the cursor they reconcile.  A mutation
    runs inside [CompleteClaimedWindow], in the transaction that closes the
    window of the run.

    SHA-256 and its hexadecimal form are the parameter [sha256_hex].  The
    padding of [utf8mb4_bin] comparisons is not modelled: names that differ
    only in trailing spaces are different here, as they are in Go. *)

From S2P Require Import Prelude Stats Constants GoText Store RunContract RunState RunRepository SiteFence TaskScope TaskClaim TaskCommit.

Definition UsageAttributionAttributed : string := "attributed".
Definition UsageAttributionLegacyUnattributed : string := "legacy_unattributed".
Definition UsageLegacyUnattributedRemoteUserID : Z := 0.
Definition UsageLegacyUnattributedUsername : string := "历史未归属".
Definition UsageLegacyUnattributedGroup : string := "__legacy_unattributed__".

Module FactInput.
Record UsageFactInput := mk {
  RemoteUserID : Z; UsernameSnapshot : string; ModelName : string; ChannelID : Z; UseGroup : string;
  TokenID : Z; TokenName : string; NodeName : string; RequestCount : Z; Quota : Z; TokenUsed : Z }.
#[export] Instance input_eq_dec : EqDecision UsageFactInput.
Proof. solve_decision. Defined.
End FactInput.
Export (hints) FactInput.
Abbreviation UsageFactInput := FactInput.UsageFactInput.

(** ** Canonical facts *)
Definition validUsageString (value : string) (maximum : Z) : bool :=
  ValidString value && (RuneCountInString value <=? maximum).

(** The least non-empty name. *)
Definition canonicalUsageUsername (current candidate : string) : string :=
  if current == "" then candidate
  else if (candidate == "") || bool_decide (String.le current candidate) then current
  else candidate.

Definition addUsageInt64 (left right : Z) : option Z :=
  if (0 <? right) && (max_int64 - right <? left) then None
  else if (right <? 0) && (left <? min_int64 - right) then None
  else Some (left + right).

(** The composite map key. *)
Definition input_key (v : UsageFactInput) : fact_key_of :=
  (v.(FactInput.RemoteUserID), v.(FactInput.ModelName), v.(FactInput.ChannelID),
   v.(FactInput.UseGroup), v.(FactInput.TokenID), v.(FactInput.NodeName)).
Definition fact_key (f : UsageFactHourly) : fact_key_of :=
  (f.(Fact.RemoteUserID), f.(Fact.ModelName), f.(Fact.ChannelID),
   f.(Fact.UseGroup), f.(Fact.TokenID), f.(Fact.NodeName)).

(** The row that stands for the unattributed remainder of an hour. *)
Definition legacy_unattributed (v : UsageFactInput) : bool :=
  (v.(FactInput.RemoteUserID) =? UsageLegacyUnattributedRemoteUserID)
  && (v.(FactInput.UsernameSnapshot) == UsageLegacyUnattributedUsername)
  && (v.(FactInput.ChannelID) =? 0) && (v.(FactInput.UseGroup) == UsageLegacyUnattributedGroup)
  && (v.(FactInput.TokenID) =? 0) && (v.(FactInput.TokenName) == "") && (v.(FactInput.NodeName) == "").

Definition input_valid (v : UsageFactInput) : bool :=
  (0 <=? v.(FactInput.RemoteUserID)) && (0 <=? v.(FactInput.ChannelID))
  && (0 <=? v.(FactInput.TokenID)) && (0 <=? v.(FactInput.RequestCount))
  && (0 <=? v.(FactInput.Quota)) && (0 <=? v.(FactInput.TokenUsed))
  && validUsageString v.(FactInput.UsernameSnapshot) 255 && validUsageString v.(FactInput.ModelName) 255
  && validUsageString v.(FactInput.UseGroup) 128 && validUsageString v.(FactInput.TokenName) 255
  && validUsageString v.(FactInput.NodeName) 128
  && negb ((v.(FactInput.RemoteUserID) =? UsageLegacyUnattributedRemoteUserID) && negb (legacy_unattributed v)
           || (0 <? v.(FactInput.RemoteUserID)) && (v.(FactInput.UseGroup) == UsageLegacyUnattributedGroup)).

(** The entry before the counts of a row are added to it. *)
Definition fact_entry (siteID hourTS collectedAt : Z) (old : option UsageFactHourly) (v : UsageFactInput)
  : UsageFactHourly :=
  match old with
  | None => Fact.mk 0 siteID v.(FactInput.RemoteUserID) v.(FactInput.UsernameSnapshot)
              v.(FactInput.ModelName) v.(FactInput.ChannelID) v.(FactInput.UseGroup)
              v.(FactInput.TokenID) v.(FactInput.TokenName) v.(FactInput.NodeName) hourTS 0 0 0 collectedAt
  | Some fact => fact
      <| Fact.UsernameSnapshot := canonicalUsageUsername fact.(Fact.UsernameSnapshot) v.(FactInput.UsernameSnapshot) |>
      <| Fact.TokenName := canonicalUsageUsername fact.(Fact.TokenName) v.(FactInput.TokenName) |>
  end.

Definition add_counts (fact : UsageFactHourly) (v : UsageFactInput) : result UsageFactHourly :=
  match addUsageInt64 fact.(Fact.RequestCount) v.(FactInput.RequestCount),
        addUsageInt64 fact.(Fact.Quota) v.(FactInput.Quota),
        addUsageInt64 fact.(Fact.TokenUsed) v.(FactInput.TokenUsed) with
  | Some requests, Some quota, Some tokens =>
      Ok (fact <| Fact.RequestCount := requests |> <| Fact.Quota := quota |> <| Fact.TokenUsed := tokens |>)
  | _, _, _ => Err ErrCollectionRunContract
  end.

(** The loop over the rows. *)
Fixpoint merge_facts (siteID hourTS collectedAt : Z) (input : list UsageFactInput)
    (byKey : gmap fact_key_of UsageFactHourly) : result (gmap fact_key_of UsageFactHourly) :=
  match input with
  | [] => Ok byKey
  | v :: rest =>
      if negb (input_valid v) then Err ErrCollectionRunContract
      else
        fact ← add_counts (fact_entry siteID hourTS collectedAt (byKey !! input_key v) v) v;
        merge_facts siteID hourTS collectedAt rest (<[input_key v := fact]> byKey)
  end.

(** The comparison chain of both calls of sort.Slice. *)
Definition fact_order (f : UsageFactHourly) : sort_key :=
  [AInt f.(Fact.RemoteUserID); AStr f.(Fact.ModelName); AInt f.(Fact.ChannelID);
   AStr f.(Fact.UseGroup); AInt f.(Fact.TokenID); AStr f.(Fact.NodeName)].

(** ** The hash of a list of facts *)
Definition hashed_string (s : string) : list Z := int64_bytes (len s) ++ text_bytes s.
Definition fact_bytes (f : UsageFactHourly) : list Z :=
  int64_bytes f.(Fact.RemoteUserID) ++ int64_bytes f.(Fact.ChannelID) ++ int64_bytes f.(Fact.TokenID)
  ++ int64_bytes f.(Fact.RequestCount) ++ int64_bytes f.(Fact.Quota) ++ int64_bytes f.(Fact.TokenUsed)
  ++ hashed_string f.(Fact.UsernameSnapshot) ++ hashed_string f.(Fact.ModelName)
  ++ hashed_string f.(Fact.UseGroup) ++ hashed_string f.(Fact.TokenName) ++ hashed_string f.(Fact.NodeName).
Definition usage_facts_preimage (facts : list UsageFactHourly) : list Z :=
  text_bytes "usage-fact-hourly-v2" ++ [0] ++ (sort_by fact_order facts ≫= fact_bytes).

Definition usageAttributionStatus (facts : list UsageFactHourly) : string :=
  if existsb (fun f => f.(Fact.RemoteUserID) =? UsageLegacyUnattributedRemoteUserID) facts
  then UsageAttributionLegacyUnattributed else UsageAttributionAttributed.

(** ** Requests and scopes *)
Definition validUsageMutationRequest (runID windowID siteID expectedConfigVersion hourTS attemptCount : Z)
    (requestID : string) (now fetchedRows : Z) : bool :=
  (0 <? runID) && (0 <? windowID) && (0 <? siteID) && (0 <? expectedConfigVersion) && (0 <? hourTS)
  && hour_aligned hourTS && (hourTS <=? max_int64 - 3600) && (0 <? attemptCount)
  && validCollectionRequestID requestID && (0 <? now) && (0 <=? fetchedRows).

Definition isUsageTaskType (taskType : string) : bool :=
  is_one_of taskType [TaskTypeUsageHour; TaskTypeUsageBackfill; TaskTypeUsageValidation].

(** What both mutations pass on of their request. *)
Module UsageTarget.
Record UsageTarget := mk {
  RunID : Z; WindowID : Z; SiteID : Z; ExpectedConfigVersion : Z; HourTS : Z; AttemptCount : Z;
  RequestID : string; Now : Z }.
End UsageTarget.
Abbreviation UsageTarget := UsageTarget.UsageTarget.

Definition validateUsageMutationScope (scope : CollectionTaskWindowMutationScope) (t : UsageTarget)
  : result unit :=
  let site := scope.(MutationScope.site) in
  let run := scope.(MutationScope.run) in
  let window := scope.(MutationScope.window) in
  let hourTS := t.(UsageTarget.HourTS) in
  if (t.(UsageTarget.Now) <=? 0) || (max_int64 - 3600 <? hourTS) || (t.(UsageTarget.Now) <? hourTS + 3600)
  then Err ErrCollectionRunContract
  else if negb ((site.(MSite.ID) =? t.(UsageTarget.SiteID))
                && (site.(MSite.ConfigVersion) =? t.(UsageTarget.ExpectedConfigVersion))
                && match site.(MSite.StatisticsStartAt) with
                   | Some start => (0 <? start) && hour_aligned start && (start <? hourTS + 3600)
                   | None => false
                   end
                && (site.(MSite.ManagementStatus) == SiteManagementActive)
                && (site.(MSite.AuthStatus) == SiteAuthAuthorized)
                && is_nil site.(MSite.StatisticsEndAt) && site.(MSite.DataExportEnabled))
  then Err ErrSiteRunConfigChanged
  else if negb ((run.(Run.ID) =? t.(UsageTarget.RunID))
                && bool_decide (run.(Run.SiteID) = Some t.(UsageTarget.SiteID))
                && (run.(Run.SiteConfigVersion) =? t.(UsageTarget.ExpectedConfigVersion))
                && (run.(Run.Status) == CollectionTaskStatusRunning)
                && (run.(Run.LastRequestID) == t.(UsageTarget.RequestID)) && isUsageTaskType run.(Run.TaskType)
                && match run.(Run.StartTimestamp), run.(Run.EndTimestamp) with
                   | Some start, Some end_ => (start <=? hourTS) && (hourTS <? end_)
                   | _, _ => false
                   end)
  then Err ErrCollectionTaskClaimLost
  else if negb ((window.(RunWindow.ID) =? t.(UsageTarget.WindowID))
                && (window.(RunWindow.RunID) =? t.(UsageTarget.RunID))
                && (window.(RunWindow.SiteID) =? t.(UsageTarget.SiteID))
                && (window.(RunWindow.HourTS) =? hourTS)
                && (window.(RunWindow.Status) == CollectionTaskStatusRunning)
                && (window.(RunWindow.AttemptCount) =? t.(UsageTarget.AttemptCount)))
  then Err ErrCollectionTaskClaimLost
  else Ok tt.

(** The row, or the error that stands for its absence. *)
Definition first_or {R} `{!Table R} (id : Z) (e : error) : Tx R := fun d =>
  match db_first id d with Err ErrRecordNotFound => Err e | r => r end.

Definition lockUsageMutationScope (declared : CollectionTaskWindowMutationScope) (t : UsageTarget)
  : Tx CollectionTaskWindowMutationScope :=
  _ ← st_require (declared.(MutationScope.site).(MSite.ID) =? t.(UsageTarget.SiteID)) ErrSiteRunConfigChanged;
  _ ← st_require ((declared.(MutationScope.run).(Run.ID) =? t.(UsageTarget.RunID))
                  && (declared.(MutationScope.window).(RunWindow.ID) =? t.(UsageTarget.WindowID)))
                 ErrCollectionTaskClaimLost;
  site ← first_or t.(UsageTarget.SiteID) ErrSiteRunConfigChanged;
  run ← first_or t.(UsageTarget.RunID) ErrCollectionTaskClaimLost;
  window ← first_or t.(UsageTarget.WindowID) ErrCollectionTaskClaimLost;
  let locked := MutationScope.mk site run window in
  _ ← st_lift (validateUsageMutationScope locked t);
  mret locked.

Definition of_hour (siteID hourTS : Z) (w : CollectionWindow) : bool :=
  (w.(Window.SiteID) =? siteID) && (w.(Window.HourTS) =? hourTS).
Definition lockCollectionWindow (siteID hourTS : Z) : Tx (option CollectionWindow) :=
  found ← db_select (of_hour siteID hourTS) by_id; mret (head found).

(** ** The cursor *)
Definition UsageCursorKey : string := "usage".
Definition site_cursor (siteID : Z) (c : CollectionCursor) : bool :=
  (c.(Cursor.SiteID) =? siteID) && (c.(Cursor.CursorKey) == UsageCursorKey).

(** The loop over the windows from the first hour: the last hour up to which
    every hour is complete. *)
Fixpoint complete_prefix (expected : Z) (highest : option Z) (windows : list CollectionWindow) : option Z :=
  match windows with
  | [] => highest
  | window :: rest =>
      if negb (window.(Window.HourTS) =? expected) || (window.(Window.Status) != CollectionWindowStatusComplete)
      then highest
      else if max_int64 - 3600 <? expected then Some window.(Window.HourTS)
      else complete_prefix (expected + 3600) (Some window.(Window.HourTS)) rest
  end.

Definition advanced_cursor (highest : option Z) (now : Z) (c : CollectionCursor) : CollectionCursor :=
  let c := c <| Cursor.UpdatedAt := now |> in
  match highest with Some h => c <| Cursor.LastCompleteHour := Some h |> | None => c end.

Definition ReconcileUsageCursor (siteID statisticsStartAt now : Z) : Tx CollectionCursor :=
  if (siteID <=? 0) || (statisticsStartAt <=? 0) || negb (hour_aligned statisticsStartAt) || (now <=? 0)
  then st_fail ErrCollectionRunContract
  else
    existing ← db_count (site_cursor siteID);
    _ ← (if 0 <? existing then mret tt
         else _ ← db_create (Cursor.mk 0 siteID UsageCursorKey None now); mret tt);
    cursor ← db_first_where (site_cursor siteID) by_id;
    windows ← db_select (fun w => (w.(Window.SiteID) =? siteID)
                          && (statisticsStartAt <=? w.(Window.HourTS))) by_hour;
    let highest := complete_prefix statisticsStartAt None windows in
    _ ← db_update (fun c => c.(Cursor.ID) =? cursor.(Cursor.ID)) (advanced_cursor highest now);
    mret (advanced_cursor highest now cursor).

(** ** Mutations *)
Module UsageResult.
Record UsageWindowMutationResult := mk {
  CollectionStatus : string; SourceHash : string; SourceRequestID : string; FetchedRows : Z;
  WrittenRows : Z; VerifiedOnly : bool; ReasonCode : string; AttributionStatus : string }.
#[export] Instance result_eta : RecordEta UsageWindowMutationResult := fun r =>
  mk (CollectionStatus r) (SourceHash r) (SourceRequestID r) (FetchedRows r) (WrittenRows r)
     (VerifiedOnly r) (ReasonCode r) (AttributionStatus r).
End UsageResult.
Export (hints) UsageResult.
Abbreviation UsageWindowMutationResult := UsageResult.UsageWindowMutationResult.
Abbreviation UsageFactMutation := (CollectionTaskWindowMutationScope -> Tx UsageWindowMutationResult).

Module CompleteUsage.
Record CompleteUsageWindowRequest := mk {
  target : UsageTarget; FetchedRows : Z; AttributionStatus : string; Facts : list UsageFactInput }.
End CompleteUsage.
Abbreviation CompleteUsageWindowRequest := CompleteUsage.CompleteUsageWindowRequest.

Module FailedUsage.
Record FailedUsageWindowRequest := mk {
  target : UsageTarget; FetchedRows : Z; ReasonCode : string; ReasonParams : string; DataMismatch : bool }.
End FailedUsage.
Abbreviation FailedUsageWindowRequest := FailedUsage.FailedUsageWindowRequest.

Definition target_valid (t : UsageTarget) (fetchedRows : Z) : bool :=
  validUsageMutationRequest t.(UsageTarget.RunID) t.(UsageTarget.WindowID) t.(UsageTarget.SiteID)
    t.(UsageTarget.ExpectedConfigVersion) t.(UsageTarget.HourTS) t.(UsageTarget.AttemptCount)
    t.(UsageTarget.RequestID) t.(UsageTarget.Now) fetchedRows.

(** The facts of one hour. *)
Definition fact_of (siteID hourTS : Z) (f : UsageFactHourly) : bool :=
  (f.(Fact.SiteID) =? siteID) && (f.(Fact.HourTS) =? hourTS).

(** The columns a verified window gets. *)
Definition verified_window (now : Z) (w : CollectionWindow) : CollectionWindow :=
  w <| Window.VerifiedAt := Some now |> <| Window.LastErrorCode := "" |> <| Window.LastErrorParams := "" |>
    <| Window.LastErrorMessage := None |> <| Window.UpdatedAt := now |>.

(** The columns a rewritten window gets. *)
Definition complete_window (attribution : string) (fetched rows : Z) (hash : string) (runID now : Z)
    (w : CollectionWindow) : CollectionWindow :=
  w <| Window.Status := CollectionWindowStatusComplete |> <| Window.AttributionStatus := attribution |>
    <| Window.FetchedRows := fetched |> <| Window.FactRows := rows |> <| Window.SourceHash := hash |>
    <| Window.LastFactRunID := Some runID |> <| Window.VerifiedAt := Some now |>
    <| Window.LastErrorCode := "" |> <| Window.LastErrorParams := "" |> <| Window.LastErrorMessage := None |>
    <| Window.UpdatedAt := now |>.

Definition missing_window (fetched runID : Z) (code params : string) (now : Z) (w : CollectionWindow)
  : CollectionWindow :=
  w <| Window.Status := CollectionWindowStatusMissing |> <| Window.FetchedRows := fetched |>
    <| Window.LastFactRunID := Some runID |> <| Window.VerifiedAt := None |>
    <| Window.LastErrorCode := code |> <| Window.LastErrorParams := params |>
    <| Window.LastErrorMessage := None |> <| Window.UpdatedAt := now |>.

(** INSERT ... ON DUPLICATE KEY UPDATE on (site_id, hour_ts) *)
Definition upsert_window (siteID hourTS : Z) (set : CollectionWindow -> CollectionWindow) : Tx unit :=
  n ← db_count (of_hour siteID hourTS);
  if 0 <? n then _ ← db_update (of_hour siteID hourTS) set; mret tt
  else _ ← db_create (set (Window.mk 0 siteID hourTS "" UsageAttributionAttributed 0 0 "" None None "" "" None 0));
       mret tt.

Section Hash.
(** crypto/sha256 followed by encoding/hex. *)
Context (sha256_hex : list Z -> string).

Definition usageFactsHash (facts : list UsageFactHourly) : string := sha256_hex (usage_facts_preimage facts).

Definition canonicalUsageFacts (siteID hourTS collectedAt : Z) (input : list UsageFactInput)
  : result (list UsageFactHourly * string) :=
  if (siteID <=? 0) || (hourTS <=? 0) || negb (hour_aligned hourTS) || (max_int64 - 3600 <? hourTS)
     || (collectedAt <=? 0) then Err ErrCollectionRunContract
  else
    byKey ← merge_facts siteID hourTS collectedAt input ∅;
    let facts := sort_by fact_order ((map_to_list byKey).*2) in
    Ok (facts, usageFactsHash facts).

Definition persistedUsageFactsMatch (siteID hourTS : Z) (expected : list UsageFactHourly)
    (expectedHash : string) : Tx bool :=
  persisted ← db_select (fact_of siteID hourTS) by_id;
  mret (Nat.eqb (List.length persisted) (List.length expected) && (usageFactsHash persisted == expectedHash)).

(** Deletes the facts of the hour and inserts the new ones. *)
Definition replace_facts (siteID hourTS : Z) (facts : list UsageFactHourly) : Tx unit :=
  _ ← db_delete (fact_of siteID hourTS);
  st_fold (fun f _ => _ ← db_create f; mret tt) facts tt.

(** The body of the mutation [NewCompleteUsageWindowMutation] returns. *)
Definition apply_complete (t : UsageTarget) (fetched : Z) (facts : list UsageFactHourly)
    (sourceHash : string) (planned : UsageWindowMutationResult) : UsageFactMutation := fun scope =>
  let siteID := t.(UsageTarget.SiteID) in
  let hourTS := t.(UsageTarget.HourTS) in
  let now := t.(UsageTarget.Now) in
  let attribution := usageAttributionStatus facts in
  let count := Z.of_nat (List.length facts) in
  lockedScope ← lockUsageMutationScope scope t;
  window ← lockCollectionWindow siteID hourTS;
  verifiedOnly ← (match window with
    | Some w =>
        if (w.(Window.Status) == CollectionWindowStatusComplete) && (w.(Window.SourceHash) == sourceHash)
           && (w.(Window.AttributionStatus) == attribution) && (w.(Window.FactRows) =? count)
        then persistedUsageFactsMatch siteID hourTS facts sourceHash else mret false
    | None => mret false
    end : Tx bool);
  _ ← match window, (verifiedOnly : bool) with
      | Some w, true =>
          _ ← db_update (fun x => x.(Window.ID) =? w.(Window.ID)) (verified_window now); mret tt
      | _, _ =>
          _ ← replace_facts siteID hourTS facts;
          upsert_window siteID hourTS
            (complete_window attribution fetched count sourceHash t.(UsageTarget.RunID) now)
      end;
  _ ← ReconcileUsageCursor siteID (deref lockedScope.(MutationScope.site).(MSite.StatisticsStartAt)) now;
  mret (if (verifiedOnly : bool)
        then planned <| UsageResult.WrittenRows := 0 |> <| UsageResult.VerifiedOnly := true |>
        else planned).

Definition NewCompleteUsageWindowMutation (request : CompleteUsageWindowRequest)
  : result (UsageFactMutation * UsageWindowMutationResult) :=
  let t := request.(CompleteUsage.target) in
  let fetched := request.(CompleteUsage.FetchedRows) in
  '(facts, sourceHash) ← canonicalUsageFacts t.(UsageTarget.SiteID) t.(UsageTarget.HourTS)
                           t.(UsageTarget.Now) request.(CompleteUsage.Facts);
  let attribution := usageAttributionStatus facts in
  if negb (target_valid t fetched)
     || ((request.(CompleteUsage.AttributionStatus) != "")
         && (request.(CompleteUsage.AttributionStatus) != attribution))
  then Err ErrCollectionRunContract
  else
    let planned := UsageResult.mk CollectionWindowStatusComplete sourceHash t.(UsageTarget.RequestID)
                     fetched (Z.of_nat (List.length facts)) false "" attribution in
    Ok (apply_complete t fetched facts sourceHash planned, planned).
End Hash.

Definition NewFailedUsageWindowMutation (request : FailedUsageWindowRequest) : result UsageFactMutation :=
  let t := request.(FailedUsage.target) in
  let siteID := t.(UsageTarget.SiteID) in
  let hourTS := t.(UsageTarget.HourTS) in
  let now := t.(UsageTarget.Now) in
  let fetched := request.(FailedUsage.FetchedRows) in
  let code := request.(FailedUsage.ReasonCode) in
  if negb (target_valid t fetched) || (code == "") then Err ErrCollectionRunContract
  else Ok (fun scope =>
    lockedScope ← lockUsageMutationScope scope t;
    window ← lockCollectionWindow siteID hourTS;
    let result := UsageResult.mk CollectionWindowStatusMissing "" t.(UsageTarget.RequestID) fetched 0 false code "" in
    let set := missing_window fetched t.(UsageTarget.RunID) code request.(FailedUsage.ReasonParams) now in
    let start := deref lockedScope.(MutationScope.site).(MSite.StatisticsStartAt) in
    match window with
    | Some w =>
        if negb request.(FailedUsage.DataMismatch)
           && is_one_of w.(Window.Status) [CollectionWindowStatusComplete; CollectionWindowStatusUnavailable]
        then mret (result <| UsageResult.CollectionStatus := w.(Window.Status) |>
                          <| UsageResult.SourceHash := w.(Window.SourceHash) |>)
        else
          _ ← db_update (fun x => x.(Window.ID) =? w.(Window.ID)) set;
          _ ← ReconcileUsageCursor siteID start now;
          mret (result <| UsageResult.SourceHash := w.(Window.SourceHash) |>)
    | None =>
        _ ← db_create (set (Window.mk 0 siteID hourTS "" UsageAttributionAttributed 0 0 "" None None "" "" None 0));
        _ ← ReconcileUsageCursor siteID start now;
        mret result
    end).

(** [NewUsageFactOnlyCommit] and [ApplyCollectionTaskWindow]: the mutation as
    the handler of a claimed window. *)
Definition fact_only_commit (mutation : UsageFactMutation) : CollectionTaskWindowMutation := fun scope =>
  result ← mutation scope;
  mret (result.(UsageResult.FetchedRows), result.(UsageResult.WrittenRows)).
