(* ===== verification/UsageAggregation.v ===== *)
(** * Roll-ups of usage facts ([model/usage_aggregation.go], [model/local_rebuild.go])

    A commit of a collected hour rewrites the statistics derived from its
    facts: the hourly and daily roll-ups per account, customer, site, model,
    channel and over all sites, and the facts of the day.  The hourly and the
    daily roll-ups are deleted and recomputed; the facts of the day are
    refreshed for the keys the hour touched, and swept when the day becomes
    complete.  A local rebuild recomputes the same buckets for an account or a
    customer that was paused.

    A SELECT that joins [collection_window] on its unique key keeps or drops a
    fact ([complete_fact]); GROUP BY is [Stats.grouped].  SHA-256 and its
    hexadecimal form are the parameter [sha256_hex].  Row locks that only order
    concurrent transactions have no effect here; [lockUsageAggregationBuckets]
    writes the lock rows. *)

From S2P Require Import Prelude Constants GoText Stats DateBucket Store RunContract RunState RunRepository SiteFence TaskScope TaskClaim TaskCommit Materialize UsageFacts.

Definition UsageAggregationStatusComplete : string := "complete".
Definition UsageAggregationStatusPartial : string := "partial".

(** ** Coverage: how many of the expected hours are complete and verified *)
Module Coverage.
Record usageCoverage := mk { Expected : Z; Complete : Z; Verified : Z }.
#[export] Instance Coverage_eta : RecordEta usageCoverage := fun c => mk (Expected c) (Complete c) (Verified c).
#[export] Instance Coverage_eq_dec : EqDecision usageCoverage.
Proof. solve_decision. Defined.

Definition status (c : usageCoverage) : string :=
  if (0 <? c.(Expected)) && (c.(Complete) =? c.(Expected)) then UsageAggregationStatusComplete
  else UsageAggregationStatusPartial.
Definition valid (c : usageCoverage) : bool :=
  (0 <=? c.(Expected)) && (0 <=? c.(Complete)) && (c.(Complete) <=? c.(Expected))
  && (0 <=? c.(Verified)) && (c.(Verified) <=? c.(Complete)).
Definition knownPartial (c : usageCoverage) : bool :=
  valid c && (0 <? c.(Complete)) && (c.(Complete) <? c.(Expected)).
Definition final (c : usageCoverage) (now dateEnd : Z) : bool :=
  (dateEnd <=? now) && (0 <? c.(Expected)) && (c.(Complete) =? c.(Expected)) && (c.(Verified) =? c.(Expected)).
End Coverage.
Export (hints) Coverage.
Abbreviation usageCoverage := Coverage.usageCoverage.

Definition no_coverage : usageCoverage := Coverage.mk 0 0 0.
Definition add_coverage (a b : usageCoverage) : usageCoverage :=
  Coverage.mk (a.(Coverage.Expected) + b.(Coverage.Expected)) (a.(Coverage.Complete) + b.(Coverage.Complete))
    (a.(Coverage.Verified) + b.(Coverage.Verified)).

(** A site counts in the hours between the start and the end of its statistics. *)
Definition usageSiteExpectedAt (site : Site) (hourTS : Z) : bool :=
  match site.(MSite.StatisticsStartAt) with
  | Some start =>
      (start <? hourTS + 3600)
      && match site.(MSite.StatisticsEndAt) with Some end_ => hourTS <? end_ | None => true end
  | None => false
  end.

(** One more expected hour, with the window found for it. *)
Definition addUsageCoverageWindow (dateEnd : Z) (window : option CollectionWindow) (c : usageCoverage) : usageCoverage :=
  let c := c <| Coverage.Expected := c.(Coverage.Expected) + 1 |> in
  match window with
  | Some w =>
      if w.(Window.Status) == CollectionWindowStatusComplete then
        let c := c <| Coverage.Complete := c.(Coverage.Complete) + 1 |> in
        match w.(Window.VerifiedAt) with
        | Some verified =>
            if dateEnd <=? verified then c <| Coverage.Verified := c.(Coverage.Verified) + 1 |> else c
        | None => c
        end
      else c
  | None => c
  end.

Module DailyCoverage.
Record usageDailyCoverage := mk {
  dateStart : Z; dateEnd : Z; sites : gmap Z Site; windows : gmap (Z * Z) CollectionWindow;
  bySite : gmap Z usageCoverage; global : usageCoverage }.
End DailyCoverage.
Abbreviation usageDailyCoverage := DailyCoverage.usageDailyCoverage.

(** A map filled by a loop: a later entry replaces an earlier one. *)
Definition index_by {K A} `{!EqDecision K, !Countable K} (key : A -> K) (l : list A) : gmap K A :=
  foldl (fun m a => <[key a := a]> m) ∅ l.

Definition site_coverage (dateStart dateEnd : Z) (windows : gmap (Z * Z) CollectionWindow) (site : Site) : usageCoverage :=
  foldl (fun c hour =>
      if usageSiteExpectedAt site hour
      then addUsageCoverageWindow dateEnd (windows !! (site.(MSite.ID), hour)) c else c)
    no_coverage (hours_between dateStart dateEnd).

(** The sites whose statistics overlap the day. *)
Definition site_overlaps (dateStart dateEnd : Z) (site : Site) : bool :=
  match site.(MSite.StatisticsStartAt) with
  | Some start =>
      (start <? dateEnd) && match site.(MSite.StatisticsEndAt) with Some end_ => dateStart <? end_ | None => true end
  | None => false
  end.

Definition loadUsageDailyCoverage (dateStart dateEnd : Z) : Tx usageDailyCoverage :=
  sites ← db_select (site_overlaps dateStart dateEnd) by_id;
  found ← db_select (fun w => (dateStart <=? w.(Window.HourTS)) && (w.(Window.HourTS) <? dateEnd)) by_id;
  let windows := index_by (fun w => (w.(Window.SiteID), w.(Window.HourTS))) found in
  let bySite := foldl (fun m s => <[s.(MSite.ID) := site_coverage dateStart dateEnd windows s]> m) ∅ sites in
  let global := foldl (fun g s => add_coverage g (site_coverage dateStart dateEnd windows s)) no_coverage sites in
  mret (DailyCoverage.mk dateStart dateEnd (index_by MSite.ID sites) windows bySite global).

(** The coverage of one hour over all sites. *)
Definition hour_coverage (state : usageDailyCoverage) (hourTS : Z) : usageCoverage :=
  foldl (fun c site =>
      if usageSiteExpectedAt site hourTS
      then addUsageCoverageWindow state.(DailyCoverage.dateEnd)
             (state.(DailyCoverage.windows) !! (site.(MSite.ID), hourTS)) c
      else c)
    no_coverage (map_to_list state.(DailyCoverage.sites)).*2.

(** ** Options of a rebuild *)
Module RebuildOptions.
Record usageAggregationRebuildOptions := mk {
  includePausedAccountIDs : gset Z; includePausedCustomerIDs : gset Z; priorSiteCoverage : option usageCoverage }.

Definition validate (o : usageAggregationRebuildOptions) : bool :=
  match o.(priorSiteCoverage) with Some c => Coverage.valid c | None => true end
  && forallb (fun id => 0 <? id) (elements o.(includePausedAccountIDs))
  && forallb (fun id => 0 <? id) (elements o.(includePausedCustomerIDs)).
Definition includesPausedAccount (o : usageAggregationRebuildOptions) (id : Z) : bool :=
  bool_decide (id ∈ o.(includePausedAccountIDs)).
Definition includesPausedCustomer (o : usageAggregationRebuildOptions) (id : Z) : bool :=
  bool_decide (id ∈ o.(includePausedCustomerIDs)).
End RebuildOptions.
Abbreviation usageAggregationRebuildOptions := RebuildOptions.usageAggregationRebuildOptions.

Definition no_options : usageAggregationRebuildOptions := RebuildOptions.mk ∅ ∅ None.

(** The list an IN of a query gets; never empty. *)
Definition usageAggregationOverrideIDs (values : gset Z) : list Z :=
  match elements values with [] => [-1] | ids => sort_by (fun id => [AInt id]) ids end.

(** An account or a customer counts before it was paused, or when the rebuild
    includes it. *)
Definition not_paused (pausedAt : option Z) (hourTS : Z) : bool :=
  match pausedAt with Some p => hourTS <? p | None => true end.
Definition account_counts (included : Z -> bool) (hourTS : Z) (a : Account) : bool :=
  (a.(MAccount.RemoteCreatedAt) <? hourTS + 3600)
  && (not_paused a.(MAccount.StatisticsPausedAt) hourTS || included a.(MAccount.ID)).

(** The coverage of the accounts of a site and of their customers. *)
Section EntityCoverage.
Context (state : usageDailyCoverage) (siteID : Z) (options : usageAggregationRebuildOptions).

(** One account in one expected hour. *)
Definition cover_account (hour : Z) (window : option CollectionWindow) (customersByID : gmap Z Customer)
    (acc : gmap Z usageCoverage * gset Z) (account : Account) : gmap Z usageCoverage * gset Z :=
  let '(coverage, expected) := acc in
  if negb (account_counts (RebuildOptions.includesPausedAccount options) hour account) then acc
  else
    let id := account.(MAccount.ID) in
    let coverage := <[id := addUsageCoverageWindow state.(DailyCoverage.dateEnd) window
                              (default no_coverage (coverage !! id))]> coverage in
    let '(customerID, pausedAt) :=
      match customersByID !! account.(MAccount.CustomerID) with
      | Some c => (c.(MCustomer.ID), c.(MCustomer.StatisticsPausedAt))
      | None => (0, None)
      end in
    if not_paused pausedAt hour || RebuildOptions.includesPausedCustomer options customerID
    then (coverage, {[customerID]} ∪ expected) else (coverage, expected).

Definition cover_hour (site : Site) (accounts : list Account) (customersByID : gmap Z Customer)
    (acc : gmap Z usageCoverage * gmap Z usageCoverage) (hour : Z) : gmap Z usageCoverage * gmap Z usageCoverage :=
  if negb (usageSiteExpectedAt site hour) then acc
  else
    let window := state.(DailyCoverage.windows) !! (siteID, hour) in
    let '(accountCoverage, customerExpected) :=
      foldl (cover_account hour window customersByID) (acc.1, ∅) accounts in
    (accountCoverage,
     foldl (fun m id => <[id := addUsageCoverageWindow state.(DailyCoverage.dateEnd) window
                                  (default no_coverage (m !! id))]> m) acc.2 (elements customerExpected)).

Definition loadUsageEntityCoverage : Tx (gmap Z usageCoverage * gmap Z usageCoverage) :=
  accounts ← db_select (fun a => a.(MAccount.SiteID) =? siteID) by_id;
  let customerIDs := remove_dups (MAccount.CustomerID <$> accounts) in
  customers ← (match customerIDs with
    | [] => mret []
    | _ => db_select (fun c => existsb (Z.eqb c.(MCustomer.ID)) customerIDs) by_id
    end : Tx (list Customer));
  _ ← st_require (Nat.eqb (List.length customers) (List.length customerIDs)) ErrCollectionRunContract;
  match state.(DailyCoverage.sites) !! siteID with
  | None => mret (∅, ∅)
  | Some site =>
      mret (foldl (cover_hour site accounts (index_by MCustomer.ID customers)) (∅, ∅)
              (hours_between state.(DailyCoverage.dateStart) state.(DailyCoverage.dateEnd)))
  end.
End EntityCoverage.

(** ** Queries over the facts of complete hours *)

(** JOIN collection_window ... AND w.status = 'complete' *)
Definition complete_fact (d : Db) (f : UsageFactHourly) : bool :=
  existsb (fun w => of_hour f.(Fact.SiteID) f.(Fact.HourTS) w && (w.(Window.Status) == CollectionWindowStatusComplete))
    (table_rows d).

(** JOIN site, with the range of its statistics around the hour of the fact. *)
Definition within_statistics (d : Db) (f : UsageFactHourly) : bool :=
  existsb (fun s => (s.(MSite.ID) =? f.(Fact.SiteID)) && usageSiteExpectedAt s f.(Fact.HourTS)) (table_rows d).

(** SUM of the counts and COUNT(DISTINCT user) of a group. *)
Definition metrics_of {U} `{!EqDecision U, !Countable U} (l : list (option U * UsageFactHourly)) : usageMetricAggregate :=
  Metrics.mk (sum_of Fact.RequestCount l.*2) (sum_of Fact.Quota l.*2) (sum_of Fact.TokenUsed l.*2)
    (Z.of_nat (size (list_to_set (omap fst l) : gset U))).

Definition nonzero (m : usageMetricAggregate) : bool := m != no_usage.

Inductive usageAggregateScope := usageAggregateHour | usageAggregateDate.

Definition parseUsageAggregateMetric (value : Z) : result Z :=
  if (value <? min_int64) || (max_int64 <? value) || (value <? 0) then Err ErrCollectionRunContract else Ok value.

(** CASE WHEN remote_user_id > 0 THEN CONCAT(site_id, ':', remote_user_id) END *)
Definition global_user (f : UsageFactHourly) : option string :=
  if 0 <? f.(Fact.RemoteUserID)
  then Some (FormatInt f.(Fact.SiteID) +:+ ":" +:+ FormatInt f.(Fact.RemoteUserID)) else None.

Definition in_scope (scope : usageAggregateScope) (start end_ : Z) (hour : Z) : bool :=
  match scope with
  | usageAggregateHour => hour =? start
  | usageAggregateDate => (start <=? hour) && (hour <? end_)
  end.

(** The facts of the query: complete, within the statistics of their site. *)
Definition global_facts (d : Db) (in_range : Z -> bool) : list UsageFactHourly :=
  base.filter (fun f => complete_fact d f && within_statistics d f && in_range f.(Fact.HourTS) = true) (table_rows d).

Definition negative_fact (f : UsageFactHourly) : bool :=
  (f.(Fact.RequestCount) <? 0) || (f.(Fact.Quota) <? 0) || (f.(Fact.TokenUsed) <? 0).

Definition loadUsageAggregateMetrics (scope : usageAggregateScope) (start end_ : Z) : Tx usageMetricAggregate :=
  _ ← st_require (match scope with usageAggregateDate => start <? end_ | usageAggregateHour => true end)
        ErrCollectionRunContract;
  facts ← st_gets (fun d => global_facts d (in_scope scope start end_));
  _ ← st_require (negb (existsb negative_fact facts)) ErrCollectionRunContract;
  let row := metrics_of ((fun f => (global_user f, f)) <$> facts) in
  requestCount ← st_lift (parseUsageAggregateMetric row.(Metrics.RequestCount));
  quota ← st_lift (parseUsageAggregateMetric row.(Metrics.Quota));
  tokenUsed ← st_lift (parseUsageAggregateMetric row.(Metrics.TokenUsed));
  mret (Metrics.mk requestCount quota tokenUsed row.(Metrics.ActiveUsers)).

(** A statement on the tables of the statistics. *)
Definition stats_update {A} (f : Statistics -> result (A * Statistics)) : Tx A := fun d =>
  match f (Tables.statistics d) with
  | Ok (a, s) => Ok (a, d <| Tables.statistics := s |>)
  | Err e => Err e
  end.
Definition stats_modify (f : Statistics -> Statistics) : Tx unit := stats_update (fun s => Ok (tt, f s)).

(** ** The rows of the INSERT ... SELECT statements

    [bucket] is the hour or the date of the rows, [in_range] the hours that
    count for it. *)
Section RollupRows.
Context (d : Db) (siteID bucket : Z) (in_range : Z -> bool).

Definition site_facts : list UsageFactHourly :=
  base.filter (fun f => (f.(Fact.SiteID) =? siteID) && in_range f.(Fact.HourTS) && complete_fact d f = true) (table_rows d).

(** CASE WHEN remote_user_id > 0 THEN remote_user_id END *)
Definition fact_user (f : UsageFactHourly) : option Z :=
  if 0 <? f.(Fact.RemoteUserID) then Some f.(Fact.RemoteUserID) else None.

Definition site_items : list (Z * Z * (option Z * UsageFactHourly)) :=
  (fun f => (f.(Fact.SiteID), bucket, (fact_user f, f))) <$> site_facts.
Definition model_items : list (Z * string * Z * (option Z * UsageFactHourly)) :=
  (fun f => (f.(Fact.SiteID), f.(Fact.ModelName), bucket, (fact_user f, f))) <$> site_facts.
Definition channel_items : list (Z * Z * Z * (option Z * UsageFactHourly)) :=
  (fun f => (f.(Fact.SiteID), f.(Fact.ChannelID), bucket, (fact_user f, f))) <$> site_facts.

(** FROM account AS a JOIN usage_fact_hourly AS f: the facts of an account. *)
Definition account_facts (included : Z -> bool) (a : Account) : list UsageFactHourly :=
  base.filter (fun f => (a.(MAccount.RemoteUserID) =? f.(Fact.RemoteUserID))
                        && account_counts included f.(Fact.HourTS) a = true) site_facts.
Definition site_accounts : list Account := select (fun a => a.(MAccount.SiteID) =? siteID) by_id d.
Definition account_items (includePausedAccounts : list Z) : list (Z * Z * (option Z * UsageFactHourly)) :=
  site_accounts ≫= fun a =>
    (fun f => (a.(MAccount.ID), bucket, (None, f)))
    <$> account_facts (fun id => existsb (Z.eqb id) includePausedAccounts) a.
Definition customer_items (includePausedAccounts includePausedCustomers : list Z)
  : list (Z * Z * Z * (option Z * UsageFactHourly)) :=
  site_accounts ≫= fun a =>
    base.filter (fun c => c.(MCustomer.ID) =? a.(MAccount.CustomerID) = true) (table_rows d) ≫= fun c =>
      (fun f => (c.(MCustomer.ID), a.(MAccount.SiteID), bucket, (Some a.(MAccount.ID), f)))
      <$> base.filter (fun f => not_paused c.(MCustomer.StatisticsPausedAt) f.(Fact.HourTS)
                                || existsb (Z.eqb c.(MCustomer.ID)) includePausedCustomers = true)
            (account_facts (fun id => existsb (Z.eqb id) includePausedAccounts) a).
End RollupRows.

(** A row per group. *)
Definition stat_rows {K} `{!EqDecision K, !Countable K} (status : string) (final : bool) (now : Z)
    (items : list (K * (option Z * UsageFactHourly))) : gmap K StatRow :=
  (fun l => Stat.mk (metrics_of l) status final now now now) <$> grouped items.

(** The columns are bigint. *)
Definition fits_int64 (z : Z) : bool := (min_int64 <=? z) && (z <=? max_int64).
Definition stat_fits (r : StatRow) : bool :=
  fits_int64 r.(Stat.metrics).(Metrics.RequestCount) && fits_int64 r.(Stat.metrics).(Metrics.Quota)
  && fits_int64 r.(Stat.metrics).(Metrics.TokenUsed).

(** The six DELETE statements of a rebuild. *)
Definition clear_bucket (siteID bucket : Z) (accountIDs : list Z) (r : Rollup) : Rollup :=
  r <| Rollup.account_stat := delete_keys (fun '(id, b) => (b =? bucket) && existsb (Z.eqb id) accountIDs) r.(Rollup.account_stat) |>
    <| Rollup.customer_stat := delete_keys (fun '(_, s, b) => (s =? siteID) && (b =? bucket)) r.(Rollup.customer_stat) |>
    <| Rollup.site_stat := delete_keys (fun '(s, b) => (s =? siteID) && (b =? bucket)) r.(Rollup.site_stat) |>
    <| Rollup.model_stat := delete_keys (fun '(s, _, b) => (s =? siteID) && (b =? bucket)) r.(Rollup.model_stat) |>
    <| Rollup.channel_stat := delete_keys (fun '(s, _, b) => (s =? siteID) && (b =? bucket)) r.(Rollup.channel_stat) |>
    <| Rollup.global_stat := delete_keys (fun b => b =? bucket) r.(Rollup.global_stat) |>.

(** The rows of the five INSERT ... SELECT statements. *)
Module NewRows.
Record NewRows := mk {
  accounts : gmap (Z * Z) StatRow; customers : gmap (Z * Z * Z) StatRow; sites : gmap (Z * Z) StatRow;
  models : gmap (Z * string * Z) StatRow; channels : gmap (Z * Z * Z) StatRow }.
End NewRows.
Abbreviation NewRows := NewRows.NewRows.

Definition insert_bucket (new : NewRows) (r : Rollup) : result (Z * Rollup) :=
  '(n1, accounts) ← insert_select stat_fits new.(NewRows.accounts) r.(Rollup.account_stat);
  '(n2, customers) ← insert_select stat_fits new.(NewRows.customers) r.(Rollup.customer_stat);
  '(n3, sites) ← insert_select stat_fits new.(NewRows.sites) r.(Rollup.site_stat);
  '(n4, models) ← insert_select stat_fits new.(NewRows.models) r.(Rollup.model_stat);
  '(n5, channels) ← insert_select stat_fits new.(NewRows.channels) r.(Rollup.channel_stat);
  Ok (n1 + n2 + n3 + n4 + n5, Rollup.mk accounts customers sites r.(Rollup.global_stat) models channels).

(** The row over all sites. *)
Definition insert_global (bucket now : Z) (metrics : usageMetricAggregate) (coverage : usageCoverage) (final : bool)
    (r : Rollup) : result (Z * Rollup) :=
  if (coverage.(Coverage.Expected) <? coverage.(Coverage.Complete))
     || (nonzero metrics && (coverage.(Coverage.Complete) =? 0)) then Err ErrCollectionRunContract
  else if (0 <? coverage.(Coverage.Complete))
          && (nonzero metrics || (coverage.(Coverage.Complete) <? coverage.(Coverage.Expected))) then
    '(n, global) ← insert_select stat_fits
                     {[bucket := Stat.mk metrics (Coverage.status coverage) final now now now]} r.(Rollup.global_stat);
    Ok (n, r <| Rollup.global_stat := global |>)
  else Ok (0, r).

Definition on_hourly (f : Rollup -> result (Z * Rollup)) (s : Statistics) : result (Z * Statistics) :=
  '(n, r) ← f s.(Statistics.hourly); Ok (n, s <| Statistics.hourly := r |>).
Definition on_daily (f : Rollup -> result (Z * Rollup)) (s : Statistics) : result (Z * Statistics) :=
  '(n, r) ← f s.(Statistics.daily); Ok (n, s <| Statistics.daily := r |>).

Definition hourly_rows (d : Db) (siteID hourTS now : Z) (options : usageAggregationRebuildOptions) : NewRows :=
  let pausedAccounts := usageAggregationOverrideIDs options.(RebuildOptions.includePausedAccountIDs) in
  let pausedCustomers := usageAggregationOverrideIDs options.(RebuildOptions.includePausedCustomerIDs) in
  let in_range := Z.eqb hourTS in
  NewRows.mk
    (stat_rows "complete" false now (account_items d siteID hourTS in_range pausedAccounts))
    (stat_rows "complete" false now (customer_items d siteID hourTS in_range pausedAccounts pausedCustomers))
    (stat_rows "complete" false now (site_items d siteID hourTS in_range))
    (stat_rows "complete" false now (model_items d siteID hourTS in_range))
    (stat_rows "complete" false now (channel_items d siteID hourTS in_range)).

Definition rebuildUsageHourly (siteID hourTS now : Z) (globalMetrics : usageMetricAggregate)
    (globalCoverage : usageCoverage) (options : usageAggregationRebuildOptions) : Tx Z :=
  accountIDs ← st_gets (fun d => MAccount.ID <$> site_accounts d siteID);
  new ← st_gets (fun d => hourly_rows d siteID hourTS now options);
  _ ← stats_modify (fun s => s <| Statistics.hourly := clear_bucket siteID hourTS accountIDs s.(Statistics.hourly) |>);
  rows ← stats_update (on_hourly (insert_bucket new));
  global ← stats_update (on_hourly (insert_global hourTS now globalMetrics globalCoverage false));
  mret (rows + global).

(** ** The facts of the day *)

(** The facts a day's facts are summed from. *)
Definition authoritative_facts (d : Db) (siteID dateStart dateEnd : Z) : list UsageFactHourly :=
  base.filter (fun f => (f.(Fact.SiteID) =? siteID) && in_scope usageAggregateDate dateStart dateEnd f.(Fact.HourTS)
                        && complete_fact d f && within_statistics d f = true) (table_rows d).

Definition daily_key_order (k : fact_key_of) : sort_key :=
  let '(user, model, channel, group, token, node) := k in
  [AInt user; AStr model; AInt channel; AStr group; AInt token; AStr node].

Definition affectedUsageFactDailyKeys (siteID dateStart dateEnd : Z) (facts : list UsageFactHourly)
  : result (list fact_key_of) :=
  if existsb (fun f => negb (f.(Fact.SiteID) =? siteID) || (f.(Fact.HourTS) <? dateStart)
                       || (dateEnd <=? f.(Fact.HourTS))) facts
  then Err ErrCollectionRunContract
  else Ok (sort_by daily_key_order (elements (list_to_set (fact_key <$> facts) : gset fact_key_of))).

(** COALESCE(MIN(NULLIF(name, '')), '') *)
Definition lesser_name (name least : string) : string :=
  if name == "" then least
  else if (least == "") || bool_decide (String.le name least) then name else least.
Definition least_name (names : list string) : string := foldr lesser_name "" names.

Definition daily_row (final : bool) (now : Z) (l : list UsageFactHourly) : UsageFactDaily :=
  DailyFact.mk (least_name (Fact.UsernameSnapshot <$> l)) (least_name (Fact.TokenName <$> l))
    (sum_of Fact.RequestCount l) (sum_of Fact.Quota l) (sum_of Fact.TokenUsed l) final now now now.
Definition daily_fits (r : UsageFactDaily) : bool :=
  fits_int64 r.(DailyFact.RequestCount) && fits_int64 r.(DailyFact.Quota) && fits_int64 r.(DailyFact.TokenUsed).

Definition daily_items (siteID dateKey : Z) (facts : list UsageFactHourly) : list (daily_key * UsageFactHourly) :=
  (fun f => ((siteID, fact_key f, dateKey), f)) <$> facts.

Definition of_day (siteID dateKey : Z) (k : daily_key) : bool :=
  let '(s, _, date) := k in (s =? siteID) && (date =? dateKey).
Definition key_of_day (k : daily_key) : fact_key_of := k.1.2.
Definition in_keys (keys : list fact_key_of) (k : fact_key_of) : bool := bool_decide (k ∈ keys).

(** One batch of keys: delete their rows, insert them from the facts. *)
Definition refresh_batch (siteID dateKey now : Z) (final : bool) (facts : list UsageFactHourly)
    (batch : list fact_key_of) (t : gmap daily_key UsageFactDaily) : result (Z * gmap daily_key UsageFactDaily) :=
  let stale k := of_day siteID dateKey k && in_keys batch (key_of_day k) in
  let new := daily_row final now
             <$> grouped (daily_items siteID dateKey (base.filter (fun f => in_keys batch (fact_key f) = true) facts)) in
  '(n, t') ← insert_select daily_fits new (delete_keys stale t);
  Ok (deleted stale t + n, t').

Fixpoint refresh_batches (siteID dateKey now : Z) (final : bool) (facts : list UsageFactHourly)
    (batches : list (list fact_key_of)) (t : gmap daily_key UsageFactDaily) : result (Z * gmap daily_key UsageFactDaily) :=
  match batches with
  | [] => Ok (0, t)
  | batch :: rest =>
      '(n, t1) ← refresh_batch siteID dateKey now final facts batch t;
      '(m, t2) ← refresh_batches siteID dateKey now final facts rest t1;
      Ok (n + m, t2)
  end.

Definition set_finality (siteID dateKey now : Z) (final : bool) (t : gmap daily_key UsageFactDaily)
  : Z * gmap daily_key UsageFactDaily :=
  let differs k (r : UsageFactDaily) := of_day siteID dateKey k && negb (Bool.eqb r.(DailyFact.IsFinal) final) in
  (updated differs t,
   update_rows differs (fun r => r <| DailyFact.IsFinal := final |> <| DailyFact.LastCalculatedAt := now |>
                                   <| DailyFact.UpdatedAt := now |>) t).

Definition refreshUsageFactDaily (siteID dateKey dateStart dateEnd now : Z) (isFinal fullSweep : bool)
    (affectedFacts : list UsageFactHourly) : Tx Z :=
  keys ← st_lift (affectedUsageFactDailyKeys siteID dateStart dateEnd affectedFacts);
  facts ← st_gets (fun d => authoritative_facts d siteID dateStart dateEnd);
  stats_update (fun s =>
    let t := s.(Statistics.usage_fact_daily) in
    let stale k := fullSweep && of_day siteID dateKey k && negb (in_keys (fact_key <$> facts) (key_of_day k)) in
    '(rows, t') ← refresh_batches siteID dateKey now isFinal facts (chunks_of (List.length keys) 200 keys)
                    (delete_keys stale t);
    let '(n, t'') := set_finality siteID dateKey now isFinal t' in
    Ok (deleted stale t + rows + n, s <| Statistics.usage_fact_daily := t'' |>)).

Definition shouldSweepUsageFactDaily (prior : option usageCoverage) (current : usageCoverage) (now dateEnd : Z) : bool :=
  match prior with
  | Some prior =>
      if negb (Coverage.valid prior) || negb (Coverage.valid current) || (current.(Coverage.Expected) <=? 0)
         || negb (current.(Coverage.Complete) =? current.(Coverage.Expected)) then false
      else if negb ((0 <? prior.(Coverage.Expected)) && (prior.(Coverage.Complete) =? prior.(Coverage.Expected))) then true
      else Coverage.final current now dateEnd && negb (Coverage.final prior now dateEnd)
  | None => false
  end.

(** ** The daily roll-ups *)
Definition daily_rows (d : Db) (siteID dateKey dateStart dateEnd now : Z) (status : string) (final : bool)
    (options : usageAggregationRebuildOptions) : NewRows :=
  let pausedAccounts := usageAggregationOverrideIDs options.(RebuildOptions.includePausedAccountIDs) in
  let pausedCustomers := usageAggregationOverrideIDs options.(RebuildOptions.includePausedCustomerIDs) in
  let in_range := in_scope usageAggregateDate dateStart dateEnd in
  NewRows.mk
    (stat_rows "complete" false now (account_items d siteID dateKey in_range pausedAccounts))
    (stat_rows "complete" false now (customer_items d siteID dateKey in_range pausedAccounts pausedCustomers))
    (stat_rows status final now (site_items d siteID dateKey in_range))
    (stat_rows status final now (model_items d siteID dateKey in_range))
    (stat_rows status final now (channel_items d siteID dateKey in_range)).

(** The row of a bucket that is known to be partial but has no facts. *)
Definition zero_row (now : Z) : StatRow := Stat.mk no_usage UsageAggregationStatusPartial false now now now.

(** Inserted where no row is, for every coverage that is known to be partial. *)
Definition insert_zeros {K} `{!EqDecision K, !Countable K} (now : Z) (partial : list K) (t : gmap K StatRow)
  : Z * gmap K StatRow :=
  foldl (fun '(n, t) k => let '(m, t') := insert_ignore k (zero_row now) t in (n + m, t')) (0, t) partial.

Definition partial_ids (coverage : gmap Z usageCoverage) : list Z :=
  (base.filter (fun '(_, c) => Coverage.knownPartial c = true) (map_to_list coverage)).*1.

(** The status and the finality an entity's coverage gives its row; gorm
    stamps the time of the update. *)
Definition covered_row (gormNow now dateEnd : Z) (c : usageCoverage) (r : StatRow) : StatRow :=
  r <| Stat.DataStatus := Coverage.status c |> <| Stat.IsFinal := Coverage.final c now dateEnd |>
    <| Stat.UpdatedAt := gormNow |>.
Definition cover_rows {K} `{!EqDecision K, !Countable K} (key : Z -> K) (gormNow now dateEnd : Z)
    (coverage : gmap Z usageCoverage) (t : gmap K StatRow) : gmap K StatRow :=
  foldl (fun t '(id, c) => update_key (key id) (covered_row gormNow now dateEnd c) t) t (map_to_list coverage).

Definition all_valid (coverage : gmap Z usageCoverage) : bool :=
  forallb (fun '(_, c) => Coverage.valid c) (map_to_list coverage).

(** The zero rows and the statuses of a day. *)
Definition cover_daily (siteID dateKey dateEnd now gormNow : Z) (siteCoverage : usageCoverage)
    (accountCoverage customerCoverage : gmap Z usageCoverage) (r : Rollup) : Z * Rollup :=
  let '(n1, sites) := insert_zeros now (if Coverage.knownPartial siteCoverage then [(siteID, dateKey)] else [])
                        r.(Rollup.site_stat) in
  let '(n2, accounts) := insert_zeros now ((fun id => (id, dateKey)) <$> partial_ids accountCoverage)
                           r.(Rollup.account_stat) in
  let '(n3, customers) := insert_zeros now ((fun id => (id, siteID, dateKey)) <$> partial_ids customerCoverage)
                            r.(Rollup.customer_stat) in
  (n1 + n2 + n3, r <| Rollup.site_stat := sites |>
     <| Rollup.account_stat := cover_rows (fun id => (id, dateKey)) gormNow now dateEnd accountCoverage accounts |>
     <| Rollup.customer_stat :=
          cover_rows (fun id => (id, siteID, dateKey)) gormNow now dateEnd customerCoverage customers |>).

Definition rebuildUsageDaily (siteID dateKey dateStart dateEnd now : Z) (globalMetrics : usageMetricAggregate)
    (coverage : usageDailyCoverage) (affectedFacts : list UsageFactHourly)
    (options : usageAggregationRebuildOptions) : Tx Z :=
  let siteCoverage := default no_coverage (coverage.(DailyCoverage.bySite) !! siteID) in
  _ ← st_require (not_nil (coverage.(DailyCoverage.bySite) !! siteID) && (0 <? siteCoverage.(Coverage.Expected)))
        ErrCollectionRunContract;
  '(accountCoverage, customerCoverage) ← loadUsageEntityCoverage coverage siteID options;
  let siteFinal := Coverage.final siteCoverage now dateEnd in
  let fullSweep := shouldSweepUsageFactDaily options.(RebuildOptions.priorSiteCoverage) siteCoverage now dateEnd in
  rows ← refreshUsageFactDaily siteID dateKey dateStart dateEnd now siteFinal fullSweep affectedFacts;
  accountIDs ← st_gets (fun d => MAccount.ID <$> site_accounts d siteID);
  new ← st_gets (fun d => daily_rows d siteID dateKey dateStart dateEnd now (Coverage.status siteCoverage) siteFinal options);
  gormNow ← st_gets Tables.gorm_now;
  _ ← stats_modify (fun s => s <| Statistics.daily := clear_bucket siteID dateKey accountIDs s.(Statistics.daily) |>);
  inserted ← stats_update (on_daily (insert_bucket new));
  _ ← st_require (Coverage.valid siteCoverage && all_valid accountCoverage && all_valid customerCoverage)
        ErrCollectionRunContract;
  zeros ← stats_update (on_daily (fun r =>
    Ok (cover_daily siteID dateKey dateEnd now gormNow siteCoverage accountCoverage customerCoverage r)));
  let total := coverage.(DailyCoverage.global) in
  global ← stats_update (on_daily (insert_global dateKey now globalMetrics total (Coverage.final total now dateEnd)));
  mret (rows + inserted + zeros + global).

(** ** Rebuilding the buckets of an hour *)
Module AggregationResult.
Record UsageAggregationMutationResult := mk {
  Window : option UsageWindowMutationResult; HourTS : Z; DateKey : Z; HourlyRows : Z; DailyRows : Z }.
#[export] Instance AggregationResult_eta : RecordEta UsageAggregationMutationResult := fun r =>
  mk (Window r) (HourTS r) (DateKey r) (HourlyRows r) (DailyRows r).
End AggregationResult.
Export (hints) AggregationResult.
Abbreviation UsageAggregationMutationResult := AggregationResult.UsageAggregationMutationResult.

Definition rebuildUsageAggregationBuckets (siteID hourTS dateKey dateStart dateEnd now : Z)
    (affectedFacts : list UsageFactHourly) (options : usageAggregationRebuildOptions)
  : Tx UsageAggregationMutationResult :=
  _ ← st_require (negb ((siteID <=? 0) || (hourTS <=? 0) || negb (hour_aligned hourTS) || (dateKey <=? 0)
        || (dateStart <=? 0) || negb (dateEnd - dateStart =? 24 * 3600) || (hourTS <? dateStart) || (dateEnd <=? hourTS)
        || (now <=? 0))) ErrCollectionRunContract;
  hourMetrics ← loadUsageAggregateMetrics usageAggregateHour hourTS 0;
  dateMetrics ← loadUsageAggregateMetrics usageAggregateDate dateStart dateEnd;
  coverage ← loadUsageDailyCoverage dateStart dateEnd;
  _ ← st_require (RebuildOptions.validate options) ErrCollectionRunContract;
  hourlyRows ← rebuildUsageHourly siteID hourTS now hourMetrics (hour_coverage coverage hourTS) options;
  dailyRows ← rebuildUsageDaily siteID dateKey dateStart dateEnd now dateMetrics coverage affectedFacts options;
  mret (AggregationResult.mk None hourTS dateKey hourlyRows dailyRows).

(** The site, model and channel names of a day whose buckets a commit may touch. *)
Definition day_facts (d : Db) (siteID dateStart dateEnd : Z) : list UsageFactHourly :=
  base.filter (fun f => (f.(Fact.SiteID) =? siteID) && (dateStart <=? f.(Fact.HourTS)) && (f.(Fact.HourTS) <? dateEnd) = true)
    (table_rows d).

(** The names of the rows of one bucket. *)
Definition names_of {N} `{!EqDecision N, !Countable N} (siteID bucket : Z) (t : gmap (Z * N * Z) StatRow) : list N :=
  (fun e => e.1.1.2) <$> base.filter (fun e => (e.1.1.1 =? siteID) && (e.1.2 =? bucket) = true) (map_to_list t).

(** %d and the separator of the hashed names. *)
Definition decimal (z : Z) : string := FormatInt z.
Definition nul : string := String Ascii.zero "".

(** Keys sorted by [sort.Strings], each once; none may be longer than the column. *)
Definition sorted_keys (keys : list string) : list string := sort_by (fun k => [AStr k]) keys.
Fixpoint compact_keys (keys : list string) : list string :=
  match keys with
  | k :: (k' :: _) as rest => if k == k' then compact_keys rest else k :: compact_keys rest
  | _ => keys
  end.

Section Buckets.
(** crypto/sha256 followed by encoding/hex. *)
Context (sha256_hex : list Z -> string).

Definition usageHashedBucketKeyValue (kind input : string) : string :=
  "stats:" +:+ kind +:+ ":" +:+ String.substring 0 48 (sha256_hex (text_bytes input)).
Definition usageHashedBucketKey (kind granularity : string) (values : list Z) : string :=
  usageHashedBucketKeyValue kind
    (foldl (fun input value => input +:+ nul +:+ decimal value) (kind +:+ nul +:+ granularity) values).
Definition usageHashedStringBucketKey (kind granularity : string) (first second : Z) (value : string) : string :=
  usageHashedBucketKeyValue kind
    (kind +:+ nul +:+ granularity +:+ nul +:+ decimal first +:+ nul +:+ decimal second +:+ nul +:+ value).

(** The keys in the order the code collects them, ranging over its maps. *)
Definition bucket_keys (d : Db) (siteID hourTS dateKey dateStart dateEnd : Z) (newFacts : list UsageFactHourly)
  : list string :=
  let accounts := site_accounts d siteID in
  let facts := day_facts d siteID dateStart dateEnd in
  let stats := Tables.statistics d in
  let customers : gset Z := list_to_set (MAccount.CustomerID <$> accounts) in
  let models : gset string := list_to_set ((Fact.ModelName <$> facts)
      ++ names_of siteID hourTS stats.(Statistics.hourly).(Rollup.model_stat)
      ++ names_of siteID dateKey stats.(Statistics.daily).(Rollup.model_stat) ++ (Fact.ModelName <$> newFacts)) in
  let channels : gset Z := list_to_set ((Fact.ChannelID <$> facts)
      ++ names_of siteID hourTS stats.(Statistics.hourly).(Rollup.channel_stat)
      ++ names_of siteID dateKey stats.(Statistics.daily).(Rollup.channel_stat) ++ (Fact.ChannelID <$> newFacts)) in
  ["stats:site:" +:+ decimal siteID +:+ ":hour:" +:+ decimal hourTS;
   "stats:site:" +:+ decimal siteID +:+ ":date:" +:+ decimal dateKey;
   "stats:global:hour:" +:+ decimal hourTS;
   "stats:global:date:" +:+ decimal dateKey]
  ++ (accounts ≫= fun a =>
        [usageHashedBucketKey "account" "hour" [a.(MAccount.ID); siteID; hourTS];
         usageHashedBucketKey "account" "date" [a.(MAccount.ID); siteID; dateKey]])
  ++ (elements customers ≫= fun id =>
        [usageHashedBucketKey "customer" "hour" [id; siteID; hourTS];
         usageHashedBucketKey "customer" "date" [id; siteID; dateKey]])
  ++ (elements models ≫= fun name =>
        [usageHashedStringBucketKey "model" "hour" siteID hourTS name;
         usageHashedStringBucketKey "model" "date" siteID dateKey name])
  ++ (elements channels ≫= fun id =>
        [usageHashedBucketKey "channel" "hour" [siteID; id; hourTS];
         usageHashedBucketKey "channel" "date" [siteID; id; dateKey]]).

Definition usageAggregationBucketKeys (siteID hourTS dateKey dateStart dateEnd : Z) (newFacts : list UsageFactHourly)
  : Tx (list string) :=
  _ ← st_require (0 <? siteID) ErrCollectionRunContract;
  keys ← st_gets (fun d => bucket_keys d siteID hourTS dateKey dateStart dateEnd newFacts);
  _ ← st_require (forallb (fun k => len k <=? 64) keys) ErrCollectionRunContract;
  mret (compact_keys (sorted_keys keys)).

Definition sorted_strings (keys : list string) : bool :=
  bool_decide (StronglySorted (by_key (fun k => [AStr k])) keys).

(** Every lock row exists afterwards and carries the time. *)
Definition lockUsageAggregationBuckets (keys : list string) (now : Z) : Tx unit :=
  _ ← st_require (negb (bool_decide (keys = [])) && (0 <? now) && sorted_strings keys) ErrCollectionRunContract;
  stats_modify (fun s => s <| Statistics.aggregation_bucket_lock :=
    foldl (fun t key => <[key := now]> t) s.(Statistics.aggregation_bucket_lock) keys |>).

(** ** The commit of a collected hour *)

(** UPDATE ... SET is_final = true WHERE ... AND is_final = 0; through a gorm
    model the update also stamps [updated_at]. *)
Definition finalize_rows {K} `{!EqDecision K, !Countable K} (p : K -> bool) (stamp : option Z) (t : gmap K StatRow)
  : Z * gmap K StatRow :=
  let open k (r : StatRow) := p k && negb r.(Stat.IsFinal) in
  (updated open t,
   update_rows open (fun r =>
     let r := r <| Stat.IsFinal := true |> in
     match stamp with Some now => r <| Stat.UpdatedAt := now |> | None => r end) t).
Definition finalize_facts (siteID dateKey : Z) (t : gmap daily_key UsageFactDaily) : Z * gmap daily_key UsageFactDaily :=
  let open k (r : UsageFactDaily) := of_day siteID dateKey k && negb r.(DailyFact.IsFinal) in
  (updated open t, update_rows open (fun r => r <| DailyFact.IsFinal := true |>) t).

Definition final_ids (now dateEnd : Z) (coverage : gmap Z usageCoverage) : list Z :=
  (base.filter (fun '(_, c) => Coverage.final c now dateEnd = true) (map_to_list coverage)).*1.

Definition finalize_site (siteID dateKey : Z) (s : Statistics) : Z * Statistics :=
  let r := s.(Statistics.daily) in
  let '(n1, facts) := finalize_facts siteID dateKey s.(Statistics.usage_fact_daily) in
  let '(n2, sites) := finalize_rows (fun '(x, b) => (x =? siteID) && (b =? dateKey)) None r.(Rollup.site_stat) in
  let '(n3, models) := finalize_rows (fun '(x, _, b) => (x =? siteID) && (b =? dateKey)) None r.(Rollup.model_stat) in
  let '(n4, channels) := finalize_rows (fun '(x, _, b) => (x =? siteID) && (b =? dateKey)) None r.(Rollup.channel_stat) in
  (n1 + n2 + n3 + n4, s <| Statistics.usage_fact_daily := facts |>
     <| Statistics.daily := r <| Rollup.site_stat := sites |> <| Rollup.model_stat := models |>
                              <| Rollup.channel_stat := channels |> |>).

Definition finalize_entities (siteID dateKey gormNow : Z) (accountIDs customerIDs : list Z) (s : Statistics)
  : Z * Statistics :=
  let r := s.(Statistics.daily) in
  let '(n1, accounts) := finalize_rows (fun '(id, b) => existsb (Z.eqb id) accountIDs && (b =? dateKey)) (Some gormNow)
                           r.(Rollup.account_stat) in
  let '(n2, customers) := finalize_rows (fun '(id, x, b) => existsb (Z.eqb id) customerIDs && (x =? siteID) && (b =? dateKey))
                            (Some gormNow) r.(Rollup.customer_stat) in
  (n1 + n2, s <| Statistics.daily := r <| Rollup.account_stat := accounts |> <| Rollup.customer_stat := customers |> |>).

Definition finalize_global (dateKey gormNow : Z) (s : Statistics) : Z * Statistics :=
  let '(n, global) := finalize_rows (fun b => b =? dateKey) (Some gormNow) s.(Statistics.daily).(Rollup.global_stat) in
  (n, s <| Statistics.daily := s.(Statistics.daily) <| Rollup.global_stat := global |> |>).

(** An update under a condition. *)
Definition stats_when (b : bool) (f : Statistics -> Z * Statistics) : Tx Z :=
  if b then stats_update (fun s => Ok (f s)) else mret 0.

Definition refreshUsageDailyFinality (siteID dateKey dateStart dateEnd now : Z) : Tx Z :=
  coverage ← loadUsageDailyCoverage dateStart dateEnd;
  let siteCoverage := default no_coverage (coverage.(DailyCoverage.bySite) !! siteID) in
  _ ← st_require (not_nil (coverage.(DailyCoverage.bySite) !! siteID) && Coverage.valid siteCoverage
                  && (0 <? siteCoverage.(Coverage.Expected))) ErrCollectionRunContract;
  '(accountCoverage, customerCoverage) ← loadUsageEntityCoverage coverage siteID no_options;
  gormNow ← st_gets Tables.gorm_now;
  n1 ← stats_when (Coverage.final siteCoverage now dateEnd) (finalize_site siteID dateKey);
  _ ← st_require (all_valid accountCoverage && all_valid customerCoverage) ErrCollectionRunContract;
  n2 ← stats_when true (finalize_entities siteID dateKey gormNow (final_ids now dateEnd accountCoverage)
                          (final_ids now dateEnd customerCoverage));
  let global := coverage.(DailyCoverage.global) in
  _ ← st_require (Coverage.valid global) ErrCollectionRunContract;
  n3 ← stats_when (Coverage.final global now dateEnd) (finalize_global dateKey gormNow);
  mret (n1 + n2 + n3).

Abbreviation UsageAggregationCommit := (CollectionTaskWindowMutationScope -> Tx UsageAggregationMutationResult).

(** The body of the commit [NewUsageAggregationCommit] returns. *)
Definition apply_aggregation (t : UsageTarget) (canonicalFacts : list UsageFactHourly) (factMutation : UsageFactMutation)
  : UsageAggregationCommit := fun scope =>
  let siteID := t.(UsageTarget.SiteID) in
  let hourTS := t.(UsageTarget.HourTS) in
  let now := t.(UsageTarget.Now) in
  lockedScope ← lockUsageMutationScope scope t;
  '(dateKey, dateStart, dateEnd) ← st_lift (UsageDateBucket hourTS);
  keys ← usageAggregationBucketKeys siteID hourTS dateKey dateStart dateEnd canonicalFacts;
  _ ← lockUsageAggregationBuckets keys now;
  previousFacts ← db_select (fact_of siteID hourTS) by_id;
  priorCoverage ← loadUsageDailyCoverage dateStart dateEnd;
  let prior := priorCoverage.(DailyCoverage.bySite) !! siteID in
  let priorSiteCoverage := default no_coverage prior in
  _ ← st_require (not_nil prior && Coverage.valid priorSiteCoverage && (0 <? priorSiteCoverage.(Coverage.Expected)))
        ErrCollectionRunContract;
  windowResult ← factMutation lockedScope;
  if windowResult.(UsageResult.VerifiedOnly) then
    dailyRows ← refreshUsageDailyFinality siteID dateKey dateStart dateEnd now;
    mret (AggregationResult.mk (Some windowResult) 0 0 0 dailyRows)
  else
    rebuilt ← rebuildUsageAggregationBuckets siteID hourTS dateKey dateStart dateEnd now
                (previousFacts ++ canonicalFacts) (RebuildOptions.mk ∅ ∅ (Some priorSiteCoverage));
    mret (rebuilt <| AggregationResult.Window := Some windowResult |>).

Definition NewUsageAggregationCommit (target : UsageTarget) (newFacts : list UsageFactInput)
    (factMutation : UsageFactMutation) : result UsageAggregationCommit :=
  match canonicalUsageFacts sha256_hex target.(UsageTarget.SiteID) target.(UsageTarget.HourTS)
          target.(UsageTarget.Now) newFacts with
  | Err _ => Err ErrCollectionRunContract
  | Ok (canonicalFacts, _) =>
      if negb (target_valid target 0) then Err ErrCollectionRunContract
      else Ok (apply_aggregation target canonicalFacts factMutation)
  end.

(** [ApplyCollectionTaskWindow]: the commit as the handler of a claimed window. *)
Definition aggregation_handler (commit : UsageAggregationCommit) : CollectionTaskWindowMutation := fun scope =>
  result ← commit scope;
  mret (match result.(AggregationResult.Window) with
        | Some w => (w.(UsageResult.FetchedRows), w.(UsageResult.WrittenRows))
        | None => (0, 0)
        end).
End Buckets.
