(* ===== verification/LocalRebuild.v ===== *)
(** * Rebuilding the statistics of one account or customer ([model/local_rebuild.go])

    The handler of a window of an account or customer rebuild: it checks that
    it is the window of its claim, that the facts of the hour are complete, and
    recomputes the buckets of the hour with the paused account, or the paused
    customer and its accounts, included. *)

From S2P Require Import Prelude Constants GoText Stats DateBucket Store RunContract RunState RunRepository SiteFence TaskScope TaskClaim TaskCommit Materialize UsageFacts UsageAggregation.

Module LocalRebuild.
Record LocalRebuildMutationRequest := mk {
  RunID : Z; WindowID : Z; SiteID : Z; HourTS : Z; AttemptCount : Z; RequestID : string; Now : Z; TaskType : string;
  TargetID : Z }.
End LocalRebuild.
Abbreviation LocalRebuildMutationRequest := LocalRebuild.LocalRebuildMutationRequest.

(** The account or the customer of the run, with the accounts a customer
    rebuild resumes. *)
Definition localRebuildAggregationOptions (run : CollectionRun) : Tx usageAggregationRebuildOptions :=
  options ← (if run.(Run.TaskType) == TaskTypeAccountRebuild then
      _ ← st_require (run.(Run.TargetType) == "account") ErrCollectionRunContract;
      mret (RebuildOptions.mk {[run.(Run.TargetID)]} ∅ None)
    else if run.(Run.TaskType) == TaskTypeCustomerRebuild then
      _ ← st_require (run.(Run.TargetType) == "customer") ErrCollectionRunContract;
      accounts ← db_select (fun a => (a.(MAccount.CustomerID) =? run.(Run.TargetID))
                    && (a.(MAccount.ManagedStatus) != AccountManagedStatusArchived)
                    && (a.(MAccount.RemoteState) != AccountRemoteStateIdentityMismatch)) by_id;
      mret (RebuildOptions.mk (list_to_set (MAccount.ID <$> accounts)) {[run.(Run.TargetID)]} None)
    else st_fail ErrCollectionRunContract : Tx usageAggregationRebuildOptions);
  _ ← st_require (RebuildOptions.validate options) ErrCollectionRunContract;
  mret options.

Definition rebuild_scope_matches (request : LocalRebuildMutationRequest) (scope : CollectionTaskWindowMutationScope) : bool :=
  let run := scope.(MutationScope.run) in
  let window := scope.(MutationScope.window) in
  let expectedTarget := if request.(LocalRebuild.TaskType) == TaskTypeCustomerRebuild then "customer" else "account" in
  (scope.(MutationScope.site).(MSite.ID) =? request.(LocalRebuild.SiteID)) && (run.(Run.ID) =? request.(LocalRebuild.RunID))
  && (run.(Run.TaskType) == request.(LocalRebuild.TaskType)) && (run.(Run.TargetType) == expectedTarget)
  && (run.(Run.TargetID) =? request.(LocalRebuild.TargetID)) && is_nil run.(Run.SiteID)
  && (run.(Run.SiteConfigVersion) =? 0)
  && match run.(Run.StartTimestamp), run.(Run.EndTimestamp) with
     | Some start, Some end_ => (start <=? request.(LocalRebuild.HourTS)) && (request.(LocalRebuild.HourTS) <? end_)
     | _, _ => false
     end
  && (run.(Run.Status) == CollectionTaskStatusRunning) && (run.(Run.LastRequestID) == request.(LocalRebuild.RequestID))
  && (window.(RunWindow.ID) =? request.(LocalRebuild.WindowID)) && (window.(RunWindow.RunID) =? run.(Run.ID))
  && (window.(RunWindow.SiteID) =? request.(LocalRebuild.SiteID))
  && (window.(RunWindow.HourTS) =? request.(LocalRebuild.HourTS))
  && (window.(RunWindow.AttemptCount) =? request.(LocalRebuild.AttemptCount))
  && (window.(RunWindow.Status) == CollectionTaskStatusRunning).

Section Rebuild.
Context (sha256_hex : list Z -> string).

Definition apply_local_rebuild (request : LocalRebuildMutationRequest) : CollectionTaskWindowMutation := fun scope =>
  let siteID := request.(LocalRebuild.SiteID) in
  let hourTS := request.(LocalRebuild.HourTS) in
  let now := request.(LocalRebuild.Now) in
  _ ← st_require (rebuild_scope_matches request scope) ErrCollectionRunContract;
  '(dateKey, dateStart, dateEnd) ← st_lift (UsageDateBucket hourTS);
  keys ← usageAggregationBucketKeys sha256_hex siteID hourTS dateKey dateStart dateEnd [];
  _ ← lockUsageAggregationBuckets keys now;
  factWindow ← lockCollectionWindow siteID hourTS;
  _ ← st_require (match factWindow with
                  | Some w => w.(Window.Status) == CollectionWindowStatusComplete | None => false end)
        ErrLocalRebuildDependencyPending;
  options ← localRebuildAggregationOptions scope.(MutationScope.run);
  rebuilt ← rebuildUsageAggregationBuckets siteID hourTS dateKey dateStart dateEnd now [] options;
  let hourly := rebuilt.(AggregationResult.HourlyRows) in
  let daily := rebuilt.(AggregationResult.DailyRows) in
  _ ← st_require ((0 <=? hourly) && (0 <=? daily) && (hourly <=? max_int64 - daily)) ErrCollectionRunContract;
  mret (0, hourly + daily).

Definition NewLocalRebuildMutation (request : LocalRebuildMutationRequest) : result CollectionTaskWindowMutation :=
  if (request.(LocalRebuild.RunID) <=? 0) || (request.(LocalRebuild.WindowID) <=? 0) || (request.(LocalRebuild.SiteID) <=? 0)
     || (request.(LocalRebuild.HourTS) <=? 0) || negb (hour_aligned request.(LocalRebuild.HourTS))
     || (max_int64 - 3600 <? request.(LocalRebuild.HourTS)) || (request.(LocalRebuild.AttemptCount) <=? 0)
     || negb (validCollectionRequestID request.(LocalRebuild.RequestID)) || (request.(LocalRebuild.Now) <=? 0)
     || (request.(LocalRebuild.TargetID) <=? 0)
     || negb (is_one_of request.(LocalRebuild.TaskType) [TaskTypeAccountRebuild; TaskTypeCustomerRebuild])
  then Err ErrCollectionRunContract
  else Ok (apply_local_rebuild request).
End Rebuild.
