(* ===== verification/RollupLemmas.v ===== *)
(** * Groups and buckets

    Permuted facts have the same metrics; the row of a group is the metrics of
    its facts; and a bucket that is cleared and filled holds exactly the new
    rows. *)

From S2P Require Import Prelude Constants GoText Stats DateBucket Store RunContract RunState RunRepository SiteFence TaskScope TaskClaim TaskCommit Materialize UsageFacts UsageAggregation.

(** ** Metrics *)
Section Metrics.
Context {U : Type} `{!EqDecision U, !Countable U}.

#[export] Instance metrics_of_perm : Proper (Permutation ==> eq) (metrics_of (U := U)).
Proof.
  intros l1 l2 H. unfold metrics_of. f_equal; [by rewrite H..|].
  f_equal. f_equal. apply set_eq. intros x. rewrite !elem_of_list_to_set. by rewrite H.
Qed.

Lemma metrics_of_nil : metrics_of (U := U) [] = no_usage.
Proof. done. Qed.
End Metrics.

(** ** Groups *)
Section Groups.
Context {K A R : Type} `{!EqDecision K, !Countable K}.

Lemma group_of_fmap (key : A -> K) (value : A -> R) l k :
  group_of k ((fun a => (key a, value a)) <$> l) = value <$> base.filter (fun a => key a = k) l.
Proof.
  unfold group_of. induction l as [|a l IH]; [done|]. rewrite fmap_cons, !filter_cons. cbn [fst].
  destruct (decide (key a = k)); rewrite ?fmap_cons; by rewrite IH.
Qed.

Lemma group_of_app (l1 l2 : list (K * R)) k : group_of k (l1 ++ l2) = group_of k l1 ++ group_of k l2.
Proof. unfold group_of. by rewrite filter_app, fmap_app. Qed.
End Groups.

(** The metrics a table has for a key: a missing row stands for no usage. *)
Definition stat_metrics {K} `{!EqDecision K, !Countable K} (t : gmap K StatRow) (k : K) : usageMetricAggregate :=
  match t !! k with Some r => r.(Stat.metrics) | None => no_usage end.

Section StatRows.
Context {K : Type} `{!EqDecision K, !Countable K}.
Implicit Types (items : list (K * (option Z * UsageFactHourly))) (t : gmap K StatRow).

Lemma lookup_stat_rows status final now items k :
  stat_rows status final now items !! k =
  match group_of k items with [] => None | l => Some (Stat.mk (metrics_of l) status final now now now) end.
Proof.
  unfold stat_rows. rewrite lookup_fmap, lookup_grouped. by destruct (group_of k items).
Qed.

Lemma stat_rows_metrics status final now items k :
  stat_metrics (stat_rows status final now items) k = metrics_of (group_of k items).
Proof. unfold stat_metrics. rewrite lookup_stat_rows. by destruct (group_of k items). Qed.

Lemma stat_rows_key status final now items k r :
  stat_rows status final now items !! k = Some r -> exists v, (k, v) ∈ items.
Proof.
  rewrite lookup_stat_rows. destruct (group_of k items) as [|v l] eqn:E; [done|]. intros _. exists v.
  apply elem_of_group. rewrite E. set_solver.
Qed.

End StatRows.

(** Keys that are deleted and inserted anew: they have the new rows, all other
    keys what they had. *)
Lemma refilled {K R} `{!EqDecision K, !Countable K} (p : K -> bool) fits (new t : gmap K R) n t' :
  (forall k r, new !! k = Some r -> p k = true) ->
  insert_select fits new (delete_keys p t) = Ok (n, t') ->
  forall k, t' !! k = if p k then new !! k else t !! k.
Proof.
  intros Hp H k. apply insert_select_ok in H as (Hfree&_&->). rewrite lookup_union, lookup_delete_keys.
  destruct (new !! k) as [r|] eqn:E.
  - rewrite (Hp k r E). done.
  - destruct (p k); simpl; [done|]. by destruct (t !! k).
Qed.

(** ** What clearing and filling the buckets of a site does *)
Record bucket_filled (siteID bucket : Z) (accountIDs : list Z) (new : NewRows) (r r' : Rollup) : Prop := {
  filled_accounts : forall id b, r'.(Rollup.account_stat) !! (id, b) =
    if (b =? bucket) && existsb (Z.eqb id) accountIDs then new.(NewRows.accounts) !! (id, b)
    else r.(Rollup.account_stat) !! (id, b);
  filled_customers : forall id s b, r'.(Rollup.customer_stat) !! (id, s, b) =
    if (s =? siteID) && (b =? bucket) then new.(NewRows.customers) !! (id, s, b) else r.(Rollup.customer_stat) !! (id, s, b);
  filled_sites : forall s b, r'.(Rollup.site_stat) !! (s, b) =
    if (s =? siteID) && (b =? bucket) then new.(NewRows.sites) !! (s, b) else r.(Rollup.site_stat) !! (s, b);
  filled_models : forall s m b, r'.(Rollup.model_stat) !! (s, m, b) =
    if (s =? siteID) && (b =? bucket) then new.(NewRows.models) !! (s, m, b) else r.(Rollup.model_stat) !! (s, m, b);
  filled_channels : forall s c b, r'.(Rollup.channel_stat) !! (s, c, b) =
    if (s =? siteID) && (b =? bucket) then new.(NewRows.channels) !! (s, c, b) else r.(Rollup.channel_stat) !! (s, c, b);
  filled_global : r'.(Rollup.global_stat) = delete_keys (fun b => b =? bucket) r.(Rollup.global_stat)
}.

(** The keys of the rows belong to the bucket of the site. *)
Record rows_of_bucket (siteID bucket : Z) (accountIDs : list Z) (new : NewRows) : Prop := {
  bucket_accounts : forall id b r, new.(NewRows.accounts) !! (id, b) = Some r ->
    (b =? bucket) && existsb (Z.eqb id) accountIDs = true;
  bucket_customers : forall id s b r, new.(NewRows.customers) !! (id, s, b) = Some r -> (s =? siteID) && (b =? bucket) = true;
  bucket_sites : forall s b r, new.(NewRows.sites) !! (s, b) = Some r -> (s =? siteID) && (b =? bucket) = true;
  bucket_models : forall s m b r, new.(NewRows.models) !! (s, m, b) = Some r -> (s =? siteID) && (b =? bucket) = true;
  bucket_channels : forall s c b r, new.(NewRows.channels) !! (s, c, b) = Some r -> (s =? siteID) && (b =? bucket) = true
}.

Lemma insert_bucket_filled siteID bucket accountIDs new r n r' :
  rows_of_bucket siteID bucket accountIDs new ->
  insert_bucket new (clear_bucket siteID bucket accountIDs r) = Ok (n, r') ->
  bucket_filled siteID bucket accountIDs new r r'.
Proof.
  intros [Ha Hc Hs Hm Hch]. unfold insert_bucket, clear_bucket, mbind, result_bind. intros H. simpl in H.
  destruct (insert_select _ (NewRows.accounts new) _) as [[n1 t1]|] eqn:E1; [|done].
  destruct (insert_select _ (NewRows.customers new) _) as [[n2 t2]|] eqn:E2; [|done].
  destruct (insert_select _ (NewRows.sites new) _) as [[n3 t3]|] eqn:E3; [|done].
  destruct (insert_select _ (NewRows.models new) _) as [[n4 t4]|] eqn:E4; [|done].
  destruct (insert_select _ (NewRows.channels new) _) as [[n5 t5]|] eqn:E5; [|done].
  injection H as _ <-. split; simpl.
  - intros id b. refine (refilled _ _ _ _ _ _ _ E1 (id, b)). intros [? ?]; apply Ha.
  - intros id s b. refine (refilled _ _ _ _ _ _ _ E2 (id, s, b)). intros [[? ?] ?]; apply Hc.
  - intros s b. refine (refilled _ _ _ _ _ _ _ E3 (s, b)). intros [? ?]; apply Hs.
  - intros s m b. refine (refilled _ _ _ _ _ _ _ E4 (s, m, b)). intros [[? ?] ?]; apply Hm.
  - intros s c b. refine (refilled _ _ _ _ _ _ _ E5 (s, c, b)). intros [[? ?] ?]; apply Hch.
  - done.
Qed.

(** ** Rows that change without their metrics *)
Section SameMetrics.
Context {K : Type} `{!EqDecision K, !Countable K}.
Implicit Types (t : gmap K StatRow).

Lemma insert_ignore_metrics now k t j : stat_metrics (insert_ignore k (zero_row now) t).2 j = stat_metrics t j.
Proof.
  unfold insert_ignore, stat_metrics. destruct (t !! k) eqn:E; simpl; [done|].
  destruct (decide (k = j)) as [<-|]; [by rewrite lookup_insert_eq, E|by rewrite lookup_insert_ne].
Qed.

Lemma insert_zeros_metrics now (partial : list K) t j : stat_metrics (insert_zeros now partial t).2 j = stat_metrics t j.
Proof.
  unfold insert_zeros. generalize 0 as n. revert t. induction partial as [|k partial IH]; intros t n; simpl; [done|].
  pose proof (insert_ignore_metrics now k t j) as E. destruct (insert_ignore k (zero_row now) t) as [m t'].
  simpl in E. by rewrite IH.
Qed.

Lemma update_key_metrics k (f : StatRow -> StatRow) t j :
  (forall r, (f r).(Stat.metrics) = r.(Stat.metrics)) -> stat_metrics (update_key k f t) j = stat_metrics t j.
Proof.
  intros Hf. unfold update_key, stat_metrics. destruct (decide (k = j)) as [<-|].
  - rewrite lookup_alter_eq. destruct (t !! k); simpl; [apply Hf|done].
  - by rewrite lookup_alter_ne.
Qed.

Lemma cover_rows_metrics (key : Z -> K) gormNow now dateEnd coverage t j :
  stat_metrics (cover_rows key gormNow now dateEnd coverage t) j = stat_metrics t j.
Proof.
  unfold cover_rows. revert t. induction (map_to_list coverage) as [|[id c] l IH]; intros t; simpl; [done|].
  rewrite IH. by apply update_key_metrics.
Qed.

Lemma finalize_rows_metrics (p : K -> bool) stamp t j : stat_metrics (finalize_rows p stamp t).2 j = stat_metrics t j.
Proof.
  unfold finalize_rows, stat_metrics. cbn [snd]. rewrite lookup_update_rows.
  destruct (t !! j) as [r|]; simpl; [|done]. destruct (_ && _), stamp; done.
Qed.
End SameMetrics.

(** ** The row over all sites *)
Lemma insert_global_effect bucket now m coverage final r n r' :
  insert_global bucket now m coverage final r = Ok (n, r') -> r.(Rollup.global_stat) !! bucket = None ->
  0 <= coverage.(Coverage.Complete) ->
  (forall b, stat_metrics r'.(Rollup.global_stat) b =
             if b =? bucket then m else stat_metrics r.(Rollup.global_stat) b) /\
  (r'.(Rollup.account_stat), r'.(Rollup.customer_stat), r'.(Rollup.site_stat), r'.(Rollup.model_stat), r'.(Rollup.channel_stat))
  = (r.(Rollup.account_stat), r.(Rollup.customer_stat), r.(Rollup.site_stat), r.(Rollup.model_stat), r.(Rollup.channel_stat)).
Proof.
  unfold insert_global, nonzero. intros H Hnone Hpos. destruct (_ || _) eqn:E; [done|].
  destruct (_ && (_ || _)) eqn:E2.
  - unfold mbind, result_bind in H. destruct (insert_select _ _ _) as [[k t]|] eqn:Ei; [|done].
    injection H as _ <-. split; [|done]. intros b. simpl. apply insert_select_ok in Ei as (_&_&->).
    unfold stat_metrics. destruct (b =? bucket) eqn:Eb; to_prop.
    + subst. by rewrite lookup_union, lookup_singleton_eq, union_Some_l.
    + by rewrite lookup_union, lookup_singleton_ne, (left_id None _) by done.
  - injection H as _ <-. split; [|done]. intros b. destruct (b =? bucket) eqn:Eb; [|done]. to_prop. subst.
    unfold stat_metrics. rewrite Hnone. destruct (decide (m = no_usage)) as [|Hm]; [done|].
    exfalso. destruct E as [E [E1|E1]]; [congruence|]. destruct E2 as [E2|[E2 _]]; [lia|congruence].
Qed.

(** ** The coverage of a site is well-formed *)
Lemma add_window_valid dateEnd window c : Coverage.valid c = true -> Coverage.valid (addUsageCoverageWindow dateEnd window c) = true.
Proof.
  destruct c as [e c v]. unfold addUsageCoverageWindow, Coverage.valid. destruct window as [w|]; simpl; [|intros; to_prop; lia].
  destruct (_ == _); simpl; [|intros; to_prop; lia].
  destruct (Window.VerifiedAt w) as [verified|]; simpl; [|intros; to_prop; lia].
  destruct (dateEnd <=? verified); simpl; intros; to_prop; lia.
Qed.

Lemma add_coverage_valid a b : Coverage.valid a = true -> Coverage.valid b = true -> Coverage.valid (add_coverage a b) = true.
Proof. destruct a, b. unfold add_coverage, Coverage.valid. simpl. intros. to_prop. lia. Qed.

Lemma foldl_valid {A} (f : usageCoverage -> A -> usageCoverage) l : forall c,
  (forall c a, Coverage.valid c = true -> Coverage.valid (f c a) = true) ->
  Coverage.valid c = true -> Coverage.valid (foldl f c l) = true.
Proof. induction l as [|a l IH]; intros c Hf Hc; simpl; [done|]. apply IH; auto. Qed.

Lemma site_coverage_valid dateStart dateEnd windows site : Coverage.valid (site_coverage dateStart dateEnd windows site) = true.
Proof. apply foldl_valid; [|done]. intros c h Hc. destruct (usageSiteExpectedAt _ _); [by apply add_window_valid|done]. Qed.

Lemma hour_coverage_valid state hour : Coverage.valid (hour_coverage state hour) = true.
Proof. apply foldl_valid; [|done]. intros c s Hc. destruct (usageSiteExpectedAt _ _); [by apply add_window_valid|done]. Qed.

Lemma valid_nonneg c : Coverage.valid c = true -> 0 <= c.(Coverage.Complete).
Proof. unfold Coverage.valid. intros. to_prop. lia. Qed.
