(* ===== verification/RollupRebuild.v ===== *)
(** * What a rebuild of an hour writes

    The rebuild only writes the statistics; the roll-ups of its hour and its
    day then have the metrics of the facts of complete hours, every other
    bucket keeps its metrics; and the facts of the day are refreshed for the
    keys that were affected. *)

From S2P Require Import Prelude Constants GoText Stats DateBucket Store Frame RunContract RunState RunRepository SiteFence TaskScope TaskClaim TaskCommit Materialize UsageFacts UsageAggregation RollupLemmas.

(** ** Transactions that write nothing but statistics *)
Definition base (d : Db) : Db := d <| Tables.statistics := no_statistics |>.
Abbreviation StatsOnly := (Preserves base).

Lemma base_stats d d' : base d' = base d -> d' = d <| Tables.statistics := Tables.statistics d' |>.
Proof. destruct d, d'. unfold base. simpl. by intros [=]; subst. Qed.

#[export] Instance stats_update_base {A} (f : Statistics -> result (A * Statistics)) : StatsOnly (stats_update f).
Proof. intros d a d'. unfold stats_update. by destruct (f _) as [[? ?]|]; intros [= _ <-]. Qed.

#[export] Instance stats_modify_base f : StatsOnly (stats_modify f).
Proof. apply _. Qed.

#[export] Instance stats_when_base b f : StatsOnly (stats_when b f).
Proof. unfold stats_when. solve_frame. Qed.

Lemma stats_update_ok {A} (f : Statistics -> result (A * Statistics)) d a d' :
  stats_update f d = Ok (a, d') <-> exists s, f (Tables.statistics d) = Ok (a, s) /\ d' = d <| Tables.statistics := s |>.
Proof.
  unfold stats_update. destruct (f _) as [[b s]|e]; split.
  - intros [= -> <-]. eauto.
  - by intros (?&[= <- <-]&->).
  - done.
  - by intros (?&?&_).
Qed.

Lemma stats_modify_ok f d u d' :
  stats_modify f d = Ok (u, d') <-> d' = d <| Tables.statistics := f (Tables.statistics d) |>.
Proof. unfold stats_modify. rewrite stats_update_ok. destruct u. naive_solver. Qed.

(** ** Readers *)
#[export] Instance loadUsageAggregateMetrics_reads scope start end_ : ReadsOnly (loadUsageAggregateMetrics scope start end_).
Proof. unfold loadUsageAggregateMetrics. solve_frame. Qed.

#[export] Instance loadUsageDailyCoverage_reads start end_ : ReadsOnly (loadUsageDailyCoverage start end_).
Proof. unfold loadUsageDailyCoverage. solve_frame. Qed.

#[export] Instance loadUsageEntityCoverage_reads state siteID options : ReadsOnly (loadUsageEntityCoverage state siteID options).
Proof. unfold loadUsageEntityCoverage. solve_frame. Qed.

#[export] Instance usageAggregationBucketKeys_reads sha siteID hourTS dateKey dateStart dateEnd facts :
  ReadsOnly (usageAggregationBucketKeys sha siteID hourTS dateKey dateStart dateEnd facts).
Proof. unfold usageAggregationBucketKeys. solve_frame. Qed.

(** The usage over all sites. *)
Definition global_usage (d : Db) (in_range : Z -> bool) : usageMetricAggregate :=
  metrics_of ((fun f => (global_user f, f)) <$> global_facts d in_range).

Lemma parse_ok z v : parseUsageAggregateMetric z = Ok v -> v = z.
Proof. unfold parseUsageAggregateMetric. destruct (_ || _); [done|]. by intros [= ->]. Qed.

Lemma loadUsageAggregateMetrics_ok scope start end_ d m d' :
  loadUsageAggregateMetrics scope start end_ d = Ok (m, d') ->
  d' = d /\ m = global_usage d (in_scope scope start end_).
Proof.
  intros H. split; [exact (preserves _ _ _ H)|]. unfold loadUsageAggregateMetrics in H.
  inv_ok. fold (global_usage d (in_scope scope start end_)) in *.
  repeat match goal with E : parseUsageAggregateMetric _ = Ok _ |- _ => apply parse_ok in E; subst end.
  reflexivity.
Qed.

Lemma loadUsageDailyCoverage_valid start end_ d c d' :
  loadUsageDailyCoverage start end_ d = Ok (c, d') -> Coverage.valid c.(DailyCoverage.global) = true.
Proof.
  unfold loadUsageDailyCoverage. intros H. inv_ok. simpl. apply foldl_valid; [|done].
  intros g s Hg. by apply add_coverage_valid; [|apply site_coverage_valid].
Qed.

(** ** The metrics of the buckets after a rebuild *)

(** The tables of [r'] have the metrics of [new] for the bucket of the site,
    [metrics] over all sites, and those of [r] elsewhere. *)
Record bucket_rebuilt (siteID bucket : Z) (accountIDs : list Z) (new : NewRows) (metrics : usageMetricAggregate)
    (r r' : Rollup) : Prop := {
  rebuilt_accounts : forall id b, stat_metrics r'.(Rollup.account_stat) (id, b) =
    if (b =? bucket) && existsb (Z.eqb id) accountIDs then stat_metrics new.(NewRows.accounts) (id, b)
    else stat_metrics r.(Rollup.account_stat) (id, b);
  rebuilt_customers : forall id s b, stat_metrics r'.(Rollup.customer_stat) (id, s, b) =
    if (s =? siteID) && (b =? bucket) then stat_metrics new.(NewRows.customers) (id, s, b)
    else stat_metrics r.(Rollup.customer_stat) (id, s, b);
  rebuilt_sites : forall s b, stat_metrics r'.(Rollup.site_stat) (s, b) =
    if (s =? siteID) && (b =? bucket) then stat_metrics new.(NewRows.sites) (s, b)
    else stat_metrics r.(Rollup.site_stat) (s, b);
  rebuilt_models : forall s m b, stat_metrics r'.(Rollup.model_stat) (s, m, b) =
    if (s =? siteID) && (b =? bucket) then stat_metrics new.(NewRows.models) (s, m, b)
    else stat_metrics r.(Rollup.model_stat) (s, m, b);
  rebuilt_channels : forall s c b, stat_metrics r'.(Rollup.channel_stat) (s, c, b) =
    if (s =? siteID) && (b =? bucket) then stat_metrics new.(NewRows.channels) (s, c, b)
    else stat_metrics r.(Rollup.channel_stat) (s, c, b);
  rebuilt_global : forall b, stat_metrics r'.(Rollup.global_stat) b =
    if b =? bucket then metrics else stat_metrics r.(Rollup.global_stat) b
}.

Lemma stat_metrics_eq {K} `{!EqDecision K, !Countable K} (t1 t2 : gmap K StatRow) k j :
  t1 !! k = t2 !! j -> stat_metrics t1 k = stat_metrics t2 j.
Proof. unfold stat_metrics. by intros ->. Qed.

(** Clearing, filling and the row over all sites. *)
Lemma bucket_rebuilt_intro siteID bucket accountIDs new metrics now coverage final r r1 n r2 :
  bucket_filled siteID bucket accountIDs new r r1 -> 0 <= coverage.(Coverage.Complete) ->
  insert_global bucket now metrics coverage final r1 = Ok (n, r2) ->
  bucket_rebuilt siteID bucket accountIDs new metrics r r2.
Proof.
  intros [Ha Hc Hs Hm Hch Hg] Hpos Hi.
  apply insert_global_effect in Hi as [Hglobal Heq]; [|rewrite Hg, lookup_delete_keys, Z.eqb_refl; done|done].
  injection Heq as Ea Ec Es Em Ech.
  split; intros; rewrite ?Ea, ?Ec, ?Es, ?Em, ?Ech, ?Hglobal.
  1-5: case_match eqn:E; apply stat_metrics_eq; by rewrite ?Ha, ?Hc, ?Hs, ?Hm, ?Hch, E.
  case_match eqn:E; [done|]. apply stat_metrics_eq. by rewrite Hg, lookup_delete_keys, E.
Qed.

Section NewRowsKeys.
Context (d : Db) (siteID bucket : Z) (in_range : Z -> bool).

Lemma elem_of_site_facts f : f ∈ site_facts d siteID in_range <->
  f ∈ table_rows d /\ f.(Fact.SiteID) = siteID /\ in_range f.(Fact.HourTS) = true /\ complete_fact d f = true.
Proof. unfold site_facts. rewrite list_elem_of_filter, !andb_true_iff, Z.eqb_eq. tauto. Qed.

Lemma bind_items {A K R} `{!EqDecision K} (l : list A) (rows : A -> list (K * R)) k v :
  (k, v) ∈ (l ≫= rows) -> exists a, a ∈ l /\ (k, v) ∈ rows a.
Proof. intros (a&Hr&Ha)%list_elem_of_bind. eauto. Qed.

Lemma new_rows_of_bucket paused pausedCustomers status final now statusE finalE :
  rows_of_bucket siteID bucket (MAccount.ID <$> site_accounts d siteID)
    (NewRows.mk (stat_rows statusE finalE now (account_items d siteID bucket in_range paused))
       (stat_rows statusE finalE now (customer_items d siteID bucket in_range paused pausedCustomers))
       (stat_rows status final now (site_items d siteID bucket in_range))
       (stat_rows status final now (model_items d siteID bucket in_range))
       (stat_rows status final now (channel_items d siteID bucket in_range))).
Proof.
  split; simpl; intros * H; apply stat_rows_key in H as (v&H).
  - unfold account_items in H. apply bind_items in H as (a&Ha&(f&[= -> -> _]&_)%list_elem_of_fmap).
    rewrite Z.eqb_refl. simpl. apply existsb_exists. exists (MAccount.ID a).
    split; [|apply Z.eqb_refl]. apply list_elem_of_In. by apply list_elem_of_fmap_2.
  - unfold customer_items in H. apply bind_items in H as (a&Ha&H). apply bind_items in H as (c&_&(f&[= -> -> -> _]&_)%list_elem_of_fmap).
    apply elem_of_select in Ha as [Ha _]. by rewrite Ha, Z.eqb_refl.
  - apply list_elem_of_fmap in H as (f&[= -> -> _]&(_&->&_)%elem_of_site_facts). by rewrite !Z.eqb_refl.
  - apply list_elem_of_fmap in H as (f&[= -> -> -> _]&(_&->&_)%elem_of_site_facts). by rewrite !Z.eqb_refl.
  - apply list_elem_of_fmap in H as (f&[= -> -> -> _]&(_&->&_)%elem_of_site_facts). by rewrite !Z.eqb_refl.
Qed.
End NewRowsKeys.

(** What the hourly rebuild leaves. *)
Lemma rebuildUsageHourly_ok siteID hourTS now metrics coverage options d n d' :
  0 <= coverage.(Coverage.Complete) ->
  rebuildUsageHourly siteID hourTS now metrics coverage options d = Ok (n, d') ->
  exists r', d' = d <| Tables.statistics := (Tables.statistics d) <| Statistics.hourly := r' |> |> /\
    bucket_rebuilt siteID hourTS (MAccount.ID <$> site_accounts d siteID) (hourly_rows d siteID hourTS now options)
      metrics (Tables.statistics d).(Statistics.hourly) r'.
Proof.
  intros Hpos H. unfold rebuildUsageHourly in H.
  apply st_bind_ok in H as (ids&d0&Hids&H). apply st_gets_ok in Hids as [= -> ->].
  apply st_bind_ok in H as (new&d0&Hnew&H). apply st_gets_ok in Hnew as [= -> ->].
  apply st_bind_ok in H as (u&d1&Hclear&H). apply stats_modify_ok in Hclear as ->.
  apply st_bind_ok in H as (rows&d2&Hins&H). apply stats_update_ok in Hins as (s&Hins&->).
  apply st_bind_ok in H as (global&d3&Hglob&H). apply stats_update_ok in Hglob as (s2&Hglob&->).
  apply st_ret_pair in H as [-> ->].
  unfold on_hourly, mbind, result_bind in Hins, Hglob. simpl in Hins, Hglob.
  destruct (insert_bucket _ _) as [[n1 r1]|] eqn:E1; [|done]. injection Hins as -> <-. simpl in Hglob.
  destruct (insert_global _ _ _ _ _ _) as [[n2 r2]|] eqn:E2; [|done]. injection Hglob as -> <-.
  exists r2. split; [done|].
  apply insert_bucket_filled in E1; [|apply new_rows_of_bucket]. by eapply bucket_rebuilt_intro.
Qed.

(** ** The facts of the day *)

(** What a daily fact says, without its times and its finality. *)
Definition daily_content (r : UsageFactDaily) : string * string * Z * Z * Z :=
  (r.(DailyFact.UsernameSnapshot), r.(DailyFact.TokenName), r.(DailyFact.RequestCount), r.(DailyFact.Quota),
   r.(DailyFact.TokenUsed)).

(** The facts behind the daily fact of a key. *)
Definition key_facts (facts : list UsageFactHourly) (k : fact_key_of) : list UsageFactHourly :=
  base.filter (fun f => fact_key f = k) facts.
Definition content_of (l : list UsageFactHourly) : option (string * string * Z * Z * Z) :=
  match l with [] => None | _ => Some (daily_content (daily_row false 0 l)) end.

Section Refresh.
Context (siteID dateKey now : Z) (final : bool) (facts : list UsageFactHourly).

Definition fresh_row (l : list UsageFactHourly) : option UsageFactDaily :=
  match l with [] => None | _ => Some (daily_row final now l) end.

Lemma fresh_row_content l : daily_content <$> fresh_row l = content_of l.
Proof. by destruct l. Qed.

Lemma lookup_new_daily (batch : list fact_key_of) s k date :
  (daily_row final now <$> grouped (daily_items siteID dateKey (base.filter (fun f => in_keys batch (fact_key f) = true) facts)))
    !! (s, k, date)
  = if of_day siteID dateKey (s, k, date) && in_keys batch k then fresh_row (key_facts facts k) else None.
Proof.
  rewrite lookup_fmap, lookup_grouped. unfold daily_items. rewrite (group_of_fmap (fun f => (siteID, fact_key f, dateKey)) id).
  rewrite list_fmap_id, list_filter_filter. unfold of_day, in_keys, key_facts.
  destruct (_ && _ && _) eqn:E; to_prop.
  - destruct E as [[-> ->] Hk]. unfold fresh_row.
    rewrite (list_filter_iff _ (fun f => fact_key f = k)); [by destruct (base.filter _ facts)|].
    intros f. rewrite bool_decide_eq_true. split; [intros [[= ->] _]; done|]. intros ->. done.
  - rewrite (list_filter_iff _ (fun _ => false = true)); [by rewrite filter_nothing|].
    intros f. rewrite bool_decide_eq_true. split; [|done]. intros [[= -> <- ->] Hk]. destruct E as [[E|E]|E]; done.
Qed.

Lemma refresh_batch_ok batch t n t' : refresh_batch siteID dateKey now final facts batch t = Ok (n, t') ->
  forall s k date, t' !! (s, k, date) =
    if of_day siteID dateKey (s, k, date) && in_keys batch k then fresh_row (key_facts facts k) else t !! (s, k, date).
Proof.
  unfold refresh_batch, mbind, result_bind. intros H s k date.
  destruct (insert_select _ _ _) as [[m t1]|] eqn:E; [|done]. injection H as _ <-.
  etrans; [eapply refilled; [|exact E]|].
  - intros [[x y] z] r Hr. rewrite lookup_new_daily in Hr. by destruct (of_day _ _ _ && in_keys _ _) eqn:Ek.
  - cbv beta. rewrite lookup_new_daily. by destruct (_ && _).
Qed.

Lemma refresh_batches_ok batches : forall t n t', refresh_batches siteID dateKey now final facts batches t = Ok (n, t') ->
  forall s k date, t' !! (s, k, date) =
    if of_day siteID dateKey (s, k, date) && in_keys (concat batches) k then fresh_row (key_facts facts k)
    else t !! (s, k, date).
Proof.
  induction batches as [|batch batches IH]; intros t n t' H s k date.
  { simpl in H. injection H as _ <-. by rewrite andb_false_r. }
  simpl in H. unfold mbind, result_bind in H.
  destruct (refresh_batch _ _ _ _ _ _ _) as [[n1 t1]|] eqn:E1; [|done].
  destruct (refresh_batches _ _ _ _ _ _ _) as [[n2 t2]|] eqn:E2; [|done]. injection H as _ <-.
  rewrite (IH _ _ _ E2), (refresh_batch_ok _ _ _ _ E1). unfold in_keys. cbn [concat].
  destruct (of_day siteID dateKey (s, k, date)); [|done]. cbn [andb].
  rewrite (bool_decide_ext (k ∈ batch ++ concat batches) (k ∈ batch \/ k ∈ concat batches)) by apply elem_of_app.
  by repeat case_bool_decide; try tauto.
Qed.

Lemma set_finality_ok t s k date :
  (set_finality siteID dateKey now final t).2 !! (s, k, date) =
  (fun r => if of_day siteID dateKey (s, k, date) && negb (Bool.eqb r.(DailyFact.IsFinal) final)
            then r <| DailyFact.IsFinal := final |> <| DailyFact.LastCalculatedAt := now |> <| DailyFact.UpdatedAt := now |>
            else r) <$> t !! (s, k, date).
Proof. unfold set_finality. cbn [snd]. by rewrite lookup_update_rows. Qed.
End Refresh.

Lemma affected_keys_ok siteID dateStart dateEnd facts keys :
  affectedUsageFactDailyKeys siteID dateStart dateEnd facts = Ok keys -> forall k, k ∈ keys <-> k ∈ (fact_key <$> facts).
Proof.
  unfold affectedUsageFactDailyKeys. destruct (existsb _ _); [done|]. intros [= <-] k.
  by rewrite elem_of_sort_by, elem_of_elements, elem_of_list_to_set.
Qed.

(** What the refresh of the facts of a day leaves: the affected keys say what
    the facts say, the others what they said, unless the sweep removed them. *)
Record day_refreshed (siteID dateKey : Z) (final sweep : bool) (facts affected : list UsageFactHourly)
    (t t' : gmap daily_key UsageFactDaily) : Prop := {
  refreshed_elsewhere : forall s k date, of_day siteID dateKey (s, k, date) = false -> t' !! (s, k, date) = t !! (s, k, date);
  refreshed_affected : forall k, k ∈ (fact_key <$> affected) ->
    daily_content <$> t' !! (siteID, k, dateKey) = content_of (key_facts facts k);
  refreshed_others : forall k, k ∉ (fact_key <$> affected) ->
    daily_content <$> t' !! (siteID, k, dateKey) =
      if sweep && bool_decide (key_facts facts k = []) then None else daily_content <$> t !! (siteID, k, dateKey);
  refreshed_final : forall k r, t' !! (siteID, k, dateKey) = Some r -> r.(DailyFact.IsFinal) = final
}.

Lemma key_facts_nil facts k : key_facts facts k = [] <-> k ∉ (fact_key <$> facts).
Proof.
  unfold key_facts. split.
  - intros H (f&->&Hf)%list_elem_of_fmap. assert (f ∈ base.filter (fun g => fact_key g = fact_key f) facts) as Hin
      by by apply list_elem_of_filter. rewrite H in Hin. set_solver.
  - intros H. destruct (base.filter _ facts) as [|f l] eqn:E; [done|]. destruct H.
    assert (f ∈ base.filter (fun g => fact_key g = k) facts) as [<- Hf]%list_elem_of_filter by (rewrite E; set_solver).
    by apply list_elem_of_fmap_2.
Qed.

Lemma refreshUsageFactDaily_ok siteID dateKey dateStart dateEnd now final sweep affected d n d' :
  refreshUsageFactDaily siteID dateKey dateStart dateEnd now final sweep affected d = Ok (n, d') ->
  exists t', d' = d <| Tables.statistics := (Tables.statistics d) <| Statistics.usage_fact_daily := t' |> |> /\
    day_refreshed siteID dateKey final sweep (authoritative_facts d siteID dateStart dateEnd) affected
      (Tables.statistics d).(Statistics.usage_fact_daily) t'.
Proof.
  unfold refreshUsageFactDaily. intros H.
  apply st_bind_ok in H as (ks&d0&Hk&H). apply st_lift_ok in Hk as (keys&Hk&[= -> ->]).
  apply st_bind_ok in H as (facts&d0&Hf&H). apply st_gets_ok in Hf as [= -> ->].
  apply stats_update_ok in H as (s&H&->). unfold mbind, result_bind in H.
  set (facts := authoritative_facts d siteID dateStart dateEnd) in *.
  destruct (refresh_batches _ _ _ _ _ _ _) as [[rows t1]|] eqn:E; [|done].
  destruct (set_finality siteID dateKey now final t1) as [m t2] eqn:Ef. injection H as _ <-.
  exists t2. split; [done|].
  pose proof (set_finality_ok siteID dateKey now final t1) as Hfin. rewrite Ef in Hfin. cbn [snd] in Hfin.
  pose proof (refresh_batches_ok _ _ _ _ _ _ _ _ _ E) as Hb.
  assert (Hkeys : forall k, in_keys (concat (chunks_of (length keys) 200 keys)) k = bool_decide (k ∈ (fact_key <$> affected))).
  { intros k. unfold in_keys. rewrite chunks_of_concat by lia. apply bool_decide_ext, (affected_keys_ok _ _ _ _ _ Hk). }
  assert (Hday : forall k, of_day siteID dateKey (siteID, k, dateKey) = true) by (intros k; unfold of_day; by rewrite !Z.eqb_refl).
  assert (Hcontent : forall k, daily_content <$> t2 !! (siteID, k, dateKey) = daily_content <$> t1 !! (siteID, k, dateKey)).
  { intros k. rewrite Hfin. destruct (t1 !! _) as [r|]; simpl; [|done]. by destruct (_ && _). }
  split.
  - intros s k date Hno. rewrite Hfin, Hno. cbn [andb]. rewrite option_fmap_id, Hb, Hno. cbn [andb].
    rewrite lookup_delete_keys, Hno. by rewrite andb_false_r.
  - intros k Hin. rewrite Hcontent, Hb, Hday, Hkeys, bool_decide_eq_true_2 by done. cbn [andb]. apply fresh_row_content.
  - intros k Hin. rewrite Hcontent, Hb, Hday, Hkeys, bool_decide_eq_false_2 by done. cbn [andb].
    rewrite lookup_delete_keys, Hday. cbn [key_of_day fst snd]. unfold in_keys.
    rewrite andb_true_r, (bool_decide_ext (key_facts facts k = []) (k ∉ fact_key <$> facts)) by apply key_facts_nil.
    rewrite bool_decide_not. by destruct (sweep && _).
  - intros k r Hr. rewrite Hfin in Hr. destruct (t1 !! _) as [r1|]; [|done]. simpl in Hr. injection Hr as <-.
    rewrite !Z.eqb_refl. simpl. destruct (negb _) eqn:En; [done|].
    apply negb_false_iff in En. by apply eqb_prop in En.
Qed.

(** ** The daily rebuild *)
Lemma cover_daily_metrics siteID dateKey dateEnd now gormNow siteCoverage accountCoverage customerCoverage r :
  let r' := (cover_daily siteID dateKey dateEnd now gormNow siteCoverage accountCoverage customerCoverage r).2 in
  (forall k, stat_metrics r'.(Rollup.account_stat) k = stat_metrics r.(Rollup.account_stat) k) /\
  (forall k, stat_metrics r'.(Rollup.customer_stat) k = stat_metrics r.(Rollup.customer_stat) k) /\
  (forall k, stat_metrics r'.(Rollup.site_stat) k = stat_metrics r.(Rollup.site_stat) k) /\
  (r'.(Rollup.model_stat), r'.(Rollup.channel_stat), r'.(Rollup.global_stat))
  = (r.(Rollup.model_stat), r.(Rollup.channel_stat), r.(Rollup.global_stat)).
Proof.
  unfold cover_daily.
  pose proof (insert_zeros_metrics now (if Coverage.knownPartial siteCoverage then [(siteID, dateKey)] else [])
                r.(Rollup.site_stat)) as Hs.
  pose proof (insert_zeros_metrics now ((fun id => (id, dateKey)) <$> partial_ids accountCoverage)
                r.(Rollup.account_stat)) as Ha.
  pose proof (insert_zeros_metrics now ((fun id => (id, siteID, dateKey)) <$> partial_ids customerCoverage)
                r.(Rollup.customer_stat)) as Hc.
  repeat destruct (insert_zeros _ _ _). simpl in *.
  split; [|split; [|split]]; [|by intros k; rewrite ?cover_rows_metrics..|done].
  intros k. by rewrite cover_rows_metrics.
Qed.

(** Rows that are later covered: the bucket is rebuilt all the same. *)
Lemma bucket_rebuilt_covered siteID bucket accountIDs new metrics r r1 r2 r3 n now coverage final :
  bucket_filled siteID bucket accountIDs new r r1 ->
  (forall k, stat_metrics r2.(Rollup.account_stat) k = stat_metrics r1.(Rollup.account_stat) k) ->
  (forall k, stat_metrics r2.(Rollup.customer_stat) k = stat_metrics r1.(Rollup.customer_stat) k) ->
  (forall k, stat_metrics r2.(Rollup.site_stat) k = stat_metrics r1.(Rollup.site_stat) k) ->
  (r2.(Rollup.model_stat), r2.(Rollup.channel_stat), r2.(Rollup.global_stat))
  = (r1.(Rollup.model_stat), r1.(Rollup.channel_stat), r1.(Rollup.global_stat)) ->
  0 <= coverage.(Coverage.Complete) -> insert_global bucket now metrics coverage final r2 = Ok (n, r3) ->
  bucket_rebuilt siteID bucket accountIDs new metrics r r3.
Proof.
  intros [Ha Hc Hs Hm Hch Hg] Ea Ec Es [= Em Ech Eg] Hpos Hi.
  apply insert_global_effect in Hi as [Hglobal Heq]; [|by rewrite Eg, Hg, lookup_delete_keys, Z.eqb_refl|done].
  injection Heq as Ea' Ec' Es' Em' Ech'.
  split; intros; rewrite ?Ea', ?Ec', ?Es', ?Em', ?Ech', ?Hglobal, ?Ea, ?Ec, ?Es, ?Em, ?Ech, ?Eg.
  1-5: case_match eqn:E; apply stat_metrics_eq; by rewrite ?Ha, ?Hc, ?Hs, ?Hm, ?Hch, E.
  case_match eqn:E; [done|]. apply stat_metrics_eq. by rewrite Hg, lookup_delete_keys, E.
Qed.

Lemma rebuildUsageDaily_ok siteID dateKey dateStart dateEnd now metrics coverage affected options d n d' :
  Coverage.valid coverage.(DailyCoverage.global) = true ->
  rebuildUsageDaily siteID dateKey dateStart dateEnd now metrics coverage affected options d = Ok (n, d') ->
  let siteCoverage := default no_coverage (coverage.(DailyCoverage.bySite) !! siteID) in
  let final := Coverage.final siteCoverage now dateEnd in
  exists t' r',
    d' = d <| Tables.statistics := (Tables.statistics d) <| Statistics.usage_fact_daily := t' |> <| Statistics.daily := r' |> |> /\
    day_refreshed siteID dateKey final
      (shouldSweepUsageFactDaily options.(RebuildOptions.priorSiteCoverage) siteCoverage now dateEnd)
      (authoritative_facts d siteID dateStart dateEnd) affected (Tables.statistics d).(Statistics.usage_fact_daily) t' /\
    bucket_rebuilt siteID dateKey (MAccount.ID <$> site_accounts d siteID)
      (daily_rows d siteID dateKey dateStart dateEnd now (Coverage.status siteCoverage) final options) metrics
      (Tables.statistics d).(Statistics.daily) r'.
Proof.
  intros Hvalid H. cbv zeta. unfold rebuildUsageDaily in H.
  set (siteCoverage := default no_coverage _) in *.
  apply st_bind_ok in H as (u&d0&Hr&H). apply st_require_ok in Hr as (_&[= -> ->]).
  apply st_bind_ok in H as ([accountCoverage customerCoverage]&d0&Hent&H).
  pose proof (preserves _ _ _ Hent) as E0. cbv beta in E0. subst d0.
  apply st_bind_ok in H as (rows&d1&Href&H). apply refreshUsageFactDaily_ok in Href as (t'&->&Hday).
  apply st_bind_ok in H as (ids&d1&Hids&H). apply st_gets_ok in Hids as [= -> ->].
  apply st_bind_ok in H as (new&d1&Hnew&H). apply st_gets_ok in Hnew as [= -> ->].
  apply st_bind_ok in H as (gormNow&d1&Hg&H). apply st_gets_ok in Hg as [= -> ->].
  apply st_bind_ok in H as (u&d1&Hclear&H). apply stats_modify_ok in Hclear as ->.
  apply st_bind_ok in H as (inserted&d2&Hins&H). apply stats_update_ok in Hins as (s1&Hins&->).
  apply st_bind_ok in H as (u'&d2&Hr&H). apply st_require_ok in Hr as (_&[= -> ->]).
  apply st_bind_ok in H as (zeros&d3&Hz&H). apply stats_update_ok in Hz as (s2&Hz&->).
  apply st_bind_ok in H as (global&d4&Hglob&H). apply stats_update_ok in Hglob as (s3&Hglob&->).
  apply st_ret_pair in H as [-> ->].
  unfold on_daily, mbind, result_bind in Hins, Hz, Hglob. simpl in Hins, Hz, Hglob.
  destruct (insert_bucket _ _) as [[n1 r1]|] eqn:E1; [|done]. injection Hins as -> <-.
  cbn [Statistics.daily update_field] in Hz. simpl in Hz.
  destruct (cover_daily _ _ _ _ _ _ _ _ r1) as [n2 r2] eqn:E2. injection Hz as -> <-. simpl in Hglob.
  destruct (insert_global _ _ _ _ _ _) as [[n3 r3]|] eqn:E3; [|done]. injection Hglob as -> <-.
  exists t', r3. split; [done|]. split; [done|].
  apply insert_bucket_filled in E1; [|apply new_rows_of_bucket].
  pose proof (cover_daily_metrics siteID dateKey dateEnd now (Tables.gorm_now d) siteCoverage accountCoverage customerCoverage r1)
    as Hcov. simpl in E2. rewrite E2 in Hcov. destruct Hcov as (Ha&Hc&Hs&Heq).
  eapply bucket_rebuilt_covered; [exact E1|exact Ha|exact Hc|exact Hs|exact Heq|by apply valid_nonneg|exact E3].
Qed.

(** ** Rebuilding the hour and its day *)
Record hour_rebuilt (siteID hourTS dateKey dateStart dateEnd : Z) (sweep final : bool) (affected : list UsageFactHourly)
    (options : usageAggregationRebuildOptions) (d d' : Db) : Prop := {
  rebuilt_base : base d' = base d;
  rebuilt_locks : (Tables.statistics d').(Statistics.aggregation_bucket_lock)
                  = (Tables.statistics d).(Statistics.aggregation_bucket_lock);
  rebuilt_facts : day_refreshed siteID dateKey final sweep (authoritative_facts d siteID dateStart dateEnd) affected
    (Tables.statistics d).(Statistics.usage_fact_daily) (Tables.statistics d').(Statistics.usage_fact_daily);
  rebuilt_hourly : exists now, bucket_rebuilt siteID hourTS (MAccount.ID <$> site_accounts d siteID)
    (hourly_rows d siteID hourTS now options) (global_usage d (in_scope usageAggregateHour hourTS 0))
    (Tables.statistics d).(Statistics.hourly) (Tables.statistics d').(Statistics.hourly);
  rebuilt_daily : exists now status final, bucket_rebuilt siteID dateKey (MAccount.ID <$> site_accounts d siteID)
    (daily_rows d siteID dateKey dateStart dateEnd now status final options)
    (global_usage d (in_scope usageAggregateDate dateStart dateEnd))
    (Tables.statistics d).(Statistics.daily) (Tables.statistics d').(Statistics.daily)
}.

Lemma rebuild_ok siteID hourTS dateKey dateStart dateEnd now affected options d result d' :
  rebuildUsageAggregationBuckets siteID hourTS dateKey dateStart dateEnd now affected options d = Ok (result, d') ->
  exists sweep final, hour_rebuilt siteID hourTS dateKey dateStart dateEnd sweep final affected options d d'.
Proof.
  unfold rebuildUsageAggregationBuckets. intros H.
  apply st_bind_ok in H as (u&d0&Hr&H). apply st_require_ok in Hr as (_&[= -> ->]).
  apply st_bind_ok in H as (hm&d0&Hh&H). apply loadUsageAggregateMetrics_ok in Hh as [-> ->].
  apply st_bind_ok in H as (dm&d0&Hd&H). apply loadUsageAggregateMetrics_ok in Hd as [-> ->].
  apply st_bind_ok in H as (coverage&d0&Hc&H). pose proof (loadUsageDailyCoverage_valid _ _ _ _ _ Hc) as Hv.
  pose proof (preserves _ _ _ Hc) as E0. cbv beta in E0. subst d0.
  apply st_bind_ok in H as (u'&d0&Hr&H). apply st_require_ok in Hr as (_&[= -> ->]).
  apply st_bind_ok in H as (hourly&d1&Hh&H).
  apply rebuildUsageHourly_ok in Hh as (r1&->&Hhour); [|apply valid_nonneg, hour_coverage_valid].
  apply st_bind_ok in H as (daily&d2&Hd&H). apply rebuildUsageDaily_ok in Hd as (t'&r2&->&Hday&Hdaily); [|done].
  apply st_ret_pair in H as [_ ->].
  do 2 eexists. split; [done|done|exact Hday|by exists now|]. do 3 eexists. exact Hdaily.
Qed.
