(* ===== verification/UsageFactsBehaviour.v ===== *)
(** * Canonical usage facts

    The order in which an upstream lists its rows does not matter, no count is
    lost or invented, and the bytes hashed determine the facts. *)

From S2P Require Import Prelude Stats Constants GoText Store RunContract RunState RunRepository SiteFence TaskScope TaskClaim TaskCommit RunFrames RunInvariant RunStateBehaviour UsageFacts.

(** ** Adding counts *)
Lemma addUsageInt64_nonneg a b : 0 <= a <= max_int64 -> 0 <= b ->
  addUsageInt64 a b = if a + b <=? max_int64 then Some (a + b) else None.
Proof.
  intros Ha Hb. unfold addUsageInt64. rewrite (proj2 (Z.ltb_ge b 0)) by lia. cbn [andb].
  destruct ((0 <? b) && (max_int64 - b <? a)) eqn:E1, (a + b <=? max_int64) eqn:E3; to_prop; try done.
  - exfalso. lia.
  - exfalso. destruct E1; unfold max_int64 in *; lia.
Qed.

Definition counts (f : UsageFactHourly) : Z * Z * Z :=
  (f.(Fact.RequestCount), f.(Fact.Quota), f.(Fact.TokenUsed)).
Definition input_counts (v : UsageFactInput) : Z * Z * Z :=
  (v.(FactInput.RequestCount), v.(FactInput.Quota), v.(FactInput.TokenUsed)).
Definition plus3 (a b : Z * Z * Z) : Z * Z * Z :=
  (a.1.1 + b.1.1, a.1.2 + b.1.2, a.2 + b.2).
Definition nonneg3 (a : Z * Z * Z) : Prop := 0 <= a.1.1 /\ 0 <= a.1.2 /\ 0 <= a.2.
Definition fits3 (a : Z * Z * Z) : bool :=
  (a.1.1 <=? max_int64) && (a.1.2 <=? max_int64) && (a.2 <=? max_int64).
Definition with_counts (c : Z * Z * Z) (f : UsageFactHourly) : UsageFactHourly :=
  f <| Fact.RequestCount := c.1.1 |> <| Fact.Quota := c.1.2 |> <| Fact.TokenUsed := c.2 |>.

Lemma add_counts_nonneg f v : nonneg3 (counts f) -> fits3 (counts f) = true -> nonneg3 (input_counts v) ->
  add_counts f v = if fits3 (plus3 (counts f) (input_counts v))
                   then Ok (with_counts (plus3 (counts f) (input_counts v)) f)
                   else Err ErrCollectionRunContract.
Proof.
  intros (A1&A2&A3) Hf (B1&B2&B3). unfold fits3 in Hf. simpl in *. to_prop. unfold add_counts, fits3. simpl.
  rewrite !addUsageInt64_nonneg by (first [done|tauto]).
  destruct (_ + FactInput.RequestCount v <=? _), (_ + FactInput.Quota v <=? _),
    (_ + FactInput.TokenUsed v <=? _); done.
Qed.

Lemma input_valid_counts v : input_valid v = true -> nonneg3 (input_counts v).
Proof. unfold input_valid, nonneg3. intros H. simpl. to_prop. lia. Qed.

(** ** One row *)
Definition merge_row (siteID hourTS collectedAt : Z) (v : UsageFactInput)
    (byKey : gmap fact_key_of UsageFactHourly) : result (gmap fact_key_of UsageFactHourly) :=
  if input_valid v then
    fact ← add_counts (fact_entry siteID hourTS collectedAt (byKey !! input_key v) v) v;
    Ok (<[input_key v := fact]> byKey)
  else Err ErrCollectionRunContract.

Lemma merge_facts_cons s h c v rest m :
  merge_facts s h c (v :: rest) m = m' ← merge_row s h c v m; merge_facts s h c rest m'.
Proof.
  cbn [merge_facts]. unfold merge_row. destruct (input_valid v); [|done]. cbn [negb].
  unfold mbind, result_bind. by destruct (add_counts _ _).
Qed.

(** Entries have counts that are not negative and carry their key. *)
Definition merged (siteID hourTS collectedAt : Z) (m : gmap fact_key_of UsageFactHourly) : Prop :=
  forall k f, m !! k = Some f -> nonneg3 (counts f) /\ fits3 (counts f) = true /\ fact_key f = k /\
    f.(Fact.ID) = 0 /\ f.(Fact.SiteID) = siteID /\ f.(Fact.HourTS) = hourTS /\ f.(Fact.CollectedAt) = collectedAt.

Lemma fact_entry_counts s h c old v :
  counts (fact_entry s h c old v) = match old with Some f => counts f | None => (0, 0, 0) end.
Proof. by destruct old. Qed.

Lemma merge_row_ok s h c v m m' : merged s h c m -> merge_row s h c v m = Ok m' ->
  input_valid v = true /\
  let old := m !! input_key v in
  let total := plus3 (match old with Some f => counts f | None => (0, 0, 0) end) (input_counts v) in
  fits3 total = true /\ m' = <[input_key v := with_counts total (fact_entry s h c old v)]> m /\ merged s h c m'.
Proof.
  intros Hm. unfold merge_row. destruct (input_valid v) eqn:Hv; [|done]. intros H. split; [done|].
  pose proof (input_valid_counts v Hv) as Hn.
  assert (Hold : nonneg3 (counts (fact_entry s h c (m !! input_key v) v)) /\
                 fits3 (counts (fact_entry s h c (m !! input_key v) v)) = true).
  { rewrite fact_entry_counts. destruct (m !! input_key v) eqn:E; [by apply Hm in E as (?&?&_)|].
    split; [by repeat split|done]. }
  destruct Hold as [Hold Hfits]. rewrite add_counts_nonneg in H by done. clear Hfits.
  rewrite fact_entry_counts in H, Hold.
  cbv zeta. set (old := m !! input_key v) in *.
  set (total := plus3 (match old with Some f => counts f | None => (0, 0, 0) end) (input_counts v)) in *.
  destruct (fits3 total) eqn:Hfit; [|done]. injection H as <-. split; [done|]. split; [done|].
  intros k f. rewrite lookup_insert_Some. intros [[<- <-]|[_ Hk]]; [|by apply Hm].
  assert (Hc : counts (with_counts total (fact_entry s h c old v)) = total) by (by destruct total as [[? ?] ?]).
  rewrite Hc. split.
  { destruct Hold as (?&?&?), Hn as (?&?&?). unfold total, plus3, nonneg3. simpl in *. lia. }
  split; [done|]. destruct old as [f|] eqn:Eold; [|by repeat split].
  unfold old in Eold. apply Hm in Eold as (_&_&Hk&Hid&Hs&Hh&Hca). by repeat split.
Qed.

(** ** Rows commute *)
Lemma canonicalUsageUsername_comm a b : canonicalUsageUsername a b = canonicalUsageUsername b a.
Proof.
  unfold canonicalUsageUsername.
  destruct (decide (a = "")) as [-> |Ha], (decide (b = "")) as [-> |Hb];
    rewrite ?(bool_decide_eq_true_2 (_ = _)) by done;
    rewrite ?(bool_decide_eq_false_2 (a = "")), ?(bool_decide_eq_false_2 (b = "")) by done; simpl; try done.
  do 2 case_bool_decide; try done.
  - by apply (anti_symm String.le).
  - destruct (total String.le a b); done.
Qed.

Lemma canonicalUsageUsername_empty a : canonicalUsageUsername a "" = a.
Proof.
  unfold canonicalUsageUsername. destruct (decide (a = "")) as [-> |Ha]; [done|].
  by rewrite bool_decide_eq_false_2, (bool_decide_eq_true_2 ("" = "")).
Qed.

Lemma canonicalUsageUsername_least a b : a <> "" -> b <> "" ->
  canonicalUsageUsername a b = if bool_decide (String.le a b) then a else b.
Proof.
  intros Ha Hb. unfold canonicalUsageUsername.
  by rewrite (bool_decide_eq_false_2 (a = "")), (bool_decide_eq_false_2 (b = "")).
Qed.

Lemma canonicalUsageUsername_swap a b c :
  canonicalUsageUsername (canonicalUsageUsername a b) c = canonicalUsageUsername (canonicalUsageUsername a c) b.
Proof.
  destruct (decide (b = "")) as [-> |Hb]; [by rewrite !canonicalUsageUsername_empty|].
  destruct (decide (c = "")) as [-> |Hc]; [by rewrite !canonicalUsageUsername_empty|].
  destruct (decide (a = "")) as [-> |Ha].
  { change (canonicalUsageUsername "" b) with b. change (canonicalUsageUsername "" c) with c.
    apply canonicalUsageUsername_comm. }
  rewrite !(canonicalUsageUsername_least a) by done.
  assert (Htot : forall x y, ~ String.le x y -> String.le y x) by (intros x y ?; by destruct (total String.le x y)).
  assert (Htr : forall x y z, String.le x y -> String.le y z -> String.le x z) by (intros x y z; apply transitivity).
  destruct (decide (String.le a b)) as [H1|H1], (decide (String.le a c)) as [H2|H2];
    rewrite ?(bool_decide_eq_true_2 (String.le a b)), ?(bool_decide_eq_false_2 (String.le a b)),
      ?(bool_decide_eq_true_2 (String.le a c)), ?(bool_decide_eq_false_2 (String.le a c)) by done;
    rewrite !canonicalUsageUsername_least by done.
  - by rewrite !bool_decide_eq_true_2.
  - rewrite bool_decide_eq_false_2 by done. rewrite bool_decide_eq_true_2; [done|eauto].
  - rewrite bool_decide_eq_true_2; [|eauto]. by rewrite bool_decide_eq_false_2.
  - rewrite <- !canonicalUsageUsername_least by done. apply canonicalUsageUsername_comm.
Qed.

(** Adding two rows of one key to an entry, in either order. *)
Definition add_row (siteID hourTS collectedAt : Z) (old : option UsageFactHourly) (v : UsageFactInput)
  : result UsageFactHourly := add_counts (fact_entry siteID hourTS collectedAt old v) v.

Definition entry_ok (old : option UsageFactHourly) : Prop :=
  match old with Some f => nonneg3 (counts f) /\ fits3 (counts f) = true | None => True end.
Definition entry_total (old : option UsageFactHourly) : Z * Z * Z :=
  match old with Some f => counts f | None => (0, 0, 0) end.

Lemma entry_total_ok old : entry_ok old -> nonneg3 (entry_total old) /\ fits3 (entry_total old) = true.
Proof. destruct old; simpl; [done|]. intros _. split; [by repeat split|done]. Qed.

Lemma add_row_ok s h c old v : entry_ok old -> input_valid v = true ->
  add_row s h c old v = if fits3 (plus3 (entry_total old) (input_counts v))
    then Ok (with_counts (plus3 (entry_total old) (input_counts v)) (fact_entry s h c old v))
    else Err ErrCollectionRunContract.
Proof.
  intros Hok Hv%input_valid_counts. apply entry_total_ok in Hok as [Hn Hf]. unfold add_row.
  rewrite add_counts_nonneg; rewrite ?fact_entry_counts; done.
Qed.

Lemma entry_swap s h c old v w : input_key v = input_key w ->
  with_counts (plus3 (plus3 (entry_total old) (input_counts v)) (input_counts w))
    (fact_entry s h c (Some (with_counts (plus3 (entry_total old) (input_counts v)) (fact_entry s h c old v))) w)
  = with_counts (plus3 (plus3 (entry_total old) (input_counts w)) (input_counts v))
    (fact_entry s h c (Some (with_counts (plus3 (entry_total old) (input_counts w)) (fact_entry s h c old w))) v).
Proof.
  intros [= E1 E2 E3 E4 E5 E6].
  assert (Hp : plus3 (plus3 (entry_total old) (input_counts v)) (input_counts w)
             = plus3 (plus3 (entry_total old) (input_counts w)) (input_counts v)).
  { unfold plus3. simpl. f_equal; [f_equal|]; lia. }
  rewrite Hp. unfold with_counts. destruct old as [f|]; simpl.
  - by rewrite (canonicalUsageUsername_swap (Fact.UsernameSnapshot f)), (canonicalUsageUsername_swap (Fact.TokenName f)).
  - rewrite (canonicalUsageUsername_comm (FactInput.UsernameSnapshot v)),
      (canonicalUsageUsername_comm (FactInput.TokenName v)). by rewrite E1, E2, E3, E4, E5, E6.
Qed.

Lemma fits3_monotone a b : nonneg3 b -> fits3 (plus3 a b) = true -> fits3 a = true.
Proof. unfold nonneg3, fits3, plus3. simpl. intros (B1&B2&B3) H. to_prop. lia. Qed.

Lemma add_rows_swap s h c old v w : entry_ok old -> input_valid v = true -> input_valid w = true ->
  input_key v = input_key w ->
  (f ← add_row s h c old v; add_row s h c (Some f) w) = (f ← add_row s h c old w; add_row s h c (Some f) v).
Proof.
  intros Hok Hv Hw Hk. pose proof (input_valid_counts v Hv) as Hnv. pose proof (input_valid_counts w Hw) as Hnw.
  pose proof (entry_total_ok old Hok) as [Hn Hf].
  assert (Hone : forall a b, input_valid a = true -> input_valid b = true ->
    nonneg3 (input_counts a) -> nonneg3 (input_counts b) ->
    (f ← add_row s h c old a; add_row s h c (Some f) b)
    = if fits3 (plus3 (plus3 (entry_total old) (input_counts a)) (input_counts b))
      then Ok (with_counts (plus3 (plus3 (entry_total old) (input_counts a)) (input_counts b))
        (fact_entry s h c (Some (with_counts (plus3 (entry_total old) (input_counts a)) (fact_entry s h c old a))) b))
      else Err ErrCollectionRunContract).
  { intros a b Ha Hb Hna Hnb. rewrite (add_row_ok s h c old a) by done.
    destruct (fits3 (plus3 (entry_total old) (input_counts a))) eqn:E.
    - unfold mbind, result_bind. set (f := with_counts _ _).
      assert (Hc : counts f = plus3 (entry_total old) (input_counts a)) by reflexivity.
      rewrite add_row_ok; [|simpl; rewrite Hc; split; [|done]|done]; [|].
      + simpl entry_total. by rewrite Hc.
      + destruct Hn as (N1&N2&N3), Hna as (N4&N5&N6). unfold nonneg3, plus3. simpl in *. lia.
    - unfold mbind, result_bind.
      destruct (fits3 (plus3 (plus3 _ _) _)) eqn:E2; [|done].
      apply fits3_monotone in E2; [congruence|done]. }
  rewrite !Hone by done. rewrite (entry_swap s h c old v w) by done.
  assert (Hp : plus3 (plus3 (entry_total old) (input_counts v)) (input_counts w)
             = plus3 (plus3 (entry_total old) (input_counts w)) (input_counts v)).
  { unfold plus3. simpl. f_equal; [f_equal|]; lia. }
  by rewrite Hp.
Qed.

Lemma merged_entry s h c m k : merged s h c m -> entry_ok (m !! k).
Proof. intros Hm. destruct (m !! k) eqn:E; [|done]. by apply Hm in E as (?&?&_). Qed.

Lemma merge_row_valid s h c v m : input_valid v = true ->
  merge_row s h c v m = f ← add_row s h c (m !! input_key v) v; Ok (<[input_key v := f]> m).
Proof. intros Hv. unfold merge_row. by rewrite Hv. Qed.

Lemma add_row_fails s h c old v e : add_row s h c old v = Err e -> e = ErrCollectionRunContract.
Proof. unfold add_row, add_counts. repeat destruct (addUsageInt64 _ _); congruence. Qed.

Lemma merge_row_fails s h c v m e : merge_row s h c v m = Err e -> e = ErrCollectionRunContract.
Proof.
  unfold merge_row, mbind, result_bind, add_counts. destruct (input_valid v); [|congruence].
  repeat destruct (addUsageInt64 _ _); congruence.
Qed.

Lemma merge_rows_swap s h c v w m : merged s h c m ->
  (m' ← merge_row s h c v m; merge_row s h c w m') = (m' ← merge_row s h c w m; merge_row s h c v m').
Proof.
  intros Hm.
  assert (Hbad : forall a b, input_valid a = false ->
    (m' ← merge_row s h c a m; merge_row s h c b m') = Err ErrCollectionRunContract /\
    (m' ← merge_row s h c b m; merge_row s h c a m') = Err ErrCollectionRunContract).
  { intros a b Ha. assert (Hf : forall x, merge_row s h c a x = Err ErrCollectionRunContract).
    { intros x. unfold merge_row. by rewrite Ha. }
    unfold mbind, result_bind. rewrite Hf. split; [done|].
    destruct (merge_row s h c b m) eqn:E; [apply Hf|]. by rewrite (merge_row_fails _ _ _ _ _ _ E). }
  destruct (input_valid v) eqn:Hv; [|by destruct (Hbad v w Hv) as [-> ->]].
  destruct (input_valid w) eqn:Hw; [|by destruct (Hbad w v Hw) as [-> ->]].
  rewrite (merge_row_valid s h c v), (merge_row_valid s h c w) by done.
  destruct (decide (input_key v = input_key w)) as [Hk|Hk].
  - pose proof (add_rows_swap s h c (m !! input_key v) v w (merged_entry s h c m _ Hm) Hv Hw Hk) as Hs.
    rewrite <- Hk. unfold mbind, result_bind in *.
    destruct (add_row s h c (m !! input_key v) v) as [f|e] eqn:E1;
      destruct (add_row s h c (m !! input_key v) w) as [g|e'] eqn:E2; rewrite ?(merge_row_valid s h c w),
        ?(merge_row_valid s h c v), <- ?Hk, ?lookup_insert_eq by done; unfold mbind, result_bind.
    + rewrite Hs. destruct (add_row s h c (Some g) v); [by rewrite !insert_insert_eq|done].
    + rewrite Hs. done.
    + rewrite <- Hs. done.
    + by injection Hs as ->.
  - unfold mbind, result_bind.
    destruct (add_row s h c (m !! input_key v) v) as [f|e] eqn:E1;
      destruct (add_row s h c (m !! input_key w) w) as [g|e'] eqn:E2;
      rewrite ?(merge_row_valid s h c w), ?(merge_row_valid s h c v) by done;
      rewrite ?lookup_insert_ne by done; unfold mbind, result_bind; rewrite ?E1, ?E2; try done.
    + by rewrite insert_insert_ne.
    + apply add_row_fails in E1 as ->. by apply add_row_fails in E2 as ->.
Qed.

Lemma merge_row_merged s h c v m m' : merged s h c m -> merge_row s h c v m = Ok m' -> merged s h c m'.
Proof. intros Hm H. by apply (merge_row_ok s h c v m m' Hm) in H as (_&_&_&?). Qed.

Lemma merge_facts_perm s h c input input' : input ≡ₚ input' -> forall m, merged s h c m ->
  merge_facts s h c input m = merge_facts s h c input' m.
Proof.
  intros HP. induction HP as [|v l1 l2 HP IH|v w l|l1 l2 l3 _ IH1 _ IH2]; intros m Hm.
  - done.
  - rewrite !merge_facts_cons. unfold mbind, result_bind.
    destruct (merge_row s h c v m) as [m'|] eqn:E; [|done]. apply IH. by eapply merge_row_merged.
  - assert (Hone : forall a b, merge_facts s h c (a :: b :: l) m
        = m' ← (m1 ← merge_row s h c a m; merge_row s h c b m1); merge_facts s h c l m').
    { intros a b. rewrite merge_facts_cons. unfold mbind, result_bind.
      destruct (merge_row s h c a m); [|done]. by rewrite merge_facts_cons. }
    rewrite !Hone. by rewrite merge_rows_swap.
  - by rewrite IH1, IH2.
Qed.

(** The canonical facts of an hour and their hash do not depend on the
    order in which the upstream listed the rows, nor on the order in which the
    code walks its map; every order gives the same facts, or the same refusal. *)
Theorem canonicalUsageFacts_order sha siteID hourTS collectedAt input input' :
  input ≡ₚ input' ->
  canonicalUsageFacts sha siteID hourTS collectedAt input = canonicalUsageFacts sha siteID hourTS collectedAt input'.
Proof.
  intros HP. unfold canonicalUsageFacts. destruct (_ || _); [done|].
  by rewrite (merge_facts_perm _ _ _ _ _ HP).
Qed.

(** ** Totals *)
Definition sum3 (l : list (Z * Z * Z)) : Z * Z * Z := foldr plus3 (0, 0, 0) l.

Lemma plus3_assoc a b c : plus3 a (plus3 b c) = plus3 (plus3 a b) c.
Proof. unfold plus3. simpl. f_equal; [f_equal|]; lia. Qed.
Lemma plus3_comm a b : plus3 a b = plus3 b a.
Proof. unfold plus3. f_equal; [f_equal|]; lia. Qed.
Lemma plus3_zero a : plus3 (0, 0, 0) a = a.
Proof. by destruct a as [[x y] z]. Qed.

#[export] Instance sum3_perm : Proper (Permutation ==> eq) sum3.
Proof.
  intros l l' HP. induction HP; simpl; try congruence.
  rewrite !plus3_assoc. f_equal. apply plus3_comm.
Qed.

(** The counts of the entries whose key [q] selects. *)
Definition facts_total (q : fact_key_of -> bool) (facts : list UsageFactHourly) : Z * Z * Z :=
  sum3 ((fun f => if q (fact_key f) then counts f else (0, 0, 0)) <$> facts).
Definition inputs_total (q : fact_key_of -> bool) (input : list UsageFactInput) : Z * Z * Z :=
  sum3 ((fun v => if q (input_key v) then input_counts v else (0, 0, 0)) <$> input).

Definition map_total (q : fact_key_of -> bool) (m : gmap fact_key_of UsageFactHourly) : Z * Z * Z :=
  facts_total q ((map_to_list m).*2).

Lemma map_total_insert q m k f : m !! k = None ->
  map_total q (<[k := f]> m) = plus3 (if q (fact_key f) then counts f else (0, 0, 0)) (map_total q m).
Proof.
  intros Hk. unfold map_total, facts_total.
  assert (HP : (map_to_list (<[k := f]> m)).*2 ≡ₚ f :: (map_to_list m).*2).
  { by rewrite map_to_list_insert. }
  by rewrite HP.
Qed.

Lemma merge_row_total s h c v m m' q : merged s h c m -> merge_row s h c v m = Ok m' ->
  map_total q m' = plus3 (map_total q m) (if q (input_key v) then input_counts v else (0, 0, 0)).
Proof.
  intros Hm H. apply merge_row_ok in H as (_&_&->&Hm'); [|done]. simpl in Hm'.
  set (k := input_key v) in *. set (new := with_counts _ _) in *.
  destruct (Hm' k new (lookup_insert_eq _ _ _)) as (_&_&Hkey&_).
  rewrite <- insert_delete_eq, map_total_insert by apply lookup_delete_eq. rewrite Hkey.
  assert (Hc : counts new = plus3 (entry_total (m !! k)) (input_counts v)) by reflexivity.
  rewrite Hc. destruct (m !! k) as [f|] eqn:E; simpl.
  - rewrite <- (insert_delete_id m k f E) at 2. rewrite map_total_insert by apply lookup_delete_eq.
    destruct (Hm k f E) as (_&_&Hf&_). rewrite Hf. destruct (q k); [|by rewrite !plus3_zero, plus3_comm, plus3_zero].
    rewrite <- !plus3_assoc. f_equal. apply plus3_comm.
  - rewrite delete_id by done. rewrite plus3_zero. apply plus3_comm.
Qed.

Lemma merge_facts_total s h c q input : forall m m', merged s h c m ->
  merge_facts s h c input m = Ok m' ->
  merged s h c m' /\ map_total q m' = plus3 (map_total q m) (inputs_total q input).
Proof.
  induction input as [|v input IH]; intros m m' Hm H.
  - injection H as <-. split; [done|]. rewrite plus3_comm. symmetry. apply plus3_zero.
  - rewrite merge_facts_cons in H. unfold mbind, result_bind in H.
    destruct (merge_row s h c v m) as [m1|] eqn:E; [|done].
    pose proof (merge_row_merged _ _ _ _ _ _ Hm E) as Hm1. apply IH in H as [Hm' Ht]; [|done].
    split; [done|]. rewrite Ht, (merge_row_total _ _ _ _ _ _ q Hm E). unfold inputs_total.
    rewrite fmap_cons. simpl. by rewrite plus3_assoc.
Qed.

Lemma merge_facts_keys s h c input k : forall m m', merge_facts s h c input m = Ok m' ->
  is_Some (m' !! k) <-> is_Some (m !! k) \/ k ∈ input_key <$> input.
Proof.
  induction input as [|v input IH]; intros m m' H.
  - injection H as <-. simpl. set_solver.
  - rewrite merge_facts_cons in H. unfold mbind, result_bind in H.
    destruct (merge_row s h c v m) as [m1|] eqn:E; [|done]. rewrite (IH _ _ H), fmap_cons, elem_of_cons.
    assert (Hm1 : is_Some (m1 !! k) <-> is_Some (m !! k) \/ k = input_key v).
    { unfold merge_row, mbind, result_bind in E. destruct (input_valid v); [|done].
      destruct (add_counts _ _) as [f|]; [|done]. injection E as <-.
      destruct (decide (k = input_key v)) as [-> |Hk]; [rewrite lookup_insert_eq; split; [by right|eauto]|].
      rewrite lookup_insert_ne by done. tauto. }
    rewrite Hm1. tauto.
Qed.

(** The rows behind canonical facts: the sorted values of a merged map. *)
Lemma canonical_map sha siteID hourTS collectedAt input facts hash :
  canonicalUsageFacts sha siteID hourTS collectedAt input = Ok (facts, hash) ->
  hour_aligned hourTS = true /\ 0 < siteID /\ 0 < collectedAt /\ hash = usageFactsHash sha facts /\
  exists m, merge_facts siteID hourTS collectedAt input ∅ = Ok m /\ merged siteID hourTS collectedAt m /\
    facts = sort_by fact_order ((map_to_list m).*2) /\ fact_key <$> (map_to_list m).*2 = (map_to_list m).*1.
Proof.
  unfold canonicalUsageFacts. destruct (_ || _) eqn:Hg; [done|]. to_prop. unfold mbind, result_bind.
  destruct (merge_facts _ _ _ _ _) as [m|] eqn:Hmerge; [|done]. intros [= <- <-].
  split; [tauto|]. split; [lia|]. split; [lia|]. split; [done|]. exists m. split; [done|].
  assert (H0 : merged siteID hourTS collectedAt ∅) by (intros k f Hk; by rewrite lookup_empty in Hk).
  destruct (merge_facts_total _ _ _ (fun _ => true) _ _ _ H0 Hmerge) as [Hm _].
  split; [done|]. split; [done|]. rewrite <- list_fmap_compose. apply list_fmap_ext.
  intros i [k f] Hf%list_elem_of_lookup_2. apply elem_of_map_to_list in Hf. by apply Hm in Hf as (_&_&?&_).
Qed.

Lemma elem_of_values {K} `{Countable K} {A} (m : gmap K A) f : f ∈ (map_to_list m).*2 <-> exists k, m !! k = Some f.
Proof.
  rewrite list_elem_of_fmap. split.
  - intros ([k x]&->&Hx%elem_of_map_to_list). eauto.
  - intros (k&Hk). exists (k, f). by rewrite elem_of_map_to_list.
Qed.

(** C30: the canonical facts have one row per key, in order, exactly the keys of
    the rows read; each counter is the sum of the counters read, for every set
    of keys, within int64 and not negative; every row names the site, the hour
    and the time of collection; and the hash is the hash of these rows. *)
Theorem canonicalUsageFacts_exact sha siteID hourTS collectedAt input facts hash :
  canonicalUsageFacts sha siteID hourTS collectedAt input = Ok (facts, hash) ->
  NoDup (fact_key <$> facts) /\ StronglySorted (by_key fact_order) facts /\
  hash = usageFactsHash sha facts /\
  (forall k, k ∈ fact_key <$> facts <-> k ∈ input_key <$> input) /\
  (forall q, facts_total q facts = inputs_total q input) /\
  (forall f, f ∈ facts -> nonneg3 (counts f) /\ fits3 (counts f) = true /\
     f.(Fact.SiteID) = siteID /\ f.(Fact.HourTS) = hourTS /\ f.(Fact.CollectedAt) = collectedAt).
Proof.
  intros (_&_&_&Hh&m&Hmerge&Hm&->&Hkeys)%canonical_map.
  assert (H0 : merged siteID hourTS collectedAt ∅) by (intros k f Hk; by rewrite lookup_empty in Hk).
  split; [by rewrite (sort_by_perm fact_order), Hkeys; apply NoDup_fst_map_to_list|].
  split; [apply sort_by_sorted|]. split; [done|]. split; [|split].
  - intros k. rewrite (sort_by_perm fact_order), Hkeys, list_elem_of_fmap.
    pose proof (merge_facts_keys _ _ _ _ k _ _ Hmerge) as Hk. rewrite lookup_empty in Hk.
    assert (Hs : is_Some (m !! k) <-> k ∈ input_key <$> input) by (rewrite Hk; split; [intros [[? ?]|?]; done|by right]).
    rewrite <- Hs. split.
    + intros ([k' f]&->&Hf%elem_of_map_to_list). eauto.
    + intros [f Hf]. exists (k, f). by rewrite elem_of_map_to_list.
  - intros q. unfold facts_total. rewrite (sort_by_perm fact_order).
    change (sum3 _) with (map_total q m). destruct (merge_facts_total _ _ _ q _ _ _ H0 Hmerge) as [_ ->].
    apply plus3_zero.
  - intros f Hf. rewrite (elem_of_sort_by fact_order), elem_of_values in Hf. destruct Hf as (k&Hk).
    by apply Hm in Hk as (?&?&_&_&?&?&?).
Qed.

(** ** The bytes hashed *)
Definition hashed_columns (f : UsageFactHourly) : list Z * list string :=
  ([f.(Fact.RemoteUserID); f.(Fact.ChannelID); f.(Fact.TokenID); f.(Fact.RequestCount); f.(Fact.Quota);
    f.(Fact.TokenUsed)],
   [f.(Fact.UsernameSnapshot); f.(Fact.ModelName); f.(Fact.UseGroup); f.(Fact.TokenName); f.(Fact.NodeName)]).
Definition hashable (f : UsageFactHourly) : Prop :=
  Forall int64 (hashed_columns f).1 /\ Forall (fun s => int64 (len s)) (hashed_columns f).2.

#[export] Instance int64_dec z : Decision (int64 z).
Proof. unfold int64. apply _. Defined.
#[export] Instance hashable_dec f : Decision (hashable f).
Proof. unfold hashable. apply _. Defined.

Lemma fact_bytes_columns f :
  fact_bytes f = ((hashed_columns f).1 ≫= int64_bytes) ++ ((hashed_columns f).2 ≫= hashed_string).
Proof. unfold fact_bytes, hashed_columns. simpl. by rewrite !app_nil_r. Qed.

Lemma hashed_string_inj s1 s2 r1 r2 : int64 (len s1) -> int64 (len s2) ->
  hashed_string s1 ++ r1 = hashed_string s2 ++ r2 -> s1 = s2 /\ r1 = r2.
Proof.
  unfold hashed_string. intros H1 H2 H. rewrite <- !app_assoc in H.
  apply app_inj_1 in H as [Hl H]; [|by rewrite !length_int64_bytes].
  apply int64_bytes_inj in Hl; [|done..].
  apply app_inj_1 in H as [Ht H]; [by apply text_bytes_inj in Ht|].
  apply Nat2Z.inj. by rewrite !length_text_bytes.
Qed.

Lemma hashed_strings_inj l1 : forall l2 r1 r2, length l1 = length l2 ->
  Forall (fun s => int64 (len s)) l1 -> Forall (fun s => int64 (len s)) l2 ->
  (l1 ≫= hashed_string) ++ r1 = (l2 ≫= hashed_string) ++ r2 -> l1 = l2 /\ r1 = r2.
Proof.
  induction l1 as [|s1 l1 IH]; intros [|s2 l2] r1 r2 Hlen H1 H2 H; try done.
  rewrite !bind_cons, <- !app_assoc in H. inversion H1; inversion H2; subst.
  apply hashed_string_inj in H as [-> H]; [|done..]. apply IH in H as [-> ->]; [done|by injection Hlen|done|done].
Qed.

Lemma hashed_ints_inj l1 : forall l2 r1 r2, length l1 = length l2 -> Forall int64 l1 -> Forall int64 l2 ->
  (l1 ≫= int64_bytes) ++ r1 = (l2 ≫= int64_bytes) ++ r2 -> l1 = l2 /\ r1 = r2.
Proof.
  induction l1 as [|s1 l1 IH]; intros [|s2 l2] r1 r2 Hlen H1 H2 H; try done.
  rewrite !bind_cons, <- !app_assoc in H. inversion H1; inversion H2; subst.
  apply app_inj_1 in H as [Hb H]; [|by rewrite !length_int64_bytes].
  apply int64_bytes_inj in Hb; [|done..]. apply IH in H as [-> ->]; [by subst|by injection Hlen|done|done].
Qed.

Lemma fact_bytes_inj f1 f2 r1 r2 : hashable f1 -> hashable f2 ->
  fact_bytes f1 ++ r1 = fact_bytes f2 ++ r2 -> hashed_columns f1 = hashed_columns f2 /\ r1 = r2.
Proof.
  intros [A1 A2] [B1 B2] H. rewrite !fact_bytes_columns, <- !app_assoc in H.
  apply hashed_ints_inj in H as [Hi H]; [|done..]. apply hashed_strings_inj in H as [Hs ->]; [|done..].
  split; [|done]. rewrite (surjective_pairing (hashed_columns f1)), (surjective_pairing (hashed_columns f2)). congruence.
Qed.

Lemma facts_bytes_inj l1 : forall l2, (forall f, f ∈ l1 -> hashable f) -> (forall f, f ∈ l2 -> hashable f) ->
  l1 ≫= fact_bytes = l2 ≫= fact_bytes -> hashed_columns <$> l1 = hashed_columns <$> l2.
Proof.
  induction l1 as [|f1 l1 IH]; intros [|f2 l2] H1 H2 H; try done.
  rewrite !bind_cons in H. apply fact_bytes_inj in H as [Hc H]; [|apply H1; set_solver|apply H2; set_solver].
  rewrite !fmap_cons, Hc. f_equal. apply IH; [set_solver|set_solver|done].
Qed.

(** C31: the bytes hashed for the facts of an hour determine the facts: lists
    with the same bytes have, in canonical order, the same ids, names and
    counters; and the order in which the rows were read does not matter. *)
Theorem usage_facts_preimage_injective facts1 facts2 :
  (forall f, f ∈ facts1 -> hashable f) -> (forall f, f ∈ facts2 -> hashable f) ->
  (usage_facts_preimage facts1 = usage_facts_preimage facts2 ->
   hashed_columns <$> sort_by fact_order facts1 = hashed_columns <$> sort_by fact_order facts2) /\
  (facts1 ≡ₚ facts2 -> NoDup (fact_order <$> facts1) ->
   usage_facts_preimage facts1 = usage_facts_preimage facts2).
Proof.
  intros H1 H2. unfold usage_facts_preimage. split.
  - intros H. apply app_inv_head, app_inv_head in H. apply facts_bytes_inj; [| |done];
      intros f Hf; rewrite (elem_of_sort_by fact_order) in Hf; auto.
  - intros HP Hnd. by rewrite (sort_by_unique fact_order _ _ HP Hnd).
Qed.

(** ** Witnesses *)
Module UsageSample.
Definition sha (l : list Z) : string := FormatInt (foldl (fun a b => 257 * a + b + 1) 0 l).
Definition input (user requests : Z) (name model : string) : UsageFactInput :=
  FactInput.mk user name model 3 "default" 4 "token" "node" requests 10 20.
Definition rows : list UsageFactInput := [input 5 2 "bob" "gpt"; input 9 1 "eve" "gpt"; input 5 3 "alice" "gpt"].
Definition reversed : list UsageFactInput := rev rows.
Definition facts : list UsageFactHourly :=
  match canonicalUsageFacts sha 7 3600 20000 rows with Ok (l, _) => l | Err _ => [] end.
End UsageSample.

Lemma canonicalUsageFacts_order_witness :
  canonicalUsageFacts UsageSample.sha 7 3600 20000 UsageSample.rows
  = canonicalUsageFacts UsageSample.sha 7 3600 20000 UsageSample.reversed.
Proof.
  apply canonicalUsageFacts_order. unfold UsageSample.reversed, UsageSample.rows. simpl.
  change [UsageSample.input 5 3 "alice" "gpt"; UsageSample.input 9 1 "eve" "gpt"; UsageSample.input 5 2 "bob" "gpt"]
    with (rev [UsageSample.input 5 2 "bob" "gpt"; UsageSample.input 9 1 "eve" "gpt"; UsageSample.input 5 3 "alice" "gpt"]).
  apply Permutation_rev.
Defined.

Lemma canonicalUsageFacts_exact_witness :
  canonicalUsageFacts UsageSample.sha 7 3600 20000 UsageSample.rows
    = Ok (UsageSample.facts, usageFactsHash UsageSample.sha UsageSample.facts) /\
  counts <$> UsageSample.facts = [(5, 20, 40); (1, 10, 20)] /\
  Fact.UsernameSnapshot <$> UsageSample.facts = ["alice"; "eve"] /\
  facts_total (fun _ => true) UsageSample.facts = (6, 30, 60).
Proof.
  assert (H : canonicalUsageFacts UsageSample.sha 7 3600 20000 UsageSample.rows
    = Ok (UsageSample.facts, usageFactsHash UsageSample.sha UsageSample.facts)) by (vm_compute; reflexivity).
  split; [exact H|]. split; [vm_compute; reflexivity|]. split; [vm_compute; reflexivity|].
  destruct (canonicalUsageFacts_exact _ _ _ _ _ _ _ H) as (_&_&_&_&Ht&_).
  rewrite (Ht (fun _ => true)). vm_compute. reflexivity.
Defined.

Lemma usage_facts_preimage_injective_witness :
  usage_facts_preimage (rev UsageSample.facts) = usage_facts_preimage UsageSample.facts.
Proof.
  assert (Hh : forall f, f ∈ UsageSample.facts -> hashable f).
  { apply Forall_forall. apply (bool_decide_unpack _). vm_compute. exact I. }
  assert (Hr : forall f, f ∈ rev UsageSample.facts -> hashable f).
  { intros f Hf. apply Hh. apply list_elem_of_In. apply list_elem_of_In in Hf. by apply in_rev. }
  apply (proj2 (usage_facts_preimage_injective _ _ Hr Hh)).
  - symmetry. apply Permutation_rev.
  - apply (bool_decide_unpack _). vm_compute. exact I.
Defined.
