(* ===== verification/BucketKeys.v ===== *)
(** * The locks of the buckets of a commit

    Every commit that may write a bucket first locks the row of its key.  The
    keys fit the column, are listed once each in the order of [sort.Strings],
    and cover every bucket the rebuild writes; so two commits that share
    buckets take their locks in the same order. *)

From S2P Require Import Prelude Constants GoText Stats DateBucket Store Frame RunContract RunState RunRepository SiteFence TaskScope TaskClaim TaskCommit Materialize UsageFacts UsageAggregation RollupLemmas RollupRebuild UsageFactsBehaviour.

(** ** The length of a number and of a key *)
Lemma length_pretty_N_go k : forall x s, (x < 10 ^ N.of_nat k)%N ->
  (String.length (pretty.pretty_N_go x s) <= k + String.length s)%nat.
Proof.
  induction k as [|k IH]; intros x s Hx.
  - simpl in Hx. assert (x = 0%N) as -> by lia. by rewrite pretty.pretty_N_go_0.
  - destruct (decide (x = 0%N)) as [->|Hnz]; [rewrite pretty.pretty_N_go_0; lia|].
    rewrite pretty.pretty_N_go_step by lia. etrans; [apply IH|simpl; lia].
    rewrite Nat2N.inj_succ, N.pow_succ_r' in Hx. apply N.Div0.div_lt_upper_bound. lia.
Qed.

Lemma length_decimal z : int64 z -> (String.length (decimal z) <= 20)%nat.
Proof.
  unfold int64, min_int64, max_int64, decimal, FormatInt, pretty.pretty, pretty.pretty_Z. intros Hz.
  assert (HN : forall n, (n < 10000000000000000000)%N -> (String.length (@pretty.pretty N _ n) <= 19)%nat).
  { intros n Hn. unfold pretty.pretty, pretty.pretty_N. case_decide; [simpl; lia|].
    pose proof (length_pretty_N_go 19 n "" ltac:(exact Hn)) as Hl. simpl in Hl. lia. }
  destruct z as [|p|p]; [simpl; lia|etrans; [apply HN|]; lia|].
  apply (le_n_S _ 19), HN. lia.
Qed.

Lemma length_app s1 s2 : String.length (s1 +:+ s2) = (String.length s1 + String.length s2)%nat.
Proof. induction s1 as [|c s1 IH]; [done|]. simpl. by rewrite IH. Qed.

Lemma length_substring n s : (String.length (String.substring 0 n s) <= n)%nat.
Proof.
  revert n. induction s as [|c s IH]; intros [|n]; simpl; [lia..|]. specialize (IH n). lia.
Qed.

(** ** Sorted keys *)
Abbreviation key_order := (by_key (fun k : string => [AStr k])).

Lemma key_order_le k1 k2 : key_order k1 k2 <-> String.le k1 k2.
Proof.
  unfold by_key. simpl. split; [by intros [[_ H]|[[= ->] _]]|].
  intros H. destruct (decide (k1 = k2)) as [->|Hne]; [right; done|left; split; [congruence|done]].
Qed.

Lemma key_order_sorted keys : StronglySorted key_order keys -> StronglySorted String.le keys.
Proof.
  induction 1 as [|k keys _ IH Hall]; constructor; [done|].
  eapply List.Forall_impl; [|exact Hall]. intros k'. apply key_order_le.
Qed.

Lemma compact_cons k1 k2 keys : compact_keys (k1 :: k2 :: keys) =
  if k1 == k2 then compact_keys (k2 :: keys) else k1 :: compact_keys (k2 :: keys).
Proof. done. Qed.

Lemma elem_of_compact keys k : k ∈ compact_keys keys <-> k ∈ keys.
Proof.
  induction keys as [|k1 keys IH]; [done|]. destruct keys as [|k2 keys]; [done|].
  rewrite compact_cons. destruct (k1 == k2) eqn:E; to_prop.
  - subst. rewrite IH. set_solver.
  - rewrite !(elem_of_cons _ k k1), IH. done.
Qed.

Lemma compact_sorted keys : StronglySorted key_order keys ->
  StronglySorted key_order (compact_keys keys) /\ NoDup (compact_keys keys).
Proof.
  induction keys as [|k1 keys IH]; intros Hs; [split; constructor|].
  apply StronglySorted_inv in Hs as [Hs Hall]. specialize (IH Hs) as [IHs IHn].
  destruct keys as [|k2 keys]; [split; [repeat constructor|apply NoDup_singleton]|].
  rewrite compact_cons. destruct (k1 == k2) eqn:E; to_prop; [done|].
  rewrite List.Forall_forall in Hall. split.
  - constructor; [done|]. apply List.Forall_forall. intros x Hx%list_elem_of_In.
    apply (proj1 (elem_of_compact _ _)) in Hx. by apply Hall, list_elem_of_In.
  - constructor; [|done]. intros Hin. apply (proj1 (elem_of_compact _ _)) in Hin. apply E. apply (anti_symm String.le).
    + apply key_order_le, Hall. by left.
    + apply elem_of_cons in Hin as [->|Hin]; [done|].
      apply StronglySorted_inv in Hs as [_ Hall2]. rewrite List.Forall_forall in Hall2.
      apply key_order_le, Hall2. by apply list_elem_of_In.
Qed.

(** ** The keys of a commit *)
Section Keys.
Context (sha : list Z -> string).

Definition kind_fits (kind : string) : Prop := (String.length kind <= 9)%nat.

Lemma hashed_fits kind input : kind_fits kind -> len (usageHashedBucketKeyValue sha kind input) <=? 64 = true.
Proof.
  unfold kind_fits, usageHashedBucketKeyValue, len. intros Hk. rewrite !length_app.
  pose proof (length_substring 48 (sha (text_bytes input))). apply Z.leb_le. cbn [String.length]. lia.
Qed.

(** The keys a commit of the site's hour has to hold: its site, all sites, and
    every account, customer, model and channel with a row to write. *)
Record covers_buckets (d : Db) (siteID hourTS dateKey dateStart dateEnd : Z) (newFacts : list UsageFactHourly)
    (keys : list string) : Prop := {
  covers_site : "stats:site:" +:+ decimal siteID +:+ ":hour:" +:+ decimal hourTS ∈ keys /\
    "stats:site:" +:+ decimal siteID +:+ ":date:" +:+ decimal dateKey ∈ keys;
  covers_global : "stats:global:hour:" +:+ decimal hourTS ∈ keys /\ "stats:global:date:" +:+ decimal dateKey ∈ keys;
  covers_accounts : forall a, a ∈ site_accounts d siteID ->
    usageHashedBucketKey sha "account" "hour" [a.(MAccount.ID); siteID; hourTS] ∈ keys /\
    usageHashedBucketKey sha "account" "date" [a.(MAccount.ID); siteID; dateKey] ∈ keys /\
    usageHashedBucketKey sha "customer" "hour" [a.(MAccount.CustomerID); siteID; hourTS] ∈ keys /\
    usageHashedBucketKey sha "customer" "date" [a.(MAccount.CustomerID); siteID; dateKey] ∈ keys;
  covers_facts : forall f, f ∈ day_facts d siteID dateStart dateEnd \/ f ∈ newFacts ->
    usageHashedStringBucketKey sha "model" "hour" siteID hourTS f.(Fact.ModelName) ∈ keys /\
    usageHashedStringBucketKey sha "model" "date" siteID dateKey f.(Fact.ModelName) ∈ keys /\
    usageHashedBucketKey sha "channel" "hour" [siteID; f.(Fact.ChannelID); hourTS] ∈ keys /\
    usageHashedBucketKey sha "channel" "date" [siteID; f.(Fact.ChannelID); dateKey] ∈ keys;
  covers_models : forall m,
    (is_Some ((Tables.statistics d).(Statistics.hourly).(Rollup.model_stat) !! (siteID, m, hourTS)) \/
     is_Some ((Tables.statistics d).(Statistics.daily).(Rollup.model_stat) !! (siteID, m, dateKey))) ->
    usageHashedStringBucketKey sha "model" "hour" siteID hourTS m ∈ keys /\
    usageHashedStringBucketKey sha "model" "date" siteID dateKey m ∈ keys;
  covers_channels : forall c,
    (is_Some ((Tables.statistics d).(Statistics.hourly).(Rollup.channel_stat) !! (siteID, c, hourTS)) \/
     is_Some ((Tables.statistics d).(Statistics.daily).(Rollup.channel_stat) !! (siteID, c, dateKey))) ->
    usageHashedBucketKey sha "channel" "hour" [siteID; c; hourTS] ∈ keys /\
    usageHashedBucketKey sha "channel" "date" [siteID; c; dateKey] ∈ keys
}.

Lemma elem_of_names {N} `{!EqDecision N, !Countable N} (siteID bucket : Z) (t : gmap (Z * N * Z) StatRow) (n : N) :
  is_Some (t !! (siteID, n, bucket)) -> n ∈ names_of siteID bucket t.
Proof.
  intros [r Hr]. unfold names_of.
  apply (list_elem_of_fmap_2 (fun e : Z * N * Z * StatRow => e.1.1.2) _ (siteID, n, bucket, r)).
  apply list_elem_of_filter. rewrite elem_of_map_to_list. cbn [fst snd]. by rewrite !Z.eqb_refl.
Qed.

(** Two keys per element of a list. *)
Lemma elem_of_pairs {A} (k1 k2 : A -> string) l a : a ∈ l ->
  k1 a ∈ (l ≫= fun a => [k1 a; k2 a]) /\ k2 a ∈ (l ≫= fun a => [k1 a; k2 a]).
Proof. intros Ha. rewrite !list_elem_of_bind. split; exists a; split; set_solver. Qed.

Lemma forallb_pairs {A} (p : string -> bool) (k1 k2 : A -> string) l :
  (forall a, p (k1 a) = true /\ p (k2 a) = true) -> forallb p (l ≫= fun a => [k1 a; k2 a]) = true.
Proof.
  intros H. induction l as [|a l IH]; [done|]. rewrite bind_cons, forallb_app, IH. simpl. destruct (H a) as [-> ->]. done.
Qed.

(** A name of a map: the elements of the set of a list. *)
Lemma elem_of_names_set {N} `{!EqDecision N, !Countable N} (l : list N) n :
  n ∈ elements (list_to_set l : gset N) <-> n ∈ l.
Proof. by rewrite elem_of_elements, elem_of_list_to_set. Qed.

Context (d : Db) (siteID hourTS dateKey dateStart dateEnd : Z) (newFacts : list UsageFactHourly).

Lemma bucket_keys_fit : int64 siteID -> int64 hourTS -> int64 dateKey ->
  forallb (fun k => len k <=? 64) (bucket_keys sha d siteID hourTS dateKey dateStart dateEnd newFacts) = true.
Proof.
  intros Hs%length_decimal Hh%length_decimal Hd%length_decimal. unfold bucket_keys. rewrite !forallb_app.
  rewrite !forallb_pairs by (intros; split; apply hashed_fits; unfold kind_fits; simpl; lia).
  rewrite !andb_true_r. cbn [forallb]. unfold len. rewrite !length_app. cbn [String.length]. to_prop. lia.
Qed.

Lemma bucket_keys_cover keys :
  (forall k, k ∈ keys <-> k ∈ bucket_keys sha d siteID hourTS dateKey dateStart dateEnd newFacts) ->
  covers_buckets d siteID hourTS dateKey dateStart dateEnd newFacts keys.
Proof.
  intros Hk. unfold bucket_keys in Hk. split.
  - rewrite !Hk. set_solver.
  - rewrite !Hk. set_solver.
  - intros a Ha. rewrite !Hk, !elem_of_app.
    pose proof (elem_of_pairs (fun a => usageHashedBucketKey sha "account" "hour" [a.(MAccount.ID); siteID; hourTS])
                  (fun a => usageHashedBucketKey sha "account" "date" [a.(MAccount.ID); siteID; dateKey]) _ a Ha).
    pose proof (elem_of_pairs (fun id => usageHashedBucketKey sha "customer" "hour" [id; siteID; hourTS])
                  (fun id => usageHashedBucketKey sha "customer" "date" [id; siteID; dateKey])
                  (elements (list_to_set (MAccount.CustomerID <$> site_accounts d siteID) : gset Z)) a.(MAccount.CustomerID)
                  ltac:(apply elem_of_names_set; by apply list_elem_of_fmap_2)). tauto.
  - intros f Hf. rewrite !Hk, !elem_of_app.
    match goal with |- context [elements (list_to_set ?ms : gset string) ≫= (fun name => [usageHashedStringBucketKey _ "model" _ _ _ _; _])] =>
      set (models := ms) end.
    match goal with |- context [?k ∈ elements (list_to_set ?cs : gset Z) ≫= (fun id => [usageHashedBucketKey _ "channel" _ _; _])] =>
      set (channels := cs) end.
    pose proof (elem_of_pairs (usageHashedStringBucketKey sha "model" "hour" siteID hourTS)
                  (usageHashedStringBucketKey sha "model" "date" siteID dateKey) (elements (list_to_set models : gset string))
                  f.(Fact.ModelName)
                  ltac:(apply elem_of_names_set; unfold models; rewrite !elem_of_app; destruct Hf;
                        [left|do 3 right]; by apply list_elem_of_fmap_2)).
    pose proof (elem_of_pairs (fun id => usageHashedBucketKey sha "channel" "hour" [siteID; id; hourTS])
                  (fun id => usageHashedBucketKey sha "channel" "date" [siteID; id; dateKey])
                  (elements (list_to_set channels : gset Z)) f.(Fact.ChannelID)
                  ltac:(apply elem_of_names_set; unfold channels; rewrite !elem_of_app; destruct Hf;
                        [left|do 3 right]; by apply list_elem_of_fmap_2)). tauto.
  - intros m Hm. rewrite !Hk, !elem_of_app.
    match goal with |- context [elements (list_to_set ?ms : gset string) ≫= (fun name => [usageHashedStringBucketKey _ "model" _ _ _ _; _])] =>
      set (models := ms) end.
    pose proof (elem_of_pairs (usageHashedStringBucketKey sha "model" "hour" siteID hourTS)
                  (usageHashedStringBucketKey sha "model" "date" siteID dateKey) (elements (list_to_set models : gset string)) m
                  ltac:(apply elem_of_names_set; unfold models; rewrite !elem_of_app; destruct Hm as [Hm|Hm];
                        apply elem_of_names in Hm; tauto)). tauto.
  - intros c Hc. rewrite !Hk, !elem_of_app.
    match goal with |- context [?k ∈ elements (list_to_set ?cs : gset Z) ≫= (fun id => [usageHashedBucketKey _ "channel" _ _; _])] =>
      set (channels := cs) end.
    pose proof (elem_of_pairs (fun id => usageHashedBucketKey sha "channel" "hour" [siteID; id; hourTS])
                  (fun id => usageHashedBucketKey sha "channel" "date" [siteID; id; dateKey])
                  (elements (list_to_set channels : gset Z)) c
                  ltac:(apply elem_of_names_set; unfold channels; rewrite !elem_of_app; destruct Hc as [Hc|Hc];
                        apply elem_of_names in Hc; tauto)). tauto.
Qed.
End Keys.

(** For any site, hour and date of int64 the keys are found, whatever the
    database holds: each fits the column of 64 bytes, they are listed once each
    in increasing order, whatever the order in which the code walks its maps,
    and they cover every bucket the commit can write; locking them succeeds and
    leaves each of them in the lock table with the time of the commit. *)
Theorem usageAggregationBucketKeys_total sha d siteID hourTS dateKey dateStart dateEnd newFacts now :
  0 < siteID -> 0 < now -> int64 siteID -> int64 hourTS -> int64 dateKey ->
  exists keys d', usageAggregationBucketKeys sha siteID hourTS dateKey dateStart dateEnd newFacts d = Ok (keys, d) /\
    StronglySorted String.le keys /\ NoDup keys /\ (forall k, k ∈ keys -> len k <= 64) /\
    covers_buckets sha d siteID hourTS dateKey dateStart dateEnd newFacts keys /\
    lockUsageAggregationBuckets keys now d = Ok (tt, d') /\ base d' = base d /\
    forall k, (Tables.statistics d').(Statistics.aggregation_bucket_lock) !! k =
      if bool_decide (k ∈ keys) then Some now else (Tables.statistics d).(Statistics.aggregation_bucket_lock) !! k.
Proof.
  intros Hpos Hnow Hs Hh Hd.
  pose proof (bucket_keys_fit sha d siteID hourTS dateKey dateStart dateEnd newFacts Hs Hh Hd) as Hfit.
  set (all := bucket_keys sha d siteID hourTS dateKey dateStart dateEnd newFacts) in *.
  destruct (compact_sorted (sorted_keys all)) as [Hsorted Hnd]; [apply sort_by_sorted|].
  assert (Hin : forall k, k ∈ compact_keys (sorted_keys all) <-> k ∈ all).
  { intros k. by rewrite elem_of_compact, (elem_of_sort_by (fun k => [AStr k])). }
  pose proof (bucket_keys_cover sha d siteID hourTS dateKey dateStart dateEnd newFacts _ Hin) as Hcover.
  set (keys := compact_keys (sorted_keys all)) in *.
  exists keys. eexists. split; [|split; [|split; [done|split; [|split; [done|split; [|split]]]]]].
  - unfold usageAggregationBucketKeys, mbind, st_bind, st_require, st_gets. fold all.
    rewrite (proj2 (Z.ltb_lt 0 siteID) Hpos). cbn iota beta. fold all. by rewrite Hfit.
  - by apply key_order_sorted.
  - intros k Hk%Hin. rewrite forallb_forall in Hfit. apply Z.leb_le, Hfit. by apply list_elem_of_In.
  - unfold lockUsageAggregationBuckets, mbind, st_bind, st_require.
    rewrite (bool_decide_eq_false_2 (keys = [])), (proj2 (Z.ltb_lt 0 now) Hnow).
    + unfold sorted_strings. rewrite bool_decide_eq_true_2 by done. reflexivity.
    + intros E. destruct (covers_site _ _ _ _ _ _ _ _ _ Hcover) as [Hk _]. rewrite E in Hk. by apply not_elem_of_nil in Hk.
  - done.
  - intros k. cbn [Tables.statistics update_field]. simpl.
    generalize (Statistics.aggregation_bucket_lock (Tables.statistics d)) as t. clear. intros t.
    revert t. induction keys as [|k1 keys IH]; intros t; simpl; [done|]. rewrite IH.
    destruct (decide (k ∈ keys)) as [Hk|Hk].
    + rewrite !bool_decide_eq_true_2; [done|set_solver|done].
    + rewrite bool_decide_eq_false_2 by done. destruct (decide (k = k1)) as [->|Hne].
      * rewrite bool_decide_eq_true_2 by set_solver. by rewrite lookup_insert_eq.
      * rewrite bool_decide_eq_false_2 by set_solver. by rewrite lookup_insert_ne.
Qed.

(** One account and a commit with a new model. *)
Module KeysSample.
Definition db : Db := Sample.db [] [] [] <| Tables.account := Sample.by_ids
  [MAccount.mk 4 7 9 5 1000 "bob" "Bob" "default" 1 "normal" 0 None 0 0 0 "managed" None "ready" None "" 1 1] |>.
End KeysSample.

Lemma usageAggregationBucketKeys_total_witness : exists keys d',
  usageAggregationBucketKeys UsageSample.sha 7 3600 19700101 (-28800) 57600 UsageSample.facts KeysSample.db
    = Ok (keys, KeysSample.db) /\
  lockUsageAggregationBuckets keys 20000 KeysSample.db = Ok (tt, d') /\
  (Tables.statistics d').(Statistics.aggregation_bucket_lock) !! "stats:site:7:hour:3600" = Some 20000.
Proof.
  destruct (usageAggregationBucketKeys_total UsageSample.sha KeysSample.db 7 3600 19700101 (-28800) 57600 UsageSample.facts
              20000 ltac:(lia) ltac:(lia) ltac:(vm_compute; split; discriminate) ltac:(vm_compute; split; discriminate)
              ltac:(vm_compute; split; discriminate)) as (keys&d'&Hk&_&_&_&Hcover&Hlock&_&Hheld).
  exists keys, d'. split; [exact Hk|]. split; [exact Hlock|]. rewrite Hheld.
  assert (Hin : "stats:site:7:hour:3600" ∈ keys).
  { exact (proj1 (covers_site _ _ _ _ _ _ _ _ _ Hcover)). }
  by rewrite bool_decide_eq_true_2.
Defined.
