(* ===== verification/UsageWindowBehaviour.v ===== *)
(** * What the outcome of a collected hour does to the database

    The cursor is the end of the complete hours, a recorded hour holds exactly
    the facts it names, recording it again only verifies it, and a failure
    never touches facts. *)

From S2P Require Import Prelude Stats Constants GoText Store Frame RunContract RunState RunRepository SiteFence TaskScope TaskClaim TaskCommit RunFrames RunInvariant RunStateBehaviour CreateBehaviour UsageFacts UsageFactsBehaviour.

(** ** The tables of the hours *)
Record hours_wf (d : Db) : Prop := {
  hours_table : table_wf (Tables.collection_window d);
  hours_unique : forall k1 w1 k2 w2,
    Tables.collection_window d !! k1 = Some w1 -> Tables.collection_window d !! k2 = Some w2 ->
    w1.(Window.SiteID) = w2.(Window.SiteID) -> w1.(Window.HourTS) = w2.(Window.HourTS) -> k1 = k2;
  hours_aligned : forall k w, Tables.collection_window d !! k = Some w -> hour_aligned w.(Window.HourTS) = true;
  facts_table : table_wf (Tables.usage_fact_hourly d);
  hours_fresh : forall k w, Tables.collection_window d !! k = Some w -> k < Tables.auto_other d;
  facts_fresh : forall k f, Tables.usage_fact_hourly d !! k = Some f -> k < Tables.auto_other d
}.

Lemma hours_wf_frame d d' : hour_state d' = hour_state d -> Tables.auto_other d <= Tables.auto_other d' ->
  hours_wf d -> hours_wf d'.
Proof.
  unfold hour_state. intros [= Hw Hf] Hle [A B C D E F]. split; rewrite ?Hw, ?Hf; auto.
  - intros k w Hk. apply E in Hk. lia.
  - intros k f Hk. apply F in Hk. lia.
Qed.

(** ** The cursor *)
Definition complete_hour (d : Db) (siteID hour : Z) : Prop :=
  exists k w, Tables.collection_window d !! k = Some w /\ w.(Window.SiteID) = siteID /\
    w.(Window.HourTS) = hour /\ w.(Window.Status) = CollectionWindowStatusComplete.

(** [h] is the last of the complete hours that follow each other from [start]. *)
Definition last_complete (d : Db) (siteID start h : Z) : Prop :=
  exists n, 0 <= n /\ h = start + 3600 * n /\
    (forall i, 0 <= i <= n -> complete_hour d siteID (start + 3600 * i)) /\
    (max_int64 - 3600 < h \/ ~ complete_hour d siteID (h + 3600)).

Definition complete_in (ws : list CollectionWindow) (hour : Z) : Prop :=
  exists w, w ∈ ws /\ w.(Window.HourTS) = hour /\ w.(Window.Status) = CollectionWindowStatusComplete.

Lemma complete_prefix_spec ws : forall expected highest,
  StronglySorted Z.lt (Window.HourTS <$> ws) -> hour_aligned expected = true ->
  (forall w, w ∈ ws -> expected <= w.(Window.HourTS) /\ hour_aligned w.(Window.HourTS) = true) ->
  (complete_prefix expected highest ws = highest /\ ~ complete_in ws expected) \/
  exists n, 0 <= n /\ complete_prefix expected highest ws = Some (expected + 3600 * n) /\
    (forall i, 0 <= i <= n -> complete_in ws (expected + 3600 * i)) /\
    (max_int64 - 3600 < expected + 3600 * n \/ ~ complete_in ws (expected + 3600 * n + 3600)).
Proof.
  induction ws as [|w ws IH]; intros expected highest Hs Hal Hall; simpl.
  { left. split; [done|]. intros (x&Hx&_). set_solver. }
  rewrite fmap_cons in Hs. apply StronglySorted_inv in Hs as [Hs Hlt]. rewrite List.Forall_forall in Hlt.
  assert (Hafter : forall x, x ∈ ws -> w.(Window.HourTS) < x.(Window.HourTS)).
  { intros x Hx. apply Hlt, list_elem_of_In. by apply list_elem_of_fmap_2. }
  destruct (Hall w ltac:(set_solver)) as [Hle Hwal].
  destruct (negb _ || _) eqn:E; to_prop.
  - left. split; [done|]. intros (x&[-> |Hx]%elem_of_cons&Hh&Hst).
    + destruct E as [E|E]; [lia|done].
    + specialize (Hafter x Hx). lia.
  - destruct E as [Eh Est]. destruct (max_int64 - 3600 <? expected) eqn:Emax; to_prop.
    { right. exists 0. split; [lia|]. split; [f_equal; lia|]. split; [|left; lia].
      intros i Hi. exists w. split; [set_solver|]. split; [lia|done]. }
    assert (Hnext : hour_aligned (expected + 3600) = true).
    { unfold hour_aligned in *. to_prop. apply Z.rem_divide in Hal; [|lia]. destruct Hal as [q ->].
      apply Z.rem_divide; [lia|]. exists (q + 1). lia. }
    assert (Hlater : forall x, x ∈ ws -> expected + 3600 <= x.(Window.HourTS) /\ hour_aligned x.(Window.HourTS) = true).
    { intros x Hx. destruct (Hall x ltac:(set_solver)) as [_ Hxal]. split; [|done]. specialize (Hafter x Hx).
      destruct (decide (expected + 3600 <= x.(Window.HourTS))); [done|].
      assert (expected = Window.HourTS x) by (apply aligned_hour; [done|done|lia]). lia. }
    destruct (IH (expected + 3600) (Some (Window.HourTS w)) Hs Hnext Hlater) as [[-> Hno]|(n&Hn&->&Hin&Hend)].
    + right. exists 0. split; [lia|]. split; [f_equal; lia|]. split.
      * intros i Hi. exists w. split; [set_solver|]. split; [lia|done].
      * right. intros (x&[-> |Hx]%elem_of_cons&Hh&Hst); [lia|]. apply Hno. exists x. split; [done|]. split; [lia|done].
    + right. exists (n + 1). split; [lia|]. split; [f_equal; lia|]. split.
      * intros i Hi. destruct (decide (i = 0)) as [-> |Hi0].
        -- exists w. split; [set_solver|]. split; [lia|done].
        -- destruct (Hin (i - 1) ltac:(lia)) as (x&Hx&Hh&Hst). exists x. split; [set_solver|]. split; [lia|done].
      * destruct Hend as [?|Hend]; [left; lia|right]. intros (x&[-> |Hx]%elem_of_cons&Hh&Hst); [lia|].
        apply Hend. exists x. split; [done|]. split; [lia|done].
Qed.

Lemma hours_increase (ws : list CollectionWindow) :
  StronglySorted (by_key by_hour) ws -> NoDup (Window.ID <$> ws) ->
  (forall w1 w2, w1 ∈ ws -> w2 ∈ ws -> w1.(Window.HourTS) = w2.(Window.HourTS) -> w1.(Window.ID) = w2.(Window.ID)) ->
  StronglySorted Z.lt (Window.HourTS <$> ws).
Proof.
  induction ws as [|w ws IH]; intros Hs Hnd Hu; [constructor|].
  apply StronglySorted_inv in Hs as [Hs Hle]. rewrite fmap_cons, NoDup_cons in Hnd. destruct Hnd as [Hw Hnd].
  rewrite fmap_cons. constructor; [apply IH; [done|done|intros ? ? ? ?; apply Hu; set_solver]|].
  rewrite List.Forall_forall in Hle |- *. intros h Hh.
  apply list_elem_of_In, list_elem_of_fmap in Hh as (x&->&Hx).
  pose proof (Hle x (proj1 (list_elem_of_In _ _) Hx)) as Hk. unfold by_key, by_hour in Hk. apply key_le_head in Hk.
  destruct (decide (Window.HourTS w = Window.HourTS x)) as [E|]; [|lia].
  exfalso. apply Hw. rewrite (Hu w x); [by apply list_elem_of_fmap_2|set_solver|set_solver|done].
Qed.

(** The windows of a site, by hour. *)
Lemma windows_by_hour d siteID start : hours_wf d ->
  let ws := select (fun w => (w.(Window.SiteID) =? siteID) && (start <=? w.(Window.HourTS))) by_hour d in
  StronglySorted Z.lt (Window.HourTS <$> ws) /\
  (forall w, w ∈ ws -> start <= w.(Window.HourTS) /\ hour_aligned w.(Window.HourTS) = true) /\
  (forall h, start <= h -> complete_in ws h <-> complete_hour d siteID h).
Proof.
  intros Hwf ws.
  assert (Hmem : forall w, w ∈ ws <-> ((w.(Window.SiteID) = siteID /\ start <= w.(Window.HourTS)) /\
                    exists k, Tables.collection_window d !! k = Some w)).
  { intros w. unfold ws. rewrite elem_of_select, andb_true_iff, Z.eqb_eq, Z.leb_le. done. }
  split; [|split].
  - apply hours_increase; [apply select_sorted|exact (select_NoDup _ by_hour d (hours_table d Hwf))|].
    intros w1 w2 ((E1&_)&k1&H1)%Hmem ((E2&_)&k2&H2)%Hmem Eh.
    assert (k1 = k2) as -> by (eapply (hours_unique d Hwf); [done|done|congruence|done]). congruence.
  - intros w ((_&Hle)&k&Hk)%Hmem. split; [done|]. by eapply hours_aligned.
  - intros h Hh. split.
    + intros (w&Hw&Hhour&Hst). apply Hmem in Hw as ((Hs&_)&k&Hk). exists k, w. done.
    + intros (k&w&Hk&Hs&Hhour&Hst). exists w. split; [|done]. apply Hmem. split; [|by exists k]. lia.
Qed.

(** The prefix of the windows of a site is its last complete hour. *)
Lemma prefix_of_site d siteID start : hours_wf d -> hour_aligned start = true ->
  let highest := complete_prefix start None
    (select (fun w => (w.(Window.SiteID) =? siteID) && (start <=? w.(Window.HourTS))) by_hour d) in
  match highest with
  | Some h => complete_hour d siteID start /\ last_complete d siteID start h
  | None => ~ complete_hour d siteID start
  end.
Proof.
  intros Hwf Hal. destruct (windows_by_hour d siteID start Hwf) as (Hs&Hall&Hin). cbv zeta in *.
  set (ws := select _ _ d) in *.
  destruct (complete_prefix_spec ws start None Hs Hal Hall) as [[-> Hno]|(n&Hn&->&Hc&Hend)].
  - rewrite <- Hin; [done|lia].
  - split.
    + apply Hin; [lia|]. replace start with (start + 3600 * 0) by lia. apply Hc. lia.
    + exists n. split; [done|]. split; [done|]. split; [intros i Hi; apply Hin; [lia|by apply Hc]|].
      destruct Hend as [?|Hend]; [by left|right]. rewrite <- Hin; [done|lia].
Qed.

(** C29: reconciling the cursor of a site moves it to the last of the complete
    hours that follow each other from the start of its statistics; when the
    first hour is not complete the hour stays as it was.  Hours, facts and the
    queue stay, and the stored cursor is the one returned. *)
Theorem ReconcileUsageCursor_spec siteID start now d cursor d' :
  hours_wf d -> table_wf (Tables.collection_cursor d) ->
  ReconcileUsageCursor siteID start now d = Ok (cursor, d') ->
  hour_state d' = hour_state d /\ run_state d' = run_state d /\
  Tables.collection_cursor d' !! cursor.(Cursor.ID) = Some cursor /\
  (complete_hour d siteID start ->
     exists h, cursor.(Cursor.LastCompleteHour) = Some h /\ last_complete d siteID start h) /\
  (~ complete_hour d siteID start ->
     cursor.(Cursor.LastCompleteHour) = match select (site_cursor siteID) by_id d with
                                        | c :: _ => c.(Cursor.LastCompleteHour) | [] => None end).
Proof.
  intros Hwf Hcwf. unfold ReconcileUsageCursor. past_guard Hg. to_prop. destruct Hg as [[_ Hal] _].
  pose proof (prefix_of_site d siteID start Hwf Hal) as Hp. cbv zeta in Hp. intros H.
  apply st_bind_ok in H as (n&d1&Hn&H). unfold db_count in Hn. apply st_gets_ok in Hn as [= -> ->].
  apply st_bind_ok in H as ([]&d1&Hcr&H). apply st_bind_ok in H as (c&d2&Hf&H).
  apply db_first_where_ok in Hf as (->&l&Hl).
  assert (Hd1 : hour_state d1 = hour_state d /\ run_state d1 = run_state d /\
    table_wf (Tables.collection_cursor d1) /\
    c.(Cursor.LastCompleteHour) = match select (site_cursor siteID) by_id d with
                                  | c :: _ => c.(Cursor.LastCompleteHour) | [] => None end).
  { destruct (0 <? _) eqn:Hpos.
    - apply st_ret_pair in Hcr as [_ ->]. by rewrite Hl.
    - apply st_bind_ok in Hcr as (x&d2&Hc&Hcr). apply st_ret_pair in Hcr as [_ ->].
      unfold db_create in Hc. injection Hc as _ <-. split; [done|]. split; [done|]. split.
      + intros k r. simpl. rewrite lookup_insert_Some. intros [[<- <-]|[_ Hr]]; [done|by apply Hcwf].
      + assert (Hnone : select (site_cursor siteID) by_id d = []).
        { apply select_nil. intros k r Hk. to_prop. rewrite <- not_true_iff_false. intros Hsc.
          assert (0 < count (site_cursor siteID) (table_rows d)); [|lia].
          apply count_pos. exists r. split; [|done]. apply elem_of_rows. by exists k. }
        rewrite Hnone. assert (c ∈ c :: l) as Hin by set_solver. rewrite <- Hl in Hin.
        apply elem_of_select in Hin as (Hsc&k&Hk). simpl in Hk. apply lookup_insert_Some in Hk as [[_ <-]|[_ Hk]]; [done|].
        rewrite select_nil in Hnone. by rewrite (Hnone k c Hk) in Hsc. }
  destruct Hd1 as (Hh&Hr&Hwf1&Hlast).
  apply st_bind_ok in H as (ws&d2&Hw&H). apply db_select_ok in Hw as [-> ->].
  apply st_bind_ok in H as (m&d2&Hu&H). apply db_update_ok in Hu as [_ ->]. apply st_ret_pair in H as [-> ->].
  assert (Hsel : forall p key, select (R := CollectionWindow) p key d1 = select p key d).
  { intros p key. unfold select, table_rows. simpl. unfold hour_state in Hh. by injection Hh as -> _. }
  rewrite Hsel. set (highest := complete_prefix _ _ _) in *.
  split; [done|]. split; [done|]. split.
  { simpl. rewrite lookup_update_where.
    assert (c ∈ c :: l) as Hin by set_solver. rewrite <- Hl in Hin. apply elem_of_select in Hin as (_&k&Hk).
    apply Hwf1 in Hk as Hid. simpl in Hk, Hid. subst k.
    assert (Cursor.ID (advanced_cursor highest now c) = Cursor.ID c) as -> by (by destruct highest).
    rewrite Hk. simpl. unfold upd. by rewrite Z.eqb_refl. }
  destruct highest as [h|]; simpl.
  - destruct Hp as [Hc Hlc]. split; [eauto|done].
  - split; [done|]. intros _. exact Hlast.
Qed.

(** ** Frames of the mutations *)

(** What locking reads. *)
Definition scope_state (d : Db) := (Tables.site d, Tables.collection_run d, Tables.collection_run_window d).

Lemma reconcile_frame siteID start now d c d' : ReconcileUsageCursor siteID start now d = Ok (c, d') ->
  hour_state d' = hour_state d /\ run_state d' = run_state d /\ Tables.site d' = Tables.site d /\
  Tables.auto_other d <= Tables.auto_other d'.
Proof.
  unfold ReconcileUsageCursor. past_guard Hg. intros H.
  apply st_bind_ok in H as (n&d1&Hn&H). unfold db_count in Hn. apply st_gets_ok in Hn as [= -> ->].
  apply st_bind_ok in H as ([]&d1&Hcr&H).
  assert (Hd1 : hour_state d1 = hour_state d /\ run_state d1 = run_state d /\ Tables.site d1 = Tables.site d /\
                Tables.auto_other d <= Tables.auto_other d1).
  { destruct (0 <? _).
    - apply st_ret_pair in Hcr as [_ ->]. repeat split; lia.
    - apply st_bind_ok in Hcr as (x&d2&Hc&Hcr). apply st_ret_pair in Hcr as [_ ->].
      unfold db_create in Hc. injection Hc as _ <-. repeat split. simpl. lia. }
  apply st_bind_ok in H as (x&d2&Hf&H). apply db_first_where_ok in Hf as (->&_).
  apply st_bind_ok in H as (ws&d2&Hw&H). apply db_select_ok in Hw as [_ ->].
  apply st_bind_ok in H as (m&d2&Hu&H). apply db_update_ok in Hu as [_ ->]. apply st_ret_pair in H as [_ ->].
  exact Hd1.
Qed.

Lemma reconcile_total siteID start now d : 0 < siteID -> 0 < start -> hour_aligned start = true -> 0 < now ->
  exists c d', ReconcileUsageCursor siteID start now d = Ok (c, d').
Proof.
  intros H1 H2 H3 H4. unfold ReconcileUsageCursor.
  rewrite (proj2 (Z.leb_gt siteID 0)), (proj2 (Z.leb_gt start 0)), (proj2 (Z.leb_gt now 0)), H3 by done.
  cbn [orb negb]. unfold mbind, st_bind, db_count, st_gets.
  destruct (0 <? count (site_cursor siteID) (table_rows d)) eqn:E.
  - to_prop. apply count_pos in E as (r&Hr&Hp). unfold mret, st_ret, db_first_where.
    destruct (select (site_cursor siteID) by_id d) as [|x l] eqn:El; [|eauto].
    apply elem_of_rows in Hr as (k&Hk). rewrite select_nil in El. by rewrite (El k r Hk) in Hp.
  - unfold db_create, mret, st_ret, db_first_where.
    match goal with |- context [select (site_cursor siteID) by_id ?x] =>
      destruct (select (site_cursor siteID) by_id x) as [|c l] eqn:El end; [|eauto].
    rewrite select_nil in El. specialize (El (Tables.auto_other d) _ (lookup_insert_eq _ _ _)).
    unfold site_cursor in El. simpl in El. rewrite Z.eqb_refl in El. done.
Qed.

Lemma first_or_ok {R} `{!Table R} id e d (r : R) d' :
  first_or id e d = Ok (r, d') <-> table d !! id = Some r /\ d' = d.
Proof. unfold first_or, db_first. destruct (table d !! id); split; intros H; [by injection H as -> ->| |done|by destruct H].
  destruct H as [[= ->] ->]. done. Qed.

(** Locking reads three rows and checks them. *)
Lemma lock_scope_ok scope t d locked d' : lockUsageMutationScope scope t d = Ok (locked, d') <->
  d' = d /\ scope.(MutationScope.site).(MSite.ID) = t.(UsageTarget.SiteID) /\
  scope.(MutationScope.run).(Run.ID) = t.(UsageTarget.RunID) /\
  scope.(MutationScope.window).(RunWindow.ID) = t.(UsageTarget.WindowID) /\
  Tables.site d !! t.(UsageTarget.SiteID) = Some locked.(MutationScope.site) /\
  Tables.collection_run d !! t.(UsageTarget.RunID) = Some locked.(MutationScope.run) /\
  Tables.collection_run_window d !! t.(UsageTarget.WindowID) = Some locked.(MutationScope.window) /\
  validateUsageMutationScope locked t = Ok tt.
Proof.
  unfold lockUsageMutationScope. split.
  - intros H. apply st_bind_ok in H as ([]&d1&Hr&H). apply st_require_ok in Hr as (E1&[= ->]).
    apply st_bind_ok in H as ([]&d1&Hr&H). apply st_require_ok in Hr as (E2&[= ->]). to_prop.
    apply st_bind_ok in H as (site&d1&Hs&H). apply first_or_ok in Hs as [Hs ->].
    apply st_bind_ok in H as (run&d1&Hr&H). apply first_or_ok in Hr as [Hr ->].
    apply st_bind_ok in H as (w&d1&Hw&H). apply first_or_ok in Hw as [Hw ->].
    apply st_bind_ok in H as ([]&d1&Hv&H). apply st_lift_ok in Hv as ([]&Hv&[= ->]).
    apply st_ret_pair in H as [-> ->]. simpl. tauto.
  - intros (->&E1&E2&E3&Hs&Hr&Hw&Hv). destruct locked as [site run window]. simpl in *.
    unfold mbind, st_bind, st_require, first_or, db_first. simpl.
    rewrite E1, E2, E3, !Z.eqb_refl. simpl. rewrite Hs, Hr, Hw. unfold st_lift. simpl. by rewrite Hv.
Qed.

(** ** Replacing the facts of an hour *)
Fixpoint numbered (n : Z) (facts : list UsageFactHourly) : list UsageFactHourly :=
  match facts with
  | [] => []
  | f :: rest => f <| Fact.ID := n |> :: numbered (n + 1) rest
  end.

Lemma numbered_columns n facts : hashed_columns <$> numbered n facts = hashed_columns <$> facts.
Proof. revert n. induction facts as [|f facts IH]; intros n; [done|]. simpl. by rewrite IH. Qed.

Lemma numbered_orders n facts : fact_order <$> numbered n facts = fact_order <$> facts.
Proof. revert n. induction facts as [|f facts IH]; intros n; [done|]. simpl. by rewrite IH. Qed.

Lemma lookup_rows {R} `{!Table R} (t : gmap Z R) k r : table_wf t ->
  t !! k = Some r <-> r ∈ rows t /\ row_id r = k.
Proof.
  intros Hwf. rewrite elem_of_rows. split; [intros H; split; [eauto|by apply Hwf]|].
  intros [(j&Hj) <-]. apply Hwf in Hj as E. by rewrite E.
Qed.

(** The facts of the database with what a creation leaves alone. *)
Record fact_rows (d d' : Db) (l : list UsageFactHourly) : Prop := {
  rows_now : rows (Tables.usage_fact_hourly d') ≡ₚ l;
  rows_wf : table_wf (Tables.usage_fact_hourly d');
  rows_fresh : forall k f, Tables.usage_fact_hourly d' !! k = Some f -> k < Tables.auto_other d';
  rows_frame : (Tables.collection_window d', run_state d', Tables.site d')
             = (Tables.collection_window d, run_state d, Tables.site d);
  rows_auto : Tables.auto_other d <= Tables.auto_other d'
}.

Lemma create_facts_ok facts : forall d u d',
  table_wf (Tables.usage_fact_hourly d) ->
  (forall k f, Tables.usage_fact_hourly d !! k = Some f -> k < Tables.auto_other d) ->
  st_fold (fun f _ => _ ← db_create f; mret tt) facts tt d = Ok (u, d') ->
  fact_rows d d' (numbered (Tables.auto_other d) facts ++ rows (Tables.usage_fact_hourly d)).
Proof.
  induction facts as [|f facts IH]; intros d u d' Hwf Hfr H.
  - apply st_fold_nil in H as [= _ ->]. by split.
  - apply st_fold_cons in H as ([]&d1&H1&H). apply st_bind_ok in H1 as (x&d2&Hc&H1).
    apply st_ret_pair in H1 as [_ ->]. unfold db_create in Hc. injection Hc as _ <-.
    match type of H with st_fold _ _ _ ?x = _ => set (d1 := x) in * end.
    assert (Hnew : Tables.usage_fact_hourly d !! Tables.auto_other d = None).
    { destruct (Tables.usage_fact_hourly d !! Tables.auto_other d) eqn:E; [|done]. apply Hfr in E. lia. }
    assert (Hlook : forall k r, Tables.usage_fact_hourly d1 !! k = Some r ->
      (k = Tables.auto_other d /\ r = f <| Fact.ID := Tables.auto_other d |>) \/
      Tables.usage_fact_hourly d !! k = Some r).
    { intros k r. simpl. rewrite lookup_insert_Some. intros [[<- <-]|[_ ?]]; auto. }
    apply IH in H as [Hrows Hwf' Hfr' Hfm Hauto].
    + split; [|done|done|by rewrite Hfm|simpl in Hauto; lia].
      rewrite Hrows. change (Tables.auto_other d1) with (Tables.auto_other d + 1). simpl numbered.
      simpl. rewrite (rows_insert_new _ _ _ Hnew). symmetry. apply Permutation_middle.
    + intros k r [[-> ->]|Hr]%Hlook; [done|by apply Hwf].
    + intros k r [[-> ->]|Hr]%Hlook; simpl; [lia|apply Hfr in Hr; lia].
Qed.

Lemma elem_of_numbered n facts f : f ∈ numbered n facts -> exists g, g ∈ facts /\ f.(Fact.SiteID) = g.(Fact.SiteID) /\ f.(Fact.HourTS) = g.(Fact.HourTS).
Proof.
  revert n. induction facts as [|g facts IH]; intros n; simpl; [set_solver|].
  intros [-> |Hf]%elem_of_cons; [exists g; set_solver|].
  destruct (IH _ Hf) as (x&Hx&E). exists x. set_solver.
Qed.

Lemma replace_facts_ok siteID hourTS facts d u d' :
  table_wf (Tables.usage_fact_hourly d) ->
  (forall k f, Tables.usage_fact_hourly d !! k = Some f -> k < Tables.auto_other d) ->
  (forall f, f ∈ facts -> fact_of siteID hourTS f = true) ->
  replace_facts siteID hourTS facts d = Ok (u, d') ->
  exists n l, fact_rows d d' l /\ select (fact_of siteID hourTS) by_id d' ≡ₚ numbered n facts /\
    (forall k f, fact_of siteID hourTS f = false ->
       Tables.usage_fact_hourly d' !! k = Some f <-> Tables.usage_fact_hourly d !! k = Some f).
Proof.
  intros Hwf Hfr Hof H. unfold replace_facts in H.
  apply st_bind_ok in H as ([]&d1&Hd&H). unfold db_delete in Hd. apply st_modify_ok in Hd as [= Hd1].
  assert (Hlook : forall k f, Tables.usage_fact_hourly d1 !! k = Some f <->
            Tables.usage_fact_hourly d !! k = Some f /\ fact_of siteID hourTS f = false).
  { intros k f. subst d1. simpl. by rewrite map_lookup_filter_Some. }
  pose proof (create_facts_ok facts d1 u d') as Hc.
  destruct Hc as [Hrows Hwf' Hfr' Hfm Hauto]; [| |exact H|].
  - intros k f [Hk _]%Hlook. by apply Hwf.
  - intros k f [Hk _]%Hlook. subst d1. by apply (Hfr k f).
  - assert (Hnum : forall f, f ∈ numbered (Tables.auto_other d1) facts -> fact_of siteID hourTS f = true).
    { intros f (g&Hg&E1&E2)%elem_of_numbered. specialize (Hof g Hg). unfold fact_of in *. by rewrite E1, E2. }
    exists (Tables.auto_other d1), (numbered (Tables.auto_other d1) facts ++ rows (Tables.usage_fact_hourly d1)).
    split; [|split].
    + subst d1. by split.
    + rewrite select_perm. unfold table_rows. simpl table. rewrite Hrows, filter_app.
      rewrite filter_everything by done. rewrite filter_nothing; [by rewrite app_nil_r|].
      intros f (k&Hk)%elem_of_rows. by apply Hlook in Hk as [_ ?].
    + intros k f Hf. rewrite (lookup_rows _ k f Hwf'), Hrows, elem_of_app.
      split.
      * intros [[Hin|Hin] Hid]; [by rewrite (Hnum f Hin) in Hf|].
        apply elem_of_rows in Hin as (j&Hj). apply Hlook in Hj as [Hj _].
        apply Hwf in Hj as E. simpl in E, Hid. congruence.
      * intros Hk. split; [|by apply Hwf]. right. apply elem_of_rows. exists k. by apply Hlook.
Qed.

(** A statement on windows that keeps what identifies them. *)
Lemma hours_wf_update d p (f : CollectionWindow -> CollectionWindow) :
  (forall w, (f w).(Window.ID) = w.(Window.ID) /\ (f w).(Window.SiteID) = w.(Window.SiteID) /\
             (f w).(Window.HourTS) = w.(Window.HourTS)) ->
  hours_wf d -> hours_wf (set_table (update_where p f (table d)) d).
Proof.
  intros Hf [A B C D E F].
  assert (Hlook : forall k w, Tables.collection_window (set_table (update_where p f (table d)) d) !! k = Some w ->
    exists w0, Tables.collection_window d !! k = Some w0 /\ w.(Window.ID) = w0.(Window.ID) /\
      w.(Window.SiteID) = w0.(Window.SiteID) /\ w.(Window.HourTS) = w0.(Window.HourTS)).
  { intros k w. simpl. rewrite lookup_update_where. intros (w0&Hw&->)%fmap_Some_1. exists w0. split; [done|].
    unfold upd. destruct (p w0); [apply Hf|done]. }
  split; auto.
  - intros k w (w0&Hw&Hid&_)%Hlook. apply A in Hw. simpl in *. congruence.
  - intros k1 w1 k2 w2 (x1&H1&_&S1&T1)%Hlook (x2&H2&_&S2&T2)%Hlook ? ?.
    apply (B k1 x1 k2 x2); congruence.
  - intros k w (w0&Hw&_&_&->)%Hlook. by eapply C.
  - intros k w (w0&Hw&_)%Hlook. by eapply E.
Qed.

(** The windows of every other hour are as they were. *)
Definition other_hours (siteID hourTS : Z) (d d' : Db) : Prop :=
  forall k w, of_hour siteID hourTS w = false ->
    Tables.collection_window d' !! k = Some w <-> Tables.collection_window d !! k = Some w.

Lemma update_other_hours siteID hourTS d p (f : CollectionWindow -> CollectionWindow) :
  (forall w, (f w).(Window.ID) = w.(Window.ID) /\ (f w).(Window.SiteID) = w.(Window.SiteID) /\
             (f w).(Window.HourTS) = w.(Window.HourTS)) ->
  (forall k w, Tables.collection_window d !! k = Some w -> p w = true -> of_hour siteID hourTS w = true) ->
  other_hours siteID hourTS d (set_table (update_where p f (table d)) d).
Proof.
  intros Hf Hp k w Hw. simpl. rewrite lookup_update_where. split.
  - intros (w0&Hk&->)%fmap_Some_1. unfold upd in *. destruct (p w0) eqn:E; [|done].
    simpl in Hk. apply (Hp k w0) in E; [|done]. revert E Hw. unfold of_hour.
    destruct (Hf w0) as (_&->&->). congruence.
  - intros Hk. rewrite Hk. simpl. unfold upd. destruct (p w) eqn:E; [|done].
    apply (Hp k w) in E; [congruence|done].
Qed.

(** A window inserted for an hour that has none. *)
Lemma created_ok siteID hourTS (row : CollectionWindow) d : hours_wf d -> hour_aligned hourTS = true ->
  row.(Window.SiteID) = siteID -> row.(Window.HourTS) = hourTS ->
  (forall k w, Tables.collection_window d !! k = Some w -> of_hour siteID hourTS w = false) ->
  let i := Tables.auto_other d in
  let d' := set_table (<[i := row <| Window.ID := i |>]> (table d)) (set_auto_increment (R := CollectionWindow) (i + 1) d) in
  hours_wf d' /\ Tables.collection_window d' !! i = Some (row <| Window.ID := i |>) /\ other_hours siteID hourTS d d'.
Proof.
  intros [A B C D E F] Hal S1 S2 Hnone.
  assert (Hno : forall k w, Tables.collection_window d !! k = Some w ->
    w.(Window.SiteID) = siteID -> w.(Window.HourTS) <> hourTS).
  { intros k w Hk Hs Hh. apply Hnone in Hk. rewrite <- not_true_iff_false in Hk. apply Hk. unfold of_hour. to_prop. done. }
  split; [split|split]; simpl.
  - intros k w. rewrite lookup_insert_Some. intros [[<- <-]|[_ Hk]]; [done|by apply A].
  - intros k1 w1 k2 w2. rewrite !lookup_insert_Some.
    intros [[<- <-]|[_ H1]] [[<- <-]|[_ H2]]; [done| | |by eapply B].
    + intros Es Eh. simpl in Es, Eh. rewrite S1 in Es. rewrite S2 in Eh. by edestruct (Hno k2 w2).
    + intros Es Eh. simpl in Es, Eh. rewrite S1 in Es. rewrite S2 in Eh. by edestruct (Hno k1 w1).
  - intros k w. rewrite lookup_insert_Some. intros [[<- <-]|[_ Hk]]; [simpl; by rewrite S2|by eapply C].
  - exact D.
  - intros k w. rewrite lookup_insert_Some. intros [[<- <-]|[_ Hk]]; [lia|apply E in Hk; lia].
  - intros k f Hk. apply F in Hk. lia.
  - apply lookup_insert_eq.
  - intros k w Hw. simpl. rewrite lookup_insert_Some. split; [|intros Hk; right; split; [apply E in Hk; lia|done]].
    intros [[<- <-]|[_ Hk]]; [|done]. exfalso. revert Hw. unfold of_hour. simpl. rewrite S1, S2.
    by rewrite !Z.eqb_refl.
Qed.

Lemma upsert_ok siteID hourTS (set : CollectionWindow -> CollectionWindow) d u d' :
  hours_wf d -> hour_aligned hourTS = true ->
  (forall w, (set w).(Window.ID) = w.(Window.ID) /\ (set w).(Window.SiteID) = w.(Window.SiteID) /\
             (set w).(Window.HourTS) = w.(Window.HourTS)) ->
  (forall i w, set (w <| Window.ID := i |>) = set w <| Window.ID := i |>) ->
  upsert_window siteID hourTS set d = Ok (u, d') ->
  hours_wf d' /\ (exists k w, Tables.collection_window d' !! k = Some (set w) /\
    w.(Window.SiteID) = siteID /\ w.(Window.HourTS) = hourTS) /\
  other_hours siteID hourTS d d' /\
  (Tables.usage_fact_hourly d', run_state d', Tables.site d')
  = (Tables.usage_fact_hourly d, run_state d, Tables.site d).
Proof.
  intros Hwf Hal Hset Hid. unfold upsert_window. intros H.
  apply st_bind_ok in H as (n&d1&Hn&H). unfold db_count in Hn. apply st_gets_ok in Hn as [= -> ->].
  destruct (0 <? _) eqn:Hpos; to_prop.
  - apply st_bind_ok in H as (m&d1&Hu&H). apply db_update_ok in Hu as [_ ->]. apply st_ret_pair in H as [_ ->].
    split; [by apply hours_wf_update|]. split; [|split; [by apply update_other_hours|done]].
    apply count_pos in Hpos as (w&Hw&Hp). apply elem_of_rows in Hw as (k&Hk). exists k, w.
    split; [|by unfold of_hour in Hp; to_prop]. simpl. rewrite lookup_update_where.
    simpl in Hk. rewrite Hk. simpl. unfold upd. by rewrite Hp.
  - apply st_bind_ok in H as (x&d1&Hc&H). unfold db_create in Hc. injection Hc as _ <-.
    apply st_ret_pair in H as [_ ->]. set (row := Window.mk 0 siteID hourTS "" _ _ _ _ _ _ _ _ _ _).
    pose proof (Hset row) as (_&S1&S2).
    destruct (created_ok siteID hourTS (set row) d Hwf Hal S1 S2) as (Hwf'&Hnew&Hoth).
    + intros k w Hk. destruct (of_hour siteID hourTS w) eqn:E; [|done]. exfalso.
      assert (0 < count (of_hour siteID hourTS) (table_rows d)); [|lia].
      apply count_pos. exists w. split; [apply elem_of_rows; by exists k|done].
    + split; [exact Hwf'|]. split; [|split; [exact Hoth|done]].
      exists (Tables.auto_other d), (row <| Window.ID := Tables.auto_other d |>).
      split; [|done]. rewrite Hid. exact Hnew.
Qed.

(** ** Recording a complete hour *)

(** The hash only depends on the columns hashed, in canonical order. *)
Lemma preimage_numbered n facts : StronglySorted (by_key fact_order) facts -> NoDup (fact_order <$> facts) ->
  forall l, l ≡ₚ numbered n facts -> usage_facts_preimage l = usage_facts_preimage facts.
Proof.
  intros Hs Hnd l HP. unfold usage_facts_preimage. do 2 f_equal.
  assert (Hnd' : NoDup (fact_order <$> numbered n facts)) by (by rewrite numbered_orders).
  rewrite (sort_by_unique fact_order l _ HP) by (by rewrite HP).
  rewrite (sort_by_id fact_order facts Hs Hnd). rewrite sort_by_id; [| |done].
  - clear. revert n. induction facts as [|f facts IH]; intros n; [done|]. simpl. by rewrite IH.
  - clear -Hs. revert n. induction Hs as [|f facts Hs IH Hf]; intros n; simpl; constructor; [apply IH|].
    rewrite List.Forall_forall in Hf |- *. intros x Hx. unfold by_key.
    assert (Hin : fact_order x ∈ fact_order <$> facts).
    { rewrite <- (numbered_orders (n + 1)). apply list_elem_of_fmap_2. by apply list_elem_of_In. }
    apply list_elem_of_fmap in Hin as (y&->&Hy). apply (Hf y). by apply list_elem_of_In.
Qed.

Lemma fact_order_key f g : fact_order f = fact_order g -> fact_key f = fact_key g.
Proof. unfold fact_order, fact_key. intros [= -> -> -> -> -> ->]. done. Qed.

Lemma orders_NoDup facts : NoDup (fact_key <$> facts) -> NoDup (fact_order <$> facts).
Proof.
  induction facts as [|f facts IH]; [intros; constructor|]. rewrite !fmap_cons, !NoDup_cons. intros [Hf Hnd].
  split; [|auto]. intros (g&E&Hg)%list_elem_of_fmap. apply Hf. rewrite (fact_order_key _ _ E).
  by apply list_elem_of_fmap_2.
Qed.

(** What holds once an hour is recorded: it is complete and its facts are those
    the hash names. *)
Record recorded (sha : list Z -> string) (siteID hourTS now rows : Z) (hash attribution : string) (d : Db) : Prop := {
  recorded_hash : usageFactsHash sha (select (fact_of siteID hourTS) by_id d) = hash;
  recorded_rows : Z.of_nat (length (select (fact_of siteID hourTS) by_id d)) = rows;
  recorded_window : exists k w, Tables.collection_window d !! k = Some w /\
    w.(Window.SiteID) = siteID /\ w.(Window.HourTS) = hourTS /\
    w.(Window.Status) = CollectionWindowStatusComplete /\ w.(Window.SourceHash) = hash /\
    w.(Window.AttributionStatus) = attribution /\ w.(Window.FactRows) = rows /\ w.(Window.VerifiedAt) = Some now
}.

(** The canonical facts a mutation was built from. *)
Record plan_of (sha : list Z -> string) (t : UsageTarget) (facts : list UsageFactHourly) (hash : string)
    (planned : UsageWindowMutationResult) : Prop := {
  plan_sorted : StronglySorted (by_key fact_order) facts;
  plan_keys : NoDup (fact_order <$> facts);
  plan_facts : forall f, f ∈ facts -> fact_of t.(UsageTarget.SiteID) t.(UsageTarget.HourTS) f = true;
  plan_hash : hash = usageFactsHash sha facts;
  plan_aligned : hour_aligned t.(UsageTarget.HourTS) = true;
  plan_target : 0 < t.(UsageTarget.SiteID) /\ 0 < t.(UsageTarget.Now);
  plan_result : planned.(UsageResult.SourceHash) = hash /\
    planned.(UsageResult.WrittenRows) = Z.of_nat (length facts) /\ planned.(UsageResult.VerifiedOnly) = false /\
    planned.(UsageResult.AttributionStatus) = usageAttributionStatus facts
}.

Lemma canonical_plan sha request mutation planned :
  NewCompleteUsageWindowMutation sha request = Ok (mutation, planned) ->
  exists facts hash,
    canonicalUsageFacts sha request.(CompleteUsage.target).(UsageTarget.SiteID)
      request.(CompleteUsage.target).(UsageTarget.HourTS) request.(CompleteUsage.target).(UsageTarget.Now)
      request.(CompleteUsage.Facts) = Ok (facts, hash) /\
    plan_of sha request.(CompleteUsage.target) facts hash planned /\
    mutation = apply_complete sha request.(CompleteUsage.target) request.(CompleteUsage.FetchedRows) facts hash planned.
Proof.
  unfold NewCompleteUsageWindowMutation. set (t := CompleteUsage.target request).
  destruct (canonicalUsageFacts _ _ _ _ _) as [[facts hash]|] eqn:Hc; [|done].
  unfold mbind, result_bind. destruct (_ || _); [done|]. intros [= <- <-]. exists facts, hash.
  split; [done|]. split; [|done].
  apply canonical_map in Hc as (Hal&Hs&Hn&Hh&m&_&Hm&Hf&Hkeys). split; try done.
  - rewrite Hf. apply sort_by_sorted.
  - apply orders_NoDup. rewrite Hf, (sort_by_perm fact_order), Hkeys. apply NoDup_fst_map_to_list.
  - intros f Hin. rewrite Hf, (elem_of_sort_by fact_order), elem_of_values in Hin. destruct Hin as (k&Hk).
    apply Hm in Hk as (_&_&_&_&Es&Eh&_). unfold fact_of. rewrite Es, Eh. to_prop. done.
Qed.

Lemma lockCollectionWindow_ok siteID hourTS d o d' : lockCollectionWindow siteID hourTS d = Ok (o, d') ->
  d' = d /\ o = head (select (of_hour siteID hourTS) by_id d) /\
  match o with
  | Some w => exists k, Tables.collection_window d !! k = Some w /\ w.(Window.SiteID) = siteID /\ w.(Window.HourTS) = hourTS
  | None => True
  end.
Proof.
  unfold lockCollectionWindow. intros H. apply st_bind_ok in H as (l&d1&Hs&H). apply db_select_ok in Hs as [-> ->].
  apply st_ret_pair in H as [-> ->]. split; [done|]. split; [done|].
  destruct (select _ _ _) as [|w l] eqn:E; [done|]. simpl.
  assert (w ∈ w :: l) as Hin by set_solver. rewrite <- E in Hin. apply elem_of_select in Hin as (Hp&k&Hk).
  exists k. unfold of_hour in Hp. by to_prop.
Qed.

Lemma persisted_ok sha siteID hourTS facts hash d b d' :
  persistedUsageFactsMatch sha siteID hourTS facts hash d = Ok (b, d') ->
  d' = d /\ (b = true ->
    length (select (fact_of siteID hourTS) by_id d) = length facts /\
    usageFactsHash sha (select (fact_of siteID hourTS) by_id d) = hash).
Proof.
  unfold persistedUsageFactsMatch. intros H. apply st_bind_ok in H as (l&d1&Hs&H).
  apply db_select_ok in Hs as [-> ->]. apply st_ret_pair in H as [-> ->]. split; [done|]. intros Hb.
  apply andb_true_iff in Hb as [Hl Hh]. apply Nat.eqb_eq in Hl. by to_prop.
Qed.

(** Only hours and facts are read by what [recorded] says. *)
Lemma recorded_frame sha siteID hourTS now rows hash attribution d d' :
  hour_state d' = hour_state d -> recorded sha siteID hourTS now rows hash attribution d ->
  recorded sha siteID hourTS now rows hash attribution d'.
Proof.
  unfold hour_state. intros [= Hw Hf] [A B C].
  assert (Hsel : select (R := UsageFactHourly) (fact_of siteID hourTS) by_id d' = select (fact_of siteID hourTS) by_id d).
  { unfold select, table_rows. simpl. by rewrite Hf. }
  split; [by rewrite Hsel|by rewrite Hsel|by rewrite Hw].
Qed.

Section Complete.
Context (sha : list Z -> string) (t : UsageTarget) (fetched : Z) (facts : list UsageFactHourly).
Context (hash : string) (planned : UsageWindowMutationResult) (Hplan : plan_of sha t facts hash planned).
Let siteID := t.(UsageTarget.SiteID).
Let hourTS := t.(UsageTarget.HourTS).
Let now := t.(UsageTarget.Now).
Let rows_ := Z.of_nat (length facts).
Let attribution := usageAttributionStatus facts.

Lemma verified_recorded d w k b :
  hours_wf d -> Tables.collection_window d !! k = Some w -> w.(Window.SiteID) = siteID -> w.(Window.HourTS) = hourTS ->
  w.(Window.Status) = CollectionWindowStatusComplete -> w.(Window.SourceHash) = hash ->
  w.(Window.AttributionStatus) = attribution -> w.(Window.FactRows) = rows_ ->
  persistedUsageFactsMatch sha siteID hourTS facts hash d = Ok (b, d) -> b = true ->
  let d1 := set_table (update_where (fun x => x.(Window.ID) =? w.(Window.ID)) (verified_window now) (table d)) d in
  hours_wf d1 /\ other_hours siteID hourTS d d1 /\ recorded sha siteID hourTS now rows_ hash attribution d1.
Proof.
  intros Hwf Hk Hs Hh Hst Hsh Hat Hfr Hp Hb d1. apply persisted_ok in Hp as [_ Hp]. destruct (Hp Hb) as [Hl Hhash].
  split; [by apply hours_wf_update|]. split.
  { apply update_other_hours; [done|]. intros j x Hj E. to_prop.
    pose proof (hours_table d Hwf _ _ Hj) as E1. pose proof (hours_table d Hwf _ _ Hk) as E2. simpl in E1, E2.
    assert (j = k) as -> by congruence. assert (x = w) as -> by congruence. unfold of_hour. to_prop. lia. }
  split; [done|unfold rows_; by rewrite <- Hl|].
  exists k, (verified_window now w). split; [|done]. simpl. rewrite lookup_update_where, Hk. simpl.
  unfold upd. by rewrite Z.eqb_refl.
Qed.

Lemma replaced_recorded d d1 d2 :
  hours_wf d -> replace_facts siteID hourTS facts d = Ok (tt, d1) ->
  upsert_window siteID hourTS (complete_window attribution fetched rows_ hash t.(UsageTarget.RunID) now) d1 = Ok (tt, d2) ->
  hours_wf d2 /\ recorded sha siteID hourTS now rows_ hash attribution d2 /\ other_hours siteID hourTS d d2 /\
  (run_state d2, Tables.site d2) = (run_state d, Tables.site d) /\
  Tables.auto_other d <= Tables.auto_other d2 /\
  (exists n, select (fact_of siteID hourTS) by_id d2 ≡ₚ numbered n facts) /\
  (forall k f, fact_of siteID hourTS f = false ->
     Tables.usage_fact_hourly d2 !! k = Some f <-> Tables.usage_fact_hourly d !! k = Some f).
Proof.
  intros Hwf Hr Hu. destruct Hplan as [Ps Pk Pf Ph Pa _ _]. subst hash.
  apply replace_facts_ok in Hr as (n&l&[_ W1 F1 Fm Fa]&Hsel&Hother); [|apply Hwf|apply Hwf|done].
  injection Fm as Fw Fr Fs.
  assert (Hwf1 : hours_wf d1).
  { destruct Hwf as [A B C D E F]. split; rewrite ?Fw; auto. intros k w Hk. apply E in Hk. lia. }
  pose proof Hu as Hu'. unfold upsert_window in Hu'.
  assert (Ha : Tables.auto_other d1 <= Tables.auto_other d2).
  { apply st_bind_ok in Hu' as (c&d3&Hc&Hu'). apply st_gets_ok in Hc as [= -> ->]. destruct (0 <? _).
    - apply st_bind_ok in Hu' as (m&d3&Hm&Hu'). apply db_update_ok in Hm as [_ ->]. apply st_ret_pair in Hu' as [_ ->].
      simpl. lia.
    - apply st_bind_ok in Hu' as (m&d3&Hm&Hu'). unfold db_create in Hm. injection Hm as _ <-.
      apply st_ret_pair in Hu' as [_ ->]. simpl. lia. }
  clear Hu'. apply upsert_ok in Hu as (Hwf2&(k&w&Hk&Hs&Hh)&Hoth&Hfm); [|done|done|done|done].
  injection Hfm as G1 G2 G3 G4 G5 G6.
  assert (Hsel2 : select (R := UsageFactHourly) (fact_of siteID hourTS) by_id d2 = select (fact_of siteID hourTS) by_id d1).
  { unfold select, table_rows. simpl. by rewrite G1. }
  split; [done|]. split.
  { split.
    - rewrite Hsel2. unfold usageFactsHash. f_equal. by apply (preimage_numbered n).
    - rewrite Hsel2. apply Permutation_length in Hsel. rewrite Hsel.
      pose proof (f_equal length (numbered_columns n facts)) as E. rewrite !length_fmap in E. by rewrite E.
    - eexists k, _. split; [exact Hk|]. simpl. done. }
  split; [unfold other_hours in *; by rewrite <- Fw|].
  split; [unfold run_state in *; congruence|]. split; [lia|]. split; [exists n; by rewrite Hsel2|].
  intros j f Hf. rewrite G1. by apply Hother.
Qed.

(** What the mutation does, whichever branch it takes. *)
Lemma apply_complete_ok scope d result d' :
  hours_wf d -> apply_complete sha t fetched facts hash planned scope d = Ok (result, d') ->
  hours_wf d' /\ recorded sha siteID hourTS now rows_ hash attribution d' /\ other_hours siteID hourTS d d' /\
  (run_state d', Tables.site d') = (run_state d, Tables.site d) /\
  (forall k f, fact_of siteID hourTS f = false ->
     Tables.usage_fact_hourly d' !! k = Some f <-> Tables.usage_fact_hourly d !! k = Some f) /\
  (if result.(UsageResult.VerifiedOnly)
   then Tables.usage_fact_hourly d' = Tables.usage_fact_hourly d /\ result.(UsageResult.WrittenRows) = 0 /\
        complete_hour d siteID hourTS
   else result = planned /\ exists n, select (fact_of siteID hourTS) by_id d' ≡ₚ numbered n facts).
Proof.
  intros Hwf H. unfold apply_complete in H.
  apply st_bind_ok in H as (locked&d1&Hl&H). apply lock_scope_ok in Hl as (->&_).
  apply st_bind_ok in H as (window&d1&Hw&H). apply lockCollectionWindow_ok in Hw as (->&_&Hw).
  apply st_bind_ok in H as (verified&d1&Hv&H). apply st_bind_ok in H as ([]&d2&Hupd&H).
  apply st_bind_ok in H as (cursor&d3&Hc&H). apply st_ret_pair in H as [-> ->].
  apply reconcile_frame in Hc as (Hh&Hr&Hsite&Hauto).
  fold siteID hourTS now rows_ attribution in Hv, Hupd.
  assert (Hv1 : d1 = d /\ (verified = true -> exists w k, window = Some w /\
     Tables.collection_window d !! k = Some w /\ w.(Window.SiteID) = siteID /\ w.(Window.HourTS) = hourTS /\
     w.(Window.Status) = CollectionWindowStatusComplete /\ w.(Window.SourceHash) = hash /\
     w.(Window.AttributionStatus) = attribution /\ w.(Window.FactRows) = rows_ /\
     persistedUsageFactsMatch sha siteID hourTS facts hash d = Ok (verified, d))).
  { destruct window as [w|]; [|apply st_ret_pair in Hv as [-> ->]; done].
    destruct (_ && _) eqn:Eg; [|apply st_ret_pair in Hv as [-> ->]; done].
    pose proof Hv as Hp. apply persisted_ok in Hv as [-> _]. split; [done|]. intros _. destruct Hw as (k&Hk&Hs&Ht).
    exists w, k. to_prop. tauto. }
  destruct Hv1 as [-> Hver].
  destruct Hplan as [_ _ _ _ _ _ (_&_&Hvo&_)].
  destruct verified.
  - destruct (Hver eq_refl) as (w&k&->&Hk&Hs&Ht&Hst&Hsh&Hat&Hfr&Hp).
    apply st_bind_ok in Hupd as (m&d4&Hu&Hupd). apply db_update_ok in Hu as [_ ->]. apply st_ret_pair in Hupd as [_ ->].
    destruct (verified_recorded d w k true Hwf Hk Hs Ht Hst Hsh Hat Hfr Hp eq_refl) as (Hwf1&Hoth&Hrec).
    split; [by apply (hours_wf_frame _ _ Hh)|]. split; [by apply (recorded_frame _ _ _ _ _ _ _ _ _ Hh)|].
    unfold hour_state in Hh. injection Hh as Ew Ef. simpl in Ef.
    split; [unfold other_hours in *; by rewrite Ew|].
    split; [by rewrite Hsite, Hr|]. split; [by rewrite Ef|].
    simpl. split; [exact Ef|]. split; [done|]. by exists k, w.
  - assert (Hupd' : (_ ← replace_facts siteID hourTS facts;
        upsert_window siteID hourTS (complete_window attribution fetched rows_ hash t.(UsageTarget.RunID) now)) d
        = Ok (tt, d2)) by (by destruct window).
    apply st_bind_ok in Hupd' as ([]&d4&Hrep&Hups).
    destruct (replaced_recorded d d4 d2 Hwf Hrep Hups) as (Hwf2&Hrec&Hoth&Hfm&Ha&(n&Hsel)&Hother).
    split; [by apply (hours_wf_frame _ _ Hh)|]. split; [by apply (recorded_frame _ _ _ _ _ _ _ _ _ Hh)|].
    unfold hour_state in Hh. injection Hh as Ew Ef.
    split; [unfold other_hours in *; by rewrite Ew|].
    split; [by rewrite Hsite, Hr|]. split; [by rewrite Ef|].
    rewrite Hvo. split; [done|]. exists n. unfold select, table_rows in *. simpl in *. by rewrite Ef.
Qed.

(** Recording again what is recorded only verifies it. *)
Lemma apply_complete_again scope locked d :
  hours_wf d -> recorded sha siteID hourTS now rows_ hash attribution d ->
  lockUsageMutationScope scope t d = Ok (locked, d) ->
  exists result d', apply_complete sha t fetched facts hash planned scope d = Ok (result, d') /\
    result.(UsageResult.VerifiedOnly) = true /\ result.(UsageResult.WrittenRows) = 0 /\
    Tables.usage_fact_hourly d' = Tables.usage_fact_hourly d.
Proof.
  intros Hwf [Hh Hr (k&w&Hk&Hs&Ht&Hst&Hsh&Hat&Hfr&_)] Hlock.
  unfold apply_complete, mbind, st_bind. rewrite Hlock. fold siteID hourTS now rows_ attribution.
  assert (Hsel : select (of_hour siteID hourTS) by_id d = [w]).
  { apply select_only; [by exists k|unfold of_hour; to_prop; lia| |apply Hwf].
    intros j x Hx Hp. unfold of_hour in Hp. to_prop.
    assert (j = k) as -> by (eapply (hours_unique d Hwf); [done|done|lia|lia]). pose proof (eq_trans (eq_sym Hx) Hk) as E; by injection E. }
  unfold lockCollectionWindow, db_select, mbind, st_bind, st_gets. rewrite Hsel. cbn [head mret st_ret].
  rewrite Hst, Hsh, Hat, Hfr. rewrite !bool_decide_eq_true_2 by done. rewrite Z.eqb_refl. cbn [andb].
  unfold persistedUsageFactsMatch, db_select, mbind, st_bind, st_gets. cbn [mret st_ret].
  rewrite Hh, bool_decide_eq_true_2 by done.
  assert (Nat.eqb (List.length (select (fact_of siteID hourTS) by_id d)) (List.length facts) = true) as ->.
  { apply Nat.eqb_eq. unfold rows_ in Hr. lia. }
  cbn [andb]. unfold mret, st_ret. unfold db_update.
  apply lock_scope_ok in Hlock as (_&_&_&_&_&_&_&Hval).
  destruct Hplan as [_ _ _ _ Hal [Hs0 Hn0] _].
  assert (Hstart : exists start, (locked.(MutationScope.site)).(MSite.StatisticsStartAt) = Some start /\
             0 < start /\ hour_aligned start = true).
  { revert Hval. unfold validateUsageMutationScope. destruct (_ || _); [done|].
    destruct (MSite.StatisticsStartAt _) as [start|].
    - intros Hval. exists start. split; [done|].
      match type of Hval with (if negb ?b then _ else _) = _ => destruct b eqn:E end; [|done]. to_prop. tauto.
    - rewrite !andb_false_r || idtac. intros Hval. exfalso.
      match type of Hval with (if negb ?b then _ else _) = _ => destruct b eqn:E end; [|done].
      to_prop. intuition discriminate. }
  destruct Hstart as (start&Estart&Hpos&Halign). rewrite Estart. simpl deref.
  match goal with |- context [ReconcileUsageCursor siteID start now ?x] =>
    destruct (reconcile_total siteID start now x) as (c&d2&Hrec); [done|done|done|done|] end.
  rewrite Hrec. do 2 eexists. split; [reflexivity|]. split; [done|]. split; [done|].
  apply reconcile_frame in Hrec as (Hfm&_). unfold hour_state in Hfm. by injection Hfm as _ ->.
Qed.
End Complete.

(** ** Two complete hours *)
Module CursorSample.
Definition first : CollectionWindow := Sample.window 1 3600 "complete".
Definition second : CollectionWindow := Sample.window 2 7200 "complete".
Definition db : Db := Sample.db [] [] [first; second].

Lemma hours k w : Tables.collection_window db !! k = Some w -> k = 1 /\ w = first \/ k = 2 /\ w = second.
Proof.
  change (Tables.collection_window db) with (<[1 := first]> (<[2 := second]> (∅ : gmap Z CollectionWindow))).
  rewrite !lookup_insert_Some, lookup_empty. intuition (congruence || discriminate).
Qed.

Lemma wf : hours_wf db.
Proof.
  split.
  - by intros k w [[-> ->]|[-> ->]]%hours.
  - by intros k1 w1 k2 w2 [[-> ->]|[-> ->]]%hours [[-> ->]|[-> ->]]%hours.
  - by intros k w [[-> ->]|[-> ->]]%hours.
  - intros k f Hk. by destruct (lookup_empty_Some k f).
  - by intros k w [[-> ->]|[-> ->]]%hours.
  - intros k f Hk. by destruct (lookup_empty_Some k f).
Qed.
End CursorSample.

Lemma ReconcileUsageCursor_spec_witness : exists cursor d',
  ReconcileUsageCursor 7 3600 20000 CursorSample.db = Ok (cursor, d') /\
  cursor.(Cursor.LastCompleteHour) = Some 7200 /\ last_complete CursorSample.db 7 3600 7200.
Proof.
  destruct (ReconcileUsageCursor 7 3600 20000 CursorSample.db) as [[cursor d']|e] eqn:H;
    [|vm_compute in H; discriminate H].
  exists cursor, d'. split; [reflexivity|].
  assert (Hc : table_wf (Tables.collection_cursor CursorSample.db)).
  { intros k r Hk. by destruct (lookup_empty_Some k r). }
  destruct (ReconcileUsageCursor_spec 7 3600 20000 _ _ _ CursorSample.wf Hc H) as (_&_&_&Hlast&_).
  destruct Hlast as (h&Eh&Hl); [by exists 1, CursorSample.first|].
  assert (Some h = Some 7200) as [= ->]; [|split; [exact Eh|exact Hl]].
  rewrite <- Eh. vm_compute in H. by injection H as <- _.
Defined.
