(* ===== verification/UsageRecordBehaviour.v ===== *)
(** * Recording the outcome of a collected hour

    [NewCompleteUsageWindowMutation] and [NewFailedUsageWindowMutation] as the
    handlers of a claimed window: what they record, that recording again only
    verifies, and that a failure never touches a fact. *)

From S2P Require Import Prelude Stats Constants GoText Store Frame RunContract RunState RunRepository SiteFence TaskScope TaskClaim TaskCommit RunFrames RunInvariant QueueClaim TaskRecovery Materialize QueueSteps QueueSafety CommitBehaviour RunStateBehaviour CreateBehaviour UsageFacts UsageFactsBehaviour UsageWindowBehaviour.

(** ** A complete hour *)

(** What a run of the complete mutation for the facts [facts] leaves. *)
Record hour_recorded (sha : list Z -> string) (t : UsageTarget) (facts : list UsageFactHourly)
    (planned result : UsageWindowMutationResult) (d d' : Db) : Prop := {
  hour_now : recorded sha t.(UsageTarget.SiteID) t.(UsageTarget.HourTS) t.(UsageTarget.Now)
               (Z.of_nat (length facts)) planned.(UsageResult.SourceHash) (usageAttributionStatus facts) d';
  hour_wf : hours_wf d';
  hour_queue : (run_state d', Tables.site d') = (run_state d, Tables.site d);
  hour_others : other_hours t.(UsageTarget.SiteID) t.(UsageTarget.HourTS) d d';
  hour_other_facts : forall k f, fact_of t.(UsageTarget.SiteID) t.(UsageTarget.HourTS) f = false ->
    Tables.usage_fact_hourly d' !! k = Some f <-> Tables.usage_fact_hourly d !! k = Some f;
  hour_result : if result.(UsageResult.VerifiedOnly)
    then Tables.usage_fact_hourly d' = Tables.usage_fact_hourly d /\ result.(UsageResult.WrittenRows) = 0 /\
         complete_hour d t.(UsageTarget.SiteID) t.(UsageTarget.HourTS)
    else result = planned /\
         hashed_columns <$> select (fact_of t.(UsageTarget.SiteID) t.(UsageTarget.HourTS)) by_id d'
         ≡ₚ hashed_columns <$> facts
}.

Lemma complete_recorded sha request mutation planned scope d result d' :
  hours_wf d -> NewCompleteUsageWindowMutation sha request = Ok (mutation, planned) ->
  mutation scope d = Ok (result, d') ->
  let t := request.(CompleteUsage.target) in
  exists facts,
    canonicalUsageFacts sha t.(UsageTarget.SiteID) t.(UsageTarget.HourTS) t.(UsageTarget.Now)
      request.(CompleteUsage.Facts) = Ok (facts, planned.(UsageResult.SourceHash)) /\
    planned.(UsageResult.WrittenRows) = Z.of_nat (length facts) /\
    hour_recorded sha t facts planned result d d'.
Proof.
  intros Hwf Hnew H. cbv zeta.
  apply canonical_plan in Hnew as (facts&hash&Hc&Hplan&->).
  destruct (apply_complete_ok sha _ _ facts hash planned Hplan scope d result d' Hwf H)
    as (Hwf'&Hrec&Hoth&Hfr&Hof&Hres).
  destruct (plan_result _ _ _ _ _ Hplan) as (<-&Hrows&_). exists facts. split; [done|]. split; [done|].
  split; try done. destruct (UsageResult.VerifiedOnly result); [done|].
  destruct Hres as [-> (n&Hsel)]. split; [done|]. by rewrite Hsel, numbered_columns.
Qed.

(** The first step of the mutation is to lock its scope. *)
Lemma complete_locks sha t fetched facts hash planned scope d r :
  apply_complete sha t fetched facts hash planned scope d = Ok r ->
  exists locked, lockUsageMutationScope scope t d = Ok (locked, d).
Proof.
  destruct r as [result d']. intros H. apply st_bind_ok in H as (locked&d1&Hl&_). exists locked.
  pose proof Hl as Hl'. apply lock_scope_ok in Hl' as (->&_). exact Hl.
Qed.

(** Locking reads the three tables of the scope. *)
Lemma lock_frame scope t d d' locked :
  (run_state d', Tables.site d') = (run_state d, Tables.site d) ->
  lockUsageMutationScope scope t d = Ok (locked, d) -> lockUsageMutationScope scope t d' = Ok (locked, d').
Proof.
  intros E H. apply lock_scope_ok in H as (_&A&B&C&S&R&W&V). apply lock_scope_ok.
  unfold run_state in E. injection E as Er Ew _ _ Es. rewrite Er, Ew, Es. done.
Qed.

Lemma complete_again sha request mutation planned scope d result d' :
  hours_wf d -> NewCompleteUsageWindowMutation sha request = Ok (mutation, planned) ->
  mutation scope d = Ok (result, d') ->
  exists again d2, mutation scope d' = Ok (again, d2) /\
    again.(UsageResult.VerifiedOnly) = true /\ again.(UsageResult.WrittenRows) = 0 /\
    Tables.usage_fact_hourly d2 = Tables.usage_fact_hourly d'.
Proof.
  intros Hwf Hnew H. destruct (complete_recorded _ _ _ _ _ _ _ _ Hwf Hnew H) as (facts&Hc&_&[Hr Hwf' Hq _ _ _]).
  apply canonical_plan in Hnew as (facts'&hash&Hc'&Hplan&->).
  rewrite Hc in Hc'. injection Hc' as -> Eh.
  destruct (complete_locks _ _ _ _ _ _ _ _ _ H) as [locked Hl].
  rewrite Eh in Hr. by eapply (apply_complete_again sha _ _ _ _ _ Hplan scope locked d' Hwf' Hr), lock_frame.
Qed.

(** ** The interface of a handler *)

#[export] Instance first_or_reads {R} `{!Table R} id e : ReadsOnly (first_or (R := R) id e).
Proof. intros d r d' H. by apply first_or_ok in H as [_ ->]. Qed.

#[export] Instance lockUsageMutationScope_reads scope t : ReadsOnly (lockUsageMutationScope scope t).
Proof. unfold lockUsageMutationScope. solve_frame. Qed.

#[export] Instance lockCollectionWindow_reads siteID hourTS : ReadsOnly (lockCollectionWindow siteID hourTS).
Proof. unfold lockCollectionWindow. solve_frame. Qed.

#[export] Instance persistedUsageFactsMatch_reads sha siteID hourTS facts hash :
  ReadsOnly (persistedUsageFactsMatch sha siteID hourTS facts hash).
Proof. unfold persistedUsageFactsMatch. solve_frame. Qed.

(** A read preserves what a mutation has to preserve. *)
#[export] Hint Extern 3 (Preserves run_state (lockUsageMutationScope _ _)) =>
  (apply reads_preserves, _) : typeclass_instances.
#[export] Hint Extern 3 (Preserves run_state (lockCollectionWindow _ _)) =>
  (apply reads_preserves, _) : typeclass_instances.
#[export] Hint Extern 3 (Preserves run_state (persistedUsageFactsMatch _ _ _ _ _)) =>
  (apply reads_preserves, _) : typeclass_instances.

#[export] Instance ReconcileUsageCursor_frame siteID start now :
  Preserves run_state (ReconcileUsageCursor siteID start now).
Proof. unfold ReconcileUsageCursor. solve_frame. Qed.

#[export] Instance replace_facts_frame siteID hourTS facts :
  Preserves run_state (replace_facts siteID hourTS facts).
Proof. unfold replace_facts. solve_frame. Qed.

#[export] Instance upsert_window_frame siteID hourTS set :
  Preserves run_state (upsert_window siteID hourTS set).
Proof. unfold upsert_window. solve_frame. Qed.

(** Neither mutation writes the queue: both are lawful handlers. *)
Lemma complete_lawful sha request mutation planned :
  NewCompleteUsageWindowMutation sha request = Ok (mutation, planned) ->
  lawful (Some (fact_only_commit mutation)).
Proof.
  intros (facts&hash&_&_&->)%canonical_plan scope. unfold fact_only_commit, apply_complete. solve_frame.
Qed.

Lemma failed_lawful request mutation :
  NewFailedUsageWindowMutation request = Ok mutation -> lawful (Some (fact_only_commit mutation)).
Proof.
  unfold NewFailedUsageWindowMutation. destruct (_ || _); [done|]. intros [= <-] scope.
  unfold fact_only_commit. solve_frame.
Qed.

(** ** A failed hour *)

(** The statuses a failure does not overwrite. *)
Definition settled_hour (w : CollectionWindow) : bool :=
  is_one_of w.(Window.Status) [CollectionWindowStatusComplete; CollectionWindowStatusUnavailable].

Definition hour_missing (t : UsageTarget) (code params : string) (w : CollectionWindow) : Prop :=
  w.(Window.Status) = CollectionWindowStatusMissing /\ w.(Window.LastErrorCode) = code /\
  w.(Window.LastErrorParams) = params /\ w.(Window.VerifiedAt) = None /\
  w.(Window.LastFactRunID) = Some t.(UsageTarget.RunID).

(** What the failed mutation leaves of the hour [w] it found. *)
Definition failure_of (request : FailedUsageWindowRequest) (found : option CollectionWindow)
    (result : UsageWindowMutationResult) (d d' : Db) : Prop :=
  let t := request.(FailedUsage.target) in
  let missing := hour_missing t request.(FailedUsage.ReasonCode) request.(FailedUsage.ReasonParams) in
  match found with
  | Some w =>
      if negb request.(FailedUsage.DataMismatch) && settled_hour w
      then d' = d /\ result.(UsageResult.CollectionStatus) = w.(Window.Status)
      else result.(UsageResult.CollectionStatus) = CollectionWindowStatusMissing /\
           exists w', Tables.collection_window d' !! w.(Window.ID) = Some w' /\ missing w' /\
             w'.(Window.SourceHash) = w.(Window.SourceHash) /\ w'.(Window.FactRows) = w.(Window.FactRows) /\
             of_hour t.(UsageTarget.SiteID) t.(UsageTarget.HourTS) w' = true
  | None =>
      result.(UsageResult.CollectionStatus) = CollectionWindowStatusMissing /\
      exists k w', Tables.collection_window d' !! k = Some w' /\ missing w' /\
        of_hour t.(UsageTarget.SiteID) t.(UsageTarget.HourTS) w' = true
  end.

Lemma failed_effect request mutation scope d result d' :
  hours_wf d -> NewFailedUsageWindowMutation request = Ok mutation -> mutation scope d = Ok (result, d') ->
  let t := request.(FailedUsage.target) in
  Tables.usage_fact_hourly d' = Tables.usage_fact_hourly d /\
  other_hours t.(UsageTarget.SiteID) t.(UsageTarget.HourTS) d d' /\
  result.(UsageResult.WrittenRows) = 0 /\ result.(UsageResult.ReasonCode) = request.(FailedUsage.ReasonCode) /\
  failure_of request (head (select (of_hour t.(UsageTarget.SiteID) t.(UsageTarget.HourTS)) by_id d)) result d d'.
Proof.
  intros Hwf. unfold NewFailedUsageWindowMutation. destruct (_ || _); [done|]. intros [= <-] H. cbv zeta in *.
  apply st_bind_ok in H as (locked&d1&Hl&H). apply lock_scope_ok in Hl as (->&_).
  apply st_bind_ok in H as (window&d1&Hw&H). apply lockCollectionWindow_ok in Hw as (->&<-&Hw).
  unfold failure_of. destruct window as [w|].
  - destruct Hw as (k&Hk&Hs&Hh). unfold settled_hour. destruct (_ && is_one_of _ _).
    + apply st_ret_pair in H as [-> ->]. done.
    + apply st_bind_ok in H as (n&d1&Hu&H). apply db_update_ok in Hu as [_ ->].
      apply st_bind_ok in H as (c&d2&Hc&H). apply st_ret_pair in H as [-> ->].
      apply reconcile_frame in Hc as (Hst&_). unfold hour_state in Hst. injection Hst as Ew Ef.
      split; [exact Ef|]. split.
      { unfold other_hours. rewrite Ew. apply update_other_hours; [done|].
        intros j x Hj E. to_prop. pose proof (hours_table d Hwf _ _ Hj) as E1.
        pose proof (hours_table d Hwf _ _ Hk) as E2. simpl in E1, E2.
        assert (j = k) as -> by congruence. assert (x = w) as -> by congruence. unfold of_hour. to_prop. lia. }
      do 3 (split; [done|]). eexists. split; [|split; [|split; [|split]]].
      { rewrite Ew. simpl. rewrite lookup_update_where. pose proof (hours_table d Hwf _ _ Hk) as E. simpl in E.
        rewrite E, Hk. simpl. unfold upd. by rewrite E, Z.eqb_refl. }
      1-3: done.
      unfold of_hour. to_prop. done.
  - apply st_bind_ok in H as (x&d1&Hc&H). unfold db_create in Hc. injection Hc as _ <-.
    apply st_bind_ok in H as (c&d2&Hc&H). apply st_ret_pair in H as [-> ->].
    apply reconcile_frame in Hc as (Hst&_). unfold hour_state in Hst. injection Hst as Ew Ef.
    split; [exact Ef|]. split.
    { unfold other_hours. rewrite Ew. simpl. intros k w Hw'. rewrite lookup_insert_Some. split.
      - intros [[<- <-]|[_ Hk]]; [|done]. exfalso. rewrite <- not_true_iff_false in Hw'. apply Hw'. unfold of_hour. to_prop. done.
      - intros Hk. right. split; [apply (hours_fresh d Hwf) in Hk; lia|done]. }
    do 3 (split; [done|]). do 2 eexists. split; [rewrite Ew; simpl; apply lookup_insert_eq|].
    split; [done|]. unfold of_hour. to_prop. done.
Qed.

(** ** The properties *)

(** The hour a complete mutation returns for is recorded: its window is
    complete and carries the hash, the attribution and the number of the
    canonical facts of the request, the facts stored for the hour are exactly
    those the hash names, every other hour keeps its window and its facts, and
    the queue and the sites are untouched.  Either the facts were stored
    already, and none is written, or the stored columns are those of the
    canonical facts. *)
Theorem NewCompleteUsageWindowMutation_records sha request mutation planned scope d result d' :
  hours_wf d -> NewCompleteUsageWindowMutation sha request = Ok (mutation, planned) ->
  mutation scope d = Ok (result, d') ->
  exists facts,
    canonicalUsageFacts sha request.(CompleteUsage.target).(UsageTarget.SiteID)
      request.(CompleteUsage.target).(UsageTarget.HourTS) request.(CompleteUsage.target).(UsageTarget.Now)
      request.(CompleteUsage.Facts) = Ok (facts, planned.(UsageResult.SourceHash)) /\
    hour_recorded sha request.(CompleteUsage.target) facts planned result d d'.
Proof.
  intros Hwf Hnew H. destruct (complete_recorded _ _ _ _ _ _ _ _ Hwf Hnew H) as (facts&Hc&_&Hr). by exists facts.
Qed.

(** A mutation that is applied a second time succeeds, reports that it
    only verified, writes no row, and leaves every fact where it was. *)
Theorem NewCompleteUsageWindowMutation_idempotent sha request mutation planned scope d result d' :
  hours_wf d -> NewCompleteUsageWindowMutation sha request = Ok (mutation, planned) ->
  mutation scope d = Ok (result, d') ->
  exists again d2, mutation scope d' = Ok (again, d2) /\
    again.(UsageResult.VerifiedOnly) = true /\ again.(UsageResult.WrittenRows) = 0 /\
    Tables.usage_fact_hourly d2 = Tables.usage_fact_hourly d' /\ run_state d2 = run_state d'.
Proof.
  intros Hwf Hnew H. destruct (complete_again _ _ _ _ _ _ _ _ Hwf Hnew H) as (again&d2&H2&Hv&Hw&Hf).
  exists again, d2. repeat (split; [done|]).
  destruct (complete_recorded _ _ _ _ _ _ _ _ Hwf Hnew H) as (facts&_&_&[_ Hwf' _ _ _ _]).
  destruct (complete_recorded _ _ _ _ _ _ _ _ Hwf' Hnew H2) as (facts'&_&_&[_ _ Hq _ _ _]).
  exact (f_equal fst Hq).
Qed.

(** A failed collection never touches a fact, nor the window of any other
    hour.  A window that is complete or unavailable is kept with everything
    else as it was, unless the failure is a mismatch of the data; in every other
    case the hour has a window that is missing, with the reason, no time of
    verification, and the hash and row count it had. *)
Theorem NewFailedUsageWindowMutation_keeps_facts request mutation scope d result d' :
  hours_wf d -> NewFailedUsageWindowMutation request = Ok mutation -> mutation scope d = Ok (result, d') ->
  Tables.usage_fact_hourly d' = Tables.usage_fact_hourly d /\ run_state d' = run_state d /\
  other_hours request.(FailedUsage.target).(UsageTarget.SiteID) request.(FailedUsage.target).(UsageTarget.HourTS) d d' /\
  result.(UsageResult.WrittenRows) = 0 /\ result.(UsageResult.ReasonCode) = request.(FailedUsage.ReasonCode) /\
  failure_of request (head (select (of_hour request.(FailedUsage.target).(UsageTarget.SiteID)
                                     request.(FailedUsage.target).(UsageTarget.HourTS)) by_id d)) result d d'.
Proof.
  intros Hwf Hnew H. destruct (failed_effect _ _ _ _ _ _ Hwf Hnew H) as (Hf&Ho&Hw&Hr&Hfail).
  split; [done|]. split; [|done].
  apply (failed_lawful _ _ Hnew scope d (result.(UsageResult.FetchedRows), result.(UsageResult.WrittenRows)) d').
  unfold fact_only_commit, mbind, st_bind. by rewrite H.
Qed.

(** ** A history in which an hour is recorded *)
Module RecordSample.
Definition target : UsageTarget := UsageTarget.mk 100 101 7 3 7200 1 "worker-1" 20010.
Definition request : CompleteUsageWindowRequest := CompleteUsage.mk target 5 "" UsageSample.rows.
Definition facts : list UsageFactHourly :=
  match canonicalUsageFacts UsageSample.sha 7 7200 20010 UsageSample.rows with Ok (l, _) => l | Err _ => [] end.
Definition planned : UsageWindowMutationResult :=
  UsageResult.mk "complete" (usageFactsHash UsageSample.sha facts) "worker-1" 5 2 false "" "attributed".
Definition mutation : UsageFactMutation :=
  apply_complete UsageSample.sha target 5 facts (usageFactsHash UsageSample.sha facts) planned.
Definition the {A} (default : A) (m : option A) : A := match m with Some a => a | None => default end.
Definition scope : CollectionTaskWindowMutationScope :=
  MutationScope.mk Sample.site7 (the (Sample.run 100 0 0 "") (Tables.collection_run History.claimed !! 100))
    (the (Sample.run_window 101 100 7200 "" 0) (Tables.collection_run_window History.claimed !! 101)).
Definition recorded_db : Db := History.after (mutation scope) History.claimed.
Definition failure (mismatch : bool) : FailedUsageWindowRequest :=
  FailedUsage.mk target 5 "UPSTREAM_TIMEOUT" "{}" mismatch.
Definition failed : UsageFactMutation :=
  match NewFailedUsageWindowMutation (failure false) with Ok m => m | Err e => fun _ => st_fail e end.

Lemma new_mutation : NewCompleteUsageWindowMutation UsageSample.sha request = Ok (mutation, planned).
Proof.
  assert (Hc : canonicalUsageFacts UsageSample.sha 7 7200 20010 UsageSample.rows
    = Ok (facts, usageFactsHash UsageSample.sha facts)) by (vm_compute; reflexivity).
  assert (Ha : usageAttributionStatus facts = "attributed") by (vm_compute; reflexivity).
  assert (Hl : length facts = 2%nat) by (vm_compute; reflexivity).
  unfold NewCompleteUsageWindowMutation. cbn [CompleteUsage.target request UsageTarget.SiteID UsageTarget.HourTS
    UsageTarget.Now CompleteUsage.Facts target].
  rewrite Hc. unfold mbind, result_bind. rewrite Ha, Hl. reflexivity.
Qed.

Lemma no_hours d : Tables.collection_window d = ∅ -> Tables.usage_fact_hourly d = ∅ -> hours_wf d.
Proof. intros Hw Hf. by split; rewrite ?Hw, ?Hf. Qed.

Lemma claimed_hours : hours_wf History.claimed.
Proof. apply no_hours; vm_compute; reflexivity. Qed.

Lemma records : exists result, mutation scope History.claimed = Ok (result, recorded_db).
Proof.
  assert (H : is_ok (mutation scope History.claimed) = true) by (vm_compute; reflexivity).
  exact (History.after_ok (mutation scope) History.claimed H).
Qed.
End RecordSample.

Lemma NewCompleteUsageWindowMutation_records_witness : exists facts,
  canonicalUsageFacts UsageSample.sha 7 7200 20010 UsageSample.rows = Ok (facts, UsageResult.SourceHash RecordSample.planned) /\
  recorded UsageSample.sha 7 7200 20010 (Z.of_nat (length facts)) (UsageResult.SourceHash RecordSample.planned)
    (usageAttributionStatus facts) RecordSample.recorded_db.
Proof.
  destruct RecordSample.records as [result H].
  destruct (NewCompleteUsageWindowMutation_records _ _ _ _ _ _ _ _ RecordSample.claimed_hours RecordSample.new_mutation H)
    as (facts&Hc&[Hr _ _ _ _ _]).
  exists facts. split; [exact Hc|exact Hr].
Defined.

Lemma NewCompleteUsageWindowMutation_idempotent_witness : exists again d2,
  RecordSample.mutation RecordSample.scope RecordSample.recorded_db = Ok (again, d2) /\
  again.(UsageResult.VerifiedOnly) = true.
Proof.
  destruct RecordSample.records as [result H].
  destruct (NewCompleteUsageWindowMutation_idempotent _ _ _ _ _ _ _ _ RecordSample.claimed_hours RecordSample.new_mutation H)
    as (again&d2&H2&Hv&_).
  exists again, d2. split; [exact H2|exact Hv].
Defined.

Lemma NewFailedUsageWindowMutation_keeps_facts_witness : exists result d',
  RecordSample.failed RecordSample.scope History.claimed = Ok (result, d') /\
  Tables.usage_fact_hourly d' = Tables.usage_fact_hourly History.claimed /\
  result.(UsageResult.CollectionStatus) = "missing".
Proof.
  assert (Hnew : NewFailedUsageWindowMutation (RecordSample.failure false) = Ok RecordSample.failed)
    by (vm_compute; reflexivity).
  destruct (RecordSample.failed RecordSample.scope History.claimed) as [[result d']|e] eqn:H;
    [|vm_compute in H; discriminate H].
  exists result, d'. split; [reflexivity|].
  destruct (NewFailedUsageWindowMutation_keeps_facts _ _ _ _ _ _ RecordSample.claimed_hours Hnew H)
    as (Hf&_&_&_&_&Hfail).
  split; [exact Hf|]. vm_compute in H. injection H as <- _. vm_compute. reflexivity.
Defined.
