(* ===== verification/StatisticsExact.v ===== *)
(** * Exact statistics

    The statistics are exact when every roll-up row counts exactly the facts of
    complete hours it stands for.  A commit of an hour keeps them exact,
    whatever hour, and whatever mutation of that hour it commits. *)

From S2P Require Import Prelude Constants GoText Stats DateBucket Store Frame RunContract RunState RunRepository SiteFence TaskScope TaskClaim TaskCommit Materialize RunStateBehaviour CreateBehaviour UsageFacts UsageAggregation LocalRebuild RollupLemmas RollupRebuild UsageFactsBehaviour UsageWindowBehaviour.

(** ** The reference: what each row ought to count *)
Definition usage_of (l : list UsageFactHourly) : usageMetricAggregate := metrics_of ((fun f => (fact_user f, f)) <$> l).

Record bucket_exact (d : Db) (siteID bucket : Z) (in_range : Z -> bool) (r : Rollup) : Prop := {
  exact_site : stat_metrics r.(Rollup.site_stat) (siteID, bucket) = usage_of (site_facts d siteID in_range);
  exact_models : forall m, stat_metrics r.(Rollup.model_stat) (siteID, m, bucket)
    = usage_of (base.filter (fun f => f.(Fact.ModelName) = m) (site_facts d siteID in_range));
  exact_channels : forall c, stat_metrics r.(Rollup.channel_stat) (siteID, c, bucket)
    = usage_of (base.filter (fun f => f.(Fact.ChannelID) = c) (site_facts d siteID in_range))
}.

(** The hours of a day, and its facts. *)
Definition day_range (day : Z) : Z -> bool := in_scope usageAggregateDate (day_start day) (day_start day + 24 * 3600).
Definition day_key (day : Z) : Z := date_key (civil_of_days day).
Definition day_authoritative (d : Db) (siteID day : Z) : list UsageFactHourly :=
  authoritative_facts d siteID (day_start day) (day_start day + 24 * 3600).

Record statistics_exact (d : Db) : Prop := {
  exact_hours : forall siteID h, bucket_exact d siteID h (Z.eqb h) (Tables.statistics d).(Statistics.hourly);
  exact_days : forall siteID day, bucket_exact d siteID (day_key day) (day_range day) (Tables.statistics d).(Statistics.daily);
  exact_global_hours : forall h, stat_metrics (Tables.statistics d).(Statistics.hourly).(Rollup.global_stat) h
    = global_usage d (in_scope usageAggregateHour h 0);
  exact_global_days : forall day, stat_metrics (Tables.statistics d).(Statistics.daily).(Rollup.global_stat) (day_key day)
    = global_usage d (day_range day);
  exact_facts : forall siteID day k,
    daily_content <$> (Tables.statistics d).(Statistics.usage_fact_daily) !! (siteID, k, day_key day)
    = content_of (key_facts (day_authoritative d siteID day) k)
}.

(** ** Permuted facts count the same *)
#[export] Instance usage_of_perm : Proper (Permutation ==> eq) usage_of.
Proof. intros l1 l2 H. unfold usage_of. by rewrite H. Qed.

Lemma lesser_swap x y z : lesser_name x (lesser_name y z) = lesser_name y (lesser_name x z).
Proof.
  assert (Htrans : forall a b c, String.le a b -> String.le b c -> String.le a c) by (intros; by etrans).
  assert (Hanti : forall a b, String.le a b -> String.le b a -> a = b) by (intros; by apply (anti_symm String.le)).
  pose proof (total String.le x y) as Hxy. pose proof (total String.le y z) as Hyz. pose proof (total String.le x z) as Hxz.
  unfold lesser_name.
  repeat (case_bool_decide; cbn [orb]); subst; try done; try congruence; naive_solver.
Qed.

#[export] Instance least_name_perm : Proper (Permutation ==> eq) least_name.
Proof.
  intros l1 l2 H. induction H as [|x l1 l2 _ IH|x y l|]; simpl; [done|by rewrite IH|apply lesser_swap|congruence].
Qed.

#[export] Instance content_of_perm : Proper (Permutation ==> eq) content_of.
Proof.
  intros l1 l2 H.
  assert (E : daily_content (daily_row false 0 l1) = daily_content (daily_row false 0 l2)).
  { unfold daily_content, daily_row.
    cbn [DailyFact.UsernameSnapshot DailyFact.TokenName DailyFact.RequestCount DailyFact.Quota DailyFact.TokenUsed].
    assert (Hsum : forall column, sum_of column l1 = sum_of column l2) by (intros column; by rewrite H).
    assert (Hname : forall column : UsageFactHourly -> string, least_name (column <$> l1) = least_name (column <$> l2))
      by (intros column; apply least_name_perm; by rewrite H).
    by rewrite !Hsum, !Hname. }
  destruct l1 as [|a l1], l2 as [|b l2]; [done|by apply Permutation_nil_cons in H|
    by symmetry in H; apply Permutation_nil_cons in H|]. cbn [content_of]. by rewrite E.
Qed.

#[export] Instance key_facts_perm : Proper (Permutation ==> eq ==> Permutation) key_facts.
Proof. intros l1 l2 H k ? <-. unfold key_facts. by rewrite H. Qed.

(** Queries that select the same rows return permutations of one another. *)
Lemma filter_rows_perm {R} `{!Table R} (p1 p2 : R -> bool) (t1 t2 : gmap Z R) :
  table_wf t1 -> table_wf t2 ->
  (forall k r, p1 r = true /\ t1 !! k = Some r <-> p2 r = true /\ t2 !! k = Some r) ->
  base.filter (fun r => p1 r = true) (rows t1) ≡ₚ base.filter (fun r => p2 r = true) (rows t2).
Proof.
  intros H1 H2 Heq. apply NoDup_Permutation.
  1-2: apply NoDup_filter; eapply NoDup_fmap_1, rows_NoDup; done.
  intros r. rewrite !list_elem_of_filter, !elem_of_rows. naive_solver.
Qed.

(** ** The interface of a mutation of one hour

    What a commit needs of the mutation it commits: it touches the window and
    the facts of its hour only, its facts are among those the commit was told,
    and when it only verified, the facts and their completeness are unchanged. *)
Definition entities (d : Db) := (Tables.site d, Tables.account d, Tables.customer d, Tables.statistics d).

Record hour_effect (t : UsageTarget) (facts : list UsageFactHourly) (result : UsageWindowMutationResult) (d d' : Db)
  : Prop := {
  effect_wf : hours_wf d';
  effect_entities : entities d' = entities d;
  effect_windows : other_hours t.(UsageTarget.SiteID) t.(UsageTarget.HourTS) d d';
  effect_facts : forall k f, fact_of t.(UsageTarget.SiteID) t.(UsageTarget.HourTS) f = false ->
    Tables.usage_fact_hourly d' !! k = Some f <-> Tables.usage_fact_hourly d !! k = Some f;
  effect_new : forall k f, Tables.usage_fact_hourly d' !! k = Some f ->
    fact_of t.(UsageTarget.SiteID) t.(UsageTarget.HourTS) f = true ->
    fact_key f ∈ (fact_key <$> facts) \/ Tables.usage_fact_hourly d !! k = Some f;
  effect_verified : result.(UsageResult.VerifiedOnly) = true ->
    Tables.usage_fact_hourly d' = Tables.usage_fact_hourly d /\ forall f, complete_fact d' f = complete_fact d f
}.

Class HourMutation (t : UsageTarget) (facts : list UsageFactHourly) (m : UsageFactMutation) : Prop :=
  hour_mutation : forall scope d result d', hours_wf d -> m scope d = Ok (result, d') -> hour_effect t facts result d d'.

(** ** Facts of other hours *)
Lemma complete_fact_outside siteID hourTS d d' f : other_hours siteID hourTS d d' -> fact_of siteID hourTS f = false ->
  complete_fact d' f = complete_fact d f.
Proof.
  intros Ho Hf. unfold complete_fact. apply eq_true_iff_eq. rewrite !existsb_exists.
  assert (Hw : forall w, of_hour f.(Fact.SiteID) f.(Fact.HourTS) w = true -> of_hour siteID hourTS w = false).
  { unfold of_hour, fact_of in *. intros w Hw. to_prop. by destruct Hw as [-> ->]. }
  split; intros (w&Hin%list_elem_of_In%elem_of_rows&Hp); exists w; (split; [|done]);
    apply list_elem_of_In, elem_of_rows; destruct Hin as (k&Hk); exists k;
    apply andb_true_iff in Hp as [Hp _]; by apply (Ho k w (Hw w Hp)).
Qed.

Section OtherHours.
Context (t : UsageTarget) (facts : list UsageFactHourly) (result : UsageWindowMutationResult) (d d' : Db).
Context (Hwf : hours_wf d) (He : hour_effect t facts result d d').
Abbreviation S := t.(UsageTarget.SiteID).
Abbreviation H := t.(UsageTarget.HourTS).

Lemma complete_fact_other f : fact_of S H f = false -> complete_fact d' f = complete_fact d f.
Proof. apply complete_fact_outside, He. Qed.

Lemma within_statistics_same f : within_statistics d' f = within_statistics d f.
Proof.
  pose proof (effect_entities _ _ _ _ _ He) as E. injection E as Es _ _ _.
  unfold within_statistics, table_rows. simpl. by rewrite Es.
Qed.

(** A query on facts that leaves out the hour of the mutation. *)
Lemma other_facts_perm (p p' : UsageFactHourly -> bool) :
  (forall f, fact_of S H f = false -> p' f = p f) -> (forall f, p f = true -> fact_of S H f = false) ->
  (forall f, p' f = true -> fact_of S H f = false) ->
  base.filter (fun f => p' f = true) (table_rows d') ≡ₚ base.filter (fun f => p f = true) (table_rows d).
Proof.
  intros Hsame Hp Hp'. apply filter_rows_perm; [apply (facts_table _ (effect_wf _ _ _ _ _ He))|apply (facts_table _ Hwf)|].
  intros k f. split; intros [Hpf Hk].
  - pose proof (Hp' f Hpf) as Hno. split; [by rewrite <- Hsame|]. by apply (effect_facts _ _ _ _ _ He k f Hno).
  - pose proof (Hp f Hpf) as Hno. split; [by rewrite Hsame|]. by apply (effect_facts _ _ _ _ _ He k f Hno).
Qed.

Lemma site_facts_other siteID in_range : siteID <> S \/ in_range H = false ->
  site_facts d' siteID in_range ≡ₚ site_facts d siteID in_range.
Proof.
  intros Hout. assert (Hno : forall f, (f.(Fact.SiteID) =? siteID) && in_range f.(Fact.HourTS) = true -> fact_of S H f = false).
  { intros f Hf. unfold fact_of. to_prop. destruct Hf as [<- Hr]. destruct Hout as [|Hout]; [by left|right].
    intros E. rewrite E in Hr. congruence. }
  unfold site_facts. apply other_facts_perm; intros f Hf; [by rewrite complete_fact_other|apply Hno..];
    by apply andb_true_iff in Hf as [Hf _].
Qed.

Lemma global_facts_other in_range : in_range H = false -> global_facts d' in_range ≡ₚ global_facts d in_range.
Proof.
  intros Hout. assert (Hno : forall f, in_range f.(Fact.HourTS) = true -> fact_of S H f = false).
  { intros f Hf. unfold fact_of. to_prop. right. intros E. rewrite E in Hf. congruence. }
  unfold global_facts. apply other_facts_perm; intros f Hf; [by rewrite complete_fact_other, within_statistics_same|apply Hno..];
    by apply andb_true_iff in Hf as [_ Hf].
Qed.

(** The facts of a day, for the keys the hour does not have before or after. *)
Lemma authoritative_other siteID dateStart dateEnd k :
  siteID <> S \/ in_scope usageAggregateDate dateStart dateEnd H = false \/
  k ∉ (fact_key <$> (select (fact_of S H) by_id d ++ facts)) ->
  key_facts (authoritative_facts d' siteID dateStart dateEnd) k ≡ₚ key_facts (authoritative_facts d siteID dateStart dateEnd) k.
Proof.
  intros Hout.
  set (q := fun d f => bool_decide (fact_key f = k) && ((f.(Fact.SiteID) =? siteID)
         && in_scope usageAggregateDate dateStart dateEnd f.(Fact.HourTS) && complete_fact d f && within_statistics d f)).
  assert (Hq : forall d, key_facts (authoritative_facts d siteID dateStart dateEnd) k
                         = base.filter (fun f => q d f = true) (table_rows d)).
  { intros x. unfold key_facts, authoritative_facts. rewrite list_filter_filter. apply list_filter_iff. intros f.
    unfold q. rewrite !andb_true_iff, bool_decide_eq_true. tauto. }
  rewrite !Hq. clear Hq.
  assert (Hno : forall f, (exists j, Tables.usage_fact_hourly d' !! j = Some f \/ Tables.usage_fact_hourly d !! j = Some f) ->
    fact_key f = k -> f.(Fact.SiteID) = siteID -> in_scope usageAggregateDate dateStart dateEnd f.(Fact.HourTS) = true ->
    fact_of S H f = false).
  { intros f (j&Hj) Hk Hs Hr. destruct (fact_of S H f) eqn:Hf; [|done]. exfalso. pose proof Hf as Hf'.
    unfold fact_of in Hf'. to_prop. destruct Hf' as [E1 E2]. destruct Hout as [Hout|[Hout|Hout]]; [congruence| |].
    - rewrite E2 in Hr. congruence.
    - apply Hout. rewrite fmap_app, elem_of_app.
      assert (Hold : Tables.usage_fact_hourly d !! j = Some f -> k ∈ fact_key <$> select (fact_of S H) by_id d).
      { intros Hd. rewrite <- Hk. apply list_elem_of_fmap_2, elem_of_select. split; [done|]. by exists j. }
      destruct Hj as [Hj|Hj]; [|by left; apply Hold].
      destruct (effect_new _ _ _ _ _ He j f Hj Hf) as [Hnew|Hd]; [right; by rewrite <- Hk|left; by apply Hold]. }
  apply filter_rows_perm; [apply (facts_table _ (effect_wf _ _ _ _ _ He))|apply (facts_table _ Hwf)|].
  intros j f. unfold q. rewrite !andb_true_iff, !bool_decide_eq_true, Z.eqb_eq, within_statistics_same.
  split; intros [(Hk&((Hs&Hr)&Hc)&Hw) Hj].
  - pose proof (Hno f (ex_intro _ j (or_introl Hj)) Hk Hs Hr) as Hf. rewrite complete_fact_other in Hc by done.
    split; [done|]. by apply (effect_facts _ _ _ _ _ He j f Hf).
  - pose proof (Hno f (ex_intro _ j (or_intror Hj)) Hk Hs Hr) as Hf. rewrite <- (complete_fact_other f Hf) in Hc.
    split; [done|]. by apply (effect_facts _ _ _ _ _ He j f Hf).
Qed.
End OtherHours.

(** ** The rebuilt buckets are exact *)
Lemma filter_ext_in {A} (P Q : A -> Prop) `{!forall x, Decision (P x), !forall x, Decision (Q x)} (l : list A) :
  (forall x, x ∈ l -> P x <-> Q x) -> base.filter P l = base.filter Q l.
Proof.
  induction l as [|x l IH]; intros Hpq; [done|]. rewrite !filter_cons.
  rewrite (decide_ext (P x) (Q x)) by (apply Hpq; set_solver). rewrite IH by set_solver. done.
Qed.

Lemma filter_all_in {A} (P : A -> Prop) `{!forall x, Decision (P x)} (l : list A) :
  (forall x, x ∈ l -> P x) -> base.filter P l = l.
Proof.
  induction l as [|x l IH]; intros Hp; [done|]. rewrite filter_cons, decide_True by (apply Hp; set_solver).
  rewrite IH by set_solver. done.
Qed.

Section NewRowsExact.
Context (d : Db) (siteID bucket : Z) (in_range : Z -> bool).

Lemma site_facts_site f : f ∈ site_facts d siteID in_range -> f.(Fact.SiteID) = siteID.
Proof. by intros (_&?&_)%elem_of_site_facts. Qed.

Lemma site_items_metrics status final now :
  stat_metrics (stat_rows status final now (site_items d siteID bucket in_range)) (siteID, bucket)
  = usage_of (site_facts d siteID in_range).
Proof.
  rewrite stat_rows_metrics. unfold site_items, usage_of.
  rewrite (group_of_fmap (fun f => (f.(Fact.SiteID), bucket)) (fun f => (fact_user f, f))).
  rewrite filter_all_in; [done|]. by intros f ->%site_facts_site.
Qed.

Lemma model_items_metrics status final now m :
  stat_metrics (stat_rows status final now (model_items d siteID bucket in_range)) (siteID, m, bucket)
  = usage_of (base.filter (fun f => f.(Fact.ModelName) = m) (site_facts d siteID in_range)).
Proof.
  rewrite stat_rows_metrics. unfold model_items, usage_of.
  rewrite (group_of_fmap (fun f => (f.(Fact.SiteID), f.(Fact.ModelName), bucket)) (fun f => (fact_user f, f))).
  f_equal. f_equal. apply filter_ext_in. intros f ->%site_facts_site. split; [by intros [= ->]|by intros ->].
Qed.

Lemma channel_items_metrics status final now c :
  stat_metrics (stat_rows status final now (channel_items d siteID bucket in_range)) (siteID, c, bucket)
  = usage_of (base.filter (fun f => f.(Fact.ChannelID) = c) (site_facts d siteID in_range)).
Proof.
  rewrite stat_rows_metrics. unfold channel_items, usage_of.
  rewrite (group_of_fmap (fun f => (f.(Fact.SiteID), f.(Fact.ChannelID), bucket)) (fun f => (fact_user f, f))).
  f_equal. f_equal. apply filter_ext_in. intros f ->%site_facts_site. split; [by intros [= ->]|by intros ->].
Qed.

Lemma rebuilt_exact ids accounts customers status final now metrics r r' :
  bucket_rebuilt siteID bucket ids
    (NewRows.mk accounts customers (stat_rows status final now (site_items d siteID bucket in_range))
       (stat_rows status final now (model_items d siteID bucket in_range))
       (stat_rows status final now (channel_items d siteID bucket in_range))) metrics r r' ->
  bucket_exact d siteID bucket in_range r'.
Proof.
  intros [_ _ Hs Hm Hc _]. split; [rewrite Hs|intros m; rewrite Hm|intros c; rewrite Hc];
    rewrite !Z.eqb_refl; cbn [andb NewRows.sites NewRows.models NewRows.channels];
    [apply site_items_metrics|apply model_items_metrics|apply channel_items_metrics].
Qed.
End NewRowsExact.

(** A bucket the rebuild leaves alone, over facts that are the same. *)
Lemma bucket_exact_kept d d' siteID bucket in_range S b ids new metrics r r' :
  bucket_rebuilt S b ids new metrics r r' -> (siteID =? S) && (bucket =? b) = false ->
  site_facts d' siteID in_range ≡ₚ site_facts d siteID in_range ->
  bucket_exact d siteID bucket in_range r -> bucket_exact d' siteID bucket in_range r'.
Proof.
  intros [_ _ Hs Hm Hc _] Hno Hf [Es Em Ec].
  split; [rewrite Hs|intros m; rewrite Hm|intros c; rewrite Hc]; rewrite Hno, Hf; [done|apply Em|apply Ec].
Qed.

(** What only reads the facts does not see the statistics. *)
Lemma base_facts d d' : base d' = base d ->
  (forall siteID in_range, site_facts d' siteID in_range = site_facts d siteID in_range) /\
  (forall in_range, global_usage d' in_range = global_usage d in_range) /\
  (forall siteID day, day_authoritative d' siteID day = day_authoritative d siteID day).
Proof. intros ->%base_stats. done. Qed.

Lemma base_hours_wf d d' : base d' = base d -> hours_wf d -> hours_wf d'.
Proof. intros E. rewrite (base_stats _ _ E). apply hours_wf_frame; simpl; [done|lia]. Qed.

Lemma day_key_inj day day' : day_key day = day_key day' -> day = day'.
Proof. apply date_key_inj. Qed.

Lemma day_range_bounds day h : day_range day h = true <-> local_day h = day.
Proof.
  unfold day_range, in_scope. rewrite andb_true_iff, Z.leb_le, Z.ltb_lt. split.
  - apply local_day_unique.
  - intros <-. apply local_day_start.
Qed.

(** ** A commit keeps the statistics exact *)
Section Preservation.
Context (t : UsageTarget) (facts : list UsageFactHourly) (result : UsageWindowMutationResult) (d d1 d2 : Db).
Context (Hwf : hours_wf d) (Hexact : statistics_exact d) (He : hour_effect t facts result d d1).
Abbreviation S := t.(UsageTarget.SiteID).
Abbreviation H := t.(UsageTarget.HourTS).

Lemma effect_statistics : Tables.statistics d1 = Tables.statistics d.
Proof. pose proof (effect_entities _ _ _ _ _ He) as E. by injection E. Qed.

Lemma global_usage_other in_range : in_range H = false -> global_usage d1 in_range = global_usage d in_range.
Proof. intros Hr. unfold global_usage. by rewrite (global_facts_other t facts result d d1 Hwf He in_range Hr). Qed.

Lemma exact_after_rebuild sweep final affected options :
  hour_rebuilt S H (day_key (local_day H)) (day_start (local_day H)) (day_start (local_day H) + 24 * 3600) sweep final
    affected options d1 d2 ->
  (forall k, k ∉ (fact_key <$> affected) ->
     key_facts (day_authoritative d1 S (local_day H)) k ≡ₚ key_facts (day_authoritative d S (local_day H)) k) ->
  statistics_exact d2.
Proof.
  intros [Hbase _ Hfacts (now&Hh) (now'&status&fin&Hd)] Hkept. rewrite effect_statistics in *.
  destruct (base_facts _ _ Hbase) as (Esite&Eglob&Eauth). split.
  - intros siteID h. destruct ((siteID =? S) && (h =? H)) eqn:E.
    + to_prop. destruct E as [-> ->]. apply rebuilt_exact in Hh. destruct Hh as [A B C].
      split; intros; rewrite Esite; [apply A|apply B|apply C].
    + eapply bucket_exact_kept; [exact Hh|exact E| |apply (exact_hours _ Hexact)].
      rewrite Esite. apply (site_facts_other t facts result d d1 Hwf He). to_prop. destruct E; [by left|right; lia].
  - intros siteID day. destruct ((siteID =? S) && (day_key day =? day_key (local_day H))) eqn:E.
    + to_prop. destruct E as [-> ->%day_key_inj]. apply rebuilt_exact in Hd. destruct Hd as [A B C].
      split; intros; rewrite Esite; [apply A|apply B|apply C].
    + eapply bucket_exact_kept; [exact Hd|exact E| |apply (exact_days _ Hexact)].
      rewrite Esite. apply (site_facts_other t facts result d d1 Hwf He). to_prop. destruct E as [|E]; [by left|right].
      rewrite <- not_true_iff_false, day_range_bounds. by intros <-.
  - intros h. rewrite (rebuilt_global _ _ _ _ _ _ _ Hh), Eglob. destruct (h =? H) eqn:E; to_prop; [by subst|].
    rewrite (exact_global_hours _ Hexact). symmetry. apply global_usage_other. unfold in_scope. lia.
  - intros day. rewrite (rebuilt_global _ _ _ _ _ _ _ Hd), Eglob.
    destruct (day_key day =? day_key (local_day H)) eqn:E; to_prop; [by apply day_key_inj in E as ->|].
    rewrite (exact_global_days _ Hexact). symmetry. apply global_usage_other.
    rewrite <- not_true_iff_false, day_range_bounds. by intros <-.
  - intros siteID day k. rewrite Eauth. destruct (of_day S (day_key (local_day H)) (siteID, k, day_key day)) eqn:E.
    + unfold of_day in E. to_prop. destruct E as [-> ->%day_key_inj].
      fold (day_authoritative d1 S (local_day H)) in Hfacts.
      destruct (decide (k ∈ fact_key <$> affected)) as [Hk|Hk].
      * apply (refreshed_affected _ _ _ _ _ _ _ _ Hfacts k Hk).
      * rewrite (refreshed_others _ _ _ _ _ _ _ _ Hfacts k Hk), (exact_facts _ Hexact).
        rewrite <- (Hkept k Hk).
        destruct sweep; [|done]. cbn [andb]. case_bool_decide as Hn; [|done]. by rewrite Hn.
    + rewrite (refreshed_elsewhere _ _ _ _ _ _ _ _ Hfacts _ _ _ E), (exact_facts _ Hexact).
      unfold day_authoritative. rewrite <- (authoritative_other t facts result d d1 Hwf He siteID _ _ k); [done|].
      unfold of_day in E. to_prop. destruct E as [|E]; [by left|right; left].
      rewrite <- not_true_iff_false. change (day_range day H <> true). rewrite day_range_bounds. by intros <-.
Qed.
End Preservation.
