(* ===== verification/AggregationBehaviour.v ===== *)
(** * Commits keep the statistics exact

    [NewUsageAggregationCommit] applied to any mutation of its hour: the
    mutations of [model/usage_fact.go] are such mutations, and the commit
    leaves exact statistics behind, whether it rebuilt the hour or only
    verified it.  Exact statistics agree with one another, whichever table a
    total is read from. *)

From S2P Require Import Prelude Constants GoText Stats DateBucket Store Frame RunContract RunState RunRepository SiteFence TaskScope TaskClaim TaskCommit RunFrames RunInvariant QueueClaim TaskRecovery Materialize QueueSteps QueueSafety CommitBehaviour RunStateBehaviour CreateBehaviour UsageFacts UsageAggregation LocalRebuild RollupLemmas RollupRebuild UsageFactsBehaviour UsageWindowBehaviour UsageRecordBehaviour StatisticsExact.

(** ** Statistics that say the same *)
Record same_statistics (s s' : Statistics) : Prop := {
  same_hourly : s'.(Statistics.hourly) = s.(Statistics.hourly);
  same_sites : forall k, stat_metrics s'.(Statistics.daily).(Rollup.site_stat) k = stat_metrics s.(Statistics.daily).(Rollup.site_stat) k;
  same_models : forall k, stat_metrics s'.(Statistics.daily).(Rollup.model_stat) k = stat_metrics s.(Statistics.daily).(Rollup.model_stat) k;
  same_channels : forall k, stat_metrics s'.(Statistics.daily).(Rollup.channel_stat) k = stat_metrics s.(Statistics.daily).(Rollup.channel_stat) k;
  same_global : forall k, stat_metrics s'.(Statistics.daily).(Rollup.global_stat) k = stat_metrics s.(Statistics.daily).(Rollup.global_stat) k;
  same_facts : forall k, daily_content <$> s'.(Statistics.usage_fact_daily) !! k = daily_content <$> s.(Statistics.usage_fact_daily) !! k
}.

#[export] Instance same_statistics_refl : Reflexive same_statistics.
Proof. by split. Qed.

#[export] Instance same_statistics_trans : Transitive same_statistics.
Proof.
  intros s1 s2 s3 [A1 B1 C1 D1 E1 F1] [A2 B2 C2 D2 E2 F2]. split; [congruence|intros k..].
  - by rewrite B2. - by rewrite C2. - by rewrite D2. - by rewrite E2. - by rewrite F2.
Qed.

Lemma finalize_facts_content siteID dateKey t k :
  daily_content <$> (finalize_facts siteID dateKey t).2 !! k = daily_content <$> t !! k.
Proof.
  unfold finalize_facts. cbn [snd]. rewrite lookup_update_rows.
  destruct (t !! k) as [r|]; simpl; [|done]. by destruct (_ && _).
Qed.

Lemma finalize_site_same siteID dateKey s : same_statistics s (finalize_site siteID dateKey s).2.
Proof.
  unfold finalize_site.
  pose proof (finalize_facts_content siteID dateKey s.(Statistics.usage_fact_daily)) as Hf.
  pose proof (finalize_rows_metrics (fun '(x, b) => (x =? siteID) && (b =? dateKey)) None s.(Statistics.daily).(Rollup.site_stat)) as Hs.
  pose proof (finalize_rows_metrics (fun '(x, _, b) => (x =? siteID) && (b =? dateKey)) None s.(Statistics.daily).(Rollup.model_stat)) as Hm.
  pose proof (finalize_rows_metrics (fun '(x, _, b) => (x =? siteID) && (b =? dateKey)) None s.(Statistics.daily).(Rollup.channel_stat)) as Hc.
  destruct (finalize_facts _ _ _), (finalize_rows _ _ (Rollup.site_stat _)), (finalize_rows _ _ (Rollup.model_stat _)),
    (finalize_rows _ _ (Rollup.channel_stat _)). simpl in *. by split.
Qed.

Lemma finalize_entities_same siteID dateKey gormNow accountIDs customerIDs s :
  same_statistics s (finalize_entities siteID dateKey gormNow accountIDs customerIDs s).2.
Proof.
  unfold finalize_entities. destruct (finalize_rows _ _ (Rollup.account_stat _)), (finalize_rows _ _ (Rollup.customer_stat _)).
  by split.
Qed.

Lemma finalize_global_same dateKey gormNow s : same_statistics s (finalize_global dateKey gormNow s).2.
Proof.
  unfold finalize_global.
  pose proof (finalize_rows_metrics (fun b => b =? dateKey) (Some gormNow) s.(Statistics.daily).(Rollup.global_stat)) as Hg.
  destruct (finalize_rows _ _ _). simpl in *. by split.
Qed.

Lemma stats_when_same b f d n d' : (forall s, same_statistics s (f s).2) -> stats_when b f d = Ok (n, d') ->
  base d' = base d /\ same_statistics (Tables.statistics d) (Tables.statistics d').
Proof.
  intros Hf H. split; [exact (preserves _ _ _ H)|]. unfold stats_when in H. destruct b.
  - apply stats_update_ok in H as (s&H&->). specialize (Hf (Tables.statistics d)). injection H as E. by rewrite E in Hf.
  - by apply st_ret_pair in H as [_ ->].
Qed.

Lemma refreshUsageDailyFinality_ok siteID dateKey dateStart dateEnd now d n d' :
  refreshUsageDailyFinality siteID dateKey dateStart dateEnd now d = Ok (n, d') ->
  base d' = base d /\ same_statistics (Tables.statistics d) (Tables.statistics d').
Proof.
  unfold refreshUsageDailyFinality. intros H.
  apply st_bind_ok in H as (coverage&d0&Hc&H). pose proof (preserves _ _ _ Hc) as E0. cbv beta in E0. subst d0.
  apply st_bind_ok in H as (u&d0&Hr&H). apply st_require_ok in Hr as (_&[= -> ->]).
  apply st_bind_ok in H as ([accounts customers]&d0&He&H). pose proof (preserves _ _ _ He) as E0. cbv beta in E0. subst d0.
  apply st_bind_ok in H as (gormNow&d0&Hg&H). apply st_gets_ok in Hg as [= -> ->].
  apply st_bind_ok in H as (n1&d1&H1&H). apply stats_when_same in H1 as [B1 S1]; [|apply finalize_site_same].
  apply st_bind_ok in H as (u'&d1'&Hr&H). apply st_require_ok in Hr as (_&[= -> ->]).
  apply st_bind_ok in H as (n2&d2&H2&H). apply stats_when_same in H2 as [B2 S2]; [|apply finalize_entities_same].
  apply st_bind_ok in H as (u''&d2'&Hr&H). apply st_require_ok in Hr as (_&[= -> ->]).
  apply st_bind_ok in H as (n3&d3&H3&H). apply stats_when_same in H3 as [B3 S3]; [|apply finalize_global_same].
  apply st_ret_pair in H as [_ ->]. split; [congruence|]. by do 2 (etrans; [|eassumption]).
Qed.

(** The same facts and statistics that say the same: exactness carries over. *)
Lemma exact_same d d' :
  (forall siteID in_range, site_facts d' siteID in_range = site_facts d siteID in_range) ->
  (forall in_range, global_usage d' in_range = global_usage d in_range) ->
  (forall siteID day, day_authoritative d' siteID day = day_authoritative d siteID day) ->
  same_statistics (Tables.statistics d) (Tables.statistics d') -> statistics_exact d -> statistics_exact d'.
Proof.
  intros Es Eg Ea [Hh Hs Hm Hc Hg Hf] [A B C D F]. split.
  - intros siteID h. rewrite Hh. destruct (A siteID h) as [A1 A2 A3]. split; intros; rewrite Es; auto.
  - intros siteID day. destruct (B siteID day) as [B1 B2 B3].
    split; [rewrite Hs|intros m; rewrite Hm|intros c; rewrite Hc]; rewrite Es; auto.
  - intros h. by rewrite Hh, Eg.
  - intros day. by rewrite Hg, Eg.
  - intros siteID day k. by rewrite Hf, Ea.
Qed.

Lemma exact_base d d' : base d' = base d -> same_statistics (Tables.statistics d) (Tables.statistics d') ->
  statistics_exact d -> statistics_exact d'.
Proof. intros Hb. destruct (base_facts _ _ Hb) as (Es&Eg&Ea). by apply exact_same. Qed.

(** The same facts, complete in the same hours of the same ranges, leave every
    query as it was. *)
Lemma same_queries d d' : Tables.usage_fact_hourly d' = Tables.usage_fact_hourly d ->
  (forall f, complete_fact d' f = complete_fact d f) -> (forall f, within_statistics d' f = within_statistics d f) ->
  (forall siteID in_range, site_facts d' siteID in_range = site_facts d siteID in_range) /\
  (forall in_range, global_usage d' in_range = global_usage d in_range) /\
  (forall siteID day, day_authoritative d' siteID day = day_authoritative d siteID day).
Proof.
  intros Hf Hc Hw.
  assert (Hrows : table_rows (R := UsageFactHourly) d' = table_rows d) by (unfold table_rows; simpl; by rewrite Hf).
  split; [|split].
  - intros siteID in_range. unfold site_facts. rewrite Hrows. apply list_filter_iff. intros f. by rewrite Hc.
  - intros in_range. unfold global_usage, global_facts. rewrite Hrows. do 2 f_equal. apply list_filter_iff. intros f. by rewrite Hc, Hw.
  - intros siteID day. unfold day_authoritative, authoritative_facts. rewrite Hrows. apply list_filter_iff. intros f. by rewrite Hc, Hw.
Qed.

Lemma usage_range_found d d' s k : usage_range <$> Tables.site d' = usage_range <$> Tables.site d ->
  Tables.site d !! k = Some s -> exists s', Tables.site d' !! k = Some s' /\ usage_range s' = usage_range s.
Proof.
  intros E Hk. assert (Hl : (usage_range <$> Tables.site d') !! k = Some (usage_range s)) by (by rewrite E, lookup_fmap, Hk).
  rewrite lookup_fmap in Hl. destruct (Tables.site d' !! k) as [s'|]; [|done]. exists s'. split; [done|].
  pose proof (f_equal (default (usage_range s)) Hl) as Hr. exact Hr.
Qed.

Lemma within_statistics_range d d' f : usage_range <$> Tables.site d' = usage_range <$> Tables.site d ->
  within_statistics d' f = within_statistics d f.
Proof.
  intros E. apply eq_true_iff_eq. unfold within_statistics. rewrite !existsb_exists.
  split; intros (s&(k&Hk)%list_elem_of_In%elem_of_rows&Hp);
    [destruct (usage_range_found d' d s k (eq_sym E) Hk) as (s'&Hk'&Hr)|destruct (usage_range_found d d' s k E Hk) as (s'&Hk'&Hr)];
    exists s'; (split; [apply list_elem_of_In, elem_of_rows; by exists k|]);
    unfold usage_range in Hr; injection Hr as E1 E2 E3; unfold usageSiteExpectedAt in *; by rewrite E1, E2, E3.
Qed.

(** ** The commit *)
Lemma lock_buckets_ok keys now d u d' : lockUsageAggregationBuckets keys now d = Ok (u, d') ->
  base d' = base d /\ same_statistics (Tables.statistics d) (Tables.statistics d').
Proof.
  intros H. unfold lockUsageAggregationBuckets in H. apply st_bind_ok in H as (v&d0&Hr&H).
  apply st_require_ok in Hr as (_&[= -> ->]). apply stats_modify_ok in H as ->. split; [done|]. by split.
Qed.

Lemma commit_exact t facts mutation sha scope d result d' : HourMutation t facts mutation ->
  hours_wf d -> statistics_exact d -> apply_aggregation sha t facts mutation scope d = Ok (result, d') ->
  hours_wf d' /\ statistics_exact d' /\
  exists window dl d1 locked, base dl = base d /\ mutation locked dl = Ok (window, d1) /\ base d' = base d1 /\
    result.(AggregationResult.Window) = Some window.
Proof.
  intros Hm Hwf Hexact H. unfold apply_aggregation in H.
  apply st_bind_ok in H as (locked&d0&Hl&H). pose proof (preserves _ _ _ Hl) as E0. cbv beta in E0. subst d0.
  apply st_bind_ok in H as ([[key start] end_]&d0&Hb&H). apply st_lift_ok in Hb as (b&Hb&[= <- ->]).
  pose proof Hb as Hb'. apply UsageDateBucket_ok in Hb' as (_&_&->&->&->).
  apply st_bind_ok in H as (keys&d0&Hk&H). pose proof (preserves _ _ _ Hk) as E0. cbv beta in E0. subst d0.
  apply st_bind_ok in H as (u&dl&Hlock&H). apply lock_buckets_ok in Hlock as [Bl Sl].
  apply st_bind_ok in H as (previous&d0&Hp&H). apply db_select_ok in Hp as [-> ->].
  apply st_bind_ok in H as (prior&d0&Hc&H). pose proof (preserves _ _ _ Hc) as E0. cbv beta in E0. subst d0.
  apply st_bind_ok in H as (u'&d0&Hr&H). apply st_require_ok in Hr as (_&[= -> ->]).
  apply st_bind_ok in H as (window&d1&Hmut&H).
  pose proof (base_hours_wf _ _ Bl Hwf) as Hwfl. pose proof (exact_base _ _ Bl Sl Hexact) as Hexactl.
  pose proof (Hm locked dl window d1 Hwfl Hmut) as He.
  destruct (UsageResult.VerifiedOnly window) eqn:Hv.
  - apply st_bind_ok in H as (rows&d2&Hf&H). apply st_ret_pair in H as [-> ->].
    apply refreshUsageDailyFinality_ok in Hf as [B2 S2].
    split; [by apply (base_hours_wf d1), (effect_wf _ _ _ _ _ He)|]. split.
    + apply (exact_base d1); [done..|]. destruct (effect_verified _ _ _ _ _ He Hv) as [Ef Ec].
      destruct (same_queries dl d1 Ef Ec (within_statistics_same t facts window dl d1 He)) as (E1&E2&E3).
      apply (exact_same dl); [done..| |done]. by rewrite (effect_statistics _ _ _ _ _ He).
    + by exists window, dl, d1, locked.
  - apply st_bind_ok in H as (rebuilt&d2&Hre&H). apply st_ret_pair in H as [-> ->].
    apply rebuild_ok in Hre as (sweep&final&Hre). pose proof (rebuilt_base _ _ _ _ _ _ _ _ _ _ _ Hre) as B2.
    split; [by apply (base_hours_wf d1), (effect_wf _ _ _ _ _ He)|]. split.
    + apply (exact_after_rebuild t facts window dl d1 d2 Hwfl Hexactl He sweep final _ _ Hre).
      intros j Hj. apply (authoritative_other t facts window dl d1 Hwfl He). by right; right.
    + by exists window, dl, d1, locked.
Qed.

(** ** The mutations of [model/usage_fact.go] are mutations of one hour *)
#[export] Hint Extern 2 (Preserves entities (db_update _ _)) => (apply preserves_update; reflexivity) : typeclass_instances.
#[export] Hint Extern 2 (Preserves entities (db_create _)) => (apply preserves_create; reflexivity) : typeclass_instances.
#[export] Hint Extern 2 (Preserves entities (db_delete _)) => (apply preserves_delete; reflexivity) : typeclass_instances.
#[export] Hint Extern 3 (Preserves entities (lockUsageMutationScope _ _)) => (apply reads_preserves, _) : typeclass_instances.
#[export] Hint Extern 3 (Preserves entities (lockCollectionWindow _ _)) => (apply reads_preserves, _) : typeclass_instances.
#[export] Hint Extern 3 (Preserves entities (persistedUsageFactsMatch _ _ _ _ _)) => (apply reads_preserves, _) : typeclass_instances.

#[export] Instance ReconcileUsageCursor_entities siteID start now : Preserves entities (ReconcileUsageCursor siteID start now).
Proof. unfold ReconcileUsageCursor. solve_frame. Qed.

#[export] Instance replace_facts_entities siteID hourTS facts : Preserves entities (replace_facts siteID hourTS facts).
Proof. unfold replace_facts. solve_frame. Qed.

#[export] Instance upsert_window_entities siteID hourTS set : Preserves entities (upsert_window siteID hourTS set).
Proof. unfold upsert_window. solve_frame. Qed.

#[export] Instance apply_complete_entities sha t fetched facts hash planned scope :
  Preserves entities (apply_complete sha t fetched facts hash planned scope).
Proof. unfold apply_complete. solve_frame. Qed.

Lemma complete_of_hour d siteID hourTS f : hours_wf d -> fact_of siteID hourTS f = true ->
  complete_hour d siteID hourTS -> complete_fact d f = true.
Proof.
  intros _ Hf (k&w&Hk&Es&Eh&Hst). unfold complete_fact. apply existsb_exists. exists w.
  split; [apply list_elem_of_In, elem_of_rows; by exists k|]. unfold fact_of, of_hour in *. to_prop.
  destruct Hf as [-> ->]. done.
Qed.

Lemma hashed_key f g : hashed_columns f = hashed_columns g -> fact_key f = fact_key g.
Proof. unfold hashed_columns, fact_key. by intros [= -> -> -> _ _ _ _ -> -> _ ->]. Qed.

#[export] Instance complete_hour_mutation sha request mutation planned facts hash :
  NewCompleteUsageWindowMutation sha request = Ok (mutation, planned) ->
  canonicalUsageFacts sha request.(CompleteUsage.target).(UsageTarget.SiteID)
    request.(CompleteUsage.target).(UsageTarget.HourTS) request.(CompleteUsage.target).(UsageTarget.Now)
    request.(CompleteUsage.Facts) = Ok (facts, hash) ->
  HourMutation request.(CompleteUsage.target) facts mutation.
Proof.
  intros Hnew Hfacts scope d result d' Hwf H.
  destruct (complete_recorded _ _ _ _ _ _ _ _ Hwf Hnew H) as (facts'&Hc&_&[Hrec Hwf' Hq Hoth Hof Hres]).
  rewrite Hfacts in Hc. injection Hc as <- _.
  destruct (canonical_plan _ _ _ _ Hnew) as (?&?&_&_&->).
  split; [done|exact (preserves _ _ _ H)|done|done| |].
  - intros k f Hk Hf. destruct (UsageResult.VerifiedOnly result); [right; by destruct Hres as [<- _]|left].
    destruct Hres as [_ Hperm].
    assert (Hin : hashed_columns f ∈ hashed_columns <$> facts).
    { rewrite <- Hperm. apply list_elem_of_fmap_2, elem_of_select. split; [done|]. by exists k. }
    apply list_elem_of_fmap in Hin as (g&Hg%hashed_key&Hin). rewrite Hg. by apply list_elem_of_fmap_2.
  - intros Hv. rewrite Hv in Hres. destruct Hres as (Hsame&_&Hcomplete). split; [done|]. intros f.
    destruct (fact_of (UsageTarget.SiteID (CompleteUsage.target request)) (UsageTarget.HourTS (CompleteUsage.target request)) f) eqn:Hf.
    + rewrite (complete_of_hour d _ _ f Hwf Hf Hcomplete). apply (complete_of_hour d' _ _ f Hwf' Hf).
      destruct (recorded_window _ _ _ _ _ _ _ _ Hrec) as (k&w&?&?&?&?&_). by exists k, w.
    + by eapply complete_fact_outside.
Qed.

Lemma missing_window_keeps fetched runID code params now w :
  (missing_window fetched runID code params now w).(Window.ID) = w.(Window.ID) /\
  (missing_window fetched runID code params now w).(Window.SiteID) = w.(Window.SiteID) /\
  (missing_window fetched runID code params now w).(Window.HourTS) = w.(Window.HourTS).
Proof. done. Qed.

Lemma failed_wf request mutation scope d result d' :
  hours_wf d -> NewFailedUsageWindowMutation request = Ok mutation -> mutation scope d = Ok (result, d') ->
  hours_wf d' /\ entities d' = entities d.
Proof.
  intros Hwf. unfold NewFailedUsageWindowMutation. destruct (_ || _) eqn:Hg; [done|]. intros [= <-] H.
  assert (Hal : hour_aligned request.(FailedUsage.target).(UsageTarget.HourTS) = true).
  { to_prop. destruct Hg as [Hg _]. unfold target_valid, validUsageMutationRequest in Hg. to_prop. tauto. }
  split; [|refine ((fun P : Preserves entities _ => P d result d' H) _); solve_frame].
  apply st_bind_ok in H as (locked&d1&Hl&H). apply lock_scope_ok in Hl as (->&_).
  apply st_bind_ok in H as (window&d1&Hw&H). apply lockCollectionWindow_ok in Hw as (->&Hsel&Hw).
  destruct window as [w|].
  - destruct (_ && is_one_of _ _); [by apply st_ret_pair in H as [_ ->]|].
    apply st_bind_ok in H as (n&d1&Hu&H). apply db_update_ok in Hu as [_ ->].
    apply st_bind_ok in H as (c&d2&Hc&H). apply st_ret_pair in H as [_ ->].
    apply reconcile_frame in Hc as (Hst&_&_&Hauto). eapply hours_wf_frame; [exact Hst|exact Hauto|].
    apply hours_wf_update; [intros x; apply missing_window_keeps|done].
  - apply st_bind_ok in H as (x&d1&Hc&H). unfold db_create in Hc. injection Hc as _ <-.
    apply st_bind_ok in H as (c&d2&Hc&H). apply st_ret_pair in H as [_ ->].
    apply reconcile_frame in Hc as (Hst&_&_&Hauto). eapply hours_wf_frame; [exact Hst|exact Hauto|].
    eapply (created_ok request.(FailedUsage.target).(UsageTarget.SiteID) request.(FailedUsage.target).(UsageTarget.HourTS)
              _ d Hwf Hal); [reflexivity..|].
    symmetry in Hsel. apply head_None in Hsel. rewrite select_nil in Hsel. exact Hsel.
Qed.

#[export] Instance failed_hour_mutation request mutation facts : NewFailedUsageWindowMutation request = Ok mutation ->
  HourMutation request.(FailedUsage.target) facts mutation.
Proof.
  intros Hnew scope d result d' Hwf H.
  destruct (failed_wf _ _ _ _ _ _ Hwf Hnew H) as [Hwf' He].
  destruct (failed_effect _ _ _ _ _ _ Hwf Hnew H) as (Hf&Hoth&_&_&_).
  split; [done|done|done|by rewrite Hf|by rewrite Hf; auto|].
  intros Hv. exfalso. revert Hv.
  unfold NewFailedUsageWindowMutation in Hnew. destruct (_ || _); [done|]. injection Hnew as <-.
  apply st_bind_ok in H as (locked&d1&_&H). apply st_bind_ok in H as (window&d2&_&H).
  destruct window as [w|].
  - destruct (_ && is_one_of _ _); [by apply st_ret_pair in H as [-> _]|].
    apply st_bind_ok in H as (n&d3&_&H). apply st_bind_ok in H as (c&d4&_&H). by apply st_ret_pair in H as [-> _].
  - apply st_bind_ok in H as (n&d3&_&H). apply st_bind_ok in H as (c&d4&_&H). by apply st_ret_pair in H as [-> _].
Qed.

(** ** Exact statistics agree with one another *)

(** The three counts of a row and of a fact. *)
Inductive counter := CountRequests | CountQuota | CountTokens.
Definition count_of (c : counter) (m : usageMetricAggregate) : Z :=
  match c with CountRequests => m.(Metrics.RequestCount) | CountQuota => m.(Metrics.Quota) | CountTokens => m.(Metrics.TokenUsed) end.
Definition count_in (c : counter) (f : UsageFactHourly) : Z :=
  match c with CountRequests => f.(Fact.RequestCount) | CountQuota => f.(Fact.Quota) | CountTokens => f.(Fact.TokenUsed) end.
Definition count_day (c : counter) (r : UsageFactDaily) : Z :=
  match c with
  | CountRequests => r.(DailyFact.RequestCount) | CountQuota => r.(DailyFact.Quota) | CountTokens => r.(DailyFact.TokenUsed)
  end.

(** The sum of a count over the rows of the site in a bucket of a table keyed by
    site, name and bucket. *)
Definition bucket_total {N} `{!EqDecision N, !Countable N} (c : counter) (siteID bucket : Z)
    (t : gmap (Z * N * Z) StatRow) : Z :=
  sum_of (fun e => count_of c e.2.(Stat.metrics))
    (base.filter (fun e => (e.1.1.1 =? siteID) && (e.1.2 =? bucket) = true) (map_to_list t)).
(** The sum over the facts of a day. *)
Definition day_total (c : counter) (siteID date : Z) (t : gmap daily_key UsageFactDaily) : Z :=
  sum_of (fun e => count_day c e.2) (base.filter (fun e => of_day siteID date e.1 = true) (map_to_list t)).

Lemma count_usage c l : count_of c (usage_of l) = sum_of (count_in c) l.
Proof.
  unfold usage_of, metrics_of. rewrite <- list_fmap_compose.
  replace (snd ∘ (fun f => (fact_user f, f)) <$> l) with l by (symmetry; apply list_fmap_id).
  by destruct c.
Qed.

(** A table whose rows count the facts of their name counts all of them. *)
Lemma bucket_total_exact {N} `{!EqDecision N, !Countable N} (name : UsageFactHourly -> N) (c : counter) (siteID bucket : Z)
    (t : gmap (Z * N * Z) StatRow) (facts : list UsageFactHourly) :
  (forall n, stat_metrics t (siteID, n, bucket) = usage_of (base.filter (fun f => name f = n) facts)) ->
  bucket_total c siteID bucket t = sum_of (count_in c) facts.
Proof.
  intros Ht. unfold bucket_total.
  set (rows_ := base.filter _ (map_to_list t)). set (names := (fun e : Z * N * Z * StatRow => e.1.1.2) <$> rows_).
  assert (Hrow : forall s n b r, (s, n, b, r) ∈ rows_ <-> s = siteID /\ b = bucket /\ t !! (siteID, n, bucket) = Some r).
  { intros s n b r. unfold rows_. rewrite list_elem_of_filter, elem_of_map_to_list, andb_true_iff. simpl.
    rewrite !Z.eqb_eq. naive_solver. }
  assert (Hnd : NoDup names).
  { unfold names. apply NoDup_fmap_2_strong; [|apply NoDup_filter, NoDup_map_to_list].
    intros [[[s n] b] r] [[[s' n'] b'] r'] (->&->&H1)%Hrow (->&->&H2)%Hrow E. simpl in E. subst. congruence. }
  assert (Hsum : sum_of (fun e : Z * N * Z * StatRow => count_of c e.2.(Stat.metrics)) rows_
                 = sum_of (fun n => sum_of (count_in c) (base.filter (fun f => name f = n) facts)) names).
  { unfold names. rewrite sum_of_fmap. apply sum_of_ext. intros [[[s n] b] r] (->&->&H)%Hrow. cbn [fst snd].
    rewrite <- count_usage, <- Ht. unfold stat_metrics. by rewrite H. }
  rewrite Hsum. clear Hsum.
  set (others := remove_dups (base.filter (fun n => n ∉ names) (name <$> facts))).
  rewrite <- (sum_of_groups name (count_in c) (names ++ others) facts).
  - rewrite sum_of_app, (sum_of_zero _ others); [lia|]. intros n Hn. unfold others in Hn.
    rewrite elem_of_remove_dups, list_elem_of_filter in Hn. destruct Hn as [Hn _].
    rewrite <- count_usage, <- Ht. unfold stat_metrics. destruct (t !! (siteID, n, bucket)) as [r|] eqn:E; [|by destruct c].
    exfalso. apply Hn. unfold names.
    apply (list_elem_of_fmap_2 (fun e : Z * N * Z * StatRow => e.1.1.2) rows_ (siteID, n, bucket, r)). by apply Hrow.
  - apply NoDup_app. split; [done|]. split; [|apply NoDup_remove_dups].
    intros n Hn. unfold others. rewrite elem_of_remove_dups, list_elem_of_filter. tauto.
  - intros f Hf. rewrite elem_of_app. destruct (decide (name f ∈ names)) as [|Hn]; [by left|right].
    unfold others. rewrite elem_of_remove_dups, list_elem_of_filter. split; [done|]. by apply list_elem_of_fmap_2.
Qed.

Lemma count_metrics {U} `{!EqDecision U, !Countable U} c (user : UsageFactHourly -> option U) l :
  count_of c (metrics_of ((fun f => (user f, f)) <$> l)) = sum_of (count_in c) l.
Proof.
  unfold metrics_of. rewrite <- list_fmap_compose.
  replace (snd ∘ (fun f => (user f, f)) <$> l) with l by (symmetry; apply list_fmap_id).
  by destruct c.
Qed.

Lemma day_total_exact (c : counter) (siteID date : Z) (t : gmap daily_key UsageFactDaily) (facts : list UsageFactHourly) :
  (forall k, daily_content <$> t !! (siteID, k, date) = content_of (key_facts facts k)) ->
  day_total c siteID date t = sum_of (count_in c) facts.
Proof.
  intros Ht. unfold day_total.
  set (rows_ := base.filter _ (map_to_list t)). set (keys := (fun e : daily_key * UsageFactDaily => key_of_day e.1) <$> rows_).
  assert (Hrow : forall s k b r, (s, k, b, r) ∈ rows_ <-> s = siteID /\ b = date /\ t !! (siteID, k, date) = Some r).
  { intros s k b r. unfold rows_. rewrite list_elem_of_filter, elem_of_map_to_list. cbn [fst of_day].
    rewrite andb_true_iff, !Z.eqb_eq. naive_solver. }
  assert (Hnd : NoDup keys).
  { unfold keys. apply NoDup_fmap_2_strong; [|apply NoDup_filter, NoDup_map_to_list].
    intros [[[s k] b] r] [[[s' k'] b'] r'] (->&->&H1)%Hrow (->&->&H2)%Hrow E. cbn [key_of_day fst snd] in E. congruence. }
  assert (Hsum : sum_of (fun e : daily_key * UsageFactDaily => count_day c e.2) rows_
                 = sum_of (fun k => sum_of (count_in c) (key_facts facts k)) keys).
  { unfold keys. rewrite sum_of_fmap. apply sum_of_ext. intros [[[s k] b] r] (->&->&H)%Hrow. cbn [fst snd key_of_day].
    specialize (Ht k). rewrite H in Ht. unfold content_of in Ht. destruct (key_facts facts k) as [|f l]; [done|].
    simpl in Ht. injection Ht as _ _ E1 E2 E3. by destruct c. }
  rewrite Hsum. apply (sum_of_groups fact_key (count_in c) keys facts Hnd).
  intros f Hf. specialize (Ht (fact_key f)). destruct (t !! (siteID, fact_key f, date)) as [r|] eqn:E.
  - apply (list_elem_of_fmap_2 (fun e : daily_key * UsageFactDaily => key_of_day e.1) rows_ (siteID, fact_key f, date, r)).
    by apply Hrow.
  - exfalso. assert (Hn : key_facts facts (fact_key f) = []).
    { destruct (key_facts facts (fact_key f)); [done|discriminate Ht]. }
    apply key_facts_nil in Hn. apply Hn. by apply list_elem_of_fmap_2.
Qed.

Lemma sorted_NoDup (l : list Z) : StronglySorted Z.lt l -> NoDup l.
Proof.
  induction 1 as [|x l _ IH Hall]; constructor; [|done]. intros Hx.
  rewrite List.Forall_forall in Hall. specialize (Hall x (proj1 (list_elem_of_In _ _) Hx)). lia.
Qed.

(** The hours of a day. *)
Definition day_hours (day : Z) : list Z := hours_between (day_start day) (day_start day + 24 * 3600).

Lemma fact_hour_aligned d f : hours_wf d -> complete_fact d f = true -> hour_aligned f.(Fact.HourTS) = true.
Proof.
  intros Hwf Hc. unfold complete_fact in Hc.
  apply existsb_exists in Hc as (w&(k&Hk)%list_elem_of_In%elem_of_rows&[Hw _]%andb_true_iff).
  unfold of_hour in Hw. to_prop. destruct Hw as [_ <-]. by apply (hours_aligned d Hwf k w).
Qed.

Lemma hour_of_day day h : hour_aligned h = true -> day_range day h = true -> h ∈ day_hours day.
Proof.
  unfold day_range, in_scope, hour_aligned. intros Ha Hr. to_prop. apply Z.rem_divide in Ha as [q ->]; [|lia].
  apply elem_of_hours_between. exists (q - (day * 24 - 8)). unfold day_start, usageAggregationOffset in *. lia.
Qed.

Lemma day_of_hours d siteID day h : h ∈ day_hours day ->
  base.filter (fun f => f.(Fact.HourTS) = h) (site_facts d siteID (day_range day)) = site_facts d siteID (Z.eqb h).
Proof.
  intros (k&Hk&->&Hlt)%elem_of_hours_between. unfold site_facts. rewrite list_filter_filter. apply list_filter_iff.
  intros f. rewrite !andb_true_iff, !Z.eqb_eq. split.
  - by intros [-> [[-> _] ->]].
  - intros [[-> <-] ->]. split; [done|]. split; [|done]. split; [done|].
    unfold day_range, in_scope. rewrite andb_true_iff, Z.leb_le, Z.ltb_lt. lia.
Qed.

(** Every complete fact counts for its site. *)
Definition all_within (d : Db) : Prop :=
  forall f, f ∈ table_rows d -> complete_fact d f = true -> within_statistics d f = true.

Lemma sites_total d c in_range : table_wf (Tables.site d) -> all_within d ->
  sum_of (fun s => sum_of (count_in c) (site_facts d s.(MSite.ID) in_range)) (table_rows d)
  = sum_of (count_in c) (global_facts d in_range).
Proof.
  intros Hwf Hall.
  rewrite <- (sum_of_groups Fact.SiteID (count_in c) (MSite.ID <$> table_rows d) (global_facts d in_range)).
  - rewrite sum_of_fmap. apply sum_of_ext. intros s _. f_equal. unfold site_facts, global_facts.
    rewrite list_filter_filter. apply filter_ext_in. intros f Hf. rewrite !andb_true_iff, Z.eqb_eq.
    split; [intros [[-> Hr] Hc]|tauto]. split; [done|]. split; [split; [done|by apply Hall]|done].
  - exact (rows_NoDup (R := Site) (Tables.site d) Hwf).
  - intros f. unfold global_facts. rewrite list_elem_of_filter, !andb_true_iff. intros [[[_ Hw] _] _].
    unfold within_statistics in Hw. apply existsb_exists in Hw as (s&Hs%list_elem_of_In&[He _]%andb_true_iff).
    apply Z.eqb_eq in He. rewrite <- He. by apply list_elem_of_fmap_2.
Qed.

Lemma day_facts_total d siteID day : all_within d ->
  day_authoritative d siteID day = site_facts d siteID (day_range day).
Proof.
  intros Hall. unfold day_authoritative, authoritative_facts, site_facts. apply filter_ext_in. intros f Hf.
  fold (day_range day f.(Fact.HourTS)). rewrite !andb_true_iff. split; [tauto|].
  intros [[Hs Hr] Hc]. split; [done|]. by apply Hall.
Qed.

(** Every total of the statistics of a site, and over all sites. *)
Record totals_agree (d : Db) (c : counter) : Prop := {
  hour_totals : forall siteID h,
    let r := (Tables.statistics d).(Statistics.hourly) in
    let total := count_of c (stat_metrics r.(Rollup.site_stat) (siteID, h)) in
    bucket_total c siteID h r.(Rollup.model_stat) = total /\ bucket_total c siteID h r.(Rollup.channel_stat) = total;
  day_totals : forall siteID day,
    let r := (Tables.statistics d).(Statistics.daily) in
    let total := count_of c (stat_metrics r.(Rollup.site_stat) (siteID, day_key day)) in
    bucket_total c siteID (day_key day) r.(Rollup.model_stat) = total /\
    bucket_total c siteID (day_key day) r.(Rollup.channel_stat) = total /\
    sum_of (fun h => count_of c (stat_metrics (Tables.statistics d).(Statistics.hourly).(Rollup.site_stat) (siteID, h)))
      (day_hours day) = total /\
    (all_within d -> day_total c siteID (day_key day) (Tables.statistics d).(Statistics.usage_fact_daily) = total);
  global_totals : all_within d ->
    (forall h, sum_of (fun s => count_of c (stat_metrics (Tables.statistics d).(Statistics.hourly).(Rollup.site_stat) (s.(MSite.ID), h)))
                 (table_rows d)
               = count_of c (stat_metrics (Tables.statistics d).(Statistics.hourly).(Rollup.global_stat) h)) /\
    (forall day, sum_of (fun s => count_of c (stat_metrics (Tables.statistics d).(Statistics.daily).(Rollup.site_stat) (s.(MSite.ID), day_key day)))
                 (table_rows d)
               = count_of c (stat_metrics (Tables.statistics d).(Statistics.daily).(Rollup.global_stat) (day_key day)))
}.

Lemma exact_agree d c : hours_wf d -> table_wf (Tables.site d) -> statistics_exact d -> totals_agree d c.
Proof.
  intros Hwf Hsites Hex. split.
  - intros siteID h r total. destruct (exact_hours _ Hex siteID h) as [Es Em Ec]. unfold total, r. rewrite Es, count_usage.
    split; [by apply (bucket_total_exact Fact.ModelName)|by apply (bucket_total_exact Fact.ChannelID)].
  - intros siteID day r total. destruct (exact_days _ Hex siteID day) as [Es Em Ec]. unfold total, r. rewrite Es, count_usage.
    split; [by apply (bucket_total_exact Fact.ModelName)|]. split; [by apply (bucket_total_exact Fact.ChannelID)|]. split.
    + rewrite <- (sum_of_groups Fact.HourTS (count_in c) (day_hours day) (site_facts d siteID (day_range day))).
      * apply sum_of_ext. intros h Hh. destruct (exact_hours _ Hex siteID h) as [-> _ _]. by rewrite count_usage, day_of_hours.
      * apply sorted_NoDup, hours_from_sorted.
      * intros f (_&_&Hr&Hc)%elem_of_site_facts. apply hour_of_day; [|done]. by eapply fact_hour_aligned.
    + intros Hall. rewrite <- day_facts_total by done. apply day_total_exact, (exact_facts _ Hex).
  - intros Hall. split.
    + intros h. rewrite (exact_global_hours _ Hex). unfold global_usage. rewrite count_metrics, <- sites_total by done.
      apply sum_of_ext. intros s _. destruct (exact_hours _ Hex s.(MSite.ID) h) as [-> _ _]. rewrite count_usage. f_equal.
      unfold site_facts. apply list_filter_iff. intros f. unfold in_scope. by rewrite (Z.eqb_sym h).
    + intros day. rewrite (exact_global_days _ Hex). unfold global_usage. rewrite count_metrics, <- sites_total by done.
      apply sum_of_ext. intros s _. destruct (exact_days _ Hex s.(MSite.ID) day) as [-> _ _]. by rewrite count_usage.
Qed.
