(* ===== verification/LocalRebuildBehaviour.v ===== *)
(** * Rebuilding the statistics of one account or customer

    A window of a local rebuild writes statistics only and leaves them exact;
    the rows of its target then count every fact of its accounts, whether
    their statistics were paused or not. *)

From S2P Require Import Prelude Constants GoText Stats DateBucket Store Frame RunContract RunState RunRepository SiteFence TaskScope TaskClaim TaskCommit RunFrames RunInvariant QueueClaim TaskRecovery Materialize QueueSteps QueueSafety CommitBehaviour RunStateBehaviour CreateBehaviour UsageFacts UsageAggregation LocalRebuild RollupLemmas RollupRebuild UsageFactsBehaviour UsageWindowBehaviour UsageRecordBehaviour StatisticsExact AggregationBehaviour.

(** ** Groups of the rows of a join *)
Lemma group_of_bind {K A R} `{!EqDecision K, !Countable K} (k : K) (rows : A -> list (K * R)) l :
  group_of k (l ≫= rows) = l ≫= fun a => group_of k (rows a).
Proof. induction l as [|a l IH]; [done|]. by rewrite !bind_cons, group_of_app, IH. Qed.

Lemma group_of_const {K A R} `{!EqDecision K, !Countable K} (k j : K) (value : A -> R) l :
  group_of k ((fun a => (j, value a)) <$> l) = if bool_decide (j = k) then value <$> l else [].
Proof.
  rewrite (group_of_fmap (fun _ => j) value). case_bool_decide as E.
  - by rewrite filter_all_in.
  - induction l as [|a l IH]; [done|]. by rewrite filter_cons, decide_False.
Qed.

(** A join that finds rows for one element of the list only. *)
Lemma bind_only {A B} (l : list A) (g : A -> list B) x :
  NoDup l -> x ∈ l -> (forall y, y ∈ l -> y <> x -> g y = []) -> l ≫= g = g x.
Proof.
  induction l as [|a l IH]; intros Hnd Hx Hg; [set_solver|]. apply NoDup_cons in Hnd as [Ha Hnd]. rewrite bind_cons.
  apply elem_of_cons in Hx as [->|Hx].
  - assert (l ≫= g = []) as ->; [|by rewrite app_nil_r].
    assert (H : forall y, y ∈ l -> g y = []) by (intros y Hy; apply Hg; [set_solver|by intros ->]).
    clear IH Hnd Hg Ha. induction l as [|b l IH]; [done|]. rewrite bind_cons, (H b), IH; set_solver.
  - rewrite (Hg a), IH; [done|done|done|..]; [intros y Hy; apply Hg; set_solver|set_solver|]. by intros ->.
Qed.

Lemma bind_filter {A B} (P : A -> Prop) `{!forall a, Decision (P a)} (g : A -> list B) l :
  base.filter P l ≫= g = l ≫= fun a => if decide (P a) then g a else [].
Proof.
  induction l as [|a l IH]; [done|]. rewrite filter_cons, bind_cons, <- IH. by destruct (decide (P a)).
Qed.

Lemma bind_ext {A B} (g1 g2 : A -> list B) l : (forall a, a ∈ l -> g1 a = g2 a) -> l ≫= g1 = l ≫= g2.
Proof.
  induction l as [|a l IH]; intros H; [done|]. rewrite !bind_cons, (H a), IH; set_solver.
Qed.

(** ** The reference: what the row of an account or customer counts *)
Section Targets.
Context (d : Db) (siteID : Z) (in_range : Z -> bool).

(** The facts of an account since it exists; [counted] decides the hours. *)
Definition facts_of_account (counted : Z -> bool) (a : Account) : list UsageFactHourly :=
  base.filter (fun f => (a.(MAccount.RemoteUserID) =? f.(Fact.RemoteUserID))
                        && (a.(MAccount.RemoteCreatedAt) <? f.(Fact.HourTS) + 3600) && counted f.(Fact.HourTS) = true)
    (site_facts d siteID in_range).
Definition account_usage (counted : Z -> bool) (a : Account) : usageMetricAggregate :=
  metrics_of ((fun f => (None : option Z, f)) <$> facts_of_account counted a).
(** Over the accounts of the customer, each of them an active user. *)
Definition customer_usage (counted : Account -> Z -> bool) (c : Z) : usageMetricAggregate :=
  metrics_of (base.filter (fun a => a.(MAccount.CustomerID) = c) (site_accounts d siteID) ≫= fun a =>
    (fun f => (Some a.(MAccount.ID), f)) <$> facts_of_account (counted a) a).

Lemma account_facts_of included a :
  account_facts d siteID in_range included a
  = facts_of_account (fun h => not_paused a.(MAccount.StatisticsPausedAt) h || included a.(MAccount.ID)) a.
Proof.
  unfold account_facts, facts_of_account. apply list_filter_iff. intros f. unfold account_counts.
  by rewrite andb_assoc.
Qed.

Context (Haccounts : table_wf (Tables.account d)) (Hcustomers : table_wf (Tables.customer d)).

Lemma site_accounts_NoDup : NoDup (site_accounts d siteID).
Proof. eapply NoDup_fmap_1. exact (select_NoDup (R := Account) _ by_id d Haccounts). Qed.

Lemma elem_of_site_accounts a : a ∈ site_accounts d siteID <->
  a.(MAccount.SiteID) = siteID /\ Tables.account d !! a.(MAccount.ID) = Some a.
Proof.
  unfold site_accounts. rewrite elem_of_select, Z.eqb_eq. split; intros [H Hk]; (split; [done|]).
  - destruct Hk as [k Hk]. pose proof (Haccounts _ _ Hk) as E. simpl in E. by rewrite E.
  - by eexists.
Qed.

Lemma account_items_metrics status final now bucket paused a : a ∈ site_accounts d siteID ->
  stat_metrics (stat_rows status final now (account_items d siteID bucket in_range paused)) (a.(MAccount.ID), bucket)
  = account_usage (fun h => not_paused a.(MAccount.StatisticsPausedAt) h || existsb (Z.eqb a.(MAccount.ID)) paused) a.
Proof.
  intros Ha. rewrite stat_rows_metrics. unfold account_items, account_usage. f_equal.
  rewrite group_of_bind, (bind_only _ _ a site_accounts_NoDup Ha).
  - rewrite group_of_const, bool_decide_eq_true_2 by done. by rewrite account_facts_of.
  - intros b Hb Hne. rewrite group_of_const, bool_decide_eq_false_2; [done|]. intros [= E]. apply Hne.
    apply elem_of_site_accounts in Ha as [_ Ha], Hb as [_ Hb]. rewrite E in Hb. congruence.
Qed.

Lemma customer_items_metrics status final now bucket pausedAccounts pausedCustomers c :
  Tables.customer d !! c.(MCustomer.ID) = Some c ->
  stat_metrics (stat_rows status final now (customer_items d siteID bucket in_range pausedAccounts pausedCustomers))
    (c.(MCustomer.ID), siteID, bucket)
  = customer_usage (fun a h =>
      (not_paused a.(MAccount.StatisticsPausedAt) h || existsb (Z.eqb a.(MAccount.ID)) pausedAccounts)
      && (not_paused c.(MCustomer.StatisticsPausedAt) h || existsb (Z.eqb c.(MCustomer.ID)) pausedCustomers))
      c.(MCustomer.ID).
Proof.
  intros Hc. rewrite stat_rows_metrics. unfold customer_items, customer_usage. f_equal.
  rewrite group_of_bind, bind_filter. apply bind_ext. intros a Ha. rewrite group_of_bind, bind_filter.
  apply elem_of_site_accounts in Ha as [Ha _].
  assert (Hnd : NoDup (table_rows (R := Customer) d)) by (eapply NoDup_fmap_1; exact (rows_NoDup (R := Customer) _ Hcustomers)).
  assert (Hin : c ∈ table_rows d) by (apply elem_of_rows; by exists c.(MCustomer.ID)).
  rewrite (bind_only _ _ c Hnd Hin).
  - rewrite group_of_const. destruct (decide (_ =? _ = true)) as [E|E]; to_prop; [|by rewrite decide_False by congruence].
    rewrite decide_True, bool_decide_eq_true_2 by congruence. f_equal.
    rewrite account_facts_of. unfold facts_of_account. rewrite list_filter_filter. apply list_filter_iff. intros f.
    rewrite !andb_true_iff. tauto.
  - intros x (k&Hx)%elem_of_rows Hne. rewrite group_of_const.
    pose proof (Hcustomers _ _ Hx) as E. simpl in E. destruct (decide _); [|done].
    rewrite bool_decide_eq_false_2; [done|]. intros [= Ex _]. apply Hne.
    rewrite Ex in E. subst k. pose proof (eq_trans (eq_sym Hx) Hc) as Eq. by injection Eq.
Qed.
End Targets.

(** ** What the rebuild of an hour leaves in the rows of the targets *)
Definition overrides (ids : gset Z) (id : Z) : bool := existsb (Z.eqb id) (usageAggregationOverrideIDs ids).

Lemma overrides_spec ids id : 0 < id -> overrides ids id = bool_decide (id ∈ ids).
Proof.
  intros Hpos. unfold overrides, usageAggregationOverrideIDs. apply eq_true_iff_eq.
  rewrite existsb_exists, bool_decide_eq_true. rewrite <- (elem_of_elements ids).
  destruct (elements ids) as [|x l] eqn:E.
  - split; [|set_solver]. intros (y&[<-|[]]&Hy). lia.
  - split.
    + intros (y&Hy%list_elem_of_In%elem_of_sort_by&Heq). by assert (id = y) as -> by lia.
    + intros Hin. exists id. split; [|lia]. by apply list_elem_of_In, elem_of_sort_by.
Qed.

(** The rows of one bucket. *)
Record target_rows (d : Db) (siteID bucket : Z) (in_range : Z -> bool) (options : usageAggregationRebuildOptions)
    (r : Rollup) : Prop := {
  account_rows : forall a, a ∈ site_accounts d siteID ->
    stat_metrics r.(Rollup.account_stat) (a.(MAccount.ID), bucket)
    = account_usage d siteID in_range
        (fun h => not_paused a.(MAccount.StatisticsPausedAt) h
                  || overrides options.(RebuildOptions.includePausedAccountIDs) a.(MAccount.ID)) a;
  customer_rows : forall c, Tables.customer d !! c.(MCustomer.ID) = Some c ->
    stat_metrics r.(Rollup.customer_stat) (c.(MCustomer.ID), siteID, bucket)
    = customer_usage d siteID in_range (fun a h =>
        (not_paused a.(MAccount.StatisticsPausedAt) h
         || overrides options.(RebuildOptions.includePausedAccountIDs) a.(MAccount.ID))
        && (not_paused c.(MCustomer.StatisticsPausedAt) h
            || overrides options.(RebuildOptions.includePausedCustomerIDs) c.(MCustomer.ID))) c.(MCustomer.ID)
}.

Lemma rebuilt_target_rows d siteID bucket in_range options sites models channels status final now metrics r r' :
  table_wf (Tables.account d) -> table_wf (Tables.customer d) ->
  bucket_rebuilt siteID bucket (MAccount.ID <$> site_accounts d siteID)
    (NewRows.mk
       (stat_rows status final now (account_items d siteID bucket in_range
          (usageAggregationOverrideIDs options.(RebuildOptions.includePausedAccountIDs))))
       (stat_rows status final now (customer_items d siteID bucket in_range
          (usageAggregationOverrideIDs options.(RebuildOptions.includePausedAccountIDs))
          (usageAggregationOverrideIDs options.(RebuildOptions.includePausedCustomerIDs))))
       sites models channels) metrics r r' ->
  target_rows d siteID bucket in_range options r'.
Proof.
  intros Ha Hc [Hacc Hcust _ _ _ _]. split.
  - intros a Hin. rewrite Hacc, Z.eqb_refl. cbn [andb NewRows.accounts].
    rewrite (proj2 (existsb_exists _ _)); [by apply account_items_metrics|].
    exists a.(MAccount.ID). rewrite Z.eqb_refl. split; [|done]. apply list_elem_of_In. by apply list_elem_of_fmap_2.
  - intros c Hin. rewrite Hcust, !Z.eqb_refl. cbn [andb NewRows.customers]. by apply customer_items_metrics.
Qed.

(** ** The handler *)

(** The accounts a customer rebuild resumes. *)
Definition resumable (customerID : Z) (a : Account) : Prop :=
  a.(MAccount.CustomerID) = customerID /\ a.(MAccount.ManagedStatus) <> AccountManagedStatusArchived /\
  a.(MAccount.RemoteState) <> AccountRemoteStateIdentityMismatch.

(** The options are those of the target of the run. *)
Record target_options (run : CollectionRun) (accounts : gmap Z Account) (options : usageAggregationRebuildOptions)
  : Prop := {
  account_target : run.(Run.TaskType) = TaskTypeAccountRebuild ->
    options.(RebuildOptions.includePausedAccountIDs) = {[run.(Run.TargetID)]} /\
    options.(RebuildOptions.includePausedCustomerIDs) = ∅;
  customer_target : run.(Run.TaskType) = TaskTypeCustomerRebuild ->
    options.(RebuildOptions.includePausedCustomerIDs) = {[run.(Run.TargetID)]} /\
    forall id, id ∈ options.(RebuildOptions.includePausedAccountIDs) <-> exists a,
      a.(MAccount.ID) = id /\ (exists k, accounts !! k = Some a) /\ resumable run.(Run.TargetID) a
}.

Lemma options_ok run d options d' : localRebuildAggregationOptions run d = Ok (options, d') ->
  d' = d /\ target_options run (Tables.account d) options.
Proof.
  unfold localRebuildAggregationOptions. intros H. apply st_bind_ok in H as (o&d1&Ho&H).
  apply st_bind_ok in H as (u&d2&Hr&H). apply st_require_ok in Hr as (_&[= -> ->]). apply st_ret_pair in H as [-> ->].
  destruct (_ == _) eqn:E; [|destruct (_ == TaskTypeCustomerRebuild) eqn:E']; to_prop.
  - apply st_bind_ok in Ho as (u&d2&Hr&Ho). apply st_require_ok in Hr as (_&[= -> ->]). apply st_ret_pair in Ho as [-> ->].
    split; [done|]. split; [done|]. by rewrite E.
  - apply st_bind_ok in Ho as (u&d2&Hr&Ho). apply st_require_ok in Hr as (_&[= -> ->]).
    apply st_bind_ok in Ho as (l&d2&Hl&Ho). apply db_select_ok in Hl as [-> ->]. apply st_ret_pair in Ho as [-> ->].
    split; [done|]. split; [by rewrite E'|]. intros _. split; [done|]. intros id. cbn [RebuildOptions.includePausedAccountIDs].
    rewrite elem_of_list_to_set, list_elem_of_fmap. split.
    + intros (a&->&Ha%elem_of_select). destruct Ha as [Hp Hk]. to_prop. exists a. unfold resumable. tauto.
    + intros (a&<-&Hk&Hc&Hm&Hs). exists a. split; [done|]. apply elem_of_select. split; [|exact Hk]. to_prop. tauto.
  - by apply st_fail_ok in Ho.
Qed.

Definition only_verified : UsageWindowMutationResult := UsageResult.mk "" "" "" 0 0 true "" "".

Lemma no_effect t facts d : hours_wf d -> hour_effect t facts only_verified d d.
Proof. intros Hwf. split; try done. by right. Qed.

Lemma rebuild_keeps_exact sha request scope d rows d' :
  hours_wf d -> statistics_exact d -> apply_local_rebuild sha request scope d = Ok (rows, d') ->
  let siteID := request.(LocalRebuild.SiteID) in
  let hour := request.(LocalRebuild.HourTS) in
  base d' = base d /\ statistics_exact d' /\ rebuild_scope_matches request scope = true /\
  complete_hour d siteID hour /\ rows.1 = 0 /\
  exists options dl sweep final, dl = d <| Tables.statistics := Tables.statistics dl |> /\
    target_options scope.(MutationScope.run) (Tables.account d) options /\
    hour_rebuilt siteID hour (day_key (local_day hour)) (day_start (local_day hour)) (day_start (local_day hour) + 24 * 3600)
      sweep final [] options dl d'.
Proof.
  intros Hwf Hexact H. cbv zeta. unfold apply_local_rebuild in H.
  apply st_bind_ok in H as (u&d0&Hr&H). apply st_require_ok in Hr as (Hscope&[= -> ->]).
  apply st_bind_ok in H as ([[key start] end_]&d0&Hb&H). apply st_lift_ok in Hb as (b&Hb&[= <- ->]).
  apply UsageDateBucket_ok in Hb as (_&_&->&->&->).
  apply st_bind_ok in H as (keys&d0&Hk&H). pose proof (preserves _ _ _ Hk) as E0. cbv beta in E0. subst d0.
  apply st_bind_ok in H as (u&dl&Hlock&H). apply lock_buckets_ok in Hlock as [Bl Sl].
  pose proof (base_hours_wf _ _ Bl Hwf) as Hwfl. pose proof (exact_base _ _ Bl Sl Hexact) as Hexactl.
  apply st_bind_ok in H as (w&d0&Hw&H). apply lockCollectionWindow_ok in Hw as (->&_&Hw).
  apply st_bind_ok in H as (u'&d0&Hr&H). apply st_require_ok in Hr as (Hst&[= -> ->]).
  apply st_bind_ok in H as (options&d0&Ho&H). apply options_ok in Ho as [-> Ho].
  apply st_bind_ok in H as (rebuilt&d2&Hre&H). apply st_bind_ok in H as (u''&d3&Hr&H).
  apply st_require_ok in Hr as (_&[= _ ->]). apply st_ret_pair in H as [-> ->].
  apply rebuild_ok in Hre as (sweep&final&Hre). pose proof (rebuilt_base _ _ _ _ _ _ _ _ _ _ _ Hre) as B2.
  rename d2 into d'. pose proof Bl as Bl'. apply base_stats in Bl'.
  split; [congruence|]. split.
  { set (t := UsageTarget.mk 0 0 request.(LocalRebuild.SiteID) 0 request.(LocalRebuild.HourTS) 0 "" 0).
    exact (exact_after_rebuild t [] only_verified dl dl d' Hwfl Hexactl (no_effect t [] dl Hwfl) sweep final [] _ Hre
             (fun k _ => Permutation_refl _)). }
  split; [done|]. split.
  { destruct w as [w|]; [|done]. to_prop. destruct Hw as (k&Hrow&Hs&Hh). exists k, w.
    rewrite Bl' in Hrow. done. }
  split; [done|]. exists options, dl, sweep, final. split; [done|]. split; [by rewrite Bl' in Ho|exact Hre].
Qed.

(** The facts of the account whose hour has not ended when it was created. *)
Definition since_created (a : Account) (f : UsageFactHourly) : bool :=
  (a.(MAccount.RemoteUserID) =? f.(Fact.RemoteUserID)) && (a.(MAccount.RemoteCreatedAt) <? f.(Fact.HourTS) + 3600).

(** The row of a target counts the facts of its accounts, paused or not. *)
Record target_counted (d : Db) (siteID bucket : Z) (in_range : Z -> bool) (taskType : string) (target : Z) (r : Rollup)
  : Prop := {
  account_counted : taskType = TaskTypeAccountRebuild -> forall a,
    Tables.account d !! target = Some a -> a.(MAccount.SiteID) = siteID ->
    stat_metrics r.(Rollup.account_stat) (target, bucket)
    = metrics_of ((fun f => (None : option Z, f))
                  <$> base.filter (fun f => since_created a f = true) (site_facts d siteID in_range));
  customer_counted : taskType = TaskTypeCustomerRebuild -> is_Some (Tables.customer d !! target) ->
    (forall a, a ∈ site_accounts d siteID -> a.(MAccount.CustomerID) = target -> resumable target a) ->
    stat_metrics r.(Rollup.customer_stat) (target, siteID, bucket)
    = metrics_of (base.filter (fun a => a.(MAccount.CustomerID) = target) (site_accounts d siteID) ≫= fun a =>
        (fun f => (Some a.(MAccount.ID), f))
        <$> base.filter (fun f => since_created a f = true) (site_facts d siteID in_range))
}.

Lemma facts_of_account_all d siteID in_range counted a : (forall h, counted h = true) ->
  facts_of_account d siteID in_range counted a
  = base.filter (fun f => since_created a f = true) (site_facts d siteID in_range).
Proof.
  intros Hall. unfold facts_of_account. apply list_filter_iff. intros f. rewrite Hall, andb_true_r. done.
Qed.

Lemma target_rows_counted d siteID bucket in_range run options r : 0 < run.(Run.TargetID) ->
  (forall k a, Tables.account d !! k = Some a -> 0 < k) ->
  table_wf (Tables.account d) -> table_wf (Tables.customer d) ->
  target_options run (Tables.account d) options -> target_rows d siteID bucket in_range options r ->
  target_counted d siteID bucket in_range run.(Run.TaskType) run.(Run.TargetID) r.
Proof.
  intros Hpos Hids Ha Hc [Hacc Hcust] [Ra Rc]. split.
  - intros Htype a Hk Hs. destruct (Hacc Htype) as [Ho _]. pose proof (Ha _ _ Hk) as E. simpl in E.
    rewrite <- E at 1. rewrite Ra by (apply elem_of_site_accounts; [done|by rewrite E]). unfold account_usage.
    rewrite facts_of_account_all; [done|]. intros h. rewrite overrides_spec, Ho, bool_decide_eq_true_2; [|set_solver|lia].
    apply orb_true_r.
  - intros Htype [c Hk] Hall. destruct (Hcust Htype) as [Ho Hin]. pose proof (Hc _ _ Hk) as E. simpl in E.
    rewrite <- E at 1. rewrite Rc by (by rewrite E). unfold customer_usage. rewrite E. f_equal.
    apply bind_ext. intros a [Hca Hsa]%list_elem_of_filter. f_equal. apply facts_of_account_all. intros h.
    pose proof (proj1 (elem_of_site_accounts d siteID Ha a) Hsa) as [_ Hka].
    rewrite !overrides_spec, Ho, !bool_decide_eq_true_2; [by rewrite !orb_true_r|set_solver| |lia|].
    + apply Hin. exists a. split; [done|]. split; [by eexists|]. by apply Hall.
    + by eapply Hids.
Qed.

(** The rebuild of an account or a customer in one hour.  When its handler
    returns, the facts of the hour were complete, nothing but the statistics
    was written, and they are exact; and the rows of the target in the hour and
    in its day count every fact of complete hours of the account, or of the
    accounts of the customer if none of them is archived or mismatched, since
    the account was created, although their statistics were paused. *)
Theorem NewLocalRebuildMutation_counts sha request mutation scope d rows d' :
  hours_wf d -> statistics_exact d -> table_wf (Tables.account d) -> table_wf (Tables.customer d) ->
  (forall k a, Tables.account d !! k = Some a -> 0 < k) ->
  NewLocalRebuildMutation sha request = Ok mutation -> mutation scope d = Ok (rows, d') ->
  let siteID := request.(LocalRebuild.SiteID) in
  let hour := request.(LocalRebuild.HourTS) in
  base d' = base d /\ statistics_exact d' /\ complete_hour d siteID hour /\ rows.1 = 0 /\
  target_counted d siteID hour (Z.eqb hour) request.(LocalRebuild.TaskType) request.(LocalRebuild.TargetID)
    (Tables.statistics d').(Statistics.hourly) /\
  target_counted d siteID (day_key (local_day hour)) (day_range (local_day hour)) request.(LocalRebuild.TaskType)
    request.(LocalRebuild.TargetID) (Tables.statistics d').(Statistics.daily).
Proof.
  intros Hwf Hexact Ha Hc Hids Hnew H. unfold NewLocalRebuildMutation in Hnew. destruct (_ || _) eqn:Hg; [done|].
  injection Hnew as <-. to_prop.
  destruct (rebuild_keeps_exact sha request scope d rows d' Hwf Hexact H)
    as (Hb&Hex&Hscope&Hcomplete&Hrows&options&dl&sweep&final&Bl&Ho&[_ _ _ (now&Hh) (now'&status&fin&Hd)]).
  rewrite Bl in Hh, Hd. eapply (rebuilt_target_rows d) in Hh; [|done|done]. eapply (rebuilt_target_rows d) in Hd; [|done|done].
  repeat (split; [done|]). unfold rebuild_scope_matches in Hscope. to_prop.
  assert (Htype : scope.(MutationScope.run).(Run.TaskType) = request.(LocalRebuild.TaskType)) by tauto.
  assert (Htarget : scope.(MutationScope.run).(Run.TargetID) = request.(LocalRebuild.TargetID)) by tauto.
  rewrite <- Htype, <- Htarget. assert (0 < scope.(MutationScope.run).(Run.TargetID)) by (rewrite Htarget; lia).
  split; by eapply target_rows_counted.
Qed.
