(* ===== verification/AggregationCommit.v ===== *)
(** * The usage of an hour as one transaction

    The commits of collected hours as handlers of claimed windows: they are
    lawful, completing a window with one records the hour, its facts and its
    statistics together, and the statistics of every history of such commits
    and of local rebuilds are exact. *)

From S2P Require Import Prelude Constants GoText Stats DateBucket Store Frame RunContract RunState RunRepository SiteFence TaskScope TaskClaim TaskCommit RunFrames RunInvariant QueueClaim TaskRecovery Materialize QueueSteps QueueSafety CommitBehaviour RunStateBehaviour CreateBehaviour UsageFacts UsageAggregation LocalRebuild RollupLemmas RollupRebuild UsageFactsBehaviour UsageWindowBehaviour UsageRecordBehaviour StatisticsExact AggregationBehaviour LocalRebuildBehaviour.

(** ** Commits are lawful handlers *)
Lemma stats_only_queue {A} (m : Tx A) : StatsOnly m -> Preserves run_state m.
Proof. intros Hm d a d' H. apply Hm in H. by rewrite (base_stats _ _ H). Qed.

#[export] Instance lockUsageAggregationBuckets_frame keys now : Preserves run_state (lockUsageAggregationBuckets keys now).
Proof. apply stats_only_queue. intros d u d' H. apply (lock_buckets_ok _ _ _ _ _ H). Qed.

#[export] Instance refreshUsageDailyFinality_frame siteID dateKey dateStart dateEnd now :
  Preserves run_state (refreshUsageDailyFinality siteID dateKey dateStart dateEnd now).
Proof. apply stats_only_queue. intros d u d' H. apply (refreshUsageDailyFinality_ok _ _ _ _ _ _ _ _ H). Qed.

#[export] Instance rebuildUsageAggregationBuckets_frame siteID hourTS dateKey dateStart dateEnd now affected options :
  Preserves run_state (rebuildUsageAggregationBuckets siteID hourTS dateKey dateStart dateEnd now affected options).
Proof.
  apply stats_only_queue. intros d u d' H. destruct (rebuild_ok _ _ _ _ _ _ _ _ _ _ _ H) as (sweep&final&Hre).
  exact (rebuilt_base _ _ _ _ _ _ _ _ _ _ _ Hre).
Qed.

#[export] Instance loadUsageDailyCoverage_frame start end_ : Preserves run_state (loadUsageDailyCoverage start end_).
Proof. apply reads_preserves, _. Qed.

#[export] Instance usageAggregationBucketKeys_frame sha siteID hourTS dateKey dateStart dateEnd facts :
  Preserves run_state (usageAggregationBucketKeys sha siteID hourTS dateKey dateStart dateEnd facts).
Proof. apply reads_preserves, _. Qed.

Lemma new_commit sha target newFacts mutation commit :
  NewUsageAggregationCommit sha target newFacts mutation = Ok commit ->
  exists facts hash, canonicalUsageFacts sha target.(UsageTarget.SiteID) target.(UsageTarget.HourTS)
      target.(UsageTarget.Now) newFacts = Ok (facts, hash) /\
    commit = apply_aggregation sha target facts mutation.
Proof.
  unfold NewUsageAggregationCommit. destruct (canonicalUsageFacts _ _ _ _ _) as [[facts hash]|]; [|done].
  destruct (negb _); [done|]. intros [= <-]. by exists facts, hash.
Qed.

Lemma aggregation_lawful sha target newFacts mutation commit :
  (forall scope, Preserves run_state (mutation scope)) ->
  NewUsageAggregationCommit sha target newFacts mutation = Ok commit -> lawful (Some (aggregation_handler commit)).
Proof.
  intros Hm (facts&hash&_&->)%new_commit scope. unfold aggregation_handler, apply_aggregation. solve_frame.
Qed.

(** The hours, their facts, the ranges of the sites and the statistics stay. *)
Record same_usage (d d' : Db) : Prop := {
  usage_hours : hour_state d' = hour_state d;
  usage_statistics : Tables.statistics d' = Tables.statistics d;
  usage_ranges : usage_range <$> Tables.site d' = usage_range <$> Tables.site d;
  usage_fresh : Tables.auto_other d <= Tables.auto_other d'
}.

Lemma outside_usage d d' : same_outside d d' -> same_usage d d'.
Proof.
  intros Hout. pose proof (Hout _ hour_state _) as Hh. pose proof (Hout _ statistics_state _) as Hs.
  unfold statistics_state in Hs. injection Hs as Est Esite Eauto. split; [done..|lia].
Qed.

Lemma same_usage_exact d d' : same_usage d d' -> hours_wf d /\ statistics_exact d -> hours_wf d' /\ statistics_exact d'.
Proof.
  intros [Hh Est Esite Hauto] [Hwf Hexact].
  split; [by apply (hours_wf_frame _ _ Hh)|]. unfold hour_state in Hh. injection Hh as Ew Ef.
  assert (Hc : forall f, complete_fact d' f = complete_fact d f).
  { intros f. unfold complete_fact, table_rows. simpl. by rewrite Ew. }
  destruct (same_queries d d' Ef Hc (fun f => within_statistics_range d d' f Esite)) as (E1&E2&E3).
  apply (exact_same d); [done..|by rewrite Est|done].
Qed.

(** ** Completing a window *)

(** Recording is about the hours only. *)
Lemma recorded_base sha siteID hourTS now rows hash attribution d d' : base d' = base d ->
  recorded sha siteID hourTS now rows hash attribution d -> recorded sha siteID hourTS now rows hash attribution d'.
Proof. intros E. apply recorded_frame. by rewrite (base_stats _ _ E). Qed.

(** The commit is of the window it is named for. *)
Lemma commit_window_id sha t facts mutation scope d r : apply_aggregation sha t facts mutation scope d = Ok r ->
  scope.(MutationScope.window).(RunWindow.ID) = t.(UsageTarget.WindowID).
Proof.
  destruct r as [result d']. intros H. unfold apply_aggregation in H. apply st_bind_ok in H as (locked&d1&Hl&_).
  apply lock_scope_ok in Hl as (_&_&_&Hid&_). exact Hid.
Qed.

(** C5: completing a claimed window with the commit of the complete mutation is
    one transaction of the queue, the facts and the statistics.  When it
    returns, the named window, which was running in the claim, has the reported
    status and the rows the mutation fetched and wrote; the hour is recorded
    with the hash of its canonical facts; and if the statistics were exact they
    are exact again, now counting those facts. *)
Theorem CompleteClaimedWindow_records_hour sha request mutation planned commit completion d run' d' :
  queue_inv d -> hours_wf d -> statistics_exact d ->
  NewCompleteUsageWindowMutation sha request = Ok (mutation, planned) ->
  NewUsageAggregationCommit sha request.(CompleteUsage.target) request.(CompleteUsage.Facts) mutation = Ok commit ->
  completion.(CompleteRequest.Mutation) = Some (aggregation_handler commit) ->
  CompleteClaimedWindow completion d = Ok (run', d') ->
  let t := request.(CompleteUsage.target) in
  let outcome := completion.(CompleteRequest.Window) in
  exists facts w result,
    recorded sha t.(UsageTarget.SiteID) t.(UsageTarget.HourTS) t.(UsageTarget.Now)
      (Z.of_nat (length facts)) planned.(UsageResult.SourceHash) (usageAttributionStatus facts) d' /\
    usageFactsHash sha facts = planned.(UsageResult.SourceHash) /\
    hours_wf d' /\ statistics_exact d' /\
    Tables.collection_run_window d !! outcome.(WindowResult.WindowID) = Some w /\
    w.(RunWindow.Status) = "running" /\ t.(UsageTarget.WindowID) = outcome.(WindowResult.WindowID) /\
    (result = planned \/ result.(UsageResult.VerifiedOnly) = true /\ result.(UsageResult.WrittenRows) = 0) /\
    Tables.collection_run_window d' !! outcome.(WindowResult.WindowID)
    = Some (committed_window (outcome <| WindowResult.FetchedRows := result.(UsageResult.FetchedRows) |>
                                      <| WindowResult.WrittenRows := result.(UsageResult.WrittenRows) |>)
              completion.(CompleteRequest.Now) w).
Proof.
  intros Hinv Hwf Hexact Hnew Hcommit Hm H. cbv zeta.
  destruct (canonical_plan _ _ _ _ Hnew) as (facts&hash&Hfacts&Hplan&Emutation).
  assert (Hlaw : lawful (CompleteRequest.Mutation completion)).
  { rewrite Hm. eapply aggregation_lawful; [|exact Hcommit]. intros scope. rewrite Emutation. unfold apply_complete. solve_frame. }
  destruct (complete_claimed_effect d completion run' d' Hinv Hlaw H) as (run&w&_&_&Hw&_&Hs&_&Heff).
  rewrite Hm in Heff. destruct Heff as (site&fetched&written&d2&_&Hmut&[Hrows _ _]&Hout).
  apply st_bind_ok in Hmut as (result&d3&Hmut&Hret).
  apply new_commit in Hcommit as (facts'&hash'&Hfacts'&->). rewrite Hfacts in Hfacts'. injection Hfacts' as <- <-.
  destruct (commit_exact _ _ _ _ _ _ _ _ (complete_hour_mutation _ _ _ _ _ _ Hnew Hfacts) Hwf Hexact Hmut)
    as (Hwf2&Hexact2&window&dl&d1&locked&Bl&Hd1&B2&Ewindow).
  rewrite Ewindow in Hret. apply st_ret_ok in Hret as [= -> -> ->].
  destruct (complete_recorded _ _ _ _ _ _ _ _ (base_hours_wf _ _ Bl Hwf) Hnew Hd1) as (facts'&Hc&_&[Hrec _ Hq _ _ Hres]).
  rewrite Hfacts in Hc. injection Hc as <- ->.
  exists facts, w, window. split.
  { apply (recorded_frame _ _ _ _ _ _ _ d3); [exact (Hout _ hour_state _)|]. by apply (recorded_base _ _ _ _ _ _ _ d1). }
  split; [symmetry; apply Hplan|].
  destruct (same_usage_exact d3 d' (outside_usage _ _ Hout) (conj Hwf2 Hexact2)) as [Hwf' Hexact']. do 4 (split; [done|]).
  pose proof (commit_window_id _ _ _ _ _ _ _ Hmut) as Hid. cbn [MutationScope.window] in Hid.
  destruct (Hrows _ (proj2 (list_elem_of_singleton _ _) eq_refl)) as (w1&Hw1&_&_&_&Hw').
  assert (Ew : Tables.collection_run_window d3 = Tables.collection_run_window d).
  { rewrite (base_stats _ _ B2). injection Hq as _ Ew _ _ _. etrans; [exact Ew|]. by rewrite (base_stats _ _ Bl). }
  rewrite Ew in Hw1. pose proof (eq_trans (eq_sym Hw) Hw1) as E. injection E as <-.
  split; [|split; [|done]].
  - rewrite <- Hid. exact (queue_windows_wf d Hinv _ _ Hw).
  - destruct (UsageResult.VerifiedOnly window); [right; split; [done|apply Hres]|left; apply Hres].
Qed.

(** ** Histories of the usage tables *)

(** The mutations the program commits. *)
Inductive usage_mutation (sha : list Z -> string) : UsageTarget -> list UsageFactInput -> UsageFactMutation -> Prop :=
| collected_usage request mutation planned : NewCompleteUsageWindowMutation sha request = Ok (mutation, planned) ->
    usage_mutation sha request.(CompleteUsage.target) request.(CompleteUsage.Facts) mutation
| failed_usage request facts mutation : NewFailedUsageWindowMutation request = Ok mutation ->
    usage_mutation sha request.(FailedUsage.target) facts mutation.

Definition no_usage_yet (d : Db) : Prop :=
  Tables.collection_window d = ∅ /\ Tables.usage_fact_hourly d = ∅ /\ Tables.statistics d = no_statistics.

Lemma filter_no_rows {A} (P : A -> Prop) `{!forall a, Decision (P a)} (t : gmap Z A) : t = ∅ -> base.filter P (rows t) = [].
Proof. by intros ->. Qed.

Lemma nothing_exact d : no_usage_yet d -> hours_wf d /\ statistics_exact d.
Proof.
  intros (Hw&Hf&Hs). split; [split; by rewrite ?Hw, ?Hf|].
  assert (Hfacts : forall siteID in_range, site_facts d siteID in_range = []) by (intros; by apply filter_no_rows).
  assert (Hglobal : forall in_range, global_usage d in_range = no_usage).
  { intros in_range. unfold global_usage, global_facts, table_rows. by rewrite filter_no_rows. }
  assert (Hday : forall siteID day, day_authoritative d siteID day = []) by (intros; by apply filter_no_rows).
  split; intros; rewrite ?Hs, ?Hglobal, ?Hday; [..|done|done|done]; split; intros; by rewrite Hfacts.
Qed.

(** Such a commit keeps the statistics exact. *)
Lemma usage_mutation_exact sha target newFacts mutation commit scope d result d' :
  usage_mutation sha target newFacts mutation -> NewUsageAggregationCommit sha target newFacts mutation = Ok commit ->
  hours_wf d -> statistics_exact d -> commit scope d = Ok (result, d') -> hours_wf d' /\ statistics_exact d'.
Proof.
  intros Hm (facts&hash&Hfacts&->)%new_commit Hwf Hexact H.
  assert (He : HourMutation target facts mutation).
  { destruct Hm as [request mutation planned Hm|request newFacts mutation Hm];
      [by eapply complete_hour_mutation|by eapply failed_hour_mutation]. }
  destruct (commit_exact _ _ _ _ _ _ _ _ He Hwf Hexact H) as (?&?&_). done.
Qed.

