(* ===== verification/UsageReconcile.v ===== *)
(** * From the two upstream reports of an hour to its facts ([service/usage_collection.go])

    The upstream reports an hour twice: flow rows that name a user, and data
    rows that only name a model.  [reconcileUsageFacts] takes the flow rows as
    facts, adds one unattributed row per model for what only the data rows
    count, and refuses an hour in which the flow rows count more.

    Go ranges over a map in any order.  The order is the parameter [range], one
    list of entries per map; the theorems assume only that it lists each entry
    of the map once. *)

From S2P Require Import Prelude Constants GoText Store RunContract RunState RunRepository SiteFence TaskScope TaskClaim TaskCommit UsageFacts.

Module FlowRow.
Record UpstreamFlowRow := mk {
  UserID : Z; Username : string; ModelName : string; ChannelID : Z; UseGroup : string; TokenID : Z;
  TokenName : string; NodeName : string; RequestCount : Z; Quota : Z; TokenUsed : Z }.
End FlowRow.
Abbreviation UpstreamFlowRow := FlowRow.UpstreamFlowRow.

Module DataRow.
Record UpstreamDataRow := mk {
  ModelName : string; CreatedAt : Z; RequestCount : Z; Quota : Z; TokenUsed : Z }.
End DataRow.
Abbreviation UpstreamDataRow := DataRow.UpstreamDataRow.

Inductive UpstreamErrorKind :=
| UpstreamErrorAddressForbidden | UpstreamErrorUnavailable | UpstreamErrorAuthExpired
| UpstreamErrorPermissionDenied | UpstreamErrorRateLimited | UpstreamErrorRemote
| UpstreamErrorResponseInvalid | UpstreamErrorEnvelopeInvalid | UpstreamErrorResponseTooLarge
| UpstreamErrorExportDisabled | UpstreamErrorCredentialOriginMismatch
| UpstreamErrorTokenRotationResultUnknown | UpstreamErrorDataMismatch.
#[export] Instance UpstreamErrorKind_eq_dec : EqDecision UpstreamErrorKind.
Proof. solve_decision. Defined.

Definition validUpstreamString (value : string) (minimum maximum : Z) : bool :=
  ValidString value && (minimum <=? RuneCountInString value) && (RuneCountInString value <=? maximum).

(** [metricTotals]: requests, quota and tokens. *)
Definition metricTotals : Type := Z * Z * Z.
Definition no_metrics : metricTotals := (0, 0, 0).

Definition checkedAddInt64 (left right : Z) : option Z :=
  if (0 <? right) && (max_int64 - right <? left) then None
  else if (right <? 0) && (left <? - max_int64 - 1 - right) then None
  else Some (left + right).

Definition addMetricTotals (total : metricTotals) (requestCount quota tokenUsed : Z) : option metricTotals :=
  match checkedAddInt64 total.1.1 requestCount with
  | None => None
  | Some r =>
      match checkedAddInt64 total.1.2 quota with
      | None => None
      | Some q =>
          match checkedAddInt64 total.2 tokenUsed with
          | None => None
          | Some t => Some (r, q, t)
          end
      end
  end.

(** The counts of a row, and the model it is about. *)
Definition flow_metrics (row : UpstreamFlowRow) : string * metricTotals :=
  (row.(FlowRow.ModelName), (row.(FlowRow.RequestCount), row.(FlowRow.Quota), row.(FlowRow.TokenUsed))).
Definition data_metrics (row : UpstreamDataRow) : string * metricTotals :=
  (row.(DataRow.ModelName), (row.(DataRow.RequestCount), row.(DataRow.Quota), row.(DataRow.TokenUsed))).
Definition fact_metrics (fact : UsageFactInput) : string * metricTotals :=
  (fact.(FactInput.ModelName), (fact.(FactInput.RequestCount), fact.(FactInput.Quota), fact.(FactInput.TokenUsed))).

(** The three loops that add rows up per model. *)
Fixpoint totals_by_model (rows : list (string * metricTotals)) (totals : gmap string metricTotals)
  : option (gmap string metricTotals) :=
  match rows with
  | [] => Some totals
  | (modelName, (requests, quota, tokens)) :: rest =>
      match addMetricTotals (default no_metrics (totals !! modelName)) requests quota tokens with
      | None => None
      | Some sum => totals_by_model rest (<[modelName := sum]> totals)
      end
  end.

Definition flow_row_valid (row : UpstreamFlowRow) : bool :=
  (0 <? row.(FlowRow.UserID)) && (0 <=? row.(FlowRow.ChannelID)) && (0 <=? row.(FlowRow.TokenID))
  && (0 <=? row.(FlowRow.RequestCount)) && (0 <=? row.(FlowRow.Quota)) && (0 <=? row.(FlowRow.TokenUsed))
  && validUpstreamString row.(FlowRow.Username) 0 255 && validUpstreamString row.(FlowRow.ModelName) 0 255
  && validUpstreamString row.(FlowRow.UseGroup) 0 128 && (row.(FlowRow.UseGroup) != UsageLegacyUnattributedGroup)
  && validUpstreamString row.(FlowRow.TokenName) 0 255 && validUpstreamString row.(FlowRow.NodeName) 0 128.

Definition flow_fact (row : UpstreamFlowRow) : UsageFactInput :=
  FactInput.mk row.(FlowRow.UserID) row.(FlowRow.Username) row.(FlowRow.ModelName) row.(FlowRow.ChannelID)
    row.(FlowRow.UseGroup) row.(FlowRow.TokenID) row.(FlowRow.TokenName) row.(FlowRow.NodeName)
    row.(FlowRow.RequestCount) row.(FlowRow.Quota) row.(FlowRow.TokenUsed).

Definition usageFactsFromFlow (flow : list UpstreamFlowRow) : option (list UsageFactInput) :=
  if forallb flow_row_valid flow then Some (map flow_fact flow) else None.

Definition data_row_valid (row : UpstreamDataRow) : bool :=
  (0 <? row.(DataRow.CreatedAt)) && (0 <=? row.(DataRow.RequestCount)) && (0 <=? row.(DataRow.Quota))
  && (0 <=? row.(DataRow.TokenUsed)) && validUpstreamString row.(DataRow.ModelName) 0 255.

(** An invalid row and a sum out of range are the same error. *)
Definition data_totals (data : list UpstreamDataRow) : option (gmap string metricTotals) :=
  if forallb data_row_valid data then totals_by_model (map data_metrics data) ∅ else None.

Definition exceeds (actual expected : metricTotals) : bool :=
  (expected.1.1 <? actual.1.1) || (expected.1.2 <? actual.1.2) || (expected.2 <? actual.2).

Definition minus3 (expected actual : metricTotals) : metricTotals :=
  (expected.1.1 - actual.1.1, expected.1.2 - actual.1.2, expected.2 - actual.2).

Definition residual_fact (modelName : string) (residual : metricTotals) : UsageFactInput :=
  FactInput.mk UsageLegacyUnattributedRemoteUserID UsageLegacyUnattributedUsername modelName 0
    UsageLegacyUnattributedGroup 0 "" "" residual.1.1 residual.1.2 residual.2.

(** The loop over the data totals: the facts so far and, unless a model
    exceeded its total, the attribution. *)
Fixpoint add_residuals (flowTotals : gmap string metricTotals) (entries : list (string * metricTotals))
    (facts : list UsageFactInput) (status : string) : list UsageFactInput * option string :=
  match entries with
  | [] => (facts, Some status)
  | (modelName, expected) :: rest =>
      let actual := default no_metrics (flowTotals !! modelName) in
      if exceeds actual expected then (facts, None)
      else
        let residual := minus3 expected actual in
        if residual == no_metrics then add_residuals flowTotals rest facts status
        else add_residuals flowTotals rest (facts ++ [residual_fact modelName residual])
               UsageAttributionLegacyUnattributed
  end.

(** Facts, attribution, error. *)
Definition reconciliation : Type := list UsageFactInput * string * option UpstreamErrorKind.

Section Range.
(** The order of [for name, totals := range m]. *)
Context (range : gmap string metricTotals -> list (string * metricTotals)).

(** A model with counts in [m] that [expected] does not know. *)
Definition unexpected (m expected : gmap string metricTotals) : bool :=
  existsb (fun '(modelName, totals) => is_nil (expected !! modelName) && (totals != no_metrics)) (range m).

Definition reconcileUsageFacts (flow : list UpstreamFlowRow) (data : list UpstreamDataRow) : reconciliation :=
  let invalid := ([], "", Some UpstreamErrorResponseInvalid) in
  match usageFactsFromFlow flow with
  | None => invalid
  | Some facts =>
      match totals_by_model (map flow_metrics flow) ∅ with
      | None => invalid
      | Some flowTotals =>
          match data_totals data with
          | None => invalid
          | Some dataTotals =>
              if unexpected flowTotals dataTotals then (facts, "", Some UpstreamErrorDataMismatch)
              else
                match add_residuals flowTotals (range dataTotals) facts UsageAttributionAttributed with
                | (facts, None) => (facts, "", Some UpstreamErrorDataMismatch)
                | (facts, Some attributionStatus) =>
                    match totals_by_model (map fact_metrics facts) ∅ with
                    | None => invalid
                    | Some reconciled =>
                        if existsb (fun '(modelName, expected) =>
                             default no_metrics (reconciled !! modelName) != expected) (range dataTotals)
                           || unexpected reconciled dataTotals
                        then (facts, "", Some UpstreamErrorDataMismatch)
                        else (facts, attributionStatus, None)
                    end
                end
          end
      end
  end.
End Range.

Fixpoint add_all (rows : list metricTotals) (total : metricTotals) : option metricTotals :=
  match rows with
  | [] => Some total
  | row :: rest =>
      match addMetricTotals total row.1.1 row.1.2 row.2 with
      | None => None
      | Some total => add_all rest total
      end
  end.

Definition validateWholeHourUsageTotals (flow : list UpstreamFlowRow) (data : list UpstreamDataRow)
  : option UpstreamErrorKind :=
  match add_all (map (fun r => (flow_metrics r).2) flow) no_metrics with
  | None => Some UpstreamErrorResponseInvalid
  | Some flowTotals =>
      match add_all (map (fun r => (data_metrics r).2) data) no_metrics with
      | None => Some UpstreamErrorResponseInvalid
      | Some dataTotals =>
          if flowTotals != dataTotals then Some UpstreamErrorDataMismatch else None
      end
  end.
