(* ===== verification/UsageReconcileBehaviour.v ===== *)
(** * The facts of an hour agree with both reports

    [reconcileUsageFacts] refuses an hour exactly when a row is invalid, a
    total leaves int64, or the flow rows of a model count more than its data
    rows; otherwise its facts count, per model, exactly what the data rows
    count, whatever the order in which the maps are walked, and the mutation
    that records them accepts them. *)

From S2P Require Import Prelude Stats Constants GoText Store RunContract RunState RunRepository SiteFence TaskScope TaskClaim TaskCommit RunFrames RunInvariant RunStateBehaviour UsageFacts UsageFactsBehaviour UsageReconcile.

(** ** Counts *)
Definition good3 (t : metricTotals) : Prop := nonneg3 t /\ fits3 t = true.

Lemma plus3_nonneg a b : nonneg3 a -> nonneg3 b -> nonneg3 (plus3 a b).
Proof. intros (?&?&?) (?&?&?). unfold nonneg3, plus3. simpl. lia. Qed.

Lemma fits3_plus_l a b : nonneg3 b -> fits3 (plus3 a b) = true -> fits3 a = true.
Proof. intros (?&?&?). unfold fits3, plus3. simpl. intros Hf. to_prop. lia. Qed.

Lemma sum3_nonneg l : Forall nonneg3 l -> nonneg3 (sum3 l).
Proof. induction 1; simpl; [by repeat split|by apply plus3_nonneg]. Qed.

Lemma fits3_sum_in l x : Forall nonneg3 l -> x ∈ l -> fits3 (sum3 l) = true -> fits3 x = true.
Proof.
  intros Hn Hx. induction Hn as [|y l Hy Hn IH]; [by apply not_elem_of_nil in Hx|]. simpl. intros Hf.
  apply elem_of_cons in Hx as [->|Hx].
  - by apply (fits3_plus_l y (sum3 l)); [apply sum3_nonneg|].
  - apply IH; [done|]. rewrite plus3_comm in Hf. by apply fits3_plus_l in Hf.
Qed.

Lemma checkedAdd_nonneg a b : 0 <= a <= max_int64 -> 0 <= b ->
  checkedAddInt64 a b = if a + b <=? max_int64 then Some (a + b) else None.
Proof.
  intros Ha Hb. unfold checkedAddInt64. rewrite (proj2 (Z.ltb_ge b 0)) by lia. cbn [andb].
  destruct ((0 <? b) && (max_int64 - b <? a)) eqn:E1, (a + b <=? max_int64) eqn:E3; to_prop; try done.
  - exfalso. lia.
  - exfalso. destruct E1; unfold max_int64 in *; lia.
Qed.

Lemma addMetricTotals_ok a v : good3 a -> nonneg3 v ->
  addMetricTotals a v.1.1 v.1.2 v.2 = if fits3 (plus3 a v) then Some (plus3 a v) else None.
Proof.
  intros [(A1&A2&A3) Hf] (B1&B2&B3). unfold fits3 in Hf. to_prop. unfold addMetricTotals.
  rewrite !checkedAdd_nonneg by (first [done|tauto]). unfold fits3, plus3. simpl.
  destruct (a.1.1 + v.1.1 <=? max_int64), (a.1.2 + v.1.2 <=? max_int64), (a.2 + v.2 <=? max_int64); done.
Qed.

(** ** The totals of a model *)
Definition metrics := list (string * metricTotals).
Definition total_of (name : string) (rows : metrics) : metricTotals :=
  sum3 ((fun r => if r.1 == name then r.2 else no_metrics) <$> rows).
Definition at_model (m : gmap string metricTotals) (name : string) : metricTotals :=
  default no_metrics (m !! name).
Definition good_map (m : gmap string metricTotals) : Prop := forall n, good3 (at_model m n).
Definition nonneg_rows (rows : metrics) : Prop := Forall (fun r => nonneg3 r.2) rows.

Lemma total_of_nonneg n rows : nonneg_rows rows -> nonneg3 (total_of n rows).
Proof.
  intros H. apply sum3_nonneg. apply Forall_fmap. eapply Forall_impl; [exact H|].
  intros r Hr. simpl. case_bool_decide; [done|by repeat split].
Qed.

Lemma total_of_app n l1 l2 : total_of n (l1 ++ l2) = plus3 (total_of n l1) (total_of n l2).
Proof.
  unfold total_of. rewrite fmap_app. induction (_ <$> l1) as [|x l IH]; simpl; [by rewrite plus3_zero|].
  by rewrite IH, plus3_assoc.
Qed.

Lemma total_of_single n v : total_of n [(n, v)] = v.
Proof.
  unfold total_of. rewrite fmap_cons. cbn [fst snd]. rewrite bool_decide_eq_true_2 by done.
  simpl. by rewrite plus3_comm, plus3_zero.
Qed.

Lemma total_of_absent n rows : n ∉ rows.*1 -> total_of n rows = no_metrics.
Proof.
  induction rows as [|[m t] rows IH]; [done|]. rewrite fmap_cons, not_elem_of_cons. intros [Hm Hr].
  unfold total_of in *. rewrite fmap_cons. simpl. simpl in Hm. rewrite (bool_decide_eq_false_2 (m = n)) by congruence.
  by rewrite plus3_zero, IH.
Qed.

Lemma at_model_insert m n v k : at_model (<[n := v]> m) k = if n == k then v else at_model m k.
Proof.
  unfold at_model. case_bool_decide as E; [subst; by rewrite lookup_insert_eq|by rewrite lookup_insert_ne].
Qed.

Lemma totals_by_model_spec rows : forall m, nonneg_rows rows -> good_map m ->
  match totals_by_model rows m with
  | Some m' => good_map m' /\ (forall n, at_model m' n = plus3 (at_model m n) (total_of n rows)) /\
               (forall n, is_Some (m' !! n) <-> is_Some (m !! n) \/ n ∈ rows.*1)
  | None => exists n, fits3 (plus3 (at_model m n) (total_of n rows)) = false
  end.
Proof.
  induction rows as [|[name v] rows IH]; intros m Hn Hm.
  - simpl. split; [done|]. split; [intros n; by rewrite plus3_comm, plus3_zero|]. intros n. simpl. set_solver.
  - apply Forall_cons in Hn as [Hv Hn]. cbn [totals_by_model]. destruct v as [[r q] t].
    pose proof (addMetricTotals_ok (at_model m name) (r, q, t) (Hm name) Hv) as E. cbn [fst snd] in E.
    fold (at_model m name). rewrite E. set (v := (r, q, t)) in *.
    assert (Hstep : forall n, plus3 (at_model m n) (total_of n ((name, v) :: rows))
      = plus3 (if name == n then plus3 (at_model m name) v else at_model m n) (total_of n rows)).
    { intros n. unfold total_of. rewrite fmap_cons. simpl. case_bool_decide as En; simpl in En.
      - subst n. by rewrite plus3_assoc.
      - by rewrite plus3_zero. }
    destruct (fits3 (plus3 (at_model m name) v)) eqn:Hf.
    + specialize (IH (<[name := plus3 (at_model m name) v]> m) Hn).
      assert (Hm' : good_map (<[name := plus3 (at_model m name) v]> m)).
      { intros n. rewrite at_model_insert. case_bool_decide; [|done]. split; [|done].
        apply plus3_nonneg; [apply Hm|done]. }
      specialize (IH Hm'). destruct (totals_by_model _ _) as [m'|].
      * destruct IH as (A&B&C). split; [done|]. split.
        -- intros n. by rewrite B, at_model_insert, Hstep.
        -- intros n. rewrite C, fmap_cons, elem_of_cons. simpl. destruct (decide (n = name)) as [->|Hne].
           ++ rewrite lookup_insert_eq. split; [tauto|]. intros _. left. by eexists.
           ++ rewrite lookup_insert_ne by done. tauto.
      * destruct IH as (n&Hbad). exists n. by rewrite Hstep, <- at_model_insert.
    + exists name. rewrite Hstep, bool_decide_eq_true_2 by done. apply not_true_iff_false. intros H.
      apply fits3_plus_l in H; [congruence|by apply total_of_nonneg].
Qed.

(** ** Residual rows *)
Definition exceeding (flowTotals : gmap string metricTotals) (entry : string * metricTotals) : bool :=
  exceeds (at_model flowTotals entry.1) entry.2.
Definition residual_of (flowTotals : gmap string metricTotals) (entry : string * metricTotals) : list UsageFactInput :=
  let residual := minus3 entry.2 (at_model flowTotals entry.1) in
  if residual == no_metrics then [] else [residual_fact entry.1 residual].

Lemma add_residuals_ok flowTotals entries : forall facts status, existsb (exceeding flowTotals) entries = false ->
  add_residuals flowTotals entries facts status
  = (facts ++ (entries ≫= residual_of flowTotals),
     Some (match entries ≫= residual_of flowTotals with [] => status | _ => UsageAttributionLegacyUnattributed end)).
Proof.
  induction entries as [|[n e] entries IH]; intros facts status H; [by simpl; rewrite app_nil_r|].
  simpl in H. apply orb_false_iff in H as [H1 H]. unfold exceeding in H1. cbn [fst snd] in H1.
  cbn [add_residuals mbind list_bind]. fold (at_model flowTotals n). rewrite H1.
  destruct (minus3 e (at_model flowTotals n) == no_metrics) eqn:E; rewrite IH by done.
  - assert (Hr : residual_of flowTotals (n, e) = []) by (unfold residual_of; cbn [fst snd]; by rewrite E).
    by rewrite Hr.
  - assert (Hr : residual_of flowTotals (n, e) = [residual_fact n (minus3 e (at_model flowTotals n))])
      by (unfold residual_of; cbn [fst snd]; by rewrite E).
    rewrite Hr, <- app_assoc. by destruct (mbind _ entries).
Qed.

Lemma add_residuals_refused flowTotals entries : forall facts status, existsb (exceeding flowTotals) entries = true ->
  exists facts', add_residuals flowTotals entries facts status = (facts', None).
Proof.
  induction entries as [|[n e] entries IH]; intros facts status H; simpl; [done|].
  simpl in H. fold (at_model flowTotals n). unfold exceeding in H at 1. cbn [fst snd] in H.
  destruct (exceeds _ _); [by eexists|]. simpl in H. case_bool_decide; by apply IH.
Qed.

Lemma minus3_plus a b : plus3 a (minus3 b a) = b.
Proof. destruct b as [[x y] z]. unfold plus3, minus3. simpl. f_equal; [f_equal|]; lia. Qed.

Lemma residual_metrics flowTotals n e :
  map fact_metrics (residual_of flowTotals (n, e)) = [] /\ minus3 e (at_model flowTotals n) = no_metrics \/
  map fact_metrics (residual_of flowTotals (n, e)) = [(n, minus3 e (at_model flowTotals n))].
Proof. unfold residual_of. cbn [fst snd]. case_bool_decide; [by left|by right]. Qed.

Lemma residuals_models flowTotals entries n :
  n ∈ (map fact_metrics (entries ≫= residual_of flowTotals)).*1 -> n ∈ entries.*1.
Proof.
  induction entries as [|[m e] entries IH]; simpl; [done|]. rewrite map_app, fmap_app, elem_of_app, elem_of_cons.
  intros [H|H]; [left|right; by apply IH].
  destruct (residual_metrics flowTotals m e) as [[E _]|E]; rewrite E in H; simpl in H; set_solver.
Qed.

(** The residuals count what the flow rows lack. *)
Lemma residuals_total flowTotals entries n e : NoDup entries.*1 -> (n, e) ∈ entries ->
  total_of n (map fact_metrics (entries ≫= residual_of flowTotals)) = minus3 e (at_model flowTotals n).
Proof.
  induction entries as [|[m x] entries IH]; [by intros _ ?%not_elem_of_nil|].
  rewrite fmap_cons, NoDup_cons. intros [Hm Hnd] Hin. cbn [mbind list_bind]. rewrite map_app, total_of_app.
  apply elem_of_cons in Hin as [[= <- <-]|Hin].
  - rewrite (total_of_absent n (map fact_metrics (entries ≫= _))), plus3_comm by (intros H; by apply residuals_models in H).
    destruct (residual_metrics flowTotals n e) as [[-> ->]| ->]; [done|].
    rewrite total_of_single. apply plus3_zero.
  - assert (m <> n) by (intros ->; apply Hm; by apply (list_elem_of_fmap_2 fst) in Hin).
    rewrite (total_of_absent n (map fact_metrics (residual_of _ (m, x)))), plus3_zero; [by apply IH|].
    destruct (residual_metrics flowTotals m x) as [[-> _]| ->]; simpl; set_solver.
Qed.

(** ** When an hour is refused *)
Definition flow_total (flow : list UpstreamFlowRow) (n : string) := total_of n (map flow_metrics flow).
Definition data_total (data : list UpstreamDataRow) (n : string) := total_of n (map data_metrics data).
Definition facts_of_model (facts : list UsageFactInput) (n : string) := total_of n (map fact_metrics facts).

(** Rows the code accepts, with totals that fit. *)
Record rows_ok (flow : list UpstreamFlowRow) (data : list UpstreamDataRow) : Prop := {
  flow_ok : forallb flow_row_valid flow = true;
  data_ok : forallb data_row_valid data = true;
  flow_fits : forall n, fits3 (flow_total flow n) = true;
  data_fits : forall n, fits3 (data_total data n) = true
}.

Lemma flow_nonneg flow : forallb flow_row_valid flow = true -> nonneg_rows (map flow_metrics flow).
Proof.
  rewrite forallb_forall. intros H. apply List.Forall_map, List.Forall_forall. intros r Hr%H.
  unfold flow_row_valid in Hr. to_prop. unfold nonneg3. simpl. lia.
Qed.

Lemma data_nonneg data : forallb data_row_valid data = true -> nonneg_rows (map data_metrics data).
Proof.
  rewrite forallb_forall. intros H. apply List.Forall_map, List.Forall_forall. intros r Hr%H.
  unfold data_row_valid in Hr. to_prop. unfold nonneg3. simpl. lia.
Qed.

Lemma good_empty : good_map ∅.
Proof. intros n. unfold at_model. rewrite lookup_empty. by repeat split. Qed.

(** The totals of rows, when they fit and when they do not. *)
Lemma totals_fit rows : nonneg_rows rows -> (forall n, fits3 (total_of n rows) = true) ->
  exists m, totals_by_model rows ∅ = Some m /\ (forall n, at_model m n = total_of n rows) /\
    (forall n, is_Some (m !! n) <-> n ∈ rows.*1).
Proof.
  intros Hn Hf. pose proof (totals_by_model_spec rows ∅ Hn good_empty) as H.
  destruct (totals_by_model rows ∅) as [m|].
  - destruct H as (_&Ht&Hk). exists m. split; [done|]. split.
    + intros n. rewrite Ht. unfold at_model. by rewrite lookup_empty, plus3_zero.
    + intros n. rewrite Hk, lookup_empty. split; [by intros [[? ?]|?]|by right].
  - exfalso. destruct H as (n&H). unfold at_model in H. rewrite lookup_empty, plus3_zero, Hf in H. done.
Qed.

Lemma totals_fit_inv rows m : nonneg_rows rows -> totals_by_model rows ∅ = Some m ->
  forall n, fits3 (total_of n rows) = true.
Proof.
  intros Hn H n. pose proof (totals_by_model_spec rows ∅ Hn good_empty) as Hs. rewrite H in Hs.
  destruct Hs as (Hg&Ht&_). specialize (Ht n). unfold at_model in Ht at 2. rewrite lookup_empty, plus3_zero in Ht.
  rewrite <- Ht. apply Hg.
Qed.

Lemma exceeds_nothing a : nonneg3 a -> exceeds a no_metrics = negb (a == no_metrics).
Proof.
  destruct a as [[x y] z]. intros (A&B&C). unfold exceeds, no_metrics. simpl in *.
  case_bool_decide as E; simpl.
  - injection E as -> -> ->. done.
  - destruct (0 <? x) eqn:E1, (0 <? y) eqn:E2, (0 <? z) eqn:E3; try done. to_prop. exfalso. apply E.
    f_equal; [f_equal|]; lia.
Qed.

Lemma map_flow_fact flow : map fact_metrics (map flow_fact flow) = map flow_metrics flow.
Proof. rewrite List.map_map. apply List.map_ext. by intros []. Qed.

Section Reconcile.
Context (range : gmap string metricTotals -> list (string * metricTotals)).
Hypothesis range_lists : forall m, range m ≡ₚ map_to_list m.

Lemma elem_of_range m n t : (n, t) ∈ range m <-> m !! n = Some t.
Proof. by rewrite range_lists, elem_of_map_to_list. Qed.

Lemma range_NoDup m : NoDup (range m).*1.
Proof. rewrite range_lists. apply NoDup_fst_map_to_list. Qed.

Lemma existsb_range (p : string * metricTotals -> bool) m :
  existsb p (range m) = false <-> forall n t, m !! n = Some t -> p (n, t) = false.
Proof.
  rewrite <- not_true_iff_false, existsb_exists. split.
  - intros H n t Hn. apply not_true_iff_false. intros Hp. apply H. exists (n, t).
    split; [|done]. apply list_elem_of_In. by apply elem_of_range.
  - intros H ([n t]&Hin%list_elem_of_In&Hp). apply elem_of_range in Hin. by rewrite H in Hp.
Qed.

Section Rows.
Context (flow : list UpstreamFlowRow) (data : list UpstreamDataRow) (Hok : rows_ok flow data).
Context (fm dm : gmap string metricTotals).
Hypothesis flow_at : forall n, at_model fm n = flow_total flow n.
Hypothesis data_at : forall n, at_model dm n = data_total data n.
Hypothesis data_keys : forall n, is_Some (dm !! n) <-> n ∈ (map data_metrics data).*1.

Lemma absent_total n : dm !! n = None -> data_total data n = no_metrics.
Proof. intros H. rewrite <- data_at. unfold at_model. by rewrite H. Qed.

Lemma flow_total_nonneg n : nonneg3 (flow_total flow n).
Proof. apply total_of_nonneg, flow_nonneg, Hok. Qed.

(** The two checks before the residuals fail together exactly when a model's
    flow rows count more than its data rows. *)
Lemma checks_pass :
  unexpected range fm dm = false /\ existsb (exceeding fm) (range dm) = false <->
  forall n, exceeds (flow_total flow n) (data_total data n) = false.
Proof.
  unfold unexpected. rewrite !existsb_range. split.
  - intros [Hu He] n. destruct (dm !! n) as [t|] eqn:E.
    + specialize (He n t E). unfold exceeding in He. cbn [fst snd] in He. rewrite flow_at in He.
      rewrite <- data_at. unfold at_model. by rewrite E.
    + rewrite (absent_total n E), exceeds_nothing by apply flow_total_nonneg. apply negb_false_iff.
      rewrite <- flow_at. unfold at_model. destruct (fm !! n) as [t|] eqn:Ef; [|done].
      specialize (Hu n t Ef). cbv beta iota in Hu. rewrite E in Hu. simpl in Hu. by apply negb_false_iff in Hu.
  - intros H. split.
    + intros n t Hn. destruct (dm !! n) eqn:E; [done|]. specialize (H n).
      rewrite (absent_total n E), exceeds_nothing in H by apply flow_total_nonneg.
      rewrite <- flow_at in H. unfold at_model in H. rewrite Hn in H. exact H.
    + intros n t Hn. unfold exceeding. cbn [fst snd]. specialize (H n). rewrite <- data_at, <- flow_at in H.
      unfold at_model at 2 in H. by rewrite Hn in H.
Qed.

(** Then the facts count what the data rows count. *)
Lemma facts_total_data n : (forall n, exceeds (flow_total flow n) (data_total data n) = false) ->
  facts_of_model (map flow_fact flow ++ (range dm ≫= residual_of fm)) n = data_total data n.
Proof.
  intros Hle. unfold facts_of_model. rewrite map_app, total_of_app, map_flow_fact. fold (flow_total flow n).
  destruct (dm !! n) as [t|] eqn:E.
  - rewrite (residuals_total fm (range dm) n t), flow_at by (first [apply range_NoDup|by apply elem_of_range]).
    rewrite minus3_plus, <- data_at. unfold at_model. by rewrite E.
  - rewrite (total_of_absent n (map fact_metrics _)), plus3_comm, plus3_zero.
    + specialize (Hle n). rewrite (absent_total n E) in Hle |- *.
      rewrite exceeds_nothing in Hle by apply flow_total_nonneg. by apply negb_false_iff, bool_decide_eq_true in Hle.
    + intros Hin%residuals_models. apply list_elem_of_fmap in Hin as ([m x]&->&Hin%elem_of_range).
      simpl in E. congruence.
Qed.
End Rows.
End Reconcile.

(** Either the rows are accepted, with their totals, or the hour is invalid. *)
Lemma rows_cases range flow data :
  (rows_ok flow data /\ exists fm dm,
     totals_by_model (map flow_metrics flow) ∅ = Some fm /\ data_totals data = Some dm /\
     (forall n, at_model fm n = flow_total flow n) /\ (forall n, at_model dm n = data_total data n) /\
     (forall n, is_Some (dm !! n) <-> n ∈ (map data_metrics data).*1)) \/
  (~ rows_ok flow data /\ reconcileUsageFacts range flow data = ([], "", Some UpstreamErrorResponseInvalid)).
Proof.
  unfold reconcileUsageFacts, usageFactsFromFlow, data_totals.
  destruct (forallb flow_row_valid flow) eqn:Hf; [|right; split; [intros []; congruence|done]].
  destruct (totals_by_model (map flow_metrics flow) ∅) as [fm|] eqn:Hfm.
  2: { right. split; [|done]. intros [_ _ H _].
       destruct (totals_fit _ (flow_nonneg _ Hf) H) as (m&E&_). congruence. }
  destruct (forallb data_row_valid data) eqn:Hd; [|right; split; [intros []; congruence|done]].
  destruct (totals_by_model (map data_metrics data) ∅) as [dm|] eqn:Hdm.
  2: { right. split; [|done]. intros [_ _ _ H].
       destruct (totals_fit _ (data_nonneg _ Hd) H) as (m&E&_). congruence. }
  left. assert (Hok : rows_ok flow data).
  { split; [done|done| |]; intros n; by eapply totals_fit_inv; [apply flow_nonneg + apply data_nonneg|]. }
  split; [done|]. exists fm, dm. split; [done|]. split; [done|].
  destruct (totals_fit _ (flow_nonneg _ Hf) (flow_fits _ _ Hok)) as (m1&E1&A1&_).
  destruct (totals_fit _ (data_nonneg _ Hd) (data_fits _ _ Hok)) as (m2&E2&A2&K2).
  assert (m1 = fm) as -> by congruence. assert (m2 = dm) as -> by congruence. done.
Qed.

(** What a reconciliation without an error consists of. *)
Record reconciled (flow : list UpstreamFlowRow) (data : list UpstreamDataRow) (facts : list UsageFactInput)
    (status : string) : Prop := {
  reconciled_rows : exists residuals, facts = map flow_fact flow ++ residuals /\
    NoDup (FactInput.ModelName <$> residuals) /\
    (forall n, minus3 (data_total data n) (flow_total flow n) <> no_metrics <->
               n ∈ FactInput.ModelName <$> residuals) /\
    (forall f, f ∈ residuals ->
       f = residual_fact f.(FactInput.ModelName) (minus3 (data_total data f.(FactInput.ModelName))
                                                       (flow_total flow f.(FactInput.ModelName)))) /\
    status = match residuals with [] => UsageAttributionAttributed | _ => UsageAttributionLegacyUnattributed end;
  reconciled_totals : forall n, facts_of_model facts n = data_total data n
}.

Lemma residuals_names fm entries : NoDup entries.*1 ->
  NoDup (FactInput.ModelName <$> (entries ≫= residual_of fm)) /\
  (forall n, n ∈ FactInput.ModelName <$> (entries ≫= residual_of fm) <->
     exists t, (n, t) ∈ entries /\ minus3 t (at_model fm n) <> no_metrics) /\
  (forall f, f ∈ entries ≫= residual_of fm -> exists t, (f.(FactInput.ModelName), t) ∈ entries /\
     f = residual_fact f.(FactInput.ModelName) (minus3 t (at_model fm f.(FactInput.ModelName)))).
Proof.
  induction entries as [|[m t] entries IH]; [intros _; split; [constructor|split; [|by intros f ?%not_elem_of_nil]]|].
  - intros n. split; [by intros ?%not_elem_of_nil|by intros (t&?%not_elem_of_nil&_)].
  - rewrite fmap_cons, NoDup_cons. intros [Hm Hnd]. destruct (IH Hnd) as (A&B&C). cbn [mbind list_bind].
    assert (Hcase : residual_of fm (m, t) = [] /\ minus3 t (at_model fm m) = no_metrics \/
      residual_of fm (m, t) = [residual_fact m (minus3 t (at_model fm m))] /\ minus3 t (at_model fm m) <> no_metrics).
    { unfold residual_of. cbn [fst snd]. case_bool_decide; [by left|by right]. }
    assert (Hfresh : forall x, (m, x) ∉ entries) by (intros x Hx; apply Hm; by apply (list_elem_of_fmap_2 fst) in Hx).
    destruct Hcase as [[-> Hz]|[-> Hz]]; cbn [app fmap list_fmap].
    + split; [exact A|]. split; [|intros f (x&Hx&Hf)%C; exists x; set_solver].
      intros n. rewrite B. split; intros (x&Hx&Hnz); exists x; (split; [|done]); [set_solver|].
      apply elem_of_cons in Hx as [[= -> ->]|Hx]; [done|done].
    + split; [|split].
      * constructor; [|exact A]. rewrite B. intros (x&Hx&_). by eapply Hfresh.
      * intros n. rewrite elem_of_cons, B. split.
        -- intros [->|(x&Hx&?)]; [exists t; set_solver|exists x; set_solver].
        -- intros (x&[[= -> ->]|Hx]%elem_of_cons&?); [by left|right; by exists x].
      * intros f [->|Hf]%elem_of_cons; [exists t; set_solver|]. apply C in Hf as (x&Hx&Hf). exists x. set_solver.
Qed.

Section Outcome.
Context (range : gmap string metricTotals -> list (string * metricTotals)).
Hypothesis range_lists : forall m, range m ≡ₚ map_to_list m.

Lemma reconcile_mismatch flow data : rows_ok flow data ->
  ~ (forall n, exceeds (flow_total flow n) (data_total data n) = false) ->
  exists facts, reconcileUsageFacts range flow data = (facts, "", Some UpstreamErrorDataMismatch).
Proof.
  intros Hok Hex. destruct (rows_cases range flow data) as [(_&fm&dm&Hfm&Hdm&Hfa&Hda&Hk)|[Hno _]]; [|done].
  unfold reconcileUsageFacts, usageFactsFromFlow. rewrite (flow_ok _ _ Hok), Hfm, Hdm.
  destruct (unexpected range fm dm) eqn:Hu; [by eexists|].
  destruct (existsb (exceeding fm) (range dm)) eqn:He.
  - destruct (add_residuals_refused fm (range dm) (map flow_fact flow) UsageAttributionAttributed He) as (fs&->).
    by eexists.
  - exfalso. apply Hex. by apply (checks_pass range range_lists flow data Hok fm dm Hfa Hda).
Qed.

Lemma reconcile_ok flow data : rows_ok flow data ->
  (forall n, exceeds (flow_total flow n) (data_total data n) = false) ->
  exists facts status, reconcileUsageFacts range flow data = (facts, status, None) /\ reconciled flow data facts status.
Proof.
  intros Hok Hle. destruct (rows_cases range flow data) as [(_&fm&dm&Hfm&Hdm&Hfa&Hda&Hk)|[Hno _]]; [|done].
  destruct (proj2 (checks_pass range range_lists flow data Hok fm dm Hfa Hda) Hle) as [Hu He].
  unfold reconcileUsageFacts, usageFactsFromFlow. rewrite (flow_ok _ _ Hok), Hfm, Hdm, Hu, add_residuals_ok by done.
  set (residuals := range dm ≫= residual_of fm).
  assert (Htot : forall n, total_of n (map fact_metrics (map flow_fact flow ++ residuals)) = data_total data n).
  { intros n. by apply (facts_total_data range range_lists flow data Hok fm dm Hfa Hda). }
  assert (Hnn : nonneg_rows (map fact_metrics (map flow_fact flow ++ residuals))).
  { rewrite map_app, map_flow_fact. apply Forall_app. split; [by apply flow_nonneg, Hok|].
    apply List.Forall_map, List.Forall_forall. intros f Hf%list_elem_of_In.
    apply (residuals_names fm (range dm) (range_NoDup range range_lists dm)) in Hf as (t&Ht&->).
    apply (elem_of_range range range_lists) in Ht. set (n := FactInput.ModelName f) in *. specialize (Hle n).
    rewrite <- Hda, <- Hfa in Hle. unfold at_model at 2 in Hle. rewrite Ht in Hle. cbn [default] in Hle.
    unfold exceeds in Hle. unfold nonneg3, minus3. simpl in *. to_prop. lia. }
  destruct (totals_fit _ Hnn) as (rm&->&Hra&Hrk); [intros n; rewrite Htot; apply Hok|].
  assert (Hfinal : existsb (fun '(modelName, expected) => default no_metrics (rm !! modelName) != expected) (range dm)
    || unexpected range rm dm = false).
  { apply orb_false_iff. unfold unexpected. rewrite !(existsb_range range range_lists). split; intros n t Hn; cbv beta iota.
    - apply negb_false_iff, bool_decide_eq_true. fold (at_model rm n). rewrite Hra, Htot, <- Hda.
      unfold at_model. by rewrite Hn.
    - destruct (dm !! n) as [x|] eqn:E; [done|]. simpl. apply negb_false_iff, bool_decide_eq_true.
      assert (at_model rm n = t) as <- by (unfold at_model; by rewrite Hn).
      rewrite Hra, Htot. exact (absent_total data dm Hda n E). }
  rewrite Hfinal. do 2 eexists. split; [reflexivity|]. split; [|exact Htot].
  exists residuals. destruct (residuals_names fm (range dm) (range_NoDup range range_lists dm)) as (A&B&C).
  split; [done|]. split; [exact A|]. split; [|split; [|done]].
  - intros n. unfold residuals. rewrite B. split.
    + intros Hne. destruct (dm !! n) as [t|] eqn:E.
      * exists t. rewrite elem_of_range by done. split; [done|]. rewrite Hfa.
        assert (t = data_total data n) as -> by (rewrite <- Hda; unfold at_model; by rewrite E). done.
      * exfalso. specialize (Hle n). rewrite (absent_total data dm Hda n E) in Hle, Hne.
        rewrite exceeds_nothing in Hle by (by apply flow_total_nonneg with (data := data)).
        apply negb_false_iff, bool_decide_eq_true in Hle. by rewrite Hle in Hne.
    + intros (t&Ht%(elem_of_range range range_lists)&Hne). rewrite <- Hda, <- Hfa. unfold at_model at 1. by rewrite Ht.
  - intros f Hf. apply C in Hf as (t&Ht%(elem_of_range range range_lists)&Hf). rewrite Hf at 1. f_equal.
    rewrite <- Hda, <- Hfa. unfold at_model at 2. by rewrite Ht.
Qed.

Lemma reconcileUsageFacts_outcome flow data :
  match reconcileUsageFacts range flow data with
  | (facts, status, None) => rows_ok flow data /\
      (forall n, exceeds (flow_total flow n) (data_total data n) = false) /\ reconciled flow data facts status
  | (_, _, Some UpstreamErrorResponseInvalid) => ~ rows_ok flow data
  | (_, _, Some UpstreamErrorDataMismatch) => rows_ok flow data /\
      ~ forall n, exceeds (flow_total flow n) (data_total data n) = false
  | _ => False
  end.
Proof.
  destruct (rows_cases range flow data) as [(Hok&fm&dm&_&_&Hfa&Hda&_)|[Hno ->]]; [|done].
  destruct (decide (unexpected range fm dm = false /\ existsb (exceeding fm) (range dm) = false)) as [Hc|Hc];
    rewrite (checks_pass range range_lists flow data Hok fm dm Hfa Hda) in Hc.
  - by destruct (reconcile_ok flow data Hok Hc) as (facts&status&->&Hr).
  - by destruct (reconcile_mismatch flow data Hok Hc) as (facts&->).
Qed.

(** C34: an hour is invalid exactly when a row is refused or the total of a
    model leaves int64; otherwise it is a mismatch exactly when the flow rows
    of some model count more requests, quota or tokens than its data rows; and
    otherwise it is reconciled: the facts are the flow rows in their order,
    then one unattributed row for each model whose rows differ, with the
    difference, so that per model the facts count what the data rows count, and
    the attribution says whether there are such rows.  The order in which the
    maps are walked has no influence, and the checks after the residuals never
    fail. *)
Theorem reconcileUsageFacts_decides flow data :
  let '(facts, status, err) := reconcileUsageFacts range flow data in
  (err = Some UpstreamErrorResponseInvalid <-> ~ rows_ok flow data) /\
  (err = Some UpstreamErrorDataMismatch <->
     rows_ok flow data /\ ~ forall n, exceeds (flow_total flow n) (data_total data n) = false) /\
  (err = None -> reconciled flow data facts status) /\
  err ∈ [None; Some UpstreamErrorResponseInvalid; Some UpstreamErrorDataMismatch].
Proof.
  pose proof (reconcileUsageFacts_outcome flow data) as H.
  destruct (reconcileUsageFacts range flow data) as [[facts status] [e|]].
  - destruct e; try done; (split; [split; [done|tauto]|]; split; [split; [done|tauto]|]; split; [done|set_solver]).
  - split; [split; [done|tauto]|]. split; [split; [done|tauto]|]. split; [tauto|set_solver].
Qed.
End Outcome.

(** ** The mutation accepts what was reconciled *)
Lemma inputs_total_nonneg q input : (forall v, v ∈ input -> input_valid v = true) -> nonneg3 (inputs_total q input).
Proof.
  intros H. apply sum3_nonneg, Forall_fmap, Forall_forall. intros v Hv. simpl.
  destruct (q _); [by apply input_valid_counts, H|by repeat split].
Qed.

Lemma merge_facts_succeeds s h c input : forall m, merged s h c m ->
  (forall v, v ∈ input -> input_valid v = true) ->
  (forall k, fits3 (plus3 (entry_total (m !! k)) (inputs_total (fun k' => k' == k) input)) = true) ->
  exists m', merge_facts s h c input m = Ok m'.
Proof.
  induction input as [|v input IH]; intros m Hm Hv Hf; [by eexists|].
  rewrite merge_facts_cons. unfold mbind, result_bind.
  assert (Hvv : input_valid v = true) by (apply Hv; set_solver).
  assert (Hrest : forall w, w ∈ input -> input_valid w = true) by (intros w Hw; apply Hv; set_solver).
  assert (Hstep : forall k, inputs_total (fun k' => k' == k) (v :: input)
    = plus3 (if input_key v == k then input_counts v else (0, 0, 0)) (inputs_total (fun k' => k' == k) input)) by done.
  rewrite merge_row_valid by done. unfold mbind, result_bind.
  rewrite (add_row_ok s h c (m !! input_key v) v) by (by first [apply (merged_entry s h c)|done]).
  assert (Hone : fits3 (plus3 (entry_total (m !! input_key v)) (input_counts v)) = true).
  { specialize (Hf (input_key v)). rewrite Hstep, bool_decide_eq_true_2, plus3_assoc in Hf by done.
    apply fits3_plus_l in Hf; [done|by apply inputs_total_nonneg]. }
  rewrite Hone. apply IH; [|done|].
  - eapply (merge_row_merged s h c v m); [done|]. rewrite merge_row_valid by done. unfold mbind, result_bind.
    rewrite add_row_ok by (by first [apply (merged_entry s h c)|done]). by rewrite Hone.
  - intros k. specialize (Hf k). rewrite Hstep in Hf. destruct (decide (input_key v = k)) as [<-|Hk].
    + rewrite bool_decide_eq_true_2, plus3_assoc in Hf by done. by rewrite lookup_insert_eq.
    + rewrite bool_decide_eq_false_2, plus3_zero in Hf by done. by rewrite lookup_insert_ne.
Qed.

(** The counts of one key are part of the counts of its model. *)
Lemma key_within_model input k : (forall v, v ∈ input -> input_valid v = true) ->
  fits3 (facts_of_model input k.1.1.1.1.2) = true -> fits3 (inputs_total (fun k' => k' == k) input) = true.
Proof.
  intros Hv. set (n := k.1.1.1.1.2).
  assert (Hsplit : facts_of_model input n = plus3 (inputs_total (fun k' => k' == k) input)
    (inputs_total (fun k' => negb (k' == k) && (k'.1.1.1.1.2 == n)) input)).
  { unfold facts_of_model, total_of, inputs_total. clear Hv. induction input as [|v input IH]; [done|].
    rewrite map_cons, !fmap_cons. cbn [sum3 foldr]. fold sum3. unfold sum3 in IH. rewrite IH.
    change ((input_key v).1.1.1.1.2) with (FactInput.ModelName v). cbn [fact_metrics fst snd].
    destruct (decide (input_key v = k)) as [E|E].
    - rewrite (bool_decide_eq_true_2 (input_key v = k)) by done. cbn [negb andb].
      rewrite bool_decide_eq_true_2 by (unfold n; by rewrite <- E).
      rewrite plus3_zero, plus3_assoc. done.
    - rewrite (bool_decide_eq_false_2 (input_key v = k)) by done. cbn [negb andb]. rewrite plus3_zero.
      rewrite !plus3_assoc. f_equal. apply plus3_comm. }
  rewrite Hsplit. intros Hf. apply fits3_plus_l in Hf; [done|by apply inputs_total_nonneg].
Qed.

Lemma validUpstreamString_usage s m : validUpstreamString s 0 m = true -> validUsageString s m = true.
Proof. unfold validUpstreamString, validUsageString. intros H. to_prop. tauto. Qed.

Lemma flow_fact_valid row : flow_row_valid row = true -> input_valid (flow_fact row) = true.
Proof.
  unfold flow_row_valid, input_valid. destruct row. simpl. intros H. to_prop.
  repeat match goal with H : _ /\ _ |- _ => destruct H end.
  repeat match goal with H : validUpstreamString _ 0 _ = true |- _ => apply validUpstreamString_usage in H end.
  repeat split; try lia; try assumption; try (left; unfold UsageLegacyUnattributedRemoteUserID; lia). right. assumption.
Qed.

Lemma residual_fact_valid n r : nonneg3 r -> validUsageString n 255 = true -> input_valid (residual_fact n r) = true.
Proof.
  intros (A&B&C) Hn. unfold input_valid, residual_fact. simpl. rewrite Hn.
  rewrite (proj2 (Z.leb_le 0 _) A), (proj2 (Z.leb_le 0 _) B), (proj2 (Z.leb_le 0 _) C).
  vm_compute. done.
Qed.

Lemma reconciled_valid flow data facts status : rows_ok flow data ->
  (forall n, exceeds (flow_total flow n) (data_total data n) = false) ->
  reconciled flow data facts status -> forall v, v ∈ facts -> input_valid v = true.
Proof.
  intros Hok Hle [(residuals&->&_&Hnames&Hres&_) _] v. rewrite elem_of_app. intros [Hv|Hv].
  - apply list_elem_of_In, List.in_map_iff in Hv as (row&<-&Hrow). apply flow_fact_valid.
    pose proof (flow_ok _ _ Hok) as Hf. rewrite forallb_forall in Hf. by apply Hf.
  - rewrite (Hres v Hv). set (n := FactInput.ModelName v). specialize (Hle n).
    assert (Hdiff : minus3 (data_total data n) (flow_total flow n) <> no_metrics).
    { apply Hnames. apply list_elem_of_fmap. by exists v. }
    apply residual_fact_valid.
    + unfold exceeds in Hle. unfold nonneg3, minus3. simpl. to_prop. lia.
    + destruct (decide (n ∈ (map data_metrics data).*1)) as [Hin|Hno].
      * apply list_elem_of_fmap in Hin as (p&En&Hp). apply list_elem_of_In, List.in_map_iff in Hp as (row&<-&Hrow).
        pose proof (data_ok _ _ Hok) as Hd. rewrite forallb_forall in Hd. specialize (Hd row Hrow).
        unfold data_row_valid in Hd. to_prop. simpl in En. rewrite En. apply validUpstreamString_usage. tauto.
      * exfalso. unfold data_total in Hle, Hdiff. rewrite (total_of_absent _ _ Hno) in Hle, Hdiff.
        rewrite exceeds_nothing in Hle by (by apply flow_total_nonneg with (data := data)).
        apply negb_false_iff, bool_decide_eq_true in Hle. by rewrite Hle in Hdiff.
Qed.

(** The attribution of canonical facts is read off their rows. *)
Lemma canonical_attribution sha siteID hourTS collectedAt input facts hash :
  canonicalUsageFacts sha siteID hourTS collectedAt input = Ok (facts, hash) ->
  usageAttributionStatus facts
  = if existsb (fun v => v.(FactInput.RemoteUserID) =? 0) input
    then UsageAttributionLegacyUnattributed else UsageAttributionAttributed.
Proof.
  intros (_&_&_&_&m&Hmerge&_&->&Hkeys)%canonical_map. unfold usageAttributionStatus, UsageLegacyUnattributedRemoteUserID.
  assert (Hk : forall k, k ∈ fact_key <$> sort_by fact_order (map_to_list m).*2 <-> k ∈ input_key <$> input).
  { intros k. rewrite (sort_by_perm fact_order), Hkeys.
    pose proof (merge_facts_keys _ _ _ _ k _ _ Hmerge) as Hk. rewrite lookup_empty in Hk.
    assert (Hs : is_Some (m !! k) <-> k ∈ (map_to_list m).*1).
    { rewrite list_elem_of_fmap. split.
      - intros [f Hf]. exists (k, f). by rewrite elem_of_map_to_list.
      - intros ([k' f]&->&Hf%elem_of_map_to_list). eauto. }
    rewrite <- Hs, Hk. split; [by intros [[? ?]|?]|by right]. }
  set (facts := sort_by _ _) in *.
  assert (E : existsb (fun f => Fact.RemoteUserID f =? 0) facts = existsb (fun v => FactInput.RemoteUserID v =? 0) input).
  { apply eq_true_iff_eq. rewrite !existsb_exists. split.
    - intros (f&Hf%list_elem_of_In&E). assert (Hin : fact_key f ∈ fact_key <$> facts) by by apply list_elem_of_fmap_2.
      apply Hk, list_elem_of_fmap in Hin as (v&Ev&Hv%list_elem_of_In). exists v. split; [done|].
      unfold fact_key, input_key in Ev. injection Ev as Ev _ _ _ _ _. by rewrite <- Ev.
    - intros (v&Hv%list_elem_of_In&E). assert (Hin : input_key v ∈ input_key <$> input) by by apply list_elem_of_fmap_2.
      apply Hk, list_elem_of_fmap in Hin as (f&Ev&Hf%list_elem_of_In). exists f. split; [done|].
      unfold fact_key, input_key in Ev. injection Ev as Ev _ _ _ _ _. by rewrite <- Ev. }
  by rewrite E.
Qed.

Lemma reconciled_attribution flow data facts status : rows_ok flow data -> reconciled flow data facts status ->
  (if existsb (fun v => v.(FactInput.RemoteUserID) =? 0) facts
   then UsageAttributionLegacyUnattributed else UsageAttributionAttributed) = status.
Proof.
  intros Hok [(residuals&->&_&_&Hres&->) _]. rewrite existsb_app.
  assert (existsb (fun v => FactInput.RemoteUserID v =? 0) (map flow_fact flow) = false) as ->.
  { apply not_true_iff_false. rewrite existsb_exists. intros (v&Hv&E). apply List.in_map_iff in Hv as (row&<-&Hrow).
    pose proof (flow_ok _ _ Hok) as Hf. rewrite forallb_forall in Hf. specialize (Hf row Hrow).
    unfold flow_row_valid in Hf. simpl in E. to_prop. lia. }
  destruct residuals as [|f rest]; [done|]. simpl. rewrite (Hres f) by set_solver. done.
Qed.

(** C35: the facts of a reconciled hour are accepted: with a valid target the
    complete mutation can be built from them and the attribution they came
    with, and its planned result carries that attribution. *)
Theorem reconciled_facts_accepted range flow data facts status sha target fetched :
  (forall m, range m ≡ₚ map_to_list m) ->
  reconcileUsageFacts range flow data = (facts, status, None) ->
  target_valid target fetched = true ->
  exists mutation planned,
    NewCompleteUsageWindowMutation sha (CompleteUsage.mk target fetched status facts) = Ok (mutation, planned) /\
    planned.(UsageResult.AttributionStatus) = status.
Proof.
  intros Hrange Hrec Ht. pose proof (reconcileUsageFacts_outcome range Hrange flow data) as Hd. rewrite Hrec in Hd.
  destruct Hd as (Hok&Hle&Hr).
  pose proof (reconciled_valid flow data facts status Hok Hle Hr) as Hv.
  destruct (merge_facts_succeeds target.(UsageTarget.SiteID) target.(UsageTarget.HourTS) target.(UsageTarget.Now) facts ∅)
    as (m&Hm); [intros k f Hk; by rewrite lookup_empty in Hk|done| |].
  { intros k. rewrite lookup_empty. simpl entry_total. rewrite plus3_zero. apply key_within_model; [done|].
    rewrite (reconciled_totals _ _ _ _ Hr). apply Hok. }
  unfold NewCompleteUsageWindowMutation. cbn [CompleteUsage.target CompleteUsage.FetchedRows CompleteUsage.Facts
    CompleteUsage.AttributionStatus].
  destruct (canonicalUsageFacts sha _ _ _ facts) as [[fs hash]|e] eqn:Hc.
  - unfold mbind, result_bind. rewrite Ht. cbn [negb orb].
    rewrite (canonical_attribution _ _ _ _ _ _ _ Hc), (reconciled_attribution flow data facts status Hok Hr).
    rewrite (bool_decide_eq_true_2 (status = status)) by done. cbn [negb]. rewrite andb_false_r. by do 2 eexists.
  - exfalso. unfold canonicalUsageFacts in Hc. rewrite Hm in Hc. unfold mbind, result_bind in Hc.
    unfold target_valid, validUsageMutationRequest in Ht. destruct (_ || _) eqn:Hg in Hc; [|done]. to_prop.
    unfold max_int64 in *. destruct (hour_aligned _); intuition (discriminate || lia).
Qed.

(** ** An hour with an unattributed remainder, and one that does not add up *)
Module ReconcileSample.
Definition flow : list UpstreamFlowRow :=
  [FlowRow.mk 5 "bob" "gpt" 3 "default" 4 "token" "node" 2 10 20; FlowRow.mk 9 "eve" "gpt" 3 "default" 4 "token" "node" 1 10 20].
Definition data (requests : Z) : list UpstreamDataRow :=
  [DataRow.mk "gpt" 3600 requests 30 50; DataRow.mk "o3" 3600 1 2 3].
Definition facts : list UsageFactInput :=
  map flow_fact flow ++ [residual_fact "gpt" (4, 10, 10); residual_fact "o3" (1, 2, 3)].
End ReconcileSample.

Lemma reconcileUsageFacts_decides_witness :
  (exists facts, reconcileUsageFacts map_to_list ReconcileSample.flow (ReconcileSample.data 7)
     = (facts, UsageAttributionLegacyUnattributed, None) /\ reconciled ReconcileSample.flow (ReconcileSample.data 7)
         facts UsageAttributionLegacyUnattributed) /\
  (rows_ok ReconcileSample.flow (ReconcileSample.data 2) /\
   ~ forall n, exceeds (flow_total ReconcileSample.flow n) (data_total (ReconcileSample.data 2) n) = false).
Proof.
  split.
  - pose proof (reconcileUsageFacts_decides map_to_list (fun m => reflexivity _) ReconcileSample.flow
      (ReconcileSample.data 7)) as H.
    destruct (reconcileUsageFacts _ _ _) as [[facts status] err] eqn:E.
    assert (Hs : status = UsageAttributionLegacyUnattributed /\ err = None).
    { vm_compute in E. injection E as _ <- <-. by split. }
    destruct Hs as [-> ->]. exists facts. split; [reflexivity|]. by apply H.
  - pose proof (reconcileUsageFacts_decides map_to_list (fun m => reflexivity _) ReconcileSample.flow
      (ReconcileSample.data 2)) as H.
    destruct (reconcileUsageFacts _ _ _) as [[facts status] err] eqn:E.
    apply H. vm_compute in E. by injection E as _ _ <-.
Defined.

Lemma reconciled_facts_accepted_witness : exists facts mutation planned,
  reconcileUsageFacts map_to_list ReconcileSample.flow (ReconcileSample.data 7)
    = (facts, UsageAttributionLegacyUnattributed, None) /\
  NewCompleteUsageWindowMutation UsageSample.sha
    (CompleteUsage.mk (UsageTarget.mk 100 101 7 3 7200 1 "worker-1" 20010) 4 UsageAttributionLegacyUnattributed facts)
    = Ok (mutation, planned).
Proof.
  destruct (reconcileUsageFacts map_to_list ReconcileSample.flow (ReconcileSample.data 7)) as [[facts status] err] eqn:E.
  assert (Hs : status = UsageAttributionLegacyUnattributed /\ err = None).
  { vm_compute in E. injection E as _ <- <-. by split. }
  destruct Hs as [-> ->].
  destruct (reconciled_facts_accepted map_to_list _ _ _ _ UsageSample.sha
    (UsageTarget.mk 100 101 7 3 7200 1 "worker-1" 20010) 4 (fun m => reflexivity _) E eq_refl) as (mutation&planned&H&_).
  exists facts, mutation, planned. split; [reflexivity|exact H].
Defined.
