(* ===== verification/UsageCollection.v ===== *)
(** * Collecting the usage of an hour ([service/usage_collection.go], [worker/jobs_usage.go])

    [CollectHour] checks the claimed window, opens the client of the site,
    fetches the two reports of the hour and turns them into the handler that
    commits the window: the usage, a failure, or a mismatch of the reports.
    An authorization the upstream refuses is expired in a transaction of its
    own ([service/site_auth_expiry.go]).

    The cipher, the HTTP client and its reports are parameters; so is the order
    in which Go ranges over a map.  The log is left out. *)

From S2P Require Import Prelude Constants GoText Json Stats DateBucket Store RunContract RunState RunRepository SiteFence TaskScope TaskClaim TaskCommit Materialize UsageFacts UsageAggregation UsageReconcile.

(** ** Errors of a request to the upstream ([service/upstream_errors.go]) *)
Module RequestError.
Record UpstreamRequestError := mk {
  Kind : UpstreamErrorKind; Detail : string; Method : string; Endpoint : string; StatusCode : Z; ContentType : string;
  PayloadBytes : Z; RetryAfter : Z; HasRetryAfter : bool; ResponseBytes : Z; LimitBytes : Z }.
#[export] Instance UpstreamRequestError_eq_dec : EqDecision UpstreamRequestError.
Proof. solve_decision. Defined.
End RequestError.
Export (hints) RequestError.
Abbreviation UpstreamRequestError := RequestError.UpstreamRequestError.

Definition newUpstreamRequestError (kind : UpstreamErrorKind) : UpstreamRequestError :=
  RequestError.mk kind "" "" "" 0 "" 0 0 false 0 0.

(** What an error is, as [errors.Is] and [errors.As] tell. *)
Inductive cause :=
| RequestFailed (e : UpstreamRequestError)
| Sentinel (kind : UpstreamErrorKind)   (* the ErrUpstream... value of the kind itself *)
| ContextCanceled
| ContextDeadlineExceeded
| ModelError (e : error)
| SiteConfigChanged               (* service.ErrSiteConfigChanged *)
| UpstreamLogFence                (* model.ErrUpstreamLogFence *)
| OtherError.

(** errors.Is(err, ErrUpstream...): the kind of a request error. *)
Definition is_kind (kind : UpstreamErrorKind) (c : cause) : bool :=
  match c with RequestFailed e => e.(RequestError.Kind) == kind | Sentinel k => k == kind | _ => false end.

Definition upstreamAuthorizationFailure (c : cause) : bool :=
  is_kind UpstreamErrorAuthExpired c || is_kind UpstreamErrorPermissionDenied c.

Definition firstError (first second : option cause) : option cause :=
  match first with Some _ => first | None => second end.

Definition usageAuthorizationFailure (first second : option cause) : option cause :=
  match first with
  | Some c => if upstreamAuthorizationFailure c then Some c else
      match second with Some c => if upstreamAuthorizationFailure c then Some c else None | None => None end
  | None => match second with Some c => if upstreamAuthorizationFailure c then Some c else None | None => None end
  end.

(** ** Codes *)
Definition CodeUpstreamUnavailable : string := "UPSTREAM_UNAVAILABLE".
Definition CodeUpstreamError : string := "UPSTREAM_ERROR".
Definition CodeUpstreamAddressForbidden : string := "UPSTREAM_ADDRESS_FORBIDDEN".
Definition MessageDataValidationMismatch : string := "DATA_VALIDATION_MISMATCH".
Definition MessageUpstreamResponseInvalid : string := "UPSTREAM_RESPONSE_INVALID".
Definition MessageUpstreamResponseTooLarge : string := "UPSTREAM_RESPONSE_TOO_LARGE".
Definition MessageDataUpstreamUnavailable : string := "DATA_UPSTREAM_UNAVAILABLE".
Definition UpstreamMaxResponseBytes : Z := Z.shiftl 64 20.

Definition response_invalid (c : cause) : bool :=
  is_kind UpstreamErrorResponseInvalid c || is_kind UpstreamErrorEnvelopeInvalid c.

Definition usageFailureCode (c : cause) : string :=
  if response_invalid c then MessageUpstreamResponseInvalid
  else if is_kind UpstreamErrorResponseTooLarge c then MessageUpstreamResponseTooLarge
  else if is_kind UpstreamErrorRemote c then CodeUpstreamError
  else CodeUpstreamUnavailable.

Definition usageFailureParams (code : string) (c : cause) (siteID hourTS : Z) : json_object :=
  let params := {["site_id" := JsonText (FormatInt siteID)]} in
  if code == MessageUpstreamResponseInvalid then params
  else if code == MessageUpstreamResponseTooLarge then
    let '(responseBytes, limitBytes) :=
      match c with
      | RequestFailed e =>
          if (0 <? e.(RequestError.ResponseBytes)) && (0 <? e.(RequestError.LimitBytes))
          then (e.(RequestError.ResponseBytes), e.(RequestError.LimitBytes))
          else (UpstreamMaxResponseBytes + 1, UpstreamMaxResponseBytes)
      | _ => (UpstreamMaxResponseBytes + 1, UpstreamMaxResponseBytes)
      end in
    <["limit_bytes" := JsonText (FormatInt limitBytes)]> (<["response_bytes" := JsonText (FormatInt responseBytes)]> params)
  else <["end_timestamp" := JsonNumber (hourTS + 3600)]> (<["start_timestamp" := JsonNumber hourTS]> params).

(** string(kind) *)
Definition kind_text (kind : UpstreamErrorKind) : string :=
  match kind with
  | UpstreamErrorAddressForbidden => "address_forbidden"
  | UpstreamErrorUnavailable => "unavailable"
  | UpstreamErrorAuthExpired => "auth_expired"
  | UpstreamErrorPermissionDenied => "permission_denied"
  | UpstreamErrorRateLimited => "rate_limited"
  | UpstreamErrorRemote => "upstream_error"
  | UpstreamErrorResponseInvalid => "response_invalid"
  | UpstreamErrorEnvelopeInvalid => "envelope_invalid"
  | UpstreamErrorResponseTooLarge => "response_too_large"
  | UpstreamErrorExportDisabled => "export_disabled"
  | UpstreamErrorCredentialOriginMismatch => "credential_origin_mismatch"
  | UpstreamErrorTokenRotationResultUnknown => "token_rotation_result_unknown"
  | UpstreamErrorDataMismatch => "data_mismatch"
  end.

(** A member that is left out when it says nothing. *)
Definition text_member (key value : string) (m : json_object) : json_object :=
  if value == "" then m else <[key := JsonText value]> m.
Definition number_member (key : string) (value : Z) (m : json_object) : json_object :=
  if 0 <? value then <[key := JsonNumber value]> m else m.

(** The parameters with what the request error tells, without its secrets. *)
Definition usageDiagnosticFailureParams (base : json_object) (c : cause) (phase : string) : json_object :=
  let params := <["failure_phase" := JsonText phase]> base in
  match c with
  | RequestFailed e =>
      let params := <["upstream_error_kind" := JsonText (kind_text e.(RequestError.Kind))]> params in
      let params := text_member "upstream_error_detail" e.(RequestError.Detail) params in
      let params := text_member "method" e.(RequestError.Method) params in
      let params := text_member "endpoint" e.(RequestError.Endpoint) params in
      let params := number_member "status_code" e.(RequestError.StatusCode) params in
      let params := text_member "content_type" e.(RequestError.ContentType) params in
      number_member "payload_bytes" e.(RequestError.PayloadBytes) params
  | _ => params
  end.

Definition usageWindowFailureReason (c : cause) (dataMismatch : bool) (siteID hourTS : Z) : string * string :=
  let code :=
    if dataMismatch then MessageDataValidationMismatch
    else if response_invalid c then MessageUpstreamResponseInvalid
    else if is_kind UpstreamErrorResponseTooLarge c then MessageUpstreamResponseTooLarge
    else MessageDataUpstreamUnavailable in
  (code, Marshal (usageFailureParams code c siteID hourTS)).

(** ** The request and its result *)
Module CollectRequest.
Record UsageCollectionRequest := mk { Run : CollectionRun; Window : CollectionRunWindow; RequestID : string }.
End CollectRequest.
Abbreviation UsageCollectionRequest := CollectRequest.UsageCollectionRequest.

Module CollectionFailure.
Record UsageCollectionFailure := mk { Code : string; Params : string; Cause : cause }.
End CollectionFailure.
Abbreviation UsageCollectionFailure := CollectionFailure.UsageCollectionFailure.

Module Collection.
Record UsageCollectionResult := mk {
  Commit : CollectionTaskWindowMutation; Planned : UsageWindowMutationResult; Failure : option UsageCollectionFailure;
  FlowRows : Z; DataRows : Z; SourceRequestID : string }.
End Collection.
Abbreviation UsageCollectionResult := Collection.UsageCollectionResult.

Definition no_plan : UsageWindowMutationResult := UsageResult.mk "" "" "" 0 0 false "" "".

(** A report of the upstream: its rows, and the error of the request. *)
Definition report (A : Type) : Type := list A * option cause.

Definition isUsageCollectionTaskType (taskType : string) : bool :=
  (taskType == TaskTypeUsageHour) || (taskType == TaskTypeUsageBackfill) || (taskType == TaskTypeUsageValidation).

Definition collect_request_valid (request : UsageCollectionRequest) : bool :=
  let run := request.(CollectRequest.Run) in
  let window := request.(CollectRequest.Window) in
  negb ((run.(Run.ID) <=? 0) || is_nil run.(Run.SiteID) || (window.(RunWindow.ID) <=? 0)
        || negb (window.(RunWindow.RunID) =? run.(Run.ID)) || negb (bool_decide (run.(Run.SiteID) = Some window.(RunWindow.SiteID)))
        || (window.(RunWindow.HourTS) <=? 0) || negb (hour_aligned window.(RunWindow.HourTS))
        || (max_int64 - 3600 <? window.(RunWindow.HourTS)) || negb (isUsageCollectionTaskType run.(Run.TaskType))
        || match run.(Run.StartTimestamp), run.(Run.EndTimestamp) with
           | Some start, Some end_ => (window.(RunWindow.HourTS) <? start) || (end_ <=? window.(RunWindow.HourTS))
           | _, _ => true
           end
        || (run.(Run.Status) != CollectionTaskStatusRunning) || (window.(RunWindow.Status) != CollectionTaskStatusRunning)
        || (run.(Run.LastRequestID) != request.(CollectRequest.RequestID)) || (request.(CollectRequest.RequestID) == "")).

Section Reports.
Context (sha256_hex : list Z -> string) (range : gmap string metricTotals -> list (string * metricTotals)).

(** The target all mutations of the request name. *)
Definition collect_target (request : UsageCollectionRequest) (siteID now : Z) : UsageTarget :=
  let run := request.(CollectRequest.Run) in
  let window := request.(CollectRequest.Window) in
  UsageTarget.mk run.(Run.ID) window.(RunWindow.ID) siteID run.(Run.SiteConfigVersion) window.(RunWindow.HourTS)
    window.(RunWindow.AttemptCount) request.(CollectRequest.RequestID) now.

(** [bindUsageFactOnlyCommit] and [bindUsageAggregationCommit]: the commits as
    handlers of the window. *)
Definition bindUsageFactOnlyCommit (mutation : UsageFactMutation) : result CollectionTaskWindowMutation :=
  Ok (fact_only_commit mutation).
Definition bindUsageAggregationCommit (request : UsageCollectionRequest) (now : Z) (newFacts : list UsageFactInput)
    (mutation : UsageFactMutation) : result CollectionTaskWindowMutation :=
  commit ← NewUsageAggregationCommit sha256_hex
             (collect_target request request.(CollectRequest.Window).(RunWindow.SiteID) now) newFacts mutation;
  Ok (aggregation_handler commit).

(** From the two reports to the commit of the window. *)
Definition collect_reports (request : UsageCollectionRequest) (siteID now : Z) (flow : report UpstreamFlowRow)
    (data : report UpstreamDataRow) : result UsageCollectionResult :=
  let hourTS := request.(CollectRequest.Window).(RunWindow.HourTS) in
  let flowRows := Z.of_nat (length flow.1) in
  let dataRows := Z.of_nat (length data.1) in
  let fetchedRows := flowRows + dataRows in
  let t := collect_target request siteID now in
  let failed c dataMismatch := let '(code, params) := usageWindowFailureReason c dataMismatch siteID hourTS in
    NewFailedUsageWindowMutation (FailedUsage.mk t fetchedRows code params dataMismatch) in
  let failure code c phase :=
    Some (CollectionFailure.mk code
            (Marshal (usageDiagnosticFailureParams (usageFailureParams code c siteID hourTS) c phase)) c) in
  let collected commit planned failure :=
    Ok (Collection.mk commit planned failure flowRows dataRows request.(CollectRequest.RequestID)) in
  match firstError flow.2 data.2 with
  | Some c =>
      mutation ← failed c false;
      commit ← bindUsageFactOnlyCommit mutation;
      collected commit no_plan (failure (usageFailureCode c) c "fetch")
  | None =>
      let '(facts, attributionStatus, consistencyErr) := reconcileUsageFacts range flow.1 data.1 in
      match consistencyErr with
      | Some kind =>
          let c := RequestFailed (newUpstreamRequestError kind) in
          let dataMismatch := is_kind UpstreamErrorDataMismatch c in
          let failureCode := if dataMismatch then MessageDataValidationMismatch else usageFailureCode c in
          mutation ← failed c dataMismatch;
          commit ← (if dataMismatch then bindUsageAggregationCommit request now facts mutation
                    else bindUsageFactOnlyCommit mutation);
          collected commit no_plan (failure failureCode c "validate")
      | None =>
          '(mutation, planned) ← NewCompleteUsageWindowMutation sha256_hex
                                   (CompleteUsage.mk t fetchedRows attributionStatus facts);
          commit ← bindUsageAggregationCommit request now facts mutation;
          collected commit planned None
      end
  end.
End Reports.

(** ** Expiring the authorization of a site *)
Definition monotonicMutationTime (now previous : Z) : Z := if now <=? previous then previous + 1 else now.

(** UPDATE of every column; gorm stamps the time. *)
Definition save_site (site : Site) : Tx unit :=
  clock ← st_gets Tables.gorm_now;
  _ ← db_update (fun s => s.(MSite.ID) =? site.(MSite.ID)) (fun _ => site <| MSite.UpdatedAt := clock |>);
  mret tt.

Definition expireSiteAuthorization (siteID expectedConfigVersion clock : Z) : Tx unit :=
  _ ← st_require (negb ((siteID <=? 0) || (expectedConfigVersion <=? 0))) ErrCollectionRunContract;
  site ← FindByIDForUpdate siteID;
  if negb (site.(MSite.ConfigVersion) =? expectedConfigVersion) then
    st_require ((site.(MSite.AuthStatus) == SiteAuthExpired) && (site.(MSite.ConfigVersion) =? expectedConfigVersion + 1))
      ErrSiteRunConfigChanged
  else if site.(MSite.AuthStatus) == SiteAuthExpired then mret tt
  else
    _ ← st_require (site.(MSite.AuthStatus) == SiteAuthAuthorized) ErrSiteRunConfigChanged;
    _ ← st_require (0 <? clock) ErrCollectionRunContract;
    let committedAt := monotonicMutationTime clock site.(MSite.UpdatedAt) in
    site ← BumpSiteFence site committedAt;
    let site := site <| MSite.AuthStatus := SiteAuthExpired |> in
    let site := if site.(MSite.ManagementStatus) == SiteManagementDisabled
                then site <| MSite.StatisticsStatus := SiteStatisticsPaused |>
                else site <| MSite.StatisticsStatus := SiteStatisticsError |> in
    save_site (site <| MSite.UpdatedAt := committedAt |>).

(** ** Collecting the hour *)

(** The outcome of a call, and the database it leaves. *)
Inductive collection := Collected (r : UsageCollectionResult) | Refused (c : cause).

(** The authorization is expired before the refusal is returned; if that fails,
    its error is returned instead. *)
Definition expire_and_refuse (siteID version clock : Z) (c : cause) (d : Db) : collection * Db :=
  match expireSiteAuthorization siteID version clock d with
  | Ok (_, d') => (Refused c, d')
  | Err e => (Refused (ModelError e), d)
  end.

Section Collect.
Context (sha256_hex : list Z -> string) (range : gmap string metricTotals -> list (string * metricTotals)).
(** cipher.Decrypt with the id of the site as the additional data; clients.NewAuthenticated. *)
Context (decrypt : string -> Z -> option string) (new_authenticated : string -> string -> Z -> option cause).

Definition usage_site_ready (site : Site) (expectedConfigVersion : Z) : bool :=
  negb (negb (site.(MSite.ConfigVersion) =? expectedConfigVersion) || (site.(MSite.ManagementStatus) != SiteManagementActive)
        || (site.(MSite.AuthStatus) != SiteAuthAuthorized) || not_nil site.(MSite.StatisticsEndAt)
        || negb site.(MSite.DataExportEnabled) || is_nil site.(MSite.StatisticsStartAt) || is_nil site.(MSite.RootUserID)
        || is_nil site.(MSite.AccessTokenEncrypted)).

(** The site whose client was opened, or the refusal.  [d] is the database the
    site is read from, [later] the one the authorization is expired in, at
    [clock]. *)
Definition authenticatedUsageClient (siteID expectedConfigVersion clock : Z) (d later : Db) : Site + (collection * Db) :=
  match Tables.site d !! siteID with
  | None => inr (Refused (ModelError ErrRecordNotFound), later)
  | Some site =>
      if negb (usage_site_ready site expectedConfigVersion) then inr (Refused (ModelError ErrSiteRunConfigChanged), later)
      else
        match decrypt (default "" site.(MSite.AccessTokenEncrypted)) site.(MSite.ID) with
        | None => inr (expire_and_refuse site.(MSite.ID) expectedConfigVersion clock
                         (Sentinel UpstreamErrorAuthExpired) later)
        | Some plaintext =>
            match new_authenticated site.(MSite.BaseURL) plaintext (deref site.(MSite.RootUserID)) with
            | None => inl site
            | Some c =>
                if upstreamAuthorizationFailure c
                then inr (expire_and_refuse site.(MSite.ID) expectedConfigVersion clock c later)
                else inr (Refused c, later)
            end
        end
  end.

Definition usage_start_valid (site : Site) (hourTS : Z) : bool :=
  let start := deref site.(MSite.StatisticsStartAt) in
  negb ((start <=? 0) || negb (hour_aligned start) || (hourTS + 3600 <=? start)).

(** The requests of the reports lie between [d] and [later]. *)
Definition CollectHour (request : UsageCollectionRequest) (now clock : Z) (flow : report UpstreamFlowRow)
    (data : report UpstreamDataRow) (d later : Db) : collection * Db :=
  let run := request.(CollectRequest.Run) in
  let window := request.(CollectRequest.Window) in
  if negb (collect_request_valid request) || (now <=? 0) || (now <? window.(RunWindow.HourTS) + 3600)
  then (Refused (ModelError ErrCollectionRunContract), later)
  else
    match authenticatedUsageClient (deref run.(Run.SiteID)) run.(Run.SiteConfigVersion) clock d later with
    | inr refused => refused
    | inl site =>
        if negb (usage_start_valid site window.(RunWindow.HourTS)) then (Refused (ModelError ErrSiteRunConfigChanged), later)
        else
          match usageAuthorizationFailure flow.2 data.2 with
          | Some c => expire_and_refuse site.(MSite.ID) run.(Run.SiteConfigVersion) clock c later
          | None =>
              match collect_reports sha256_hex range request site.(MSite.ID) now flow data with
              | Ok r => (Collected r, later)
              | Err e => (Refused (ModelError e), later)
              end
          end
    end.
End Collect.
