(* ===== verification/UsageCollectionBehaviour.v ===== *)
(** * What the collection of an hour commits

    Whatever the upstream reports, and whatever error it answers with, the
    commit [CollectHour] returns keeps the statistics exact: a transient
    failure, committed without a rebuild, leaves the completeness of the hour
    as it was. *)

From S2P Require Import Prelude Constants GoText Stats DateBucket Store Frame RunContract RunState RunRepository SiteFence TaskScope TaskClaim TaskCommit RunFrames RunInvariant QueueClaim TaskRecovery Materialize QueueSteps QueueMaterialize QueueSafety CommitBehaviour FenceBehaviour RunStateBehaviour CreateBehaviour UsageFacts UsageAggregation LocalRebuild RollupLemmas RollupRebuild UsageFactsBehaviour UsageWindowBehaviour UsageRecordBehaviour StatisticsExact AggregationBehaviour LocalRebuildBehaviour UsageReconcile UsageCollection AggregationCommit.

(** ** A failure that is no mismatch *)
Lemma complete_fact_hour d siteID hourTS f : hours_wf d -> fact_of siteID hourTS f = true ->
  complete_fact d f = true <-> complete_hour d siteID hourTS.
Proof.
  intros Hwf Hf. split; [|by apply complete_of_hour]. unfold complete_fact.
  intros (w&(k&Hk)%list_elem_of_In%elem_of_rows&Hp)%existsb_exists. exists k, w. unfold of_hour, fact_of in *. to_prop.
  split; [exact Hk|]. destruct Hf as [<- <-]. tauto.
Qed.

Lemma not_complete_hour d siteID hourTS k w : hours_wf d -> Tables.collection_window d !! k = Some w ->
  of_hour siteID hourTS w = true -> w.(Window.Status) <> CollectionWindowStatusComplete -> ~ complete_hour d siteID hourTS.
Proof.
  intros Hwf Hk Hof Hst (j&x&Hj&Hs&Hh&Hx). unfold of_hour in Hof. to_prop. destruct Hof as [Hws Hwh].
  assert (j = k) as -> by (eapply (hours_unique d Hwf); [exact Hj|exact Hk|congruence|congruence]). congruence.
Qed.

Lemma transient_failure_exact request mutation scope d result d' : request.(FailedUsage.DataMismatch) = false ->
  hours_wf d -> statistics_exact d -> NewFailedUsageWindowMutation request = Ok mutation ->
  mutation scope d = Ok (result, d') -> hours_wf d' /\ statistics_exact d'.
Proof.
  intros Hno Hwf Hexact Hnew H.
  destruct (failed_wf _ _ _ _ _ _ Hwf Hnew H) as [Hwf' He].
  destruct (failed_effect _ _ _ _ _ _ Hwf Hnew H) as (Hf&Hoth&_&_&Hfail). split; [done|].
  set (S := request.(FailedUsage.target).(UsageTarget.SiteID)) in *.
  set (T := request.(FailedUsage.target).(UsageTarget.HourTS)) in *.
  assert (Hc : d' = d \/ ~ complete_hour d S T /\ ~ complete_hour d' S T).
  { unfold failure_of in Hfail. fold S T in Hfail. destruct (head _) as [w|] eqn:Hsel.
    - assert (Hin : w ∈ select (of_hour S T) by_id d) by (apply head_Some_elem_of in Hsel; exact Hsel).
      apply elem_of_select in Hin as (Hof&k&Hk). rewrite Hno in Hfail. cbn [negb andb] in Hfail.
      destruct (settled_hour w) eqn:Hset; [left; apply Hfail|right]. destruct Hfail as (_&w'&Hw'&(Hmiss&_)&_&_&Hof').
      split; [|eapply not_complete_hour; [exact Hwf'|exact Hw'|exact Hof'|rewrite Hmiss; discriminate]].
      eapply not_complete_hour; [done|exact Hk|done|]. intros E. unfold settled_hour, is_one_of in Hset. by rewrite E in Hset.
    - right. destruct Hfail as (_&k&w'&Hw'&(Hmiss&_)&Hof').
      split; [|eapply not_complete_hour; [exact Hwf'|exact Hw'|exact Hof'|rewrite Hmiss; discriminate]].
      intros (j&x&Hj&Hs&Hh&_). apply head_None in Hsel. rewrite select_nil in Hsel.
      specialize (Hsel j x Hj). unfold of_hour in Hsel. to_prop. destruct Hsel; congruence. }
  destruct Hc as [->|[Hc Hc']]; [done|].
  assert (Hsame : forall f, complete_fact d' f = complete_fact d f).
  { intros f. destruct (fact_of S T f) eqn:E; [|by eapply complete_fact_outside].
    apply eq_true_iff_eq. rewrite !(complete_fact_hour _ S T) by done. tauto. }
  injection He as Es _ _ Est.
  destruct (same_queries d d' Hf Hsame (fun f => within_statistics_range d d' f (f_equal (fmap usage_range) Es))) as (E1&E2&E3).
  apply (exact_same d); [done..|by rewrite Est|done].
Qed.

Lemma fact_only_ok mutation scope d rows d' : fact_only_commit mutation scope d = Ok (rows, d') ->
  exists result, mutation scope d = Ok (result, d').
Proof. intros H. apply st_bind_ok in H as (result&d1&Hm&H). apply st_ret_pair in H as [_ ->]. by exists result. Qed.

Lemma aggregation_ok commit scope d rows d' : aggregation_handler commit scope d = Ok (rows, d') ->
  exists result, commit scope d = Ok (result, d').
Proof. intros H. apply st_bind_ok in H as (result&d1&Hm&H). apply st_ret_pair in H as [_ ->]. by exists result. Qed.

(** ** The commits of [CollectHour] *)

(** The commit comes from a mutation of the hour: with the rebuild, or without
    it when a transient failure is recorded. *)
Inductive hour_commit (sha : list Z -> string) (commit : CollectionTaskWindowMutation) : Prop :=
| with_rebuild target newFacts mutation aggregation :
    usage_mutation sha target newFacts mutation -> NewUsageAggregationCommit sha target newFacts mutation = Ok aggregation ->
    commit = aggregation_handler aggregation -> hour_commit sha commit
| without_rebuild request mutation : request.(FailedUsage.DataMismatch) = false ->
    NewFailedUsageWindowMutation request = Ok mutation -> commit = fact_only_commit mutation -> hour_commit sha commit.

Lemma result_bind_ok {A B} (m : result A) (k : A -> result B) b : m ≫= k = Ok b -> exists a, m = Ok a /\ k a = Ok b.
Proof. destruct m as [a|e]; [by exists a|done]. Qed.

Lemma bind_aggregation_ok sha request now newFacts mutation commit :
  bindUsageAggregationCommit sha request now newFacts mutation = Ok commit -> exists aggregation,
    NewUsageAggregationCommit sha (collect_target request request.(CollectRequest.Window).(RunWindow.SiteID) now) newFacts
      mutation = Ok aggregation /\ commit = aggregation_handler aggregation.
Proof. intros (aggregation&Hnew&[= <-])%result_bind_ok. by exists aggregation. Qed.

Lemma collect_reports_commit sha range request now flow data r :
  collect_reports sha range request request.(CollectRequest.Window).(RunWindow.SiteID) now flow data = Ok r ->
  hour_commit sha r.(Collection.Commit).
Proof.
  unfold collect_reports. destruct (firstError _ _) as [c|].
  - destruct (usageWindowFailureReason _ _ _ _) as [code params]. intros (mutation&Hm&H)%result_bind_ok.
    injection H as <-. by eapply without_rebuild; [|exact Hm|].
  - destruct (reconcileUsageFacts _ _ _) as [[facts status] [kind|]].
    + destruct (usageWindowFailureReason _ _ _ _) as [code params].
      intros (mutation&Hm&H)%result_bind_ok. apply result_bind_ok in H as (commit&Hc&[= <-]).
      destruct (is_kind _ _) eqn:Hk.
      * apply bind_aggregation_ok in Hc as (aggregation&Hnew&->). eapply with_rebuild; [|exact Hnew|done].
        exact (failed_usage sha _ facts _ Hm).
      * injection Hc as <-. by eapply without_rebuild; [|exact Hm|].
    + intros ([mutation planned]&Hm&H)%result_bind_ok. apply result_bind_ok in H as (commit&Hc&[= <-]).
      apply bind_aggregation_ok in Hc as (aggregation&Hnew&->). eapply with_rebuild; [|exact Hnew|done].
      exact (collected_usage sha _ _ _ Hm).
Qed.

Lemma hour_commit_exact sha commit scope d rows d' : hour_commit sha commit -> hours_wf d -> statistics_exact d ->
  commit scope d = Ok (rows, d') -> hours_wf d' /\ statistics_exact d'.
Proof.
  intros [target newFacts mutation aggregation Hm Hnew ->|request mutation Hno Hnew ->] Hwf Hexact H.
  - apply aggregation_ok in H as [result H]. by eapply usage_mutation_exact.
  - apply fact_only_ok in H as [result H]. by eapply transient_failure_exact.
Qed.

Lemma hour_commit_lawful sha commit : hour_commit sha commit -> lawful (Some commit).
Proof.
  intros [target newFacts mutation aggregation Hm Hnew ->|request mutation _ Hnew ->].
  - eapply aggregation_lawful; [|exact Hnew]. intros scope d result d' H.
    destruct Hm as [request mutation planned Hm|request newFacts mutation Hm].
    + eapply (complete_lawful _ _ _ _ Hm scope). unfold fact_only_commit, mbind, st_bind. by rewrite H.
    + eapply (failed_lawful _ _ Hm scope). unfold fact_only_commit, mbind, st_bind. by rewrite H.
  - by eapply failed_lawful.
Qed.

(** The window of a valid request is of the site of its run. *)
Lemma collect_request_site request : collect_request_valid request = true ->
  request.(CollectRequest.Run).(Run.SiteID) = Some request.(CollectRequest.Window).(RunWindow.SiteID).
Proof.
  unfold collect_request_valid. rewrite negb_true_iff, !orb_false_iff, !negb_false_iff. intros Hv.
  assert (Hs : bool_decide (request.(CollectRequest.Run).(Run.SiteID) = Some request.(CollectRequest.Window).(RunWindow.SiteID)) = true)
    by tauto. by apply bool_decide_eq_true in Hs.
Qed.

Section Collecting.
Context (sha : list Z -> string) (range : gmap string metricTotals -> list (string * metricTotals)).
Context (decrypt : string -> Z -> option string) (new_authenticated : string -> string -> Z -> option cause).
Abbreviation collect := (CollectHour sha range decrypt new_authenticated).

(** A call that collects only reads, and its commit is one of the hour. *)
Lemma CollectHour_collected request now clock flow data d later r d' : table_wf (Tables.site d) ->
  collect request now clock flow data d later = (Collected r, d') ->
  d' = later /\ hour_commit sha r.(Collection.Commit) /\
  collect_reports sha range request request.(CollectRequest.Window).(RunWindow.SiteID) now flow data = Ok r.
Proof.
  intros Hsites. unfold CollectHour. destruct (negb (collect_request_valid _)) eqn:Hg; [done|]. apply negb_false_iff in Hg.
  destruct (_ || _); [done|]. unfold authenticatedUsageClient, expire_and_refuse.
  destruct (Tables.site d !! _) as [site|] eqn:Hsite; [|done]. destruct (negb (usage_site_ready _ _)); [done|].
  destruct (decrypt _ _); [|by destruct (expireSiteAuthorization _ _ _ _) as [[]|]].
  destruct (new_authenticated _ _ _); [destruct (upstreamAuthorizationFailure _); [by destruct (expireSiteAuthorization _ _ _ _) as [[]|]|done]|].
  destruct (negb (usage_start_valid _ _)); [done|].
  destruct (usageAuthorizationFailure _ _); [by destruct (expireSiteAuthorization _ _ _ _) as [[]|]|].
  destruct (collect_reports _ _ _ _ _ _ _) as [r'|] eqn:Hr; [|done]. intros [= -> ->].
  pose proof (Hsites _ _ Hsite) as Hid. simpl in Hid.
  assert (E : MSite.ID site = request.(CollectRequest.Window).(RunWindow.SiteID)).
  { rewrite Hid. by rewrite (collect_request_site request). }
  rewrite E in Hr. split; [done|]. split; [by eapply collect_reports_commit|done].
Qed.

(** ** Histories of the usage tables *)

(** A transaction on the usage: the commit of a collected hour, a window of a
    local rebuild, or one that leaves the hours, the ranges of the sites and
    the statistics alone, as those of the queue do.  The reports may have been
    fetched on an earlier database. *)
Inductive usage_step (d d' : Db) : Prop :=
| step_collected request now clock flow data d0 later d1 r scope rows :
    table_wf (Tables.site d0) -> collect request now clock flow data d0 later = (Collected r, d1) ->
    r.(Collection.Commit) scope d = Ok (rows, d') -> usage_step d d'
| step_local_rebuild request mutation scope rows :
    NewLocalRebuildMutation sha request = Ok mutation -> mutation scope d = Ok (rows, d') -> usage_step d d'
| step_elsewhere : same_usage d d' -> usage_step d d'.

Lemma usage_step_exact d d' : usage_step d d' -> hours_wf d /\ statistics_exact d -> hours_wf d' /\ statistics_exact d'.
Proof.
  intros Hstep [Hwf Hexact]. destruct Hstep as
    [request now clock flow data d0 later d1 r scope rows Hsites Hc H|request mutation scope rows Hnew H|Hsame].
  - apply CollectHour_collected in Hc as (_&Hc&_); [|done]. by eapply hour_commit_exact.
  - unfold NewLocalRebuildMutation in Hnew. destruct (_ || _); [done|]. injection Hnew as <-.
    destruct (rebuild_keeps_exact _ _ _ _ _ _ Hwf Hexact H) as (Hb&Hex&_). split; [by apply (base_hours_wf d)|done].
  - exact (same_usage_exact d d' Hsame (conj Hwf Hexact)).
Qed.
End Collecting.


(** ** The authorization *)

(** The fence keeps the rows of the sites. *)
Lemma BumpSiteFence_sites site now d s d' : table_wf (Tables.site d) -> BumpSiteFence site now d = Ok (s, d') ->
  s = site <| MSite.ConfigVersion := site.(MSite.ConfigVersion) + 1 |> <| MSite.UpdatedAt := now |> /\
  table_wf (Tables.site d') /\ is_Some (Tables.site d' !! site.(MSite.ID)).
Proof.
  intros Hwf (plan&row&d1&d2&_&Hrow&_&_&Hfail&Hst&->&->)%BumpSiteFence_ok.
  assert (E : Tables.site d2 = Tables.site d).
  { rewrite (recalculateSiteFenceBackfillStatuses_sites _ _ _ _ _ Hst). exact (fail_fenced_runs_sites _ _ _ _ _ _ _ _ Hfail). }
  split; [done|]. simpl. rewrite E. split.
  - intros k x. rewrite lookup_update_where. destruct (Tables.site d !! k) as [y|] eqn:Hk; [|done]. intros [= <-].
    pose proof (Hwf _ _ Hk) as Ey. unfold upd. by destruct (_ =? _).
  - rewrite lookup_update_where, Hrow. by eexists.
Qed.
Lemma save_site_ok site d u d' : save_site site d = Ok (u, d') -> table_wf (Tables.site d) ->
  is_Some (Tables.site d !! site.(MSite.ID)) ->
  exists s, Tables.site d' !! site.(MSite.ID) = Some s /\ s.(MSite.AuthStatus) = site.(MSite.AuthStatus) /\
    s.(MSite.ConfigVersion) = site.(MSite.ConfigVersion).
Proof.
  unfold save_site. intros H Hwf [row Hrow]. apply st_bind_ok in H as (clock&d1&Hg&H). apply st_gets_ok in Hg as [= -> ->].
  apply st_bind_ok in H as (n&d1&Hu&H). apply db_update_ok in Hu as [_ ->]. apply st_ret_pair in H as [_ ->].
  simpl. rewrite lookup_update_where, Hrow. pose proof (Hwf _ _ Hrow) as E. simpl in E. simpl. unfold upd.
  rewrite E, Z.eqb_refl. by eexists.
Qed.

Lemma expireSiteAuthorization_ok siteID version clock d u d' : table_wf (Tables.site d) ->
  expireSiteAuthorization siteID version clock d = Ok (u, d') ->
  exists s, Tables.site d' !! siteID = Some s /\ s.(MSite.AuthStatus) = SiteAuthExpired /\
    (s.(MSite.ConfigVersion) = version \/ s.(MSite.ConfigVersion) = version + 1).
Proof.
  intros Hwf H. unfold expireSiteAuthorization in H. apply st_bind_ok in H as (u0&d1&Hr&H).
  apply st_require_ok in Hr as (_&[= -> ->]). apply st_bind_ok in H as (site&d1&Hs&H).
  unfold FindByIDForUpdate in Hs. apply db_first_ok in Hs as [Hs ->]. pose proof (Hwf _ _ Hs) as Hid. simpl in Hid.
  destruct (negb _) eqn:Hv; [|destruct (_ == SiteAuthExpired) eqn:He]; to_prop.
  - apply st_require_ok in H as (Hok&[= -> ->]). to_prop. exists site. split; [exact Hs|]. split; [tauto|]. right. tauto.
  - apply st_ret_pair in H as [_ ->]. exists site. split; [exact Hs|]. split; [done|]. by left.
  - apply st_bind_ok in H as (u1&d1&Hr&H). apply st_require_ok in Hr as (_&[= -> ->]).
    apply st_bind_ok in H as (u2&d1&Hr&H). apply st_require_ok in Hr as (_&[= -> ->]).
    apply st_bind_ok in H as (bumped&d1&Hb&H). apply BumpSiteFence_sites in Hb as (->&Hwf'&Hrow); [|done].
    set (saved := _ <| MSite.UpdatedAt := _ |>) in H.
    assert (Hsame : MSite.ID saved = siteID /\ MSite.AuthStatus saved = SiteAuthExpired /\ MSite.ConfigVersion saved = version + 1).
    { unfold saved. destruct (_ == SiteManagementDisabled); simpl; rewrite Hid, Hv; done. }
    destruct Hsame as (Ei&Ea&Ev). apply save_site_ok in H; [|done|by rewrite Ei, <- Hid].
    rewrite Ei in H. destruct H as (s&Hs'&Ha&Hc). exists s. split; [done|]. split; [congruence|]. right. congruence.
Qed.

(** A refusal that reports a failed authorization has expired it: the site
    is stored as expired, under the version of the run or the next one, so no
    later claim of the site passes its snapshot.  Every other refusal leaves
    the database alone. *)
Theorem CollectHour_expires sha range decrypt new_authenticated request now clock flow data d later c d' :
  table_wf (Tables.site d) -> table_wf (Tables.site later) ->
  CollectHour sha range decrypt new_authenticated request now clock flow data d later = (Refused c, d') ->
  if upstreamAuthorizationFailure c
  then exists s, Tables.site d' !! deref request.(CollectRequest.Run).(Run.SiteID) = Some s /\
         s.(MSite.AuthStatus) = SiteAuthExpired /\
         (s.(MSite.ConfigVersion) = request.(CollectRequest.Run).(Run.SiteConfigVersion) \/
          s.(MSite.ConfigVersion) = request.(CollectRequest.Run).(Run.SiteConfigVersion) + 1)
  else d' = later.
Proof.
  intros Hwf Hlater. unfold CollectHour. destruct (negb (collect_request_valid _) || _ || _); [by intros [= <- <-]|].
  unfold authenticatedUsageClient.
  destruct (Tables.site d !! _) as [site|] eqn:Hsite; [|by intros [= <- <-]].
  destruct (negb (usage_site_ready _ _)); [by intros [= <- <-]|].
  pose proof (Hwf _ _ Hsite) as Hid. simpl in Hid.
  assert (Hexpire : forall c0, upstreamAuthorizationFailure c0 = true ->
    expire_and_refuse site.(MSite.ID) request.(CollectRequest.Run).(Run.SiteConfigVersion) clock c0 later = (Refused c, d') ->
    if upstreamAuthorizationFailure c
    then exists s, Tables.site d' !! deref request.(CollectRequest.Run).(Run.SiteID) = Some s /\
           s.(MSite.AuthStatus) = SiteAuthExpired /\
           (s.(MSite.ConfigVersion) = request.(CollectRequest.Run).(Run.SiteConfigVersion) \/
            s.(MSite.ConfigVersion) = request.(CollectRequest.Run).(Run.SiteConfigVersion) + 1)
    else d' = later).
  { intros c0 Hc0. unfold expire_and_refuse. destruct (expireSiteAuthorization _ _ _ _) as [[u d1]|e] eqn:He.
    - intros [= <- <-]. rewrite Hc0, <- Hid. by eapply expireSiteAuthorization_ok.
    - by intros [= <- <-]. }
  destruct (decrypt _ _); [|by apply Hexpire].
  destruct (new_authenticated _ _ _) as [c0|].
  - destruct (upstreamAuthorizationFailure c0) eqn:Hc0; [by apply Hexpire|]. intros [= <- <-]. by rewrite Hc0.
  - destruct (negb (usage_start_valid _ _)); [by intros [= <- <-]|].
    destruct (usageAuthorizationFailure _ _) as [c0|] eqn:Hc0.
    + apply Hexpire. unfold usageAuthorizationFailure in Hc0.
      repeat case_match; simplify_eq; done.
    + destruct (collect_reports _ _ _ _ _ _ _); [done|]. by intros [= <- <-].
Qed.

(** ** A history with usage *)
Module UsageHistory.
Abbreviation after := History.after.
(** An account whose statistics are paused, and its customer. *)
Definition account : Account :=
  MAccount.mk 4 7 9 5 1000 "bob" "Bob" "default" 1 "normal" 0 None 0 0 0 "managed" (Some 80000) "ready" None "" 1 1.
Definition customer : Customer := MCustomer.mk 9 "customer" "" "" "0" "0" "active" None "ready" 1 1.
Definition start : Db :=
  Sample.db [] [] [] <| Tables.account := Sample.by_ids [account] |> <| Tables.customer := Sample.by_ids [customer] |>.
Definition enqueue : SiteTaskEnqueueRequest :=
  EnqueueRequest.mk 7 3 "usage_hour" "schedule" (Some 90000) (Some 97200) "" 100 "req-1" 120000 None.
Definition enqueued : Db := after (EnqueueSiteTask enqueue) start.
Definition keys : list CollectionTaskWindowKey := [WindowKey.mk 7 90000; WindowKey.mk 7 93600].
Definition queued_run : CollectionRun :=
  match Tables.collection_run enqueued !! 100 with Some r => r | None => Sample.run 100 0 0 "" end.
Definition filled : Db := after (materialize_chunk queued_run keys keys 120000) enqueued.
Definition opened : Db := after (open_materialized queued_run keys 120001) filled.
Definition options : CollectionTaskClaimOptions := ClaimOptions.mk ["usage_hour"] None None 120002 "worker-1" 1 0.
Definition claimed : Db := after (ClaimNext options no_locks) opened.

(** The newest hour is collected, and its account rebuilt. *)
Definition target : UsageTarget := UsageTarget.mk 100 101 7 3 93600 1 "worker-1" 120010.
Definition request : CompleteUsageWindowRequest := CompleteUsage.mk target 4 "attributed" UsageSample.rows.
Definition facts : list UsageFactHourly :=
  match canonicalUsageFacts UsageSample.sha 7 93600 120010 UsageSample.rows with Ok (l, _) => l | Err _ => [] end.
Definition planned : UsageWindowMutationResult :=
  UsageResult.mk "complete" (usageFactsHash UsageSample.sha facts) "worker-1" 4 2 false "" "attributed".
Definition mutation : UsageFactMutation :=
  apply_complete UsageSample.sha target 4 facts (usageFactsHash UsageSample.sha facts) planned.
Definition commit : CollectionTaskWindowMutationScope -> Tx UsageAggregationMutationResult := apply_aggregation UsageSample.sha target facts mutation.
Definition outcome : CollectionTaskWindowResult := WindowResult.mk 101 1 "success" None 5 4 "" "".
Definition completion : CompleteClaimedWindowRequest :=
  CompleteRequest.mk 100 "worker-1" 120010 outcome (Some (aggregation_handler commit)).
Definition scope : CollectionTaskWindowMutationScope :=
  MutationScope.mk Sample.site7 (RecordSample.the (Sample.run 100 0 0 "") (Tables.collection_run claimed !! 100))
    (RecordSample.the (Sample.run_window 101 100 93600 "" 0) (Tables.collection_run_window claimed !! 101)).

(** The two reports of the hour, and what [CollectHour] makes of them. *)
Definition flow_row (user requests : Z) (name : string) : UpstreamFlowRow :=
  FlowRow.mk user name "gpt" 3 "default" 4 "token" "node" requests 10 20.
Definition flow : report UpstreamFlowRow := ([flow_row 5 2 "bob"; flow_row 9 1 "eve"; flow_row 5 3 "alice"], None).
Definition data : report UpstreamDataRow := ([DataRow.mk "gpt" 93600 6 30 60], None).
Definition decrypt (_ : string) (_ : Z) : option string := Some "plain".
Definition new_authenticated (_ _ : string) (_ : Z) : option cause := None.
Definition collect_request : UsageCollectionRequest :=
  CollectRequest.mk scope.(MutationScope.run) scope.(MutationScope.window) "worker-1".
Definition collect (d : Db) : collection * Db :=
  CollectHour UsageSample.sha map_to_list decrypt new_authenticated collect_request 120010 120010 flow data d d.
Definition result : UsageCollectionResult :=
  match collect claimed with
  | (Collected r, _) => r
  | _ => Collection.mk (fun _ => st_fail ErrCollectionRunContract) no_plan None 0 0 ""
  end.
Definition collected : Db := after (result.(Collection.Commit) scope) claimed.

(** The site refuses the credentials. *)
Definition auth_expired : UpstreamRequestError := RequestError.mk UpstreamErrorAuthExpired "" "GET" "flow" 401 "" 0 0 false 0 0.
Definition refuse (d : Db) : collection * Db :=
  CollectHour UsageSample.sha map_to_list decrypt new_authenticated collect_request 120010 120020
    ([], Some (RequestFailed auth_expired)) data d d.
Definition refused_with (r : collection * Db) : option UpstreamRequestError :=
  match r.1 with Refused (RequestFailed e) => Some e | _ => None end.

Definition rebuild_request : LocalRebuildMutationRequest :=
  LocalRebuild.mk 200 201 7 93600 1 "worker-2" 130000 TaskTypeAccountRebuild 4.
Definition rebuild_run : CollectionRun :=
  Run.mk 200 None 0 TaskTypeAccountRebuild "account" 4 "manual" (Some 90000) (Some 97200) "{}"
    (Some "key") "running" 0 0 0 100 1 None (Some 1) 2 0 0 0 "req-2" "worker-2" "" "" None None None 1 1.
Definition rebuild_scope : CollectionTaskWindowMutationScope :=
  MutationScope.mk Sample.site7 rebuild_run (Sample.run_window 201 200 93600 "running" 1).
Definition rebuilt : Db := after (apply_local_rebuild UsageSample.sha rebuild_request rebuild_scope) collected.
End UsageHistory.

Module UsageHistoryFacts.
Import UsageHistory.

Lemma usage_claimed_reachable : reachable claimed.
Proof.
  exists start. split; [repeat split|].
  apply (rtc_l _ start enqueued); [|apply (rtc_l _ enqueued filled); [|apply (rtc_l _ filled opened);
    [|apply (rtc_l _ opened claimed); [|reflexivity]]]].
  - destruct (History.after_ok (EnqueueSiteTask enqueue) start) as [a Ha]; [vm_compute; reflexivity|].
    by eapply step_enqueue.
  - destruct (History.after_ok (materialize_chunk queued_run keys keys 120000) enqueued) as [[] Ha]; [vm_compute; reflexivity|].
    by eapply step_materialize.
  - destruct (History.after_ok (open_materialized queued_run keys 120001) filled) as [a Ha]; [vm_compute; reflexivity|].
    by eapply step_open.
  - destruct (History.after_ok (ClaimNext options no_locks) opened) as [a Ha]; [vm_compute; reflexivity|].
    by eapply step_claim.
Qed.

Lemma claimed_unused : no_usage_yet claimed.
Proof. split; [|split]; vm_compute; reflexivity. Qed.

Lemma canonical : canonicalUsageFacts UsageSample.sha 7 93600 120010 UsageSample.rows
  = Ok (facts, usageFactsHash UsageSample.sha facts).
Proof. vm_compute. reflexivity. Qed.

Lemma sample_new_mutation : NewCompleteUsageWindowMutation UsageSample.sha request = Ok (mutation, planned).
Proof.
  assert (Ha : usageAttributionStatus facts = "attributed") by (vm_compute; reflexivity).
  assert (Hl : length facts = 2%nat) by (vm_compute; reflexivity).
  unfold NewCompleteUsageWindowMutation. cbn [CompleteUsage.target request UsageTarget.SiteID UsageTarget.HourTS
    UsageTarget.Now CompleteUsage.Facts target].
  rewrite canonical. unfold mbind, result_bind. rewrite Ha, Hl. reflexivity.
Qed.

Lemma sample_new_commit : NewUsageAggregationCommit UsageSample.sha request.(CompleteUsage.target) request.(CompleteUsage.Facts)
  mutation = Ok commit.
Proof. unfold NewUsageAggregationCommit. cbn [CompleteUsage.target CompleteUsage.Facts request UsageTarget.SiteID UsageTarget.HourTS UsageTarget.Now target]. by rewrite canonical. Qed.

Lemma site_wf : table_wf (Tables.site claimed).
Proof.
  assert (E : Tables.site claimed = Sample.by_ids [Sample.site7]) by (vm_compute; reflexivity). rewrite E.
  intros k x Hk. unfold Sample.by_ids in Hk. simpl in Hk. apply lookup_insert_Some in Hk as [[<- <-]|[_ Hk]]; done.
Qed.

Lemma collects : collect claimed = (Collected result, claimed).
Proof.
  assert (Hc : match (collect claimed).1 with Collected _ => true | Refused _ => false end = true) by (vm_compute; reflexivity).
  unfold result. destruct (collect claimed) as [[r|c] d'] eqn:E; [|discriminate Hc].
  by destruct (CollectHour_collected _ _ _ _ _ _ _ _ _ _ _ _ _ site_wf E) as (->&_).
Qed.

Abbreviation step := (usage_step UsageSample.sha map_to_list decrypt new_authenticated).

Lemma collected_step : step claimed collected.
Proof.
  destruct (History.after_ok (result.(Collection.Commit) scope) claimed) as [a Ha]; [vm_compute; reflexivity|].
  eapply step_collected; [exact site_wf|exact collects|exact Ha].
Qed.

Lemma rebuilt_from_collected : exists rows,
  apply_local_rebuild UsageSample.sha rebuild_request rebuild_scope collected = Ok (rows, rebuilt).
Proof. apply (History.after_ok (apply_local_rebuild UsageSample.sha rebuild_request rebuild_scope) collected). vm_compute. reflexivity. Qed.

Lemma new_rebuild : NewLocalRebuildMutation UsageSample.sha rebuild_request
  = Ok (apply_local_rebuild UsageSample.sha rebuild_request).
Proof. reflexivity. Qed.

Lemma rebuilt_step : step collected rebuilt.
Proof. destruct rebuilt_from_collected as [rows H]. by eapply step_local_rebuild; [exact new_rebuild|]. Qed.

Lemma collected_exact : hours_wf collected /\ statistics_exact collected.
Proof. apply (usage_step_exact _ _ _ _ _ _ collected_step), nothing_exact, claimed_unused. Qed.

Lemma collected_tables : Tables.account collected = Sample.by_ids [account] /\
  Tables.customer collected = Sample.by_ids [customer] /\ Tables.site collected = Sample.by_ids [Sample.site7].
Proof. split; [|split]; vm_compute; reflexivity. Qed.

Lemma one_row_wf {R} `{!Table R} (r : R) : table_wf (Sample.by_ids [r]).
Proof. intros k x Hk. unfold Sample.by_ids in Hk. simpl in Hk. apply lookup_insert_Some in Hk as [[<- <-]|[_ Hk]]; done. Qed.
End UsageHistoryFacts.


Lemma CompleteClaimedWindow_records_hour_witness : exists run' d' facts,
  CompleteClaimedWindow UsageHistory.completion UsageHistory.claimed = Ok (run', d') /\
  recorded UsageSample.sha 7 93600 120010 (Z.of_nat (length facts)) (UsageResult.SourceHash UsageHistory.planned)
    (usageAttributionStatus facts) d' /\ statistics_exact d'.
Proof.
  assert (Hok : is_ok (CompleteClaimedWindow UsageHistory.completion UsageHistory.claimed) = true) by (vm_compute; reflexivity).
  destruct (CompleteClaimedWindow UsageHistory.completion UsageHistory.claimed) as [[run' d']|e] eqn:H; [|discriminate Hok].
  destruct (nothing_exact _ UsageHistoryFacts.claimed_unused) as [Hwf Hexact].
  destruct (CompleteClaimedWindow_records_hour UsageSample.sha UsageHistory.request UsageHistory.mutation UsageHistory.planned
              UsageHistory.commit UsageHistory.completion UsageHistory.claimed run' d'
              (reachable_inv _ UsageHistoryFacts.usage_claimed_reachable) Hwf Hexact UsageHistoryFacts.sample_new_mutation
              UsageHistoryFacts.sample_new_commit eq_refl H) as (facts&w&result&Hr&_&_&Hex&_).
  exists run', d', facts. split; [reflexivity|]. split; [exact Hr|exact Hex].
Defined.


Lemma NewLocalRebuildMutation_counts_witness :
  statistics_exact UsageHistory.rebuilt /\
  stat_metrics (Tables.statistics UsageHistory.collected).(Statistics.hourly).(Rollup.account_stat) (4, 93600) = no_usage /\
  stat_metrics (Tables.statistics UsageHistory.rebuilt).(Statistics.hourly).(Rollup.account_stat) (4, 93600)
  = Metrics.mk 5 20 40 0.
Proof.
  destruct UsageHistoryFacts.rebuilt_from_collected as [rows H].
  destruct UsageHistoryFacts.collected_exact as [Hwf Hexact].
  destruct UsageHistoryFacts.collected_tables as (Ea&Ec&_).
  assert (Ha : table_wf (Tables.account UsageHistory.collected)) by (rewrite Ea; apply UsageHistoryFacts.one_row_wf).
  assert (Hc : table_wf (Tables.customer UsageHistory.collected)) by (rewrite Ec; apply UsageHistoryFacts.one_row_wf).
  assert (Hids : forall k a, Tables.account UsageHistory.collected !! k = Some a -> 0 < k).
  { rewrite Ea. intros k a Hk. unfold Sample.by_ids in Hk. simpl in Hk. apply lookup_insert_Some in Hk as [[<- _]|[_ Hk]]; [lia|done]. }
  destruct (NewLocalRebuildMutation_counts UsageSample.sha UsageHistory.rebuild_request _ UsageHistory.rebuild_scope _ _ _
              Hwf Hexact Ha Hc Hids UsageHistoryFacts.new_rebuild H) as (_&Hex&_&_&[Hhour _]&_).
  split; [exact Hex|]. split; [vm_compute; reflexivity|].
  etrans; [refine (Hhour eq_refl UsageHistory.account _ _); rewrite ?Ea; vm_compute; reflexivity|].
  vm_compute. reflexivity.
Defined.

Lemma CollectHour_expires_witness : exists s d',
  UsageHistory.refuse UsageHistory.claimed = (Refused (RequestFailed UsageHistory.auth_expired), d') /\
  Tables.site d' !! 7 = Some s /\ s.(MSite.AuthStatus) = "expired".
Proof.
  assert (Hc : UsageHistory.refused_with (UsageHistory.refuse UsageHistory.claimed) = Some UsageHistory.auth_expired)
    by (vm_compute; reflexivity).
  destruct (UsageHistory.refuse UsageHistory.claimed) as [[r|c] d'] eqn:E; [discriminate Hc|].
  destruct c as [e| | | | | | |]; try discriminate Hc. injection Hc as ->.
  pose proof (CollectHour_expires _ _ _ _ _ _ _ _ _ _ _ _ _ UsageHistoryFacts.site_wf UsageHistoryFacts.site_wf E) as H.
  assert (Hf : upstreamAuthorizationFailure (RequestFailed UsageHistory.auth_expired) = true) by reflexivity.
  assert (Hid : deref UsageHistory.collect_request.(CollectRequest.Run).(Run.SiteID) = 7) by (vm_compute; reflexivity).
  rewrite Hf, Hid in H. destruct H as (s&Hs&Ha&_). exists s, d'. split; [reflexivity|]. split; [exact Hs|exact Ha].
Defined.
