(* ===== verification/WorkerErrors.v ===== *)
(** * Attempts, delays and the errors of a job ([worker/leases.go],
    [worker/jobs_usage.go], [worker/collection_errors.go])

    How often a task is tried and how long it waits in between, and what an
    error of a handler means for that.  Durations are nanoseconds, as in
    [time.Duration]. *)

From Stdlib Require Import Ascii String.
From S2P Require Import Prelude Constants GoText Json Stats Store RunContract RunState RunRepository SiteFence TaskScope TaskClaim TaskCommit TaskRecovery UsageFacts UsageAggregation UsageReconcile UsageCollection.

Definition minute_ns : Z := 60 * 1000000000.
Definition hours_ns (n : Z) : Z := n * (60 * minute_ns).

(** ** Errors a handler returns *)
Module ExecutionError.
Record TaskExecutionError := mk {
  Code : string; Params : string; Retryable : bool; RetryAfter : Z; HasRetryAfter : bool }.
End ExecutionError.
Abbreviation TaskExecutionError := ExecutionError.TaskExecutionError.

Inductive job_error := Execution (e : TaskExecutionError) | Cause (c : cause).

(** errors.Is(err, context.Canceled) *)
Definition job_canceled (e : job_error) : bool := match e with Cause ContextCanceled => true | _ => false end.
Definition deadline_exceeded (c : cause) : bool := match c with ContextDeadlineExceeded => true | _ => false end.
Definition is_model (e : error) (c : cause) : bool := match c with ModelError e' => bool_decide (e = e') | _ => false end.

(** ** Attempts *)
Definition defaultAttemptPolicy : CollectionTaskAttemptPolicy :=
  AttemptPolicy.mk 1 (list_to_map
    [(TaskTypeSiteProbe, 1); (TaskTypeRealtimeStat, 1); (TaskTypeResourceSnapshot, 1); (TaskTypeUserSync, 1);
     (TaskTypeChannelSync, 1); (TaskTypePerformanceSync, 3); (TaskTypeTopupSync, 3); (TaskTypeRedemptionSync, 3);
     (TaskTypeUpstreamTaskSync, 3); (TaskTypeModelMetaSync, 3); (TaskTypePlanSync, 3); (TaskTypePricingSync, 3);
     (TaskTypeSystemTaskSync, 3); (TaskTypeLogSync, 3); (TaskTypeUsageHour, 4); (TaskTypeUsageBackfill, 5);
     (TaskTypeUsageValidation, 5); (TaskTypeAccountRebuild, 5); (TaskTypeCustomerRebuild, 5)]).

(** [maxAttempts] of package worker; the model's own is [TaskRecovery.maxAttempts]. *)
Definition worker_maxAttempts (policy : CollectionTaskAttemptPolicy) (taskType : string) : Z :=
  let value := default 0 (policy.(AttemptPolicy.MaxAttempts) !! taskType) in
  if 0 <? value then value
  else if 0 <? policy.(AttemptPolicy.DefaultMaxAttempts) then policy.(AttemptPolicy.DefaultMaxAttempts)
  else 3.

(** ** Delays *)
Definition taskBackoff (taskType : string) (attempt : Z) : Z :=
  let attempt := if attempt <? 1 then 1 else attempt in
  if taskType == TaskTypeUsageHour then
    if attempt =? 1 then minute_ns else if attempt =? 2 then 5 * minute_ns else 15 * minute_ns
  else if taskType == TaskTypeUsageValidation then
    if attempt =? 1 then 5 * minute_ns else if attempt =? 2 then 15 * minute_ns
    else if attempt =? 3 then hours_ns 1 else hours_ns 6
  else if is_one_of taskType [TaskTypeUsageBackfill; TaskTypeAccountRebuild; TaskTypeCustomerRebuild] then
    if attempt =? 1 then minute_ns else if attempt =? 2 then 5 * minute_ns
    else if attempt =? 3 then 15 * minute_ns else hours_ns 1
  else if attempt =? 1 then minute_ns else if attempt =? 2 then 5 * minute_ns else 15 * minute_ns.

(** hash/fnv: the 64-bit FNV-1a hash. *)
Definition fnv64a_byte (h : Z) (c : ascii) : Z := Z.lxor h (code c) * 1099511628211 mod 2 ^ 64.
Definition fnv64a (l : list ascii) : Z := foldl fnv64a_byte 14695981039346656037 l.

Definition jitter_text (taskType : string) (runID siteID hourTS attempt : Z) : string :=
  foldl (fun s value => s +:+ "|" +:+ FormatInt value) taskType [runID; siteID; hourTS; attempt].

Definition retryDelayWithJitter (base : Z) (taskType : string) (runID siteID hourTS attempt : Z) : Z :=
  if base <=? 0 then base
  else
    let maximum := Z.quot base 5 in
    if maximum <=? 0 then base
    else wrap64 (base + fnv64a (bytes (jitter_text taskType runID siteID hourTS attempt)) mod (maximum + 1)).

(** Whether the task is tried again, after which delay, and the code of the failure. *)
Definition retryDecision (taskType : string) (attempt : Z) (cause : job_error) (policy : CollectionTaskAttemptPolicy)
  : bool * Z * string :=
  let '(retryable, delay, failure) :=
    match cause with
    | Execution e =>
        (e.(ExecutionError.Retryable),
         if e.(ExecutionError.HasRetryAfter) || (0 <? e.(ExecutionError.RetryAfter)) then
           let retryAfter := if e.(ExecutionError.RetryAfter) <? 0 then 0 else e.(ExecutionError.RetryAfter) in
           if hours_ns 1 <? retryAfter then hours_ns 1 else retryAfter
         else taskBackoff taskType attempt,
         if e.(ExecutionError.Code) == "" then CollectionTaskExecutionFailedCode else e.(ExecutionError.Code))
    | Cause _ => (true, taskBackoff taskType attempt, CollectionTaskExecutionFailedCode)
    end in
  (if worker_maxAttempts policy taskType <=? attempt then false else retryable, delay, failure).

(** The parameters an error carries into the window. *)
Definition error_params (cause : job_error) : string :=
  match cause with Execution e => e.(ExecutionError.Params) | Cause _ => "" end.

(** ** Classification of the errors of a usage job *)
Definition classifyUsageExecutionError (cause : option cause) (failure : option UsageCollectionFailure) : job_error :=
  match cause with
  | None => Execution (ExecutionError.mk CollectionTaskExecutionFailedCode "" false 0 false)
  | Some c =>
      let params := match failure with Some f => f.(CollectionFailure.Params) | None => "" end in
      let failure_code := match failure with Some f => f.(CollectionFailure.Code) | None => "" end in
      let or code := if failure_code == "" then code else failure_code in
      let classified : option (string * bool) :=
        if is_model ErrSiteRunConfigChanged c then Some (CodeSiteConfigChanged, false)
        else if is_kind UpstreamErrorDataMismatch c then Some (MessageDataValidationMismatch, false)
        else if response_invalid c then Some (MessageUpstreamResponseInvalid, false)
        else if is_kind UpstreamErrorResponseTooLarge c then Some (MessageUpstreamResponseTooLarge, false)
        else if is_kind UpstreamErrorAddressForbidden c then Some (CodeUpstreamAddressForbidden, false)
        else if is_kind UpstreamErrorExportDisabled c || is_kind UpstreamErrorCredentialOriginMismatch c
                || is_kind UpstreamErrorAuthExpired c || is_kind UpstreamErrorPermissionDenied c
             then Some (or CodeUpstreamUnavailable, false)
        else if job_canceled (Cause c) then None
        else if deadline_exceeded c || is_kind UpstreamErrorUnavailable c
             then Some (MessageDataUpstreamUnavailable, true)
        else if is_kind UpstreamErrorRateLimited c || is_kind UpstreamErrorRemote c
             then Some (or MessageDataUpstreamUnavailable, false)
        else Some (or CollectionTaskExecutionFailedCode, false) in
      match classified with
      | None => Cause ContextCanceled
      | Some (code, retryable) =>
          match c with
          | RequestFailed e =>
              let forbidden := is_kind UpstreamErrorAddressForbidden c in
              let status := e.(RequestError.StatusCode) in
              let retryAfter := if forbidden then 0 else e.(RequestError.RetryAfter) in
              let retryable := if negb forbidden && ((status <? 200) || (300 <=? status)) then true else retryable in
              Execution (ExecutionError.mk code params retryable retryAfter
                           (e.(RequestError.HasRetryAfter) || (0 <? e.(RequestError.RetryAfter))))
          | _ => Execution (ExecutionError.mk code params retryable 0 false)
          end
      end
  end.

(** ** Classification of the errors of the other jobs *)
Definition MessageCollectionExecutionFailed : string := "COLLECTION_EXECUTION_FAILED".

Definition failure_kind (c : cause) : string * bool :=
  if is_kind UpstreamErrorAuthExpired c then ("authorization_expired", false)
  else if is_kind UpstreamErrorPermissionDenied c then ("permission_denied", false)
  else if is_kind UpstreamErrorRateLimited c then ("rate_limited", true)
  else if is_kind UpstreamErrorUnavailable c || deadline_exceeded c then ("upstream_unavailable", true)
  else if is_kind UpstreamErrorRemote c then ("upstream_server_error", true)
  else if response_invalid c then ("response_invalid", false)
  else if is_kind UpstreamErrorResponseTooLarge c then ("response_too_large", false)
  else if is_kind UpstreamErrorExportDisabled c then ("export_disabled", false)
  else if is_kind UpstreamErrorAddressForbidden c then ("address_forbidden", false)
  else if match c with SiteConfigChanged | UpstreamLogFence => true | _ => is_model ErrSiteRunConfigChanged c end
       then ("configuration_changed", false)
  else if is_model ErrCollectionRunContract c then ("task_contract_invalid", false)
  else ("internal_error", true).

(** An error that is classified already stays as it is. *)
Definition classifyCollectionTaskError (cause : job_error) : job_error :=
  match cause with
  | Execution _ => cause
  | Cause c =>
      let '(kind, retryable) := failure_kind c in
      let '(retryAfter, hasRetryAfter) :=
        match c with
        | RequestFailed e =>
            if e.(RequestError.HasRetryAfter) || (0 <? e.(RequestError.RetryAfter))
            then (e.(RequestError.RetryAfter), e.(RequestError.HasRetryAfter)) else (0, false)
        | _ => (0, false)
        end in
      Execution (ExecutionError.mk MessageCollectionExecutionFailed
                   (Marshal {["failure_kind" := JsonText kind]}) retryable retryAfter hasRetryAfter)
  end.
