(* ===== verification/Jobs.v ===== *)
(** * The jobs of the worker ([worker/jobs_usage.go],
    [worker/jobs_local_rebuild.go], [worker/jobs_site.go], [worker/jobs_log.go],
    [service/local_rebuild.go])

    A job turns the execution of a claim into rows, an error, and the handler
    that commits its window.  A window of a local rebuild whose hour is not
    complete enqueues the backfill it depends on and is tried again later. *)

From S2P Require Import Prelude Constants GoText Json Stats Store RunContract RunState RunRepository SiteFence TaskScope TaskClaim TaskCommit TaskRecovery UsageFacts UsageAggregation LocalRebuild UsageReconcile UsageCollection WorkerErrors.

Module JobExecution.
Record JobExecution := mk { Claim : CollectionTaskClaim; Window : option CollectionRunWindow; RequestID : string }.
End JobExecution.
Abbreviation JobExecution := JobExecution.JobExecution.

(** [JobOutcome] with the fields of its [JobResult]. *)
Module JobOutcome.
Record JobOutcome := mk {
  FetchedRows : Z; WrittenRows : Z; TransactionMutation : option CollectionTaskWindowMutation }.
End JobOutcome.
Abbreviation JobOutcome := JobOutcome.JobOutcome.

(** What a handler returns; a handler runs transactions of its own, and leaves
    the database in the state it returns with it. *)
Abbreviation job_result := (JobOutcome * option job_error)%type.
Definition JobHandler : Type := JobExecution -> Db -> job_result * Db.

Definition no_outcome : JobOutcome := JobOutcome.mk 0 0 None.
Definition job_failed (e : job_error) : job_result := (no_outcome, Some e).
Definition job_refused : job_result := job_failed (Cause (ModelError ErrCollectionRunContract)).

(** The claim of an execution carries the request id it was claimed under. *)
Definition claimed_by (execution : JobExecution) : bool :=
  let claim := execution.(JobExecution.Claim) in
  (execution.(JobExecution.RequestID) == claim.(Claim.RequestID))
  && (claim.(Claim.run).(Run.LastRequestID) == execution.(JobExecution.RequestID))
  && (execution.(JobExecution.RequestID) != "").

(** ** Usage *)
(** The result of a collected hour. *)
Definition usage_outcome (requestID : string) (c : collection) : job_result :=
  match c with
  | Refused c => job_failed (classifyUsageExecutionError (Some c) None)
  | Collected r =>
      let flowRows := r.(Collection.FlowRows) in
      let dataRows := r.(Collection.DataRows) in
      if (flowRows <? 0) || (dataRows <? 0) || (max_int64 - dataRows <? flowRows)
         || (r.(Collection.SourceRequestID) != requestID)
      then job_refused
      else
        (JobOutcome.mk (flowRows + dataRows) r.(Collection.Planned).(UsageResult.WrittenRows)
           (Some r.(Collection.Commit)),
         match r.(Collection.Failure) with
         | Some failure => Some (classifyUsageExecutionError (Some failure.(CollectionFailure.Cause)) (Some failure))
         | None => None
         end)
  end.

Definition usage_job (currentTaskType : string) (collect : UsageCollectionRequest -> Db -> collection * Db)
  : JobHandler := fun execution d =>
  let run := execution.(JobExecution.Claim).(Claim.run) in
  let requestID := execution.(JobExecution.Claim).(Claim.RequestID) in
  match execution.(JobExecution.Window) with
  | None => (job_refused, d)
  | Some window =>
      if (run.(Run.TaskType) != currentTaskType) || is_nil run.(Run.SiteID) || negb (claimed_by execution)
      then (job_refused, d)
      else
        let '(c, d') := collect (CollectRequest.mk run window requestID) d in (usage_outcome requestID c, d')
  end.

(** ** Local rebuilds *)
Module RebuildRequest.
Record LocalRebuildRequest := mk { Run : CollectionRun; Window : CollectionRunWindow; RequestID : string }.
End RebuildRequest.
Abbreviation LocalRebuildRequest := RebuildRequest.LocalRebuildRequest.

Definition LocalRebuildDependencyPendingCode : string := "LOCAL_REBUILD_DEPENDENCY_PENDING".

Definition prepare_valid (request : LocalRebuildRequest) : bool :=
  let run := request.(RebuildRequest.Run) in
  let window := request.(RebuildRequest.Window) in
  negb ((run.(Run.ID) <=? 0) || (window.(RunWindow.ID) <=? 0) || negb (window.(RunWindow.RunID) =? run.(Run.ID))
        || (window.(RunWindow.SiteID) <=? 0) || (window.(RunWindow.HourTS) <=? 0)
        || negb (hour_aligned window.(RunWindow.HourTS)) || (max_int64 - 3600 <? window.(RunWindow.HourTS))
        || (window.(RunWindow.Status) != CollectionTaskStatusRunning) || (run.(Run.Status) != CollectionTaskStatusRunning)
        || (run.(Run.LastRequestID) != request.(RebuildRequest.RequestID)) || (request.(RebuildRequest.RequestID) == "")
        || negb (is_one_of run.(Run.TaskType) [TaskTypeAccountRebuild; TaskTypeCustomerRebuild])).

Definition dependency_request (request : LocalRebuildRequest) (site : Site) (now : Z) : SiteTaskEnqueueRequest :=
  let window := request.(RebuildRequest.Window) in
  let start := window.(RunWindow.HourTS) in
  EnqueueRequest.mk site.(MSite.ID) site.(MSite.ConfigVersion) TaskTypeUsageBackfill CollectionTriggerDependency
    (Some start) (Some (start + 3600)) (NewUsageBackfillRunScope true) CollectionPrioritySiteRecovery
    ("dep_" +:+ FormatInt request.(RebuildRequest.Run).(Run.ID) +:+ "_" +:+ FormatInt window.(RunWindow.ID))
    now (Some (Some SiteWindowRunStrict)).

(** [d] is the database the site is read from, [later] the one the task is
    enqueued in; a run that covers the hour already is as good. *)
Definition enqueueDependency (request : LocalRebuildRequest) (now : Z) (d later : Db) : result unit * Db :=
  match Tables.site d !! request.(RebuildRequest.Window).(RunWindow.SiteID) with
  | None => (Err ErrRecordNotFound, later)
  | Some site =>
      match EnqueueSiteTask (dependency_request request site now) later with
      | Ok (_, d') => (Ok tt, d')
      | Err ErrSiteWindowRunOverlap => (Ok tt, later)
      | Err e => (Err e, later)
      end
  end.

Definition PrepareWindow (sha256_hex : list Z -> string) (request : LocalRebuildRequest) (now : Z) (d later : Db)
  : result CollectionTaskWindowMutation * Db :=
  let run := request.(RebuildRequest.Run) in
  let window := request.(RebuildRequest.Window) in
  if negb (prepare_valid request) || (now <=? 0) then (Err ErrCollectionRunContract, later)
  else
    match head (select (of_hour window.(RunWindow.SiteID) window.(RunWindow.HourTS)) by_id d) with
    | Some factWindow =>
        if factWindow.(Window.Status) == CollectionWindowStatusComplete then
          (NewLocalRebuildMutation sha256_hex
             (LocalRebuild.mk run.(Run.ID) window.(RunWindow.ID) window.(RunWindow.SiteID) window.(RunWindow.HourTS)
                window.(RunWindow.AttemptCount) request.(RebuildRequest.RequestID) now run.(Run.TaskType)
                run.(Run.TargetID)), later)
        else
          match enqueueDependency request now d later with
          | (Ok _, d') => (Err ErrLocalRebuildDependencyPending, d')
          | (Err e, d') => (Err e, d')
          end
    | None =>
        match enqueueDependency request now d later with
        | (Ok _, d') => (Err ErrLocalRebuildDependencyPending, d')
        | (Err e, d') => (Err e, d')
        end
    end.

Definition local_rebuild_job (currentTaskType : string)
    (prepare : LocalRebuildRequest -> Db -> result CollectionTaskWindowMutation * Db) : JobHandler := fun execution d =>
  let run := execution.(JobExecution.Claim).(Claim.run) in
  match execution.(JobExecution.Window) with
  | None => (job_refused, d)
  | Some window =>
      if (run.(Run.TaskType) != currentTaskType) || not_nil run.(Run.SiteID) || negb (claimed_by execution)
      then (job_refused, d)
      else
        let '(prepared, d') := prepare (RebuildRequest.mk run window execution.(JobExecution.RequestID)) d in
        (match prepared with
         | Ok mutation => (JobOutcome.mk 0 0 (Some mutation), None)
         | Err ErrLocalRebuildDependencyPending =>
             job_failed (Execution (ExecutionError.mk LocalRebuildDependencyPendingCode "" true 0 false))
         | Err e => job_failed (classifyCollectionTaskError (Cause (ModelError e)))
         end, d')
  end.

(** ** Tasks of a site without windows

    The service a task is delegated to returns the rows it fetched and wrote,
    or its error, and the database it leaves. *)
Definition site_service : Type := Z -> Z -> string -> Db -> ((Z * Z) + job_error) * Db.

Definition site_run_of (execution : JobExecution) (currentTaskType : string) : option (Z * Z) :=
  let run := execution.(JobExecution.Claim).(Claim.run) in
  match run.(Run.SiteID) with
  | Some siteID =>
      if (run.(Run.TaskType) != currentTaskType) || (siteID <=? 0) || not_nil execution.(JobExecution.Window) then None
      else Some (siteID, run.(Run.SiteConfigVersion))
  | None => None
  end.

(** [refused] is the error of negative counts. *)
Definition delegated (refused : job_result) (answer : (Z * Z) + job_error) : job_result :=
  match answer with
  | inr e => job_failed (classifyCollectionTaskError e)
  | inl (fetched, written) =>
      if (fetched <? 0) || (written <? 0) then refused else (JobOutcome.mk fetched written None, None)
  end.

Definition site_job (currentTaskType : string) (runner : string -> site_service) : JobHandler := fun execution d =>
  match site_run_of execution currentTaskType with
  | None => (job_refused, d)
  | Some (siteID, version) =>
      let '(answer, d') := runner currentTaskType siteID version execution.(JobExecution.RequestID) d in
      (delegated (job_failed (Cause OtherError)) answer, d')
  end.

Definition log_job (collector : site_service) : JobHandler := fun execution d =>
  match site_run_of execution TaskTypeLogSync with
  | None => (job_refused, d)
  | Some (siteID, version) =>
      let '(answer, d') := collector siteID version execution.(JobExecution.RequestID) d in
      (delegated job_refused answer, d')
  end.

(** ** The handlers by task type *)
Definition site_task_types : list string :=
  [TaskTypeSiteProbe; TaskTypeRealtimeStat; TaskTypeResourceSnapshot; TaskTypeUserSync; TaskTypeChannelSync;
   TaskTypePerformanceSync; TaskTypeTopupSync; TaskTypeRedemptionSync; TaskTypeUpstreamTaskSync; TaskTypeModelMetaSync;
   TaskTypePlanSync; TaskTypePricingSync; TaskTypeSystemTaskSync].
Definition usage_task_types : list string := [TaskTypeUsageHour; TaskTypeUsageBackfill; TaskTypeUsageValidation].
Definition rebuild_task_types : list string := [TaskTypeAccountRebuild; TaskTypeCustomerRebuild].
