(* ===== verification/Queues.v ===== *)
(** * The queues of the executor ([worker/queues.go],
    [model/collector_setting.go], the registry of [worker/executor.go])

    A task type belongs to a queue; a limiter counts the claims a queue runs at
    once.  Rebuilds and validations share the capacity of the backfills. *)

From Stdlib Require Import Ascii String.
From S2P Require Import Prelude Constants GoText.

(** ** Settings *)
Module CollectorSettings.
Record CollectorSettings := mk {
  ProbeIntervalSeconds : Z; RealtimeIntervalSeconds : Z; ResourceIntervalSeconds : Z;
  OperationalIntervalSeconds : Z; CatalogIntervalSeconds : Z; UsageDelayMinutes : Z; MinuteRetentionDays : Z;
  ProbeConcurrency : Z; RealtimeConcurrency : Z; ResourceConcurrency : Z; MetadataConcurrency : Z;
  UsageConcurrency : Z; BackfillConcurrency : Z; ManualBackfillMaxDays : Z }.
End CollectorSettings.
Abbreviation CollectorSettings := CollectorSettings.CollectorSettings.

Definition interval_valid (value : Z) : bool :=
  negb ((value <? 60) || (3600 <? value) || negb (Z.rem value 60 =? 0)).
Definition concurrency_valid (value : Z) : bool := negb ((value <? 1) || (1000 <? value)).

Definition validateCollectorSettings (settings : CollectorSettings) : bool :=
  forallb interval_valid
    [settings.(CollectorSettings.ProbeIntervalSeconds); settings.(CollectorSettings.RealtimeIntervalSeconds);
     settings.(CollectorSettings.ResourceIntervalSeconds); settings.(CollectorSettings.OperationalIntervalSeconds);
     settings.(CollectorSettings.CatalogIntervalSeconds)]
  && negb ((settings.(CollectorSettings.UsageDelayMinutes) <? 0) || (60 <? settings.(CollectorSettings.UsageDelayMinutes))
           || (settings.(CollectorSettings.MinuteRetentionDays) <? 1) || (3660 <? settings.(CollectorSettings.MinuteRetentionDays))
           || (settings.(CollectorSettings.ManualBackfillMaxDays) <? 1)
           || (3660 <? settings.(CollectorSettings.ManualBackfillMaxDays)))
  && forallb concurrency_valid
    [settings.(CollectorSettings.ProbeConcurrency); settings.(CollectorSettings.RealtimeConcurrency);
     settings.(CollectorSettings.ResourceConcurrency); settings.(CollectorSettings.MetadataConcurrency);
     settings.(CollectorSettings.UsageConcurrency); settings.(CollectorSettings.BackfillConcurrency)].

(** ** Loading the settings *)

(** strconv.Atoi on a 64-bit platform. *)
Definition digit (c : ascii) : option Z :=
  if (48 <=? code c) && (code c <=? 57) then Some (code c - 48) else None.
Fixpoint digits (value : Z) (l : list ascii) : option Z :=
  match l with
  | [] => Some value
  | c :: rest => match digit c with Some d => digits (value * 10 + d) rest | None => None end
  end.
Definition unsigned (l : list ascii) : option Z := match l with [] => None | _ => digits 0 l end.
Definition Atoi (s : string) : option Z :=
  let value :=
    match bytes s with
    | "-"%char :: rest => Z.opp <$> unsigned rest
    | "+"%char :: rest => unsigned rest
    | l => unsigned l
    end in
  match value with
  | Some v => if (min_int64 <=? v) && (v <=? max_int64) then Some v else None
  | None => None
  end.

(** A row of [platform_setting]. *)
Module SettingRow.
Record SettingRow := mk { Key : string; Value : string; Type_ : string; Secret : bool }.
End SettingRow.
Abbreviation SettingRow := SettingRow.SettingRow.

Definition collector_keys : list string :=
  ["collector.probe_interval_seconds"; "collector.realtime_interval_seconds"; "collector.resource_interval_seconds";
   "collector.operational_interval_seconds"; "collector.catalog_interval_seconds"; "collector.usage_delay_minutes";
   "collector.minute_retention_days"; "collector.probe_concurrency"; "collector.realtime_concurrency";
   "collector.resource_concurrency"; "collector.metadata_concurrency"; "collector.usage_concurrency";
   "collector.backfill_concurrency"; "collector.manual_backfill_max_days"].

Definition setting_values (rows : list SettingRow) : option (gmap string Z) :=
  foldl (fun values row =>
      values ← values;
      value ← Atoi row.(SettingRow.Value);
      if (row.(SettingRow.Type_) != "int") || row.(SettingRow.Secret) then None
      else Some (<[row.(SettingRow.Key) := value]> values))
    (Some ∅) rows.

(** [Load], from the rows of the table; [None] is its error. *)
Definition LoadCollectorSettings (platform_setting : list SettingRow) : option CollectorSettings :=
  values ← setting_values (List.filter (fun row => is_one_of row.(SettingRow.Key) collector_keys) platform_setting);
  if negb (forallb (fun key => bool_decide (is_Some (values !! key))) collector_keys) then None
  else
    let value key := default 0 (values !! key) in
    let settings := CollectorSettings.mk
      (value "collector.probe_interval_seconds") (value "collector.realtime_interval_seconds")
      (value "collector.resource_interval_seconds") (value "collector.operational_interval_seconds")
      (value "collector.catalog_interval_seconds") (value "collector.usage_delay_minutes")
      (value "collector.minute_retention_days") (value "collector.probe_concurrency")
      (value "collector.realtime_concurrency") (value "collector.resource_concurrency")
      (value "collector.metadata_concurrency") (value "collector.usage_concurrency")
      (value "collector.backfill_concurrency") (value "collector.manual_backfill_max_days") in
    if validateCollectorSettings settings then Some settings else None.

(** ** Queues *)
Abbreviation QueueKind := string (only parsing).
Definition QueueProbe : QueueKind := "probe".
Definition QueueRealtime : QueueKind := "realtime".
Definition QueueResource : QueueKind := "resource".
Definition QueuePerformance : QueueKind := "performance".
Definition QueueTopup : QueueKind := "topup".
Definition QueueRedemption : QueueKind := "redemption".
Definition QueueMetadata : QueueKind := "metadata".
Definition QueueUsage : QueueKind := "usage".
Definition QueueBackfill : QueueKind := "backfill".
Definition QueueValidation : QueueKind := "validation".
Definition QueueAccountRebuild : QueueKind := "account_rebuild".
Definition QueueCustomerRebuild : QueueKind := "customer_rebuild".
Definition QueueInitialBackfill : QueueKind := "initial_backfill".

Definition independentQueueOrder : list QueueKind :=
  [QueueProbe; QueueRealtime; QueueResource; QueuePerformance; QueueTopup; QueueRedemption; QueueMetadata].

Definition sharedCollectionQueue (queue : QueueKind) : bool :=
  is_one_of queue [QueueUsage; QueueBackfill; QueueValidation; QueueAccountRebuild; QueueCustomerRebuild].

Definition queueCapacityKey (queue : QueueKind) : QueueKind :=
  if is_one_of queue [QueueValidation; QueueAccountRebuild; QueueCustomerRebuild] then QueueBackfill else queue.

(** [None] is the result [("", false)]. *)
Definition QueueForTask (taskType : string) : option QueueKind :=
  if taskType == TaskTypeSiteProbe then Some QueueProbe
  else if taskType == TaskTypeRealtimeStat then Some QueueRealtime
  else if taskType == TaskTypeResourceSnapshot then Some QueueResource
  else if taskType == TaskTypePerformanceSync then Some QueuePerformance
  else if taskType == TaskTypeTopupSync then Some QueueTopup
  else if taskType == TaskTypeRedemptionSync then Some QueueRedemption
  else if is_one_of taskType
    [TaskTypeUserSync; TaskTypeChannelSync; TaskTypeUpstreamTaskSync; TaskTypeModelMetaSync; TaskTypePlanSync;
     TaskTypePricingSync; TaskTypeSystemTaskSync; TaskTypeLogSync] then Some QueueMetadata
  else if taskType == TaskTypeUsageHour then Some QueueUsage
  else if taskType == TaskTypeUsageBackfill then Some QueueBackfill
  else if taskType == TaskTypeUsageValidation then Some QueueValidation
  else if taskType == TaskTypeAccountRebuild then Some QueueAccountRebuild
  else if taskType == TaskTypeCustomerRebuild then Some QueueCustomerRebuild
  else None.

Definition queueConcurrency (queue : QueueKind) (settings : CollectorSettings) : Z :=
  if queue == QueueProbe then settings.(CollectorSettings.ProbeConcurrency)
  else if queue == QueueRealtime then settings.(CollectorSettings.RealtimeConcurrency)
  else if queue == QueueResource then settings.(CollectorSettings.ResourceConcurrency)
  else if is_one_of queue [QueuePerformance; QueueTopup; QueueRedemption] then settings.(CollectorSettings.ResourceConcurrency)
  else if queue == QueueMetadata then settings.(CollectorSettings.MetadataConcurrency)
  else if queue == QueueUsage then settings.(CollectorSettings.UsageConcurrency)
  else if is_one_of queue [QueueBackfill; QueueValidation; QueueAccountRebuild; QueueCustomerRebuild]
  then settings.(CollectorSettings.BackfillConcurrency)
  else 0.

(** ** The limiter *)
Abbreviation queueLimiter := (gmap string Z).
Definition newQueueLimiter : queueLimiter := ∅.

Definition limiter_count (limiter : queueLimiter) (queue : QueueKind) : Z := default 0 (limiter !! queue).

Definition tryAcquire (limiter : queueLimiter) (queue : QueueKind) (maximum : Z) : option queueLimiter :=
  if maximum <=? 0 then None
  else if maximum <=? limiter_count limiter queue then None
  else Some (<[queue := limiter_count limiter queue + 1]> limiter).

Definition release (limiter : queueLimiter) (queue : QueueKind) : queueLimiter :=
  if limiter_count limiter queue <=? 1 then delete queue limiter
  else <[queue := limiter_count limiter queue - 1]> limiter.

(** ** The registered task types *)

(** The inner loop of [sortStrings] moves one value to its place among the
    values before it, whose order is the reverse of the list here. *)
Fixpoint sift (value : string) (before : list string) : list string :=
  match before with
  | previous :: rest => if String.ltb value previous then previous :: sift value rest else value :: before
  | [] => [value]
  end.
Definition sortStrings (values : list string) : list string := rev (foldl (fun before value => sift value before) [] values).

(** [handlers] is the iteration order of the map of the handlers. *)
Definition registeredTaskTypes (handlers : list string) (queue : QueueKind) : list string :=
  sortStrings (List.filter (fun taskType => bool_decide (QueueForTask taskType = Some queue)) handlers).

Definition shared_capacity (limiter : queueLimiter) (settings : CollectorSettings) (taskType : string) : bool :=
  match QueueForTask taskType with
  | Some queue =>
      sharedCollectionQueue queue
      && negb (queueConcurrency queue settings <=? limiter_count limiter (queueCapacityKey queue))
  | None => false
  end.

Definition registeredSharedTaskTypes (handlers : list string) (limiter : queueLimiter) (settings : CollectorSettings)
  : list string := sortStrings (List.filter (shared_capacity limiter settings) handlers).

(** [Register]; [None] is its error. *)
Definition Register (handlers : list string) (taskType : string) : option (list string) :=
  if is_nil (QueueForTask taskType) then None
  else Some (if is_one_of taskType handlers then handlers else handlers ++ [taskType]).

(** ** Request ids *)

(** strconv.FormatUint in base 36. *)
Definition digit36 (d : Z) : ascii := ascii_of_N (Z.to_N (if d <? 10 then 48 + d else 87 + d)).
Fixpoint base36 (fuel : nat) (n : Z) (acc : string) : string :=
  match fuel with
  | O => acc
  | S fuel => let acc := String (digit36 (n mod 36)) acc in if n <? 36 then acc else base36 fuel (n / 36) acc
  end.
(** Thirteen digits hold any 64-bit value. *)
Definition FormatUint36 (n : Z) : string := base36 13 n "".

(** The counter of the executor, and the id it gives next. *)
Definition nextRequestID (bootNonce : string) (sequence : Z) : Z * string :=
  let sequence := (sequence + 1) mod 2 ^ 64 in
  (sequence, "wrk_" +:+ bootNonce +:+ "_" +:+ FormatUint36 sequence).

(** hex.EncodeToString of the sixteen random bytes of the nonce. *)
Definition hex_of (byte : Z) : string :=
  String (digit36 (byte / 16)) (String (digit36 (byte mod 16)) "").
Definition newWorkerBootNonce (nonce : list Z) : string := foldr (fun byte s => hex_of byte +:+ s) "" nonce.
