(* ===== verification/Executor.v ===== *)
(** * The execution of a claim ([worker/executor.go])

    [executeClaim] runs the windows of a claim one after the other, those of an
    initial backfill side by side, and commits each with what its handler
    returned.  After a while the rest of the windows is handed back.  Whatever
    happens, the run is released at the end.  The requests are functions of the
    readings of the clock, in nanoseconds; [execution_step] is one step of the
    goroutines of a claim, interleaved with those of the rest of the program. *)

From S2P Require Import Prelude Constants GoText Json Stats Store RunContract RunState RunRepository SiteFence TaskScope TaskClaim TaskCommit TaskRecovery UsageFacts UsageAggregation LocalRebuild UsageReconcile UsageCollection WorkerErrors Jobs Queues.

(** [time.Time.Unix] of a reading of the clock. *)
Definition Unix (instant : Z) : Z := instant / 1000000000.

Definition monotonicWorkerCommitTime (now : Z) (previous : list Z) : Z :=
  foldl (fun now value => if now <=? value then value + 1 else now) now previous.

Definition collectionClaimSiteID (claim : CollectionTaskClaim) : Z :=
  match claim.(Claim.run).(Run.SiteID) with
  | Some siteID => siteID
  | None => match claim.(Claim.Windows) with w :: _ => w.(RunWindow.SiteID) | [] => 0 end
  end.

Definition claim_run_id (claim : CollectionTaskClaim) : Z := claim.(Claim.run).(Run.ID).

(** ** What is committed for a window *)

(** [now] is the clock where the outcome is decided. *)
Definition windowOutcome (policy : CollectionTaskAttemptPolicy) (taskType : string) (window : CollectionRunWindow)
    (outcome : JobOutcome) (cause : option job_error) (now : Z) : CollectionTaskWindowResult :=
  let result status next code params :=
    WindowResult.mk window.(RunWindow.ID) window.(RunWindow.AttemptCount) status next
      outcome.(JobOutcome.FetchedRows) outcome.(JobOutcome.WrittenRows) code params in
  match cause with
  | None => result CollectionTaskStatusSuccess None "" ""
  | Some cause =>
      if job_canceled cause then result CollectionTaskStatusPending (Some (Unix now)) "" ""
      else
        let '(retryable, delay, code) := retryDecision taskType window.(RunWindow.AttemptCount) cause policy in
        let delay := retryDelayWithJitter delay taskType window.(RunWindow.RunID) window.(RunWindow.SiteID)
                       window.(RunWindow.HourTS) window.(RunWindow.AttemptCount) in
        if retryable then result CollectionTaskStatusPending (Some (Unix (now + delay))) code (error_params cause)
        else result CollectionTaskStatusFailed None code (error_params cause)
  end.

Definition window_request (policy : CollectionTaskAttemptPolicy) (claim : CollectionTaskClaim)
    (window : CollectionRunWindow) (result : job_result) (decidedAt commitAt : Z) : CompleteClaimedWindowRequest :=
  CompleteRequest.mk (claim_run_id claim) claim.(Claim.RequestID) commitAt
    (windowOutcome policy claim.(Claim.run).(Run.TaskType) window result.1 result.2 decidedAt)
    result.1.(JobOutcome.TransactionMutation).

(** A window handed back because the slice of the claim is used up. *)
Definition yield_request (claim : CollectionTaskClaim) (window : CollectionRunWindow) (commitAt : Z)
  : CompleteClaimedWindowRequest :=
  CompleteRequest.mk (claim_run_id claim) claim.(Claim.RequestID) commitAt
    (WindowResult.mk window.(RunWindow.ID) window.(RunWindow.AttemptCount) CollectionTaskStatusPending (Some commitAt)
       0 0 "" "") None.

(** ** What is committed for a run without windows

    [committedAt] and [retryAt] are the two readings of the clock. *)
Definition non_window_request (policy : CollectionTaskAttemptPolicy) (claim : CollectionTaskClaim) (result : job_result)
    (committedAt retryAt : Z) : CollectionTaskCommitRequest :=
  let run := claim.(Claim.run) in
  let now := Unix committedAt in
  let request status next code params :=
    CommitRequest.mk run.(Run.ID) claim.(Claim.RequestID) now status next
      result.1.(JobOutcome.FetchedRows) result.1.(JobOutcome.WrittenRows) code params [] in
  match result.2 with
  | None => request CollectionTaskStatusSuccess None "" ""
  | Some cause =>
      if job_canceled cause then request CollectionTaskStatusPending (Some now) "" ""
      else
        let attempt := run.(Run.RetryCount) in
        let '(retryable, delay, code) := retryDecision run.(Run.TaskType) attempt cause policy in
        let delay := retryDelayWithJitter delay run.(Run.TaskType) run.(Run.ID) (collectionClaimSiteID claim) 0 attempt in
        if retryable then request CollectionTaskStatusPending (Some (Unix (retryAt + delay))) code (error_params cause)
        else request CollectionTaskStatusFailed None code (error_params cause)
  end.

(** ** The goroutines of a claim *)

(** [Answered]: the handler of a run without windows returned. *)
Inductive Phase := Preparing | Collecting | Yielding | Answered (result : job_result) | Finishing | Finished.

Module Execution.
(** [Remaining] are the windows the loop has not reached, [InFlight] those
    whose handler runs, [Executed] those whose handler returned, with what it
    returned, and [Completed] the requests that committed.  [Limit] is the
    capacity of the semaphore of an initial backfill. *)
Record Execution := mk {
  Claim : CollectionTaskClaim; phase : Phase; Canceled : bool; Limit : option Z; StartedAt : Z; LastCommitAt : Z;
  Remaining : list CollectionRunWindow; InFlight : list CollectionRunWindow;
  Executed : list (CollectionRunWindow * job_result); Completed : list CompleteClaimedWindowRequest }.
#[export] Instance execution_eta : RecordEta Execution := fun x =>
  mk (Claim x) (phase x) (Canceled x) (Limit x) (StartedAt x) (LastCommitAt x) (Remaining x) (InFlight x) (Executed x)
     (Completed x).
End Execution.
Export (hints) Execution.
Abbreviation Execution := Execution.Execution.

Definition begin_execution (claim : CollectionTaskClaim) : Execution :=
  Execution.mk claim Preparing false None 0 claim.(Claim.run).(Run.UpdatedAt) claim.(Claim.Windows) [] [] [].

Definition execution_type (x : Execution) : string := x.(Execution.Claim).(Claim.run).(Run.TaskType).

Definition initial_backfill (claim : CollectionTaskClaim) : bool :=
  (claim.(Claim.run).(Run.TaskType) == TaskTypeUsageBackfill)
  && (claim.(Claim.run).(Run.Priority) =? CollectionPriorityInitialBackfill).

(** The semaphore [executeInitialBackfillClaim] makes. *)
Definition backfill_limit (settings : CollectorSettings) (claim : CollectionTaskClaim) : Z :=
  let count := Z.of_nat (length claim.(Claim.Windows)) in
  if count <? settings.(CollectorSettings.BackfillConcurrency) then count
  else settings.(CollectorSettings.BackfillConcurrency).

(** The windows that hold the semaphore, or the place in the loop. *)
Definition held (x : Execution) : Z :=
  Z.of_nat (length x.(Execution.InFlight)) + Z.of_nat (length x.(Execution.Executed)).

(** Whether the next window may start at [now]: within the slice and after the
    window before it, or within the semaphore. *)
Definition may_start (sliceLimit : Z) (x : Execution) (now : Z) : bool :=
  match x.(Execution.Limit) with
  | None => (held x =? 0) && (now - x.(Execution.StartedAt) <? sliceLimit)
  | Some limit => held x <? limit
  end.

(** The time of the commit of a window at [now]. *)
Definition commit_time (x : Execution) (window : CollectionRunWindow) (now : Z) : Z :=
  match x.(Execution.Limit) with
  | None => monotonicWorkerCommitTime (Unix now) [x.(Execution.LastCommitAt); window.(RunWindow.UpdatedAt)]
  | Some _ => Unix now
  end.

(** The execution after a commit of a window; a failed one ends the loop, and
    in an initial backfill only the goroutine of the window. *)
Definition after_commit (x : Execution) (request : CompleteClaimedWindowRequest) (committed : bool) : Execution :=
  let x := x <| Execution.LastCommitAt := request.(CompleteRequest.Now) |> in
  if committed then x <| Execution.Completed := x.(Execution.Completed) ++ [request] |>
  else match x.(Execution.Limit) with None => x <| Execution.phase := Finishing |> | Some _ => x end.

Definition job_execution (x : Execution) (window : option CollectionRunWindow) : JobExecution :=
  JobExecution.mk x.(Execution.Claim) window x.(Execution.Claim).(Claim.RequestID).

(** A transaction that commits, or one that is rolled back. *)
Definition attempted {A} (m : Tx A) (d : Db) (committed : bool) (d' : Db) : Prop :=
  if committed then exists a, m d = Ok (a, d') else is_ok (m d) = false /\ d' = d.

Section Steps.
(** The options of the executor, the task types that have a handler, and the
    calls of the handler of a type: one for each way its readings of the clock
    and of the upstream can go. *)
Context (policy : CollectionTaskAttemptPolicy) (sliceLimit : Z) (handlers : list string).
Context (calls : string -> JobHandler -> Prop).

(** The steps of the goroutine of a claim and of those of its windows. *)
Inductive productive_step (x : Execution) (d : Db) : Execution -> Db -> Prop :=
(** Before the first window. *)
| step_no_handler committed now d' : x.(Execution.phase) = Preparing -> is_one_of (execution_type x) handlers = false ->
    attempted (ReleaseClaim x.(Execution.Claim) (Unix now)) d committed d' ->
    productive_step x d (x <| Execution.phase := Finishing |>) d'
| step_non_window call result d' : x.(Execution.phase) = Preparing -> is_one_of (execution_type x) handlers = true ->
    x.(Execution.Claim).(Claim.Windows) = [] -> calls (execution_type x) call -> call (job_execution x None) d = (result, d') ->
    productive_step x d
      (x <| Execution.phase := if x.(Execution.Canceled) then Finishing else Answered result |>) d'
| step_non_window_commit result committed committedAt retryAt d' : x.(Execution.phase) = Answered result ->
    attempted (CommitClaim (non_window_request policy x.(Execution.Claim) result committedAt retryAt)) d committed d' ->
    productive_step x d (x <| Execution.phase := Finishing |>) d'
| step_begin now : x.(Execution.phase) = Preparing -> is_one_of (execution_type x) handlers = true ->
    x.(Execution.Claim).(Claim.Windows) <> [] -> initial_backfill x.(Execution.Claim) = false ->
    productive_step x d (x <| Execution.phase := Collecting |> <| Execution.StartedAt := now |>) d
| step_begin_backfill settings : x.(Execution.phase) = Preparing -> is_one_of (execution_type x) handlers = true ->
    x.(Execution.Claim).(Claim.Windows) <> [] -> initial_backfill x.(Execution.Claim) = true ->
    validateCollectorSettings settings = true ->
    productive_step x d
      (x <| Execution.phase := Collecting |> <| Execution.Limit := Some (backfill_limit settings x.(Execution.Claim)) |>) d
| step_no_settings : x.(Execution.phase) = Preparing -> is_one_of (execution_type x) handlers = true ->
    x.(Execution.Claim).(Claim.Windows) <> [] -> initial_backfill x.(Execution.Claim) = true ->
    productive_step x d (x <| Execution.phase := Finishing |>) d
(** One window: it starts, its handler returns, its commit is tried.  Nothing
    is committed of a handler that returns after the cancellation. *)
| step_start window rest now : x.(Execution.phase) = Collecting -> x.(Execution.Canceled) = false ->
    x.(Execution.Remaining) = window :: rest -> may_start sliceLimit x now = true ->
    productive_step x d
      (x <| Execution.Remaining := rest |> <| Execution.InFlight := x.(Execution.InFlight) ++ [window] |>) d
| step_executed before window after_ call result d' : x.(Execution.phase) = Collecting ->
    x.(Execution.InFlight) = before ++ window :: after_ -> calls (execution_type x) call ->
    call (job_execution x (Some window)) d = (result, d') ->
    productive_step x d
      (x <| Execution.InFlight := before ++ after_ |>
         <| Execution.Executed := if x.(Execution.Canceled) then x.(Execution.Executed)
                                  else x.(Execution.Executed) ++ [(window, result)] |>) d'
| step_dropped before window after_ : x.(Execution.phase) = Collecting -> x.(Execution.Canceled) = true ->
    x.(Execution.InFlight) = before ++ window :: after_ ->
    productive_step x d (x <| Execution.InFlight := before ++ after_ |>) d
| step_commit before window result after_ committed decidedAt now d' : x.(Execution.phase) = Collecting ->
    x.(Execution.Executed) = before ++ (window, result) :: after_ ->
    let request := window_request policy x.(Execution.Claim) window result decidedAt (commit_time x window now) in
    attempted (CompleteClaimedWindow request) d committed d' ->
    productive_step x d (after_commit (x <| Execution.Executed := before ++ after_ |>) request committed) d'
(** The slice is used up: the rest of the windows goes back to the queue, a
    cancellation notwithstanding. *)
| step_slice now : x.(Execution.phase) = Collecting -> x.(Execution.Canceled) = false -> x.(Execution.Limit) = None ->
    x.(Execution.Remaining) <> [] -> held x = 0 -> sliceLimit <= now - x.(Execution.StartedAt) ->
    productive_step x d (x <| Execution.phase := Yielding |>) d
| step_yield window rest committed now d' : x.(Execution.phase) = Yielding -> x.(Execution.Remaining) = window :: rest ->
    let request := yield_request x.(Execution.Claim) window (commit_time x window now) in
    attempted (CompleteClaimedWindow request) d committed d' ->
    productive_step x d (after_commit (x <| Execution.Remaining := rest |>) request committed) d'
(** The end of the loop, and the deferred release. *)
| step_stop : x.(Execution.phase) = Preparing \/ x.(Execution.phase) = Collecting -> x.(Execution.Canceled) = true ->
    held x = 0 -> productive_step x d (x <| Execution.phase := Finishing |>) d
| step_done : x.(Execution.phase) = Collecting \/ x.(Execution.phase) = Yielding -> x.(Execution.Remaining) = [] ->
    held x = 0 -> productive_step x d (x <| Execution.phase := Finishing |>) d
| step_release committed now d' : x.(Execution.phase) = Finishing ->
    attempted (ReleaseOwnedRunning (claim_run_id x.(Execution.Claim)) x.(Execution.Claim).(Claim.RequestID) (Unix now)
                 policy) d committed d' ->
    productive_step x d (x <| Execution.phase := Finished |>) d'.

(** Beside them the heartbeat loop runs; a failed heartbeat cancels the claim,
    as the shutdown of the process does. *)
Inductive execution_step (x : Execution) (d : Db) : Execution -> Db -> Prop :=
| step_productive x' d' : productive_step x d x' d' -> execution_step x d x' d'
| step_heartbeat now d' :
    Heartbeat (claim_run_id x.(Execution.Claim)) x.(Execution.Claim).(Claim.RequestID) (Unix now) d = Ok (tt, d') ->
    execution_step x d x d'
| step_cancel : execution_step x d (x <| Execution.Canceled := true |>) d.
End Steps.
