(* ===== verification/Worker.v ===== *)
(** * The dispatcher of the executor ([worker/executor.go])

    [dispatch] fills the capacities of the queues with claims: the initial
    backfills, then the queues that share the order of the claims, then the
    independent ones; every claim runs in goroutines of its own.  A [Worker] is
    the dispatcher with the executions it has started and the database, and
    [worker_step] one step of any of them or of the rest of the program. *)

From S2P Require Import Prelude Constants GoText Json Stats Store RunContract RunState RunRepository SiteFence TaskScope TaskClaim TaskCommit TaskRecovery UsageFacts UsageAggregation LocalRebuild UsageReconcile UsageCollection WorkerErrors Jobs Queues Executor.

(** ** The options of a claim *)
Definition initial_options (now : Z) (requestID : string) : CollectionTaskClaimOptions :=
  ClaimOptions.mk [TaskTypeUsageBackfill] (Some CollectionPriorityInitialBackfill) None now requestID 2048 64.
Definition shared_options (taskTypes : list string) (now : Z) (requestID : string) : CollectionTaskClaimOptions :=
  ClaimOptions.mk taskTypes None (Some CollectionPriorityInitialBackfill) now requestID 24 64.
Definition independent_options (taskTypes : list string) (now : Z) (requestID : string) : CollectionTaskClaimOptions :=
  ClaimOptions.mk taskTypes None None now requestID 24 64.

(** ** The dispatcher *)

(** The loop the dispatcher is in, with the queues left to serve. *)
Inductive Stage := InitialBackfills | SharedQueues | IndependentQueues (queues : list string).

(** [Holding]: a place of the queue is taken for the claim to come.
    [Registered]: the types with capacity were listed.  [Claimed]: the claim has
    no place yet.  [Broken]: its place was gone. *)
Inductive Dispatch :=
| Idle
| Serving (settings : CollectorSettings) (stage : Stage)
| Holding (settings : CollectorSettings) (stage : Stage) (queue : string)
| Registered (settings : CollectorSettings) (taskTypes : list string)
| ClaimedShared (settings : CollectorSettings) (claim : CollectionTaskClaim)
| Broken.

Module Worker.
Record Worker := mk {
  limiter : queueLimiter; dispatch : Dispatch; running : list (string * Execution); sequence : Z; db : Db }.
#[export] Instance worker_eta : RecordEta Worker := fun w =>
  mk (limiter w) (dispatch w) (running w) (sequence w) (db w).
End Worker.
Export (hints) Worker.
Abbreviation Worker := Worker.Worker.

Definition new_worker (d : Db) : Worker := Worker.mk newQueueLimiter Idle [] 0 d.

(** The stage after a loop ends. *)
Definition next_stage (stage : Stage) : Stage :=
  match stage with
  | InitialBackfills => SharedQueues
  | SharedQueues => IndependentQueues independentQueueOrder
  | IndependentQueues queues => IndependentQueues (tail queues)
  end.

(** The queue the stage takes a place of, and how many it has. *)
Definition stage_queue (settings : CollectorSettings) (stage : Stage) : option (string * Z) :=
  match stage with
  | InitialBackfills => Some (QueueInitialBackfill, settings.(CollectorSettings.BackfillConcurrency))
  | IndependentQueues (queue :: _) => Some (queue, queueConcurrency queue settings)
  | _ => None
  end.

(** The claim that is tried while a place is held; [None]: no task type of the
    queue has a handler. *)
Definition held_options (handlers : list string) (stage : Stage) (queue : string) (now : Z) (requestID : string)
  : option CollectionTaskClaimOptions :=
  match stage with
  | IndependentQueues _ =>
      match registeredTaskTypes handlers queue with
      | [] => None
      | taskTypes => Some (independent_options taskTypes now requestID)
      end
  | _ => Some (initial_options now requestID)
  end.

(** After a claim failed: the loop ends when nothing is available or the
    admission is cancelled, and the dispatch for any other error. *)
Definition after_failure (settings : CollectorSettings) (stage : Stage) (canceled : bool) (e : error) : Dispatch :=
  if canceled || (e == ErrCollectionTaskUnavailable) then Serving settings (next_stage stage) else Idle.

Definition shared_place (settings : CollectorSettings) (limiter : queueLimiter) (claim : CollectionTaskClaim)
  : option (string * queueLimiter) :=
  match QueueForTask claim.(Claim.run).(Run.TaskType) with
  | Some queue =>
      let capacityKey := queueCapacityKey queue in
      if negb (sharedCollectionQueue queue) then None
      else match tryAcquire limiter capacityKey (queueConcurrency queue settings) with
           | Some limiter => Some (capacityKey, limiter)
           | None => None
           end
  | None => None
  end.

Definition start_claim (w : Worker) (queue : string) (claim : CollectionTaskClaim) : Worker :=
  w <| Worker.running := w.(Worker.running) ++ [(queue, begin_execution claim)] |>.

Section Steps.
Context (policy : CollectionTaskAttemptPolicy) (sliceLimit : Z) (handlers : list string) (bootNonce : string).
Context (calls : string -> JobHandler -> Prop).
(** A transaction of the rest of the program. *)
Context (elsewhere : Db -> Db -> Prop).

Inductive worker_step (w : Worker) : Worker -> Prop :=
| dispatch_load rows settings : w.(Worker.dispatch) = Idle -> LoadCollectorSettings rows = Some settings ->
    worker_step w (w <| Worker.dispatch := Serving settings InitialBackfills |>)
| dispatch_end settings : w.(Worker.dispatch) = Serving settings (IndependentQueues []) ->
    worker_step w (w <| Worker.dispatch := Idle |>)
(** Loops that take a place before they claim. *)
| dispatch_acquire settings stage queue maximum limiter : w.(Worker.dispatch) = Serving settings stage ->
    stage_queue settings stage = Some (queue, maximum) -> tryAcquire w.(Worker.limiter) queue maximum = Some limiter ->
    worker_step w (w <| Worker.limiter := limiter |> <| Worker.dispatch := Holding settings stage queue |>)
| dispatch_full settings stage queue maximum : w.(Worker.dispatch) = Serving settings stage ->
    stage_queue settings stage = Some (queue, maximum) -> tryAcquire w.(Worker.limiter) queue maximum = None ->
    worker_step w (w <| Worker.dispatch := Serving settings (next_stage stage) |>)
| dispatch_unregistered settings stage queue now requestID : w.(Worker.dispatch) = Holding settings stage queue ->
    held_options handlers stage queue now requestID = None ->
    worker_step w (w <| Worker.limiter := release w.(Worker.limiter) queue |>
                     <| Worker.dispatch := Serving settings (next_stage stage) |>)
| dispatch_claim settings stage queue now sequence requestID options view claim d' :
    w.(Worker.dispatch) = Holding settings stage queue -> nextRequestID bootNonce w.(Worker.sequence) = (sequence, requestID) ->
    held_options handlers stage queue (Unix now) requestID = Some options ->
    ClaimNext options view w.(Worker.db) = Ok (claim, d') ->
    worker_step w (start_claim w queue claim <| Worker.dispatch := Serving settings stage |>
                     <| Worker.sequence := sequence |> <| Worker.db := d' |>)
| dispatch_claim_failed settings stage queue now sequence requestID options view canceled e :
    w.(Worker.dispatch) = Holding settings stage queue -> nextRequestID bootNonce w.(Worker.sequence) = (sequence, requestID) ->
    held_options handlers stage queue (Unix now) requestID = Some options ->
    canceled = true \/ ClaimNext options view w.(Worker.db) = Err e ->
    worker_step w (w <| Worker.limiter := release w.(Worker.limiter) queue |> <| Worker.sequence := sequence |>
                     <| Worker.dispatch := after_failure settings stage canceled e |>)
(** The loop over the shared queues, which takes the place after the claim. *)
| dispatch_shared settings : w.(Worker.dispatch) = Serving settings SharedQueues ->
    worker_step w (w <| Worker.dispatch :=
      match registeredSharedTaskTypes handlers w.(Worker.limiter) settings with
      | [] => Serving settings (next_stage SharedQueues)
      | taskTypes => Registered settings taskTypes
      end |>)
| dispatch_shared_claim settings taskTypes now sequence requestID view claim d' :
    w.(Worker.dispatch) = Registered settings taskTypes -> nextRequestID bootNonce w.(Worker.sequence) = (sequence, requestID) ->
    ClaimNext (shared_options taskTypes (Unix now) requestID) view w.(Worker.db) = Ok (claim, d') ->
    worker_step w (w <| Worker.dispatch := ClaimedShared settings claim |> <| Worker.sequence := sequence |>
                     <| Worker.db := d' |>)
| dispatch_shared_failed settings taskTypes now sequence requestID view canceled e :
    w.(Worker.dispatch) = Registered settings taskTypes -> nextRequestID bootNonce w.(Worker.sequence) = (sequence, requestID) ->
    canceled = true \/ ClaimNext (shared_options taskTypes (Unix now) requestID) view w.(Worker.db) = Err e ->
    worker_step w (w <| Worker.sequence := sequence |>
                     <| Worker.dispatch := after_failure settings SharedQueues canceled e |>)
| dispatch_admit settings claim : w.(Worker.dispatch) = ClaimedShared settings claim ->
    worker_step w
      (match shared_place settings w.(Worker.limiter) claim with
       | Some (queue, limiter) =>
           start_claim w queue claim <| Worker.limiter := limiter |> <| Worker.dispatch := Serving settings SharedQueues |>
       | None => w <| Worker.dispatch := Broken |>
       end)
(** The executions; the place of one that ends is released. *)
| execution_turn before queue x after_ x' d' : w.(Worker.running) = before ++ (queue, x) :: after_ ->
    execution_step policy sliceLimit handlers calls x w.(Worker.db) x' d' ->
    worker_step w (w <| Worker.running := before ++ (queue, x') :: after_ |> <| Worker.db := d' |>)
| execution_end before queue x after_ : w.(Worker.running) = before ++ (queue, x) :: after_ ->
    x.(Execution.phase) = Finished ->
    worker_step w (w <| Worker.running := before ++ after_ |> <| Worker.limiter := release w.(Worker.limiter) queue |>)
| other_turn d' : elsewhere w.(Worker.db) d' -> worker_step w (w <| Worker.db := d' |>).
End Steps.
