(* ===== verification/ExecutorBehaviour.v ===== *)
(** * What an execution commits, and that it ends

    An execution is followed through any interleaving with the rest of the
    program: between two of its steps the database may change in any way. *)

From S2P Require Import Prelude Constants GoText Json Stats Store Frame RunContract RunState RunRepository SiteFence TaskScope TaskClaim TaskCommit RunFrames RunInvariant QueueClaim TaskRecovery Materialize QueueSteps QueueRecovery QueueCreate QueueMaterialize QueueSafety UsageFacts UsageAggregation LocalRebuild UsageReconcile UsageCollection WorkerErrors Jobs Queues Executor.

(** ** The time of a commit *)
Lemma monotonic_commit_time now previous :
  now <= monotonicWorkerCommitTime now previous /\ forall value, value ∈ previous -> value < monotonicWorkerCommitTime now previous.
Proof.
  unfold monotonicWorkerCommitTime. revert now. induction previous as [|v previous IH]; intros now; simpl.
  { split; [lia|]. by intros value ?%elem_of_nil. }
  destruct (IH (if now <=? v then v + 1 else now)) as [Hle Hall].
  assert (now <= (if now <=? v then v + 1 else now) /\ v < (if now <=? v then v + 1 else now)) by (destruct (now <=? v) eqn:E; lia).
  split; [lia|]. intros value [->|Hv]%elem_of_cons; [lia|auto].
Qed.

(** The request of a window of the claim. *)
Definition commits (policy : CollectionTaskAttemptPolicy) (claim : CollectionTaskClaim) (window : CollectionRunWindow)
    (request : CompleteClaimedWindowRequest) : Prop :=
  request = yield_request claim window request.(CompleteRequest.Now) \/
  exists result decidedAt, request = window_request policy claim window result decidedAt request.(CompleteRequest.Now).

Definition executed_windows (x : Execution) : list CollectionRunWindow := fst <$> x.(Execution.Executed).

(** Whether the loop over the windows goes on in their order. *)
Definition in_order (claim : CollectionTaskClaim) (x : Execution) (ws : list CollectionRunWindow) : Prop :=
  exists rest, claim.(Claim.Windows) = ws ++ rest /\
    (rest = executed_windows x ++ x.(Execution.InFlight) ++ x.(Execution.Remaining) \/
     held x = 0 /\ (x.(Execution.phase) = Finishing \/ x.(Execution.phase) = Finished \/
                    x.(Execution.phase) = Collecting /\ x.(Execution.Canceled) = true)).

Definition commit_times (x : Execution) : list Z := CompleteRequest.Now <$> x.(Execution.Completed).

Record execution_inv (policy : CollectionTaskAttemptPolicy) (claim : CollectionTaskClaim) (x : Execution)
    (ws : list CollectionRunWindow) : Prop := {
  inv_claim : x.(Execution.Claim) = claim;
  inv_requests : Forall2 (commits policy claim) ws x.(Execution.Completed);
  inv_windows : ws ++ executed_windows x ++ x.(Execution.InFlight) ++ x.(Execution.Remaining) ⊆+ claim.(Claim.Windows);
  inv_held : match x.(Execution.Limit) with Some limit => 1 <= limit /\ held x <= limit | None => held x <= 1 end;
  inv_idle : x.(Execution.phase) <> Collecting -> held x = 0;
  inv_preparing : x.(Execution.phase) = Preparing \/ (exists r, x.(Execution.phase) = Answered r) ->
    x.(Execution.Limit) = None;
  inv_order : x.(Execution.Limit) = None -> in_order claim x ws;
  inv_times : x.(Execution.Limit) = None ->
    StronglySorted Z.lt (claim.(Claim.run).(Run.UpdatedAt) :: commit_times x) /\
    claim.(Claim.run).(Run.UpdatedAt) <= x.(Execution.LastCommitAt) /\
    forall t, t ∈ commit_times x -> t <= x.(Execution.LastCommitAt)
}.

Lemma begin_inv policy claim : execution_inv policy claim (begin_execution claim) [].
Proof.
  split; simpl; try done.
  - intros _. exists claim.(Claim.Windows). split; [done|]. by left.
  - intros _. split; [by repeat constructor|]. split; [simpl; lia|]. intros t. simpl. by intros ?%elem_of_nil.
Qed.

Lemma held_zero x : held x = 0 -> x.(Execution.InFlight) = [] /\ x.(Execution.Executed) = [].
Proof. unfold held. destruct (Execution.InFlight x), (Execution.Executed x); simpl; try lia; done. Qed.

Section Steps.
Context (policy : CollectionTaskAttemptPolicy) (sliceLimit : Z) (handlers : list string) (calls : string -> JobHandler -> Prop).
Abbreviation turn x d x' d' := (execution_step policy sliceLimit handlers calls x d x' d').
Abbreviation productive x d x' d' := (productive_step policy sliceLimit handlers calls x d x' d').

(** A step that changes nothing but the phase, once nothing is held. *)
Lemma leave_inv claim x ws p : execution_inv policy claim x ws -> held x = 0 -> p = Finishing \/ p = Finished ->
  execution_inv policy claim (x <| Execution.phase := p |>) ws.
Proof.
  intros [] Hh Hp. split; simpl; try done.
  - by intros [E|[r E]]; destruct Hp; subst p.
  - intros Hl. destruct (inv_order0 Hl) as (rest&E&_). exists rest. split; [done|]. right. simpl. tauto.
Qed.

(** ** The steps of a window *)
Lemma in_order_active claim x ws : in_order claim x ws -> x.(Execution.phase) = Collecting -> x.(Execution.Canceled) = false \/ held x <> 0 ->
  claim.(Claim.Windows) = ws ++ executed_windows x ++ x.(Execution.InFlight) ++ x.(Execution.Remaining).
Proof.
  intros (rest&E&[->|(Hh&[Hp|[Hp|[_ Hc]]])]) Hphase Ha; [done|congruence|congruence|].
  destruct Ha; [congruence|done].
Qed.

Lemma start_inv claim x ws window rest now : execution_inv policy claim x ws -> x.(Execution.phase) = Collecting ->
  x.(Execution.Canceled) = false -> x.(Execution.Remaining) = window :: rest -> may_start sliceLimit x now = true ->
  execution_inv policy claim
    (x <| Execution.Remaining := rest |> <| Execution.InFlight := x.(Execution.InFlight) ++ [window] |>) ws.
Proof.
  intros [] Hp Hc Hr Hm. unfold may_start, held, executed_windows in *. split; unfold held, executed_windows; simpl; try done.
  - etrans; [|exact inv_windows0]. rewrite Hr. rewrite <- !app_assoc. done.
  - rewrite length_app. simpl. destruct (Execution.Limit x); to_prop; lia.
  - intros Hl. pose proof (in_order_active _ _ _ (inv_order0 Hl) Hp (or_introl Hc)) as E. eexists. split; [exact E|]. left.
    unfold executed_windows. simpl. rewrite Hr, <- app_assoc. done.
Qed.

Lemma executed_inv claim x ws before window after_ result :
  execution_inv policy claim x ws -> x.(Execution.phase) = Collecting ->
  x.(Execution.InFlight) = before ++ window :: after_ ->
  execution_inv policy claim
    (x <| Execution.InFlight := before ++ after_ |>
       <| Execution.Executed := if x.(Execution.Canceled) then x.(Execution.Executed)
                                else x.(Execution.Executed) ++ [(window, result)] |>) ws.
Proof.
  intros [] Hp Hf. split; unfold held, executed_windows in *; simpl; try done.
  - etrans; [|exact inv_windows0]. rewrite Hf. destruct (Execution.Canceled x); rewrite ?fmap_app; simpl; solve_submseteq.
  - rewrite Hf in inv_held0. rewrite length_app in *. simpl in *.
    destruct (Execution.Limit x), (Execution.Canceled x); rewrite ?length_app; simpl; lia.
  - intros Hl. assert (Hone : held x <> 0) by (unfold held; rewrite Hf, length_app; simpl; lia).
    pose proof (in_order_active _ _ _ (inv_order0 Hl) Hp (or_intror Hone)) as E.
    rewrite Hl, Hf, length_app in inv_held0. simpl in inv_held0.
    assert (before = [] /\ after_ = [] /\ Execution.Executed x = []) as (->&->&Hex).
    { destruct before, after_, (Execution.Executed x); simpl in *; try lia; done. }
    eexists. split; [exact E|]. unfold executed_windows, held. simpl. rewrite Hex, Hf. simpl.
    destruct (Execution.Canceled x) eqn:Hc; [right|by left]. split; [done|]. tauto.
Qed.

Lemma dropped_inv claim x ws before window after_ :
  execution_inv policy claim x ws -> x.(Execution.phase) = Collecting -> x.(Execution.Canceled) = true ->
  x.(Execution.InFlight) = before ++ window :: after_ ->
  execution_inv policy claim (x <| Execution.InFlight := before ++ after_ |>) ws.
Proof.
  intros Hinv Hp Hc Hf. pose proof (executed_inv claim x ws before window after_ (no_outcome, None) Hinv Hp Hf) as H.
  rewrite Hc in H. destruct x. exact H.
Qed.

(** The commit of a window that the execution holds no more. *)
Lemma committed_inv claim x x' ws window request committed :
  execution_inv policy claim x ws -> commits policy claim window request ->
  x'.(Execution.Claim) = x.(Execution.Claim) -> x'.(Execution.Limit) = x.(Execution.Limit) ->
  x'.(Execution.LastCommitAt) = x.(Execution.LastCommitAt) -> x'.(Execution.Completed) = x.(Execution.Completed) ->
  x'.(Execution.phase) = x.(Execution.phase) -> x'.(Execution.Canceled) = x.(Execution.Canceled) ->
  x.(Execution.phase) = Collecting \/ x.(Execution.phase) = Yielding ->
  window :: executed_windows x' ++ x'.(Execution.InFlight) ++ x'.(Execution.Remaining)
    ⊆+ executed_windows x ++ x.(Execution.InFlight) ++ x.(Execution.Remaining) ->
  held x' <= held x -> (x.(Execution.Limit) = None -> held x' = 0) ->
  (x.(Execution.Limit) = None -> x.(Execution.LastCommitAt) < request.(CompleteRequest.Now) /\
     claim.(Claim.Windows) = ws ++ window :: executed_windows x' ++ x'.(Execution.InFlight) ++ x'.(Execution.Remaining)) ->
  execution_inv policy claim (after_commit x' request committed) (if committed then ws ++ [window] else ws).
Proof.
  intros [] Hreq Ec El Et Ed Ep Ex Hp Hsub Hheld Hseq Hnone.
  assert (Hh : held (after_commit x' request committed) = held x').
  { unfold held, after_commit. simpl. destruct committed, (Execution.Limit x'); done. }
  assert (Hl : (after_commit x' request committed).(Execution.Limit) = x.(Execution.Limit)).
  { unfold after_commit. simpl. destruct committed, (Execution.Limit x') eqn:E; simpl; congruence. }
  split; rewrite ?Hh, ?Hl.
  - unfold after_commit. simpl. destruct committed, (Execution.Limit x'); simpl; congruence.
  - destruct committed.
    + simpl. rewrite Ed. apply Forall2_app; [done|]. constructor; [exact Hreq|constructor].
    + unfold after_commit. simpl. destruct (Execution.Limit x'); simpl; by rewrite Ed.
  - assert (E : executed_windows (after_commit x' request committed) ++ (after_commit x' request committed).(Execution.InFlight)
                ++ (after_commit x' request committed).(Execution.Remaining)
                = executed_windows x' ++ x'.(Execution.InFlight) ++ x'.(Execution.Remaining)).
    { unfold executed_windows, after_commit. simpl. destruct committed, (Execution.Limit x'); done. }
    rewrite E. etrans; [|exact inv_windows0]. rewrite <- ?app_assoc.
    destruct committed; rewrite <- ?app_assoc; apply submseteq_app; try done.
    etrans; [|exact Hsub]. by apply submseteq_cons.
  - destruct (Execution.Limit x); lia.
  - intros Hn. destruct Hp as [Hp|Hp]; [|specialize (inv_idle0 ltac:(congruence)); unfold held in *; lia].
    destruct (Execution.Limit x) eqn:E; [|by apply Hseq].
    exfalso. apply Hn. unfold after_commit. simpl. rewrite El. destruct committed; simpl; congruence.
  - intros Hpr. exfalso. unfold after_commit in Hpr. simpl in Hpr.
    destruct committed, (Execution.Limit x'); simpl in Hpr; rewrite ?Ep in Hpr;
      destruct Hp as [Hp|Hp]; rewrite ?Hp in Hpr; destruct Hpr as [?|[? ?]]; congruence.
  - intros E. specialize (Hnone E) as [_ Hw]. specialize (Hseq E). unfold after_commit. simpl. rewrite El, E. destruct committed.
    + eexists. rewrite <- app_assoc. split; [exact Hw|]. by left.
    + eexists. split; [exact Hw|]. right. split; [exact Hseq|]. simpl. tauto.
  - intros E. specialize (Hnone E) as [Ht _]. destruct (inv_times0 E) as (Hs&Hlast&Hall).
    unfold after_commit, commit_times. simpl. rewrite El, E. destruct committed; simpl; rewrite Ed.
    + rewrite fmap_app. simpl. split; [|split; [lia|]].
      * rewrite app_comm_cons. apply StronglySorted_app_2; [|exact Hs|by repeat constructor].
        intros a b Ha ->%list_elem_of_singleton. apply elem_of_cons in Ha as [->|Ha]; [lia|]. specialize (Hall _ Ha). lia.
      * intros t [Ha| ->%list_elem_of_singleton]%elem_of_app; [|lia]. specialize (Hall _ Ha). lia.
    + split; [done|]. split; [lia|]. intros t Ha. specialize (Hall _ Ha). lia.
Qed.

Lemma window_commits claim window result decidedAt at_ :
  commits policy claim window (window_request policy claim window result decidedAt at_).
Proof. right. by exists result, decidedAt. Qed.

Lemma yield_commits claim window at_ : commits policy claim window (yield_request claim window at_).
Proof. by left. Qed.

Lemma commit_time_after x window now : x.(Execution.Limit) = None -> x.(Execution.LastCommitAt) < commit_time x window now.
Proof.
  intros E. unfold commit_time. rewrite E. apply monotonic_commit_time. apply elem_of_cons. by left.
Qed.

Lemma commit_inv claim x ws before window result after_ committed decidedAt now :
  execution_inv policy claim x ws -> x.(Execution.phase) = Collecting ->
  x.(Execution.Executed) = before ++ (window, result) :: after_ ->
  let request := window_request policy x.(Execution.Claim) window result decidedAt (commit_time x window now) in
  execution_inv policy claim (after_commit (x <| Execution.Executed := before ++ after_ |>) request committed)
    (if committed then ws ++ [window] else ws).
Proof.
  intros Hinv Hp He request. pose proof Hinv as [Ec _ _ Hheld _ _ Hord _].
  assert (Hlen : held x = 1 + held (x <| Execution.Executed := before ++ after_ |>)).
  { unfold held. rewrite He. simpl. rewrite !length_app. simpl. lia. }
  assert (Hone : x.(Execution.Limit) = None -> held (x <| Execution.Executed := before ++ after_ |>) = 0).
  { intros E. rewrite E in Hheld. unfold held in *. simpl in *. lia. }
  apply (committed_inv claim x _ ws window); try done.
  - subst claim. apply window_commits.
  - by left.
  - unfold executed_windows. rewrite He. simpl. rewrite !fmap_app. simpl. solve_submseteq.
  - lia.
  - intros E. split; [by apply commit_time_after|]. specialize (Hone E). assert (Hne : held x <> 0) by lia.
    pose proof (in_order_active _ _ _ (Hord E) Hp (or_intror Hne)) as Hw. rewrite Hw.
    apply held_zero in Hone as [Hin Hex]. simpl in Hin, Hex. unfold executed_windows. simpl. rewrite Hex.
    apply app_eq_nil in Hex as [-> ->]. by rewrite He.
Qed.

Lemma yield_inv claim x ws window rest committed now :
  execution_inv policy claim x ws -> x.(Execution.phase) = Yielding -> x.(Execution.Remaining) = window :: rest ->
  let request := yield_request x.(Execution.Claim) window (commit_time x window now) in
  execution_inv policy claim (after_commit (x <| Execution.Remaining := rest |>) request committed)
    (if committed then ws ++ [window] else ws).
Proof.
  intros Hinv Hp Hr request. pose proof Hinv as [Ec _ _ _ Hidle _ Hord _].
  assert (Hh : held x = 0) by (apply Hidle; congruence). destruct (held_zero _ Hh) as [Hin Hex].
  apply (committed_inv claim x _ ws window); try done.
  - subst claim. apply yield_commits.
  - by right.
  - unfold executed_windows. simpl. rewrite Hr, Hin, Hex. done.
  - intros E. split; [by apply commit_time_after|]. destruct (Hord E) as (tail&Hw&[->|(_&[?|[?|[? _]]])]); [|congruence..].
    rewrite Hw. unfold executed_windows. simpl. by rewrite Hr, Hin, Hex.
Qed.

Lemma backfill_limit_pos settings claim : validateCollectorSettings settings = true -> claim.(Claim.Windows) <> [] ->
  1 <= backfill_limit settings claim.
Proof.
  unfold validateCollectorSettings, backfill_limit, concurrency_valid. cbn [forallb]. intros Hv Hne. to_prop.
  assert (0 < length claim.(Claim.Windows))%nat by (destruct (Claim.Windows claim); simpl; [done|lia]).
  case_match; lia.
Qed.

Lemma productive_inv claim x d x' d' ws : execution_inv policy claim x ws -> productive x d x' d' ->
  exists ws', execution_inv policy claim x' ws'.
Proof.
  intros Hinv H. pose proof Hinv as [Ec _ _ _ Hidle Hprep _ _].
  destruct H as [committed now d' Hp _ _|call result d' Hp _ _ _ _|result committed c r d' Hp _|now Hp _ Hw _|settings Hp _ Hw _ Hs|Hp _ _ _
    |window rest now Hp Hc Hr Hm|before window after_ call result d' Hp Hf _ _|before window after_ Hp Hc Hf
    |before window result after_ committed decidedAt now d' Hp He request _
    |now Hp Hc Hl Hr Hh _|window rest committed now d' Hp Hr request _|Hp Hc Hh|Hp Hr Hh|committed now d' Hp _].
  - exists ws. apply leave_inv; [done| |by left]. apply Hidle. congruence.
  - exists ws. assert (held x = 0) as Hh by (apply Hidle; congruence).
    destruct (Execution.Canceled x); [by apply leave_inv; auto|].
    destruct Hinv. split; simpl; try done; [intros _; apply inv_preparing0; by left|].
    intros Hl. destruct (inv_order0 Hl) as (rest&E&Hrest). exists rest. split; [done|].
    destruct Hrest as [Hrest|(_&[?|[?|[? _]]])]; [by left|congruence..].
  - exists ws. apply leave_inv; [done| |by left]. apply Hidle. congruence.
  - exists ws. destruct Hinv. split; simpl; try done; [intros [?|[? ?]]; congruence|].
    intros Hl. destruct (inv_order0 Hl) as (rest&E&Hrest). exists rest. split; [done|].
    destruct Hrest as [Hrest|(_&[?|[?|[? _]]])]; [by left|congruence..].
  - exists ws. destruct Hinv. split; simpl; try done; [|intros [?|[? ?]]; congruence].
    assert (held x = 0) as Hh by (apply Hidle; congruence). subst claim.
    pose proof (backfill_limit_pos settings _ Hs Hw). unfold held in *. simpl. lia.
  - exists ws. apply leave_inv; [done| |by left]. apply Hidle. congruence.
  - exists ws. by eapply start_inv.
  - exists ws. by apply (executed_inv claim x ws).
  - exists ws. by apply (dropped_inv claim x ws before window).
  - eexists. by apply commit_inv.
  - exists ws. destruct Hinv. split; simpl; try done.
    intros _. pose proof (in_order_active _ _ _ (inv_order0 Hl) Hp (or_introl Hc)) as E. eexists. split; [exact E|]. by left.
  - eexists. by apply yield_inv.
  - exists ws. apply leave_inv; auto.
  - exists ws. apply leave_inv; auto.
  - exists ws. apply leave_inv; [done| |by right]. apply Hidle. congruence.
Qed.

(** ** Any interleaving *)
Definition execution_turn (x x' : Execution) : Prop := exists d d', turn x d x' d'.

Lemma turn_inv claim x x' ws : execution_inv policy claim x ws -> execution_turn x x' ->
  exists ws', execution_inv policy claim x' ws'.
Proof.
  intros Hinv (d&d'&[y e Hs|now e _|]).
  - by eapply productive_inv.
  - by exists ws.
  - exists ws. destruct Hinv. split; simpl; try done.
    intros Hl. destruct (inv_order0 Hl) as (rest&E&[Hrest|(Hh&Hrest)]); exists rest; (split; [done|]); [by left|right].
    split; [done|]. destruct Hrest as [?|[?|[? _]]]; simpl; auto.
Qed.

Lemma turns_inv claim x : rtc execution_turn (begin_execution claim) x -> exists ws, execution_inv policy claim x ws.
Proof.
  intros H. assert (Hstart : exists ws, execution_inv policy claim (begin_execution claim) ws).
  { exists []. apply begin_inv. }
  induction H as [|x y z Hxy _ IH]; [done|]. apply IH. destruct Hstart as [ws Hws]. by eapply turn_inv.
Qed.

(** ** The end of an execution *)
Definition phase_rank (p : Phase) : nat :=
  match p with Preparing => 4 | Collecting => 3 | Yielding => 2 | Answered _ => 2 | Finishing => 1 | Finished => 0 end.
Definition work_left (x : Execution) : nat :=
  3 * length x.(Execution.Remaining) + 2 * length x.(Execution.InFlight) + length x.(Execution.Executed)
  + phase_rank x.(Execution.phase).

Lemma after_commit_work x request committed : (work_left (after_commit x request committed) <= work_left x)%nat \/ x.(Execution.phase) = Finished.
Proof.
  unfold work_left, after_commit. destruct committed; simpl; [by left; lia|].
  destruct (Execution.Limit x); simpl; [by left; lia|]. destruct (Execution.phase x); simpl; auto; left; lia.
Qed.

Lemma productive_work x d x' d' : productive x d x' d' -> (work_left x' < work_left x)%nat.
Proof.
  intros []; try (unfold work_left; simpl; match goal with H : Execution.phase x = _ |- _ => rewrite H end; simpl; lia).
  - unfold work_left. simpl. rewrite H. destruct (Execution.Canceled x); simpl; lia.
  - unfold work_left. simpl. rewrite H, H1, length_app. simpl. lia.
  - unfold work_left. simpl. rewrite H, H0, !length_app. simpl. destruct (Execution.Canceled x); rewrite ?length_app; simpl; lia.
  - unfold work_left. simpl. rewrite H, H1, !length_app. simpl. lia.
  - match goal with |- (work_left (after_commit ?y ?r ?c) < _)%nat => destruct (after_commit_work y r c) as [Hw|Hf] end;
      [|simpl in Hf; congruence]. eapply Nat.le_lt_trans; [exact Hw|]. unfold work_left. simpl. rewrite H0, !length_app. simpl. lia.
  - match goal with |- (work_left (after_commit ?y ?r ?c) < _)%nat => destruct (after_commit_work y r c) as [Hw|Hf] end;
      [|simpl in Hf; congruence]. eapply Nat.le_lt_trans; [exact Hw|]. unfold work_left. simpl. rewrite H0. simpl. lia.
  - unfold work_left. simpl. destruct H as [-> | ->]; simpl; lia.
  - unfold work_left. simpl. destruct H as [-> | ->]; simpl; lia.
Qed.

Lemma turn_work x x' : execution_turn x x' -> (work_left x' <= work_left x)%nat.
Proof. intros (d&d'&[y e Hs|now e _|]); [apply productive_work in Hs; lia|lia|unfold work_left; simpl; lia]. Qed.

Lemma attempted_total {A} (m : Tx A) d : exists committed d', attempted m d committed d'.
Proof.
  destruct (m d) as [[a d']|e] eqn:E; [exists true, d'; simpl; by exists a|exists false, d; simpl; by rewrite E].
Qed.

Lemma productive_exists claim x ws d : (forall taskType, exists call, calls taskType call) ->
  execution_inv policy claim x ws -> x.(Execution.phase) <> Finished -> exists x' d', productive x d x' d'.
Proof.
  intros Hcalls [] Hp. destruct (Execution.phase x) as [| | |result| |] eqn:E; [..|done].
  - destruct (is_one_of (execution_type x) handlers) eqn:Hh.
    + destruct (Claim.Windows (Execution.Claim x)) eqn:Hw.
      * destruct (Hcalls (execution_type x)) as [call Hcall]. destruct (call (job_execution x None) d) as [result d'] eqn:Hc.
        do 2 eexists. by eapply step_non_window.
      * assert (Hne : Claim.Windows (Execution.Claim x) <> []) by (by rewrite Hw).
        destruct (initial_backfill (Execution.Claim x)) eqn:Hi; do 2 eexists;
          [by apply step_no_settings|by apply (step_begin _ _ _ _ _ _ 0)].
    + destruct (attempted_total (ReleaseClaim (Execution.Claim x) (Unix 0)) d) as (c&d'&Ha).
      do 2 eexists. by eapply step_no_handler.
  - destruct (Execution.Executed x) as [|[w r] rest] eqn:He.
    + destruct (Execution.InFlight x) as [|w rest] eqn:Hf.
      * assert (Hh : held x = 0) by (unfold held; by rewrite He, Hf).
        destruct (Execution.Canceled x) eqn:Hc; [do 2 eexists; apply step_stop; auto|].
        destruct (Execution.Remaining x) as [|w rest] eqn:Hr; [do 2 eexists; apply step_done; auto|].
        destruct (may_start sliceLimit x 0) eqn:Hm; [do 2 eexists; by eapply step_start|].
        unfold may_start in Hm. destruct (Execution.Limit x) eqn:Hl; to_prop; [lia|].
        assert (Hne : Execution.Remaining x <> []) by (by rewrite Hr).
        do 2 eexists. apply (step_slice _ _ _ _ _ _ 0); try done. destruct Hm as [Hm|Hm]; [done|lia].
      * destruct (Hcalls (execution_type x)) as [call Hcall]. destruct (call (job_execution x (Some w)) d) as [result d'] eqn:Hc.
        do 2 eexists. by eapply (step_executed _ _ _ _ _ _ []).
    + destruct (attempted_total (CompleteClaimedWindow
        (window_request policy (Execution.Claim x) w r 0 (commit_time x w 0))) d) as (c&d'&Ha).
      do 2 eexists. by eapply (step_commit _ _ _ _ _ _ []).
  - destruct (Execution.Remaining x) as [|w rest] eqn:Hr.
    + do 2 eexists. apply step_done; [by right|done|apply inv_idle0; congruence].
    + destruct (attempted_total (CompleteClaimedWindow (yield_request (Execution.Claim x) w (commit_time x w 0))) d) as (c&d'&Ha).
      do 2 eexists. by eapply step_yield.
  - destruct (attempted_total (CommitClaim (non_window_request policy (Execution.Claim x) result 0 0)) d) as (c&d'&Ha).
    do 2 eexists. by eapply step_non_window_commit.
  - destruct (attempted_total (ReleaseOwnedRunning (claim_run_id (Execution.Claim x)) (Execution.Claim x).(Claim.RequestID)
      (Unix 0) policy) d) as (c&d'&Ha). do 2 eexists. by eapply step_release.
Qed.

(** One step of the goroutines of the claim, after any number of heartbeats and
    cancellations and whatever the rest of the program does to the database. *)
Definition productive_turn (x x' : Execution) : Prop :=
  exists y d d', rtc execution_turn x y /\ productive y d x' d'.
End Steps.

(** C24: an execution commits what it was handed and nothing else, whatever the
    rest of the program does between its steps: at any moment the requests that
    committed are those of distinct windows of its claim, under the run and the
    request id of the claim and with the attempt the claim counted.  Without a
    semaphore they are the first windows of the claim, in its order, and each
    commit is dated later than the one before it and than the run was; with one,
    no more windows are at work than it has places. *)
Theorem execution_commits policy sliceLimit handlers calls claim x :
  rtc (execution_turn policy sliceLimit handlers calls) (begin_execution claim) x ->
  exists ws, Forall2 (commits policy claim) ws x.(Execution.Completed) /\ ws ⊆+ claim.(Claim.Windows) /\
    match x.(Execution.Limit) with
    | None => (exists rest, claim.(Claim.Windows) = ws ++ rest) /\
              StronglySorted Z.lt (claim.(Claim.run).(Run.UpdatedAt) :: commit_times x)
    | Some limit => held x <= limit
    end.
Proof.
  intros (ws&[])%turns_inv. exists ws. split; [done|]. split.
  - etrans; [|exact inv_windows0]. by apply submseteq_inserts_r.
  - destruct (Execution.Limit x); [lia|]. split; [|by apply inv_times0]. destruct (inv_order0 eq_refl) as (rest&E&_). by exists rest.
Qed.

(** C25: an execution ends.  It makes at most three steps for each window and
    four more, however often it is interrupted; until it has tried the release
    of its run it can always go on, provided every handler returns. *)
Theorem execution_ends policy sliceLimit handlers calls claim n x :
  (forall taskType, exists call, calls taskType call) ->
  nsteps (productive_turn policy sliceLimit handlers calls) n (begin_execution claim) x ->
  (n <= 3 * length claim.(Claim.Windows) + 4)%nat /\
  (x.(Execution.phase) <> Finished -> forall d, exists x' d', productive_step policy sliceLimit handlers calls x d x' d').
Proof.
  intros Hcalls H. split.
  - assert (Hw : (n + work_left x <= work_left (begin_execution claim))%nat).
    { induction H as [|n y z t (u&d&d'&Hu&Hz) _ IH]; [lia|]. apply productive_work in Hz.
      assert (work_left u <= work_left y)%nat; [|lia]. clear -Hu. induction Hu as [|a b c Hab _ IH]; [lia|].
      apply turn_work in Hab. lia. }
    unfold work_left, begin_execution in Hw. simpl in Hw. lia.
  - intros Hp d. assert (Hx : rtc (execution_turn policy sliceLimit handlers calls) (begin_execution claim) x).
    { clear -H. induction H as [|n y z t (u&d&d'&Hu&Hz) _ IH]; [done|]. etrans; [exact Hu|].
      eapply rtc_l; [|exact IH]. exists d, d'. by apply step_productive. }
    apply turns_inv in Hx as [ws Hinv]. by eapply productive_exists.
Qed.

(** ** A concrete execution *)
Module ExecutionSample.
Definition claim : CollectionTaskClaim :=
  match ClaimNext History.options no_locks History.opened with
  | Ok (claim, _) => claim | Err _ => Claim.mk (Sample.run 100 0 0 "") [] "" end.
Definition call : JobHandler := fun _ d => (JobOutcome.mk 5 4 None, None, d).
Definition calls (taskType : string) (handler : JobHandler) : Prop := handler = call.
Definition now : Z := 20005 * 1000000000.
Definition slice : Z := 30 * 1000000000.
Definition window : CollectionRunWindow :=
  match claim.(Claim.Windows) with w :: _ => w | [] => Sample.run_window 101 100 3600 "running" 1 end.
Abbreviation turn_ := (execution_turn defaultAttemptPolicy slice ["usage_hour"] calls).
Abbreviation productive_ := (productive_step defaultAttemptPolicy slice ["usage_hour"] calls).

Definition begun : Execution := begin_execution claim <| Execution.phase := Collecting |> <| Execution.StartedAt := now |>.
Definition started : Execution :=
  begun <| Execution.Remaining := [] |> <| Execution.InFlight := begun.(Execution.InFlight) ++ [window] |>.
Definition answered : Execution :=
  started <| Execution.InFlight := [] ++ [] |>
          <| Execution.Executed := if started.(Execution.Canceled) then started.(Execution.Executed)
               else started.(Execution.Executed) ++ [(window, (JobOutcome.mk 5 4 None, None))] |>.
Definition request : CompleteClaimedWindowRequest :=
  window_request defaultAttemptPolicy answered.(Execution.Claim) window (JobOutcome.mk 5 4 None, None) now
    (commit_time answered window now).
Definition ended : Execution := after_commit (answered <| Execution.Executed := [] ++ [] |>) request true.

Lemma begun_step d : productive_ (begin_execution claim) d begun d.
Proof. apply step_begin; [done|vm_compute; reflexivity|vm_compute; discriminate|vm_compute; reflexivity]. Qed.
Lemma started_step d : productive_ begun d started d.
Proof. apply (step_start _ _ _ _ _ _ _ _ now); vm_compute; reflexivity. Qed.
Lemma answered_step d : productive_ started d answered d.
Proof. apply (step_executed _ _ _ _ started d [] window [] call); [vm_compute; reflexivity..|reflexivity|reflexivity]. Qed.
Lemma ended_step : exists d', productive_ answered History.claimed ended d'.
Proof.
  destruct (History.after_ok (CompleteClaimedWindow request) History.claimed) as [a Ha]; [vm_compute; reflexivity|].
  eexists. apply (step_commit _ _ _ _ answered _ [] window (JobOutcome.mk 5 4 None, None) [] true now now); [done|done|].
  by exists a.
Qed.

Lemma turned d x d' y : productive_ x d y d' -> turn_ x y.
Proof. intros H. exists d, d'. by apply step_productive. Qed.

Lemma ended_turns : rtc turn_ (begin_execution claim) ended.
Proof.
  apply (rtc_l _ _ begun); [exact (turned History.claimed _ _ _ (begun_step _))|].
  apply (rtc_l _ _ started); [exact (turned History.claimed _ _ _ (started_step _))|].
  apply (rtc_l _ _ answered); [exact (turned History.claimed _ _ _ (answered_step _))|].
  apply (rtc_l _ _ ended); [|reflexivity]. destruct ended_step as [d' H]. exact (turned _ _ _ _ H).
Qed.

Lemma ended_productive : nsteps (productive_turn defaultAttemptPolicy slice ["usage_hour"] calls) 2 (begin_execution claim) started.
Proof.
  apply (nsteps_l _ _ _ begun); [|apply (nsteps_l _ _ _ started); [|apply nsteps_O]].
  - exists (begin_execution claim), History.claimed, History.claimed. split; [reflexivity|apply begun_step].
  - exists begun, History.claimed, History.claimed. split; [reflexivity|apply started_step].
Qed.
End ExecutionSample.

Lemma execution_commits_witness : exists ws,
  Forall2 (commits defaultAttemptPolicy ExecutionSample.claim) ws ExecutionSample.ended.(Execution.Completed) /\ length ws = 1%nat.
Proof.
  destruct (execution_commits defaultAttemptPolicy ExecutionSample.slice ["usage_hour"] ExecutionSample.calls
    ExecutionSample.claim ExecutionSample.ended ExecutionSample.ended_turns) as (ws&Hws&_).
  exists ws. split; [exact Hws|]. rewrite (Forall2_length _ _ _ Hws). vm_compute. reflexivity.
Defined.

Lemma execution_ends_witness :
  (2 <= 3 * length ExecutionSample.claim.(Claim.Windows) + 4)%nat /\
  (ExecutionSample.started.(Execution.phase) <> Finished -> forall d, exists x' d',
     productive_step defaultAttemptPolicy ExecutionSample.slice ["usage_hour"] ExecutionSample.calls ExecutionSample.started d x' d').
Proof.
  apply (execution_ends defaultAttemptPolicy ExecutionSample.slice ["usage_hour"] ExecutionSample.calls
    ExecutionSample.claim 2 ExecutionSample.started).
  - intros taskType. exists ExecutionSample.call. reflexivity.
  - exact ExecutionSample.ended_productive.
Defined.

(** ** Outcomes *)
Lemma taskBackoff_bounds taskType attempt : minute_ns <= taskBackoff taskType attempt <= hours_ns 6.
Proof. unfold taskBackoff, hours_ns, minute_ns. repeat case_match; lia. Qed.

Lemma jitter_bounds base taskType runID siteID hourTS attempt : 0 <= base <= hours_ns 6 ->
  0 <= retryDelayWithJitter base taskType runID siteID hourTS attempt <= 25920 * 1000000000.
Proof.
  unfold retryDelayWithJitter, hours_ns, minute_ns. intros Hb.
  destruct (base <=? 0) eqn:Hz; [lia|]. cbv zeta. pose proof (Z.quot_div_nonneg base 5 ltac:(lia) ltac:(lia)) as Hq.
  pose proof (Z.div_mod base 5 ltac:(lia)). pose proof (Z.mod_pos_bound base 5 ltac:(lia)).
  destruct (base ÷ 5 <=? 0) eqn:Hm; [lia|].
  pose proof (Z.mod_pos_bound (fnv64a (bytes (jitter_text taskType runID siteID hourTS attempt))) (base ÷ 5 + 1) ltac:(lia)).
  rewrite wrap64_id; [lia|]. unfold int64, min_int64, max_int64. lia.
Qed.

Lemma retryDecision_bounds taskType attempt cause policy :
  let '(retryable, delay, code) := retryDecision taskType attempt cause policy in
  0 <= delay <= hours_ns 6 /\ code <> "" /\ (retryable = true -> attempt < worker_maxAttempts policy taskType).
Proof.
  pose proof (taskBackoff_bounds taskType attempt) as Hb. unfold retryDecision. destruct cause as [e|c].
  - split; [|split].
    + unfold hours_ns, minute_ns in *. repeat case_match; lia.
    + case_bool_decide; [done|done].
    + destruct (worker_maxAttempts policy taskType <=? attempt) eqn:E; [done|]. intros _. lia.
  - split; [|split]; [unfold hours_ns, minute_ns in *; lia|done|].
    destruct (worker_maxAttempts policy taskType <=? attempt) eqn:E; [done|]. intros _. lia.
Qed.

Lemma Unix_add now delay : 0 <= delay <= 25920 * 1000000000 -> Unix now <= Unix (now + delay) <= Unix now + 25920.
Proof.
  unfold Unix. intros Hd. split; [apply Z.div_le_mono; lia|].
  rewrite <- Z.div_add by lia. apply Z.div_le_mono; lia.
Qed.

(** The outcome of an attempt.  A handler without an error succeeds; one
    that was cancelled goes back to the queue at once; an error is tried again
    only while attempts are left, at a time between now and seven hours and
    twelve minutes from now, and fails the window otherwise, with a code; the
    attempts are counted as the recovery of lost claims counts them; and the
    repository accepts whatever the outcome is. *)
Theorem windowOutcome_spec policy taskType window outcome cause now :
  let o := windowOutcome policy taskType window outcome cause now in
  (cause = None -> o.(WindowResult.Status) = CollectionTaskStatusSuccess) /\
  (forall e, cause = Some e -> job_canceled e = true ->
     o.(WindowResult.Status) = CollectionTaskStatusPending /\ o.(WindowResult.NextRetryAt) = Some (Unix now)) /\
  (forall e, cause = Some e -> job_canceled e = false ->
     o.(WindowResult.Status) = CollectionTaskStatusPending /\
       window.(RunWindow.AttemptCount) < maxAttempts policy taskType /\
       (exists next, o.(WindowResult.NextRetryAt) = Some next /\ Unix now <= next <= Unix now + 25920) \/
     o.(WindowResult.Status) = CollectionTaskStatusFailed /\ o.(WindowResult.ErrorCode) <> "") /\
  (0 < window.(RunWindow.ID) -> 0 < window.(RunWindow.AttemptCount) -> 0 <= outcome.(JobOutcome.FetchedRows) ->
   0 <= outcome.(JobOutcome.WrittenRows) -> 0 < Unix now -> outcome_valid o = true).
Proof.
  cbv zeta. destruct cause as [e|]; simpl.
  2:{ repeat split; try done. intros. unfold outcome_valid. simpl. to_prop. auto with lia. }
  destruct (job_canceled e) eqn:Hc.
  { repeat split; try congruence; try done. intros. unfold outcome_valid. simpl. to_prop. auto 10 with lia. }
  pose proof (retryDecision_bounds taskType (RunWindow.AttemptCount window) e policy) as Hb.
  destruct (retryDecision _ _ _ _) as [[retryable delay] code]. destruct Hb as (Hd&Hcode&Hr).
  pose proof (Unix_add now _ (jitter_bounds delay taskType (RunWindow.RunID window) (RunWindow.SiteID window)
    (RunWindow.HourTS window) (RunWindow.AttemptCount window) Hd)) as Hu.
  destruct retryable; (split; [done|split; [congruence|split]]).
  - intros e' [= <-] _. left. split; [done|]. split; [by apply Hr|]. by eexists.
  - intros. unfold outcome_valid. simpl. to_prop. assert (0 < Unix (now + retryDelayWithJitter delay taskType
      (RunWindow.RunID window) (RunWindow.SiteID window) (RunWindow.HourTS window) (RunWindow.AttemptCount window))) by lia. auto.
  - intros e' [= <-] _. by right.
  - intros. unfold outcome_valid. simpl. rewrite bool_decide_eq_false_2 by done. to_prop. auto.
Qed.
