(* ===== verification/WorkerSafety.v ===== *)
(** * The executor keeps the queue and the statistics

    The jobs of the worker, run by any number of executions in any
    interleaving with the rest of the program, only make the steps of the
    queue, and every handler they commit keeps the statistics exact. *)

From S2P Require Import Prelude Constants GoText Json Stats DateBucket Store Frame RunContract RunState RunRepository SiteFence TaskScope RunFrames TaskClaim TaskCommit RunInvariant QueueClaim TaskRecovery Materialize QueueSteps QueueRecovery QueueCreate QueueMaterialize QueueSafety UsageFrames CommitBehaviour RunStateBehaviour CreateBehaviour FenceBehaviour UsageFacts UsageAggregation LocalRebuild RollupLemmas RollupRebuild UsageFactsBehaviour UsageWindowBehaviour UsageRecordBehaviour StatisticsExact AggregationBehaviour LocalRebuildBehaviour UsageReconcile UsageCollection AggregationCommit UsageCollectionBehaviour WorkerErrors Jobs Queues Executor Worker ExecutorBehaviour.

(** ** The sites of a commit *)
Lemma usage_mutation_sites sha target newFacts mutation commit scope d result d' :
  usage_mutation sha target newFacts mutation -> NewUsageAggregationCommit sha target newFacts mutation = Ok commit ->
  hours_wf d -> statistics_exact d -> commit scope d = Ok (result, d') -> Tables.site d' = Tables.site d.
Proof.
  intros Hm (facts&hash&Hfacts&->)%new_commit Hwf Hexact H.
  assert (He : HourMutation target facts mutation).
  { destruct Hm as [request mutation planned Hm|request newFacts mutation Hm];
      [by eapply complete_hour_mutation|by eapply failed_hour_mutation]. }
  destruct (commit_exact _ _ _ _ _ _ _ _ He Hwf Hexact H) as (_&_&window&dl&d1&locked&Bl&Hm1&B1&_).
  pose proof (effect_entities _ _ _ _ _ (He _ _ _ _ (base_hours_wf _ _ Bl Hwf) Hm1)) as E. injection E as E _ _ _.
  rewrite (base_stats _ _ B1). simpl. rewrite E. by rewrite (base_stats _ _ Bl).
Qed.

Lemma hour_commit_sites sha commit scope d rows d' : hour_commit sha commit -> hours_wf d -> statistics_exact d ->
  commit scope d = Ok (rows, d') -> Tables.site d' = Tables.site d.
Proof.
  intros [target newFacts mutation aggregation Hm Hnew ->|request mutation Hno Hnew ->] Hwf Hexact H.
  - apply aggregation_ok in H as [result H]. by eapply usage_mutation_sites.
  - apply fact_only_ok in H as [result H]. destruct (failed_wf _ _ _ _ _ _ Hwf Hnew H) as [_ E]. by injection E.
Qed.

(** ** The state the worker relies on *)
Record sound (d : Db) : Prop := {
  sound_queue : queue_inv d;
  sound_sites : table_wf (Tables.site d);
  sound_hours : hours_wf d;
  sound_statistics : statistics_exact d
}.

Lemma same_sites d d' : usage_range <$> Tables.site d' = usage_range <$> Tables.site d -> table_wf (Tables.site d) ->
  table_wf (Tables.site d').
Proof.
  intros E Hwf k s Hk. simpl in *. destruct (usage_range_found d' d s k (eq_sym E) Hk) as (s'&Hs'&Er).
  unfold usage_range in Er. injection Er as Ei _ _. rewrite <- Ei. by apply Hwf.
Qed.

Lemma view_same d d' : usage_view d' = usage_view d -> same_usage d d'.
Proof.
  unfold usage_view, statistics_state. intros [= Hw Hf Hs Hr Ha]. split; [by unfold hour_state; rewrite Hw, Hf|done|done|lia].
Qed.

Lemma same_usage_refl d : same_usage d d.
Proof. by split. Qed.
Lemma same_usage_trans d1 d2 d3 : same_usage d1 d2 -> same_usage d2 d3 -> same_usage d1 d3.
Proof. intros [] []. split; [congruence..|lia]. Qed.

(** A transaction of the queue that leaves the usage alone. *)
Definition elsewhere (d d' : Db) : Prop := queue_step d d' /\ same_usage d d'.

Lemma elsewhere_sound d d' : elsewhere d d' -> sound d -> sound d'.
Proof.
  intros [Hq Hu] []. destruct (same_usage_exact d d' Hu (conj sound_hours0 sound_statistics0)).
  split; [by eapply queue_step_keeps|by eapply same_sites; [apply Hu|]|done|done].
Qed.

(** ** Mutations *)

(** What the jobs of the worker commit: the hour they collected, or the window
    of a rebuild. *)
Definition sound_mutation (sha : list Z -> string) (mutation : option CollectionTaskWindowMutation) : Prop :=
  match mutation with
  | Some m => hour_commit sha m \/ exists request, NewLocalRebuildMutation sha request = Ok m
  | None => True
  end.

#[export] Instance localRebuildAggregationOptions_frame run : Preserves run_state (localRebuildAggregationOptions run).
Proof. unfold localRebuildAggregationOptions. solve_frame. Qed.

Lemma local_rebuild_lawful sha request m : NewLocalRebuildMutation sha request = Ok m -> lawful (Some m).
Proof.
  unfold NewLocalRebuildMutation. destruct (_ || _); [done|]. intros [= <-] scope. unfold apply_local_rebuild. solve_frame.
Qed.

Lemma sound_mutation_lawful sha mutation : sound_mutation sha mutation -> lawful mutation.
Proof.
  destruct mutation as [m|]; [|done]. intros [H|[request H]]; [by eapply hour_commit_lawful|by eapply local_rebuild_lawful].
Qed.

Lemma mutation_sound sha m scope d rows d' : sound_mutation sha (Some m) -> hours_wf d -> statistics_exact d ->
  m scope d = Ok (rows, d') -> hours_wf d' /\ statistics_exact d' /\ Tables.site d' = Tables.site d.
Proof.
  intros [Hm|[request Hm]] Hwf Hexact H.
  - destruct (hour_commit_exact _ _ _ _ _ _ Hm Hwf Hexact H). split; [done|]. split; [done|]. by eapply hour_commit_sites.
  - unfold NewLocalRebuildMutation in Hm. destruct (_ || _); [done|]. injection Hm as <-.
    destruct (rebuild_keeps_exact _ _ _ _ _ _ Hwf Hexact H) as (Hb&Hex&_).
    split; [by apply (base_hours_wf d)|]. split; [done|]. by rewrite (base_stats _ _ Hb).
Qed.

Lemma complete_sound sha request d run d' : sound_mutation sha request.(CompleteRequest.Mutation) ->
  CompleteClaimedWindow request d = Ok (run, d') -> sound d -> queue_step d d' /\ sound d'.
Proof.
  intros Hm H Hd. pose proof (sound_mutation_lawful _ _ Hm) as Hlaw.
  assert (Hq : queue_step d d') by (by eapply step_complete). split; [done|].
  pose proof (queue_step_keeps _ _ (sound_queue d Hd) Hq) as Hinv. destruct Hd as [Hqi Hs Hwf Hexact].
  destruct (complete_claimed_effect d request run d' Hqi Hlaw H) as (r&w&_&_&_&_&_&_&Heff).
  destruct (CompleteRequest.Mutation request) as [m|].
  - destruct Heff as (site&fetched&written&d1&_&Hmut&_&Hout).
    destruct (mutation_sound _ _ _ _ _ _ Hm Hwf Hexact Hmut) as (Hwf1&Hex1&Esites).
    pose proof (outside_usage _ _ Hout) as Hu. destruct (same_usage_exact d1 d' Hu (conj Hwf1 Hex1)).
    split; [done| |done|done]. eapply (same_sites d1); [apply Hu|]. by rewrite Esites.
  - destruct Heff as [_ Hout]. pose proof (outside_usage _ _ Hout) as Hu.
    destruct (same_usage_exact d d' Hu (conj Hwf Hexact)). split; [done| |done|done]. eapply (same_sites d); [apply Hu|done].
Qed.

(** ** The transactions of the jobs *)
Lemma save_site_elsewhere old site d u d' : table_wf (Tables.site d) -> Tables.site d !! old.(MSite.ID) = Some old ->
  usage_range site = usage_range old -> save_site site d = Ok (u, d') -> elsewhere d d'.
Proof.
  unfold save_site. intros Hwf Hold Hrange H. apply st_bind_ok in H as (clock&d1&Hg&H). apply st_gets_ok in Hg as [= -> ->].
  apply st_bind_ok in H as (n&d1&Hu&H). apply db_update_ok in Hu as [_ ->]. apply st_ret_pair in H as [_ ->].
  split; [by apply QueueSafety.step_elsewhere|]. split; [done|done| |simpl; lia].
  apply map_eq. intros k. simpl. rewrite !lookup_fmap, lookup_update_where.
  destruct (Tables.site d !! k) as [s|] eqn:Hk; [|done]. simpl. unfold upd.
  destruct (MSite.ID s =? MSite.ID site) eqn:E; [|done]. f_equal. apply Z.eqb_eq in E.
  pose proof (Hwf _ _ Hk) as Ek. simpl in Ek. unfold usage_range in Hrange. injection Hrange as E1 E2 E3.
  assert (k = MSite.ID old) as -> by congruence. rewrite Hold in Hk. injection Hk as <-. unfold usage_range. simpl. congruence.
Qed.

Lemma expire_elsewhere siteID version clock d u d' : table_wf (Tables.site d) ->
  expireSiteAuthorization siteID version clock d = Ok (u, d') -> rtc elsewhere d d'.
Proof.
  intros Hwf H. unfold expireSiteAuthorization in H. apply st_bind_ok in H as (u0&d1&Hr&H).
  apply st_require_ok in Hr as (_&[= -> ->]). apply st_bind_ok in H as (site&d1&Hs&H).
  unfold FindByIDForUpdate in Hs. apply db_first_ok in Hs as [Hs ->]. pose proof (Hwf _ _ Hs) as Hid. simpl in Hid, Hs.
  destruct (negb _); [apply st_require_ok in H as (_&[= _ ->]); reflexivity|].
  destruct (_ == SiteAuthExpired); [apply st_ret_pair in H as [_ ->]; reflexivity|].
  apply st_bind_ok in H as (u1&d1&Hr&H). apply st_require_ok in Hr as (_&[= -> ->]).
  apply st_bind_ok in H as (u1&d1&Hr&H). apply st_require_ok in Hr as (_&[= -> ->]). cbv zeta in H.
  apply st_bind_ok in H as (bumped&d1&Hb&H).
  destruct (BumpSiteFence_sites _ _ _ _ _ Hwf Hb) as (Ebump&Hwf1&_).
  assert (Hfence : elsewhere d d1).
  { split; [by eapply step_fence|]. apply view_same. by apply (BumpSiteFence_usage _ _ _ _ _ Hb). }
  apply (rtc_l _ _ d1); [exact Hfence|]. apply rtc_once.
  destruct (usage_range_found d d1 site siteID (usage_ranges _ _ (proj2 Hfence)) Hs) as (row&Hrow&Er).
  pose proof (Hwf1 _ _ Hrow) as Eid. simpl in Eid. rewrite <- Eid in Hrow.
  eapply (save_site_elsewhere row); [exact Hwf1|exact Hrow| |exact H].
  rewrite Er. subst bumped. by case_bool_decide.
Qed.

Lemma expire_and_refuse_elsewhere siteID version clock c d r d' : table_wf (Tables.site d) ->
  expire_and_refuse siteID version clock c d = (r, d') -> rtc elsewhere d d'.
Proof.
  unfold expire_and_refuse. intros Hwf. destruct (expireSiteAuthorization _ _ _ _) as [[u d1]|e] eqn:E.
  - intros [= _ <-]. by eapply expire_elsewhere.
  - by intros [= _ <-].
Qed.

Section Jobs.
Context (sha : list Z -> string) (range : gmap string metricTotals -> list (string * metricTotals)).
Context (decrypt : string -> Z -> option string) (new_authenticated : string -> string -> Z -> option cause).
Abbreviation collect := (CollectHour sha range decrypt new_authenticated).

Lemma collect_elsewhere request now clock flow data d0 d c d' : table_wf (Tables.site d) ->
  collect request now clock flow data d0 d = (c, d') -> rtc elsewhere d d'.
Proof.
  intros Hwf. unfold CollectHour. destruct (negb (collect_request_valid _)); [by intros [= _ <-]|].
  destruct (_ || _); [by intros [= _ <-]|]. unfold authenticatedUsageClient.
  destruct (Tables.site d0 !! _) as [site|]; [|by intros [= _ <-]]. destruct (negb (usage_site_ready _ _)); [by intros [= _ <-]|].
  destruct (decrypt _ _); [|intros H; by eapply expire_and_refuse_elsewhere].
  destruct (new_authenticated _ _ _).
  { destruct (upstreamAuthorizationFailure _); [intros H; by eapply expire_and_refuse_elsewhere|by intros [= _ <-]]. }
  destruct (negb (usage_start_valid _ _)); [by intros [= _ <-]|].
  destruct (usageAuthorizationFailure _ _); [intros H; by eapply expire_and_refuse_elsewhere|].
  destruct (collect_reports _ _ _ _ _ _ _); by intros [= _ <-].
Qed.

Lemma enqueue_elsewhere request now d0 d r d' : enqueueDependency request now d0 d = (r, d') -> rtc elsewhere d d'.
Proof.
  unfold enqueueDependency. destruct (Tables.site d0 !! _); [|by intros [= _ <-]].
  destruct (EnqueueSiteTask _ _) as [[x d1]|e] eqn:E.
  - intros [= _ <-]. apply rtc_once. split; [by eapply step_enqueue|]. apply view_same. by apply (EnqueueSiteTask_usage _ _ _ _ E).
  - by destruct e; intros [= _ <-].
Qed.

Lemma prepare_elsewhere request now d0 d r d' : PrepareWindow sha request now d0 d = (r, d') ->
  rtc elsewhere d d' /\ forall m, r = Ok m -> exists rebuild, NewLocalRebuildMutation sha rebuild = Ok m.
Proof.
  unfold PrepareWindow. destruct (_ || _); [by intros [= <- <-]|].
  assert (Hdep : forall r d', (match enqueueDependency request now d0 d with
      | (Ok _, d') => (Err ErrLocalRebuildDependencyPending, d') | (Err e, d') => (Err e, d') end) = (r, d') ->
      rtc elsewhere d d' /\ forall m : CollectionTaskWindowMutation, r = Ok m -> exists rebuild, NewLocalRebuildMutation sha rebuild = Ok m).
  { intros r1 d1. destruct (enqueueDependency request now d0 d) as [[u|e] d2] eqn:E; intros [= <- <-];
      (split; [by eapply enqueue_elsewhere|done]). }
  destruct (head _) as [w|]; [|apply Hdep]. destruct (_ == CollectionWindowStatusComplete); [|apply Hdep].
  intros [= <- <-]. split; [done|]. intros m Hm. eauto.
Qed.

(** The handlers of the runtime.  A call of one may read the sites on any
    earlier database [d0]; the services of the tasks without windows only make
    transactions that leave the usage alone. *)
Definition harmless_service (service : site_service) : Prop := forall siteID version requestID d answer d',
  service siteID version requestID d = (answer, d') -> rtc elsewhere d d'.

Inductive collection_calls (taskType : string) : JobHandler -> Prop :=
| usage_call now clock flow data d0 : is_one_of taskType usage_task_types = true -> table_wf (Tables.site d0) ->
    collection_calls taskType (usage_job taskType (fun request d => collect request now clock flow data d0 d))
| rebuild_call now d0 : is_one_of taskType rebuild_task_types = true ->
    collection_calls taskType (local_rebuild_job taskType (fun request d => PrepareWindow sha request now d0 d))
| site_call runner : is_one_of taskType site_task_types = true -> (forall t, harmless_service (runner t)) ->
    collection_calls taskType (site_job taskType runner)
| log_call collector : taskType = TaskTypeLogSync -> harmless_service collector ->
    collection_calls taskType (log_job collector).

(** What a call leaves, and what it asks to commit. *)
Lemma call_sound taskType call execution d result d' : collection_calls taskType call -> table_wf (Tables.site d) ->
  call execution d = (result, d') ->
  rtc elsewhere d d' /\ sound_mutation sha result.1.(JobOutcome.TransactionMutation).
Proof.
  intros [now clock flow data d0 _ Hwf0|now d0 _|runner _ Hrun|collector _ Hrun] Hwf H.
  - unfold usage_job in H. destruct (JobExecution.Window execution) as [window|]; [|by injection H as <- <-].
    destruct (_ || _); [by injection H as <- <-|].
    destruct (collect _ _ _ _ _ _ _) as [answer d1] eqn:Hc. injection H as <- <-. split; [by eapply collect_elsewhere|].
    destruct answer as [r|e]; simpl; [|done]. destruct (_ || _); [done|]. left. by apply CollectHour_collected in Hc as (_&Hc&_).
  - unfold local_rebuild_job in H. destruct (JobExecution.Window execution) as [window|]; [|by injection H as <- <-].
    destruct (_ || _); [by injection H as <- <-|].
    destruct (PrepareWindow _ _ _ _ _) as [prepared d1] eqn:Hp. injection H as <- <-.
    apply prepare_elsewhere in Hp as [He Hm]. split; [done|]. destruct prepared as [m|e]; simpl; [right; eauto|by destruct e].
  - unfold site_job in H. destruct (site_run_of _ _) as [[siteID version]|]; [|by injection H as <- <-].
    destruct (runner _ _ _ _ _) as [answer d1] eqn:Hr. injection H as <- <-. split; [by eapply Hrun|].
    unfold delegated. destruct answer as [[f w]|e]; [by destruct (_ || _)|done].
  - unfold log_job in H. destruct (site_run_of _ _) as [[siteID version]|]; [|by injection H as <- <-].
    destruct (collector _ _ _ _) as [answer d1] eqn:Hr. injection H as <- <-. split; [by eapply Hrun|].
    unfold delegated. destruct answer as [[f w]|e]; [by destruct (_ || _)|done].
Qed.
End Jobs.

(** ** The executions *)
Definition execution_sound (sha : list Z -> string) (x : Execution) : Prop :=
  forall window result, (window, result) ∈ x.(Execution.Executed) -> sound_mutation sha result.1.(JobOutcome.TransactionMutation).

(** The state and the queue together: the step of an execution is a history of
    the queue, and keeps the database sound. *)
Definition advances (d d' : Db) : Prop := rtc queue_step d d' /\ sound d'.

Lemma advances_refl d : sound d -> advances d d.
Proof. by split. Qed.

Lemma elsewhere_advances d d' : sound d -> rtc elsewhere d d' -> advances d d'.
Proof.
  intros Hd H. induction H as [d|d d1 d2 H1 _ IH]; [by apply advances_refl|].
  destruct (IH (elsewhere_sound _ _ H1 Hd)) as [Hs Hd2]. split; [|done]. eapply rtc_l; [apply H1|done].
Qed.

Lemma attempted_advances {A} (m : Tx A) d committed d' : sound d ->
  (forall a e, m d = Ok (a, e) -> queue_step d e /\ usage_view e = usage_view d) ->
  attempted m d committed d' -> advances d d'.
Proof.
  intros Hd Hm H. destruct committed; [|by destruct H as [_ ->]; apply advances_refl].
  destruct H as [a H]. destruct (Hm _ _ H) as [Hq Hv]. apply elsewhere_advances; [done|]. apply rtc_once.
  split; [done|by apply view_same].
Qed.

Lemma complete_advances sha request d committed d' : sound d -> sound_mutation sha request.(CompleteRequest.Mutation) ->
  attempted (CompleteClaimedWindow request) d committed d' -> advances d d'.
Proof.
  intros Hd Hm H. destruct committed; [|by destruct H as [_ ->]; apply advances_refl].
  destruct H as [run H]. destruct (complete_sound sha request d run d' Hm H Hd). split; [by apply rtc_once|done].
Qed.

Lemma after_commit_executed x request committed :
  (after_commit x request committed).(Execution.Executed) = x.(Execution.Executed).
Proof. unfold after_commit. destruct committed; [done|]. simpl. by destruct (Execution.Limit x). Qed.

Section Executions.
Context (sha : list Z -> string) (range : gmap string metricTotals -> list (string * metricTotals)).
Context (decrypt : string -> Z -> option string) (new_authenticated : string -> string -> Z -> option cause).
Context (policy : CollectionTaskAttemptPolicy) (sliceLimit : Z) (handlers : list string).
Abbreviation calls := (collection_calls sha range decrypt new_authenticated).

Lemma productive_sound x d x' d' : productive_step policy sliceLimit handlers calls x d x' d' ->
  execution_sound sha x -> sound d -> advances d d' /\ execution_sound sha x'.
Proof.
  intros H Hx Hd. destruct H as [committed now d' _ _ Ha|call result d' _ _ _ Hcall Hr|result committed c r d' _ Ha| | |
    | |before window after_ call result d' _ _ Hcall Hr| |before window result after_ committed decidedAt now d' _ He request Ha
    | |window rest committed now d' _ _ request Ha| | |committed now d' _ Ha];
    try (by split; [apply advances_refl|]).
  - split; [|done]. eapply attempted_advances; [done| |exact Ha]. intros a e E.
    split; [by eapply QueueSafety.step_release|by apply (ReleaseClaim_usage _ _ _ _ _ E)].
  - destruct (call_sound _ _ _ _ _ _ _ _ _ _ Hcall (sound_sites d Hd) Hr) as [He _]. split; [by apply elsewhere_advances|done].
  - split; [|done]. eapply attempted_advances; [done| |exact Ha]. intros a e E.
    split; [by eapply QueueSafety.step_commit|by apply (CommitClaim_usage _ _ _ _ E)].
  - destruct (call_sound _ _ _ _ _ _ _ _ _ _ Hcall (sound_sites d Hd) Hr) as [He Hm]. split; [by apply elsewhere_advances|].
    intros w r. simpl. destruct (Execution.Canceled x); [by apply Hx|].
    intros [Hin|Hin]%elem_of_app; [by eapply Hx|]. apply list_elem_of_singleton in Hin as [= _ ->]. done.
  - split.
    + eapply (complete_advances sha); [done| |exact Ha]. apply (Hx window). rewrite He. apply elem_of_app. right. apply elem_of_cons. by left.
    + intros w r. rewrite after_commit_executed. simpl. intros Hin. apply (Hx w). rewrite He.
      apply elem_of_app in Hin as [Hin|Hin]; apply elem_of_app; [by left|right]. apply elem_of_cons. by right.
  - split; [by apply (complete_advances sha request d committed)|]. intros w r. rewrite after_commit_executed. apply Hx.
  - split; [|done]. eapply attempted_advances; [done| |exact Ha]. intros a e E.
    split; [by eapply step_release_owned|by apply (ReleaseOwnedRunning_usage _ _ _ _ _ _ _ E)].
Qed.

Lemma execution_step_sound x d x' d' : execution_step policy sliceLimit handlers calls x d x' d' ->
  execution_sound sha x -> sound d -> advances d d' /\ execution_sound sha x'.
Proof.
  intros [y e H|now e H|] Hx Hd; [by eapply productive_sound| |by split; [apply advances_refl|]].
  split; [|done]. apply elsewhere_advances; [done|]. apply rtc_once.
  split; [by eapply QueueSafety.step_heartbeat|]. apply view_same. by apply (Heartbeat_usage _ _ _ _ _ _ H).
Qed.
End Executions.

(** ** The worker *)
Record worker_sound (sha : list Z -> string) (d0 : Db) (w : Worker) : Prop := {
  worker_history : rtc queue_step d0 w.(Worker.db);
  worker_db : sound w.(Worker.db);
  worker_executions : Forall (fun x => execution_sound sha x.2) w.(Worker.running)
}.

Lemma started_sound sha d0 w queue claim : worker_sound sha d0 w -> worker_sound sha d0 (start_claim w queue claim).
Proof.
  intros []. split; simpl; [done..|]. apply Forall_app. split; [done|]. apply Forall_singleton. by intros ? ? ?%elem_of_nil.
Qed.

Lemma worker_advanced sha d0 w d' : worker_sound sha d0 w -> advances w.(Worker.db) d' -> rtc queue_step d0 d' /\ sound d'.
Proof. intros [H _ _] [Hs Hd]. split; [by etrans|done]. Qed.

Lemma claim_advances options view d claim d' : sound d -> ClaimNext options view d = Ok (claim, d') -> advances d d'.
Proof.
  intros Hd H. apply elsewhere_advances; [done|]. apply rtc_once.
  split; [by eapply step_claim|]. apply view_same. by eapply ClaimNext_usage.
Qed.

Section Workers.
Context (sha : list Z -> string) (range : gmap string metricTotals -> list (string * metricTotals)).
Context (decrypt : string -> Z -> option string) (new_authenticated : string -> string -> Z -> option cause).
Context (policy : CollectionTaskAttemptPolicy) (sliceLimit : Z) (handlers : list string) (bootNonce : string).
Abbreviation calls := (collection_calls sha range decrypt new_authenticated).
Abbreviation step := (worker_step policy sliceLimit handlers bootNonce calls elsewhere).

Lemma worker_step_sound d0 w w' : step w w' -> worker_sound sha d0 w -> worker_sound sha d0 w'.
Proof.
  intros H Hw. pose proof Hw as [Hq Hd Hx]. destruct H as
    [| | | | |settings stage queue now sequence requestID options view claim d' _ _ _ Hc| | |settings taskTypes now sequence requestID view claim d' _ _ Hc|
    |settings claim _|before queue x after_ x' d' Hr Hs|before queue x after_ Hr _|d' He]; try done.
  - destruct (worker_advanced _ _ _ _ Hw (claim_advances _ _ _ _ _ Hd Hc)).
    destruct (started_sound sha d0 w queue claim Hw). by split.
  - destruct (worker_advanced _ _ _ _ Hw (claim_advances _ _ _ _ _ Hd Hc)). by split.
  - destruct (shared_place _ _ _) as [[queue limiter]|]; [|done]. destruct (started_sound sha d0 w queue claim Hw). by split.
  - rewrite Hr, Forall_app, Forall_cons in Hx. destruct Hx as (Hx1&Hx2&Hx3).
    destruct (execution_step_sound _ _ _ _ _ _ _ _ _ _ _ Hs Hx2 Hd) as [Ha Hx'].
    destruct (worker_advanced _ _ _ _ Hw Ha). split; simpl; [done..|]. by rewrite Forall_app, Forall_cons.
  - rewrite Hr, Forall_app, Forall_cons in Hx. split; simpl; [done..|]. rewrite Forall_app. tauto.
  - assert (Ha : advances (Worker.db w) d') by (apply elsewhere_advances; [done|by apply rtc_once]).
    destruct (worker_advanced _ _ _ _ Hw Ha). by split.
Qed.

Lemma worker_steps_sound d0 w : empty_queue d0 -> no_usage_yet d0 -> table_wf (Tables.site d0) ->
  rtc step (new_worker d0) w -> worker_sound sha d0 w.
Proof.
  intros Hq Hu Hs H. destruct (nothing_exact d0 Hu) as [Hwf Hexact].
  assert (Hstart : worker_sound sha d0 (new_worker d0)).
  { split; simpl; [done| |by constructor]. split; [by apply empty_queue_inv|done..]. }
  remember (new_worker d0) as w0 eqn:E. clear E. induction H as [|w0 w1 w2 H1 _ IH]; [done|]. apply IH. by eapply worker_step_sound.
Qed.
End Workers.
