(* ===== verification/WorkerAdmission.v ===== *)
(** * What the dispatcher admits

    The limiter counts exactly the executions that run, and a claim of the
    shared queues always finds its place. *)

From S2P Require Import Prelude Constants GoText Json Stats Store Frame RunContract RunState RunRepository SiteFence TaskScope RunFrames TaskClaim TaskCommit RunInvariant QueueClaim TaskRecovery Materialize QueueSteps QueueRecovery QueueCreate QueueMaterialize QueueSafety UsageFrames UsageFacts UsageAggregation LocalRebuild UsageWindowBehaviour StatisticsExact UsageReconcile UsageCollection AggregationCommit UsageCollectionBehaviour WorkerErrors Jobs Queues Executor Worker ExecutorBehaviour WorkerSafety.

(** ** Sorting *)
Lemma sift_perm value before : sift value before ≡ₚ value :: before.
Proof.
  induction before as [|previous rest IH]; [done|]. simpl. destruct (String.ltb value previous); [|done].
  rewrite IH. apply perm_swap.
Qed.

Lemma sortStrings_perm values : sortStrings values ≡ₚ values.
Proof.
  unfold sortStrings. rewrite <- Permutation_rev. assert (H : forall before, foldl (fun before value => sift value before) before values ≡ₚ before ++ values).
  { induction values as [|v values IH]; intros before; simpl; [by rewrite app_nil_r|].
    rewrite IH, sift_perm. simpl. by rewrite Permutation_middle. }
  by rewrite H.
Qed.

(** ** The limiter *)
Lemma acquire_count limiter queue maximum limiter' other : tryAcquire limiter queue maximum = Some limiter' ->
  limiter_count limiter queue < maximum /\
  limiter_count limiter' other = limiter_count limiter other + (if decide (queue = other) then 1 else 0).
Proof.
  unfold tryAcquire. destruct (maximum <=? 0) eqn:E1; [done|]. destruct (maximum <=? limiter_count limiter queue) eqn:E2; [done|].
  intros [= <-].
  split; [lia|]. unfold limiter_count. destruct (decide (queue = other)) as [<-|Hne].
  - by rewrite lookup_insert_eq.
  - rewrite lookup_insert_ne by done. lia.
Qed.

Lemma release_count limiter queue other : 1 <= limiter_count limiter queue ->
  limiter_count (release limiter queue) other = limiter_count limiter other - (if decide (queue = other) then 1 else 0).
Proof.
  intros H. unfold release. destruct (limiter_count limiter queue <=? 1) eqn:E; unfold limiter_count in *;
    destruct (decide (queue = other)) as [<-|Hne].
  - rewrite lookup_delete_eq. simpl. lia.
  - rewrite lookup_delete_ne by done. lia.
  - rewrite lookup_insert_eq. simpl. lia.
  - rewrite lookup_insert_ne by done. lia.
Qed.

Lemma LoadCollectorSettings_valid rows settings : LoadCollectorSettings rows = Some settings ->
  validateCollectorSettings settings = true.
Proof.
  unfold LoadCollectorSettings. destruct (setting_values _) as [values|]; [|done]. cbn [mbind option_bind].
  match goal with |- (if ?b then _ else _) = _ -> _ => destruct b; [done|] end. cbv zeta.
  match goal with |- (if ?b then _ else _) = _ -> _ => destruct b eqn:E; [|done] end. by intros [= <-].
Qed.

Lemma concurrency_bound queue settings : validateCollectorSettings settings = true -> queueConcurrency queue settings <= 1000.
Proof.
  unfold validateCollectorSettings, concurrency_valid, queueConcurrency. cbn [forallb]. intros Hv. to_prop.
  repeat case_match; lia.
Qed.

(** A place can only be freed between the listing of the types and the claim. *)
Lemma capacity_kept limiter limiter' settings taskType :
  (forall queue, limiter_count limiter' queue <= limiter_count limiter queue) ->
  shared_capacity limiter settings taskType = true -> shared_capacity limiter' settings taskType = true.
Proof.
  unfold shared_capacity. intros Hle. destruct (QueueForTask taskType) as [queue|]; [|done].
  specialize (Hle (queueCapacityKey queue)). intros H. to_prop. destruct H. split; [done|]. lia.
Qed.

(** ** The type of a claim *)
Lemma claim_first_candidate candidates options view d claim d' :
  claim_first candidates options view d = Ok (Some claim, d') ->
  exists candidate, candidate ∈ candidates /\ claimCandidate candidate options view d = Ok (claim, d').
Proof.
  induction candidates as [|candidate rest IH]; [done|]. cbn [claim_first].
  destruct (claimCandidate candidate options view d) as [[c d1]|e] eqn:E.
  - intros [= <- <-]. exists candidate. split; [apply elem_of_cons; by left|done].
  - destruct (skip_error e); [|done]. intros H. destruct (IH H) as (x&Hx&Hc). exists x. split; [|done]. apply elem_of_cons. by right.
Qed.

Lemma claim_first_unchanged candidates options view d d' : claim_first candidates options view d = Ok (None, d') -> d' = d.
Proof.
  induction candidates as [|candidate rest IH]; cbn [claim_first]; [by intros [= <-]|].
  destruct (claimCandidate _ _ _ _) as [[c d1]|e]; [done|]. by destruct (skip_error e).
Qed.

Lemma ClaimNext_candidate options view d claim d' : ClaimNext options view d = Ok (claim, d') ->
  exists candidate, claim_eligible (normalize_claim_options options) candidate = true /\
    claimCandidate candidate (normalize_claim_options options) view d = Ok (claim, d').
Proof.
  unfold ClaimNext. destruct (negb _); [done|]. set (o := normalize_claim_options options).
  generalize (S (S (length (table_rows (R := CollectionRun) d)))). generalize (@None collectionTaskClaimCursor).
  intros cursor fuel. revert cursor. induction fuel as [|fuel IH]; intros cursor H; cbn [claim_pages] in H; [by apply st_fail_ok in H|].
  apply st_bind_ok in H as (found&d1&Hs&H). apply db_select_ok in Hs as [-> ->]. cbv zeta in H.
  apply st_bind_ok in H as (claimed&d1&Hc&H). destruct claimed as [c|].
  - apply st_ret_pair in H as [-> ->]. apply claim_first_candidate in Hc as (candidate&Hin&Hc).
    exists candidate. split; [|done]. apply elem_of_take_elem, elem_of_select in Hin as [He _]. by apply andb_true_iff in He as [He _].
  - apply claim_first_unchanged in Hc as ->. destruct (Nat.ltb _ _); [by apply st_fail_ok in H|].
    destruct (last _); [|by apply st_fail_ok in H]. by eapply IH.
Qed.

Lemma normalize_types options :
  (normalize_claim_options options).(ClaimOptions.TaskTypes) = options.(ClaimOptions.TaskTypes).
Proof. unfold normalize_claim_options. cbv zeta. repeat case_match; done. Qed.

Lemma ClaimNext_type options view d claim d' : table_wf (Tables.collection_run d) ->
  ClaimNext options view d = Ok (claim, d') -> claim.(Claim.run).(Run.TaskType) ∈ options.(ClaimOptions.TaskTypes).
Proof.
  intros Hwf H. apply ClaimNext_candidate in H as (candidate&He&Hc). unfold claim_eligible in He. rewrite normalize_types in He.
  apply claimCandidate_ok in Hc as (run&scope&windows&d2&[_ _ _ Hcl _ _]&_&->&_); [|done]. simpl.
  destruct (claimed_run_fields (normalize_claim_options options) run) as (_&_&_&_&_&_&_&F). unfold run_identity in F.
  injection F as _ _ _ Ht _ _. rewrite Ht. unfold still_claimable in Hcl. to_prop.
  assert (Et : run.(Run.TaskType) = candidate.(Run.TaskType)) by tauto. rewrite Et.
  assert (Hone : is_one_of candidate.(Run.TaskType) options.(ClaimOptions.TaskTypes) = true) by tauto.
  apply existsb_exists in Hone as (t&Hin&->%String.eqb_eq). by apply list_elem_of_In.
Qed.

(** ** The places *)
Definition in_queue (queue : string) (x : string * Execution) : bool := x.1 == queue.

(** The place the dispatcher holds for the claim to come. *)
Definition held_place (dispatch : Dispatch) (queue : string) : Z :=
  match dispatch with Holding _ _ held => if decide (held = queue) then 1 else 0 | _ => 0 end.
Definition places (w : Worker) (queue : string) : Z :=
  count (in_queue queue) w.(Worker.running) + held_place w.(Worker.dispatch) queue.

Definition dispatch_settings (dispatch : Dispatch) : option CollectorSettings :=
  match dispatch with
  | Serving s _ | Holding s _ _ | Registered s _ | ClaimedShared s _ => Some s
  | Idle | Broken => None
  end.

Record admission (w : Worker) : Prop := {
  admission_count : forall queue, limiter_count w.(Worker.limiter) queue = places w queue;
  admission_bound : forall queue, limiter_count w.(Worker.limiter) queue <= 1000;
  admission_settings : forall settings, dispatch_settings w.(Worker.dispatch) = Some settings ->
    validateCollectorSettings settings = true;
  admission_types : forall settings taskTypes, w.(Worker.dispatch) = Registered settings taskTypes ->
    forall taskType, taskType ∈ taskTypes -> shared_capacity w.(Worker.limiter) settings taskType = true;
  admission_claim : forall settings claim, w.(Worker.dispatch) = ClaimedShared settings claim ->
    shared_capacity w.(Worker.limiter) settings claim.(Claim.run).(Run.TaskType) = true;
  admission_whole : w.(Worker.dispatch) <> Broken
}.

Lemma stage_maximum settings stage queue maximum : validateCollectorSettings settings = true ->
  stage_queue settings stage = Some (queue, maximum) -> maximum <= 1000.
Proof.
  intros Hv. destruct stage as [| |[|q qs]]; try done; intros [= <- <-]; [|by apply concurrency_bound].
  unfold validateCollectorSettings, concurrency_valid in Hv. cbn [forallb] in Hv. to_prop. lia.
Qed.

(** A step that takes no place. *)
Lemma admission_same w w' : admission w -> w'.(Worker.limiter) = w.(Worker.limiter) ->
  (forall queue, places w' queue = places w queue) ->
  w'.(Worker.dispatch) = w.(Worker.dispatch) \/
  (forall settings, dispatch_settings w'.(Worker.dispatch) = Some settings ->
     dispatch_settings w.(Worker.dispatch) = Some settings \/ validateCollectorSettings settings = true) /\
  (forall settings taskTypes, w'.(Worker.dispatch) = Registered settings taskTypes ->
     forall taskType, taskType ∈ taskTypes -> shared_capacity w.(Worker.limiter) settings taskType = true) /\
  (forall settings claim, w'.(Worker.dispatch) = ClaimedShared settings claim ->
     shared_capacity w.(Worker.limiter) settings claim.(Claim.run).(Run.TaskType) = true) /\
  w'.(Worker.dispatch) <> Broken -> admission w'.
Proof.
  intros [] El Hp Hd. split; rewrite ?El; auto; [intros queue; by rewrite Hp|..];
    destruct Hd as [Hd|(Hs&Ht&Hc&Hb)]; rewrite ?Hd; auto.
  intros settings [H|H]%Hs; auto.
Qed.

(** A place that is freed, of an execution or of the dispatcher. *)
Lemma admission_release w w' queue : admission w -> w'.(Worker.limiter) = release w.(Worker.limiter) queue ->
  (forall other, places w other = places w' other + (if decide (queue = other) then 1 else 0)) ->
  w'.(Worker.dispatch) = w.(Worker.dispatch) \/
    (exists s stage, w'.(Worker.dispatch) = Serving s stage /\ dispatch_settings w.(Worker.dispatch) = Some s) \/
    w'.(Worker.dispatch) = Idle ->
  admission w'.
Proof.
  intros [] El Hp Hd.
  assert (Hpos : 1 <= limiter_count (Worker.limiter w) queue).
  { rewrite admission_count0, Hp, decide_True by done. unfold places, held_place.
    pose proof (count_nonneg (in_queue queue) (Worker.running w')). repeat case_match; lia. }
  assert (Hcount : forall other, limiter_count (Worker.limiter w') other
     = limiter_count (Worker.limiter w) other - (if decide (queue = other) then 1 else 0)).
  { intros other. rewrite El. by apply release_count. }
  assert (Hle : forall other, limiter_count (Worker.limiter w') other <= limiter_count (Worker.limiter w) other).
  { intros other. rewrite Hcount. destruct (decide _); lia. }
  split.
  - intros other. rewrite Hcount, admission_count0, Hp. lia.
  - intros other. specialize (Hle other). specialize (admission_bound0 other). lia.
  - intros settings E. destruct Hd as [Hd|[(s&stage&Hd&Hs)|Hd]]; rewrite Hd in E; [auto| |done].
    injection E as <-. auto.
  - intros settings taskTypes E taskType Hin. destruct Hd as [Hd|[(s&stage&Hd&_)|Hd]]; rewrite Hd in E; try done.
    eapply capacity_kept; [exact Hle|by eapply admission_types0].
  - intros settings claim E. destruct Hd as [Hd|[(s&stage&Hd&_)|Hd]]; rewrite Hd in E; try done.
    eapply capacity_kept; [exact Hle|by eapply admission_claim0].
  - destruct Hd as [Hd|[(s&stage&Hd&_)|Hd]]; rewrite Hd; done.
Qed.

(** A place that is taken: by the dispatcher, or for an execution. *)
Lemma admission_acquire w w' queue maximum : admission w -> maximum <= 1000 ->
  tryAcquire w.(Worker.limiter) queue maximum = Some w'.(Worker.limiter) ->
  (forall other, places w' other = places w other + (if decide (queue = other) then 1 else 0)) ->
  (exists s, dispatch_settings w'.(Worker.dispatch) = Some s /\ dispatch_settings w.(Worker.dispatch) = Some s /\
     ((exists stage, w'.(Worker.dispatch) = Serving s stage) \/ exists stage, w'.(Worker.dispatch) = Holding s stage queue)) ->
  admission w'.
Proof.
  intros [] Hm Ha Hp (s&Es'&Es&Hd). split.
  - intros other. destruct (acquire_count _ _ _ _ other Ha) as [_ ->]. rewrite Hp, admission_count0. done.
  - intros other. destruct (acquire_count _ _ _ _ other Ha) as [Hlt ->]. specialize (admission_bound0 other).
    destruct (decide (queue = other)) as [<-|]; lia.
  - intros settings E. rewrite Es' in E. injection E as <-. auto.
  - intros ? ? E. destruct Hd as [[stage Hd]|[stage Hd]]; congruence.
  - intros ? ? E. destruct Hd as [[stage Hd]|[stage Hd]]; congruence.
  - destruct Hd as [[stage Hd]|[stage Hd]]; congruence.
Qed.

Ltac dispatched H := unfold places, held_place; simpl; rewrite ?H, ?count_app, ?count_cons, ?count_nil; simpl.

Lemma shared_concurrency queue settings : validateCollectorSettings settings = true -> sharedCollectionQueue queue = true ->
  1 <= queueConcurrency queue settings.
Proof.
  unfold validateCollectorSettings, concurrency_valid, sharedCollectionQueue. cbn [forallb]. intros Hv Hq. to_prop.
  apply existsb_exists in Hq as (q&Hin&->%String.eqb_eq). apply list_elem_of_In in Hin.
  repeat (apply elem_of_cons in Hin as [->|Hin]; [unfold queueConcurrency; simpl; lia|]). by apply elem_of_nil in Hin.
Qed.

Lemma shared_place_found settings limiter claim :
  shared_capacity limiter settings claim.(Claim.run).(Run.TaskType) = true -> validateCollectorSettings settings = true ->
  exists queue limiter', shared_place settings limiter claim = Some (queue, limiter') /\
    exists maximum, maximum <= 1000 /\ tryAcquire limiter queue maximum = Some limiter'.
Proof.
  unfold shared_capacity, shared_place. destruct (QueueForTask _) as [queue|]; [|done]. intros H Hv.
  apply andb_true_iff in H as [Hq H]. pose proof (shared_concurrency queue settings Hv Hq) as Hpos. rewrite Hq. cbn [negb]. to_prop.
  assert (Ha : exists limiter', tryAcquire limiter (queueCapacityKey queue) (queueConcurrency queue settings) = Some limiter').
  { unfold tryAcquire. destruct (queueConcurrency queue settings <=? 0) eqn:E; [lia|].
    destruct (queueConcurrency queue settings <=? limiter_count limiter (queueCapacityKey queue)) eqn:E2; [lia|by eexists]. }
  destruct Ha as [limiter' Ha]. rewrite Ha. do 2 eexists. split; [done|]. eexists. split; [by apply concurrency_bound|exact Ha].
Qed.

Section Admission.
Context (sha : list Z -> string) (range : gmap string metricTotals -> list (string * metricTotals)).
Context (decrypt : string -> Z -> option string) (new_authenticated : string -> string -> Z -> option cause).
Context (policy : CollectionTaskAttemptPolicy) (sliceLimit : Z) (handlers : list string) (bootNonce : string).
Abbreviation calls := (collection_calls sha range decrypt new_authenticated).
Abbreviation step := (worker_step policy sliceLimit handlers bootNonce calls elsewhere).

Lemma worker_step_admission w w' : step w w' -> sound w.(Worker.db) -> admission w -> admission w'.
Proof.
  intros H Hd Hw. pose proof Hw as [Hcount _ Hset Htypes Hclaim _]. destruct H as
    [rows settings Hp Hl|settings Hp|settings stage queue maximum limiter Hp Hq Ha|settings stage queue maximum Hp Hq Ha
    |settings stage queue now requestID Hp _|settings stage queue now sequence requestID options view claim d' Hp _ _ _
    |settings stage queue now sequence requestID options view canceled e Hp _ _ _|settings Hp
    |settings taskTypes now sequence requestID view claim d' Hp _ Hc|settings taskTypes now sequence requestID view canceled e Hp _ _
    |settings claim Hp|before queue x after_ x' d' Hr Hs|before queue x after_ Hr _|d' He]; try rewrite Hp in Hset.
  - apply (admission_same w); [done..| |right].
    + intros queue. by dispatched Hp.
    + split; [|done]. intros s [= <-]. right. by eapply LoadCollectorSettings_valid.
  - apply (admission_same w); [done..| |by right]. intros queue. by dispatched Hp.
  - eapply (admission_acquire w _ queue maximum); [done|eapply stage_maximum; [by apply Hset|exact Hq]|exact Ha| |].
    + intros other. dispatched Hp. lia.
    + exists settings. rewrite Hp. split; [done|]. split; [done|]. right. by exists stage.
  - apply (admission_same w); [done..| |right]; [intros other; by dispatched Hp|].
    split; [|done]. intros s [= <-]. left. by rewrite Hp.
  - apply (admission_release w _ queue); [done..| |].
    + intros other. dispatched Hp. lia.
    + right. left. rewrite Hp. by do 2 eexists.
  - apply (admission_same w); [done..| |right].
    + intros other. dispatched Hp. unfold in_queue. simpl. destruct (decide (queue = other)); [rewrite bool_decide_eq_true_2 by done|rewrite bool_decide_eq_false_2 by done]; lia.
    + split; [|done]. intros s [= <-]. left. by rewrite Hp.
  - apply (admission_release w _ queue); [done..| |].
    + intros other. unfold after_failure. dispatched Hp. destruct (_ || _); lia.
    + right. simpl. unfold after_failure. destruct (_ || _); [left|by right]. rewrite Hp. by do 2 eexists.
  - set (types := registeredSharedTaskTypes handlers (Worker.limiter w) settings).
    assert (Hall : forall t, t ∈ types -> shared_capacity (Worker.limiter w) settings t = true).
    { intros t Hin. unfold types, registeredSharedTaskTypes in Hin. rewrite sortStrings_perm in Hin.
      by apply list_elem_of_In, filter_In in Hin as [_ Hin]. }
    apply (admission_same w); [done..| |right]; simpl; fold types.
    + intros other. dispatched Hp. by destruct types.
    + destruct types as [|t ts]; split_and!; try done; intros s; simpl.
      * intros [= <-]. left. by rewrite Hp.
      * intros [= <-]. left. by rewrite Hp.
      * intros ts' [= <- <-]. exact Hall.
  - apply (admission_same w); [done..| |right]; [intros other; by dispatched Hp|].
    split_and!; try done; intros s; simpl.
    + intros [= <-]. left. by rewrite Hp.
    + intros c [= <- <-]. eapply Htypes; [exact Hp|]. by apply (ClaimNext_type _ _ _ _ _ (queue_runs_wf _ (sound_queue _ Hd)) Hc).
  - apply (admission_same w); [done..| |right].
    + intros other. unfold after_failure. dispatched Hp. by destruct (_ || _).
    + simpl. unfold after_failure. destruct (_ || _); split_and!; try done. intros s [= <-]. left. by rewrite Hp.
  - destruct (shared_place_found settings (Worker.limiter w) claim (Hclaim _ _ Hp) (Hset _ eq_refl)) as (queue&limiter&E&maximum&Hm&Ha).
    rewrite E. eapply (admission_acquire w _ queue maximum); [done|exact Hm|exact Ha| |].
    + intros other. dispatched Hp. unfold in_queue. simpl. destruct (decide (queue = other)); [rewrite bool_decide_eq_true_2 by done|rewrite bool_decide_eq_false_2 by done]; lia.
    + exists settings. rewrite Hp. split; [done|]. split; [done|]. left. by eexists.
  - apply (admission_same w); [done..| |by left]. intros other. unfold places. simpl. by rewrite Hr, !count_app, !count_cons.
  - apply (admission_release w _ queue); [done..| |by left].
    intros other. unfold places, in_queue. simpl. rewrite Hr, !count_app, count_cons. simpl.
    destruct (decide (queue = other)); [rewrite bool_decide_eq_true_2 by done|rewrite bool_decide_eq_false_2 by done]; lia.
  - apply (admission_same w); [done..|by left].
Qed.
End Admission.

(** ** Histories of the worker *)
Section Histories.
Context (sha : list Z -> string) (range : gmap string metricTotals -> list (string * metricTotals)).
Context (decrypt : string -> Z -> option string) (new_authenticated : string -> string -> Z -> option cause).
Context (policy : CollectionTaskAttemptPolicy) (sliceLimit : Z) (handlers : list string) (bootNonce : string).
Abbreviation calls := (collection_calls sha range decrypt new_authenticated).
Abbreviation step := (worker_step policy sliceLimit handlers bootNonce calls elsewhere).

Lemma new_worker_admission d : admission (new_worker d).
Proof. by split. Qed.

Lemma worker_history_admission d0 w : empty_queue d0 -> no_usage_yet d0 -> table_wf (Tables.site d0) ->
  rtc step (new_worker d0) w -> admission w.
Proof.
  intros Hq Hu Hs H. apply rtc_nsteps in H as [n H]. revert w H. induction n as [|n IH]; intros w H.
  - inversion H; subst. apply new_worker_admission.
  - apply nsteps_inv_r in H as (v&Hv&Hw). eapply worker_step_admission; [exact Hw| |by apply IH].
    apply rtc_nsteps_2 in Hv. by destruct (worker_steps_sound _ _ _ _ _ _ _ _ d0 v Hq Hu Hs Hv).
Qed.
End Histories.

(** C11: the limiter is exact.  In every history of the worker the count of a
    queue is the number of its executions that run, and of the place the
    dispatcher holds for a claim to come, never above a thousand; and a claim of
    the shared queues, whose place is taken only after the claim, always finds
    one: the error of a capacity that changed during the claim does not occur. *)
Theorem worker_admission sha range decrypt new_authenticated policy sliceLimit handlers bootNonce d0 w :
  empty_queue d0 -> no_usage_yet d0 -> table_wf (Tables.site d0) ->
  rtc (worker_step policy sliceLimit handlers bootNonce (collection_calls sha range decrypt new_authenticated) elsewhere)
    (new_worker d0) w ->
  w.(Worker.dispatch) <> Broken /\
  forall queue, limiter_count w.(Worker.limiter) queue
    = count (in_queue queue) w.(Worker.running) + held_place w.(Worker.dispatch) queue /\
    limiter_count w.(Worker.limiter) queue <= 1000.
Proof.
  intros Hq Hu Hs H. destruct (worker_history_admission _ _ _ _ _ _ _ _ d0 w Hq Hu Hs H). split; [done|].
  intros queue. split; [apply admission_count0|apply admission_bound0].
Qed.


(** ** A concrete history *)
Module WorkerSample.
Definition rows : list SettingRow := (fun key =>
  SettingRow.mk key (if is_one_of key (take 5 collector_keys) then "60" else "2") "int" false) <$> collector_keys.
Definition settings : CollectorSettings :=
  CollectorSettings.mk 60 60 60 60 60 2 2 2 2 2 2 2 2 2.
Definition sha (_ : list Z) : string := "".
Definition range (m : gmap string metricTotals) : list (string * metricTotals) := map_to_list m.
Definition decrypt (_ : string) (_ : Z) : option string := None.
Definition new_authenticated (_ _ : string) (_ : Z) : option cause := None.
Definition handlers : list string := ["usage_hour"].
Abbreviation step := (worker_step defaultAttemptPolicy 30000000000 handlers "0f" (collection_calls sha range decrypt new_authenticated) elsewhere).

Definition queued : Worker := new_worker History.opened.
Definition loaded : Worker := queued <| Worker.dispatch := Serving settings InitialBackfills |>.
Definition holding : Worker :=
  loaded <| Worker.limiter := {["initial_backfill" := 1]} |>
         <| Worker.dispatch := Holding settings InitialBackfills "initial_backfill" |>.
Definition serving : Worker :=
  holding <| Worker.limiter := release holding.(Worker.limiter) "initial_backfill" |> <| Worker.sequence := 1 |>
          <| Worker.dispatch := after_failure settings InitialBackfills false ErrCollectionTaskUnavailable |>.
Definition registered : Worker := serving <| Worker.dispatch :=
  match registeredSharedTaskTypes handlers serving.(Worker.limiter) settings with
  | [] => Serving settings (next_stage SharedQueues)
  | taskTypes => Registered settings taskTypes
  end |>.
Definition options : CollectionTaskClaimOptions := shared_options ["usage_hour"] 20002 "wrk_0f_2".
Definition claim : CollectionTaskClaim :=
  match ClaimNext options no_locks History.opened with
  | Ok (claim, _) => claim | Err _ => Claim.mk (Sample.run 100 0 0 "") [] "" end.
Definition claimed : Worker :=
  registered <| Worker.dispatch := ClaimedShared settings claim |> <| Worker.sequence := 2 |>
             <| Worker.db := History.after (ClaimNext options no_locks) History.opened |>.
Definition admitted : Worker :=
  match shared_place settings claimed.(Worker.limiter) claim with
  | Some (queue, limiter) =>
      start_claim claimed queue claim <| Worker.limiter := limiter |> <| Worker.dispatch := Serving settings SharedQueues |>
  | None => claimed <| Worker.dispatch := Broken |>
  end.

Lemma idle_turn d d' : elsewhere d d' -> step (new_worker d) (new_worker d').
Proof. apply (other_turn _ _ _ _ _ _ (new_worker d)). Qed.

Lemma queued_steps : rtc step (new_worker History.start) queued.
Proof.
  destruct (History.after_ok (EnqueueSiteTask History.request) History.start) as [a Ha]; [vm_compute; reflexivity|].
  destruct (History.after_ok (materialize_chunk History.base History.keys History.keys 20000) History.enqueued) as [[] Hb]; [vm_compute; reflexivity|].
  destruct (History.after_ok (open_materialized History.base History.keys 20001) History.filled) as [c Hc]; [vm_compute; reflexivity|].
  apply (rtc_l _ _ (new_worker History.enqueued)).
  { apply idle_turn. split; [by eapply step_enqueue|]. apply view_same. exact (EnqueueSiteTask_usage _ _ _ _ Ha). }
  apply (rtc_l _ _ (new_worker History.filled)).
  { apply idle_turn. split; [by eapply step_materialize|]. apply view_same. exact (materialize_chunk_usage _ _ _ _ _ _ _ Hb). }
  apply rtc_once, idle_turn. split; [by eapply step_open|]. apply view_same. exact (open_materialized_usage _ _ _ _ _ _ Hc).
Qed.

Lemma claim_ok : ClaimNext (shared_options ["usage_hour"] (Unix 20002000000000) "wrk_0f_2") no_locks registered.(Worker.db)
  = Ok (claim, History.after (ClaimNext options no_locks) History.opened).
Proof.
  assert (Hdb : registered.(Worker.db) = History.opened) by reflexivity.
  assert (Hnow : Unix 20002000000000 = 20002) by reflexivity. rewrite Hdb, Hnow. fold options.
  assert (Hok : is_ok (ClaimNext options no_locks History.opened) = true) by (vm_compute; reflexivity).
  unfold claim, History.after. by destruct (ClaimNext options no_locks History.opened) as [[c d]|e].
Qed.

(** The initial backfills have nothing to claim; the shared queues have. *)
Lemma admitted_steps : rtc step queued admitted.
Proof.
  apply (rtc_l _ _ loaded); [apply (dispatch_load _ _ _ _ _ _ queued rows settings); vm_compute; reflexivity|].
  apply (rtc_l _ _ holding).
  { apply (dispatch_acquire _ _ _ _ _ _ loaded settings InitialBackfills "initial_backfill" 2); vm_compute; reflexivity. }
  apply (rtc_l _ _ serving).
  { apply (dispatch_claim_failed _ _ _ _ _ _ holding settings InitialBackfills "initial_backfill" 20001000000000 1 "wrk_0f_1"
      (initial_options 20001 "wrk_0f_1") no_locks false ErrCollectionTaskUnavailable);
      [reflexivity|vm_compute; reflexivity|vm_compute; reflexivity|right; vm_compute; reflexivity]. }
  apply (rtc_l _ _ registered); [apply (dispatch_shared _ _ _ _ _ _ serving settings); reflexivity|].
  apply (rtc_l _ _ claimed); [|apply (rtc_l _ _ admitted); [|reflexivity]].
  - apply (dispatch_shared_claim _ _ _ _ _ _ registered settings ["usage_hour"] 20002000000000 2 "wrk_0f_2" no_locks);
      [vm_compute; reflexivity..|exact claim_ok].
  - unfold admitted. refine (dispatch_admit _ _ _ _ _ _ claimed settings claim _). reflexivity.
Qed.

Lemma history : rtc step (new_worker History.start) admitted.
Proof. etrans; [exact queued_steps|exact admitted_steps]. Qed.

Lemma start_empty : empty_queue History.start.
Proof. by split_and!. Qed.
Lemma start_unused : no_usage_yet History.start.
Proof. by split_and!. Qed.
Lemma start_sites : table_wf (Tables.site History.start).
Proof.
  assert (E : Tables.site History.start = {[7 := Sample.site7]}) by (vm_compute; reflexivity).
  rewrite E. intros k s Hk. apply lookup_singleton_Some in Hk as [<- <-]. done.
Qed.
End WorkerSample.

Lemma worker_admission_witness :
  length WorkerSample.admitted.(Worker.running) = 1%nat /\
  limiter_count WorkerSample.admitted.(Worker.limiter) "usage" = 1 /\ WorkerSample.admitted.(Worker.dispatch) <> Broken.
Proof.
  destruct (worker_admission WorkerSample.sha WorkerSample.range WorkerSample.decrypt WorkerSample.new_authenticated
    defaultAttemptPolicy 30000000000 WorkerSample.handlers "0f" History.start WorkerSample.admitted
    WorkerSample.start_empty WorkerSample.start_unused WorkerSample.start_sites WorkerSample.history) as [Hb Hc].
  split; [vm_compute; reflexivity|]. split; [|exact Hb]. rewrite (proj1 (Hc "usage")). vm_compute. reflexivity.
Defined.

