(* ===== verification/FastDispatch.v ===== *)
(** * The fast tasks of the scheduler ([worker/scheduler_fast.go])

    Probes, realtime samples and resource snapshots do not pass through the
    queue: a dispatcher in memory runs them, one at a time on a site and as
    many of a type as its limit.  A task that cannot start waits in order. *)

From S2P Require Import Prelude Constants GoText Store Queues.

Definition fastTaskQueueCapacity : Z := 256.

Definition fastScheduleKey (taskType : string) (siteID : Z) : string := taskType +:+ ":" +:+ FormatInt siteID.

(** [has_ctx]: its context is not nil. *)
Module FastTask.
Record scheduledFastTask := mk {
  has_ctx : bool; site : Site; taskType : string; requestID : string; concurrency : Z }.
#[export] Instance task_eta : RecordEta scheduledFastTask := fun t =>
  mk (has_ctx t) (site t) (taskType t) (requestID t) (concurrency t).
End FastTask.
Export (hints) FastTask.
Abbreviation scheduledFastTask := FastTask.scheduledFastTask.

Definition task_key (task : scheduledFastTask) : string :=
  fastScheduleKey task.(FastTask.taskType) task.(FastTask.site).(MSite.ID).
Definition task_site (task : scheduledFastTask) : Z := task.(FastTask.site).(MSite.ID).

Module FastDispatcher.
Record fastTaskDispatcher := mk {
  pending : list scheduledFastTask; queued : gset string; running : gset string; runningSites : gset Z;
  activeByType : gmap string Z; limitsByType : gmap string Z; stopped : bool }.
#[export] Instance dispatcher_eta : RecordEta fastTaskDispatcher := fun s =>
  mk (pending s) (queued s) (running s) (runningSites s) (activeByType s) (limitsByType s) (stopped s).
End FastDispatcher.
Export (hints) FastDispatcher.
Abbreviation fastTaskDispatcher := FastDispatcher.fastTaskDispatcher.

Definition newFastTaskDispatcher : fastTaskDispatcher := FastDispatcher.mk [] ∅ ∅ ∅ ∅ ∅ false.

(** A missing entry of the maps reads as zero. *)
Definition active_of (s : fastTaskDispatcher) (taskType : string) : Z :=
  default 0 (s.(FastDispatcher.activeByType) !! taskType).
Definition limit_of (s : fastTaskDispatcher) (taskType : string) : Z :=
  default 0 (s.(FastDispatcher.limitsByType) !! taskType).

(** ** Starting what is ready *)
Definition ready (s : fastTaskDispatcher) (task : scheduledFastTask) : bool :=
  negb (bool_decide (task_site task ∈ s.(FastDispatcher.runningSites)))
  && negb (limit_of s task.(FastTask.taskType) <=? active_of s task.(FastTask.taskType)).

(** The first pending task that is ready, and the tasks before and after it. *)
Fixpoint first_ready (s : fastTaskDispatcher) (before pending : list scheduledFastTask)
  : option (list scheduledFastTask * scheduledFastTask * list scheduledFastTask) :=
  match pending with
  | [] => None
  | task :: rest => if ready s task then Some (before, task, rest) else first_ready s (before ++ [task]) rest
  end.

Definition start_task (s : fastTaskDispatcher) (task : scheduledFastTask) (pending : list scheduledFastTask)
  : fastTaskDispatcher :=
  s <| FastDispatcher.pending := pending |>
    <| FastDispatcher.queued := s.(FastDispatcher.queued) ∖ {[task_key task]} |>
    <| FastDispatcher.running := s.(FastDispatcher.running) ∪ {[task_key task]} |>
    <| FastDispatcher.runningSites := s.(FastDispatcher.runningSites) ∪ {[task_site task]} |>
    <| FastDispatcher.activeByType :=
         <[task.(FastTask.taskType) := active_of s task.(FastTask.taskType) + 1]> s.(FastDispatcher.activeByType) |>.

(** The loop, and the tasks whose goroutines it starts; every round takes a
    task out of the pending ones, so their number is enough fuel. *)
Fixpoint start_ready (fuel : nat) (s : fastTaskDispatcher) : fastTaskDispatcher * list scheduledFastTask :=
  match fuel with
  | O => (s, [])
  | S fuel =>
      if s.(FastDispatcher.stopped) then (s, [])
      else
        match first_ready s [] s.(FastDispatcher.pending) with
        | None => (s, [])
        | Some (before, task, rest) =>
            let '(s', started) := start_ready fuel (start_task s task (before ++ rest)) in (s', task :: started)
        end
  end.
Definition startReadyLocked (s : fastTaskDispatcher) : fastTaskDispatcher * list scheduledFastTask :=
  start_ready (S (length s.(FastDispatcher.pending))) s.

(** ** Operations *)

(** Whether the task was accepted, and the tasks started. *)
Definition EnqueueFast (task : scheduledFastTask) (s : fastTaskDispatcher)
  : bool * (fastTaskDispatcher * list scheduledFastTask) :=
  if negb task.(FastTask.has_ctx) || (task_site task <=? 0) || (task.(FastTask.taskType) == "")
     || (task.(FastTask.requestID) == "") then (false, (s, []))
  else
    let task := if task.(FastTask.concurrency) <=? 0 then task <| FastTask.concurrency := 1 |> else task in
    let key := task_key task in
    if s.(FastDispatcher.stopped) then (false, (s, []))
    else
      let s := s <| FastDispatcher.limitsByType :=
                      <[task.(FastTask.taskType) := task.(FastTask.concurrency)]> s.(FastDispatcher.limitsByType) |> in
      if bool_decide (key ∈ s.(FastDispatcher.queued)) then (false, (s, []))
      else if bool_decide (key ∈ s.(FastDispatcher.running))
              || (fastTaskQueueCapacity <=? Z.of_nat (length s.(FastDispatcher.pending))) then (false, (s, []))
      else
        (true, startReadyLocked
          (s <| FastDispatcher.pending := s.(FastDispatcher.pending) ++ [task] |>
             <| FastDispatcher.queued := s.(FastDispatcher.queued) ∪ {[key]} |>)).

Definition complete (task : scheduledFastTask) (s : fastTaskDispatcher) : fastTaskDispatcher * list scheduledFastTask :=
  let taskType := task.(FastTask.taskType) in
  startReadyLocked
    (s <| FastDispatcher.running := s.(FastDispatcher.running) ∖ {[task_key task]} |>
       <| FastDispatcher.runningSites := s.(FastDispatcher.runningSites) ∖ {[task_site task]} |>
       <| FastDispatcher.activeByType :=
            if 0 <? active_of s taskType then <[taskType := active_of s taskType - 1]> s.(FastDispatcher.activeByType)
            else s.(FastDispatcher.activeByType) |>).

Definition ShutdownFast (s : fastTaskDispatcher) : fastTaskDispatcher :=
  s <| FastDispatcher.stopped := true |> <| FastDispatcher.pending := [] |> <| FastDispatcher.queued := ∅ |>.

(** ** Execution *)
Definition fastTaskConcurrency (taskType : string) (settings : CollectorSettings) : Z :=
  if taskType == TaskTypeSiteProbe then settings.(CollectorSettings.ProbeConcurrency)
  else if taskType == TaskTypeRealtimeStat then settings.(CollectorSettings.RealtimeConcurrency)
  else if taskType == TaskTypeResourceSnapshot then settings.(CollectorSettings.ResourceConcurrency)
  else 1.

Definition fastTaskFailureStateChanged (taskType : string) (before after_ : Site) : bool :=
  if (before.(MSite.AuthStatus) != after_.(MSite.AuthStatus)) && (after_.(MSite.AuthStatus) == SiteAuthExpired) then true
  else if taskType != TaskTypeSiteProbe then false
  else if (before.(MSite.OnlineStatus) != SiteOnlineOffline) && (after_.(MSite.OnlineStatus) == SiteOnlineOffline) then true
  else if before.(MSite.DataExportEnabled) && negb after_.(MSite.DataExportEnabled) then true
  else (before.(MSite.StatisticsStatus) != after_.(MSite.StatisticsStatus))
       && is_one_of after_.(MSite.StatisticsStatus) [SiteStatisticsPendingConfig; SiteStatisticsError].
