(* ===== verification/FastDispatchBehaviour.v ===== *)
(** * What the dispatcher of the fast tasks guarantees *)

From S2P Require Import Prelude Constants GoText Store Queues FastDispatch.

(** ** A dispatcher with the goroutines it started *)
Module FastSystem.
(** [accepted] and [finished] are the tasks taken in and those that returned. *)
Record FastSystem := mk {
  dispatcher : fastTaskDispatcher; working : list scheduledFastTask; finished : list scheduledFastTask;
  accepted : list scheduledFastTask }.
End FastSystem.
Abbreviation FastSystem := FastSystem.FastSystem.

Definition idle_system : FastSystem := FastSystem.mk newFastTaskDispatcher [] [] [].

(** The task as it is stored. *)
Definition stored (task : scheduledFastTask) : scheduledFastTask :=
  if task.(FastTask.concurrency) <=? 0 then task <| FastTask.concurrency := 1 |> else task.

Inductive fast_step (x : FastSystem) : FastSystem -> Prop :=
| fast_enqueue task taken s started : EnqueueFast task x.(FastSystem.dispatcher) = (taken, (s, started)) ->
    fast_step x (FastSystem.mk s (x.(FastSystem.working) ++ started) x.(FastSystem.finished)
      (if (taken : bool) then x.(FastSystem.accepted) ++ [stored task] else x.(FastSystem.accepted)))
| fast_complete before task after_ s started : x.(FastSystem.working) = before ++ task :: after_ ->
    complete task x.(FastSystem.dispatcher) = (s, started) ->
    fast_step x (FastSystem.mk s ((before ++ after_) ++ started) (x.(FastSystem.finished) ++ [task]) x.(FastSystem.accepted))
| fast_shutdown : fast_step x
    (FastSystem.mk (ShutdownFast x.(FastSystem.dispatcher)) x.(FastSystem.working) x.(FastSystem.finished) x.(FastSystem.accepted)).

Definition of_type (taskType : string) (task : scheduledFastTask) : bool := task.(FastTask.taskType) == taskType.

Lemma of_type_same task : of_type task.(FastTask.taskType) task = true.
Proof. unfold of_type. by rewrite bool_decide_eq_true_2. Qed.
Lemma of_type_other taskType task : task.(FastTask.taskType) <> taskType -> of_type taskType task = false.
Proof. unfold of_type. intros. by rewrite bool_decide_eq_false_2. Qed.

(** The bookkeeping of a dispatcher whose goroutines run [working]. *)
Record books (s : fastTaskDispatcher) (working : list scheduledFastTask) : Prop := {
  books_queued : s.(FastDispatcher.queued) = list_to_set (task_key <$> s.(FastDispatcher.pending));
  books_running : s.(FastDispatcher.running) = list_to_set (task_key <$> working);
  books_sites : s.(FastDispatcher.runningSites) = list_to_set (task_site <$> working);
  books_active : forall taskType, active_of s taskType = count (of_type taskType) working;
  books_keys : NoDup (task_key <$> s.(FastDispatcher.pending) ++ working);
  books_exclusive : NoDup (task_site <$> working)
}.

Lemma first_ready_some s pending : forall before b task r, first_ready s before pending = Some (b, task, r) ->
  before ++ pending = b ++ task :: r /\ ready s task = true.
Proof.
  induction pending as [|t rest IH]; intros before b task r; [done|]. simpl. destruct (ready s t) eqn:E.
  - by intros [= <- <- <-].
  - intros H. apply IH in H as [H Hr]. split; [|done]. rewrite <- H, <- app_assoc. done.
Qed.

Lemma first_ready_none s pending : forall before, first_ready s before pending = None ->
  forall task, task ∈ pending -> ready s task = false.
Proof.
  induction pending as [|t rest IH]; intros before; [by intros _ task ?%elem_of_nil|]. simpl. destruct (ready s t) eqn:E; [done|].
  intros H task [->|Hin]%elem_of_cons; [done|by eapply IH].
Qed.

Lemma remove_listed {K} `{Countable K} (x : K) (a b : list K) : NoDup (a ++ x :: b) ->
  list_to_set (C := gset K) (a ++ x :: b) ∖ {[x]} = list_to_set (a ++ b).
Proof.
  intros Hnd. apply NoDup_app in Hnd as (_&Ha&Hb). apply NoDup_cons in Hb as [Hb _].
  assert (Hx : x ∉ a) by (intros Hin; apply (Ha x Hin), elem_of_cons; by left).
  apply set_eq. intros y. rewrite elem_of_difference, !elem_of_list_to_set, elem_of_singleton, !elem_of_app, elem_of_cons.
  split; [tauto|]. intros [Hy|Hy]; (split; [tauto|]); intros ->; contradiction.
Qed.

Lemma add_listed {K} `{Countable K} (x : K) (l : list K) :
  list_to_set (C := gset K) (l ++ [x]) = list_to_set l ∪ {[x]}.
Proof. rewrite list_to_set_app_L. simpl. set_solver. Qed.

Lemma NoDup_perm {A} (l k : list A) : l ≡ₚ k -> NoDup k -> NoDup l.
Proof. by intros ->. Qed.
Lemma NoDup_smaller {A} (l : list A) x k : x :: l ≡ₚ k -> NoDup k -> NoDup l.
Proof. intros E Hk. rewrite <- E in Hk. by apply NoDup_cons in Hk as [_ Hk]. Qed.

Lemma start_task_books s working before task rest : books s working -> s.(FastDispatcher.pending) = before ++ task :: rest ->
  ready s task = true -> books (start_task s task (before ++ rest)) (working ++ [task]).
Proof.
  intros [] Hp Hr. rewrite Hp in *. unfold ready in Hr. to_prop. destruct Hr as [Hsite _]. rewrite books_sites0, elem_of_list_to_set in Hsite.
  rewrite !fmap_app, fmap_cons in *. rewrite <- app_assoc in books_keys0.
  split; simpl.
  - rewrite books_queued0, fmap_app. apply remove_listed.
    rewrite app_assoc in books_keys0. by apply NoDup_app in books_keys0 as [Hnd _].
  - rewrite books_running0, fmap_app. simpl. by rewrite add_listed.
  - rewrite books_sites0, fmap_app. simpl. by rewrite add_listed.
  - intros taskType. unfold active_of. simpl. rewrite count_app, count_cons, count_nil.
    destruct (decide (FastTask.taskType task = taskType)) as [<-|Hne].
    + rewrite lookup_insert_eq. simpl. rewrite books_active0. rewrite of_type_same. lia.
    + rewrite lookup_insert_ne by done. fold (active_of s taskType). rewrite books_active0. rewrite of_type_other by done. lia.
  - eapply NoDup_perm; [|exact books_keys0]. rewrite !fmap_app. simpl. solve_Permutation.
  - rewrite fmap_app. apply NoDup_app. split; [done|]. split; [|apply NoDup_singleton].
    intros y Hy Hin. apply list_elem_of_singleton in Hin as ->. done.
Qed.

(** No task waits that could start. *)
Definition no_ready (s : fastTaskDispatcher) : Prop :=
  s.(FastDispatcher.stopped) = false -> forall task, task ∈ s.(FastDispatcher.pending) -> ready s task = false.

Lemma start_ready_books fuel : forall s working s' started, books s working ->
  (length s.(FastDispatcher.pending) < fuel)%nat -> start_ready fuel s = (s', started) ->
  books s' (working ++ started) /\ no_ready s' /\ s'.(FastDispatcher.stopped) = s.(FastDispatcher.stopped) /\
  s'.(FastDispatcher.limitsByType) = s.(FastDispatcher.limitsByType) /\ s.(FastDispatcher.pending) ≡ₚ s'.(FastDispatcher.pending) ++ started.
Proof.
  induction fuel as [|fuel IH]; intros s working s' started Hb Hf; [lia|]. simpl.
  destruct (FastDispatcher.stopped s) eqn:Hs.
  { intros [= <- <-]. rewrite !app_nil_r. split; [done|]. split; [|done]. intros E. congruence. }
  destruct (first_ready s [] (FastDispatcher.pending s)) as [[[before task] rest]|] eqn:E.
  - destruct (start_ready fuel _) as [s1 started1] eqn:Hr. intros [= <- <-].
    apply first_ready_some in E as [Hp Hready]. simpl in Hp.
    apply (IH _ (working ++ [task])) in Hr as (Hb1&Hn&Hst&Hl&Hperm); [|by apply start_task_books|].
    + rewrite <- app_assoc in Hb1. simpl in *. split; [done|]. split; [done|]. split; [congruence|]. split; [done|].
      rewrite Hp. simpl in Hperm. rewrite <- Permutation_middle, Hperm. solve_Permutation.
    + simpl. rewrite Hp, length_app in Hf. simpl in Hf. rewrite length_app. lia.
  - intros [= <- <-]. rewrite !app_nil_r. split; [done|]. split; [|done]. intros _. by eapply first_ready_none.
Qed.

Lemma startReadyLocked_books s working s' started : books s working -> startReadyLocked s = (s', started) ->
  books s' (working ++ started) /\ no_ready s' /\ s'.(FastDispatcher.stopped) = s.(FastDispatcher.stopped) /\
  s'.(FastDispatcher.limitsByType) = s.(FastDispatcher.limitsByType) /\ s.(FastDispatcher.pending) ≡ₚ s'.(FastDispatcher.pending) ++ started.
Proof. intros Hb. apply start_ready_books; [done|lia]. Qed.

(** ** The system *)
Record fast_inv (x : FastSystem) : Prop := {
  fast_books : books x.(FastSystem.dispatcher) x.(FastSystem.working);
  fast_limits : forall task, task ∈ x.(FastSystem.dispatcher).(FastDispatcher.pending) ->
    1 <= limit_of x.(FastSystem.dispatcher) task.(FastTask.taskType);
  fast_live : x.(FastSystem.dispatcher).(FastDispatcher.pending) <> [] -> x.(FastSystem.working) <> [];
  fast_capacity : Z.of_nat (length x.(FastSystem.dispatcher).(FastDispatcher.pending)) <= fastTaskQueueCapacity;
  fast_stopped : x.(FastSystem.dispatcher).(FastDispatcher.stopped) = true -> x.(FastSystem.dispatcher).(FastDispatcher.pending) = [];
  fast_accounted : x.(FastSystem.dispatcher).(FastDispatcher.pending) ++ x.(FastSystem.working) ++ x.(FastSystem.finished)
    ⊆+ x.(FastSystem.accepted);
  fast_complete_account : x.(FastSystem.dispatcher).(FastDispatcher.stopped) = false ->
    x.(FastSystem.accepted) ≡ₚ x.(FastSystem.dispatcher).(FastDispatcher.pending) ++ x.(FastSystem.working) ++ x.(FastSystem.finished)
}.

Lemma books_limits s working limits : books s working -> books (s <| FastDispatcher.limitsByType := limits |>) working.
Proof. by intros []. Qed.

Lemma books_accept s working task : books s working ->
  task_key task ∉ s.(FastDispatcher.queued) -> task_key task ∉ s.(FastDispatcher.running) ->
  books (s <| FastDispatcher.pending := s.(FastDispatcher.pending) ++ [task] |>
           <| FastDispatcher.queued := s.(FastDispatcher.queued) ∪ {[task_key task]} |>) working.
Proof.
  intros [] Hq Hr. rewrite books_queued0, elem_of_list_to_set in Hq. rewrite books_running0, elem_of_list_to_set in Hr.
  split; simpl; try done.
  - rewrite books_queued0, fmap_app, list_to_set_app_L. simpl. set_solver.
  - rewrite !fmap_app in *. simpl. eapply (NoDup_perm _ (task_key task :: _)); [|apply NoDup_cons; split; [|exact books_keys0]].
    + solve_Permutation.
    + rewrite elem_of_app. tauto.
Qed.

Lemma books_complete s before task after_ : books s (before ++ task :: after_) ->
  books (s <| FastDispatcher.running := s.(FastDispatcher.running) ∖ {[task_key task]} |>
           <| FastDispatcher.runningSites := s.(FastDispatcher.runningSites) ∖ {[task_site task]} |>
           <| FastDispatcher.activeByType :=
                if 0 <? active_of s task.(FastTask.taskType)
                then <[task.(FastTask.taskType) := active_of s task.(FastTask.taskType) - 1]> s.(FastDispatcher.activeByType)
                else s.(FastDispatcher.activeByType) |>) (before ++ after_).
Proof.
  intros []. rewrite !fmap_app, !fmap_cons in *. split; simpl; rewrite ?fmap_app; try done.
  - rewrite books_running0. apply remove_listed.
    by apply NoDup_app in books_keys0 as (_&_&Hnd).
  - rewrite books_sites0. by apply remove_listed.
  - assert (Hpos : 0 < active_of s (FastTask.taskType task)).
    { rewrite books_active0, count_app, count_cons. rewrite of_type_same.
      pose proof (count_nonneg (of_type (FastTask.taskType task)) before). pose proof (count_nonneg (of_type (FastTask.taskType task)) after_). lia. }
    apply Z.ltb_lt in Hpos as ->. intros taskType. unfold active_of. simpl.
    destruct (decide (FastTask.taskType task = taskType)) as [<-|Hne].
    + rewrite lookup_insert_eq. simpl. fold (active_of s (FastTask.taskType task)). rewrite books_active0, !count_app, count_cons, of_type_same. lia.
    + rewrite lookup_insert_ne by done. etrans; [exact (books_active0 taskType)|]. rewrite !count_app, count_cons. rewrite of_type_other by done. lia.
  - eapply (NoDup_smaller _ (task_key task)); [|exact books_keys0]. solve_Permutation.
  - eapply (NoDup_smaller _ (task_site task)); [|exact books_exclusive0]. solve_Permutation.
Qed.

Lemma EnqueueFast_cases task s taken s' started : EnqueueFast task s = (taken, (s', started)) ->
  let limits := <[(stored task).(FastTask.taskType) := (stored task).(FastTask.concurrency)]> s.(FastDispatcher.limitsByType) in
  (taken = false /\ started = [] /\ (s' = s \/ s' = s <| FastDispatcher.limitsByType := limits |>)) \/
  (taken = true /\ s.(FastDispatcher.stopped) = false /\ task_key (stored task) ∉ s.(FastDispatcher.queued) /\
   task_key (stored task) ∉ s.(FastDispatcher.running) /\
   Z.of_nat (length s.(FastDispatcher.pending)) < fastTaskQueueCapacity /\
   startReadyLocked (s <| FastDispatcher.limitsByType := limits |>
     <| FastDispatcher.pending := s.(FastDispatcher.pending) ++ [stored task] |>
     <| FastDispatcher.queued := s.(FastDispatcher.queued) ∪ {[task_key (stored task)]} |>) = (s', started)).
Proof.
  unfold EnqueueFast. destruct (_ || _); [intros [= <- <- <-]; by left; auto|]. cbv zeta. fold (stored task).
  destruct (FastDispatcher.stopped s) eqn:Hs; [intros [= <- <- <-]; by left; auto|].
  destruct (bool_decide (_ ∈ _)) eqn:Hq; [intros [= <- <- <-]; left; auto|].
  destruct (_ || _) eqn:Hr; [intros [= <- <- <-]; left; auto|].
  simpl in *. intros [= <- H]. right. to_prop. destruct Hr. by split_and!.
Qed.


Lemma stored_concurrency task : 1 <= (stored task).(FastTask.concurrency).
Proof. unfold stored. destruct (_ <=? 0) eqn:E; simpl; lia. Qed.

Lemma limit_kept task s t : 1 <= limit_of s t ->
  1 <= limit_of (s <| FastDispatcher.limitsByType :=
    <[(stored task).(FastTask.taskType) := (stored task).(FastTask.concurrency)]> s.(FastDispatcher.limitsByType) |>) t.
Proof.
  unfold limit_of. simpl. pose proof (stored_concurrency task). destruct (decide (FastTask.taskType (stored task) = t)) as [<-|Hne].
  - by rewrite lookup_insert_eq.
  - by rewrite lookup_insert_ne.
Qed.

(** What waits while nothing can start waits for a goroutine. *)
Lemma waits_for_work s working : books s working -> no_ready s -> s.(FastDispatcher.stopped) = false ->
  (forall task, task ∈ s.(FastDispatcher.pending) -> 1 <= limit_of s task.(FastTask.taskType)) ->
  s.(FastDispatcher.pending) <> [] -> working <> [].
Proof.
  intros [] Hn Hs Hl Hp ->. destruct (FastDispatcher.pending s) as [|task rest] eqn:E; [done|].
  assert (Hin : task ∈ task :: rest) by (apply elem_of_cons; by left).
  specialize (Hl task Hin). specialize (Hn Hs). rewrite E in Hn. specialize (Hn task Hin). unfold ready in Hn.
  rewrite books_sites0, books_active0, count_nil in Hn. simpl in Hn. to_prop. destruct Hn as [Hn|Hn]; [set_solver|lia].
Qed.

Lemma started_inv x s started working : books s working -> s.(FastDispatcher.stopped) = false ->
  (forall task, task ∈ s.(FastDispatcher.pending) -> 1 <= limit_of s task.(FastTask.taskType)) ->
  Z.of_nat (length s.(FastDispatcher.pending)) <= fastTaskQueueCapacity ->
  x.(FastSystem.accepted) ≡ₚ s.(FastDispatcher.pending) ++ working ++ x.(FastSystem.finished) ->
  startReadyLocked s = (x.(FastSystem.dispatcher), started) -> x.(FastSystem.working) = working ++ started -> fast_inv x.
Proof.
  intros Hb Hs Hl Hc Ha Hr Hw. apply (startReadyLocked_books s working) in Hr as (Hb'&Hn&Hst&Hlim&Hp); [|done].
  assert (Hl' : forall task, task ∈ x.(FastSystem.dispatcher).(FastDispatcher.pending) ->
    1 <= limit_of x.(FastSystem.dispatcher) task.(FastTask.taskType)).
  { intros task Hin. unfold limit_of. rewrite Hlim. apply Hl. rewrite Hp. apply elem_of_app. by left. }
  assert (Hacc : x.(FastSystem.accepted) ≡ₚ
    x.(FastSystem.dispatcher).(FastDispatcher.pending) ++ x.(FastSystem.working) ++ x.(FastSystem.finished)).
  { rewrite Ha, Hw, Hp. solve_Permutation. }
  split; rewrite ?Hw; try done.
  - by apply (waits_for_work _ _ Hb' Hn); [congruence|].
  - rewrite Hp, length_app in Hc. lia.
  - congruence.
  - rewrite <- Hw, Hacc. done.
  - intros _. by rewrite <- Hw.
Qed.

Lemma fast_step_inv x x' : fast_step x x' -> fast_inv x -> fast_inv x'.
Proof.
  intros H Hinv. pose proof Hinv as [Hb Hl Hlive Hc Hs Ha Hac]. destruct H as [task taken s started He|before task after_ s started Hw Hc'|].
  - apply EnqueueFast_cases in He as [(->&->&Hs')|(->&Hst&Hq&Hr&Hcap&Hst')].
    + rewrite app_nil_r. destruct Hs' as [-> | ->]; [by destruct x|].
      split; simpl; try done; [exact (books_limits _ _ _ Hb)|]. intros t Ht. by apply limit_kept, Hl.
    + eapply (started_inv _ _ _ (FastSystem.working x)); [| | | |simpl|exact Hst'|done].
      * exact (books_accept _ _ _ (books_limits _ _ _ Hb) Hq Hr).
      * done.
      * simpl. intros t [Ht|Ht]%elem_of_app; [by apply limit_kept, Hl|]. apply list_elem_of_singleton in Ht as ->.
        unfold limit_of. simpl. rewrite lookup_insert_eq. apply stored_concurrency.
      * simpl. rewrite length_app. simpl. lia.
      * rewrite (Hac Hst). solve_Permutation.
  - rewrite Hw in *. destruct (FastDispatcher.stopped (FastSystem.dispatcher x)) eqn:Hst.
    + unfold complete, startReadyLocked in Hc'. simpl in Hc'. rewrite Hst in Hc'. injection Hc' as <- <-. rewrite app_nil_r.
      specialize (Hs eq_refl). split; simpl; try done; rewrite ?Hs; try done.
      * by apply books_complete.
      * etrans; [|exact Ha]. rewrite Hs. simpl. solve_submseteq.
      * congruence.
    + eapply (started_inv _ _ _ (before ++ after_)); [by apply books_complete|done|simpl|done| |exact Hc'|done].
      * intros t Ht. exact (Hl t Ht).
      * simpl. rewrite (Hac eq_refl). solve_Permutation.
  - split; simpl; try done.
    + destruct Hb. split; simpl; try done. rewrite fmap_app in books_keys0. by apply NoDup_app in books_keys0 as (_&_&Hnd).
    + by intros t ?%elem_of_nil.
    + etrans; [|exact Ha]. solve_submseteq.
Qed.

Lemma start_ready_limits fuel : forall s s' started taskType, start_ready fuel s = (s', started) ->
  active_of s' taskType <= Z.max (active_of s taskType) (limit_of s taskType).
Proof.
  induction fuel as [|fuel IH]; intros s s' started taskType; simpl; [intros [= <- _]; lia|].
  destruct (FastDispatcher.stopped s); [intros [= <- _]; lia|].
  destruct (first_ready s [] (FastDispatcher.pending s)) as [[[before task] rest]|] eqn:E; [|intros [= <- _]; lia].
  destruct (start_ready fuel _) as [s1 started1] eqn:Hr. intros [= <- _]. apply (IH _ _ _ taskType) in Hr.
  apply first_ready_some in E as [_ Hready]. unfold ready in Hready. to_prop. destruct Hready as [_ Hlt].
  change (limit_of (start_task s task (before ++ rest)) taskType) with (limit_of s taskType) in Hr.
  assert (Ha : active_of (start_task s task (before ++ rest)) taskType
    = active_of s taskType + (if decide (task.(FastTask.taskType) = taskType) then 1 else 0)).
  { unfold active_of at 1. simpl. destruct (decide _) as [<-|Hne]; [by rewrite lookup_insert_eq|].
    rewrite lookup_insert_ne by done. unfold active_of. lia. }
  destruct (decide _) as [<-|]; lia.
Qed.


(** ** A concrete history *)
Module FastSample.
Definition probe (id slot : Z) : scheduledFastTask :=
  FastTask.mk true (Sample.site7 <| MSite.ID := id |>) "site_probe" ("sch_" +:+ FormatInt slot) 1.
(** The second probe waits for the first one. *)
Definition taken (task : scheduledFastTask) (x : FastSystem) : FastSystem :=
  let '(_, (s, started)) := EnqueueFast task x.(FastSystem.dispatcher) in
  FastSystem.mk s (x.(FastSystem.working) ++ started) x.(FastSystem.finished) (x.(FastSystem.accepted) ++ [stored task]).
Definition two : FastSystem := taken (probe 8 60) (taken (probe 7 60) idle_system).
Lemma taken_step task x : EnqueueFast task x.(FastSystem.dispatcher) =
    (true, (EnqueueFast task x.(FastSystem.dispatcher)).2) -> fast_step x (taken task x).
Proof.
  unfold taken. destruct (EnqueueFast task _) as [b [s started]] eqn:E. simpl. intros [= ->].
  exact (fast_enqueue x task true s started E).
Qed.
Lemma two_steps : rtc fast_step idle_system two.
Proof.
  apply (rtc_l _ _ (taken (probe 7 60) idle_system)); [|apply rtc_once]; apply taken_step; vm_compute; reflexivity.
Qed.
End FastSample.

