(* ===== verification/Scheduler.v ===== *)
(** * The scheduler and the other loops of the runtime
    ([worker/scheduler.go], [worker/reaper.go], [worker/materializer.go],
    [model/collection_task.go])

    Every tick the scheduler hands the due fast tasks to their dispatcher and
    enqueues the durable ones; the materializer opens new runs and the reaper
    takes over stale claims.  Their loops make one transaction after another and
    stop at the first error, keeping what was committed.  Times are seconds. *)

From S2P Require Import Prelude Constants GoText Json Stats Store RunContract RunState RunRepository SiteFence TaskScope TaskClaim TaskCommit TaskRecovery Materialize UsageFacts UsageAggregation UsageReconcile UsageCollection WorkerErrors Queues FastDispatch.

(** ** Loops that stop at the first error *)
Fixpoint for_each {A S} (f : A -> S -> result unit * S) (l : list A) (s : S) : result unit * S :=
  match l with
  | [] => (Ok tt, s)
  | a :: rest => match f a s with (Ok _, s) => for_each f rest s | (Err e, s) => (Err e, s) end
  end.

(** A transaction: its error leaves the database as it was. *)
Definition transact {A} (m : Tx A) (d : Db) : result A * Db :=
  match m d with Ok (a, d') => (Ok a, d') | Err e => (Err e, d) end.

(** ** Which sites a task is scheduled for *)
Definition schedulerSiteEligible (site : Site) (taskType : string) : bool :=
  if taskType == TaskTypeSiteProbe then
    (0 <? site.(MSite.ID)) && (0 <? site.(MSite.ConfigVersion)) && (site.(MSite.ManagementStatus) == SiteManagementActive)
    && is_nil site.(MSite.StatisticsEndAt)
  else if (site.(MSite.ManagementStatus) != SiteManagementActive) || (site.(MSite.AuthStatus) != SiteAuthAuthorized)
          || not_nil site.(MSite.StatisticsEndAt) || (site.(MSite.OnlineStatus) == SiteOnlineOffline) then false
  else if CollectionTaskWindowed taskType && negb site.(MSite.DataExportEnabled) then false
  else true.

Definition scheduledRequestID (taskType : string) (siteID slot : Z) : string :=
  "sch_" +:+ taskType +:+ "_" +:+ FormatInt siteID +:+ "_" +:+ FormatInt slot.

Definition stableSiteJitterSeconds (siteID : Z) : Z :=
  if siteID <=? 0 then 0
  else
    let value := Z.lxor siteID (Z.shiftr siteID 33) in
    let value := value * 18397679294719823053 mod 2 ^ 64 in
    Z.lxor value (Z.shiftr value 33) mod 11.

(** The jitter of a site, within the interval. *)
Definition jitter_within (siteID interval : Z) : Z :=
  let jitter := stableSiteJitterSeconds siteID in if interval <=? jitter then interval - 1 else jitter.

Definition scheduleDomainSkip (e : error) : bool :=
  match e with
  | ErrSiteRunConfigChanged | ErrSiteRunManagementInactive | ErrSiteRunAuthorizationNeeded | ErrSiteRunStatisticsEnded
  | ErrSiteRunExportDisabled | ErrSiteRunCapabilitiesPending | ErrSiteWindowRunOverlap => true
  | _ => false
  end.

(** The result of a transaction whose domain errors skip the site. *)
Definition skipped {A} (r : result A) : result unit :=
  match r with Ok _ => Ok tt | Err e => if scheduleDomainSkip e then Ok tt else Err e end.

(** ** Enqueueing *)
Definition enqueueNonWindowForSite (site : Site) (taskType : string) (slot now : Z) (d : Db) : result unit * Db :=
  let '(r, d) := transact (EnqueueSiteTask
    (EnqueueRequest.mk site.(MSite.ID) site.(MSite.ConfigVersion) taskType CollectionTriggerSchedule None None "" 0
       (scheduledRequestID taskType site.(MSite.ID) slot) now None)) d in
  (skipped r, d).

Definition enqueueNonWindowForSites (sites : list Site) (taskType : string) (slot now : Z) : Db -> result unit * Db :=
  for_each (fun site d => if negb (schedulerSiteEligible site taskType) then (Ok tt, d)
                          else enqueueNonWindowForSite site taskType slot now d) sites.

Definition enqueueWindowForSites (sites : list Site) (taskType : string) (priority start end_ slot now : Z)
  : Db -> result unit * Db :=
  for_each (fun site d =>
      if negb (schedulerSiteEligible site taskType) then (Ok tt, d)
      else
        let '(r, d) := transact (EnqueueScheduledSiteWindowTask
          (EnqueueRequest.mk site.(MSite.ID) site.(MSite.ConfigVersion) taskType CollectionTriggerSchedule (Some start)
             (Some end_) "{}" priority (scheduledRequestID taskType site.(MSite.ID) slot) now
             (Some (Some SiteWindowRunSchedule)))) d in
        (skipped r, d)) sites.

(** [lastScheduled]: the slot decided last for each site; zero where missing. *)
Definition enqueueWindowForEligibleSites (sites : list Site) (taskType : string) (priority start end_ slot now : Z)
  : gmap Z Z * Db -> result unit * (gmap Z Z * Db) :=
  for_each (fun site '(lastScheduled, d) =>
      if negb (schedulerSiteEligible site taskType) || (default 0 (lastScheduled !! site.(MSite.ID)) =? slot)
      then (Ok tt, (lastScheduled, d))
      else
        match enqueueWindowForSites [site] taskType priority start end_ slot now d with
        | (Ok _, d) => (Ok tt, (<[site.(MSite.ID) := slot]> lastScheduled, d))
        | (Err e, d) => (Err e, (lastScheduled, d))
        end) sites.

(** ** Hours to validate again *)
Definition pendingValidationRecoveryLimitPerSite : Z := 6.

(** The end of the Beijing day of the hour. *)
Definition validation_day_end (hour : Z) : Z := hour - Z.rem (hour + 28800) 86400 + 86400.

Definition mismatched (w : CollectionWindow) : bool := w.(Window.LastErrorCode) == MessageDataValidationMismatch.
Definition unverified (w : CollectionWindow) : bool :=
  match w.(Window.VerifiedAt) with Some at_ => at_ <? validation_day_end w.(Window.HourTS) | None => true end.

(** The WHERE clause, the CASE expression and the last filter of the query. *)
Definition validation_candidate (now : Z) (d : Db) (w : CollectionWindow) : bool :=
  negb (existsb (fun r => site_is w.(Window.SiteID) r && (r.(Run.TaskType) == TaskTypeUsageValidation)
                          && is_one_of r.(Run.Status) ["pending"; "running"]) (table_rows d))
  && ((w.(Window.Status) == "complete") || ((w.(Window.Status) == "missing") && mismatched w))
  && (w.(Window.HourTS) - Z.rem (w.(Window.HourTS) + 28800) 86400 + 93600 <=? now).
Definition validation_rank (w : CollectionWindow) : Z := if mismatched w then 0 else if unverified w then 1 else 2.
Definition validation_pending (d : Db) (w : CollectionWindow) : bool :=
  mismatched w || unverified w
  || negb (w.(Window.FactRows) =? count (fun f => (f.(Fact.SiteID) =? w.(Window.SiteID)) && (f.(Fact.HourTS) =? w.(Window.HourTS)))
                                   (table_rows d)).

Definition ranked_candidates (now limit : Z) (d : Db) (siteID : Z) : list CollectionWindow :=
  take (Z.to_nat limit)
    (select (fun w => (w.(Window.SiteID) =? siteID) && validation_candidate now d w)
       (fun w => [AInt (validation_rank w); AInt (- w.(Window.HourTS))]) d).

Abbreviation PendingValidationHour := (Z * Z)%type (only parsing).
Definition ListPendingValidationHours (siteIDs : list Z) (now limitPerSite : Z) (d : Db) : result (list PendingValidationHour) :=
  if (now <=? 0) || (limitPerSite <=? 0) || (744 <? limitPerSite) then Err ErrCollectionRunContract
  else Ok ((fun w => (w.(Window.SiteID), w.(Window.HourTS)))
           <$> sort_by (fun w => [AInt w.(Window.SiteID); AInt w.(Window.HourTS)])
                 (List.filter (validation_pending d) (concat (ranked_candidates now limitPerSite d <$> remove_dups siteIDs)))).

(** The loop over the hours: [start] and [end_] of the range it extends. *)
Fixpoint validation_ranges_from (siteID start end_ : Z) (hours : list PendingValidationHour) : list (Z * Z * Z) :=
  match hours with
  | [] => [(siteID, start, end_)]
  | (siteID', hour) :: rest =>
      if (siteID' =? siteID) && (hour =? end_) then validation_ranges_from siteID start (end_ + 3600) rest
      else (siteID, start, end_) :: validation_ranges_from siteID' hour (hour + 3600) rest
  end.
Definition validation_ranges (hours : list PendingValidationHour) : list (Z * Z * Z) :=
  match hours with [] => [] | (siteID, hour) :: rest => validation_ranges_from siteID hour (hour + 3600) rest end.

Definition validation_slot (now start : Z) : Z := wrap64 (wrap64 (now * 1000000) + Z.rem (Z.quot start 3600) 1000000).

Definition enqueueHistoricalValidationRecovery (sites : list Site) (now : Z) (d : Db) : result unit * Db :=
  let eligible := List.filter (fun site => schedulerSiteEligible site TaskTypeUsageValidation) sites in
  if bool_decide (eligible = []) then (Ok tt, d)
  else
    match ListPendingValidationHours (MSite.ID <$> eligible) now pendingValidationRecoveryLimitPerSite d with
    | Err e => (Err e, d)
    | Ok hours =>
        for_each (fun '(siteID, start, end_) d =>
            match List.find (fun site => site.(MSite.ID) =? siteID) eligible with
            | None => (Err ErrCollectionRunContract, d)
            | Some site => enqueueWindowForSites [site] TaskTypeUsageValidation CollectionPriorityDailyValidation start end_
                             (validation_slot now start) now d
            end) (validation_ranges hours) d
    end.

(** ** The scheduler *)

(** A schedule of a fast task: the interval and the slot it was accepted for. *)
Module FastState.
Record fastScheduleState := mk { intervalSeconds : Z; slotStart : Z }.
End FastState.
Abbreviation fastScheduleState := FastState.fastScheduleState.

(** [siteJobs]: a runner of the fast tasks is configured; [fastTaskCtx]: their
    context is not nil; [started]: the goroutines the dispatcher has started. *)
Module Scheduler.
Record Scheduler := mk {
  siteJobs : bool; fastTasks : option fastTaskDispatcher; fastTaskCtx : bool; initialized : bool; fastStartup : bool;
  lastFastState : gmap string fastScheduleState; lastMetadataHour : Z; lastUsageHourBySite : gmap Z Z;
  started : list scheduledFastTask }.
#[export] Instance scheduler_eta : RecordEta Scheduler := fun s =>
  mk (siteJobs s) (fastTasks s) (fastTaskCtx s) (initialized s) (fastStartup s) (lastFastState s) (lastMetadataHour s)
     (lastUsageHourBySite s) (started s).
End Scheduler.
Export (hints) Scheduler.
Abbreviation Scheduler := Scheduler.Scheduler.

Definition NewScheduler (siteJobs : bool) : Scheduler :=
  Scheduler.mk siteJobs (Some newFastTaskDispatcher) true false false ∅ 0 ∅ [].

Definition startFastTaskLifecycle (s : Scheduler) : Scheduler :=
  s <| Scheduler.fastTasks := Some newFastTaskDispatcher |> <| Scheduler.fastTaskCtx := true |>
    <| Scheduler.fastStartup := true |>.

Definition shutdownFastTasks (s : Scheduler) : Scheduler :=
  s <| Scheduler.fastTasks := None |> <| Scheduler.fastTaskCtx := false |> <| Scheduler.fastStartup := false |>.

Definition durableScheduleGroups (settings : CollectorSettings) : list (Z * list string) :=
  [(settings.(CollectorSettings.OperationalIntervalSeconds),
     [TaskTypePerformanceSync; TaskTypeTopupSync; TaskTypeRedemptionSync; TaskTypeUpstreamTaskSync]);
   (settings.(CollectorSettings.CatalogIntervalSeconds),
     [TaskTypeModelMetaSync; TaskTypePlanSync; TaskTypePricingSync; TaskTypeSystemTaskSync])].

Definition fast_schedules (settings : CollectorSettings) : list (string * Z) :=
  [(TaskTypeSiteProbe, settings.(CollectorSettings.ProbeIntervalSeconds));
   (TaskTypeRealtimeStat, settings.(CollectorSettings.RealtimeIntervalSeconds));
   (TaskTypeResourceSnapshot, settings.(CollectorSettings.ResourceIntervalSeconds))].

Definition slot_start (now interval : Z) : Z := now - Z.rem now interval.

(** Whether the task of the site is due in its slot. *)
Definition due (force : bool) (siteID interval now : Z) : bool :=
  force || (slot_start now interval + jitter_within siteID interval <=? now).

(** The body of the loop over the fast tasks and the sites. *)
Definition schedule_fast (settings : CollectorSettings) (force : bool) (now : Z) (taskType : string) (interval : Z)
    (site : Site) (s : Scheduler) : Scheduler :=
  let key := fastScheduleKey taskType site.(MSite.ID) in
  if negb (schedulerSiteEligible site taskType) then s
  else if match s.(Scheduler.lastFastState) !! key with
          | Some state => (state.(FastState.intervalSeconds) =? interval)
                          && (state.(FastState.slotStart) =? slot_start now interval) && negb force
          | None => false end then s
  else if negb (due force site.(MSite.ID) interval now) then s
  else if negb s.(Scheduler.siteJobs) then s
  else match s.(Scheduler.fastTasks) with
  | None => s
  | Some dispatcher =>
      let '(taken, (dispatcher, started)) := EnqueueFast
        (FastTask.mk s.(Scheduler.fastTaskCtx) site taskType
           (scheduledRequestID taskType site.(MSite.ID) (slot_start now interval)) (fastTaskConcurrency taskType settings))
        dispatcher in
      let s := s <| Scheduler.fastTasks := Some dispatcher |> <| Scheduler.started := s.(Scheduler.started) ++ started |> in
      if taken
      then s <| Scheduler.lastFastState :=
                  <[key := FastState.mk interval (slot_start now interval)]> s.(Scheduler.lastFastState) |>
      else s
  end.

Definition schedule_fast_tasks (settings : CollectorSettings) (force : bool) (now : Z) (sites : list Site) (s : Scheduler)
  : Scheduler :=
  foldl (fun s '(taskType, interval) =>
    foldl (fun s site => schedule_fast settings force now taskType interval site s) s sites) s (fast_schedules settings).

(** The loop over the durable groups. *)
Definition schedule_durable (settings : CollectorSettings) (force : bool) (now : Z) (sites : list Site)
  : Db -> result unit * Db :=
  for_each (fun '(interval, taskTypes) =>
    for_each (fun taskType =>
      for_each (fun site d =>
        if negb (schedulerSiteEligible site taskType) || negb (due force site.(MSite.ID) interval now) then (Ok tt, d)
        else enqueueNonWindowForSite site taskType (slot_start now interval) now d) sites) taskTypes)
    (durableScheduleGroups settings).

(** The tasks of the hour: remembered once they are enqueued. *)
Definition schedule_metadata (startup : bool) (now : Z) (sites : list Site) '(s, d) : result unit * (Scheduler * Db) :=
  let hour := Z.quot now 3600 in
  if startup && negb s.(Scheduler.initialized) then (Ok tt, (s <| Scheduler.lastMetadataHour := hour |>, d))
  else if s.(Scheduler.lastMetadataHour) =? hour then (Ok tt, (s, d))
  else
    match for_each (fun taskType => enqueueNonWindowForSites sites taskType hour now)
            [TaskTypeUserSync; TaskTypeChannelSync; TaskTypeLogSync] d with
    | (Ok _, d) => (Ok tt, (s <| Scheduler.lastMetadataHour := hour |>, d))
    | (Err e, d) => (Err e, (s, d))
    end.

Definition schedule_usage (settings : CollectorSettings) (now : Z) (sites : list Site) '(s, d)
  : result unit * (Scheduler * Db) :=
  let hourStart := slot_start now 3600 in
  if (hourStart + settings.(CollectorSettings.UsageDelayMinutes) * 60 <=? now) && (3600 <=? hourStart) then
    let '(r, (last, d)) := enqueueWindowForEligibleSites sites TaskTypeUsageHour CollectionPriorityUsageRealtime
      (hourStart - 3600) hourStart hourStart now (s.(Scheduler.lastUsageHourBySite), d) in
    (r, (s <| Scheduler.lastUsageHourBySite := last |>, d))
  else (Ok tt, (s, d)).

(** The hour of the day in Beijing. *)
Definition beijing_hour (now : Z) : Z := (now + 28800) mod 86400 / 3600.

Definition schedule_validation (now : Z) (sites : list Site) (d : Db) : result unit * Db :=
  if 2 <=? beijing_hour now then enqueueHistoricalValidationRecovery sites now d else (Ok tt, d).

Definition ListSitesForScheduling (d : Db) : list Site := select (R := Site) (fun _ => true) (fun s => [AInt s.(MSite.ID)]) d.

(** The parts of a tick once its fast tasks are handed over. *)
Definition schedule_tasks (settings : CollectorSettings) (force : bool) (now : Z) (startup : bool) (sites : list Site) '(s, d)
  : result unit * (Scheduler * Db) :=
  match schedule_durable settings force now sites d with
  | (Err e, d) => (Err e, (s, d))
  | (Ok _, d) =>
      match schedule_metadata startup now sites (s, d) with
      | (Err e, x) => (Err e, x)
      | (Ok _, x) =>
          match schedule_usage settings now sites x with
          | (Err e, x) => (Err e, x)
          | (Ok _, (s, d)) =>
              match schedule_validation now sites d with
              | (Err e, d) => (Err e, (s, d))
              | (Ok _, d) => (Ok tt, (s <| Scheduler.initialized := true |> <| Scheduler.fastStartup := false |>, d))
              end
          end
      end
  end.

(** The error of a tick, [None] for none.  [rows]: the settings as stored. *)
Definition runOnce (rows : list SettingRow) (now : Z) (startup : bool) '(s, d) : option cause * (Scheduler * Db) :=
  match LoadCollectorSettings rows with
  | None => (Some OtherError, (s, d))
  | Some settings =>
      let sites := ListSitesForScheduling d in
      let force := startup && s.(Scheduler.fastStartup) in
      match schedule_tasks settings force now startup sites (schedule_fast_tasks settings force now sites s, d) with
      | (Err e, x) => (Some (ModelError e), x)
      | (Ok _, x) => (None, x)
      end
  end.

Definition Startup (rows : list SettingRow) (now : Z) '(s, d) : option cause * (Scheduler * Db) :=
  match runOnce rows now true (startFastTaskLifecycle s, d) with
  | (None, x) => (None, x)
  | (Some e, (s, d)) => (Some e, (shutdownFastTasks s, d))
  end.

Definition RunOnce (rows : list SettingRow) (now : Z) : Scheduler * Db -> option cause * (Scheduler * Db) :=
  runOnce rows now false.

(** ** The reaper *)
Definition collectionTaskLeaseTimeout : Z := 300.

Definition Takeover (now : Z) (policy : CollectionTaskAttemptPolicy) (d : Db) : Z * option error * Db :=
  RecoverRunning now None policy d.
Definition ReaperRunOnce (now leaseTimeout : Z) (policy : CollectionTaskAttemptPolicy) (d : Db) : Z * option error * Db :=
  RecoverRunning now (Some (now - leaseTimeout)) policy d.

(** ** The materializer *)

(** A cleared setting takes its default. *)
Definition materializer_batch (batchSize : Z) : Z := if (batchSize <=? 0) || (1000 <? batchSize) then 1000 else batchSize.
Definition materializer_scan (scanLimit : Z) : Z := if scanLimit <=? 0 then 100 else scanLimit.

(** [canceled id]: the context has ended before the run [id]; a lost claim and
    a changed configuration only skip the run. *)
Fixpoint materialize_runs (ids : list Z) (now batchSize : Z) (canceled : Z -> bool) (completed : Z) (d : Db)
  : Z * option cause * Db :=
  match ids with
  | [] => (completed, None, d)
  | id :: rest =>
      if canceled id then (completed, Some ContextCanceled, d)
      else
        let '(r, d) := MaterializeRunWindows id now batchSize d in
        match r with
        | Ok _ => materialize_runs rest now batchSize canceled (completed + 1) d
        | Err e =>
            if (e == ErrCollectionTaskClaimLost) || (e == ErrSiteRunConfigChanged)
            then materialize_runs rest now batchSize canceled completed d
            else (completed, Some (ModelError e), d)
        end
  end.

Definition MaterializerRunOnce (now batchSize scanLimit : Z) (canceled : Z -> bool) (d : Db) : Z * option cause * Db :=
  match PendingMaterializationRunIDs (materializer_scan scanLimit) d with
  | Err e => (0, Some (ModelError e), d)
  | Ok (ids, d) => materialize_runs ids now (materializer_batch batchSize) canceled 0 d
  end.

(** ** The start of the runtime *)

(** [Runtime.Start]: before it is ready the runtime opens the runs that wait,
    takes over every claim and schedules once; the first error ends it. *)
Definition runtime_start (rows : list SettingRow) (batchSize scanLimit now : Z) (canceled : Z -> bool)
    (policy : CollectionTaskAttemptPolicy) (s : Scheduler) (d : Db) : option cause * (Scheduler * Db) :=
  match MaterializerRunOnce now batchSize scanLimit canceled d with
  | (_, Some e, d) => (Some e, (s, d))
  | (_, None, d) =>
      match Takeover now policy d with
      | (_, Some e, d) => (Some (ModelError e), (s, d))
      | (_, None, d) =>
          Startup rows now (s, d)
      end
  end.
