(* ===== verification/SchedulerBehaviour.v ===== *)
(** * What the scheduler, the reaper and the materializer guarantee *)

From Stdlib Require Import Ascii String.
From stdpp Require Import pretty.
From S2P Require Import Prelude Constants GoText Json Stats DateBucket Store Frame RunContract RunState RunRepository SiteFence TaskScope RunFrames TaskClaim TaskCommit RunInvariant TaskRecovery Materialize QueueClaim QueueSteps QueueRecovery QueueCreate QueueMaterialize QueueSafety UsageFrames UsageFacts UsageAggregation BucketKeys UsageFactsBehaviour StatisticsExact AggregationCommit UsageReconcile UsageCollection WorkerErrors Queues WorkerSafety FastDispatch Scheduler Jobs Executor Worker WorkerAdmission.

(** ** Loops of transactions *)
Lemma for_each_keeps {A S} (R : S -> S -> Prop) `{!Reflexive R, !Transitive R} (f : A -> S -> result unit * S) :
  (forall a s r s', f a s = (r, s') -> R s s') ->
  forall l s r s', for_each f l s = (r, s') -> R s s'.
Proof.
  intros Hf l. induction l as [|a l IH]; intros s r s' H; simpl in H; [by injection H as _ <-|].
  destruct (f a s) as [[[]|e] s1] eqn:E; [|by injection H as _ <-; eapply Hf]. etrans; [by eapply Hf|by eapply IH].
Qed.

(** What a loop does is made of steps that leave the usage alone. *)
Abbreviation quiet := (rtc elsewhere).

Lemma quiet_step d d' : queue_step d d' -> usage_view d' = usage_view d -> quiet d d'.
Proof. intros Hq Hu. apply rtc_once. split; [done|by apply view_same]. Qed.

Lemma transact_quiet {A} (m : Tx A) d r d' : (forall a d1, m d = Ok (a, d1) -> quiet d d1) -> transact m d = (r, d') -> quiet d d'.
Proof.
  unfold transact. intros Hm. destruct (m d) as [[a d1]|e] eqn:E; intros [= _ <-]; [by eapply Hm|done].
Qed.

Lemma enqueue_site_quiet site taskType slot now d r d' :
  enqueueNonWindowForSite site taskType slot now d = (r, d') -> quiet d d'.
Proof.
  unfold enqueueNonWindowForSite. destruct (transact _ d) as [a d1] eqn:E. intros [= _ <-].
  eapply transact_quiet; [|exact E]. intros b d2 H. eapply quiet_step; [by eapply step_enqueue|].
  by eapply (EnqueueSiteTask_usage _ d).
Qed.

Lemma enqueue_sites_quiet sites taskType slot now d r d' :
  enqueueNonWindowForSites sites taskType slot now d = (r, d') -> quiet d d'.
Proof.
  apply (for_each_keeps quiet). intros site s b s'. destruct (negb _); [by intros [= _ <-]|]. apply enqueue_site_quiet.
Qed.

Lemma enqueue_window_quiet sites taskType priority start end_ slot now d r d' :
  enqueueWindowForSites sites taskType priority start end_ slot now d = (r, d') -> quiet d d'.
Proof.
  apply (for_each_keeps quiet). intros site s b s'. destruct (negb _); [by intros [= _ <-]|].
  destruct (transact _ s) as [a s1] eqn:E. intros [= _ <-]. eapply transact_quiet; [|exact E].
  intros c s2 H. eapply quiet_step; [by eapply step_schedule|]. by eapply (EnqueueScheduled_usage _ s).
Qed.

Lemma enqueue_eligible_quiet sites taskType priority start end_ slot now x r x' :
  enqueueWindowForEligibleSites sites taskType priority start end_ slot now x = (r, x') -> quiet x.2 x'.2.
Proof.
  pose (moves := fun a b : gmap Z Z * Db => quiet a.2 b.2).
  assert (Reflexive moves) by (intros a; unfold moves; reflexivity). assert (Transitive moves) by (intros ??? H1 H2; unfold moves; by etrans).
  apply (for_each_keeps moves). intros site [last d] b [last' d']. destruct (_ || _); [by intros [= _ <- <-]|].
    destruct (enqueueWindowForSites _ _ _ _ _ _ _ d) as [[u|e] d1] eqn:E; intros [= _ <- <-]; by eapply enqueue_window_quiet.
Qed.

Lemma validation_quiet sites now d r d' : enqueueHistoricalValidationRecovery sites now d = (r, d') -> quiet d d'.
Proof.
  unfold enqueueHistoricalValidationRecovery. case_bool_decide; [by intros [= _ <-]|].
  destruct (ListPendingValidationHours _ _ _ d) as [hours|e]; [|by intros [= _ <-]].
  apply (for_each_keeps quiet). intros [[siteID start] end_] s b s'.
  destruct (List.find _ _); [apply enqueue_window_quiet|by intros [= _ <-]].
Qed.

(** ** The loops of the runtime *)
Lemma durable_quiet settings force now sites d r d' : schedule_durable settings force now sites d = (r, d') -> quiet d d'.
Proof.
  apply (for_each_keeps quiet). intros [interval taskTypes] s b s'.
  apply (for_each_keeps quiet). intros taskType t c t'.
  apply (for_each_keeps quiet). intros site u e u'. destruct (_ || _); [by intros [= _ <-]|]. apply enqueue_site_quiet.
Qed.

Lemma metadata_quiet startup now sites s d r s' d' : schedule_metadata startup now sites (s, d) = (r, (s', d')) -> quiet d d'.
Proof.
  unfold schedule_metadata. destruct (_ && _); [by intros [= _ _ <-]|]. destruct (_ =? _); [by intros [= _ _ <-]|].
  destruct (for_each _ _ d) as [[[]|e] d1] eqn:E; intros [= _ _ <-];
    (eapply (for_each_keeps quiet); [|exact E]; intros taskType t b t'; apply enqueue_sites_quiet).
Qed.

Lemma usage_quiet settings now sites s d r s' d' : schedule_usage settings now sites (s, d) = (r, (s', d')) -> quiet d d'.
Proof.
  unfold schedule_usage. destruct (_ && _); [|by intros [= _ _ <-]].
  destruct (enqueueWindowForEligibleSites _ _ _ _ _ _ _ _) as [b [last d1]] eqn:E. intros [= _ _ <-].
  exact (enqueue_eligible_quiet _ _ _ _ _ _ _ _ _ _ E).
Qed.

Lemma schedule_tasks_quiet settings force now startup sites s d r s' d' :
  schedule_tasks settings force now startup sites (s, d) = (r, (s', d')) -> quiet d d'.
Proof.
  unfold schedule_tasks. destruct (schedule_durable _ _ _ _ d) as [[[]|e] d1] eqn:E1; [|intros [= _ _ <-]; by eapply durable_quiet].
  destruct (schedule_metadata _ _ _ _) as [[[]|e] [s2 d2]] eqn:E2;
    [|intros [= _ _ <-]; etrans; [by eapply durable_quiet|by eapply metadata_quiet]].
  destruct (schedule_usage _ _ _ _) as [[[]|e] [s3 d3]] eqn:E3;
    [|intros [= _ _ <-]; etrans; [by eapply durable_quiet|]; etrans; [by eapply metadata_quiet|by eapply usage_quiet]].
  unfold schedule_validation. intros H.
  etrans; [by eapply durable_quiet|]. etrans; [by eapply metadata_quiet|]. etrans; [by eapply usage_quiet|].
  destruct (2 <=? _); [|by injection H as _ _ <-].
  destruct (enqueueHistoricalValidationRecovery _ _ d3) as [[[]|e] d4] eqn:E4; injection H as _ _ <-; by eapply validation_quiet.
Qed.

Lemma runOnce_quiet rows now startup s d r s' d' : runOnce rows now startup (s, d) = (r, (s', d')) -> quiet d d'.
Proof.
  unfold runOnce. destruct (LoadCollectorSettings rows); [|by intros [= _ _ <-]]. cbv zeta.
  destruct (schedule_tasks _ _ _ _ _ _) as [[[]|e] [s1 d1]] eqn:E; intros [= _ _ <-]; by eapply schedule_tasks_quiet.
Qed.

Lemma Startup_quiet rows now s d r s' d' : Startup rows now (s, d) = (r, (s', d')) -> quiet d d'.
Proof.
  unfold Startup. destruct (runOnce _ _ _ _) as [[e|] [s1 d1]] eqn:E; intros [= _ _ <-]; by eapply runOnce_quiet.
Qed.

Lemma recover_all_quiet now stale policy ids : forall n d n' e d',
  recover_all ids now stale policy n d = (n', e, d') -> quiet d d'.
Proof.
  induction ids as [|id ids IH]; intros n d n' e d' H; simpl in H; [by injection H as _ _ <-|].
  destruct (recoverRun id now stale policy d) as [[b d1]|e1] eqn:E; [|by injection H as _ _ <-].
  etrans; [|by eapply IH]. eapply quiet_step; [by eapply step_recover|]. by eapply (recoverRun_usage _ _ _ _ d).
Qed.

Lemma RecoverRunning_quiet now stale policy d n e d' : RecoverRunning now stale policy d = (n, e, d') -> quiet d d'.
Proof. unfold RecoverRunning. destruct (now <=? 0); [by intros [= _ _ <-]|]. apply recover_all_quiet. Qed.

Lemma materialize_chunks_quiet base expected now chunks : forall d e d',
  materialize_chunks base expected chunks now d = (e, d') -> quiet d d'.
Proof.
  induction chunks as [|chunk chunks IH]; intros d e d' H; simpl in H; [by injection H as _ <-|].
  destruct (materialize_chunk base expected chunk now d) as [[[] d1]|e1] eqn:E; [|by injection H as _ <-].
  etrans; [|by eapply IH]. eapply quiet_step; [by eapply step_materialize|]. by eapply (materialize_chunk_usage _ _ _ _ d).
Qed.

#[export] Instance loadMaterializationExpectation_reads runID : ReadsOnly (loadMaterializationExpectation runID).
Proof. unfold loadMaterializationExpectation. solve_frame. Qed.

Lemma MaterializeRunWindows_quiet runID now size d r d' : MaterializeRunWindows runID now size d = (r, d') -> quiet d d'.
Proof.
  unfold MaterializeRunWindows. destruct (_ || _); [by intros [= _ <-]|].
  destruct (loadMaterializationExpectation runID d) as [[[expected base] d1]|e] eqn:E1; [|by intros [= _ <-]].
  apply loadMaterializationExpectation_reads in E1. simpl in E1. subst d1. cbv zeta.
  destruct (materialize_chunks _ _ _ _ d) as [[e|] d2] eqn:E2; [intros [= _ <-]; by eapply materialize_chunks_quiet|].
  apply materialize_chunks_quiet in E2.
  destruct (open_materialized base expected now d2) as [[run d3]|e] eqn:E3; intros [= _ <-]; [|done].
  etrans; [exact E2|]. eapply quiet_step; [by eapply step_open|]. by eapply (open_materialized_usage _ _ _ d2).
Qed.

Lemma materialize_runs_quiet now size canceled ids : forall n d n' e d',
  materialize_runs ids now size canceled n d = (n', e, d') -> quiet d d'.
Proof.
  induction ids as [|id ids IH]; intros n d n' e d' H; simpl in H; [by injection H as _ _ <-|].
  destruct (canceled id); [by injection H as _ _ <-|].
  destruct (MaterializeRunWindows id now size d) as [[run|e1] d1] eqn:E; apply MaterializeRunWindows_quiet in E.
  - etrans; [exact E|by eapply IH].
  - destruct (_ || _); [etrans; [exact E|by eapply IH]|by injection H as _ _ <-].
Qed.

#[export] Instance Pending_reads limit : ReadsOnly (PendingMaterializationRunIDs limit).
Proof. unfold PendingMaterializationRunIDs. solve_frame. Qed.

Lemma MaterializerRunOnce_quiet now size limit canceled d n e d' :
  MaterializerRunOnce now size limit canceled d = (n, e, d') -> quiet d d'.
Proof.
  unfold MaterializerRunOnce. destruct (PendingMaterializationRunIDs _ d) as [[ids d1]|e1] eqn:E; [|by intros [= _ _ <-]].
  apply Pending_reads in E. simpl in E. subst d1. apply materialize_runs_quiet.
Qed.

Lemma runtime_start_quiet rows size limit now canceled policy s d e s' d' :
  runtime_start rows size limit now canceled policy s d = (e, (s', d')) -> quiet d d'.
Proof.
  unfold runtime_start, Takeover. destruct (MaterializerRunOnce _ _ _ _ d) as [[n [e1|]] d1] eqn:E1; apply MaterializerRunOnce_quiet in E1.
  - by intros [= _ _ <-].
  - destruct (RecoverRunning _ _ _ d1) as [[m [e2|]] d2] eqn:E2; apply RecoverRunning_quiet in E2.
    + intros [= _ _ <-]. by etrans.
    + intros H%Startup_quiet. do 2 (etrans; [done|]). done.
Qed.

(** A turn of one of the loops that run beside the dispatcher. *)
Inductive loop_turn (d d' : Db) : Prop :=
| turn_start rows size limit now canceled policy s e s' :
    runtime_start rows size limit now canceled policy s d = (e, (s', d')) -> loop_turn d d'
| turn_schedule rows now s e s' : RunOnce rows now (s, d) = (e, (s', d')) -> loop_turn d d'
| turn_reap now timeout policy n e : ReaperRunOnce now timeout policy d = (n, e, d') -> loop_turn d d'
| turn_materialize now size limit canceled n e :
    MaterializerRunOnce now size limit canceled d = (n, e, d') -> loop_turn d d'.

Lemma loop_turn_quiet d d' : loop_turn d d' -> quiet d d'.
Proof.
  intros [? ? ? ? ? ? ? ? ? H|? ? ? ? ? H|? ? ? ? ? H|? ? ? ? ? ? H].
  - by eapply runtime_start_quiet.
  - by eapply runOnce_quiet.
  - by eapply RecoverRunning_quiet.
  - by eapply MaterializerRunOnce_quiet.
Qed.


(** ** The closed hour of a site *)
Lemma enqueue_eligible_cons site sites taskType priority start end_ slot now last d r last' d' :
  enqueueWindowForEligibleSites (site :: sites) taskType priority start end_ slot now (last, d) = (r, (last', d')) ->
  (exists last1 d1, enqueueWindowForEligibleSites sites taskType priority start end_ slot now (last1, d1) = (r, (last', d')) /\
    (schedulerSiteEligible site taskType = true -> default 0 (last1 !! site.(MSite.ID)) = slot) /\
    (forall id, last1 !! id = last !! id \/ (id = site.(MSite.ID) /\ last1 !! id = Some slot /\ schedulerSiteEligible site taskType = true)))
  \/ (exists e, r = Err e /\ last' = last).
Proof.
  unfold enqueueWindowForEligibleSites. simpl. destruct (schedulerSiteEligible site taskType) eqn:He; simpl.
  - destruct (default 0 (last !! MSite.ID site) =? slot) eqn:Hs.
    + intros H. left. exists last, d. split; [exact H|]. apply Z.eqb_eq in Hs. split; [done|by left].
    + destruct (enqueueWindowForSites _ _ _ _ _ _ _ d) as [[u|e] d1]; [|intros [= <- <- <-]; right; by exists e].
      intros H. left. eexists _, d1. split; [exact H|]. split; [intros _; by rewrite lookup_insert_eq|].
      intros id. destruct (decide (id = MSite.ID site)) as [->|Hn]; [right|left]; [by rewrite lookup_insert_eq|by rewrite lookup_insert_ne].
  - intros H. left. exists last, d. split; [exact H|]. split; [done|by left].
Qed.

Lemma enqueue_eligible_keeps taskType priority start end_ slot now id : forall sites last d r last' d',
  enqueueWindowForEligibleSites sites taskType priority start end_ slot now (last, d) = (r, (last', d')) ->
  default 0 (last !! id) = slot -> default 0 (last' !! id) = slot.
Proof.
  induction sites as [|site sites IH]; intros last d r last' d' H Hid; [by injection H as _ <- _|].
  apply enqueue_eligible_cons in H as [(last1&d1&H&_&Hl)|(e&_&->)]; [|done].
  eapply IH; [exact H|]. destruct (Hl id) as [->|(_&->&_)]; [done|]. done.
Qed.

Lemma enqueue_eligible_done taskType priority start end_ slot now last d : forall sites,
  (forall site, site ∈ sites -> schedulerSiteEligible site taskType = true -> default 0 (last !! site.(MSite.ID)) = slot) ->
  enqueueWindowForEligibleSites sites taskType priority start end_ slot now (last, d) = (Ok tt, (last, d)).
Proof.
  induction sites as [|site sites IH]; intros Hall; [done|]. unfold enqueueWindowForEligibleSites. simpl.
  assert (negb (schedulerSiteEligible site taskType) || (default 0 (last !! MSite.ID site) =? slot) = true) as ->.
  { destruct (schedulerSiteEligible site taskType) eqn:E; [|done]. simpl. apply Z.eqb_eq. by apply Hall; [left|]. }
  apply IH. intros s Hin. apply Hall. by right.
Qed.

(** A closed hour is decided once for each site.  A tick that succeeds has
    decided the hour for every eligible site, and it leaves the others as they
    were, so that a site which was offline is still scheduled when it is back;
    after it, ticks over the same eligible sites in the same hour write nothing. *)
Theorem closed_hour_decided_once sites taskType priority start end_ slot now last d last' d' :
  enqueueWindowForEligibleSites sites taskType priority start end_ slot now (last, d) = (Ok tt, (last', d')) ->
  (forall site, site ∈ sites -> schedulerSiteEligible site taskType = true -> default 0 (last' !! site.(MSite.ID)) = slot) /\
  (forall id, (forall site, site ∈ sites -> site.(MSite.ID) = id -> schedulerSiteEligible site taskType = false) ->
     last' !! id = last !! id) /\
  (forall sites' now' d'', (forall site, site ∈ sites' -> schedulerSiteEligible site taskType = true -> site ∈ sites) ->
     enqueueWindowForEligibleSites sites' taskType priority start end_ slot now' (last', d'') = (Ok tt, (last', d''))).
Proof.
  intros H.
  assert (H1 : forall site, site ∈ sites -> schedulerSiteEligible site taskType = true -> default 0 (last' !! site.(MSite.ID)) = slot).
  { revert last d H. induction sites as [|site sites IH]; intros last d H s; [by intros ?%elem_of_nil|].
    apply enqueue_eligible_cons in H as [(last1&d1&H&He&_)|(e&[=]&_)]. intros [->|Hin]%elem_of_cons Hs; [|by eapply IH].
    eapply enqueue_eligible_keeps; [exact H|by apply He]. }
  split; [exact H1|]. split; [|intros sites' now' d'' Hsub; apply enqueue_eligible_done; auto].
  revert last d H. clear H1. induction sites as [|site sites IH]; intros last d H id Hid; [by injection H as <- _|].
  apply enqueue_eligible_cons in H as [(last1&d1&H&_&Hl)|(e&[=]&_)].
  rewrite (IH _ _ H id) by (intros s Hs; apply Hid; by right).
  destruct (Hl id) as [|(->&_&E)]; [done|]. rewrite (Hid site) in E; [done|left|done].
Qed.

(** ** Request ids *)
Lemma pretty_N_go_chars (P : ascii -> bool) : (forall d, (d < 10)%N -> P (pretty_N_char d) = true) ->
  forall x s, forallb P (bytes s) = true -> forallb P (bytes (pretty_N_go x s)) = true.
Proof.
  intros HP x. induction (N.lt_wf_0 x) as [x _ IH]. intros s Hs.
  destruct (decide (x = 0%N)) as [->|Hx]; [by rewrite pretty_N_go_0|].
  rewrite pretty_N_go_step by lia. apply IH; [apply N.div_lt; lia|]. cbn.
  rewrite HP by (apply N.mod_lt; lia). done.
Qed.

Lemma FormatInt_chars (P : ascii -> bool) z : (forall d, (d < 10)%N -> P (pretty_N_char d) = true) -> P "-"%char = true ->
  forallb P (bytes (FormatInt z)) = true.
Proof.
  intros HP Hm. assert (HN : forall n, forallb P (bytes (@pretty N _ n)) = true).
  { intros n. unfold pretty, pretty_N. case_decide; [pose proof (HP 0%N) as H0; cbn in *; by rewrite H0|]. by apply pretty_N_go_chars. }
  unfold FormatInt, pretty, pretty_Z. destruct z; [apply (HN 0%N)|apply HN|]. apply andb_true_iff. split; [exact Hm|apply HN].
Qed.

Lemma digit_cases (P : N -> Prop) : P 0%N -> P 1%N -> P 2%N -> P 3%N -> P 4%N -> P 5%N -> P 6%N -> P 7%N -> P 8%N -> P 9%N ->
  forall d, (d < 10)%N -> P d.
Proof.
  intros ?????????? d Hd. assert (d = 0 \/ d = 1 \/ d = 2 \/ d = 3 \/ d = 4 \/ d = 5 \/ d = 6 \/ d = 7 \/ d = 8 \/ d = 9)%N as E by lia.
  by destruct E as [->|[->|[->|[->|[->|[->|[->|[->|[->| ->]]]]]]]]].
Qed.

Definition not_underscore (c : ascii) : bool := negb (Ascii.eqb "_" c).

Lemma number_lacks_underscore z : lacks "_" (FormatInt z) = true.
Proof.
  assert (H : forall s, forallb not_underscore (bytes s) = true -> lacks "_" s = true).
  { induction s as [|c s IH]; [done|]. cbn. intros [E Hs]%andb_true_iff. apply andb_true_iff. split; [exact E|by apply IH]. }
  apply H, FormatInt_chars; [|reflexivity]. by apply digit_cases.
Qed.

(** Splitting at the last separator is unambiguous. *)
Lemma last_separator_inj c t1 t2 : lacks c t1 = true -> lacks c t2 = true ->
  forall s1 s2, s1 +:+ String c t1 = s2 +:+ String c t2 -> s1 = s2 /\ t1 = t2.
Proof.
  intros H1 H2. induction s1 as [|d s1 IH]; intros [|d' s2]; simpl; intros E.
  - by simplify_eq.
  - injection E as <- ->. rewrite lacks_app in H1. simpl in H1. rewrite Ascii.eqb_refl, andb_false_r in H1. done.
  - injection E as -> <-. rewrite lacks_app in H2. simpl in H2. rewrite Ascii.eqb_refl, andb_false_r in H2. done.
  - injection E as -> E. by destruct (IH _ E) as [-> ->].
Qed.

Lemma app_string_assoc (a b c : string) : (a +:+ b) +:+ c = a +:+ b +:+ c.
Proof. induction a as [|x a IH]; [done|]. exact (f_equal (String x) IH). Qed.

Lemma bytes_app a b : bytes (a +:+ b) = bytes a ++ bytes b.
Proof. induction a as [|x a IH]; [done|]. exact (f_equal (cons x) IH). Qed.

Definition scheduled_types : list string :=
  [TaskTypeSiteProbe; TaskTypeRealtimeStat; TaskTypeResourceSnapshot; TaskTypePerformanceSync; TaskTypeTopupSync;
   TaskTypeRedemptionSync; TaskTypeUpstreamTaskSync; TaskTypeModelMetaSync; TaskTypePlanSync; TaskTypePricingSync;
   TaskTypeSystemTaskSync; TaskTypeUserSync; TaskTypeChannelSync; TaskTypeLogSync; TaskTypeUsageHour; TaskTypeUsageValidation].

Lemma scheduled_id_valid taskType siteID slot : forallb request_id_char (bytes taskType) = true -> len taskType <= 18 ->
  int64 siteID -> int64 slot -> validCollectionRequestID (scheduledRequestID taskType siteID slot) = true.
Proof.
  intros Hc Hl Hsite Hslot.
  assert (Hn : forall z, forallb request_id_char (bytes (FormatInt z)) = true).
  { intros z. apply FormatInt_chars; [by apply digit_cases|done]. }
  unfold validCollectionRequestID, scheduledRequestID, len in *. rewrite !BucketKeys.length_app, !bytes_app, !forallb_app, Hc, !Hn.
  pose proof (length_decimal _ Hsite) as L1. pose proof (length_decimal _ Hslot) as L2. unfold decimal in L1, L2.
  simpl. rewrite !andb_true_r. apply andb_true_iff. split; apply Z.leb_le; lia.
Qed.

Lemma scheduled_id_split taskType siteID slot : scheduledRequestID taskType siteID slot =
  (("sch_" +:+ taskType) +:+ String "_" (FormatInt siteID)) +:+ String "_" (FormatInt slot).
Proof.
  unfold scheduledRequestID.
  rewrite !app_string_assoc. done.
Qed.

(** The id the scheduler gives a task fits the column and its alphabet for
    every site and slot an int64 can name, with no byte to spare, and it names
    the type, the site and the slot: no two schedules share one. *)
Theorem scheduled_ids taskType siteID slot : taskType ∈ scheduled_types -> int64 siteID -> int64 slot ->
  validCollectionRequestID (scheduledRequestID taskType siteID slot) = true /\
  forall taskType' siteID' slot', scheduledRequestID taskType' siteID' slot' = scheduledRequestID taskType siteID slot ->
    taskType' = taskType /\ siteID' = siteID /\ slot' = slot.
Proof.
  intros Htype Hsite Hslot. split.
  - assert (H : forallb (fun t => forallb request_id_char (bytes t) && (len t <=? 18)) scheduled_types = true) by (vm_compute; done).
    rewrite forallb_forall in H. apply list_elem_of_In, H in Htype. apply andb_true_iff in Htype as [Hc Hl%Z.leb_le].
    by apply scheduled_id_valid.
  - intros t' i' s' E. rewrite !scheduled_id_split in E.
    apply last_separator_inj in E as [E Es]; [|apply number_lacks_underscore..].
    apply last_separator_inj in E as [E Ei]; [|apply number_lacks_underscore..].
    injection E as E. by apply FormatInt_inj in Es, Ei.
Qed.

Lemma scheduled_ids_witness :
  validCollectionRequestID (scheduledRequestID "upstream_task_sync" min_int64 min_int64) = true /\
  len (scheduledRequestID "upstream_task_sync" min_int64 min_int64) = 64.
Proof.
  split; [|vm_compute; reflexivity].
  refine (proj1 (scheduled_ids "upstream_task_sync" min_int64 min_int64 _ _ _)).
  - by apply (bool_decide_unpack _); vm_compute.
  - unfold int64, min_int64, max_int64. lia.
  - unfold int64, min_int64, max_int64. lia.
Defined.

(** ** A concrete tick *)
Module SchedulerSample.
Definition now : Z := 18500.
Definition tick : option cause * (Scheduler * Db) := RunOnce WorkerSample.rows now (NewScheduler true, History.start).
Definition scheduler : Scheduler := fst (snd tick).
Definition db : Db := snd (snd tick).
Definition hour : result unit * (gmap Z Z * Db) :=
  enqueueWindowForEligibleSites [Sample.site7; Sample.site7 <| MSite.ID := 8 |> <| MSite.OnlineStatus := "offline" |>]
    TaskTypeUsageHour CollectionPriorityUsageRealtime 14400 18000 18000 now (∅, History.start).
End SchedulerSample.


Lemma closed_hour_decided_once_witness :
  fst (snd SchedulerSample.hour) !! 7 = Some 18000 /\ fst (snd SchedulerSample.hour) !! 8 = None.
Proof.
  assert (H : SchedulerSample.hour = (Ok tt, (fst (snd SchedulerSample.hour), snd (snd SchedulerSample.hour)))).
  { assert (E : fst SchedulerSample.hour = Ok tt) by (vm_compute; reflexivity).
    destruct SchedulerSample.hour as [r [l d]]. simpl in *. by rewrite E. }
  destruct (closed_hour_decided_once _ _ _ _ _ _ _ _ _ _ _ H) as (H1&H2&_). split.
  - specialize (H1 Sample.site7 ltac:(left) ltac:(reflexivity)). simpl in H1. destruct (_ !! 7); simpl in H1; congruence.
  - rewrite H2; [apply lookup_empty|]. intros site [->|[->|[]%elem_of_nil]%elem_of_cons]%elem_of_cons; [done|reflexivity].
Defined.
