(* ===== verification/ValidationBehaviour.v ===== *)
(** * The hours the scheduler validates again

    The pending hours are taken up to a number per site, and every one of them
    is requested in exactly one range. *)

From S2P Require Import Prelude Constants GoText Json Stats Store RunContract RunState RunRepository UsageFacts UsageAggregation UsageReconcile UsageCollection WorkerErrors Queues FastDispatch Scheduler.

(** ** Ranges *)

(** The hours of a range of a site, in order. *)
Definition range_hours '(siteID, start, end_) : list PendingValidationHour := (fun hour => (siteID, hour)) <$> hours_between start end_.

(** The second range does not continue the first. *)
Definition apart (first second : Z * Z * Z) : Prop := ~ (first.1.1 = second.1.1 /\ second.1.2 = first.2).
Fixpoint all_apart (ranges : list (Z * Z * Z)) : Prop :=
  match ranges with
  | first :: (second :: _) as rest => apart first second /\ all_apart rest
  | _ => True
  end.

Lemma hours_between_here start : hours_between start start = [].
Proof. unfold hours_between. rewrite Z.sub_diag. simpl. by rewrite Z.ltb_irrefl. Qed.

Lemma hours_from_snoc n : forall start, 
  hours_from (S (S n)) start (start + 3600 * Z.of_nat (S n)) = hours_from (S n) start (start + 3600 * Z.of_nat n) ++ [start + 3600 * Z.of_nat n].
Proof.
  induction n as [|n IH]; intros start.
  - simpl. rewrite Z.add_0_r. rewrite (proj2 (Z.ltb_lt _ _)) by lia. rewrite Z.ltb_irrefl. simpl. f_equal. by rewrite Z.ltb_irrefl.
  - cbn [hours_from]. cbn [hours_from] in IH. rewrite !(proj2 (Z.ltb_lt start _)) by lia. simpl app. f_equal.
    specialize (IH (start + 3600)). 
    replace (start + 3600 * Z.of_nat (S (S n))) with (start + 3600 + 3600 * Z.of_nat (S n)) by lia.
    replace (start + 3600 * Z.of_nat (S n)) with (start + 3600 + 3600 * Z.of_nat n) by lia. exact IH.
Qed.

Lemma hours_between_snoc start n : 
  hours_between start (start + 3600 * Z.of_nat n + 3600) = hours_between start (start + 3600 * Z.of_nat n) ++ [start + 3600 * Z.of_nat n].
Proof.
  unfold hours_between.
  replace (Z.to_nat ((start + 3600 * Z.of_nat n + 3600 - start) / 3600 + 1)) with (S (S n)).
  2:{ replace (start + 3600 * Z.of_nat n + 3600 - start) with (Z.of_nat (S n) * 3600) by lia. rewrite Z.div_mul by lia. lia. }
  replace (Z.to_nat ((start + 3600 * Z.of_nat n - start) / 3600 + 1)) with (S n).
  2:{ replace (start + 3600 * Z.of_nat n - start) with (Z.of_nat n * 3600) by lia. rewrite Z.div_mul by lia. lia. }
  rewrite <- hours_from_snoc. f_equal. lia.
Qed.

Lemma ranges_from_hours hours : forall siteID start n,
  (validation_ranges_from siteID start (start + 3600 * Z.of_nat n) hours ≫= range_hours)
  = range_hours (siteID, start, start + 3600 * Z.of_nat n) ++ hours.
Proof.
  induction hours as [|[siteID' hour] rest IH]; intros siteID start n; cbn [validation_ranges_from]; [done|].
  destruct ((siteID' =? siteID) && (hour =? start + 3600 * Z.of_nat n)) eqn:E.
  - apply andb_true_iff in E as [->%Z.eqb_eq ->%Z.eqb_eq].
    replace (start + 3600 * Z.of_nat n + 3600) with (start + 3600 * Z.of_nat (S n)) by lia.
    rewrite IH. replace (start + 3600 * Z.of_nat (S n)) with (start + 3600 * Z.of_nat n + 3600) by lia.
    unfold range_hours. rewrite hours_between_snoc, fmap_app, <- app_assoc. done.
  - rewrite bind_cons. f_equal. specialize (IH siteID' hour 1%nat).
    replace (hour + 3600 * Z.of_nat 1) with (hour + 3600) in IH by lia. rewrite IH.
    pose proof (hours_between_snoc hour 0) as H. simpl in H. rewrite Z.add_0_r, hours_between_here in H.
    unfold range_hours. by rewrite H.
Qed.

Lemma ranges_from_apart hours : forall siteID start end_, start < end_ ->
  all_apart (validation_ranges_from siteID start end_ hours) /\
  Forall (fun r => r.1.2 < r.2) (validation_ranges_from siteID start end_ hours) /\
  exists end' rest, validation_ranges_from siteID start end_ hours = (siteID, start, end') :: rest.
Proof.
  induction hours as [|[siteID' hour] rest IH]; intros siteID start end_ Hlt; cbn [validation_ranges_from].
  - split; [done|]. split; [by repeat constructor|by do 2 eexists].
  - destruct ((siteID' =? siteID) && (hour =? end_)) eqn:E; [apply IH; lia|].
    destruct (IH siteID' hour (hour + 3600)) as (Ha&Hf&(end'&tail&Er)); [lia|]. rewrite Er in *.
    split; [|split; [by constructor|by do 2 eexists]]. split; [|exact Ha].
    intros [E1 E2]. simpl in *. subst. by rewrite !Z.eqb_refl in E.
Qed.

(** The ranges the scheduler requests hold each pending hour once, in
    order, and nothing else, whatever the list; no range is empty, and none
    continues the one before it, so there are as few of them as can be. *)
Theorem validation_ranges_exact hours :
  (validation_ranges hours ≫= range_hours) = hours /\
  Forall (fun range => range.1.2 < range.2) (validation_ranges hours) /\ all_apart (validation_ranges hours).
Proof.
  destruct hours as [|[siteID hour] rest]; [done|]. unfold validation_ranges.
  destruct (ranges_from_apart rest siteID hour (hour + 3600)) as (Ha&Hf&_); [lia|]. split; [|done].
  pose proof (ranges_from_hours rest siteID hour 1) as H. replace (hour + 3600 * Z.of_nat 1) with (hour + 3600) in H by lia.
  rewrite H. pose proof (hours_between_snoc hour 0) as H1. simpl in H1. rewrite Z.add_0_r, hours_between_here in H1.
  unfold range_hours. by rewrite H1.
Qed.

(** ** Which hours are listed *)
Definition in_site (siteID : Z) (h : PendingValidationHour) : bool := h.1 =? siteID.
Definition hour_of (w : CollectionWindow) : PendingValidationHour := (w.(Window.SiteID), w.(Window.HourTS)).
Definition window_in (siteID : Z) (w : CollectionWindow) : bool := w.(Window.SiteID) =? siteID.

Lemma ranked_site now limit d siteID w : w ∈ ranked_candidates now limit d siteID ->
  w.(Window.SiteID) = siteID /\ validation_candidate now d w = true /\ exists k, table d !! k = Some w.
Proof.
  unfold ranked_candidates. intros H%elem_of_take. destruct H as (i&H&_). apply list_elem_of_lookup_2 in H.
  apply elem_of_select in H as [[E%Z.eqb_eq Hc]%andb_true_iff Hk]. done.
Qed.

Lemma elem_of_concat {A} (x : A) ls : x ∈ concat ls <-> exists l, l ∈ ls /\ x ∈ l.
Proof.
  rewrite list_elem_of_In, in_concat. split; intros (l&H1&H2); exists l; by rewrite !list_elem_of_In in *.
Qed.

Lemma count_same {A} (P Q : A -> bool) l : (forall x, x ∈ l -> P x = Q x) -> count P l = count Q l.
Proof.
  induction l as [|x l IH]; intros H; [done|]. rewrite !count_cons, (H x) by left. rewrite IH; [done|].
  intros y Hy. apply H. by right.
Qed.

Lemma candidates_other now limit d siteID sites : siteID ∉ sites -> forall p,
  count (fun w => window_in siteID w && p w) (concat (ranked_candidates now limit d <$> sites)) = 0.
Proof.
  intros Hn p. apply count_zero. intros w (l&(s&->&Hs)%list_elem_of_fmap&Hw)%elem_of_concat.
  apply ranked_site in Hw as [E _]. unfold window_in. rewrite E, (proj2 (Z.eqb_neq s siteID)); [done|]. by intros ->.
Qed.

(** The hours of a site come from its own candidates. *)
Lemma candidates_of now limit d siteID p sites : NoDup sites -> siteID ∈ sites ->
  count (fun w => window_in siteID w && p w) (concat (ranked_candidates now limit d <$> sites))
  = count p (ranked_candidates now limit d siteID).
Proof.
  induction 1 as [|s sites Hs Hnd IH]; [by intros ?%elem_of_nil|]. intros Hin. rewrite fmap_cons. cbn [concat]. rewrite count_app.
  destruct (decide (siteID = s)) as [->|Hne].
  - rewrite (candidates_other _ _ _ _ _ Hs), Z.add_0_r. apply count_same.
    intros w [E _]%ranked_site. unfold window_in. by rewrite E, Z.eqb_refl.
  - apply elem_of_cons in Hin as [->|Hin]; [done|]. rewrite (IH Hin). rewrite (proj2 (count_zero _ _)); [done|].
    intros w [E _]%ranked_site. unfold window_in. by rewrite E, (proj2 (Z.eqb_neq s siteID)).
Qed.

Lemma count_fmap {A B} (f : A -> B) (P : B -> bool) l : count P (f <$> l) = count (fun x => P (f x)) l.
Proof. induction l as [|x l IH]; [done|]. rewrite fmap_cons, !count_cons. by rewrite IH. Qed.

Lemma count_filter {A} (P Q : A -> bool) l : count P (List.filter Q l) = count (fun x => P x && Q x) l.
Proof.
  induction l as [|x l IH]; [done|]. simpl. rewrite count_cons. destruct (Q x); rewrite ?count_cons, IH; by destruct (P x).
Qed.

Lemma pending_hours siteIDs now limit d hours : ListPendingValidationHours siteIDs now limit d = Ok hours ->
  0 < limit /\
  (forall h, h ∈ hours <-> exists w, h = hour_of w /\ validation_pending d w = true /\ w.(Window.SiteID) ∈ siteIDs /\
     w ∈ ranked_candidates now limit d w.(Window.SiteID)) /\
  forall siteID, siteID ∈ siteIDs ->
    count (in_site siteID) hours = count (validation_pending d) (ranked_candidates now limit d siteID).
Proof.
  unfold ListPendingValidationHours. destruct (_ || _) eqn:E; [done|]. intros [= <-].
  apply orb_false_iff in E as [[_ Hl%Z.leb_gt]%orb_false_iff _]. split; [done|]. split.
  - intros h. rewrite list_elem_of_fmap. split.
    + intros (w&->&Hw). rewrite elem_of_sort_by, list_elem_of_In, filter_In, <- list_elem_of_In in Hw. destruct Hw as [Hw Hp].
      apply elem_of_concat in Hw as (l&(s&->&Hs)%list_elem_of_fmap&Hw). rewrite elem_of_remove_dups in Hs.
      pose proof (ranked_site _ _ _ _ _ Hw) as [Es _]. exists w. by subst s.
    + intros (w&->&Hp&Hs&Hw). exists w. split; [done|].
      rewrite elem_of_sort_by, list_elem_of_In, filter_In, <- list_elem_of_In. split; [|done].
      apply elem_of_concat. eexists. split; [|exact Hw]. apply list_elem_of_fmap_2. by apply elem_of_remove_dups.
  - intros siteID Hs. rewrite count_fmap, (sort_by_perm _ _), count_filter.
    rewrite <- (candidates_of now limit d siteID (validation_pending d) (remove_dups siteIDs));
      [done|apply NoDup_remove_dups|by apply elem_of_remove_dups].
Qed.

(** The sort puts the hours that are not verified before the others. *)
Lemma ranked_first now limit d siteID w : 0 <= limit -> window_in siteID w = true -> validation_candidate now d w = true ->
  (exists k, table d !! k = Some w) -> mismatched w || unverified w = true ->
  w ∈ ranked_candidates now limit d siteID \/ count (validation_pending d) (ranked_candidates now limit d siteID) = limit.
Proof.
  intros Hl Hs Hc Hk Hu. unfold ranked_candidates. set (key := fun w : CollectionWindow => [AInt (validation_rank w); AInt (- w.(Window.HourTS))]).
  set (l := select _ key d). assert (Hw : w ∈ l) by (apply elem_of_select; unfold window_in in Hs; by rewrite Hs, Hc).
  rewrite <- (take_drop (Z.to_nat limit) l) in Hw. apply elem_of_app in Hw as [Hw|Hw]; [by left|right].
  assert (Hlen : length (take (Z.to_nat limit) l) = Z.to_nat limit).
  { rewrite length_take. destruct (decide (length l <= Z.to_nat limit)%nat); [|lia]. rewrite drop_ge in Hw by done. by apply elem_of_nil in Hw. }
  transitivity (Z.of_nat (length (take (Z.to_nat limit) l))); [|rewrite Hlen; lia].
  apply count_all. intros v Hv. unfold validation_pending. apply orb_true_iff. left.
  assert (Hle : by_key key v w).
  { eapply (StronglySorted_app_1_elem_of (by_key key)); [|exact Hv|exact Hw]. rewrite take_drop. apply select_sorted. }
  unfold by_key, key in Hle. simpl in Hle. unfold validation_rank in Hle.
  destruct (mismatched v), (unverified v); try done. exfalso.
  destruct (mismatched w), (unverified w); simpl in *; try done;
    (destruct Hle as [[_ H]|[[= H] _]]; simpl in H; lia).
Qed.

(** C40: which hours are listed for validation.  Every one is an hour of a
    requested site that is complete or was refused by a validation, whose day
    has ended two hours ago, while no validation of the site waits or runs; no
    site has more than the limit; and as long as a site is below its limit, no
    hour that a validation refused or that none has verified is left out. *)
Theorem pending_validation_hours siteIDs now limit d hours :
  ListPendingValidationHours siteIDs now limit d = Ok hours ->
  (forall siteID hour, (siteID, hour) ∈ hours -> siteID ∈ siteIDs /\ exists k w, table d !! k = Some w /\
     hour_of w = (siteID, hour) /\ validation_candidate now d w = true /\ validation_pending d w = true) /\
  (forall siteID, siteID ∈ siteIDs -> count (in_site siteID) hours <= limit) /\
  (forall k w, table d !! k = Some w -> w.(Window.SiteID) ∈ siteIDs -> validation_candidate now d w = true ->
     mismatched w || unverified w = true -> count (in_site w.(Window.SiteID)) hours < limit -> hour_of w ∈ hours).
Proof.
  intros (Hl&Hin&Hcount)%pending_hours. split_and!.
  - intros siteID hour (w&E&Hp&Hs&Hw)%Hin. injection E as -> ->. split; [done|].
    apply ranked_site in Hw as (_&Hc&(k&Hk)). by exists k, w.
  - intros siteID Hs. rewrite Hcount by done. unfold count, ranked_candidates.
    etrans; [apply Nat2Z.inj_le, length_filter|]. rewrite length_take. lia.
  - intros k w Hk Hs Hc Hu Hlt. apply Hin. exists w. split; [done|].
    split; [unfold validation_pending; by rewrite Hu|]. split; [done|].
    destruct (ranked_first now limit d w.(Window.SiteID) w) as [|E]; [lia|unfold window_in; by rewrite Z.eqb_refl|done|by exists k|done|done|].
    rewrite Hcount in Hlt by done. lia.
Qed.

(** ** A site with seven hours *)
Module ValidationSample.
(** The hours 1 to 7 of a day, the first not verified. *)
Definition hour (id rows : Z) (verified : option Z) : CollectionWindow :=
  Sample.window id (57600 + 3600 * id) "complete" <| Window.VerifiedAt := verified |> <| Window.FactRows := rows |>.
Definition later : list CollectionWindow := (fun id => hour id 0 (Some 200000)) <$> [2; 3; 4; 5; 6; 7].
Definition unverified_first : Db := Sample.db [] [] (hour 1 0 None :: later).
Definition miscounted_first : Db := Sample.db [] [] (hour 1 5 (Some 200000) :: later).
End ValidationSample.

Lemma pending_validation_hours_witness :
  exists hours, ListPendingValidationHours [7] 300000 6 ValidationSample.unverified_first = Ok hours /\ (7, 61200) ∈ hours.
Proof.
  assert (H : ListPendingValidationHours [7] 300000 6 ValidationSample.unverified_first = Ok [(7, 61200)]) by (vm_compute; reflexivity).
  eexists. split; [exact H|].
  destruct (pending_validation_hours _ _ _ _ _ H) as (_&_&Hall).
  apply (Hall 1 (ValidationSample.hour 1 0 None)); [vm_compute; reflexivity|by left|vm_compute; reflexivity..].
Defined.

(** The bound is taken before the facts are counted: an hour that was verified
    and has lost facts since is not found behind six newer hours of the site
    that need nothing, although the site is below its limit. *)
Example miscounted_hour_is_passed_over :
  validation_pending ValidationSample.miscounted_first (ValidationSample.hour 1 5 (Some 200000)) = true /\
  ListPendingValidationHours [7] 300000 6 ValidationSample.miscounted_first = Ok [].
Proof. split; vm_compute; reflexivity. Qed.
