(* ===== verification/StatisticsPause.v ===== *)
(** * The statistics of a paused account or customer ([model/statistics_pause.go])

    When an account or a customer is paused, its hourly rows from the pause on
    are removed and its daily rows, and the rows of the customers concerned, are
    computed again from the hourly rows of the accounts that are left. *)

From S2P Require Import Prelude Constants GoText Stats DateBucket Store UsageAggregation.

(** ** What is paused *)
Module PauseAccount.
Record statisticsPauseAccount := mk { ID : Z; SiteID : Z; CustomerID : Z; PauseAt : Z }.
#[export] Instance pause_account_eta : RecordEta statisticsPauseAccount := fun a =>
  mk (ID a) (SiteID a) (CustomerID a) (PauseAt a).
End PauseAccount.
Export (hints) PauseAccount.
Abbreviation statisticsPauseAccount := PauseAccount.statisticsPauseAccount.

Module PauseCustomer.
Record statisticsPauseCustomer := mk { ID : Z; PauseAt : Z; SiteIDs : list Z }.
#[export] Instance pause_customer_eta : RecordEta statisticsPauseCustomer := fun c =>
  mk (ID c) (PauseAt c) (SiteIDs c).
End PauseCustomer.
Export (hints) PauseCustomer.
Abbreviation statisticsPauseCustomer := PauseCustomer.statisticsPauseCustomer.

(** A customer on a site, with the hour from which its rows are computed again
    and the pause of the customer itself. *)
Module PauseCustomerSite.
Record statisticsPauseCustomerSite := mk { CustomerID : Z; SiteID : Z; Boundary : Z; PauseAt : option Z }.
#[export] Instance pause_site_eta : RecordEta statisticsPauseCustomerSite := fun k =>
  mk (CustomerID k) (SiteID k) (Boundary k) (PauseAt k).
End PauseCustomerSite.
Export (hints) PauseCustomerSite.
Abbreviation statisticsPauseCustomerSite := PauseCustomerSite.statisticsPauseCustomerSite.

(** ** Normalisation: one entry per id with the earliest pause *)
Definition pause_account_valid (a : statisticsPauseAccount) : bool :=
  (0 <? a.(PauseAccount.ID)) && (0 <? a.(PauseAccount.SiteID)) && (0 <? a.(PauseAccount.CustomerID))
  && (0 <? a.(PauseAccount.PauseAt)).

Fixpoint merge_pause_accounts (accounts : list statisticsPauseAccount) (byID : gmap Z statisticsPauseAccount)
  : result (gmap Z statisticsPauseAccount) :=
  match accounts with
  | [] => Ok byID
  | account :: rest =>
      if negb (pause_account_valid account) then Err ErrAccountObservationInvalid
      else match byID !! account.(PauseAccount.ID) with
      | Some existing =>
          if negb ((existing.(PauseAccount.SiteID) =? account.(PauseAccount.SiteID))
                   && (existing.(PauseAccount.CustomerID) =? account.(PauseAccount.CustomerID)))
          then Err ErrAccountOperationScopeChanged
          else merge_pause_accounts rest
                 (if account.(PauseAccount.PauseAt) <? existing.(PauseAccount.PauseAt)
                  then <[account.(PauseAccount.ID) := existing <| PauseAccount.PauseAt := account.(PauseAccount.PauseAt) |>]> byID
                  else byID)
      | None => merge_pause_accounts rest (<[account.(PauseAccount.ID) := account]> byID)
      end
  end.

Definition normalizeStatisticsPauseAccounts (accounts : list statisticsPauseAccount)
  : result (list statisticsPauseAccount) :=
  byID ← merge_pause_accounts accounts ∅;
  Ok (sort_by (fun a => [AInt a.(PauseAccount.ID)]) (map_to_list byID).*2).

Definition sorted_ids (ids : list Z) : list Z := sort_by (fun id => [AInt id]) (remove_dups ids).

Fixpoint merge_pause_customers (customers : list statisticsPauseCustomer) (byID : gmap Z statisticsPauseCustomer)
  : result (gmap Z statisticsPauseCustomer) :=
  match customers with
  | [] => Ok byID
  | customer :: rest =>
      if (customer.(PauseCustomer.ID) <=? 0) || (customer.(PauseCustomer.PauseAt) <=? 0)
         || existsb (fun siteID => siteID <=? 0) customer.(PauseCustomer.SiteIDs)
      then Err ErrCustomerLifecycleContract
      else
        let existing := default (PauseCustomer.mk customer.(PauseCustomer.ID) customer.(PauseCustomer.PauseAt) [])
                          (byID !! customer.(PauseCustomer.ID)) in
        let pauseAt := if customer.(PauseCustomer.PauseAt) <? existing.(PauseCustomer.PauseAt)
                       then customer.(PauseCustomer.PauseAt) else existing.(PauseCustomer.PauseAt) in
        merge_pause_customers rest
          (<[customer.(PauseCustomer.ID) :=
              PauseCustomer.mk existing.(PauseCustomer.ID) pauseAt
                (sorted_ids (existing.(PauseCustomer.SiteIDs) ++ customer.(PauseCustomer.SiteIDs)))]> byID)
  end.

Definition normalizeStatisticsPauseCustomers (customers : list statisticsPauseCustomer)
  : result (list statisticsPauseCustomer) :=
  byID ← merge_pause_customers customers ∅;
  Ok (sort_by (fun c => [AInt c.(PauseCustomer.ID)]) (map_to_list byID).*2).

(** ** Rows computed from hourly rows *)

(** The date of an hour, and the date of the pause with the start of its day. *)
Definition hour_date (hour : Z) : Z := date_key (civil_of_days (local_day hour)).
Definition statisticsPauseDateBoundary (timestamp : Z) : Z * Z := (hour_date timestamp, day_start (local_day timestamp)).

Definition statisticsPauseDataStatus (aggregate previous : string) : string :=
  if (aggregate == "partial") || (previous == "partial") then "partial"
  else if aggregate == "complete" then "complete"
  else if previous != "" then previous
  else "complete".

(** The sums over hourly rows of accounts; [active] counts the users of a row. *)
Definition sum_rows (f : usageMetricAggregate -> Z) (l : list (Z * StatRow)) : Z :=
  foldr (fun '(_, r) sum => f r.(Stat.metrics) + sum) 0 l.
Definition pause_status (l : list (Z * StatRow)) : string :=
  if existsb (fun '(_, r) => r.(Stat.DataStatus) != "complete") l then "partial" else "complete".
Definition no_users (_ : list Z) : Z := 0.
Definition distinct_users (ids : list Z) : Z := Z.of_nat (length (remove_dups ids)).
Definition pause_row (active : list Z -> Z) (now : Z) (l : list (Z * StatRow)) : StatRow :=
  Stat.mk (Metrics.mk (sum_rows Metrics.RequestCount l) (sum_rows Metrics.Quota l) (sum_rows Metrics.TokenUsed l)
             (active l.*1)) (pause_status l) false now now now.

(** The row keeps the status, and the creation and finality, of the row it
    replaces; [final]: the table has a column [is_final]. *)
Definition keep_previous (final : bool) (previous : option StatRow) (row : StatRow) : StatRow :=
  match previous with
  | Some p =>
      row <| Stat.DataStatus := statisticsPauseDataStatus row.(Stat.DataStatus) p.(Stat.DataStatus) |>
          <| Stat.IsFinal := if final then p.(Stat.IsFinal) else row.(Stat.IsFinal) |>
          <| Stat.CreatedAt := if 0 <? p.(Stat.CreatedAt) then p.(Stat.CreatedAt) else row.(Stat.CreatedAt) |>
  | None => row
  end.

(** [existing]: the table before the rows were deleted. *)
Definition pause_rows {K} `{!EqDecision K, !Countable K} (final : bool) (active : list Z -> Z) (now : Z)
    (existing : gmap K StatRow) (items : list (K * (Z * StatRow))) : gmap K StatRow :=
  map_imap (fun k l => Some (keep_previous final (existing !! k) (pause_row active now l))) (grouped items).

(** ** The rows of an account *)
Abbreviation account_table := (gmap (Z * Z) StatRow) (only parsing).

(** The hourly rows of an account from [start] on, by date. *)
Definition account_day_items (hourly : account_table) (id start : Z) : list (Z * Z * (Z * StatRow)) :=
  (fun '(i, hour, r) => ((id, hour_date hour), (i, r)))
  <$> base.filter (fun '(i, hour, _) => (i =? id) && (start <=? hour) = true) (map_to_list hourly).

Definition clear_account (id pauseAt dateKey : Z) (s : Statistics) : Statistics :=
  s <| Statistics.hourly := s.(Statistics.hourly) <| Rollup.account_stat :=
         delete_keys (fun '(i, hour) => (i =? id) && (pauseAt <=? hour)) s.(Statistics.hourly).(Rollup.account_stat) |> |>
    <| Statistics.daily := s.(Statistics.daily) <| Rollup.account_stat :=
         delete_keys (fun '(i, date) => (i =? id) && (dateKey <=? date)) s.(Statistics.daily).(Rollup.account_stat) |> |>.

Definition insert_accounts (new : account_table) (r : Rollup) : result (Z * Rollup) :=
  '(n, t) ← insert_select stat_fits new r.(Rollup.account_stat);
  Ok (n, r <| Rollup.account_stat := t |>).

Definition cleanup_account (now : Z) (account : statisticsPauseAccount) : Tx unit :=
  let id := account.(PauseAccount.ID) in
  let '(dateKey, dateStart) := statisticsPauseDateBoundary account.(PauseAccount.PauseAt) in
  existing ← st_gets (fun d => (Tables.statistics d).(Statistics.daily).(Rollup.account_stat));
  _ ← stats_modify (clear_account id account.(PauseAccount.PauseAt) dateKey);
  hourly ← st_gets (fun d => (Tables.statistics d).(Statistics.hourly).(Rollup.account_stat));
  _ ← stats_update (on_daily (insert_accounts (pause_rows true no_users now existing (account_day_items hourly id dateStart))));
  mret tt.

Definition cleanupPausedAccountStatistics (accounts : list statisticsPauseAccount) (now : Z) : Tx unit :=
  st_fold (fun account _ => cleanup_account now account) accounts tt.

(** ** The rows of a customer on a site *)
Definition add_account_boundary (byKey : gmap (Z * Z) statisticsPauseCustomerSite) (account : statisticsPauseAccount)
  : gmap (Z * Z) statisticsPauseCustomerSite :=
  let k := (account.(PauseAccount.CustomerID), account.(PauseAccount.SiteID)) in
  let new := PauseCustomerSite.mk account.(PauseAccount.CustomerID) account.(PauseAccount.SiteID) account.(PauseAccount.PauseAt) None in
  match byKey !! k with
  | Some key => <[k := if account.(PauseAccount.PauseAt) <? key.(PauseCustomerSite.Boundary) then new else key]> byKey
  | None => <[k := new]> byKey
  end.

Definition add_customer_boundary (customer : statisticsPauseCustomer) (byKey : gmap (Z * Z) statisticsPauseCustomerSite) (siteID : Z)
  : gmap (Z * Z) statisticsPauseCustomerSite :=
  let pauseAt := customer.(PauseCustomer.PauseAt) in
  let k := (customer.(PauseCustomer.ID), siteID) in
  let key := match byKey !! k with
             | Some key => if pauseAt <? key.(PauseCustomerSite.Boundary) then key <| PauseCustomerSite.Boundary := pauseAt |> else key
             | None => PauseCustomerSite.mk customer.(PauseCustomer.ID) siteID pauseAt None
             end in
  <[k := key <| PauseCustomerSite.PauseAt := Some pauseAt |>]> byKey.

Definition statisticsPauseCustomerSites (accounts : list statisticsPauseAccount) (customers : list statisticsPauseCustomer)
  : list statisticsPauseCustomerSite :=
  let byKey := foldl add_account_boundary ∅ accounts in
  let byKey := foldl (fun byKey customer => foldl (add_customer_boundary customer) byKey customer.(PauseCustomer.SiteIDs))
                 byKey customers in
  sort_by (fun k => [AInt k.(PauseCustomerSite.CustomerID); AInt k.(PauseCustomerSite.SiteID)]) (map_to_list byKey).*2.

(** The JOIN: the hourly rows from [start] on of the accounts of the customer
    on the site, before the pauses of the account and of the customer. *)
Definition counted_row (d : Db) (key : statisticsPauseCustomerSite) (start id hour : Z) : bool :=
  match Tables.account d !! id with
  | Some a =>
      (a.(MAccount.CustomerID) =? key.(PauseCustomerSite.CustomerID)) && (a.(MAccount.SiteID) =? key.(PauseCustomerSite.SiteID))
      && (start <=? hour) && not_paused a.(MAccount.StatisticsPausedAt) hour
      && not_paused key.(PauseCustomerSite.PauseAt) hour
  | None => false
  end.

Abbreviation customer_table := (gmap (Z * Z * Z) StatRow) (only parsing).
Definition customer_pause_items (d : Db) (key : statisticsPauseCustomerSite) (start : Z) (bucket : Z -> Z)
  : list (Z * Z * Z * (Z * StatRow)) :=
  (fun '(id, hour, r) => ((key.(PauseCustomerSite.CustomerID), key.(PauseCustomerSite.SiteID), bucket hour), (id, r)))
  <$> base.filter (fun '(id, hour, _) => counted_row d key start id hour = true)
        (map_to_list (Tables.statistics d).(Statistics.hourly).(Rollup.account_stat)).

Definition clear_customer (key : statisticsPauseCustomerSite) (from : Z) (r : Rollup) : Rollup :=
  r <| Rollup.customer_stat :=
         delete_keys (fun '(c, s, bucket) => (c =? key.(PauseCustomerSite.CustomerID)) && (s =? key.(PauseCustomerSite.SiteID))
                                             && (from <=? bucket)) r.(Rollup.customer_stat) |>.
Definition insert_customers (new : customer_table) (r : Rollup) : result (Z * Rollup) :=
  '(n, t) ← insert_select stat_fits new r.(Rollup.customer_stat);
  Ok (n, r <| Rollup.customer_stat := t |>).

Definition rebuildPausedCustomerHourly (key : statisticsPauseCustomerSite) (now : Z) : Tx unit :=
  existing ← st_gets (fun d => (Tables.statistics d).(Statistics.hourly).(Rollup.customer_stat));
  _ ← stats_modify (fun s => s <| Statistics.hourly := clear_customer key key.(PauseCustomerSite.Boundary) s.(Statistics.hourly) |>);
  items ← st_gets (fun d => customer_pause_items d key key.(PauseCustomerSite.Boundary) (fun hour => hour));
  _ ← stats_update (on_hourly (insert_customers (pause_rows false distinct_users now existing items)));
  mret tt.

Definition rebuildPausedCustomerDaily (key : statisticsPauseCustomerSite) (now : Z) : Tx unit :=
  let '(dateKey, dateStart) := statisticsPauseDateBoundary key.(PauseCustomerSite.Boundary) in
  existing ← st_gets (fun d => (Tables.statistics d).(Statistics.daily).(Rollup.customer_stat));
  _ ← stats_modify (fun s => s <| Statistics.daily := clear_customer key dateKey s.(Statistics.daily) |>);
  items ← st_gets (fun d => customer_pause_items d key dateStart hour_date);
  _ ← stats_update (on_daily (insert_customers (pause_rows true distinct_users now existing items)));
  mret tt.

Definition rebuildPausedCustomerStatistics (accounts : list statisticsPauseAccount)
    (customers : list statisticsPauseCustomer) (now : Z) : Tx unit :=
  st_fold (fun key _ => _ ← rebuildPausedCustomerHourly key now; rebuildPausedCustomerDaily key now)
    (statisticsPauseCustomerSites accounts customers) tt.

(** ** [cleanupStatisticsForPause] *)
Definition cleanupStatisticsForPause (accounts : list statisticsPauseAccount) (customers : list statisticsPauseCustomer)
    (now : Z) : Tx unit :=
  if now <=? 0 then st_fail ErrAccountObservationInvalid
  else
    accounts ← st_lift (normalizeStatisticsPauseAccounts accounts);
    customers ← st_lift (normalizeStatisticsPauseCustomers customers);
    if bool_decide (accounts = []) && bool_decide (customers = []) then mret tt
    else
      _ ← cleanupPausedAccountStatistics accounts now;
      rebuildPausedCustomerStatistics accounts customers now.
