(* ===== verification/AccountLifecycle.v ===== *)
(** * The lifecycle of accounts and customers ([model/account.go],
    [model/customer.go], [service/account.go], [service/customer.go])

    An account is archived and restored, a customer disabled and enabled; a
    remote user that turns out to be another one pauses its account for good.
    Statistics stop at the pause.  Restoring and enabling only enqueue a rebuild
    of the paused hours; they are completed when it has succeeded. *)

From S2P Require Import Prelude Constants GoText Stats DateBucket Store RunContract RunState RunRepository SiteFence TaskScope UsageAggregation StatisticsPause.

Definition AccountRemoteStateNormal : string := "normal".
Definition AccountRemoteStateMissing : string := "missing".

Definition monotonicAccountUpdatedAt (account : Account) (updatedAt : Z) : Z :=
  if updatedAt <=? account.(MAccount.UpdatedAt) then account.(MAccount.UpdatedAt) + 1 else updatedAt.
Definition monotonicCustomerUpdatedAt (customer : Customer) (updatedAt : Z) : Z :=
  if updatedAt <=? customer.(MCustomer.UpdatedAt) then customer.(MCustomer.UpdatedAt) + 1 else updatedAt.
Definition floorHour (timestamp : Z) : Z := timestamp - Z.rem timestamp 3600.

Definition account_has_id (id : Z) (a : Account) : bool := a.(MAccount.ID) =? id.
Definition customer_has_id (id : Z) (c : Customer) : bool := c.(MCustomer.ID) =? id.

(** The earlier of a new pause and the one that is set. *)
Definition effective_pause (current : option Z) (pausedAt : Z) : Z :=
  match current with Some p => if p <? pausedAt then p else pausedAt | None => pausedAt end.

Definition pause_of (account : Account) (pausedAt : Z) : statisticsPauseAccount :=
  PauseAccount.mk account.(MAccount.ID) account.(MAccount.SiteID) account.(MAccount.CustomerID) pausedAt.

(** ** Observations of the remote user *)
Module RemoteSnapshot.
Record AuthoritativeAccountRemoteSnapshot := mk {
  RemoteCreatedAt : Z; Username : string; DisplayName : string; RemoteGroup : string; RemoteStatus : Z;
  Quota : Z; UsedQuota : Z; RequestCount : Z; ObservedAt : Z; UpdatedAt : Z }.
End RemoteSnapshot.
Abbreviation AuthoritativeAccountRemoteSnapshot := RemoteSnapshot.AuthoritativeAccountRemoteSnapshot.

Definition isNewerAccountObservation (account : Account) (observedAt : Z) : bool :=
  match account.(MAccount.LastSyncedAt) with Some at_ => at_ <? observedAt | None => true end.

(** The WHERE clause of the compare-and-swap. *)
Definition accountObservationCAS (account : Account) (a : Account) : bool :=
  account_has_id account.(MAccount.ID) a && (a.(MAccount.RemoteState) == account.(MAccount.RemoteState))
  && (a.(MAccount.RemoteMissingCount) =? account.(MAccount.RemoteMissingCount))
  && bool_decide (a.(MAccount.LastSyncedAt) = account.(MAccount.LastSyncedAt)).

(** The update of an observation: exactly one row changes. *)
Definition update_observed (account : Account) (f : Account -> Account) : Tx unit :=
  n ← db_update (accountObservationCAS account) f;
  st_require (n =? 1) ErrAccountObservationCAS.

(** The account and whether the observation was applied. *)
Definition ApplyAuthoritativeRemoteSnapshot (id : Z) (snapshot : AuthoritativeAccountRemoteSnapshot) : Tx (Account * bool) :=
  if (id <=? 0) || (snapshot.(RemoteSnapshot.RemoteCreatedAt) <=? 0) || (snapshot.(RemoteSnapshot.ObservedAt) <=? 0)
     || (snapshot.(RemoteSnapshot.UpdatedAt) <=? 0) then st_fail ErrAccountObservationInvalid
  else
    locked ← db_first (R := Account) id;
    if negb (snapshot.(RemoteSnapshot.RemoteCreatedAt) =? locked.(MAccount.RemoteCreatedAt))
       && (locked.(MAccount.RemoteState) != AccountRemoteStateIdentityMismatch) then st_fail ErrAccountIdentityMismatch
    else if negb (isNewerAccountObservation locked snapshot.(RemoteSnapshot.ObservedAt)) then mret (locked, false)
    else
      let mismatch := locked.(MAccount.RemoteState) == AccountRemoteStateIdentityMismatch in
      _ ← update_observed locked (fun a => a
            <| MAccount.Username := snapshot.(RemoteSnapshot.Username) |>
            <| MAccount.DisplayName := snapshot.(RemoteSnapshot.DisplayName) |>
            <| MAccount.RemoteGroup := snapshot.(RemoteSnapshot.RemoteGroup) |>
            <| MAccount.RemoteStatus := snapshot.(RemoteSnapshot.RemoteStatus) |>
            <| MAccount.RemoteState := if mismatch then AccountRemoteStateIdentityMismatch else AccountRemoteStateNormal |>
            <| MAccount.RemoteMissingCount := if mismatch then locked.(MAccount.RemoteMissingCount) else 0 |>
            <| MAccount.LastRemoteSeenAt := Some snapshot.(RemoteSnapshot.ObservedAt) |>
            <| MAccount.Quota := snapshot.(RemoteSnapshot.Quota) |>
            <| MAccount.UsedQuota := snapshot.(RemoteSnapshot.UsedQuota) |>
            <| MAccount.RequestCount := snapshot.(RemoteSnapshot.RequestCount) |>
            <| MAccount.LastSyncedAt := Some snapshot.(RemoteSnapshot.ObservedAt) |>
            <| MAccount.UpdatedAt := monotonicAccountUpdatedAt locked snapshot.(RemoteSnapshot.UpdatedAt) |>);
      account ← db_first (R := Account) id;
      mret (account, true).

Definition MarkMissing (id observedAt updatedAt : Z) : Tx (Account * bool) :=
  if (id <=? 0) || (observedAt <=? 0) || (updatedAt <=? 0) then st_fail ErrAccountObservationInvalid
  else
    locked ← db_first (R := Account) id;
    if negb (isNewerAccountObservation locked observedAt) then mret (locked, false)
    else
      let count := locked.(MAccount.RemoteMissingCount) in
      let '(nextCount, nextState) :=
        if locked.(MAccount.RemoteState) != AccountRemoteStateIdentityMismatch then
          let count := if count <? 2147483647 then count + 1 else count in
          (count, if 2 <=? count then AccountRemoteStateMissing else locked.(MAccount.RemoteState))
        else (count, locked.(MAccount.RemoteState)) in
      _ ← update_observed locked (fun a => a
            <| MAccount.RemoteState := nextState |> <| MAccount.RemoteMissingCount := nextCount |>
            <| MAccount.LastSyncedAt := Some observedAt |>
            <| MAccount.UpdatedAt := monotonicAccountUpdatedAt locked updatedAt |>);
      account ← db_first (R := Account) id;
      mret (account, true).

Definition MarkIdentityMismatch (id observedAt pausedAt updatedAt : Z) : Tx (Account * bool) :=
  if (id <=? 0) || (observedAt <=? 0) || (pausedAt <=? 0) || (updatedAt <=? 0) then st_fail ErrAccountObservationInvalid
  else
    locked ← db_first (R := Account) id;
    if negb (isNewerAccountObservation locked observedAt) then mret (locked, false)
    else
      let effectivePause := effective_pause locked.(MAccount.StatisticsPausedAt) pausedAt in
      _ ← update_observed locked (fun a => a
            <| MAccount.RemoteState := AccountRemoteStateIdentityMismatch |>
            <| MAccount.StatisticsPausedAt := Some effectivePause |> <| MAccount.LastSyncedAt := Some observedAt |>
            <| MAccount.UpdatedAt := monotonicAccountUpdatedAt locked updatedAt |>);
      _ ← cleanupStatisticsForPause [pause_of locked effectivePause] [] updatedAt;
      account ← db_first (R := Account) id;
      mret (account, true).

(** ** Archiving and restoring an account *)
Module AccountScope.
Record AccountOperationScope := mk { site : Site; customer : Customer; account : Account }.
End AccountScope.
Abbreviation AccountOperationScope := AccountScope.AccountOperationScope.

Definition lockSitesForUpdate (ids : list Z) : Tx (list Site) :=
  db_select (fun s => existsb (Z.eqb s.(MSite.ID)) ids) (fun s => [AInt s.(MSite.ID)]).

Definition LockAccountOperationScope (id : Z) : Tx AccountOperationScope :=
  if id <=? 0 then st_fail ErrAccountRestoreContract
  else
    reference ← db_first (R := Account) id;
    sites ← lockSitesForUpdate [reference.(MAccount.SiteID)];
    match sites with
    | [site] =>
        customer ← db_first (R := Customer) reference.(MAccount.CustomerID);
        account ← db_first (R := Account) id;
        if negb (account.(MAccount.SiteID) =? reference.(MAccount.SiteID))
           || negb (account.(MAccount.CustomerID) =? reference.(MAccount.CustomerID))
        then st_fail ErrAccountOperationScopeChanged
        else mret (AccountScope.mk site customer account)
    | _ => st_fail ErrRecordNotFound
    end.

(** [Archive] of the repository. *)
Definition ArchiveAccount (id pausedAt updatedAt : Z) : Tx unit :=
  if (id <=? 0) || (pausedAt <=? 0) || (updatedAt <=? 0) then st_fail ErrAccountObservationInvalid
  else
    account ← db_first (R := Account) id;
    let effectivePause := effective_pause account.(MAccount.StatisticsPausedAt) pausedAt in
    let updatedAt := monotonicAccountUpdatedAt account updatedAt in
    _ ← db_update (account_has_id id) (fun a => a
          <| MAccount.ManagedStatus := AccountManagedStatusArchived |>
          <| MAccount.StatisticsPausedAt := Some effectivePause |>
          <| MAccount.StatisticsBackfillStatus := "none" |> <| MAccount.UpdatedAt := updatedAt |>);
    cleanupStatisticsForPause [pause_of account effectivePause] [] updatedAt.

(** The checks [BeginRestore] and [CompleteRestore] share. *)
Definition restorable (scope : AccountOperationScope) : result unit :=
  if scope.(AccountScope.customer).(MCustomer.Status) == "disabled" then Err ErrCustomerDisabled
  else if scope.(AccountScope.account).(MAccount.RemoteState) == AccountRemoteStateIdentityMismatch
  then Err ErrAccountIdentityMismatch
  else if (scope.(AccountScope.account).(MAccount.ManagedStatus) != AccountManagedStatusArchived)
          || is_nil scope.(AccountScope.account).(MAccount.StatisticsPausedAt) then Err ErrAccountRestoreContract
  else Ok tt.

Definition BeginRestoreInTransaction (id updatedAt : Z) : Tx unit :=
  if (id <=? 0) || (updatedAt <=? 0) then st_fail ErrAccountRestoreContract
  else
    scope ← LockAccountOperationScope id;
    _ ← st_lift (restorable scope);
    let updatedAt := monotonicAccountUpdatedAt scope.(AccountScope.account) updatedAt in
    _ ← db_update (account_has_id id) (fun a => a
          <| MAccount.StatisticsBackfillStatus := "pending" |> <| MAccount.UpdatedAt := updatedAt |>);
    mret tt.

Definition latestRebuildRunForUpdate (targetType : string) (targetID : Z) (taskType : string) : Tx CollectionRun :=
  runs ← db_select (fun r => (r.(Run.TargetType) == targetType) && (r.(Run.TargetID) =? targetID)
                             && (r.(Run.TaskType) == taskType)) by_id_desc;
  match runs with
  | run :: _ => mret run
  | [] => st_fail ErrRebuildRunNotReady
  end.

Definition rebuildRunCoversRange (run : CollectionRun) (pausedAt : option Z) (completedAt : Z) : bool :=
  match pausedAt, run.(Run.StartTimestamp), run.(Run.EndTimestamp) with
  | Some pause, Some start, Some end_ =>
      let requiredEnd := completedAt - Z.rem completedAt 3600 in
      let requiredEnd := if requiredEnd <=? pause then pause + 1 else requiredEnd in
      (start <=? pause) && (requiredEnd <=? end_)
  | _, _, _ => false
  end.

Definition CompleteRestoreInTransaction (id updatedAt : Z) : Tx unit :=
  if (id <=? 0) || (updatedAt <=? 0) then st_fail ErrAccountRestoreContract
  else
    scope ← LockAccountOperationScope id;
    _ ← st_lift (restorable scope);
    let updatedAt := monotonicAccountUpdatedAt scope.(AccountScope.account) updatedAt in
    run ← latestRebuildRunForUpdate "account" id TaskTypeAccountRebuild;
    if (run.(Run.Status) != "success")
       || negb (rebuildRunCoversRange run scope.(AccountScope.account).(MAccount.StatisticsPausedAt) updatedAt)
    then st_fail ErrRebuildRunNotReady
    else
      _ ← db_update (account_has_id id) (fun a => a
            <| MAccount.ManagedStatus := AccountManagedStatusActive |> <| MAccount.StatisticsPausedAt := None |>
            <| MAccount.StatisticsBackfillStatus := "none" |> <| MAccount.UpdatedAt := updatedAt |>);
      mret tt.
