(* ===== verification/CustomerLifecycle.v ===== *)
(** * The lifecycle of customers, and the service operations on accounts and
    customers ([model/customer.go], [service/account.go], [service/customer.go])

    A disabled customer keeps its accounts and their rows up to the pause;
    enabling it enqueues a rebuild, as restoring an account does.  A service
    operation is one transaction; [now] is the time it reads.  The alerts
    evaluated after the commit and the response built from the rows are not
    modelled, nor is the translation of errors into HTTP codes. *)

From S2P Require Import Prelude Constants GoText Stats DateBucket Store RunContract RunState RunRepository SiteFence TaskScope UsageAggregation UsageCollection StatisticsPause AccountLifecycle.

(** ** The scope of a customer *)
Module CustomerScope.
Record CustomerOperationScope := mk { Sites : list Site; customer : Customer; Accounts : list Account }.
End CustomerScope.
Abbreviation CustomerOperationScope := CustomerScope.CustomerOperationScope.

(** A reference has the columns of [siteFenceAccountRef]. *)
Definition loadCustomerAccountReferences (customerID : Z) : Tx (list siteFenceAccountRef) :=
  accounts ← db_select (fun a => a.(MAccount.CustomerID) =? customerID) by_id;
  mret (account_ref <$> accounts).

Definition uniqueSortedCustomerSiteIDs (references : list siteFenceAccountRef) : list Z :=
  sorted_ids (AccountRef.SiteID <$> references).

Definition LockCustomerOperationScope (id : Z) : Tx CustomerOperationScope :=
  if id <=? 0 then st_fail ErrCustomerLifecycleContract
  else
    references ← loadCustomerAccountReferences id;
    let siteIDs := uniqueSortedCustomerSiteIDs references in
    sites ← lockSitesForUpdate siteIDs;
    _ ← st_require (Nat.eqb (List.length sites) (List.length siteIDs)) ErrRecordNotFound;
    customer ← db_first (R := Customer) id;
    accounts ← db_select (fun a => one_of_ids (AccountRef.ID <$> references) a.(MAccount.ID)) by_id;
    lockedReferences ← loadCustomerAccountReferences id;
    _ ← st_require ((references == lockedReferences) && ((account_ref <$> accounts) == references))
          ErrCustomerOperationScopeChanged;
    mret (CustomerScope.mk sites customer accounts).

(** ** Profile *)

(** [UpdateProfile] cannot enter or leave "disabled". *)
Definition UpdateProfile (customer : Customer) : Tx unit :=
  if customer.(MCustomer.Status) == "disabled" then st_fail ErrCustomerLifecycleContract
  else
    let amount (a : string) := if a == "" then "0" else a in
    current ← db_first (R := Customer) customer.(MCustomer.ID);
    if current.(MCustomer.Status) == "disabled" then st_fail ErrCustomerLifecycleContract
    else
      _ ← db_update (customer_has_id customer.(MCustomer.ID)) (fun c => c
            <| MCustomer.Name := customer.(MCustomer.Name) |> <| MCustomer.Contact := customer.(MCustomer.Contact) |>
            <| MCustomer.Remark := customer.(MCustomer.Remark) |>
            <| MCustomer.ContractAmount := amount customer.(MCustomer.ContractAmount) |>
            <| MCustomer.PaymentAmount := amount customer.(MCustomer.PaymentAmount) |>
            <| MCustomer.Status := customer.(MCustomer.Status) |>
            <| MCustomer.UpdatedAt := customer.(MCustomer.UpdatedAt) |>);
      mret tt.

(** ** Disabling *)
Definition managed (a : Account) : bool := a.(MAccount.ManagedStatus) == AccountManagedStatusActive.

(** The pause of one account of the customer. *)
Definition pause_customer_account (pause updatedAt : Z) (account : Account) (paused : list statisticsPauseAccount)
  : Tx (list statisticsPauseAccount) :=
  let effectiveAccountPause := effective_pause account.(MAccount.StatisticsPausedAt) pause in
  let accountUpdatedAt := monotonicAccountUpdatedAt account updatedAt in
  _ ← db_update (account_has_id account.(MAccount.ID)) (fun a => a
        <| MAccount.StatisticsPausedAt := Some effectiveAccountPause |> <| MAccount.UpdatedAt := accountUpdatedAt |>);
  mret (paused ++ [pause_of account effectiveAccountPause]).

Definition DisableInTransaction (id pausedAt updatedAt : Z) : Tx unit :=
  if (id <=? 0) || (pausedAt <=? 0) || (updatedAt <=? 0) then st_fail ErrCustomerLifecycleContract
  else
    scope ← LockCustomerOperationScope id;
    let customer := scope.(CustomerScope.customer) in
    let updatedAt := monotonicCustomerUpdatedAt customer updatedAt in
    let siteIDs := sorted_ids (MAccount.SiteID <$> scope.(CustomerScope.Accounts)) in
    let accounts := base.filter (fun a => managed a = true) scope.(CustomerScope.Accounts) in
    let pause := effective_pause customer.(MCustomer.StatisticsPausedAt) pausedAt in
    _ ← db_update (customer_has_id id) (fun c => c
          <| MCustomer.Status := "disabled" |> <| MCustomer.StatisticsPausedAt := Some pause |>
          <| MCustomer.StatisticsBackfillStatus := "none" |> <| MCustomer.UpdatedAt := updatedAt |>);
    paused ← st_fold (pause_customer_account pause updatedAt) accounts [];
    cleanupStatisticsForPause paused [PauseCustomer.mk id pause siteIDs] updatedAt.

(** ** Enabling *)
Definition enableable (scope : CustomerOperationScope) : result unit :=
  if (scope.(CustomerScope.customer).(MCustomer.Status) != "disabled")
     || is_nil scope.(CustomerScope.customer).(MCustomer.StatisticsPausedAt) then Err ErrCustomerLifecycleContract
  else Ok tt.

Definition BeginEnableInTransaction (id updatedAt : Z) : Tx unit :=
  if (id <=? 0) || (updatedAt <=? 0) then st_fail ErrCustomerLifecycleContract
  else
    scope ← LockCustomerOperationScope id;
    _ ← st_lift (enableable scope);
    let updatedAt := monotonicCustomerUpdatedAt scope.(CustomerScope.customer) updatedAt in
    _ ← db_update (customer_has_id id) (fun c => c
          <| MCustomer.StatisticsBackfillStatus := "pending" |> <| MCustomer.UpdatedAt := updatedAt |>);
    mret tt.

Definition customer_rebuild_of (id : Z) (r : CollectionRun) : bool :=
  (r.(Run.TargetType) == "customer") && (r.(Run.TargetID) =? id) && (r.(Run.TaskType) == TaskTypeCustomerRebuild).
Definition account_rebuild_of (id : Z) (r : CollectionRun) : bool :=
  (r.(Run.TargetType) == "account") && (r.(Run.TargetID) =? id) && (r.(Run.TaskType) == TaskTypeAccountRebuild).

Definition lockCustomerEnableRuns (customerID : Z) (accountIDs : list Z) : Tx (list CollectionRun) :=
  db_select (fun r => customer_rebuild_of customerID r || existsb (fun id => account_rebuild_of id r) accountIDs) by_id.

(** The run with the greatest id of those that satisfy [p]. *)
Definition latest_of (p : CollectionRun -> bool) (runs : list CollectionRun) : option CollectionRun :=
  foldl (fun latest run =>
           if p run then
             match latest with
             | Some l => if l.(Run.ID) <? run.(Run.ID) then Some run else latest
             | None => Some run
             end
           else latest) None runs.

(** The run that speaks for an account: its own rebuild when it is later than
    the rebuild of the customer. *)
Definition authoritative_run (customerRun : CollectionRun) (accountRun : option CollectionRun) : CollectionRun :=
  match accountRun with
  | Some run => if customerRun.(Run.ID) <? run.(Run.ID) then run else customerRun
  | None => customerRun
  end.

Definition account_ready (runs : list CollectionRun) (customerRun : CollectionRun) (updatedAt : Z) (account : Account) : bool :=
  let authoritative := authoritative_run customerRun (latest_of (account_rebuild_of account.(MAccount.ID)) runs) in
  (authoritative.(Run.Status) == "success")
  && (is_nil account.(MAccount.StatisticsPausedAt)
      || rebuildRunCoversRange authoritative account.(MAccount.StatisticsPausedAt) updatedAt).

Definition open_customer_account (updatedAt : Z) (account : Account) : Tx unit :=
  _ ← db_update (account_has_id account.(MAccount.ID)) (fun a => a
        <| MAccount.StatisticsPausedAt := None |> <| MAccount.StatisticsBackfillStatus := "none" |>
        <| MAccount.UpdatedAt := monotonicAccountUpdatedAt account updatedAt |>);
  mret tt.

Definition CompleteEnableInTransaction (id updatedAt : Z) : Tx unit :=
  if (id <=? 0) || (updatedAt <=? 0) then st_fail ErrCustomerLifecycleContract
  else
    scope ← LockCustomerOperationScope id;
    _ ← st_lift (enableable scope);
    let updatedAt := monotonicCustomerUpdatedAt scope.(CustomerScope.customer) updatedAt in
    let accounts := base.filter (fun a => (a.(MAccount.ManagedStatus) != AccountManagedStatusArchived)
                                          && (a.(MAccount.RemoteState) != AccountRemoteStateIdentityMismatch) = true)
                      scope.(CustomerScope.Accounts) in
    runs ← lockCustomerEnableRuns id (MAccount.ID <$> accounts);
    match latest_of (customer_rebuild_of id) runs with
    | None => st_fail ErrCustomerEnableNotReady
    | Some customerRun =>
        _ ← st_require ((customerRun.(Run.Status) == "success")
                        && rebuildRunCoversRange customerRun
                             scope.(CustomerScope.customer).(MCustomer.StatisticsPausedAt) updatedAt)
              ErrCustomerEnableNotReady;
        _ ← st_require (forallb (account_ready runs customerRun updatedAt) accounts) ErrCustomerEnableNotReady;
        _ ← st_fold (fun account _ => open_customer_account updatedAt account) accounts tt;
        _ ← db_update (customer_has_id id) (fun c => c
              <| MCustomer.Status := "using" |> <| MCustomer.StatisticsPausedAt := None |>
              <| MCustomer.StatisticsBackfillStatus := "none" |> <| MCustomer.UpdatedAt := updatedAt |>);
        mret tt
    end.

(** ** The service *)
Definition validateAccountSite (site : Site) : result unit :=
  if negb site.(MSite.DataExportEnabled) then Err ErrSiteExportDisabled
  else if (site.(MSite.ManagementStatus) != SiteManagementActive) || (site.(MSite.AuthStatus) != SiteAuthAuthorized)
          || not_nil site.(MSite.StatisticsEndAt) || is_nil site.(MSite.RootUserID)
          || is_nil site.(MSite.AccessTokenEncrypted) then Err ErrSiteInvalidState
  else Ok tt.

Definition capability_ready (statuses : gmap string string) (key : string) : bool :=
  match statuses !! key with
  | Some status => (status == CapabilityStatusPassed)
                   || ((status == CapabilityStatusSkipped) && (key == CapabilityFlowDataConsistency))
  | None => false
  end.

Definition requiredCapabilitiesReadyExcept (siteID : Z) (excluded : list string) : Tx bool :=
  capabilities ← db_select (fun c => c.(MCapability.SiteID) =? siteID) by_capability_key;
  let statuses := foldl (fun m c => <[c.(MCapability.CapabilityKey) := c.(MCapability.Status)]> m) ∅ capabilities in
  mret (forallb (fun key => existsb (fun e => e == key) excluded || capability_ready statuses key) SiteCapabilityKeys).
Definition requiredCapabilitiesReady (siteID : Z) : Tx bool := requiredCapabilitiesReadyExcept siteID [].

Definition activeLocalRebuildRun (targetType : string) (targetID : Z) (taskType : string) : Tx (option CollectionRun) :=
  runs ← db_select (fun r => (r.(Run.TargetType) == targetType) && (r.(Run.TargetID) =? targetID)
                             && (r.(Run.TaskType) == taskType) && active_status r) by_id_desc;
  mret (head runs).

Definition sameRunRange (run : CollectionRun) (start end_ : Z) : bool :=
  match run.(Run.StartTimestamp), run.(Run.EndTimestamp) with
  | Some s, Some e => (s =? start) && (e =? end_)
  | _, _ => false
  end.

Definition newLocalRebuildRun (targetType : string) (targetID : Z) (taskType : string) (start end_ : Z)
    (requestID : string) (now : Z) : result CollectionRun :=
  let start := floorHour start in
  let end_ := floorHour end_ in
  let end_ := if end_ <? start then start else end_ in
  scope ← CanonicalCollectionRunScope taskType "{}";
  activeKey ← CollectionRunActiveKey taskType targetType targetID (Some start) (Some end_);
  Ok (zero_run
        <| Run.TaskType := taskType |> <| Run.TargetType := targetType |> <| Run.TargetID := targetID |>
        <| Run.TriggerType := CollectionTriggerDependency |> <| Run.StartTimestamp := Some start |>
        <| Run.EndTimestamp := Some end_ |> <| Run.Scope := scope |> <| Run.ActiveKey := Some activeKey |>
        <| Run.Status := "pending" |> <| Run.Priority := CollectionPriorityLocalRebuild |>
        <| Run.NextAttemptAt := now |> <| Run.CreatedRequestID := requestID |>
        <| Run.LastRequestID := requestID |> <| Run.CreatedAt := now |> <| Run.UpdatedAt := now |>).

(** What [Restore] and [Enable] do with the range: the rebuild that is already
    active over it, or a new one after [begin]. *)
Definition enqueue_rebuild (targetType : string) (id : Z) (taskType : string) (paused now committedAt : Z)
    (requestID : string) (begin : Tx unit) : Tx (CollectionRun * bool) :=
  let start := floorHour paused in
  let end_ := floorHour now in
  let end_ := if end_ <? start then start else end_ in
  existing ← activeLocalRebuildRun targetType id taskType;
  match existing with
  | Some run => if negb (sameRunRange run start end_) then st_fail ErrEntityBackfillRunning else mret (run, true)
  | None =>
      _ ← begin;
      run ← st_lift (newLocalRebuildRun targetType id taskType paused (floorHour now) requestID committedAt);
      CreateOrGetRun run
  end.

(** [AccountService.Archive]: an archived account stays as it is. *)
Definition AccountArchive (id now : Z) : Tx unit :=
  account ← db_first (R := Account) id;
  if account.(MAccount.ManagedStatus) == AccountManagedStatusArchived then mret tt
  else
    scope ← LockAccountOperationScope id;
    let committedAt := monotonicMutationTime now scope.(AccountScope.account).(MAccount.UpdatedAt) in
    ArchiveAccount id (floorHour now) committedAt.

Definition AccountRestore (id now : Z) (requestID : string) : Tx (CollectionRun * bool) :=
  scope ← LockAccountOperationScope id;
  _ ← st_lift (validateAccountSite scope.(AccountScope.site));
  ready ← requiredCapabilitiesReady scope.(AccountScope.site).(MSite.ID);
  _ ← st_require ready ErrSiteCapabilitiesPending;
  let account := scope.(AccountScope.account) in
  match account.(MAccount.StatisticsPausedAt) with
  | None => st_fail ErrAccountInvalidState
  | Some paused =>
      if (scope.(AccountScope.customer).(MCustomer.Status) == "disabled")
         || (account.(MAccount.RemoteState) == AccountRemoteStateIdentityMismatch)
         || (account.(MAccount.ManagedStatus) != AccountManagedStatusArchived)
      then st_fail ErrAccountInvalidState
      else
        let committedAt := monotonicMutationTime now account.(MAccount.UpdatedAt) in
        enqueue_rebuild "account" id TaskTypeAccountRebuild paused now committedAt requestID
          (BeginRestoreInTransaction id committedAt)
  end.

Definition AccountCompleteRestore (id now : Z) : Tx unit :=
  scope ← LockAccountOperationScope id;
  CompleteRestoreInTransaction id (monotonicMutationTime now scope.(AccountScope.account).(MAccount.UpdatedAt)).

Definition AccountMarkIdentityMismatch (account : Account) (now : Z) : Tx (Account * bool) :=
  MarkIdentityMismatch account.(MAccount.ID) now (floorHour now) now.

Definition CustomerDisable (id now : Z) : Tx unit :=
  scope ← LockCustomerOperationScope id;
  let committedAt := monotonicMutationTime now scope.(CustomerScope.customer).(MCustomer.UpdatedAt) in
  DisableInTransaction id (floorHour now) committedAt.

Definition CustomerEnable (id now : Z) (requestID : string) : Tx (CollectionRun * bool) :=
  scope ← LockCustomerOperationScope id;
  let customer := scope.(CustomerScope.customer) in
  match customer.(MCustomer.StatisticsPausedAt) with
  | None => st_fail ErrCustomerInvalidState
  | Some paused =>
      if customer.(MCustomer.Status) != "disabled" then st_fail ErrCustomerInvalidState
      else
        let committedAt := monotonicMutationTime now customer.(MCustomer.UpdatedAt) in
        enqueue_rebuild "customer" id TaskTypeCustomerRebuild paused now committedAt requestID
          (BeginEnableInTransaction id committedAt)
  end.

Definition CustomerCompleteEnable (id now : Z) : Tx unit :=
  scope ← LockCustomerOperationScope id;
  CompleteEnableInTransaction id (monotonicMutationTime now scope.(CustomerScope.customer).(MCustomer.UpdatedAt)).

(** ** Creating customers and accounts *)

(** [dto.UpstreamUser]: what the site says about a user. *)
Module RemoteUser.
Record UpstreamUser := mk {
  ID : Z; Username : string; DisplayName : string; Group : string; Status : Z; Quota : Z; UsedQuota : Z;
  RequestCount : Z; CreatedAt : Z; Deleted : bool }.
End RemoteUser.
Abbreviation UpstreamUser := RemoteUser.UpstreamUser.

Definition zero_customer : Customer := MCustomer.mk 0 "" "" "" "" "" "" None "" 0 0.
Definition zero_account : Account := MAccount.mk 0 0 0 0 0 "" "" "" 0 "" 0 None 0 0 0 "" None "" None "" 0 0.

(** The statuses a request may set. *)
Definition ValidCustomerWriteStatus (status : string) : bool := is_one_of status ["communicating"; "signing"; "using"].

Definition customer_amount (amount : string) : string := if amount == "" then "0" else amount.

(** [CustomerService.Create]; the validation of the texts of the request is not
    modelled, that of its status is. *)
Definition CustomerCreate (Name Contact Remark ContractAmount PaymentAmount Status : string) (now : Z) : Tx Customer :=
  if negb (ValidCustomerWriteStatus Status) then st_fail (ErrOther "customer request is invalid")
  else db_create (zero_customer
    <| MCustomer.Name := Name |> <| MCustomer.Contact := Contact |> <| MCustomer.Remark := Remark |>
    <| MCustomer.ContractAmount := customer_amount ContractAmount |>
    <| MCustomer.PaymentAmount := customer_amount PaymentAmount |> <| MCustomer.Status := Status |>
    <| MCustomer.StatisticsBackfillStatus := "none" |> <| MCustomer.CreatedAt := now |> <| MCustomer.UpdatedAt := now |>).

(** [CustomerService.Update] *)
Definition CustomerUpdate (id : Z) (Name Contact Remark ContractAmount PaymentAmount Status : string) (now : Z) : Tx unit :=
  if negb (ValidCustomerWriteStatus Status) then st_fail (ErrOther "customer request is invalid")
  else
    current ← db_first (R := Customer) id;
    UpdateProfile (current
      <| MCustomer.Name := Name |> <| MCustomer.Contact := Contact |> <| MCustomer.Remark := Remark |>
      <| MCustomer.ContractAmount := customer_amount ContractAmount |>
      <| MCustomer.PaymentAmount := customer_amount PaymentAmount |> <| MCustomer.Status := Status |>
      <| MCustomer.UpdatedAt := monotonicMutationTime now current.(MCustomer.UpdatedAt) |>).

Definition validateExactRemoteUser (user : UpstreamUser) (expectedID now : Z) : result unit :=
  if negb (user.(RemoteUser.ID) =? expectedID) then Err (ErrOther "upstream user identity conflicts with the selected binding")
  else if user.(RemoteUser.Deleted) then Err (ErrOther "upstream user not found")
  else if (user.(RemoteUser.CreatedAt) <=? 0) || (now <? user.(RemoteUser.CreatedAt))
  then Err (ErrOther "upstream user identity conflicts with the selected binding")
  else Ok tt.

Definition aggregateCustomerBackfillStatus (customerID : Z) : Tx string :=
  running ← st_gets (fun d => count (fun r => (r.(Run.Status) == "running")
    && (((r.(Run.TargetType) == "customer") && (r.(Run.TargetID) =? customerID)) || run_account_customer d r customerID))
    (table_rows d));
  mret (if 0 <? running then "running" else "pending").

(** [AccountService.Create], the transaction after the site answered;
    [originalSite] is the site as read before the request.  Its first half
    inserts the account of a customer that is in use. *)
Definition create_account (originalSite : Site) (siteID customerID remoteUserID : Z) (Remark : string)
    (remote : UpstreamUser) (now : Z) : Tx (Customer * Account) :=
  _ ← st_lift (validateExactRemoteUser remote remoteUserID now);
  currentSite ← FindByIDForUpdate siteID;
  _ ← st_require ((currentSite.(MSite.ConfigVersion) =? originalSite.(MSite.ConfigVersion))
                  && (currentSite.(MSite.BaseURL) == originalSite.(MSite.BaseURL))) (ErrOther "site config changed");
  _ ← st_lift (validateAccountSite currentSite);
  ready ← requiredCapabilitiesReady siteID;
  _ ← st_require ready ErrSiteCapabilitiesPending;
  customer ← db_first (R := Customer) customerID;
  _ ← st_require (customer.(MCustomer.Status) == "using") ErrCustomerInvalidState;
  bound ← db_select (fun a => (a.(MAccount.SiteID) =? siteID) && (a.(MAccount.RemoteUserID) =? remoteUserID)) by_id;
  _ ← st_require (bool_decide (bound = [])) (ErrOther "remote user is already managed");
  account ← db_create (zero_account
    <| MAccount.SiteID := siteID |> <| MAccount.CustomerID := customerID |> <| MAccount.RemoteUserID := remoteUserID |>
    <| MAccount.RemoteCreatedAt := remote.(RemoteUser.CreatedAt) |> <| MAccount.Username := remote.(RemoteUser.Username) |>
    <| MAccount.DisplayName := remote.(RemoteUser.DisplayName) |> <| MAccount.RemoteGroup := remote.(RemoteUser.Group) |>
    <| MAccount.RemoteStatus := remote.(RemoteUser.Status) |> <| MAccount.RemoteState := AccountRemoteStateNormal |>
    <| MAccount.LastRemoteSeenAt := Some now |> <| MAccount.Quota := remote.(RemoteUser.Quota) |>
    <| MAccount.UsedQuota := remote.(RemoteUser.UsedQuota) |> <| MAccount.RequestCount := remote.(RemoteUser.RequestCount) |>
    <| MAccount.ManagedStatus := AccountManagedStatusActive |> <| MAccount.StatisticsBackfillStatus := "pending" |>
    <| MAccount.LastSyncedAt := Some now |> <| MAccount.Remark := Remark |>
    <| MAccount.CreatedAt := now |> <| MAccount.UpdatedAt := now |>);
  mret (customer, account).

Definition AccountCreate (originalSite : Site) (siteID customerID remoteUserID : Z) (Remark : string)
    (remote : UpstreamUser) (now : Z) (requestID : string) : Tx Account :=
  '(customer, account) ← create_account originalSite siteID customerID remoteUserID Remark remote now;
  scope ← LockAccountOperationScope account.(MAccount.ID);
  _ ← st_require (scope.(AccountScope.site).(MSite.ConfigVersion) =? originalSite.(MSite.ConfigVersion))
        (ErrOther "site config changed");
  _ ← st_require (scope.(AccountScope.customer).(MCustomer.Status) == "using") ErrCustomerInvalidState;
  run ← st_lift (newLocalRebuildRun "account" account.(MAccount.ID) TaskTypeAccountRebuild
                   remote.(RemoteUser.CreatedAt) (floorHour now) requestID now);
  _ ← CreateOrGetRun run;
  customerBackfillStatus ← aggregateCustomerBackfillStatus customerID;
  _ ← db_update (customer_has_id customerID) (fun c => c
        <| MCustomer.StatisticsBackfillStatus := customerBackfillStatus |>
        <| MCustomer.UpdatedAt := monotonicMutationTime now customer.(MCustomer.UpdatedAt) |>);
  mret account.

(** [AccountService.Update] *)
Definition AccountUpdate (id : Z) (Remark : string) (now : Z) : Tx unit :=
  scope ← LockAccountOperationScope id;
  let committedAt := monotonicMutationTime now scope.(AccountScope.account).(MAccount.UpdatedAt) in
  _ ← db_update (account_has_id id) (fun a => a <| MAccount.Remark := Remark |> <| MAccount.UpdatedAt := committedAt |>);
  mret tt.

(** [AccountService.Refresh] once the site answered with [remote]; [account] is
    the account as read before the request.  The observation and the mismatch
    are transactions of their own. *)
Definition AccountRefresh (account : Account) (remote : UpstreamUser) (now : Z) : Tx (Account * bool) := fun d =>
  let mismatch := AccountMarkIdentityMismatch account now d in
  if negb (remote.(RemoteUser.ID) =? account.(MAccount.RemoteUserID)) || (remote.(RemoteUser.CreatedAt) <=? 0)
     || (now <? remote.(RemoteUser.CreatedAt)) || remote.(RemoteUser.Deleted) then
    if (remote.(RemoteUser.ID) =? account.(MAccount.RemoteUserID)) && remote.(RemoteUser.Deleted)
    then Err (ErrOther "upstream user not found")
    else mismatch
  else if negb (remote.(RemoteUser.CreatedAt) =? account.(MAccount.RemoteCreatedAt)) then mismatch
  else
    match ApplyAuthoritativeRemoteSnapshot account.(MAccount.ID)
            (RemoteSnapshot.mk remote.(RemoteUser.CreatedAt) remote.(RemoteUser.Username) remote.(RemoteUser.DisplayName)
               remote.(RemoteUser.Group) remote.(RemoteUser.Status) remote.(RemoteUser.Quota) remote.(RemoteUser.UsedQuota)
               remote.(RemoteUser.RequestCount) now now) d with
    | Err e => if e == ErrAccountIdentityMismatch then mismatch else Err e
    | r => r
    end.
