(* ===== verification/PauseBehaviour.v ===== *)
(** * The statistics after a pause

    From the pause on an account has no hourly rows, and its days and the rows
    of its customer on its site are the sums of the hourly rows that are left;
    every other row is as before. *)

From S2P Require Import Prelude Constants GoText Stats DateBucket Store Frame RunContract RunState RunRepository SiteFence TaskScope UsageAggregation RollupRebuild StatisticsPause AccountLifecycle.

(** ** The tables *)
Definition acct_hourly (d : Db) := (Tables.statistics d).(Statistics.hourly).(Rollup.account_stat).
Definition acct_daily (d : Db) := (Tables.statistics d).(Statistics.daily).(Rollup.account_stat).
Definition cust_hourly (d : Db) := (Tables.statistics d).(Statistics.hourly).(Rollup.customer_stat).
Definition cust_daily (d : Db) := (Tables.statistics d).(Statistics.daily).(Rollup.customer_stat).

Definition other_rollups (r : Rollup) :=
  (r.(Rollup.site_stat), r.(Rollup.global_stat), r.(Rollup.model_stat), r.(Rollup.channel_stat)).
(** What no pause touches: everything but the rows of accounts and customers. *)
Definition untouched (d : Db) :=
  (d <| Tables.statistics := no_statistics |>,
   (Tables.statistics d).(Statistics.aggregation_bucket_lock), (Tables.statistics d).(Statistics.usage_fact_daily),
   other_rollups (Tables.statistics d).(Statistics.hourly), other_rollups (Tables.statistics d).(Statistics.daily)).

(** The hourly rows of an account on a date. *)
Definition day_rows (t : gmap (Z * Z) StatRow) (id date : Z) : list (Z * StatRow) :=
  (fun '(i, _, r) => (i, r)) <$> base.filter (fun '(i, hour, _) => (i =? id) && (hour_date hour =? date) = true) (map_to_list t).

(** The row computed from hourly rows, when there are any. *)
Definition recounted (final : bool) (active : list Z -> Z) (now : Z) (previous : option StatRow) (l : list (Z * StatRow))
  : option StatRow :=
  match l with [] => None | _ :: _ => Some (keep_previous final previous (pause_row active now l)) end.

(** ** Dates *)
Lemma hour_date_day h h' : local_day h < local_day h' -> hour_date h < hour_date h'.
Proof.
  intros H. unfold hour_date. replace (local_day h') with (local_day h + (local_day h' - local_day h)) by lia.
  apply date_key_lt. lia.
Qed.
Lemma hour_date_same h h' : local_day h = local_day h' -> hour_date h = hour_date h'.
Proof. unfold hour_date. by intros ->. Qed.
Opaque hour_date.

Lemma hour_date_le h h' : h <= h' -> hour_date h <= hour_date h'.
Proof.
  intros H. assert (local_day h <= local_day h') as [E|E]%Z.le_lteq by (unfold local_day; apply Z.div_le_mono; lia).
  - apply Z.lt_le_incl. by apply hour_date_day.
  - apply Z.eq_le_incl. by apply hour_date_same.
Qed.

Lemma hour_date_lt h h' : hour_date h < hour_date h' -> h < h'.
Proof. intros H. destruct (Z.lt_ge_cases h h') as [|Hle]; [done|]. apply hour_date_le in Hle. lia. Qed.

Lemma day_start_le p h : day_start (local_day p) <= h <-> hour_date p <= hour_date h.
Proof.
  pose proof (local_day_start p) as Hp. split.
  - intros H. rewrite <- (hour_date_same (day_start (local_day p)) p); [by apply hour_date_le|].
    apply local_day_unique. lia.
  - intros H. destruct (Z.le_gt_cases (day_start (local_day p)) h) as [|Hlt]; [done|]. exfalso.
    assert (local_day h < local_day p) as Hd.
    { pose proof (local_day_start h). unfold day_start in *. lia. }
    apply hour_date_day in Hd. lia.
Qed.

(** ** Groups of selected rows *)
Lemma group_filter {K R A} `{!EqDecision K, !Countable K} (f : A -> K * R) (p q : A -> Prop)
    `{!forall x, Decision (p x), !forall x, Decision (q x)} k (l : list A) :
  (forall x, x ∈ l -> (p x /\ (f x).1 = k) <-> q x) ->
  group_of k (f <$> base.filter p l) = (fun x => (f x).2) <$> base.filter q l.
Proof.
  unfold group_of. induction l as [|x l IH]; intros Hpq; [done|].
  rewrite !(filter_cons _ x). specialize (IH (fun y Hy => Hpq y (list_elem_of_further _ _ _ Hy))).
  pose proof (Hpq x (list_elem_of_here _ _)) as Hx. destruct (decide (p x)) as [Hp|Hp].
  - rewrite fmap_cons, filter_cons. destruct (decide ((f x).1 = k)) as [Hk|Hk].
    + rewrite decide_True by tauto. rewrite !fmap_cons. by f_equal.
    + rewrite decide_False by tauto. exact IH.
  - rewrite decide_False by tauto. exact IH.
Qed.

Lemma lookup_pause_rows {K} `{!EqDecision K, !Countable K} final active now (existing : gmap K StatRow) items k :
  pause_rows final active now existing items !! k = recounted final active now (existing !! k) (group_of k items).
Proof.
  unfold pause_rows. rewrite map_lookup_imap, lookup_grouped. unfold recounted. by destruct (group_of k items).
Qed.

(** The rows that replace those of an account after they were deleted. *)
Lemma insert_accounts_inv new r n r' : insert_accounts new r = Ok (n, r') ->
  r'.(Rollup.account_stat) = new ∪ r.(Rollup.account_stat) /\
  r'.(Rollup.customer_stat) = r.(Rollup.customer_stat) /\ other_rollups r' = other_rollups r.
Proof.
  unfold insert_accounts. destruct (insert_select _ _ _) as [[m t]|e] eqn:E; [|done]. intros [= <- <-].
  apply insert_select_ok in E as (_&_&->). done.
Qed.

Lemma insert_customers_inv new r n r' : insert_customers new r = Ok (n, r') ->
  r'.(Rollup.customer_stat) = new ∪ r.(Rollup.customer_stat) /\
  r'.(Rollup.account_stat) = r.(Rollup.account_stat) /\ other_rollups r' = other_rollups r.
Proof.
  unfold insert_customers. destruct (insert_select _ _ _) as [[m t]|e] eqn:E; [|done]. intros [= <- <-].
  apply insert_select_ok in E as (_&_&->). done.
Qed.

(** The group of a date of the account's remaining hours. *)
Lemma account_day_group t id p date : hour_date p <= date ->
  group_of (id, date) (account_day_items t id (day_start (local_day p))) = day_rows t id date.
Proof.
  intros Hd. unfold account_day_items, day_rows. rewrite (group_filter _ _ (fun '(i, hour, _) => (i =? id) && (hour_date hour =? date) = true)).
  - apply list_fmap_ext. by intros ? [[i hour] r] _.
  - intros [[i hour] r] _. simpl. rewrite !andb_true_iff, !Z.eqb_eq, Z.leb_le, day_start_le. split.
    + by intros [[-> _] [= <-]].
    + by intros [-> <-].
Qed.

Lemma account_day_other t id p i date : (i =? id) && (hour_date p <=? date) = false ->
  group_of (i, date) (account_day_items t id (day_start (local_day p))) = [].
Proof.
  intros Hne. destruct (group_of _ _) as [|r l] eqn:E; [done|]. exfalso.
  assert (Hin : r ∈ group_of (i, date) (account_day_items t id (day_start (local_day p)))) by (rewrite E; set_solver).
  apply elem_of_group in Hin. unfold account_day_items in Hin.
  apply list_elem_of_fmap in Hin as ([[j hour] r']&[= -> -> _]&Hin). apply list_elem_of_filter in Hin as [Hin _].
  rewrite andb_true_iff, Z.leb_le, day_start_le in Hin. rewrite Z.eqb_refl in Hne. simpl in Hne. lia.
Qed.

(** ** One account *)
Lemma cleanup_account_spec now account d u d' : cleanup_account now account d = Ok (u, d') ->
  let id := account.(PauseAccount.ID) in let p := account.(PauseAccount.PauseAt) in
  (forall i h, acct_hourly d' !! (i, h) = if (i =? id) && (p <=? h) then None else acct_hourly d !! (i, h)) /\
  (forall i date, acct_daily d' !! (i, date) =
     if (i =? id) && (hour_date p <=? date)
     then recounted true no_users now (acct_daily d !! (i, date)) (day_rows (acct_hourly d') i date)
     else acct_daily d !! (i, date)) /\
  cust_hourly d' = cust_hourly d /\ cust_daily d' = cust_daily d /\ untouched d' = untouched d.
Proof.
  intros H id p. unfold cleanup_account in H. destruct (statisticsPauseDateBoundary _) as [dateKey dateStart] eqn:Eb.
  unfold statisticsPauseDateBoundary in Eb. injection Eb as <- <-. cbv zeta in H.
  apply st_bind_ok in H as (existing&d1&H1&H). apply st_gets_ok in H1 as [= -> ->].
  apply st_bind_ok in H as (u1&d1&->%stats_modify_ok&H).
  apply st_bind_ok in H as (hourly&d2&H2&H). apply st_gets_ok in H2 as [= -> ->].
  apply st_bind_ok in H as (n&d2&(s2&H2&->)%stats_update_ok&H). apply st_ret_pair in H as [_ ->].
  unfold on_daily in H2. simpl in H2. destruct (insert_accounts _ _) as [[m r]|e] eqn:E; [|done]. injection H2 as <- <-.
  apply insert_accounts_inv in E as (Ea&Ec&Eo). simpl in Ea, Ec. unfold acct_hourly, acct_daily, cust_hourly, cust_daily, untouched. simpl.
  assert (Hh : forall i h, delete_keys (fun '(j, hour) => (j =? id) && (p <=? hour)) (acct_hourly d) !! (i, h) =
    if (i =? id) && (p <=? h) then None else acct_hourly d !! (i, h)).
  { intros i h. by rewrite lookup_delete_keys. }
  split; [exact Hh|]. split; [|by rewrite Ec, Eo].
  intros i date. rewrite Ea, lookup_union, lookup_pause_rows, lookup_delete_keys. simpl. fold id p.
  destruct ((i =? id) && (hour_date p <=? date)) eqn:Ei.
  - apply andb_true_iff in Ei as [->%Z.eqb_eq Hle%Z.leb_le]. rewrite account_day_group by done. by rewrite (right_id_L None (∪)).
  - rewrite account_day_other by done. simpl. by rewrite (left_id_L None (∪)).
Qed.

(** ** A customer on a site *)

(** The hours of the accounts of the customer on the site that no pause
    reaches. *)
Definition unpaused_row (d : Db) (key : statisticsPauseCustomerSite) (id hour : Z) : bool :=
  match Tables.account d !! id with
  | Some a =>
      (a.(MAccount.CustomerID) =? key.(PauseCustomerSite.CustomerID)) && (a.(MAccount.SiteID) =? key.(PauseCustomerSite.SiteID))
      && not_paused a.(MAccount.StatisticsPausedAt) hour && not_paused key.(PauseCustomerSite.PauseAt) hour
  | None => false
  end.
Definition unpaused_rows (d : Db) (key : statisticsPauseCustomerSite) (at_ : Z -> bool) : list (Z * StatRow) :=
  (fun '(id, _, r) => (id, r))
  <$> base.filter (fun '(id, hour, _) => unpaused_row d key id hour && at_ hour = true) (map_to_list (acct_hourly d)).

Lemma counted_unpaused d key start id hour : counted_row d key start id hour = unpaused_row d key id hour && (start <=? hour).
Proof.
  unfold counted_row, unpaused_row. destruct (Tables.account d !! id) as [a|]; [|done].
  destruct (_ =? _), (_ =? _), (start <=? hour), (not_paused _ hour), (not_paused _ hour); done.
Qed.

Definition key_of (key : statisticsPauseCustomerSite) : Z * Z := (key.(PauseCustomerSite.CustomerID), key.(PauseCustomerSite.SiteID)).

Lemma customer_group d key start bucket b (within : bool) : (forall hour, bucket hour = b -> (start <=? hour) = within) ->
  forall c s, group_of (c, s, b) (customer_pause_items d key start bucket) =
  if bool_decide ((c, s) = key_of key) && within then unpaused_rows d key (fun hour => bucket hour =? b) else [].
Proof.
  intros Hw c s. unfold customer_pause_items. destruct (bool_decide _ && within) eqn:E.
  - apply andb_true_iff in E as [[= -> ->]%bool_decide_eq_true ->]. unfold unpaused_rows.
    rewrite (group_filter _ _ (fun '(id, hour, _) => unpaused_row d key id hour && (bucket hour =? b) = true)).
    + apply list_fmap_ext. by intros ? [[i hour] r] _.
    + intros [[i hour] r] _. simpl. rewrite counted_unpaused, !andb_true_iff, Z.eqb_eq. split.
      * by intros [[-> _] [= <-]].
      * intros [-> Hb]. rewrite (Hw hour Hb), Hb. done.
  - destruct (group_of _ _) as [|r l] eqn:Eg; [done|]. exfalso.
    assert (Hin : r ∈ group_of (c, s, b) (customer_pause_items d key start bucket)) by (unfold customer_pause_items; rewrite Eg; set_solver).
    apply elem_of_group in Hin. apply list_elem_of_fmap in Hin as ([[j hour] r']&[= -> -> -> _]&Hin).
    apply list_elem_of_filter in Hin as [Hin _]. rewrite counted_unpaused, (Hw hour eq_refl), andb_true_iff in Hin.
    destruct Hin as [_ Hin]. rewrite Hin, bool_decide_eq_true_2 in E; done.
Qed.

(** What one table of customers becomes. *)
Definition customer_rows (final : bool) (now : Z) (d : Db) (key : statisticsPauseCustomerSite) (bucket : Z -> Z) (from : Z)
    (before after : gmap (Z * Z * Z) StatRow) : Prop :=
  forall c s b, after !! (c, s, b) =
    if bool_decide ((c, s) = key_of key) && (from <=? b)
    then recounted final distinct_users now (before !! (c, s, b)) (unpaused_rows d key (fun hour => bucket hour =? b))
    else before !! (c, s, b).

Lemma customer_insert final now d key start bucket from t1 t : (forall hour, (start <=? hour) = (from <=? bucket hour)) ->
  t = pause_rows final distinct_users now t1 (customer_pause_items d key start bucket)
      ∪ delete_keys (fun '(c, s, b) => (c =? key.(PauseCustomerSite.CustomerID)) && (s =? key.(PauseCustomerSite.SiteID))
                                       && (from <=? b)) t1 ->
  customer_rows final now d key bucket from t1 t.
Proof.
  intros Hs -> c s b. rewrite lookup_union, lookup_pause_rows, lookup_delete_keys.
  rewrite (customer_group d key start bucket b (from <=? b)) by (intros hour <-; apply Hs).
  replace ((c =? PauseCustomerSite.CustomerID key) && (s =? PauseCustomerSite.SiteID key))
    with (bool_decide ((c, s) = key_of key)).
  - destruct (bool_decide _ && _); [by rewrite (right_id_L None (∪))|]. simpl. by rewrite (left_id_L None (∪)).
  - apply eq_true_iff_eq. unfold key_of. rewrite bool_decide_eq_true, andb_true_iff, !Z.eqb_eq. split; [by intros [= -> ->]|by intros [-> ->]].
Qed.

Lemma rebuild_hourly_spec key now d u d' : rebuildPausedCustomerHourly key now d = Ok (u, d') ->
  customer_rows false now d key (fun hour => hour) key.(PauseCustomerSite.Boundary) (cust_hourly d) (cust_hourly d') /\
  cust_daily d' = cust_daily d /\ acct_hourly d' = acct_hourly d /\ acct_daily d' = acct_daily d /\ untouched d' = untouched d.
Proof.
  intros H. unfold rebuildPausedCustomerHourly in H.
  apply st_bind_ok in H as (existing&d1&H1&H). apply st_gets_ok in H1 as [= -> ->].
  apply st_bind_ok in H as (u1&d1&->%stats_modify_ok&H).
  apply st_bind_ok in H as (hourly&d2&H2&H). apply st_gets_ok in H2 as [= -> ->].
  apply st_bind_ok in H as (n&d2&(s2&H2&->)%stats_update_ok&H). apply st_ret_pair in H as [_ ->].
  unfold on_hourly in H2. simpl in H2. destruct (insert_customers _ _) as [[m r]|e] eqn:E; [|done]. injection H2 as <- <-.
  apply insert_customers_inv in E as (Ec&Ea&Eo). simpl in Ea, Ec.
  unfold acct_hourly, acct_daily, cust_hourly, cust_daily, untouched. simpl. rewrite Ea, Eo. split; [|done].
  by eapply customer_insert; [|exact Ec].
Qed.

Lemma rebuild_daily_spec key now d u d' : rebuildPausedCustomerDaily key now d = Ok (u, d') ->
  customer_rows true now d key hour_date (hour_date key.(PauseCustomerSite.Boundary)) (cust_daily d) (cust_daily d') /\
  cust_hourly d' = cust_hourly d /\ acct_hourly d' = acct_hourly d /\ acct_daily d' = acct_daily d /\ untouched d' = untouched d.
Proof.
  intros H. unfold rebuildPausedCustomerDaily in H. unfold statisticsPauseDateBoundary in H. cbv beta iota in H.
  apply st_bind_ok in H as (existing&d1&H1&H). apply st_gets_ok in H1 as [= -> ->].
  apply st_bind_ok in H as (u1&d1&->%stats_modify_ok&H).
  apply st_bind_ok in H as (hourly&d2&H2&H). apply st_gets_ok in H2 as [= -> ->].
  apply st_bind_ok in H as (n&d2&(s2&H2&->)%stats_update_ok&H). apply st_ret_pair in H as [_ ->].
  unfold on_daily in H2. simpl in H2. destruct (insert_customers _ _) as [[m r]|e] eqn:E; [|done]. injection H2 as <- <-.
  apply insert_customers_inv in E as (Ec&Ea&Eo). simpl in Ea, Ec.
  unfold acct_hourly, acct_daily, cust_hourly, cust_daily, untouched. simpl. rewrite Ea, Eo. split; [|done].
  eapply customer_insert; [|exact Ec]. intros hour. apply eq_true_iff_eq. rewrite !Z.leb_le. apply day_start_le.
Qed.

(** ** The pause of one account *)

(** [d'] holds the statistics of [d] after the account paused at its pause. *)
Record account_paused_from (account : statisticsPauseAccount) (now : Z) (d d' : Db) : Prop := {
  hours_removed i h : acct_hourly d' !! (i, h) =
    if (i =? account.(PauseAccount.ID)) && (account.(PauseAccount.PauseAt) <=? h) then None else acct_hourly d !! (i, h);
  days_recounted i date : acct_daily d' !! (i, date) =
    if (i =? account.(PauseAccount.ID)) && (hour_date account.(PauseAccount.PauseAt) <=? date)
    then recounted true no_users now (acct_daily d !! (i, date)) (day_rows (acct_hourly d') i date)
    else acct_daily d !! (i, date);
  customer_hours : customer_rows false now d'
    (PauseCustomerSite.mk account.(PauseAccount.CustomerID) account.(PauseAccount.SiteID) account.(PauseAccount.PauseAt) None)
    (fun hour => hour) account.(PauseAccount.PauseAt) (cust_hourly d) (cust_hourly d');
  customer_days : customer_rows true now d'
    (PauseCustomerSite.mk account.(PauseAccount.CustomerID) account.(PauseAccount.SiteID) account.(PauseAccount.PauseAt) None)
    hour_date (hour_date account.(PauseAccount.PauseAt)) (cust_daily d) (cust_daily d');
  rest_kept : untouched d' = untouched d }.

Lemma normalize_one account : normalizeStatisticsPauseAccounts [account] =
  if pause_account_valid account then Ok [account] else Err ErrAccountObservationInvalid.
Proof.
  unfold normalizeStatisticsPauseAccounts. simpl. destruct (pause_account_valid account); [|done]. simpl.
  rewrite lookup_empty, insert_empty. cbn [mbind result_bind]. by rewrite map_to_list_singleton.
Qed.

Lemma sites_of_one account : statisticsPauseCustomerSites [account] [] =
  [PauseCustomerSite.mk account.(PauseAccount.CustomerID) account.(PauseAccount.SiteID) account.(PauseAccount.PauseAt) None].
Proof. unfold statisticsPauseCustomerSites. simpl. unfold add_account_boundary. by rewrite lookup_empty, insert_empty, map_to_list_singleton. Qed.

Lemma unpaused_rows_same d d' key f : Tables.account d' = Tables.account d -> acct_hourly d' = acct_hourly d ->
  unpaused_rows d' key f = unpaused_rows d key f.
Proof. unfold unpaused_rows, unpaused_row. by intros -> ->. Qed.

Lemma untouched_accounts d d' : untouched d' = untouched d -> Tables.account d' = Tables.account d.
Proof. intros H. by apply (f_equal (fun x => Tables.account x.1.1.1.1)) in H. Qed.

Lemma customer_rows_same final now d d' key bucket from before after :
  Tables.account d' = Tables.account d -> acct_hourly d' = acct_hourly d ->
  customer_rows final now d key bucket from before after -> customer_rows final now d' key bucket from before after.
Proof. intros H1 H2 H c s b. by rewrite (unpaused_rows_same d d' key _ H1 H2). Qed.

(** C14: pausing an account removes exactly its hourly rows from the pause on; the
    days from the day of the pause on and the rows of its customer on its site
    from the pause on become the sums of the hourly rows that are left and that
    no pause reaches, and vanish when there are none; a recounted row keeps the
    status, the finality and the creation of the row it replaces; nothing else
    changes. *)
Theorem pause_recounts_statistics account now d d' :
  cleanupStatisticsForPause [account] [] now d = Ok (tt, d') -> account_paused_from account now d d'.
Proof.
  intros H. unfold cleanupStatisticsForPause in H. destruct (now <=? 0); [by inv_ok|].
  apply st_bind_ok in H as (accounts&d1&H1&H). apply st_lift_ok in H1 as (l&H1&[= -> ->]).
  rewrite normalize_one in H1. destruct (pause_account_valid account); [|done]. injection H1 as <-.
  apply st_bind_ok in H as (customers&d1&H1&H). apply st_lift_ok in H1 as (l&[= <-]&[= -> ->]). simpl in H.
  apply st_bind_ok in H as ([]&d1&H1&H). unfold cleanupPausedAccountStatistics in H1.
  apply st_fold_cons in H1 as ([]&d1'&H1&[= ->]%st_fold_nil). apply cleanup_account_spec in H1 as (Hh&Hday&Hch&Hcd&Hu).
  unfold rebuildPausedCustomerStatistics in H. rewrite sites_of_one in H.
  apply st_fold_cons in H as ([]&d3&H3&[= ->]%st_fold_nil). apply st_bind_ok in H3 as ([]&d2&H2&H3).
  apply rebuild_hourly_spec in H2 as (Hh2&Hcd2&Ha2&Hd2&Hu2). apply rebuild_daily_spec in H3 as (Hd3&Hh3&Ha3&Hd3'&Hu3).
  pose proof (untouched_accounts _ _ Hu2) as A2. pose proof (untouched_accounts _ _ Hu3) as A3.
  split.
  - intros i h. rewrite Ha3, Ha2. apply Hh.
  - intros i date. rewrite Hd3', Hd2, Ha3, Ha2. apply Hday.
  - rewrite Hh3, <- Hch. apply (customer_rows_same _ _ d1'); [congruence|congruence|exact Hh2].
  - rewrite <- Hcd, <- Hcd2. apply (customer_rows_same _ _ d2); [done|done|exact Hd3].
  - congruence.
Qed.

Transparent hour_date.

(** An account with two hours and a part of the next day, paused at the second
    hour. *)
Module PauseSample.
Definition row (requests : Z) : StatRow := Stat.mk (Metrics.mk requests requests requests 1) "complete" false 1 1 1.
Definition account : Account :=
  MAccount.mk 4 7 2 5 1000 "bob" "Bob" "default" 1 "normal" 0 None 0 0 0 "archived" (Some 7200) "none" None "" 1 1.
Definition start : Db := Sample.db [] [] [] <| Tables.account := {[ 4 := account ]} |>
  <| Tables.statistics := no_statistics
       <| Statistics.hourly := empty_rollup
            <| Rollup.account_stat := {[ (4, 3600) := row 5; (4, 7200) := row 7; (4, 90000) := row 2 ]} |>
            <| Rollup.customer_stat := {[ (2, 7, 3600) := row 5; (2, 7, 7200) := row 7; (2, 7, 90000) := row 2 ]} |> |>
       <| Statistics.daily := empty_rollup
            <| Rollup.account_stat := {[ (4, 19700101) := row 12; (4, 19700102) := row 2 ]} |>
            <| Rollup.customer_stat := {[ (2, 7, 19700101) := row 12; (2, 7, 19700102) := row 2 ]} |> |> |>.
Definition paused : Db :=
  match cleanupStatisticsForPause [pause_of account 7200] [] 9000 start with Ok (_, d) => d | Err _ => start end.
Lemma paused_ok : cleanupStatisticsForPause [pause_of account 7200] [] 9000 start = Ok (tt, paused).
Proof.
  unfold paused. destruct (cleanupStatisticsForPause _ _ _ start) as [[[] d]|e] eqn:E; [done|]. by vm_compute in E.
Qed.
End PauseSample.

Lemma pause_recounts_statistics_witness :
  account_paused_from (pause_of PauseSample.account 7200) 9000 PauseSample.start PauseSample.paused /\
  acct_hourly PauseSample.paused = {[ (4, 3600) := PauseSample.row 5 ]} /\
  (Stat.metrics <$> acct_daily PauseSample.paused !! (4, 19700101)) = Some (Metrics.mk 5 5 5 0) /\
  acct_daily PauseSample.paused !! (4, 19700102) = None /\
  (Stat.metrics <$> cust_daily PauseSample.paused !! (2, 7, 19700101)) = Some (Metrics.mk 5 5 5 1) /\
  cust_hourly PauseSample.paused !! (2, 7, 7200) = None.
Proof.
  split; [|by vm_compute]. exact (pause_recounts_statistics _ 9000 _ _ PauseSample.paused_ok).
Defined.
