(* ===== verification/LifecycleBehaviour.v ===== *)
(** * The lifecycle of accounts and customers: its invariant

    [pause_explained]: the statistics of an account are paused exactly when it
    is archived, its remote user turned out to be another one, or its customer
    is disabled; a customer's exactly when it is disabled, and then the managed
    accounts are paused no later than it.  Every operation and the end of every
    local rebuild keep it. *)

From S2P Require Import Prelude Constants GoText Stats DateBucket Store Frame RunContract RunState RunRepository SiteFence TaskScope UsageAggregation StatisticsPause AccountLifecycle CustomerLifecycle.

(** The tables of the accounts and the customers. *)
Definition entities (d : Db) := (Tables.account d, Tables.customer d).

(** ** The invariant *)
Definition customer_disabled (customers : gmap Z Customer) (id : Z) : Prop :=
  exists c, customers !! id = Some c /\ c.(MCustomer.Status) = "disabled".
Definition archived (a : Account) : Prop := a.(MAccount.ManagedStatus) = AccountManagedStatusArchived.
Definition mismatched (a : Account) : Prop := a.(MAccount.RemoteState) = AccountRemoteStateIdentityMismatch.

Record account_ok (customers : gmap Z Customer) (a : Account) : Prop := {
  account_status : a.(MAccount.ManagedStatus) = AccountManagedStatusActive \/ archived a;
  account_paused : is_Some a.(MAccount.StatisticsPausedAt) <->
    archived a \/ mismatched a \/ customer_disabled customers a.(MAccount.CustomerID);
  account_before_customer : forall c p, customers !! a.(MAccount.CustomerID) = Some c ->
    c.(MCustomer.StatisticsPausedAt) = Some p -> a.(MAccount.ManagedStatus) = AccountManagedStatusActive ->
    exists q, a.(MAccount.StatisticsPausedAt) = Some q /\ q <= p }.

Definition customer_ok (c : Customer) : Prop :=
  is_Some c.(MCustomer.StatisticsPausedAt) <-> c.(MCustomer.Status) = "disabled".

Record pause_explained (e : gmap Z Account * gmap Z Customer) : Prop := {
  accounts_wf : table_wf e.1;
  customers_wf : table_wf e.2;
  accounts_ok : map_Forall (fun _ => account_ok e.2) e.1;
  customers_ok : map_Forall (fun _ => customer_ok) e.2 }.

(** ** Updates by id *)
Lemma update_by_id {R} `{!Table R} (t : gmap Z R) id f : table_wf t ->
  update_where (fun r => row_id r =? id) f t = alter f id t.
Proof.
  intros Hwf. apply map_eq. intros k. rewrite lookup_update_where. destruct (decide (k = id)) as [->|Hne].
  - rewrite lookup_alter_eq. destruct (t !! id) as [r|] eqn:Hr; [|done]. simpl. unfold upd. apply Hwf in Hr as ->.
    by rewrite Z.eqb_refl.
  - rewrite lookup_alter_ne by done. destruct (t !! k) as [r|] eqn:Hr; [|done]. simpl. unfold upd. apply Hwf in Hr as ->.
    by destruct (Z.eqb_spec k id).
Qed.

Lemma update_account_ok id f d n d' : table_wf (Tables.account d) ->
  db_update (account_has_id id) f d = Ok (n, d') -> entities d' = (alter f id (Tables.account d), Tables.customer d).
Proof. intros Hwf (_&->)%db_update_ok. unfold entities. simpl. f_equal. exact (update_by_id (R := Account) _ id f Hwf). Qed.

Lemma update_customer_ok id f d n d' : table_wf (Tables.customer d) ->
  db_update (customer_has_id id) f d = Ok (n, d') -> entities d' = (Tables.account d, alter f id (Tables.customer d)).
Proof. intros Hwf (_&->)%db_update_ok. unfold entities. simpl. f_equal. exact (update_by_id (R := Customer) _ id f Hwf). Qed.

(** ** What keeps the invariant *)
Definition same_binding (f : Account -> Account) : Prop := forall a,
  MAccount.ID (f a) = MAccount.ID a /\ MAccount.CustomerID (f a) = MAccount.CustomerID a.

Lemma pause_explained_account e f id : pause_explained e -> same_binding f ->
  (forall a, e.1 !! id = Some a -> account_ok e.2 a -> account_ok e.2 (f a)) -> pause_explained (alter f id e.1, e.2).
Proof.
  intros [Hwf Hwfc Ha Hc] Hb Hf. split; [|done| |done]; simpl.
  - intros k r [(->&r0&Hr&->)|(_&Hr)]%lookup_alter_Some; [|by apply Hwf]. simpl. rewrite (proj1 (Hb r0)). by apply Hwf.
  - intros k r [(->&r0&Hr&->)|(_&Hr)]%lookup_alter_Some; [|by eapply Ha]. apply Hf; [done|]. by eapply Ha.
Qed.

(** A customer changes, but neither its status class nor its pause. *)
Lemma pause_explained_customer e f id : pause_explained e ->
  (forall c, e.2 !! id = Some c -> MCustomer.ID (f c) = MCustomer.ID c /\
     (MCustomer.Status (f c) = "disabled" <-> MCustomer.Status c = "disabled") /\
     MCustomer.StatisticsPausedAt (f c) = MCustomer.StatisticsPausedAt c) ->
  pause_explained (e.1, alter f id e.2).
Proof.
  intros [Hwf Hwfc Ha Hc] Hf.
  assert (Hlook : forall k c, alter f id e.2 !! k = Some c -> exists c0, e.2 !! k = Some c0 /\
    MCustomer.ID c = MCustomer.ID c0 /\ (MCustomer.Status c = "disabled" <-> MCustomer.Status c0 = "disabled") /\
    MCustomer.StatisticsPausedAt c = MCustomer.StatisticsPausedAt c0).
  { intros k c [(->&c0&H0&->)|(_&H0)]%lookup_alter_Some; [|by eauto 10]. exists c0. auto. }
  assert (Hdis : forall k, customer_disabled (alter f id e.2) k <-> customer_disabled e.2 k).
  { intros k. unfold customer_disabled. split.
    - intros (c&(c0&H0&_&Hs&_)%Hlook&Hd). exists c0. tauto.
    - intros (c0&H0&Hd). destruct (decide (k = id)) as [->|Hne].
      + exists (f c0). rewrite lookup_alter_eq, H0. split; [done|]. by apply (Hf c0 H0).
      + exists c0. by rewrite lookup_alter_ne. }
  split; simpl; [done| | |].
  - intros k c (c0&H0&Hid&_)%Hlook. simpl. rewrite Hid. by apply Hwfc.
  - intros k a H. apply Ha in H as [H1 H2 H3]. split; [done| |].
    + by rewrite Hdis.
    + intros c p (c0&H0&_&_&Hp)%Hlook. rewrite Hp. eauto.
  - intros k c (c0&H0&_&Hs&Hp)%Hlook. unfold customer_ok. rewrite Hp, Hs. by apply (Hc k).
Qed.

(** ** The changes of an account *)
Lemma active_not_archived a : a.(MAccount.ManagedStatus) = AccountManagedStatusActive -> ~ archived a.
Proof. unfold archived. by intros ->. Qed.

Lemma effective_pause_le current p : forall q, current = Some q -> effective_pause current p <= q.
Proof. intros q ->. unfold effective_pause. destruct (Z.ltb_spec q p); lia. Qed.

Lemma account_ok_same customers a a' : account_ok customers a ->
  a'.(MAccount.CustomerID) = a.(MAccount.CustomerID) -> a'.(MAccount.ManagedStatus) = a.(MAccount.ManagedStatus) ->
  a'.(MAccount.StatisticsPausedAt) = a.(MAccount.StatisticsPausedAt) -> (mismatched a' <-> mismatched a) ->
  account_ok customers a'.
Proof.
  intros [H1 H2 H3] Hc Hm Hp Hr. unfold archived in *. split.
  - unfold archived. by rewrite Hm.
  - unfold archived. by rewrite Hp, Hm, Hc, Hr.
  - rewrite Hc, Hm, Hp. exact H3.
Qed.

Lemma account_ok_paused customers a a' p : account_ok customers a ->
  a'.(MAccount.CustomerID) = a.(MAccount.CustomerID) ->
  a'.(MAccount.StatisticsPausedAt) = Some (effective_pause a.(MAccount.StatisticsPausedAt) p) ->
  (archived a' \/ mismatched a') -> (archived a' \/ a'.(MAccount.ManagedStatus) = a.(MAccount.ManagedStatus)) ->
  account_ok customers a'.
Proof.
  intros [H1 H2 H3] Hc Hp Hr Hm. split.
  - destruct Hm as [Hm|Hm]; [by right|]. unfold archived in *. by rewrite Hm.
  - rewrite Hp. split; [tauto|by eauto].
  - rewrite Hc, Hp. intros c q Hlook Hq Hact. destruct Hm as [Hm|Hm]; [by apply active_not_archived in Hact|].
    destruct (H3 c q) as (q'&Hq'&Hle); [done|done|congruence|]. eexists. split; [done|].
    pose proof (effective_pause_le _ p q' Hq'). lia.
Qed.

Lemma account_ok_resumed customers a a' : account_ok customers a ->
  a'.(MAccount.CustomerID) = a.(MAccount.CustomerID) -> a'.(MAccount.ManagedStatus) = AccountManagedStatusActive ->
  a'.(MAccount.StatisticsPausedAt) = None -> ~ mismatched a' -> (forall c, customers !! a.(MAccount.CustomerID) = Some c ->
    c.(MCustomer.Status) <> "disabled" /\ customer_ok c) -> account_ok customers a'.
Proof.
  intros _ Hc Hact Hp Hr Hd. split.
  - by left.
  - rewrite Hp, Hc. split; [by intros [? [=]]|]. intros [Ha|[?|(c&Hl&Hs)]]; [by apply active_not_archived in Hact|done|].
    apply Hd in Hl as [? _]. done.
  - rewrite Hc. intros c p Hl Hpa. apply Hd in Hl as [Hn Hok]. destruct Hn. apply Hok. by rewrite Hpa.
Qed.

(** ** What the operations leave alone *)
Lemma preserves_stats {X A} (proj : Db -> X) (f : Statistics -> result (A * Statistics)) :
  (forall s d, proj (d <| Tables.statistics := s |>) = proj d) -> Preserves proj (stats_update f).
Proof. intros Hp d a d' H. unfold stats_update in H. destruct (f _) as [[a' s']|e]; [|done]. by injection H as <- <-. Qed.
#[export] Hint Extern 2 (Preserves entities (stats_update _)) => (apply preserves_stats; reflexivity) : typeclass_instances.
#[export] Hint Extern 2 (Preserves entities (stats_modify _)) => (apply preserves_stats; reflexivity) : typeclass_instances.
#[export] Hint Extern 2 (Preserves entities (db_create (R := CollectionRun) _)) =>
  (apply preserves_create; reflexivity) : typeclass_instances.

#[export] Instance cleanup_entities accounts customers now :
  Preserves entities (cleanupStatisticsForPause accounts customers now).
Proof.
  unfold cleanupStatisticsForPause, cleanupPausedAccountStatistics, cleanup_account, rebuildPausedCustomerStatistics,
    rebuildPausedCustomerHourly, rebuildPausedCustomerDaily. solve_frame.
Qed.

#[export] Instance CreateOrGetRun_entities run : Preserves entities (CreateOrGetRun run).
Proof. unfold CreateOrGetRun, insert_run_ignore. solve_frame. Qed.

#[export] Instance LockAccount_reads id : ReadsOnly (LockAccountOperationScope id).
Proof. unfold LockAccountOperationScope, lockSitesForUpdate. solve_frame. Qed.
#[export] Instance LockCustomer_reads id : ReadsOnly (LockCustomerOperationScope id).
Proof. unfold LockCustomerOperationScope, loadCustomerAccountReferences, lockSitesForUpdate. solve_frame. Qed.
#[export] Instance ready_reads id : ReadsOnly (requiredCapabilitiesReady id).
Proof. unfold requiredCapabilitiesReady, requiredCapabilitiesReadyExcept. solve_frame. Qed.
#[export] Instance active_rebuild_reads targetType id taskType : ReadsOnly (activeLocalRebuildRun targetType id taskType).
Proof. unfold activeLocalRebuildRun. solve_frame. Qed.
#[export] Instance latest_rebuild_reads targetType id taskType : ReadsOnly (latestRebuildRunForUpdate targetType id taskType).
Proof. unfold latestRebuildRunForUpdate. solve_frame. Qed.
#[export] Instance enable_runs_reads id ids : ReadsOnly (lockCustomerEnableRuns id ids).
Proof. unfold lockCustomerEnableRuns. solve_frame. Qed.

(** A transaction that keeps the invariant. *)
Class Keeps {A} (m : Tx A) : Prop :=
  keeps : forall d a d', pause_explained (entities d) -> m d = Ok (a, d') -> pause_explained (entities d').

Lemma preserves_keeps {A} (m : Tx A) : Preserves entities m -> Keeps m.
Proof. intros Hp d a d' H Hm. by rewrite (Hp d a d' Hm). Qed.

#[export] Instance keeps_bind {A B} (m : Tx A) (k : A -> Tx B) : Keeps m -> (forall a, Keeps (k a)) -> Keeps (m ≫= k).
Proof. intros Hm Hk d b d' H (a&d1&H1&H2)%st_bind_ok. eauto using keeps. Qed.

(** The scope of an account holds the account's row and its customer's. *)
Lemma LockAccount_ok id d scope d' : LockAccountOperationScope id d = Ok (scope, d') ->
  d' = d /\ Tables.account d !! id = Some scope.(AccountScope.account) /\
  Tables.customer d !! scope.(AccountScope.account).(MAccount.CustomerID) = Some scope.(AccountScope.customer).
Proof.
  intros H. pose proof (LockAccount_reads id d scope d' H) as Hr. simpl in Hr. subst d'. split; [done|].
  unfold LockAccountOperationScope in H. destruct (id <=? 0); [by inv_ok|].
  apply st_bind_ok in H as (ref&d1&[Href ->]%db_first_ok&H).
  apply st_bind_ok in H as (sites&d2&H2&H). apply st_gets_ok in H2 as [= -> ->].
  destruct (select _ _ d) as [|site [|? ?]]; try by inv_ok.
  apply st_bind_ok in H as (customer&d3&[Hc ->]%db_first_ok&H).
  apply st_bind_ok in H as (account&d4&[Ha ->]%db_first_ok&H).
  destruct (_ || _) eqn:E; [by inv_ok|]. apply orb_false_iff in E as [_ E]. apply negb_false_iff, Z.eqb_eq in E.
  apply st_ret_pair in H as [-> _]. simpl. by rewrite E.
Qed.

(** The scope of a customer holds its row and exactly its accounts. *)
Lemma LockCustomer_ok id d scope d' : table_wf (Tables.account d) -> LockCustomerOperationScope id d = Ok (scope, d') ->
  d' = d /\ Tables.customer d !! id = Some scope.(CustomerScope.customer) /\
  NoDup (MAccount.ID <$> scope.(CustomerScope.Accounts)) /\
  (forall a, a ∈ scope.(CustomerScope.Accounts) <->
     Tables.account d !! a.(MAccount.ID) = Some a /\ a.(MAccount.CustomerID) = id).
Proof.
  intros Hwf H. pose proof (LockCustomer_reads id d scope d' H) as Hr. simpl in Hr. subst d'. split; [done|].
  unfold LockCustomerOperationScope, loadCustomerAccountReferences in H. destruct (id <=? 0); [by inv_ok|].
  apply st_bind_ok in H as (refs&d1&H1&H). apply st_bind_ok in H1 as (owned&d2&H2&H1).
  apply st_gets_ok in H2 as [= -> ->]. apply st_ret_pair in H1 as [-> ->].
  apply st_bind_ok in H as (sites&d2&H2&H). apply st_gets_ok in H2 as [= -> ->].
  apply st_bind_ok in H as ([]&d2&[_ [= ->]]%st_require_ok&H).
  apply st_bind_ok in H as (customer&d3&[Hc ->]%db_first_ok&H).
  apply st_bind_ok in H as (accounts&d4&H4&H). apply st_gets_ok in H4 as [= -> ->].
  apply st_bind_ok in H as (again&d5&H5&H). apply st_bind_ok in H5 as (owned&d6&H6&H5).
  apply st_gets_ok in H6 as [= -> ->]. apply st_ret_pair in H5 as [-> ->].
  apply st_bind_ok in H as ([]&d7&[_ [= ->]]%st_require_ok&H). apply st_ret_pair in H as [-> _]. simpl.
  split; [done|]. split; [exact (select_NoDup (R := Account) _ _ d Hwf)|]. intros a.
  rewrite elem_of_select. unfold one_of_ids. rewrite existsb_exists. split.
  - intros [(i&(r&->&(ref&->&Hin)%list_elem_of_fmap)%list_elem_of_In%list_elem_of_fmap&Hi) (k&Hk)].
    apply elem_of_select in Hin as (Hcust&k'&Hk'). apply Z.eqb_eq in Hcust, Hi. simpl in Hi.
    pose proof (Hwf _ _ Hk) as E1. pose proof (Hwf _ _ Hk') as E2. simpl in *.
    assert (k = k') as -> by congruence. rewrite Hk in Hk'. injection Hk' as ->. rewrite <- E1 in Hk. by split.
  - intros [Hk Hcust]. split; [|eauto]. exists (MAccount.ID a). split; [|by apply Z.eqb_refl].
    apply list_elem_of_In, list_elem_of_fmap. exists (account_ref a). split; [done|]. apply list_elem_of_fmap.
    exists a. split; [done|]. apply elem_of_select. split; [by apply Z.eqb_eq|eauto].
Qed.

(** ** The operations on one account *)
Lemma keeps_update_account id f d n d' : pause_explained (entities d) -> same_binding f ->
  (forall a, Tables.account d !! id = Some a -> account_ok (Tables.customer d) a -> account_ok (Tables.customer d) (f a)) ->
  db_update (account_has_id id) f d = Ok (n, d') -> pause_explained (entities d').
Proof.
  intros Hd Hb Hf H. rewrite (update_account_ok id f d n d' (accounts_wf _ Hd) H).
  by apply (pause_explained_account (entities d)).
Qed.

Lemma keeps_update_customer id f d n d' : pause_explained (entities d) ->
  (forall c, Tables.customer d !! id = Some c -> MCustomer.ID (f c) = MCustomer.ID c /\
     (MCustomer.Status (f c) = "disabled" <-> MCustomer.Status c = "disabled") /\
     MCustomer.StatisticsPausedAt (f c) = MCustomer.StatisticsPausedAt c) ->
  db_update (customer_has_id id) f d = Ok (n, d') -> pause_explained (entities d').
Proof.
  intros Hd Hf H. rewrite (update_customer_ok id f d n d' (customers_wf _ Hd) H).
  by apply (pause_explained_customer (entities d)).
Qed.

(** An observation updates the row it read. *)
Lemma update_observed_ok locked id f d u d' : table_wf (Tables.account d) -> Tables.account d !! id = Some locked ->
  update_observed locked f d = Ok (u, d') -> entities d' = (alter f id (Tables.account d), Tables.customer d).
Proof.
  intros Hwf Hl H. unfold update_observed in H. apply st_bind_ok in H as (n&d1&[_ ->]%db_update_ok&H).
  apply st_require_ok in H as [_ [= _ ->]]. unfold entities. simpl. f_equal.
  rewrite <- (update_by_id (R := Account) _ id f Hwf). apply map_eq. intros k.
  rewrite !(lookup_update_where (R := Account)). destruct (Tables.account d !! k) as [r|] eqn:Hr; [|done]. simpl. f_equal.
  unfold upd, accountObservationCAS, account_has_id. pose proof (Hwf _ _ Hr) as E. pose proof (Hwf _ _ Hl) as E'. simpl in *.
  rewrite E', E. destruct (Z.eqb_spec k id) as [->|]; [|done]. rewrite Hl in Hr. injection Hr as ->.
  by rewrite !Z.eqb_refl, !bool_decide_eq_true_2.
Qed.

Lemma keeps_observed locked id f d u d' : pause_explained (entities d) -> Tables.account d !! id = Some locked ->
  same_binding f -> (account_ok (Tables.customer d) locked -> account_ok (Tables.customer d) (f locked)) ->
  update_observed locked f d = Ok (u, d') -> pause_explained (entities d').
Proof.
  intros Hd Hl Hb Hf H. rewrite (update_observed_ok locked id f d u d' (accounts_wf _ Hd) Hl H).
  apply (pause_explained_account (entities d)); [done|done|]. intros a Ha. simpl in Ha. rewrite Hl in Ha. by injection Ha as <-.
Qed.

#[export] Instance ApplySnapshot_keeps id snapshot : Keeps (ApplyAuthoritativeRemoteSnapshot id snapshot).
Proof.
  intros d r d' Hd H. unfold ApplyAuthoritativeRemoteSnapshot in H. destruct (_ || _); [by inv_ok|].
  apply st_bind_ok in H as (locked&d1&[Hl ->]%db_first_ok&H). destruct (_ && _); [by inv_ok|].
  destruct (negb _); [by inv_ok|]. cbv zeta in H. apply st_bind_ok in H as (u&d2&H2&H).
  apply st_bind_ok in H as (account&d3&[_ ->]%db_first_ok&H). apply st_ret_pair in H as [_ ->].
  eapply keeps_observed in H2; [exact H2|done|exact Hl|by intros a|]. intros Hok.
  apply (account_ok_same _ locked); [done..|]. unfold mismatched. simpl. case_bool_decide; by split.
Qed.

#[export] Instance MarkMissing_keeps id observedAt updatedAt : Keeps (MarkMissing id observedAt updatedAt).
Proof.
  intros d r d' Hd H. unfold MarkMissing in H. destruct (_ || _); [by inv_ok|].
  apply st_bind_ok in H as (locked&d1&[Hl ->]%db_first_ok&H).
  destruct (negb _); [by inv_ok|]. cbv zeta in H. destruct (if _ != _ then _ else _) as [nextCount nextState] eqn:E.
  apply st_bind_ok in H as (u&d2&H2&H).
  apply st_bind_ok in H as (account&d3&[_ ->]%db_first_ok&H). apply st_ret_pair in H as [_ ->].
  eapply keeps_observed in H2; [exact H2|done|exact Hl|by intros a|]. intros Hok.
  apply (account_ok_same _ locked); [done..|]. unfold mismatched. simpl. revert E. case_bool_decide as Em; simpl.
  - by intros [= _ <-].
  - intros [= _ <-]. split; [|done]. by destruct (2 <=? _).
Qed.

#[export] Instance MarkIdentityMismatch_keeps id observedAt pausedAt updatedAt :
  Keeps (MarkIdentityMismatch id observedAt pausedAt updatedAt).
Proof.
  intros d r d' Hd H. unfold MarkIdentityMismatch in H. destruct (_ || _); [by inv_ok|].
  apply st_bind_ok in H as (locked&d1&[Hl ->]%db_first_ok&H). destruct (negb _); [by inv_ok|]. cbv zeta in H.
  apply st_bind_ok in H as (u&d2&H2&H). apply st_bind_ok in H as (u'&d3&H3&H).
  apply st_bind_ok in H as (account&d4&[_ ->]%db_first_ok&H). apply st_ret_pair in H as [_ ->].
  apply cleanup_entities in H3. rewrite H3. eapply keeps_observed in H2; [exact H2|done|exact Hl|by intros a|]. intros Hok.
  apply (account_ok_paused _ locked _ pausedAt); [done..| |]; by right.
Qed.

#[export] Instance ArchiveAccount_keeps id pausedAt updatedAt : Keeps (ArchiveAccount id pausedAt updatedAt).
Proof.
  intros d r d' Hd H. unfold ArchiveAccount in H. destruct (_ || _); [by inv_ok|].
  apply st_bind_ok in H as (account&d1&[Hl ->]%db_first_ok&H). cbv zeta in H. apply st_bind_ok in H as (n&d2&H2&H).
  apply cleanup_entities in H. rewrite H. eapply keeps_update_account in H2; [exact H2|done|by intros a|].
  intros a Ha Hok. change (table d !! id) with (Tables.account d !! id) in Hl. rewrite Ha in Hl. injection Hl as ->.
  apply (account_ok_paused _ account _ pausedAt); [done..| |]; by left.
Qed.

Lemma restorable_ok scope u : restorable scope = Ok u ->
  scope.(AccountScope.customer).(MCustomer.Status) <> "disabled" /\ ~ mismatched scope.(AccountScope.account) /\
  archived scope.(AccountScope.account) /\ is_Some scope.(AccountScope.account).(MAccount.StatisticsPausedAt).
Proof.
  unfold restorable, mismatched, archived. case_bool_decide; [done|]. case_bool_decide; [done|].
  case_bool_decide; [|done]. destruct (MAccount.StatisticsPausedAt _); [|done]. by eauto.
Qed.

#[export] Instance BeginRestore_keeps id updatedAt : Keeps (BeginRestoreInTransaction id updatedAt).
Proof.
  intros d r d' Hd H. unfold BeginRestoreInTransaction in H. destruct (_ || _); [by inv_ok|].
  apply st_bind_ok in H as (scope&d1&[-> _]%LockAccount_ok&H). apply st_bind_ok in H as (u&d2&H2&H).
  apply st_lift_ok in H2 as (u'&_&[= -> ->]). cbv zeta in H. apply st_bind_ok in H as (n&d3&H3&H).
  apply st_ret_pair in H as [_ ->]. eapply keeps_update_account in H3; [exact H3|done|by intros a|].
  intros a _ Hok. by apply (account_ok_same _ a).
Qed.

#[export] Instance CompleteRestore_keeps id updatedAt : Keeps (CompleteRestoreInTransaction id updatedAt).
Proof.
  intros d r d' Hd H. unfold CompleteRestoreInTransaction in H. destruct (_ || _); [by inv_ok|].
  apply st_bind_ok in H as (scope&d1&(->&Ha&Hc)%LockAccount_ok&H). apply st_bind_ok in H as (u&d2&H2&H).
  apply st_lift_ok in H2 as (u'&(Hen&Hm&_)%restorable_ok&[= -> ->]). cbv zeta in H.
  apply st_bind_ok in H as (run&d3&H3&H). apply latest_rebuild_reads in H3. simpl in H3. subst d3.
  destruct (_ || _); [by inv_ok|]. apply st_bind_ok in H as (n&d3&H3&H). apply st_ret_pair in H as [_ ->].
  eapply keeps_update_account in H3; [exact H3|done|by intros a|]. intros a Ha' Hok. rewrite Ha in Ha'. injection Ha' as <-.
  apply (account_ok_resumed _ (AccountScope.account scope)); [done..|]. intros c Hc'. rewrite Hc in Hc'. injection Hc' as <-.
  split; [done|]. by apply (customers_ok _ Hd) in Hc.
Qed.

#[export] Instance UpdateProfile_keeps customer : Keeps (UpdateProfile customer).
Proof.
  intros d r d' Hd H. unfold UpdateProfile in H. case_bool_decide as Hs; [by inv_ok|]. cbv zeta in H.
  apply st_bind_ok in H as (current&d1&[Hl ->]%db_first_ok&H). case_bool_decide as Hs'; [by inv_ok|].
  apply st_bind_ok in H as (n&d2&H2&H). apply st_ret_pair in H as [_ ->].
  eapply keeps_update_customer in H2; [exact H2|done|]. intros c Hc. split; [done|]. split; [|done]. simpl.
  change (table d !! ?k) with (Tables.customer d !! k) in Hl. rewrite Hc in Hl. injection Hl as ->. done.
Qed.

#[export] Instance BeginEnable_keeps id updatedAt : Keeps (BeginEnableInTransaction id updatedAt).
Proof.
  intros d r d' Hd H. unfold BeginEnableInTransaction in H. destruct (_ || _); [by inv_ok|].
  apply st_bind_ok in H as (scope&d1&(->&_)%LockCustomer_ok&H); [|by destruct Hd]. apply st_bind_ok in H as (u&d2&H2&H).
  apply st_lift_ok in H2 as (u'&_&[= -> ->]). cbv zeta in H. apply st_bind_ok in H as (n&d3&H3&H).
  apply st_ret_pair in H as [_ ->]. eapply keeps_update_customer in H3; [exact H3|done|]. by intros c _.
Qed.

(** ** The operations on a customer and its accounts *)

(** A loop that updates the rows of a list by id. *)
Definition updates (f : Account -> Account -> Account) (account : Account) (t : gmap Z Account) : gmap Z Account :=
  update_where (account_has_id account.(MAccount.ID)) (f account) t.

Lemma fold_updates {B} (step : Account -> B -> Tx B) f l : forall b d b' d',
  (forall a b d b' d', step a b d = Ok (b', d') -> entities d' = (updates f a (Tables.account d), Tables.customer d)) ->
  st_fold step l b d = Ok (b', d') ->
  entities d' = (foldl (fun t a => updates f a t) (Tables.account d) l, Tables.customer d).
Proof.
  intros b d b' d' Hstep. revert b d. induction l as [|a l IH]; intros b d H.
  - apply st_fold_nil in H as [= -> ->]. done.
  - apply st_fold_cons in H as (b1&d1&H1&H). apply Hstep in H1. rewrite (IH b1 d1 H). simpl.
    unfold entities in H1. by injection H1 as -> ->.
Qed.

Lemma updates_lookup f l t k : (forall a r, MAccount.ID (f a r) = MAccount.ID r) -> table_wf t ->
  NoDup (MAccount.ID <$> l) -> (forall a, a ∈ l -> t !! a.(MAccount.ID) = Some a) ->
  foldl (fun t a => updates f a t) t l !! k =
  (fun r => if bool_decide (r ∈ l) then f r r else r) <$> (t !! k).
Proof.
  intros Hf. revert t. induction l as [|a l IH]; intros t Hwf Hnd Hin; cbn [foldl].
  { rewrite <- (option_fmap_id (t !! k)) at 1. apply option_fmap_ext. intros r. by rewrite bool_decide_eq_false_2 by set_solver. }
  rewrite fmap_cons, NoDup_cons in Hnd. destruct Hnd as [Hn Hnd].
  assert (Hup : updates f a t = alter (f a) a.(MAccount.ID) t) by exact (update_by_id (R := Account) _ _ _ Hwf).
  assert (Hne : forall r, r ∈ l -> MAccount.ID r <> MAccount.ID a).
  { intros r Hr E. apply Hn, list_elem_of_fmap. by exists r. }
  rewrite IH; [| |done|].
  - rewrite Hup. destruct (decide (k = MAccount.ID a)) as [->|Hk].
    + rewrite lookup_alter_eq, (Hin a) by set_solver. simpl. f_equal. rewrite (bool_decide_eq_true_2 (a ∈ a :: l)) by set_solver.
      rewrite bool_decide_eq_false_2; [done|]. intros Hr. apply (Hne _ Hr). by rewrite Hf.
    + rewrite lookup_alter_ne by done. destruct (t !! k) as [r|] eqn:Hr; [|done]. simpl. f_equal.
      assert (r <> a) by (intros ->; by apply Hk; symmetry; apply (Hwf k a)).
      by rewrite (bool_decide_ext (r ∈ a :: l) (r ∈ l)) by set_solver.
  - rewrite Hup. intros j r [(<-&r0&Hr&->)|(_&Hr)]%lookup_alter_Some; [|by apply Hwf].
    change (MAccount.ID (f a r0) = MAccount.ID a). rewrite Hf. by apply Hwf in Hr.
  - intros r Hr. rewrite Hup, lookup_alter_ne by (by apply not_eq_sym, Hne). apply Hin. set_solver.
Qed.

(** Pausing the managed accounts of a customer that is disabled. *)
Lemma pause_explained_disabled id pausedAt (g : Customer -> Customer) (f : Account -> Account) accounts customers accounts' customer :
  pause_explained (accounts, customers) -> customers !! id = Some customer ->
  let pause := effective_pause customer.(MCustomer.StatisticsPausedAt) pausedAt in
  (forall c, MCustomer.ID (g c) = MCustomer.ID c /\ MCustomer.Status (g c) = "disabled" /\
             MCustomer.StatisticsPausedAt (g c) = Some pause) ->
  (forall a, MAccount.ID (f a) = MAccount.ID a /\ MAccount.CustomerID (f a) = MAccount.CustomerID a /\
     MAccount.ManagedStatus (f a) = MAccount.ManagedStatus a /\ MAccount.RemoteState (f a) = MAccount.RemoteState a /\
     MAccount.StatisticsPausedAt (f a) = Some (effective_pause (MAccount.StatisticsPausedAt a) pause)) ->
  (forall k, accounts' !! k = (fun a => if (a.(MAccount.CustomerID) =? id) && managed a then f a else a) <$> accounts !! k) ->
  pause_explained (accounts', alter g id customers).
Proof.
  intros [Hwf Hwfc Ha Hc] Hcust pause Hg Hf Hacc. simpl in *.
  assert (Hdis : forall k, customer_disabled (alter g id customers) k <-> k = id \/ customer_disabled customers k).
  { intros k. unfold customer_disabled. destruct (decide (k = id)) as [->|Hne].
    - rewrite lookup_alter_eq, Hcust. simpl. split; [by left|]. intros _. eexists. split; [done|]. apply Hg.
    - rewrite lookup_alter_ne by done. split; [by right|]. by intros [|]. }
  split; simpl.
  - intros k r. rewrite Hacc. intros (a&H&->)%fmap_Some_1. change (MAccount.ID (if (MAccount.CustomerID a =? id) && managed a then f a else a) = k).
    pose proof (Hwf _ _ H) as Hk. destruct (_ && _); [rewrite (proj1 (Hf a))|]; exact Hk.
  - intros k c [(<-&c0&H&->)|(_&H)]%lookup_alter_Some; [|by apply Hwfc].
    change (MCustomer.ID (g c0) = id). rewrite (proj1 (Hg c0)). by apply Hwfc in H.
  - intros k r. rewrite Hacc. intros (a&H&->)%fmap_Some_1. pose proof (Ha _ _ H) as [H1 H2 H3]. simpl in H2, H3.
    destruct (Hf a) as (_&F1&F2&F3&F4). unfold managed. destruct (Z.eqb_spec (MAccount.CustomerID a) id) as [Hid|Hid]; simpl.
    + case_bool_decide as Hact.
      * split; unfold archived, mismatched; rewrite ?F1, ?F2, ?F3, ?F4; [done| |].
        -- split; [|by eauto]. intros _. right. right. apply Hdis. by left.
        -- intros c p. rewrite Hid, lookup_alter_eq, Hcust. intros [= <-] Hp _. rewrite (proj2 (proj2 (Hg _))) in Hp.
           injection Hp as <-. eexists. split; [done|]. unfold effective_pause at 1.
           destruct (MAccount.StatisticsPausedAt a) as [q|]; [|lia]. destruct (Z.ltb_spec q pause); lia.
      * assert (Har : archived a) by (by destruct H1). split; [done| |done]. split; [by left|]. intros _. apply H2. by left.
    + split; [done| |].
      * rewrite H2, Hdis. tauto.
      * intros c p. rewrite lookup_alter_ne by done. apply H3.
  - intros k c [(<-&c0&H&->)|(_&H)]%lookup_alter_Some; [|by eapply Hc]. destruct (Hg c0) as (_&G1&G2).
    unfold customer_ok. rewrite G1, G2. by split; eauto.
Qed.

Lemma filter_members (P : Account -> bool) (l : list Account) a : bool_decide (a ∈ base.filter (fun a => P a = true) l)
  = bool_decide (a ∈ l) && P a.
Proof. apply eq_true_iff_eq. rewrite andb_true_iff, !bool_decide_eq_true, list_elem_of_filter. tauto. Qed.

Lemma filter_NoDup_ids (P : Account -> bool) (l : list Account) : NoDup (MAccount.ID <$> l) ->
  NoDup (MAccount.ID <$> base.filter (fun a => P a = true) l).
Proof.
  induction l as [|a l IH]; [done|]. rewrite fmap_cons, NoDup_cons. intros [Hn Hnd]. rewrite filter_cons.
  case_decide; [|by auto]. rewrite fmap_cons, NoDup_cons. split; [|by auto].
  intros (b&E&(_&Hb)%list_elem_of_filter)%list_elem_of_fmap. apply Hn, list_elem_of_fmap. by exists b.
Qed.

(** What a loop over the accounts of a scope that satisfy [P] leaves. *)
Lemma scope_updates {B} (step : Account -> B -> Tx B) f (P : Account -> bool) id scope b d b' d' t :
  (forall a b d b' d', step a b d = Ok (b', d') -> entities d' = (updates f a (Tables.account d), Tables.customer d)) ->
  (forall a r, MAccount.ID (f a r) = MAccount.ID r) -> table_wf t -> Tables.account d = t ->
  NoDup (MAccount.ID <$> scope.(CustomerScope.Accounts)) ->
  (forall a, a ∈ scope.(CustomerScope.Accounts) <-> t !! a.(MAccount.ID) = Some a /\ a.(MAccount.CustomerID) = id) ->
  st_fold step (base.filter (fun a => P a = true) scope.(CustomerScope.Accounts)) b d = Ok (b', d') ->
  Tables.customer d' = Tables.customer d /\ forall k, Tables.account d' !! k =
    (fun a => if (a.(MAccount.CustomerID) =? id) && P a then f a a else a) <$> t !! k.
Proof.
  intros Hstep Hf Hwf <- Hnd Hin H. apply (fold_updates step f) in H; [|done].
  unfold entities in H. injection H as Ha Hc. split; [done|]. intros k. rewrite Ha.
  rewrite updates_lookup; [|done|done|by apply filter_NoDup_ids|].
  - destruct (Tables.account d !! k) as [r|] eqn:Hr; [|done]. simpl. f_equal. rewrite filter_members.
    replace (bool_decide (r ∈ CustomerScope.Accounts scope)) with (MAccount.CustomerID r =? id); [done|].
    apply eq_true_iff_eq. rewrite bool_decide_eq_true, Hin, Z.eqb_eq. pose proof (Hwf _ _ Hr) as E. simpl in E.
    rewrite E. tauto.
  - intros a (_&Ha'%Hin)%list_elem_of_filter. apply Ha'.
Qed.

(** The updates of the loops. *)
Definition paused_by (pause updatedAt : Z) (account a : Account) : Account :=
  a <| MAccount.StatisticsPausedAt := Some (effective_pause account.(MAccount.StatisticsPausedAt) pause) |>
    <| MAccount.UpdatedAt := monotonicAccountUpdatedAt account updatedAt |>.
Definition opened_by (updatedAt : Z) (account a : Account) : Account :=
  a <| MAccount.StatisticsPausedAt := None |> <| MAccount.StatisticsBackfillStatus := "none" |>
    <| MAccount.UpdatedAt := monotonicAccountUpdatedAt account updatedAt |>.

Lemma pause_customer_account_ok pause updatedAt a paused d paused' d' :
  pause_customer_account pause updatedAt a paused d = Ok (paused', d') ->
  entities d' = (updates (paused_by pause updatedAt) a (Tables.account d), Tables.customer d).
Proof.
  intros H. unfold pause_customer_account in H. apply st_bind_ok in H as (m&e1&[_ ->]%db_update_ok&H).
  by apply st_ret_pair in H as [_ ->].
Qed.

Lemma open_customer_account_ok updatedAt a d u d' : open_customer_account updatedAt a d = Ok (u, d') ->
  entities d' = (updates (opened_by updatedAt) a (Tables.account d), Tables.customer d).
Proof.
  intros H. unfold open_customer_account in H. apply st_bind_ok in H as (m&e1&[_ ->]%db_update_ok&H).
  by apply st_ret_pair in H as [_ ->].
Qed.

#[export] Instance Disable_keeps id pausedAt updatedAt : Keeps (DisableInTransaction id pausedAt updatedAt).
Proof.
  intros d r d' Hd H. unfold DisableInTransaction in H. destruct (_ || _); [by inv_ok|].
  apply st_bind_ok in H as (scope&d1&(->&Hc&Hnd&Hin)%LockCustomer_ok&H); [|by destruct Hd]. cbv zeta in H.
  apply st_bind_ok in H as (n&d2&H2&H). apply st_bind_ok in H as (paused&d3&H3&H).
  apply cleanup_entities in H. rewrite H. clear H. apply update_customer_ok in H2; [|by destruct Hd].
  unfold entities in H2. injection H2 as Ha2 Hc2.
  match type of H3 with context [pause_customer_account ?p ?u] =>
    apply (scope_updates _ (paused_by p u) managed id scope _ _ _ _ (Tables.account d)) in H3 as [Hc3 Ha3]
  end.
  - unfold entities. rewrite Hc3, Hc2. eapply (pause_explained_disabled id pausedAt); [exact Hd|exact Hc| | |exact Ha3]; by intros.
  - intros. by eapply pause_customer_account_ok.
  - by intros.
  - by destruct Hd.
  - done.
  - done.
  - done.
Qed.

(** Opening a customer and its accounts. *)
Definition openable (a : Account) : bool :=
  (a.(MAccount.ManagedStatus) != AccountManagedStatusArchived)
  && (a.(MAccount.RemoteState) != AccountRemoteStateIdentityMismatch).

Lemma pause_explained_enabled id (g : Customer -> Customer) (f : Account -> Account) accounts customers accounts' customer :
  pause_explained (accounts, customers) -> customers !! id = Some customer ->
  (forall c, MCustomer.ID (g c) = MCustomer.ID c /\ MCustomer.Status (g c) = "using" /\
             MCustomer.StatisticsPausedAt (g c) = None) ->
  (forall a, MAccount.ID (f a) = MAccount.ID a /\ MAccount.CustomerID (f a) = MAccount.CustomerID a /\
     MAccount.ManagedStatus (f a) = MAccount.ManagedStatus a /\ MAccount.RemoteState (f a) = MAccount.RemoteState a /\
     MAccount.StatisticsPausedAt (f a) = None) ->
  (forall k, accounts' !! k = (fun a => if (a.(MAccount.CustomerID) =? id) && openable a then f a else a) <$> accounts !! k) ->
  pause_explained (accounts', alter g id customers).
Proof.
  intros [Hwf Hwfc Ha Hc] Hcust Hg Hf Hacc. simpl in *.
  assert (Hdis : forall k, customer_disabled (alter g id customers) k <-> k <> id /\ customer_disabled customers k).
  { intros k. unfold customer_disabled. destruct (decide (k = id)) as [->|Hne].
    - rewrite lookup_alter_eq, Hcust. simpl. split; [|tauto]. intros (c&[= <-]&Hs). by rewrite (proj1 (proj2 (Hg _))) in Hs.
    - rewrite lookup_alter_ne by done. tauto. }
  split; simpl.
  - intros k r. rewrite Hacc. intros (a&H&->)%fmap_Some_1.
    change (MAccount.ID (if (MAccount.CustomerID a =? id) && openable a then f a else a) = k).
    pose proof (Hwf _ _ H) as Hk. destruct (_ && _); [rewrite (proj1 (Hf a))|]; exact Hk.
  - intros k c [(<-&c0&H&->)|(_&H)]%lookup_alter_Some; [|by apply Hwfc].
    change (MCustomer.ID (g c0) = id). rewrite (proj1 (Hg c0)). by apply Hwfc in H.
  - intros k r. rewrite Hacc. intros (a&H&->)%fmap_Some_1. pose proof (Ha _ _ H) as [H1 H2 H3]. simpl in H2, H3.
    destruct (Hf a) as (_&F1&F2&F3&F4). unfold openable. destruct (Z.eqb_spec (MAccount.CustomerID a) id) as [Hid|Hid]; simpl.
    + assert (Hopen : forall c p, alter g id customers !! id = Some c -> MCustomer.StatisticsPausedAt c <> Some p).
      { intros c p. rewrite lookup_alter_eq, Hcust. intros [= <-]. by rewrite (proj2 (proj2 (Hg _))). }
      case_bool_decide as Har; case_bool_decide as Hm; simpl.
      1-3: split; [done| |rewrite Hid; intros c p Hl Hp; by apply Hopen in Hp];
        rewrite H2, Hdis, Hid; unfold archived, mismatched in *; tauto.
      split; unfold archived, mismatched; rewrite ?F1, ?F2, ?F3, ?F4; [done| |].
      * rewrite Hdis, Hid. split; [by intros [? [=]]|]. intros [?|[?|[? _]]]; done.
      * rewrite Hid. intros c p Hl Hp. by apply Hopen in Hp.
    + split; [done| |].
      * rewrite H2, Hdis. tauto.
      * intros c p. rewrite lookup_alter_ne by done. apply H3.
  - intros k c [(<-&c0&H&->)|(_&H)]%lookup_alter_Some; [|by eapply Hc]. destruct (Hg c0) as (_&G1&G2).
    unfold customer_ok. rewrite G1, G2. split; [by intros [? [=]]|done].
Qed.

#[export] Instance CompleteEnable_keeps id updatedAt : Keeps (CompleteEnableInTransaction id updatedAt).
Proof.
  intros d r d' Hd H. unfold CompleteEnableInTransaction in H. destruct (_ || _); [by inv_ok|].
  apply st_bind_ok in H as (scope&d1&(->&Hc&Hnd&Hin)%LockCustomer_ok&H); [|by destruct Hd].
  apply st_bind_ok in H as (u&d2&H2&H). apply st_lift_ok in H2 as (u'&_&[= -> ->]). cbv zeta in H.
  apply st_bind_ok in H as (runs&d3&H3&H). apply enable_runs_reads in H3. simpl in H3. subst d3.
  destruct (latest_of _ runs) as [customerRun|]; [|by inv_ok].
  apply st_bind_ok in H as ([]&d3&[_ [= ->]]%st_require_ok&H). apply st_bind_ok in H as ([]&d3&[_ [= ->]]%st_require_ok&H).
  apply st_bind_ok in H as ([]&d3&H3&H). apply st_bind_ok in H as (n&d4&H4&H). apply st_ret_pair in H as [_ ->].
  match type of H3 with context [open_customer_account ?u] =>
    apply (scope_updates _ (opened_by u) openable id scope _ _ _ _ (Tables.account d)) in H3 as [Hc3 Ha3]
  end.
  - apply update_customer_ok in H4; [|rewrite Hc3; by destruct Hd]. rewrite H4, Hc3.
    eapply (pause_explained_enabled id); [exact Hd|exact Hc| | |exact Ha3]; by intros.
  - intros a [] e [] e' Hs. by eapply open_customer_account_ok.
  - by intros.
  - by destruct Hd.
  - done.
  - done.
  - done.
Qed.

(** ** The end of a local rebuild *)
Definition resumed_by (now : Z) (account a : Account) : Account :=
  if openable account then resume_account now a else a.

Lemma openable_skip a : (a.(MAccount.ManagedStatus) == AccountManagedStatusArchived)
  || (a.(MAccount.RemoteState) == AccountRemoteStateIdentityMismatch) = negb (openable a).
Proof. unfold openable. by do 2 case_bool_decide. Qed.

Lemma updates_none f a t : (forall r, f a r = r) -> updates f a t = t.
Proof.
  intros Hf. unfold updates. apply map_eq. intros k. rewrite (lookup_update_where (R := Account)).
  destruct (t !! k) as [r|]; [|done]. simpl. unfold upd. rewrite Hf. by destruct (account_has_id _ _).
Qed.

Lemma finalizeAccount_keeps run now d u d' : pause_explained (entities d) ->
  finalizeAccountRebuildLifecycle run now d = Ok (u, d') -> pause_explained (entities d').
Proof.
  intros Hd H. unfold finalizeAccountRebuildLifecycle in H. apply st_bind_ok in H as (a&d1&[Ha ->]%db_first_ok&H).
  destruct (_ && _); [by inv_ok|]. apply st_bind_ok in H as (c&d1&[Hc ->]%db_first_ok&H).
  case_bool_decide as Hs; [by inv_ok|]. destruct (_ || _) eqn:E; [by inv_ok|].
  apply orb_false_iff in E as [E _]. apply orb_false_iff in E as [E _]. apply orb_false_iff in E as [Hm%bool_decide_eq_false _].
  apply st_bind_ok in H as (n&d2&H2&H). apply st_ret_pair in H as [_ ->].
  change (table d !! ?k) with (Tables.account d !! k) in Ha.
  rewrite <- (accounts_wf _ Hd _ _ Ha) in Ha. change (row_id a) with (MAccount.ID a) in Ha.
  eapply (keeps_update_account (MAccount.ID a)) in H2; [exact H2|done|by intros r|].
  intros r Hr Hok. rewrite Ha in Hr. injection Hr as <-. apply (account_ok_resumed _ a); [done..|].
  intros c' Hc'. change (table d !! ?k) with (Tables.customer d !! k) in Hc. rewrite Hc in Hc'. injection Hc' as <-.
  split; [done|]. by apply (customers_ok _ Hd) in Hc.
Qed.

Lemma resume_customer_accounts_ok run now l : forall d u d', resume_customer_accounts run now l d = Ok (u, d') ->
  entities d' = (foldl (fun t a => updates (resumed_by now) a t) (Tables.account d) l, Tables.customer d).
Proof.
  unfold resume_customer_accounts. intros d u d'. apply fold_updates. intros a [] e [] e' H. rewrite openable_skip in H.
  destruct (openable a) eqn:Ho; simpl in H.
  - destruct (_ && _); [by inv_ok|]. apply st_bind_ok in H as (n&e1&[_ ->]%db_update_ok&H). apply st_ret_pair in H as [_ ->].
    unfold entities, updates, resumed_by. simpl. by rewrite Ho.
  - apply st_ret_pair in H as [_ ->]. rewrite updates_none; [done|]. intros r. unfold resumed_by. by rewrite Ho.
Qed.

Lemma finalizeCustomer_keeps run now d u d' : pause_explained (entities d) ->
  finalizeCustomerRebuildLifecycle run now d = Ok (u, d') -> pause_explained (entities d').
Proof.
  intros Hd H. unfold finalizeCustomerRebuildLifecycle in H. apply st_bind_ok in H as (c&d1&[Hc ->]%db_first_ok&H).
  destruct (_ && _); [by inv_ok|]. destruct (_ || _); [by inv_ok|].
  apply st_bind_ok in H as (accounts&d1&H1&H). apply st_gets_ok in H1 as [= -> ->].
  apply st_bind_ok in H as (u2&d2&H2&H). apply st_bind_ok in H as (n&d3&H3&H). apply st_ret_pair in H as [_ ->].
  apply resume_customer_accounts_ok in H2. unfold entities in H2. injection H2 as Ha2 Hc2.
  apply (update_customer_ok (MCustomer.ID c)) in H3; [|rewrite Hc2; by destruct Hd]. rewrite H3, Hc2.
  change (table d !! ?k) with (Tables.customer d !! k) in Hc.
  rewrite <- (customers_wf _ Hd _ _ Hc) in Hc. change (row_id c) with (MCustomer.ID c) in Hc.
  pose proof (accounts_wf _ Hd) as Hwf. simpl in Hwf.
  eapply (pause_explained_enabled (MCustomer.ID c) _ (resume_account now)); [exact Hd|exact Hc|by intros|by intros|].
  intros k. rewrite Ha2, updates_lookup; [|by intros a r; unfold resumed_by; case_match|done| |].
  - destruct (Tables.account d !! k) as [r|] eqn:Hr; [|done]. simpl. f_equal. unfold resumed_by.
    replace (bool_decide _) with (MAccount.CustomerID r =? MCustomer.ID c); [by destruct (_ =? _)|].
    apply eq_true_iff_eq. rewrite bool_decide_eq_true, elem_of_select. split; [by eauto|tauto].
  - exact (select_NoDup (R := Account) _ _ d Hwf).
  - intros a (_&j&Hj)%elem_of_select. pose proof (Hwf _ _ Hj) as E. by rewrite <- E in Hj.
Qed.

#[export] Instance finalize_keeps run now : Keeps (finalizeLocalRebuildLifecycle run now).
Proof.
  intros d u d' Hd H. unfold finalizeLocalRebuildLifecycle in H. destruct (_ || _); [by inv_ok|].
  apply st_bind_ok in H as (latest&d1&(->&_)%db_first_where_elem&H). apply st_bind_ok in H as ([]&d1&[_ [= ->]]%st_require_ok&H).
  case_bool_decide; [by eapply finalizeAccount_keeps|by eapply finalizeCustomer_keeps].
Qed.

(** ** Backfill statuses *)
Lemma update_accounts_keeps (p : Account -> bool) f :
  (forall a, MAccount.ID (f a) = MAccount.ID a /\ MAccount.CustomerID (f a) = MAccount.CustomerID a /\
     MAccount.ManagedStatus (f a) = MAccount.ManagedStatus a /\ MAccount.RemoteState (f a) = MAccount.RemoteState a /\
     MAccount.StatisticsPausedAt (f a) = MAccount.StatisticsPausedAt a) -> Keeps (db_update p f).
Proof.
  intros Hf d n d' [Hwf Hwfc Ha Hc] (_&->)%db_update_ok. split; [|done| |done]; simpl.
  - by apply (table_wf_update (R := Account)); [intros r; apply Hf|].
  - intros k r. rewrite (lookup_update_where (R := Account)). intros (a&H&->)%fmap_Some_1. unfold upd.
    pose proof (Ha _ _ H) as Hok. destruct (p a); [|done]. destruct (Hf a) as (_&F1&F2&F3&F4).
    apply (account_ok_same _ a); [done..|]. unfold mismatched. by rewrite F3.
Qed.

Lemma update_customers_keeps (p : Customer -> bool) f :
  (forall c, MCustomer.ID (f c) = MCustomer.ID c /\ MCustomer.Status (f c) = MCustomer.Status c /\
     MCustomer.StatisticsPausedAt (f c) = MCustomer.StatisticsPausedAt c) -> Keeps (db_update p f).
Proof.
  intros Hf d n d' [Hwf Hwfc Ha Hc] (_&->)%db_update_ok.
  assert (Hlook : forall k c', update_where p f (Tables.customer d) !! k = Some c' -> exists c,
    Tables.customer d !! k = Some c /\ MCustomer.ID c' = MCustomer.ID c /\ MCustomer.Status c' = MCustomer.Status c /\
    MCustomer.StatisticsPausedAt c' = MCustomer.StatisticsPausedAt c).
  { intros k c'. rewrite (lookup_update_where (R := Customer)). intros (c&H&->)%fmap_Some_1. exists c. unfold upd.
    destruct (p c); [|done]. split; [done|]. apply Hf. }
  assert (Hdis : forall k, customer_disabled (update_where p f (Tables.customer d)) k <-> customer_disabled (Tables.customer d) k).
  { intros k. unfold customer_disabled. split.
    - intros (c'&(c&H&_&Hs&_)%Hlook&Hd). exists c. split; [done|]. by rewrite <- Hs.
    - intros (c&H&Hd). exists (upd p f c). rewrite (lookup_update_where (R := Customer)), H. split; [done|].
      unfold upd. destruct (p c); [|done]. by rewrite (proj1 (proj2 (Hf c))). }
  split; simpl; [done| | |].
  - by apply (table_wf_update (R := Customer)); [intros r; apply Hf|].
  - intros k a H. pose proof (Ha _ _ H) as [H1 H2 H3]. split; [done|by rewrite Hdis|].
    intros c' q (c&H0&_&_&Hp)%Hlook. rewrite Hp. eauto.
  - intros k c' (c&H&_&Hs&Hp)%Hlook. unfold customer_ok. rewrite Hs, Hp. by apply (Hc k).
Qed.

#[export] Instance keeps_fold {A B} (f : A -> B -> Tx B) l : forall b, (forall a b, Keeps (f a b)) -> Keeps (st_fold f l b).
Proof.
  induction l as [|a l IH]; intros b Hf d r d' Hd H; [apply st_fold_nil in H as [= -> ->]; done|].
  apply st_fold_cons in H as (b1&d1&H1&H). eapply IH; [done| |exact H]. by eapply Hf.
Qed.

Lemma keeps_if {A} (b : bool) (m1 m2 : Tx A) : Keeps m1 -> Keeps m2 -> Keeps (if b then m1 else m2).
Proof. by destruct b. Qed.

#[export] Hint Extern 5 (Keeps _) => (apply preserves_keeps; solve [apply _]) : typeclass_instances.
#[export] Hint Extern 2 (Keeps (db_update (R := Site) _ _)) =>
  (apply preserves_keeps, preserves_update; reflexivity) : typeclass_instances.
#[export] Hint Extern 2 (Keeps (db_update (R := Account) _ _)) => (apply update_accounts_keeps; by intros) : typeclass_instances.
#[export] Hint Extern 2 (Keeps (db_update (R := Customer) _ _)) => (apply update_customers_keeps; by intros) : typeclass_instances.

Ltac keeps_step :=
  match goal with
  | |- Keeps (let _ := _ in _) => cbv zeta
  | |- Keeps (if ?b then _ else _) => apply keeps_if
  | |- Keeps (match ?x with _ => _ end) => destruct x
  | |- Keeps (match ?x with _ => _ end _) => destruct x; cbv beta
  | |- Keeps (mbind _ _) => apply keeps_bind; [|intros]
  | |- Keeps (st_fold _ _ _) => apply keeps_fold; intros
  | |- Keeps _ => solve [apply _]
  end.
Ltac solve_keeps := cbv zeta; repeat keeps_step.

#[export] Instance batch_accounts_keeps rows now : Keeps (batchUpdateSiteFenceStatuses set_account_status rows now).
Proof. unfold batchUpdateSiteFenceStatuses. solve_keeps. Qed.
#[export] Instance batch_customers_keeps rows now : Keeps (batchUpdateSiteFenceStatuses set_customer_status rows now).
Proof. unfold batchUpdateSiteFenceStatuses. solve_keeps. Qed.
#[export] Instance recalculateSiteFence_keeps plan now : Keeps (recalculateSiteFenceBackfillStatuses plan now).
Proof. unfold recalculateSiteFenceBackfillStatuses. solve_keeps. Qed.
#[export] Instance backfill_status_reads site version : Keeps (UsageBackfillStatisticsStatus site version).
Proof. unfold UsageBackfillStatisticsStatus. solve_keeps. Qed.
#[export] Instance recalculateTask_keeps run now : Keeps (recalculateTaskBackfillStatuses run now).
Proof. unfold recalculateTaskBackfillStatuses. solve_keeps. Qed.

(** ** The service *)
#[export] Instance enqueue_rebuild_keeps targetType id taskType paused now committedAt requestID begin :
  Keeps begin -> Keeps (enqueue_rebuild targetType id taskType paused now committedAt requestID begin).
Proof. intros. unfold enqueue_rebuild, activeLocalRebuildRun. solve_keeps. Qed.

#[export] Instance LockAccount_entities id : Preserves entities (LockAccountOperationScope id).
Proof. intros d a d' H. by rewrite (LockAccount_reads id d a d' H). Qed.
#[export] Instance LockCustomer_entities id : Preserves entities (LockCustomerOperationScope id).
Proof. intros d a d' H. by rewrite (LockCustomer_reads id d a d' H). Qed.

#[export] Instance AccountArchive_keeps id now : Keeps (AccountArchive id now).
Proof. unfold AccountArchive. solve_keeps. Qed.
#[export] Instance AccountRestore_keeps id now requestID : Keeps (AccountRestore id now requestID).
Proof. unfold AccountRestore, requiredCapabilitiesReady, requiredCapabilitiesReadyExcept. solve_keeps. Qed.
#[export] Instance AccountCompleteRestore_keeps id now : Keeps (AccountCompleteRestore id now).
Proof. unfold AccountCompleteRestore. solve_keeps. Qed.
#[export] Instance CustomerDisable_keeps id now : Keeps (CustomerDisable id now).
Proof. unfold CustomerDisable. solve_keeps. Qed.
#[export] Instance CustomerEnable_keeps id now requestID : Keeps (CustomerEnable id now requestID).
Proof. unfold CustomerEnable. solve_keeps. Qed.
#[export] Instance CustomerCompleteEnable_keeps id now : Keeps (CustomerCompleteEnable id now).
Proof. unfold CustomerCompleteEnable. solve_keeps. Qed.
#[export] Instance AccountUpdate_keeps id remark now : Keeps (AccountUpdate id remark now).
Proof. unfold AccountUpdate. solve_keeps. Qed.
#[export] Instance CustomerUpdate_keeps id name contact remark contract payment status now :
  Keeps (CustomerUpdate id name contact remark contract payment status now).
Proof. unfold CustomerUpdate. solve_keeps. Qed.

(** ** New accounts and customers *)
Lemma create_account_keeps a d a' d' : pause_explained (entities d) -> db_create a d = Ok (a', d') ->
  a.(MAccount.ManagedStatus) = AccountManagedStatusActive -> a.(MAccount.StatisticsPausedAt) = None -> ~ mismatched a ->
  ~ customer_disabled (Tables.customer d) a.(MAccount.CustomerID) -> pause_explained (entities d').
Proof.
  intros Hd H Hs Hp Hm Hc. unfold db_create in H. injection H as _ <-. destruct Hd as [Hwf Hwfc Ha Hcust].
  split; [|done| |done]; simpl in *.
  - intros k r [[<- <-]|[_ H]]%lookup_insert_Some; [done|]. by apply Hwf.
  - apply map_Forall_insert_2; [|done]. split; simpl; [by left| |].
    + unfold archived, mismatched in *. simpl. rewrite Hp, Hs. split; [by intros [? [=]]|]. by intros [?|[?|?]].
    + intros c p Hl Hpc _. destruct Hc. exists c. split; [done|]. apply (Hcust _ _ Hl). by rewrite Hpc.
Qed.

#[export] Instance create_account_row_keeps site siteID customerID remoteUserID remark remote now :
  Keeps (create_account site siteID customerID remoteUserID remark remote now).
Proof.
  intros d r d' Hd H. unfold create_account in H. apply st_bind_ok in H as (u&d1&H1&H).
  apply st_lift_ok in H1 as (u'&_&[= -> ->]). apply st_bind_ok in H as (current&d1&[_ ->]%db_first_ok&H).
  apply st_bind_ok in H as ([]&d1&[_ [= ->]]%st_require_ok&H).
  apply st_bind_ok in H as (u&d1&H1&H). apply st_lift_ok in H1 as (u''&_&[= -> ->]).
  apply st_bind_ok in H as (ready&d1&H1&H). apply ready_reads in H1. simpl in H1. subst d1.
  apply st_bind_ok in H as ([]&d1&[_ [= ->]]%st_require_ok&H).
  apply st_bind_ok in H as (customer&d1&[Hc ->]%db_first_ok&H).
  apply st_bind_ok in H as ([]&d1&[Hs%bool_decide_eq_true [= ->]]%st_require_ok&H).
  apply st_bind_ok in H as (bound&d1&H1&H). apply st_gets_ok in H1 as [= -> ->].
  apply st_bind_ok in H as ([]&d1&[_ [= ->]]%st_require_ok&H).
  apply st_bind_ok in H as (account&d1&H1&H). apply st_ret_pair in H as [_ ->].
  apply create_account_keeps in H1; [exact H1|done..|]. simpl. intros (c&Hl&Hdis).
  change (table d !! customerID) with (Tables.customer d !! customerID) in Hc. congruence.
Qed.

#[export] Instance AccountCreate_keeps site siteID customerID remoteUserID remark remote now requestID :
  Keeps (AccountCreate site siteID customerID remoteUserID remark remote now requestID).
Proof. unfold AccountCreate, aggregateCustomerBackfillStatus. solve_keeps. Qed.

#[export] Instance AccountMarkIdentityMismatch_keeps account now : Keeps (AccountMarkIdentityMismatch account now).
Proof. unfold AccountMarkIdentityMismatch. apply _. Qed.

#[export] Instance AccountRefresh_keeps account remote now : Keeps (AccountRefresh account remote now).
Proof.
  intros d r d' Hd H. unfold AccountRefresh in H. cbv zeta in H.
  pose proof (AccountMarkIdentityMismatch_keeps account now d r d' Hd) as Hm.
  destruct (_ || _); [destruct (_ && _); [done|by auto]|]. destruct (negb _); [by auto|].
  destruct (ApplyAuthoritativeRemoteSnapshot _ _ d) as [[r1 d1]|e] eqn:E.
  - injection H as -> ->. by eapply ApplySnapshot_keeps.
  - case_bool_decide; [by auto|done].
Qed.

(** A new customer, under a primary key no customer has. *)
Lemma CustomerCreate_keeps name contact remark contract payment status now d c d' :
  pause_explained (entities d) -> Tables.customer d !! Tables.auto_other d = None ->
  CustomerCreate name contact remark contract payment status now d = Ok (c, d') -> pause_explained (entities d').
Proof.
  intros [Hwf Hwfc Ha Hc] Hfresh H. unfold CustomerCreate in H. destruct (ValidCustomerWriteStatus status) eqn:Hv; [|done].
  unfold db_create in H. injection H as _ <-. simpl in *.
  assert (Hs : status <> "disabled") by (intros ->; done).
  assert (Hdis : forall c k, MCustomer.Status c <> "disabled" ->
    customer_disabled (<[Tables.auto_other d := c]> (Tables.customer d)) k <-> customer_disabled (Tables.customer d) k).
  { intros c0 k Hc0. unfold customer_disabled. split.
    - intros (c1&[[<- <-]|[_ H]]%lookup_insert_Some&Hd); [done|eauto].
    - intros (c1&H&Hd). exists c1. rewrite lookup_insert_ne; [done|]. intros <-. congruence. }
  split; simpl; [done| | |].
  - intros k r [[<- <-]|[_ H]]%lookup_insert_Some; [done|]. by apply Hwfc.
  - intros k a H. pose proof (Ha _ _ H) as [H1 H2 H3]. split; [done|by rewrite Hdis|].
    intros c1 p [[_ <-]|[_ Hl]]%lookup_insert_Some; [done|]. by apply H3.
  - apply map_Forall_insert_2; [|done]. unfold customer_ok. simpl. split; [by intros [? [=]]|done].
Qed.

(** ** The operations as steps *)
Inductive lifecycle_step (d d' : Db) : Prop :=
  | step_create_customer name contact remark contract payment status now c :
      Tables.customer d !! Tables.auto_other d = None ->
      CustomerCreate name contact remark contract payment status now d = Ok (c, d') -> lifecycle_step d d'
  | step_update_customer id name contact remark contract payment status now :
      CustomerUpdate id name contact remark contract payment status now d = Ok (tt, d') -> lifecycle_step d d'
  | step_disable id now : CustomerDisable id now d = Ok (tt, d') -> lifecycle_step d d'
  | step_enable id now requestID r : CustomerEnable id now requestID d = Ok (r, d') -> lifecycle_step d d'
  | step_complete_enable id now : CustomerCompleteEnable id now d = Ok (tt, d') -> lifecycle_step d d'
  | step_create_account site siteID customerID remoteUserID remark remote now requestID a :
      Tables.account d !! Tables.auto_other d = None ->
      AccountCreate site siteID customerID remoteUserID remark remote now requestID d = Ok (a, d') -> lifecycle_step d d'
  | step_update_account id remark now : AccountUpdate id remark now d = Ok (tt, d') -> lifecycle_step d d'
  | step_refresh account remote now r : AccountRefresh account remote now d = Ok (r, d') -> lifecycle_step d d'
  | step_missing id observedAt updatedAt r : MarkMissing id observedAt updatedAt d = Ok (r, d') -> lifecycle_step d d'
  | step_archive id now : AccountArchive id now d = Ok (tt, d') -> lifecycle_step d d'
  | step_restore id now requestID r : AccountRestore id now requestID d = Ok (r, d') -> lifecycle_step d d'
  | step_complete_restore id now : AccountCompleteRestore id now d = Ok (tt, d') -> lifecycle_step d d'
  (* what the queue writes to the two tables; a run it stores has the target of its task *)
  | step_finalize run now : CollectionTaskTarget run.(Run.TaskType) = Some run.(Run.TargetType) -> finalizeLocalRebuildLifecycle run now d = Ok (tt, d') -> lifecycle_step d d'
  | step_statuses run now : recalculateTaskBackfillStatuses run now d = Ok (tt, d') -> lifecycle_step d d'
  | step_fence_statuses plan now : recalculateSiteFenceBackfillStatuses plan now d = Ok (tt, d') -> lifecycle_step d d'.

Lemma lifecycle_step_explained d d' : lifecycle_step d d' -> pause_explained (entities d) -> pause_explained (entities d').
Proof. 
  intros [] Hd; [by eapply CustomerCreate_keeps|..];
    match goal with H : ?m d = Ok _ |- _ => exact (keeps (m := m) _ _ _ Hd H) end.
Qed.
