(* ===== verification/LifecycleSafety.v ===== *)
(** * What the lifecycle never does, and when it resumes

    An identity mismatch is final, and paused statistics resume only when the
    latest rebuild of the account or of its customer has succeeded over the
    pause. *)

From S2P Require Import Prelude Constants GoText Stats DateBucket Store Frame RunContract RunState RunRepository SiteFence TaskScope UsageAggregation StatisticsPause AccountLifecycle CustomerLifecycle LifecycleBehaviour.

(** [m] removes no account and leaves none that satisfied [P] without it. *)
Class Persists (P : Account -> Prop) {A} (m : Tx A) : Prop :=
  persists : forall d x d' k a, m d = Ok (x, d') -> Tables.account d !! k = Some a ->
    exists a', Tables.account d' !! k = Some a' /\ (P a -> P a').

Section Persist.
Context (P : Account -> Prop).

#[export] Instance persists_preserves {A} (m : Tx A) : Preserves entities m -> Persists P m.
Proof. intros Hp d x d' k a H Ha. apply Hp in H. unfold entities in H. injection H as -> _. eauto. Qed.

#[export] Instance persists_bind {A B} (m : Tx A) (f : A -> Tx B) :
  Persists P m -> (forall a, Persists P (f a)) -> Persists P (m ≫= f).
Proof.
  intros Hm Hf d x d' k a (y&d1&H1&H2)%st_bind_ok Ha. destruct (Hm _ _ _ _ _ H1 Ha) as (a1&Ha1&H3).
  destruct (Hf _ _ _ _ _ _ H2 Ha1) as (a2&Ha2&H4). eauto.
Qed.

#[export] Instance persists_fold {A B} (f : A -> B -> Tx B) l : forall b,
  (forall a b, Persists P (f a b)) -> Persists P (st_fold f l b).
Proof. induction l as [|a l IH]; intros b Hf; simpl; apply _. Qed.

Lemma persists_if {A} (b : bool) (m1 m2 : Tx A) : Persists P m1 -> Persists P m2 -> Persists P (if b then m1 else m2).
Proof. by destruct b. Qed.

Lemma persists_update (p : Account -> bool) f : (forall a, p a = true -> P a -> P (f a)) -> Persists P (db_update p f).
Proof.
  intros Hf d x d' k a [_ ->]%db_update_ok Ha. simpl. rewrite (lookup_update_where (R := Account)).
  change (table d !! k) with (Tables.account d !! k). rewrite Ha. eexists. split; [done|]. unfold upd.
  destruct (p a) eqn:E; auto.
Qed.

(** The row an operation read is the row it updates. *)
Lemma persists_observed locked f : (forall a, a.(MAccount.RemoteState) = locked.(MAccount.RemoteState) -> P a -> P (f a)) ->
  Persists P (update_observed locked f).
Proof.
  intros Hf. unfold update_observed. apply persists_bind; [|intros; apply _]. apply persists_update.
  intros a E. apply Hf. unfold accountObservationCAS in E. repeat (apply andb_true_iff in E as [E ?]).
  by apply bool_decide_eq_true in H1.
Qed.
End Persist.

#[export] Hint Extern 2 (Preserves entities (db_update (R := Site) _ _)) =>
  (apply preserves_update; reflexivity) : typeclass_instances.

(** What writes no account. *)
#[export] Instance persists_same P {A} (m : Tx A) : Preserves Tables.account m -> Persists P m | 20.
Proof. intros Hp d x d' k a H Ha. rewrite (Hp _ _ _ H). eauto. Qed.
#[export] Hint Extern 2 (Preserves Tables.account (db_update (R := Customer) _ _)) =>
  (apply preserves_update; reflexivity) : typeclass_instances.
#[export] Hint Extern 2 (Preserves Tables.account (db_create (R := Customer) _)) =>
  (apply preserves_create; reflexivity) : typeclass_instances.

Ltac persists_step :=
  match goal with
  | |- Persists _ (let _ := _ in _) => cbv zeta
  | |- Persists _ (if ?b then _ else _) => apply persists_if
  | |- Persists _ (match ?x with _ => _ end) => destruct x
  | |- Persists _ (match ?x with _ => _ end _) => destruct x; cbv beta
  | |- Persists _ (mbind _ _) => apply persists_bind; [|intros]
  | |- Persists _ (st_fold _ _ _) => apply persists_fold; intros
  | |- Persists _ (db_update (R := Account) _ _) => apply persists_update; first [by intros | solve [eauto]]
  | |- Persists _ (update_observed _ _) => apply persists_observed; solve [eauto]
  | |- Persists _ _ => solve [apply _]
  end.
Ltac solve_persists := cbv zeta; repeat persists_step.

(** ** Every operation but the completions keeps a pause *)
Definition paused (a : Account) : Prop := is_Some a.(MAccount.StatisticsPausedAt).


(** A fact about an account that its pauses and observations keep. *)
Class Kept (P : Account -> Prop) : Prop := kept : P = paused \/ P = mismatched.
#[export] Instance paused_kept : Kept paused.
Proof. by left. Qed.
#[export] Instance mismatched_kept : Kept mismatched.
Proof. by right. Qed.

Section Kept.
Context (P : Account -> Prop) `{!Kept P}.

Lemma kept_same a a' : a'.(MAccount.StatisticsPausedAt) = a.(MAccount.StatisticsPausedAt) ->
  a'.(MAccount.RemoteState) = a.(MAccount.RemoteState) -> P a -> P a'.
Proof. destruct kept as [-> | ->]; unfold paused, mismatched; intros E1 E2; [by rewrite E1|by rewrite E2]. Qed.

Lemma kept_paused a a' : is_Some a'.(MAccount.StatisticsPausedAt) ->
  a'.(MAccount.RemoteState) = a.(MAccount.RemoteState) -> P a -> P a'.
Proof. destruct kept as [-> | ->]; unfold paused, mismatched; [done|]. by intros _ E; rewrite E. Qed.

#[local] Hint Extern 1 (P _) => (eapply kept_same; [| |eassumption]; done) : core.
#[local] Hint Extern 2 (P _) => (eapply kept_paused; [| |eassumption]; [by eexists|done]) : core.

#[export] Instance ApplySnapshot_persists id snapshot : Persists P (ApplyAuthoritativeRemoteSnapshot id snapshot).
Proof.
  unfold ApplyAuthoritativeRemoteSnapshot. solve_persists. apply persists_observed. intros r Hr Hp.
  destruct kept as [-> | ->]; [done|]. unfold mismatched in *. simpl. rewrite Hr in Hp. by rewrite bool_decide_eq_true_2.
Qed.

#[export] Instance MarkMissing_persists id observedAt updatedAt : Persists P (MarkMissing id observedAt updatedAt).
Proof.
  unfold MarkMissing. apply persists_if; [apply _|]. apply persists_bind; [apply _|]. intros locked.
  apply persists_if; [apply _|]. cbv zeta. destruct (if _ != _ then _ else _) as [nextCount nextState] eqn:E.
  solve_persists. apply persists_observed. intros r Hr Hp. destruct kept as [-> | ->]; [done|].
  unfold mismatched in *. simpl. rewrite <- Hr, Hp in E. by injection E as _ <-.
Qed.

#[export] Instance MarkIdentityMismatch_persists id observedAt pausedAt updatedAt :
  Persists P (MarkIdentityMismatch id observedAt pausedAt updatedAt).
Proof.
  unfold MarkIdentityMismatch. solve_persists. apply persists_observed. intros r Hr Hp.
  destruct kept as [-> | ->]; [by eexists|done].
Qed.

#[export] Instance AccountArchive_persists id now : Persists P (AccountArchive id now).
Proof. unfold AccountArchive, ArchiveAccount. solve_persists.
Qed.

#[export] Instance AccountRefresh_persists account remote now : Persists P (AccountRefresh account remote now).
Proof.
  intros d x d' k a H. unfold AccountRefresh in H. cbv zeta in H.
  pose proof (fun x => MarkIdentityMismatch_persists account.(MAccount.ID) now (floorHour now) now d x d' k a) as Hm.
  destruct (_ || _); [destruct (_ && _); [done|by eauto]|]. destruct (negb _); [by eauto|].
  destruct (ApplyAuthoritativeRemoteSnapshot _ _ d) as [[r1 d1]|e] eqn:E.
  - injection H as -> ->. by eapply ApplySnapshot_persists.
  - case_bool_decide; [by eauto|done].
Qed.

#[export] Instance enqueue_rebuild_persists targetType id taskType pausedAt now committedAt requestID begin :
  Persists P begin -> Persists P (enqueue_rebuild targetType id taskType pausedAt now committedAt requestID begin).
Proof. intros. unfold enqueue_rebuild, activeLocalRebuildRun. solve_persists. Qed.

#[export] Instance BeginRestore_persists id updatedAt : Persists P (BeginRestoreInTransaction id updatedAt).
Proof. unfold BeginRestoreInTransaction. solve_persists. Qed.
#[export] Instance BeginEnable_persists id updatedAt : Persists P (BeginEnableInTransaction id updatedAt).
Proof. unfold BeginEnableInTransaction. solve_persists. Qed.

#[export] Instance AccountRestore_persists id now requestID : Persists P (AccountRestore id now requestID).
Proof.
  unfold AccountRestore, requiredCapabilitiesReady, requiredCapabilitiesReadyExcept. solve_persists.
Qed.

#[export] Instance AccountUpdate_persists id remark now : Persists P (AccountUpdate id remark now).
Proof. unfold AccountUpdate. solve_persists. Qed.

#[export] Instance CustomerDisable_persists id now : Persists P (CustomerDisable id now).
Proof. unfold CustomerDisable, DisableInTransaction, pause_customer_account. solve_persists. Qed.

#[export] Instance CustomerEnable_persists id now requestID : Persists P (CustomerEnable id now requestID).
Proof. unfold CustomerEnable. solve_persists. Qed.

#[export] Instance CustomerUpdate_persists id name contact remark contract payment status now :
  Persists P (CustomerUpdate id name contact remark contract payment status now).
Proof. unfold CustomerUpdate, UpdateProfile. solve_persists. Qed.

#[export] Instance CustomerCreate_persists name contact remark contract payment status now :
  Persists P (CustomerCreate name contact remark contract payment status now).
Proof. unfold CustomerCreate. solve_persists. Qed.

#[export] Instance batch_accounts_persists rows now : Persists P (batchUpdateSiteFenceStatuses set_account_status rows now).
Proof. unfold batchUpdateSiteFenceStatuses. solve_persists. Qed.
#[export] Instance batch_customers_persists rows now : Persists P (batchUpdateSiteFenceStatuses set_customer_status rows now).
Proof. unfold batchUpdateSiteFenceStatuses. solve_persists. Qed.
#[export] Instance recalculateSiteFence_persists plan now : Persists P (recalculateSiteFenceBackfillStatuses plan now).
Proof. unfold recalculateSiteFenceBackfillStatuses. solve_persists. Qed.
#[export] Instance backfill_status_persists site version : Persists P (UsageBackfillStatisticsStatus site version).
Proof. unfold UsageBackfillStatisticsStatus. solve_persists. Qed.
#[export] Instance recalculateTask_persists run now : Persists P (recalculateTaskBackfillStatuses run now).
Proof. unfold recalculateTaskBackfillStatuses. solve_persists. Qed.

(** A new account replaces none. *)
Lemma AccountCreate_persists site siteID customerID remoteUserID remark remote now requestID d x d' k a :
  Tables.account d !! Tables.auto_other d = None ->
  AccountCreate site siteID customerID remoteUserID remark remote now requestID d = Ok (x, d') ->
  Tables.account d !! k = Some a -> exists a', Tables.account d' !! k = Some a' /\ (P a -> P a').
Proof.
  intros Hfresh H Ha. unfold AccountCreate in H. apply st_bind_ok in H as ([customer account]&d1&H1&H).
  assert (Ha1 : Tables.account d1 !! k = Some a).
  { unfold create_account in H1.
    apply st_bind_ok in H1 as (u1&e1&E1&H1). apply st_lift_ok in E1 as (u1'&_&[= -> ->]).
    apply st_bind_ok in H1 as (current&e2&[_ ->]%db_first_ok&H1).
    apply st_bind_ok in H1 as ([]&e3&[_ [= ->]]%st_require_ok&H1).
    apply st_bind_ok in H1 as (u2&e4&E4&H1). apply st_lift_ok in E4 as (u2'&_&[= -> ->]).
    apply st_bind_ok in H1 as (ready&e5&E5&H1). apply ready_reads in E5. simpl in E5. subst e5.
    apply st_bind_ok in H1 as ([]&e6&[_ [= ->]]%st_require_ok&H1).
    apply st_bind_ok in H1 as (c&e7&[_ ->]%db_first_ok&H1).
    apply st_bind_ok in H1 as ([]&e8&[_ [= ->]]%st_require_ok&H1).
    apply st_bind_ok in H1 as (bound&e9&E9&H1). apply st_gets_ok in E9 as [= -> ->].
    apply st_bind_ok in H1 as ([]&e10&[_ [= ->]]%st_require_ok&H1).
    apply st_bind_ok in H1 as (row&e11&E11&H1). apply st_ret_pair in H1 as [_ ->].
    unfold db_create in E11. injection E11 as _ <-. simpl. rewrite lookup_insert_ne; [done|]. intros <-.
    change (auto_increment d) with (Tables.auto_other d) in *. congruence. }
  revert H Ha1. cbv beta iota. match goal with |- ?m d1 = _ -> _ => cut (Persists P m) end.
  { intros Hm H Hk. exact (Hm _ _ _ _ _ H Hk). }
  unfold aggregateCustomerBackfillStatus. solve_persists.
Qed.
End Kept.

(** ** The completions *)
#[export] Instance CompleteRestore_mismatched id now : Persists mismatched (AccountCompleteRestore id now).
Proof. unfold AccountCompleteRestore, CompleteRestoreInTransaction, latestRebuildRunForUpdate. solve_persists.
Qed.
#[export] Instance CompleteEnable_mismatched id now : Persists mismatched (CustomerCompleteEnable id now).
Proof. unfold CustomerCompleteEnable, CompleteEnableInTransaction, lockCustomerEnableRuns, open_customer_account. solve_persists. Qed.
#[export] Instance finalize_mismatched run now : Persists mismatched (finalizeLocalRebuildLifecycle run now).
Proof.
  unfold finalizeLocalRebuildLifecycle, finalizeAccountRebuildLifecycle, finalizeCustomerRebuildLifecycle, resume_customer_accounts.
  solve_persists.
Qed.

Lemma lifecycle_step_mismatched d d' k a : lifecycle_step d d' -> Tables.account d !! k = Some a ->
  exists a', Tables.account d' !! k = Some a' /\ (mismatched a -> mismatched a').
Proof.
  intros [] Ha; try match goal with H : ?m d = Ok _ |- _ => exact (persists (m := m) _ _ _ _ _ H Ha) end.
  by eapply AccountCreate_persists.
Qed.

(** The latest rebuild of an account or of its customer has succeeded over [p]. *)
Definition latest_rebuild (d : Db) (targetType : string) (id : Z) (taskType : string) (run : CollectionRun) : Prop :=
  let same r := r.(Run.TargetType) = targetType /\ r.(Run.TargetID) = id /\ r.(Run.TaskType) = taskType in
  same run /\ (exists j, Tables.collection_run d !! j = Some run) /\
  forall j r, Tables.collection_run d !! j = Some r -> same r -> r.(Run.ID) <= run.(Run.ID).
Definition rebuilt_over (d : Db) (k : Z) (a : Account) (p : Z) : Prop :=
  exists run s e, (latest_rebuild d "account" k TaskTypeAccountRebuild run \/
                   latest_rebuild d "customer" a.(MAccount.CustomerID) TaskTypeCustomerRebuild run) /\
    run.(Run.Status) = "success" /\ run.(Run.StartTimestamp) = Some s /\ run.(Run.EndTimestamp) = Some e /\ s <= p <= e.

Lemma latest_selected d targetType id taskType run l :
  select (fun r => (r.(Run.TargetType) == targetType) && (r.(Run.TargetID) =? id) && (r.(Run.TaskType) == taskType))
    by_id_desc d = run :: l -> latest_rebuild d targetType id taskType run.
Proof.
  intros H. pose proof (select_sorted (R := CollectionRun) (fun r => (r.(Run.TargetType) == targetType)
    && (r.(Run.TargetID) =? id) && (r.(Run.TaskType) == taskType)) by_id_desc d) as Hs. rewrite H in Hs.
  apply StronglySorted_inv in Hs as [_ Hs]. rewrite Forall_forall in Hs.
  assert (Hin : run ∈ run :: l) by set_solver. rewrite <- H in Hin. apply elem_of_select in Hin as (Hp&j&Hj).
  assert (Hsame : forall r, (r.(Run.TargetType) == targetType) && (r.(Run.TargetID) =? id) && (r.(Run.TaskType) == taskType) = true
    <-> r.(Run.TargetType) = targetType /\ r.(Run.TargetID) = id /\ r.(Run.TaskType) = taskType).
  { intros r. rewrite !andb_true_iff, !bool_decide_eq_true, Z.eqb_eq. tauto. }
  split; [by apply Hsame|]. split; [by eauto|]. intros i r Hi Hr%Hsame.
  assert (Hin : r ∈ run :: l) by (rewrite <- H; apply elem_of_select; eauto).
  apply elem_of_cons in Hin as [->|Hin]; [lia|]. apply Hs in Hin. unfold by_key, by_id_desc in Hin. simpl in Hin.
  destruct Hin as [[_ ?]|[[= ?] _]]; lia.
Qed.

(** A row that loses its pause. *)
Definition resumes (d d' : Db) (k : Z) (a : Account) (p : Z) : Prop :=
  Tables.account d !! k = Some a /\ a.(MAccount.StatisticsPausedAt) = Some p /\ exists a', Tables.account d' !! k = Some a' /\ a'.(MAccount.StatisticsPausedAt) = None.

Lemma covers_range run p updatedAt : rebuildRunCoversRange run (Some p) updatedAt = true ->
  exists s e, run.(Run.StartTimestamp) = Some s /\ run.(Run.EndTimestamp) = Some e /\ s <= p <= e.
Proof.
  unfold rebuildRunCoversRange. destruct (Run.StartTimestamp run) as [s|]; [|done]. destruct (Run.EndTimestamp run) as [e|]; [|done].
  cbv zeta. rewrite andb_true_iff, !Z.leb_le. intros [Hs He]. exists s, e. split; [done|]. split; [done|]. split; [done|].
  revert He. generalize (updatedAt - Z.rem updatedAt 3600). intros z. destruct (Z.leb_spec z p); lia.
Qed.

Lemma covers_pause run p : localRebuildRunCoversPause run (Some p) = true ->
  exists s e, run.(Run.StartTimestamp) = Some s /\ run.(Run.EndTimestamp) = Some e /\ s <= p <= e.
Proof.
  unfold localRebuildRunCoversPause. destruct (Run.StartTimestamp run) as [s|]; [|done].
  destruct (Run.EndTimestamp run) as [e|]; [|done]. rewrite andb_true_iff, !Z.leb_le. intros [Hs He]. by exists s, e.
Qed.

Lemma rebuilt_intro d k a p run : (latest_rebuild d "account" k TaskTypeAccountRebuild run \/
    latest_rebuild d "customer" a.(MAccount.CustomerID) TaskTypeCustomerRebuild run) ->
  run.(Run.Status) = "success" ->
  (exists s e, run.(Run.StartTimestamp) = Some s /\ run.(Run.EndTimestamp) = Some e /\ s <= p <= e) -> rebuilt_over d k a p.
Proof. intros Hl Hs (s&e&H1&H2&H3). by exists run, s, e. Qed.

(** The account of a completed restore, and no other. *)
Lemma alter_resumes d d' id f k a p : entities d' = (alter f id (Tables.account d), Tables.customer d) ->
  resumes d d' k a p -> k = id.
Proof.
  intros E (Ha&Hp&a'&Ha'&Hp'). unfold entities in E. injection E as E _. rewrite E in Ha'.
  destruct (decide (k = id)) as [|Hne]; [done|]. rewrite lookup_alter_ne in Ha' by done. congruence.
Qed.

Lemma CompleteRestore_resumes id updatedAt d d' k a p : pause_explained (entities d) ->
  CompleteRestoreInTransaction id updatedAt d = Ok (tt, d') -> resumes d d' k a p -> ~ mismatched a /\ rebuilt_over d k a p.
Proof.
  intros Hd H Hres. unfold CompleteRestoreInTransaction in H. destruct (_ || _); [by inv_ok|].
  apply st_bind_ok in H as (scope&d1&(->&Ha&Hc)%LockAccount_ok&H). apply st_bind_ok in H as (u&d2&H2&H).
  apply st_lift_ok in H2 as (u'&(Hen&Hm&_)%restorable_ok&[= -> ->]). cbv zeta in H.
  apply st_bind_ok in H as (run&d3&H3&H). unfold latestRebuildRunForUpdate in H3.
  apply st_bind_ok in H3 as (runs&d4&H4&H3). apply st_gets_ok in H4 as [= -> ->].
  destruct (select _ _ d) as [|run' rest] eqn:Hsel; [by inv_ok|]. apply st_ret_pair in H3 as [-> ->].
  destruct (_ || _) eqn:E; [by inv_ok|]. apply orb_false_iff in E as [E1 E2]. apply negb_false_iff in E1, E2.
  apply bool_decide_eq_true in E1. apply st_bind_ok in H as (n&d3&H3&H). apply st_ret_pair in H as [_ ->].
  apply update_account_ok in H3; [|by destruct Hd]. pose proof (alter_resumes _ _ _ _ _ _ _ H3 Hres) as ->.
  destruct Hres as (Ha'&Hp&_). rewrite Ha in Ha'. injection Ha' as <-. split; [done|].
  apply (rebuilt_intro _ _ _ _ run'); [left; by eapply latest_selected|done|]. rewrite Hp in E2. by eapply covers_range.
Qed.

(** [latest_of] selects a row of the table that none with the property follows. *)
Lemma latest_of_spec p runs : match latest_of p runs with
  | Some run => run ∈ runs /\ p run = true /\ forall r, r ∈ runs -> p r = true -> r.(Run.ID) <= run.(Run.ID)
  | None => forall r, r ∈ runs -> p r = false
  end.
Proof.
  unfold latest_of. induction runs as [|x l IH] using rev_ind; [set_solver|].
  rewrite foldl_app. simpl. destruct (foldl _ None l) as [run|].
  - destruct IH as (Hin&Hp&Hmax). destruct (p x) eqn:Hx.
    + destruct (Z.ltb_spec (Run.ID run) (Run.ID x)).
      * split; [set_solver|]. split; [done|]. intros r [Hr| ->%list_elem_of_singleton]%elem_of_app Hpr; [|lia].
        specialize (Hmax r Hr Hpr). lia.
      * split; [set_solver|]. split; [done|]. intros r [Hr| ->%list_elem_of_singleton]%elem_of_app Hpr; [auto|lia].
    + split; [set_solver|]. split; [done|]. intros r [Hr| ->%list_elem_of_singleton]%elem_of_app Hpr; [auto|congruence].
  - destruct (p x) eqn:Hx.
    + split; [set_solver|]. split; [done|]. intros r [Hr| ->%list_elem_of_singleton]%elem_of_app Hpr; [|lia].
      apply IH in Hr. congruence.
    + intros r [Hr| ->%list_elem_of_singleton]%elem_of_app; auto.
Qed.

Lemma enable_run_latest d id ids targetType target taskType p run :
  (forall r, p r = true <-> r.(Run.TargetType) = targetType /\ r.(Run.TargetID) = target /\ r.(Run.TaskType) = taskType) ->
  (forall r, p r = true -> customer_rebuild_of id r || existsb (fun i => account_rebuild_of i r) ids = true) ->
  latest_of p (select (fun r => customer_rebuild_of id r || existsb (fun i => account_rebuild_of i r) ids) by_id d) = Some run ->
  latest_rebuild d targetType target taskType run.
Proof.
  intros Hp Hsel H. pose proof (latest_of_spec p (select (fun r => customer_rebuild_of id r
    || existsb (fun i => account_rebuild_of i r) ids) by_id d)) as Hspec. rewrite H in Hspec.
  destruct Hspec as ((_&j&Hj)%elem_of_select&Hpr&Hmax). split; [by apply Hp|]. split; [by eauto|].
  intros i r Hi Hr%Hp. apply Hmax; [|done]. apply elem_of_select. split; [by apply Hsel|by eauto].
Qed.

Lemma customer_rebuild_of_iff id r : customer_rebuild_of id r = true <->
  r.(Run.TargetType) = "customer" /\ r.(Run.TargetID) = id /\ r.(Run.TaskType) = TaskTypeCustomerRebuild.
Proof. unfold customer_rebuild_of. rewrite !andb_true_iff, !bool_decide_eq_true, Z.eqb_eq. tauto. Qed.
Lemma account_rebuild_of_iff id r : account_rebuild_of id r = true <->
  r.(Run.TargetType) = "account" /\ r.(Run.TargetID) = id /\ r.(Run.TaskType) = TaskTypeAccountRebuild.
Proof. unfold account_rebuild_of. rewrite !andb_true_iff, !bool_decide_eq_true, Z.eqb_eq. tauto. Qed.

(** An account that the end of a customer's pause resumes is one of its open
    accounts. *)
Lemma opened_resumes d d' id f k a p : table_wf (Tables.account d) ->
  (forall j, Tables.account d' !! j = (fun r => if (r.(MAccount.CustomerID) =? id) && openable r then f r else r)
                                      <$> Tables.account d !! j) ->
  resumes d d' k a p -> MAccount.ID a = k /\ a.(MAccount.CustomerID) = id /\ openable a = true.
Proof.
  intros Hwf Hacc (Ha&Hp&a'&Ha'&Hp'). split; [by apply Hwf in Ha|]. rewrite Hacc, Ha in Ha'. simpl in Ha'.
  destruct (Z.eqb_spec (MAccount.CustomerID a) id); simpl in Ha'; [|congruence].
  destruct (openable a); [done|congruence].
Qed.

Lemma openable_not_mismatched a : openable a = true -> ~ mismatched a.
Proof. unfold openable, mismatched. rewrite andb_true_iff, !negb_true_iff, !bool_decide_eq_false. tauto. Qed.

Lemma CompleteEnable_resumes id updatedAt d d' k a p : pause_explained (entities d) ->
  CompleteEnableInTransaction id updatedAt d = Ok (tt, d') -> resumes d d' k a p -> ~ mismatched a /\ rebuilt_over d k a p.
Proof.
  intros Hd H Hres. unfold CompleteEnableInTransaction in H. destruct (_ || _); [by inv_ok|].
  apply st_bind_ok in H as (scope&d1&(->&Hc&Hnd&Hin)%LockCustomer_ok&H); [|by destruct Hd].
  apply st_bind_ok in H as (u&d2&H2&H). apply st_lift_ok in H2 as (u'&_&[= -> ->]). cbv zeta in H.
  apply st_bind_ok in H as (runs&d3&H3&H). apply st_gets_ok in H3 as [= -> ->].
  destruct (latest_of _ _) as [customerRun|] eqn:Hlatest; [|by inv_ok].
  apply st_bind_ok in H as ([]&d3&[_ [= ->]]%st_require_ok&H).
  apply st_bind_ok in H as ([]&d3&[Hready [= ->]]%st_require_ok&H).
  apply st_bind_ok in H as ([]&d3&H3&H). apply st_bind_ok in H as (n&d4&H4&H). apply st_ret_pair in H as [_ ->].
  apply db_update_ok in H4 as [_ ->]. change (fun a : Account => (MAccount.ManagedStatus a != AccountManagedStatusArchived)
    && (MAccount.RemoteState a != AccountRemoteStateIdentityMismatch) = true) with (fun a => openable a = true) in *.
  match type of H3 with context [open_customer_account ?u] =>
    apply (scope_updates _ (opened_by u) openable id scope _ _ _ _ (Tables.account d)) in H3 as [Hc3 Ha3]
  end; [|intros ? [] ? [] ? Hs; by eapply open_customer_account_ok|by intros|by destruct Hd|done..].
  pose proof (opened_resumes _ _ id (fun a => opened_by _ a a) _ _ _ (accounts_wf _ Hd) Ha3 Hres) as (Hid&Hcust&Hop).
  split; [by apply openable_not_mismatched|]. destruct Hres as (Ha&Hp&_).
  rewrite forallb_forall in Hready. assert (Hmem : a ∈ base.filter (fun a => openable a = true) (CustomerScope.Accounts scope)).
  { apply list_elem_of_filter. split; [done|]. apply Hin. by rewrite Hid. }
  pose proof (Hready a (proj1 (list_elem_of_In _ _) Hmem)) as Hr. unfold account_ready in Hr. rewrite Hp in Hr. simpl in Hr.
  apply andb_true_iff in Hr as [Hs%bool_decide_eq_true Hcov]. apply covers_range in Hcov.
  eapply rebuilt_intro; [|exact Hs|exact Hcov]. rewrite Hcust. unfold authoritative_run.
  assert (Hcl : latest_rebuild d "customer" id TaskTypeCustomerRebuild customerRun).
  { eapply enable_run_latest; [by apply customer_rebuild_of_iff| |exact Hlatest]. intros r ->. done. }
  destruct (latest_of (account_rebuild_of (MAccount.ID a)) _) as [accountRun|] eqn:Hal; [|by right].
  destruct (_ <? _); [left|by right]. rewrite <- Hid.
  eapply enable_run_latest; [by apply account_rebuild_of_iff| |exact Hal]. intros r Hr. apply orb_true_iff. right.
  apply existsb_exists. exists (MAccount.ID a). split; [|done]. apply list_elem_of_In, list_elem_of_fmap. by exists a.
Qed.

Lemma finalizeAccount_resumes run now d d' k a p : pause_explained (entities d) ->
  latest_rebuild d "account" run.(Run.TargetID) TaskTypeAccountRebuild run -> run.(Run.Status) = "success" ->
  finalizeAccountRebuildLifecycle run now d = Ok (tt, d') -> resumes d d' k a p -> ~ mismatched a /\ rebuilt_over d k a p.
Proof.
  intros Hd Hlatest Hs H Hres. unfold finalizeAccountRebuildLifecycle in H. apply st_bind_ok in H as (r&d1&[Hr ->]%db_first_ok&H).
  change (table d !! ?j) with (Tables.account d !! j) in Hr.
  assert (Hnone : forall e, Ok (tt, d) = Ok (tt, e) -> resumes d e k a p -> False).
  { intros e [= <-] (Ha&Hp&a'&Ha'&Hp'). congruence. }
  destruct (_ && _); [by destruct (Hnone d' H Hres)|]. apply st_bind_ok in H as (c&d1&[_ ->]%db_first_ok&H).
  case_bool_decide; [by inv_ok|]. destruct (_ || _) eqn:E; [by inv_ok|].
  apply orb_false_iff in E as [E Hcov%negb_false_iff]. apply orb_false_iff in E as [E _].
  apply orb_false_iff in E as [Hm%bool_decide_eq_false _].
  apply st_bind_ok in H as (n&d2&H2&H). apply st_ret_pair in H as [_ ->].
  apply (update_account_ok (MAccount.ID r)) in H2; [|by destruct Hd]. pose proof (alter_resumes _ _ _ _ _ _ _ H2 Hres) as ->.
  pose proof (accounts_wf _ Hd _ _ Hr) as Hid. change (MAccount.ID r = Run.TargetID run) in Hid.
  destruct Hres as (Ha&Hp&_). rewrite Hid, Hr in Ha. injection Ha as ->. split; [done|].
  rewrite Hp in Hcov. apply covers_pause in Hcov. rewrite Hid. eapply rebuilt_intro; [by left|done|done].
Qed.

(** The loop of a customer's rebuild refuses an account whose pause the run
    does not cover. *)
Lemma resume_customer_accounts_covers run now l : forall d u d', resume_customer_accounts run now l d = Ok (u, d') ->
  forall a p, a ∈ l -> openable a = true -> a.(MAccount.StatisticsPausedAt) = Some p ->
  localRebuildRunCoversPause run (Some p) = true.
Proof.
  unfold resume_customer_accounts. induction l as [|x l IH]; intros d u d' H a p Hin; [by apply not_elem_of_nil in Hin|].
  apply st_fold_cons in H as ([]&d1&H1&H). apply elem_of_cons in Hin as [->|Hin]; [|by eapply IH].
  intros Hop Hp. rewrite openable_skip, Hop, Hp in H1. cbn -[localRebuildRunCoversPause] in H1.
  destruct (localRebuildRunCoversPause run (Some p)); [done|]. by apply st_fail_ok in H1.
Qed.

Lemma finalizeCustomer_resumes run now d d' k a p : pause_explained (entities d) ->
  latest_rebuild d "customer" run.(Run.TargetID) TaskTypeCustomerRebuild run -> run.(Run.Status) = "success" ->
  finalizeCustomerRebuildLifecycle run now d = Ok (tt, d') -> resumes d d' k a p -> ~ mismatched a /\ rebuilt_over d k a p.
Proof.
  intros Hd Hlatest Hs H Hres. pose proof (accounts_wf _ Hd) as Hwf. simpl in Hwf.
  unfold finalizeCustomerRebuildLifecycle in H. apply st_bind_ok in H as (c&d1&[Hc ->]%db_first_ok&H).
  assert (Hnone : forall e, Ok (tt, d) = Ok (tt, e) -> resumes d e k a p -> False).
  { intros e [= <-] (Ha&Hp&a'&Ha'&Hp'). congruence. }
  destruct (_ && _); [by destruct (Hnone d' H Hres)|]. destruct (_ || _); [by inv_ok|].
  apply st_bind_ok in H as (accounts&d1&H1&H). apply st_gets_ok in H1 as [= -> ->].
  apply st_bind_ok in H as (u2&d2&H2&H). apply st_bind_ok in H as (n&d3&H3&H). apply st_ret_pair in H as [_ ->].
  pose proof (resume_customer_accounts_covers _ _ _ _ _ _ H2) as Hcov.
  apply resume_customer_accounts_ok in H2. apply db_update_ok in H3 as [_ ->]. unfold entities in H2. injection H2 as Ha2 _.
  pose proof (customers_wf _ Hd _ _ Hc) as Hid. change (MCustomer.ID c = Run.TargetID run) in Hid.
  pose proof Hres as (Ha&Hp&a'&Ha'&Hp').
  change (Tables.account d2 !! k = Some a') in Ha'. rewrite Ha2, updates_lookup in Ha';
    [|by intros x r; unfold resumed_by; case_match|done|exact (select_NoDup (R := Account) _ _ d Hwf)|].
  - rewrite Ha in Ha'. simpl in Ha'. injection Ha' as <-. case_bool_decide as Hin; [|congruence].
    unfold resumed_by in Hp'. destruct (openable a) eqn:Hop; [|congruence]. split; [by apply openable_not_mismatched|].
    specialize (Hcov a p Hin Hop Hp). apply covers_pause in Hcov. eapply rebuilt_intro; [right|exact Hs|exact Hcov].
    apply elem_of_select in Hin as [Hcust%Z.eqb_eq _]. by rewrite Hcust, Hid.
  - intros x (_&j&Hj)%elem_of_select. pose proof (Hwf _ _ Hj) as E. by rewrite <- E in Hj.
Qed.

Lemma finalize_resumes run now d d' k a p : pause_explained (entities d) ->
  CollectionTaskTarget run.(Run.TaskType) = Some run.(Run.TargetType) ->
  finalizeLocalRebuildLifecycle run now d = Ok (tt, d') -> resumes d d' k a p -> ~ mismatched a /\ rebuilt_over d k a p.
Proof.
  intros Hd Ht H Hres. unfold finalizeLocalRebuildLifecycle in H. destruct (_ || _) eqn:E.
  { apply st_ret_pair in H as [_ ->]. destruct Hres as (Ha&Hp&a'&Ha'&Hp'). congruence. }
  apply orb_false_iff in E as [_ E].
  apply st_bind_ok in H as (latest&d1&(->&rest&Hsel)%db_first_where_ok&H). apply latest_selected in Hsel.
  apply st_bind_ok in H as ([]&d1&[Hreq [= ->]]%st_require_ok&H). rewrite !andb_true_iff in Hreq.
  destruct Hreq as (((_&Hs%bool_decide_eq_true)&_)&_). pose proof Hsel as ((_&Hid&_)&_). rewrite <- Hid in Hsel.
  case_bool_decide as Htask; simpl in E.
  - rewrite Htask in Ht, Hsel. injection Ht as Ht. rewrite <- Ht in Hsel. by eapply finalizeAccount_resumes.
  - apply negb_false_iff, bool_decide_eq_true in E. rewrite E in Ht, Hsel. injection Ht as Ht. rewrite <- Ht in Hsel. by eapply finalizeCustomer_resumes.
Qed.

(** ** The properties *)
Lemma persisted_pause {A} (m : Tx A) d x d' k a p : Persists paused m -> m d = Ok (x, d') -> ~ resumes d d' k a p.
Proof.
  intros Hm H (Ha&Hp&a'&Ha'&Hp'). destruct (Hm _ _ _ _ _ H Ha) as (a''&Ha''&Hk). rewrite Ha' in Ha''. injection Ha'' as <-.
  destruct Hk as [q Hq]; [by exists p|]. congruence.
Qed.


(** An account whose remote user turned out to be another one stays so and
    stays paused, whatever happens to it and to its customer. *)
Theorem identity_mismatch_is_final d d' k a :
  pause_explained (entities d) -> rtc lifecycle_step d d' -> Tables.account d !! k = Some a -> mismatched a ->
  exists a', Tables.account d' !! k = Some a' /\ mismatched a' /\ paused a'.
Proof.
  intros Hd H. revert a. induction H as [d|d d1 d2 Hs H IH]; intros a Ha Hm.
  - exists a. split; [done|]. split; [done|]. apply (accounts_ok _ Hd) in Ha as [_ Hp _]. apply Hp. tauto.
  - destruct (lifecycle_step_mismatched _ _ _ _ Hs Ha) as (a1&Ha1&Hm1).
    eapply IH; [by eapply lifecycle_step_explained|exact Ha1|by apply Hm1].
Qed.

(** C13: when an operation resumes the statistics of an account, the account's
    remote user is the one it is bound to, and the latest rebuild of the account
    or of its customer has succeeded over the pause. *)
Theorem statistics_resume_after_rebuild d d' k a p :
  pause_explained (entities d) -> lifecycle_step d d' -> resumes d d' k a p -> ~ mismatched a /\ rebuilt_over d k a p.
Proof.
  intros Hd [] Hres; try (match goal with H : ?m d = Ok _ |- _ =>
    by destruct (persisted_pause m _ _ _ _ _ _ _ H Hres) end).
  - apply st_bind_ok in H as (scope&d1&H1&H). apply LockCustomer_reads in H1. simpl in H1. subst d1.
    by eapply CompleteEnable_resumes.
  - pose proof Hres as (Ha&_&a'&Ha'&Hp'). destruct Hres as (_&Hp&_).
    destruct (AccountCreate_persists paused _ _ _ _ _ _ _ _ _ _ _ _ _ H H0 Ha) as (a''&Ha''&Hk).
    rewrite Ha' in Ha''. injection Ha'' as <-. destruct Hk as [q Hq]; [by exists p|]. congruence.
  - apply st_bind_ok in H as (scope&d1&H1&H). apply LockAccount_reads in H1. simpl in H1. subst d1.
    by eapply CompleteRestore_resumes.
  - by eapply finalize_resumes.
Qed.

(** ** A concrete history *)
Lemma entities_runs t d : entities (d <| Tables.collection_run := t |>) = entities d.
Proof. reflexivity. Qed.

Module LifecycleHistory.
Definition customer : Customer := MCustomer.mk 2 "acme" "" "" "0" "0" "using" None "none" 1 1.
Definition account : Account :=
  MAccount.mk 4 7 2 5 1000 "bob" "Bob" "default" 1 "normal" 0 None 0 0 0 "active" None "none" None "" 1 1.
Definition row (requests : Z) : StatRow := Stat.mk (Metrics.mk requests requests requests 1) "complete" false 1 1 1.
Definition start : Db := Sample.db [] [] []
  <| Tables.customer := {[ 2 := customer ]} |> <| Tables.account := {[ 4 := account ]} |>
  <| Tables.statistics := no_statistics
       <| Statistics.hourly := empty_rollup
            <| Rollup.account_stat := {[ (4, 3600) := row 5; (4, 7200) := row 7 ]} |>
            <| Rollup.customer_stat := {[ (2, 7, 3600) := row 5; (2, 7, 7200) := row 7 ]} |> |>
       <| Statistics.daily := empty_rollup
            <| Rollup.account_stat := {[ (4, 19700101) := row 12 ]} |>
            <| Rollup.customer_stat := {[ (2, 7, 19700101) := row 12 ]} |> |> |>.
Definition after {A} (m : Tx A) (d : Db) : Db := match m d with Ok (_, d') => d' | Err _ => d end.

Lemma step_after_ok {A} (m : Tx A) d : is_ok (m d) = true -> exists a, m d = Ok (a, after m d).
Proof. unfold after. destruct (m d) as [[a d']|e]; [by exists a|done]. Qed.

(** Archived at 8000, that is from hour 7200 on; restored at 11000. *)
Definition archived : Db := after (AccountArchive 4 8000) start.
Definition restoring : Db := after (AccountRestore 4 11000 "req-1") archived.
(** The queue has run the rebuild of [7200, 10800). *)
Definition rebuilt : Db := restoring
  <| Tables.collection_run := (fun r => r <| Run.Status := "success" |>) <$> Tables.collection_run restoring |>.
Definition run : CollectionRun :=
  match Tables.collection_run rebuilt !! 100 with Some r => r | None => zero_run end.
(** It finishes after the next hour has closed. *)
Definition resumed : Db := after (finalizeLocalRebuildLifecycle run 15000) rebuilt.

(** The site answers with another user under the id. *)
Definition other : UpstreamUser := RemoteUser.mk 5 "eve" "Eve" "default" 1 0 0 0 2000 false.
Definition mismatched : Db := after (AccountRefresh account other 8000) start.
Definition later : Db := after (AccountArchive 4 9000) mismatched.

Lemma start_explained : pause_explained (entities start).
Proof.
  split; unfold entities, start; simpl.
  - by intros k r [<- <-]%lookup_singleton_Some.
  - by intros k r [<- <-]%lookup_singleton_Some.
  - intros k r [<- <-]%lookup_singleton_Some. split; [by left| |].
    + split; [by intros [? [=]]|]. intros [[=]|[[=]|(c&[_ <-]%lookup_singleton_Some&[=])]].
    + by intros c p [_ <-]%lookup_singleton_Some.
  - intros k r [<- <-]%lookup_singleton_Some. by split; [intros [? [=]]|].
Qed.

Lemma archive_step : lifecycle_step start archived.
Proof. destruct (step_after_ok (AccountArchive 4 8000) start) as [[] H]; [by vm_compute|]. exact (step_archive _ _ _ _ H). Qed.
Lemma archive_mismatched_step : lifecycle_step mismatched later.
Proof. destruct (step_after_ok (AccountArchive 4 9000) mismatched) as [[] H]; [by vm_compute|]. exact (step_archive _ _ _ _ H). Qed.
Lemma mismatch_step : lifecycle_step start mismatched.
Proof. destruct (step_after_ok (AccountRefresh account other 8000) start) as [r H]; [by vm_compute|]. exact (step_refresh _ _ _ _ _ _ H). Qed.
Lemma rebuilt_entities : entities rebuilt = entities restoring.
Proof. exact (entities_runs _ restoring). Qed.
Lemma restore_step : lifecycle_step archived restoring.
Proof. destruct (step_after_ok (AccountRestore 4 11000 "req-1") archived) as [r H]; [by vm_compute|]. exact (step_restore _ _ _ _ _ _ H). Qed.
Lemma finalize_step : lifecycle_step rebuilt resumed.
Proof.
  destruct (step_after_ok (finalizeLocalRebuildLifecycle run 15000) rebuilt) as [[] H]; [by vm_compute|].
  refine (step_finalize _ _ run 15000 _ H). by vm_compute.
Qed.
End LifecycleHistory.


Lemma identity_mismatch_is_final_witness : exists a',
  Tables.account LifecycleHistory.later !! 4 = Some a' /\ mismatched a' /\ paused a'.
Proof.
  destruct (Tables.account LifecycleHistory.mismatched !! 4) as [a|] eqn:Ha; [|by vm_compute in Ha].
  apply (identity_mismatch_is_final LifecycleHistory.mismatched LifecycleHistory.later 4 a
    (lifecycle_step_explained _ _ LifecycleHistory.mismatch_step LifecycleHistory.start_explained)
    (rtc_once _ _ LifecycleHistory.archive_mismatched_step) Ha
    ltac:(vm_compute in Ha; injection Ha as <-; reflexivity)).
Defined.

Lemma statistics_resume_after_rebuild_witness : exists a,
  resumes LifecycleHistory.rebuilt LifecycleHistory.resumed 4 a 7200 /\ ~ mismatched a /\
  rebuilt_over LifecycleHistory.rebuilt 4 a 7200.
Proof.
  assert (Hexp : pause_explained (entities LifecycleHistory.rebuilt)).
  { rewrite LifecycleHistory.rebuilt_entities.
    apply (lifecycle_step_explained _ _ LifecycleHistory.restore_step).
    apply (lifecycle_step_explained _ _ LifecycleHistory.archive_step). exact LifecycleHistory.start_explained. }
  destruct (Tables.account LifecycleHistory.rebuilt !! 4) as [a|] eqn:Ha; [|by vm_compute in Ha].
  destruct (Tables.account LifecycleHistory.resumed !! 4) as [a'|] eqn:Ha'; [|by vm_compute in Ha'].
  assert (Hres : resumes LifecycleHistory.rebuilt LifecycleHistory.resumed 4 a 7200).
  { split; [exact Ha|]. vm_compute in Ha, Ha'. injection Ha as <-. injection Ha' as <-. split; [done|].
    eexists. split; [by vm_compute|done]. }
  exists a. split; [exact Hres|].
  exact (statistics_resume_after_rebuild LifecycleHistory.rebuilt LifecycleHistory.resumed 4 a 7200 Hexp
    LifecycleHistory.finalize_step Hres).
Defined.

(** The worker resumes the account of the history at 15000 although its rebuild
    ends at 10800: the hour from 10800 on closed while the account was paused and
    is not rebuilt.  [CompleteRestore], which asks for a rebuild up to the last
    closed hour, refuses; the worker does not call it. *)
Example restore_misses_the_last_hours :
  (MAccount.StatisticsPausedAt <$> Tables.account LifecycleHistory.resumed !! 4) = Some None /\
  (Run.EndTimestamp <$> Tables.collection_run LifecycleHistory.rebuilt !! 100) = Some (Some 10800) /\
  CompleteRestoreInTransaction 4 15000 LifecycleHistory.rebuilt = Err ErrRebuildRunNotReady.
Proof. by vm_compute. Qed.
