(* ===== verification/AlertMessages.v ===== *)
(** * What an alert says ([dto/message.go], [service/alert.go])

    A message is a code, the values of its parameters and a technical detail.
    [constant.MessageRegistry] gives the parameters each code takes; the model
    has the codes of the alerts, which are the only ones an evaluation builds
    or an event carries.  A parameter is a text or an integer ([json_value]),
    so every validator sees the dynamic type the code gives it. *)

From Stdlib Require Import Ascii String.
From S2P Require Import Prelude GoText GoNumber Json Alerting.

Module MessageRef.
Record MessageRef := mk { Code : string; Params : json_object; TechnicalDetail : string }.
End MessageRef.
Abbreviation MessageRef := MessageRef.MessageRef.

Definition AlertSampleKnown : string := "known".
Definition AlertSampleUnknown : string := "unknown".
Definition AlertSampleScopeInactive : string := "scope_inactive".

Module Evaluation.
Record AlertEvaluation := mk {
  RuleKey : string; SiteID : option Z; TargetType : string; TargetKey : string;
  TargetName : string; State : string; CurrentValue : option string; Message : MessageRef;
  ScopeType : string; ScopeID : Z; ScopeName : string; Source : string; RequestID : string;
  ObservedAt : Z; SampleKey : string; PriorSampleKeys : list string; ResolutionReason : string }.
#[export] Instance AlertEvaluation_eta : RecordEta AlertEvaluation := fun e =>
  mk (RuleKey e) (SiteID e) (TargetType e) (TargetKey e) (TargetName e) (State e) (CurrentValue e)
    (Message e) (ScopeType e) (ScopeID e) (ScopeName e) (Source e) (RequestID e) (ObservedAt e)
    (SampleKey e) (PriorSampleKeys e) (ResolutionReason e).
End Evaluation.
Export (hints) Evaluation.
Abbreviation AlertEvaluation := Evaluation.AlertEvaluation.

(** ** The registry *)
Inductive param_spec := stringParam | idParam | timestampParam | enumParam (values : list string).
Record MessageParamSchema := schema_ {
  Required : list (string * param_spec); Optional : list (string * param_spec) }.

Definition required (params : list (string * param_spec)) : option MessageParamSchema := Some (schema_ params []).
Definition site_name_params := required [("site_id", idParam); ("site_name", stringParam)].
Definition hour_params := required [("site_id", idParam); ("start_timestamp", timestampParam); ("end_timestamp", timestampParam)].
Definition instance_params := required [("site_id", idParam); ("instance_name", stringParam)].
Definition resource_params := required [("site_id", idParam); ("target_type", stringParam);
  ("target_name", stringParam); ("value", stringParam); ("threshold", stringParam)].
Definition account_params := Some (schema_ [("account_id", idParam); ("account_name", stringParam)] [("site_id", idParam)]).
Definition channel_params := required [("site_id", idParam); ("site_name", stringParam);
  ("value", stringParam); ("threshold", stringParam)].

Definition MessageRegistry (code : string) : option MessageParamSchema :=
  if code == "ALERT_SITE_OFFLINE" then site_name_params
  else if code == "ALERT_AUTH_EXPIRED" then site_name_params
  else if code == "ALERT_EXPORT_DISABLED" then site_name_params
  else if code == "ALERT_COLLECTION_MISSING" then hour_params
  else if code == "ALERT_BACKFILL_FAILED" then required [("site_id", idParam); ("run_id", idParam)]
  else if code == "ALERT_VALIDATION_FAILED" then
    required [("site_id", idParam); ("start_timestamp", timestampParam); ("end_timestamp", timestampParam);
      ("failure_kind", enumParam ["data_mismatch"; "execution_failed"])]
  else if code == "ALERT_INSTANCE_STALE" then instance_params
  else if code == "ALERT_INSTANCE_OFFLINE" then instance_params
  else if code == "ALERT_NO_INSTANCE" then site_name_params
  else if code == "ALERT_CPU_HIGH" then resource_params
  else if code == "ALERT_MEMORY_HIGH" then resource_params
  else if code == "ALERT_DISK_HIGH" then resource_params
  else if code == "ALERT_ACCOUNT_MISSING" then account_params
  else if code == "ALERT_ACCOUNT_IDENTITY_MISMATCH" then account_params
  else if code == "ALERT_ACCOUNT_DISABLED" then account_params
  else if code == "ALERT_ACCOUNT_QUOTA_EMPTY" then account_params
  else if code == "ALERT_CHANNEL_BALANCE_LOW" then channel_params
  else if code == "ALERT_CHANNEL_RESPONSE_TIME_HIGH" then channel_params
  else if code == "ALERT_CHANNEL_AVAILABILITY_LOW" then channel_params
  else if code == "ALERT_SCOPE_INACTIVE" then
    required [("scope_type", stringParam); ("scope_id", idParam); ("scope_name", stringParam)]
  else None.

(** ** Validation *)
Definition isPositiveDecimalInt64 (value : string) : bool :=
  match bytes value with
  | [] => false
  | c :: _ => (c != "0"%char) && digits (bytes value)
              && match ParseInt value with Some parsed => 0 <? parsed | None => false end
  end.

Definition validateMessageParam (spec : param_spec) (value : json_value) : bool :=
  match spec, value with
  | stringParam, JsonText _ => true
  | idParam, JsonText text => isPositiveDecimalInt64 text
  | enumParam values, JsonText text => bool_decide (text ∈ values)
  | timestampParam, JsonNumber n => 0 <=? n
  | _, _ => false
  end.

Definition param_of (schema : MessageParamSchema) (key : string) : option param_spec :=
  (fun p => p.2.2) <$> list_find (fun p => p.1 = key) (schema.(Optional) ++ schema.(Required)).

Definition ValidateMessageParams (code : string) (params : json_object) : bool :=
  match MessageRegistry code with
  | None => false
  | Some schema =>
      forallb (fun p => not_nil (params !! p.1)) schema.(Required)
      && forallb (fun p => match param_of schema p.1 with
                           | Some spec => validateMessageParam spec p.2
                           | None => false
                           end) (map_to_list params)
  end.

Definition NewMessageRef (code : string) (params : json_object) (technicalDetail : string) : result MessageRef :=
  if ValidateMessageParams code params then Ok (MessageRef.mk code params technicalDetail)
  else Err (ErrOther "invalid message params").

(** ** The contract of each rule *)
Inductive alertCollectionTargetKind := alertCollectionTargetNone | alertCollectionTargetHour | alertCollectionTargetRun.
#[export] Instance alertCollectionTargetKind_eq_dec : EqDecision alertCollectionTargetKind.
Proof. solve_decision. Defined.
Record alertRuleContract := contract_ {
  TargetType : string; MessageCode : string; CollectionTarget : alertCollectionTargetKind }.

Definition alertRuleContracts : list (string * alertRuleContract) :=
  let plain target code := contract_ target code alertCollectionTargetNone in
  [("site_offline", plain "site" "ALERT_SITE_OFFLINE");
   ("site_auth_expired", plain "site" "ALERT_AUTH_EXPIRED");
   ("site_export_disabled", plain "site" "ALERT_EXPORT_DISABLED");
   ("collection_missing", contract_ "collection" "ALERT_COLLECTION_MISSING" alertCollectionTargetHour);
   ("backfill_failed", contract_ "collection" "ALERT_BACKFILL_FAILED" alertCollectionTargetRun);
   ("validation_failed", contract_ "collection" "ALERT_VALIDATION_FAILED" alertCollectionTargetHour);
   ("instance_stale", plain "instance" "ALERT_INSTANCE_STALE");
   ("instance_offline", plain "instance" "ALERT_INSTANCE_OFFLINE");
   ("site_no_instance", plain "site" "ALERT_NO_INSTANCE");
   ("cpu_high", plain "instance" "ALERT_CPU_HIGH");
   ("memory_high", plain "instance" "ALERT_MEMORY_HIGH");
   ("disk_high", plain "instance" "ALERT_DISK_HIGH");
   ("account_missing", plain "account" "ALERT_ACCOUNT_MISSING");
   ("account_identity_mismatch", plain "account" "ALERT_ACCOUNT_IDENTITY_MISMATCH");
   ("account_disabled", plain "account" "ALERT_ACCOUNT_DISABLED");
   ("account_quota_empty", plain "account" "ALERT_ACCOUNT_QUOTA_EMPTY");
   ("channel_balance_low", plain "site" "ALERT_CHANNEL_BALANCE_LOW");
   ("channel_response_time_high", plain "site" "ALERT_CHANNEL_RESPONSE_TIME_HIGH");
   ("channel_availability_low", plain "site" "ALERT_CHANNEL_AVAILABILITY_LOW")].
Definition alertRuleContract_of (ruleKey : string) : option alertRuleContract :=
  (fun p => p.2.2) <$> list_find (fun p => p.1 = ruleKey) alertRuleContracts.

(** ** The target of an evaluation *)
Module Target.
Record canonicalAlertTarget := mk { Key : string; EntityID : Z }.
End Target.
Abbreviation canonicalAlertTarget := Target.canonicalAlertTarget.

(** strings.ContainsAny(s, "\x00\r\n") *)
Definition has_control (s : string) : bool :=
  existsb (fun c => (code c =? 0) || (code c =? 13) || (code c =? 10)) (bytes s).

(** strings.SplitN(raw, "/", 2) when there is a slash. *)
Fixpoint split_slash (l : list ascii) : option (list ascii * list ascii) :=
  match l with
  | [] => None
  | c :: r => if bool_decide (c = "/"%char) then Some ([], r)
              else (fun '(prefix, suffix) => (c :: prefix, suffix)) <$> split_slash r
  end.
Definition SplitSlash (raw : string) : option (string * string) :=
  (fun '(prefix, suffix) => (string_of_list_ascii prefix, string_of_list_ascii suffix)) <$> split_slash (bytes raw).

Definition canonicalAlertTargetKey (evaluation : AlertEvaluation) (contract : alertRuleContract)
  : option canonicalAlertTarget :=
  let raw := evaluation.(Evaluation.TargetKey) in
  match evaluation.(Evaluation.SiteID) with
  | None => None
  | Some site =>
      if (site <=? 0) || (evaluation.(Evaluation.TargetType) != contract.(TargetType)) || (raw == "") then None
      else
        let siteKey := FormatInt site in
        if contract.(TargetType) == "site" then
          id ← canonicalID raw; if raw == siteKey then Some (Target.mk raw id) else None
        else if contract.(TargetType) == "account" then
          id ← canonicalID raw; Some (Target.mk raw id)
        else if (contract.(TargetType) == "instance") || (contract.(TargetType) == "collection") then
          '(prefix, suffix) ← SplitSlash raw;
          if (suffix == "") || (suffix != trim suffix) then None
          else
            _ ← canonicalID prefix;
            if prefix != siteKey then None
            else if contract.(TargetType) == "instance" then
              if has_control suffix then None else Some (Target.mk (prefix +:+ "/" +:+ suffix) 0)
            else
              id ← canonicalID suffix;
              if bool_decide (contract.(CollectionTarget) = alertCollectionTargetNone)
                 || (bool_decide (contract.(CollectionTarget) = alertCollectionTargetHour)
                     && (max_int64 - 3600 <? id)) then None
              else Some (Target.mk (prefix +:+ "/" +:+ suffix) id)
        else None
  end.

(** ** The messages *)
Definition alertTechnicalDetail (detail source requestID : string) : string :=
  let evidence := (if source == "" then [] else ["source=" +:+ source])
                  ++ (if requestID == "" then [] else ["request_id=" +:+ requestID]) in
  if bool_decide (evidence = []) then detail
  else String.concat "; " (if detail == "" then evidence else detail :: evidence).

Definition evaluation_detail (evaluation : AlertEvaluation) : string :=
  alertTechnicalDetail evaluation.(Evaluation.Message).(MessageRef.TechnicalDetail)
    evaluation.(Evaluation.Source) evaluation.(Evaluation.RequestID).

Definition message_params (l : list (string * json_value)) : json_object := list_to_map l.

(** The parameters [buildAlertMessage] gives the rule's message. *)
Definition alert_params (evaluation : AlertEvaluation) (contract : alertRuleContract)
    (target : canonicalAlertTarget) (threshold currentValue : string) : result json_object :=
  let ruleKey := evaluation.(Evaluation.RuleKey) in
  let site := ("site_id", JsonText (FormatInt (deref evaluation.(Evaluation.SiteID)))) in
  let name := JsonText evaluation.(Evaluation.TargetName) in
  let entity := target.(Target.EntityID) in
  let hour := [site; ("start_timestamp", JsonNumber entity); ("end_timestamp", JsonNumber (entity + 3600))] in
  if bool_decide (ruleKey ∈ ["site_offline"; "site_auth_expired"; "site_export_disabled"; "site_no_instance"])
  then Ok (message_params [site; ("site_name", name)])
  else if ruleKey == "collection_missing" then Ok (message_params hour)
  else if ruleKey == "backfill_failed" then Ok (message_params [site; ("run_id", JsonText (FormatInt entity))])
  else if ruleKey == "validation_failed" then
    let failureKind := trim evaluation.(Evaluation.Source) in
    if bool_decide (failureKind ∈ ["data_mismatch"; "execution_failed"])
    then Ok (message_params (hour ++ [("failure_kind", JsonText failureKind)]))
    else Err (ErrAlertValidation {["source" := "must identify the validation failure kind"]})
  else if bool_decide (ruleKey ∈ ["instance_stale"; "instance_offline"])
  then Ok (message_params [site; ("instance_name", name)])
  else if bool_decide (ruleKey ∈ ["cpu_high"; "memory_high"; "disk_high"])
  then Ok (message_params [site; ("target_type", JsonText contract.(TargetType)); ("target_name", name);
             ("value", JsonText currentValue); ("threshold", JsonText threshold)])
  else if bool_decide (ruleKey ∈ ["account_missing"; "account_identity_mismatch"; "account_disabled"; "account_quota_empty"])
  then Ok (message_params [("account_id", JsonText (FormatInt entity)); ("account_name", name); site])
  else if bool_decide (ruleKey ∈ ["channel_balance_low"; "channel_response_time_high"; "channel_availability_low"])
  then Ok (message_params [site; ("site_name", JsonText evaluation.(Evaluation.TargetName));
             ("value", JsonText currentValue); ("threshold", JsonText threshold)])
  else Err (ErrAlertValidation {["rule_key" := "is not a built-in alert rule"]}).

Definition buildAlertMessage (evaluation : AlertEvaluation) (contract : alertRuleContract)
    (target : canonicalAlertTarget) (threshold currentValue : string) : result MessageRef :=
  params ← alert_params evaluation contract target threshold currentValue;
  NewMessageRef contract.(MessageCode) params (evaluation_detail evaluation).

Definition scopeInactiveMessage (evaluation : AlertEvaluation) : result MessageRef :=
  let scopeType := trim evaluation.(Evaluation.ScopeType) in
  let scopeType := if scopeType == "" then evaluation.(Evaluation.TargetType) else scopeType in
  let scopeName := evaluation.(Evaluation.ScopeName) in
  let scopeName := if scopeName == "" then evaluation.(Evaluation.TargetName) else scopeName in
  NewMessageRef "ALERT_SCOPE_INACTIVE"
    (message_params [("scope_type", JsonText scopeType);
       ("scope_id", JsonText (FormatInt evaluation.(Evaluation.ScopeID))); ("scope_name", JsonText scopeName)])
    (evaluation_detail evaluation).

(** [updateResolvedAlertEvidence]: a resolved event reports the value that
    resolved it. *)
Definition updateResolvedAlertEvidence (evaluation : AlertEvaluation) (event : AlertEvent)
    (currentValue : string) : result AlertEvent :=
  if event.(MEvent.MessageCode) == "" then Err (ErrOther "resolved alert evidence is invalid")
  else
    let params := default ∅ event.(MEvent.MessageParams) in
    let params := if not_nil (params !! "value") then <["value" := JsonText currentValue]> params else params in
    params ← (if not_nil (params !! "threshold") then
                match event.(MEvent.ThresholdValue) with
                | None => Err (ErrOther "resolved alert threshold evidence is invalid")
                | Some threshold => Ok (<["threshold" := JsonText threshold]> params)
                end
              else Ok params);
    message ← NewMessageRef event.(MEvent.MessageCode) params
                (alertTechnicalDetail "" evaluation.(Evaluation.Source) evaluation.(Evaluation.RequestID));
    Ok (event <| MEvent.CurrentValue := Some currentValue |>
              <| MEvent.MessageParams := Some message.(MessageRef.Params) |>
              <| MEvent.Message := message.(MessageRef.TechnicalDetail) |>).
