(* ===== verification/AlertDelivery.v ===== *)
(** * The delivery outbox and its worker ([model/alert_delivery.go], [service/dingtalk.go])

    A delivery is a message of an event frozen when the event changes.  It
    stays [pending] until it is sent or given up; a worker that sends it holds
    it by a random token and a lease, which only a later worker may take over
    once it has run out.  Each repository method is one transaction.

    [ProcessNext] is the worker's turn: look at the settings, give up what is
    exhausted, claim a delivery, send it, record the outcome.  Here it is the
    turn up to the claim, [attempt_result] is what the request's outcome means
    and [completeAttempt] the transaction that records it.  Instants and
    durations of the worker are nanoseconds, [Unix] rounds down to the second.

    Arguments: the random token of a claim, the rows other transactions hold
    locked, what [prepare] finds when it decrypts and parses the configured
    webhook and secret ([channel_check], a refusal's code or none), the HTTP
    exchange ([http_outcome]; its body is what [decodeDingTalkErrCode] read),
    and [http.ParseTime]. *)

From Stdlib Require Import Ascii String.
From S2P Require Import Prelude GoText GoNumber Json Alerting Store.

(** ** Snapshots *)
Inductive json := JNull | JBool (b : bool) | JInt (z : Z) | JText (s : string)
  | JArray (items : list json) | JObject (members : list (string * json)).

Fixpoint json_text (v : json) : string :=
  match v with
  | JNull => "null" | JBool true => "true" | JBool false => "false"
  | JInt z => FormatInt z
  | JText s => json_quoted s
  | JArray items => "[" +:+ String.concat "," (map json_text items) +:+ "]"
  | JObject members => "{" +:+ String.concat "," (map (fun '(key, child) => json_quoted key +:+ ":" +:+ json_text child) members) +:+ "}"
  end.

Definition sensitive_keys : list string :=
  ["webhook"; "webhook_url"; "secret"; "sign"; "signature"; "access_token"; "password"; "encryption_key"].
Definition normalized_key (key : string) : string :=
  lower (string_of_list_ascii
    ((fun c => if (code c =? 45) || (code c =? 32) then "_"%char else c) <$> bytes key)).

Fixpoint alertDeliverySnapshotHasSensitiveKey (value : json) : bool :=
  match value with
  | JObject members =>
      existsb (fun '(key, child) =>
        bool_decide (normalized_key key ∈ sensitive_keys) || alertDeliverySnapshotHasSensitiveKey child) members
  | JArray items => existsb alertDeliverySnapshotHasSensitiveKey items
  | _ => false
  end.

(** The bytes of a JSON value are valid JSON and decode to it. *)
Definition validAlertDeliverySnapshot (value : json) : bool :=
  (len (json_text value) <=? 64 * 1024) && negb (alertDeliverySnapshotHasSensitiveKey value).

(** ** Settings *)
Definition enabled_key : string := "notification.dingtalk.enabled".
Definition webhook_key : string := "notification.dingtalk.webhook".
Definition secret_key : string := "notification.dingtalk.secret".

Record DingTalkSettingValues := dingTalkSettings {
  EnabledSetting : bool; WebhookCiphertext : string; SecretCiphertext : string }.

Definition setting (key : string) (d : Db) : option settingRow :=
  (Tables.alerting d).(Alerting.platform_setting) !! key.
Definition is_switch (row : settingRow) : bool :=
  (row.(MSetting.Type_) == "bool") && negb row.(MSetting.Secret)
  && ((row.(MSetting.Value) == "true") || (row.(MSetting.Value) == "false")).
Definition is_secret (row : settingRow) : bool :=
  (row.(MSetting.Type_) == "string") && row.(MSetting.Secret).

Definition LoadDingTalkSettings : Tx DingTalkSettingValues := fun d =>
  match setting enabled_key d, setting webhook_key d, setting secret_key d with
  | Some enabled, Some webhook, Some secret =>
      if is_switch enabled && is_secret webhook && is_secret secret
      then Ok (dingTalkSettings (enabled.(MSetting.Value) == "true") webhook.(MSetting.Value) secret.(MSetting.Value), d)
      else Err ErrDingTalkSettingInvalid
  | _, _, _ => Err ErrDingTalkSettingInvalid
  end.

Definition LockDingTalkEnabled : Tx bool := fun d =>
  match setting enabled_key d with
  | Some row => if is_switch row then Ok (row.(MSetting.Value) == "true", d) else Err ErrDingTalkSettingInvalid
  | None => Err ErrDingTalkSettingInvalid
  end.

(** ** The repository *)
Definition delivery_event_types : list string :=
  [AlertDeliveryEventFiring; AlertDeliveryEventResolved; AlertDeliveryEventTest].

(** alert_event_id = ? AND event_type = ? AND channel = ? *)
Definition delivery_of (event : Z) (eventType : string) (r : AlertDelivery) : bool :=
  bool_decide (r.(MDelivery.AlertEventID) = Some event) && (r.(MDelivery.EventType) == eventType)
  && (r.(MDelivery.Channel) == AlertDeliveryChannel).

Definition new_delivery (alertEventID : option Z) (eventType : string) (payload : json) (now : Z) : AlertDelivery :=
  MDelivery.mk 0 alertEventID eventType AlertDeliveryChannel AlertDeliveryStatusPending 0 None None
    (json_text payload) "" None None (Some now) None now now.

Definition Enqueue (alertEventID : option Z) (eventType : string) (payload : json) (now : Z)
  : Tx (AlertDelivery * bool) :=
  _ ← st_require ((0 <? now) && bool_decide (eventType ∈ delivery_event_types)
        && (if eventType == AlertDeliveryEventTest then is_nil alertEventID
            else 0 <? default 0 alertEventID)
        && validAlertDeliverySnapshot payload) (ErrOther "invalid alert delivery enqueue request");
  match alertEventID with
  | None => created ← db_create (new_delivery None eventType payload now); mret (created, false)
  | Some event =>
      known ← st_gets (select (delivery_of event eventType) by_id);
      match known with
      | delivery :: _ => mret (delivery, true)
      | [] => created ← db_create (new_delivery (Some event) eventType payload now); mret (created, false)
      end
  end.

Definition is_pending_delivery (r : AlertDelivery) : bool := r.(MDelivery.Status) == AlertDeliveryStatusPending.
Definition unlock_delivery (r : AlertDelivery) : AlertDelivery :=
  r <| MDelivery.NextRetryAt := None |> <| MDelivery.ClaimToken := None |> <| MDelivery.LeaseExpiresAt := None |>.

Definition DisablePending (now : Z) : Tx Z :=
  _ ← st_require (0 <? now) (ErrOther "invalid disable pending deliveries request");
  db_update is_pending_delivery (fun r => unlock_delivery r
    <| MDelivery.Status := AlertDeliveryStatusFailed |> <| MDelivery.ErrorCode := "NOTIFICATION_DISABLED" |>
    <| MDelivery.ResponseCode := None |> <| MDelivery.ResponseMessage := Some "notification disabled" |>
    <| MDelivery.UpdatedAt := now |>).

(** instant IS NOT NULL AND instant <= now *)
Definition reached (instant : option Z) (now : Z) : bool :=
  match instant with Some t => t <=? now | None => false end.

Definition is_exhausted (now : Z) (r : AlertDelivery) : bool :=
  is_pending_delivery r && is_nil r.(MDelivery.ClaimToken)
  && (AlertDeliveryMaxAttempts <=? r.(MDelivery.AttemptCount)) && reached r.(MDelivery.NextRetryAt) now.

Definition FailExhaustedLeases (now : Z) : Tx Z :=
  _ ← st_require (0 <? now) (ErrOther "invalid exhausted alert delivery request");
  db_update (is_exhausted now) (fun r => unlock_delivery r
    <| MDelivery.Status := AlertDeliveryStatusFailed |> <| MDelivery.ErrorCode := "DELIVERY_RETRY_EXHAUSTED" |>
    <| MDelivery.ResponseMessage := Some "delivery retry budget exhausted" |> <| MDelivery.UpdatedAt := now |>).

Module DeliveryClaim.
Record AlertDeliveryClaim := mk {
  Delivery : AlertDelivery; ClaimToken : string; LeaseExpiresAt : Z; Takeover : bool }.
End DeliveryClaim.
Abbreviation AlertDeliveryClaim := DeliveryClaim.AlertDeliveryClaim.

(** The WHERE clause of a claim. *)
Definition is_fresh (now : Z) (r : AlertDelivery) : bool :=
  is_nil r.(MDelivery.ClaimToken) && (r.(MDelivery.AttemptCount) <? AlertDeliveryMaxAttempts)
  && reached r.(MDelivery.NextRetryAt) now.
Definition is_expired (now : Z) (r : AlertDelivery) : bool :=
  not_nil r.(MDelivery.ClaimToken) && (1 <=? r.(MDelivery.AttemptCount))
  && (r.(MDelivery.AttemptCount) <=? AlertDeliveryMaxAttempts) && reached r.(MDelivery.LeaseExpiresAt) now.

(** A pending delivery of the event's firing. *)
Definition blocks (r firing : AlertDelivery) : bool :=
  not_nil r.(MDelivery.AlertEventID)
  && bool_decide (firing.(MDelivery.AlertEventID) = r.(MDelivery.AlertEventID))
  && (firing.(MDelivery.EventType) == AlertDeliveryEventFiring)
  && (firing.(MDelivery.Channel) == r.(MDelivery.Channel)) && is_pending_delivery firing.
Definition waits_for_firing (d : Db) (r : AlertDelivery) : bool :=
  (r.(MDelivery.EventType) == AlertDeliveryEventResolved) && existsb (blocks r) (table_rows d).

Definition claimable (now : Z) (d : Db) (r : AlertDelivery) : bool :=
  is_pending_delivery r && (is_fresh now r || is_expired now r) && negb (waits_for_firing d r).

(** ORDER BY COALESCE(lease_expires_at, next_retry_at), id *)
Definition by_due (r : AlertDelivery) : sort_key :=
  [AInt (default (deref r.(MDelivery.NextRetryAt)) r.(MDelivery.LeaseExpiresAt)); AInt r.(MDelivery.ID)].

(** The row a claim holds. *)
Definition leased (token : string) (leaseUntil now : Z) (r : AlertDelivery) : AlertDelivery :=
  r <| MDelivery.AttemptCount := if not_nil r.(MDelivery.ClaimToken) then r.(MDelivery.AttemptCount)
                                 else r.(MDelivery.AttemptCount) + 1 |>
    <| MDelivery.ClaimToken := Some token |> <| MDelivery.LeaseExpiresAt := Some leaseUntil |>
    <| MDelivery.NextRetryAt := None |> <| MDelivery.UpdatedAt := now |>.

(** The compare-and-set of the claim's UPDATE. *)
Definition unchanged_since (read r : AlertDelivery) : bool :=
  (r.(MDelivery.ID) =? read.(MDelivery.ID)) && is_pending_delivery r
  && (r.(MDelivery.AttemptCount) =? read.(MDelivery.AttemptCount))
  && if not_nil read.(MDelivery.ClaimToken)
     then bool_decide (r.(MDelivery.ClaimToken) = read.(MDelivery.ClaimToken))
          && bool_decide (r.(MDelivery.LeaseExpiresAt) = read.(MDelivery.LeaseExpiresAt))
     else is_nil r.(MDelivery.ClaimToken) && is_nil r.(MDelivery.LeaseExpiresAt)
          && bool_decide (r.(MDelivery.NextRetryAt) = read.(MDelivery.NextRetryAt)).

Definition claim (id : option Z) (now leaseUntil : Z) (token : string) (locked : Z -> bool)
  : Tx AlertDeliveryClaim :=
  _ ← st_require ((0 <? now) && (now <? leaseUntil)) (ErrOther "invalid alert delivery claim request");
  candidates ← (fun d => db_select (fun r => claimable now d r && negb (locked r.(MDelivery.ID))
                  && match id with Some id => r.(MDelivery.ID) =? id | None => true end) by_due d);
  match candidates with
  | [] => st_fail ErrAlertDeliveryUnavailable
  | delivery :: _ =>
      affectedRows ← db_update (unchanged_since delivery) (leased token leaseUntil now);
      _ ← st_require (affectedRows =? 1) ErrAlertDeliveryUnavailable;
      mret (DeliveryClaim.mk (leased token leaseUntil now delivery) token leaseUntil
              (not_nil delivery.(MDelivery.ClaimToken)))
  end.

Definition ClaimNext (now leaseUntil : Z) (token : string) (locked : Z -> bool) : Tx AlertDeliveryClaim :=
  claim None now leaseUntil token locked.
Definition ClaimByID (id now leaseUntil : Z) (token : string) (locked : Z -> bool) : Tx AlertDeliveryClaim :=
  _ ← st_require (0 <? id) (ErrOther "invalid alert delivery ID");
  claim (Some id) now leaseUntil token locked.

Module Completion.
Record AlertDeliveryCompletion := mk {
  DeliveryID : Z; AttemptCount : Z; ClaimToken : string; Status : string; ErrorCode : string;
  ResponseCode : option Z; ResponseMessage : option string; NextRetryAt : option Z;
  SentAt : option Z; Now : Z }.
End Completion.
Abbreviation AlertDeliveryCompletion := Completion.AlertDeliveryCompletion.

Definition valid_completion (c : AlertDeliveryCompletion) : bool :=
  (0 <? c.(Completion.DeliveryID)) && (0 <? c.(Completion.AttemptCount)) && (c.(Completion.ClaimToken) != "")
  && (0 <? c.(Completion.Now))
  && bool_decide (c.(Completion.Status) ∈ [AlertDeliveryStatusPending; AlertDeliveryStatusSuccess; AlertDeliveryStatusFailed])
  && (if c.(Completion.Status) == AlertDeliveryStatusPending then not_nil c.(Completion.NextRetryAt)
      else is_nil c.(Completion.NextRetryAt)).

(** id = ? AND status = 'pending' AND attempt_count = ? AND claim_token = ? *)
Definition held_by (c : AlertDeliveryCompletion) (r : AlertDelivery) : bool :=
  (r.(MDelivery.ID) =? c.(Completion.DeliveryID)) && is_pending_delivery r
  && (r.(MDelivery.AttemptCount) =? c.(Completion.AttemptCount))
  && bool_decide (r.(MDelivery.ClaimToken) = Some c.(Completion.ClaimToken)).

Definition completed (c : AlertDeliveryCompletion) (r : AlertDelivery) : AlertDelivery :=
  r <| MDelivery.Status := c.(Completion.Status) |> <| MDelivery.ErrorCode := c.(Completion.ErrorCode) |>
    <| MDelivery.ResponseCode := c.(Completion.ResponseCode) |>
    <| MDelivery.ResponseMessage := c.(Completion.ResponseMessage) |>
    <| MDelivery.NextRetryAt := c.(Completion.NextRetryAt) |> <| MDelivery.ClaimToken := None |>
    <| MDelivery.LeaseExpiresAt := None |> <| MDelivery.SentAt := c.(Completion.SentAt) |>
    <| MDelivery.UpdatedAt := c.(Completion.Now) |>.

Definition Complete (c : AlertDeliveryCompletion) : Tx unit :=
  _ ← st_require (valid_completion c) (ErrOther "invalid alert delivery completion");
  affectedRows ← db_update (held_by c) (completed c);
  st_require (affectedRows =? 1) ErrAlertDeliveryLeaseLost.

Definition Find (id : Z) : Tx AlertDelivery := fun d =>
  if id <=? 0 then Err (ErrOther "invalid alert delivery lookup")
  else match table d !! id with Some r => Ok (r, d) | None => Err ErrAlertRecordNotFound end.

Definition second : Z := 1000000000.
Definition Unix (clock : Z) : Z := clock / second.
Definition dingTalkDeliveryLease : Z := 30 * second.
Definition dingTalkRetryAfterMaximum : Z := 3600 * second.
Definition dingTalkMessageLimit : nat := 2000.

Definition MessageNotificationDisabled : string := "NOTIFICATION_DISABLED".
Definition MessageNotificationNotConfigured : string := "NOTIFICATION_NOT_CONFIGURED".
Definition MessageDingTalkAddressForbidden : string := "DINGTALK_ADDRESS_FORBIDDEN".
Definition MessageDingTalkRejected : string := "DINGTALK_REJECTED".
Definition MessageDeliveryRetryExhausted : string := "DELIVERY_RETRY_EXHAUSTED".

Module Attempt.
Record dingTalkAttemptResult := mk {
  success : bool; retryable : bool; retryAfter : Z; hasRetryAfter : bool; errorCode : string;
  errCode : string; responseCode : option Z; responseMessage : string }.
End Attempt.
Abbreviation dingTalkAttemptResult := Attempt.dingTalkAttemptResult.

(** ** What the exchange means *)
Inductive response_body := Unreadable | TooLarge | Undecodable | ErrCode (text : string).
Inductive http_outcome :=
  | RedirectForbidden
  | NetworkError
  | Response (status : Z) (retry_after : string) (body : response_body).

Section RetryAfter.
Context (ParseTime : string -> option Z).

Definition dingTalkRetryAfterDigits (value : string) : bool := (value != "") && digits (bytes value).

Definition parseDingTalkRetryAfter (raw : string) (now : Z) : Z * bool :=
  let raw := trim raw in
  if raw == "" then (0, false)
  else if dingTalkRetryAfterDigits raw then
    let seconds := number (bytes raw) in
    if 3600 <=? seconds then (dingTalkRetryAfterMaximum, true) else (seconds * second, true)
  else match raw with
       | String "-" rest => if dingTalkRetryAfterDigits rest then (0, false)
                            else match ParseTime raw with
                                 | None => (0, false)
                                 | Some t => (Z.min dingTalkRetryAfterMaximum (Z.max 0 (t - now)), true)
                                 end
       | _ => match ParseTime raw with
              | None => (0, false)
              | Some t => (Z.min dingTalkRetryAfterMaximum (Z.max 0 (t - now)), true)
              end
       end.

Definition truncateDeliveryMessage (message : string) : string :=
  string_of_list_ascii (take dingTalkMessageLimit
    ((fun c => if (code c =? 13) || (code c =? 10) then " "%char else c) <$> bytes message)).
Definition safeDingTalkErrCodeMessage (status : Z) (errCode : string) : string :=
  truncateDeliveryMessage ("HTTP " +:+ FormatInt status +:+ "; errcode=" +:+ errCode).
Definition safeDeliveryMessage (message_code : string) : string :=
  if message_code == MessageNotificationDisabled then "notification disabled"
  else if message_code == MessageNotificationNotConfigured then "notification configuration unavailable"
  else if message_code == MessageDingTalkAddressForbidden then "notification address forbidden"
  else "notification delivery failed".

Definition rejected (status : Z) (errCode message : string) : dingTalkAttemptResult :=
  Attempt.mk false false 0 false MessageDingTalkRejected errCode (Some status) message.

(** [send], after the request is built. *)
Definition send (now : Z) (outcome : http_outcome) : dingTalkAttemptResult :=
  match outcome with
  | RedirectForbidden => Attempt.mk false false 0 false MessageDingTalkAddressForbidden "" None "notification redirect forbidden"
  | NetworkError => Attempt.mk false true 0 false "" "" None "notification network request failed"
  | Response status retry_after body =>
      if status =? 429 then
        let '(retryAfter, present) := parseDingTalkRetryAfter retry_after now in
        Attempt.mk false true retryAfter present "" "" (Some status) "HTTP 429"
      else if 500 <=? status then
        Attempt.mk false true 0 false "" "" (Some status) ("HTTP " +:+ FormatInt status)
      else if (status <? 200) || (300 <=? status) then
        rejected status ("HTTP_" +:+ FormatInt status) ("HTTP " +:+ FormatInt status)
      else match body with
           | Unreadable => rejected status "INVALID_RESPONSE" "invalid notification response"
           | TooLarge => rejected status "RESPONSE_TOO_LARGE" "notification response too large"
           | Undecodable => rejected status "INVALID_RESPONSE" "invalid notification response"
           | ErrCode text =>
               if text == "0" then
                 Attempt.mk true false 0 false "" "" (Some status) ("HTTP " +:+ FormatInt status +:+ "; errcode=0")
               else Attempt.mk false true 0 false MessageDingTalkRejected text (Some status)
                      (safeDingTalkErrCodeMessage status text)
           end
  end.

(** A turn whose settings refuse the delivery sends nothing. *)
Definition attempt_result (preflight : option string) (now : Z) (outcome : http_outcome) : dingTalkAttemptResult :=
  match preflight with
  | Some message_code => Attempt.mk false false 0 false message_code "" None (safeDeliveryMessage message_code)
  | None => send now outcome
  end.
End RetryAfter.

(** ** Recording the outcome *)
Definition dingTalkRetryDelay (attempt : Z) : Z :=
  if attempt =? 1 then 60 * second else if attempt =? 2 then 300 * second
  else if attempt =? 3 then 900 * second else 3600 * second.

Definition attempt_completion (clock : Z) (claim : AlertDeliveryClaim) (result : dingTalkAttemptResult)
  : AlertDeliveryCompletion :=
  let now := Unix clock in
  let attempt := claim.(DeliveryClaim.Delivery).(MDelivery.AttemptCount) in
  let completion := Completion.mk claim.(DeliveryClaim.Delivery).(MDelivery.ID) attempt
    claim.(DeliveryClaim.ClaimToken) in
  let message := Some (truncateDeliveryMessage result.(Attempt.responseMessage)) in
  if result.(Attempt.success) then
    completion AlertDeliveryStatusSuccess "" result.(Attempt.responseCode) message None (Some now) now
  else if result.(Attempt.retryable) && (attempt <? AlertDeliveryMaxAttempts) then
    let delay := if result.(Attempt.hasRetryAfter)
                 then Z.min result.(Attempt.retryAfter) dingTalkRetryAfterMaximum
                 else dingTalkRetryDelay attempt in
    completion AlertDeliveryStatusPending result.(Attempt.errorCode) result.(Attempt.responseCode) message
      (Some (Unix (clock + delay))) None now
  else
    completion AlertDeliveryStatusFailed
      (if result.(Attempt.retryable) then MessageDeliveryRetryExhausted
       else if result.(Attempt.errorCode) != "" then result.(Attempt.errorCode) else MessageDingTalkRejected)
      result.(Attempt.responseCode) message None None now.

Definition completeAttempt (clock : Z) (claim : AlertDeliveryClaim) (result : dingTalkAttemptResult) : Tx unit :=
  Complete (attempt_completion clock claim result).

(** ** The worker's turn *)
Section Turn.
Context (channel_check : DingTalkSettingValues -> option string).

(** The refusal the settings give, if any. *)
Definition prepare : Tx (option string) := fun d =>
  match LoadDingTalkSettings d with
  | Err ErrDingTalkSettingInvalid => Ok (Some MessageNotificationNotConfigured, d)
  | Err e => Err e
  | Ok (settings, d) =>
      if negb settings.(EnabledSetting) then Ok (Some MessageNotificationDisabled, d)
      else if settings.(WebhookCiphertext) == "" then Ok (Some MessageNotificationNotConfigured, d)
      else Ok (channel_check settings, d)
  end.

Inductive turn :=
  | Idle
  | Disabled (changed : Z)
  | Claimed (claim : AlertDeliveryClaim) (preflight : option string).

Definition claim_turn (now leaseUntil : Z) (token : string) (locked : Z -> bool) (preflight : option string)
  : Tx turn := fun d =>
  match ClaimNext now leaseUntil token locked d with
  | Err ErrAlertDeliveryUnavailable => Ok (Idle, d)
  | Err e => Err e
  | Ok (claim, d) => Ok (Claimed claim preflight, d)
  end.

Definition ProcessNext (clock claim_clock : Z) (token : string) (locked : Z -> bool) : Tx turn :=
  preflight ← prepare;
  let now := Unix clock in
  if bool_decide (preflight = Some MessageNotificationDisabled) then
    changed ← DisablePending now; mret (Disabled changed)
  else
    _ ← FailExhaustedLeases now;
    claim_turn now (Unix (claim_clock + dingTalkDeliveryLease)) token locked preflight.

Definition Recover (clock : Z) : Tx unit :=
  preflight ← prepare;
  let now := Unix clock in
  _ ← st_require (0 <? now) (ErrOther "dingtalk recovery clock is invalid");
  _ ← (if bool_decide (preflight = Some MessageNotificationDisabled) then DisablePending now else mret 0);
  _ ← FailExhaustedLeases now;
  mret tt.
End Turn.
