(* ===== verification/AlertRules.v ===== *)
(** * Alert rules and their overrides ([model/alert.go], [service/alert.go])

    A rule has a level; a global rule may be overridden for one site.  An edit
    may change whether a rule is enabled, its threshold and how many samples
    in a row it takes; the warning and the critical threshold that are in
    effect for a site must stay ordered.  An edit is one transaction that
    locks the rules of the key; the listing that answers the request only
    reads and is not part of the model.

    The second half shows which edits keep the thresholds ordered
    ([pairs_ok]): changing a rule and creating an override do, deleting an
    override does not. *)

From Stdlib Require Import Ascii String.
From S2P Require Import Prelude GoText GoNumber Alerting Store.

(** ** The repository *)
Definition rule_key_is (ruleKey : string) (r : AlertRule) : bool := r.(MRule.RuleKey) == ruleKey.
Definition is_global (r : AlertRule) : bool :=
  (r.(MRule.ScopeType) == AlertScopeGlobal) && (r.(MRule.ScopeID) =? 0).
Definition is_of_site (site : Z) (r : AlertRule) : bool :=
  (r.(MRule.ScopeType) == AlertScopeSite) && (r.(MRule.ScopeID) =? site).
(** LEFT(rule_key, 10) <> '__deleted_' *)
Definition is_deleted (r : AlertRule) : bool := String.prefix "__deleted_" r.(MRule.RuleKey).
Definition findable (r : AlertRule) : bool :=
  bool_decide (r.(MRule.ScopeType) ∈ [AlertScopeGlobal; AlertScopeSite]) && negb (is_deleted r).

Definition FindRule (id : Z) : Tx AlertRule := fun d =>
  match table d !! id with
  | Some rule => if findable rule then Ok (rule, d) else Err ErrAlertRecordNotFound
  | None => Err ErrAlertRecordNotFound
  end.
Definition LockRule : Z -> Tx AlertRule := FindRule.

Definition LockRulesByKey (ruleKey : string) (siteID : Z) : Tx (list AlertRule) :=
  db_select (fun r => rule_key_is ruleKey r && (is_global r || is_of_site siteID r)) by_id.
Definition LockAllRulesByKey (ruleKey : string) : Tx (list AlertRule) :=
  db_select (rule_key_is ruleKey) by_id.

Module RulePatch.
Record AlertRulePatch := mk {
  Enabled : option bool; ThresholdValue : option string; ForTimes : option Z; UpdatedAt : Z }.
End RulePatch.
Abbreviation AlertRulePatch := RulePatch.AlertRulePatch.

Definition applyAlertPatch (rule : AlertRule) (patch : AlertRulePatch) : AlertRule :=
  rule <| MRule.Enabled := default rule.(MRule.Enabled) patch.(RulePatch.Enabled) |>
       <| MRule.ThresholdValue := match patch.(RulePatch.ThresholdValue) with
                                  | Some t => Some t | None => rule.(MRule.ThresholdValue) end |>
       <| MRule.ForTimes := default rule.(MRule.ForTimes) patch.(RulePatch.ForTimes) |>
       <| MRule.UpdatedAt := patch.(RulePatch.UpdatedAt) |>.

Definition rule_has_id (id : Z) (r : AlertRule) : bool := r.(MRule.ID) =? id.

Definition model_UpdateRule (id : Z) (patch : AlertRulePatch) : Tx unit :=
  _ ← db_update (rule_has_id id) (fun r => applyAlertPatch r patch); mret tt.

Definition OverrideExists (base : AlertRule) (siteID : Z) : Tx bool :=
  n ← db_count (fun r => rule_key_is base.(MRule.RuleKey) r && (r.(MRule.Level) == base.(MRule.Level))
                         && is_of_site siteID r);
  mret (0 <? n).
Definition SiteExists (siteID : Z) : Tx bool :=
  st_gets (fun d => not_nil (table (R := Site) d !! siteID)).

(** The copy of a global rule for a site, as [validateAlertPairs] sees it and
    as [CreateOverride] inserts it. *)
Definition override_of (base : AlertRule) (siteID : Z) : AlertRule :=
  base <| MRule.ScopeType := AlertScopeSite |> <| MRule.ScopeID := siteID |>.
Definition model_CreateOverride (base : AlertRule) (siteID now : Z) (patch : AlertRulePatch) : Tx Z :=
  created ← db_create (applyAlertPatch (override_of base siteID) patch
              <| MRule.CreatedAt := now |> <| MRule.UpdatedAt := now |>);
  mret created.(MRule.ID).

(** An override with a history keeps its row under a key no evaluation uses. *)
Definition model_DeleteOverride (id : Z) : Tx unit :=
  events ← db_count (fun e => e.(MEvent.RuleID) =? id);
  clock ← st_gets Tables.gorm_now;
  affectedRows ← (if events =? 0 then
    n ← db_count (rule_has_id id); _ ← db_delete (rule_has_id id); mret n
  else db_update (fun r => rule_has_id id r && (r.(MRule.ScopeType) == AlertScopeSite))
         (fun r => r <| MRule.RuleKey := "__deleted_" +:+ FormatInt id |> <| MRule.UpdatedAt := clock |>));
  st_require (affectedRows =? 1) ErrAlertRecordNotFound.

(** ** The rules in effect *)
Definition by_level (m : gmap string AlertRule) (r : AlertRule) : gmap string AlertRule :=
  <[r.(MRule.Level) := r]> m.

Definition effectiveAlertRulesForSite (rules : list AlertRule) (siteID : Z) : gmap string AlertRule :=
  let result := foldl (fun m r => if is_global r then by_level m r else m) ∅ rules in
  if siteID <=? 0 then result
  else foldl (fun m r => if is_of_site siteID r then by_level m r else m) result rules.

Definition effectiveAlertRules (rules : list AlertRule) : gmap string AlertRule :=
  foldl (fun m r =>
    match m !! r.(MRule.Level) with
    | None => by_level m r
    | Some current =>
        if (current.(MRule.ScopeType) == AlertScopeGlobal) && (r.(MRule.ScopeType) == AlertScopeSite)
        then by_level m r else m
    end) ∅ (sort_by by_id rules).

Definition matches (operator : string) (value threshold : Rat) : bool :=
  ((operator == ">=") && (threshold <=? value)) || ((operator == "<=") && (value <=? threshold))
  || ((operator == "==") && (value =? threshold)).

Definition alert_levels : list string := [AlertLevelCritical; AlertLevelWarning; AlertLevelInfo].

(** The rule in effect at a level, when it is enabled and its condition holds. *)
Definition matches_at (rules : gmap string AlertRule) (value : Rat) (level : string) : option AlertRule :=
  rule ← rules !! level;
  text ← rule.(MRule.ThresholdValue);
  '(threshold, _) ← parseAlertThreshold text true;
  if rule.(MRule.Enabled) && matches rule.(MRule.CompareOperator) value threshold then Some rule else None.

Fixpoint first_match {A} (f : string -> option A) (levels : list string) : option A :=
  match levels with
  | [] => None
  | level :: levels => match f level with Some a => Some a | None => first_match f levels end
  end.
Definition matchingAlertRule (rules : gmap string AlertRule) (value : Rat) : option AlertRule :=
  first_match (matches_at rules value) alert_levels.

(** ** Editing *)
Definition validEffectiveAlertPair (effective : gmap string AlertRule) : bool :=
  match effective !! AlertLevelWarning, effective !! AlertLevelCritical with
  | Some warning, Some critical =>
      match warning.(MRule.ThresholdValue), critical.(MRule.ThresholdValue) with
      | Some w, Some c =>
          match parseAlertThreshold w true, parseAlertThreshold c true with
          | Some (warningValue, _), Some (criticalValue, _) =>
              if warning.(MRule.CompareOperator) != critical.(MRule.CompareOperator) then false
              else if warning.(MRule.CompareOperator) == ">=" then warningValue <? criticalValue
              else if warning.(MRule.CompareOperator) == "<=" then criticalValue <? warningValue
              else if warning.(MRule.CompareOperator) == "==" then warningValue =? criticalValue
              else false
          | _, _ => false
          end
      | _, _ => true
      end
  | _, _ => true
  end.

Definition same_scope (r target : AlertRule) : bool :=
  (r.(MRule.ID) =? target.(MRule.ID)) && (r.(MRule.ScopeType) == target.(MRule.ScopeType))
  && (r.(MRule.ScopeID) =? target.(MRule.ScopeID)).

(** The first rule of the target's identity replaced, or the replacement added. *)
Fixpoint replaced (rules : list AlertRule) (target replacement : AlertRule) : list AlertRule :=
  match rules with
  | [] => [replacement]
  | r :: rules => if same_scope r target then replacement :: rules else r :: replaced rules target replacement
  end.

Definition site_ids (rules : list AlertRule) : list Z :=
  0 :: (MRule.ScopeID <$> base.filter (fun r => (r.(MRule.ScopeType) == AlertScopeSite) && (0 <? r.(MRule.ScopeID)) = true) rules).

Definition validateAlertPairs (rules : list AlertRule) (target : AlertRule) (patch : AlertRulePatch) : bool :=
  let updated := replaced rules target (applyAlertPatch target patch) in
  forallb (fun site => validEffectiveAlertPair (effectiveAlertRulesForSite updated site)) (site_ids updated).

(** strings.Contains *)
Fixpoint contains (needle s : string) : bool :=
  String.prefix needle s || match s with EmptyString => false | String _ r => contains needle r end.

Definition alertValueKind (metric : string) : string :=
  if contains "percent" metric then "percentage"
  else if contains "stale_seconds" metric then "seconds"
  else if metric == "account.quota" then "quota"
  else if metric == "channel.availability_rate" then "ratio"
  else if metric == "channel.balance_total" then "decimal"
  else if bool_decide (metric ∈ ["channel.response_time_avg_ms"; "channel.response_time_max_ms"]) then "milliseconds"
  else if bool_decide (metric ∈ ["site.auth_expired"; "site.data_export_enabled"; "instance.online";
            "account.remote_exists"; "account.identity_match"; "account.remote_enabled"]) then "boolean"
  else "count".

Definition field_if (bad : bool) (key message : string) (fields : gmap string string) : gmap string string :=
  if bad then <[key := message]> fields else fields.
Definition not_none_if (fields : gmap string string) : result unit :=
  if bool_decide (fields = ∅) then Ok tt else Err (ErrAlertValidation fields).

(** A number of units of the threshold's scale. *)
Definition rat (n : Z) : Rat := n * rat_scale.

Definition threshold_fields (kind : string) (value : Rat) : gmap string string :=
  field_if ((kind == "ratio") && ((value <? 0) || (rat 1 <? value))) "threshold_value" "must be between 0 and 1"
  (field_if ((kind == "seconds") && ((value <? rat 1) || (rat 86400 <? value))) "threshold_value" "must be between 1 and 86400"
  (field_if ((kind == "percentage") && ((value <? rat 1) || (rat 100 <? value))) "threshold_value" "must be between 1 and 100" ∅)).

Definition bad_for_times (forTimes : option Z) : bool :=
  match forTimes with Some n => (n <? 1) || (60 <? n) | None => false end.

Definition alertRulePatch (rule : AlertRule) (enabled : option bool) (threshold : option string)
    (forTimes : option Z) (now : Z) : result AlertRulePatch :=
  let kind := alertValueKind rule.(MRule.Metric) in
  if kind == "boolean" then
    _ ← not_none_if (field_if (not_nil forTimes) "for_times" "is fixed for boolean rules"
          (field_if (not_nil threshold) "threshold_value" "is fixed for boolean rules" ∅));
    Ok (RulePatch.mk enabled None forTimes now)
  else
    let parsed := threshold ≫= fun raw => parseAlertThreshold raw false in
    let fields := match threshold, parsed with
                  | Some _, None => {["threshold_value" := "must be a non-negative decimal with at most 2 fractional digits"]}
                  | _, Some (value, _) => threshold_fields kind value
                  | None, None => ∅
                  end in
    _ ← not_none_if (field_if (bad_for_times forTimes) "for_times" "must be between 1 and 60" fields);
    Ok (RulePatch.mk enabled (snd <$> parsed) forTimes now).

(** [dto.AlertRuleUpdateRequest], [dto.AlertRuleOverrideRequest] *)
Module RuleRequest.
Record AlertRuleUpdateRequest := mk {
  Enabled : option bool; ThresholdValue : option string; ForTimes : option Z }.
End RuleRequest.
Abbreviation AlertRuleUpdateRequest := RuleRequest.AlertRuleUpdateRequest.

Definition blank_threshold (request : AlertRuleUpdateRequest) : bool :=
  match request.(RuleRequest.ThresholdValue) with Some t => trim t == "" | None => false end.
Definition edit_fields (request : AlertRuleUpdateRequest) (fields : gmap string string) : gmap string string :=
  field_if (bad_for_times request.(RuleRequest.ForTimes)) "for_times" "must be between 1 and 60"
    (field_if (blank_threshold request) "threshold_value" "must not be empty" fields).
Definition validate_update (request : AlertRuleUpdateRequest) : result unit :=
  not_none_if (edit_fields request
    (field_if (is_nil request.(RuleRequest.Enabled) && is_nil request.(RuleRequest.ThresholdValue)
               && is_nil request.(RuleRequest.ForTimes)) "body" "at least one editable field is required" ∅)).
Definition validate_override (baseRuleID siteID : string) (request : AlertRuleUpdateRequest) : result unit :=
  not_none_if (edit_fields request
    (field_if (is_nil (canonicalID siteID)) "site_id" "must be a positive decimal int64 string"
    (field_if (is_nil (canonicalID baseRuleID)) "base_rule_id" "must be a positive decimal int64 string" ∅))).

Definition alertRuleByID (rules : list AlertRule) (id : Z) : option AlertRule :=
  snd <$> list_find (fun r => r.(MRule.ID) = id) rules.

(** ErrAlertRecordNotFound is reported as ErrAlertRuleNotFound. *)
Definition as_rule_error {A} (m : Tx A) : Tx A := fun d =>
  match m d with Err ErrAlertRecordNotFound => Err ErrAlertRuleNotFound | r => r end.

Definition inconsistent_pair : error :=
  ErrAlertValidation {["threshold_value" := "warning and critical thresholds are inconsistent"]}.

Definition UpdateRule (id : Z) (request : AlertRuleUpdateRequest) (now : Z) : Tx AlertRule :=
  _ ← st_lift (validate_update request);
  as_rule_error (
    unlocked ← FindRule id;
    rules ← LockAllRulesByKey unlocked.(MRule.RuleKey);
    match alertRuleByID rules id with
    | None => st_fail ErrAlertRecordNotFound
    | Some target =>
        patch ← st_lift (alertRulePatch target request.(RuleRequest.Enabled) request.(RuleRequest.ThresholdValue)
                           request.(RuleRequest.ForTimes) now);
        _ ← st_require (validateAlertPairs rules target patch) inconsistent_pair;
        _ ← model_UpdateRule id patch;
        mret (applyAlertPatch target patch)
    end).

Definition CreateOverride (baseRuleID site : string) (request : AlertRuleUpdateRequest) (now : Z) : Tx Z :=
  _ ← st_lift (validate_override baseRuleID site request);
  let baseID := default 0 (ParseInt baseRuleID) in
  let siteID := default 0 (ParseInt site) in
  as_rule_error (
    base ← FindRule baseID;
    _ ← st_require (base.(MRule.ScopeType) == AlertScopeGlobal)
          (ErrAlertValidation {["base_rule_id" := "must identify a global rule"]});
    rules ← LockAllRulesByKey base.(MRule.RuleKey);
    match alertRuleByID rules baseID with
    | None => st_fail ErrAlertRecordNotFound
    | Some lockedBase =>
        exists_ ← OverrideExists lockedBase siteID;
        _ ← st_require (negb exists_) ErrAlertRuleConflict;
        siteExists ← SiteExists siteID;
        _ ← st_require siteExists (ErrAlertValidation {["site_id" := "site does not exist"]});
        patch ← st_lift (alertRulePatch lockedBase request.(RuleRequest.Enabled) request.(RuleRequest.ThresholdValue)
                           request.(RuleRequest.ForTimes) now);
        _ ← st_require (validateAlertPairs rules (override_of lockedBase siteID) patch) inconsistent_pair;
        model_CreateOverride lockedBase siteID now patch
    end).

Definition DeleteOverride (id : Z) : Tx unit :=
  rule ← as_rule_error (LockRule id);
  _ ← st_require (rule.(MRule.ScopeType) == AlertScopeSite)
        (ErrAlertValidation {["id" := "only site overrides can be deleted"]});
  model_DeleteOverride id.

Definition alert_rules (d : Db) : gmap Z AlertRule := Alerting.alert_rule (Tables.alerting d).
Definition with_rules (t : gmap Z AlertRule) (d : Db) : Db := set_table (R := AlertRule) t d.
Definition rules_of (d : Db) (key : string) : list AlertRule := select (rule_key_is key) by_id d.

Definition pairs_ok (d : Db) : Prop := forall key site,
  validEffectiveAlertPair (effectiveAlertRulesForSite (rules_of d key) site) = true.

(** ** Selections by id *)
Lemma by_id_NoDup (l : list AlertRule) : NoDup (row_id <$> l) -> NoDup (by_id <$> l).
Proof.
  intros H. replace (by_id <$> l) with ((fun z => [AInt z]) <$> (row_id <$> l)) by (by rewrite <- list_fmap_compose).
  apply NoDup_fmap; [|done]. by intros x y [= ->].
Qed.

Lemma select_sorted_list (d : Db) p (l : list AlertRule) : table_wf (alert_rules d) ->
  StronglySorted (by_key by_id) l -> NoDup (row_id <$> l) ->
  base.filter (fun r => p r = true) (rows (alert_rules d)) ≡ₚ l -> select p by_id d = l.
Proof.
  intros Hwf Hs Hn Hp. unfold select, table_rows. change (table d) with (alert_rules d).
  rewrite (sort_by_unique by_id _ l Hp); [by apply sort_by_id, by_id_NoDup|].
  apply by_id_NoDup. by rewrite Hp.
Qed.

(** Selecting after some rows were rewritten in place. *)
Lemma select_rewritten p (f : AlertRule -> AlertRule) d : table_wf (alert_rules d) ->
  (forall r, row_id (f r) = row_id r) -> (forall r, p (f r) = p r) ->
  select p by_id (with_rules (f <$> alert_rules d) d) = f <$> select p by_id d.
Proof.
  intros Hwf Hid Hp.
  assert (row_id <$> (f <$> select p by_id d) = row_id <$> select p by_id d) as Hids.
  { rewrite <- list_fmap_compose. apply list_fmap_ext. intros i r _. apply Hid. }
  apply select_sorted_list.
  - intros k r. change (alert_rules (with_rules ?t ?d)) with t. rewrite lookup_fmap. intros (r'&Hr&->)%fmap_Some_1.
    rewrite Hid. by apply Hwf.
  - pose proof (select_sorted p by_id d) as Hs. induction Hs as [|r l Hl IH Hall]; [constructor|].
    rewrite fmap_cons. constructor; [exact (IH ltac:(rewrite <- list_fmap_compose; apply list_fmap_ext; intros i x _; apply Hid))|].
    apply Forall_fmap. eapply Forall_impl; [exact Hall|]. intros x Hx. unfold by_key, by_id in *. simpl. by rewrite !Hid.
  - rewrite Hids. by apply select_NoDup.
  - change (alert_rules (with_rules ?t ?d)) with t.
    transitivity (base.filter (fun r => p r = true) (f <$> rows (alert_rules d))).
    { assert (rows (f <$> alert_rules d) ≡ₚ f <$> rows (alert_rules d)) as ->; [|done].
      unfold rows. rewrite map_to_list_fmap, <- !list_fmap_compose. done. }
    rewrite select_perm. unfold table_rows. change (table d) with (alert_rules d).
    generalize (rows (alert_rules d)). intros l. induction l as [|r l IH]; [done|].
    rewrite fmap_cons, !filter_cons, Hp. destruct (decide (p r = true)); [by rewrite fmap_cons, IH|done].
Qed.

(** Selecting after a row with the largest id was added. *)
Lemma select_added p (r : AlertRule) id d : table_wf (alert_rules d) -> row_id r = id ->
  (forall i x, alert_rules d !! i = Some x -> i < id) ->
  select p by_id (with_rules (<[id := r]> (alert_rules d)) d) =
  select p by_id d ++ (if p r then [r] else []).
Proof.
  intros Hwf Hid Hmax. assert (alert_rules d !! id = None) as Hnone.
  { destruct (alert_rules d !! id) as [x|] eqn:Hx; [|done]. apply Hmax in Hx. lia. }
  assert (forall x, x ∈ select p by_id d -> row_id x < id) as Hless.
  { intros x (_&i&Hi)%elem_of_select. change (alert_rules d !! i = Some x) in Hi. rewrite (Hwf _ _ Hi). by eapply Hmax. }
  apply select_sorted_list.
  - intros k x. change (alert_rules (with_rules ?t ?d)) with t. intros [[<- <-]|[_ Hx]]%lookup_insert_Some; [done|by apply Hwf].
  - pose proof (select_sorted p by_id d) as Hs. revert Hless. destruct (p r); [|by rewrite app_nil_r].
    induction Hs as [|x l Hl IH Hall]; intros Hless; [constructor; constructor|].
    simpl. constructor; [apply IH; intros y Hy; apply Hless; by right|]. apply Forall_app. split; [done|].
    constructor; [|constructor]. specialize (Hless x ltac:(by left)). unfold by_key, by_id, key_le. simpl. simpl in Hless, Hid.
    left. split; [|simpl; lia]. intros [= E]. lia.
  - rewrite fmap_app. apply NoDup_app. split; [by apply select_NoDup|]. split.
    + intros z (x&->&Hx)%list_elem_of_fmap Hz. apply Hless in Hx. destruct (p r); [|by apply elem_of_nil in Hz].
      apply list_elem_of_singleton in Hz. lia.
    + destruct (p r); [apply NoDup_singleton|apply NoDup_nil_2].
  - change (alert_rules (with_rules ?t ?d)) with t. rewrite rows_insert_new by done. rewrite select_perm.
    unfold table_rows. change (table d) with (alert_rules d). rewrite filter_cons.
    destruct (p r) eqn:Hp; [rewrite decide_True by done; by rewrite Permutation_app_comm|].
    rewrite decide_False by done. by rewrite app_nil_r.
Qed.

(** ** What the pairs depend on *)
Definition rule_view (r : AlertRule) :=
  (r.(MRule.Level), r.(MRule.ScopeType), r.(MRule.ScopeID), r.(MRule.ThresholdValue), r.(MRule.CompareOperator)).
Definition same_view (m1 m2 : gmap string AlertRule) : Prop :=
  forall level, rule_view <$> m1 !! level = rule_view <$> m2 !! level.

Lemma by_level_view m1 m2 r1 r2 : same_view m1 m2 -> rule_view r1 = rule_view r2 -> same_view (by_level m1 r1) (by_level m2 r2).
Proof.
  intros Hm Hr level. unfold by_level. assert (MRule.Level r1 = MRule.Level r2) as -> by (by injection Hr).
  destruct (decide (level = MRule.Level r2)) as [->|Hne]; [by rewrite !lookup_insert_eq; simpl; rewrite Hr|].
  by rewrite !lookup_insert_ne.
Qed.

Lemma fold_view (p : AlertRule -> bool) l1 l2 : (forall r1 r2, rule_view r1 = rule_view r2 -> p r1 = p r2) ->
  rule_view <$> l1 = rule_view <$> l2 -> forall m1 m2, same_view m1 m2 ->
  same_view (foldl (fun m r => if p r then by_level m r else m) m1 l1)
            (foldl (fun m r => if p r then by_level m r else m) m2 l2).
Proof.
  intros Hp. revert l2. induction l1 as [|r1 l1 IH]; intros [|r2 l2] Hl m1 m2 Hm; try done.
  rewrite !fmap_cons in Hl. injection Hl as H1 H2 H3 H4 H5 Hl.
  assert (rule_view r1 = rule_view r2) as Hr by (unfold rule_view; congruence).
  simpl. rewrite (Hp r1 r2 Hr). apply IH; [done|]. destruct (p r2); [by apply by_level_view|done].
Qed.

Lemma effective_view l1 l2 site : rule_view <$> l1 = rule_view <$> l2 ->
  same_view (effectiveAlertRulesForSite l1 site) (effectiveAlertRulesForSite l2 site).
Proof.
  intros Hl. unfold effectiveAlertRulesForSite.
  assert (same_view (foldl (fun m r => if is_global r then by_level m r else m) ∅ l1)
                    (foldl (fun m r => if is_global r then by_level m r else m) ∅ l2)) as Hg.
  { apply fold_view; [|done|done]. intros r1 r2 [= _ H1 H2 _ _]. unfold is_global. by rewrite H1, H2. }
  destruct (site <=? 0); [done|]. apply fold_view; [|done|done]. intros r1 r2 [= _ H1 H2 _ _]. unfold is_of_site. by rewrite H1, H2.
Qed.

Lemma pair_view m1 m2 : same_view m1 m2 -> validEffectiveAlertPair m1 = validEffectiveAlertPair m2.
Proof.
  intros Hm. unfold validEffectiveAlertPair. pose proof (Hm AlertLevelWarning) as Hw. pose proof (Hm AlertLevelCritical) as Hc.
  destruct (m1 !! AlertLevelWarning), (m2 !! AlertLevelWarning); try done.
  destruct (m1 !! AlertLevelCritical), (m2 !! AlertLevelCritical); try done.
  simpl in Hw, Hc. injection Hw as _ _ _ -> ->. by injection Hc as _ _ _ -> ->.
Qed.

(** A site without overrides has the global rules. *)
Lemma effective_elsewhere l site : site ∉ site_ids l -> effectiveAlertRulesForSite l site = effectiveAlertRulesForSite l 0.
Proof.
  intros Hs. unfold effectiveAlertRulesForSite. destruct (Z.leb_spec site 0) as [|Hpos]; [done|]. simpl.
  generalize (foldl (fun m r => if is_global r then by_level m r else m) ∅ l) as m. unfold site_ids in Hs.
  induction l as [|r l IH]; intros m; [done|]. simpl.
  assert (is_of_site site r = false) as ->.
  { unfold is_of_site. destruct (_ == AlertScopeSite) eqn:Ht; [|done]. simpl. apply Z.eqb_neq. intros E. apply Hs.
    right. apply list_elem_of_fmap. exists r. split; [done|]. apply list_elem_of_filter. split; [|by left].
    rewrite Ht. simpl. apply Z.ltb_lt. lia. }
  apply IH. intros Hin. apply Hs. apply elem_of_cons in Hin as [->|Hin]; [by left|]. right.
  rewrite filter_cons. case_decide; [|done]. rewrite fmap_cons. by right.
Qed.

Lemma validated_everywhere rules target patch site : validateAlertPairs rules target patch = true ->
  validEffectiveAlertPair (effectiveAlertRulesForSite (replaced rules target (applyAlertPatch target patch)) site) = true.
Proof.
  unfold validateAlertPairs. set (l := replaced _ _ _). rewrite forallb_forall. intros H.
  destruct (decide (site ∈ site_ids l)) as [Hin|Hout]; [by apply H, list_elem_of_In|].
  rewrite effective_elsewhere by done. apply H. by left.
Qed.

(** ** What the edits do *)
Lemma as_rule_error_ok {A} (m : Tx A) d r : as_rule_error m d = Ok r <-> m d = Ok r.
Proof. unfold as_rule_error. destruct (m d) as [|[]]; naive_solver. Qed.

Lemma FindRule_ok id d r d' : FindRule id d = Ok (r, d') -> d' = d /\ alert_rules d !! id = Some r /\ findable r = true.
Proof. unfold FindRule. change (table d) with (alert_rules d). case_match; [|done]. destruct (findable _) eqn:Hf; [|done]. naive_solver. Qed.

Lemma alertRuleByID_ok d key id r : table_wf (alert_rules d) -> alertRuleByID (rules_of d key) id = Some r ->
  alert_rules d !! id = Some r /\ r.(MRule.RuleKey) = key.
Proof.
  unfold alertRuleByID. intros Hwf. destruct (list_find _ _) as [[i x]|] eqn:Hf; [|done]. intros [= ->].
  apply list_find_Some in Hf as (Hx&Hid&_). apply list_elem_of_lookup_2, elem_of_select in Hx as (Hk&j&Hj).
  change (alert_rules d !! j = Some r) in Hj. pose proof (Hwf _ _ Hj) as E. simpl in E.
  apply bool_decide_eq_true in Hk. split; [|done]. congruence.
Qed.

Lemma UpdateRule_ok id request now d r d' : table_wf (alert_rules d) -> UpdateRule id request now d = Ok (r, d') ->
  exists target patch, alert_rules d !! id = Some target
    /\ validateAlertPairs (rules_of d target.(MRule.RuleKey)) target patch = true
    /\ r = applyAlertPatch target patch
    /\ d' = with_rules (upd (rule_has_id id) (fun r => applyAlertPatch r patch) <$> alert_rules d) d.
Proof.
  intros Hwf H. unfold UpdateRule in H. apply st_bind_ok in H as (u&d1&Hv&H). apply st_lift_ok in Hv as (x&_&[= -> ->]).
  rewrite as_rule_error_ok in H. apply st_bind_ok in H as (unlocked&d1&Hf&H). apply FindRule_ok in Hf as (->&Hun&_).
  apply st_bind_ok in H as (rules&d1&Hs&H). apply db_select_ok in Hs as [-> ->].
  change (select (rule_key_is (MRule.RuleKey unlocked)) by_id d) with (rules_of d (MRule.RuleKey unlocked)) in H.
  destruct (alertRuleByID _ id) as [target|] eqn:Ht; [|by apply st_fail_ok in H].
  apply alertRuleByID_ok in Ht as [Ht Hk]; [|done].
  apply st_bind_ok in H as (patch&d1&Hp&H). apply st_lift_ok in Hp as (x'&_&[= -> ->]).
  apply st_bind_ok in H as (u'&d1&Hg&H). apply st_require_ok in Hg as [Hg [= -> ->]].
  apply st_bind_ok in H as (u2&d1&Hu&H). unfold model_UpdateRule in Hu. apply st_bind_ok in Hu as (n&d2&Hu&Hr).
  apply db_update_ok in Hu as [_ ->]. apply st_ret_ok in Hr as [= -> ->]. apply st_ret_ok in H as [= -> ->].
  exists target, x'. rewrite Hk. done.
Qed.

Lemma CreateOverride_ok base site request now d id d' : table_wf (alert_rules d) ->
  CreateOverride base site request now d = Ok (id, d') -> exists lockedBase siteID patch,
    alert_rules d !! lockedBase.(MRule.ID) = Some lockedBase /\ lockedBase.(MRule.ScopeType) = AlertScopeGlobal
    /\ validateAlertPairs (rules_of d lockedBase.(MRule.RuleKey)) (override_of lockedBase siteID) patch = true
    /\ d' = with_rules (<[Tables.auto_other d := applyAlertPatch (override_of lockedBase siteID) patch
              <| MRule.CreatedAt := now |> <| MRule.UpdatedAt := now |> <| MRule.ID := Tables.auto_other d |>]> (alert_rules d))
              (d <| Tables.auto_other := Tables.auto_other d + 1 |>).
Proof.
  intros Hwf H. unfold CreateOverride in H. apply st_bind_ok in H as (u&d1&Hv&H). apply st_lift_ok in Hv as (x&_&[= -> ->]).
  rewrite as_rule_error_ok in H. apply st_bind_ok in H as (unlocked&d1&Hf&H). apply FindRule_ok in Hf as (->&Hun&_).
  apply st_bind_ok in H as (u1&d1&Hg&H). apply st_require_ok in Hg as [Hscope [= -> ->]].
  apply st_bind_ok in H as (rules&d1&Hs&H). apply db_select_ok in Hs as [-> ->].
  change (select (rule_key_is (MRule.RuleKey unlocked)) by_id d) with (rules_of d (MRule.RuleKey unlocked)) in H.
  destruct (alertRuleByID _ _) as [target|] eqn:Ht; [|by apply st_fail_ok in H].
  apply alertRuleByID_ok in Ht as [Ht Hk]; [|done]. rewrite Hun in Ht. injection Ht as <-.
  apply st_bind_ok in H as (ex&d1&Hex&H). unfold OverrideExists, db_count in Hex.
  apply st_bind_ok in Hex as (n&d2&Hn&Hex). apply st_gets_ok in Hn as [= -> ->]. apply st_ret_ok in Hex as [= -> ->].
  apply st_bind_ok in H as (u2&d1&Hg&H). apply st_require_ok in Hg as [_ [= -> ->]].
  apply st_bind_ok in H as (se&d1&Hg&H). apply st_gets_ok in Hg as [= -> ->].
  apply st_bind_ok in H as (u3&d1&Hg&H). apply st_require_ok in Hg as [_ [= -> ->]].
  apply st_bind_ok in H as (patch&d1&Hp&H). apply st_lift_ok in Hp as (x'&_&[= -> ->]).
  apply st_bind_ok in H as (u4&d1&Hg&H). apply st_require_ok in Hg as [Hg [= -> ->]].
  unfold model_CreateOverride in H. apply st_bind_ok in H as (c&d1&Hc&H). apply st_ret_ok in H as [= -> ->].
  injection Hc as <- <-. exists unlocked. do 2 eexists. split; [|split; [by apply bool_decide_eq_true in Hscope|split; [exact Hg|reflexivity]]].
  pose proof (Hwf _ _ Hun) as E. simpl in E. congruence.
Qed.

Lemma DeleteOverride_ok id d d' : DeleteOverride id d = Ok (tt, d') -> exists t, d' = with_rules t d.
Proof.
  intros H. unfold DeleteOverride in H. apply st_bind_ok in H as (rule&d1&Hf&H). rewrite as_rule_error_ok in Hf.
  apply FindRule_ok in Hf as (->&_&_). apply st_bind_ok in H as (u&d1&Hg&H). apply st_require_ok in Hg as [_ [= -> ->]].
  unfold model_DeleteOverride in H. apply st_bind_ok in H as (n&d1&Hn&H). apply st_gets_ok in Hn as [= -> ->].
  apply st_bind_ok in H as (clock&d1&Hn&H). apply st_gets_ok in Hn as [= -> ->].
  apply st_bind_ok in H as (m&d1&Hm&H). apply st_require_ok in H as [_ [= ->]]. destruct (_ =? 0).
  - apply st_bind_ok in Hm as (k&d2&Hk&Hm). apply st_gets_ok in Hk as [= -> ->].
    apply st_bind_ok in Hm as (u2&d2&Hd&Hm). apply st_ret_ok in Hm as [= -> ->]. apply st_modify_ok in Hd as [= -> ->].
    unfold with_rules. eauto.
  - apply db_update_ok in Hm as [_ ->]. unfold with_rules. eauto.
Qed.

(** ** The edits and the pairs *)
Record rules_ok (d : Db) : Prop := {
  rules_wf : table_wf (alert_rules d);
  rules_fresh : forall i r, alert_rules d !! i = Some r -> i < Tables.auto_other d }.

Lemma rules_of_row d key r : r ∈ rules_of d key -> r.(MRule.RuleKey) = key /\ exists i, alert_rules d !! i = Some r.
Proof. intros (Hk%bool_decide_eq_true&Hi)%elem_of_select. done. Qed.

Lemma fmap_fixed (f : AlertRule -> AlertRule) (l : list AlertRule) : (forall r, r ∈ l -> f r = r) -> f <$> l = l.
Proof.
  induction l as [|r l IH]; intros H; [done|]. rewrite fmap_cons, H by by left. f_equal. apply IH. intros x Hx. apply H. by right.
Qed.

(** The replacement in place is the update of the row. *)
Lemma replaced_row l target replacement f : NoDup (row_id <$> l) -> target ∈ l ->
  f target = replacement -> (forall r, row_id r <> row_id target -> f r = r) ->
  replaced l target replacement = f <$> l.
Proof.
  induction l as [|r l IH]; intros Hn Hin Hf Hid; [by apply elem_of_nil in Hin|].
  rewrite fmap_cons in Hn. apply NoDup_cons in Hn as [Hr Hn]. simpl replaced. rewrite fmap_cons.
  destruct (same_scope r target) eqn:Hs.
  - unfold same_scope in Hs. rewrite !andb_true_iff, Z.eqb_eq in Hs. destruct Hs as [[Hs _] _].
    assert (r = target) as ->.
    { apply elem_of_cons in Hin as [->|Hin]; [done|]. exfalso. apply Hr. apply list_elem_of_fmap. by exists target. }
    rewrite Hf. f_equal. symmetry. apply fmap_fixed. intros x Hx. apply Hid.
    intros E. apply Hr. rewrite <- E. apply list_elem_of_fmap. by exists x.
  - assert (r <> target) as Hne.
    { intros ->. unfold same_scope in Hs. by rewrite !Z.eqb_refl, !bool_decide_eq_true_2 in Hs. }
    apply elem_of_cons in Hin as [->|Hin]; [done|]. rewrite IH by done. f_equal. symmetry. apply Hid.
    intros E. apply Hr. rewrite E. apply list_elem_of_fmap. by exists target.
Qed.

Lemma UpdateRule_pairs id request now d r d' : rules_ok d -> pairs_ok d ->
  UpdateRule id request now d = Ok (r, d') -> pairs_ok d'.
Proof.
  intros Hok Hpairs H. pose proof (rules_wf d Hok) as Hwf.
  apply UpdateRule_ok in H as (target&patch&Ht&Hv&->&->); [|done].
  set (f := upd (rule_has_id id) (fun r => applyAlertPatch r patch)).
  assert (row_id target = id) as Hid by exact (Hwf _ _ Ht).
  assert (forall r, row_id r <> id -> f r = r) as Hother.
  { intros x Hx. unfold f, upd, rule_has_id. simpl in Hx. by rewrite (proj2 (Z.eqb_neq _ _)). }
  assert (f target = applyAlertPatch target patch) as Hft.
  { unfold f, upd, rule_has_id. simpl in Hid. by rewrite (proj2 (Z.eqb_eq _ _)). }
  intros key site. unfold rules_of. rewrite select_rewritten; [|done| |].
  - destruct (decide (key = target.(MRule.RuleKey))) as [->|Hne].
    + change (select (rule_key_is (MRule.RuleKey target)) by_id d) with (rules_of d (MRule.RuleKey target)).
      rewrite <- (replaced_row _ target (applyAlertPatch target patch)); [by apply validated_everywhere|by apply select_NoDup| |done|by rewrite Hid].
      apply elem_of_select. unfold rule_key_is. rewrite bool_decide_eq_true_2 by done. eauto.
    + replace (f <$> select (rule_key_is key) by_id d) with (rules_of d key); [apply Hpairs|].
      symmetry. apply fmap_fixed. intros x (Hk&j&Hj)%rules_of_row. apply Hother. intros E. apply Hne. rewrite <- Hk.
      f_equal. pose proof (Hwf _ _ Hj) as Hxj. rewrite E in Hxj. subst j. congruence.
  - intros x. unfold f, upd. by destruct (rule_has_id id x).
  - intros x. unfold f, upd. by destruct (rule_has_id id x).
Qed.

Lemma replaced_appended l target replacement : (forall r, r ∈ l -> same_scope r target = false) ->
  replaced l target replacement = l ++ [replacement].
Proof.
  induction l as [|r l IH]; intros H; [done|]. simpl. rewrite (H r) by by left. rewrite IH; [done|]. intros x Hx. apply H. by right.
Qed.

Lemma CreateOverride_pairs base site request now d id d' : rules_ok d -> pairs_ok d ->
  CreateOverride base site request now d = Ok (id, d') -> pairs_ok d'.
Proof.
  intros Hok Hpairs H. pose proof (rules_wf d Hok) as Hwf.
  apply CreateOverride_ok in H as (b&siteID&patch&Hb&Hscope&Hv&Hd'); [|done]. intros key site'.
  set (row := applyAlertPatch (override_of b siteID) patch
              <| MRule.CreatedAt := now |> <| MRule.UpdatedAt := now |> <| MRule.ID := Tables.auto_other d |>) in Hd'.
  assert (rules_of d' key = rules_of d key ++ (if MRule.RuleKey b == key then [row] else [])) as ->.
  { pose proof (select_added (rule_key_is key) row (Tables.auto_other d)
      (d <| Tables.auto_other := Tables.auto_other d + 1 |>) Hwf eq_refl (rules_fresh d Hok)) as Hadd. rewrite Hd'. exact Hadd. }
  destruct (decide (MRule.RuleKey b = key)) as [<-|Hne]; [|rewrite bool_decide_eq_false_2, app_nil_r by done; apply Hpairs].
  rewrite bool_decide_eq_true_2 by done.
  pose proof (validated_everywhere _ _ _ site' Hv) as Hall. rewrite replaced_appended in Hall.
  - rewrite <- Hall. apply pair_view, effective_view. rewrite !fmap_app. f_equal.
  - intros r (_&j&Hj)%rules_of_row. unfold same_scope. change (MRule.ID (override_of b siteID)) with (MRule.ID b).
    change (MRule.ScopeType (override_of b siteID)) with AlertScopeSite.
    destruct (Z.eqb_spec (MRule.ID r) (MRule.ID b)) as [E|]; [|done]. simpl.
    pose proof (Hwf _ _ Hj) as Hrj. simpl in Hrj. assert (r = b) as -> by congruence. by rewrite Hscope.
Qed.

(** A finite check of [pairs_ok]. *)
Lemma pairs_ok_check d :
  forallb (fun key => forallb (fun site => validEffectiveAlertPair (effectiveAlertRulesForSite (rules_of d key) site))
                        (site_ids (rules_of d key))) (MRule.RuleKey <$> rows (alert_rules d)) = true -> pairs_ok d.
Proof.
  rewrite forallb_forall. intros H key site.
  destruct (decide (key ∈ (MRule.RuleKey <$> rows (alert_rules d)))) as [Hin|Hout].
  - apply list_elem_of_In, H in Hin. rewrite forallb_forall in Hin.
    destruct (decide (site ∈ site_ids (rules_of d key))) as [Hs|Hs]; [by apply Hin, list_elem_of_In|].
    rewrite effective_elsewhere by done. apply Hin. by left.
  - assert (rules_of d key = []) as ->.
    { unfold rules_of. rewrite select_nil. intros i r Hi. apply bool_decide_eq_false. intros <-. apply Hout.
      apply list_elem_of_fmap. exists r. split; [done|]. apply elem_of_rows. eauto. }
    unfold effectiveAlertRulesForSite. by destruct (site <=? 0).
Qed.

(** ** A site with both overrides *)
Module PairSample.
Definition rule (id : Z) (level threshold scope : string) (site : Z) : AlertRule :=
  MRule.mk id "cpu_high" "CPU" true level "instance.cpu_percent" ">=" (Some threshold) 3 scope site 1 1.
Definition db : Db := Sample.db [] [] [] <| Tables.alerting := no_alerts <| Alerting.alert_rule :=
  Sample.by_ids [rule 11 "warning" "85" "global" 0; rule 12 "critical" "95" "global" 0;
                 rule 13 "warning" "60" "site" 7; rule 14 "critical" "70" "site" 7] |> |>.

Lemma db_rules_ok : rules_ok db.
Proof.
  assert (map_Forall (fun i r => row_id r = i /\ i < Tables.auto_other db) (alert_rules db)) as H.
  { apply (bool_decide_unpack _). vm_compute. exact I. }
  split; intros i r Hi; by destruct (H i r Hi).
Qed.
Lemma db_pairs : pairs_ok db.
Proof. apply pairs_ok_check. vm_compute. reflexivity. Qed.

(** Without its warning override the site has warning 85 and critical 70. *)
Lemma deletion : match DeleteOverride 13 db with
  | Ok (_, d') => validEffectiveAlertPair (effectiveAlertRulesForSite (rules_of d' "cpu_high") 7)
  | Err _ => true
  end = false.
Proof. vm_compute. reflexivity. Qed.
End PairSample.

(** C23: editing a rule and creating an override keep, for every site, the
    warning threshold on the right side of the critical one.  Deleting an override
    does not: the site falls back to the global rule of that level without a
    check, and the pair in effect may be reversed. *)
Theorem rule_edits_and_pairs :
  (forall id request now d r d', rules_ok d -> pairs_ok d -> UpdateRule id request now d = Ok (r, d') -> pairs_ok d')
  /\ (forall base site request now d id d', rules_ok d -> pairs_ok d ->
        CreateOverride base site request now d = Ok (id, d') -> pairs_ok d')
  /\ ~ (forall id d d', rules_ok d -> pairs_ok d -> DeleteOverride id d = Ok (tt, d') -> pairs_ok d').
Proof.
  split; [exact UpdateRule_pairs|]. split; [exact CreateOverride_pairs|]. intros H.
  pose proof PairSample.deletion as Hbad.
  destruct (DeleteOverride 13 PairSample.db) as [[[] d']|e] eqn:Hd; [|discriminate].
  specialize (H 13 PairSample.db d' PairSample.db_rules_ok PairSample.db_pairs Hd "cpu_high" 7). congruence.
Qed.
