(* ===== verification/AlertEvaluation.v ===== *)
(** * Evaluating a sample ([service/alert.go], [model/alert.go])

    One evaluation is one transaction: a sample of a rule's metric for a
    target either repeats what the target's cursor has seen, or it opens,
    advances, keeps, or resolves the one active event of the (rule, target)
    pair, queues the deliveries of that transition, and moves the cursor.

    The active key is "v1:" and the hexadecimal SHA-256 of the pair's text;
    the digest is the argument [digest]. *)

From Stdlib Require Import Ascii String.
From S2P Require Import Prelude GoText GoNumber Json Alerting Store AlertMessages AlertDelivery AlertRules.

(** ** The repository *)
Definition is_active_key (activeKey : string) (e : AlertEvent) : bool :=
  bool_decide (e.(MEvent.ActiveKey) = Some activeKey).
Definition LockActiveEvent (activeKey : string) : Tx (option AlertEvent) :=
  events ← db_select (is_active_key activeKey) by_id; mret (head events).

Definition cursors (d : Db) : gmap string AlertEvaluationCursor :=
  (Tables.alerting d).(Alerting.alert_evaluation_cursor).
Definition set_cursors (t : gmap string AlertEvaluationCursor) (d : Db) : Db :=
  d <| Tables.alerting := (Tables.alerting d) <| Alerting.alert_evaluation_cursor := t |> |>.
Definition LockEvaluationCursor (activeKey : string) : Tx (option AlertEvaluationCursor) :=
  st_gets (fun d => cursors d !! activeKey).

Definition CreateEvaluationCursor (cursor : AlertEvaluationCursor) : Tx unit := fun d =>
  if (cursor.(MSample.ActiveKey) == "") || (cursor.(MSample.LastSampleAt) <=? 0)
     || (cursor.(MSample.LastSampleKey) == "") || (cursor.(MSample.CreatedAt) <=? 0)
     || (cursor.(MSample.UpdatedAt) <=? 0) then Err (ErrOther "invalid alert evaluation cursor")
  else if not_nil (cursors d !! cursor.(MSample.ActiveKey)) then Err ErrDuplicatedKey
  else Ok (tt, set_cursors (<[cursor.(MSample.ActiveKey) := cursor]> (cursors d)) d).

(** The update of a cursor; that no row changed is an error only when there
    is no row. *)
Definition AdvanceEvaluationCursor (cursor : AlertEvaluationCursor) : Tx unit := fun d =>
  if (cursor.(MSample.ActiveKey) == "") || (cursor.(MSample.LastSampleAt) <=? 0)
     || (cursor.(MSample.LastSampleKey) == "") || (cursor.(MSample.UpdatedAt) <=? 0)
  then Err (ErrOther "invalid alert evaluation cursor advance")
  else match cursors d !! cursor.(MSample.ActiveKey) with
       | None => Err ErrAlertRecordNotFound
       | Some old => Ok (tt, set_cursors (<[cursor.(MSample.ActiveKey) :=
                       MSample.mk old.(MSample.ActiveKey) cursor.(MSample.LastSampleAt)
                         cursor.(MSample.LastSampleKey) old.(MSample.CreatedAt) cursor.(MSample.UpdatedAt)]> (cursors d)) d)
       end.

(** The unique key on active_key. *)
Definition CreateEvent (event : AlertEvent) : Tx AlertEvent :=
  same ← (match event.(MEvent.ActiveKey) with
          | Some key => db_count (is_active_key key) | None => mret 0 end);
  _ ← st_require (same =? 0) ErrDuplicatedKey;
  db_create event.

(** gorm's Save: the whole row, updated_at at gorm's clock. *)
Definition event_has_id (id : Z) (e : AlertEvent) : bool := e.(MEvent.ID) =? id.
Definition SaveEvent (event : AlertEvent) : Tx unit :=
  clock ← st_gets Tables.gorm_now;
  _ ← db_update (event_has_id event.(MEvent.ID)) (fun _ => event <| MEvent.UpdatedAt := clock |>);
  mret tt.

(** ** The deliveries of a transition *)
Definition site_name (d : Db) (siteID : option Z) : option string :=
  id ← siteID; MSite.Name <$> table (R := Site) d !! id.
Definition account_of_key (d : Db) (key : string) : option Account :=
  head (select (fun a : Account => FormatInt a.(MAccount.ID) == key) by_id d).
Definition after_slash (s : string) : string :=
  match SplitSlash s with Some (_, suffix) => suffix | None => s end.

(** [alertEventSelect]: the names an event's view adds. *)
Definition SiteName (d : Db) (e : AlertEvent) : string := default "" (site_name d e.(MEvent.SiteID)).
Definition TargetName (d : Db) (e : AlertEvent) : string :=
  let key := e.(MEvent.TargetKey) in
  if e.(MEvent.TargetType) == "site" then default key (site_name d e.(MEvent.SiteID))
  else if e.(MEvent.TargetType) == "account" then
    match account_of_key d key with
    | Some a => if a.(MAccount.DisplayName) == "" then a.(MAccount.Username) else a.(MAccount.DisplayName)
    | None => key
    end
  else if e.(MEvent.TargetType) == "instance" then after_slash key
  else key.

(** [newDingTalkAlertSnapshot], with the members [omitempty] leaves out. *)
Definition text_member (key value : string) : list (string * json) :=
  if value == "" then [] else [(key, JText value)].
Definition optional_member {A} (key : string) (f : A -> json) (value : option A) : list (string * json) :=
  match value with Some v => [(key, f v)] | None => [] end.
Definition newDingTalkAlertSnapshot (d : Db) (e : AlertEvent) (eventType : string) : json :=
  JObject ([("version", JInt 1); ("kind", JText "alert")]
    ++ text_member "alert_event_id" (FormatInt e.(MEvent.ID)) ++ text_member "event_type" eventType
    ++ text_member "rule_key" e.(MEvent.RuleKey) ++ text_member "level" e.(MEvent.Level)
    ++ text_member "site_name" (SiteName d e) ++ text_member "target_name" (TargetName d e)
    ++ optional_member "current_value" JText e.(MEvent.CurrentValue)
    ++ optional_member "threshold_value" JText e.(MEvent.ThresholdValue)
    ++ optional_member "first_fired_at" JInt e.(MEvent.FirstFiredAt)
    ++ optional_member "resolved_at" JInt e.(MEvent.ResolvedAt)).

Definition enqueueAlertTransition (event : AlertEvent) (eventType : string) (now : Z) : Tx unit :=
  if negb (bool_decide (event.(MEvent.Level) ∈ [AlertLevelWarning; AlertLevelCritical])) then mret tt
  else
    enabled ← LockDingTalkEnabled;
    if negb enabled then mret tt
    else
      view ← st_gets (fun d => table (R := AlertEvent) d !! event.(MEvent.ID));
      match view with
      | None => st_fail ErrAlertRecordNotFound
      | Some row =>
          payload ← st_gets (fun d => newDingTalkAlertSnapshot d row eventType);
          _ ← Enqueue (Some event.(MEvent.ID)) eventType payload now;
          mret tt
      end.

(** ** The sample against the cursor *)
Definition alertEvaluationAlreadyApplied (cursor : option AlertEvaluationCursor) (evaluation : AlertEvaluation)
  : result bool :=
  match cursor with
  | None => Ok false
  | Some c =>
      if c.(MSample.LastSampleAt) <? evaluation.(Evaluation.ObservedAt) then Ok false
      else if (evaluation.(Evaluation.ObservedAt) <? c.(MSample.LastSampleAt))
              || (evaluation.(Evaluation.SampleKey) == c.(MSample.LastSampleKey)) then Ok true
      else Err ErrAlertSampleConflict
  end.

Definition alertEvaluationIdentityUpgrade (cursor : option AlertEvaluationCursor) (evaluation : AlertEvaluation) : bool :=
  match cursor with
  | None => false
  | Some c =>
      (evaluation.(Evaluation.ObservedAt) =? c.(MSample.LastSampleAt))
      && (evaluation.(Evaluation.SampleKey) != c.(MSample.LastSampleKey))
      && bool_decide (c.(MSample.LastSampleKey) ∈ evaluation.(Evaluation.PriorSampleKeys))
  end.

Definition alertIdentityUpgradeRequiresMutation (active : AlertEvent) (evaluation : AlertEvaluation) : bool :=
  if evaluation.(Evaluation.State) == AlertSampleScopeInactive then true
  else if evaluation.(Evaluation.State) != AlertSampleKnown then false
  else match evaluation.(Evaluation.CurrentValue), active.(MEvent.CurrentValue) with
       | Some next, Some current =>
           match parseAlertDecimal next true, parseAlertDecimal current true with
           | Some (n, _), Some (c, _) => negb (n =? c)
           | _, _ => true
           end
       | _, _ => false
       end.

Module EvalResult.
Record AlertEvaluationResult := mk { EventID : Z; Status : string; Level : string; Transition : string }.
End EvalResult.
Abbreviation AlertEvaluationResult := EvalResult.AlertEvaluationResult.

Definition evaluationResult (event : AlertEvent) (transition : string) : AlertEvaluationResult :=
  EvalResult.mk event.(MEvent.ID) event.(MEvent.Status) event.(MEvent.Level) transition.
(** The result of a sample that changes no event. *)
Definition quietResult (active : option AlertEvent) (transition : string) : AlertEvaluationResult :=
  match active with Some e => evaluationResult e transition | None => EvalResult.mk 0 "" "" transition end.

Definition requires_mutation (active : option AlertEvent) (evaluation : AlertEvaluation) : bool :=
  match active with Some e => alertIdentityUpgradeRequiresMutation e evaluation | None => false end.

(** What is left of the cursor for the sample, or the end of the evaluation:
    the sample is a repetition. *)
Definition screen (clock : Z) (cursor : option AlertEvaluationCursor) (active : option AlertEvent)
    (evaluation : AlertEvaluation) : Tx (option AlertEvaluationResult * option AlertEvaluationCursor) :=
  let duplicate cursor := if requires_mutation active evaluation then (None, cursor)
                          else (Some (quietResult active "duplicate"), cursor) in
  if alertEvaluationIdentityUpgrade cursor evaluation then
    match cursor with
    | None => mret (None, None)
    | Some c =>
        _ ← st_require (0 <? clock) (ErrOther "alert evaluation clock is invalid");
        let c' := MSample.mk c.(MSample.ActiveKey) c.(MSample.LastSampleAt) evaluation.(Evaluation.SampleKey)
                    c.(MSample.CreatedAt) clock in
        _ ← AdvanceEvaluationCursor c';
        mret (duplicate (Some c'))
    end
  else
    applied ← st_lift (alertEvaluationAlreadyApplied cursor evaluation);
    mret (if applied : bool then duplicate cursor else (None, cursor)).

(** ** The sample against the active event *)
Definition alertResolutionRecovered : string := "recovered".
Definition alertResolutionRemediated : string := "remediated".
Definition alertResolutionRetired : string := "retired".
Definition alertResolutionSuperseded : string := "superseded".

Definition alertResolutionReason (evaluation : AlertEvaluation) : string :=
  if evaluation.(Evaluation.ResolutionReason) != "" then evaluation.(Evaluation.ResolutionReason)
  else if evaluation.(Evaluation.RuleKey) == "backfill_failed" then alertResolutionRemediated
  else alertResolutionRecovered.

Definition resolveAlertEvent (now : Z) (reason : string) (event : AlertEvent) : AlertEvent :=
  event <| MEvent.Status := AlertStatusResolved |> <| MEvent.ActiveKey := None |>
        <| MEvent.ResolvedAt := Some now |> <| MEvent.UpdatedAt := now |>
        <| MEvent.ResolutionReason := Some reason |>.

Definition with_message (message : MessageRef) (event : AlertEvent) : AlertEvent :=
  event <| MEvent.MessageCode := message.(MessageRef.Code) |>
        <| MEvent.MessageParams := Some message.(MessageRef.Params) |>
        <| MEvent.Message := message.(MessageRef.TechnicalDetail) |>.

(** Saving a resolved event; a recovery from firing is announced. *)
Definition save_resolved (wasFiring : bool) (resolved : AlertEvent) (now : Z) : Tx unit :=
  _ ← SaveEvent resolved;
  if wasFiring && bool_decide (resolved.(MEvent.ResolutionReason) = Some alertResolutionRecovered)
  then enqueueAlertTransition resolved AlertDeliveryEventResolved now else mret tt.

Definition is_firing (e : AlertEvent) : bool := e.(MEvent.Status) == AlertStatusFiring.

(** The condition no longer holds at the event's level. *)
Definition resolve_active (evaluation : AlertEvaluation) (canonical : string) (active : AlertEvent) : Tx AlertEvent :=
  let now := evaluation.(Evaluation.ObservedAt) in
  evidence ← st_lift (updateResolvedAlertEvidence evaluation active canonical);
  let resolved := resolveAlertEvent now (alertResolutionReason evaluation) evidence in
  _ ← save_resolved (is_firing active) resolved now;
  mret resolved.

Definition retire_active (evaluation : AlertEvaluation) (active : AlertEvent) : Tx AlertEvaluationResult :=
  let now := evaluation.(Evaluation.ObservedAt) in
  message ← st_lift (scopeInactiveMessage evaluation);
  let resolved := with_message message (resolveAlertEvent now alertResolutionRetired active) in
  _ ← save_resolved (is_firing active) resolved now;
  mret (evaluationResult resolved "resolved").

(** The condition holds again at the event's level. *)
Definition observed_again (now : Z) (canonical threshold : string) (message : MessageRef) (forTimes : Z)
    (active : AlertEvent) : AlertEvent * string :=
  let seen := with_message message
    (active <| MEvent.CurrentValue := Some canonical |> <| MEvent.ThresholdValue := Some threshold |>
            <| MEvent.UpdatedAt := now |>) in
  if active.(MEvent.Status) == AlertStatusPending then
    let counted := seen <| MEvent.ConsecutiveCount := active.(MEvent.ConsecutiveCount) + 1 |> in
    if forTimes <=? active.(MEvent.ConsecutiveCount) + 1 then
      (counted <| MEvent.Status := AlertStatusFiring |> <| MEvent.FirstFiredAt := Some now |>
               <| MEvent.LastFiredAt := Some now |>, "firing")
    else (counted, "pending")
  else if active.(MEvent.Status) == AlertStatusFiring then (seen <| MEvent.LastFiredAt := Some now |>, "unchanged")
  else (seen, "unchanged").

Definition keep_active (evaluation : AlertEvaluation) (canonical threshold : string) (message : MessageRef)
    (candidate : AlertRule) (active : AlertEvent) : Tx AlertEvaluationResult :=
  let now := evaluation.(Evaluation.ObservedAt) in
  let '(event, transition) := observed_again now canonical threshold message candidate.(MRule.ForTimes) active in
  _ ← SaveEvent event;
  _ ← (if transition == "firing" then enqueueAlertTransition event AlertDeliveryEventFiring now else mret tt);
  mret (evaluationResult event transition).

Definition new_event (evaluation : AlertEvaluation) (targetKey activeKey canonical threshold : string)
    (message : MessageRef) (candidate : AlertRule) : AlertEvent :=
  let now := evaluation.(Evaluation.ObservedAt) in
  let fires := candidate.(MRule.ForTimes) <=? 1 in
  let fired := if fires then Some now else None in
  MEvent.mk 0 candidate.(MRule.ID) candidate.(MRule.RuleKey) evaluation.(Evaluation.SiteID)
    evaluation.(Evaluation.TargetType) targetKey (Some activeKey) candidate.(MRule.Level)
    (if fires then AlertStatusFiring else AlertStatusPending) 1 (Some canonical) (Some threshold)
    message.(MessageRef.Code) (Some message.(MessageRef.Params)) message.(MessageRef.TechnicalDetail)
    now fired fired None None now now.

Definition open_event (evaluation : AlertEvaluation) (targetKey activeKey canonical threshold : string)
    (message : MessageRef) (candidate : AlertRule) : Tx AlertEvaluationResult :=
  let now := evaluation.(Evaluation.ObservedAt) in
  event ← CreateEvent (new_event evaluation targetKey activeKey canonical threshold message candidate);
  _ ← (if candidate.(MRule.ForTimes) <=? 1 then enqueueAlertTransition event AlertDeliveryEventFiring now else mret tt);
  mret (evaluationResult event (if candidate.(MRule.ForTimes) <=? 1 then "firing" else "pending")).

Definition apply_known (contract : alertRuleContract) (target : canonicalAlertTarget) (activeKey : string)
    (rules : list AlertRule) (active : option AlertEvent) (evaluation : AlertEvaluation) (raw : string)
  : Tx AlertEvaluationResult :=
  match parseAlertDecimal raw true with
  | None => st_fail (ErrAlertValidation {["current_value" := "must be a valid decimal"]})
  | Some (value, _) =>
      let canonical := FloatString 10 value in
      match matchingAlertRule (effectiveAlertRules rules) value with
      | None =>
          match active with
          | None => mret (quietResult None "unchanged")
          | Some e => resolved ← resolve_active evaluation canonical e; mret (evaluationResult resolved "resolved")
          end
      | Some candidate =>
          match parseAlertThreshold (default "" candidate.(MRule.ThresholdValue)) true with
          | None => st_fail (ErrOther "effective alert threshold is invalid")
          | Some (threshold, _) =>
              let canonicalThreshold := FloatString 2 threshold in
              message ← st_lift (buildAlertMessage evaluation contract target canonicalThreshold canonical);
              match active with
              | None => open_event evaluation target.(Target.Key) activeKey canonical canonicalThreshold message candidate
              | Some e =>
                  if e.(MEvent.Level) == candidate.(MRule.Level)
                  then keep_active evaluation canonical canonicalThreshold message candidate e
                  else
                    _ ← resolve_active evaluation canonical e;
                    open_event evaluation target.(Target.Key) activeKey canonical canonicalThreshold message candidate
              end
          end
      end
  end.

Definition apply_sample (contract : alertRuleContract) (target : canonicalAlertTarget) (activeKey : string)
    (rules : list AlertRule) (active : option AlertEvent) (evaluation : AlertEvaluation) : Tx AlertEvaluationResult :=
  if evaluation.(Evaluation.State) == AlertSampleUnknown then mret (quietResult active "unknown")
  else if evaluation.(Evaluation.State) == AlertSampleScopeInactive then
    match active with
    | None => mret (quietResult None "unchanged")
    | Some e => retire_active evaluation e
    end
  else apply_known contract target activeKey rules active evaluation (default "" evaluation.(Evaluation.CurrentValue)).

Definition advance (clock : Z) (activeKey : string) (cursor : option AlertEvaluationCursor)
    (evaluation : AlertEvaluation) : Tx unit :=
  _ ← st_require (0 <? clock) (ErrOther "alert evaluation clock is invalid");
  match cursor with
  | Some c => AdvanceEvaluationCursor (MSample.mk c.(MSample.ActiveKey) evaluation.(Evaluation.ObservedAt)
                evaluation.(Evaluation.SampleKey) c.(MSample.CreatedAt) clock)
  | None => CreateEvaluationCursor (MSample.mk activeKey evaluation.(Evaluation.ObservedAt)
                evaluation.(Evaluation.SampleKey) clock clock)
  end.

(** ** The evaluation *)
Definition trimmed (evaluation : AlertEvaluation) : AlertEvaluation :=
  evaluation <| Evaluation.RuleKey := trim evaluation.(Evaluation.RuleKey) |>
             <| Evaluation.TargetType := lower (trim evaluation.(Evaluation.TargetType)) |>
             <| Evaluation.TargetKey := trim evaluation.(Evaluation.TargetKey) |>.

Definition resolution_reasons : list string :=
  [alertResolutionRecovered; alertResolutionRemediated; alertResolutionRetired; alertResolutionSuperseded].

(** The target checks of [validateAlertEvaluation]. *)
Definition contract_fields (evaluation : AlertEvaluation) (fields : gmap string string) : gmap string string :=
  match alertRuleContract_of evaluation.(Evaluation.RuleKey) with
  | None => <["rule_key" := "is not a built-in alert rule"]> fields
  | Some contract =>
      field_if (match canonicalAlertTargetKey evaluation contract with
                | None => true
                | Some target => (255 <? len target.(Target.Key)) || has_control target.(Target.Key)
                end) "target_key" "is not canonical for this alert rule"
      (field_if (default 0 evaluation.(Evaluation.SiteID) <=? 0) "site_id" "is required and must be positive"
      (field_if (evaluation.(Evaluation.TargetType) != contract.(TargetType)) "target_type" "does not apply to this alert rule" fields))
  end.

Definition validateAlertEvaluation (evaluation : AlertEvaluation) : gmap string string :=
  let sampleKey := evaluation.(Evaluation.SampleKey) in
  field_if ((sampleKey == "") || (255 <? len sampleKey) || (trim sampleKey != sampleKey) || has_control sampleKey)
    "sample_key" "must be a canonical sample identity"
  (field_if (evaluation.(Evaluation.ObservedAt) <=? 0) "observed_at" "is required and must be positive"
  (field_if ((evaluation.(Evaluation.ResolutionReason) != "") && negb (bool_decide (evaluation.(Evaluation.ResolutionReason) ∈ resolution_reasons)))
    "resolution_reason" "is invalid"
  (field_if ((evaluation.(Evaluation.State) == AlertSampleScopeInactive) && (evaluation.(Evaluation.ScopeID) <=? 0))
    "scope_id" "is required for an inactive scope"
  (field_if ((evaluation.(Evaluation.State) == AlertSampleKnown) && is_nil evaluation.(Evaluation.CurrentValue))
    "current_value" "is required for known samples"
  (field_if (negb (bool_decide (evaluation.(Evaluation.State) ∈ [AlertSampleKnown; AlertSampleUnknown; AlertSampleScopeInactive])))
    "state" "is invalid"
  (contract_fields evaluation
  (field_if ((evaluation.(Evaluation.RuleKey) == "") || (64 <? len evaluation.(Evaluation.RuleKey)))
    "rule_key" "must be between 1 and 64 characters" ∅))))))).

Section Evaluate.
Context (digest : string -> string).

Definition alertActiveKey (ruleKey targetType targetKey : string) : string :=
  let nul := String Ascii.zero "" in
  "v1:" +:+ digest (ruleKey +:+ nul +:+ targetType +:+ nul +:+ targetKey).

(** The transaction of [Evaluate]. *)
Definition evaluate_tx (clock : Z) (contract : alertRuleContract) (target : canonicalAlertTarget)
    (activeKey : string) (evaluation : AlertEvaluation) : Tx AlertEvaluationResult :=
  rules ← LockRulesByKey evaluation.(Evaluation.RuleKey) (deref evaluation.(Evaluation.SiteID));
  _ ← st_require (negb (bool_decide (rules = []))) ErrAlertRuleNotFound;
  cursor ← LockEvaluationCursor activeKey;
  active ← LockActiveEvent activeKey;
  '(done, cursor) ← screen clock cursor active evaluation;
  match done with
  | Some result => mret result
  | None =>
      result ← apply_sample contract target activeKey rules active evaluation;
      if evaluation.(Evaluation.State) == AlertSampleUnknown then mret result
      else _ ← advance clock activeKey cursor evaluation; mret result
  end.

Definition Evaluate (clock : Z) (sample : AlertEvaluation) : Tx AlertEvaluationResult :=
  let evaluation := trimmed sample in
  _ ← st_lift (not_none_if (validateAlertEvaluation evaluation));
  match alertRuleContract_of evaluation.(Evaluation.RuleKey) with
  | None => st_fail ErrAlertRuleNotFound
  | Some contract =>
      match canonicalAlertTargetKey evaluation contract with
      | None => st_fail ErrAlertRuleNotFound
      | Some target =>
          evaluate_tx clock contract target
            (alertActiveKey evaluation.(Evaluation.RuleKey) evaluation.(Evaluation.TargetType) target.(Target.Key)) evaluation
      end
  end.
End Evaluate.

(** ** A concrete database *)
Module AlertSample.
Definition rule (id : Z) (level threshold : string) : AlertRule :=
  MRule.mk id "cpu_high" "CPU" true level "instance.cpu_percent" ">=" (Some threshold) 3 "global" 0 1 1.
Definition warning : AlertRule := rule 11 "warning" "85".
Definition critical : AlertRule := rule 12 "critical" "95".
Definition settings : gmap string settingRow :=
  {[ enabled_key := MSetting.mk "true" "bool" false; webhook_key := MSetting.mk "cipher" "string" true;
     secret_key := MSetting.mk "cipher" "string" true ]}.
Definition db : Db :=
  Sample.db [] [] [] <| Tables.alerting :=
    Alerting.mk (Sample.by_ids [warning; critical]) ∅ ∅ ∅ settings |>.
Definition cpu (value : string) (at_ : Z) : AlertEvaluation :=
  Evaluation.mk "cpu_high" (Some 7) "instance" "7/node-a" "node-a" AlertSampleKnown (Some value)
    (MessageRef.mk "" ∅ "") "" 0 "" "resource" "" at_ ("minute:" +:+ FormatInt at_) [] "".
Definition digest (s : string) : string := s.
Definition eval (sample : AlertEvaluation) : Tx AlertEvaluationResult := Evaluate digest 1000 sample.
Definition after {A} (m : Tx A) (d : Db) : Db := match m d with Ok (_, d') => d' | Err _ => d end.
Definition transition (m : Tx AlertEvaluationResult) (d : Db) : result string :=
  match m d with Ok (r, _) => Ok r.(EvalResult.Transition) | Err e => Err e end.
End AlertSample.

