(* ===== verification/AlertDeliveryBehaviour.v ===== *)
(** * The delivery outbox behaves

    What each operation does to the outbox, the invariant of its rows, who may
    hold a delivery and for how long, that a resolution is not sent before the
    firing it resolves is settled, and that no delivery is ever stuck. *)

From Stdlib Require Import Ascii String.
From S2P Require Import Prelude GoText GoNumber Json Alerting Store AlertDelivery.

Definition deliveries (d : Db) : gmap Z AlertDelivery := Alerting.alert_delivery (Tables.alerting d).

(** ** Statements that concern one row *)
Section OneRow.
Context {R : Type} `{!Table R}.
Implicit Types (t : gmap Z R) (p : R -> bool).

Lemma count_rows_one t p i r : table_wf t -> t !! i = Some r -> p r = true ->
  (forall x, p x = true -> row_id x = i) -> count p (rows t) = 1.
Proof.
  intros Hwf Hr Hp Hid. rewrite <- (insert_delete_id t i r Hr), rows_insert_new by apply lookup_delete_eq.
  rewrite count_cons, Hp. rewrite (proj2 (count_zero p _)); [lia|].
  intros x (k&Hk)%elem_of_rows. apply lookup_delete_Some in Hk as [Hne Hk].
  destruct (p x) eqn:Hpx; [|done]. apply Hid in Hpx. apply Hwf in Hk. congruence.
Qed.

Lemma affected_delivery t p f i r : table_wf t -> t !! i = Some r -> p r = true ->
  (forall x, p x = true -> row_id x = i) -> f r <> r -> affected p f t = 1.
Proof.
  intros Hwf Hr Hp Hid Hf. unfold affected. apply (count_rows_one _ _ i r); [done..| |].
  - by rewrite Hp, bool_decide_eq_false_2.
  - intros x [Hx _]%andb_true_iff. by apply Hid.
Qed.

(** A compare-and-set that reports one affected row changed one row. *)
Lemma affected_delivery_inv t p f i : table_wf t -> (forall x, p x = true -> row_id x = i) ->
  affected p f t = 1 -> exists r, t !! i = Some r /\ p r = true /\ update_where p f t = <[i := f r]> t.
Proof.
  intros Hwf Hid Ha. assert (0 < affected p f t) as Hpos by lia.
  apply count_pos in Hpos as (r&Hin&[Hp _]%andb_true_iff). apply elem_of_rows in Hin as (k&Hk).
  pose proof (Hid r Hp) as E. pose proof (Hwf _ _ Hk) as E'. rewrite E in E'. subst k.
  exists r. split; [done|]. split; [done|]. by apply update_where_one.
Qed.
End OneRow.

(** ** The invariant of the rows *)
Definition unclaimed (r : AlertDelivery) : Prop :=
  r.(MDelivery.ClaimToken) = None /\ r.(MDelivery.LeaseExpiresAt) = None.
Definition held (r : AlertDelivery) : Prop :=
  not_nil r.(MDelivery.ClaimToken) = true /\ not_nil r.(MDelivery.LeaseExpiresAt) = true
  /\ r.(MDelivery.NextRetryAt) = None /\ 1 <= r.(MDelivery.AttemptCount).

(** A delivery waits for its instant, is held under a lease, or is settled. *)
Inductive delivery_ok (r : AlertDelivery) : Prop :=
  | waiting : r.(MDelivery.Status) = AlertDeliveryStatusPending -> unclaimed r ->
      not_nil r.(MDelivery.NextRetryAt) = true -> 0 <= r.(MDelivery.AttemptCount) <= 5 -> delivery_ok r
  | sending : r.(MDelivery.Status) = AlertDeliveryStatusPending -> held r ->
      r.(MDelivery.AttemptCount) <= 5 -> delivery_ok r
  | settled : r.(MDelivery.Status) ∈ [AlertDeliveryStatusSuccess; AlertDeliveryStatusFailed] -> unclaimed r ->
      r.(MDelivery.NextRetryAt) = None -> 0 <= r.(MDelivery.AttemptCount) <= 5 -> delivery_ok r.

(** No two deliveries of one transition of an event. *)
Definition same_transition (r s : AlertDelivery) : Prop :=
  not_nil r.(MDelivery.AlertEventID) = true /\ r.(MDelivery.AlertEventID) = s.(MDelivery.AlertEventID)
  /\ r.(MDelivery.EventType) = s.(MDelivery.EventType).

Record outbox_ok (d : Db) : Prop := {
  outbox_wf : table_wf (deliveries d);
  outbox_fresh : forall i r, deliveries d !! i = Some r -> 0 < i < Tables.auto_other d;
  outbox_positive : 0 < Tables.auto_other d;
  outbox_rows : forall i r, deliveries d !! i = Some r -> delivery_ok r;
  outbox_channel : forall i r, deliveries d !! i = Some r -> r.(MDelivery.Channel) = AlertDeliveryChannel;
  outbox_unique : forall i j r s, deliveries d !! i = Some r -> deliveries d !! j = Some s ->
    same_transition r s -> i = j }.

(** ** What the operations do *)
Definition with_deliveries (t : gmap Z AlertDelivery) (d : Db) : Db := set_table (R := AlertDelivery) t d.

Lemma DisablePending_ok now d n d' : DisablePending now d = Ok (n, d') -> 0 < now /\
  exists f, (forall r, f r = unlock_delivery r <| MDelivery.Status := AlertDeliveryStatusFailed |>
      <| MDelivery.ErrorCode := "NOTIFICATION_DISABLED" |> <| MDelivery.ResponseCode := None |>
      <| MDelivery.ResponseMessage := Some "notification disabled" |> <| MDelivery.UpdatedAt := now |>)
  /\ d' = with_deliveries (update_where is_pending_delivery f (deliveries d)) d.
Proof.
  unfold DisablePending. intros H. inv_ok. apply db_update_ok in H as [_ ->]. split; [lia|].
  eexists. split; [|reflexivity]. done.
Qed.

Lemma FailExhaustedLeases_ok now d n d' : FailExhaustedLeases now d = Ok (n, d') -> 0 < now /\
  exists f, (forall r, f r = unlock_delivery r <| MDelivery.Status := AlertDeliveryStatusFailed |>
      <| MDelivery.ErrorCode := "DELIVERY_RETRY_EXHAUSTED" |>
      <| MDelivery.ResponseMessage := Some "delivery retry budget exhausted" |> <| MDelivery.UpdatedAt := now |>)
  /\ d' = with_deliveries (update_where (is_exhausted now) f (deliveries d)) d.
Proof.
  unfold FailExhaustedLeases. intros H. inv_ok. apply db_update_ok in H as [_ ->]. split; [lia|].
  eexists. split; [|reflexivity]. done.
Qed.

(** A new delivery, or the one the transition already has. *)
Lemma Enqueue_ok event eventType payload now d r known d' :
  Enqueue event eventType payload now d = Ok ((r, known), d') ->
  0 < now /\ eventType ∈ delivery_event_types
  /\ (if eventType == AlertDeliveryEventTest then event = None else exists e, event = Some e /\ 0 < e)
  /\ ((known = true /\ d' = d /\ exists e i, event = Some e /\ deliveries d !! i = Some r /\ delivery_of e eventType r = true)
      \/ (known = false /\ (forall e i s, event = Some e -> deliveries d !! i = Some s -> delivery_of e eventType s = false)
          /\ r = new_delivery event eventType payload now <| MDelivery.ID := Tables.auto_other d |>
          /\ d' = with_deliveries (<[Tables.auto_other d := r]> (deliveries d))
                    (d <| Tables.auto_other := Tables.auto_other d + 1 |>))).
Proof.
  unfold Enqueue. intros H. apply st_bind_ok in H as (?&?&Hg&H). apply st_require_ok in Hg as [Hg Hd].
  injection Hd as -> ->. to_prop. destruct Hg as [[[Hnow Hty] Hid] _].
  split; [lia|]. split; [done|]. split.
  { destruct (eventType == AlertDeliveryEventTest); destruct event as [e|]; try done.
    exists e. split; [done|]. by apply Z.ltb_lt in Hid. }
  destruct event as [e|].
  - apply st_bind_ok in H as (known'&?&Hs&H). apply st_gets_ok in Hs. injection Hs as -> ->.
    destruct (select _ _ _) as [|s l] eqn:Hsel.
    + right. apply st_bind_ok in H as (?&?&Hc&H). apply st_ret_ok in H. injection H as <- -> ->.
      injection Hc as <- <-. repeat split. intros e' i s [= <-] Hi. rewrite select_nil in Hsel. by apply (Hsel i).
    + left. apply st_ret_ok in H. injection H as <- -> ->. repeat split.
      assert (r ∈ select (delivery_of e eventType) by_id d) as Hin by (rewrite Hsel; by left).
      apply elem_of_select in Hin as (Hp&i&Hi). eauto 10.
  - right. apply st_bind_ok in H as (?&?&Hc&H). apply st_ret_ok in H. injection H as <- -> ->.
    injection Hc as <- <-. by repeat split.
Qed.

Lemma unchanged_since_self r : is_pending_delivery r = true ->
  (not_nil r.(MDelivery.ClaimToken) = false -> r.(MDelivery.LeaseExpiresAt) = None) -> unchanged_since r r = true.
Proof.
  intros Hp Hu. unfold unchanged_since. rewrite !Z.eqb_refl, Hp. simpl.
  destruct (not_nil (MDelivery.ClaimToken r)) eqn:Ht; [by rewrite !bool_decide_eq_true_2|].
  rewrite Hu by done. unfold not_nil in Ht. apply negb_false_iff in Ht. rewrite Ht.
  by rewrite bool_decide_eq_true_2.
Qed.

Lemma claim_row_ok id now leaseUntil token locked d c d' : table_wf (deliveries d) ->
  claim id now leaseUntil token locked d = Ok (c, d') -> 0 < now < leaseUntil /\
  exists r, deliveries d !! r.(MDelivery.ID) = Some r /\ claimable now d r = true
    /\ (forall i, id = Some i -> r.(MDelivery.ID) = i)
    /\ c = DeliveryClaim.mk (leased token leaseUntil now r) token leaseUntil (not_nil r.(MDelivery.ClaimToken))
    /\ d' = with_deliveries (<[r.(MDelivery.ID) := leased token leaseUntil now r]> (deliveries d)) d.
Proof.
  intros Hwf H. unfold claim in H. apply st_bind_ok in H as (?&?&Hg&H). apply st_require_ok in Hg as [Hg Hd].
  injection Hd as -> ->. to_prop. split; [lia|].
  apply st_bind_ok in H as (candidates&?&Hs&H). apply db_select_ok in Hs as [-> ->].
  destruct (select _ _ _) as [|r l] eqn:Hsel; [by apply st_fail_ok in H|].
  assert (r ∈ select (fun r => claimable now d r && negb (locked r.(MDelivery.ID))
      && match id with Some id => r.(MDelivery.ID) =? id | None => true end) by_due d) as Hin by (rewrite Hsel; by left).
  apply elem_of_select in Hin as (Hp&k&Hk). to_prop. destruct Hp as [[Hclaim _] Hid].
  pose proof (Hwf _ _ Hk) as Hki. simpl in Hki. subst k. change (deliveries d !! MDelivery.ID r = Some r) in Hk.
  apply st_bind_ok in H as (n&?&Hu&H). apply db_update_ok in Hu as [-> ->].
  apply st_bind_ok in H as (?&?&Hr&H). apply st_require_ok in Hr as [Hr Hd]. injection Hd as -> ->.
  apply st_ret_ok in H. injection H as -> ->. apply Z.eqb_eq in Hr.
  apply (affected_delivery_inv (R := AlertDelivery) _ _ _ (MDelivery.ID r) Hwf) in Hr as (r'&Hr'&_&Hw).
  - change (deliveries d !! MDelivery.ID r = Some r') in Hr'. assert (r' = r) as -> by congruence.
    exists r. split; [done|]. split; [done|]. split.
    { intros i ->. by apply Z.eqb_eq in Hid. }
    split; [done|]. unfold with_deliveries. by rewrite <- Hw.
  - intros x. unfold unchanged_since. intros Hx. to_prop. destruct Hx as [[[Hx _] _] _]. exact Hx.
Qed.

Lemma Complete_ok c d d' : table_wf (deliveries d) -> Complete c d = Ok (tt, d') ->
  valid_completion c = true /\ exists r, deliveries d !! c.(Completion.DeliveryID) = Some r /\ held_by c r = true
    /\ d' = with_deliveries (<[c.(Completion.DeliveryID) := completed c r]> (deliveries d)) d.
Proof.
  intros Hwf H. unfold Complete in H. apply st_bind_ok in H as (?&?&Hg&H). apply st_require_ok in Hg as [Hg Hd].
  injection Hd as -> ->. split; [done|]. apply st_bind_ok in H as (n&?&Hu&H). apply db_update_ok in Hu as [-> ->].
  apply st_require_ok in H as [Hr Hd]. injection Hd as ->. apply Z.eqb_eq in Hr.
  apply (affected_delivery_inv (R := AlertDelivery) _ _ _ (Completion.DeliveryID c) Hwf) in Hr as (r&Hr&Hh&Hw).
  - exists r. split; [done|]. split; [done|]. unfold with_deliveries. by rewrite <- Hw.
  - intros x. unfold held_by. intros Hx. to_prop. destruct Hx as [[[Hx _] _] _]. exact Hx.
Qed.

(** ** Steps of the outbox *)
Inductive outbox_step (d d' : Db) : Prop :=
  | step_enqueue event eventType payload now r : Enqueue event eventType payload now d = Ok (r, d') -> outbox_step d d'
  | step_disable now n : DisablePending now d = Ok (n, d') -> outbox_step d d'
  | step_exhaust now n : FailExhaustedLeases now d = Ok (n, d') -> outbox_step d d'
  | step_claim id now leaseUntil token locked c :
      claim id now leaseUntil token locked d = Ok (c, d') -> outbox_step d d'
  | step_complete c : Complete c d = Ok (tt, d') -> outbox_step d d'
  | step_elsewhere : deliveries d' = deliveries d -> Tables.auto_other d <= Tables.auto_other d' -> outbox_step d d'.

Definition same_identity (r r' : AlertDelivery) : Prop :=
  r'.(MDelivery.ID) = r.(MDelivery.ID) /\ r'.(MDelivery.AlertEventID) = r.(MDelivery.AlertEventID)
  /\ r'.(MDelivery.EventType) = r.(MDelivery.EventType) /\ r'.(MDelivery.Channel) = r.(MDelivery.Channel).

(** A step that rewrites rows without changing what they are. *)
Lemma outbox_rewrite d d' : outbox_ok d -> Tables.auto_other d <= Tables.auto_other d' ->
  (forall i r', deliveries d' !! i = Some r' -> exists r, deliveries d !! i = Some r /\ same_identity r r'
    /\ (delivery_ok r -> delivery_ok r')) -> outbox_ok d'.
Proof.
  intros [Hwf Hfresh Hpos Hrows Hchan Huniq] Hauto Hback. split.
  - intros i r' Hi. destruct (Hback i r' Hi) as (r&Hr&(Hid&_)&_). simpl. rewrite Hid. by apply Hwf in Hr.
  - intros i r' Hi. destruct (Hback i r' Hi) as (r&Hr&_). apply Hfresh in Hr. lia.
  - lia.
  - intros i r' Hi. destruct (Hback i r' Hi) as (r&Hr&_&Hok). eauto.
  - intros i r' Hi. destruct (Hback i r' Hi) as (r&Hr&(_&_&_&->)&_). eauto.
  - intros i j r' s' Hi Hj (Hn&He&Ht). destruct (Hback i r' Hi) as (r&Hr&(_&Her&Htr&_)&_).
    destruct (Hback j s' Hj) as (s&Hs&(_&Hes&Hts&_)&_). apply (Huniq i j r s Hr Hs).
    unfold same_transition. rewrite <- Her, <- Htr, <- Hes, <- Hts. done.
Qed.

Lemma outbox_rewrite_where p f d : outbox_ok d -> (forall r, same_identity r (f r)) ->
  (forall r, p r = true -> delivery_ok r -> delivery_ok (f r)) ->
  outbox_ok (with_deliveries (update_where p f (deliveries d)) d).
Proof.
  intros Hok Hsame Hrow. apply (outbox_rewrite d); [done|done|]. intros i r'.
  change (deliveries (with_deliveries ?t d)) with t. rewrite (lookup_update_where (R := AlertDelivery)).
  intros (r&Hr&->)%fmap_Some_1. exists r. unfold upd. split; [done|]. destruct (p r) eqn:Hp; [eauto|]. by repeat split.
Qed.

Lemma outbox_rewrite_row r r' d : outbox_ok d -> deliveries d !! r.(MDelivery.ID) = Some r -> same_identity r r' ->
  (delivery_ok r -> delivery_ok r') -> outbox_ok (with_deliveries (<[r.(MDelivery.ID) := r']> (deliveries d)) d).
Proof.
  intros Hok Hr Hsame Hrow. apply (outbox_rewrite d); [done|done|]. intros i s.
  change (deliveries (with_deliveries ?t d)) with t. intros [[<- <-]|[_ Hs]]%lookup_insert_Some; [eauto|].
  exists s. by repeat split.
Qed.

(** Giving a pending delivery up. *)
Lemma given_up_ok r r' : is_pending_delivery r = true -> unclaimed r' -> r'.(MDelivery.NextRetryAt) = None ->
  r'.(MDelivery.Status) = AlertDeliveryStatusFailed -> r'.(MDelivery.AttemptCount) = r.(MDelivery.AttemptCount) ->
  delivery_ok r -> delivery_ok r'.
Proof.
  intros Hp Hu Hn Hs Ha Hok. apply settled; [rewrite Hs; set_solver|done|done|]. rewrite Ha.
  destruct Hok as [_ _ _ H|_ (_&_&_&H1) H2|_ _ _ H]; lia.
Qed.

Lemma leased_ok now d token leaseUntil r : claimable now d r = true -> delivery_ok r ->
  delivery_ok (leased token leaseUntil now r).
Proof.
  unfold claimable, is_fresh, is_expired, not_nil. intros Hc Hok. to_prop. destruct Hc as [[Hp Hc] _].
  apply bool_decide_eq_true in Hp. apply sending; [exact Hp| |]; unfold held, leased, not_nil; simpl.
  - repeat split. destruct Hok as [_ [Ht _] _ H|_ (_&_&_&H) _|Hs _ _ _].
    + rewrite Ht. simpl. lia.
    + by destruct (is_nil _); simpl; lia.
    + rewrite Hp in Hs. set_solver.
  - destruct Hc as [[[Hn Ha] _]|[[[Hn Ha] Hb] _]]; rewrite Hn; simpl; unfold AlertDeliveryMaxAttempts in *; lia.
Qed.

Lemma completed_ok c r : valid_completion c = true -> held_by c r = true -> delivery_ok r ->
  delivery_ok (completed c r).
Proof.
  unfold valid_completion, held_by. intros Hv Hh Hok. to_prop.
  destruct Hv as [[_ Hst] Hnext]. destruct Hh as [[[_ Hp] _] Ht]. apply bool_decide_eq_true in Hp.
  assert (1 <= r.(MDelivery.AttemptCount) <= 5) as Ha.
  { destruct Hok as [_ [Hn _] _ _|_ (_&_&_&H1) H2|Hs _ _ _]; [congruence|lia|rewrite Hp in Hs; set_solver]. }
  destruct (decide (c.(Completion.Status) = AlertDeliveryStatusPending)) as [E|E].
  - rewrite bool_decide_eq_true_2 in Hnext by done. apply waiting; simpl; [done|by split|done|lia].
  - rewrite bool_decide_eq_false_2 in Hnext by done. apply settled; simpl; [|by split| |lia].
    + set_solver.
    + unfold is_nil in Hnext. by destruct (Completion.NextRetryAt c).
Qed.

Lemma enqueue_keeps event eventType payload now d r known d' : outbox_ok d ->
  Enqueue event eventType payload now d = Ok ((r, known), d') -> outbox_ok d'.
Proof.
  intros Hok (_&_&_&[(_&->&_)|(_&Hnew&->&->)])%Enqueue_ok; [done|]. destruct Hok as [Hwf Hfresh Hpos Hrows Hchan Huniq].
  set (r := new_delivery event eventType payload now <| MDelivery.ID := Tables.auto_other d |>).
  assert (forall i s, deliveries d !! i = Some s -> same_transition r s -> False) as Hno.
  { intros i s Hs (Hn&He&Ht). destruct event as [e|]; [|done]. simpl in He, Ht.
    pose proof (Hnew e i s eq_refl Hs) as Hd. unfold delivery_of in Hd.
    rewrite (bool_decide_eq_true_2 (MDelivery.AlertEventID s = Some e)) in Hd by done.
    rewrite bool_decide_eq_true_2 in Hd by done. by rewrite (Hchan i s Hs), bool_decide_eq_true_2 in Hd. }
  split; unfold with_deliveries; change (deliveries (set_table (R := AlertDelivery) ?t ?d)) with t.
  - intros i s [[<- <-]|[_ Hs]]%lookup_insert_Some; [done|by apply Hwf in Hs].
  - intros i s [[<- _]|[_ Hs]]%lookup_insert_Some; simpl; [lia|]. apply Hfresh in Hs. lia.
  - simpl. lia.
  - intros i s [[_ <-]|[_ Hs]]%lookup_insert_Some; [|eauto]. by apply waiting.
  - intros i s [[_ <-]|[_ Hs]]%lookup_insert_Some; [done|eauto].
  - intros i j s t [[<- <-]|[_ Hs]]%lookup_insert_Some [[<- <-]|[_ Ht]]%lookup_insert_Some Hst; [done| | |eauto].
    + by destruct (Hno j t Ht).
    + exfalso. apply (Hno i s Hs). destruct Hst as (Hn&He&Hty). rewrite He in Hn. by repeat split.
Qed.

(** Rows of the outbox keep their shape under every step. *)
Lemma outbox_step_keeps d d' : outbox_step d d' -> outbox_ok d -> outbox_ok d'.
Proof.
  intros [event ty payload now [r known] H|now n H|now n H|id now until token locked c H|c H|Hd Ha] Hok.
  - by apply enqueue_keeps in H.
  - apply DisablePending_ok in H as (_&f&Hf&->). apply outbox_rewrite_where; [done| |].
    + intros r. by rewrite Hf.
    + intros r Hp. rewrite Hf. by apply given_up_ok.
  - apply FailExhaustedLeases_ok in H as (_&f&Hf&->). apply outbox_rewrite_where; [done| |].
    + intros r. by rewrite Hf.
    + intros r Hp. rewrite Hf. unfold is_exhausted in Hp. rewrite !andb_true_iff in Hp. destruct Hp as [[[Hp _] _] _]. by apply given_up_ok.
  - apply claim_row_ok in H as (_&r&Hr&Hc&_&_&->); [|apply Hok]. apply outbox_rewrite_row; [done..|].
    by eapply leased_ok.
  - apply Complete_ok in H as (Hv&r&Hr&Hh&->); [|apply Hok].
    assert (c.(Completion.DeliveryID) = r.(MDelivery.ID)) as Hid by (symmetry; exact (outbox_wf d Hok _ _ Hr)).
    rewrite Hid in *. apply outbox_rewrite_row; [done..|]. by apply completed_ok.
  - apply (outbox_rewrite d); [done..|]. intros i r. rewrite Hd. intros Hr. exists r. by repeat split.
Qed.

(** ** Theorems *)

(** Whatever the transactions do and in whatever order, the rows keep their shape. *)
Lemma outbox_run d d' : outbox_ok d -> rtc outbox_step d d' -> outbox_ok d'.
Proof. intros Hok H. induction H as [|d d1 d2 H1 _ IH]; [done|]. eauto using outbox_step_keeps. Qed.

(** *** A lease is its holder's until it runs out *)
Definition is_held (id : Z) (token : string) (leaseUntil : Z) (r : AlertDelivery) (d : Db) : Prop :=
  deliveries d !! id = Some r /\ r.(MDelivery.Status) = AlertDeliveryStatusPending
  /\ r.(MDelivery.ClaimToken) = Some token /\ r.(MDelivery.LeaseExpiresAt) = Some leaseUntil.

(** What other workers may do while the lease runs: anything before its end,
    except completing with the holder's token. *)
Inductive others_step (token : string) (leaseUntil : Z) (d d' : Db) : Prop :=
  | other_enqueue event eventType payload now r : Enqueue event eventType payload now d = Ok (r, d') -> others_step token leaseUntil d d'
  | other_exhaust now n : FailExhaustedLeases now d = Ok (n, d') -> others_step token leaseUntil d d'
  | other_claim id now until token' locked c : now < leaseUntil ->
      claim id now until token' locked d = Ok (c, d') -> others_step token leaseUntil d d'
  | other_complete c : c.(Completion.ClaimToken) <> token -> Complete c d = Ok (tt, d') -> others_step token leaseUntil d d'
  | other_elsewhere : deliveries d' = deliveries d -> Tables.auto_other d <= Tables.auto_other d' -> others_step token leaseUntil d d'.

Lemma others_outbox token leaseUntil d d' : others_step token leaseUntil d d' -> outbox_step d d'.
Proof.
  intros [event ty payload now r H|now n H|id now until token' locked c _ H|c _ H|H1 H2].
  - exact (step_enqueue _ _ _ _ _ _ _ H).
  - exact (step_exhaust _ _ _ _ H).
  - exact (step_claim _ _ _ _ _ _ _ _ H).
  - exact (step_complete _ _ _ H).
  - exact (step_elsewhere _ _ H1 H2).
Qed.

Lemma claimable_due now d r : claimable now d r = true -> r.(MDelivery.ClaimToken) = None \/ reached r.(MDelivery.LeaseExpiresAt) now = true.
Proof.
  unfold claimable, is_fresh, is_expired. intros H. rewrite !andb_true_iff, orb_true_iff, !andb_true_iff in H.
  destruct H as [[_ [[[H _] _]|[_ H]]] _]; [|by right]. left. unfold is_nil in H. by destruct (MDelivery.ClaimToken r).
Qed.

Lemma others_keep_held token leaseUntil id r d d' : outbox_ok d -> is_held id token leaseUntil r d ->
  others_step token leaseUntil d d' -> is_held id token leaseUntil r d'.
Proof.
  intros Hok (Hr&Hs&Ht&Hl) Hstep. refine (conj _ (conj Hs (conj Ht Hl))).
  destruct Hstep as [event ty payload now [s known] H|now n H|id' now until token' locked c Hlt H|c Hne H|H _].
  - apply Enqueue_ok in H as (_&_&_&[(_&->&_)|(_&_&_&->)]); [done|].
    change (deliveries (with_deliveries ?t ?d)) with t. rewrite lookup_insert_ne; [done|].
    apply (outbox_fresh d Hok) in Hr. lia.
  - apply FailExhaustedLeases_ok in H as (_&f&_&->). change (deliveries (with_deliveries ?t ?d)) with t.
    rewrite (lookup_update_where (R := AlertDelivery)), Hr. simpl. unfold upd, is_exhausted. rewrite Ht. by rewrite andb_false_r.
  - apply claim_row_ok in H as (_&s&Hsr&Hc&_&_&->); [|apply Hok]. change (deliveries (with_deliveries ?t ?d)) with t.
    destruct (decide (s.(MDelivery.ID) = id)) as [E|E]; [|by rewrite lookup_insert_ne].
    rewrite E in Hsr. assert (s = r) as -> by congruence. apply claimable_due in Hc. rewrite Ht, Hl in Hc.
    simpl in Hc. destruct Hc as [|Hc%Z.leb_le]; [done|lia].
  - apply Complete_ok in H as (_&s&Hsr&Hh&->); [|apply Hok]. change (deliveries (with_deliveries ?t ?d)) with t.
    destruct (decide (c.(Completion.DeliveryID) = id)) as [E|E]; [|by rewrite lookup_insert_ne].
    rewrite E in Hsr. assert (s = r) as -> by congruence. unfold held_by in Hh. rewrite !andb_true_iff in Hh.
    destruct Hh as [_ Hh%bool_decide_eq_true]. rewrite Ht in Hh. congruence.
  - by rewrite H.
Qed.

Lemma Complete_held c id token leaseUntil r d : outbox_ok d -> is_held id token leaseUntil r d ->
  valid_completion c = true -> c.(Completion.DeliveryID) = id -> c.(Completion.ClaimToken) = token ->
  c.(Completion.AttemptCount) = r.(MDelivery.AttemptCount) ->
  Complete c d = Ok (tt, with_deliveries (<[id := completed c r]> (deliveries d)) d).
Proof.
  intros Hok (Hr&Hs&Ht&Hl) Hv Hid Htok Ha. unfold Complete.
  apply st_bind_ok. exists tt, d. split; [by apply st_require_ok|].
  assert (forall x, held_by c x = true -> MDelivery.ID x = id) as Hone.
  { intros x. unfold held_by. rewrite !andb_true_iff. intros [[[Hx%Z.eqb_eq _] _] _]. congruence. }
  assert (held_by c r = true) as Hh.
  { unfold held_by, is_pending_delivery. rewrite Hs, Ht, Htok, Ha, Hid, !bool_decide_eq_true_2, !Z.eqb_refl by done.
    apply (outbox_wf d Hok) in Hr. simpl in Hr. by rewrite Hr, Z.eqb_refl. }
  apply st_bind_ok. exists 1, (with_deliveries (<[id := completed c r]> (deliveries d)) d). split.
  - apply db_update_ok. split.
    + symmetry. apply (affected_delivery (R := AlertDelivery) _ _ _ id r); [apply Hok|done..|].
      intros E. apply (f_equal MDelivery.ClaimToken) in E. simpl in E. congruence.
    + unfold with_deliveries. f_equal. symmetry. by apply (update_where_one (R := AlertDelivery)); [apply Hok|..].
  - by apply st_require_ok.
Qed.

Lemma attempt_completion_valid clock c result r token leaseUntil d : outbox_ok d ->
  is_held c.(DeliveryClaim.Delivery).(MDelivery.ID) token leaseUntil r d -> r = c.(DeliveryClaim.Delivery) ->
  c.(DeliveryClaim.ClaimToken) = token -> token <> "" -> 0 < Unix clock ->
  valid_completion (attempt_completion clock c result) = true.
Proof.
  intros Hok (Hr&Hs&Ht&Hl) -> Htok Hne Hclock. pose proof (outbox_fresh d Hok _ _ Hr) as Hid.
  assert (0 < c.(DeliveryClaim.Delivery).(MDelivery.AttemptCount)) as Ha.
  { destruct (outbox_rows d Hok _ _ Hr) as [_ [Hn _] _ _|_ (_&_&_&H1) _|Hst _ _ _]; [congruence|lia|rewrite Hs in Hst; set_solver]. }
  unfold valid_completion, attempt_completion.
  destruct (Attempt.success result); [|destruct (Attempt.retryable result && _)]; simpl;
    rewrite !andb_true_iff, !Z.ltb_lt, Htok, negb_bool_decide; repeat split; try done; lia.
Qed.

Lemma claim_holds id now leaseUntil token locked d c d' : outbox_ok d ->
  claim id now leaseUntil token locked d = Ok (c, d') ->
  is_held c.(DeliveryClaim.Delivery).(MDelivery.ID) token leaseUntil c.(DeliveryClaim.Delivery) d'
  /\ c.(DeliveryClaim.ClaimToken) = token.
Proof.
  intros Hok H. apply claim_row_ok in H as (_&r&Hr&Hc&_&->&->); [|apply Hok]. split; [|done].
  unfold is_held. change (deliveries (with_deliveries ?t ?d)) with t. simpl. rewrite lookup_insert_eq.
  repeat split. unfold claimable in Hc. rewrite !andb_true_iff in Hc. destruct Hc as [[Hc _] _].
  by apply bool_decide_eq_true in Hc.
Qed.

Lemma others_run token leaseUntil id r d d' : outbox_ok d -> is_held id token leaseUntil r d ->
  rtc (others_step token leaseUntil) d d' -> outbox_ok d' /\ is_held id token leaseUntil r d'.
Proof.
  intros Hok Hh H. induction H as [|d d1 d2 H1 _ IH]; [done|].
  apply IH; [by eapply outbox_step_keeps; [eapply others_outbox|]|by eapply others_keep_held].
Qed.

Lemma Complete_lost c d i r : outbox_ok d -> valid_completion c = true -> c.(Completion.DeliveryID) = i ->
  deliveries d !! i = Some r -> r.(MDelivery.ClaimToken) <> Some c.(Completion.ClaimToken) ->
  Complete c d = Err ErrAlertDeliveryLeaseLost.
Proof.
  intros Hok Hv Hi Hr Hne. destruct (Complete c d) as [[[] d']|e] eqn:H.
  - apply Complete_ok in H as (_&s&Hs&Hh&_); [|apply Hok]. rewrite Hi in Hs. assert (s = r) as -> by congruence.
    unfold held_by in Hh. rewrite !andb_true_iff in Hh. destruct Hh as [_ Hh%bool_decide_eq_true]. congruence.
  - unfold Complete, mbind, st_bind, st_require in H. rewrite Hv in H. unfold db_update in H. by case_match; simplify_eq.
Qed.


(** *** Order of the two messages of an event *)
(** A resolution is claimed for sending only when no firing message of
    the same event is still pending: the firing is sent or given up first. *)
Theorem resolved_follows_firing id now leaseUntil token locked d c d' i firing :
  outbox_ok d -> claim id now leaseUntil token locked d = Ok (c, d') ->
  c.(DeliveryClaim.Delivery).(MDelivery.EventType) = AlertDeliveryEventResolved ->
  not_nil c.(DeliveryClaim.Delivery).(MDelivery.AlertEventID) = true ->
  deliveries d !! i = Some firing -> firing.(MDelivery.EventType) = AlertDeliveryEventFiring ->
  firing.(MDelivery.AlertEventID) = c.(DeliveryClaim.Delivery).(MDelivery.AlertEventID) ->
  firing.(MDelivery.Status) ∈ [AlertDeliveryStatusSuccess; AlertDeliveryStatusFailed].
Proof.
  intros Hok H Hty Hn Hi Hf He. apply claim_row_ok in H as (_&r&Hr&Hc&_&->&_); [|apply Hok]. simpl in *.
  unfold claimable, waits_for_firing in Hc. rewrite !andb_true_iff, negb_true_iff, andb_false_iff in Hc.
  destruct Hc as [_ [Hc|Hc]]; [by rewrite bool_decide_eq_true_2 in Hc|].
  destruct (outbox_rows d Hok _ _ Hi) as [Hs _ _ _|Hs _ _|Hs _ _ _]; [exfalso..|done].
  all: apply not_true_iff_false in Hc; apply Hc, existsb_exists; exists firing;
    split; [apply list_elem_of_In, elem_of_rows; by exists i|];
    unfold blocks, is_pending_delivery; rewrite Hn, He, Hf, Hs, (outbox_channel d Hok _ _ Hi), (outbox_channel d Hok _ _ Hr);
    by rewrite !bool_decide_eq_true_2.
Qed.

(** *** Nothing is stuck *)
Definition due_at (r : AlertDelivery) : Z := default (deref r.(MDelivery.NextRetryAt)) r.(MDelivery.LeaseExpiresAt).

Lemma claim_succeeds i r now leaseUntil token d : outbox_ok d -> deliveries d !! i = Some r ->
  claimable now d r = true -> 0 < now < leaseUntil ->
  exists c d', ClaimByID i now leaseUntil token (fun _ => false) d = Ok (c, d')
    /\ c.(DeliveryClaim.Delivery).(MDelivery.ID) = i.
Proof.
  intros Hok Hr Hc Hnow. pose proof (outbox_fresh d Hok _ _ Hr) as Hi.
  assert (MDelivery.ID r = i) as Hid by exact (outbox_wf d Hok _ _ Hr).
  destruct (ClaimByID i now leaseUntil token (fun _ => false) d) as [[c d']|e] eqn:H.
  - exists c, d'. split; [done|]. unfold ClaimByID in H. apply st_bind_ok in H as (?&?&Hg&H).
    apply st_require_ok in Hg as [_ [= -> ->]]. apply claim_row_ok in H as (_&s&_&_&Hs&->&_); [|apply Hok].
    simpl. by apply Hs.
  - exfalso. unfold ClaimByID, claim, mbind, st_bind, st_require in H.
    rewrite (proj2 (Z.ltb_lt 0 i)), (proj2 (Z.ltb_lt 0 now)), (proj2 (Z.ltb_lt now leaseUntil)) in H by lia.
    simpl andb in H. cbv iota beta in H. unfold db_select, st_gets in H.
    set (p := fun r0 => _) in H. assert (r ∈ select p by_due d) as Hin.
    { apply elem_of_select. split; [|by exists i]. unfold p. by rewrite Hc, Hid, Z.eqb_refl. }
    destruct (select p by_due d) as [|s l] eqn:Hsel; [by apply elem_of_nil in Hin|].
    assert (s ∈ select p by_due d) as Hs by (rewrite Hsel; by left). apply elem_of_select in Hs as (Hp&k&Hk).
    assert (s = r) as ->.
    { unfold p in Hp. rewrite !andb_true_iff in Hp. destruct Hp as [_ Hp%Z.eqb_eq].
      assert (MDelivery.ID s = k) as E by exact (outbox_wf d Hok _ _ Hk).
      change (deliveries d !! k = Some s) in Hk. congruence. }
    unfold db_update in H.
    assert (affected (unchanged_since r) (leased token leaseUntil now) (table (R := AlertDelivery) d) = 1) as Ha.
    { apply (affected_delivery (R := AlertDelivery) _ _ _ i r); [apply Hok|exact Hr| | |].
      - apply unchanged_since_self; [|].
        + unfold claimable in Hc. rewrite !andb_true_iff in Hc. apply Hc.
        + unfold not_nil. intros Hn. apply negb_false_iff in Hn.
          destruct (outbox_rows d Hok _ _ Hr) as [_ [_ Hl] _ _|_ (Ht&_) _|_ [_ Hl] _ _]; [done| |done].
          unfold not_nil in Ht. by rewrite Hn in Ht.
      - intros x. unfold unchanged_since. rewrite !andb_true_iff. intros [[[Hx%Z.eqb_eq _] _] _]. simpl. congruence.
      - intros E. pose proof (f_equal MDelivery.NextRetryAt E) as E1. pose proof (f_equal MDelivery.LeaseExpiresAt E) as E2.
        simpl in E1, E2. unfold claimable, is_fresh, is_expired in Hc.
        rewrite <- E1, <- E2 in Hc. simpl in Hc. rewrite (proj2 (Z.leb_gt _ _)) in Hc by lia.
        by rewrite !andb_false_r in Hc. }
    rewrite Ha in H. discriminate.
Qed.

(** C21: nothing in the outbox is stuck: a pending delivery whose instant
    has come can be claimed, or its attempts are used up and the next turn gives
    it up, or it is a resolution that waits for the pending firing message of
    its event, which itself waits for nothing. *)
Theorem delivery_never_stuck d i r now leaseUntil token : outbox_ok d ->
  deliveries d !! i = Some r -> r.(MDelivery.Status) = AlertDeliveryStatusPending -> due_at r <= now ->
  0 < now < leaseUntil ->
  (exists c d', ClaimByID i now leaseUntil token (fun _ => false) d = Ok (c, d')
     /\ c.(DeliveryClaim.Delivery).(MDelivery.ID) = i)
  \/ (exists n d' r', FailExhaustedLeases now d = Ok (n, d') /\ deliveries d' !! i = Some r'
        /\ r'.(MDelivery.Status) = AlertDeliveryStatusFailed)
  \/ (r.(MDelivery.EventType) = AlertDeliveryEventResolved /\ exists j firing,
        deliveries d !! j = Some firing /\ blocks r firing = true /\ waits_for_firing d firing = false).
Proof.
  intros Hok Hr Hs Hdue Hnow. destruct (waits_for_firing d r) eqn:Hw.
  - right; right. unfold waits_for_firing in Hw. apply andb_true_iff in Hw as [Hty%bool_decide_eq_true Hex].
    split; [done|]. apply existsb_exists in Hex as (f&Hin&Hb). apply list_elem_of_In, elem_of_rows in Hin as (j&Hj).
    exists j, f. split; [done|]. split; [done|]. unfold blocks in Hb. rewrite !andb_true_iff in Hb.
    destruct Hb as [[[_ Hf%bool_decide_eq_true] _] _]. unfold waits_for_firing. by rewrite Hf.
  - assert (is_exhausted now r = true \/ claimable now d r = true) as [Hx|Hc].
    { unfold is_exhausted, claimable, is_fresh, is_expired. rewrite Hw. unfold is_pending_delivery. rewrite Hs.
      unfold due_at in Hdue. change (AlertDeliveryStatusPending == AlertDeliveryStatusPending) with true.
      destruct (outbox_rows d Hok _ _ Hr) as [_ [Ht Hl] Hn Ha|_ (Ht&Hl&_&H1) H5|Hst _ _ _].
      - rewrite Hl in Hdue. simpl in Hdue. rewrite Ht. simpl. destruct (MDelivery.NextRetryAt r) as [t|]; [|done].
        simpl in *. rewrite (proj2 (Z.leb_le t now)) by done. rewrite !andb_true_r, orb_false_r. unfold AlertDeliveryMaxAttempts.
        rewrite Z.leb_le, Z.ltb_lt. lia.
      - right. rewrite Ht. destruct (MDelivery.LeaseExpiresAt r) as [t|]; [|done]. simpl in *.
        rewrite (proj2 (Z.leb_le t now)), (proj2 (Z.leb_le 1 _)), (proj2 (Z.leb_le (MDelivery.AttemptCount r) _)) by done.
        by rewrite orb_true_r.
      - rewrite Hs in Hst. set_solver. }
    + right; left. destruct (FailExhaustedLeases now d) as [[n d']|e] eqn:H.
      * apply FailExhaustedLeases_ok in H as (_&f&Hf&->). exists n. eexists. exists (f r). split; [done|].
        change (deliveries (with_deliveries ?t ?d)) with t. rewrite (lookup_update_where (R := AlertDelivery)), Hr.
        simpl. unfold upd. rewrite Hx. split; [done|]. by rewrite Hf.
      * unfold FailExhaustedLeases, mbind, st_bind, st_require in H. by rewrite (proj2 (Z.ltb_lt 0 now)) in H by lia.
    + left. by apply claim_succeeds with r.
Qed.
