(* ===== verification/AlertEvaluationBehaviour.v ===== *)
(** * Evaluations behave

    What an accepted sample does to the events ([effect]), the invariant of
    events, cursors and deliveries under every transaction of the alerts, and
    the refinement of a small machine: per active key nothing, or one event
    that is pending with a count or firing. *)

From Stdlib Require Import Ascii String.
From S2P Require Import Prelude GoText GoNumber Json Alerting Store AlertMessages AlertDelivery AlertRules AlertEvaluation AlertDeliveryBehaviour.

Definition events (d : Db) : gmap Z AlertEvent := Alerting.alert_event (Tables.alerting d).
Definition with_events (t : gmap Z AlertEvent) (d : Db) : Db := set_table (R := AlertEvent) t d.

(** The row [SaveEvent] writes. *)
Definition saved (e : AlertEvent) (d : Db) : Db :=
  with_events (<[e.(MEvent.ID) := e <| MEvent.UpdatedAt := Tables.gorm_now d |>]> (events d)) d.

Lemma SaveEvent_ok e x d d' : table_wf (events d) -> events d !! e.(MEvent.ID) = Some x ->
  SaveEvent e d = Ok (tt, d') -> d' = saved e d.
Proof.
  intros Hwf Hx H. unfold SaveEvent in H. apply st_bind_ok in H as (?&?&Hg&H). apply st_gets_ok in Hg. injection Hg as -> ->.
  apply st_bind_ok in H as (n&?&Hu&H). apply db_update_ok in Hu as [_ ->]. apply st_ret_ok in H. injection H as ->.
  unfold saved. rewrite <- (update_where_one (R := AlertEvent) (event_has_id (MEvent.ID e))
    (fun _ => e <| MEvent.UpdatedAt := Tables.gorm_now d |>) _ _ x); [done|done|done| |].
  - unfold event_has_id. apply Z.eqb_eq. exact (Hwf _ _ Hx).
  - intros y Hy. by apply Z.eqb_eq in Hy.
Qed.

(** No event has the active key. *)
Definition free_key (key : string) (d : Db) : Prop :=
  forall i e, events d !! i = Some e -> e.(MEvent.ActiveKey) <> Some key.

Lemma CreateEvent_ok key e r d d' : e.(MEvent.ActiveKey) = Some key -> CreateEvent e d = Ok (r, d') ->
  free_key key d /\ r = e <| MEvent.ID := Tables.auto_other d |>
  /\ d' = with_events (<[Tables.auto_other d := r]> (events d)) (d <| Tables.auto_other := Tables.auto_other d + 1 |>).
Proof.
  intros Hk H. unfold CreateEvent in H. rewrite Hk in H. apply st_bind_ok in H as (n&?&Hc&H).
  unfold db_count in Hc. apply st_gets_ok in Hc. injection Hc as -> ->.
  apply st_bind_ok in H as (?&?&Hg&H). apply st_require_ok in Hg as [Hg [= -> ->]]. injection H as <- <-.
  split; [|done]. apply Z.eqb_eq in Hg. rewrite count_zero in Hg. intros i x Hx E.
  specialize (Hg x ltac:(apply elem_of_rows; by exists i)). unfold is_active_key in Hg. by rewrite bool_decide_eq_true_2 in Hg.
Qed.

(** Whether a transition of the event is announced: its level is, and
    notifications are on. *)
Definition announces (d : Db) (e : AlertEvent) : bool :=
  bool_decide (e.(MEvent.Level) ∈ [AlertLevelWarning; AlertLevelCritical])
  && match setting enabled_key d with Some row => row.(MSetting.Value) == "true" | None => false end.
Definition announced (e : AlertEvent) (eventType : string) (now : Z) (d d' : Db) : Prop :=
  if announces d e
  then exists payload r known, Enqueue (Some e.(MEvent.ID)) eventType payload now d = Ok ((r, known), d')
  else d' = d.

Lemma enqueueAlertTransition_ok e eventType now d d' :
  enqueueAlertTransition e eventType now d = Ok (tt, d') -> announced e eventType now d d'.
Proof.
  unfold enqueueAlertTransition, announced, announces. destruct (bool_decide _); simpl negb; simpl andb; cbv iota;
    [|intros H; apply st_ret_ok in H; by injection H].
  intros H. apply st_bind_ok in H as (b&d1&Hl&H). unfold LockDingTalkEnabled in Hl.
  destruct (setting enabled_key d) as [row|]; [|done]. destruct (is_switch row); [|done]. injection Hl as <- <-.
  destruct (_ == "true"); [|apply st_ret_ok in H; by injection H].
  simpl negb in H. cbv iota in H. apply st_bind_ok in H as (view&?&Hg&H). apply st_gets_ok in Hg. injection Hg as -> ->.
  destruct (_ !! MEvent.ID e) as [row'|]; [|by apply st_fail_ok in H].
  apply st_bind_ok in H as (payload&?&Hg&H). apply st_gets_ok in Hg. injection Hg as -> ->.
  apply st_bind_ok in H as ([r known]&?&He&H). apply st_ret_ok in H. injection H as ->. eauto.
Qed.

Definition announced_if (b : bool) (e : AlertEvent) (eventType : string) (now : Z) (d d' : Db) : Prop :=
  if b then announced e eventType now d d' else d' = d.

Lemma announce_if_ok (b : bool) e eventType now d d' :
  (if b then enqueueAlertTransition e eventType now else mret tt) d = Ok (tt, d') -> announced_if b e eventType now d d'.
Proof. destruct b; [apply enqueueAlertTransition_ok|]. intros H. apply st_ret_ok in H. by injection H. Qed.

(** An event that is resolved is what it was, closed. *)
Definition resolved_from (now : Z) (reason : string) (e e' : AlertEvent) : Prop :=
  e'.(MEvent.ID) = e.(MEvent.ID) /\ e'.(MEvent.FirstFiredAt) = e.(MEvent.FirstFiredAt)
  /\ e'.(MEvent.Status) = AlertStatusResolved /\ e'.(MEvent.ActiveKey) = None
  /\ e'.(MEvent.ResolvedAt) = Some now /\ e'.(MEvent.ResolutionReason) = Some reason
  /\ e'.(MEvent.ConsecutiveCount) = e.(MEvent.ConsecutiveCount).

(** The event [e] closed, with the announcement of a recovery. *)
Definition closed (evaluation : AlertEvaluation) (e : AlertEvent) (d d' : Db) : Prop :=
  exists e' reason, resolved_from evaluation.(Evaluation.ObservedAt) reason e e'
    /\ announced_if (is_firing e && bool_decide (reason = alertResolutionRecovered)) e'
         AlertDeliveryEventResolved evaluation.(Evaluation.ObservedAt) (saved e' d) d'.

Lemma save_resolved_ok evaluation reason e e' d d' : table_wf (events d) -> events d !! e.(MEvent.ID) = Some e ->
  resolved_from evaluation.(Evaluation.ObservedAt) reason e e' ->
  save_resolved (is_firing e) e' evaluation.(Evaluation.ObservedAt) d = Ok (tt, d') -> closed evaluation e d d'.
Proof.
  intros Hwf He Hres H. unfold save_resolved in H. apply st_bind_ok in H as ([]&d1&Hs&H).
  apply (SaveEvent_ok _ e) in Hs; [|done|by destruct Hres as [-> _]]. subst d1. exists e', reason. split; [done|].
  apply announce_if_ok in H. destruct Hres as (_&_&_&_&_&Hr&_). rewrite Hr in H.
  replace (bool_decide (reason = alertResolutionRecovered)) with (bool_decide (Some reason = Some alertResolutionRecovered)); [done|].
  apply bool_decide_ext. split; [by intros [= ->]|by intros ->].
Qed.

Lemma updateResolvedAlertEvidence_ok evaluation e value e' : updateResolvedAlertEvidence evaluation e value = Ok e' ->
  exists params message, e' = e <| MEvent.CurrentValue := Some value |> <| MEvent.MessageParams := Some params |>
                                <| MEvent.Message := message |>.
Proof.
  unfold updateResolvedAlertEvidence. destruct (_ == _); [done|]. cbv zeta.
  destruct (if not_nil _ then _ else _ : result json_object) as [params|]; [|done]. simpl.
  unfold NewMessageRef. destruct (ValidateMessageParams _ _); [|done]. simpl. intros [= <-]. eauto.
Qed.

Lemma resolve_active_ok evaluation canonical e r d d' : table_wf (events d) -> events d !! e.(MEvent.ID) = Some e ->
  resolve_active evaluation canonical e d = Ok (r, d') -> closed evaluation e d d'.
Proof.
  intros Hwf He H. unfold resolve_active in H. apply st_bind_ok in H as (evidence&d1&Hu&H).
  apply st_lift_ok in Hu as (x&Hu&[= -> ->]). apply updateResolvedAlertEvidence_ok in Hu as (params&message&->).
  apply st_bind_ok in H as ([]&d2&Hs&H). apply st_ret_ok in H. injection H as -> ->.
  by eapply save_resolved_ok; [| | |exact Hs].
Qed.

Lemma retire_active_ok evaluation e r d d' : table_wf (events d) -> events d !! e.(MEvent.ID) = Some e ->
  retire_active evaluation e d = Ok (r, d') -> closed evaluation e d d'.
Proof.
  intros Hwf He H. unfold retire_active in H. apply st_bind_ok in H as (message&d1&Hu&H).
  apply st_lift_ok in Hu as (x&_&[= -> ->]). apply st_bind_ok in H as ([]&d2&Hs&H). apply st_ret_ok in H. injection H as -> ->.
  by eapply save_resolved_ok; [| | |exact Hs].
Qed.

(** ** The machine *)
Module Machine.
(** What an accepted sample says: the scope is gone, or the rule that matches
    (its level and how many samples it takes), if any. *)
Inductive input := Retire | Observe (matched : option (string * Z)).
Record state := mk { level : string; status : string; count : Z }.

Definition fresh (level : string) (forTimes : Z) : state :=
  mk level (if forTimes <=? 1 then AlertStatusFiring else AlertStatusPending) 1.
Definition again (forTimes : Z) (s : state) : state :=
  if status s == AlertStatusPending then
    mk (level s) (if forTimes <=? count s + 1 then AlertStatusFiring else AlertStatusPending) (count s + 1)
  else s.
Definition step (i : input) (s : option state) : option state :=
  match i with
  | Retire => None
  | Observe None => None
  | Observe (Some (l, forTimes)) =>
      match s with
      | Some s => if level s == l then Some (again forTimes s) else Some (fresh l forTimes)
      | None => Some (fresh l forTimes)
      end
  end.
End Machine.

Definition machine_of (e : AlertEvent) : Machine.state :=
  Machine.mk e.(MEvent.Level) e.(MEvent.Status) e.(MEvent.ConsecutiveCount).

(** The text of the sample's value that is stored. *)
Definition sample_value (evaluation : AlertEvaluation) : option string :=
  '(value, _) ← parseAlertDecimal (default "" evaluation.(Evaluation.CurrentValue)) true; Some (FloatString 10 value).

(** The event of a matching sample as it was written when there was one, or new. *)
Definition kept (evaluation : AlertEvaluation) (forTimes : Z) (e e' : AlertEvent) : Prop :=
  e'.(MEvent.ID) = e.(MEvent.ID) /\ e'.(MEvent.ActiveKey) = e.(MEvent.ActiveKey)
  /\ machine_of e' = Machine.again forTimes (machine_of e)
  /\ e'.(MEvent.FirstFiredAt) = (if (e.(MEvent.Status) == AlertStatusPending) && (forTimes <=? e.(MEvent.ConsecutiveCount) + 1)
                                 then Some evaluation.(Evaluation.ObservedAt) else e.(MEvent.FirstFiredAt))
  /\ e'.(MEvent.ResolvedAt) = e.(MEvent.ResolvedAt) /\ e'.(MEvent.ResolutionReason) = e.(MEvent.ResolutionReason)
  /\ e'.(MEvent.CurrentValue) = sample_value evaluation.

Definition opened (evaluation : AlertEvaluation) (key level : string) (forTimes : Z) (e : AlertEvent) : Prop :=
  e.(MEvent.ActiveKey) = Some key /\ machine_of e = Machine.fresh level forTimes
  /\ e.(MEvent.FirstFiredAt) = (if forTimes <=? 1 then Some evaluation.(Evaluation.ObservedAt) else None)
  /\ e.(MEvent.ResolvedAt) = None /\ e.(MEvent.ResolutionReason) = None
  /\ e.(MEvent.CurrentValue) = sample_value evaluation.

Definition created (evaluation : AlertEvaluation) (key level : string) (forTimes : Z) (d d' : Db) : Prop :=
  exists e, opened evaluation key level forTimes e /\ e.(MEvent.ID) = Tables.auto_other d /\ free_key key d
    /\ announced_if (forTimes <=? 1) e AlertDeliveryEventFiring evaluation.(Evaluation.ObservedAt)
         (with_events (<[Tables.auto_other d := e]> (events d)) (d <| Tables.auto_other := Tables.auto_other d + 1 |>)) d'.

Inductive effect (evaluation : AlertEvaluation) (key : string) (d d' : Db) : option AlertEvent -> Machine.input -> Prop :=
  | eff_nothing i : d' = d -> Machine.step i None = None -> effect evaluation key d d' None i
  | eff_closed e i : closed evaluation e d d' -> Machine.step i (Some (machine_of e)) = None ->
      effect evaluation key d d' (Some e) i
  | eff_kept e e' l n : kept evaluation n e e' -> e.(MEvent.Level) = l ->
      announced_if ((e.(MEvent.Status) == AlertStatusPending) && (n <=? e.(MEvent.ConsecutiveCount) + 1)) e'
        AlertDeliveryEventFiring evaluation.(Evaluation.ObservedAt) (saved e' d) d' ->
      effect evaluation key d d' (Some e) (Machine.Observe (Some (l, n)))
  | eff_opened l n : created evaluation key l n d d' -> effect evaluation key d d' None (Machine.Observe (Some (l, n)))
  | eff_switched e l n d1 : closed evaluation e d d1 -> e.(MEvent.Level) <> l -> created evaluation key l n d1 d' ->
      effect evaluation key d d' (Some e) (Machine.Observe (Some (l, n))).

(** What a sample says to the machine; an unknown one says nothing. *)
Definition sample_input (rules : list AlertRule) (evaluation : AlertEvaluation) : option Machine.input :=
  if evaluation.(Evaluation.State) == AlertSampleUnknown then None
  else if evaluation.(Evaluation.State) == AlertSampleScopeInactive then Some Machine.Retire
  else '(value, _) ← parseAlertDecimal (default "" evaluation.(Evaluation.CurrentValue)) true;
       Some (Machine.Observe ((fun r => (r.(MRule.Level), r.(MRule.ForTimes)))
                              <$> matchingAlertRule (effectiveAlertRules rules) value)).

Lemma observed_again_kept evaluation canonical threshold message n e e' transition :
  observed_again evaluation.(Evaluation.ObservedAt) canonical threshold message n e = (e', transition) ->
  sample_value evaluation = Some canonical -> kept evaluation n e e'
  /\ (transition == "firing") = (e.(MEvent.Status) == AlertStatusPending) && (n <=? e.(MEvent.ConsecutiveCount) + 1).
Proof.
  intros Ho Hv. revert Ho. unfold observed_again, kept, Machine.again, machine_of. rewrite Hv. cbn [Machine.status Machine.count Machine.level].
  destruct (decide (e.(MEvent.Status) = AlertStatusPending)) as [Hs|Hs].
  - rewrite bool_decide_eq_true_2 by done. simpl andb. destruct (_ <=? _); intros [= <- <-]; (split; [|done]); repeat split.
    simpl. by rewrite Hs.
  - rewrite bool_decide_eq_false_2 by done. simpl andb.
    destruct (_ == AlertStatusFiring); intros [= <- <-]; (split; [|done]); repeat split.
Qed.

Lemma keep_active_ok evaluation canonical threshold message candidate e r d d' :
  table_wf (events d) -> events d !! e.(MEvent.ID) = Some e ->
  keep_active evaluation canonical threshold message candidate e d = Ok (r, d') ->
  e.(MEvent.Level) = candidate.(MRule.Level) -> sample_value evaluation = Some canonical ->
  forall key, effect evaluation key d d' (Some e) (Machine.Observe (Some (candidate.(MRule.Level), candidate.(MRule.ForTimes)))).
Proof.
  intros Hwf He H Hl Hv key. unfold keep_active in H.
  destruct (observed_again _ _ _ _ _ _) as [e' transition] eqn:Ho. apply observed_again_kept in Ho as [Hk Ht]; [|done].
  apply st_bind_ok in H as ([]&d1&Hs&H). apply (SaveEvent_ok _ e) in Hs; [|done|by destruct Hk as [-> _]]. subst d1.
  apply st_bind_ok in H as ([]&d2&Ha&H). apply st_ret_ok in H. injection H as -> ->.
  apply announce_if_ok in Ha. rewrite Ht in Ha. by eapply eff_kept.
Qed.

Lemma open_event_ok evaluation targetKey key canonical threshold message candidate r d d' :
  open_event evaluation targetKey key canonical threshold message candidate d = Ok (r, d') ->
  sample_value evaluation = Some canonical ->
  created evaluation key candidate.(MRule.Level) candidate.(MRule.ForTimes) d d'.
Proof.
  intros H Hv. unfold open_event in H. apply st_bind_ok in H as (e&d1&Hc&H).
  apply (CreateEvent_ok key) in Hc as (Hfree&He&->); [|done].
  apply st_bind_ok in H as ([]&d2&Ha&H). apply st_ret_ok in H. injection H as -> ->. apply announce_if_ok in Ha.
  exists e. refine (conj _ (conj _ (conj Hfree Ha))); [|by rewrite He].
  unfold opened. rewrite Hv, He. by repeat split.
Qed.

Lemma closed_wf evaluation e d d' : table_wf (events d) -> closed evaluation e d d' -> table_wf (events d').
Proof.
  intros Hwf (e'&reason&_&Ha).
  assert (events d' = events (saved e' d)) as ->.
  { unfold announced_if in Ha. destruct (_ && _); [|by subst]. unfold announced in Ha.
    destruct (announces _ _); [|by subst]. destruct Ha as (payload&r&known&Ha).
    apply Enqueue_ok in Ha as (_&_&_&[(_&->&_)|(_&_&_&->)]); done. }
  intros i x. unfold saved. change (events (with_events ?t ?d)) with t.
  intros [[<- <-]|[_ Hx]]%lookup_insert_Some; [done|by apply Hwf].
Qed.

Lemma apply_sample_ok contract target key rules active evaluation r d d' : table_wf (events d) ->
  (forall e, active = Some e -> events d !! e.(MEvent.ID) = Some e) ->
  apply_sample contract target key rules active evaluation d = Ok (r, d') ->
  match sample_input rules evaluation with
  | Some i => effect evaluation key d d' active i
  | None => d' = d /\ evaluation.(Evaluation.State) = AlertSampleUnknown
  end.
Proof.
  intros Hwf Hact H. unfold apply_sample, sample_input in *.
  destruct (_ == AlertSampleUnknown) eqn:Hu; [apply st_ret_ok in H; injection H as _ ->; split; [done|by apply bool_decide_eq_true in Hu]|].
  destruct (_ == AlertSampleScopeInactive) eqn:Hsi.
  { destruct active as [e|]; [|apply st_ret_ok in H; injection H as _ ->; by apply eff_nothing].
    apply eff_closed; [|done]. eapply retire_active_ok; eauto. }
  unfold apply_known in H. pose proof (eq_refl (sample_value evaluation)) as Hv. unfold sample_value in Hv at 2.
  destruct (parseAlertDecimal _ true) as [[value canonical]|]; [|by apply st_fail_ok in H]. simpl in Hv.
  simpl. destruct (matchingAlertRule _ value) as [candidate|]; simpl.
  2:{ destruct active as [e|]; [|apply st_ret_ok in H; injection H as _ ->; by apply eff_nothing].
      apply st_bind_ok in H as (e'&d1&Hr&H). apply st_ret_ok in H. injection H as -> ->.
      apply eff_closed; [|done]. eapply resolve_active_ok; eauto. }
  destruct (parseAlertThreshold _ true) as [[threshold ct]|]; [|by apply st_fail_ok in H].
  apply st_bind_ok in H as (message&d1&Hm&H). apply st_lift_ok in Hm as (x&_&[= -> ->]).
  destruct active as [e|]; [|apply open_event_ok in H; [by apply eff_opened|done]].
  destruct (_ == MRule.Level candidate) eqn:Hl.
  - apply bool_decide_eq_true in Hl. by eapply keep_active_ok; eauto.
  - apply bool_decide_eq_false in Hl. apply st_bind_ok in H as (e'&d1&Hr&H). apply open_event_ok in H; [|done].
    eapply eff_switched; [|exact Hl|exact H]. eapply resolve_active_ok; eauto.
Qed.

(** ** The invariant *)
Inductive event_ok (e : AlertEvent) : Prop :=
  | pending_ok : e.(MEvent.Status) = AlertStatusPending -> not_nil e.(MEvent.ActiveKey) = true ->
      e.(MEvent.FirstFiredAt) = None -> e.(MEvent.ResolvedAt) = None -> e.(MEvent.ResolutionReason) = None ->
      1 <= e.(MEvent.ConsecutiveCount) -> event_ok e
  | firing_ok : e.(MEvent.Status) = AlertStatusFiring -> not_nil e.(MEvent.ActiveKey) = true ->
      not_nil e.(MEvent.FirstFiredAt) = true -> e.(MEvent.ResolvedAt) = None -> e.(MEvent.ResolutionReason) = None ->
      1 <= e.(MEvent.ConsecutiveCount) -> event_ok e
  | resolved_ok : e.(MEvent.Status) = AlertStatusResolved -> e.(MEvent.ActiveKey) = None ->
      not_nil e.(MEvent.ResolvedAt) = true -> not_nil e.(MEvent.ResolutionReason) = true ->
      1 <= e.(MEvent.ConsecutiveCount) -> event_ok e.

(** A message is sent for an event only after it fired, and its end only when
    the event recovered. *)
Definition explains (e : AlertEvent) (r : AlertDelivery) : Prop :=
  not_nil e.(MEvent.FirstFiredAt) = true
  /\ (r.(MDelivery.EventType) = AlertDeliveryEventFiring
      \/ (r.(MDelivery.EventType) = AlertDeliveryEventResolved /\ e.(MEvent.Status) = AlertStatusResolved
          /\ e.(MEvent.ResolutionReason) = Some alertResolutionRecovered)).

Record alerts_ok (d : Db) : Prop := {
  alerts_outbox : outbox_ok d;
  alerts_wf : table_wf (events d);
  alerts_fresh : forall i e, events d !! i = Some e -> 0 < i < Tables.auto_other d;
  alerts_rows : forall i e, events d !! i = Some e -> event_ok e;
  alerts_unique : forall i j e f key, events d !! i = Some e -> events d !! j = Some f ->
    e.(MEvent.ActiveKey) = Some key -> f.(MEvent.ActiveKey) = Some key -> i = j;
  alerts_explained : forall i r id, deliveries d !! i = Some r -> r.(MDelivery.AlertEventID) = Some id ->
    exists e, events d !! id = Some e /\ explains e r;
  alerts_cursors : forall key c, cursors d !! key = Some c -> c.(MSample.ActiveKey) = key }.

(** What the tables outside [d]'s own changes give the invariant. *)
Lemma alerts_same d d' : alerts_ok d -> outbox_ok d' -> events d' = events d -> cursors d' = cursors d ->
  Tables.auto_other d <= Tables.auto_other d' ->
  (forall i r id, deliveries d' !! i = Some r -> r.(MDelivery.AlertEventID) = Some id ->
     exists e, events d !! id = Some e /\ explains e r) -> alerts_ok d'.
Proof.
  intros [Hout Hwf Hfresh Hrows Huniq Hexp Hcur] Hout' He Hc Ha Hd. split; rewrite ?He, ?Hc; try done.
  intros i e Hi. apply Hfresh in Hi. lia.
Qed.

Lemma outbox_elsewhere d d' : outbox_ok d -> deliveries d' = deliveries d ->
  Tables.auto_other d <= Tables.auto_other d' -> outbox_ok d'.
Proof. intros Hok H1 H2. exact (outbox_step_keeps _ _ (step_elsewhere _ _ H1 H2) Hok). Qed.

Lemma saved_ok e e' d : alerts_ok d -> events d !! e'.(MEvent.ID) = Some e ->
  (e'.(MEvent.ActiveKey) = e.(MEvent.ActiveKey) \/ e'.(MEvent.ActiveKey) = None) -> event_ok e' ->
  (forall r, explains e r -> explains e' r) -> alerts_ok (saved e' d).
Proof.
  intros [Hout Hwf Hfresh Hrows Huniq Hexp Hcur] He Hkey Hok Hx. unfold saved.
  set (row := e' <| MEvent.UpdatedAt := Tables.gorm_now d |>).
  assert (forall i x, <[e'.(MEvent.ID) := row]> (events d) !! i = Some x -> exists y, events d !! i = Some y
      /\ (x.(MEvent.ActiveKey) = y.(MEvent.ActiveKey) \/ x.(MEvent.ActiveKey) = None)
      /\ event_ok x /\ MEvent.ID x = i /\ (forall r, explains y r -> explains x r)) as Hback.
  { intros i x [[<- <-]|[_ Hi]]%lookup_insert_Some.
    - exists e. split; [done|]. split; [done|]. split; [|by split].
      destruct Hok as [????? Hn|????? Hn|???? Hn]; [by apply pending_ok|by apply firing_ok|by apply resolved_ok].
    - exists x. split; [done|]. split; [by left|]. split; [eauto|]. split; [exact (Hwf _ _ Hi)|done]. }
  split; change (events (with_events ?t ?d)) with t.
  - by apply (outbox_elsewhere d).
  - intros i x Hi. apply Hback in Hi as (y&_&_&_&E&_). exact E.
  - intros i x Hi. apply Hback in Hi as (y&Hy&_). by apply Hfresh in Hy.
  - intros i x Hi. by apply Hback in Hi as (y&_&_&?&_).
  - intros i j x y key Hi Hj Hxk Hyk. apply Hback in Hi as (x0&Hx0&[Ex|Ex]&_); [|congruence].
    apply Hback in Hj as (y0&Hy0&[Ey|Ey]&_); [|congruence]. apply (Huniq i j x0 y0 key); congruence.
  - intros i r id Hi Hid. apply (Hexp i r id) in Hid as (y&Hy&Hr); [|done].
    destruct (decide (id = e'.(MEvent.ID))) as [->|Hne].
    + exists row. rewrite lookup_insert_eq. split; [done|]. rewrite He in Hy. injection Hy as <-. exact (Hx r Hr).
    + exists y. by rewrite lookup_insert_ne.
  - done.
Qed.

Lemma created_event_ok e key d : alerts_ok d -> free_key key d -> e.(MEvent.ActiveKey) = Some key ->
  e.(MEvent.ID) = Tables.auto_other d -> event_ok e ->
  alerts_ok (with_events (<[Tables.auto_other d := e]> (events d)) (d <| Tables.auto_other := Tables.auto_other d + 1 |>)).
Proof.
  intros [Hout Hwf Hfresh Hrows Huniq Hexp Hcur] Hfree Hkey Hid Hok.
  pose proof (outbox_positive d Hout) as Hpos.
  split; change (events (with_events ?t ?d)) with t.
  - apply (outbox_elsewhere d); [done|done|simpl; lia].
  - intros i x [[<- <-]|[_ Hi]]%lookup_insert_Some; [done|exact (Hwf _ _ Hi)].
  - intros i x [[<- <-]|[_ Hi]]%lookup_insert_Some; simpl; [lia|]. apply Hfresh in Hi. lia.
  - intros i x [[<- <-]|[_ Hi]]%lookup_insert_Some; [done|eauto].
  - intros i j x y k [[<- <-]|[_ Hi]]%lookup_insert_Some [[<- <-]|[_ Hj]]%lookup_insert_Some Hx Hy; [done| | |eauto].
    + exfalso. apply (Hfree j y Hj). congruence.
    + exfalso. apply (Hfree i x Hi). congruence.
  - intros i r id Hi Hr. destruct (Hexp i r id Hi Hr) as (y&Hy&Hex). exists y. split; [|done].
    rewrite lookup_insert_ne; [done|]. apply Hfresh in Hy. lia.
  - done.
Qed.

Lemma announced_ok e row eventType now d d' : alerts_ok d -> events d !! e.(MEvent.ID) = Some row ->
  (forall r, r.(MDelivery.EventType) = eventType -> explains row r) -> announced e eventType now d d' ->
  alerts_ok d' /\ events d' = events d /\ cursors d' = cursors d.
Proof.
  unfold announced. intros Hok Hrow Hex H. destruct (announces _ _); [|by subst]. destruct H as (payload&r&known&H).
  pose proof (outbox_step_keeps _ _ (step_enqueue _ _ _ _ _ _ _ H) (alerts_outbox d Hok)) as Hout.
  apply Enqueue_ok in H as (_&_&_&[(_&->&_)|(_&_&->&->)]); [done|]. split; [|done].
  apply (alerts_same d); [done|done|done|done|simpl; lia|].
  intros i s id. change (deliveries (with_deliveries ?t ?d)) with t.
  intros [[_ <-]|[_ Hs]]%lookup_insert_Some Hid; [|by apply (alerts_explained d Hok i)].
  injection Hid as <-. exists row. split; [done|]. by apply Hex.
Qed.

(** ** The effect on the machines *)
(** The machine of an active key, as a relation on the events. *)
Definition state_is (d : Db) (key : string) (s : option Machine.state) : Prop :=
  match s with
  | None => free_key key d
  | Some m => exists i e, events d !! i = Some e /\ e.(MEvent.ActiveKey) = Some key /\ machine_of e = m
  end.

(** Writing a row of one active key leaves the other keys alone. *)
Lemma state_other d d' i x key key' s : events d' = <[i := x]> (events d) ->
  (forall e, events d !! i = Some e -> e.(MEvent.ActiveKey) = Some key) ->
  (x.(MEvent.ActiveKey) = Some key \/ x.(MEvent.ActiveKey) = None) -> key' <> key ->
  state_is d key' s -> state_is d' key' s.
Proof.
  intros He Hold Hx Hne. destruct s as [m|]; simpl.
  - intros (j&e&Hj&Hk&Hm). exists j, e. rewrite He. split; [|done]. rewrite lookup_insert_ne; [done|].
    intros ->. specialize (Hold e Hj). congruence.
  - intros Hfree j e. rewrite He. intros [[_ <-]|[_ Hj]]%lookup_insert_Some; [|by apply (Hfree j)].
    destruct Hx; congruence.
Qed.

Definition keeps_other_keys (key : string) (d d' : Db) : Prop :=
  forall key' s, key' <> key -> state_is d key' s -> state_is d' key' s.

Lemma closed_ok evaluation e key d d' : alerts_ok d -> events d !! e.(MEvent.ID) = Some e ->
  e.(MEvent.ActiveKey) = Some key -> closed evaluation e d d' ->
  alerts_ok d' /\ cursors d' = cursors d /\ free_key key d' /\ keeps_other_keys key d d'.
Proof.
  intros Hok He Hkey (e'&reason&(Hid&Hff&Hst&Hak&Hra&Hrr&Hcc)&Ha).
  pose proof (alerts_rows d Hok _ _ He) as Hrow. set (row := e' <| MEvent.UpdatedAt := Tables.gorm_now d |>).
  assert (1 <= e.(MEvent.ConsecutiveCount) /\ e.(MEvent.Status) <> AlertStatusResolved
          /\ (is_firing e = true -> not_nil e.(MEvent.FirstFiredAt) = true)) as (Hn&Hnr&Hfire).
  { unfold is_firing. destruct Hrow as [Hs ?????|Hs ?????|_ Hs ???]; [..|congruence]; rewrite Hs; done. }
  assert (alerts_ok (saved e' d)) as Hsaved.
  { apply (saved_ok e); [done|by rewrite Hid|by right| |].
    - apply resolved_ok; rewrite ?Hra, ?Hrr; [done..|lia].
    - intros r [Hf [Hr|(_&Hs&_)]]; [|done]. split; [by rewrite Hff|by left]. }
  assert (alerts_ok d' /\ events d' = <[e.(MEvent.ID) := row]> (events d) /\ cursors d' = cursors d) as (Hok'&Hev&Hcur).
  { unfold announced_if in Ha. rewrite <- Hid. destruct (is_firing e && _) eqn:Hb; [|by subst d'].
    apply andb_true_iff in Hb as [Hf Hr%bool_decide_eq_true]. subst reason.
    apply (announced_ok _ row) in Ha; [done|done| |].
    - unfold saved. change (events (with_events ?t ?d)) with t. by rewrite lookup_insert_eq.
    - intros r Hr. split; [simpl; rewrite Hff; by apply Hfire|by right]. }
  split; [done|]. split; [done|]. split.
  - intros i x. rewrite Hev. intros [[_ <-]|[Hne Hx]]%lookup_insert_Some; [simpl; congruence|].
    intros E. apply Hne. exact (alerts_unique d Hok _ _ _ _ key He Hx Hkey E).
  - intros key' s Hne. apply (state_other d d' (MEvent.ID e) row key); [done| |by right|done].
    intros x Hx. congruence.
Qed.

Lemma created_effect evaluation key l n d d' : alerts_ok d -> created evaluation key l n d d' ->
  alerts_ok d' /\ cursors d' = cursors d /\ state_is d' key (Some (Machine.fresh l n)) /\ keeps_other_keys key d d'.
Proof.
  intros Hok (e&(Hak&Hm&Hff&Hra&Hrr&_)&Hid&Hfree&Ha).
  set (d1 := with_events (<[Tables.auto_other d := e]> (events d)) (d <| Tables.auto_other := Tables.auto_other d + 1 |>)) in *.
  assert (e.(MEvent.Status) = (if n <=? 1 then AlertStatusFiring else AlertStatusPending) /\ e.(MEvent.ConsecutiveCount) = 1) as [Hs Hc].
  { by injection Hm. }
  assert (alerts_ok d1) as Hok1.
  { apply (created_event_ok e key); [done..|]. destruct (n <=? 1).
    - apply firing_ok; rewrite ?Hak, ?Hff; [done..|lia].
    - apply pending_ok; rewrite ?Hak, ?Hff; [done..|lia]. }
  assert (events d1 !! Tables.auto_other d = Some e) as Hrow by (unfold d1; change (events (with_events ?t ?d)) with t; by rewrite lookup_insert_eq).
  assert (alerts_ok d' /\ events d' = events d1 /\ cursors d' = cursors d1) as (Hok'&Hev&Hcur).
  { unfold announced_if in Ha. destruct (n <=? 1) eqn:Hn; [|by subst d']. apply (announced_ok _ e) in Ha; [done|done|by rewrite Hid|].
    intros r Hr. split; [by rewrite Hff|by left]. }
  split; [done|]. split; [done|]. split.
  - exists (Tables.auto_other d), e. by rewrite Hev.
  - intros key' s Hne. apply (state_other d d' (Tables.auto_other d) e key); [done| |by left|done].
    intros x Hx. apply (alerts_fresh d Hok) in Hx. lia.
Qed.

Lemma kept_effect evaluation key n e e' d d' : alerts_ok d -> events d !! e.(MEvent.ID) = Some e ->
  e.(MEvent.ActiveKey) = Some key -> kept evaluation n e e' ->
  announced_if ((e.(MEvent.Status) == AlertStatusPending) && (n <=? e.(MEvent.ConsecutiveCount) + 1)) e'
    AlertDeliveryEventFiring evaluation.(Evaluation.ObservedAt) (saved e' d) d' ->
  alerts_ok d' /\ cursors d' = cursors d /\ state_is d' key (Some (Machine.again n (machine_of e))) /\ keeps_other_keys key d d'.
Proof.
  intros Hok He Hkey (Hid&Hak&Hm&Hff&Hra&Hrr&_) Ha. set (row := e' <| MEvent.UpdatedAt := Tables.gorm_now d |>).
  pose proof (alerts_rows d Hok _ _ He) as Hrow.
  assert (alerts_ok (saved e' d)) as Hsaved.
  { apply (saved_ok e); [done|by rewrite Hid|by left| |].
    - unfold machine_of, Machine.again in Hm. cbn [Machine.status Machine.count Machine.level] in Hm.
      destruct Hrow as [Hs Hk Hf Hr Hre Hn|Hs Hk Hf Hr Hre Hn|_ Hk _ _ _]; [..|congruence].
      + rewrite Hs in Hm, Hff. rewrite bool_decide_eq_true_2 in Hm, Hff by done. injection Hm as _ Hst Hc. simpl andb in Hff.
        destruct (n <=? _); [apply firing_ok|apply pending_ok]; rewrite ?Hak, ?Hff, ?Hra, ?Hrr; first [done|lia].
      + rewrite Hs in Hm, Hff. rewrite bool_decide_eq_false_2 in Hm, Hff by done. injection Hm as _ Hst Hc. simpl andb in Hff.
        apply firing_ok; rewrite ?Hak, ?Hff, ?Hra, ?Hrr; first [done|lia].
    - intros r [Hf [Hr|(Hr&Hs&_)]].
      + split; [|by left]. rewrite Hff. by destruct (_ && _).
      + exfalso. destruct Hrow as [Hs' ?????|Hs' ?????|_ Hk ???]; [by rewrite Hs' in Hs|by rewrite Hs' in Hs|congruence]. }
  assert (alerts_ok d' /\ events d' = <[e.(MEvent.ID) := row]> (events d) /\ cursors d' = cursors d) as (Hok'&Hev&Hcur).
  { unfold announced_if in Ha. rewrite <- Hid. destruct (_ && _) eqn:Hb; [|by subst d'].
    apply (announced_ok _ row) in Ha; [done|done| |].
    - unfold saved. change (events (with_events ?t ?d)) with t. by rewrite lookup_insert_eq.
    - intros r Hr. split; [|by left]. change (MEvent.FirstFiredAt row) with (MEvent.FirstFiredAt e').
      by rewrite Hff. }
  split; [done|]. split; [done|]. split.
  - exists (MEvent.ID e), row. rewrite Hev, lookup_insert_eq. split; [done|]. split; [simpl; congruence|]. by rewrite <- Hm.
  - intros key' s Hne. apply (state_other d d' (MEvent.ID e) row key); [done| |left; simpl; congruence|done].
    intros x Hx. congruence.
Qed.

(** The active event of a key, as [LockActiveEvent] reads it. *)
Definition active_event (d : Db) (key : string) : option AlertEvent := head (select (is_active_key key) by_id d).
Definition machine_state (d : Db) (key : string) : option Machine.state := machine_of <$> active_event d key.

Lemma active_event_some d key e : table_wf (events d) -> active_event d key = Some e ->
  events d !! e.(MEvent.ID) = Some e /\ e.(MEvent.ActiveKey) = Some key.
Proof.
  intros Hwf H. unfold active_event in H. destruct (select _ _ d) as [|x l] eqn:Hs; [done|]. injection H as ->.
  assert (e ∈ select (is_active_key key) by_id d) as Hin by (rewrite Hs; by left).
  apply elem_of_select in Hin as (Hk%bool_decide_eq_true&i&Hi). change (events d !! i = Some e) in Hi.
  assert (MEvent.ID e = i) as -> by exact (Hwf _ _ Hi). done.
Qed.

Lemma machine_state_is d key : alerts_ok d -> state_is d key (machine_state d key).
Proof.
  intros Hok. unfold machine_state. destruct (active_event d key) as [e|] eqn:H; simpl.
  - apply active_event_some in H as [He Hk]; [|apply Hok]. eauto.
  - intros i e Hi Hk. unfold active_event in H. destruct (select _ _ d) as [|x l] eqn:Hs; [|done].
    rewrite select_nil in Hs. specialize (Hs i e Hi). unfold is_active_key in Hs. by rewrite bool_decide_eq_true_2 in Hs.
Qed.

Lemma state_is_machine d key s : alerts_ok d -> state_is d key s -> machine_state d key = s.
Proof.
  intros Hok Hs. unfold machine_state. destruct (active_event d key) as [e|] eqn:H.
  - apply active_event_some in H as [He Hk]; [|apply Hok]. destruct s as [m|]; [|by destruct (Hs _ _ He)].
    destruct Hs as (i&x&Hx&Hxk&Hm). simpl. assert (i = MEvent.ID e) as -> by exact (alerts_unique d Hok _ _ _ _ key Hx He Hxk Hk).
    congruence.
  - destruct s as [m|]; [|done]. destruct Hs as (i&x&Hx&Hxk&_). exfalso. unfold active_event in H.
    destruct (select _ _ d) as [|y l] eqn:Hsel; [|done]. rewrite select_nil in Hsel. specialize (Hsel i x Hx).
    unfold is_active_key in Hsel. by rewrite bool_decide_eq_true_2 in Hsel.
Qed.

(** An effect is a step of the machine of its key and of no other. *)
Lemma effect_step evaluation key d d' active i : alerts_ok d -> active = active_event d key ->
  effect evaluation key d d' active i ->
  alerts_ok d' /\ cursors d' = cursors d
  /\ machine_state d' key = Machine.step i (machine_state d key)
  /\ (forall key', key' <> key -> machine_state d' key' = machine_state d key').
Proof.
  intros Hok Hact Heff.
  assert (alerts_ok d' /\ cursors d' = cursors d /\ state_is d' key (Machine.step i (machine_state d key)) /\ keeps_other_keys key d d')
    as (Hok'&Hcur&Hst&Hoth).
  { unfold machine_state. rewrite <- Hact.
    destruct Heff as [i -> Hn|e i Hc Hn|e e' l n Hk Hl Ha|l n Hc|e l n d1 Hc Hl Hcr]; simpl fmap.
    - split; [done|]. split; [done|]. split; [|by intros ??]. rewrite Hn. pose proof (machine_state_is d key Hok) as Hm.
      unfold machine_state in Hm. by rewrite <- Hact in Hm.
    - symmetry in Hact. apply active_event_some in Hact as [He Hke]; [|apply Hok]. rewrite Hn. by eapply closed_ok.
    - symmetry in Hact. apply active_event_some in Hact as [He Hke]; [|apply Hok]. simpl.
      rewrite bool_decide_eq_true_2 by done. by eapply kept_effect.
    - by apply created_effect with evaluation.
    - symmetry in Hact. apply active_event_some in Hact as [He Hke]; [|apply Hok]. simpl.
      rewrite bool_decide_eq_false_2 by done. destruct (closed_ok _ _ _ _ _ Hok He Hke Hc) as (Hok1&Hcur1&_&Hoth1).
      destruct (created_effect _ _ _ _ _ _ Hok1 Hcr) as (Hok2&Hcur2&Hs2&Hoth2).
      split; [done|]. split; [congruence|]. split; [done|]. intros key' s Hne Hs. by apply Hoth2, Hoth1. }
  split; [done|]. split; [done|]. split; [by apply state_is_machine|].
  intros key' Hne. apply state_is_machine; [done|]. apply Hoth; [done|]. by apply machine_state_is.
Qed.
