(* ===== verification/AlertMachine.v ===== *)
(** * The alerts, transaction by transaction

    [Evaluate] as a whole: which samples are repetitions, the step an accepted
    sample takes, the cursor, and the theorems about sequences of evaluations.
    Then the invariant of events, cursors and deliveries under every transaction
    that writes them, the atomicity of a transition and its message, and a
    concrete run. *)

From Stdlib Require Import Ascii String.
From S2P Require Import Prelude GoText GoNumber Json Alerting Store AlertMessages AlertDelivery AlertRules AlertEvaluation AlertDeliveryBehaviour AlertEvaluationBehaviour.

(** ** Repetitions *)
(** The sample is one the cursor has passed, and it says nothing new about
    the active event. *)
Definition passed (cursor : option AlertEvaluationCursor) (evaluation : AlertEvaluation) : bool :=
  alertEvaluationIdentityUpgrade cursor evaluation
  || match alertEvaluationAlreadyApplied cursor evaluation with Ok applied => applied | Err _ => false end.
Definition repeats (cursor : option AlertEvaluationCursor) (active : option AlertEvent) (evaluation : AlertEvaluation) : bool :=
  passed cursor evaluation && negb (requires_mutation active evaluation).

(** The cursor of one key moved, nothing else. *)
Definition moved (key : string) (d d' : Db) : Prop :=
  d' = d \/ exists c, c.(MSample.ActiveKey) = key /\ d' = set_cursors (<[key := c]> (cursors d)) d.

Lemma moved_ok key d d' : alerts_ok d -> moved key d d' -> alerts_ok d' /\ events d' = events d /\ deliveries d' = deliveries d
  /\ (forall k, machine_state d' k = machine_state d k) /\ (forall k, active_event d' k = active_event d k)
  /\ (forall k, k <> key -> cursors d' !! k = cursors d !! k).
Proof.
  intros Hok [->|(c&Hk&->)]; [done|]. split; [|repeat split; try done; intros k Hne; by apply lookup_insert_ne].
  destruct Hok as [Hout Hwf Hfresh Hrows Huniq Hexp Hcur]. split; try done.
  - by apply (outbox_elsewhere d).
  - intros k x. change (cursors (set_cursors ?t ?d)) with t. intros [[<- <-]|[_ Hx]]%lookup_insert_Some; eauto.
Qed.

Lemma AdvanceEvaluationCursor_ok c d d' : AdvanceEvaluationCursor c d = Ok (tt, d') -> exists old,
  cursors d !! c.(MSample.ActiveKey) = Some old
  /\ d' = set_cursors (<[c.(MSample.ActiveKey) := MSample.mk old.(MSample.ActiveKey) c.(MSample.LastSampleAt)
            c.(MSample.LastSampleKey) old.(MSample.CreatedAt) c.(MSample.UpdatedAt)]> (cursors d)) d.
Proof.
  unfold AdvanceEvaluationCursor. destruct (_ || _); [done|]. destruct (cursors d !! _) as [old|]; [|done].
  intros [= <-]. eauto.
Qed.

(** ** Screening *)
Lemma screen_ok clock key evaluation done_ cursor' d d1 : alerts_ok d ->
  screen clock (cursors d !! key) (active_event d key) evaluation d = Ok ((done_, cursor'), d1) ->
  moved key d d1 /\ cursor' = cursors d1 !! key
  /\ (if repeats (cursors d !! key) (active_event d key) evaluation
      then done_ = Some (quietResult (active_event d key) "duplicate") else done_ = None)
  /\ (if alertEvaluationIdentityUpgrade (cursors d !! key) evaluation
      then exists c, cursor' = Some c /\ c.(MSample.LastSampleAt) = evaluation.(Evaluation.ObservedAt)
             /\ c.(MSample.LastSampleKey) = evaluation.(Evaluation.SampleKey)
      else d1 = d /\ is_ok (alertEvaluationAlreadyApplied (cursors d !! key) evaluation) = true).
Proof.
  intros Hok. unfold screen, repeats, passed. destruct (alertEvaluationIdentityUpgrade _ evaluation) eqn:Hup.
  - destruct (cursors d !! key) as [c|] eqn:Hc; [|done]. intros H.
    apply st_bind_ok in H as (?&?&Hg&H). apply st_require_ok in Hg as [_ [= -> ->]].
    apply st_bind_ok in H as ([]&d2&Ha&H). apply st_ret_ok in H. injection H as H1 H2.
    apply AdvanceEvaluationCursor_ok in Ha as (old&Hold&->). simpl in Hold, H2 |- *.
    rewrite (alerts_cursors d Hok _ _ Hc) in *. assert (old = c) as -> by congruence. subst d1.
    split; [right; eexists; split; [|done]; simpl; by apply (alerts_cursors d Hok)|].
    change (cursors (set_cursors ?t ?d)) with t. rewrite lookup_insert_eq.
    assert (MSample.LastSampleAt c = Evaluation.ObservedAt evaluation) as Hat.
    { unfold alertEvaluationIdentityUpgrade in Hup. rewrite !andb_true_iff, Z.eqb_eq in Hup. lia. }
    rewrite (alerts_cursors d Hok _ _ Hc).
    destruct (requires_mutation _ _); injection H1 as -> ->; simpl; (split; [done|]; split; [done|]; by eexists).
  - intros H. apply st_bind_ok in H as (applied&d2&Ha&H). apply st_lift_ok in Ha as (x&Ha&[= -> ->]).
    apply st_ret_ok in H. injection H as H1 ->. split; [by left|]. rewrite Ha. simpl.
    destruct x; simpl; [|by injection H1 as -> ->]. destruct (requires_mutation _ _); by injection H1 as -> ->.
Qed.

(** ** The whole transaction *)
Definition rules_at (d : Db) (evaluation : AlertEvaluation) : list AlertRule :=
  select (fun r => rule_key_is evaluation.(Evaluation.RuleKey) r
            && (is_global r || is_of_site (deref evaluation.(Evaluation.SiteID)) r)) by_id d.

(** The step the sample takes in the database. *)
Definition accepted (d : Db) (key : string) (evaluation : AlertEvaluation) : option Machine.input :=
  if repeats (cursors d !! key) (active_event d key) evaluation then None
  else sample_input (rules_at d evaluation) evaluation.

(** Where the cursor stands after the sample. *)
Definition stands_at (key : string) (evaluation : AlertEvaluation) (d : Db) : Prop :=
  exists c, cursors d !! key = Some c /\ c.(MSample.LastSampleAt) = evaluation.(Evaluation.ObservedAt)
    /\ c.(MSample.LastSampleKey) = evaluation.(Evaluation.SampleKey).

Lemma advance_ok clock key evaluation d d' : alerts_ok d ->
  advance clock key (cursors d !! key) evaluation d = Ok (tt, d') -> moved key d d' /\ stands_at key evaluation d'.
Proof.
  intros Hok H. unfold advance in H. apply st_bind_ok in H as (?&?&Hg&H). apply st_require_ok in Hg as [_ [= -> ->]].
  destruct (cursors d !! key) as [c|] eqn:Hc.
  - apply AdvanceEvaluationCursor_ok in H as (old&Hold&->). simpl in Hold |- *.
    rewrite (alerts_cursors d Hok _ _ Hc) in *. assert (old = c) as -> by congruence. split.
    + right. eexists. split; [|done]. simpl. by apply (alerts_cursors d Hok).
    + eexists. change (cursors (set_cursors ?t ?d)) with t. rewrite lookup_insert_eq. done.
  - unfold CreateEvaluationCursor in H. simpl in H. destruct (_ || _); [done|]. rewrite Hc in H. simpl in H.
    injection H as <-. split; [right; eexists; split; [|reflexivity]; done|]. eexists. change (cursors (set_cursors ?t ?d)) with t.
    rewrite lookup_insert_eq. done.
Qed.

(** The rules and the settings are only read. *)

Definition configuration (d : Db) := (alert_rules d, Alerting.platform_setting (Tables.alerting d)).

Lemma moved_configuration key d d' : moved key d d' -> configuration d' = configuration d.
Proof. by intros [->|(c&_&->)]. Qed.
Lemma announced_configuration e eventType now d d' : announced e eventType now d d' -> configuration d' = configuration d.
Proof.
  unfold announced. destruct (announces _ _); [|by intros ->]. intros (payload&r&known&H).
  apply Enqueue_ok in H as (_&_&_&[(_&->&_)|(_&_&_&->)]); done.
Qed.
Lemma announced_if_configuration b e eventType now d d' : announced_if b e eventType now d d' -> configuration d' = configuration d.
Proof. destruct b; [apply announced_configuration|by intros ->]. Qed.
Lemma effect_configuration evaluation key d d' active i : effect evaluation key d d' active i -> configuration d' = configuration d.
Proof.
  assert (forall e x y, closed evaluation e x y -> configuration y = configuration x) as Hclosed.
  { intros e x y (e'&reason&_&Ha). by apply announced_if_configuration in Ha. }
  assert (forall l n x y, created evaluation key l n x y -> configuration y = configuration x) as Hcreated.
  { intros l n x y (e&_&_&_&Ha). by apply announced_if_configuration in Ha. }
  intros [i' -> _|e i' Hc _|e e' l n _ _ Ha|l n Hc|e l n d1 Hc _ Hcr].
  - done.
  - by eapply Hclosed.
  - by apply announced_if_configuration in Ha.
  - by eapply Hcreated.
  - apply Hcreated in Hcr. apply Hclosed in Hc. congruence.
Qed.

Lemma rules_at_same d d' evaluation : alert_rules d' = alert_rules d -> rules_at d' evaluation = rules_at d evaluation.
Proof. intros H. unfold rules_at, select, table_rows. simpl. unfold alert_rules in H. by rewrite H. Qed.

(** What an evaluation that returns has done. *)
Record evaluated (key : string) (evaluation : AlertEvaluation) (d d' : Db) : Prop := {
  evaluated_ok : alerts_ok d';
  evaluated_step : machine_state d' key = match accepted d key evaluation with
    | Some i => Machine.step i (machine_state d key) | None => machine_state d key end;
  evaluated_rules : alert_rules d' = alert_rules d;
  evaluated_others : forall k, k <> key -> machine_state d' k = machine_state d k;
  evaluated_cursor : stands_at key evaluation d' \/ cursors d' !! key = cursors d !! key;
  evaluated_accepted : accepted d key evaluation <> None -> stands_at key evaluation d';
  evaluated_repeated : repeats (cursors d !! key) (active_event d key) evaluation = true ->
    active_event d' key = active_event d key
    /\ if alertEvaluationIdentityUpgrade (cursors d !! key) evaluation then stands_at key evaluation d' else d' = d;
  evaluated_silent : sample_input (rules_at d evaluation) evaluation = None ->
    repeats (cursors d !! key) (active_event d key) evaluation = false ->
    d' = d /\ evaluation.(Evaluation.State) = AlertSampleUnknown;
  evaluated_screened : alertEvaluationIdentityUpgrade (cursors d !! key) evaluation = false ->
    is_ok (alertEvaluationAlreadyApplied (cursors d !! key) evaluation) = true;
  evaluated_effect : forall i, accepted d key evaluation = Some i ->
    exists d1 d2, moved key d d1 /\ effect evaluation key d1 d2 (active_event d1 key) i /\ moved key d2 d' }.

Lemma unknown_requires_nothing active evaluation : evaluation.(Evaluation.State) = AlertSampleUnknown ->
  requires_mutation active evaluation = false.
Proof.
  intros H. unfold requires_mutation, alertIdentityUpgradeRequiresMutation. destruct active as [e|]; [|done]. by rewrite H.
Qed.

Lemma evaluate_tx_ok clock contract target key evaluation d r d' : alerts_ok d ->
  evaluate_tx clock contract target key evaluation d = Ok (r, d') -> evaluated key evaluation d d'.
Proof.
  intros Hok H. unfold evaluate_tx in H. apply st_bind_ok in H as (rules&?&Hs&H). apply db_select_ok in Hs as [-> ->].
  apply st_bind_ok in H as (?&?&Hg&H). apply st_require_ok in Hg as [_ [= -> ->]].
  apply st_bind_ok in H as (cursor&?&Hg&H). apply st_gets_ok in Hg as [= -> ->].
  apply st_bind_ok in H as (active&?&Hg&H). unfold LockActiveEvent in Hg. apply st_bind_ok in Hg as (l&?&Hsel&Hg).
  apply db_select_ok in Hsel as [-> ->]. apply st_ret_ok in Hg as [= -> ->].
  change (head (select (is_active_key key) by_id d)) with (active_event d key) in H.
  apply st_bind_ok in H as ([done_ cursor]&d1&Hscreen&H).
  apply screen_ok in Hscreen as (Hmv&->&Hdone&Hup); [|done].
  assert (alertEvaluationIdentityUpgrade (cursors d !! key) evaluation = false ->
          is_ok (alertEvaluationAlreadyApplied (cursors d !! key) evaluation) = true) as Hscr.
  { intros E. rewrite E in Hup. apply Hup. }
  destruct (moved_ok key d d1 Hok Hmv) as (Hok1&Hev1&_&Hms1&Hae1&Hoc1).
  assert (alert_rules d1 = alert_rules d) as Hru1 by (apply moved_configuration in Hmv; unfold configuration in Hmv; congruence).
  destruct (repeats _ _ _) eqn:Hrep.
  - subst done_. apply st_ret_ok in H as [= -> ->].
    destruct (alertEvaluationIdentityUpgrade _ _) eqn:Hu.
    + destruct Hup as (c&Hc&Hat&Hkey). assert (stands_at key evaluation d1) by (exists c; by rewrite Hc).
      split; unfold accepted; rewrite ?Hrep; try done; [by left|intros _; by rewrite Hu|by rewrite Hu].
    + destruct Hup as [-> _]. split; unfold accepted; rewrite ?Hrep; try done; [by right|intros _; by rewrite Hu|intros _; by apply Hscr].
  - subst done_. apply st_bind_ok in H as (result&d2&Happ&H).
    assert (forall e, active_event d key = Some e -> events d1 !! e.(MEvent.ID) = Some e) as Hact.
    { intros e He. rewrite Hev1. apply active_event_some in He as [He _]; [done|apply Hok]. }
    apply apply_sample_ok in Happ; [|rewrite Hev1; apply Hok|exact Hact].
    change (select _ by_id d) with (rules_at d evaluation) in Happ.
    destruct (sample_input _ evaluation) as [i|] eqn:Hin.
    + assert ((evaluation.(Evaluation.State) == AlertSampleUnknown) = false) as Hst.
      { unfold sample_input in Hin. by destruct (_ == AlertSampleUnknown). }
      rewrite Hst in H. apply st_bind_ok in H as ([]&d3&Hadv&H). apply st_ret_ok in H as [= -> ->].
      rewrite <- Hae1 in Happ. pose proof Happ as Heff.
      apply effect_step in Happ as (Hok2&Hcur2&Hms2&Hoth2); [|done|done].
      rewrite <- Hcur2 in Hadv. apply advance_ok in Hadv as [Hmv2 Hstands]; [|done].
      destruct (moved_ok key d2 d3 Hok2 Hmv2) as (Hok3&_&_&Hms3&_).
      split; unfold accepted; rewrite ?Hrep, ?Hin; try done.
      * by rewrite Hms3, Hms2, Hms1.
      * apply moved_configuration in Hmv2. apply effect_configuration in Heff. unfold configuration in *. congruence.
      * intros k Hne. by rewrite Hms3, Hoth2, Hms1.
      * by left.
      * intros j [= <-]. eauto.
    + destruct Happ as [-> Hst]. rewrite bool_decide_eq_true_2 in H by done. apply st_ret_ok in H as [= -> ->].
      assert (d1 = d) as ->.
      { destruct (alertEvaluationIdentityUpgrade _ _) eqn:Hu; [|apply Hup]. exfalso.
        unfold repeats, passed in Hrep. rewrite Hu, unknown_requires_nothing in Hrep by done. done. }
      split; unfold accepted; rewrite ?Hrep, ?Hin; try done. by right.
Qed.

(** ** Running it again *)
Lemma evaluate_tx_repeated clock contract target key evaluation d : rules_at d evaluation <> [] ->
  alertEvaluationIdentityUpgrade (cursors d !! key) evaluation = false ->
  alertEvaluationAlreadyApplied (cursors d !! key) evaluation = Ok true ->
  requires_mutation (active_event d key) evaluation = false ->
  evaluate_tx clock contract target key evaluation d = Ok (quietResult (active_event d key) "duplicate", d).
Proof.
  intros Hrules Hup Happ Hreq. unfold evaluate_tx. apply st_bind_ok. exists (rules_at d evaluation), d. split; [done|].
  apply st_bind_ok. exists tt, d. split; [apply st_require_ok; by rewrite bool_decide_eq_false_2|].
  apply st_bind_ok. exists (cursors d !! key), d. split; [done|].
  apply st_bind_ok. exists (active_event d key), d. split; [done|].
  apply st_bind_ok. exists (Some (quietResult (active_event d key) "duplicate"), cursors d !! key), d. split; [|done].
  unfold screen. rewrite Hup, Happ. by rewrite Hreq.
Qed.

Lemma evaluate_tx_unknown clock contract target key evaluation d : rules_at d evaluation <> [] ->
  evaluation.(Evaluation.State) = AlertSampleUnknown ->
  alertEvaluationIdentityUpgrade (cursors d !! key) evaluation = false ->
  is_ok (alertEvaluationAlreadyApplied (cursors d !! key) evaluation) = true ->
  exists r, evaluate_tx clock contract target key evaluation d = Ok (r, d).
Proof.
  intros Hrules Hst Hup Happ. destruct (alertEvaluationAlreadyApplied _ _) as [b|] eqn:Ha; [|done]. destruct b.
  - eexists. apply evaluate_tx_repeated; [done..|]. by apply unknown_requires_nothing.
  - exists (quietResult (active_event d key) "unknown").
    unfold evaluate_tx. apply st_bind_ok. exists (rules_at d evaluation), d. split; [done|].
    apply st_bind_ok. exists tt, d. split; [apply st_require_ok; by rewrite bool_decide_eq_false_2|].
    apply st_bind_ok. exists (cursors d !! key), d. split; [done|].
    apply st_bind_ok. exists (active_event d key), d. split; [done|].
    apply st_bind_ok. exists (None, cursors d !! key), d. split; [unfold screen; by rewrite Hup, Ha|].
    unfold apply_sample. by rewrite bool_decide_eq_true_2.
Qed.

Lemma stands_at_passed key evaluation d : stands_at key evaluation d ->
  alertEvaluationIdentityUpgrade (cursors d !! key) evaluation = false
  /\ alertEvaluationAlreadyApplied (cursors d !! key) evaluation = Ok true.
Proof.
  intros (c&->&Hat&Hk). unfold alertEvaluationIdentityUpgrade, alertEvaluationAlreadyApplied.
  rewrite Hat, Hk, Z.eqb_refl, Z.ltb_irrefl, !bool_decide_eq_true_2 by done. done.
Qed.

(** After an accepted sample its own value no longer asks for anything. *)
Lemma value_agrees evaluation e : e.(MEvent.CurrentValue) = sample_value evaluation ->
  (evaluation.(Evaluation.State) == AlertSampleScopeInactive) = false ->
  alertIdentityUpgradeRequiresMutation e evaluation = false.
Proof.
  intros Hv Hs. unfold alertIdentityUpgradeRequiresMutation, sample_value in *. rewrite Hs.
  destruct (_ != AlertSampleKnown); [done|]. destruct (Evaluation.CurrentValue evaluation) as [raw|]; [|done].
  simpl in Hv. destruct (parseAlertDecimal raw true) as [[v canonical]|] eqn:Hp; simpl in Hv; rewrite Hv; [|done].
  rewrite parse_current by (by eapply parseAlertDecimal_range). by rewrite Z.eqb_refl.
Qed.

Lemma active_after key d : alerts_ok d -> machine_state d key = None -> active_event d key = None.
Proof. unfold machine_state. by destruct (active_event d key). Qed.

(** The active event of a key is the row that has it. *)
Lemma active_event_is d key e : alerts_ok d -> events d !! e.(MEvent.ID) = Some e ->
  e.(MEvent.ActiveKey) = Some key -> active_event d key = Some e.
Proof.
  intros Hok He Hk. pose proof (machine_state_is d key Hok) as Hst. unfold machine_state in Hst.
  destruct (active_event d key) as [x|] eqn:Hx; simpl in Hst; [|by destruct (Hst _ _ He)].
  apply active_event_some in Hx as [Hx Hxk]; [|apply Hok].
  assert (MEvent.ID x = MEvent.ID e) as E by exact (alerts_unique d Hok _ _ _ _ key Hx He Hxk Hk). congruence.
Qed.

Lemma announced_events e eventType now d d' : announced e eventType now d d' -> events d' = events d.
Proof.
  unfold announced. destruct (announces _ _); [|by intros ->]. intros (payload&r&known&H).
  apply Enqueue_ok in H as (_&_&_&[(_&->&_)|(_&_&_&->)]); done.
Qed.
Lemma announced_if_events b e eventType now d d' : announced_if b e eventType now d d' -> events d' = events d.
Proof. destruct b; [apply announced_events|by intros ->]. Qed.

(** A matching sample leaves its value in the active event. *)
Lemma effect_value evaluation key d d' active l n : alerts_ok d -> alerts_ok d' -> active = active_event d key ->
  effect evaluation key d d' active (Machine.Observe (Some (l, n))) ->
  exists e, active_event d' key = Some e /\ e.(MEvent.CurrentValue) = sample_value evaluation.
Proof.
  intros Hok Hok' Hact Heff.
  assert (forall d1, created evaluation key l n d1 d' -> exists e, active_event d' key = Some e /\ e.(MEvent.CurrentValue) = sample_value evaluation) as Hcreated.
  { intros d1 (e&(Hak&_&_&_&_&Hv)&Hid&_&Ha). apply announced_if_events in Ha. exists e. split; [|done].
    apply active_event_is; [done|rewrite Ha, Hid; apply lookup_insert_eq|done]. }
  inversion Heff as [i Hd Hn|e i Hc Hn|e e' l' n' Hk Hl Ha|l' n' Hc|e l' n' d1 Hc Hl Hcr]; subst; eauto.
  - done.
  - exfalso. simpl in Hn. by destruct (_ == l).
  - match goal with H : Some e = _ |- _ => symmetry in H; apply active_event_some in H as [He Hke]; [|apply Hok] end.
    destruct Hk as (Hid&Hak&_&_&_&_&Hv). apply announced_if_events in Ha.
    exists (e' <| MEvent.UpdatedAt := Tables.gorm_now d |>). split; [|done].
    apply active_event_is; [done| |simpl; congruence]. rewrite Ha. unfold saved. simpl. apply lookup_insert_eq.
Qed.

(** ** [Evaluate] *)
Section Watch.
Context (digest : string -> string).

(** The active key a sample is about. *)
Definition watched (sample : AlertEvaluation) : option string :=
  let evaluation := trimmed sample in
  contract ← alertRuleContract_of evaluation.(Evaluation.RuleKey);
  target ← canonicalAlertTargetKey evaluation contract;
  Some (alertActiveKey digest evaluation.(Evaluation.RuleKey) evaluation.(Evaluation.TargetType) target.(Target.Key)).

Lemma Evaluate_tx clock sample d r d' : Evaluate digest clock sample d = Ok (r, d') -> exists contract target key,
  watched sample = Some key /\ evaluate_tx clock contract target key (trimmed sample) d = Ok (r, d')
  /\ forall clock' d1, Evaluate digest clock' sample d1 = evaluate_tx clock' contract target key (trimmed sample) d1.
Proof.
  intros H. unfold Evaluate in H. apply st_bind_ok in H as (u&d1&Hv&H). apply st_lift_ok in Hv as (x&Hv&[= -> ->]).
  unfold watched, Evaluate. destruct (alertRuleContract_of _) as [contract|]; [|by apply st_fail_ok in H]. simpl.
  destruct (canonicalAlertTargetKey _ _) as [target|]; [|by apply st_fail_ok in H]. simpl.
  exists contract, target. eexists. split; [done|]. split; [done|]. intros clock' d2.
  unfold mbind, st_bind, st_lift. by rewrite Hv.
Qed.

Lemma Evaluate_ok clock sample d r d' : alerts_ok d -> Evaluate digest clock sample d = Ok (r, d') ->
  exists key, watched sample = Some key /\ evaluated key (trimmed sample) d d'.
Proof.
  intros Hok H. apply Evaluate_tx in H as (contract&target&key&Hw&H&_). exists key. split; [done|].
  by eapply evaluate_tx_ok.
Qed.

(** C16: an evaluation that returns is one step of a small machine.  Per
    active key there is nothing, or one event that is pending with a count of
    samples or firing; a sample the cursor has passed (and that says nothing new)
    and an unknown one change no machine; any other sample makes the step of the
    rule it matches on its own key and leaves every other key alone. *)
Theorem Evaluate_refines clock sample d r d' : alerts_ok d -> Evaluate digest clock sample d = Ok (r, d') ->
  exists key, watched sample = Some key
    /\ machine_state d' key = match accepted d key (trimmed sample) with
                              | Some i => Machine.step i (machine_state d key) | None => machine_state d key end
    /\ (accepted d key (trimmed sample) <> None -> stands_at key (trimmed sample) d')
    /\ forall k, k <> key -> machine_state d' k = machine_state d k.
Proof.
  intros Hok H. destruct (Evaluate_ok _ _ _ _ _ Hok H) as (key&Hw&He). exists key.
  split; [done|]. split; [apply He|]. split; [apply He|apply He].
Qed.

(** ** Idempotence *)
Lemma evaluate_tx_rules clock contract target key evaluation d r d' :
  evaluate_tx clock contract target key evaluation d = Ok (r, d') -> rules_at d evaluation <> [].
Proof.
  intros H. unfold evaluate_tx in H. apply st_bind_ok in H as (rules&?&Hs&H). apply db_select_ok in Hs as [-> ->].
  apply st_bind_ok in H as (?&?&Hg&H). apply st_require_ok in Hg as [Hg _]. by rewrite negb_true_iff, bool_decide_eq_false in Hg.
Qed.

Lemma sample_input_state rules evaluation i : sample_input rules evaluation = Some i ->
  match i with
  | Machine.Retire => (evaluation.(Evaluation.State) == AlertSampleScopeInactive) = true
  | Machine.Observe _ => (evaluation.(Evaluation.State) == AlertSampleScopeInactive) = false
  end.
Proof.
  unfold sample_input. destruct (_ == AlertSampleUnknown); [done|].
  destruct (_ == AlertSampleScopeInactive); [by intros [= <-]|].
  destruct (parseAlertDecimal _ _) as [[v c]|]; [|done]. by intros [= <-].
Qed.

(** C20: evaluating a sample again right after it was evaluated succeeds and
    changes nothing at all, whatever the first evaluation did. *)
Theorem Evaluate_idempotent clock clock' sample d r d' : alerts_ok d ->
  Evaluate digest clock sample d = Ok (r, d') -> exists r', Evaluate digest clock' sample d' = Ok (r', d').
Proof.
  intros Hok H. apply Evaluate_tx in H as (contract&target&key&_&H&Hall). rewrite Hall. clear Hall.
  pose proof (evaluate_tx_rules _ _ _ _ _ _ _ _ H) as Hrules.
  pose proof (evaluate_tx_ok _ _ _ _ _ _ _ _ Hok H) as He. set (ev := trimmed sample) in *.
  destruct (repeats (cursors d !! key) (active_event d key) ev) eqn:Hrep.
  - destruct (evaluated_repeated _ _ _ _ He Hrep) as [Hact Hcur]. unfold repeats in Hrep.
    apply andb_true_iff in Hrep as [Hpass Hreq%negb_true_iff].
    destruct (alertEvaluationIdentityUpgrade _ ev) eqn:Hup.
    + eexists. apply stands_at_passed in Hcur as [H1 H2]. apply evaluate_tx_repeated; [|done|done|by rewrite Hact].
      by rewrite (rules_at_same d d') by apply He.
    + subst d'. eexists. unfold passed in Hpass. rewrite Hup in Hpass.
      destruct (alertEvaluationAlreadyApplied _ ev) as [[]|] eqn:Happ; [|done..]. by apply evaluate_tx_repeated.
  - destruct (sample_input (rules_at d ev) ev) as [i|] eqn:Hin.
    + assert (accepted d key ev = Some i) as Hacc by (unfold accepted; by rewrite Hrep).
      assert (stands_at key ev d') as Hst by (apply He; by rewrite Hacc).
      apply stands_at_passed in Hst as [H1 H2]. eexists. apply evaluate_tx_repeated; [|done|done|].
      { by rewrite (rules_at_same d d') by apply He. }
      pose proof (evaluated_step _ _ _ _ He) as Hms. rewrite Hacc in Hms.
      destruct i as [|[[l n]|]]; [by rewrite (active_after key d') by (done || apply He)| |by rewrite (active_after key d') by (done || apply He)].
      destruct (evaluated_effect _ _ _ _ He _ Hacc) as (d1&d2&Hm1&Heff&Hm2).
      destruct (moved_ok _ _ _ Hok Hm1) as (Hok1&_). destruct (effect_step _ _ _ _ _ _ Hok1 eq_refl Heff) as (Hok2&_).
      destruct (effect_value _ _ _ _ _ _ _ Hok1 Hok2 eq_refl Heff) as (e&Hae&Hv).
      destruct (moved_ok _ _ _ Hok2 Hm2) as (_&_&_&_&Hae2&_). rewrite Hae2, Hae. simpl.
      apply value_agrees; [done|]. by apply sample_input_state in Hin.
    + destruct (evaluated_silent _ _ _ _ He Hin Hrep) as [-> Hst].
      assert (alertEvaluationIdentityUpgrade (cursors d !! key) ev = false) as Hup.
      { unfold repeats, passed in Hrep. rewrite (unknown_requires_nothing _ _ Hst), andb_true_r in Hrep.
        by apply orb_false_iff in Hrep as [-> _]. }
      apply evaluate_tx_unknown; [done..|]. by apply He.
Qed.

(** ** Samples that arrive late *)
(** C22: a sample older than the cursor is ignored when there is no active
    event or the event already has its value.  Otherwise it is applied like a new
    one, and the cursor goes back to the older instant. *)
Theorem older_samples clock sample d r d' key c : alerts_ok d -> Evaluate digest clock sample d = Ok (r, d') ->
  watched sample = Some key -> cursors d !! key = Some c ->
  (trimmed sample).(Evaluation.ObservedAt) < c.(MSample.LastSampleAt) ->
  (requires_mutation (active_event d key) (trimmed sample) = false -> d' = d)
  /\ (requires_mutation (active_event d key) (trimmed sample) = true -> exists i c',
        sample_input (rules_at d (trimmed sample)) (trimmed sample) = Some i
        /\ machine_state d' key = Machine.step i (machine_state d key)
        /\ cursors d' !! key = Some c' /\ c'.(MSample.LastSampleAt) < c.(MSample.LastSampleAt)).
Proof.
  intros Hok H Hw Hc Hlt. destruct (Evaluate_ok _ _ _ _ _ Hok H) as (key'&Hw'&He). assert (key' = key) as -> by congruence.
  set (ev := trimmed sample) in *.
  assert (alertEvaluationIdentityUpgrade (cursors d !! key) ev = false) as Hup.
  { unfold alertEvaluationIdentityUpgrade. rewrite Hc. by rewrite (proj2 (Z.eqb_neq _ _)) by lia. }
  assert (passed (cursors d !! key) ev = true) as Hpass.
  { unfold passed, alertEvaluationAlreadyApplied. rewrite Hup, Hc.
    rewrite (proj2 (Z.ltb_ge _ _)) by lia. by rewrite (proj2 (Z.ltb_lt _ _)). }
  split; intros Hreq.
  - assert (repeats (cursors d !! key) (active_event d key) ev = true) as Hrep by (unfold repeats; by rewrite Hpass, Hreq).
    apply (evaluated_repeated _ _ _ _ He) in Hrep as [_ Hd]. by rewrite Hup in Hd.
  - assert (repeats (cursors d !! key) (active_event d key) ev = false) as Hrep by (unfold repeats; by rewrite Hpass, Hreq).
    destruct (sample_input (rules_at d ev) ev) as [i|] eqn:Hin.
    + assert (accepted d key ev = Some i) as Hacc by (unfold accepted; by rewrite Hrep).
      destruct (evaluated_accepted _ _ _ _ He) as (c'&Hc'&Hat&_); [by rewrite Hacc|].
      pose proof (evaluated_step _ _ _ _ He) as Hms. rewrite Hacc in Hms. exists i, c'. repeat split; [done..|lia].
    + destruct (evaluated_silent _ _ _ _ He Hin Hrep) as [_ Hst]. by rewrite unknown_requires_nothing in Hreq.
Qed.

(** ** Firing *)
(** A run of samples of one key that all match the same level. *)
Inductive matching_run (key level : string) (forTimes : Z) : nat -> Db -> Db -> Prop :=
  | run_nil d : matching_run key level forTimes 0 d d
  | run_snoc n d d1 d2 clock sample r : matching_run key level forTimes n d d1 ->
      watched sample = Some key -> Evaluate digest clock sample d1 = Ok (r, d2) ->
      accepted d1 key (trimmed sample) = Some (Machine.Observe (Some (level, forTimes))) ->
      matching_run key level forTimes (S n) d d2.

Lemma matching_run_ok key level forTimes n d d' : alerts_ok d -> matching_run key level forTimes n d d' -> alerts_ok d'.
Proof.
  intros Hok H. induction H as [|n d d1 d2 clock sample r _ IH Hw He _]; [done|].
  destruct (Evaluate_ok _ _ _ _ _ (IH Hok) He) as (k&_&Hev). apply Hev.
Qed.

(** C18: with nothing active, the alert fires exactly at the sample that makes
    [for_times] in a row: before it the event is pending and its count is the
    number of samples, from it on it is firing. *)
Theorem fires_after_for_times key level forTimes n d d' : alerts_ok d -> machine_state d key = None ->
  matching_run key level forTimes n d d' -> (0 < n)%nat ->
  machine_state d' key = Some (Machine.mk level
    (if forTimes <=? Z.of_nat n then AlertStatusFiring else AlertStatusPending) (Z.min (Z.of_nat n) (Z.max 1 forTimes))).
Proof.
  intros Hok Hnone H Hn. assert (machine_state d' key = if (n =? 0)%nat then None else Some (Machine.mk level
    (if forTimes <=? Z.of_nat n then AlertStatusFiring else AlertStatusPending) (Z.min (Z.of_nat n) (Z.max 1 forTimes)))) as E;
    [|rewrite E; destruct n; [lia|done]].
  clear Hn. induction H as [|n d d1 d2 clock sample r Hrun IH Hw He Hacc]; [done|].
  specialize (IH Hok Hnone). pose proof (matching_run_ok _ _ _ _ _ _ Hok Hrun) as Hok1.
  destruct (Evaluate_ok _ _ _ _ _ Hok1 He) as (k&Hk&Hev). assert (k = key) as -> by congruence.
  pose proof (evaluated_step _ _ _ _ Hev) as Hms. rewrite Hacc in Hms. rewrite Hms, IH. clear -n.
  destruct n as [|n]; simpl Nat.eqb; cbv iota.
  - unfold Machine.step, Machine.fresh. replace (Z.min (Z.of_nat 1) (Z.max 1 forTimes)) with 1 by lia. done.
  - unfold Machine.step, Machine.again. cbn [Machine.level Machine.status Machine.count]. rewrite bool_decide_eq_true_2 by done.
    destruct (Z.leb_spec forTimes (Z.of_nat (S n))); destruct (Z.leb_spec forTimes (Z.of_nat (S (S n)))); try lia.
    + simpl. do 2 f_equal. lia.
    + rewrite bool_decide_eq_true_2 by done. rewrite (proj2 (Z.leb_le _ _)) by lia. do 2 f_equal. lia.
    + rewrite bool_decide_eq_true_2 by done. rewrite (proj2 (Z.leb_gt _ _)) by lia. do 2 f_equal. lia.
Qed.
End Watch.

(** ** The notifier's transactions *)
Inductive worker_step (d d' : Db) : Prop :=
  | worker_disables now n : DisablePending now d = Ok (n, d') -> worker_step d d'
  | worker_exhausts now n : FailExhaustedLeases now d = Ok (n, d') -> worker_step d d'
  | worker_claims id now leaseUntil token locked c :
      claim id now leaseUntil token locked d = Ok (c, d') -> worker_step d d'
  | worker_completes c : Complete c d = Ok (tt, d') -> worker_step d d'.

Lemma worker_outbox d d' : worker_step d d' -> outbox_step d d'.
Proof.
  intros [now n H|now n H|id now leaseUntil token locked c H|c H].
  - exact (step_disable _ _ _ _ H).
  - exact (step_exhaust _ _ _ _ H).
  - exact (step_claim _ _ _ _ _ _ _ _ H).
  - exact (step_complete _ _ _ H).
Qed.

(** A worker rewrites rows of the outbox and nothing else. *)
Definition rewrites_rows (d d' : Db) : Prop :=
  (exists t, d' = with_deliveries t d)
  /\ forall i r', deliveries d' !! i = Some r' -> exists r, deliveries d !! i = Some r /\ same_identity r r'.

Lemma rewrites_where p f d : (forall r, same_identity r (f r)) ->
  rewrites_rows d (with_deliveries (update_where p f (deliveries d)) d).
Proof.
  intros Hf. split; [eauto|]. intros i r'. change (deliveries (with_deliveries ?t d)) with t.
  rewrite (lookup_update_where (R := AlertDelivery)). intros (r&Hr&->)%fmap_Some_1. exists r. split; [done|].
  unfold upd. destruct (p r); [done|]. by repeat split.
Qed.

Lemma rewrites_row i r r' d : deliveries d !! i = Some r -> same_identity r r' ->
  rewrites_rows d (with_deliveries (<[i := r']> (deliveries d)) d).
Proof.
  intros Hr Hsame. split; [eauto|]. intros j s. change (deliveries (with_deliveries ?t d)) with t.
  intros [[<- <-]|[_ Hs]]%lookup_insert_Some; [eauto|]. exists s. by repeat split.
Qed.

Lemma worker_rewrites d d' : outbox_ok d -> worker_step d d' -> rewrites_rows d d'.
Proof.
  intros Hok [now n H|now n H|id now leaseUntil token locked c H|c H].
  - apply DisablePending_ok in H as (_&f&Hf&->). apply rewrites_where. intros r. by rewrite Hf.
  - apply FailExhaustedLeases_ok in H as (_&f&Hf&->). apply rewrites_where. intros r. by rewrite Hf.
  - apply claim_row_ok in H as (_&r&Hr&_&_&_&->); [|apply Hok]. by eapply rewrites_row.
  - apply Complete_ok in H as (_&r&Hr&_&->); [|apply Hok]. by eapply rewrites_row.
Qed.

(** ** The invariant *)
Section Alerts.
Context (digest : string -> string).

(** Every transaction that writes events, cursors or deliveries: evaluating a
    sample, the notifier's, queueing a test message; and those that do not. *)
Inductive alerts_step (d d' : Db) : Prop :=
  | evaluates clock sample r : Evaluate digest clock sample d = Ok (r, d') -> alerts_step d d'
  | works : worker_step d d' -> alerts_step d d'
  | tests payload now r : Enqueue None AlertDeliveryEventTest payload now d = Ok (r, d') -> alerts_step d d'
  | writes_elsewhere : events d' = events d -> cursors d' = cursors d -> deliveries d' = deliveries d ->
      Tables.auto_other d <= Tables.auto_other d' -> alerts_step d d'.

Lemma alerts_step_keeps d d' : alerts_ok d -> alerts_step d d' -> alerts_ok d'.
Proof.
  intros Hok [clock sample r H|H|payload now [r known] H|He Hc Hd Ha].
  - destruct (Evaluate_ok _ _ _ _ _ _ Hok H) as (key&_&Hev). apply Hev.
  - pose proof (outbox_step_keeps _ _ (worker_outbox _ _ H) (alerts_outbox d Hok)) as Hout.
    destruct (worker_rewrites d d' (alerts_outbox d Hok) H) as [[t ->] Hback].
    apply (alerts_same d); try done. intros i r' id (r&Hr&_&Hid&Hty&_)%Hback Hev. rewrite Hid in Hev.
    destruct (alerts_explained d Hok i r id Hr Hev) as (e&He&Hx). exists e. split; [done|]. unfold explains. by rewrite Hty.
  - pose proof (outbox_step_keeps _ _ (step_enqueue _ _ _ _ _ _ _ H) (alerts_outbox d Hok)) as Hout.
    apply Enqueue_ok in H as (_&_&_&[(_&->&_)|(_&_&->&->)]); [done|].
    apply (alerts_same d); [done|done|done|done|simpl; lia|].
    intros i s id. change (deliveries (with_deliveries ?t ?d)) with t.
    intros [[_ <-]|[_ Hs]]%lookup_insert_Some Hid; [done|]. by apply (alerts_explained d Hok i).
  - apply (alerts_same d); [done|exact (outbox_elsewhere d d' (alerts_outbox d Hok) Hd Ha)|done..|].
    intros i r id. rewrite Hd. apply (alerts_explained d Hok).
Qed.

(** C15: the invariant of the alerts holds in every state the transactions
    reach.  An active key has at most one event, which is pending and has not fired
    or is firing since an instant; a resolved event has an instant and a reason
    and no key; every message in the outbox belongs to an event that fired, a
    message of a recovery to one that recovered; one transition has one message;
    a delivery waits, is held under a lease or is settled, after at most five
    attempts. *)
Theorem alerts_invariant d d' : alerts_ok d -> rtc alerts_step d d' -> alerts_ok d'.
Proof. intros Hok H. induction H as [|d d1 d2 H1 _ IH]; [done|]. eauto using alerts_step_keeps. Qed.

(** ** A transition and its message *)
(** The event has a message of this kind. *)
Definition delivery_for (id : Z) (eventType : string) (d : Db) : Prop :=
  exists i r, deliveries d !! i = Some r /\ r.(MDelivery.AlertEventID) = Some id /\ r.(MDelivery.EventType) = eventType.

Lemma announced_delivers e eventType now d d' : announced e eventType now d d' -> announces d e = true ->
  delivery_for e.(MEvent.ID) eventType d'.
Proof.
  unfold announced, delivery_for. intros H Ha. rewrite Ha in H. destruct H as (payload&r&known&H).
  apply Enqueue_ok in H as (_&_&_&[(_&->&x&i&[= <-]&Hi&Hp)|(_&_&->&->)]).
  - exists i, r. split; [done|]. unfold delivery_of in Hp. rewrite !andb_true_iff in Hp.
    destruct Hp as [[H1%bool_decide_eq_true H2%bool_decide_eq_true] _]. done.
  - eexists _, _. split; [apply lookup_insert_eq|]. done.
Qed.

Lemma announced_if_keeps b e eventType now d d' id ty : outbox_ok d -> announced_if b e eventType now d d' ->
  delivery_for id ty d -> delivery_for id ty d'.
Proof.
  unfold announced_if, announced. destruct b; [|by intros _ ->]. destruct (announces d e); [|by intros _ ->].
  intros Hok (payload&r&known&H) (i&s&Hi&Hs). apply Enqueue_ok in H as (_&_&_&[(_&->&_)|(_&_&->&->)]); [by exists i, s|].
  exists i, s. split; [|done]. change (deliveries (with_deliveries ?t ?d)) with t. apply lookup_insert_Some.
  right. split; [|done]. apply (outbox_fresh d Hok) in Hi. lia.
Qed.

Lemma announces_same d d' e : configuration d' = configuration d -> announces d' e = announces d e.
Proof. unfold configuration, announces, setting. by intros [= _ ->]. Qed.

(** An event that is active is not resolved. *)
Lemma active_open d key e : alerts_ok d -> active_event d key = Some e -> e.(MEvent.ResolutionReason) = None.
Proof.
  intros Hok He. apply active_event_some in He as [He Hk]; [|apply Hok].
  destruct (alerts_rows d Hok _ _ He) as [_ _ _ _ Hr _|_ _ _ _ Hr _|_ Hn _ _ _]; [done|done|congruence].
Qed.

Lemma closed_message evaluation e d d' x : closed evaluation e d d' -> is_firing e = true ->
  events d' !! e.(MEvent.ID) = Some x -> x.(MEvent.ResolutionReason) = Some alertResolutionRecovered ->
  announces d x = true -> delivery_for e.(MEvent.ID) AlertDeliveryEventResolved d'.
Proof.
  intros (e'&reason&(Hid&_&_&_&_&Hr&_)&Ha) Hf Hx Hrec Hann. pose proof (announced_if_events _ _ _ _ _ _ Ha) as Hev.
  rewrite Hev, <- Hid in Hx. unfold saved in Hx. change (events (with_events ?t ?d)) with t in Hx.
  rewrite lookup_insert_eq in Hx. injection Hx as <-. simpl in Hrec.
  assert (reason = alertResolutionRecovered) as -> by congruence.
  rewrite Hf, bool_decide_eq_true_2 in Ha by done. rewrite <- Hid. by eapply announced_delivers.
Qed.

(** The active event of a key started to fire, and its message is there. *)
Definition announced_start (key : string) (d : Db) : Prop := forall e, active_event d key = Some e ->
  is_firing e = true -> announces d e = true -> delivery_for e.(MEvent.ID) AlertDeliveryEventFiring d.

Lemma created_message evaluation key l n d d' : alerts_ok d' -> created evaluation key l n d d' -> announced_start key d'.
Proof.
  intros Hok' (e0&(Hak&Hm&_)&Hid&_&Ha) e He Hf Hann. pose proof (announced_if_events _ _ _ _ _ _ Ha) as Hev.
  pose proof (announced_if_configuration _ _ _ _ _ _ Ha) as Hset.
  assert (active_event d' key = Some e0) as He0.
  { apply active_event_is; [done|rewrite Hev, Hid; apply lookup_insert_eq|done]. }
  assert (e = e0) as -> by congruence. rewrite (announces_same _ _ _ Hset) in Hann.
  assert ((n <=? 1) = true) as Hn.
  { unfold is_firing in Hf. injection Hm as _ Hs _. rewrite Hs in Hf. by destruct (n <=? 1). }
  rewrite Hn in Ha. by eapply announced_delivers.
Qed.

Lemma kept_message evaluation key n e e' d d' : alerts_ok d' -> e.(MEvent.ActiveKey) = Some key -> kept evaluation n e e' ->
  announced_if ((e.(MEvent.Status) == AlertStatusPending) && (n <=? e.(MEvent.ConsecutiveCount) + 1)) e'
    AlertDeliveryEventFiring evaluation.(Evaluation.ObservedAt) (saved e' d) d' ->
  (active_event d' key = Some (e' <| MEvent.UpdatedAt := Tables.gorm_now d |>))
  /\ (is_firing e = false -> announced_start key d').
Proof.
  intros Hok' Hk (Hid&Hak&Hm&_) Ha. pose proof (announced_if_events _ _ _ _ _ _ Ha) as Hev.
  pose proof (announced_if_configuration _ _ _ _ _ _ Ha) as Hset.
  assert (active_event d' key = Some (e' <| MEvent.UpdatedAt := Tables.gorm_now d |>)) as He'.
  { apply active_event_is; [done| |simpl; congruence]. rewrite Hev. unfold saved. simpl. apply lookup_insert_eq. }
  split; [done|]. intros Hnf x Hx Hf Hann. rewrite He' in Hx. injection Hx as <-.
  rewrite (announces_same _ _ _ Hset) in Hann.
  destruct (_ && _) eqn:Hb in Ha; [exact (announced_delivers _ _ _ _ _ Ha Hann)|exfalso].
  unfold is_firing in Hf, Hnf. simpl in Hf. unfold Machine.again, machine_of in Hm. simpl in Hm.
  destruct (MEvent.Status e == AlertStatusPending); simpl in Hb; [rewrite Hb in Hm|]; injection Hm as _ Hs _;
    rewrite Hs in Hf; [by vm_compute in Hf|congruence].
Qed.

(** What the effect of a sample announces. *)
Lemma effect_message evaluation key d d' active i : alerts_ok d -> alerts_ok d' -> active = active_event d key ->
  effect evaluation key d d' active i ->
  (forall e0, active = Some e0 -> (exists e, active_event d' key = Some e /\ e.(MEvent.ID) = e0.(MEvent.ID)) ->
     is_firing e0 = false) -> announced_start key d'.
Proof.
  intros Hok Hok' Hact Heff Hnew. pose proof (effect_step _ _ _ _ _ _ Hok Hact Heff) as (_&_&Hms&_).
  unfold machine_state in Hms. rewrite <- Hact in Hms.
  destruct Heff as [j Hd Hn|e j Hc Hn|e e' l n Hk Hl Ha|l n Hc|e l n d1 Hc Hl Hcr].
  - intros e He. simpl in Hms. by rewrite Hn, He in Hms.
  - intros e0 He. simpl in Hms. by rewrite Hn, He in Hms.
  - symmetry in Hact. pose proof Hact as Hact'. apply active_event_some in Hact as [He Hke]; [|apply Hok].
    apply (kept_message _ key) in Ha as [He' Hstart]; [|done..]. apply Hstart, Hnew; [done|].
    eexists. split; [exact He'|]. apply Hk.
  - by eapply created_message.
  - by eapply created_message.
Qed.

Lemma effect_recovery evaluation key d d' e i x : alerts_ok d -> alerts_ok d' -> active_event d key = Some e ->
  effect evaluation key d d' (Some e) i -> is_firing e = true -> events d' !! e.(MEvent.ID) = Some x ->
  x.(MEvent.ResolutionReason) = Some alertResolutionRecovered -> announces d x = true ->
  delivery_for e.(MEvent.ID) AlertDeliveryEventResolved d'.
Proof.
  intros Hok Hok' Hact Heff Hf Hx Hr Hann. pose proof Hact as Hact'. apply active_event_some in Hact' as [He Hke]; [|apply Hok].
  inversion Heff as [j Hd Hn|e0 j Hc Hn|e0 e' l n Hk Hl Ha|l n Hc|e0 l n d1 Hc Hl Hcr]; subst.
  - by eapply closed_message.
  - apply (kept_message _ key) in Ha as [He' _]; [|done..]. destruct Hk as (Hid&_).
    pose proof He' as Hrow. apply active_event_some in Hrow as [Hrow _]; [|apply Hok']. simpl in Hrow. rewrite Hid, Hx in Hrow.
    injection Hrow as ->. by rewrite (active_open _ _ _ Hok' He') in Hr.
  - destruct (closed_ok _ _ key _ _ Hok He Hke Hc) as (Hok1&_).
    destruct Hcr as (e1&_&Hid&_&Ha). pose proof (announced_if_events _ _ _ _ _ _ Ha) as Hev.
    eapply announced_if_keeps; [|exact Ha|].
    + apply (outbox_elsewhere d1); [apply Hok1|done|simpl; lia].
    + assert (events d1 !! e.(MEvent.ID) = Some x) as Hx1.
      { rewrite Hev in Hx. change (events (with_events ?t ?d)) with t in Hx. rewrite lookup_insert_ne in Hx; [done|].
        destruct Hc as (e2&reason&(Hid2&_)&Hc). pose proof (announced_if_events _ _ _ _ _ _ Hc) as Hev2.
        assert (events d1 !! e.(MEvent.ID) <> None) as Hin.
        { rewrite Hev2, <- Hid2. unfold saved. change (events (with_events ?t ?d)) with t. by rewrite lookup_insert_eq. }
        destruct (events d1 !! MEvent.ID e) eqn:E; [|done]. apply (alerts_fresh d1 Hok1) in E. lia. }
      destruct (closed_message _ _ _ _ _ Hc Hf Hx1 Hr Hann) as (i&r&Hi&Hr'). exists i, r. done.
Qed.

(** C17: a transition and its message are one: when notifications are on for
    its level, an evaluation after which an event fires that did not leaves a
    firing message of that event in the outbox, and one after which a firing event has
    recovered leaves a resolution message of it. *)
Theorem transitions_are_announced clock sample d r d' key : alerts_ok d ->
  Evaluate digest clock sample d = Ok (r, d') -> watched digest sample = Some key ->
  (forall e, active_event d' key = Some e -> is_firing e = true -> announces d' e = true ->
     (forall e0, active_event d key = Some e0 -> e0.(MEvent.ID) = e.(MEvent.ID) -> is_firing e0 = false) ->
     delivery_for e.(MEvent.ID) AlertDeliveryEventFiring d')
  /\ (forall e e', active_event d key = Some e -> is_firing e = true -> events d' !! e.(MEvent.ID) = Some e' ->
     e'.(MEvent.ResolutionReason) = Some alertResolutionRecovered -> announces d' e' = true ->
     delivery_for e.(MEvent.ID) AlertDeliveryEventResolved d').
Proof.
  intros Hok H Hw. destruct (Evaluate_ok _ _ _ _ _ _ Hok H) as (key'&Hw'&He). assert (key' = key) as -> by congruence.
  pose proof (evaluated_ok _ _ _ _ He) as Hok'. set (ev := trimmed sample) in *.
  destruct (accepted d key ev) as [i|] eqn:Hacc.
  - destruct (evaluated_effect _ _ _ _ He i Hacc) as (d1&d2&Hm1&Heff&Hm2).
    destruct (moved_ok _ _ _ Hok Hm1) as (Hok1&_&_&_&Hact1&_). pose proof (effect_step _ _ _ _ _ _ Hok1 eq_refl Heff) as (Hok2&_).
    destruct (moved_ok _ _ _ Hok2 Hm2) as (_&Hev2&Hdel2&_&Hact2&_).
    assert (forall id ty, delivery_for id ty d2 -> delivery_for id ty d') as Hdeliver by (unfold delivery_for; intros id ty; by rewrite Hdel2).
    split.
    + intros e Hx Hf Hann Hnew. apply Hdeliver. rewrite Hact2 in Hx. rewrite (announces_same _ _ _ (moved_configuration _ _ _ Hm2)) in Hann.
      apply (effect_message _ _ _ _ _ _ Hok1 Hok2 eq_refl Heff); [|done..]. intros e0 He0 (e2&He2&Hid).
      apply Hnew; [by rewrite <- Hact1|congruence].
    + intros e e' Hx Hf Hrow Hr Hann. apply Hdeliver. rewrite <- Hact1 in Hx. rewrite Hx in Heff. rewrite Hev2 in Hrow.
      apply (effect_recovery _ _ _ _ _ _ _ Hok1 Hok2 Hx Heff Hf Hrow Hr).
      rewrite (announces_same d1 d') in Hann; [done|]. apply moved_configuration in Hm2. apply effect_configuration in Heff. congruence.
  - assert (active_event d' key = active_event d key) as Hsame.
    { destruct (repeats (cursors d !! key) (active_event d key) ev) eqn:Hrep; [by apply (evaluated_repeated _ _ _ _ He)|].
      destruct (evaluated_silent _ _ _ _ He) as [-> _]; [|done..]. unfold accepted in Hacc. by rewrite Hrep in Hacc. }
    split.
    + intros e Hx Hf _ Hnew. rewrite Hsame in Hx. by rewrite (Hnew e Hx eq_refl) in Hf.
    + intros e e' Hx _ Hrow Hr _. rewrite <- Hsame in Hx. pose proof (active_open _ _ _ Hok' Hx) as Hopen.
      apply active_event_some in Hx as [Hx _]; [|apply Hok']. congruence.
Qed.
End Alerts.

Lemma alerts_ok_empty d : events d = ∅ -> deliveries d = ∅ -> cursors d = ∅ -> 0 < Tables.auto_other d -> alerts_ok d.
Proof.
  intros He Hd Hc Ha. split; [split|..]; try (intros ? ? H; rewrite ?He, ?Hd, ?Hc in H; by apply lookup_empty_Some in H).
  - done.
  - intros ???? H. rewrite Hd in H. by apply lookup_empty_Some in H.
  - intros ????? H. rewrite He in H. by apply lookup_empty_Some in H.
  - intros ??? H. rewrite Hd in H. by apply lookup_empty_Some in H.
Qed.

(** ** A run: three samples over the critical threshold *)
Module AlertRuns.
Import AlertSample.

(** The database after a sample, which is evaluated. *)
Definition next (sample : AlertEvaluation) (d : Db) : Db := after (eval sample) d.
Lemma next_ok sample d : is_ok (eval sample d) = true -> exists r, Evaluate digest 1000 sample d = Ok (r, next sample d).
Proof. unfold next, after, eval. destruct (Evaluate _ _ _ d) as [[r d']|]; [eauto|done]. Qed.

Definition d1 : Db := next (cpu "96" 60) db.
Definition d2 : Db := next (cpu "97" 120) d1.
Definition d3 : Db := next (cpu "98" 180) d2.
Definition key : string := default "" (watched digest (cpu "96" 60)).

Lemma sample_alerts_ok : alerts_ok db.
Proof. by apply alerts_ok_empty. Qed.

Lemma first_sample : exists r, Evaluate digest 1000 (cpu "96" 60) db = Ok (r, d1).
Proof. refine (next_ok (cpu "96" 60) db _). vm_compute. reflexivity. Qed.
Lemma second_sample : exists r, Evaluate digest 1000 (cpu "97" 120) d1 = Ok (r, d2).
Proof. refine (next_ok (cpu "97" 120) d1 _). vm_compute. reflexivity. Qed.
Lemma third_sample : exists r, Evaluate digest 1000 (cpu "98" 180) d2 = Ok (r, d3).
Proof. refine (next_ok (cpu "98" 180) d2 _). vm_compute. reflexivity. Qed.

Lemma run : matching_run digest key "critical" 3 3 db d3.
Proof.
  destruct first_sample as [r1 H1], second_sample as [r2 H2], third_sample as [r3 H3].
  apply (run_snoc digest key "critical" 3 2 db d2 d3 1000 (cpu "98" 180) r3); [|vm_compute; reflexivity|exact H3|vm_compute; reflexivity].
  apply (run_snoc digest key "critical" 3 1 db d1 d2 1000 (cpu "97" 120) r2); [|vm_compute; reflexivity|exact H2|vm_compute; reflexivity].
  apply (run_snoc digest key "critical" 3 0 db db d1 1000 (cpu "96" 60) r1); [|vm_compute; reflexivity|exact H1|vm_compute; reflexivity].
  constructor.
Qed.
Lemma d1_ok : alerts_ok d1.
Proof. destruct first_sample as [r H]. destruct (Evaluate_ok _ _ _ _ _ _ sample_alerts_ok H) as (k&_&Hev). apply Hev. Qed.
Lemma d2_ok : alerts_ok d2.
Proof. destruct second_sample as [r H]. destruct (Evaluate_ok _ _ _ _ _ _ d1_ok H) as (k&_&Hev). apply Hev. Qed.
Lemma d3_ok : alerts_ok d3.
Proof. exact (matching_run_ok _ _ _ _ _ _ _ sample_alerts_ok run). Qed.

(** The firing message, claimed and sent; then a sample under the threshold. *)
Definition sent : dingTalkAttemptResult := Attempt.mk true false 0 false "" "0" (Some 200) "ok".
(** One turn of a worker: claim, send, record. *)
Definition turn (now leaseUntil : Z) (d : Db) : Db :=
  match ClaimNext now leaseUntil "token" (fun _ => false) d with
  | Ok (c, d') => after (completeAttempt (now * 1000000000) c sent) d'
  | Err _ => d
  end.
Lemma turn_ok now leaseUntil d : alerts_ok d -> alerts_ok (turn now leaseUntil d).
Proof.
  intros Hok. unfold turn. destruct (ClaimNext _ _ _ _ d) as [[c d']|e] eqn:H; [|exact Hok].
  pose proof (works digest _ _ (worker_claims _ _ None _ _ _ _ _ H)) as H1. apply alerts_step_keeps in H1; [|exact Hok].
  unfold after. destruct (completeAttempt _ c _ d') as [[[] d'']|e] eqn:Hc; [|exact H1].
  pose proof (works digest _ _ (worker_completes _ _ (attempt_completion _ c sent) Hc)) as H2. by apply alerts_step_keeps in H2.
Qed.
Definition d5 : Db := turn 200 260 d3.
Definition d6 : Db := next (cpu "10" 240) d5.
Definition claim_resolved : option (AlertDeliveryClaim * Db) :=
  match ClaimNext 250 310 "token" (fun _ => false) d6 with Ok x => Some x | Err _ => None end.
End AlertRuns.
Import AlertSample AlertRuns.

Lemma Evaluate_refines_witness : exists k, watched digest (cpu "96" 60) = Some k
  /\ machine_state d1 k = match accepted db k (trimmed (cpu "96" 60)) with
                          | Some i => Machine.step i (machine_state db k) | None => machine_state db k end
  /\ (accepted db k (trimmed (cpu "96" 60)) <> None -> stands_at k (trimmed (cpu "96" 60)) d1)
  /\ forall k', k' <> k -> machine_state d1 k' = machine_state db k'.
Proof. destruct first_sample as [r H]. exact (Evaluate_refines digest 1000 _ _ _ _ sample_alerts_ok H). Defined.

Lemma alerts_invariant_witness : alerts_ok d2.
Proof.
  apply (alerts_invariant digest db d2 sample_alerts_ok). destruct first_sample as [r1 H1], second_sample as [r2 H2].
  apply rtc_l with d1; [exact (evaluates digest _ _ _ _ _ H1)|].
  apply rtc_once. exact (evaluates digest _ _ _ _ _ H2).
Defined.

Lemma fires_after_for_times_witness : machine_state d3 key = Some (Machine.mk "critical" AlertStatusFiring 3).
Proof. exact (fires_after_for_times digest key "critical" 3 3 db d3 sample_alerts_ok eq_refl run ltac:(lia)). Defined.

Lemma Evaluate_idempotent_witness : exists r', Evaluate digest 2000 (cpu "98" 180) d3 = Ok (r', d3).
Proof. destruct third_sample as [r H]. exact (Evaluate_idempotent digest 1000 2000 _ _ _ _ d2_ok H). Defined.

(** The second sample again with another value, after the third. *)
Lemma older_samples_witness : exists r d', Evaluate digest 1000 (cpu "99" 120) d3 = Ok (r, d')
  /\ exists i c', sample_input (rules_at d3 (trimmed (cpu "99" 120))) (trimmed (cpu "99" 120)) = Some i
        /\ machine_state d' key = Machine.step i (machine_state d3 key)
        /\ cursors d' !! key = Some c' /\ c'.(MSample.LastSampleAt) < 180.
Proof.
  destruct (next_ok (cpu "99" 120) d3) as [r H]; [vm_compute; reflexivity|]. exists r, (next (cpu "99" 120) d3). split; [exact H|].
  assert ((fun c => c.(MSample.LastSampleAt)) <$> cursors d3 !! key = Some 180) as Hc by (vm_compute; reflexivity).
  apply fmap_Some_1 in Hc as (c&E&Hc). rewrite Hc.
  apply (older_samples digest 1000 _ _ _ _ key c d3_ok H); [vm_compute; reflexivity|exact E|rewrite <- Hc; vm_compute; reflexivity|].
  vm_compute. reflexivity.
Defined.

Lemma transitions_are_announced_witness : exists e, active_event d3 key = Some e
  /\ delivery_for e.(MEvent.ID) AlertDeliveryEventFiring d3.
Proof.
  destruct third_sample as [r H]. destruct (transitions_are_announced digest 1000 _ _ _ _ key d2_ok H) as [Hstart _]; [vm_compute; reflexivity|].
  assert ((fun e => (is_firing e, announces d3 e)) <$> active_event d3 key = Some (true, true)) as Hf by (vm_compute; reflexivity).
  assert (is_firing <$> active_event d2 key = Some false) as Hp by (vm_compute; reflexivity).
  apply fmap_Some_1 in Hf as (e&E&He). injection He as Hf Ha. exists e. split; [exact E|].
  apply (Hstart e E (eq_sym Hf) (eq_sym Ha)). intros e0 He0 _. rewrite He0 in Hp. by injection Hp.
Defined.


Lemma delivery_never_stuck_witness : exists r, deliveries d3 !! 101 = Some r /\
  ((exists c d', ClaimByID 101 200 260 "token" (fun _ => false) d3 = Ok (c, d')
     /\ c.(DeliveryClaim.Delivery).(MDelivery.ID) = 101)
  \/ (exists n d' r', FailExhaustedLeases 200 d3 = Ok (n, d') /\ deliveries d' !! 101 = Some r'
        /\ r'.(MDelivery.Status) = AlertDeliveryStatusFailed)
  \/ (r.(MDelivery.EventType) = AlertDeliveryEventResolved /\ exists j firing,
        deliveries d3 !! j = Some firing /\ blocks r firing = true /\ waits_for_firing d3 firing = false)).
Proof.
  assert ((fun r => (r.(MDelivery.Status), due_at r)) <$> deliveries d3 !! 101 = Some (AlertDeliveryStatusPending, 180)) as Hr by (vm_compute; reflexivity).
  apply fmap_Some_1 in Hr as (r&E&Hr). injection Hr as Hs Hd. exists r. split; [exact E|].
  apply (delivery_never_stuck d3 101 r 200 260 "token" (alerts_outbox _ d3_ok) E (eq_sym Hs)); [rewrite <- Hd; lia|lia].
Defined.

Lemma d5_ok : alerts_ok d5.
Proof. exact (turn_ok 200 260 d3 d3_ok). Qed.
Lemma d6_outbox : outbox_ok d6.
Proof.
  destruct (next_ok (cpu "10" 240) d5) as [r H]; [vm_compute; reflexivity|].
  destruct (Evaluate_ok _ _ _ _ _ _ d5_ok H) as (k&_&Hev). apply (alerts_outbox _ (evaluated_ok _ _ _ _ Hev)).
Qed.

(** The recovery is claimed after the firing message was sent. *)
Lemma resolved_follows_firing_witness : exists c d', ClaimNext 250 310 "token" (fun _ => false) d6 = Ok (c, d')
  /\ forall firing, deliveries d6 !! 101 = Some firing ->
       firing.(MDelivery.Status) ∈ [AlertDeliveryStatusSuccess; AlertDeliveryStatusFailed].
Proof.
  assert ((fun x => (x.1.(DeliveryClaim.Delivery).(MDelivery.EventType), x.1.(DeliveryClaim.Delivery).(MDelivery.AlertEventID)))
            <$> claim_resolved = Some (AlertDeliveryEventResolved, Some 100)) as Hc by (vm_compute; reflexivity).
  apply fmap_Some_1 in Hc as ([c d']&E&Hc). injection Hc as Hty Hev. unfold claim_resolved in E.
  destruct (ClaimNext 250 310 "token" (fun _ => false) d6) as [x|e] eqn:H; [|discriminate]. injection E as ->.
  exists c, d'. split; [reflexivity|]. intros firing Hf.
  assert ((fun r => (r.(MDelivery.EventType), r.(MDelivery.AlertEventID))) <$> deliveries d6 !! 101
            = Some (AlertDeliveryEventFiring, Some 100)) as Hr by (vm_compute; reflexivity).
  rewrite Hf in Hr. injection Hr as Hr1 Hr2.
  apply (resolved_follows_firing None 250 310 "token" (fun _ => false) d6 c d' 101 firing d6_outbox H (eq_sym Hty));
    [rewrite <- Hev; reflexivity|exact Hf|exact Hr1|congruence].
Defined.
