(* ===== verification/Governor.v ===== *)
(** * The upstream governor ([service/upstream_governor.go])

    One goroutine per upstream origin owns the queues of waiting requests and
    decides when the next one may go: not before the interval since the last
    grant has passed, not during a cooldown, and never more than
    [maxInFlight] at a time.  The goroutine is a state machine: its local
    variables are the record [OriginState], one iteration of its loop is
    [handle], the branch of the select, followed by [dispatch].

    Instants and durations are nanoseconds in [Z]; the zero [time.Time] is
    [zero_time].  The configuration is read anew by each use, since
    [Reconfigure] may replace it at any time.  A channel that is closed is
    reported as an output of the step. *)

From S2P Require Import Prelude.

Definition millisecond : Z := 1000000.
Definition second : Z := 1000000000.
Definition hour_ns : Z := 3600 * second.
(** time.Time{}, 0001-01-01 00:00:00 UTC. *)
Definition zero_time : Z := -62135596800 * second.

Inductive UpstreamRequestClass := UpstreamRequestRoutine | UpstreamRequestBulk.
#[export] Instance UpstreamRequestClass_eq_dec : EqDecision UpstreamRequestClass.
Proof. solve_decision. Defined.

(** ** Configuration *)
Module GovernorOptions.
Record UpstreamGovernorOptions := mk { Requests : Z; Window : Z; MaxInFlight : Z; HasClock : bool }.
End GovernorOptions.
Abbreviation UpstreamGovernorOptions := GovernorOptions.UpstreamGovernorOptions.

Module GovernorConfig.
Record upstreamGovernorConfig := mk { interval : Z; window : Z; maxInFlight : Z }.
End GovernorConfig.
Abbreviation upstreamGovernorConfig := GovernorConfig.upstreamGovernorConfig.

Definition or_default (value default : Z) : Z := if value =? 0 then default else value.

(** The error is the text of the errors.New. *)
Definition normalizeUpstreamGovernorOptions (options : UpstreamGovernorOptions) : result upstreamGovernorConfig :=
  let requests := or_default options.(GovernorOptions.Requests) 300 in
  let window := or_default options.(GovernorOptions.Window) (180 * second) in
  let maxInFlight := or_default options.(GovernorOptions.MaxInFlight) 4 in
  if (requests <? 0) || (window <? 0) || (maxInFlight <? 0) || negb options.(GovernorOptions.HasClock)
  then Err (ErrOther "upstream governor options are invalid")
  else
    let interval := Z.quot window requests in
    if interval <? 10 * millisecond
    then Err (ErrOther "upstream governor interval must be at least 10ms")
    else Ok (GovernorConfig.mk interval window maxInFlight).

(** The end of the cooldown a rate limit answer asks for. *)
Definition cooldown_until (config : upstreamGovernorConfig) (now retryAfter : Z) (hasRetryAfter : bool) : Z :=
  let delay := if hasRetryAfter && (0 <? retryAfter) then retryAfter else config.(GovernorConfig.window) in
  now + (if hour_ns <? delay then hour_ns else delay).

(** ** The goroutine *)
Module AcquireRequest.
Record upstreamAcquireRequest := mk { id : Z; class : UpstreamRequestClass }.
#[export] Instance request_eq_dec : EqDecision upstreamAcquireRequest.
Proof. solve_decision. Defined.
End AcquireRequest.
Export (hints) AcquireRequest.
Abbreviation upstreamAcquireRequest := AcquireRequest.upstreamAcquireRequest.

(** The local variables of [run]; [timerC] is the instant at which the armed
    timer fires. *)
Module Origin.
Record OriginState := mk {
  routine : list upstreamAcquireRequest; bulk : list upstreamAcquireRequest; granted : gset Z;
  inFlight : Z; nextAllowed : Z; lastGrantedAt : Z; cooldownUntil : Z; fairnessIndex : Z;
  timerC : option Z }.
#[export] Instance state_eta : RecordEta OriginState := fun s =>
  mk (routine s) (bulk s) (granted s) (inFlight s) (nextAllowed s) (lastGrantedAt s) (cooldownUntil s)
     (fairnessIndex s) (timerC s).
End Origin.
Export (hints) Origin.
Abbreviation OriginState := Origin.OriginState.

Definition initial_origin : OriginState := Origin.mk [] [] ∅ 0 zero_time zero_time zero_time 0 None.

(** The closure [remove]: the first request of that id is taken out. *)
Fixpoint remove (queue : list upstreamAcquireRequest) (id : Z) : list upstreamAcquireRequest * bool :=
  match queue with
  | [] => ([], false)
  | item :: rest =>
      if item.(AcquireRequest.id) =? id then (rest, true)
      else let '(kept, removed) := remove rest id in (item :: kept, removed)
  end.

(** The closure [pick]. *)
Definition pick (s : OriginState) : option (upstreamAcquireRequest * OriginState) :=
  match s.(Origin.routine), s.(Origin.bulk) with
  | [], [] => None
  | [], item :: rest => Some (item, s <| Origin.bulk := rest |>)
  | item :: rest, [] => Some (item, s <| Origin.routine := rest |>)
  | r :: routine, b :: bulk =>
      let useBulk := s.(Origin.fairnessIndex) =? 3 in
      let s := s <| Origin.fairnessIndex := (s.(Origin.fairnessIndex) + 1) `mod` 4 |> in
      if useBulk then Some (b, s <| Origin.bulk := bulk |>)
      else Some (r, s <| Origin.routine := routine |>)
  end.

(** The closure [resetTimer]. *)
Definition resetTimer (now delay : Z) (s : OriginState) : OriginState :=
  s <| Origin.timerC := Some (now + (if delay <? 0 then 0 else delay)) |>.

Definition waiting (s : OriginState) : bool :=
  negb (bool_decide (s.(Origin.routine) = [])) || negb (bool_decide (s.(Origin.bulk) = [])).

Definition ready_at (s : OriginState) : Z :=
  if s.(Origin.nextAllowed) <? s.(Origin.cooldownUntil) then s.(Origin.cooldownUntil) else s.(Origin.nextAllowed).

(** [readyAt.Sub(now)] saturates at the largest duration. *)
Definition sub_time (later earlier : Z) : Z := Z.min max_int64 (later - earlier).

(** The closure [dispatch]: the next state and the request granted, if any. *)
Definition dispatch (config : upstreamGovernorConfig) (now : Z) (s : OriginState)
  : OriginState * option upstreamAcquireRequest :=
  let s := s <| Origin.timerC := None |> in
  let full s := config.(GovernorConfig.maxInFlight) <=? s.(Origin.inFlight) in
  if full s || negb (waiting s) then (s, None)
  else if now <? ready_at s then (resetTimer now (sub_time (ready_at s) now) s, None)
  else
    match pick s with
    | None => (s, None)
    | Some (request, s) =>
        let s := s <| Origin.inFlight := s.(Origin.inFlight) + 1 |>
                   <| Origin.granted := {[request.(AcquireRequest.id)]} ∪ s.(Origin.granted) |>
                   <| Origin.lastGrantedAt := now |>
                   <| Origin.nextAllowed := now + config.(GovernorConfig.interval) |> in
        (if negb (full s) && waiting s then resetTimer now config.(GovernorConfig.interval) s else s,
         Some request)
    end.

(** What the select of the loop receives. *)
Inductive origin_event :=
| enqueue (request : upstreamAcquireRequest)
| cancel (id : Z)
| release (id : Z)
| cooldown (until : Z)
| reload
| timer.

(** A slot given back. *)
Definition free_slot (id : Z) (s : OriginState) : OriginState :=
  if bool_decide (id ∈ s.(Origin.granted))
  then s <| Origin.granted := s.(Origin.granted) ∖ {[id]} |> <| Origin.inFlight := s.(Origin.inFlight) - 1 |>
  else s.

(** The branches of the select; [config] is what a reload reads. *)
Definition handle (config : upstreamGovernorConfig) (event : origin_event) (s : OriginState) : OriginState :=
  match event with
  | enqueue request =>
      match request.(AcquireRequest.class) with
      | UpstreamRequestBulk => s <| Origin.bulk := s.(Origin.bulk) ++ [request] |>
      | UpstreamRequestRoutine => s <| Origin.routine := s.(Origin.routine) ++ [request] |>
      end
  | cancel id =>
      let '(routine, removed) := remove s.(Origin.routine) id in
      let s := s <| Origin.routine := routine |> in
      if removed then s
      else
        let '(bulk, removed) := remove s.(Origin.bulk) id in
        let s := s <| Origin.bulk := bulk |> in
        if removed then s else free_slot id s
  | release id => free_slot id s
  | cooldown until =>
      if s.(Origin.cooldownUntil) <? until then s <| Origin.cooldownUntil := until |> else s
  | reload =>
      if s.(Origin.lastGrantedAt) =? zero_time then s
      else
        let candidate := s.(Origin.lastGrantedAt) + config.(GovernorConfig.interval) in
        if s.(Origin.nextAllowed) <? candidate then s <| Origin.nextAllowed := candidate |> else s
  | timer => s <| Origin.timerC := None |>
  end.

(** One turn of the loop: an event, then the dispatch that opens the next turn. *)
Definition turn (reloaded config : upstreamGovernorConfig) (now : Z) (event : origin_event) (s : OriginState)
  : OriginState * option upstreamAcquireRequest :=
  dispatch config now (handle reloaded event s).

(** ** The callers of [Acquire]

    A caller draws an id, hands its request to the goroutine and waits until
    its channel is closed or its context is done.  A grant it has seen is a slot
    it holds until it calls the release function, which acts once. *)
Inductive caller := Waiting | Holding | Finished.
#[export] Instance caller_eq_dec : EqDecision caller.
Proof. solve_decision. Defined.

Module System.
Record System := mk {
  origin : OriginState; sequence : Z; closed : gset Z; callers : gmap Z caller }.
#[export] Instance system_eta : RecordEta System := fun s =>
  mk (origin s) (sequence s) (closed s) (callers s).
End System.
Export (hints) System.
Abbreviation System := System.System.

Definition initial_system : System := System.mk initial_origin 0 ∅ ∅.

(** The goroutine takes one turn; the channel of a granted request is closed. *)
Definition origin_turn (reloaded config : upstreamGovernorConfig) (now : Z) (event : origin_event) (s : System)
  : System :=
  let '(origin, request) := turn reloaded config now event s.(System.origin) in
  s <| System.origin := origin |>
    <| System.closed := match request with
                        | Some r => {[r.(AcquireRequest.id)]} ∪ s.(System.closed)
                        | None => s.(System.closed)
                        end |>.

Definition set_caller (id : Z) (c : caller) (s : System) : System :=
  s <| System.callers := <[id := c]> s.(System.callers) |>.

Section Steps.
(** The configurations that are ever stored. *)
Context (stored : upstreamGovernorConfig -> Prop).

Inductive system_step (s : System) : System -> Prop :=
| step_abandon : (* the context is done before the request is handed over *)
    system_step s (s <| System.sequence := s.(System.sequence) + 1 |>)
| step_enqueue reloaded config now class : stored reloaded -> stored config ->
    let id := s.(System.sequence) + 1 in
    system_step s (set_caller id Waiting (origin_turn reloaded config now (enqueue (AcquireRequest.mk id class))
                     (s <| System.sequence := id |>)))
| step_granted id : s.(System.callers) !! id = Some Waiting -> id ∈ s.(System.closed) ->
    system_step s (set_caller id Holding s)
| step_cancel reloaded config now id : stored reloaded -> stored config ->
    s.(System.callers) !! id = Some Waiting ->
    system_step s (set_caller id Finished (origin_turn reloaded config now (cancel id) s))
| step_release reloaded config now id : stored reloaded -> stored config ->
    s.(System.callers) !! id = Some Holding ->
    system_step s (set_caller id Finished (origin_turn reloaded config now (release id) s))
| step_released id : (* the release function again *)
    s.(System.callers) !! id = Some Finished -> system_step s s
| step_timer reloaded config now deadline : stored reloaded -> stored config ->
    s.(System.origin).(Origin.timerC) = Some deadline -> deadline <= now ->
    system_step s (origin_turn reloaded config now timer s)
| step_cooldown reloaded config observed seen now retryAfter hasRetryAfter :
    stored reloaded -> stored config -> stored observed ->
    system_step s (origin_turn reloaded config now (cooldown (cooldown_until observed seen retryAfter hasRetryAfter)) s)
| step_reload reloaded config now : stored reloaded -> stored config ->
    system_step s (origin_turn reloaded config now reload s).

Definition reachable_system (s : System) : Prop := rtc system_step initial_system s.
End Steps.
