(* ===== verification/GovernorBehaviour.v ===== *)
(** * What the upstream governor guarantees

    No slot is leaked and no more than the configured number is in use, grants
    keep their distance and respect a cooldown, no queued request is forgotten,
    and neither class of requests starves. *)

From S2P Require Import Prelude Governor.

(** ** The ids the goroutine knows *)
Definition queued (s : OriginState) : list Z :=
  (AcquireRequest.id <$> s.(Origin.routine)) ++ (AcquireRequest.id <$> s.(Origin.bulk)).

Record origin_inv (s : OriginState) : Prop := {
  origin_count : s.(Origin.inFlight) = Z.of_nat (size s.(Origin.granted));
  origin_queued : NoDup (queued s);
  origin_apart : forall id, id ∈ queued s -> id ∉ s.(Origin.granted);
  origin_turns : 0 <= s.(Origin.fairnessIndex) < 4
}.

Lemma remove_spec queue id : NoDup (AcquireRequest.id <$> queue) ->
  let '(kept, removed) := remove queue id in
  NoDup (AcquireRequest.id <$> kept) /\
  (forall x, x ∈ AcquireRequest.id <$> kept <-> x ∈ AcquireRequest.id <$> queue /\ x <> id) /\
  (removed = true <-> id ∈ AcquireRequest.id <$> queue).
Proof.
  induction queue as [|item rest IH]; [intros _; split; [constructor|split; [set_solver|set_solver]]|].
  rewrite fmap_cons, NoDup_cons. intros [Hitem Hnd]. specialize (IH Hnd). cbn [remove].
  destruct (AcquireRequest.id item =? id) eqn:E; to_prop.
  - split; [done|]. split; [|rewrite elem_of_cons; split; [by left|done]].
    intros x. rewrite elem_of_cons. split; [intros Hx; split; [by right|congruence]|intros [[->|?] ?]; [congruence|done]].
  - destruct (remove rest id) as [kept removed]. destruct IH as (A&B&C). rewrite fmap_cons.
    split; [apply NoDup_cons; rewrite B; tauto|]. split.
    + intros x. rewrite !elem_of_cons, B. split; [intros [->|[? ?]]; [auto|auto]|intros [[->|?] ?]; auto].
    + rewrite C, elem_of_cons. split; [by right|intros [?|?]; [congruence|done]].
Qed.

(** What a grant takes out of the queues. *)
Lemma pick_spec s r s' : pick s = Some (r, s') ->
  queued s ≡ₚ r.(AcquireRequest.id) :: queued s' /\
  s'.(Origin.granted) = s.(Origin.granted) /\ s'.(Origin.inFlight) = s.(Origin.inFlight) /\
  s'.(Origin.timerC) = s.(Origin.timerC) /\ s'.(Origin.cooldownUntil) = s.(Origin.cooldownUntil) /\
  (0 <= s.(Origin.fairnessIndex) < 4 -> 0 <= s'.(Origin.fairnessIndex) < 4).
Proof.
  unfold pick, queued. destruct (Origin.routine s) as [|a l] eqn:Er, (Origin.bulk s) as [|b m] eqn:Eb; [done| | |].
  - intros [= <- <-]. simpl. by rewrite Er.
  - intros [= <- <-]. simpl. rewrite Eb. done.
  - pose proof (Z.mod_pos_bound (Origin.fairnessIndex s + 1) 4 ltac:(lia)) as Hm.
    destruct (Origin.fairnessIndex s =? 3); intros [= <- <-]; simpl; (split; [|repeat split; lia]).
    + rewrite Er. simpl. etransitivity; [|apply Permutation_swap]. constructor. symmetry. apply Permutation_middle.
    + by rewrite Eb.
Qed.

Lemma waiting_queued s : waiting s = true <-> queued s <> [].
Proof. unfold waiting, queued. destruct (Origin.routine s), (Origin.bulk s); simpl; split; done. Qed.

Lemma pick_waiting s : waiting s = true -> is_Some (pick s).
Proof.
  unfold waiting, pick. destruct (Origin.routine s), (Origin.bulk s); simpl; try done.
  intros _. destruct (_ =? 3); eauto.
Qed.

(** ** One dispatch *)

(** The armed timer fires when the next request may go. *)
Definition timer_armed (config : upstreamGovernorConfig) (now : Z) (s : OriginState) : Prop :=
  if waiting s && (s.(Origin.inFlight) <? config.(GovernorConfig.maxInFlight))
  then exists deadline, s.(Origin.timerC) = Some deadline /\ now <= deadline /\
         deadline <= now + Z.max (sub_time (ready_at s) now) 0 /\
         (ready_at s - now <= max_int64 -> ready_at s <= deadline)
  else s.(Origin.timerC) = None.

Definition same_but_timer (s s' : OriginState) : Prop := s' = s <| Origin.timerC := s'.(Origin.timerC) |>.

Lemma ready_at_timer s d : ready_at (s <| Origin.timerC := d |>) = ready_at s.
Proof. done. Qed.
Lemma waiting_timer s d : waiting (s <| Origin.timerC := d |>) = waiting s.
Proof. done. Qed.

Lemma dispatch_none config now s s' : dispatch config now s = (s', None) ->
  same_but_timer s s' /\ timer_armed config now s' /\
  (waiting s = true -> s.(Origin.inFlight) < config.(GovernorConfig.maxInFlight) -> now < ready_at s).
Proof.
  unfold dispatch, timer_armed. simpl. destruct (_ <=? _) eqn:Ef; simpl; to_prop.
  - intros [= <-]. split; [done|]. rewrite (proj2 (Z.ltb_ge _ _)) by (simpl; lia). rewrite andb_false_r.
    split; [done|lia].
  - rewrite waiting_timer. destruct (waiting s) eqn:Ew; simpl.
    2: { intros [= <-]. split; [done|]. change (waiting (s <| Origin.timerC := None |>)) with (waiting s).
         rewrite Ew. by split. }
    rewrite ready_at_timer.
    destruct (now <? ready_at s) eqn:En; to_prop.
    + intros [= <-]. split; [done|]. split; [|done]. unfold resetTimer. simpl.
      rewrite !waiting_timer.
      rewrite Ew. rewrite (proj2 (Z.ltb_lt _ _)) by (simpl; lia). cbn [andb].
      rewrite !ready_at_timer.
      eexists. split; [reflexivity|]. unfold sub_time, max_int64.
      rewrite (proj2 (Z.ltb_ge (Z.min 9223372036854775807 (ready_at s - now)) 0)) by lia. lia.
    + destruct (pick_waiting (s <| Origin.timerC := None |>)) as [[r x] Hp]; [done|]. rewrite Hp. done.
Qed.

Lemma dispatch_some config now s s' r : dispatch config now s = (s', Some r) ->
  s.(Origin.inFlight) < config.(GovernorConfig.maxInFlight) /\ ready_at s <= now /\
  (exists x, pick (s <| Origin.timerC := None |>) = Some (r, x) /\
     s'.(Origin.routine) = x.(Origin.routine) /\ s'.(Origin.bulk) = x.(Origin.bulk) /\
     s'.(Origin.fairnessIndex) = x.(Origin.fairnessIndex)) /\
  s'.(Origin.inFlight) = s.(Origin.inFlight) + 1 /\
  s'.(Origin.granted) = {[r.(AcquireRequest.id)]} ∪ s.(Origin.granted) /\
  s'.(Origin.lastGrantedAt) = now /\ s'.(Origin.nextAllowed) = now + config.(GovernorConfig.interval) /\
  s'.(Origin.cooldownUntil) = s.(Origin.cooldownUntil) /\
  (0 <= config.(GovernorConfig.interval) <= max_int64 -> timer_armed config now s').
Proof.
  unfold dispatch. simpl. destruct (_ <=? _) eqn:Ef; simpl; to_prop; [done|].
  rewrite waiting_timer. destruct (waiting s) eqn:Ew; simpl; [|done].
  rewrite ready_at_timer.
  destruct (now <? ready_at s) eqn:En; to_prop; [done|].
  destruct (pick (s <| Origin.timerC := None |>)) as [[request x]|] eqn:Hp; [|done].
  pose proof (pick_spec _ _ _ Hp) as (_&Eg&Ei&Et&Ec&_). simpl in Eg, Ei, Et, Ec.
  intros [= <- <-]. rewrite <- Ei. split; [lia|]. split; [lia|]. split; [exists x; by destruct (_ && _)|].
  set (y := x <| Origin.inFlight := _ |> <| Origin.granted := _ |> <| Origin.lastGrantedAt := _ |>
              <| Origin.nextAllowed := _ |>).
  destruct (_ && _) eqn:Ea; simpl; rewrite <- ?Eg; repeat (split; [done|]); intros Hi; unfold timer_armed.
  - unfold resetTimer. rewrite waiting_timer. simpl. apply andb_true_iff in Ea as [Ea ->]. to_prop. simpl in Ea.
    rewrite (proj2 (Z.ltb_lt _ _)) by (simpl; lia). cbn [andb].
    rewrite !ready_at_timer.
    assert (Hr : ready_at y = now + GovernorConfig.interval config).
    { assert (Hc : s.(Origin.cooldownUntil) <= now).
      { clear -En. unfold ready_at in En. destruct (_ <? _) eqn:E1 in En; to_prop; lia. }
      unfold ready_at, y. simpl. rewrite Ec.
      by rewrite (proj2 (Z.ltb_ge (now + GovernorConfig.interval config) (Origin.cooldownUntil s))) by lia. }
    rewrite Hr. eexists. split; [reflexivity|].
    rewrite (proj2 (Z.ltb_ge (GovernorConfig.interval config) 0)) by lia. unfold sub_time. lia.
  - change (waiting y) with (waiting x). destruct (waiting x) eqn:Ewx; [|exact Et].
    change (waiting y) with (waiting x) in Ea. rewrite Ewx, andb_true_r in Ea. apply negb_false_iff in Ea. to_prop. simpl in Ea.
    rewrite (proj2 (Z.ltb_ge _ _)) by (simpl; lia). exact Et.
Qed.

(** ** The ids after a turn *)

(** The instants and the timer do not matter to the invariant. *)
Definition same_slots (s s' : OriginState) : Prop :=
  (s'.(Origin.routine), s'.(Origin.bulk), s'.(Origin.granted), s'.(Origin.inFlight), s'.(Origin.fairnessIndex))
  = (s.(Origin.routine), s.(Origin.bulk), s.(Origin.granted), s.(Origin.inFlight), s.(Origin.fairnessIndex)).

Lemma same_slots_effect s s' : same_slots s s' -> origin_inv s ->
  origin_inv s' /\ (forall x, x ∈ queued s' <-> x ∈ queued s) /\
  (forall x, x ∈ s'.(Origin.granted) <-> x ∈ s.(Origin.granted)).
Proof.
  intros [= Er Eb Eg Ei Ef] [A B C D].
  assert (Hq : queued s' = queued s) by (unfold queued; by rewrite Er, Eb).
  rewrite Hq, Eg. split; [|done]. split; by rewrite ?Hq, ?Eg, ?Ei, ?Ef.
Qed.

Lemma free_slot_effect id s : origin_inv s -> origin_inv (free_slot id s) /\ queued (free_slot id s) = queued s /\
  (forall x, x ∈ (free_slot id s).(Origin.granted) <-> x ∈ s.(Origin.granted) /\ x <> id).
Proof.
  intros [A B C D]. unfold free_slot. case_bool_decide as Hin.
  - split; [|split; [done|simpl; set_solver]]. split; simpl; [|done|intros x Hx; specialize (C x Hx); set_solver|done].
    rewrite A, size_difference by set_solver. rewrite size_singleton.
    assert (0 < size (Origin.granted s))%nat; [|lia]. apply Nat.neq_0_lt_0. intros E%size_empty_inv. set_solver.
  - split; [done|]. split; [done|]. set_solver.
Qed.

Definition fresh_event (event : origin_event) (s : OriginState) : Prop :=
  match event with
  | enqueue r => r.(AcquireRequest.id) ∉ queued s /\ r.(AcquireRequest.id) ∉ s.(Origin.granted)
  | _ => True
  end.

(** The ids queued and granted after the branch of an event. *)
Definition queued_after (event : origin_event) (s : OriginState) (x : Z) : Prop :=
  match event with
  | enqueue r => x ∈ queued s \/ x = r.(AcquireRequest.id)
  | cancel id => x ∈ queued s /\ x <> id
  | _ => x ∈ queued s
  end.
Definition granted_after (event : origin_event) (s : OriginState) (x : Z) : Prop :=
  match event with
  | release id | cancel id => x ∈ s.(Origin.granted) /\ x <> id
  | _ => x ∈ s.(Origin.granted)
  end.

Lemma cancel_effect config id s : origin_inv s -> origin_inv (handle config (cancel id) s) /\
  (forall x, x ∈ queued (handle config (cancel id) s) <-> x ∈ queued s /\ x <> id) /\
  (forall x, x ∈ (handle config (cancel id) s).(Origin.granted) <-> x ∈ s.(Origin.granted) /\ x <> id).
Proof.
  intros Hinv. pose proof Hinv as [A B C D]. unfold queued in B, C. apply NoDup_app in B as (B1&B2&B3).
  cbn [handle]. pose proof (remove_spec (Origin.routine s) id B1) as Hr.
  destruct (remove (Origin.routine s) id) as [routine removed] eqn:Er. destruct Hr as (R1&R2&R3).
  assert (Hr : forall x, x ∈ queued (s <| Origin.routine := routine |>) <->
     (x ∈ AcquireRequest.id <$> Origin.routine s /\ x <> id) \/ x ∈ AcquireRequest.id <$> Origin.bulk s).
  { intros x. unfold queued. simpl. by rewrite elem_of_app, R2. }
  assert (Hr1 : NoDup (queued (s <| Origin.routine := routine |>))).
  { unfold queued. simpl. apply NoDup_app. split; [done|]. split; [|done]. intros x Hx. apply R2 in Hx as [Hx _]. by apply B2. }
  destruct removed.
  - assert (Hin : id ∈ AcquireRequest.id <$> Origin.routine s) by by apply R3.
    split; [|split].
    + split; [done|done| |done]. intros x [[Hx _]|Hx]%Hr; apply C; set_solver.
    + intros x. rewrite Hr. unfold queued. rewrite elem_of_app. split; [|set_solver].
      intros [[? ?]|Hx]; [set_solver|]. split; [by right|intros ->; by apply (B2 id)].
    + intros x. simpl. split; [|tauto]. intros Hx. split; [done|intros ->]. by apply (C id); [set_solver|].
  - assert (Hno : id ∉ AcquireRequest.id <$> Origin.routine s) by (intros H%R3; done).
    cbn [Origin.bulk]. pose proof (remove_spec (Origin.bulk s) id B3) as Hb.
    change (Origin.bulk (s <| Origin.routine := routine |>)) with (Origin.bulk s).
    destruct (remove (Origin.bulk s) id) as [bulk removed] eqn:Eb. destruct Hb as (S1&S2&S3).
    set (s1 := s <| Origin.routine := routine |> <| Origin.bulk := bulk |>).
    assert (Hq : forall x, x ∈ queued s1 <-> x ∈ queued s /\ x <> id).
    { intros x. unfold queued, s1. simpl. rewrite !elem_of_app, R2, S2. tauto. }
    assert (Hinv1 : origin_inv s1).
    { split; [done| |intros x [Hx _]%Hq; by apply C|done]. unfold queued, s1. simpl. apply NoDup_app.
      split; [done|]. split; [|done]. intros x Hx Hx'. apply R2 in Hx as [Hx _]. apply S2 in Hx' as [Hx' _].
      by apply (B2 x). }
    destruct removed.
    + split; [done|]. split; [done|]. intros x. unfold s1. simpl. split; [|tauto]. intros Hx. split; [done|intros ->].
      apply (C id); [|done]. apply elem_of_app. right. by apply S3.
    + destruct (free_slot_effect id s1 Hinv1) as (F1&F2&F3). split; [done|]. split; [by rewrite F2|]. exact F3.
Qed.

Lemma handle_effect config event s : origin_inv s -> fresh_event event s ->
  origin_inv (handle config event s) /\
  (forall x, x ∈ queued (handle config event s) <-> queued_after event s x) /\
  (forall x, x ∈ (handle config event s).(Origin.granted) <-> granted_after event s x).
Proof.
  intros Hinv Hf. destruct event as [r|id|id|until| |]; cbn [fresh_event queued_after granted_after] in *.
  - destruct Hf as [Hq Hg]. destruct Hinv as [A B C D].
    assert (HP : queued (handle config (enqueue r) s) ≡ₚ AcquireRequest.id r :: queued s).
    { unfold queued, handle. destruct (AcquireRequest.class r); simpl; rewrite fmap_app; simpl.
      - rewrite <- app_assoc. simpl. symmetry. apply Permutation_middle.
      - rewrite app_assoc. rewrite Permutation_app_comm. done. }
    assert (Hg' : Origin.granted (handle config (enqueue r) s) = Origin.granted s).
    { unfold handle. by destruct (AcquireRequest.class r). }
    split; [|split; [intros x; rewrite HP, elem_of_cons; tauto|by rewrite Hg']].
    split; rewrite ?Hg', ?HP; [|by constructor| |].
    + rewrite <- A. unfold handle. by destruct (AcquireRequest.class r).
    + intros x. rewrite HP, elem_of_cons. intros [->|Hx]; [done|by apply C].
    + unfold handle. by destruct (AcquireRequest.class r).
  - by apply cancel_effect.
  - destruct (free_slot_effect id s Hinv) as (F1&F2&F3). cbn [handle]. split; [done|]. split; [by rewrite F2|done].
  - apply same_slots_effect; [|done]. cbn [handle]. by destruct (_ <? _).
  - apply same_slots_effect; [|done]. cbn [handle]. destruct (_ =? _); [done|]. cbv zeta. by destruct (_ <? _).
  - by apply same_slots_effect.
Qed.

Lemma dispatch_effect config now s s' g : origin_inv s -> dispatch config now s = (s', g) ->
  origin_inv s' /\
  (forall x, x ∈ queued s <-> x ∈ queued s' \/ exists r, g = Some r /\ x = r.(AcquireRequest.id)) /\
  (forall x, x ∈ s'.(Origin.granted) <-> x ∈ s.(Origin.granted) \/ exists r, g = Some r /\ x = r.(AcquireRequest.id)) /\
  (forall r, g = Some r -> r.(AcquireRequest.id) ∉ queued s').
Proof.
  intros Hinv H. pose proof Hinv as [A B C D]. destruct g as [r|].
  - apply dispatch_some in H as (_&_&(x&Hp&Er&Eb&Ef)&Hi&Hg&_).
    apply pick_spec in Hp as (HP&_&_&_&_&Hfair). simpl in Hfair. rewrite <- Ef in Hfair.
    assert (HQ : queued s ≡ₚ AcquireRequest.id r :: queued s') by (unfold queued in *; by rewrite Er, Eb).
    assert (Hnd : NoDup (AcquireRequest.id r :: queued s')) by (by rewrite <- HQ). apply NoDup_cons in Hnd as [Hr Hnd].
    assert (Hnew : AcquireRequest.id r ∉ Origin.granted s) by (apply C; rewrite HQ; by left).
    split; [split|split; [|split]].
    + rewrite Hi, Hg, A, size_union by set_solver. rewrite size_singleton. lia.
    + done.
    + intros y Hy. rewrite Hg, elem_of_union, elem_of_singleton. intros [->|Hy']; [done|].
      apply (C y); [rewrite HQ; by right|done].
    + by apply Hfair.
    + intros y. rewrite HQ, elem_of_cons. split; [intros [->|?]; eauto|intros [?|(?&[= <-]&->)]; auto].
    + intros y. rewrite Hg, elem_of_union, elem_of_singleton. split; [intros [->|?]; eauto|intros [?|(?&[= <-]&->)]; auto].
    + by intros ? [= <-].
  - apply dispatch_none in H as (Hs&_&_). destruct (same_slots_effect s s') as (F1&F2&F3); [by rewrite Hs|done|].
    split; [done|]. split; [|split; [|done]]; intros y; rewrite ?F2, ?F3; (split; [auto|intros [?|(?&?&_)]; done]).
Qed.

(** ** Callers and slots *)
Definition holds_slot (s : System) (id : Z) : Prop :=
  s.(System.callers) !! id = Some Holding \/
  s.(System.callers) !! id = Some Waiting /\ id ∈ s.(System.closed).

Record system_inv (s : System) : Prop := {
  system_origin : origin_inv s.(System.origin);
  system_granted : forall id, id ∈ s.(System.origin).(Origin.granted) <-> holds_slot s id;
  system_queued : forall id, id ∈ queued s.(System.origin) <->
    s.(System.callers) !! id = Some Waiting /\ id ∉ s.(System.closed);
  system_ids : forall id, is_Some (s.(System.callers) !! id) -> id <= s.(System.sequence);
  system_closed : forall id, id ∈ s.(System.closed) -> is_Some (s.(System.callers) !! id)
}.

(** What a turn of the goroutine does to the ids, the callers aside. *)
Lemma origin_turn_effect reloaded config now event s :
  origin_inv s.(System.origin) -> fresh_event event s.(System.origin) ->
  let s' := origin_turn reloaded config now event s in
  origin_inv s'.(System.origin) /\ s'.(System.callers) = s.(System.callers) /\
  s'.(System.sequence) = s.(System.sequence) /\
  exists grant : Z -> Prop,
    (forall id, grant id -> queued_after event s.(System.origin) id) /\
    (forall id, id ∈ queued s'.(System.origin) <-> queued_after event s.(System.origin) id /\ ~ grant id) /\
    (forall id, id ∈ s'.(System.origin).(Origin.granted) <-> granted_after event s.(System.origin) id \/ grant id) /\
    (forall id, id ∈ s'.(System.closed) <-> id ∈ s.(System.closed) \/ grant id).
Proof.
  intros Hinv Hf. cbv zeta. unfold origin_turn, turn.
  destruct (handle_effect reloaded event _ Hinv Hf) as (H1&H2&H3).
  destruct (dispatch config now _) as [o g] eqn:Hd.
  destruct (dispatch_effect _ _ _ _ _ H1 Hd) as (D1&D2&D3&D4). simpl. split; [done|]. split; [done|]. split; [done|].
  exists (fun id => exists r, g = Some r /\ id = AcquireRequest.id r). split; [|split; [|split]].
  - intros id Hg. apply H2, D2. by right.
  - intros id. rewrite <- H2, D2. split; [|tauto]. intros Hq. split; [by left|]. intros (r&Hr&->). by apply (D4 r Hr).
  - intros id. by rewrite D3, H3.
  - intros id. destruct g as [r|]; [|by split; [left|intros [?|(?&?&_)]]].
    rewrite elem_of_union, elem_of_singleton. split; [intros [->|?]; eauto|intros [?|(?&[= <-]&->)]; auto].
Qed.

(** A turn that takes no caller's part: the timer, a cooldown, a reload. *)
Definition neutral (event : origin_event) : Prop :=
  match event with cooldown _ | reload | timer => True | _ => False end.

Lemma neutral_turn reloaded config now event s : neutral event -> system_inv s ->
  system_inv (origin_turn reloaded config now event s).
Proof.
  intros Hn [A B C D E].
  destruct (origin_turn_effect reloaded config now event s A) as (T1&T2&T3&grant&G1&G2&G3&G4); [by destruct event|].
  assert (Hq : forall id, queued_after event s.(System.origin) id <-> id ∈ queued s.(System.origin)) by (by destruct event).
  assert (Hg : forall id, granted_after event s.(System.origin) id <-> id ∈ s.(System.origin).(Origin.granted)) by (by destruct event).
  split; rewrite ?T2, ?T3; try done.
  - intros id. rewrite G3, Hg, B. unfold holds_slot. rewrite T2, G4. specialize (G1 id). rewrite Hq, C in G1. tauto.
  - intros id. rewrite G2, Hq, C, ?T2, G4. tauto.
  - intros id [Hid|Hid]%G4; [by apply E|]. apply G1, Hq, C in Hid as [-> _]. eauto.
Qed.

(** A caller who leaves. *)
Lemma leaving_turn reloaded config now event id s : system_inv s ->
  (event = cancel id /\ s.(System.callers) !! id = Some Waiting) \/
  (event = release id /\ s.(System.callers) !! id = Some Holding) ->
  system_inv (set_caller id Finished (origin_turn reloaded config now event s)).
Proof.
  intros [A B C D E] Hev.
  assert (Hf : fresh_event event s.(System.origin)) by (by destruct Hev as [[-> _]|[-> _]]).
  destruct (origin_turn_effect reloaded config now event s A Hf) as (T1&T2&T3&grant&G1&G2&G3&G4).
  assert (Hq : forall x, queued_after event s.(System.origin) x <-> x ∈ queued s.(System.origin) /\ x <> id).
  { intros x. destruct Hev as [[-> Hc]|[-> Hc]]; [done|]. simpl. split; [|tauto]. intros Hx. split; [done|intros ->].
    apply C in Hx as [Hx _]. congruence. }
  assert (Hg : forall x, granted_after event s.(System.origin) x <-> x ∈ s.(System.origin).(Origin.granted) /\ x <> id)
    by (by destruct Hev as [[-> _]|[-> _]]).
  assert (Hno : ~ grant id) by (intros H; apply G1, Hq in H as [_ ?]; done).
  split; simpl; rewrite ?T2, ?T3.
  - done.
  - intros x. rewrite G3, Hg, B. unfold holds_slot. simpl. rewrite T2, G4. specialize (G1 x). rewrite Hq, C in G1.
    destruct (decide (x = id)) as [->|Hx]; [rewrite lookup_insert_eq|rewrite lookup_insert_ne by done; tauto].
    split; [tauto|intros [?|[? _]]; done].
  - intros x. rewrite G2, Hq, C, G4.
    destruct (decide (x = id)) as [->|Hx]; [rewrite lookup_insert_eq|rewrite lookup_insert_ne by done; tauto].
    split; [tauto|intros [? _]; done].
  - intros x. rewrite lookup_insert_is_Some. intros [<-|[_ Hx]]; [|by apply D].
    apply D. destruct Hev as [[_ ->]|[_ ->]]; eauto.
  - intros x Hx. apply lookup_insert_is_Some. destruct (decide (id = x)); [by left|right; split; [done|]].
    apply G4 in Hx as [Hx|Hx]; [by apply E|]. apply G1, Hq in Hx as [Hx _]. apply C in Hx as [-> _]. eauto.
Qed.

Lemma entering_turn reloaded config now class s : system_inv s ->
  let id := s.(System.sequence) + 1 in
  system_inv (set_caller id Waiting (origin_turn reloaded config now (enqueue (AcquireRequest.mk id class))
               (s <| System.sequence := id |>))).
Proof.
  intros [A B C D E]. cbv zeta. set (id := System.sequence s + 1).
  assert (Hnew : s.(System.callers) !! id = None).
  { apply eq_None_not_Some. intros H%D. unfold id in H. lia. }
  assert (Hncl : id ∉ s.(System.closed)) by (intros H%E; rewrite Hnew in H; by destruct H).
  set (s1 := s <| System.sequence := id |>). set (event := enqueue (AcquireRequest.mk id class)).
  assert (Hf : fresh_event event s1.(System.origin)).
  { simpl. split; [intros [H _]%C; congruence|]. intros H%B. unfold holds_slot in H. rewrite Hnew in H.
    destruct H as [?|[? _]]; done. }
  destruct (origin_turn_effect reloaded config now event s1 A Hf) as (T1&T2&T3&grant&G1&G2&G3&G4).
  assert (Hqid : id ∉ queued s.(System.origin)) by (intros [H _]%C; congruence).
  split; simpl; rewrite ?T2, ?T3; simpl.
  - done.
  - intros x. rewrite G3. cbn [event granted_after]. change (System.origin s1) with (System.origin s). rewrite B.
    unfold holds_slot. simpl. rewrite T2, G4. simpl. specialize (G1 x). cbn [event queued_after] in G1. simpl in G1.
    rewrite C in G1. destruct (decide (x = id)) as [->|Hx].
    + rewrite Hnew, lookup_insert_eq. split; [intros [[?|[? _]]|?]; [done|done|by right; split; [|right]]|].
      intros [?|[_ [?|?]]]; [done|done|by right].
    + rewrite lookup_insert_ne by done. tauto.
  - intros x. rewrite G2. cbn [event queued_after]. change (System.origin s1) with (System.origin s).
    rewrite C, G4. simpl. destruct (decide (x = id)) as [->|Hx].
    + rewrite lookup_insert_eq. tauto.
    + rewrite lookup_insert_ne by done. tauto.
  - intros x. rewrite lookup_insert_is_Some. intros [<-|[_ Hx]]; [lia|]. apply D in Hx. unfold id. lia.
  - intros x Hx. apply lookup_insert_is_Some. destruct (decide (id = x)); [by left|right; split; [done|]].
    apply G4 in Hx as [Hx|Hx]; [by apply E|]. apply G1 in Hx. cbn [event queued_after] in Hx. simpl in Hx.
    destruct Hx as [Hx|Hx]; [|congruence]. apply C in Hx as [-> _]. eauto.
Qed.

Lemma system_step_keeps stored s s' : system_inv s -> system_step stored s s' -> system_inv s'.
Proof.
  intros Hinv [].
  - destruct Hinv as [A B C D E]. split; try done. intros id Hid. simpl. apply D in Hid. lia.
  - by apply entering_turn.
  - destruct Hinv as [A B C D E]. split; simpl; try done.
    + intros x. rewrite B. unfold holds_slot. simpl.
      destruct (decide (x = id)) as [->|Hx]; [rewrite lookup_insert_eq; split; [by left|by right]|by rewrite lookup_insert_ne].
    + intros x. rewrite C. destruct (decide (x = id)) as [->|Hx]; [|by rewrite lookup_insert_ne].
      rewrite lookup_insert_eq. split; [tauto|by intros [? _]].
    + intros x. rewrite lookup_insert_is_Some. intros [<-|[_ Hx]]; apply D; [eauto|done].
    + intros x Hx. apply lookup_insert_is_Some. destruct (decide (id = x)); [by left|right; split; [done|by apply E]].
  - apply leaving_turn; [done|]. by left.
  - apply leaving_turn; [done|]. by right.
  - done.
  - by apply neutral_turn.
  - by apply neutral_turn.
  - by apply neutral_turn.
Qed.

Lemma initial_system_inv : system_inv initial_system.
Proof.
  split; simpl; try done.
  - split; simpl; [done|constructor|by intros id ?%not_elem_of_nil|lia].
  - intros id. unfold holds_slot. simpl. rewrite lookup_empty. split; [set_solver|intros [?|[? _]]; done].
  - intros id. rewrite lookup_empty. split; [by intros ?%not_elem_of_nil|by intros [? _]].
  - intros id [? H]. by rewrite lookup_empty in H.
Qed.

Lemma reachable_system_inv stored s : reachable_system stored s -> system_inv s.
Proof.
  intros Hr. assert (H0 := initial_system_inv). induction Hr as [|x y z Hxy _ IH]; [done|].
  apply IH. by eapply system_step_keeps.
Qed.

(** ** How many slots are in use *)
Definition holders (s : System) : gmap Z caller := base.filter (fun p => p.2 = Holding) s.(System.callers).

Lemma handle_inFlight config event s : (handle config event s).(Origin.inFlight) <= s.(Origin.inFlight).
Proof.
  assert (Hfree : forall id x, (free_slot id x).(Origin.inFlight) <= x.(Origin.inFlight)).
  { intros id x. unfold free_slot. case_bool_decide; simpl; lia. }
  destruct event as [r|id|id|until| |]; cbn [handle].
  - destruct (AcquireRequest.class r); simpl; lia.
  - destruct (remove _ id) as [l [|]]; simpl; [lia|]. destruct (remove _ id) as [m [|]]; simpl; [lia|].
    etransitivity; [apply Hfree|]. done.
  - apply Hfree.
  - destruct (_ <? _); simpl; lia.
  - destruct (_ =? _); [lia|]. cbv zeta. destruct (_ <? _); simpl; lia.
  - simpl. lia.
Qed.

Lemma origin_turn_inFlight reloaded config now event s M : config.(GovernorConfig.maxInFlight) <= M ->
  s.(System.origin).(Origin.inFlight) <= M ->
  (origin_turn reloaded config now event s).(System.origin).(Origin.inFlight) <= M.
Proof.
  intros Hc Hs. pose proof (handle_inFlight reloaded event s.(System.origin)) as Hh.
  unfold origin_turn, turn. destruct (dispatch config now _) as [o g] eqn:Hd. simpl. destruct g as [r|].
  - apply dispatch_some in Hd as (H1&_&_&->&_). lia.
  - apply dispatch_none in Hd as (->&_&_). simpl. lia.
Qed.

Lemma slots_bounded stored s M : 0 <= M -> (forall c, stored c -> c.(GovernorConfig.maxInFlight) <= M) ->
  reachable_system stored s -> s.(System.origin).(Origin.inFlight) <= M.
Proof.
  intros HM Hstored Hr. assert (H0 : initial_system.(System.origin).(Origin.inFlight) <= M) by (simpl; lia).
  induction Hr as [|x y z Hxy _ IH]; [done|]. apply IH. clear IH.
  destruct Hxy; try done; cbn [set_caller System.origin]; apply origin_turn_inFlight; auto.
Qed.

(** C36: in every reachable state of an origin and its callers, whatever the
    order in which requests, grants, cancellations, releases, timers, cooldowns
    and reconfigurations occur: the requests queued are those of the callers
    still waiting, the slots in use are those of the callers that hold one or
    have a grant they have not seen, so that a cancelled or released caller
    never leaks a slot and when every caller has finished none is in use; and
    there are never more slots in use, and never more callers holding one,
    than the largest limit ever configured. *)
Theorem governor_slots stored s M : 0 <= M -> (forall c, stored c -> c.(GovernorConfig.maxInFlight) <= M) ->
  reachable_system stored s ->
  (forall id, id ∈ queued s.(System.origin) <->
     s.(System.callers) !! id = Some Waiting /\ id ∉ s.(System.closed)) /\
  (forall id, id ∈ s.(System.origin).(Origin.granted) <-> holds_slot s id) /\
  s.(System.origin).(Origin.inFlight) = Z.of_nat (size s.(System.origin).(Origin.granted)) /\
  s.(System.origin).(Origin.inFlight) <= M /\ Z.of_nat (size (holders s)) <= M /\
  ((forall id c, s.(System.callers) !! id = Some c -> c = Finished) ->
     s.(System.origin).(Origin.inFlight) = 0 /\ queued s.(System.origin) = []).
Proof.
  intros HM Hstored Hr. pose proof (slots_bounded stored s M HM Hstored Hr) as Hb.
  apply reachable_system_inv in Hr as [[A _ _ _] B C _ _].
  split; [done|]. split; [done|]. split; [done|]. split; [done|]. split.
  - etransitivity; [|exact Hb]. rewrite A. apply Nat2Z.inj_le. rewrite <- (size_dom (D := gset Z)). apply subseteq_size.
    intros id (c&Hc)%elem_of_dom. apply B. left. apply map_lookup_filter_Some in Hc as [Hc Hh]. simpl in Hh. by subst.
  - intros Hfin. split.
    + rewrite A. assert (Origin.granted (System.origin s) ≡ ∅) as ->%leibniz_equiv; [|done].
      apply set_equiv. intros id. split; [|set_solver]. intros [H|[H _]]%B; by apply Hfin in H.
    + destruct (queued _) as [|id l] eqn:E; [done|]. exfalso.
      assert (Hin : id ∈ id :: l) by by left. apply C in Hin as [H _]. by apply Hfin in H.
Qed.

(** ** Runs of one origin *)
Record governor_turn := {
  turn_reloaded : upstreamGovernorConfig; turn_config : upstreamGovernorConfig; turn_now : Z; turn_event : origin_event }.

(** The state after the turns, and the instants and requests of the grants. *)
Fixpoint run_origin (turns : list governor_turn) (s : OriginState)
  : OriginState * list (Z * upstreamAcquireRequest) :=
  match turns with
  | [] => (s, [])
  | t :: rest =>
      let '(s1, g) := turn t.(turn_reloaded) t.(turn_config) t.(turn_now) t.(turn_event) s in
      let '(s', grants) := run_origin rest s1 in
      (s', match g with Some r => (t.(turn_now), r) :: grants | None => grants end)
  end.

Lemma handle_later config event s :
  s.(Origin.nextAllowed) <= (handle config event s).(Origin.nextAllowed) /\
  s.(Origin.cooldownUntil) <= (handle config event s).(Origin.cooldownUntil).
Proof.
  assert (Hfree : forall id x, (free_slot id x).(Origin.nextAllowed) = x.(Origin.nextAllowed) /\
     (free_slot id x).(Origin.cooldownUntil) = x.(Origin.cooldownUntil)).
  { intros id x. unfold free_slot. by case_bool_decide. }
  destruct event as [r|id|id|until| |]; cbn [handle].
  - destruct (AcquireRequest.class r); simpl; lia.
  - destruct (remove _ id) as [l [|]]; simpl; [lia|]. destruct (remove _ id) as [m [|]]; simpl; [lia|].
    destruct (Hfree id (s <| Origin.routine := l |> <| Origin.bulk := m |>)) as [-> ->]. simpl. lia.
  - destruct (Hfree id s) as [-> ->]. lia.
  - destruct (_ <? _) eqn:E; to_prop; simpl; lia.
  - destruct (_ =? _); [lia|]. cbv zeta. destruct (_ <? _) eqn:E; to_prop; simpl; lia.
  - simpl. lia.
Qed.

(** One turn: no grant before the instants the state names, the interval after
    a grant, and instants that only move forward otherwise. *)
Lemma turn_instants t s I : I <= t.(turn_config).(GovernorConfig.interval) -> forall s1 g,
  turn t.(turn_reloaded) t.(turn_config) t.(turn_now) t.(turn_event) s = (s1, g) ->
  s.(Origin.cooldownUntil) <= s1.(Origin.cooldownUntil) /\
  match g with
  | Some _ => s.(Origin.nextAllowed) <= t.(turn_now) /\ s.(Origin.cooldownUntil) <= t.(turn_now) /\
              t.(turn_now) + I <= s1.(Origin.nextAllowed)
  | None => s.(Origin.nextAllowed) <= s1.(Origin.nextAllowed)
  end.
Proof.
  intros HI s1 g H. unfold turn in H. destruct (handle_later (turn_reloaded t) (turn_event t) s) as [Hn Hc].
  destruct g as [r|].
  - apply dispatch_some in H as (_&Hr&_&_&_&_&Hna&Hco&_). unfold ready_at in Hr.
    destruct (_ <? _) eqn:E in Hr; to_prop; rewrite Hna, Hco; lia.
  - apply dispatch_none in H as (->&_&_). simpl. lia.
Qed.

Lemma run_instants turns I : (forall t, t ∈ turns -> I <= t.(turn_config).(GovernorConfig.interval)) -> 0 <= I -> forall s b,
  b <= s.(Origin.nextAllowed) ->
  forall i g, (run_origin turns s).2 !! i = Some g ->
    b + Z.of_nat i * I <= g.1 /\ s.(Origin.cooldownUntil) <= g.1.
Proof.
  intros Hint HI. induction turns as [|t turns IH]; intros s b Hb i g Hg; [simpl in Hg; by rewrite lookup_nil in Hg|].
  cbn [run_origin] in Hg. destruct (turn _ _ _ _ s) as [s1 gr] eqn:Ht.
  apply (turn_instants t s I) in Ht as [Hco Ht]; [|apply Hint; by left].
  specialize (IH (fun x Hx => Hint x (list_elem_of_further x t turns Hx)) s1).
  destruct (run_origin turns s1) as [s' grants] eqn:Hrun. simpl in Hg, IH.
  destruct gr as [r|]; [|destruct (IH b ltac:(lia) i g Hg); lia].
  destruct i as [|i]; [injection Hg as <-; simpl; lia|]. simpl in Hg.
  destruct (IH (t.(turn_now) + I) ltac:(lia) i g Hg). lia.
Qed.

(** Grants follow each other at a distance of at least [I]. *)
Definition spaced (I : Z) (times : list Z) : Prop := StronglySorted (fun a b => a + I <= b) times.

Lemma run_spaced turns I : (forall t, t ∈ turns -> I <= t.(turn_config).(GovernorConfig.interval)) -> 0 <= I ->
  forall s, spaced I ((run_origin turns s).2).*1.
Proof.
  intros Hint HI. induction turns as [|t turns IH]; intros s; [constructor|].
  assert (Hrest : forall x, x ∈ turns -> I <= x.(turn_config).(GovernorConfig.interval)) by (intros x Hx; apply Hint; by right).
  specialize (IH Hrest). cbn [run_origin]. destruct (turn _ _ _ _ s) as [s1 gr] eqn:Ht.
  apply (turn_instants t s I) in Ht as [_ Ht]; [|apply Hint; by left]. specialize (IH s1).
  pose proof (run_instants turns I Hrest HI s1) as Hb. destruct (run_origin turns s1) as [s' grants]. simpl in *.
  destruct gr as [r|]; [|done]. simpl. constructor; [done|]. rewrite List.Forall_forall. intros x Hx%list_elem_of_In.
  apply list_elem_of_fmap in Hx as (g&->&(i&Hg)%list_elem_of_lookup).
  destruct (Hb (turn_now t + I) ltac:(lia) i g Hg). lia.
Qed.

(** A window of that length holds few spaced instants. *)
Lemma spaced_window I times start width : 0 <= I -> spaced I times ->
  (forall x, x ∈ times -> start <= x < start + width) -> times <> [] -> (Z.of_nat (length times) - 1) * I < width.
Proof.
  intros HI Hs. revert start width. induction Hs as [|x l Hs IH Hf]; intros start width Hin Hne; [done|].
  destruct l as [|y l]; [specialize (Hin x (list_elem_of_here _ _)); simpl; lia|].
  assert (Hx : start <= x < start + width) by (apply Hin; by left).
  rewrite List.Forall_forall in Hf.
  assert (Hy : x + I <= y) by (apply Hf; by left).
  specialize (IH (start + I) (width - I)). assert (Hrest : (Z.of_nat (length (y :: l)) - 1) * I < width - I).
  { apply IH; [|done]. intros z Hz. assert (x + I <= z) by by apply Hf, list_elem_of_In.
    specialize (Hin z (list_elem_of_further _ _ _ Hz)). lia. }
  simpl length in *. lia.
Qed.

(** The grants whose instant lies in [start, start + width). *)
Definition grants_within (start width : Z) (grants : list (Z * upstreamAcquireRequest)) : list Z :=
  List.filter (fun x => (start <=? x) && (x <? start + width)) grants.*1.

Lemma normalized_interval options config : normalizeUpstreamGovernorOptions options = Ok config ->
  let requests := or_default options.(GovernorOptions.Requests) 300 in
  let window := or_default options.(GovernorOptions.Window) (180 * second) in
  0 < requests /\ 10 * millisecond <= config.(GovernorConfig.interval) /\ config.(GovernorConfig.window) = window /\
  0 < config.(GovernorConfig.maxInFlight) /\
  window = config.(GovernorConfig.interval) * requests + Z.rem window requests /\ 0 <= Z.rem window requests < requests.
Proof.
  unfold normalizeUpstreamGovernorOptions. cbv zeta. set (requests := or_default _ 300). set (window := or_default _ (180 * second)).
  set (flight := or_default _ 4). destruct (_ || _) eqn:Eg; [done|]. destruct (_ <? 10 * millisecond) eqn:Ei; [done|].
  intros [= <-]. simpl. to_prop.
  assert (Hr : requests <> 0) by (unfold requests, or_default; destruct (_ =? 0) eqn:E; to_prop; lia).
  assert (Hm : flight <> 0) by (unfold flight, or_default; destruct (_ =? 0) eqn:E; to_prop; lia).
  pose proof (Z.quot_rem' window requests) as Hq. pose proof (Z.rem_bound_pos window requests ltac:(lia) ltac:(lia)) as Hb.
  lia.
Qed.


(** ** No queued request is forgotten *)
Lemma turn_arms_timer reloaded config now event s s' g :
  0 <= config.(GovernorConfig.interval) <= max_int64 -> turn reloaded config now event s = (s', g) ->
  timer_armed config now s'.
Proof.
  intros Hi H. unfold turn in H. destruct g as [r|].
  - apply dispatch_some in H as (_&_&_&_&_&_&_&_&Ht). by apply Ht.
  - by apply dispatch_none in H as (_&Ht&_).
Qed.

(** After every turn of the loop, if a request waits and a slot is free then
    the timer is armed, not before now and not later than the instant from
    which the request may go; and when it fires, at any instant from its
    deadline on, a request is granted.  With no free slot the timer rests, and a
    slot that is released after the request may go grants one at once. *)
Theorem governor_wakes reloaded config now event s s' g :
  0 <= config.(GovernorConfig.interval) <= max_int64 ->
  turn reloaded config now event s = (s', g) -> waiting s' = true ->
  (s'.(Origin.inFlight) < config.(GovernorConfig.maxInFlight) ->
     exists deadline, s'.(Origin.timerC) = Some deadline /\ now <= deadline /\
       deadline <= now + Z.max (ready_at s' - now) 0 /\
       (ready_at s' - now <= max_int64 -> forall later reloaded', deadline <= later ->
          exists s2 r, turn reloaded' config later timer s' = (s2, Some r))) /\
  (config.(GovernorConfig.maxInFlight) <= s'.(Origin.inFlight) ->
     s'.(Origin.timerC) = None /\
     (s'.(Origin.inFlight) = config.(GovernorConfig.maxInFlight) -> forall later reloaded' id,
        ready_at s' <= later -> id ∈ s'.(Origin.granted) ->
        exists s2 r, turn reloaded' config later (release id) s' = (s2, Some r))).
Proof.
  intros Hi H Hw. apply turn_arms_timer in H; [|done]. unfold timer_armed in H. rewrite Hw in H. simpl in H.
  assert (Hgrant : forall later x, waiting x = true -> x.(Origin.inFlight) < config.(GovernorConfig.maxInFlight) ->
    ready_at x <= later -> exists s2 r, dispatch config later x = (s2, Some r)).
  { intros later x Hx Hfree Hready. destruct (dispatch config later x) as [s2 [r|]] eqn:Hd; [by eauto|].
    apply dispatch_none in Hd as (_&_&Hd). specialize (Hd Hx Hfree). lia. }
  split.
  - intros Hfree. rewrite (proj2 (Z.ltb_lt _ _) Hfree) in H. destruct H as (deadline&Ht&Hd1&Hd2&Hd3).
    exists deadline. split; [done|]. split; [done|]. split; [unfold sub_time in Hd2; lia|].
    intros Hsat later reloaded' Hl. specialize (Hd3 Hsat). unfold turn. cbn [handle].
    apply Hgrant; [done|done|]. rewrite ready_at_timer. lia.
  - intros Hfull. rewrite (proj2 (Z.ltb_ge _ _) Hfull) in H. split; [done|]. intros Heq later reloaded' id Hl Hid.
    unfold turn. cbn [handle]. unfold free_slot. rewrite bool_decide_eq_true_2 by done.
    apply Hgrant; [done|simpl; lia|done].
Qed.

(** ** Bounded waiting *)
Fixpoint index_of (id : Z) (queue : list upstreamAcquireRequest) : option nat :=
  match queue with
  | [] => None
  | item :: rest => if item.(AcquireRequest.id) =? id then Some 0%nat else S <$> index_of id rest
  end.

(** An upper bound of the grants that can come before a queued request. *)
Definition rank (id : Z) (s : OriginState) : option Z :=
  match index_of id s.(Origin.routine) with
  | Some p => Some (2 * Z.of_nat p + (if s.(Origin.fairnessIndex) =? 3 then 1 else 0))
  | None => (fun p => 4 * Z.of_nat p + (3 - s.(Origin.fairnessIndex))) <$> index_of id s.(Origin.bulk)
  end.

Lemma index_of_app id queue item p : index_of id queue = Some p -> index_of id (queue ++ [item]) = Some p.
Proof.
  revert p. induction queue as [|x queue IH]; intros p; simpl; [done|]. destruct (_ =? id); [done|].
  intros (q&Hq&->)%fmap_Some. by rewrite (IH q Hq).
Qed.

Lemma index_of_remove id other queue p : other <> id -> index_of id queue = Some p ->
  exists q, index_of id (remove queue other).1 = Some q /\ (q <= p)%nat.
Proof.
  intros Hne. revert p. induction queue as [|x queue IH]; intros p; simpl; [done|].
  destruct (AcquireRequest.id x =? other) eqn:Eo; to_prop.
  - rewrite (proj2 (Z.eqb_neq _ _)) by congruence. intros (q&Hq&->)%fmap_Some. simpl. eauto.
  - destruct (remove queue other) as [kept removed] eqn:Er. simpl.
    destruct (AcquireRequest.id x =? id) eqn:Ei; [intros [= <-]; eauto|].
    intros (q&Hq&->)%fmap_Some. destruct (IH q Hq) as (q'&Hq'&Hle). simpl in Hq'. rewrite Hq'. simpl.
    exists (S q'). split; [done|lia].
Qed.

Lemma index_of_removed_none id other queue : other <> id -> index_of id queue = None ->
  index_of id (remove queue other).1 = None.
Proof.
  intros Hne. induction queue as [|x queue IH]; simpl; [done|].
  destruct (AcquireRequest.id x =? id) eqn:Ei; [done|]. intros Hn%fmap_None. specialize (IH Hn).
  destruct (AcquireRequest.id x =? other); [done|]. destruct (remove queue other). simpl in *. rewrite Ei. by rewrite IH.
Qed.

(** The events that are neither the arrival nor the cancellation of the
    request do not raise its rank. *)
Definition about (id : Z) (event : origin_event) : Prop :=
  match event with
  | enqueue r => r.(AcquireRequest.id) = id
  | cancel x => x = id
  | _ => False
  end.

Lemma rank_frame id s s' : s'.(Origin.routine) = s.(Origin.routine) -> s'.(Origin.bulk) = s.(Origin.bulk) ->
  s'.(Origin.fairnessIndex) = s.(Origin.fairnessIndex) -> rank id s' = rank id s.
Proof. unfold rank. by intros -> -> ->. Qed.

Lemma index_of_app_none id queue item : item.(AcquireRequest.id) <> id -> index_of id queue = None ->
  index_of id (queue ++ [item]) = None.
Proof.
  intros Hne. induction queue as [|x queue IH]; simpl; [by rewrite (proj2 (Z.eqb_neq _ _))|].
  destruct (_ =? id); [done|]. intros Hn%fmap_None. by rewrite IH.
Qed.

Lemma handle_rank id config event s n : ~ about id event -> rank id s = Some n ->
  exists m, rank id (handle config event s) = Some m /\ m <= n.
Proof.
  assert (Hsame : forall s', s'.(Origin.routine) = s.(Origin.routine) -> s'.(Origin.bulk) = s.(Origin.bulk) ->
     s'.(Origin.fairnessIndex) = s.(Origin.fairnessIndex) -> rank id s = Some n ->
     exists m, rank id s' = Some m /\ m <= n).
  { intros s' H1 H2 H3 Hr. exists n. rewrite (rank_frame id s s' H1 H2 H3). split; [done|lia]. }
  destruct event as [r|x|x|until| |]; cbn [about handle]; intros Hne Hr.
  - unfold rank in *. destruct (AcquireRequest.class r); simpl.
    + destruct (index_of id (Origin.routine s)) as [p|] eqn:Ep; [rewrite (index_of_app _ _ _ _ Ep); exists n; split; [done|lia]|].
      rewrite index_of_app_none by done. exists n. split; [done|lia].
    + destruct (index_of id (Origin.routine s)) as [p|] eqn:Ep; [exists n; split; [done|lia]|].
      apply fmap_Some in Hr as (p&Hp&->). rewrite (index_of_app _ _ _ _ Hp). simpl. eexists. split; [done|lia].
  - pose proof (index_of_removed_none id x (Origin.routine s) Hne) as N1.
    pose proof (fun p => index_of_remove id x (Origin.routine s) p Hne) as N2.
    pose proof (fun p => index_of_remove id x (Origin.bulk s) p Hne) as N3.
    destruct (remove (Origin.routine s) x) as [l b1]. simpl in N1, N2. unfold rank in Hr.
    assert (Hrank : forall s', s'.(Origin.routine) = l ->
      (s'.(Origin.bulk) = s.(Origin.bulk) \/ s'.(Origin.bulk) = (remove (Origin.bulk s) x).1) ->
      s'.(Origin.fairnessIndex) = s.(Origin.fairnessIndex) -> exists m, rank id s' = Some m /\ m <= n).
    { intros s' E1 E2 E3. unfold rank. rewrite E1, E3.
      destruct (index_of id (Origin.routine s)) as [p|] eqn:Ep.
      - destruct (N2 p eq_refl) as (q&->&Hq). injection Hr as <-. eexists. split; [done|lia].
      - rewrite (N1 eq_refl). apply fmap_Some in Hr as (p&Hp&->). destruct E2 as [->| ->].
        + rewrite Hp. eexists. split; [done|lia].
        + destruct (N3 p Hp) as (q&->&Hq). eexists. split; [done|lia]. }
    destruct b1; [by apply Hrank; auto|]. cbn [Origin.bulk].
    change (Origin.bulk (s <| Origin.routine := l |>)) with (Origin.bulk s).
    destruct (remove (Origin.bulk s) x) as [m b2]. simpl in Hrank.
    destruct b2; [apply Hrank; auto|]. unfold free_slot. case_bool_decide; apply Hrank; auto.
  - unfold free_slot. case_bool_decide; by apply Hsame.
  - destruct (_ <? _); by apply Hsame.
  - destruct (_ =? _); [by apply Hsame|]. cbv zeta. destruct (_ <? _); by apply Hsame.
  - by apply Hsame.
Qed.

Definition fair (s : OriginState) : Prop := 0 <= s.(Origin.fairnessIndex) < 4.

Lemma index_of_head id x queue p : index_of id (x :: queue) = Some p ->
  x.(AcquireRequest.id) = id \/ exists q, p = S q /\ index_of id queue = Some q.
Proof. simpl. destruct (_ =? id) eqn:E; to_prop; [by left|]. intros (q&Hq&->)%fmap_Some. eauto. Qed.

Lemma index_of_tail_none id x queue : index_of id (x :: queue) = None -> index_of id queue = None.
Proof. simpl. destruct (_ =? id); [done|]. by intros ?%fmap_None. Qed.

(** Each grant of another request brings the request nearer. *)
Lemma pick_rank id s r s' n : fair s -> rank id s = Some n -> pick s = Some (r, s') ->
  r.(AcquireRequest.id) = id \/ exists m, rank id s' = Some m /\ m + 1 <= n.
Proof.
  unfold fair, pick, rank. intros Hf Hr.
  destruct (Origin.routine s) as [|a routine] eqn:Er, (Origin.bulk s) as [|b bulk] eqn:Eb.
  - done.
  - intros [= <- <-]. simpl in Hr |- *. rewrite Er. simpl.
    apply fmap_Some in Hr as (p&[Hp|(q&->&Hq)]%index_of_head&->); [by left|right]. rewrite Hq. eexists. split; [done|lia].
  - intros [= <- <-]. simpl. destruct (index_of id (a :: routine)) as [p|] eqn:Ep; [|by rewrite Eb in Hr || done].
    apply index_of_head in Ep as [?|(q&->&Hq)]; [by left|right]. rewrite Hq. injection Hr as <-. eexists. split; [done|lia].
  - pose proof (Z.mod_small (Origin.fairnessIndex s + 1) 4) as Hsmall.
    destruct (Origin.fairnessIndex s =? 3) eqn:E3; to_prop; intros [= <- <-]; simpl.
    + rewrite E3 in *. change ((3 + 1) mod 4) with 0. simpl. rewrite Er.
      destruct (index_of id (a :: routine)) as [p|]; [right; injection Hr as <-; eexists; split; [done|lia]|].
      apply fmap_Some in Hr as (p&[Hp|(q&->&Hq)]%index_of_head&->); [by left|right]. rewrite Hq. eexists. split; [done|lia].
    + rewrite Hsmall by lia. rewrite Eb. destruct (index_of id (a :: routine)) as [p|] eqn:Ep.
      * apply index_of_head in Ep as [?|(q&->&Hq)]; [by left|right]. rewrite Hq. injection Hr as <-.
        eexists. split; [done|]. destruct (_ =? 3); lia.
      * right. apply index_of_tail_none in Ep. rewrite Ep. apply fmap_Some in Hr as (p&->&->). simpl.
        eexists. split; [done|lia].
Qed.

Lemma handle_fair config event s : fair s -> fair (handle config event s).
Proof.
  assert (Hfree : forall id x, (free_slot id x).(Origin.fairnessIndex) = x.(Origin.fairnessIndex)).
  { intros id x. unfold free_slot. by case_bool_decide. }
  unfold fair. destruct event as [r|id|id|until| |]; cbn [handle].
  - by destruct (AcquireRequest.class r).
  - destruct (remove _ id) as [l [|]]; simpl; [done|]. destruct (remove _ id) as [m [|]]; simpl; [done|]. by rewrite Hfree.
  - by rewrite Hfree.
  - by destruct (_ <? _).
  - destruct (_ =? _); [done|]. cbv zeta. by destruct (_ <? _).
  - done.
Qed.

Lemma turn_rank id reloaded config now event s s' g n : fair s -> ~ about id event -> rank id s = Some n ->
  turn reloaded config now event s = (s', g) ->
  fair s' /\ match g with
             | Some r => r.(AcquireRequest.id) = id \/ exists m, rank id s' = Some m /\ m + 1 <= n
             | None => exists m, rank id s' = Some m /\ m <= n
             end.
Proof.
  intros Hf Hne Hr H. unfold turn in H. destruct (handle_rank id reloaded event s n Hne Hr) as (m&Hm&Hle).
  apply (handle_fair reloaded event) in Hf. set (h := handle reloaded event s) in *. destruct g as [r|].
  - apply dispatch_some in H as (_&_&(x&Hp&E1&E2&E3)&_).
    assert (Hft : fair (h <| Origin.timerC := None |>)) by done.
    assert (Hrt : rank id (h <| Origin.timerC := None |>) = Some m) by done.
    pose proof (pick_spec _ _ _ Hp) as (_&_&_&_&_&Hfx). split; [unfold fair in *; rewrite E3; by apply Hfx|].
    destruct (pick_rank id _ _ _ _ Hft Hrt Hp) as [?|(k&Hk&Hlek)]; [by left|right].
    exists k. rewrite (rank_frame id x s' E1 E2 E3). split; [done|lia].
  - apply dispatch_none in H as (Hs&_&_). rewrite Hs. split; [done|]. exists m. split; [done|lia].
Qed.

Lemma rank_nonneg id s n : fair s -> rank id s = Some n -> 0 <= n.
Proof.
  unfold fair, rank. intros Hf. destruct (index_of id _) as [p|].
  - intros [= <-]. destruct (_ =? 3); lia.
  - intros (p&_&->)%fmap_Some. lia.
Qed.

(** C38: no class of requests starves: a request that is queued and not
    cancelled is granted after at most [2 p + 1] other grants when it is
    routine with [p] routine requests before it, and after at most [4 p + 3]
    when it is bulk with [p] bulk requests before it, whatever else arrives,
    is cancelled or is released meanwhile. *)
Theorem governor_bounded_waiting turns s id n :
  fair s -> rank id s = Some n -> (forall t, t ∈ turns -> ~ about id t.(turn_event)) ->
  (exists g, g ∈ (run_origin turns s).2 /\ g.2.(AcquireRequest.id) = id) \/
  Z.of_nat (length (run_origin turns s).2) <= n /\ is_Some (rank id (run_origin turns s).1).
Proof.
  revert s n. induction turns as [|t turns IH]; intros s n Hf Hr Hne.
  - right. simpl. split; [by apply (rank_nonneg id s)|eauto].
  - cbn [run_origin]. destruct (turn _ _ _ _ s) as [s1 g] eqn:Ht.
    apply (turn_rank id _ _ _ _ _ _ _ n Hf (Hne t (list_elem_of_here _ _)) Hr) in Ht as [Hf1 Ht].
    assert (Hrest : forall m, rank id s1 = Some m ->
      (exists g, g ∈ (run_origin turns s1).2 /\ g.2.(AcquireRequest.id) = id) \/
      Z.of_nat (length (run_origin turns s1).2) <= m /\ is_Some (rank id (run_origin turns s1).1)).
    { intros m Hm. apply (IH s1 m Hf1 Hm). intros x Hx. apply Hne. by right. }
    destruct (run_origin turns s1) as [s' grants]. simpl in *. destruct g as [r|].
    + destruct Ht as [Ht|(m&Hm&Hle)]; [left; exists (turn_now t, r); split; [by left|done]|].
      destruct (Hrest m Hm) as [(g&Hg&Hid)|[Hlen Hs]]; [left; exists g; split; [by right|done]|right].
      simpl. split; [lia|done].
    + destruct Ht as (m&Hm&Hle). destruct (Hrest m Hm) as [?|[Hlen Hs]]; [by left|right]. split; [lia|done].
Qed.

(** ** A short history of one origin *)
Module GovernorSample.
Definition options : UpstreamGovernorOptions := GovernorOptions.mk 0 0 2 true.
Definition config : upstreamGovernorConfig := GovernorConfig.mk (600 * millisecond) (180 * second) 2.
Definition start : Z := 1700000000 * second.
Definition at_ (ms : Z) (event : origin_event) : governor_turn :=
  Build_governor_turn config config (start + ms * millisecond) event.
Definition ask (id : Z) (class : UpstreamRequestClass) : origin_event := enqueue (AcquireRequest.mk id class).
Definition turns : list governor_turn :=
  [at_ 0 (ask 1 UpstreamRequestRoutine); at_ 10 (ask 2 UpstreamRequestRoutine);
   at_ 20 (ask 3 UpstreamRequestBulk); at_ 600 timer; at_ 700 (release 1); at_ 1200 timer].
Definition queued_state : OriginState := (run_origin (take 3 turns) initial_origin).1.
Definition waiting_system : System :=
  set_caller 1 Waiting (origin_turn config config start (ask 1 UpstreamRequestBulk) (initial_system <| System.sequence := 1 |>)).
Definition held : System := set_caller 1 Holding waiting_system.
Definition released : System := set_caller 1 Finished (origin_turn config config (start + second) (release 1) held).

Lemma released_reachable : reachable_system (fun c => c = config) released.
Proof.
  apply (rtc_l _ _ waiting_system); [by apply (step_enqueue _ initial_system config config start UpstreamRequestBulk)|].
  apply (rtc_l _ _ held); [apply step_granted; vm_compute; reflexivity || done|].
  apply (rtc_l _ _ released); [|reflexivity]. by apply (step_release _ held config config (start + second) 1).
Qed.
End GovernorSample.

Lemma governor_slots_witness :
  reachable_system (fun c => c = GovernorSample.config) GovernorSample.released /\
  GovernorSample.released.(System.origin).(Origin.inFlight) = 0.
Proof.
  split; [exact GovernorSample.released_reachable|].
  destruct (governor_slots (fun c => c = GovernorSample.config) _ 2 ltac:(lia)
    ltac:(intros c ->; done) GovernorSample.released_reachable) as (_&_&_&_&_&Hall).
  apply Hall. intros id c Hc.
  change (System.callers GovernorSample.released)
    with (<[1 := Finished]> (<[1 := Holding]> (<[1 := Waiting]> (∅ : gmap Z caller)))) in Hc.
  destruct (decide (1 = id)) as [<-|Hne]; [rewrite lookup_insert_eq in Hc; by injection Hc|].
  rewrite !lookup_insert_ne, lookup_empty in Hc by exact Hne. discriminate Hc.
Defined.


Lemma governor_wakes_witness : exists deadline s2 r,
  GovernorSample.queued_state.(Origin.timerC) = Some deadline /\
  turn GovernorSample.config GovernorSample.config (GovernorSample.start + 600 * millisecond) timer
    GovernorSample.queued_state = (s2, Some r).
Proof.
  set (before := (run_origin (take 2 GovernorSample.turns) initial_origin).1).
  assert (Ht : turn GovernorSample.config GovernorSample.config (GovernorSample.start + 20 * millisecond)
    (GovernorSample.ask 3 UpstreamRequestBulk) before = (GovernorSample.queued_state, None)) by (vm_compute; reflexivity).
  assert (Hi : 0 <= GovernorConfig.interval GovernorSample.config <= max_int64) by (vm_compute; split; discriminate).
  assert (Hw : waiting GovernorSample.queued_state = true) by (vm_compute; reflexivity).
  destruct (proj1 (governor_wakes _ _ _ _ _ _ _ Hi Ht Hw)) as (deadline&Hd&_&_&Hgrant); [vm_compute; reflexivity|].
  assert (Hl : deadline <= GovernorSample.start + 600 * millisecond).
  { assert (Some deadline = Some (GovernorSample.start + 600 * millisecond)) as [= ->]; [|lia].
    rewrite <- Hd. vm_compute. reflexivity. }
  destruct (Hgrant ltac:(vm_compute; discriminate) _ GovernorSample.config Hl) as (s2&r&H).
  exists deadline, s2, r. split; [exact Hd|exact H].
Defined.

Lemma governor_bounded_waiting_witness :
  rank 3 GovernorSample.queued_state = Some 3 /\
  ((exists g, g ∈ (run_origin (drop 3 GovernorSample.turns) GovernorSample.queued_state).2 /\
      g.2.(AcquireRequest.id) = 3) \/
   Z.of_nat (length (run_origin (drop 3 GovernorSample.turns) GovernorSample.queued_state).2) <= 3).
Proof.
  assert (Hr : rank 3 GovernorSample.queued_state = Some 3) by (vm_compute; reflexivity).
  split; [exact Hr|].
  assert (Hf : fair GovernorSample.queued_state) by (vm_compute; split; [discriminate|reflexivity]).
  assert (Hne : forall t, t ∈ drop 3 GovernorSample.turns -> ~ about 3 t.(turn_event)).
  { apply Forall_forall. repeat constructor; vm_compute; tauto. }
  destruct (governor_bounded_waiting _ _ 3 3 Hf Hr Hne) as [H|[H _]]; [left; exact H|right; exact H].
Defined.
